(* ===== verification/_CoqProject ===== *)
-Q . S2P
Prelude.v
Const.v
Packet.v
Utf16.v
Stats.v
Paths.v
Request.v
Dtyp.v
Vfs.v
Filepath.v
Os.v
Memfs.v
Xattrstore.v
Oplock.v
Opens.v
Fscc.v
Acl.v
FileInfo.v
Response.v
Contexts.v
Cipher.v
Digest.v
Bulk.v
BulkBackend.v
BulkApply.v
Passthrough.v
PassthroughFacts.v
Cmac.v
Ccm.v
Session.v
Compound.v
Credit.v
Transport.v
SpnegoToken.v
Spnego.v
Ntlm.v
NtlmAuth.v
Conn.v
Lifecycle.v
Shares.v
Handlers.v
TreeState.v
Dcerpc.v
IpcTree.v
FileTree.v
FileTreeDir.v
ShareDir.v
FileTreeInfo.v
FileServer.v
Login.v
