(* ===== verification/Prelude.v ===== *)
(** * Verification of the go-smb2 server

    go-smb2 is an SMB 2/3 file server in Go.  A connection reads packets from
    a TCP stream, decrypts and verifies them, cuts compounded packets into
    requests, and hands these one by one to the handlers; the handlers decode
    a request, change the state of the connection or of the server, and send
    a response, which is encoded, signed or encrypted, compounded and written.
    Requests on files go to the file tree of a share, which works on a
    virtual file system; requests on pipes go to the IPC tree, which answers
    remote procedure calls about the shares.
    Logins are NTLM inside SPNEGO.  The file system that the program serves
    is a directory of the operating system (fs_impl.go), where a client can
    also commit many changes at once as a journal (bulk/).
    This library models all of that as functions and step relations on
    explicit state and proves what it does.  File names below are those of
    the repository under src/.

    ** How Go is modelled

    - A value, an [error] or a run-time panic: [outcome] (this file).  Panics
      are modelled everywhere: slicing out of range, nil dereference,
      assignment to a nil map.
    - Integers are [Z] with the wrap-around of their width written out ([u8],
      [u16], [u32], [u64]; [s64] in Dtyp).  Bytes are integers below 256.
    - Slices are an array and a length ([slice]), so that slicing up to the
      capacity behaves as in Go.  [Encode(p []byte)] methods are state
      transformers on the buffer ([enc]).
    - Strings are lists of code points ([gostring], Utf16).
    - Go interfaces are records of operations with classes of laws: block
      ciphers, hashes and AEADs (Cipher), authenticators (Spnego), the BER
      reader (SpnegoToken.Ber), the crypto library (Handlers.GoLib), MD4
      (Ntlm.NtlmLib), JSON (Bulk.Json), the operating system (Os.OS).  What
      is not in the repository enters only through them, but MD5, HMAC-MD5,
      RC4, CRC-32 and SHA-256, which are short, are written out (Digest), and
      so is the DER of the tokens (SpnegoToken.asn1).
    - System calls are a class of operations on a state of the system, with
      the facts the code relies on ([FileStore]); Memfs is a small file
      system in memory that has them, on which the examples are evaluated.
    - Pointers that are shared (sessions, trees, authenticators) are
      references into a heap kept in the state.
    - The file system of a share is a record of the methods of
      vfs.VFSFileSystem over a state of its own (Vfs); nothing is assumed of
      it but what a theorem says ([FileTreeDir.DirStream] for listings, which
      Passthrough's file system has).
    - Handlers of the trees run in a state and error monad (TreeState) over
      the world (Handlers.world) and the compound context; a goroutine that
      READ, WRITE or CHANGE_NOTIFY starts is a task in the world, and a
      scheduler runs the tasks in any order.  The goroutines of a connection
      and of the server, with their channels and locks, are step relations
      (Lifecycle).
    - Random numbers and the clock are arguments.  That a random number is not
      in use is assumed nowhere but in the last part of
      [FileServer.server_tables_ok]; what a collision of tree ids does is
      [Handlers.tree_id_reused].  That crypto/rand fills its buffer is a
      hypothesis of NtlmAuth and Login.

    ** The files

    - Prelude: outcomes, machine integers, byte strings, slices, encoders,
      the tactics [ints], [len], [put_step], [get_step], [reads],
      [append_step] and the rewriting base [blen].
    - Const: constants (internal/smb2/const.go, oplock.go, erref).
    - Packet: the SMB2 header and the transform header, with all accessors
      and setters, file ids, response headers (packet.go, smb2.go, util.go).
    - Utf16: internal/utf16le.
    - Request, Response, Oplock: the messages (request.go, response.go,
      oplock.go), one module per struct and one per decoder.
    - Paths: server/path.go, names of streams and wildcards (util.go).
    - Vfs: attributes, permissions and the file system interface (vfs/), and
      what messages show of them (util.go).
    - Fscc, FileInfo, Acl: information classes of the client and of the
      server, security descriptors (fscc.go, server/info_fs.go, acl.go).
    - Dtyp: FILETIME and SID (dtyp.go).  Contexts: the negotiate contexts
      (smb2.go).
    - Cipher, Cmac, Ccm: the crypto interfaces, internal/crypto/cmac and
      internal/crypto/ccm, with the definitions of SP 800-38B and 38C.
    - Session: signing and encryption (server/session.go, kdf.go).
    - Compound: compounded responses and requests (server/compound.go, the
      inner loop of runReciever in conn.go).  Credit: server/credit.go.
      Transport: server/transport.go.
    - SpnegoToken: the tokens (internal/spnego); Spnego: the choice of an
      authentication mechanism (server/spnego.go).
    - Digest: the hashes and RC4.  Ntlm: messages, keys, signatures, server
      and client (internal/ntlm); NtlmAuth: server/authenticator.go and what
      holds of a handshake.
    - Conn: receiving and sending (server/conn.go).
    - Lifecycle: runReciever, Run and runSender on their channels
      ([goroutines]; conn.go), ServeListener and Shutdown ([serving];
      server/server.go).  Shares: the table of shares (server/server.go).
    - Opens: the tables of open files, pending deletes and oplocks
      (server/server.go, oplockBreak and the oplock part of create in
      file_tree.go).
    - Handlers: NEGOTIATE, SESSION_SETUP, LOGOFF, TREE_CONNECT,
      TREE_DISCONNECT, ECHO and the dispatch of Run (server/server.go), over
      the operations of the trees as a parameter.
    - TreeState: the monad of the tree operations and its rules ([keeps],
      [yields], the tactic [walk]).
    - FileTree: CREATE, CLOSE, FLUSH, LOCK, CANCEL, READ and WRITE with their
      goroutines; FileTreeDir: QUERY_DIRECTORY; FileTreeInfo: IOCTL,
      CHANGE_NOTIFY, QUERY_INFO, SET_INFO and oplock acknowledgements
      (server/file_tree.go).
    - Dcerpc: RPC messages of the server and the client (dcerpc.go, msrpc);
      IpcTree: server/ipc_tree.go.
    - FileServer: the trees put in the place of the parameter of Handlers
      ([tree_op]), and the server as a transition system ([server_step]).
      Login: NTLM put in the place of the authenticators.
    - Stats: stats/srv.go.  Filepath, Os, Memfs: path/filepath, the operating
      system as an interface, a file system in memory.
    - Xattrstore: internal/xattrstore.  Bulk: the format of a journal
      (bulk/protocol.go); BulkBackend: committing one (bulk/backend.go);
      BulkApply: what a commit does.
    - Passthrough: fs_impl.go, fs_impl_unix.go, vfs/fileinfo.go; its
      [fs_of] is the file system as the server sees it.  PassthroughFacts:
      its open files and attributes.  ShareDir: a directory of it listed
      through the server, and names that leave it.

    ** What is shown

    - Wire formats: encoders and decoders are inverse (packet header, CREATE,
      WRITE, SESSION_SETUP, READ, lease breaks, negotiate contexts, strings,
      times, the list of shares, the mode in a security descriptor), the
      header check and the SESSION_SETUP check are sound, framing
      keeps packet boundaries, a compounded answer is cut back into its
      messages and cutting always ends.
    - Cryptography: the streaming CMAC is the CMAC of SP 800-38B however it
      is fed; CCM seals as SP 800-38C says and opens exactly what it seals;
      verification accepts exactly the packets that carry their code, signed
      packets verify, encrypted packets decrypt.
    - Connection: responses on a keyed session are signed and verify at the
      client; signed and encrypted requests reach the handlers unchanged.
    - Handlers: no session without an accepted authentication token; the tree
      tables stay consistent in every run; connecting and disconnecting are
      inverse; which dialect is chosen.
    - Logins: a client that knows the password gets a session with the same
      keys on both ends; in every state that the server reaches, a packet
      that makes a session carries the proof of a password; the two ends
      verify each other's signatures, which are those of MS-NLMP written as a
      specification of its own ([Ntlm.signature_of]); tokens are the DER that
      the decoder asks for.
    - Goroutines: requests are handled in the order of receipt, each once;
      every packet is written and every sender answered; Shutdown reaches
      every registered connection and ends the accept loop; the two tables
      of shares stay in agreement while names are ASCII (strings.ToUpper and
      strings.EqualFold are parameters, and agree only there).
    - The directory that is served: open files are independent of each other;
      a listing through the server gives every entry once; attributes have
      what the accessors need; attribute names survive the store; the
      counters add up.
    - Journals: a package is read as it was written, its paths stay below the
      root, a run of writes leaves what the journal's order leaves, and a
      commit that was stopped goes on where it stopped.
    - The server as a whole: every operation of the trees is a sequence of
      abstract steps on the tables of opens, so that these stay consistent
      under any interleaving of requests, goroutines and oplock breaks, and
      no operation on a tree makes a session.
    - File trees: CREATE is dropped, refused, or enters one open with what
      was asked for;
      CLOSE unlinks a file with its last open; a delete needs DELETE access;
      listing a directory gives every entry once and ends, in each of the
      eight classes, if the buffer holds the largest entry; pages and READ
      answers fit what the client announced; the goroutines finish; the
      attributes shown are those of a file of its type.
    - Open files: a file marked for deletion is unlinked exactly at its last
      close, no client is asked twice to give up an oplock.
    - Where the code does not do what it means to, a theorem says what it
      does: verification errors are not acted upon, several packets stop the
      server, error data and SID authorities are lost, padded responses do
      not verify, a repeated message id stops a connection, logins disturb
      each other, sealed messages cannot be opened, names with dots leave
      the share, two names of one file change the order of writes.

    ** Bounds and fuel

    The loop over a received chain ([cut_chain], [receive_chain]) has the
    length of the buffer as its fuel: a message moves forward by at least 8
    bytes, and [cut_all_terminates] proves it enough.  The loops over create
    contexts ([create_contexts], [posix_perms]) advance at every turn and
    have a turn for each byte.  One QUERY_DIRECTORY reads batches until it
    has an entry or the directory ends ([read_batches]); its fuel bounds the
    batches, the theorems on safety hold for every fuel, and
    [listing_complete] shows that one more than there are entries is enough.
    The loop over a journal ([apply_loop]) has the number of operations as
    its fuel, each turn taking one at least.
    All other loops are structural.  Numeric hypotheses of the theorems are the
    widths of the fields on the wire.

    ** What is not modelled

    The handlers run one after the other with the steps of the goroutines
    between them, which is what Run does with one connection; handlers of
    several connections at the same time, which share the tables of opens
    under a lock but not the authenticator and the negotiator, are not.  The
    limits on concurrent reads and writes, and the five seconds before a
    CHANGE_NOTIFY ends, only delay goroutines.  The compound context that the
    goroutine of a CHANGE_NOTIFY may hold is any context.  Logging,
    the texts of errors (server/errors.go and the generated table of
    internal/erref), regular expressions (a parameter), opening sockets, the
    HTTP page of the statistics, configuration, discovery and main, which are
    calls of packages outside the repository, and the files for Windows and
    macOS are not modelled.  Errors of the file system are what the code asks
    of them ([vfs_error]).  One handler of the server is one step of
    [server_step]; a panic ends the model, as it ends the server. *)

From stdpp Require Export base list list_numbers gmap strings.
From Stdlib Require Export ZArith Lia.

#[export] Set Default Goal Selector "!".
Global Open Scope Z_scope.

(** ** Outcomes of Go code

    A Go function can return a value, return an [error], or stop the
    program with a run-time panic (index or slice bounds out of range,
    nil dereference, assignment to an entry of a nil map). *)

Inductive goerr : Type :=
| TransportError (msg : string)
| InternalError (msg : string)
| InvalidResponseError (msg : string)
| InvalidRequestError (msg : string)
| ResponseError (code : Z) (data : list (list Z))
| ContextError
| ErrExist
| ErrNotExist
| ErrPermission
| ErrOther (msg : string).

Inductive outcome (A : Type) : Type :=
| Ok (a : A)
| Err (e : goerr)
| Panic.
Arguments Ok {_} _.
Arguments Err {_} _.
Arguments Panic {_}.

Definition obind {A B} (m : outcome A) (k : A -> outcome B) : outcome B :=
  match m with
  | Ok a => k a
  | Err e => Err e
  | Panic => Panic
  end.

Declare Scope go_scope.
Delimit Scope go_scope with go.
Global Open Scope go_scope.
Notation "'let!' x := m 'in' k" := (obind m (fun x => k))
  (at level 10, x pattern, m at level 100, k at level 200) : go_scope.
Notation "m ;;! k" := (obind m (fun _ => k))
  (at level 199, right associativity) : go_scope.

Definition is_ok {A} (m : outcome A) : bool :=
  match m with Ok _ => true | _ => false end.

Definition no_panic {A} (m : outcome A) : bool :=
  match m with Panic => false | _ => true end.

(** ** Machine integers

    Go's fixed-width unsigned types are [Z] reduced to the width at every
    operation that can leave the range. *)

Definition u8 (x : Z) : Z := x mod 256.
Definition u16 (x : Z) : Z := x mod 65536.
Definition u32 (x : Z) : Z := x mod 4294967296.
Definition u64 (x : Z) : Z := x mod 18446744073709551616.

Definition in8 (x : Z) : Prop := 0 <= x < 256.
Definition in16 (x : Z) : Prop := 0 <= x < 65536.
Definition in32 (x : Z) : Prop := 0 <= x < 4294967296.
Definition in64 (x : Z) : Prop := 0 <= x < 18446744073709551616.

(** [x & m != 0] on unsigned integers. *)
Definition has (x m : Z) : bool := negb (Z.land x m =? 0).

Ltac ints := unfold u8, u16, u32, u64, in8, in16, in32, in64 in *.

Lemma u8_id x : in8 x -> u8 x = x.
Proof. ints. intros. apply Z.mod_small. lia. Qed.
Lemma u16_id x : in16 x -> u16 x = x.
Proof. ints. intros. apply Z.mod_small. lia. Qed.
Lemma u32_id x : in32 x -> u32 x = x.
Proof. ints. intros. apply Z.mod_small. lia. Qed.
Lemma u64_id x : in64 x -> u64 x = x.
Proof. ints. intros. apply Z.mod_small. lia. Qed.

Lemma in32_lor a b : in32 a -> in32 b -> in32 (Z.lor a b).
Proof.
  ints. intros Ha Hb. assert (0 <= Z.lor a b) by (apply Z.lor_nonneg; lia). split; [done|].
  destruct (decide (Z.lor a b = 0)) as [->|]; [lia|].
  change (Z.lor a b < 2 ^ 32). apply Z.log2_lt_pow2; [lia|]. rewrite Z.log2_lor by lia.
  apply Z.max_lub_lt.
  - destruct (decide (a = 0)) as [->|]; [done|]. apply Z.log2_lt_pow2; lia.
  - destruct (decide (b = 0)) as [->|]; [done|]. apply Z.log2_lt_pow2; lia.
Qed.
Lemma u8_range x : in8 (u8 x).
Proof. ints. apply Z.mod_pos_bound. lia. Qed.
Lemma u16_range x : in16 (u16 x).
Proof. ints. apply Z.mod_pos_bound. lia. Qed.
Lemma u32_range x : in32 (u32 x).
Proof. ints. apply Z.mod_pos_bound. lia. Qed.
Lemma u64_range x : in64 (u64 x).
Proof. ints. apply Z.mod_pos_bound. lia. Qed.

(** ** Byte strings *)

Abbreviation bytes := (list Z).

Definition bytes_ok (bs : bytes) : Prop := Forall in8 bs.

Definition blen (bs : bytes) : Z := Z.of_nat (length bs).

Definition zeros (n : Z) : bytes := replicate (Z.to_nat n) 0.

(** The [n] bytes of [p] from offset [a] (fewer when [p] is shorter). *)
Definition sub (a n : Z) (p : bytes) : bytes :=
  take (Z.to_nat n) (drop (Z.to_nat a) p).

Definition from (a : Z) (p : bytes) : bytes := drop (Z.to_nat a) p.
Definition upto (a : Z) (p : bytes) : bytes := take (Z.to_nat a) p.

(** [p] with the bytes from offset [a] on overwritten by [bs]; what would
    fall past the end of [p] is dropped, so the length never changes. *)
Definition splice (a : Z) (bs p : bytes) : bytes :=
  take (Z.to_nat a) p
    ++ take (length p - Z.to_nat a) bs
    ++ drop (Z.to_nat a + length bs) p.

Lemma blen_nonneg p : 0 <= blen p.
Proof. unfold blen. lia. Qed.

Lemma blen_nil : blen [] = 0.
Proof. done. Qed.

Lemma blen_app p q : blen (p ++ q) = blen p + blen q.
Proof. unfold blen. rewrite length_app. lia. Qed.

Lemma blen_cons b p : blen (b :: p) = 1 + blen p.
Proof. unfold blen. simpl length. lia. Qed.

Lemma blen_zeros n : 0 <= n -> blen (zeros n) = n.
Proof. intros. unfold blen, zeros. rewrite length_replicate. lia. Qed.

Lemma blen_sub a n p :
  0 <= a -> 0 <= n -> a + n <= blen p -> blen (sub a n p) = n.
Proof. unfold blen, sub. intros. rewrite length_take, length_drop. lia. Qed.

Lemma blen_from a p : 0 <= a <= blen p -> blen (from a p) = blen p - a.
Proof. unfold blen, from. intros. rewrite length_drop. lia. Qed.

Lemma blen_upto a p : 0 <= a <= blen p -> blen (upto a p) = a.
Proof. unfold blen, upto. intros. rewrite length_take. lia. Qed.

Lemma blen_splice a bs p : blen (splice a bs p) = blen p.
Proof. unfold blen, splice. rewrite !length_app, !length_take, length_drop. lia. Qed.

Lemma lookup_sub a n p i :
  0 <= a -> (i < Z.to_nat n)%nat -> sub a n p !! i = p !! (Z.to_nat a + i)%nat.
Proof. intros. unfold sub. rewrite lookup_take_lt by lia. by rewrite lookup_drop. Qed.

Lemma splice_past a bs p : blen p <= a -> splice a bs p = p.
Proof.
  unfold blen, splice. intros. rewrite take_ge by lia.
  replace (length p - Z.to_nat a)%nat with 0%nat by lia.
  rewrite take_0, drop_ge by lia. apply app_nil_r.
Qed.

Lemma lookup_splice_out a bs p i :
  (i < Z.to_nat a \/ Z.to_nat a + length bs <= i)%nat -> splice a bs p !! i = p !! i.
Proof.
  intros Hi. destruct (decide (blen p <= a)); [by rewrite splice_past|].
  unfold blen, splice in *.
  destruct (decide (i < Z.to_nat a)%nat).
  { rewrite lookup_app_l by (rewrite length_take; lia). apply lookup_take_lt. lia. }
  destruct (decide (i < length p)%nat).
  - rewrite lookup_app_r by (rewrite length_take; lia).
    rewrite lookup_app_r by (rewrite !length_take; lia).
    rewrite lookup_drop, !length_take. f_equal. lia.
  - rewrite !lookup_ge_None_2; [done | lia |].
    rewrite !length_app, !length_take, length_drop. lia.
Qed.

Lemma lookup_splice_in a bs p i :
  0 <= a -> a + blen bs <= blen p ->
  (Z.to_nat a <= i < Z.to_nat a + length bs)%nat ->
  splice a bs p !! i = bs !! (i - Z.to_nat a)%nat.
Proof.
  unfold blen, splice. intros Ha Hb Hi.
  rewrite lookup_app_r by (rewrite length_take; lia).
  rewrite length_take, lookup_app_l by (rewrite length_take; lia).
  rewrite lookup_take_lt by lia. f_equal. lia.
Qed.

Lemma sub_splice_out a bs p b n :
  0 <= a -> 0 <= b -> 0 <= n -> (b + n <= a \/ a + blen bs <= b) ->
  sub b n (splice a bs p) = sub b n p.
Proof.
  intros Ha Hb Hn Hd. apply list_eq. intros i.
  destruct (decide (i < Z.to_nat n)%nat).
  - rewrite !lookup_sub by lia. apply lookup_splice_out.
    unfold blen in *. lia.
  - unfold sub. rewrite !lookup_take_ge; [done| lia | lia].
Qed.

Lemma sub_splice_in a bs p b n :
  0 <= a -> a + blen bs <= blen p -> a <= b -> 0 <= n -> b + n <= a + blen bs ->
  sub b n (splice a bs p) = sub (b - a) n bs.
Proof.
  intros Ha Hb Hab Hn Hd. apply list_eq. intros i.
  destruct (decide (i < Z.to_nat n)%nat).
  - rewrite !lookup_sub by lia. rewrite lookup_splice_in; [|done|done|unfold blen in *; lia].
    f_equal. unfold blen in *. lia.
  - unfold sub. rewrite !lookup_take_ge; [done| lia | lia].
Qed.

Lemma sub_all p n : n = blen p -> sub 0 n p = p.
Proof.
  intros ->. unfold sub, blen. rewrite drop_0. apply take_ge. lia.
Qed.

Lemma sub_splice_same a bs p n :
  n = blen bs -> 0 <= a -> a + blen bs <= blen p -> sub a n (splice a bs p) = bs.
Proof.
  intros -> Ha Hb. pose proof (blen_nonneg bs).
  rewrite sub_splice_in by lia. rewrite Z.sub_diag. by apply sub_all.
Qed.

Lemma sub_app_l a n p q : 0 <= a -> 0 <= n -> a + n <= blen p -> sub a n (p ++ q) = sub a n p.
Proof.
  unfold sub, blen. intros. rewrite drop_app_le by lia.
  rewrite take_app_le; [done|]. rewrite length_drop. lia.
Qed.

Lemma sub_app_r a n p q : blen p <= a -> sub a n (p ++ q) = sub (a - blen p) n q.
Proof.
  unfold sub, blen. intros. rewrite drop_app_ge by lia. do 2 f_equal. lia.
Qed.

Lemma from_app_exact p q a : a = blen p -> from a (p ++ q) = q.
Proof. intros ->. unfold from, blen. rewrite Nat2Z.id. apply drop_app_length. Qed.

Lemma upto_app_exact p q a : a = blen p -> upto a (p ++ q) = p.
Proof. intros ->. unfold upto, blen. rewrite Nat2Z.id. apply take_app_length. Qed.

Lemma upto_from a p : upto a p ++ from a p = p.
Proof. apply take_drop. Qed.

Lemma from_0 p : from 0 p = p.
Proof. done. Qed.

Lemma upto_all a p : blen p <= a -> upto a p = p.
Proof. unfold upto, blen. intros. apply take_ge. lia. Qed.

Lemma from_from a b p : 0 <= a -> 0 <= b -> from a (from b p) = from (a + b) p.
Proof. intros. unfold from. rewrite drop_drop. f_equal. lia. Qed.

Lemma sub_from a n b p : 0 <= a -> 0 <= b -> sub a n (from b p) = sub (a + b) n p.
Proof. intros. unfold sub, from. rewrite drop_drop. do 2 f_equal. lia. Qed.

Lemma sub_upto a n b p : 0 <= a -> 0 <= n -> a + n <= b -> sub a n (upto b p) = sub a n p.
Proof.
  intros. unfold sub, upto. rewrite skipn_firstn_comm, take_take. f_equal. lia.
Qed.

Lemma sub_sub a n b m p :
  0 <= a -> 0 <= n -> 0 <= b -> a + n <= m -> sub a n (sub b m p) = sub (b + a) n p.
Proof.
  intros. change (sub b m p) with (upto m (from b p)).
  rewrite sub_upto by lia. rewrite sub_from by lia. f_equal. lia.
Qed.

Lemma from_splice_ge a bs p b :
  0 <= a -> a + blen bs <= b -> from b (splice a bs p) = from b p.
Proof.
  intros Ha Hb. pose proof (blen_nonneg bs). apply list_eq. intros i. unfold from.
  rewrite !lookup_drop. apply lookup_splice_out. unfold blen in *. lia.
Qed.

Lemma splice_app_l a bs p q :
  0 <= a -> a + blen bs <= blen p -> splice a bs (p ++ q) = splice a bs p ++ q.
Proof.
  unfold splice, blen. intros.
  rewrite take_app_le, drop_app_le by lia.
  rewrite !(take_ge bs); [| lia | rewrite length_app; lia].
  by rewrite <- !app_assoc.
Qed.

Lemma splice_full p bs : blen bs = blen p -> splice 0 bs p = bs.
Proof.
  unfold splice, blen. intros. rewrite take_0, take_ge by lia.
  rewrite drop_ge by lia. simpl. apply app_nil_r.
Qed.

Lemma bytes_ok_sub a n p : bytes_ok p -> bytes_ok (sub a n p).
Proof. intros. apply Forall_take, Forall_drop. done. Qed.

Lemma bytes_ok_app p q : bytes_ok p -> bytes_ok q -> bytes_ok (p ++ q).
Proof. intros. by apply Forall_app. Qed.

Lemma bytes_ok_zeros n : bytes_ok (zeros n).
Proof. apply Forall_replicate. ints. lia. Qed.

Lemma bytes_ok_splice a bs p : bytes_ok bs -> bytes_ok p -> bytes_ok (splice a bs p).
Proof.
  intros. apply bytes_ok_app; [by apply Forall_take|].
  apply bytes_ok_app; [by apply Forall_take | by apply Forall_drop].
Qed.

(** ** Fixed-width integers in memory (encoding/binary) *)

Fixpoint le_enc (n : nat) (v : Z) : bytes :=
  match n with
  | O => []
  | S n => v mod 256 :: le_enc n (v / 256)
  end.

Fixpoint le_dec (bs : bytes) : Z :=
  match bs with
  | [] => 0
  | b :: t => b + 256 * le_dec t
  end.

Definition be_enc (n : nat) (v : Z) : bytes := rev (le_enc n v).
Definition be_dec (bs : bytes) : Z := le_dec (rev bs).

Lemma length_le_enc n v : length (le_enc n v) = n.
Proof. revert v. induction n as [|n IH]; simpl; [done|]. intros. by rewrite IH. Qed.

Lemma blen_le_enc n v : blen (le_enc n v) = Z.of_nat n.
Proof. unfold blen. by rewrite length_le_enc. Qed.

Lemma bytes_ok_le_enc n v : bytes_ok (le_enc n v).
Proof.
  revert v. induction n as [|n IH]; simpl; intros; constructor; [|apply IH].
  ints. apply Z.mod_pos_bound. lia.
Qed.

Lemma le_dec_enc n v : le_dec (le_enc n v) = v mod 256 ^ Z.of_nat n.
Proof.
  revert v. induction n as [|n IH]; intros v.
  - simpl. by rewrite Z.mod_1_r.
  - cbn [le_enc le_dec]. rewrite IH, Nat2Z.inj_succ, Z.pow_succ_r by lia.
    rewrite Z.rem_mul_r by lia. done.
Qed.

Lemma le_dec_bound bs : bytes_ok bs -> 0 <= le_dec bs < 256 ^ blen bs.
Proof.
  induction 1 as [|b t Hb Ht IH]; [done|].
  rewrite blen_cons, Z.add_1_l, Z.pow_succ_r by apply blen_nonneg.
  cbn [le_dec]. unfold in8 in Hb. lia.
Qed.

Lemma le_enc_dec bs : bytes_ok bs -> le_enc (length bs) (le_dec bs) = bs.
Proof.
  induction 1 as [|b t Hb Ht IH]; [done|]. cbn [length le_enc le_dec].
  unfold in8 in Hb.
  rewrite (Z.mul_comm 256), Z_mod_plus_full, Z.mod_small by lia.
  rewrite Z.div_add, (Z.div_small b) by lia. by rewrite Z.add_0_l, IH.
Qed.

Lemma le_dec_enc2 v : le_dec (le_enc 2 v) = u16 v.
Proof. by rewrite le_dec_enc. Qed.
Lemma le_dec_enc4 v : le_dec (le_enc 4 v) = u32 v.
Proof. by rewrite le_dec_enc. Qed.
Lemma le_dec_enc8 v : le_dec (le_enc 8 v) = u64 v.
Proof. by rewrite le_dec_enc. Qed.

Lemma be_dec_enc n v : be_dec (be_enc n v) = v mod 256 ^ Z.of_nat n.
Proof. unfold be_dec, be_enc. rewrite rev_involutive. apply le_dec_enc. Qed.

Lemma blen_be_enc n v : blen (be_enc n v) = Z.of_nat n.
Proof. unfold be_enc, blen. rewrite length_rev, length_le_enc. done. Qed.

Lemma bytes_ok_be_enc n v : bytes_ok (be_enc n v).
Proof. unfold bytes_ok, be_enc. apply Forall_rev, bytes_ok_le_enc. Qed.

Lemma sub_zeros a n m : 0 <= a -> 0 <= n -> a + n <= m -> sub a n (zeros m) = zeros n.
Proof.
  intros. unfold sub, zeros. apply list_eq. intros i.
  destruct (decide (i < Z.to_nat n)%nat).
  - rewrite lookup_take_lt, lookup_drop by lia.
    rewrite !lookup_replicate_2 by lia. done.
  - rewrite lookup_take_ge by lia. symmetry. apply lookup_ge_None_2.
    rewrite length_replicate. lia.
Qed.

Lemma le_dec_zeros n : le_dec (zeros n) = 0.
Proof. unfold zeros. induction (Z.to_nat n) as [|k IH]; simpl; [done|]. rewrite IH. done. Qed.

Lemma has_land_true x m : has x m = false -> Z.land x m = 0.
Proof. unfold has. rewrite negb_false_iff. apply Z.eqb_eq. Qed.

Lemma le_dec_app p q : le_dec (p ++ q) = le_dec p + 256 ^ blen p * le_dec q.
Proof.
  induction p as [|b p IH]; cbn [app le_dec]; [rewrite blen_nil; lia|].
  rewrite IH, blen_cons, Z.pow_add_r by (try apply blen_nonneg; lia). lia.
Qed.

Lemma sub_split a n m p : 0 <= a -> 0 <= n -> 0 <= m -> sub a (n + m) p = sub a n p ++ sub (a + n) m p.
Proof.
  intros. unfold sub. rewrite !Z2Nat.inj_add by lia.
  rewrite <- drop_drop. set (q := drop (Z.to_nat a) p).
  rewrite <- (take_drop (Z.to_nat n) q) at 1.
  destruct (decide (Z.to_nat n <= length q)%nat).
  - rewrite take_app_ge by (rewrite length_take; lia).
    rewrite length_take, Nat.min_l by lia. do 2 f_equal. lia.
  - rewrite (drop_ge q), app_nil_r by lia. rewrite !take_take.
    rewrite take_nil, app_nil_r, !take_ge by lia. done.
Qed.

Lemma le_enc_app n m v : le_enc (n + m) v = le_enc n v ++ le_enc m (v / 256 ^ Z.of_nat n).
Proof.
  revert v. induction n as [|n IH]; intros v.
  - simpl. by rewrite Z.div_1_r.
  - cbn [le_enc Nat.add app]. f_equal. rewrite IH. do 2 f_equal.
    rewrite Z.div_div by lia. f_equal. rewrite Nat2Z.inj_succ, Z.pow_succ_r; lia.
Qed.

Lemma splice_nil a p : splice a [] p = p.
Proof. unfold splice. rewrite take_nil, Nat.add_0_r. apply take_drop. Qed.

(** Overwriting the middle of three parts. *)
Lemma splice_mid k a b m r :
  k = blen a -> blen b = blen m -> splice k b (a ++ m ++ r) = a ++ b ++ r.
Proof.
  unfold blen, splice. intros -> Hb. rewrite Nat2Z.id, take_app_length. f_equal. f_equal.
  - apply take_ge. rewrite !length_app. lia.
  - replace (length b) with (length m) by lia. rewrite app_assoc, <- length_app.
    apply drop_app_length.
Qed.

(** The second store into a window wins. *)
Lemma splice_twice a x y p :
  0 <= a -> blen x = blen y -> a + blen x <= blen p ->
  splice a x (splice a y p) = splice a x p.
Proof.
  intros Ha He Hp. apply list_eq. intros i. unfold blen in *.
  destruct (decide (i < Z.to_nat a \/ Z.to_nat a + length x <= i)%nat) as [Ho|Hi].
  - rewrite !lookup_splice_out by lia. done.
  - rewrite !lookup_splice_in; [done|lia| |lia|lia| |lia]; rewrite ?blen_splice; unfold blen; lia.
Qed.

(** Storing what is already there changes nothing. *)
Lemma splice_sub a n p : 0 <= a -> 0 <= n -> a + n <= blen p -> splice a (sub a n p) p = p.
Proof.
  intros Ha Hn Hp. pose proof (blen_sub a n p Ha Hn Hp) as Hl. apply list_eq. intros i.
  destruct (decide (i < Z.to_nat a \/ Z.to_nat a + length (sub a n p) <= i)%nat) as [Ho|Hi].
  - by apply lookup_splice_out.
  - unfold blen in Hl. rewrite lookup_splice_in by (unfold blen in *; lia).
    rewrite lookup_sub by lia. f_equal. lia.
Qed.

Lemma zeros_app a b : 0 <= a -> 0 <= b -> zeros (a + b) = zeros a ++ zeros b.
Proof. intros. unfold zeros. rewrite Z2Nat.inj_add by lia. apply replicate_add. Qed.

(** ** Slices

    A Go slice is a view of an array: [s_arr] holds the array's bytes from
    the start of the slice to the end of its capacity, [s_len] is the
    length.  [s[a:b]] may extend a slice up to its capacity; [s[a:]] and
    [s[i]] are checked against the length. *)

Record slice := mkSlice { s_arr : bytes; s_len : Z }.

Definition s_cap (s : slice) : Z := blen (s_arr s).
Definition slice_wf (s : slice) : Prop := 0 <= s_len s <= s_cap s.
Definition of_bytes (bs : bytes) : slice := mkSlice bs (blen bs).
Definition s_bytes (s : slice) : bytes := upto (s_len s) (s_arr s).
Definition nil_slice : slice := of_bytes [].

Definition s_range (s : slice) (a b : Z) : outcome slice :=
  if (0 <=? a) && (a <=? b) && (b <=? s_cap s)
  then Ok (mkSlice (from a (s_arr s)) (b - a)) else Panic.

Definition s_from (s : slice) (a : Z) : outcome slice :=
  if (0 <=? a) && (a <=? s_len s)
  then Ok (mkSlice (from a (s_arr s)) (s_len s - a)) else Panic.

Definition s_idx (s : slice) (i : Z) : outcome Z :=
  if (0 <=? i) && (i <? s_len s)
  then Ok (nth (Z.to_nat i) (s_arr s) 0) else Panic.

Definition le_Uint (n : nat) (s : slice) : outcome Z :=
  if Z.of_nat n <=? s_len s
  then Ok (le_dec (upto (Z.of_nat n) (s_arr s))) else Panic.

Definition be_Uint (n : nat) (s : slice) : outcome Z :=
  if Z.of_nat n <=? s_len s
  then Ok (be_dec (upto (Z.of_nat n) (s_arr s))) else Panic.

(** [le.Uint16(s[a:b])] and the like, and [le.Uint16(s[a:])]. *)
Definition get16 (s : slice) (a b : Z) : outcome Z := let! w := s_range s a b in le_Uint 2 w.
Definition get32 (s : slice) (a b : Z) : outcome Z := let! w := s_range s a b in le_Uint 4 w.
Definition get64 (s : slice) (a b : Z) : outcome Z := let! w := s_range s a b in le_Uint 8 w.
Definition get16f (s : slice) (a : Z) : outcome Z := let! w := s_from s a in le_Uint 2 w.
Definition get32f (s : slice) (a : Z) : outcome Z := let! w := s_from s a in le_Uint 4 w.
Definition get64f (s : slice) (a : Z) : outcome Z := let! w := s_from s a in le_Uint 8 w.

(** A slice whose contents are exactly [bs]. *)
Definition copy_of (s : slice) : bytes := s_bytes s.

Lemma of_bytes_wf bs : slice_wf (of_bytes bs).
Proof. unfold slice_wf, of_bytes, s_cap. simpl. pose proof (blen_nonneg bs). lia. Qed.

Lemma s_cap_of_bytes bs : s_cap (of_bytes bs) = blen bs.
Proof. done. Qed.

Lemma s_bytes_of_bytes bs : s_bytes (of_bytes bs) = bs.
Proof. unfold s_bytes, of_bytes. simpl. apply upto_all. lia. Qed.

Lemma blen_s_bytes s : slice_wf s -> blen (s_bytes s) = s_len s.
Proof. unfold slice_wf, s_cap, s_bytes. intros. apply blen_upto. lia. Qed.

Lemma s_range_ok s a b :
  0 <= a -> a <= b -> b <= s_cap s -> s_range s a b = Ok (mkSlice (from a (s_arr s)) (b - a)).
Proof. intros. unfold s_range. by rewrite !(proj2 (Z.leb_le _ _)) by lia. Qed.

Lemma s_range_inv s a b t :
  s_range s a b = Ok t ->
  0 <= a /\ a <= b /\ b <= s_cap s /\ t = mkSlice (from a (s_arr s)) (b - a).
Proof.
  unfold s_range. destruct (_ && _) eqn:E; [|done]. intros [= <-].
  rewrite !andb_true_iff, !Z.leb_le in E. destruct E as [[??]?]. done.
Qed.

Lemma s_range_wf s a b t : s_range s a b = Ok t -> slice_wf t /\ s_len t = b - a.
Proof.
  intros H. apply s_range_inv in H as (?&?&?&->). unfold slice_wf, s_cap in *. simpl.
  rewrite blen_from by lia. lia.
Qed.

Lemma s_range_bytes s a b :
  0 <= a -> a <= b -> b <= s_cap s ->
  exists t, s_range s a b = Ok t /\ s_bytes t = sub a (b - a) (s_arr s) /\ slice_wf t
    /\ s_len t = b - a.
Proof.
  intros. eexists. rewrite s_range_ok by done. split; [done|]. split; [done|].
  eapply s_range_wf. by apply s_range_ok.
Qed.

Lemma s_range_panic s a b : b < a \/ s_cap s < b -> s_range s a b = Panic.
Proof.
  intros. unfold s_range. destruct (_ && _) eqn:E; [|done].
  rewrite !andb_true_iff, !Z.leb_le in E. lia.
Qed.

Lemma s_from_ok s a :
  0 <= a -> a <= s_len s -> s_from s a = Ok (mkSlice (from a (s_arr s)) (s_len s - a)).
Proof. intros. unfold s_from. by rewrite !(proj2 (Z.leb_le _ _)) by lia. Qed.

Lemma s_from_wf s a t : slice_wf s -> s_from s a = Ok t -> slice_wf t /\ s_len t = s_len s - a.
Proof.
  unfold s_from. destruct (_ && _) eqn:E; [|done]. intros Hwf [= <-].
  rewrite !andb_true_iff, !Z.leb_le in E. unfold slice_wf, s_cap in *. simpl.
  rewrite blen_from by lia. lia.
Qed.

Lemma s_from_of_bytes bs a :
  0 <= a -> a <= blen bs -> s_from (of_bytes bs) a = Ok (of_bytes (from a bs)).
Proof.
  intros. rewrite s_from_ok by done. unfold of_bytes. simpl. by rewrite blen_from by lia.
Qed.

Lemma s_idx_ok s i : 0 <= i -> i < s_len s -> s_idx s i = Ok (nth (Z.to_nat i) (s_arr s) 0).
Proof.
  intros. unfold s_idx.
  by rewrite (proj2 (Z.leb_le _ _)), (proj2 (Z.ltb_lt _ _)) by lia.
Qed.

Lemma le_Uint_ok n s : Z.of_nat n <= s_len s -> le_Uint n s = Ok (le_dec (upto (Z.of_nat n) (s_arr s))).
Proof. intros. unfold le_Uint. by rewrite (proj2 (Z.leb_le _ _)) by lia. Qed.

Lemma get16_ok s a b :
  b = a + 2 -> 0 <= a -> b <= s_cap s -> get16 s a b = Ok (le_dec (sub a 2 (s_arr s))).
Proof. intros -> ??. unfold get16. rewrite s_range_ok by lia. simpl. rewrite le_Uint_ok; [done|]. simpl. lia. Qed.
Lemma get32_ok s a b :
  b = a + 4 -> 0 <= a -> b <= s_cap s -> get32 s a b = Ok (le_dec (sub a 4 (s_arr s))).
Proof. intros -> ??. unfold get32. rewrite s_range_ok by lia. simpl. rewrite le_Uint_ok; [done|]. simpl. lia. Qed.
Lemma get64_ok s a b :
  b = a + 8 -> 0 <= a -> b <= s_cap s -> get64 s a b = Ok (le_dec (sub a 8 (s_arr s))).
Proof. intros -> ??. unfold get64. rewrite s_range_ok by lia. simpl. rewrite le_Uint_ok; [done|]. simpl. lia. Qed.
Lemma get16f_ok s a : 0 <= a -> a + 2 <= s_len s -> get16f s a = Ok (le_dec (sub a 2 (s_arr s))).
Proof. intros. unfold get16f. rewrite s_from_ok by lia. simpl. rewrite le_Uint_ok; [done|]. simpl. lia. Qed.
Lemma get32f_ok s a : 0 <= a -> a + 4 <= s_len s -> get32f s a = Ok (le_dec (sub a 4 (s_arr s))).
Proof. intros. unfold get32f. rewrite s_from_ok by lia. simpl. rewrite le_Uint_ok; [done|]. simpl. lia. Qed.
Lemma get64f_ok s a : 0 <= a -> a + 8 <= s_len s -> get64f s a = Ok (le_dec (sub a 8 (s_arr s))).
Proof. intros. unfold get64f. rewrite s_from_ok by lia. simpl. rewrite le_Uint_ok; [done|]. simpl. lia. Qed.

Lemma nth_sub i p : 0 <= i < blen p -> sub i 1 p = [nth (Z.to_nat i) p 0].
Proof.
  unfold sub, blen. intros. change (Z.to_nat 1) with 1%nat.
  rewrite <- (firstn_skipn (Z.to_nat i) p) at 2.
  rewrite app_nth2; rewrite length_take; [|lia].
  rewrite Nat.min_l, Nat.sub_diag by lia.
  destruct (drop (Z.to_nat i) p) eqn:E; [|done].
  apply (f_equal length) in E. rewrite length_drop in E. simpl in E. lia.
Qed.

Lemma s_idx_sub s i b :
  slice_wf s -> 0 <= i -> i < s_len s -> sub i 1 (s_arr s) = [b] -> s_idx s i = Ok b.
Proof.
  unfold slice_wf, s_cap. intros. rewrite s_idx_ok by done.
  rewrite nth_sub in * by lia. congruence.
Qed.

(** ** Encoders

    [Encode(p []byte)] writes into a buffer it is given: a state
    transformer on the buffer, which panics where Go would.  The buffers
    come from [make], so their length is their capacity. *)

Definition enc := bytes -> outcome bytes.

Definition eseq (e1 e2 : enc) : enc := fun p => let! q := e1 p in e2 q.
Notation "e1 >> e2" := (eseq e1 e2) (at level 60, right associativity) : go_scope.

Definition eskip : enc := fun p => Ok p.

(** [put bs] at offset [a]: every store of the program is one of these. *)
Definition put (a : Z) (bs : bytes) : enc := fun p =>
  if (0 <=? a) && (a + blen bs <=? blen p) then Ok (splice a bs p) else Panic.

Definition put8 (a v : Z) : enc := put a [v mod 256].
Definition put16 (a v : Z) : enc := put a (le_enc 2 v).
Definition put32 (a v : Z) : enc := put a (le_enc 4 v).
Definition put64 (a v : Z) : enc := put a (le_enc 8 v).

(** [copy(p[a:], bs)]: copies as much of [bs] as there is room for. *)
Definition copy_from (a : Z) (bs : bytes) : enc := fun p =>
  if (0 <=? a) && (a <=? blen p) then Ok (splice a bs p) else Panic.

(** [copy(p[a:b], bs)]. *)
Definition copy_range (a b : Z) (bs : bytes) : enc := fun p =>
  if (0 <=? a) && (a <=? b) && (b <=? blen p)
  then Ok (splice a (upto (b - a) bs) p) else Panic.

(** [e] applied to the sub-slice [p[a:]]. *)
Definition at_ (a : Z) (e : enc) : enc := fun p =>
  if (0 <=? a) && (a <=? blen p)
  then let! q := e (from a p) in Ok (upto a p ++ q) else Panic.

(** [e] applied to the sub-slice [p[a:b]]. *)
Definition in_ (a b : Z) (e : enc) : enc := fun p =>
  if (0 <=? a) && (a <=? b) && (b <=? blen p)
  then let! q := e (sub a (b - a) p) in Ok (upto a p ++ q ++ from b p) else Panic.

Definition ewhen (c : bool) (e : enc) : enc := if c then e else eskip.

Lemma put_ok a bs p : 0 <= a -> a + blen bs <= blen p -> put a bs p = Ok (splice a bs p).
Proof. intros. unfold put. by rewrite !(proj2 (Z.leb_le _ _)) by lia. Qed.

Lemma put8_ok a v p : 0 <= a -> a + 1 <= blen p -> put8 a v p = Ok (splice a [v mod 256] p).
Proof. intros. apply put_ok; [done|]. unfold blen in *. simpl. lia. Qed.
Lemma put16_ok a v p : 0 <= a -> a + 2 <= blen p -> put16 a v p = Ok (splice a (le_enc 2 v) p).
Proof. intros. apply put_ok; [done|]. by rewrite blen_le_enc. Qed.
Lemma put32_ok a v p : 0 <= a -> a + 4 <= blen p -> put32 a v p = Ok (splice a (le_enc 4 v) p).
Proof. intros. apply put_ok; [done|]. by rewrite blen_le_enc. Qed.
Lemma put64_ok a v p : 0 <= a -> a + 8 <= blen p -> put64 a v p = Ok (splice a (le_enc 8 v) p).
Proof. intros. apply put_ok; [done|]. by rewrite blen_le_enc. Qed.
Lemma copy_from_ok a bs p : 0 <= a -> a <= blen p -> copy_from a bs p = Ok (splice a bs p).
Proof. intros. unfold copy_from. by rewrite !(proj2 (Z.leb_le _ _)) by lia. Qed.
Lemma copy_range_ok a b bs p :
  0 <= a -> a <= b -> b <= blen p -> blen bs = b - a -> copy_range a b bs p = Ok (splice a bs p).
Proof.
  intros. unfold copy_range. rewrite !(proj2 (Z.leb_le _ _)) by lia.
  simpl. by rewrite upto_all by lia.
Qed.
Lemma at_ok a e p q :
  0 <= a -> a <= blen p -> e (from a p) = Ok q -> at_ a e p = Ok (upto a p ++ q).
Proof. intros ?? He. unfold at_. rewrite !(proj2 (Z.leb_le _ _)) by lia. simpl. by rewrite He. Qed.
Lemma in_ok a b e p q :
  0 <= a -> a <= b -> b <= blen p -> e (sub a (b - a) p) = Ok q ->
  in_ a b e p = Ok (upto a p ++ q ++ from b p).
Proof. intros ??? He. unfold in_. rewrite !(proj2 (Z.leb_le _ _)) by lia. simpl. by rewrite He. Qed.

Lemma splice_splice_next a x y p :
  0 <= a -> a + blen x + blen y <= blen p ->
  splice (a + blen x) y (splice a x p) = splice a (x ++ y) p.
Proof.
  intros Ha Hb. pose proof (blen_nonneg x). pose proof (blen_nonneg y).
  apply list_eq. intros i.
  destruct (decide (i < Z.to_nat a \/ Z.to_nat a + length x + length y <= i)%nat).
  { rewrite !lookup_splice_out; [done|..]; rewrite ?length_app; unfold blen in *; lia. }
  rewrite (lookup_splice_in a (x ++ y)); [|lia|rewrite blen_app; lia|rewrite length_app; lia].
  destruct (decide (i < Z.to_nat a + length x)%nat).
  - rewrite lookup_splice_out by (unfold blen in *; lia).
    rewrite lookup_splice_in by (unfold blen in *; lia). by rewrite lookup_app_l by lia.
  - rewrite lookup_splice_in by (rewrite ?blen_splice; unfold blen in *; lia).
    rewrite lookup_app_r by lia. f_equal. unfold blen. lia.
Qed.

(** Replacing a window of a buffer by a string of the same length is a
    [splice]: every nested encoder is one store of the bytes it makes. *)
Lemma window_splice a b q p :
  0 <= a -> blen q = b - a -> b <= blen p -> upto a p ++ q ++ from b p = splice a q p.
Proof.
  intros. unfold splice, upto, from, blen in *. f_equal. f_equal.
  - rewrite take_ge; [done|lia].
  - f_equal. lia.
Qed.

Lemma tail_splice a q p :
  0 <= a <= blen p -> blen q = blen p - a -> upto a p ++ q = splice a q p.
Proof.
  intros. rewrite <- (window_splice a (blen p)) by lia.
  rewrite <- (app_nil_r q) at 1. do 2 f_equal.
  symmetry. apply drop_ge. unfold blen. lia.
Qed.

(** *** Automation

    [blen] lemmas in one rewriting base, and [go_step] to run an encoder
    or a decoder one store or load at a time. *)

Create HintDb blen.
Create Rewrite HintDb blen.
#[export] Hint Rewrite blen_app blen_cons blen_nil blen_le_enc blen_be_enc blen_splice
  s_cap_of_bytes : blen.
#[export] Hint Extern 1 (0 <= blen _) => apply blen_nonneg : blen.

Ltac blen_once :=
  match goal with
  | |- context [blen (from ?a ?p)] => rewrite (blen_from a p)
  | |- context [blen (upto ?a ?p)] => rewrite (blen_upto a p)
  | |- context [blen (sub ?a ?n ?p)] => rewrite (blen_sub a n p)
  | |- context [blen (zeros ?n)] => rewrite (blen_zeros n)
  end.

Ltac blen_pos :=
  repeat match goal with
  | |- context [blen ?x] =>
      assert_fails (assert (0 <= blen x) by assumption); pose proof (blen_nonneg x)
  end.

(** Arithmetic side conditions about lengths. *)
Ltac len_norm := autorewrite with blen; repeat (blen_once; autorewrite with blen; try lia).
Ltac len := try lia; len_norm; try lia; blen_pos; try lia.

Ltac put_step :=
  cbv beta;
  match goal with
  | |- context [put8 ?a ?v ?p] => rewrite (put8_ok a v p) by len
  | |- context [put16 ?a ?v ?p] => rewrite (put16_ok a v p) by len
  | |- context [put32 ?a ?v ?p] => rewrite (put32_ok a v p) by len
  | |- context [put64 ?a ?v ?p] => rewrite (put64_ok a v p) by len
  | |- context [copy_from ?a ?v ?p] => rewrite (copy_from_ok a v p) by len
  | |- context [copy_range ?a ?b ?v ?p] => rewrite (copy_range_ok a b v p) by len
  end; cbn [obind].

(** Reading back through a pile of stores: the field itself, or a store
    that does not touch it. *)
Ltac read_step :=
  match goal with
  | |- context [sub ?b ?n (splice ?b ?bs ?p)] =>
      rewrite (sub_splice_same b bs p n) by (first [done | len])
  | |- context [sub ?b ?n (splice ?a ?bs ?p)] =>
      rewrite (sub_splice_out a bs p b n) by len
  | |- context [sub ?b ?n (?p ++ ?q)] => rewrite (sub_app_l b n p q) by len
  | |- context [sub ?b ?n (upto ?m ?p)] => rewrite (sub_upto b n m p) by len
  end.
Ltac reads := repeat read_step.

(** Running a decoder: one load at a time. *)
Ltac get_step :=
  match goal with
  | |- context [get16 ?s ?a ?b] => rewrite (get16_ok s a b) by (first [done | len])
  | |- context [get32 ?s ?a ?b] => rewrite (get32_ok s a b) by (first [done | len])
  | |- context [get64 ?s ?a ?b] => rewrite (get64_ok s a b) by (first [done | len])
  | |- context [get16f ?s ?a] => rewrite (get16f_ok s a) by (first [done | len])
  | |- context [get32f ?s ?a] => rewrite (get32f_ok s a) by (first [done | len])
  | |- context [get64f ?s ?a] => rewrite (get64f_ok s a) by (first [done | len])
  | |- context [s_range ?s ?a ?b] => rewrite (s_range_ok s a b) by (first [done | len])
  end; cbn [obind].

(** *** Encoders that write from left to right

    [appends e x bs n]: on a buffer whose first bytes are [x] and whose next
    [n] bytes are still zero, [e] writes [bs] after [x]. *)
Definition appends (e : enc) (x bs : bytes) (n : Z) : Prop :=
  blen bs <= n /\ forall rest, e (x ++ zeros n ++ rest) = Ok (x ++ bs ++ zeros (n - blen bs) ++ rest).

Lemma splice_after x g bs n rest :
  0 <= g -> g + blen bs <= n ->
  splice (blen x + g) bs (x ++ zeros n ++ rest) = x ++ (zeros g ++ bs) ++ zeros (n - g - blen bs) ++ rest.
Proof.
  intros Hg Hn. pose proof (blen_nonneg bs). pose proof (blen_nonneg x).
  rewrite <- (window_splice _ (blen x + g + blen bs)); [|lia|lia|len].
  replace n with (g + (blen bs + (n - g - blen bs))) at 1 2 by lia.
  rewrite (zeros_app g), (zeros_app (blen bs)) by lia. rewrite <- !app_assoc.
  rewrite (app_assoc x (zeros g)), upto_app_exact by len.
  rewrite (app_assoc (x ++ zeros g) (zeros (blen bs))), from_app_exact by len.
  by rewrite <- !app_assoc.
Qed.

Lemma appends_skip x n : 0 <= n -> appends eskip x [] n.
Proof. intros Hn. split; [done|]. intros rest. unfold eskip. cbn [app]. by rewrite blen_nil, Z.sub_0_r. Qed.

Lemma appends_seq e1 e2 x b1 b2 n :
  appends e1 x b1 n -> appends e2 (x ++ b1) b2 (n - blen b1) -> appends (e1 >> e2) x (b1 ++ b2) n.
Proof.
  intros [H1 E1] [H2 E2]. split; [rewrite blen_app; lia|]. intros rest. unfold eseq.
  rewrite E1. cbn [obind]. rewrite (app_assoc x b1), E2, blen_app, <- !app_assoc.
  by replace (n - blen b1 - blen b2) with (n - (blen b1 + blen b2)) by lia.
Qed.

Lemma appends_put a g x bs n :
  a = blen x + g -> 0 <= g -> g + blen bs <= n -> appends (put a bs) x (zeros g ++ bs) n.
Proof.
  intros -> Hg Hn. pose proof (blen_nonneg bs). pose proof (blen_nonneg x).
  split; [len|]. intros rest. rewrite put_ok by len. rewrite splice_after by done.
  rewrite blen_app, blen_zeros by done. by replace (n - g - blen bs) with (n - (g + blen bs)) by lia.
Qed.

Lemma appends_copy a g x bs n :
  a = blen x + g -> 0 <= g -> g + blen bs <= n -> appends (copy_from a bs) x (zeros g ++ bs) n.
Proof.
  intros -> Hg Hn. pose proof (blen_nonneg bs). pose proof (blen_nonneg x).
  split; [len|]. intros rest. rewrite copy_from_ok by len. rewrite splice_after by done.
  rewrite blen_app, blen_zeros by done. by replace (n - g - blen bs) with (n - (g + blen bs)) by lia.
Qed.

Lemma appends_at a g e x bs n :
  a = blen x + g -> 0 <= g -> g <= n -> appends e [] bs (n - g) -> appends (at_ a e) x (zeros g ++ bs) n.
Proof.
  intros -> Hg Hn [Hb He]. pose proof (blen_nonneg bs). pose proof (blen_nonneg x).
  split; [len|]. intros rest.
  rewrite (at_ok _ _ _ (bs ++ zeros (n - g - blen bs) ++ rest)); [|len|len|].
  - f_equal. replace n with (g + (n - g)) at 1 by lia. rewrite zeros_app by lia.
    rewrite <- app_assoc, (app_assoc x), upto_app_exact by len. rewrite <- !app_assoc.
    rewrite blen_app, blen_zeros by done. by replace (n - g - blen bs) with (n - (g + blen bs)) by lia.
  - replace n with (g + (n - g)) at 1 by lia. rewrite zeros_app by lia.
    rewrite <- app_assoc, (app_assoc x), from_app_exact by len. apply He.
Qed.

Lemma appends_put8 a x v n : a = blen x -> 1 <= n -> appends (put8 a v) x [v mod 256] n.
Proof. intros -> Hn. apply (appends_put _ 0); [lia|done|len]. Qed.
Lemma appends_put16 a x v n : a = blen x -> 2 <= n -> appends (put16 a v) x (le_enc 2 v) n.
Proof. intros -> Hn. apply (appends_put _ 0); [lia|done|len]. Qed.
Lemma appends_put32 a x v n : a = blen x -> 4 <= n -> appends (put32 a v) x (le_enc 4 v) n.
Proof. intros -> Hn. apply (appends_put _ 0); [lia|done|len]. Qed.
Lemma appends_put64 a x v n : a = blen x -> 8 <= n -> appends (put64 a v) x (le_enc 8 v) n.
Proof. intros -> Hn. apply (appends_put _ 0); [lia|done|len]. Qed.
Lemma appends_copy0 a x bs n : a = blen x -> blen bs <= n -> appends (copy_from a bs) x bs n.
Proof. intros -> Hn. apply (appends_copy _ 0); [lia|done|lia]. Qed.
Lemma appends_at0 a e x bs n : a = blen x -> appends e [] bs n -> appends (at_ a e) x bs n.
Proof.
  intros -> He. apply (appends_at _ 0); [lia|done|destruct He; pose proof (blen_nonneg bs); lia|].
  by rewrite Z.sub_0_r.
Qed.

(** Bytes that are left at zero count as written. *)
Lemma appends_pad e x bs k n :
  appends e x bs n -> 0 <= k -> blen bs + k <= n -> appends e x (bs ++ zeros k) n.
Proof.
  intros [Hb He] Hk Hn. split; [len|]. intros rest. rewrite He, blen_app, blen_zeros by done.
  replace (n - blen bs) with (k + (n - (blen bs + k))) by lia. rewrite zeros_app by lia. by rewrite <- !app_assoc.
Qed.

(** A gap that the encoder leaves before its first byte. *)
Lemma appends_gap g e x bs n :
  0 <= g <= n -> appends e (x ++ zeros g) bs (n - g) -> appends e x (zeros g ++ bs) n.
Proof.
  intros Hg [Hb He]. split; [len|]. intros rest.
  replace n with (g + (n - g)) at 1 by lia. rewrite zeros_app, <- !app_assoc by lia.
  rewrite (app_assoc x), He, blen_app, blen_zeros by lia. rewrite <- !app_assoc.
  by replace (n - g - blen bs) with (n - (g + blen bs)) by lia.
Qed.

(** One store after the other; what is left are the nested encoders. *)
Ltac append_step :=
  lazymatch goal with
  | |- appends (_ >> _) _ (_ ++ _) _ => apply appends_seq
  | |- appends eskip _ [] _ => apply appends_skip; len
  | |- appends (put8 _ _) _ _ _ => apply appends_put8; len
  | |- appends (put16 _ _) _ _ _ => apply appends_put16; len
  | |- appends (put32 _ _) _ _ _ => apply appends_put32; len
  | |- appends (put64 _ _) _ _ _ => apply appends_put64; len
  | |- appends (copy_from _ _) _ _ _ => apply appends_copy0; len
  end.

(** The whole of a fresh buffer. *)
Lemma appends_all e bs n : appends e [] bs n -> e (zeros n) = Ok (bs ++ zeros (n - blen bs)).
Proof. intros [_ He]. specialize (He []). cbn [app] in He. by rewrite !app_nil_r in He. Qed.

(** [e x] writes [b], which is as long as announced. *)
Definition writes {A} (e : A -> enc) (size : A -> Z) (x : A) (b : bytes) : Prop :=
  blen b = size x /\ forall n, blen b <= n -> appends (e x) [] b n.

(** A field between other bytes. *)
Lemma get32_mid x v y a b :
  a = blen x -> b = a + 4 -> get32 (of_bytes (x ++ le_enc 4 v ++ y)) a b = Ok (u32 v).
Proof.
  intros -> ->. pose proof (blen_nonneg y). pose proof (blen_nonneg x).
  rewrite get32_ok by len. cbn [of_bytes s_arr].
  rewrite sub_app_r, Z.sub_diag by lia. rewrite sub_app_l by len.
  rewrite <- (le_dec_enc4 v). reflexivity.
Qed.

(** Split a chain of [if]s on booleans whose value is decided by a hypothesis
    about the whole. *)
Ltac simpl_if H :=
  match type of H with
  | context [if ?c then _ else _] => let E := fresh "E" in destruct c eqn:E
  end.
