(* ===== verification/Const.v ===== *)
(** * Constants of MS-SMB2 and NT status codes

    The values of internal/smb2/const.go, internal/smb2/oplock.go and the part of
    internal/erref/ntstatus.go the server uses. *)

From S2P Require Import Prelude.

(** ** Commands and header flags *)

Definition SMB2_NEGOTIATE : Z := 0.
Definition SMB2_SESSION_SETUP : Z := 1.
Definition SMB2_LOGOFF : Z := 2.
Definition SMB2_TREE_CONNECT : Z := 3.
Definition SMB2_TREE_DISCONNECT : Z := 4.
Definition SMB2_CREATE : Z := 5.
Definition SMB2_CLOSE : Z := 6.
Definition SMB2_FLUSH : Z := 7.
Definition SMB2_READ : Z := 8.
Definition SMB2_WRITE : Z := 9.
Definition SMB2_LOCK : Z := 10.
Definition SMB2_IOCTL : Z := 11.
Definition SMB2_CANCEL : Z := 12.
Definition SMB2_ECHO : Z := 13.
Definition SMB2_QUERY_DIRECTORY : Z := 14.
Definition SMB2_CHANGE_NOTIFY : Z := 15.
Definition SMB2_QUERY_INFO : Z := 16.
Definition SMB2_SET_INFO : Z := 17.
Definition SMB2_OPLOCK_BREAK : Z := 18.
Definition SMB_COM_NEGOTIATE : Z := 0x72.
Definition SMB2_FLAGS_SERVER_TO_REDIR : Z := 1.
Definition SMB2_FLAGS_ASYNC_COMMAND : Z := 2.
Definition SMB2_FLAGS_RELATED_OPERATIONS : Z := 4.
Definition SMB2_FLAGS_SIGNED : Z := 8.
Definition SMB2_FLAGS_PRIORITY_MASK : Z := 0x70.
Definition Encrypted : Z := 1.
Definition SYMLINK_FLAG_RELATIVE : Z := 1.

(** ** Negotiation *)

Definition SMB2_NEGOTIATE_SIGNING_ENABLED : Z := 1.
Definition SMB2_NEGOTIATE_SIGNING_REQUIRED : Z := 2.
Definition SMB2_GLOBAL_CAP_DFS : Z := 1.
Definition SMB2_GLOBAL_CAP_LEASING : Z := 2.
Definition SMB2_GLOBAL_CAP_LARGE_MTU : Z := 4.
Definition SMB2_GLOBAL_CAP_MULTI_CHANNEL : Z := 8.
Definition SMB2_GLOBAL_CAP_PERSISTENT_HANDLES : Z := 16.
Definition SMB2_GLOBAL_CAP_DIRECTORY_LEASING : Z := 32.
Definition SMB2_GLOBAL_CAP_ENCRYPTION : Z := 64.
Definition UnknownSMB : Z := 0x0.
Definition SMB2 : Z := 0x2FF.
Definition SMB202 : Z := 0x202.
Definition SMB210 : Z := 0x210.
Definition SMB300 : Z := 0x300.
Definition SMB302 : Z := 0x302.
Definition SMB311 : Z := 0x311.
Definition SMB2_PREAUTH_INTEGRITY_CAPABILITIES : Z := 1.
Definition SMB2_ENCRYPTION_CAPABILITIES : Z := 2.
Definition SMB2_COMPRESSION_CAPABILITIES : Z := 3.
Definition SMB3_POSIX_EXTENSIONS_AVAILABLE : Z := 0x0100.
Definition SHA512 : Z := 1.
Definition AES128CCM : Z := 1.
Definition AES128GCM : Z := 2.

(** ** Sessions and shares *)

Definition SMB2_SESSION_FLAG_IS_GUEST : Z := 1.
Definition SMB2_SESSION_FLAG_IS_NULL : Z := 2.
Definition SMB2_SESSION_FLAG_ENCRYPT_DATA : Z := 4.
Definition SMB2_SHARE_TYPE_DISK : Z := 1.
Definition SMB2_SHARE_TYPE_PIPE : Z := 2.
Definition SMB2_SHAREFLAG_ENCRYPT_DATA : Z := 0x8000.

(** ** Oplocks, leases, access rights, create dispositions and options *)

Definition SMB2_OPLOCK_LEVEL_NONE : Z := 0.
Definition SMB2_OPLOCK_LEVEL_II : Z := 1.
Definition SMB2_OPLOCK_LEVEL_EXCLUSIVE : Z := 8.
Definition SMB2_OPLOCK_LEVEL_BATCH : Z := 9.
Definition SMB2_OPLOCK_LEVEL_LEASE : Z := 0xff.
Definition SMB2_LEASE_NONE : Z := 0.
Definition SMB2_NOTIFY_BREAK_LEASE_FLAG_ACK_REQUIRED : Z := 1.
Definition SMB2_OPLOCK_BREAK_ACK_SIZE : Z := 24.
Definition SMB2_LEASE_BREAK_ACK_SIZE : Z := 36.
Definition FILE_READ_DATA : Z := 1.
Definition FILE_WRITE_DATA : Z := 2.
Definition FILE_APPEND_DATA : Z := 4.
Definition FILE_READ_EA : Z := 8.
Definition FILE_WRITE_EA : Z := 16.
Definition FILE_EXECUTE : Z := 32.
Definition FILE_DELETE_CHILD : Z := 64.
Definition FILE_READ_ATTRIBUTES : Z := 128.
Definition FILE_WRITE_ATTRIBUTES : Z := 256.
Definition DELETE : Z := 0x10000.
Definition READ_CONTROL : Z := 0x20000.
Definition WRITE_DAC : Z := 0x40000.
Definition WRITE_OWNER : Z := 0x80000.
Definition SYNCHRONIZE : Z := 0x100000.
Definition GENERIC_WRITE : Z := 0x40000000.
Definition FILE_SUPERSEDE : Z := 0.
Definition FILE_OPEN : Z := 1.
Definition FILE_CREATE : Z := 2.
Definition FILE_OPEN_IF : Z := 3.
Definition FILE_OVERWRITE : Z := 4.
Definition FILE_OVERWRITE_IF : Z := 5.
Definition FILE_DIRECTORY_FILE : Z := 1.
Definition FILE_DELETE_ON_CLOSE : Z := 4096.
Definition FILE_OPEN_REPARSE_POINT : Z := 2097152.
Definition SMB2_CLOSE_FLAG_POSTQUERY_ATTRIB : Z := 1.
Definition RESTART_SCANS : Z := 1.
Definition RETURN_SINGLE_ENTRY : Z := 2.
Definition REOPEN : Z := 16.
Definition SMB2_0_INFO_FILE : Z := 1.
Definition SMB2_0_INFO_FILESYSTEM : Z := 2.
Definition SMB2_0_INFO_SECURITY : Z := 3.
Definition SMB2_0_INFO_QUOTA : Z := 4.

(** ** NT status codes *)

Definition STATUS_SUCCESS : Z := 0x00000000.
Definition STATUS_PENDING : Z := 0x00000103.
Definition STATUS_BUFFER_OVERFLOW : Z := 0x80000005.
Definition STATUS_NO_MORE_FILES : Z := 0x80000006.
Definition STATUS_NOTIFY_ENUM_DIR : Z := 0x0000010C.
Definition STATUS_INVALID_PARAMETER : Z := 0xC000000D.
Definition STATUS_NO_SUCH_FILE : Z := 0xC000000F.
Definition STATUS_END_OF_FILE : Z := 0xC0000011.
Definition STATUS_MORE_PROCESSING_REQUIRED : Z := 0xC0000016.
Definition STATUS_ACCESS_DENIED : Z := 0xC0000022.
Definition STATUS_BUFFER_TOO_SMALL : Z := 0xC0000023.
Definition STATUS_OBJECT_NAME_NOT_FOUND : Z := 0xC0000034.
Definition STATUS_OBJECT_NAME_COLLISION : Z := 0xC0000035.
Definition STATUS_OBJECT_PATH_NOT_FOUND : Z := 0xC000003A.
Definition STATUS_DELETE_PENDING : Z := 0xC0000056.
Definition STATUS_NOT_SUPPORTED : Z := 0xC00000BB.
Definition STATUS_INVALID_HANDLE : Z := 0xC0000008.
Definition STATUS_DISK_FULL : Z := 0xC000007F.
Definition STATUS_IO_DEVICE_ERROR : Z := 0xC0000185.
Definition STATUS_DIRECTORY_NOT_EMPTY : Z := 0xC0000101.
Definition STATUS_NOT_A_DIRECTORY : Z := 0xC0000103.
Definition STATUS_FILE_CLOSED : Z := 0xC0000128.
Definition STATUS_INVALID_DEVICE_STATE : Z := 0xC0000184.
Definition STATUS_UNSUCCESSFUL : Z := 0xC0000001.
Definition STATUS_BAD_NETWORK_NAME : Z := 0xC00000CC.
Definition STATUS_FS_DRIVER_REQUIRED : Z := 0xC000019C.
Definition STATUS_DATA_ERROR : Z := 0xC000003E.
Definition STATUS_CANNOT_DELETE : Z := 0xC0000121.
Definition STATUS_OPEN_FAILED : Z := 0xC0000136.
Definition STATUS_OBJECT_NAME_EXISTS : Z := 0x40000000.
Definition STATUS_NOT_FOUND : Z := 0xC0000225.

(** fscc.go *)
Definition IO_REPARSE_TAG_SYMLINK : Z := 0xA000000C.
Definition FSCTL_QUERY_NETWORK_INTERFACE_INFO : Z := 0x001401FC.
Definition FSCTL_GET_REPARSE_POINT : Z := 0x000900A8.
Definition FSCTL_SET_REPARSE_POINT : Z := 0x000900A4.
Definition FSCTL_DELETE_REPARSE_POINT : Z := 0x000900AC.
Definition FSCTL_CREATE_OR_GET_OBJECT_ID : Z := 0x000900C0.
Definition FILE_ATTRIBUTE_READONLY : Z := 0x1.
Definition FILE_ATTRIBUTE_HIDDEN : Z := 0x2.
Definition FILE_ATTRIBUTE_DIRECTORY : Z := 0x10.
Definition FILE_ATTRIBUTE_ARCHIVE : Z := 0x20.
Definition FILE_ATTRIBUTE_NORMAL : Z := 0x80.
Definition FILE_ATTRIBUTE_REPARSE_POINT : Z := 0x400.

(** *** Information classes (fscc.go) *)

Definition FileDirectoryInformation : Z := 1.
Definition FileFullDirectoryInformation : Z := 2.
Definition FileBothDirectoryInformation : Z := 3.
Definition FileBasicInformation : Z := 4.
Definition FileStandardInformation : Z := 5.
Definition FileInternalInformation : Z := 6.
Definition FileEaInformation : Z := 7.
Definition FileAccessInformation : Z := 8.
Definition FileNameInformation : Z := 9.
Definition FileRenameInformation : Z := 10.
Definition FileNamesInformation : Z := 12.
Definition FileDispositionInformation : Z := 13.
Definition FilePositionInformation : Z := 14.
Definition FileFullEaInformation : Z := 15.
Definition FileModeInformation : Z := 16.
Definition FileAlignmentInformation : Z := 17.
Definition FileAllInformation : Z := 18.
Definition FileAllocationInformation : Z := 19.
Definition FileEndOfFileInformation : Z := 20.
Definition FileStreamInformation : Z := 22.
Definition FileCompressionInformation : Z := 28.
Definition FileNetworkOpenInformation : Z := 34.
Definition FileAttributeTagInformation : Z := 35.
Definition FileIdBothDirectoryInformation : Z := 37.
Definition FileIdFullDirectoryInformation : Z := 38.
Definition FileNormalizedNameInformation : Z := 48.
Definition FileIdInformation : Z := 59.
Definition FileIdAllExtdBothDirectoryInformation : Z := 81.
Definition FilePosixInformation : Z := 0x64.
Definition FileFsVolumeInformation : Z := 1.
Definition FileFsSizeInformation : Z := 3.
Definition FileFsDeviceInformation : Z := 4.
Definition FileFsAttributeInformation : Z := 5.
Definition FileFsFullSizeInformation : Z := 7.
Definition FileFsObjectIdInformation : Z := 8.
Definition FileFsSectorSizeInformation : Z := 11.

(** *** More of const.go *)

Definition FILE_SYNCHRONOUS_IO_ALERT : Z := 16.
Definition OWNER_SECURITY_INFORMATION : Z := 1.
Definition GROUP_SECUIRTY_INFORMATION : Z := 2.
Definition DACL_SECUIRTY_INFORMATION : Z := 4.
