(* ===== verification/Packet.v ===== *)
(** * SMB2 packet headers and file ids

    internal/smb2/packet.go (the 64-byte header and the encryption transform
    header), the file ids of internal/smb2/smb2.go and the header helpers of
    internal/smb2/util.go. *)

From S2P Require Import Prelude Const.

(** [x &^ m] on unsigned integers. *)
Definition andnot (x m : Z) : Z := Z.ldiff x m.

Definition Roundup (x align : Z) : Z := andnot (x + (align - 1)) (align - 1).

Definition Align (n a : Z) : Z := andnot (n + a - 1) (a - 1).

(** ** The Encoder interface of iface.go *)

Record Encoder := mkEncoder { Size : Z; Encode : enc }.

(** ** Packet header *)

Module PacketHeader.

Record t := mk {
  CreditCharge : Z;
  ChannelSequence : Z;
  Status : Z;
  Command : Z;
  CreditRequestResponse : Z;
  Flags : Z;
  NextCommand : Z;
  MessageId : Z;
  AsyncId : Z;
  TreeId : Z;
  SessionId : Z
}.

(** [new(T)] zeroes the embedded header. *)
Definition zero : t := mk 0 0 0 0 0 0 0 0 0 0 0.

Definition set_Command (c : Z) (h : t) : t :=
  mk (CreditCharge h) (ChannelSequence h) (Status h) c (CreditRequestResponse h) (Flags h)
     (NextCommand h) (MessageId h) (AsyncId h) (TreeId h) (SessionId h).
Definition set_Status (s : Z) (h : t) : t :=
  mk (CreditCharge h) (ChannelSequence h) s (Command h) (CreditRequestResponse h) (Flags h)
     (NextCommand h) (MessageId h) (AsyncId h) (TreeId h) (SessionId h).
Definition set_Flags (f : Z) (h : t) : t :=
  mk (CreditCharge h) (ChannelSequence h) (Status h) (Command h) (CreditRequestResponse h) f
     (NextCommand h) (MessageId h) (AsyncId h) (TreeId h) (SessionId h).
Definition set_NextCommand (n : Z) (h : t) : t :=
  mk (CreditCharge h) (ChannelSequence h) (Status h) (Command h) (CreditRequestResponse h)
     (Flags h) n (MessageId h) (AsyncId h) (TreeId h) (SessionId h).
Definition set_Credit (c : Z) (h : t) : t :=
  mk (CreditCharge h) (ChannelSequence h) (Status h) (Command h) c
     (Flags h) (NextCommand h) (MessageId h) (AsyncId h) (TreeId h) (SessionId h).
Definition set_SessionId (s : Z) (h : t) : t :=
  mk (CreditCharge h) (ChannelSequence h) (Status h) (Command h) (CreditRequestResponse h)
     (Flags h) (NextCommand h) (MessageId h) (AsyncId h) (TreeId h) s.
Definition set_TreeId (i : Z) (h : t) : t :=
  mk (CreditCharge h) (ChannelSequence h) (Status h) (Command h) (CreditRequestResponse h)
     (Flags h) (NextCommand h) (MessageId h) (AsyncId h) i (SessionId h).

(** The fields have their Go widths. *)
Definition wf (h : t) : Prop :=
  in16 (CreditCharge h) /\ in16 (ChannelSequence h) /\ in32 (Status h) /\ in16 (Command h)
  /\ in16 (CreditRequestResponse h) /\ in32 (Flags h) /\ in32 (NextCommand h)
  /\ in64 (MessageId h) /\ in64 (AsyncId h) /\ in32 (TreeId h) /\ in64 (SessionId h).

Definition MAGIC : bytes := [0xfe; 0x53; 0x4d; 0x42].

Definition encodeHeader (hdr : t) : enc :=
  copy_from 0 MAGIC
  >> put16 4 64
  >> put16 6 (CreditCharge hdr)
  >> (if negb (ChannelSequence hdr =? 0) then put16 8 (ChannelSequence hdr)
      else if negb (Status hdr =? 0) then put32 8 (Status hdr)
      else eskip)
  >> put16 12 (Command hdr)
  >> put16 14 (CreditRequestResponse hdr)
  >> put32 16 (Flags hdr)
  >> put32 20 (NextCommand hdr)
  >> put64 24 (MessageId hdr)
  >> (if negb (AsyncId hdr =? 0) then put64 32 (AsyncId hdr)
      else if negb (TreeId hdr =? 0) then put32 36 (TreeId hdr)
      else eskip)
  >> put64 40 (SessionId hdr).

End PacketHeader.

(** ** Reading and updating a header in place *)

Module PacketCodec.

Definition ProtocolId (p : slice) : outcome slice :=
  if s_len p <? 4 then Ok nil_slice else s_range p 0 4.

Definition magic_is (p : slice) (m0 : Z) : outcome bool :=
  let! magic := ProtocolId p in
  let! b0 := s_idx magic 0 in
  if negb (b0 =? m0) then Ok false else
  let! b1 := s_idx magic 1 in
  if negb (b1 =? 0x53) then Ok false else
  let! b2 := s_idx magic 2 in
  if negb (b2 =? 0x4d) then Ok false else
  let! b3 := s_idx magic 3 in
  if negb (b3 =? 0x42) then Ok false else Ok true.

Definition IsSmb1 (p : slice) : outcome bool :=
  if s_len p <? 4 then Ok false else magic_is p 0xff.

Definition StructureSize (p : slice) : outcome Z := get16 p 4 6.
Definition CreditCharge (p : slice) : outcome Z := get16 p 6 8.
Definition Status (p : slice) : outcome Z := get32 p 8 12.
Definition Command (p : slice) : outcome Z :=
  let! smb1 := IsSmb1 p in
  if smb1 then s_idx p 4 else get16 p 12 14.
Definition CreditRequest (p : slice) : outcome Z := get16 p 14 16.
Definition CreditResponse (p : slice) : outcome Z := get16 p 14 16.
Definition Flags (p : slice) : outcome Z := get32 p 16 20.
Definition NextCommand (p : slice) : outcome Z := get32 p 20 24.
Definition MessageId (p : slice) : outcome Z :=
  let! smb1 := IsSmb1 p in
  if smb1 then Ok 0xFFFFFFFFFFFFFFFF else get64 p 24 32.
Definition AsyncId (p : slice) : outcome Z := get64 p 32 40.
Definition TreeId (p : slice) : outcome Z := get32 p 36 40.
Definition SessionId (p : slice) : outcome Z := get64 p 40 48.
Definition Signature (p : slice) : outcome slice := s_range p 48 64.
Definition Data (p : slice) : outcome slice := s_from p 64.
Definition ChannelSequence (p : slice) : outcome Z := get16 p 8 10.

Definition IsInvalid (p : slice) : outcome bool :=
  if s_len p <? 4 then Ok true else
  let! smb1 := IsSmb1 p in
  if smb1 then
    if s_len p <? 5 then Ok true
    else let! c := s_idx p 4 in Ok (negb (c =? SMB_COM_NEGOTIATE))
  else
  if s_len p <? 64 then Ok true else
  let! m := magic_is p 0xfe in
  if negb m then Ok true else
  let! ss := StructureSize p in
  if negb (ss =? 64) then Ok true else
  let! nc := NextCommand p in
  if has nc 7 then Ok true else
  if s_len p <=? nc then Ok true else Ok false.

Definition related (p : slice) : outcome bool :=
  let! f := Flags p in
  Ok (Z.land f SMB2_FLAGS_RELATED_OPERATIONS =? SMB2_FLAGS_RELATED_OPERATIONS).

Definition IsCompound (p : slice) : outcome bool :=
  let! r := related p in
  if r then Ok true else let! n := NextCommand p in Ok (negb (n =? 0)).

Definition IsCompoundFirst (p : slice) : outcome bool :=
  let! f := Flags p in
  if negb (Z.land f SMB2_FLAGS_RELATED_OPERATIONS =? 0) then Ok false
  else let! n := NextCommand p in Ok (negb (n =? 0)).

Definition IsCompoundLast (p : slice) : outcome bool :=
  let! r := related p in
  if negb r then Ok false else let! n := NextCommand p in Ok (n =? 0).

(** The setters write into the packet they are given. *)
Definition SetProtocolId : enc := copy_from 0 PacketHeader.MAGIC.
Definition SetStructureSize : enc := put16 4 64.
Definition SetCreditCharge (u : Z) : enc := put16 6 u.
Definition SetStatus (u : Z) : enc := put32 8 u.
Definition SetCommand (u : Z) : enc := put16 12 u.
Definition SetCreditRequest (u : Z) : enc := put16 14 u.
Definition SetCreditResponse (u : Z) : enc := put16 14 u.
Definition SetFlags (u : Z) : enc := put32 16 u.
Definition SetNextCommand (u : Z) : enc := put32 20 u.
Definition SetMessageId (u : Z) : enc := put64 24 u.
Definition SetAsyncId (u : Z) : enc := put64 32 u.
Definition SetTreeId (u : Z) : enc := put32 36 u.
Definition SetSessionId (u : Z) : enc := put64 40 u.
Definition SetSignature (bs : bytes) : enc := copy_range 48 64 bs.
Definition SetChannelSequence (u : Z) : enc := put16 8 u.

End PacketCodec.

(** ** Encryption transform header *)

Module TransformCodec.

Definition MAGIC2 : bytes := [0xfd; 0x53; 0x4d; 0x42].

Definition ProtocolId (p : slice) : outcome slice := s_range p 0 4.

Definition IsInvalid (p : slice) : outcome bool :=
  if s_len p <? 52 then Ok true else
  let! magic := ProtocolId p in
  let! b0 := s_idx magic 0 in
  if negb (b0 =? 0xfd) then Ok true else
  let! b1 := s_idx magic 1 in
  if negb (b1 =? 0x53) then Ok true else
  let! b2 := s_idx magic 2 in
  if negb (b2 =? 0x4d) then Ok true else
  let! b3 := s_idx magic 3 in
  if negb (b3 =? 0x42) then Ok true else Ok false.

Definition Signature (p : slice) : outcome slice := s_range p 4 20.
Definition Nonce (p : slice) : outcome slice := s_range p 20 36.
Definition OriginalMessageSize (p : slice) : outcome Z := get32 p 36 40.
Definition EncryptionAlgorithm (p : slice) : outcome Z := get16 p 42 44.
Definition SessionId (p : slice) : outcome Z := get64 p 44 52.
Definition AssociatedData (p : slice) : outcome slice := s_range p 20 52.
Definition EncryptedData (p : slice) : outcome slice := s_from p 52.
Definition Flags (p : slice) : outcome Z := get16 p 42 44.

Definition SetProtocolId : enc := copy_range 0 4 MAGIC2.
Definition SetSignature (bs : bytes) : enc := copy_range 4 20 bs.
Definition SetNonce (bs : bytes) : enc := copy_range 20 36 bs.
Definition SetOriginalMessageSize (u : Z) : enc := put32 36 u.
Definition SetEncryptionAlgorithm (u : Z) : enc := put16 42 u.
Definition SetSessionId (u : Z) : enc := put64 44 u.
Definition SetFlags (u : Z) : enc := put16 42 u.

End TransformCodec.

(** ** File ids *)

Module FileId.

Record t := mk { Persistent : bytes; Volatile : bytes }.

#[export] Instance t_eq_dec : EqDecision t.
Proof. solve_decision. Defined.

(** The two [8]byte arrays. *)
Definition wf (f : t) : Prop :=
  length (Persistent f) = 8%nat /\ length (Volatile f) = 8%nat
  /\ bytes_ok (Persistent f) /\ bytes_ok (Volatile f).

Definition zero : t := mk (zeros 8) (zeros 8).

Definition Size : Z := 16.

(** [fd == nil] encodes as zeroes. *)
Definition Encode (fd : option t) : enc :=
  match fd with
  | None => copy_range 0 16 (zeros 16)
  | Some fd => copy_range 0 8 (Persistent fd) >> copy_range 8 16 (Volatile fd)
  end.

Definition IsZero (fd : option t) : bool :=
  match fd with
  | None => true
  | Some fd => forallb (Z.eqb 0) (Persistent fd) && forallb (Z.eqb 0) (Volatile fd)
  end.

Definition HandleId (f : t) : Z := le_dec (Volatile f).
Definition SetHandleId (n : Z) (f : t) : t := mk (Persistent f) (le_enc 8 n).
Definition NodeId (f : t) : Z := le_dec (Persistent f).
Definition SetNodeId (n : Z) (f : t) : t := mk (le_enc 8 n) (Volatile f).

(** The arguments of [copy] are the wrong way round: the zeroes of the new
    [uuid] go into [f], and [uuid] is returned as it was made. *)
Definition ToUUID (f : t) : bytes * t :=
  let uuid := zeros 16 in
  (uuid, mk (sub 0 8 uuid) (sub 8 8 uuid)).

End FileId.

(** [f == nil || both halves are all ones]. *)
Definition IsInvalidFileId (f : option FileId.t) : bool :=
  match f with
  | None => true
  | Some f =>
      bool_decide (FileId.Persistent f = repeat 0xff 8)
      && bool_decide (FileId.Volatile f = repeat 0xff 8)
  end.

Module FileIdDecoder.

Definition Persistent (fd : slice) : outcome slice := s_range fd 0 8.
Definition Volatile (fd : slice) : outcome slice := s_range fd 8 16.

(** [copy(ret.Persistent[:], fd[:8])] and so on: both halves are 8 bytes long. *)
Definition Decode (fd : slice) : outcome FileId.t :=
  let! a := s_range fd 0 8 in
  let! b := s_range fd 8 16 in
  Ok (FileId.mk (s_bytes a) (s_bytes b)).

End FileIdDecoder.

(** ** Preparing response headers (util.go) *)

Definition PrepareResponse (rsp : PacketHeader.t) (req : slice) (status : Z)
  : outcome PacketHeader.t :=
  let! command := PacketCodec.Command req in
  let! credit := PacketCodec.CreditRequest req in
  let! msgid := PacketCodec.MessageId req in
  let! flags := PacketCodec.Flags req in
  Ok (PacketHeader.mk
        (PacketHeader.CreditCharge rsp) (PacketHeader.ChannelSequence rsp)
        status command credit
        (Z.lor 1 (Z.land flags SMB2_FLAGS_PRIORITY_MASK))
        (PacketHeader.NextCommand rsp) msgid (PacketHeader.AsyncId rsp)
        (PacketHeader.TreeId rsp) (PacketHeader.SessionId rsp)).

Definition PrepareAsyncResponse (rsp : PacketHeader.t) (req : slice) (asyncId status : Z)
  : outcome PacketHeader.t :=
  let! command := PacketCodec.Command req in
  let! credit :=
    if negb (status =? 0) then PacketCodec.CreditRequest req
    else Ok (PacketHeader.CreditRequestResponse rsp) in
  let! msgid := PacketCodec.MessageId req in
  let flags := SMB2_FLAGS_SERVER_TO_REDIR in
  let flags := if negb (asyncId =? 0) then Z.lor flags SMB2_FLAGS_ASYNC_COMMAND else flags in
  Ok (PacketHeader.mk
        (PacketHeader.CreditCharge rsp) (PacketHeader.ChannelSequence rsp)
        status command credit flags
        (PacketHeader.NextCommand rsp) msgid asyncId
        (PacketHeader.TreeId rsp) (PacketHeader.SessionId rsp)).

(** ** Properties of the header codec *)

(** The fields a header holds, whatever its signature. *)
Definition header_core (hdr : PacketHeader.t) (h : bytes) : Prop :=
  blen h = 64
  /\ sub 0 4 h = PacketHeader.MAGIC
  /\ le_dec (sub 4 2 h) = 64
  /\ le_dec (sub 6 2 h) = u16 (PacketHeader.CreditCharge hdr)
  /\ le_dec (sub 8 4 h) = (if PacketHeader.ChannelSequence hdr =? 0
                           then u32 (PacketHeader.Status hdr)
                           else u16 (PacketHeader.ChannelSequence hdr))
  /\ le_dec (sub 12 2 h) = u16 (PacketHeader.Command hdr)
  /\ le_dec (sub 14 2 h) = u16 (PacketHeader.CreditRequestResponse hdr)
  /\ le_dec (sub 16 4 h) = u32 (PacketHeader.Flags hdr)
  /\ le_dec (sub 20 4 h) = u32 (PacketHeader.NextCommand hdr)
  /\ le_dec (sub 24 8 h) = u64 (PacketHeader.MessageId hdr)
  /\ le_dec (sub 36 4 h) = (if PacketHeader.AsyncId hdr =? 0
                            then u32 (PacketHeader.TreeId hdr)
                            else u64 (PacketHeader.AsyncId hdr) / 2 ^ 32)
  /\ le_dec (sub 40 8 h) = u64 (PacketHeader.SessionId hdr).

(** The bytes [encodeHeader] leaves in the first 64 bytes of a fresh buffer. *)
Definition header_bytes (hdr : PacketHeader.t) (h : bytes) : Prop :=
  header_core hdr h /\ sub 48 16 h = zeros 16.

Lemma Align_pow k n :
  0 <= k -> 0 <= n -> n <= Align n (2 ^ k) < n + 2 ^ k /\ Align n (2 ^ k) mod 2 ^ k = 0.
Proof.
  intros Hk Hn. unfold Align, andnot.
  replace (2 ^ k - 1) with (Z.ones k) by (rewrite Z.ones_equiv; lia).
  rewrite Z.ldiff_ones_r, Z.shiftl_mul_pow2, Z.shiftr_div_pow2 by lia.
  pose proof (Z.pow_pos_nonneg 2 k ltac:(lia) Hk).
  pose proof (Z.div_mod (n + 2 ^ k - 1) (2 ^ k) ltac:(lia)).
  pose proof (Z.mod_pos_bound (n + 2 ^ k - 1) (2 ^ k) ltac:(lia)).
  split; [lia|]. apply Z.mod_mul. lia.
Qed.
Lemma Align4 n : 0 <= n -> n <= Align n 4 < n + 4 /\ Align n 4 mod 4 = 0.
Proof. apply (Align_pow 2). lia. Qed.
Lemma Align8 n : 0 <= n -> n <= Align n 8 < n + 8 /\ Align n 8 mod 8 = 0.
Proof. apply (Align_pow 3). lia. Qed.

Lemma blen_MAGIC : blen PacketHeader.MAGIC = 4.
Proof. done. Qed.
#[export] Hint Rewrite blen_MAGIC : blen.

(** The two conditional fields of the header. *)
Lemma status_field cs st p :
  12 <= blen p -> sub 8 4 p = zeros 4 ->
  exists q, (if negb (cs =? 0) then put16 8 cs else if negb (st =? 0) then put32 8 st else eskip) p
      = Ok q
    /\ blen q = blen p
    /\ le_dec (sub 8 4 q) = (if cs =? 0 then u32 st else u16 cs)
    /\ (forall b n, 0 <= b -> 0 <= n -> (b + n <= 8 \/ 12 <= b) -> sub b n q = sub b n p)
    /\ from 64 q = from 64 p.
Proof.
  intros Hl Hz. assert (Hz' : sub 10 2 p = zeros 2).
  { replace (sub 10 2 p) with (sub 2 2 (sub 8 4 p)) by (rewrite sub_sub; [done|lia..]).
    by rewrite Hz. }
  destruct (cs =? 0) eqn:Ec; cbn [negb]; [destruct (st =? 0) eqn:Es; cbn [negb]|].
  - exists p. unfold eskip. apply Z.eqb_eq in Es as ->. rewrite Hz. done.
  - rewrite put32_ok by len. eexists. split; [done|]. split; [len|].
    rewrite sub_splice_same, le_dec_enc4 by len. split; [done|].
    split; [intros; by rewrite sub_splice_out by len | by rewrite from_splice_ge by len].
  - rewrite put16_ok by len. eexists. split; [done|]. split; [len|].
    change 4 with (2 + 2). rewrite sub_split, le_dec_app by lia. change (8 + 2) with 10. reads.
    rewrite Hz', le_dec_enc2. split; [by rewrite Z.mul_0_r, Z.add_0_r|].
    split; [intros; by rewrite sub_splice_out by len | by rewrite from_splice_ge by len].
Qed.

Lemma tree_field ai ti p :
  48 <= blen p -> sub 32 8 p = zeros 8 ->
  exists q, (if negb (ai =? 0) then put64 32 ai else if negb (ti =? 0) then put32 36 ti else eskip) p
      = Ok q
    /\ blen q = blen p
    /\ le_dec (sub 36 4 q) = (if ai =? 0 then u32 ti else u64 ai / 2 ^ 32)
    /\ (forall b n, 0 <= b -> 0 <= n -> (b + n <= 32 \/ 40 <= b) -> sub b n q = sub b n p)
    /\ from 64 q = from 64 p.
Proof.
  intros Hl Hz. assert (Hz' : sub 36 4 p = zeros 4).
  { replace (sub 36 4 p) with (sub 4 4 (sub 32 8 p)) by (rewrite sub_sub; [done|lia..]).
    by rewrite Hz. }
  destruct (ai =? 0) eqn:Ec; cbn [negb]; [destruct (ti =? 0) eqn:Es; cbn [negb]|].
  - exists p. unfold eskip. apply Z.eqb_eq in Es as ->. rewrite Hz'. done.
  - rewrite put32_ok by len. eexists. split; [done|]. split; [len|]. reads. rewrite le_dec_enc4.
    split; [done|].
    split; [intros; by rewrite sub_splice_out by len | by rewrite from_splice_ge by len].
  - rewrite put64_ok by len. eexists. split; [done|]. split; [len|].
    rewrite sub_splice_in by len. change (le_enc 8 ai) with (le_enc (4 + 4) ai).
    rewrite le_enc_app, sub_app_r by done. rewrite blen_le_enc.
    change (36 - 32 - Z.of_nat 4) with 0. rewrite sub_all, le_dec_enc4 by done.
    split; [unfold u32, u64|].
    { change (256 ^ Z.of_nat 4) with 4294967296. change (2 ^ 32) with 4294967296.
      change 18446744073709551616 with (4294967296 * 4294967296).
      rewrite Z.rem_mul_r by lia. rewrite Z.add_comm, Z.mul_comm, Z.div_add_l by lia.
      rewrite (Z.div_small (ai mod _)); [lia|]. apply Z.mod_pos_bound. lia. }
    split; [intros; by rewrite sub_splice_out by len | by rewrite from_splice_ge by len].
Qed.

Lemma encodeHeader_bytes hdr p :
  64 <= blen p -> upto 64 p = zeros 64 ->
  exists h, PacketHeader.encodeHeader hdr p = Ok (h ++ from 64 p) /\ header_bytes hdr h.
Proof.
  intros Hlen Hz.
  assert (Hs : forall a n, 0 <= a -> 0 <= n -> a + n <= 64 -> sub a n p = zeros n).
  { intros. rewrite <- (sub_upto a n 64) by lia. rewrite Hz. by apply sub_zeros. }
  unfold PacketHeader.encodeHeader, eseq. do 3 put_step.
  edestruct (status_field (PacketHeader.ChannelSequence hdr) (PacketHeader.Status hdr))
    as (p2 & -> & Hl2 & Hst & Hfr2 & Htl2); [len|reads; by apply Hs|].
  cbn [obind]. autorewrite with blen in Hl2. do 5 put_step.
  edestruct (tree_field (PacketHeader.AsyncId hdr) (PacketHeader.TreeId hdr))
    as (p4 & -> & Hl4 & Htr & Hfr4 & Htl4); [len|reads; rewrite Hfr2 by lia; reads; by apply Hs|].
  cbn [obind]. autorewrite with blen in Hl4. put_step.
  set (r := splice _ _ p4). exists (upto 64 r).
  assert (Hr : from 64 r = from 64 p).
  { unfold r. rewrite from_splice_ge by len. rewrite Htl4.
    repeat rewrite from_splice_ge by len. rewrite Htl2.
    repeat rewrite from_splice_ge by (first [done | len]). done. }
  split; [by rewrite <- Hr, upto_from|]. unfold header_bytes, r.
  repeat split; [len|..]; reads; try (rewrite Hfr4 by lia; reads);
    rewrite ?le_dec_enc2, ?le_dec_enc4, ?le_dec_enc8; try done;
    try (rewrite Hfr2 by lia; reads; rewrite ?le_dec_enc2; try done; by apply Hs).
Qed.

(** A packet that begins with a header written by [encodeHeader]. *)
(** A packet that begins with the SMB2 magic. *)
Lemma magic_smb2 p :
  4 <= blen p -> sub 0 4 p = PacketHeader.MAGIC ->
  (forall m, PacketCodec.magic_is (of_bytes p) m = Ok (m =? 0xfe))
  /\ PacketCodec.IsSmb1 (of_bytes p) = Ok false.
Proof.
  intros Hl Hm. assert (Hlen : s_len (of_bytes p) = blen p) by done.
  assert (Hpid : PacketCodec.ProtocolId (of_bytes p)
                 = Ok (mkSlice (PacketHeader.MAGIC ++ from 4 p) 4)).
  { unfold PacketCodec.ProtocolId. rewrite (proj2 (Z.ltb_ge _ _)) by lia.
    rewrite s_range_ok by len. do 2 f_equal. cbn [s_arr of_bytes].
    rewrite <- Hm. symmetry. apply (upto_from 4). }
  assert (Hmg : forall m, PacketCodec.magic_is (of_bytes p) m = Ok (m =? 0xfe)).
  { intros m. unfold PacketCodec.magic_is. rewrite Hpid. cbn -[Z.eqb].
    change (Z.to_nat 0) with 0%nat. change (Z.to_nat 1) with 1%nat.
    change (Z.to_nat 2) with 2%nat. change (Z.to_nat 3) with 3%nat.
    rewrite (Z.eqb_sym m). cbv beta iota. destruct (0xfe =? m); reflexivity. }
  split; [done|]. unfold PacketCodec.IsSmb1. rewrite (proj2 (Z.ltb_ge _ _)) by lia. by rewrite Hmg.
Qed.

Lemma header_fields hdr h tl :
  PacketHeader.wf hdr -> header_core hdr h ->
  let p := of_bytes (h ++ tl) in
  PacketCodec.IsSmb1 p = Ok false
  /\ PacketCodec.magic_is p 0xfe = Ok true
  /\ PacketCodec.StructureSize p = Ok 64
  /\ PacketCodec.CreditCharge p = Ok (PacketHeader.CreditCharge hdr)
  /\ PacketCodec.Status p = Ok (if PacketHeader.ChannelSequence hdr =? 0
                                then PacketHeader.Status hdr
                                else PacketHeader.ChannelSequence hdr)
  /\ PacketCodec.Command p = Ok (PacketHeader.Command hdr)
  /\ PacketCodec.CreditRequest p = Ok (PacketHeader.CreditRequestResponse hdr)
  /\ PacketCodec.Flags p = Ok (PacketHeader.Flags hdr)
  /\ PacketCodec.NextCommand p = Ok (PacketHeader.NextCommand hdr)
  /\ PacketCodec.MessageId p = Ok (PacketHeader.MessageId hdr)
  /\ PacketCodec.TreeId p = Ok (if PacketHeader.AsyncId hdr =? 0
                                then PacketHeader.TreeId hdr
                                else PacketHeader.AsyncId hdr / 2 ^ 32)
  /\ PacketCodec.SessionId p = Ok (PacketHeader.SessionId hdr)
  /\ PacketCodec.Data p = Ok (of_bytes tl).
Proof.
  intros (W1&W2&W3&W4&W5&W6&W7&W8&W9&W10&W11)
    (Hl&Hm&H4&H6&H8&H12&H14&H16&H20&H24&H36&H40). cbv zeta.
  rewrite u16_id, u64_id, u32_id in * by done.
  assert (Hlen : s_len (of_bytes (h ++ tl)) = 64 + blen tl) by (cbn; len).
  assert (Hpos := blen_nonneg tl).
  destruct (magic_smb2 (h ++ tl)) as [Hmg Hs1]; [len|by rewrite sub_app_l by len|].
  unfold PacketCodec.Command, PacketCodec.MessageId. rewrite Hs1, Hmg. cbn [obind].
  unfold PacketCodec.StructureSize, PacketCodec.CreditCharge, PacketCodec.Status,
    PacketCodec.CreditRequest, PacketCodec.Flags, PacketCodec.NextCommand,
    PacketCodec.TreeId, PacketCodec.SessionId, PacketCodec.Data.
  repeat get_step. cbn [s_arr of_bytes]. reads.
  rewrite H4, H6, H8, H12, H14, H16, H20, H24, H36, H40.
  repeat split; try done.
  rewrite s_from_of_bytes by len. by rewrite from_app_exact.
Qed.

(** The shape of a packet the receiver accepts. *)
Lemma IsInvalid_total p : slice_wf p -> exists b, PacketCodec.IsInvalid p = Ok b.
Proof.
  intros [H0 Hc]. unfold PacketCodec.IsInvalid.
  destruct (s_len p <? 4) eqn:E4; [eauto|]. apply Z.ltb_ge in E4.
  assert (Hm : forall m, exists b, PacketCodec.magic_is p m = Ok b).
  { intros m. unfold PacketCodec.magic_is, PacketCodec.ProtocolId.
    rewrite (proj2 (Z.ltb_ge _ _)), s_range_ok by lia. cbn [obind].
    rewrite !s_idx_ok by (cbn; lia). cbn [obind].
    repeat case_match; eauto. }
  unfold PacketCodec.IsSmb1. rewrite (proj2 (Z.ltb_ge _ _)) by lia.
  destruct (Hm 0xff) as [b ->]. cbn [obind].
  destruct b; [destruct (s_len p <? 5) eqn:E5; [eauto|]; apply Z.ltb_ge in E5;
    rewrite s_idx_ok by lia; cbn [obind]; eauto|].
  destruct (s_len p <? 64) eqn:E64; [eauto|]. apply Z.ltb_ge in E64.
  destruct (Hm 0xfe) as [b ->]. cbn [obind].
  unfold PacketCodec.StructureSize, PacketCodec.NextCommand.
  repeat get_step. repeat case_match; eauto.
Qed.

Lemma IsInvalid_false_inv p :
  slice_wf p -> PacketCodec.IsInvalid p = Ok false ->
  (PacketCodec.IsSmb1 p = Ok true /\ 5 <= s_len p /\ s_idx p 4 = Ok SMB_COM_NEGOTIATE)
  \/ (PacketCodec.IsSmb1 p = Ok false /\ 64 <= s_len p
      /\ PacketCodec.StructureSize p = Ok 64
      /\ exists nc, PacketCodec.NextCommand p = Ok nc /\ nc mod 8 = 0 /\ nc < s_len p).
Proof.
  intros [H0 Hc]. unfold PacketCodec.IsInvalid.
  destruct (s_len p <? 4) eqn:E4; [done|].
  destruct (PacketCodec.IsSmb1 p) as [b| |] eqn:Es; [|done..]. cbn [obind].
  destruct b.
  - destruct (s_len p <? 5) eqn:E5; [done|]. apply Z.ltb_ge in E5.
    destruct (s_idx p 4) as [c| |] eqn:Ei; [|done..]. cbn [obind]. intros [= Hn].
    apply negb_false_iff, Z.eqb_eq in Hn as ->. by left.
  - destruct (s_len p <? 64) eqn:E64; [done|]. apply Z.ltb_ge in E64.
    destruct (PacketCodec.magic_is p 0xfe) as [m| |]; [|done..]. cbn [obind].
    destruct m; [|done]. cbn [negb].
    destruct (PacketCodec.StructureSize p) as [ss| |]; [|done..]. cbn [obind].
    destruct (ss =? 64) eqn:Ess; [|done]. apply Z.eqb_eq in Ess as ->. cbn [negb].
    destruct (PacketCodec.NextCommand p) as [nc| |]; [|done..]. cbn [obind].
    destruct (has nc 7) eqn:Eh; [done|].
    destruct (s_len p <=? nc) eqn:En; [done|]. apply Z.leb_gt in En.
    intros _. right. split_and!; try done. exists nc. split_and!; [done| |done].
    apply has_land_true in Eh. change 8 with (2 ^ 3). by rewrite <- Z.land_ones by lia.
Qed.

(** C31: round trip of the packet header.  On a fresh (zeroed) buffer of at
    least 64 bytes, [encodeHeader] succeeds, keeps the length and the body,
    and the accessors of [PacketCodec] below read back the fields they were
    given; the status slot holds the channel sequence when that is set, and
    the tree slot the high half of the async id when that is set (of its low
    half nothing is said). *)
Theorem header_roundtrip hdr n :
  PacketHeader.wf hdr -> 64 <= n ->
  exists q,
    PacketHeader.encodeHeader hdr (zeros n) = Ok q
    /\ blen q = n
    /\ PacketCodec.IsSmb1 (of_bytes q) = Ok false
    /\ PacketCodec.StructureSize (of_bytes q) = Ok 64
    /\ PacketCodec.CreditCharge (of_bytes q) = Ok (PacketHeader.CreditCharge hdr)
    /\ PacketCodec.Status (of_bytes q)
       = Ok (if PacketHeader.ChannelSequence hdr =? 0 then PacketHeader.Status hdr
             else PacketHeader.ChannelSequence hdr)
    /\ PacketCodec.Command (of_bytes q) = Ok (PacketHeader.Command hdr)
    /\ PacketCodec.CreditRequest (of_bytes q) = Ok (PacketHeader.CreditRequestResponse hdr)
    /\ PacketCodec.Flags (of_bytes q) = Ok (PacketHeader.Flags hdr)
    /\ PacketCodec.NextCommand (of_bytes q) = Ok (PacketHeader.NextCommand hdr)
    /\ PacketCodec.MessageId (of_bytes q) = Ok (PacketHeader.MessageId hdr)
    /\ PacketCodec.TreeId (of_bytes q)
       = Ok (if PacketHeader.AsyncId hdr =? 0 then PacketHeader.TreeId hdr
             else PacketHeader.AsyncId hdr / 2 ^ 32)
    /\ PacketCodec.SessionId (of_bytes q) = Ok (PacketHeader.SessionId hdr)
    /\ PacketCodec.Data (of_bytes q) = Ok (of_bytes (zeros (n - 64))).
Proof.
  intros Hwf Hn.
  destruct (encodeHeader_bytes hdr (zeros n)) as (h & Hq & Hh); [len| |].
  { apply (sub_zeros 0 64 n); lia. }
  exists (h ++ from 64 (zeros n)). split; [done|].
  destruct Hh as [Hh _]. pose proof (proj1 Hh) as Hl. split; [len|].
  assert (Hz : from 64 (zeros n) = zeros (n - 64)).
  { unfold from, zeros. rewrite drop_replicate. f_equal. lia. }
  destruct (header_fields hdr h (from 64 (zeros n)) Hwf Hh)
    as (?&?&?&?&?&?&?&?&?&?&?&?&?).
  rewrite <- Hz. split_and!; done.
Qed.

Lemma header_roundtrip_witness :
  exists q,
    PacketHeader.encodeHeader (PacketHeader.mk 1 0 0xC0000022 5 31 9 0 77 0 0xAABBCCDD 0x1122334455667788)
      (zeros 80) = Ok q
    /\ PacketCodec.Status (of_bytes q) = Ok 0xC0000022
    /\ PacketCodec.TreeId (of_bytes q) = Ok 0xAABBCCDD.
Proof.
  destruct (header_roundtrip
    (PacketHeader.mk 1 0 0xC0000022 5 31 9 0 77 0 0xAABBCCDD 0x1122334455667788) 80)
    as (q & Hq & _ & _ & _ & _ & Hs & _ & _ & _ & _ & _ & Ht & _).
  - unfold PacketHeader.wf. ints. simpl. lia.
  - lia.
  - exists q. split; [exact Hq|]. split; [exact Hs|exact Ht].
Defined.

(** The receiver's header check is total and sound.  [IsInvalid] never
    panics on any slice; when it accepts a packet, either the packet is an
    SMB1 negotiate of at least 5 bytes, or it has a full 64-byte header,
    every header accessor succeeds, and its NextCommand is a multiple of 8
    that lies inside the packet, so splitting the packet there cannot panic. *)
Theorem header_check_sound p :
  slice_wf p ->
  exists b, PacketCodec.IsInvalid p = Ok b
    /\ (b = false ->
        (PacketCodec.IsSmb1 p = Ok true /\ 5 <= s_len p
         /\ PacketCodec.Command p = Ok SMB_COM_NEGOTIATE)
        \/ (exists cmd flags msg tree sid nc body,
              PacketCodec.Command p = Ok cmd /\ PacketCodec.Flags p = Ok flags
              /\ PacketCodec.MessageId p = Ok msg /\ PacketCodec.TreeId p = Ok tree
              /\ PacketCodec.SessionId p = Ok sid /\ PacketCodec.Data p = Ok body
              /\ PacketCodec.NextCommand p = Ok nc
              /\ nc mod 8 = 0 /\ nc < s_len p)).
Proof.
  intros Hwf. destruct (IsInvalid_total p Hwf) as [b Hb]. exists b. split; [done|].
  intros ->. destruct (IsInvalid_false_inv p Hwf Hb)
    as [(Hs & Hl & Hc) | (Hs & Hl & _ & nc & Hnc & Hm & Hlt)]; [left|right].
  - split_and!; [done|done|]. unfold PacketCodec.Command. by rewrite Hs.
  - unfold PacketCodec.Command, PacketCodec.MessageId. rewrite Hs. cbn [obind].
    unfold PacketCodec.Flags, PacketCodec.TreeId, PacketCodec.SessionId, PacketCodec.Data.
    destruct Hwf as [_ Hcap]. repeat get_step. rewrite s_from_ok by lia.
    do 7 eexists. split_and!; done.
Qed.

Lemma header_check_sound_witness :
  slice_wf (of_bytes (PacketHeader.MAGIC ++ [64; 0] ++ zeros 58))
  /\ exists b, PacketCodec.IsInvalid (of_bytes (PacketHeader.MAGIC ++ [64; 0] ++ zeros 58)) = Ok b.
Proof.
  split; [apply of_bytes_wf|].
  destruct (header_check_sound (of_bytes (PacketHeader.MAGIC ++ [64; 0] ++ zeros 58))
              (of_bytes_wf _)) as (b & Hb & _).
  exists b. exact Hb.
Defined.
