(* ===== verification/Utf16.v ===== *)
(** * UTF-16LE strings (internal/utf16le/utf16le.go)

    A Go string that comes from or goes to the wire is represented by the
    list of its code points ([[]rune(s)]); [unicode/utf16] of the standard
    library is translated with it. *)

From S2P Require Import Prelude.

(** A Go string as its code points. *)
Abbreviation gostring := (list Z).

(** Unicode scalar values: what a rune of a valid string can be. *)
Definition scalar (r : Z) : Prop := 0 <= r < 0xd800 \/ 0xe000 <= r <= 0x10ffff.

(** ** unicode/utf8

    The bytes of a string, where the code looks at them. *)

Definition utf8_encode_rune (r : Z) : bytes :=
  if (0 <=? r) && (r <? 0x80) then [r]
  else if (0x80 <=? r) && (r <? 0x800) then [0xc0 + r / 64; 0x80 + r mod 64]
  else if ((0x800 <=? r) && (r <? 0xd800)) || ((0xe000 <=? r) && (r <? 0x10000)) then
    [0xe0 + r / 4096; 0x80 + r / 64 mod 64; 0x80 + r mod 64]
  else if (0x10000 <=? r) && (r <=? 0x10ffff) then
    [0xf0 + r / 262144; 0x80 + r / 4096 mod 64; 0x80 + r / 64 mod 64; 0x80 + r mod 64]
  else [0xef; 0xbf; 0xbd].

(** [[]byte(s)] *)
Definition string_bytes (s : gostring) : bytes := concat (utf8_encode_rune <$> s).

(** ** unicode/utf16 *)

Definition utf16_encode_rune (r : Z) : list Z :=
  if ((0 <=? r) && (r <? 0xd800)) || ((0xe000 <=? r) && (r <? 0x10000)) then [r]
  else if (0x10000 <=? r) && (r <=? 0x10ffff) then
    let v := r - 0x10000 in
    [0xd800 + v / 1024; 0xdc00 + v mod 1024]
  else [0xfffd].

Definition utf16_Encode (s : gostring) : list Z := concat (utf16_encode_rune <$> s).

Fixpoint utf16_Decode (ws : list Z) : gostring :=
  match ws with
  | [] => []
  | r :: t =>
      if (r <? 0xd800) || (0xe000 <=? r) then r :: utf16_Decode t
      else
        match t with
        | r2 :: t' =>
            if (0xd800 <=? r) && (r <? 0xdc00) && (0xdc00 <=? r2) && (r2 <? 0xe000)
            then ((r - 0xd800) * 1024 + (r2 - 0xdc00) + 0x10000) :: utf16_Decode t'
            else 0xfffd :: utf16_Decode t
        | [] => 0xfffd :: utf16_Decode t
        end
  end.

(** ** The package *)

Definition EncodedStringLen (s : gostring) : Z :=
  foldl (fun l r => if (0x10000 <=? r) && (r <=? 0x10ffff) then l + 4 else l + 2) 0 s.

(** [for i, w := range ws { le.PutUint16(dst[2*i:2*i+2], w) }] *)
Fixpoint put16s (off : Z) (ws : list Z) : enc :=
  match ws with
  | [] => eskip
  | w :: t => put16 off w >> put16s (off + 2) t
  end.

Definition EncodeString (src : gostring) : enc := put16s 0 (utf16_Encode src).

(** What [EncodeString] returns. *)
Definition EncodeString_len (src : gostring) : Z := Z.of_nat (length (utf16_Encode src)) * 2.

Definition EncodeStringToBytes (s : gostring) : outcome bytes :=
  match s with
  | [] => Ok []
  | _ =>
      let ws := utf16_Encode s in
      put16s 0 ws (zeros (Z.of_nat (length ws) * 2))
  end.

(** [ws[i] = le.Uint16(bs[2*i : 2*i+2])] for [i < n]. *)
Fixpoint get16s (s : slice) (off : Z) (n : nat) : outcome (list Z) :=
  match n with
  | O => Ok []
  | S n =>
      let! w := get16 s off (off + 2) in
      let! t := get16s s (off + 2) n in
      Ok (w :: t)
  end.

Definition DecodeToString (bs : slice) : outcome gostring :=
  if s_len bs =? 0 then Ok []
  else
    let! ws := get16s bs 0 (Z.to_nat (s_len bs / 2)) in
    let ws := match last ws with
              | Some 0 => take (length ws - 1) ws
              | _ => ws
              end in
    Ok (utf16_Decode ws).

(** ** Lemmas *)

Definition le16s (ws : list Z) : bytes := concat (le_enc 2 <$> ws).

Lemma blen_le16s ws : blen (le16s ws) = 2 * Z.of_nat (length ws).
Proof.
  induction ws as [|w t IH]; [done|]. unfold le16s in *. cbn [fmap list_fmap concat length].
  rewrite blen_app, IH, blen_le_enc. lia.
Qed.
#[export] Hint Rewrite blen_le16s : blen.

Lemma put16s_ok off ws p :
  0 <= off -> off + 2 * Z.of_nat (length ws) <= blen p ->
  put16s off ws p = Ok (splice off (le16s ws) p).
Proof.
  revert off p. induction ws as [|w t IH]; intros off p Ho Hl; cbn [put16s length] in *.
  - unfold eskip. by rewrite splice_nil.
  - unfold eseq. put_step. rewrite IH by len. f_equal.
    replace (off + 2) with (off + blen (le_enc 2 w)) by (by rewrite blen_le_enc).
    by rewrite splice_splice_next by len.
Qed.

Lemma get16s_ok bs ws off :
  Forall in16 ws -> 0 <= off -> off + 2 * Z.of_nat (length ws) <= s_cap bs ->
  sub off (2 * Z.of_nat (length ws)) (s_arr bs) = le16s ws ->
  get16s bs off (length ws) = Ok ws.
Proof.
  intros Hw. revert off. induction Hw as [|w t Hx Ht IH]; intros off Ho Hl Hs;
    cbn [get16s length] in *; [done|].
  replace (2 * Z.of_nat (S (length t))) with (2 + 2 * Z.of_nat (length t)) in * by lia.
  rewrite sub_split in Hs by lia. unfold le16s in Hs. cbn [fmap list_fmap concat] in Hs.
  assert (Hl2 : blen (sub off 2 (s_arr bs)) = 2) by (apply blen_sub; unfold s_cap in *; lia).
  apply app_inj_1 in Hs as [H1 H2]; [|rewrite length_le_enc; unfold blen in Hl2; lia].
  get_step. rewrite H1, le_dec_enc2, u16_id by done. rewrite IH by (done || lia). done.
Qed.

Lemma utf16_encode_rune_units r : Forall in16 (utf16_encode_rune r).
Proof.
  unfold utf16_encode_rune.
  destruct (_ || _) eqn:E1; [|destruct ((0x10000 <=? r) && _) eqn:E2].
  - rewrite Forall_singleton. unfold in16. lia.
  - pose proof (Z.mod_pos_bound (r - 0x10000) 1024).
    assert (0 <= (r - 0x10000) / 1024) by (apply Z.div_pos; lia).
    assert ((r - 0x10000) / 1024 < 1024) by (apply Z.div_lt_upper_bound; lia).
    cbv zeta. rewrite Forall_cons, Forall_singleton. unfold in16. lia.
  - rewrite Forall_singleton. unfold in16. lia.
Qed.

Lemma utf16_Encode_units s : Forall in16 (utf16_Encode s).
Proof.
  induction s as [|r s IH]; [constructor|]. unfold utf16_Encode in *. cbn [fmap list_fmap concat].
  apply Forall_app. split; [apply utf16_encode_rune_units|done].
Qed.

Lemma utf16_Decode_app r ws :
  scalar r -> utf16_Decode (utf16_encode_rune r ++ ws) = r :: utf16_Decode ws.
Proof.
  intros Hr. unfold utf16_encode_rune, scalar in *.
  destruct (_ || _) eqn:E1; [|destruct ((0x10000 <=? r) && _) eqn:E2]; [| |lia].
  - cbn [app utf16_Decode].
    assert ((r <? 0xd800) || (0xe000 <=? r) = true) as -> by lia. done.
  - set (v := r - 0x10000) in *. cbn [app utf16_Decode].
    pose proof (Z.mod_pos_bound v 1024). pose proof (Z.div_mod v 1024).
    assert (0 <= v / 1024) by (apply Z.div_pos; lia).
    assert (v / 1024 < 1024) by (apply Z.div_lt_upper_bound; lia).
    rewrite (proj2 (Z.ltb_ge _ _)), (proj2 (Z.leb_gt _ _)) by lia. cbn [orb].
    rewrite !(proj2 (Z.leb_le _ _)), !(proj2 (Z.ltb_lt _ _)) by lia. cbn [andb].
    f_equal. lia.
Qed.

Lemma utf16_Decode_Encode s : Forall scalar s -> utf16_Decode (utf16_Encode s) = s.
Proof.
  induction 1 as [|r s Hr Hs IH]; [done|]. unfold utf16_Encode in *.
  cbn [fmap list_fmap concat]. by rewrite utf16_Decode_app, IH.
Qed.

Lemma EncodedStringLen_ok s : Forall scalar s -> EncodedStringLen s = EncodeString_len s.
Proof.
  intros Hs. unfold EncodedStringLen, EncodeString_len.
  enough (forall l, foldl (fun l r => if (0x10000 <=? r) && (r <=? 0x10ffff) then l + 4 else l + 2) l s
     = l + Z.of_nat (length (utf16_Encode s)) * 2) as -> by lia.
  induction Hs as [|r s Hr Hs IH]; intros l; cbn [foldl]; [simpl; lia|].
  rewrite IH. unfold utf16_Encode. cbn [fmap list_fmap concat]. rewrite length_app.
  unfold utf16_encode_rune, scalar in *.
  destruct (_ || _) eqn:E1; destruct ((0x10000 <=? r) && _) eqn:E2; cbn [length]; lia.
Qed.

Lemma EncodeString_ok s p :
  EncodeString_len s <= blen p -> EncodeString s p = Ok (splice 0 (le16s (utf16_Encode s)) p).
Proof. intros. unfold EncodeString, EncodeString_len in *. apply put16s_ok; lia. Qed.

Lemma EncodeString_len_nonneg s : 0 <= EncodeString_len s.
Proof. unfold EncodeString_len. lia. Qed.

Lemma last_encode_nonzero s :
  Forall scalar s -> last s <> Some 0 -> last (utf16_Encode s) <> Some 0.
Proof.
  intros Hs Hl. destruct s as [|r s _] using rev_ind; [done|].
  rewrite last_snoc in Hl. apply Forall_app in Hs as [_ Hr].
  apply Forall_cons in Hr as [Hr _].
  unfold utf16_Encode. rewrite fmap_app, concat_app. cbn [fmap list_fmap concat]. rewrite app_nil_r.
  unfold utf16_encode_rune, scalar in *.
  destruct (_ || _) eqn:E1; [|destruct ((0x10000 <=? r) && _) eqn:E2]; [| |lia].
  - by rewrite last_snoc.
  - rewrite last_app. cbn [last]. intros [= Heq].
    pose proof (Z.mod_pos_bound (r - 0x10000) 1024). lia.
Qed.

(** Decoding the code units of [s] from a slice that holds exactly them. *)
Lemma DecodeToString_ok bs s :
  Forall scalar s -> last s <> Some 0 -> slice_wf bs ->
  s_bytes bs = le16s (utf16_Encode s) -> DecodeToString bs = Ok s.
Proof.
  intros Hs Hl Hwf Hb.
  assert (Hlen : s_len bs = 2 * Z.of_nat (length (utf16_Encode s))).
  { rewrite <- (blen_s_bytes bs Hwf), Hb. apply blen_le16s. }
  unfold DecodeToString. destruct (s_len bs =? 0) eqn:E0.
  { assert (utf16_Encode s = []) as Hn by (apply nil_length_inv; lia).
    f_equal. rewrite <- (utf16_Decode_Encode s Hs), Hn. done. }
  rewrite Hlen, Z.mul_comm, Z.div_mul, Nat2Z.id by lia.
  rewrite (get16s_ok bs (utf16_Encode s)); cbn [obind].
  - assert (Hne := last_encode_nonzero s Hs Hl).
    destruct (last (utf16_Encode s)) as [[|q|q]|] eqn:E; [done|..]; by rewrite utf16_Decode_Encode.
  - apply utf16_Encode_units.
  - lia.
  - destruct Hwf. lia.
  - rewrite <- Hb. unfold s_bytes. rewrite Hlen. done.
Qed.

(** Strings survive the wire.  For every string of Unicode scalar
    values that does not end in NUL, [EncodeString] into a fresh buffer of
    [EncodedStringLen] bytes succeeds and [DecodeToString] of the result is
    the string; the announced length is the number of bytes written. *)
Theorem utf16_roundtrip s :
  Forall scalar s -> last s <> Some 0 ->
  exists q, EncodeString s (zeros (EncodedStringLen s)) = Ok q
    /\ blen q = EncodedStringLen s
    /\ DecodeToString (of_bytes q) = Ok s.
Proof.
  intros Hs Hl. rewrite EncodedStringLen_ok by done.
  pose proof (EncodeString_len_nonneg s).
  eexists. rewrite EncodeString_ok by len. split; [done|]. split; [len|].
  apply DecodeToString_ok; [done|done|apply of_bytes_wf|].
  rewrite s_bytes_of_bytes, splice_full; [done|]. unfold EncodeString_len in *. len.
Qed.

Lemma utf16_roundtrip_witness :
  exists q, EncodeString [0x41; 0x1F600; 0x42] (zeros 8) = Ok q
    /\ DecodeToString (of_bytes q) = Ok [0x41; 0x1F600; 0x42].
Proof.
  destruct (utf16_roundtrip [0x41; 0x1F600; 0x42]) as (q & Hq & _ & Hd).
  - unfold scalar. repeat constructor; lia.
  - simpl. congruence.
  - exists q. split; [exact Hq | exact Hd].
Defined.
