(* ===== verification/Stats.v ===== *)
(** * Statistics of the file system (stats/srv.go)

    Counters of the whole server and of each file, by the path it was used
    under.  The mutex makes each function one step.  The HTTP server that shows
    them is not modelled; its reset handler is. *)

From S2P Require Import Prelude Utf16.

Module FileStats.
Record t := mk {
  ReadBytes : Z; WriteBytes : Z; WriteBytesIdent : Z; WriteBytesZero : Z; DeleteCount : Z;
  RenameCount : Z; TruncateCount : Z; OpenCount : Z; XattrListCount : Z; XattrReadCount : Z;
  XattrWriteCount : Z; XattrDeleteCount : Z
}.
(** The value of a missing key. *)
Definition zero : t := mk 0 0 0 0 0 0 0 0 0 0 0 0.
Definition set_ReadBytes (v : Z) (s : t) : t :=
  mk v (WriteBytes s) (WriteBytesIdent s) (WriteBytesZero s) (DeleteCount s) (RenameCount s) (TruncateCount s) (OpenCount s) (XattrListCount s) (XattrReadCount s) (XattrWriteCount s) (XattrDeleteCount s).
Definition set_WriteBytes (v : Z) (s : t) : t :=
  mk (ReadBytes s) v (WriteBytesIdent s) (WriteBytesZero s) (DeleteCount s) (RenameCount s) (TruncateCount s) (OpenCount s) (XattrListCount s) (XattrReadCount s) (XattrWriteCount s) (XattrDeleteCount s).
Definition set_WriteBytesIdent (v : Z) (s : t) : t :=
  mk (ReadBytes s) (WriteBytes s) v (WriteBytesZero s) (DeleteCount s) (RenameCount s) (TruncateCount s) (OpenCount s) (XattrListCount s) (XattrReadCount s) (XattrWriteCount s) (XattrDeleteCount s).
Definition set_WriteBytesZero (v : Z) (s : t) : t :=
  mk (ReadBytes s) (WriteBytes s) (WriteBytesIdent s) v (DeleteCount s) (RenameCount s) (TruncateCount s) (OpenCount s) (XattrListCount s) (XattrReadCount s) (XattrWriteCount s) (XattrDeleteCount s).
Definition set_DeleteCount (v : Z) (s : t) : t :=
  mk (ReadBytes s) (WriteBytes s) (WriteBytesIdent s) (WriteBytesZero s) v (RenameCount s) (TruncateCount s) (OpenCount s) (XattrListCount s) (XattrReadCount s) (XattrWriteCount s) (XattrDeleteCount s).
Definition set_RenameCount (v : Z) (s : t) : t :=
  mk (ReadBytes s) (WriteBytes s) (WriteBytesIdent s) (WriteBytesZero s) (DeleteCount s) v (TruncateCount s) (OpenCount s) (XattrListCount s) (XattrReadCount s) (XattrWriteCount s) (XattrDeleteCount s).
Definition set_TruncateCount (v : Z) (s : t) : t :=
  mk (ReadBytes s) (WriteBytes s) (WriteBytesIdent s) (WriteBytesZero s) (DeleteCount s) (RenameCount s) v (OpenCount s) (XattrListCount s) (XattrReadCount s) (XattrWriteCount s) (XattrDeleteCount s).
Definition set_OpenCount (v : Z) (s : t) : t :=
  mk (ReadBytes s) (WriteBytes s) (WriteBytesIdent s) (WriteBytesZero s) (DeleteCount s) (RenameCount s) (TruncateCount s) v (XattrListCount s) (XattrReadCount s) (XattrWriteCount s) (XattrDeleteCount s).
Definition set_XattrListCount (v : Z) (s : t) : t :=
  mk (ReadBytes s) (WriteBytes s) (WriteBytesIdent s) (WriteBytesZero s) (DeleteCount s) (RenameCount s) (TruncateCount s) (OpenCount s) v (XattrReadCount s) (XattrWriteCount s) (XattrDeleteCount s).
Definition set_XattrReadCount (v : Z) (s : t) : t :=
  mk (ReadBytes s) (WriteBytes s) (WriteBytesIdent s) (WriteBytesZero s) (DeleteCount s) (RenameCount s) (TruncateCount s) (OpenCount s) (XattrListCount s) v (XattrWriteCount s) (XattrDeleteCount s).
Definition set_XattrWriteCount (v : Z) (s : t) : t :=
  mk (ReadBytes s) (WriteBytes s) (WriteBytesIdent s) (WriteBytesZero s) (DeleteCount s) (RenameCount s) (TruncateCount s) (OpenCount s) (XattrListCount s) (XattrReadCount s) v (XattrDeleteCount s).
Definition set_XattrDeleteCount (v : Z) (s : t) : t :=
  mk (ReadBytes s) (WriteBytes s) (WriteBytesIdent s) (WriteBytesZero s) (DeleteCount s) (RenameCount s) (TruncateCount s) (OpenCount s) (XattrListCount s) (XattrReadCount s) (XattrWriteCount s) v.
End FileStats.

Module Stats.
Record t := mk {
  ReadBytes : Z; WriteBytes : Z; WriteBytesIdent : Z; WriteBytesZero : Z; OpenCount : Z; DeleteCount
  : Z; RenameCount : Z; TruncateCount : Z; MkdirCount : Z; SymlinkCount : Z; XattrListCount : Z;
  XattrReadCount : Z; XattrWriteCount : Z; XattrDeleteCount : Z;
  Files : gmap gostring FileStats.t
}.
Definition set_ReadBytes (v : Z) (s : t) : t :=
  mk v (WriteBytes s) (WriteBytesIdent s) (WriteBytesZero s) (OpenCount s) (DeleteCount s) (RenameCount s) (TruncateCount s) (MkdirCount s) (SymlinkCount s) (XattrListCount s) (XattrReadCount s) (XattrWriteCount s) (XattrDeleteCount s) (Files s).
Definition set_WriteBytes (v : Z) (s : t) : t :=
  mk (ReadBytes s) v (WriteBytesIdent s) (WriteBytesZero s) (OpenCount s) (DeleteCount s) (RenameCount s) (TruncateCount s) (MkdirCount s) (SymlinkCount s) (XattrListCount s) (XattrReadCount s) (XattrWriteCount s) (XattrDeleteCount s) (Files s).
Definition set_WriteBytesIdent (v : Z) (s : t) : t :=
  mk (ReadBytes s) (WriteBytes s) v (WriteBytesZero s) (OpenCount s) (DeleteCount s) (RenameCount s) (TruncateCount s) (MkdirCount s) (SymlinkCount s) (XattrListCount s) (XattrReadCount s) (XattrWriteCount s) (XattrDeleteCount s) (Files s).
Definition set_WriteBytesZero (v : Z) (s : t) : t :=
  mk (ReadBytes s) (WriteBytes s) (WriteBytesIdent s) v (OpenCount s) (DeleteCount s) (RenameCount s) (TruncateCount s) (MkdirCount s) (SymlinkCount s) (XattrListCount s) (XattrReadCount s) (XattrWriteCount s) (XattrDeleteCount s) (Files s).
Definition set_OpenCount (v : Z) (s : t) : t :=
  mk (ReadBytes s) (WriteBytes s) (WriteBytesIdent s) (WriteBytesZero s) v (DeleteCount s) (RenameCount s) (TruncateCount s) (MkdirCount s) (SymlinkCount s) (XattrListCount s) (XattrReadCount s) (XattrWriteCount s) (XattrDeleteCount s) (Files s).
Definition set_DeleteCount (v : Z) (s : t) : t :=
  mk (ReadBytes s) (WriteBytes s) (WriteBytesIdent s) (WriteBytesZero s) (OpenCount s) v (RenameCount s) (TruncateCount s) (MkdirCount s) (SymlinkCount s) (XattrListCount s) (XattrReadCount s) (XattrWriteCount s) (XattrDeleteCount s) (Files s).
Definition set_RenameCount (v : Z) (s : t) : t :=
  mk (ReadBytes s) (WriteBytes s) (WriteBytesIdent s) (WriteBytesZero s) (OpenCount s) (DeleteCount s) v (TruncateCount s) (MkdirCount s) (SymlinkCount s) (XattrListCount s) (XattrReadCount s) (XattrWriteCount s) (XattrDeleteCount s) (Files s).
Definition set_TruncateCount (v : Z) (s : t) : t :=
  mk (ReadBytes s) (WriteBytes s) (WriteBytesIdent s) (WriteBytesZero s) (OpenCount s) (DeleteCount s) (RenameCount s) v (MkdirCount s) (SymlinkCount s) (XattrListCount s) (XattrReadCount s) (XattrWriteCount s) (XattrDeleteCount s) (Files s).
Definition set_MkdirCount (v : Z) (s : t) : t :=
  mk (ReadBytes s) (WriteBytes s) (WriteBytesIdent s) (WriteBytesZero s) (OpenCount s) (DeleteCount s) (RenameCount s) (TruncateCount s) v (SymlinkCount s) (XattrListCount s) (XattrReadCount s) (XattrWriteCount s) (XattrDeleteCount s) (Files s).
Definition set_SymlinkCount (v : Z) (s : t) : t :=
  mk (ReadBytes s) (WriteBytes s) (WriteBytesIdent s) (WriteBytesZero s) (OpenCount s) (DeleteCount s) (RenameCount s) (TruncateCount s) (MkdirCount s) v (XattrListCount s) (XattrReadCount s) (XattrWriteCount s) (XattrDeleteCount s) (Files s).
Definition set_XattrListCount (v : Z) (s : t) : t :=
  mk (ReadBytes s) (WriteBytes s) (WriteBytesIdent s) (WriteBytesZero s) (OpenCount s) (DeleteCount s) (RenameCount s) (TruncateCount s) (MkdirCount s) (SymlinkCount s) v (XattrReadCount s) (XattrWriteCount s) (XattrDeleteCount s) (Files s).
Definition set_XattrReadCount (v : Z) (s : t) : t :=
  mk (ReadBytes s) (WriteBytes s) (WriteBytesIdent s) (WriteBytesZero s) (OpenCount s) (DeleteCount s) (RenameCount s) (TruncateCount s) (MkdirCount s) (SymlinkCount s) (XattrListCount s) v (XattrWriteCount s) (XattrDeleteCount s) (Files s).
Definition set_XattrWriteCount (v : Z) (s : t) : t :=
  mk (ReadBytes s) (WriteBytes s) (WriteBytesIdent s) (WriteBytesZero s) (OpenCount s) (DeleteCount s) (RenameCount s) (TruncateCount s) (MkdirCount s) (SymlinkCount s) (XattrListCount s) (XattrReadCount s) v (XattrDeleteCount s) (Files s).
Definition set_XattrDeleteCount (v : Z) (s : t) : t :=
  mk (ReadBytes s) (WriteBytes s) (WriteBytesIdent s) (WriteBytesZero s) (OpenCount s) (DeleteCount s) (RenameCount s) (TruncateCount s) (MkdirCount s) (SymlinkCount s) (XattrListCount s) (XattrReadCount s) (XattrWriteCount s) v (Files s).
Definition set_Files (v : gmap gostring FileStats.t) (s : t) : t :=
  mk (ReadBytes s) (WriteBytes s) (WriteBytesIdent s) (WriteBytesZero s) (OpenCount s) (DeleteCount s) (RenameCount s) (TruncateCount s) (MkdirCount s) (SymlinkCount s) (XattrListCount s) (XattrReadCount s) (XattrWriteCount s) (XattrDeleteCount s) v.
End Stats.

(** [&Stats{Files: make(map[string]FileStats)}] *)
Definition new_stats : Stats.t := Stats.mk 0 0 0 0 0 0 0 0 0 0 0 0 0 0 ∅.
Definition resetHandler (_ : Stats.t) : Stats.t := new_stats.

Definition file_stats (s : Stats.t) (name : gostring) : FileStats.t :=
  default FileStats.zero (Stats.Files s !! name).
(** [f := stats.Files[name]; f.X += ...; stats.Files[name] = f] *)
Definition update_file (name : gostring) (upd : FileStats.t -> FileStats.t) (s : Stats.t) : Stats.t :=
  Stats.set_Files (<[name := upd (file_stats s name)]> (Stats.Files s)) s.

Definition AddReadBytes (name : gostring) (cnt : Z) (s : Stats.t) : Stats.t :=
  let s := Stats.set_ReadBytes (u64 (Stats.ReadBytes s + cnt)) s in
  update_file name (fun f => FileStats.set_ReadBytes (u64 (FileStats.ReadBytes f + cnt)) f) s.
Definition AddWriteBytes (name : gostring) (cnt : Z) (s : Stats.t) : Stats.t :=
  let s := Stats.set_WriteBytes (u64 (Stats.WriteBytes s + cnt)) s in
  update_file name (fun f => FileStats.set_WriteBytes (u64 (FileStats.WriteBytes f + cnt)) f) s.
Definition AddWriteIdentBytes (name : gostring) (cnt : Z) (s : Stats.t) : Stats.t :=
  let s := Stats.set_WriteBytesIdent (u64 (Stats.WriteBytesIdent s + cnt)) s in
  update_file name (fun f => FileStats.set_WriteBytesIdent (u64 (FileStats.WriteBytesIdent f + cnt)) f) s.
Definition AddWriteZeroBytes (name : gostring) (cnt : Z) (s : Stats.t) : Stats.t :=
  let s := Stats.set_WriteBytesZero (u64 (Stats.WriteBytesZero s + cnt)) s in
  update_file name (fun f => FileStats.set_WriteBytesZero (u64 (FileStats.WriteBytesZero f + cnt)) f) s.
Definition AddOpen (name : gostring) (s : Stats.t) : Stats.t :=
  let s := Stats.set_OpenCount (u64 (Stats.OpenCount s + 1)) s in
  update_file name (fun f => FileStats.set_OpenCount (u64 (FileStats.OpenCount f + 1)) f) s.
Definition AddDelete (name : gostring) (s : Stats.t) : Stats.t :=
  let s := Stats.set_DeleteCount (u64 (Stats.DeleteCount s + 1)) s in
  update_file name (fun f => FileStats.set_DeleteCount (u64 (FileStats.DeleteCount f + 1)) f) s.
Definition AddRename (name : gostring) (s : Stats.t) : Stats.t :=
  let s := Stats.set_RenameCount (u64 (Stats.RenameCount s + 1)) s in
  update_file name (fun f => FileStats.set_RenameCount (u64 (FileStats.RenameCount f + 1)) f) s.
Definition AddTruncate (name : gostring) (s : Stats.t) : Stats.t :=
  let s := Stats.set_TruncateCount (u64 (Stats.TruncateCount s + 1)) s in
  update_file name (fun f => FileStats.set_TruncateCount (u64 (FileStats.TruncateCount f + 1)) f) s.
Definition AddXattrList (name : gostring) (s : Stats.t) : Stats.t :=
  let s := Stats.set_XattrListCount (u64 (Stats.XattrListCount s + 1)) s in
  update_file name (fun f => FileStats.set_XattrListCount (u64 (FileStats.XattrListCount f + 1)) f) s.
Definition AddXattrRead (name : gostring) (s : Stats.t) : Stats.t :=
  let s := Stats.set_XattrReadCount (u64 (Stats.XattrReadCount s + 1)) s in
  update_file name (fun f => FileStats.set_XattrReadCount (u64 (FileStats.XattrReadCount f + 1)) f) s.
Definition AddXattrWrite (name : gostring) (s : Stats.t) : Stats.t :=
  let s := Stats.set_XattrWriteCount (u64 (Stats.XattrWriteCount s + 1)) s in
  update_file name (fun f => FileStats.set_XattrWriteCount (u64 (FileStats.XattrWriteCount f + 1)) f) s.
Definition AddXattrDelete (name : gostring) (s : Stats.t) : Stats.t :=
  let s := Stats.set_XattrDeleteCount (u64 (Stats.XattrDeleteCount s + 1)) s in
  update_file name (fun f => FileStats.set_XattrDeleteCount (u64 (FileStats.XattrDeleteCount f + 1)) f) s.
(** These count for the whole server only. *)
Definition AddSymlink (name : gostring) (s : Stats.t) : Stats.t :=
  Stats.set_SymlinkCount (u64 (Stats.SymlinkCount s + 1)) s.
Definition AddMkdir (name : gostring) (s : Stats.t) : Stats.t :=
  Stats.set_MkdirCount (u64 (Stats.MkdirCount s + 1)) s.

(** ** The counters of the files add up *)

(** The counters that are kept twice. *)
Definition counters : list ((Stats.t -> Z) * (FileStats.t -> Z)) :=
  [(Stats.ReadBytes, FileStats.ReadBytes);
   (Stats.WriteBytes, FileStats.WriteBytes);
   (Stats.WriteBytesIdent, FileStats.WriteBytesIdent);
   (Stats.WriteBytesZero, FileStats.WriteBytesZero);
   (Stats.DeleteCount, FileStats.DeleteCount);
   (Stats.RenameCount, FileStats.RenameCount);
   (Stats.TruncateCount, FileStats.TruncateCount);
   (Stats.OpenCount, FileStats.OpenCount);
   (Stats.XattrListCount, FileStats.XattrListCount);
   (Stats.XattrReadCount, FileStats.XattrReadCount);
   (Stats.XattrWriteCount, FileStats.XattrWriteCount);
   (Stats.XattrDeleteCount, FileStats.XattrDeleteCount)].

Definition total (p : FileStats.t -> Z) (m : gmap gostring FileStats.t) : Z :=
  map_fold (fun _ f acc => p f + acc) 0 m.

(** Each counter of the server is the sum of the files', as machine integers. *)
Definition counted (s : Stats.t) : Prop :=
  Forall (fun c => c.1 s = u64 (total c.2 (Stats.Files s))) counters.

Lemma total_insert_new p m k f : m !! k = None -> total p (<[k := f]> m) = p f + total p m.
Proof. intros Hk. unfold total.
  rewrite (map_fold_insert_L (fun _ f acc => p f + acc)); [done| |done]. intros. lia.
Qed.

Lemma total_update p m k f :
  p FileStats.zero = 0 -> total p (<[k := f]> m) = total p m - p (default FileStats.zero (m !! k)) + p f.
Proof.
  intros Hz. destruct (m !! k) as [f0|] eqn:E; cbn [from_option]; unfold id.
  - pose proof (total_insert_new p (delete k m) k f (lookup_delete_eq m k)) as H1.
    pose proof (total_insert_new p (delete k m) k f0 (lookup_delete_eq m k)) as H2.
    rewrite insert_delete_eq in H1. rewrite insert_delete_id in H2 by done. lia.
  - rewrite total_insert_new by done. lia.
Qed.

(** The functions that count, and the reset. *)
Inductive stats_step : Stats.t -> Stats.t -> Prop :=
| step_reset s : stats_step s (resetHandler s)
| step_symlink name s : stats_step s (AddSymlink name s)
| step_mkdir name s : stats_step s (AddMkdir name s)
| step_readbytes name cnt s : stats_step s (AddReadBytes name cnt s)
| step_writebytes name cnt s : stats_step s (AddWriteBytes name cnt s)
| step_writeidentbytes name cnt s : stats_step s (AddWriteIdentBytes name cnt s)
| step_writezerobytes name cnt s : stats_step s (AddWriteZeroBytes name cnt s)
| step_open name s : stats_step s (AddOpen name s)
| step_delete name s : stats_step s (AddDelete name s)
| step_rename name s : stats_step s (AddRename name s)
| step_truncate name s : stats_step s (AddTruncate name s)
| step_xattrlist name s : stats_step s (AddXattrList name s)
| step_xattrread name s : stats_step s (AddXattrRead name s)
| step_xattrwrite name s : stats_step s (AddXattrWrite name s)
| step_xattrdelete name s : stats_step s (AddXattrDelete name s).

Lemma u64_add_sub g S o c : g = u64 S -> u64 (g + c) = u64 (S - o + u64 (o + c)).
Proof.
  intros ->. unfold u64. rewrite Zplus_mod_idemp_l, Zplus_mod_idemp_r. f_equal. lia.
Qed.
Lemma u64_same g S o : g = u64 S -> g = u64 (S - o + o).
Proof. intros ->. f_equal. lia. Qed.

Lemma counted_update s name upd (s1 : Stats.t) :
  counted s -> Stats.Files s1 = Stats.Files s ->
  Forall (fun c => c.2 FileStats.zero = 0 /\
    let f := file_stats s name in
    (exists n, c.1 s1 = u64 (c.1 s + n) /\ c.2 (upd f) = u64 (c.2 f + n))
    \/ (c.1 s1 = c.1 s /\ c.2 (upd f) = c.2 f)) counters ->
  (forall c, c ∈ counters -> c.1 (update_file name upd s1) = c.1 s1) ->
  counted (update_file name upd s1).
Proof.
  intros Hs Hf Hc Hu. apply Forall_forall. intros c Hin. rewrite Hu by done.
  pose proof (proj1 (Forall_forall _ _) Hs c Hin) as Hg. pose proof (proj1 (Forall_forall _ _) Hc c Hin) as [Hz Hd].
  cbn [update_file Stats.set_Files Stats.Files]. unfold update_file, file_stats. cbn [Stats.Files Stats.set_Files].
  rewrite Hf. rewrite total_update by done. unfold file_stats in Hd. cbv zeta in Hd.
  destruct Hd as [(n & -> & ->)|[-> ->]]; [by apply u64_add_sub|by apply u64_same].
Qed.

(** C34: the statistics add up.  Starting from none, after any sequence of
    counted operations and resets, every counter of the server that is also
    kept for each file is the sum of the files' counters modulo 2^64. *)
Theorem stats_add_up s : rtc stats_step new_stats s -> counted s.
Proof.
  intros Hr. remember new_stats as s0 eqn:E0. assert (H0 : counted s0).
  { subst. repeat constructor. }
  clear E0. induction Hr as [|s1 s2 s3 Hst _ IH]; [done|]. apply IH. clear IH.
  destruct Hst.
  { repeat constructor. }
  1-2: unfold counted, counters in *; repeat (apply Forall_cons in H0 as [Hc H0]; apply Forall_cons_2; [exact Hc|clear Hc]);
       apply Forall_nil_2.
  all: apply (counted_update s); [exact H0|done| |].
  all: try (intros c Hc; unfold counters in Hc; repeat (apply elem_of_cons in Hc as [->|Hc]; [reflexivity|]);
            by apply not_elem_of_nil in Hc).
  all: unfold counters; repeat (apply Forall_cons_2;
         [split; [reflexivity|cbv zeta; first [right; split; reflexivity|left; eexists; split; reflexivity]]|]);
         apply Forall_nil_2.
Qed.

Lemma stats_add_up_witness :
  counted (AddReadBytes [97] 5 (AddOpen [97] (AddReadBytes [98] 7 new_stats))).
Proof.
  apply stats_add_up.
  eapply rtc_l; [apply (step_readbytes [98] 7)|]. eapply rtc_l; [apply (step_open [97])|].
  eapply rtc_l; [apply (step_readbytes [97] 5)|]. apply rtc_refl.
Defined.
