(* ===== verification/Paths.v ===== *)
(** * Strings and paths (server/path.go, the string helpers of internal/smb2/util.go)

    What the code uses of the Go packages strings, path and path/filepath, and
    the path functions of the server, on strings as code points. *)

From S2P Require Import Prelude Utf16.

(** ASCII literals. *)
Definition lit (s : string) : bytes := (fun a => Z.of_N (Ascii.N_of_ascii a)) <$> String.list_ascii_of_string s.

Definition slash : Z := 0x2f.
Definition backslash : Z := 0x5c.
Definition colon : Z := 0x3a.
Definition dot : Z := 0x2e.

(** ** Package strings *)

(** [strings.ReplaceAll] of one character by another. *)
Definition ReplaceAll (s : gostring) (old new : Z) : gostring :=
  (fun c => if c =? old then new else c) <$> s.
(** [strings.Contains] of a one-character string. *)
Definition Contains (s : gostring) (c : Z) : bool := existsb (Z.eqb c) s.

Definition HasSuffix (s suf : gostring) : bool :=
  (length suf <=? length s)%nat && bool_decide (drop (length s - length suf) s = suf).

Fixpoint Split (s : gostring) (sep : Z) : list gostring :=
  match s with
  | [] => [[]]
  | c :: s =>
      match Split s sep with
      | p :: ps => if c =? sep then [] :: p :: ps else (c :: p) :: ps
      | [] => []
      end
  end.

(** [strings.Join] with a one-character separator. *)
Fixpoint Join (elem : list gostring) (sep : Z) : gostring :=
  match elem with
  | [] => []
  | [e] => e
  | e :: es => e ++ [sep] ++ Join es sep
  end.

(** The longest prefix without [sep] and the rest, from its first [sep] on. *)
Fixpoint until (sep : Z) (s : gostring) : gostring * gostring :=
  match s with
  | [] => ([], [])
  | c :: t => if c =? sep then ([], s) else let '(a, b) := until sep t in (c :: a, b)
  end.
Fixpoint skip (sep : Z) (s : gostring) : gostring :=
  match s with
  | [] => []
  | c :: t => if c =? sep then skip sep t else s
  end.

(** Backward loops over a path, as loops over its reverse: without the
    trailing separators; up to and with the last separator; after it. *)
Definition strip (sep : Z) (s : gostring) : gostring := reverse (skip sep (reverse s)).
Definition upto_last (sep : Z) (s : gostring) : gostring := reverse (snd (until sep (reverse s))).
Definition after_last (sep : Z) (s : gostring) : gostring := reverse (fst (until sep (reverse s))).

(** ** Packages path and path/filepath *)

(** [path.Base], and [filepath.Base] where the separator is a slash. *)
Definition Base (path : gostring) : gostring :=
  match path with
  | [] => [dot]
  | _ =>
      match after_last slash (strip slash path) with
      | [] => [slash]
      | name => name
      end
  end.

Definition IsAbs (path : gostring) : bool :=
  match path with c :: _ => c =? slash | [] => false end.

(** The elements [path.Clean] keeps, most recent first: a ".." takes back a
    name before it, and stays when there is none and the path is relative. *)
Fixpoint clean_elems (rooted : bool) (es out : list gostring) : list gostring :=
  match es with
  | [] => out
  | e :: es =>
      let out :=
        if bool_decide (e = []) || bool_decide (e = [dot]) then out
        else if bool_decide (e = [dot; dot]) then
          match out with
          | top :: rest => if bool_decide (top = [dot; dot]) then e :: out else rest
          | [] => if rooted then [] else [e]
          end
        else e :: out in
      clean_elems rooted es out
  end.
Definition Clean (path : gostring) : gostring :=
  match path with
  | [] => [dot]
  | _ =>
      let rooted := IsAbs path in
      let body := Join (reverse (clean_elems rooted (Split path slash) [])) slash in
      if rooted then slash :: body else match body with [] => [dot] | _ => body end
  end.
(** [path.Join(a, b)] *)
Definition Join2 (a b : gostring) : gostring :=
  match a, b with
  | [], [] => []
  | [], _ => Clean b
  | _, _ => Clean (a ++ [slash] ++ b)
  end.

(** ** util.go *)

Definition ContainsWildcard (s : gostring) : bool := Contains s 0x2a || Contains s 0x3f.
Definition IsEA (p : gostring) : bool := Contains p colon.
(** [a[0], a[1]] of the split: at least two parts, or a panic. *)
Definition SplitEA (p : gostring) : outcome (gostring * gostring) :=
  match Split p colon with
  | a :: b :: _ => Ok (a, b)
  | _ => Panic
  end.

(** [ReplaceAll(ReplaceAll(pattern, "?", "."), "*", ".*")] between anchors. *)
Definition wildcardToRegexp (pattern : gostring) : gostring :=
  [0x5e] ++ concat ((fun c => if c =? 0x3f then [dot] else if c =? 0x2a then [dot; 0x2a] else [c])
                      <$> pattern) ++ [0x24].

(** ** server/path.go *)

Definition NORMALIZE_PATH : bool := true.
Definition PathSeparator : Z := backslash.
Definition IsPathSeparator (c : Z) : bool := c =? backslash.

Definition base (path : gostring) : gostring := after_last backslash (strip backslash path).

Definition dir (path : gostring) : gostring :=
  match path with
  | [] => []
  | _ =>
      match strip backslash path with
      | [] => [backslash]
      | p =>
          match upto_last backslash p with
          | [] => []
          | q =>
              match strip backslash (removelast q) with
              | [] => [backslash]
              | r => r
              end
          end
      end
  end.

(** [Some] is the error's text. *)
Definition validatePath (path : gostring) (allowAbs : bool) : option string :=
  match path with
  | [] => None
  | c :: _ =>
      if negb NORMALIZE_PATH && Contains path slash
      then Some "can't use '/' as a path separator; use '\' instead"%string
      else if negb allowAbs && (c =? backslash)
      then Some "leading '\' is not allowed in this operation"%string
      else None
  end.

(** The pattern: two backslashes, a server, a backslash, a share; neither
    name is empty or has a separator in it. *)
Definition mount_name (s : gostring) : bool := negb (bool_decide (s = [])) && negb (Contains s slash).
Definition validateMountPath (path : gostring) : bool :=
  match Split path backslash with
  | [e1; e2; server; share] =>
      bool_decide (e1 = []) && bool_decide (e2 = []) && mount_name server && mount_name share
  | _ => false
  end.

(** [for strings.HasPrefix(path, ".\") { path = path[2:] }] *)
Fixpoint drop_here (s : gostring) : gostring :=
  match s with
  | c :: ((c' :: t) as s') => if (c =? dot) && (c' =? backslash) then drop_here t else s
  | _ => s
  end.

Definition normPattern (pattern : gostring) : gostring :=
  if negb NORMALIZE_PATH then pattern else drop_here (ReplaceAll pattern slash backslash).

Definition normPath (path : gostring) : gostring :=
  if negb NORMALIZE_PATH then path else
  let path := drop_here (ReplaceAll path slash backslash) in
  if bool_decide (path = [dot]) then [] else path.

Definition join (elem : list gostring) : gostring := normPath (Join elem PathSeparator).

Definition split (path : gostring) : gostring * gostring :=
  (upto_last backslash path, after_last backslash path).

(** ** Facts *)

Lemma Contains_cons x s c : Contains (x :: s) c = (c =? x) || Contains s c.
Proof. done. Qed.

Lemma ReplaceAll_gone s a b : a <> b -> Contains (ReplaceAll s a b) a = false.
Proof.
  intros Hab. induction s as [|c s IH]; [done|].
  change (ReplaceAll (c :: s) a b) with ((if c =? a then b else c) :: ReplaceAll s a b).
  rewrite Contains_cons, IH, orb_false_r.
  destruct (Z.eqb_spec c a); apply Z.eqb_neq; congruence.
Qed.

Lemma length_ReplaceAll s a b : length (ReplaceAll s a b) = length s.
Proof. apply length_fmap. Qed.

Lemma until_app sep s : fst (until sep s) ++ snd (until sep s) = s.
Proof.
  induction s as [|c s IH]; [done|]. cbn. destruct (c =? sep); [done|].
  destruct (until sep s). cbn in *. by f_equal.
Qed.

Lemma until_free sep s : Contains (fst (until sep s)) sep = false.
Proof.
  induction s as [|c s IH]; [done|]. cbn. destruct (Z.eqb_spec c sep) as [|Hne]; [done|].
  destruct (until sep s) as [a b]. cbn in *. rewrite IH.
  by destruct (Z.eqb_spec sep c) as [->|].
Qed.

Lemma Contains_app s t c : Contains (s ++ t) c = Contains s c || Contains t c.
Proof. apply existsb_app. Qed.
Lemma Contains_reverse s c : Contains (reverse s) c = Contains s c.
Proof.
  induction s as [|x s IH]; [done|]. rewrite reverse_cons, Contains_app, IH. cbn.
  by rewrite orb_false_r, orb_comm.
Qed.

Lemma Split_not_nil s sep : Split s sep <> [].
Proof. induction s as [|c s IH]; [done|]. cbn. destruct (Split s sep); [done|]. by destruct (_ =? _). Qed.

(** Splitting and joining are inverse. *)
Lemma Join_Split s sep : Join (Split s sep) sep = s.
Proof.
  induction s as [|c s IH]; [done|]. cbn. pose proof (Split_not_nil s sep) as Hn.
  destruct (Split s sep) as [|p ps] eqn:E; [done|].
  destruct (Z.eqb_spec c sep) as [->|Hc].
  - change (sep :: Join (p :: ps) sep = sep :: s). by rewrite IH.
  - rewrite <- IH. by destruct ps.
Qed.

(** A name with a separator splits into two parts or more. *)
Lemma Split_two s sep : Contains s sep = true -> exists a b ps, Split s sep = a :: b :: ps.
Proof.
  induction s as [|c s IH]; [done|]. rewrite Contains_cons. cbn [Split].
  pose proof (Split_not_nil s sep) as Hn. rewrite (Z.eqb_sym sep c).
  destruct (c =? sep).
  - intros _. destruct (Split s sep) as [|a ps]; [done|]. by exists [], a, ps.
  - cbn [orb]. intros Hs. destruct (IH Hs) as (a & b & ps & ->). by exists (c :: a), b, ps.
Qed.

(** A name with a colon has a stream part. *)
Lemma SplitEA_ok p : IsEA p = true -> exists a b, SplitEA p = Ok (a, b).
Proof.
  intros Hp. destruct (Split_two p colon Hp) as (a & b & ps & E). exists a, b.
  unfold SplitEA. by rewrite E.
Qed.

Lemma drop_here_short s : (length (drop_here s) <= length s)%nat.
Proof.
  assert (Hgen : forall n s, (length s <= n)%nat -> (length (drop_here s) <= length s)%nat).
  { induction n as [|n IH]; intros [|c [|c' t]] Hl; cbn in *; try lia.
    destruct (_ && _); [|cbn; lia]. specialize (IH t). lia. }
  by apply (Hgen (length s)).
Qed.
