(* ===== verification/Request.v ===== *)
(** * SMB2 request messages (internal/smb2/request.go)

    Each message has a module for its struct, with [Size] and [Encode], and
    one for its decoder, with one definition per accessor.  A decoder works
    on the slice that follows the 64-byte header. *)

From S2P Require Import Prelude Const Packet Utf16.

Abbreviation hdr_t := PacketHeader.t.

(** [c.Command = cmd; c.encodeHeader(pkt)] followed by writes to [pkt[64:]]. *)
Definition message (cmd : Z) (hdr : hdr_t) (body : enc) : enc :=
  PacketHeader.encodeHeader (PacketHeader.set_Command cmd hdr) >> at_ 64 body.

Definition list_size (l : list Encoder) : Z := foldl (fun s e => s + Size e) 0 l.

(** ** NEGOTIATE *)

Module NegotiateRequest.

Record t := mk {
  hdr : hdr_t; SecurityMode : Z; Capabilities : Z; ClientGuid : bytes;
  Dialects : list Z; Contexts : list Encoder
}.

Definition Size (c : t) : Z :=
  let size := 36 + Z.of_nat (length (Dialects c)) * 2 in
  64 + foldl (fun size cc => Roundup size 8 + Packet.Size cc) size (Contexts c).

(** The loop over the contexts, from index [i] and offset [off]. *)
Fixpoint encode_contexts (i : Z) (off : Z) (cs : list Encoder) : enc :=
  match cs with
  | [] => eskip
  | cc :: t =>
      let off := Roundup off 8 in
      ewhen (i =? 0) (put32 28 (u32 (off + 64)))
      >> at_ off (Packet.Encode cc)
      >> encode_contexts (i + 1) (off + Packet.Size cc) t
  end.

Definition Encode (c : t) : enc :=
  message SMB2_NEGOTIATE (hdr c)
    (put16 0 36
     >> put16 4 (SecurityMode c)
     >> put32 8 (Capabilities c)
     >> copy_range 12 28 (ClientGuid c)
     >> at_ 36 (put16s 0 (Dialects c))
     >> put16 2 (u16 (Z.of_nat (length (Dialects c))))
     >> encode_contexts 0 (36 + Z.of_nat (length (Dialects c)) * 2) (Contexts c)
     >> put16 32 (u16 (Z.of_nat (length (Contexts c))))).

End NegotiateRequest.

Module NegotiateRequestDecoder.

Definition StructureSize (r : slice) : outcome Z := get16 r 0 2.
Definition DialectCount (r : slice) : outcome Z := get16 r 2 4.
Definition SecurityMode (r : slice) : outcome Z := get16 r 4 6.
Definition Capabilities (r : slice) : outcome Z := get32 r 8 12.
Definition ClientGuid (r : slice) : outcome slice := s_range r 12 28.
Definition ClientStartTime (r : slice) : outcome slice := s_range r 28 36.
Definition NegotiateContextOffset (r : slice) : outcome Z := get32 r 28 32.
Definition NegotiateContextCount (r : slice) : outcome Z := get16 r 32 34.

Definition IsInvalid (r : slice) : outcome bool :=
  if s_len r <? 36 then Ok true else
  let! ss := StructureSize r in
  if negb (ss =? 36) then Ok true else
  let! noff := NegotiateContextOffset r in
  if has noff 7 then Ok true else
  if s_len r <? noff - 36 then Ok true else Ok false.

(** [36+2*r.DialectCount()] is computed in uint16. *)
Definition Dialects (r : slice) : outcome (list Z) :=
  let! n := DialectCount r in
  let! bs := s_range r 36 (u16 (36 + u16 (2 * n))) in
  get16s bs 0 (Z.to_nat (s_len bs / 2)).

Definition NegotiateContextList (r : slice) : outcome slice :=
  let! off := NegotiateContextOffset r in
  if off <? 64 then Ok nil_slice else s_from r (off - 64).

End NegotiateRequestDecoder.

(** ** SESSION_SETUP *)

Module SessionSetupRequest.

Record t := mk {
  hdr : hdr_t; Flags : Z; SecurityMode : Z; Capabilities : Z; Channel : Z;
  SecurityBuffer : bytes; PreviousSessionId : Z
}.

Definition Size (c : t) : Z :=
  if blen (SecurityBuffer c) =? 0 then 64 + 24 + 1 else 64 + 24 + blen (SecurityBuffer c).

Definition Encode (c : t) : enc :=
  message SMB2_SESSION_SETUP (hdr c)
    (put16 0 25
     >> put8 2 (Flags c)
     >> put8 3 (SecurityMode c)
     >> put32 4 (Capabilities c)
     >> put32 8 (Channel c)
     >> put64 16 (PreviousSessionId c)
     >> copy_from 24 (SecurityBuffer c)
     >> put16 12 (64 + 24)
     >> put16 14 (u16 (blen (SecurityBuffer c)))).

End SessionSetupRequest.

Module SessionSetupRequestDecoder.

Definition StructureSize (r : slice) : outcome Z := get16 r 0 2.
Definition Flags (r : slice) : outcome Z := s_idx r 2.
Definition SecurityMode (r : slice) : outcome Z := s_idx r 3.
Definition Capabilities (r : slice) : outcome Z := get32 r 4 8.
Definition Channel (r : slice) : outcome Z := get32 r 8 12.
Definition PreviousSessionId (r : slice) : outcome Z := get64 r 16 24.
Definition SecurityBufferOffset (r : slice) : outcome Z := get16 r 12 14.
Definition SecurityBufferLength (r : slice) : outcome Z := get16 r 14 16.

(** The offset and the length are added in uint16. *)
Definition IsInvalid (r : slice) : outcome bool :=
  if s_len r <? 24 then Ok true else
  let! ss := StructureSize r in
  if negb (ss =? 25) then Ok true else
  let! off := SecurityBufferOffset r in
  let! len := SecurityBufferLength r in
  if s_len r <? u16 (off + len) - 64 then Ok true else Ok false.

Definition SecurityBuffer (r : slice) : outcome slice :=
  let! off := SecurityBufferOffset r in
  if off <? 64 + 24 then Ok nil_slice else
  let off := u16 (off - 64) in
  let! len := SecurityBufferLength r in
  s_range r off (u16 (off + len)).

End SessionSetupRequestDecoder.

(** ** LOGOFF, TREE_DISCONNECT and CANCEL: a structure size and padding *)

Module LogoffRequest.
Record t := mk { hdr : hdr_t }.
Definition Size (c : t) : Z := 64 + 4.
Definition Encode (c : t) : enc := message SMB2_LOGOFF (hdr c) (put16 0 4).
End LogoffRequest.

Module LogoffRequestDecoder.
Definition StructureSize (r : slice) : outcome Z := get16 r 0 2.
Definition IsInvalid (r : slice) : outcome bool :=
  if s_len r <? 4 then Ok true else
  let! ss := StructureSize r in if negb (ss =? 4) then Ok true else Ok false.
End LogoffRequestDecoder.

Module TreeDisconnectRequest.
Record t := mk { hdr : hdr_t }.
Definition Size (c : t) : Z := 64 + 4.
Definition Encode (c : t) : enc := message SMB2_TREE_DISCONNECT (hdr c) (put16 0 4).
End TreeDisconnectRequest.

Module TreeDisconnectRequestDecoder.
Definition StructureSize (r : slice) : outcome Z := get16 r 0 2.
Definition IsInvalid (r : slice) : outcome bool :=
  if s_len r <? 4 then Ok true else
  let! ss := StructureSize r in if negb (ss =? 4) then Ok true else Ok false.
End TreeDisconnectRequestDecoder.

Module CancelRequest.
Record t := mk { hdr : hdr_t }.
Definition Size (c : t) : Z := 64 + 4.
Definition Encode (c : t) : enc := message SMB2_CANCEL (hdr c) (put16 0 4).
End CancelRequest.

Module CancelRequestDecoder.
Definition StructureSize (r : slice) : outcome Z := get16 r 0 2.
Definition IsInvalid (r : slice) : outcome bool :=
  if s_len r <? 4 then Ok true else
  let! ss := StructureSize r in if negb (ss =? 4) then Ok true else Ok false.
End CancelRequestDecoder.

(** ** TREE_CONNECT *)

Module TreeConnectRequest.

Record t := mk { hdr : hdr_t; Flags : Z; Path : gostring }.

Definition Size (c : t) : Z :=
  if Z.of_nat (length (Path c)) =? 0 then 64 + 8 + 1 else 64 + 8 + EncodedStringLen (Path c).

Definition Encode (c : t) : enc :=
  message SMB2_TREE_CONNECT (hdr c)
    (put16 0 9
     >> put16 2 (Flags c)
     >> at_ 8 (EncodeString (Path c))
     >> put16 4 (8 + 64)
     >> put16 6 (u16 (EncodeString_len (Path c)))).

End TreeConnectRequest.

Module TreeConnectRequestDecoder.

Definition StructureSize (r : slice) : outcome Z := get16 r 0 2.
Definition Flags (r : slice) : outcome Z := get16 r 2 4.
Definition PathOffset (r : slice) : outcome Z := get16 r 4 6.
Definition PathLength (r : slice) : outcome Z := get16 r 6 8.

Definition IsInvalid (r : slice) : outcome bool :=
  if s_len r <? 8 then Ok true else
  let! ss := StructureSize r in
  if negb (ss =? 9) then Ok true else
  let! off := PathOffset r in
  let! len := PathLength r in
  if s_len r <? u16 (off + len) - 64 then Ok true else Ok false.

Definition Path (r : slice) : outcome gostring :=
  let! off := PathOffset r in
  if off <? 64 + 8 then Ok [] else
  let off := u16 (off - 64) in
  let! len := PathLength r in
  let! bs := s_range r off (u16 (off + len)) in
  DecodeToString bs.

End TreeConnectRequestDecoder.

(** ** CREATE *)

Module CreateRequest.

Record t := mk {
  hdr : hdr_t; SecurityFlags : Z; RequestedOplockLevel : Z; ImpersonationLevel : Z;
  SmbCreateFlags : Z; DesiredAccess : Z; FileAttributes : Z; ShareAccess : Z;
  CreateDisposition : Z; CreateOptions : Z; Name : gostring; Contexts : list Encoder
}.

Definition Size (c : t) : Z :=
  if (Z.of_nat (length (Name c)) =? 0) && (Z.of_nat (length (Contexts c)) =? 0)
  then 64 + 56 + 1
  else foldl (fun size ctx => Roundup size 8 + Packet.Size ctx)
             (64 + 56 + EncodedStringLen (Name c)) (Contexts c).

(** The loop over the create contexts: [off] is where the previous context
    ended, [ctxOff] where it began.  From the second context on, the Next
    field of the previous one is filled in before the context is written. *)
Fixpoint encode_contexts (i off ctxOff : Z) (cs : list Encoder) : enc :=
  match cs with
  | [] => eskip
  | c :: t =>
      let off := Roundup off 8 in
      (if i =? 0 then put32 48 (u32 (64 + off)) else at_ ctxOff (put32 0 (u32 (off - ctxOff))))
      >> at_ off (Packet.Encode c)
      >> encode_contexts (i + 1) (off + Packet.Size c) off t
  end.

(** The value of [off] after the loop. *)
Definition contexts_end (off : Z) (cs : list Encoder) : Z :=
  foldl (fun off c => Roundup off 8 + Packet.Size c) off cs.

Definition Encode (c : t) : enc :=
  let nlen := EncodeString_len (Name c) in
  let off := 56 + nlen in
  let firstCtxOff := match Contexts c with [] => 0 | _ => Roundup off 8 end in
  message SMB2_CREATE (hdr c)
    (put16 0 57
     >> put8 2 (SecurityFlags c)
     >> put8 3 (RequestedOplockLevel c)
     >> put32 4 (ImpersonationLevel c)
     >> put64 8 (SmbCreateFlags c)
     >> put32 24 (DesiredAccess c)
     >> put32 28 (FileAttributes c)
     >> put32 32 (ShareAccess c)
     >> put32 36 (CreateDisposition c)
     >> put32 40 (CreateOptions c)
     >> at_ 56 (EncodeString (Name c))
     >> put16 44 (56 + 64)
     >> put16 46 (u16 nlen)
     >> encode_contexts 0 off 0 (Contexts c)
     >> ewhen (negb (firstCtxOff =? 0))
          (put32 52 (u32 (contexts_end off (Contexts c) - firstCtxOff)))).

End CreateRequest.

Module CreateRequestDecoder.

Definition StructureSize (r : slice) : outcome Z := get16 r 0 2.
Definition SecurityFlags (r : slice) : outcome Z := s_idx r 2.
Definition RequestedOplockLevel (r : slice) : outcome Z := s_idx r 3.
Definition ImpersonationLevel (r : slice) : outcome Z := get32 r 4 8.
Definition SmbCreateFlags (r : slice) : outcome Z := get64 r 8 16.
Definition DesiredAccess (r : slice) : outcome Z := get32 r 24 28.
Definition FileAttributes (r : slice) : outcome Z := get32 r 28 32.
Definition ShareAccess (r : slice) : outcome Z := get32 r 32 36.
Definition CreateDisposition (r : slice) : outcome Z := get32 r 36 40.
Definition CreateOptions (r : slice) : outcome Z := get32 r 40 44.
Definition NameOffset (r : slice) : outcome Z := get16 r 44 46.
Definition NameLength (r : slice) : outcome Z := get16 r 46 48.
Definition CreateContextsOffset (r : slice) : outcome Z := get32 r 48 52.
Definition CreateContextsLength (r : slice) : outcome Z := get32 r 52 56.

Definition IsInvalid (r : slice) : outcome bool :=
  if s_len r <? 56 then Ok true else
  let! ss := StructureSize r in
  if negb (ss =? 57) then Ok true else
  let! noff := NameOffset r in
  if has noff 7 then Ok true else
  let! nlen := NameLength r in
  if s_len r <? u16 (noff + nlen) - 64 then Ok true else
  let! coff := CreateContextsOffset r in
  if has coff 7 then Ok true else
  let! clen := CreateContextsLength r in
  if s_len r <? u32 (coff + clen) - 64 then Ok true else Ok false.

Definition Name (r : slice) : outcome gostring :=
  let! off := NameOffset r in
  let! len := NameLength r in
  let off := u16 (off - 64) in
  let! bs := s_range r off (u16 (off + len)) in
  DecodeToString bs.

Definition CreateContexts (r : slice) : outcome slice :=
  let! len := CreateContextsLength r in
  if len =? 0 then Ok nil_slice else
  let! off := CreateContextsOffset r in
  let off := u32 (off - 64) in
  let! len := CreateContextsLength r in
  s_range r off (u32 (off + len)).

End CreateRequestDecoder.

Module CreateContextDecoder.

Definition Next (r : slice) : outcome Z := get32 r 0 4.
Definition NameOffset (r : slice) : outcome Z := get16f r 4.
Definition NameLength (r : slice) : outcome Z := get16f r 6.
Definition DataOffset (r : slice) : outcome Z := get16f r 10.
Definition DataLength (r : slice) : outcome Z := get32f r 12.

Definition Buffer (r : slice) : outcome slice :=
  let! off := DataOffset r in
  let! len := DataLength r in
  s_range r off (u16 (off + u16 len)).

(** The name as the bytes of the string. *)
Definition Name (r : slice) : outcome bytes :=
  let! off := NameOffset r in
  let! len := NameLength r in
  let! n := s_range r off (u16 (off + len)) in
  Ok (s_bytes n).

End CreateContextDecoder.

(** ** CLOSE and FLUSH *)

Module CloseRequest.
Record t := mk { hdr : hdr_t; Flags : Z; FileId : option FileId.t }.
Definition Size (c : t) : Z := 64 + 24.
Definition Encode (c : t) : enc :=
  message SMB2_CLOSE (hdr c)
    (put16 0 24 >> put16 2 (Flags c) >> in_ 8 24 (FileId.Encode (FileId c))).
End CloseRequest.

Module CloseRequestDecoder.
Definition StructureSize (r : slice) : outcome Z := get16 r 0 2.
Definition Flags (r : slice) : outcome Z := get16 r 2 4.
Definition FileId (r : slice) : outcome slice := s_range r 8 24.
Definition IsInvalid (r : slice) : outcome bool :=
  if s_len r <? 24 then Ok true else
  let! ss := StructureSize r in if negb (ss =? 24) then Ok true else Ok false.
End CloseRequestDecoder.

Module FlushRequest.
Record t := mk { hdr : hdr_t; FileId : option FileId.t }.
Definition Size (c : t) : Z := 64 + 24.
Definition Encode (c : t) : enc :=
  message SMB2_FLUSH (hdr c) (put16 0 24 >> in_ 8 24 (FileId.Encode (FileId c))).
End FlushRequest.

Module FlushRequestDecoder.
Definition StructureSize (r : slice) : outcome Z := get16 r 0 2.
Definition FileId (r : slice) : outcome slice := s_range r 8 24.
Definition IsInvalid (r : slice) : outcome bool :=
  if s_len r <? 24 then Ok true else
  let! ss := StructureSize r in if negb (ss =? 24) then Ok true else Ok false.
End FlushRequestDecoder.

(** ** READ *)

Module ReadRequest.

Record t := mk {
  hdr : hdr_t; Padding : Z; Flags : Z; Length : Z; Offset : Z; FileId : option FileId.t;
  MinimumCount : Z; Channel : Z; RemainingBytes : Z; ReadChannelInfo : list Encoder
}.

Definition Size (c : t) : Z :=
  if Z.of_nat (length (ReadChannelInfo c)) =? 0 then 64 + 48 + 1
  else foldl (fun size r => size + Packet.Size r) (64 + 48) (ReadChannelInfo c).

(** The channel descriptors are written one after the other; [slot] is the
    field that receives the offset of the first. *)
Fixpoint encode_infos (slot i off : Z) (rs : list Encoder) : enc :=
  match rs with
  | [] => eskip
  | r :: t =>
      ewhen (i =? 0) (put16 slot (u16 (64 + off)))
      >> at_ off (Packet.Encode r)
      >> encode_infos slot (i + 1) (off + Packet.Size r) t
  end.

Definition Encode (c : t) : enc :=
  message SMB2_READ (hdr c)
    (put16 0 49
     >> put8 2 (Padding c)
     >> put8 3 (Flags c)
     >> put32 4 (Length c)
     >> put64 8 (Offset c)
     >> in_ 16 32 (FileId.Encode (FileId c))
     >> put32 32 (MinimumCount c)
     >> put32 36 (Channel c)
     >> put32 40 (RemainingBytes c)
     >> encode_infos 44 0 48 (ReadChannelInfo c)
     >> put16 46 (u16 (list_size (ReadChannelInfo c)))).

End ReadRequest.

Module ReadRequestDecoder.

Definition StructureSize (r : slice) : outcome Z := get16 r 0 2.
Definition Padding (r : slice) : outcome Z := s_idx r 2.
Definition Flags (r : slice) : outcome Z := s_idx r 3.
Definition Length (r : slice) : outcome Z := get32 r 4 8.
Definition Offset (r : slice) : outcome Z := get64 r 8 16.
Definition FileId (r : slice) : outcome slice := s_range r 16 32.
Definition MinimumCount (r : slice) : outcome Z := get32 r 32 36.
Definition Channel (r : slice) : outcome Z := get32 r 36 40.
Definition RemainingBytes (r : slice) : outcome Z := get32 r 40 44.
Definition ReadChannelInfoOffset (r : slice) : outcome Z := get16 r 44 46.
Definition ReadChannelInfoLength (r : slice) : outcome Z := get16 r 46 48.

Definition IsInvalid (r : slice) : outcome bool :=
  if s_len r <? 48 then Ok true else
  let! ss := StructureSize r in
  if negb (ss =? 49) then Ok true else
  let! off := ReadChannelInfoOffset r in
  let! len := ReadChannelInfoLength r in
  if s_len r <? u16 (off + len) then Ok true else Ok false.

End ReadRequestDecoder.

(** ** WRITE *)

Module WriteRequest.

Record t := mk {
  hdr : hdr_t; FileId : option FileId.t; Flags : Z; Channel : Z; RemainingBytes : Z;
  Offset : Z; WriteChannelInfo : list Encoder; Data : bytes
}.

Definition Size (c : t) : Z :=
  if (blen (Data c) =? 0) && (Z.of_nat (length (WriteChannelInfo c)) =? 0) then 64 + 48 + 1
  else foldl (fun off w => off + Packet.Size w) (64 + 48) (WriteChannelInfo c) + blen (Data c).

Definition Encode (c : t) : enc :=
  let off := 48 + list_size (WriteChannelInfo c) in
  message SMB2_WRITE (hdr c)
    (put16 0 49
     >> put64 8 (Offset c)
     >> in_ 16 32 (FileId.Encode (FileId c))
     >> put32 32 (Channel c)
     >> put32 36 (RemainingBytes c)
     >> put32 44 (Flags c)
     >> ReadRequest.encode_infos 40 0 48 (WriteChannelInfo c)
     >> put16 42 (u16 (off - 48))
     >> put16 2 (u16 (64 + off))
     >> copy_from off (Data c)
     >> put32 4 (u32 (blen (Data c)))).

End WriteRequest.

Module WriteRequestDecoder.

Definition StructureSize (r : slice) : outcome Z := get16 r 0 2.
Definition DataOffset (r : slice) : outcome Z := get16 r 2 4.
Definition Length (r : slice) : outcome Z := get32 r 4 8.
Definition Offset (r : slice) : outcome Z := get64 r 8 16.
Definition FileId (r : slice) : outcome slice := s_range r 16 32.
Definition Channel (r : slice) : outcome Z := get32 r 32 36.
Definition RemainingBytes (r : slice) : outcome Z := get32 r 36 40.
Definition WriteChannelInfoOffset (r : slice) : outcome Z := get16 r 40 42.
Definition WriteChannelInfoLength (r : slice) : outcome Z := get16 r 42 44.
Definition Flags (r : slice) : outcome Z := get32 r 44 48.

(** [48+r.Length()] is computed in uint32; the DataOffset field is not used. *)
Definition Data (r : slice) : outcome slice :=
  let! n := Length r in
  s_range r 48 (u32 (48 + n)).

Definition IsInvalid (r : slice) : outcome bool :=
  if s_len r <? 48 then Ok true else
  let! ss := StructureSize r in
  if negb (ss =? 49) then Ok true else
  let! coff := WriteChannelInfoOffset r in
  let! clen := WriteChannelInfoLength r in
  if s_len r <? u16 (coff + clen) - 64 then Ok true else
  let! doff := DataOffset r in
  let! dlen := Length r in
  if s_len r <? u32 (doff + dlen) - 64 then Ok true else Ok false.

End WriteRequestDecoder.

(** ** IOCTL *)

Module IoctlRequest.

Record t := mk {
  hdr : hdr_t; CtlCode : Z; FileId : option FileId.t; OutputOffset : Z; OutputCount : Z;
  MaxInputResponse : Z; MaxOutputResponse : Z; Flags : Z; Input : option Encoder
}.

Definition Size (c : t) : Z :=
  match Input c with None => 64 + 56 + 1 | Some i => 64 + 56 + Packet.Size i end.

Definition Encode (c : t) : enc :=
  message SMB2_IOCTL (hdr c)
    (put16 0 57
     >> put32 4 (CtlCode c)
     >> in_ 8 24 (FileId.Encode (FileId c))
     >> put32 32 (MaxInputResponse c)
     >> put32 36 (OutputOffset c)
     >> put32 40 (OutputCount c)
     >> put32 44 (MaxOutputResponse c)
     >> put32 48 (Flags c)
     >> match Input c with
        | None => eskip
        | Some i =>
            put32 24 (u32 (56 + 64))
            >> at_ 56 (Packet.Encode i)
            >> put32 28 (u32 (Packet.Size i))
        end).

End IoctlRequest.

Module IoctlRequestDecoder.

Definition StructureSize (r : slice) : outcome Z := get16 r 0 2.
Definition CtlCode (r : slice) : outcome Z := get32 r 4 8.
Definition FileId (r : slice) : outcome slice := s_range r 8 24.
Definition InputOffset (r : slice) : outcome Z := get32 r 24 28.
Definition InputCount (r : slice) : outcome Z := get32 r 28 32.
Definition MaxInputResponse (r : slice) : outcome Z := get32 r 32 36.
Definition OutputOffset (r : slice) : outcome Z := get32 r 36 40.
Definition OutputCount (r : slice) : outcome Z := get32 r 40 44.
Definition MaxOutputResponse (r : slice) : outcome Z := get32 r 44 48.
Definition Flags (r : slice) : outcome Z := get32 r 48 52.
Definition Data (r : slice) : outcome slice := s_from r 56.

Definition IsInvalid (r : slice) : outcome bool :=
  if s_len r <? 56 then Ok true else
  let! ss := StructureSize r in
  if negb (ss =? 57) then Ok true else
  let! off := InputOffset r in
  let! n := InputCount r in
  if s_len r <? u32 (off + n) - 64 then Ok true else Ok false.

End IoctlRequestDecoder.

(** ** QUERY_DIRECTORY *)

Module QueryDirectoryRequest.

Record t := mk {
  hdr : hdr_t; FileInfoClass : Z; Flags : Z; FileIndex : Z; FileId : option FileId.t;
  OutputBufferLength : Z; FileName : gostring
}.

Definition Size (c : t) : Z :=
  if Z.of_nat (length (FileName c)) =? 0 then 64 + 32 + 1
  else 64 + 32 + EncodedStringLen (FileName c).

Definition Encode (c : t) : enc :=
  message SMB2_QUERY_DIRECTORY (hdr c)
    (put16 0 33
     >> put8 2 (FileInfoClass c)
     >> put8 3 (Flags c)
     >> put32 4 (FileIndex c)
     >> in_ 8 24 (FileId.Encode (FileId c))
     >> put32 28 (OutputBufferLength c)
     >> put16 24 (u16 (32 + 64))
     >> at_ 32 (EncodeString (FileName c))
     >> put16 26 (u16 (EncodeString_len (FileName c)))).

End QueryDirectoryRequest.

Module QueryDirectoryRequestDecoder.

Definition StructureSize (r : slice) : outcome Z := get16 r 0 2.
Definition FileInfoClass (r : slice) : outcome Z := s_idx r 2.
Definition Flags (r : slice) : outcome Z := s_idx r 3.
Definition FileIndex (r : slice) : outcome Z := get32 r 4 8.
Definition FileId (r : slice) : outcome slice := s_range r 8 24.
Definition FileNameOffset (r : slice) : outcome Z := get16 r 24 26.
Definition FileNameLength (r : slice) : outcome Z := get16 r 26 28.
Definition OutputBufferLength (r : slice) : outcome Z := get32 r 28 32.

Definition IsInvalid (r : slice) : outcome bool :=
  if s_len r <? 32 then Ok true else
  let! ss := StructureSize r in
  if negb (ss =? 33) then Ok true else
  let! off := FileNameOffset r in
  let! len := FileNameLength r in
  if s_len r <? u16 (off + len) - 64 then Ok true else Ok false.

Definition FileName (r : slice) : outcome gostring :=
  let! off := FileNameOffset r in
  let off := u16 (off - 64) in
  let! len := FileNameLength r in
  let! bs := s_range r off (u16 (off + len)) in
  DecodeToString bs.

End QueryDirectoryRequestDecoder.

(** ** CHANGE_NOTIFY *)

Module ChangeNotifyRequestDecoder.

Definition StructureSize (r : slice) : outcome Z := get16 r 0 2.
Definition Flags (r : slice) : outcome Z := get16 r 2 4.
Definition OutputBufferLength (r : slice) : outcome Z := get32 r 4 8.
Definition FileId (r : slice) : outcome slice := s_range r 8 24.
Definition CompletionFilter (r : slice) : outcome Z := get32 r 24 28.

Definition IsInvalid (r : slice) : outcome bool :=
  if negb (s_len r =? 32) then Ok true else
  let! ss := StructureSize r in if negb (ss =? 32) then Ok true else Ok false.

End ChangeNotifyRequestDecoder.

(** ** QUERY_INFO *)

Module QueryInfoRequest.

Record t := mk {
  hdr : hdr_t; InfoType : Z; FileInfoClass : Z; OutputBufferLength : Z;
  AdditionalInformation : Z; Flags : Z; FileId : option FileId.t; Input : option Encoder
}.

Definition Size (c : t) : Z :=
  match Input c with None => 64 + 40 + 1 | Some i => 64 + 40 + Packet.Size i end.

Definition Encode (c : t) : enc :=
  message SMB2_QUERY_INFO (hdr c)
    (put16 0 41
     >> put8 2 (InfoType c)
     >> put8 3 (FileInfoClass c)
     >> put32 4 (OutputBufferLength c)
     >> put32 16 (AdditionalInformation c)
     >> put32 20 (Flags c)
     >> in_ 24 40 (FileId.Encode (FileId c))
     >> match Input c with
        | None => eskip
        | Some i =>
            put16 8 (u16 (40 + 64))
            >> at_ 40 (Packet.Encode i)
            >> put32 12 (u32 (Packet.Size i))
        end).

End QueryInfoRequest.

Module QueryInfoRequestDecoder.

Definition StructureSize (r : slice) : outcome Z := get16 r 0 2.
Definition InfoType (r : slice) : outcome Z := s_idx r 2.
Definition FileInfoClass (r : slice) : outcome Z := s_idx r 3.
Definition OutputBufferLength (r : slice) : outcome Z := get32 r 4 8.
Definition InputBufferOffset (r : slice) : outcome Z := get16 r 8 10.
Definition InputBufferLength (r : slice) : outcome Z := get32 r 12 16.
Definition AdditionalInformation (r : slice) : outcome Z := get32 r 16 20.
Definition Flags (r : slice) : outcome Z := get32 r 20 24.
Definition FileId (r : slice) : outcome slice := s_range r 24 40.

Definition IsInvalid (r : slice) : outcome bool :=
  if s_len r <? 40 then Ok true else
  let! ss := StructureSize r in
  if negb (ss =? 41) then Ok true else
  let! off := InputBufferOffset r in
  let! len := InputBufferLength r in
  if s_len r <? u32 (off + len) - 64 then Ok true else Ok false.

End QueryInfoRequestDecoder.

(** ** SET_INFO *)

Module SetInfoRequest.

Record t := mk {
  hdr : hdr_t; InfoType : Z; FileInfoClass : Z; AdditionalInformation : Z;
  FileId : option FileId.t; Input : option Encoder
}.

Definition Size (c : t) : Z :=
  match Input c with None => 64 + 32 + 1 | Some i => 64 + 32 + Packet.Size i end.

Definition Encode (c : t) : enc :=
  message SMB2_SET_INFO (hdr c)
    (put16 0 33
     >> put8 2 (InfoType c)
     >> put8 3 (FileInfoClass c)
     >> put32 12 (AdditionalInformation c)
     >> in_ 16 32 (FileId.Encode (FileId c))
     >> match Input c with
        | None => eskip
        | Some i =>
            put16 8 (u16 (32 + 64))
            >> at_ 32 (Packet.Encode i)
            >> put32 4 (u32 (Packet.Size i))
        end).

End SetInfoRequest.

Module SetInfoRequestDecoder.

Definition StructureSize (r : slice) : outcome Z := get16 r 0 2.
Definition InfoType (r : slice) : outcome Z := s_idx r 2.
Definition FileInfoClass (r : slice) : outcome Z := s_idx r 3.
Definition BufferLength (r : slice) : outcome Z := get32 r 4 8.
Definition BufferOffset (r : slice) : outcome Z := get16 r 8 10.
Definition AdditionalInformation (r : slice) : outcome Z := get32 r 12 16.
Definition FileId (r : slice) : outcome slice := s_range r 16 32.
Definition Buffer (r : slice) : outcome slice := s_from r 32.

Definition IsInvalid (r : slice) : outcome bool :=
  if s_len r <? 32 then Ok true else
  let! ss := StructureSize r in
  if negb (ss =? 33) then Ok true else
  let! off := BufferOffset r in
  let! len := BufferLength r in
  if s_len r <? u32 (off + len) - 64 then Ok true else Ok false.

End SetInfoRequestDecoder.

(** ** Create context payloads *)

Module AAPLServerQueryRequestDecoder.
Definition CommandCode (r : slice) : outcome Z := get32f r 0.
Definition RequestBitmap (r : slice) : outcome Z := get64f r 8.
Definition ClientCaps (r : slice) : outcome Z := get64f r 16.
End AAPLServerQueryRequestDecoder.

Definition SMB2_DHANDLE_FLAG_PERSISTENT : Z := 2.

Module DurableHandleRequest2Decoder.
Definition Timeout (r : slice) : outcome Z := get32f r 0.
Definition Flags (r : slice) : outcome Z := get32f r 4.
Definition CreateGuid (r : slice) : outcome slice := s_range r 16 32.
End DurableHandleRequest2Decoder.

(** [copy(guid[:], bs)] into a zero [16]byte. *)
Definition guid_of (bs : bytes) : bytes := splice 0 bs (zeros 16).

Module LeaseRequestDecoder.
Definition LeaseKey (r : slice) : outcome bytes := Ok (guid_of (s_bytes r)).
Definition LeaseState (r : slice) : outcome Z := get32f r 16.
Definition LeaseFlags (r : slice) : outcome Z := get32f r 20.
Definition LeaseDuration (r : slice) : outcome Z := get64f r 24.
End LeaseRequestDecoder.

Module LeaseRequest2Decoder.
Definition LeaseKey (r : slice) : outcome bytes := Ok (guid_of (s_bytes r)).
Definition LeaseState (r : slice) : outcome Z := get32f r 16.
Definition LeaseFlags (r : slice) : outcome Z := get32f r 20.
Definition LeaseDuration (r : slice) : outcome Z := get64f r 24.
Definition ParentLeaseKey (r : slice) : outcome bytes :=
  let! k := s_range r 32 48 in Ok (guid_of (s_bytes k)).
Definition Epoch (r : slice) : outcome Z := get16f r 48.
End LeaseRequest2Decoder.

(** ** The contract of an encoder

    [Encodes e bs]: on a zeroed buffer with room for [Size e] bytes, [e]
    writes exactly [bs], and [bs] is as long as [Size e] announced.  This is
    what a message that embeds an [Encoder] relies on. *)

Class Encodes (e : Encoder) (bs : bytes) : Prop := {
  encodes_size : blen bs = Size e;
  encodes_ok p : Size e <= blen p -> upto (Size e) p = zeros (Size e) ->
    Encode e p = Ok (splice 0 bs p)
}.

(** ** Lemmas shared by the messages *)

Lemma from_zeros a n : 0 <= a -> from a (zeros n) = zeros (n - a).
Proof. intros. unfold from, zeros. rewrite drop_replicate. f_equal. lia. Qed.

Lemma set_Command_wf cmd hdr :
  in16 cmd -> PacketHeader.wf hdr -> PacketHeader.wf (PacketHeader.set_Command cmd hdr).
Proof. unfold PacketHeader.wf. cbn. tauto. Qed.

(** Encoding a message: when the body succeeds on the zeroed buffer with a
    result that satisfies [P], the packet is a header followed by it, and
    the header accessors find the command and the body. *)
Lemma message_elim cmd hdr body n (P : bytes -> Prop) :
  in16 cmd -> PacketHeader.wf hdr -> 64 <= n ->
  (exists q, body (zeros (n - 64)) = Ok q /\ P q) ->
  exists pkt q, message cmd hdr body (zeros n) = Ok pkt
    /\ PacketCodec.Command (of_bytes pkt) = Ok cmd
    /\ PacketCodec.Data (of_bytes pkt) = Ok (of_bytes q)
    /\ P q.
Proof.
  intros Hc Hw Hn (q & Hb & HP).
  destruct (encodeHeader_bytes (PacketHeader.set_Command cmd hdr) (zeros n))
    as (h & Hq & Hh); [len|apply (sub_zeros 0 64 n); lia|].
  exists (h ++ q), q. split.
  { unfold message, eseq. rewrite Hq. cbn [obind]. destruct Hh as [[Hl _] _].
    erewrite at_ok; [|lia|len|].
    - rewrite upto_app_exact by done. done.
    - rewrite from_app_exact by done. rewrite from_zeros by lia. done. }
  destruct (header_fields (PacketHeader.set_Command cmd hdr) h q) as (?&?&?&?&?&?&?&?&?&?&?&?&?);
    [by apply set_Command_wf|by destruct Hh|]. done.
Qed.

Definition fileid_bytes (f : option FileId.t) : bytes :=
  match f with
  | None => zeros 16
  | Some f => FileId.Persistent f ++ FileId.Volatile f
  end.

Definition fileid_wf (f : option FileId.t) : Prop :=
  match f with None => True | Some f => FileId.wf f end.

Lemma blen_fileid f : fileid_wf f -> blen (fileid_bytes f) = 16.
Proof.
  destruct f as [f|]; [|done]. intros (H1 & H2 & _). cbn [fileid_bytes].
  unfold blen. rewrite length_app, H1, H2. done.
Qed.

Lemma fileid_in a b f p :
  fileid_wf f -> 0 <= a -> b = a + 16 -> b <= blen p ->
  in_ a b (FileId.Encode f) p = Ok (splice a (fileid_bytes f) p).
Proof.
  intros Hf Ha -> Hb. pose proof (blen_fileid f Hf) as Hl.
  rewrite (in_ok a (a + 16) _ p (fileid_bytes f)); [|lia..|].
  - by rewrite window_splice by lia.
  - replace (a + 16 - a) with 16 by lia.
    assert (Hs : blen (sub a 16 p) = 16) by len.
    destruct f as [[x y]|]; cbn [FileId.Encode fileid_bytes fileid_wf] in *.
    + destruct Hf as (H1 & H2 & _). cbn in *. unfold eseq.
      assert (blen x = 8) by (unfold blen; lia). assert (blen y = 8) by (unfold blen; lia).
      do 2 put_step. f_equal. replace 8 with (0 + blen x) at 1 by lia.
      rewrite splice_splice_next by len. by apply splice_full; len.
    + put_step. f_equal. by apply splice_full; len.
Qed.

(** Reading a file id back; a nil id reads as the zero id. *)
Definition fileid_read (f : option FileId.t) : FileId.t :=
  match f with None => FileId.zero | Some f => f end.

Lemma fileid_decode r a b f :
  fileid_wf f -> 0 <= a -> b = a + 16 -> b <= s_cap r -> sub a 16 (s_arr r) = fileid_bytes f ->
  (let! w := s_range r a b in FileIdDecoder.Decode w) = Ok (fileid_read f).
Proof.
  intros Hf Ha -> Hc Hs. rewrite s_range_ok by lia. cbn [obind].
  unfold FileIdDecoder.Decode.
  assert (Hcap : 16 <= s_cap (mkSlice (from a (s_arr r)) (a + 16 - a))).
  { unfold s_cap in *. cbn. len. }
  rewrite !s_range_ok by lia. cbn [obind]. unfold s_bytes. cbn [s_arr s_len].
  f_equal. change (from 0 ?x) with x.
  assert (H1 : upto (8 - 0) (from a (s_arr r)) = sub 0 8 (fileid_bytes f)).
  { rewrite <- Hs, sub_sub by lia. by rewrite Z.add_0_r. }
  assert (H2 : upto (16 - 8) (from 8 (from a (s_arr r))) = sub 8 8 (fileid_bytes f)).
  { rewrite <- Hs, sub_sub by lia. rewrite from_from by lia.
    rewrite (Z.add_comm a 8). done. }
  rewrite H1, H2. destruct f as [[x y]|]; [|done]. destruct Hf as (Hx & Hy & _).
  cbn in *. f_equal.
  - rewrite sub_app_l by (unfold blen; lia). apply sub_all. unfold blen. lia.
  - rewrite sub_app_r by (unfold blen; lia). unfold blen. rewrite Hx. apply sub_all.
    unfold blen. lia.
Qed.

Ltac body_step :=
  first [ put_step
        | rewrite fileid_in by (first [done | len]); cbn [obind] ].

(** What a field of known contents reads as. *)
Lemma get16_field q o b v :
  sub o 2 q = le_enc 2 v -> b = o + 2 -> 0 <= o -> b <= blen q ->
  get16 (of_bytes q) o b = Ok (u16 v).
Proof. intros Hs **. rewrite get16_ok by done. cbn [s_arr of_bytes]. by rewrite Hs, le_dec_enc2. Qed.
Lemma get32_field q o b v :
  sub o 4 q = le_enc 4 v -> b = o + 4 -> 0 <= o -> b <= blen q ->
  get32 (of_bytes q) o b = Ok (u32 v).
Proof. intros Hs **. rewrite get32_ok by done. cbn [s_arr of_bytes]. by rewrite Hs, le_dec_enc4. Qed.
Lemma get64_field q o b v :
  sub o 8 q = le_enc 8 v -> b = o + 8 -> 0 <= o -> b <= blen q ->
  get64 (of_bytes q) o b = Ok (u64 v).
Proof. intros Hs **. rewrite get64_ok by done. cbn [s_arr of_bytes]. by rewrite Hs, le_dec_enc8. Qed.
Lemma idx_field q o v :
  sub o 1 q = [v mod 256] -> 0 <= o -> o < blen q -> s_idx (of_bytes q) o = Ok (u8 v).
Proof. intros Hs **. eapply s_idx_sub; [apply of_bytes_wf|done..]. Qed.
Lemma range_field q o b bs :
  sub o (b - o) q = bs -> 0 <= o -> o <= b -> b <= blen q ->
  exists t, s_range (of_bytes q) o b = Ok t /\ s_bytes t = bs /\ slice_wf t.
Proof.
  intros Hs **. destruct (s_range_bytes (of_bytes q) o b) as (t & Ht & Hb & Hw & _); [done..|].
  exists t. split_and!; [done| |done]. by rewrite Hb.
Qed.

Ltac field_step :=
  match goal with
  | H : sub ?o 2 ?q = le_enc 2 _ |- context [get16 (of_bytes ?q) ?o ?b] =>
      rewrite (get16_field q o b _ H) by (done || len)
  | H : sub ?o 4 ?q = le_enc 4 _ |- context [get32 (of_bytes ?q) ?o ?b] =>
      rewrite (get32_field q o b _ H) by (done || len)
  | H : sub ?o 8 ?q = le_enc 8 _ |- context [get64 (of_bytes ?q) ?o ?b] =>
      rewrite (get64_field q o b _ H) by (done || len)
  | H : sub ?o 1 ?q = [_ mod 256] |- context [s_idx (of_bytes ?q) ?o] =>
      rewrite (idx_field q o _ H) by (done || len)
  end; cbn [obind].

(** Reduce the constant and in-range integers of a decoder. *)
Ltac ints_step :=
  match goal with
  | |- context [u16 ?x] => rewrite (u16_id x) by (ints; lia)
  | |- context [u32 ?x] => rewrite (u32_id x) by (ints; lia)
  | |- context [u64 ?x] => rewrite (u64_id x) by (ints; lia)
  | |- context [u8 ?x] => rewrite (u8_id x) by (ints; lia)
  end.
Ltac dec_if :=
  match goal with
  | |- context [if ?c then _ else _] =>
      first [ replace c with false by (cbn; lia) | replace c with true by (cbn; lia) ];
      cbn [negb]
  end.
Ltac decode := repeat (first [field_step | ints_step | dec_if]).

(** A SESSION_SETUP request carries its security token.  Encoding any
    request whose token fits the 16-bit length field into a buffer of [Size]
    bytes succeeds; the decoder accepts the result and returns the very
    token, the flags and the previous session id. *)
Theorem session_setup_roundtrip (c : SessionSetupRequest.t) :
  PacketHeader.wf (SessionSetupRequest.hdr c) ->
  in8 (SessionSetupRequest.Flags c) ->
  in64 (SessionSetupRequest.PreviousSessionId c) ->
  blen (SessionSetupRequest.SecurityBuffer c) < 65536 - 88 ->
  exists q r tok,
    SessionSetupRequest.Encode c (zeros (SessionSetupRequest.Size c)) = Ok q
    /\ PacketCodec.Command (of_bytes q) = Ok SMB2_SESSION_SETUP
    /\ PacketCodec.Data (of_bytes q) = Ok r
    /\ SessionSetupRequestDecoder.IsInvalid r = Ok false
    /\ SessionSetupRequestDecoder.Flags r = Ok (SessionSetupRequest.Flags c)
    /\ SessionSetupRequestDecoder.PreviousSessionId r = Ok (SessionSetupRequest.PreviousSessionId c)
    /\ SessionSetupRequestDecoder.SecurityBuffer r = Ok tok
    /\ s_bytes tok = SessionSetupRequest.SecurityBuffer c.
Proof.
  intros Hw Hf Hp Ht. set (tok := SessionSetupRequest.SecurityBuffer c) in *.
  pose proof (blen_nonneg tok) as H0.
  assert (Hsz : 88 + blen tok <= SessionSetupRequest.Size c /\ 88 < SessionSetupRequest.Size c).
  { unfold SessionSetupRequest.Size. fold tok. destruct (_ =? 0) eqn:E; lia. }
  edestruct (message_elim SMB2_SESSION_SETUP (SessionSetupRequest.hdr c)) with
    (P := fun q => let r := of_bytes q in
      SessionSetupRequestDecoder.IsInvalid r = Ok false
      /\ SessionSetupRequestDecoder.Flags r = Ok (SessionSetupRequest.Flags c)
      /\ SessionSetupRequestDecoder.PreviousSessionId r
         = Ok (SessionSetupRequest.PreviousSessionId c)
      /\ exists t, SessionSetupRequestDecoder.SecurityBuffer r = Ok t /\ s_bytes t = tok)
    as (pkt & q & Hm & Hcmd & Hd & Hi & Hfl & Hps & t & Ht1 & Ht2); cycle 4.
  { exists pkt, (of_bytes q), t. split_and!; done. }
  1-3: first [done | ints; done | lia].
  eexists. split; [unfold eseq; repeat body_step; reflexivity|]. fold tok.
  set (q := splice 14 _ _).
  assert (Hq : blen q = SessionSetupRequest.Size c - 64) by (unfold q; len).
  assert (H2 : sub 2 1 q = [SessionSetupRequest.Flags c mod 256]) by (unfold q; by reads).
  assert (H16 : sub 0 2 q = le_enc 2 25
    /\ sub 12 2 q = le_enc 2 88 /\ sub 14 2 q = le_enc 2 (u16 (blen tok))
    /\ sub 16 8 q = le_enc 8 (SessionSetupRequest.PreviousSessionId c)
    /\ sub 24 (blen tok) q = tok) by (unfold q; split_and!; by reads).
  destruct H16 as (E0 & E12 & E14 & E16 & E24). clearbody q. cbv zeta.
  unfold SessionSetupRequestDecoder.IsInvalid, SessionSetupRequestDecoder.Flags,
    SessionSetupRequestDecoder.PreviousSessionId, SessionSetupRequestDecoder.SecurityBuffer,
    SessionSetupRequestDecoder.StructureSize, SessionSetupRequestDecoder.SecurityBufferOffset,
    SessionSetupRequestDecoder.SecurityBufferLength.
  decode. split_and!; [done..|].
  destruct (range_field q (88 - 64) (88 - 64 + blen tok) tok) as (t & -> & Hb & _); [|lia..|].
  - by replace (88 - 64 + blen tok - (88 - 64)) with (blen tok) by lia.
  - by exists t.
Qed.

Lemma session_setup_roundtrip_witness :
  exists q r tok,
    SessionSetupRequest.Encode
      (SessionSetupRequest.mk PacketHeader.zero 0 1 0 0 [0x4e; 0x54; 0x4c; 0x4d] 7) (zeros 92) = Ok q
    /\ PacketCodec.Data (of_bytes q) = Ok r
    /\ SessionSetupRequestDecoder.SecurityBuffer r = Ok tok
    /\ s_bytes tok = [0x4e; 0x54; 0x4c; 0x4d].
Proof.
  destruct (session_setup_roundtrip
    (SessionSetupRequest.mk PacketHeader.zero 0 1 0 0 [0x4e; 0x54; 0x4c; 0x4d] 7))
    as (q & r & tok & Hq & _ & Hd & _ & _ & _ & Ht & Hb).
  - unfold PacketHeader.wf. ints. simpl. lia.
  - ints. simpl. lia.
  - ints. simpl. lia.
  - reflexivity.
  - exists q, r, tok. split; [exact Hq|]. split; [exact Hd|]. split; [exact Ht|exact Hb].
Defined.

(** The length check of SESSION_SETUP is sound as long as the 16-bit sum
    of offset and length does not wrap: on every accepted message whose
    offset plus length is below 65536, [SecurityBuffer] does not panic and
    returns either no token (offset before the buffer) or exactly as many
    bytes as announced, all of them inside the message. *)
Theorem session_setup_check_sound r off len :
  slice_wf r ->
  SessionSetupRequestDecoder.IsInvalid r = Ok false ->
  SessionSetupRequestDecoder.SecurityBufferOffset r = Ok off ->
  SessionSetupRequestDecoder.SecurityBufferLength r = Ok len ->
  0 <= off -> 0 <= len -> off + len < 65536 ->
  exists t, SessionSetupRequestDecoder.SecurityBuffer r = Ok t
    /\ (88 <= off -> s_len t = len /\ s_bytes t = sub (off - 64) len (s_arr r)
                     /\ off - 64 + len <= s_len r).
Proof.
  intros [Hw1 Hw2] Hi Ho Hl Hp Hn Hsum.
  unfold SessionSetupRequestDecoder.IsInvalid in Hi.
  destruct (s_len r <? 24) eqn:E24; [done|].
  destruct (SessionSetupRequestDecoder.StructureSize r) as [ss| |]; [|done..]. cbn [obind] in Hi.
  destruct (negb (ss =? 25)); [done|]. rewrite Ho, Hl in Hi. cbn [obind] in Hi.
  destruct (s_len r <? u16 (off + len) - 64) eqn:E; [done|].
  rewrite u16_id in E by (ints; lia). apply Z.ltb_ge in E.
  unfold SessionSetupRequestDecoder.SecurityBuffer. rewrite Ho, Hl. cbn [obind].
  destruct (off <? 64 + 24) eqn:Eo.
  - exists nil_slice. split; [done|]. lia.
  - rewrite !u16_id by (ints; rewrite ?Z.mod_small; lia).
    destruct (s_range_bytes r (off - 64) (off - 64 + len)) as (t & Ht & Hb & _ & Hlt);
      [lia..|].
    exists t. split; [done|]. intros _.
    replace (off - 64 + len - (off - 64)) with len in * by lia. split_and!; [done|done|lia].
Qed.

Lemma session_setup_check_sound_witness :
  exists t, SessionSetupRequestDecoder.SecurityBuffer
    (of_bytes (le_enc 2 25 ++ zeros 10 ++ le_enc 2 88 ++ le_enc 2 3 ++ zeros 8 ++ [1; 2; 3])) = Ok t
    /\ s_len t = 3.
Proof.
  destruct (session_setup_check_sound
    (of_bytes (le_enc 2 25 ++ zeros 10 ++ le_enc 2 88 ++ le_enc 2 3 ++ zeros 8 ++ [1; 2; 3])) 88 3)
    as (t & Ht & Hb).
  - apply of_bytes_wf.
  - reflexivity.
  - reflexivity.
  - reflexivity.
  - lia.
  - lia.
  - lia.
  - exists t. split; [exact Ht|]. apply Hb. lia.
Defined.

(** The 16-bit sum of the SESSION_SETUP check wraps.  The decoder accepts
    the 24-byte message whose token offset is 0xFFF0 and token length 0x20,
    and reading its token panics: one unauthenticated packet stops the server. *)
Theorem session_setup_check_wraps :
  let r := of_bytes (le_enc 2 25 ++ zeros 10 ++ le_enc 2 0xfff0 ++ le_enc 2 0x20 ++ zeros 8) in
  SessionSetupRequestDecoder.IsInvalid r = Ok false
  /\ SessionSetupRequestDecoder.SecurityBuffer r = Panic.
Proof. split; vm_compute; reflexivity. Qed.

(** A store through a sub-slice [p[a:]] is a store of the buffer. *)
Lemma at_splice a e bs p :
  0 <= a <= blen p -> e (from a p) = Ok (splice 0 bs (from a p)) ->
  at_ a e p = Ok (splice a bs p).
Proof.
  intros Ha He. erewrite at_ok by (done || lia). f_equal.
  unfold splice, upto, from, blen in *. cbn. f_equal.
  rewrite drop_drop, length_drop, Nat.sub_0_r. done.
Qed.

Lemma at_EncodeString a s p :
  0 <= a -> a + EncodeString_len s <= blen p ->
  at_ a (EncodeString s) p = Ok (splice a (le16s (utf16_Encode s)) p).
Proof.
  intros. pose proof (EncodeString_len_nonneg s). apply at_splice; [lia|].
  apply EncodeString_ok. len.
Qed.

Lemma blen_utf16 s : blen (le16s (utf16_Encode s)) = EncodeString_len s.
Proof. rewrite blen_le16s. unfold EncodeString_len. lia. Qed.

(** The string of a field of known contents. *)
Lemma string_field q o b s :
  Forall scalar s -> last s <> Some 0 ->
  sub o (b - o) q = le16s (utf16_Encode s) -> 0 <= o -> o <= b -> b <= blen q ->
  (let! bs := s_range (of_bytes q) o b in DecodeToString bs) = Ok s.
Proof.
  intros Hs Hl Hf Ho Hb Hq.
  destruct (range_field q o b _ Hf Ho Hb Hq) as (t & -> & Ht & Hw). cbn [obind].
  by apply DecodeToString_ok.
Qed.

(** Room for the fixed part and the name, and one byte more. *)
Lemma create_size c :
  Forall scalar (CreateRequest.Name c) -> CreateRequest.Contexts c = [] ->
  120 + EncodeString_len (CreateRequest.Name c) <= CreateRequest.Size c /\ 120 < CreateRequest.Size c.
Proof.
  intros Hs Hc. unfold CreateRequest.Size. rewrite Hc. cbn [length foldl].
  rewrite EncodedStringLen_ok by done.
  destruct (CreateRequest.Name c) as [|x nm]; [split; done|]. cbn [length].
  destruct (Z.eqb_spec (Z.of_nat (S (length nm))) 0); [lia|]. cbn [andb].
  enough (0 < EncodeString_len (x :: nm)) by lia. unfold EncodeString_len, utf16_Encode.
  cbn [fmap list_fmap concat]. rewrite length_app.
  assert (1 <= length (utf16_encode_rune x))%nat; [|lia].
  unfold utf16_encode_rune. repeat case_match; cbn; lia.
Qed.

(** C32: a CREATE request round trip.  For every request without create
    contexts whose name is a valid string (not ending in NUL) that fits the
    16-bit length, encoding into a buffer of [Size] bytes succeeds, the
    decoder accepts the message, and the name, the disposition, the options,
    the access mask and the requested oplock level are read back. *)
Theorem create_request_roundtrip (c : CreateRequest.t) :
  PacketHeader.wf (CreateRequest.hdr c) ->
  in8 (CreateRequest.RequestedOplockLevel c) -> in32 (CreateRequest.DesiredAccess c) ->
  in32 (CreateRequest.CreateDisposition c) -> in32 (CreateRequest.CreateOptions c) ->
  Forall scalar (CreateRequest.Name c) -> last (CreateRequest.Name c) <> Some 0 ->
  EncodedStringLen (CreateRequest.Name c) < 65536 - 120 ->
  CreateRequest.Contexts c = [] ->
  exists pkt r,
    CreateRequest.Encode c (zeros (CreateRequest.Size c)) = Ok pkt
    /\ PacketCodec.Command (of_bytes pkt) = Ok SMB2_CREATE
    /\ PacketCodec.Data (of_bytes pkt) = Ok r
    /\ CreateRequestDecoder.IsInvalid r = Ok false
    /\ CreateRequestDecoder.Name r = Ok (CreateRequest.Name c)
    /\ CreateRequestDecoder.RequestedOplockLevel r = Ok (CreateRequest.RequestedOplockLevel c)
    /\ CreateRequestDecoder.DesiredAccess r = Ok (CreateRequest.DesiredAccess c)
    /\ CreateRequestDecoder.CreateDisposition r = Ok (CreateRequest.CreateDisposition c)
    /\ CreateRequestDecoder.CreateOptions r = Ok (CreateRequest.CreateOptions c)
    /\ CreateRequestDecoder.CreateContexts r = Ok nil_slice.
Proof.
  intros Hw H3 H24 H36 H40 Hs Hl Hn Hc. set (nm := CreateRequest.Name c) in *.
  rewrite EncodedStringLen_ok in Hn by done.
  pose proof (EncodeString_len_nonneg nm) as H0.
  pose proof (create_size c Hs Hc) as Hsz. fold nm in Hsz.
  edestruct (message_elim SMB2_CREATE (CreateRequest.hdr c)) with
    (P := fun q => let r := of_bytes q in
      CreateRequestDecoder.IsInvalid r = Ok false
      /\ CreateRequestDecoder.Name r = Ok nm
      /\ CreateRequestDecoder.RequestedOplockLevel r = Ok (CreateRequest.RequestedOplockLevel c)
      /\ CreateRequestDecoder.DesiredAccess r = Ok (CreateRequest.DesiredAccess c)
      /\ CreateRequestDecoder.CreateDisposition r = Ok (CreateRequest.CreateDisposition c)
      /\ CreateRequestDecoder.CreateOptions r = Ok (CreateRequest.CreateOptions c)
      /\ CreateRequestDecoder.CreateContexts r = Ok nil_slice)
    as (pkt & q & Hm & Hcmd & Hd & HP); cycle 4.
  { exists pkt, (of_bytes q). destruct HP as (?&?&?&?&?&?&?). split_and!; done. }
  1-3: first [done | ints; done | lia].
  eexists. split.
  { rewrite Hc. cbn [CreateRequest.encode_contexts Z.eqb negb ewhen]. unfold eseq, eskip.
    fold nm. repeat body_step. rewrite at_EncodeString by len. cbn [obind].
    repeat body_step. reflexivity. }
  set (q := splice 46 _ _). pose proof (blen_utf16 nm) as Hu.
  assert (Hq : blen q = CreateRequest.Size c - 64) by (unfold q; len).
  assert (E : sub 0 2 q = le_enc 2 57 /\ sub 3 1 q = [CreateRequest.RequestedOplockLevel c mod 256]
    /\ sub 24 4 q = le_enc 4 (CreateRequest.DesiredAccess c)
    /\ sub 36 4 q = le_enc 4 (CreateRequest.CreateDisposition c)
    /\ sub 40 4 q = le_enc 4 (CreateRequest.CreateOptions c)
    /\ sub 44 2 q = le_enc 2 120 /\ sub 46 2 q = le_enc 2 (u16 (EncodeString_len nm))
    /\ sub 48 4 q = le_enc 4 0 /\ sub 52 4 q = le_enc 4 0
    /\ sub 56 (EncodeString_len nm) q = le16s (utf16_Encode nm)).
  { unfold q. split_and!; try (reads; done).
    1-2: rewrite !sub_splice_out by (rewrite ?Hu; len); apply sub_zeros; lia.
    rewrite 2 sub_splice_out by (rewrite ?Hu; len). rewrite <- Hu.
    apply sub_splice_same; [done | lia | rewrite Hu; len]. }
  destruct E as (E0 & E3 & E24 & E36 & E40 & E44 & E46 & E48 & E52 & E56). clearbody q. cbv zeta.
  unfold CreateRequestDecoder.IsInvalid, CreateRequestDecoder.Name,
    CreateRequestDecoder.RequestedOplockLevel, CreateRequestDecoder.DesiredAccess,
    CreateRequestDecoder.CreateDisposition, CreateRequestDecoder.CreateOptions,
    CreateRequestDecoder.CreateContexts, CreateRequestDecoder.StructureSize,
    CreateRequestDecoder.NameOffset, CreateRequestDecoder.NameLength,
    CreateRequestDecoder.CreateContextsOffset, CreateRequestDecoder.CreateContextsLength.
  decode. split_and!; try done.
  apply string_field; try done; try lia.
  by replace (120 - 64 + EncodeString_len nm - (120 - 64)) with (EncodeString_len nm) by lia.
Qed.

Lemma create_request_roundtrip_witness :
  exists pkt r,
    CreateRequest.Encode
      (CreateRequest.mk PacketHeader.zero 0 9 2 0 0x120089 0 7 1 0x40 [0x61; 0x1f600; 0x62] [])
      (zeros 128) = Ok pkt
    /\ PacketCodec.Data (of_bytes pkt) = Ok r
    /\ CreateRequestDecoder.Name r = Ok [0x61; 0x1f600; 0x62].
Proof.
  destruct (create_request_roundtrip
    (CreateRequest.mk PacketHeader.zero 0 9 2 0 0x120089 0 7 1 0x40 [0x61; 0x1f600; 0x62] []))
    as (pkt & r & Hq & _ & Hd & _ & Hn & _).
  - unfold PacketHeader.wf. ints. simpl. lia.
  - ints. simpl. lia.
  - ints. simpl. lia.
  - ints. simpl. lia.
  - ints. simpl. lia.
  - simpl. unfold scalar. repeat constructor; lia.
  - simpl. discriminate.
  - vm_compute. reflexivity.
  - reflexivity.
  - exists pkt, r. split; [exact Hq|]. split; [exact Hd|exact Hn].
Defined.

(** A WRITE request carries its payload.  For every request without
    channel information whose payload fits a 32-bit length (with the header),
    encoding succeeds, the decoder accepts the message, and the offset, the
    file id and the payload are read back exactly. *)
Theorem write_request_roundtrip (c : WriteRequest.t) :
  PacketHeader.wf (WriteRequest.hdr c) -> fileid_wf (WriteRequest.FileId c) ->
  in64 (WriteRequest.Offset c) -> blen (WriteRequest.Data c) < 0x100000000 - 112 ->
  WriteRequest.WriteChannelInfo c = [] ->
  exists pkt r fid d,
    WriteRequest.Encode c (zeros (WriteRequest.Size c)) = Ok pkt
    /\ PacketCodec.Command (of_bytes pkt) = Ok SMB2_WRITE
    /\ PacketCodec.Data (of_bytes pkt) = Ok r
    /\ WriteRequestDecoder.IsInvalid r = Ok false
    /\ WriteRequestDecoder.Offset r = Ok (WriteRequest.Offset c)
    /\ WriteRequestDecoder.FileId r = Ok fid
    /\ FileIdDecoder.Decode fid = Ok (fileid_read (WriteRequest.FileId c))
    /\ WriteRequestDecoder.Data r = Ok d
    /\ s_bytes d = WriteRequest.Data c.
Proof.
  intros Hw Hf Ho Hd Hc. set (d := WriteRequest.Data c) in *.
  pose proof (blen_nonneg d) as H0. pose proof (blen_fileid _ Hf) as Hfl.
  assert (Hsz : 112 + blen d <= WriteRequest.Size c).
  { unfold WriteRequest.Size. fold d. rewrite Hc. cbn [length foldl].
    destruct (Z.eqb_spec (blen d) 0); cbn [andb]; [change (Z.of_nat 0 =? 0) with true; cbn match; lia|lia]. }
  edestruct (message_elim SMB2_WRITE (WriteRequest.hdr c)) with
    (P := fun q => let r := of_bytes q in
      WriteRequestDecoder.IsInvalid r = Ok false
      /\ WriteRequestDecoder.Offset r = Ok (WriteRequest.Offset c)
      /\ (exists fid, WriteRequestDecoder.FileId r = Ok fid
          /\ FileIdDecoder.Decode fid = Ok (fileid_read (WriteRequest.FileId c)))
      /\ exists t, WriteRequestDecoder.Data r = Ok t /\ s_bytes t = d)
    as (pkt & q & Hm & Hcmd & Hdt & HP); cycle 4.
  { destruct HP as (?&?&(fid&?&?)&(t&?&?)). exists pkt, (of_bytes q), fid, t. split_and!; done. }
  1-3: first [done | ints; done | lia].
  eexists. split.
  { rewrite Hc. cbn [ReadRequest.encode_infos list_size foldl]. unfold eseq, eskip. fold d.
    repeat body_step. reflexivity. }
  set (q := splice 4 _ _).
  assert (Hq : blen q = WriteRequest.Size c - 64) by (unfold q; len).
  assert (E : sub 0 2 q = le_enc 2 49 /\ sub 2 2 q = le_enc 2 112
    /\ sub 4 4 q = le_enc 4 (u32 (blen d)) /\ sub 8 8 q = le_enc 8 (WriteRequest.Offset c)
    /\ sub 16 16 q = fileid_bytes (WriteRequest.FileId c)
    /\ sub 40 2 q = le_enc 2 0 /\ sub 42 2 q = le_enc 2 0 /\ sub 48 (blen d) q = d).
  { unfold q. split_and!; try (reads; done).
    - rewrite !sub_splice_out by (rewrite ?Hfl; len). apply sub_zeros; lia.
    - rewrite sub_splice_out by len. apply sub_splice_same; len. }
  destruct E as (E0 & E2 & E4 & E8 & E16 & E40 & E42 & E48). clearbody q. cbv zeta.
  unfold WriteRequestDecoder.IsInvalid, WriteRequestDecoder.Offset, WriteRequestDecoder.FileId,
    WriteRequestDecoder.Data, WriteRequestDecoder.StructureSize, WriteRequestDecoder.DataOffset,
    WriteRequestDecoder.Length, WriteRequestDecoder.WriteChannelInfoOffset,
    WriteRequestDecoder.WriteChannelInfoLength.
  decode. split_and!; [done..| |].
  - pose proof (fileid_decode (of_bytes q) 16 32 _ Hf) as Hdec.
    rewrite s_range_ok in Hdec |- * by (unfold s_cap; cbn; lia). eexists. split; [done|].
    apply Hdec; [lia..|unfold s_cap; cbn; lia|done].
  - destruct (range_field q 48 (48 + blen d) d) as (t & -> & Hb & _); [|lia..|].
    + by replace (48 + blen d - 48) with (blen d) by lia.
    + by exists t.
Qed.

Lemma write_request_roundtrip_witness :
  exists pkt r d,
    WriteRequest.Encode
      (WriteRequest.mk PacketHeader.zero (Some FileId.zero) 0 0 0 4096 [] [1; 2; 3]) (zeros 115)
      = Ok pkt
    /\ PacketCodec.Data (of_bytes pkt) = Ok r
    /\ WriteRequestDecoder.Data r = Ok d /\ s_bytes d = [1; 2; 3].
Proof.
  destruct (write_request_roundtrip
    (WriteRequest.mk PacketHeader.zero (Some FileId.zero) 0 0 0 4096 [] [1; 2; 3]))
    as (pkt & r & fid & d & Hq & _ & Hd & _ & _ & _ & _ & Hdt & Hb).
  - unfold PacketHeader.wf. ints. simpl. lia.
  - unfold fileid_wf, FileId.wf, bytes_ok. simpl. split; [done|]. split; [done|].
    split; repeat constructor; lia.
  - ints. simpl. lia.
  - vm_compute. reflexivity.
  - reflexivity.
  - exists pkt, r, d. split; [exact Hq|]. split; [exact Hd|]. split; [exact Hdt|exact Hb].
Defined.
