(* ===== verification/Dtyp.v ===== *)
(** * Windows data types (internal/smb2/dtyp.go): FILETIME and SID *)

From S2P Require Import Prelude Const Packet Utf16 Paths.

(** A 64-bit pattern read as int64. *)
Definition s64 (x : Z) : Z := let y := u64 x in if y <? 2 ^ 63 then y else y - 2 ^ 64.

Definition in_s64 (x : Z) : Prop := - 2 ^ 63 <= x < 2 ^ 63.

Lemma s64_id x : in_s64 x -> s64 x = x.
Proof.
  unfold s64, u64, in_s64. change (2 ^ 64) with 18446744073709551616.
  change (2 ^ 63) with 9223372036854775808. intros H.
  destruct (Z.lt_ge_cases x 0).
  - rewrite <- (Z.mod_add x 1), Z.mod_small by lia.
    destruct (Z.ltb_spec (x + 1 * 18446744073709551616) 9223372036854775808); lia.
  - rewrite Z.mod_small by lia. destruct (Z.ltb_spec x 9223372036854775808); lia.
Qed.

Module Filetime.

Record t := mk { LowDateTime : Z; HighDateTime : Z }.

Definition Size : Z := 8.

Definition Encode (ft : t) : enc := put32 0 (LowDateTime ft) >> put32 4 (HighDateTime ft).

(** A nil pointer is dereferenced. *)
Definition Encode_ptr (ft : option t) : enc :=
  match ft with Some ft => Encode ft | None => fun _ => Panic end.

Definition epoch : Z := 116444736000000000.

Definition Nanoseconds (ft : t) : Z :=
  let nsec := s64 (s64 (Z.shiftl (HighDateTime ft) 32) + LowDateTime ft) in
  if nsec =? 0 then 0 else s64 (s64 (nsec - epoch) * 100).

Definition NsecToFiletime (nsec : Z) : t :=
  let nsec := Z.quot nsec 100 in
  let nsec := s64 (nsec + epoch) in
  mk (u32 (Z.land nsec 0xffffffff)) (u32 (Z.land (Z.shiftr nsec 32) 0xffffffff)).

End Filetime.

Module FiletimeDecoder.
Definition LowDateTime (ft : slice) : outcome Z := get32 ft 0 4.
Definition HighDateTime (ft : slice) : outcome Z := get32 ft 4 8.
Definition Nanoseconds (ft : slice) : outcome Z :=
  let! h := HighDateTime ft in
  let! l := LowDateTime ft in
  Ok (let nsec := s64 (s64 (Z.shiftl h 32) + l) in
      if nsec =? 0 then 0 else s64 (s64 (nsec - Filetime.epoch) * 100)).
Definition Decode (ft : slice) : outcome Filetime.t :=
  let! l := LowDateTime ft in
  let! h := HighDateTime ft in
  Ok (Filetime.mk l h).
End FiletimeDecoder.

Module Sid.

Record t := mk { Revision : Z; IdentifierAuthority : Z; SubAuthority : list Z }.

(** strconv.FormatUint: the digits of a number of 64 bits in a base. *)
Fixpoint FormatUint (fuel : nat) (n base : Z) : gostring :=
  match fuel with
  | O => []
  | S fuel =>
      (if n <? base then [] else FormatUint fuel (n / base) base)
      ++ [let d := n mod base in if d <? 10 then 0x30 + d else 0x57 + d]
  end.

(** "S-1-5-21": the authority in hexadecimal when it has more than 32 bits. *)
Definition String (sid : t) : gostring :=
  let decimal n := FormatUint 20 n 10 in
  Join (lit "S" :: decimal (Revision sid)
        :: (if IdentifierAuthority sid <? Z.shiftl 1 32 then decimal (IdentifierAuthority sid)
            else lit "0x" ++ FormatUint 16 (IdentifierAuthority sid) 16)
        :: map decimal (SubAuthority sid)) 0x2d.

Definition Size (sid : t) : Z := 8 + Z.of_nat (length (SubAuthority sid)) * 4.

(** The loop over [j]: byte [2+j] gets the authority shifted by [8*(6-j)]. *)
Fixpoint put_authority (id : Z) (j : Z) (n : nat) : enc :=
  match n with
  | O => eskip
  | S n => put8 (2 + j) (Z.shiftr id (8 * (6 - j))) >> put_authority id (j + 1) n
  end.

Fixpoint put_subs (off : Z) (us : list Z) : enc :=
  match us with
  | [] => eskip
  | u :: us => put32 off u >> put_subs (off + 4) us
  end.

Definition Encode (sid : t) : enc :=
  put8 0 (Revision sid)
  >> put8 1 (u8 (Z.of_nat (length (SubAuthority sid))))
  >> put_authority (IdentifierAuthority sid) 0 6
  >> put_subs 8 (SubAuthority sid).

Example String_example : String (mk 1 5 [21; 1000; 4294967295]) = lit "S-1-5-21-1000-4294967295".
Proof. vm_compute. reflexivity. Qed.

Example String_hex : String (mk 1 (2 ^ 32 + 10) []) = lit "S-1-0x10000000a".
Proof. vm_compute. reflexivity. Qed.

End Sid.

Module SidDecoder.

Definition Revision (c : slice) : outcome Z := s_idx c 0.
Definition SubAuthorityCount (c : slice) : outcome Z := s_idx c 1.

Definition IsInvalid (c : slice) : outcome bool :=
  if s_len c <? 8 then Ok true else
  let! n := SubAuthorityCount c in
  Ok (s_len c <? 8 + n * 4).

(** The sum of [c[7-j] << 8*j]. *)
Fixpoint authority (c : slice) (j : Z) (n : nat) (u : Z) : outcome Z :=
  match n with
  | O => Ok u
  | S n => let! b := s_idx c (7 - j) in
           authority c (j + 1) n (u64 (u + u64 (Z.shiftl b (8 * j))))
  end.
Definition IdentifierAuthority (c : slice) : outcome Z := authority c 0 6 0.

Fixpoint subs (c : slice) (off : Z) (n : nat) : outcome (list Z) :=
  match n with
  | O => Ok []
  | S n => let! a := get32 c off (off + 4) in
           let! l := subs c (off + 4) n in Ok (a :: l)
  end.
Definition SubAuthority (c : slice) : outcome (list Z) :=
  let! n := SubAuthorityCount c in subs c 8 (Z.to_nat n).

Definition Decode (c : slice) : outcome Sid.t :=
  let! r := Revision c in
  let! i := IdentifierAuthority c in
  let! s := SubAuthority c in
  Ok (Sid.mk r i s).

End SidDecoder.

(** ** Times *)

(** Times survive the FILETIME format.  Every int64 count of nanoseconds
    since 1970, before or after, comes back from its FILETIME rounded to the
    format's resolution of 100ns (towards zero), without overflow. *)
Theorem filetime_roundtrip (nsec : Z) :
  in_s64 nsec -> Filetime.Nanoseconds (Filetime.NsecToFiletime nsec) = 100 * Z.quot nsec 100.
Proof.
  intros Hn. unfold in_s64 in Hn. set (k := Z.quot nsec 100).
  assert (Hk : -92233720368547758 <= k <= 92233720368547758).
  { unfold k. destruct (Z.le_ge_cases 0 nsec).
    - rewrite Z.quot_div_nonneg by lia. pose proof (Z.div_mod nsec 100 ltac:(lia)).
      pose proof (Z.mod_pos_bound nsec 100 ltac:(lia)). lia.
    - replace nsec with (- (- nsec)) by lia. rewrite Z.quot_opp_l, Z.quot_div_nonneg by lia.
      pose proof (Z.div_mod (- nsec) 100 ltac:(lia)).
      pose proof (Z.mod_pos_bound (- nsec) 100 ltac:(lia)). lia. }
  unfold Filetime.NsecToFiletime. fold k. unfold Filetime.epoch.
  rewrite s64_id by (unfold in_s64; lia). set (m := k + 116444736000000000).
  assert (Hm : 0 < m < 2 ^ 58) by (unfold m; lia).
  change 0xffffffff with (Z.ones 32). rewrite !Z.land_ones, Z.shiftr_div_pow2 by lia.
  assert (Hhi : 0 <= m / 2 ^ 32 < 2 ^ 26).
  { split; [apply Z.div_pos; lia|]. apply Z.div_lt_upper_bound; lia. }
  rewrite (Z.mod_small (m / 2 ^ 32)) by lia.
  pose proof (Z.mod_pos_bound m (2 ^ 32) ltac:(lia)) as Hlo.
  rewrite !u32_id by (ints; lia).
  unfold Filetime.Nanoseconds. cbn [Filetime.LowDateTime Filetime.HighDateTime].
  rewrite Z.shiftl_mul_pow2 by lia.
  assert (Hs : in_s64 (m / 2 ^ 32 * 2 ^ 32)) by (unfold in_s64; nia).
  rewrite (s64_id _ Hs).
  replace (m / 2 ^ 32 * 2 ^ 32 + m mod 2 ^ 32) with m
    by (rewrite (Z.mul_comm (m / 2 ^ 32)); apply Z.div_mod; lia).
  rewrite s64_id by (unfold in_s64; lia).
  destruct (Z.eqb_spec m 0); [lia|]. unfold Filetime.epoch.
  replace (m - 116444736000000000) with k by (unfold m; lia).
  rewrite (s64_id k) by (unfold in_s64; lia). rewrite s64_id by (unfold in_s64; lia). lia.
Qed.

Lemma filetime_roundtrip_witness :
  Filetime.Nanoseconds (Filetime.NsecToFiletime 1700000000123456789) = 1700000000123456700.
Proof. apply (filetime_roundtrip 1700000000123456789). unfold in_s64. lia. Defined.

(** ** SIDs *)

(** A SID does not survive encoding.  [Encode] shifts the identifier
    authority one byte too far, so the authority of S-1-5-18 (the local
    system account) is written, and read back, as 0. *)
Theorem sid_authority_lost :
  exists p, Sid.Encode (Sid.mk 1 5 [18]) (zeros 12) = Ok p
    /\ SidDecoder.IsInvalid (of_bytes p) = Ok false
    /\ SidDecoder.Decode (of_bytes p) = Ok (Sid.mk 1 0 [18]).
Proof. eexists. split; [vm_compute; reflexivity|]. split; vm_compute; reflexivity. Qed.
