(* ===== verification/Vfs.v ===== *)
(** * The virtual file system (vfs/, the conversions of internal/smb2/util.go)

    Attributes of files and file systems with their presence masks, the
    interface [VFSFileSystem] a share is served from, and the conversion of
    attributes to the fields of SMB messages. *)

From S2P Require Import Prelude Const Utf16 Paths Dtyp.

(** ** vfs/file_type.go, vfs/permissions.go *)

Inductive FileType :=
| FileTypeRegularFile | FileTypeDirectory | FileTypeSymlink | FileTypeBlockDevice
| FileTypeCharacterDevice | FileTypeFIFO | FileTypeSocket | FileTypeNamedAttributeDir
| FileTypeNamedAttribute | FileTypeOther.
#[export] Instance FileType_eq_dec : EqDecision FileType.
Proof. solve_decision. Defined.

Definition PermissionsRead : Z := 1.
Definition PermissionsWrite : Z := 2.
Definition PermissionsExecute : Z := 4.

(** A bit or nothing. *)
Definition when (b : bool) (m : Z) : Z := if b then m else 0.

Definition NewPermissionsFromMode (m : Z) : Z :=
  Z.lor (Z.lor (when (has m 0x124) PermissionsRead) (when (has m 0x92) PermissionsWrite))
        (when (has m 0x49) PermissionsExecute).
Definition ToMode (p : Z) : Z :=
  Z.lor (Z.lor (when (has p PermissionsRead) 0x124) (when (has p PermissionsWrite) 0x80))
        (when (has p PermissionsExecute) 0x49).

(** ** vfs/attributes.go, vfs/fs_attributes.go

    Times are counted in nanoseconds since the epoch. *)

Definition AttributesMaskChangeID : Z := 1.
Definition AttributesMaskDeviceNumber : Z := 2.
Definition AttributesMaskFileHandle : Z := 4.
Definition AttributesMaskFileType : Z := 8.
Definition AttributesMaskInodeNumber : Z := 16.
Definition AttributesMaskLastDataModificationTime : Z := 32.
Definition AttributesMaskAccessTime : Z := 64.
Definition AttributesMaskLastStatusChangeTime : Z := 128.
Definition AttributesMaskBirthTime : Z := 256.
Definition AttributesMaskLinkCount : Z := 512.
Definition AttributesMaskPermissions : Z := 1024.
Definition AttributesMaskSizeBytes : Z := 2048.
Definition AttributesMaskDiskSizeBytes : Z := 4096.
Definition AttributesMaskUserID : Z := 8192.
Definition AttributesMaskGroupID : Z := 16384.
Definition AttributesMaskUnixMode : Z := 32768.

Module Attributes.
Record t := mk {
fieldsPresent : Z; changeID : Z; deviceNumber : Z; fileHandle : Z; fileType : FileType;
    inodeNumber : Z; mTime : Z; aTime : Z; cTime : Z; bTime : Z; linkCount : Z; permissions : Z;
    sizeBytes : Z; diskSize : Z; uid : Z; gid : Z; unixMode : Z
}.
#[global] Instance t_eq_dec : EqDecision t.
Proof. solve_decision. Defined.
(** The zero value: nothing is set. *)
Definition zero : t := mk 0 0 0 0 FileTypeRegularFile 0 0 0 0 0 0 0 0 0 0 0 0.

Definition GetChangeID (a : t) : outcome Z :=
  if has (fieldsPresent a) AttributesMaskChangeID then Ok (changeID a) else Panic.
Definition SetChangeID (v : Z) (a : t) : t := mk (Z.lor (fieldsPresent a) AttributesMaskChangeID)
    v (deviceNumber a) (fileHandle a) (fileType a) (inodeNumber a) (mTime a) (aTime a) (cTime a)
    (bTime a) (linkCount a) (permissions a) (sizeBytes a) (diskSize a) (uid a) (gid a)
    (unixMode a).
Definition GetDeviceNumber (a : t) : Z * bool := (deviceNumber a, has (fieldsPresent a) AttributesMaskDeviceNumber).
Definition SetDeviceNumber (v : Z) (a : t) : t := mk (Z.lor (fieldsPresent a)
    AttributesMaskDeviceNumber) (changeID a) v (fileHandle a) (fileType a) (inodeNumber a)
    (mTime a) (aTime a) (cTime a) (bTime a) (linkCount a) (permissions a) (sizeBytes a)
    (diskSize a) (uid a) (gid a) (unixMode a).
Definition GetFileHandle (a : t) : outcome Z :=
  if has (fieldsPresent a) AttributesMaskFileHandle then Ok (fileHandle a) else Panic.
Definition SetFileHandle (v : Z) (a : t) : t := mk (Z.lor (fieldsPresent a)
    AttributesMaskFileHandle) (changeID a) (deviceNumber a) v (fileType a) (inodeNumber a)
    (mTime a) (aTime a) (cTime a) (bTime a) (linkCount a) (permissions a) (sizeBytes a)
    (diskSize a) (uid a) (gid a) (unixMode a).
Definition GetFileType (a : t) : outcome FileType :=
  if has (fieldsPresent a) AttributesMaskFileType then Ok (fileType a) else Panic.
Definition SetFileType (v : FileType) (a : t) : t := mk (Z.lor (fieldsPresent a)
    AttributesMaskFileType) (changeID a) (deviceNumber a) (fileHandle a) v (inodeNumber a)
    (mTime a) (aTime a) (cTime a) (bTime a) (linkCount a) (permissions a) (sizeBytes a)
    (diskSize a) (uid a) (gid a) (unixMode a).
Definition GetInodeNumber (a : t) : outcome Z :=
  if has (fieldsPresent a) AttributesMaskInodeNumber then Ok (inodeNumber a) else Panic.
Definition SetInodeNumber (v : Z) (a : t) : t := mk (Z.lor (fieldsPresent a)
    AttributesMaskInodeNumber) (changeID a) (deviceNumber a) (fileHandle a) (fileType a) v
    (mTime a) (aTime a) (cTime a) (bTime a) (linkCount a) (permissions a) (sizeBytes a)
    (diskSize a) (uid a) (gid a) (unixMode a).
Definition GetLastDataModificationTime (a : t) : Z * bool := (mTime a, has (fieldsPresent a) AttributesMaskLastDataModificationTime).
Definition SetLastDataModificationTime (v : Z) (a : t) : t := mk (Z.lor (fieldsPresent a)
    AttributesMaskLastDataModificationTime) (changeID a) (deviceNumber a) (fileHandle a)
    (fileType a) (inodeNumber a) v (aTime a) (cTime a) (bTime a) (linkCount a) (permissions a)
    (sizeBytes a) (diskSize a) (uid a) (gid a) (unixMode a).
Definition GetLastStatusChangeTime (a : t) : Z * bool := (cTime a, has (fieldsPresent a) AttributesMaskLastStatusChangeTime).
Definition SetLastStatusChangeTime (v : Z) (a : t) : t := mk (Z.lor (fieldsPresent a)
    AttributesMaskLastStatusChangeTime) (changeID a) (deviceNumber a) (fileHandle a) (fileType a)
    (inodeNumber a) (mTime a) (aTime a) v (bTime a) (linkCount a) (permissions a) (sizeBytes a)
    (diskSize a) (uid a) (gid a) (unixMode a).
Definition GetAccessTime (a : t) : Z * bool := (aTime a, has (fieldsPresent a) AttributesMaskAccessTime).
Definition SetAccessTime (v : Z) (a : t) : t := mk (Z.lor (fieldsPresent a)
    AttributesMaskAccessTime) (changeID a) (deviceNumber a) (fileHandle a) (fileType a)
    (inodeNumber a) (mTime a) v (cTime a) (bTime a) (linkCount a) (permissions a) (sizeBytes a)
    (diskSize a) (uid a) (gid a) (unixMode a).
Definition GetBirthTime (a : t) : Z * bool := (bTime a, has (fieldsPresent a) AttributesMaskBirthTime).
Definition SetBirthTime (v : Z) (a : t) : t := mk (Z.lor (fieldsPresent a)
    AttributesMaskBirthTime) (changeID a) (deviceNumber a) (fileHandle a) (fileType a)
    (inodeNumber a) (mTime a) (aTime a) (cTime a) v (linkCount a) (permissions a) (sizeBytes a)
    (diskSize a) (uid a) (gid a) (unixMode a).
Definition GetLinkCount (a : t) : outcome Z :=
  if has (fieldsPresent a) AttributesMaskLinkCount then Ok (linkCount a) else Panic.
Definition SetLinkCount (v : Z) (a : t) : t := mk (Z.lor (fieldsPresent a)
    AttributesMaskLinkCount) (changeID a) (deviceNumber a) (fileHandle a) (fileType a)
    (inodeNumber a) (mTime a) (aTime a) (cTime a) (bTime a) v (permissions a) (sizeBytes a)
    (diskSize a) (uid a) (gid a) (unixMode a).
Definition GetPermissions (a : t) : Z * bool := (permissions a, has (fieldsPresent a) AttributesMaskPermissions).
Definition SetPermissions (v : Z) (a : t) : t := mk (Z.lor (fieldsPresent a)
    AttributesMaskPermissions) (changeID a) (deviceNumber a) (fileHandle a) (fileType a)
    (inodeNumber a) (mTime a) (aTime a) (cTime a) (bTime a) (linkCount a) v (sizeBytes a)
    (diskSize a) (uid a) (gid a) (unixMode a).
Definition GetUnixMode (a : t) : Z * bool := (unixMode a, has (fieldsPresent a) AttributesMaskUnixMode).
Definition SetUnixMode (v : Z) (a : t) : t := mk (Z.lor (fieldsPresent a) AttributesMaskUnixMode)
    (changeID a) (deviceNumber a) (fileHandle a) (fileType a) (inodeNumber a) (mTime a) (aTime a)
    (cTime a) (bTime a) (linkCount a) (permissions a) (sizeBytes a) (diskSize a) (uid a) (gid a)
    (Z.land v 0xfff).
Definition GetSizeBytes (a : t) : Z * bool := (sizeBytes a, has (fieldsPresent a) AttributesMaskSizeBytes).
Definition SetSizeBytes (v : Z) (a : t) : t := mk (Z.lor (fieldsPresent a)
    AttributesMaskSizeBytes) (changeID a) (deviceNumber a) (fileHandle a) (fileType a)
    (inodeNumber a) (mTime a) (aTime a) (cTime a) (bTime a) (linkCount a) (permissions a) v
    (diskSize a) (uid a) (gid a) (unixMode a).
Definition GetDiskSizeBytes (a : t) : Z * bool := (diskSize a, has (fieldsPresent a) AttributesMaskDiskSizeBytes).
Definition SetDiskSizeBytes (v : Z) (a : t) : t := mk (Z.lor (fieldsPresent a)
    AttributesMaskDiskSizeBytes) (changeID a) (deviceNumber a) (fileHandle a) (fileType a)
    (inodeNumber a) (mTime a) (aTime a) (cTime a) (bTime a) (linkCount a) (permissions a)
    (sizeBytes a) v (uid a) (gid a) (unixMode a).
Definition GetUID (a : t) : Z * bool := (uid a, has (fieldsPresent a) AttributesMaskUserID).
Definition SetUID (v : Z) (a : t) : t := mk (Z.lor (fieldsPresent a) AttributesMaskUserID)
    (changeID a) (deviceNumber a) (fileHandle a) (fileType a) (inodeNumber a) (mTime a) (aTime a)
    (cTime a) (bTime a) (linkCount a) (permissions a) (sizeBytes a) (diskSize a) v (gid a)
    (unixMode a).
Definition GetGID (a : t) : Z * bool := (gid a, has (fieldsPresent a) AttributesMaskGroupID).
Definition SetGID (v : Z) (a : t) : t := mk (Z.lor (fieldsPresent a) AttributesMaskGroupID)
    (changeID a) (deviceNumber a) (fileHandle a) (fileType a) (inodeNumber a) (mTime a) (aTime a)
    (cTime a) (bTime a) (linkCount a) (permissions a) (sizeBytes a) (diskSize a) (uid a) v
    (unixMode a).
End Attributes.

Definition AttributesMaskBlockSize : Z := 1.
Definition AttributesMaskIOSize : Z := 2.
Definition AttributesMaskBlocks : Z := 4.
Definition AttributesMaskFreeBlocks : Z := 8.
Definition AttributesMaskAvailableBlocks : Z := 16.
Definition AttributesMaskFileNodes : Z := 32.
Definition AttributesMaskFreeFileNodes : Z := 64.

Module FSAttributes.
Record t := mk { fieldsPresent : Z; bsize : Z; iosize : Z; blocks : Z; bfree : Z; bavail : Z;
    files : Z; ffree : Z }.
Definition zero : t := mk 0 0 0 0 0 0 0 0.
Definition GetBlockSize (a : t) : Z * bool := (bsize a, has (fieldsPresent a) AttributesMaskBlockSize).
Definition SetBlockSize (v : Z) (a : t) : t := mk (Z.lor (fieldsPresent a)
    AttributesMaskBlockSize) v (iosize a) (blocks a) (bfree a) (bavail a) (files a) (ffree a).
Definition GetIOkSize (a : t) : Z * bool := (iosize a, has (fieldsPresent a) AttributesMaskIOSize).
Definition SetIOSize (v : Z) (a : t) : t := mk (Z.lor (fieldsPresent a) AttributesMaskIOSize)
    (bsize a) v (blocks a) (bfree a) (bavail a) (files a) (ffree a).
Definition GetBlocks (a : t) : Z * bool := (blocks a, has (fieldsPresent a) AttributesMaskBlocks).
Definition SetBlocks (v : Z) (a : t) : t := mk (Z.lor (fieldsPresent a) AttributesMaskBlocks)
    (bsize a) (iosize a) v (bfree a) (bavail a) (files a) (ffree a).
Definition GetFreeBlocks (a : t) : Z * bool := (bfree a, has (fieldsPresent a) AttributesMaskFreeBlocks).
Definition SetFreeBlocks (v : Z) (a : t) : t := mk (Z.lor (fieldsPresent a)
    AttributesMaskFreeBlocks) (bsize a) (iosize a) (blocks a) v (bavail a) (files a) (ffree a).
Definition GetAvailableBlocks (a : t) : Z * bool := (bavail a, has (fieldsPresent a) AttributesMaskAvailableBlocks).
Definition SetAvailableBlocks (v : Z) (a : t) : t := mk (Z.lor (fieldsPresent a)
    AttributesMaskAvailableBlocks) (bsize a) (iosize a) (blocks a) (bfree a) v (files a)
    (ffree a).
Definition GetFiles (a : t) : Z * bool := (files a, has (fieldsPresent a) AttributesMaskFileNodes).
Definition SetFiles (v : Z) (a : t) : t := mk (Z.lor (fieldsPresent a) AttributesMaskFileNodes)
    (bsize a) (iosize a) (blocks a) (bfree a) (bavail a) v (ffree a).
Definition GetFreeFiles (a : t) : Z * bool := (ffree a, has (fieldsPresent a) AttributesMaskFreeFileNodes).
Definition SetFreeFiles (v : Z) (a : t) : t := mk (Z.lor (fieldsPresent a)
    AttributesMaskFreeFileNodes) (bsize a) (iosize a) (blocks a) (bfree a) (bavail a) (files a) v.
End FSAttributes.

(** ** vfs/vfs.go *)

Module DirInfo.
Record t := mk { Name : gostring; Attrs : Attributes.t }.
#[global] Instance t_eq_dec : EqDecision t.
Proof. solve_decision. Defined.
End DirInfo.

Definition ReadDirContinue : Z := 0.
Definition ReadDirRestart : Z := 1.

(** An error of a file system, as the tests the server makes on it:
    [os.IsNotExist], [errors.Is] against the named errors, [== io.EOF]. *)
Record vfs_error := mkVfsError {
  os_IsNotExist : bool; is_ENOSPC : bool; is_ErrNotExist : bool; is_ErrExist : bool;
  is_ErrPermission : bool; is_EBADF : bool; is_EOF : bool;
  is_ENOATTR : bool  (** of golang.org/x/sys, by way of github.com/pkg/xattr *)
}.
Definition other_error : vfs_error := mkVfsError false false false false false false false false.
Definition not_exist : vfs_error := mkVfsError true false true false false false false false.
Definition io_EOF : vfs_error := mkVfsError false false false false false false true false.

(** A value or an error; the value that comes with an error is nil. *)
Abbreviation result A := (A + vfs_error)%type.

(** The interface [VFSFileSystem]: the methods of an object with a state of
    its own.  A buffer that a method fills is returned with the count.  A
    pointer that can be nil without an error is an [option]; of the methods
    only [Rename], which can commit a bulk journal, can panic. *)
Record VFSFileSystem := mkVFS {
  fs_state : Type;
  fs_GetAttr : Z -> fs_state -> result Attributes.t * fs_state;
  fs_SetAttr : Z -> Attributes.t -> fs_state -> result (option Attributes.t) * fs_state;
  fs_StatFS : Z -> fs_state -> result (option FSAttributes.t) * fs_state;
  fs_FSync : Z -> fs_state -> option vfs_error * fs_state;
  fs_Flush : Z -> fs_state -> option vfs_error * fs_state;
  fs_Open : gostring -> Z -> Z -> fs_state -> result Z * fs_state;
  fs_Close : Z -> fs_state -> option vfs_error * fs_state;
  fs_Lookup : Z -> gostring -> fs_state -> result Attributes.t * fs_state;
  fs_Mkdir : gostring -> Z -> fs_state -> result Attributes.t * fs_state;
  fs_Read : Z -> bytes -> Z -> Z -> fs_state -> (bytes * Z * option vfs_error) * fs_state;
  fs_Write : Z -> bytes -> Z -> Z -> fs_state -> (Z * option vfs_error) * fs_state;
  fs_OpenDir : gostring -> fs_state -> result Z * fs_state;
  fs_ReadDir : Z -> Z -> Z -> fs_state -> result (list DirInfo.t) * fs_state;
  fs_Readlink : Z -> fs_state -> result gostring * fs_state;
  fs_Unlink : Z -> fs_state -> option vfs_error * fs_state;
  fs_Truncate : Z -> Z -> fs_state -> option vfs_error * fs_state;
  fs_Rename : Z -> gostring -> Z -> fs_state -> outcome (option vfs_error) * fs_state;
  fs_Symlink : Z -> gostring -> Z -> fs_state -> result Attributes.t * fs_state;
  fs_Link : Z -> Z -> gostring -> fs_state -> result (option Attributes.t) * fs_state;
  fs_Listxattr : Z -> fs_state -> result (list gostring) * fs_state;
  fs_Getxattr : Z -> gostring -> bytes -> fs_state -> (bytes * Z * option vfs_error) * fs_state;
  fs_Setxattr : Z -> gostring -> bytes -> fs_state -> option vfs_error * fs_state;
  fs_Removexattr : Z -> gostring -> fs_state -> option vfs_error * fs_state;
  fs_cur : fs_state
}.

(** The object with another state. *)
Definition fs_with (fs : VFSFileSystem) : fs_state fs -> VFSFileSystem :=
  mkVFS (fs_state fs) (fs_GetAttr fs) (fs_SetAttr fs) (fs_StatFS fs) (fs_FSync fs) (fs_Flush fs)
    (fs_Open fs) (fs_Close fs) (fs_Lookup fs) (fs_Mkdir fs) (fs_Read fs) (fs_Write fs)
    (fs_OpenDir fs) (fs_ReadDir fs) (fs_Readlink fs) (fs_Unlink fs) (fs_Truncate fs)
    (fs_Rename fs) (fs_Symlink fs) (fs_Link fs) (fs_Listxattr fs) (fs_Getxattr fs)
    (fs_Setxattr fs) (fs_Removexattr fs).
(** A call of a method. *)
Definition fs_call {A} (m : forall fs, fs_state fs -> A * fs_state fs) (fs : VFSFileSystem)
  : A * VFSFileSystem :=
  let '(r, s) := m fs (fs_cur fs) in (r, fs_with fs s).

(** ** util.go: attributes for messages *)

Definition time_of (t : Z * bool) : Filetime.t :=
  if snd t then Filetime.NsecToFiletime (fst t) else Filetime.mk 0 0.
Definition BirthTimeFromVfs (a : Attributes.t) : Filetime.t := time_of (Attributes.GetBirthTime a).
Definition AccessTimeFromVfs (a : Attributes.t) : Filetime.t := time_of (Attributes.GetAccessTime a).
Definition ModifiedTimeFromVfs (a : Attributes.t) : Filetime.t :=
  time_of (Attributes.GetLastDataModificationTime a).
Definition ChangeTimeFromVfs (a : Attributes.t) : Filetime.t :=
  time_of (Attributes.GetLastStatusChangeTime a).

Definition SizeFromVfs (a : Attributes.t) : Z :=
  let '(s, ok) := Attributes.GetSizeBytes a in if ok then s else 0.
Definition DiskSizeFromVfs (a : Attributes.t) : Z :=
  let '(s, ok) := Attributes.GetDiskSizeBytes a in if ok then s else SizeFromVfs a.

Definition UnixModeFromVfs (a : Attributes.t) : outcome Z :=
  let '(s, ok) := Attributes.GetUnixMode a in
  let m := if ok then u16 s else 0x1ff in
  let! ft := Attributes.GetFileType a in
  Ok (match ft with
      | FileTypeDirectory => Z.lor m 0x4000
      | FileTypeRegularFile => Z.lor m 0x8000
      | FileTypeSymlink => Z.lor m 0xa000
      | _ => m
      end).

(** A name that starts with a dot is hidden; the permissions replace that. *)
Definition PermissionsFromVfs (a : Attributes.t) (path : gostring) : outcome Z :=
  let perm := match Base path with
              | c :: _ => when (c =? dot) (Z.lor FILE_ATTRIBUTE_HIDDEN FILE_ATTRIBUTE_ARCHIVE)
              | [] => 0
              end in
  let '(p, ok) := Attributes.GetPermissions a in
  let perm :=
    if ok then
      if negb (has p PermissionsWrite) && negb (has p PermissionsRead)
         && negb (has p PermissionsExecute) then FILE_ATTRIBUTE_HIDDEN
      else if negb (has p PermissionsWrite) then FILE_ATTRIBUTE_READONLY
      else perm
    else perm in
  let! ft := Attributes.GetFileType a in
  let perm := Z.lor perm (when (bool_decide (ft = FileTypeRegularFile)) FILE_ATTRIBUTE_ARCHIVE) in
  let perm := Z.lor perm (when (bool_decide (ft = FileTypeDirectory)) FILE_ATTRIBUTE_DIRECTORY) in
  let perm := Z.lor perm (when (bool_decide (ft = FileTypeSymlink)) FILE_ATTRIBUTE_REPARSE_POINT) in
  Ok (if perm =? 0 then FILE_ATTRIBUTE_NORMAL else perm).

Definition MaxAccessFromVfs (a : Attributes.t) : Z :=
  let '(m, ok) := Attributes.GetUnixMode a in
  let m := if ok then m else 0x1ff in
  foldr Z.lor 0
    [SYNCHRONIZE;
     when (has m 0x104) (Z.lor (Z.lor FILE_READ_ATTRIBUTES FILE_READ_DATA) FILE_READ_EA);
     when (has m 0x104 && has m 0x100) READ_CONTROL;
     when (has m 0x82)
       (Z.lor (Z.lor (Z.lor FILE_WRITE_ATTRIBUTES FILE_WRITE_DATA) FILE_WRITE_EA) FILE_APPEND_DATA);
     when (has m 0x82 && has m 0x80)
       (Z.lor (Z.lor (Z.lor WRITE_DAC WRITE_OWNER) DELETE) FILE_DELETE_CHILD);
     when (has m 0x41) FILE_EXECUTE].

(** ** The attributes of a file *)

(** What a client may find in the attributes of a file of type [ft]: never
    empty, only the six attributes the server knows, NORMAL only alone,
    DIRECTORY exactly on directories and REPARSE_POINT exactly on links. *)
Definition attributes_wf (ft : FileType) (p : Z) : bool :=
  negb (p =? 0)
  && (Z.ldiff p (foldr Z.lor 0 [FILE_ATTRIBUTE_READONLY; FILE_ATTRIBUTE_HIDDEN; FILE_ATTRIBUTE_DIRECTORY;
                                FILE_ATTRIBUTE_ARCHIVE; FILE_ATTRIBUTE_NORMAL; FILE_ATTRIBUTE_REPARSE_POINT]) =? 0)
  && (negb (has p FILE_ATTRIBUTE_NORMAL) || (p =? FILE_ATTRIBUTE_NORMAL))
  && eqb (has p FILE_ATTRIBUTE_DIRECTORY) (bool_decide (ft = FileTypeDirectory))
  && eqb (has p FILE_ATTRIBUTE_REPARSE_POINT) (bool_decide (ft = FileTypeSymlink)).

(** C23: the attributes of every file are well formed.  Whatever the file
    system says of a file whose type it knows, and whatever the file's name
    is, the attributes the server shows are those of a file of that type: not
    empty, no unknown attribute, NORMAL only alone, DIRECTORY exactly on
    directories, REPARSE_POINT exactly on symbolic links; and a file that
    nobody may write but somebody may read is READONLY. *)
Theorem file_attributes_typed (a : Attributes.t) (path : gostring) (ft : FileType) :
  Attributes.GetFileType a = Ok ft ->
  exists p, PermissionsFromVfs a path = Ok p /\ attributes_wf ft p = true
    /\ (Attributes.GetPermissions a = (PermissionsRead, true) -> has p FILE_ATTRIBUTE_READONLY = true).
Proof.
  intros Hft. unfold PermissionsFromVfs. rewrite Hft. cbn [obind].
  set (dotted := match Base path with c :: _ => _ | [] => _ end).
  assert (Hd : dotted = 0 \/ dotted = Z.lor FILE_ATTRIBUTE_HIDDEN FILE_ATTRIBUTE_ARCHIVE).
  { unfold dotted. destruct (Base path) as [|c ?]; [by left|]. destruct (c =? dot); [by right|by left]. }
  clearbody dotted. destruct (Attributes.GetPermissions a) as [perms ok].
  eexists. split; [reflexivity|]. split.
  - destruct ok, (has perms PermissionsWrite), (has perms PermissionsRead), (has perms PermissionsExecute),
      Hd as [-> | ->], ft; reflexivity.
  - intros [= -> ->]. destruct Hd as [-> | ->], ft; reflexivity.
Qed.

Lemma file_attributes_typed_witness :
  let a := Attributes.SetPermissions PermissionsRead (Attributes.SetFileType FileTypeDirectory Attributes.zero) in
  exists p, PermissionsFromVfs a (lit ".git") = Ok p /\ attributes_wf FileTypeDirectory p = true
    /\ has p FILE_ATTRIBUTE_READONLY = true.
Proof.
  intros a. destruct (file_attributes_typed a (lit ".git") FileTypeDirectory) as (p & Hp & Hw & Hr); [reflexivity|].
  exists p. split; [exact Hp|]. split; [exact Hw|]. apply Hr. reflexivity.
Defined.
