(* ===== verification/Filepath.v ===== *)
(** * Package path/filepath on Unix, as the file system side uses it

    [Dir], [Join], [Rel] and [HasPrefix] on strings as code points, by the
    elements between the separators, and what is lexically inside a
    directory.  [FromSlash] and [ToSlash] are the identity on Unix. *)

From S2P Require Import Prelude Utf16 Paths.

Definition HasPrefix (s pre : gostring) : bool :=
  (length pre <=? length s)%nat && bool_decide (take (length pre) s = pre).

(** [filepath.Dir] *)
Definition Dir (path : gostring) : gostring := Clean (upto_last slash path).

Definition dotdot : gostring := [dot; dot].

(** The elements of a clean path; that of the root directory is empty. *)
Definition elements (s : gostring) : list gostring :=
  match s with
  | [] => []
  | _ => if bool_decide (s = [slash]) then [[]] else Split s slash
  end.

(** What is left of two paths after their common elements. *)
Fixpoint strip_common (b t : list gostring) : list gostring * list gostring :=
  match b, t with
  | x :: b', y :: t' => if bool_decide (x = y) then strip_common b' t' else (b, t)
  | _, _ => (b, t)
  end.

(** [filepath.Rel]; [None] is its error. *)
Definition Rel (basepath targpath : gostring) : option gostring :=
  let base := Clean basepath in
  let targ := Clean targpath in
  if bool_decide (targ = base) then Some [dot] else
  let base := if bool_decide (base = [dot]) then [] else base in
  if negb (eqb (IsAbs base) (IsAbs targ)) then None else
  match strip_common (elements base) (elements targ) with
  | ([], t) => Some (Join t slash)
  | (b, []) => Some (Join (replicate (length b) dotdot) slash)
  | (x :: b, t) =>
      if bool_decide (x = dotdot) then None
      else Some (Join (replicate (length (x :: b)) dotdot ++ t) slash)
  end.

(** ** The elements of a clean path *)

(** An element that [Clean] keeps as a name. *)
Definition plain (e : gostring) : Prop :=
  e <> [] /\ e <> [dot] /\ e <> dotdot /\ Contains e slash = false.

Lemma Split_free s sep e : e ∈ Split s sep -> Contains e sep = false.
Proof.
  revert e. induction s as [|c s IH]; intros e; cbn [Split].
  - intros ->%list_elem_of_singleton. done.
  - destruct (Split s sep) as [|p ps] eqn:E; [by intros ?%not_elem_of_nil|].
    destruct (Z.eqb_spec c sep) as [->|Hc].
    + intros [->|He]%elem_of_cons; [done|]. by apply IH.
    + intros [->|He]%elem_of_cons; [|apply IH; by right].
      rewrite Contains_cons, (IH p) by (by left). rewrite orb_false_r. apply Z.eqb_neq. congruence.
Qed.

Lemma Split_word e sep : Contains e sep = false -> Split e sep = [e].
Proof.
  induction e as [|c e IH]; [done|]. rewrite Contains_cons. intros [Hc He]%orb_false_iff.
  cbn [Split]. rewrite IH by done. by rewrite Z.eqb_sym, Hc.
Qed.

Lemma Split_app e s sep : Contains e sep = false -> Split (e ++ [sep] ++ s) sep = e :: Split s sep.
Proof.
  induction e as [|c e IH]; intros He.
  - cbn. pose proof (Split_not_nil s sep). rewrite Z.eqb_refl. by destruct (Split s sep).
  - rewrite Contains_cons in He. apply orb_false_iff in He as [Hc He].
    change ((c :: e) ++ [sep] ++ s) with (c :: (e ++ [sep] ++ s)). cbn [Split].
    rewrite IH by done. by rewrite Z.eqb_sym, Hc.
Qed.

Lemma Split_Join es sep :
  es <> [] -> Forall (fun e => Contains e sep = false) es -> Split (Join es sep) sep = es.
Proof.
  intros Hne Hall. induction es as [|e es IH]; [done|]. inversion_clear Hall as [|? ? He Hes].
  destruct es as [|e' es]; [by apply Split_word|].
  change (Join (e :: e' :: es) sep) with (e ++ [sep] ++ Join (e' :: es) sep).
  rewrite Split_app by done. f_equal. by apply IH.
Qed.

Lemma Split_cut s t sep : Split (s ++ [sep] ++ t) sep = Split s sep ++ Split t sep.
Proof.
  induction s as [|c s IH].
  - rewrite app_nil_l, <- (app_nil_l ([sep] ++ t)). by rewrite Split_app.
  - change ((c :: s) ++ [sep] ++ t) with (c :: (s ++ [sep] ++ t)). cbn [Split]. rewrite IH.
    pose proof (Split_not_nil s sep). destruct (Split s sep) as [|p ps]; [done|].
    cbn [app]. by destruct (c =? sep).
Qed.

(** Going through a path from a directory: the elements it ends with. *)
Definition walk (es out : list gostring) : list gostring := clean_elems true es out.

Lemma walk_app es es' out : walk (es ++ es') out = walk es' (walk es out).
Proof. revert out. induction es as [|e es IH]; intros out; [done|]. cbn. apply IH. Qed.

Lemma walk_plain es out :
  Forall (fun e => Contains e slash = false) es -> Forall plain out -> Forall plain (walk es out).
Proof.
  intros Hes. revert out. induction Hes as [|e es He Hes IH]; intros out Hout; [done|].
  cbn. apply IH. destruct (bool_decide (e = [])) eqn:E0; [done|].
  destruct (bool_decide (e = [dot])) eqn:E1; [done|]. cbn [orb].
  destruct (bool_decide (e = [dot; dot])) eqn:E2.
  - destruct out as [|top rest]; [done|]. inversion_clear Hout as [|? ? (_ & _ & Ht & _) Hr].
    rewrite bool_decide_false by done. done.
  - constructor; [|done]. repeat split; try done; intros ->; by rewrite bool_decide_true in * by done.
Qed.

Lemma walk_names es out : Forall plain es -> walk es out = reverse es ++ out.
Proof.
  intros Hes. revert out. induction Hes as [|e es He Hes IH]; intros out; [done|].
  rewrite reverse_cons, <- app_assoc. destruct He as (H1 & H2 & H3 & _). cbn. rewrite !bool_decide_false by done.
  apply IH.
Qed.

Lemma plain_free es : Forall plain es -> Forall (fun e => Contains e slash = false) es.
Proof. intros H. eapply Forall_impl; [exact H|]. by intros e (_ & _ & _ & ?). Qed.

(** An absolute path with the elements [es]. *)
Definition absolute (es : list gostring) : gostring := slash :: Join es slash.

Lemma Clean_abs path : IsAbs path = true -> Clean path = absolute (reverse (walk (Split path slash) [])).
Proof.
  intros Ha. unfold Clean, absolute. destruct path as [|c p]; [done|]. by rewrite Ha.
Qed.

Lemma IsAbs_absolute es : IsAbs (absolute es) = true.
Proof. done. Qed.

Lemma Split_slash s sep : Split (sep :: s) sep = [] :: Split s sep.
Proof. exact (Split_app [] s sep eq_refl). Qed.

Lemma Split_absolute es : es <> [] -> Forall plain es -> Split (absolute es) slash = [] :: es.
Proof.
  intros Hne Hes. unfold absolute. rewrite Split_slash, Split_Join; [done|done|by apply plain_free].
Qed.

Lemma walk_absolute es out : Forall plain es -> walk (Split (absolute es) slash) out = reverse es ++ out.
Proof.
  intros Hes. destruct es as [|e es]; [done|].
  rewrite Split_absolute by done. change (walk ([] :: e :: es) out) with (walk (e :: es) out).
  by apply walk_names.
Qed.

Lemma Clean_absolute es : Forall plain es -> Clean (absolute es) = absolute es.
Proof.
  intros Hes. rewrite Clean_abs by apply IsAbs_absolute.
  rewrite walk_absolute by done. by rewrite app_nil_r, reverse_involutive.
Qed.

(** Every clean absolute path is one. *)
Lemma Clean_absolute_inv path :
  IsAbs path = true -> exists es, Forall plain es /\ Clean path = absolute es.
Proof.
  intros Ha. eexists. split; [|by apply Clean_abs]. apply Forall_reverse, walk_plain; [|done].
  apply Forall_forall. apply Split_free.
Qed.

Lemma absolute_inj es es' :
  Forall plain es -> Forall plain es' -> absolute es = absolute es' -> es = es'.
Proof.
  intros H1 H2 E. apply (f_equal (fun p => reverse (walk (Split p slash) []))) in E.
  rewrite !walk_absolute, !app_nil_r, !reverse_involutive in E by done. done.
Qed.

(** Joining a name to a directory walks the name from there. *)
Lemma Join2_absolute es name :
  Forall plain es ->
  Join2 (absolute es) name = absolute (reverse (walk (Split name slash) (reverse es))).
Proof.
  intros Hes. change (Join2 (absolute es) name) with (Clean (absolute es ++ [slash] ++ name)).
  rewrite Clean_abs by done.
  rewrite Split_cut, walk_app, walk_absolute, app_nil_r by done. done.
Qed.

Lemma walk_from_plain es name :
  Forall plain es -> Forall plain (reverse (walk (Split name slash) (reverse es))).
Proof.
  intros Hes. apply Forall_reverse, walk_plain; [|by apply Forall_reverse].
  apply Forall_forall, Split_free.
Qed.

Lemma elements_absolute es : Forall plain es -> elements (absolute es) = [] :: es.
Proof.
  intros Hes. unfold elements. destruct es as [|e es]; [done|].
  change (absolute (e :: es)) with (slash :: Join (e :: es) slash).
  assert (Hj : Join (e :: es) slash <> []).
  { inversion_clear Hes as [|? ? (He & _) _]. destruct e; [done|]. by destruct es. }
  rewrite bool_decide_false by congruence. by apply Split_absolute.
Qed.

(** ** Inside a directory *)

Lemma strip_common_prefix b t : strip_common b (b ++ t) = ([], t).
Proof. induction b as [|x b IH]; [by destruct t|]. cbn. by rewrite bool_decide_true. Qed.

Lemma strip_common_spec b t :
  let '(b', t') := strip_common b t in exists c, b = c ++ b' /\ t = c ++ t' /\
    match b', t' with x :: _, y :: _ => x <> y | _, _ => True end.
Proof.
  revert t. induction b as [|x b IH]; intros [|y t]; cbn.
  1-3: by exists [].
  destruct (bool_decide (x = y)) eqn:E.
  - apply bool_decide_eq_true in E as ->. specialize (IH t). destruct (strip_common b t) as [b' t'].
    destruct IH as (c & -> & -> & H). by exists (y :: c).
  - apply bool_decide_eq_false in E. by exists [].
Qed.

(** The test the code makes on a relative path: it climbs out. *)
Definition climbs (rel : gostring) : bool :=
  bool_decide (rel = dotdot) || HasPrefix rel (dotdot ++ [slash]).

Lemma climbs_plain es : Forall plain es -> climbs (Join es slash) = false.
Proof.
  intros Hes. apply not_true_iff_false. intros Hc.
  assert (Hs : exists t, Split (Join es slash) slash = dotdot :: t).
  { unfold climbs in Hc. apply orb_true_iff in Hc as [Hc|Hc].
    - apply bool_decide_eq_true in Hc as ->. by exists [].
    - unfold HasPrefix in Hc. apply andb_true_iff in Hc as [_ Hc]. apply bool_decide_eq_true in Hc.
      rewrite <- (take_drop (length (dotdot ++ [slash])) (Join es slash)), Hc.
      rewrite <- app_assoc, Split_app by done. by eexists. }
  destruct Hs as [t Ht]. destruct es as [|e es].
  - by vm_compute in Ht.
  - rewrite Split_Join in Ht; [|done|by apply plain_free]. simplify_eq.
    inversion_clear Hes as [|? ? (_ & _ & He & _) _]. done.
Qed.

Lemma climbs_up n t : climbs (Join (replicate (S n) dotdot ++ t) slash) = true.
Proof.
  unfold climbs. destruct n as [|n].
  - destruct t as [|e t]; [done|]. apply orb_true_iff. right. unfold HasPrefix.
    cbn [replicate app Join]. apply andb_true_iff. split.
    + apply Nat.leb_le. rewrite !length_app. cbn. lia.
    + by apply bool_decide_eq_true.
  - apply orb_true_iff. right. unfold HasPrefix. cbn [replicate app Join].
    apply andb_true_iff. split.
    + apply Nat.leb_le. rewrite !length_app. cbn. lia.
    + by apply bool_decide_eq_true.
Qed.

(** [filepath.Rel] of absolute paths fails to climb exactly on what is inside. *)
Lemma Rel_absolute es es' :
  Forall plain es -> Forall plain es' ->
  exists rel, Rel (absolute es) (absolute es') = Some rel /\
    (climbs rel = false <-> es `prefix_of` es').
Proof.
  intros H1 H2. unfold Rel. rewrite !Clean_absolute by done.
  destruct (bool_decide (absolute es' = absolute es)) eqn:E.
  { apply bool_decide_eq_true, absolute_inj in E as ->; [|done..]. exists [dot]. split; [done|].
    split; [done|]. intros _. by vm_compute. }
  apply bool_decide_eq_false in E. rewrite bool_decide_false by done. cbn [negb eqb IsAbs absolute].
  fold (absolute es) (absolute es'). rewrite !elements_absolute by done. cbn [strip_common].
  rewrite bool_decide_true by done. pose proof (strip_common_spec es es') as Hs.
  destruct (strip_common es es') as [b t]. destruct Hs as (c & -> & -> & Hd).
  apply Forall_app in H1 as [Hc Hb]. apply Forall_app in H2 as [_ Ht].
  assert (Hn : b <> [] -> ~ (c ++ b) `prefix_of` (c ++ t)).
  { intros Hb0 [k Hk]. rewrite <- app_assoc in Hk. apply app_inv_head in Hk as ->.
    destruct b as [|x b]; done. }
  destruct b as [|x b].
  - exists (Join t slash). split; [done|]. rewrite app_nil_r. split.
    + intros _. by apply prefix_app_r.
    + intros _. by apply climbs_plain.
  - specialize (Hn ltac:(done)). inversion_clear Hb as [|? ? (_ & _ & Hx & _) _].
    destruct t as [|y t].
    + eexists. split; [done|]. split; [|done].
      pose proof (climbs_up (length b) []) as Hu. rewrite app_nil_r in Hu.
      change (length (x :: b)) with (S (length b)). by rewrite Hu.
    + rewrite bool_decide_false by done. eexists. split; [done|]. split; [|done].
      change (length (x :: b)) with (S (length b)). by rewrite climbs_up.
Qed.
