(* ===== verification/Os.v ===== *)
(** * The operating system under the file system

    What bulk/backend.go, internal/xattrstore and fs_impl.go use of the
    packages os, syscall, golang.org/x/sys/unix, github.com/pkg/xattr and
    github.com/fsnotify/fsnotify: the operations of an interface with a state
    of its own ([OS]).  Code runs in [IO]: it changes that state and returns a
    value, returns an error, or panics.  [memfs] is a concrete operating system
    with a file system in memory, for the examples. *)

From S2P Require Import Prelude Utf16 Paths Vfs Filepath.

(** ** Effects *)

Inductive io (A : Type) : Type :=
| Val (a : A)
| Fail (e : vfs_error)
| Crash.
Arguments Val {_} _.
Arguments Fail {_} _.
Arguments Crash {_}.

Definition IO (S A : Type) : Type := S -> io A * S.

Definition ret {S A} (a : A) : IO S A := fun s => (Val a, s).
Definition fail {S A} (e : vfs_error) : IO S A := fun s => (Fail e, s).
Definition iobind {S A B} (m : IO S A) (k : A -> IO S B) : IO S B :=
  fun s =>
    match m s with
    | (Val a, s) => k a s
    | (Fail e, s) => (Fail e, s)
    | (Crash, s) => (Crash, s)
    end.
Notation "'let?' x := m 'in' k" := (iobind m (fun x => k))
  (at level 10, x pattern, m at level 100, k at level 200) : go_scope.
Notation "m ;;? k" := (iobind m (fun _ => k))
  (at level 199, right associativity) : go_scope.

(** The error as a value, for code that looks at it. *)
Definition attempt {S A} (m : IO S A) : IO S (A + vfs_error) :=
  fun s =>
    match m s with
    | (Val a, s) => (Val (inl a), s)
    | (Fail e, s) => (Val (inr e), s)
    | (Crash, s) => (Crash, s)
    end.
(** [_ = m] *)
Definition ignore {S A} (m : IO S A) : IO S unit := let? _ := attempt m in ret tt.

(** A call of the system: it does not panic. *)
Definition sys {S A} (m : S -> result A * S) : IO S A :=
  fun s => match m s with (inl a, s) => (Val a, s) | (inr e, s) => (Fail e, s) end.
Definition sys_err {S} (m : S -> option vfs_error * S) : IO S unit :=
  fun s => match m s with (None, s) => (Val tt, s) | (Some e, s) => (Fail e, s) end.

(** A pure function that can fail or panic; its errors are made by
    [errors.New] or [fmt.Errorf] and are none of the named ones. *)
Definition pure_call {S A} (m : outcome A) : IO S A :=
  fun s => match m with Ok a => (Val a, s) | Err _ => (Fail other_error, s) | Panic => (Crash, s) end.

Definition err_exist : vfs_error := mkVfsError false false false true false false false false.
Definition err_noattr : vfs_error := mkVfsError false false false false false false false true.

(** [fmt.Errorf("...: %w", err)]: [errors.Is] looks through it, [os.IsNotExist]
    and a comparison do not. *)
Definition wrap_error (e : vfs_error) : vfs_error :=
  mkVfsError false (is_ENOSPC e) (is_ErrNotExist e) (is_ErrExist e) (is_ErrPermission e)
    (is_EBADF e) false (is_ENOATTR e).

(** ** os.FileMode and os.FileInfo *)

Definition ModeDir : Z := 0x80000000.
Definition ModeSymlink : Z := 0x8000000.
(** [ModeDir | ModeSymlink | ModeNamedPipe | ModeSocket | ModeDevice | ModeCharDevice | ModeIrregular] *)
Definition ModeType : Z := 0x8f280000.
Definition ModePerm : Z := 0x1ff.

Definition mode_IsDir (m : Z) : bool := has m ModeDir.
Definition mode_IsRegular (m : Z) : bool := negb (has m ModeType).
Definition mode_Perm (m : Z) : Z := Z.land m ModePerm.

(** [syscall.Stat_t] on Linux; a time in seconds and nanoseconds. *)
Module Stat_t.
Record t := mk {
  Dev : Z; Ino : Z; Nlink : Z; Uid : Z; Gid : Z; Blksize : Z; Blocks : Z;
  Atim : Z * Z; Mtim : Z * Z; Ctim : Z * Z
}.
End Stat_t.

(** [Sys] is [None] when it is not a [*syscall.Stat_t]; a time is in
    nanoseconds since the epoch. *)
Module FileInfo.
Record t := mk { Name : gostring; Size : Z; Mode : Z; ModTime : Z; Sys : option Stat_t.t }.
Definition IsDir (i : t) : bool := mode_IsDir (Mode i).
End FileInfo.

(** [unix.Statfs_t] *)
Module Statfs_t.
Record t := mk { Bsize : Z; Blocks : Z; Bfree : Z; Bavail : Z; Files : Z; Ffree : Z }.
End Statfs_t.

Definition O_RDONLY : Z := 0.
Definition O_WRONLY : Z := 1.
Definition O_RDWR : Z := 2.
Definition O_CREATE : Z := 0x40.
Definition O_EXCL : Z := 0x80.
Definition O_TRUNC : Z := 0x200.

(** ** The system's operations *)

Class OS := {
  os_st : Type;
  File : Type;         (** an [*os.File] *)
  DirEntry : Type;
  Watcher : Type;      (** an [*fsnotify.Watcher] *)
  os_MkdirAll : gostring -> Z -> os_st -> option vfs_error * os_st;
  os_Mkdir : gostring -> Z -> os_st -> option vfs_error * os_st;
  os_Stat : gostring -> os_st -> result FileInfo.t * os_st;
  os_Lstat : gostring -> os_st -> result FileInfo.t * os_st;
  os_ReadFile : gostring -> os_st -> result slice * os_st;
  os_OpenFile : gostring -> Z -> Z -> os_st -> result File * os_st;
  os_Remove : gostring -> os_st -> option vfs_error * os_st;
  os_Rename : gostring -> gostring -> os_st -> option vfs_error * os_st;
  os_Truncate : gostring -> Z -> os_st -> option vfs_error * os_st;
  os_Chmod : gostring -> Z -> os_st -> option vfs_error * os_st;
  os_Chtimes : gostring -> Z -> Z -> os_st -> option vfs_error * os_st;
  os_Symlink : gostring -> gostring -> os_st -> option vfs_error * os_st;
  os_Readlink : gostring -> os_st -> result gostring * os_st;
  (** [syscall.Open], then [os.NewFile] *)
  syscall_Open : gostring -> Z -> Z -> os_st -> result File * os_st;
  unix_Statfs : gostring -> os_st -> result Statfs_t.t * os_st;
  (** methods of [*os.File] *)
  f_Write : File -> bytes -> os_st -> (Z * option vfs_error) * os_st;
  f_WriteAt : File -> bytes -> Z -> os_st -> (Z * option vfs_error) * os_st;
  (** the buffer is returned with the count *)
  f_ReadAt : File -> bytes -> Z -> os_st -> (bytes * Z * option vfs_error) * os_st;
  f_Seek : File -> Z -> Z -> os_st -> result Z * os_st;
  f_ReadDir : File -> Z -> os_st -> (list DirEntry * option vfs_error) * os_st;
  f_Stat : File -> os_st -> result FileInfo.t * os_st;
  f_Sync : File -> os_st -> option vfs_error * os_st;
  f_Close : File -> os_st -> option vfs_error * os_st;
  (** [os.DirEntry] *)
  de_Name : DirEntry -> gostring;
  de_Info : DirEntry -> os_st -> result FileInfo.t * os_st;
  (** github.com/pkg/xattr *)
  xattr_Get : gostring -> gostring -> os_st -> result bytes * os_st;
  xattr_Set : gostring -> gostring -> bytes -> os_st -> option vfs_error * os_st;
  xattr_Remove : gostring -> gostring -> os_st -> option vfs_error * os_st;
  xattr_List : gostring -> os_st -> result (list gostring) * os_st;
  xattr_FGet : File -> gostring -> os_st -> result bytes * os_st;
  xattr_FSet : File -> gostring -> bytes -> os_st -> option vfs_error * os_st;
  xattr_FRemove : File -> gostring -> os_st -> option vfs_error * os_st;
  xattr_FList : File -> os_st -> result (list gostring) * os_st;
  (** fsnotify *)
  NewWatcher : os_st -> result Watcher * os_st;
  watcher_Add : Watcher -> gostring -> os_st -> option vfs_error * os_st;
  watcher_Close : Watcher -> os_st -> option vfs_error * os_st;
  (** eight bytes of crypto/rand *)
  rand_8 : os_st -> bytes * os_st
}.

(** [os.Open] *)
Definition os_Open `{OS} (p : gostring) : os_st -> result File * os_st := os_OpenFile p O_RDONLY 0.

(** ** What a system promises of regular files

    [data] is what a file holds, [leads] the file that a path leads to when
    links are followed, [regular] the regular file that a name itself is,
    [opened] the file and the position of an open file.  A call that reports an
    error promises nothing. *)

(** pwrite(2): the bytes at an offset are replaced, a gap is filled with zeros. *)
Definition pwrite (off : Z) (d old : bytes) : bytes :=
  take (Z.to_nat off) (old ++ zeros (off - blen old)) ++ d ++ from (off + blen d) old.

Class FileStore `{OS} := {
  Inode : Type;
  Inode_eq_dec :: EqDecision Inode;
  data : os_st -> Inode -> bytes;
  leads : os_st -> gostring -> option Inode;
  regular : os_st -> gostring -> option Inode;
  is_symlink : os_st -> gostring -> bool;
  opened : os_st -> File -> option (Inode * Z);
  names_kept (s s' : os_st) : Prop :=
    (forall p, leads s' p = leads s p) /\ (forall p, regular s' p = regular s p);
  store_kept (s s' : os_st) : Prop := names_kept s s' /\ forall i, data s' i = data s i;
  open_rdonly_law p mode f s s' : os_OpenFile p O_RDONLY mode s = (inl f, s') -> store_kept s s';
  open_rdwr_law p mode f s s' : os_OpenFile p O_RDWR mode s = (inl f, s') ->
    store_kept s s' /\ exists i, leads s p = Some i /\ opened s' f = Some (i, 0);
  open_creat_law p mode f s s' : is_symlink s p = false ->
    os_OpenFile p (Z.lor (Z.lor O_CREATE O_TRUNC) O_WRONLY) mode s = (inl f, s') ->
    exists i, regular s' p = Some i /\ opened s' f = Some (i, 0) /\ data s' i = [];
  write_at_law f i n d off k s s' : opened s f = Some (i, n) -> f_WriteAt f d off s = ((k, None), s') ->
    0 <= off /\ names_kept s s' /\ opened s' f = Some (i, n) /\ data s' i = pwrite off d (data s i)
    /\ forall j, j <> i -> data s' j = data s j;
  write_law f i n d k s s' : opened s f = Some (i, n) -> f_Write f d s = ((k, None), s') ->
    names_kept s s' /\ data s' i = pwrite n d (data s i);
  sync_law f r s s' : f_Sync f s = (r, s') -> store_kept s s';
  close_law f r s s' : f_Close f s = (r, s') -> store_kept s s';
  mkdirall_law p mode s s' : os_MkdirAll p mode s = (None, s') -> forall q, is_symlink s' q = is_symlink s q;
  rename_law old new i s s' : regular s old = Some i -> os_Rename old new s = (None, s') ->
    regular s' new = Some i /\ data s' i = data s i;
  read_law p i s : regular s p = Some i ->
    exists b, os_ReadFile p s = (inl b, s) /\ s_bytes b = data s i
}.
