(* ===== verification/Memfs.v ===== *)
(** * A file system in memory: a concrete operating system for the examples

    Files, directories and symbolic links by their clean absolute paths, names
    that share an inode, and open file descriptors.  A symbolic link is
    followed when it is the last element of a path. *)

From S2P Require Import Prelude Utf16 Paths Vfs Filepath Os.

Module memfs.

Record inode := mkInode {
  i_mode : Z; i_data : bytes; i_link : gostring; i_xattr : list (gostring * bytes); i_atime : Z; i_mtime : Z
}.
Record fd := mkFd { fd_ino : Z; fd_path : gostring; fd_pos : Z }.
Record st := mkSt {
  names : list (gostring * Z); inodes : gmap Z inode; fds : gmap Z fd; next : Z
}.

Definition is_dir (n : inode) : bool := mode_IsDir (i_mode n).
Definition is_link (n : inode) : bool := has (i_mode n) ModeSymlink.

Fixpoint assoc {A} (k : gostring) (l : list (gostring * A)) : option A :=
  match l with
  | [] => None
  | (k', v) :: l => if bool_decide (k' = k) then Some v else assoc k l
  end.
Definition unassoc {A} (k : gostring) (l : list (gostring * A)) : list (gostring * A) :=
  filter (fun p => p.1 <> k) l.

Definition set_names f s := mkSt (f (names s)) (inodes s) (fds s) (next s).
Definition set_inode i n s := mkSt (names s) (<[i := n]> (inodes s)) (fds s) (next s).
Definition set_fds f s := mkSt (names s) (inodes s) (f (fds s)) (next s).
Definition set_data (d : bytes) (n : inode) :=
  mkInode (i_mode n) d (i_link n) (i_xattr n) (i_atime n) (i_mtime n).
Definition set_xattr x (n : inode) :=
  mkInode (i_mode n) (i_data n) (i_link n) x (i_atime n) (i_mtime n).

Definition node (p : gostring) (s : st) : option (Z * inode) :=
  i ← assoc (Clean p) (names s); n ← inodes s !! i; Some (i, n).
Fixpoint follow (fuel : nat) (p : gostring) (s : st) : option (Z * inode) :=
  match fuel with
  | O => None
  | S fuel =>
      match node p s with
      | Some (i, n) =>
          if is_link n
          then follow fuel (if IsAbs (i_link n) then i_link n else Join2 (Dir p) (i_link n)) s
          else Some (i, n)
      | None => None
      end
  end.
Definition node_follow := follow 8.

Definition parent_ok (p : gostring) (s : st) : bool :=
  match node (Dir p) s with Some (_, n) => is_dir n | None => false end.

(** A new inode under the name [p]. *)
Definition create (p : gostring) (n : inode) (s : st) : option Z * st :=
  if parent_ok p s
  then let i := fresh (dom (inodes s)) in
       (Some i, mkSt ((Clean p, i) :: names s) (<[i := n]> (inodes s)) (fds s) (next s))
  else (None, s).
(** A file or a directory with the permissions of a mode. *)
Definition plain_inode (type_ mode : Z) (d : bytes) : inode :=
  mkInode (Z.lor type_ (mode_Perm mode)) d [] [] 0 0.

Definition info (p : gostring) (i : Z) (n : inode) : FileInfo.t :=
  FileInfo.mk (Base p) (blen (i_data n)) (i_mode n) (i_mtime n)
    (Some (Stat_t.mk 1 i 1 0 0 4096 ((blen (i_data n) + 511) / 512)
             (0, i_atime n) (0, i_mtime n) (0, i_mtime n))).

Definition put (f : inode -> inode) (i : Z) (s : st) : st :=
  match inodes s !! i with Some n => set_inode i (f n) s | None => s end.

Definition open_fd (i : Z) (p : gostring) (s : st) : result Z * st :=
  (inl (next s), mkSt (names s) (inodes s) (<[next s := mkFd i p 0]> (fds s)) (next s + 1)).

Definition Mkdir (p : gostring) (mode : Z) (s : st) : option vfs_error * st :=
  match node p s with
  | Some _ => (Some err_exist, s)
  | None =>
      let '(i, s) := create p (plain_inode ModeDir mode []) s in
      (match i with Some _ => None | None => Some not_exist end, s)
  end.
(** [os.MkdirAll] of the prefixes of a clean absolute path. *)
Fixpoint mkdirs (done_ rest : list gostring) (mode : Z) (s : st) : option vfs_error * st :=
  match rest with
  | [] => (None, s)
  | e :: rest =>
      let p := absolute (done_ ++ [e]) in
      match node_follow p s with
      | Some (_, n) => if is_dir n then mkdirs (done_ ++ [e]) rest mode s else (Some other_error, s)
      | None =>
          match Mkdir p mode s with
          | (None, s) => mkdirs (done_ ++ [e]) rest mode s
          | r => r
          end
      end
  end.
Definition MkdirAll (p : gostring) (mode : Z) (s : st) : option vfs_error * st :=
  mkdirs [] (tail (elements (Clean p))) mode s.

Definition stat (look : gostring -> st -> option (Z * inode)) (p : gostring) (s : st) : result FileInfo.t * st :=
  match look p s with Some (i, n) => (inl (info p i n), s) | None => (inr not_exist, s) end.

Definition ReadFile (p : gostring) (s : st) : result slice * st :=
  match node_follow p s with
  | Some (_, n) => if is_dir n then (inr other_error, s) else (inl (of_bytes (i_data n)), s)
  | None => (inr not_exist, s)
  end.

Definition OpenFile (p : gostring) (flags mode : Z) (s : st) : result Z * st :=
  if has flags O_CREATE && has flags O_EXCL && bool_decide (is_Some (node p s)) then (inr err_exist, s) else
  match node_follow p s with
  | Some (i, n) =>
      if is_dir n && has flags (Z.lor O_WRONLY O_RDWR) then (inr other_error, s)
      else open_fd i p (if has flags O_TRUNC then put (set_data []) i s else s)
  | None =>
      if has flags O_CREATE then
        match create p (plain_inode 0 mode []) s with
        | (Some i, s) => open_fd i p s
        | (None, s) => (inr not_exist, s)
        end
      else (inr not_exist, s)
  end.

Definition Remove (p : gostring) (s : st) : option vfs_error * st :=
  match node p s with
  | None => (Some not_exist, s)
  | Some (_, n) =>
      if is_dir n && existsb (fun q => bool_decide (Dir q.1 = Clean p)) (names s) then (Some other_error, s)
      else (None, set_names (unassoc (Clean p)) s)
  end.

(** The names under a directory move with it. *)
Definition rename_path (old new p : gostring) : gostring :=
  if bool_decide (p = old) then new
  else if HasPrefix p (old ++ [slash]) then new ++ drop (length old) p else p.
Definition Rename (old new : gostring) (s : st) : option vfs_error * st :=
  match node old s with
  | None => (Some not_exist, s)
  | Some _ =>
      if bool_decide (Clean old = Clean new) then (None, s)
      else if negb (parent_ok new s) then (Some not_exist, s)
      else (None, set_names (fun l => (fun q => (rename_path (Clean old) (Clean new) q.1, q.2))
                                        <$> unassoc (Clean new) l) s)
  end.

(** A change of the file that the path leads to. *)
Definition change (p : gostring) (f : inode -> inode) (s : st) : option vfs_error * st :=
  match node_follow p s with Some (i, _) => (None, put f i s) | None => (Some not_exist, s) end.
Definition resize (n : Z) (d : bytes) : bytes := upto n (d ++ zeros (n - blen d)).
Definition Truncate (p : gostring) (n : Z) (s : st) : option vfs_error * st :=
  if n <? 0 then (Some other_error, s) else change p (fun i => set_data (resize n (i_data i)) i) s.
Definition Chmod (p : gostring) (m : Z) : st -> option vfs_error * st :=
  change p (fun i => mkInode (Z.lor (Z.ldiff (i_mode i) ModePerm) (mode_Perm m)) (i_data i) (i_link i)
                       (i_xattr i) (i_atime i) (i_mtime i)).
Definition Chtimes (p : gostring) (a m : Z) : st -> option vfs_error * st :=
  change p (fun i => mkInode (i_mode i) (i_data i) (i_link i) (i_xattr i) a m).

Definition Symlink (target p : gostring) (s : st) : option vfs_error * st :=
  match node p s with
  | Some _ => (Some err_exist, s)
  | None =>
      let '(i, s) := create p (mkInode (Z.lor ModeSymlink 0x1ff) [] target [] 0 0) s in
      (match i with Some _ => None | None => Some not_exist end, s)
  end.
Definition Readlink (p : gostring) (s : st) : result gostring * st :=
  match node p s with
  | Some (_, n) => if is_link n then (inl (i_link n), s) else (inr other_error, s)
  | None => (inr not_exist, s)
  end.
Definition Open_nofollow (p : gostring) (flags mode : Z) (s : st) : result Z * st :=
  match node p s with Some (i, _) => open_fd i p s | None => (inr not_exist, s) end.

(** Methods of an open file. *)
Definition EBADF : vfs_error := mkVfsError false false false false false true false false.
Definition with_fd {A} (f : Z) (bad : A) (k : fd -> inode -> st -> A * st) (s : st) : A * st :=
  match fds s !! f with
  | Some d => match inodes s !! fd_ino d with Some n => k d n s | None => (bad, s) end
  | None => (bad, s)
  end.
Definition WriteAt (f : Z) (d : bytes) (off : Z) : st -> (Z * option vfs_error) * st :=
  with_fd f (0, Some EBADF) (fun o n s =>
    if (off <? 0) || is_dir n then ((0, Some other_error), s)
    else ((blen d, None), set_inode (fd_ino o) (set_data (pwrite off d (i_data n)) n) s)).
Definition Write (f : Z) (d : bytes) : st -> (Z * option vfs_error) * st :=
  with_fd f (0, Some EBADF) (fun o n s =>
    if is_dir n then ((0, Some other_error), s)
    else ((blen d, None),
          set_fds <[f := mkFd (fd_ino o) (fd_path o) (fd_pos o + blen d)]>
            (set_inode (fd_ino o) (set_data (pwrite (fd_pos o) d (i_data n)) n) s))).
Definition ReadAt (f : Z) (buf : bytes) (off : Z) : st -> (bytes * Z * option vfs_error) * st :=
  with_fd f (buf, 0, Some EBADF) (fun _ n s =>
    if off <? 0 then ((buf, 0, Some other_error), s) else
    let got := sub off (blen buf) (i_data n) in
    ((got ++ from (blen got) buf, blen got, if blen got <? blen buf then Some io_EOF else None), s)).
Definition Seek (f off whence : Z) : st -> result Z * st :=
  with_fd f (inr EBADF) (fun o n s =>
    (inl off, set_fds <[f := mkFd (fd_ino o) (fd_path o) off]> s)).

Definition children (p : gostring) (s : st) : list gostring :=
  filter (fun q => Dir q = Clean p /\ q <> Clean p) (names s).*1.
(** [n <= 0] asks for everything and does not say io.EOF. *)
Definition ReadDir (f n : Z) : st -> (list gostring * option vfs_error) * st :=
  with_fd f ([], Some EBADF) (fun o i s =>
    if negb (is_dir i) then (([], Some other_error), s) else
    let left_ := drop (Z.to_nat (fd_pos o)) (children (fd_path o) s) in
    let got := if n <=? 0 then left_ else take (Z.to_nat n) left_ in
    ((got, if (0 <? n) && bool_decide (got = []) then Some io_EOF else None),
     set_fds <[f := mkFd (fd_ino o) (fd_path o) (fd_pos o + Z.of_nat (length got))]> s)).
Definition fstat (f : Z) : st -> result FileInfo.t * st :=
  with_fd f (inr EBADF) (fun o n s => (inl (info (fd_path o) (fd_ino o) n), s)).
Definition Sync (f : Z) : st -> option vfs_error * st :=
  with_fd f (Some EBADF) (fun _ _ s => (None, s)).
Definition Close (f : Z) (s : st) : option vfs_error * st :=
  match fds s !! f with
  | Some _ => (None, set_fds (delete f) s)
  | None => (Some EBADF, s)
  end.

(** Extended attributes. *)
Definition xget (n : inode) (k : gostring) : result bytes :=
  match assoc k (i_xattr n) with Some v => inl v | None => inr err_noattr end.
Definition xset (k : gostring) (v : bytes) (n : inode) : inode :=
  set_xattr ((k, v) :: unassoc k (i_xattr n)) n.
Definition xdel (k : gostring) (n : inode) : inode := set_xattr (unassoc k (i_xattr n)) n.
Definition xGet (p k : gostring) (s : st) : result bytes * st :=
  match node_follow p s with Some (_, n) => (xget n k, s) | None => (inr not_exist, s) end.
Definition xRemove (p k : gostring) (s : st) : option vfs_error * st :=
  match node_follow p s with
  | Some (i, n) => match xget n k with inl _ => (None, put (xdel k) i s) | inr e => (Some e, s) end
  | None => (Some not_exist, s)
  end.
Definition xList (p : gostring) (s : st) : result (list gostring) * st :=
  match node_follow p s with Some (_, n) => (inl (i_xattr n).*1, s) | None => (inr not_exist, s) end.
Definition xFGet (f : Z) (k : gostring) : st -> result bytes * st :=
  with_fd f (inr EBADF) (fun _ n s => (xget n k, s)).
Definition xFSet (f : Z) (k : gostring) (v : bytes) : st -> option vfs_error * st :=
  with_fd f (Some EBADF) (fun o n s => (None, set_inode (fd_ino o) (xset k v n) s)).
Definition xFRemove (f : Z) (k : gostring) : st -> option vfs_error * st :=
  with_fd f (Some EBADF) (fun o n s =>
    match xget n k with
    | inl _ => (None, set_inode (fd_ino o) (xdel k n) s)
    | inr e => (Some e, s)
    end).
Definition xFList (f : Z) : st -> result (list gostring) * st :=
  with_fd f (inr EBADF) (fun _ n s => (inl (i_xattr n).*1, s)).

Definition os : OS := {|
  os_st := st; File := Z; DirEntry := gostring; Watcher := Z;
  os_MkdirAll := MkdirAll; os_Mkdir := Mkdir; os_Stat := stat node_follow; os_Lstat := stat node;
  os_ReadFile := ReadFile; os_OpenFile := OpenFile; os_Remove := Remove; os_Rename := Rename;
  os_Truncate := Truncate; os_Chmod := Chmod; os_Chtimes := Chtimes; os_Symlink := Symlink;
  os_Readlink := Readlink; syscall_Open := Open_nofollow;
  unix_Statfs := fun _ s => (inl (Statfs_t.mk 4096 1000 400 300 100 50), s);
  f_Write := Write; f_WriteAt := WriteAt; f_ReadAt := ReadAt; f_Seek := Seek; f_ReadDir := ReadDir;
  f_Stat := fstat; f_Sync := Sync; f_Close := Close;
  de_Name := Base; de_Info := stat node;
  xattr_Get := xGet; xattr_Set := fun p k v => change p (xset k v); xattr_Remove := xRemove;
  xattr_List := xList; xattr_FGet := xFGet; xattr_FSet := xFSet; xattr_FRemove := xFRemove;
  xattr_FList := xFList;
  NewWatcher := fun s => (inl (next s), mkSt (names s) (inodes s) (fds s) (next s + 1));
  watcher_Add := fun _ _ s => (None, s); watcher_Close := fun _ s => (None, s);
  rand_8 := fun s => (le_enc 8 (next s), mkSt (names s) (inodes s) (fds s) (next s + 1))
|}.

(** An empty root directory; a file, a directory and a second name added to a state. *)
Definition empty : st := mkSt [([slash], 1)] {[1 := plain_inode ModeDir 0x1c0 []]} ∅ 100.
Definition add_file (p : gostring) (d : bytes) (s : st) : st := (create p (plain_inode 0 0x1a4 d) s).2.
Definition add_dir (p : gostring) (s : st) : st := (create p (plain_inode ModeDir 0x1c0 []) s).2.
Definition add_link (target p : gostring) (s : st) : st := (Symlink target p s).2.
Definition contents (p : gostring) (s : st) : option bytes := (fun q => i_data q.2) <$> node_follow p s.

(** ** It is a store of files *)

Definition idata (s : st) (i : Z) : bytes := default [] (i_data <$> inodes s !! i).
Definition file_of (q : option (Z * inode)) : option Z :=
  '(i, n) ← q; if is_dir n || is_link n then None else Some i.

(** Two states with the same names, whose files differ in their data only. *)
Definition shape (n : inode) : Z * gostring := (i_mode n, i_link n).
Definition alike (s s' : st) : Prop :=
  names s' = names s /\ forall i, shape <$> inodes s' !! i = shape <$> inodes s !! i.

Lemma node_alike s s' p : alike s s' ->
  match node p s, node p s' with
  | Some (i, n), Some (i', n') => i = i' /\ shape n = shape n'
  | None, None => True
  | _, _ => False
  end.
Proof.
  intros [Hn Hi]. unfold node. rewrite Hn. destruct (assoc (Clean p) (names s)) as [i|]; [|done].
  cbn. specialize (Hi i). destruct (inodes s !! i), (inodes s' !! i); cbn in *; try done.
  split; [done|]. unfold shape in *. congruence.
Qed.

Lemma file_of_shape i n n' : shape n = shape n' -> file_of (Some (i, n)) = file_of (Some (i, n')).
Proof. unfold shape. intros [= E1 E2]. cbn. unfold is_dir, is_link. by rewrite E1. Qed.

Lemma follow_alike fuel s s' p : alike s s' -> file_of (follow fuel p s') = file_of (follow fuel p s).
Proof.
  intros Ha. revert p. induction fuel as [|fuel IH]; intros p; [done|]. cbn.
  pose proof (node_alike s s' p Ha) as Hn.
  destruct (node p s) as [[i n]|], (node p s') as [[i' n']|]; [|done..]. destruct Hn as [<- E].
  pose proof E as E'. unfold shape in E'. injection E' as Em El. unfold is_link. rewrite Em, El.
  destruct (has (i_mode n') ModeSymlink) eqn:El'; [apply IH|]. symmetry. by apply file_of_shape.
Qed.

Lemma regular_alike s s' p : alike s s' -> file_of (node p s') = file_of (node p s).
Proof.
  intros Ha. pose proof (node_alike s s' p Ha) as Hn.
  destruct (node p s) as [[i n]|], (node p s') as [[i' n']|]; [|done..]. destruct Hn as [<- E].
  symmetry. by apply file_of_shape.
Qed.

Definition kept (s s' : st) : Prop :=
  (forall p, file_of (node_follow p s') = file_of (node_follow p s))
  /\ (forall p, file_of (node p s') = file_of (node p s)).
Lemma kept_alike s s' : alike s s' -> kept s s'.
Proof. intros Ha. split; intros p; [by apply follow_alike|by apply regular_alike]. Qed.

Lemma alike_fds s f : alike s (set_fds f s).
Proof. by split. Qed.
Lemma alike_open i p s : alike s (open_fd i p s).2.
Proof. by split. Qed.
Lemma alike_data s i n d : inodes s !! i = Some n -> alike s (set_inode i (set_data d n) s).
Proof.
  intros Hi. split; [done|]. intros j. cbn. destruct (decide (j = i)) as [->|Hj].
  - by rewrite lookup_insert_eq, Hi.
  - by rewrite lookup_insert_ne.
Qed.

Lemma follow_not_link fuel p s i n : follow fuel p s = Some (i, n) -> is_link n = false /\ inodes s !! i = Some n.
Proof.
  revert p. induction fuel as [|fuel IH]; intros p; [done|]. cbn.
  destruct (node p s) as [[i' n']|] eqn:E; [|done]. destruct (is_link n') eqn:El; [apply IH|].
  intros [= <- <-]. split; [done|]. unfold node in E. destruct (assoc _ _) as [j|]; [|done]. cbn in E.
  destruct (inodes s !! j) eqn:Ej; [|done]. cbn in E. by simplify_eq.
Qed.

Lemma node_inode p s i n : node p s = Some (i, n) -> inodes s !! i = Some n /\ assoc (Clean p) (names s) = Some i.
Proof.
  unfold node. destruct (assoc _ _) as [j|] eqn:Ea; [|done]. cbn.
  destruct (inodes s !! j) eqn:Ej; [|done]. cbn. intros [= <- <-]. done.
Qed.

Lemma plain_inode_type t mode d :
  is_dir (plain_inode t mode d) = has t ModeDir /\ is_link (plain_inode t mode d) = has t ModeSymlink.
Proof.
  unfold is_dir, is_link, mode_IsDir, has, plain_inode, mode_Perm. cbn [i_mode].
  rewrite !Z.land_lor_distr_l, <- !Z.land_assoc.
  change (Z.land ModePerm ModeDir) with 0. change (Z.land ModePerm ModeSymlink) with 0.
  by rewrite !Z.land_0_r, !Z.lor_0_r.
Qed.

Lemma file_of_inv q i : file_of q = Some i -> exists n, q = Some (i, n) /\ is_dir n = false /\ is_link n = false.
Proof.
  destruct q as [[j n]|]; [|done]. cbn. destruct (is_dir n) eqn:Ed, (is_link n) eqn:El; try done.
  cbn. intros [= <-]. by exists n.
Qed.

Definition symlink_at (s : st) (p : gostring) : bool :=
  match node p s with Some (_, n) => is_link n | None => false end.
Definition fd_at (s : st) (f : Z) : option (Z * Z) := (fun d => (fd_ino d, fd_pos d)) <$> fds s !! f.

Lemma open_existing flags p mode f s s' :
  has flags O_CREATE = false -> has flags O_TRUNC = false -> OpenFile p flags mode s = (inl f, s') ->
  alike s s' /\ inodes s' = inodes s
  /\ exists i n, node_follow p s = Some (i, n) /\ fd_at s' f = Some (i, 0)
       /\ is_dir n && has flags (Z.lor O_WRONLY O_RDWR) = false.
Proof.
  intros Hc Ht. unfold OpenFile. rewrite Hc, Ht. cbn [andb].
  destruct (node_follow p s) as [[i n]|]; [|done].
  destruct (is_dir n && _) eqn:E; [done|]. intros [= <- <-]. split_and!; [by split|done|].
  exists i, n. split_and!; [done| |done]. unfold fd_at. cbn. by rewrite lookup_insert_eq.
Qed.

Lemma open_creat p mode f s s' :
  symlink_at s p = false -> OpenFile p (Z.lor (Z.lor O_CREATE O_TRUNC) O_WRONLY) mode s = (inl f, s') ->
  exists i, file_of (node p s') = Some i /\ fd_at s' f = Some (i, 0) /\ idata s' i = [].
Proof.
  unfold symlink_at, OpenFile. intros Hl. change (has _ O_EXCL) with false. rewrite andb_false_r. cbn [andb].
  change (has _ O_CREATE) with true. change (has _ O_TRUNC) with true.
  change (has _ (Z.lor O_WRONLY O_RDWR)) with true. cbv iota.
  unfold node_follow. cbn [follow]. destruct (node p s) as [[i n]|] eqn:En.
  - rewrite Hl, andb_true_r. destruct (is_dir n) eqn:Ed; [done|]. intros [= <- <-]. exists i.
    apply node_inode in En as [Hi Ha]. unfold put. rewrite Hi. unfold node, fd_at, idata. cbn. rewrite Ha.
    cbn. rewrite !lookup_insert_eq. cbn. unfold is_dir, is_link in *. cbn. by rewrite Ed, Hl.
  - unfold create. destruct (parent_ok p s); [|done]. intros [= <- <-].
    eexists. unfold node, fd_at, idata. cbn. rewrite bool_decide_true by done. cbn.
    rewrite !lookup_insert_eq. cbn. destruct (plain_inode_type 0 mode []) as [E1 E2].
    rewrite E1, E2. done.
Qed.

Lemma write_at f i n d off k s s' :
  fd_at s f = Some (i, n) -> WriteAt f d off s = ((k, None), s') ->
  0 <= off /\ alike s s' /\ fd_at s' f = Some (i, n) /\ idata s' i = pwrite off d (idata s i)
  /\ forall j, j <> i -> idata s' j = idata s j.
Proof.
  unfold fd_at, WriteAt, with_fd. destruct (fds s !! f) as [o|] eqn:Ef; [|done]. cbn. intros [= <- <-].
  destruct (inodes s !! fd_ino o) as [m|] eqn:Ei; [|done].
  destruct (Z.ltb_spec off 0); cbn [orb]; [done|]. destruct (is_dir m); [done|]. intros [= _ <-].
  split_and!; [done|by apply alike_data|cbn; by rewrite Ef| |].
  - unfold idata. cbn. by rewrite lookup_insert_eq, Ei.
  - intros j Hj. unfold idata. cbn. by rewrite lookup_insert_ne.
Qed.

Lemma write_here f i n d k s s' :
  fd_at s f = Some (i, n) -> Write f d s = ((k, None), s') ->
  alike s s' /\ idata s' i = pwrite n d (idata s i).
Proof.
  unfold fd_at, Write, with_fd. destruct (fds s !! f) as [o|] eqn:Ef; [|done]. cbn. intros [= <- <-].
  destruct (inodes s !! fd_ino o) as [m|] eqn:Ei; [|done]. destruct (is_dir m); [done|]. intros [= _ <-].
  split; [exact (alike_data s (fd_ino o) m _ Ei)|]. unfold idata. cbn. by rewrite lookup_insert_eq, Ei.
Qed.

Lemma symlink_mkdir p mode s r s' q : Mkdir p mode s = (r, s') -> symlink_at s' q = symlink_at s q.
Proof.
  unfold Mkdir. destruct (node p s) eqn:En; [by intros [= _ <-]|].
  unfold create. destruct (parent_ok p s); [|by intros [= _ <-]]. intros [= _ <-].
  set (i := fresh (dom (inodes s))). assert (Hi : inodes s !! i = None).
  { apply not_elem_of_dom. unfold i. apply is_fresh. }
  destruct (plain_inode_type ModeDir mode []) as [_ Hl].
  unfold symlink_at, node in *. cbn. destruct (bool_decide (Clean p = Clean q)) eqn:E.
  - apply bool_decide_eq_true in E. rewrite E in En. cbn. rewrite lookup_insert_eq. cbn. rewrite Hl.
    destruct (assoc (Clean q) (names s)) as [j|]; [|done]. cbn in *. by destruct (inodes s !! j).
  - destruct (assoc (Clean q) (names s)) as [j|]; [|done]. cbn. destruct (decide (j = i)) as [->|Hj].
    + by rewrite lookup_insert_eq, Hi.
    + by rewrite lookup_insert_ne.
Qed.

Lemma symlink_mkdirs q mode : forall rest done_ s r s',
  mkdirs done_ rest mode s = (r, s') -> symlink_at s' q = symlink_at s q.
Proof.
  induction rest as [|e rest IH]; intros done_ s r s'; cbn [mkdirs]; [by intros [= _ <-]|].
  destruct (node_follow (absolute (done_ ++ [e])) s) as [[i n]|].
  - destruct (is_dir n); [apply IH|by intros [= _ <-]].
  - destruct (Mkdir (absolute (done_ ++ [e])) mode s) as [r1 s1] eqn:E. apply (symlink_mkdir _ _ _ _ _ q) in E. destruct r1.
    + by intros [= _ <-].
    + intros ->%IH. done.
Qed.

Lemma rename_path_new old new k : k <> new -> rename_path old new k = new <-> k = old.
Proof.
  intros Hk. unfold rename_path. destruct (decide (k = old)) as [->|Ho].
  { by rewrite bool_decide_true. }
  rewrite bool_decide_false by done. destruct (HasPrefix k (old ++ [slash])) eqn:Hp; [|done].
  split; [|done]. intros E. rewrite <- (app_nil_r new) in E at 2. apply app_inv_head in E.
  apply andb_true_iff in Hp as [Hp _]. apply Nat.leb_le in Hp. rewrite length_app in Hp. cbn in Hp.
  apply (f_equal length) in E. rewrite length_drop in E. cbn in E. lia.
Qed.

Lemma assoc_rename (old new : gostring) (l : list (gostring * Z)) : old <> new ->
  assoc new ((fun q => (rename_path old new q.1, q.2)) <$> unassoc new l) = assoc old l.
Proof.
  intros Hne. induction l as [|[k v] l IH]; [done|]. unfold unassoc. rewrite filter_cons. cbn [fst].
  destruct (decide (k <> new)) as [Hk|Hk].
  - rewrite fmap_cons. cbn [assoc fst snd].
    rewrite (bool_decide_ext _ _ (rename_path_new old new k Hk)). by destruct (bool_decide (k = old)).
  - assert (k = new) as -> by (by destruct (decide (k = new))). cbn [assoc].
    rewrite bool_decide_false by done. exact IH.
Qed.

Lemma rename_file old new i s s' :
  file_of (node old s) = Some i -> Rename old new s = (None, s') ->
  file_of (node new s') = Some i /\ idata s' i = idata s i.
Proof.
  intros Hf. unfold Rename. destruct (node old s) as [[j n]|] eqn:En; [|done].
  destruct (bool_decide (Clean old = Clean new)) eqn:E.
  - intros [= <-]. apply bool_decide_eq_true in E. unfold node in *. rewrite <- E. by rewrite En.
  - apply bool_decide_eq_false in E. destruct (negb (parent_ok new s)); [done|]. intros [= <-].
    split; [|done]. rewrite <- Hf, <- En. unfold node. cbn. by rewrite assoc_rename.
Qed.

Lemma read_file p i s : file_of (node p s) = Some i ->
  exists b, ReadFile p s = (inl b, s) /\ s_bytes b = idata s i.
Proof.
  intros (n & En & Ed & El)%file_of_inv. pose proof (node_inode _ _ _ _ En) as [Hi _].
  unfold ReadFile, node_follow. cbn [follow]. rewrite En, El, Ed. eexists. split; [done|].
  unfold idata. rewrite Hi. apply upto_all. cbn. lia.
Qed.

Lemma sync_same f r s s' : Sync f s = (r, s') -> s' = s.
Proof.
  unfold Sync, with_fd. destruct (fds s !! f) as [o|]; [destruct (inodes s !! fd_ino o)|]; by intros [= _ ->].
Qed.
Lemma close_same f r s s' : Close f s = (r, s') -> alike s s' /\ inodes s' = inodes s.
Proof. unfold Close. destruct (fds s !! f); intros [= _ <-]; by split. Qed.

#[export] Instance store : @FileStore os.
Proof.
  refine (@Build_FileStore os Z _ idata (fun s p => file_of (node_follow p s))
    (fun s p => file_of (node p s)) symlink_at fd_at _ _ _ _ _ _ _ _ _ _).
  - intros p mode f s s' (Ha & Hi & _)%open_existing; [|done..]. split; [by apply kept_alike|].
    intros i. unfold idata. by rewrite Hi.
  - intros p mode f s s' (Ha & Hi & i & n & Hn & Hf & Hd)%open_existing; [|done..]. split.
    { split; [by apply kept_alike|]. intros j. unfold idata. by rewrite Hi. }
    exists i. split; [|done]. rewrite Hn. cbn. change (has O_RDWR _) with true in Hd.
    rewrite andb_true_r in Hd. rewrite Hd. unfold node_follow in Hn.
    by destruct (follow_not_link _ _ _ _ _ Hn) as [-> _].
  - intros p mode f s s'. apply open_creat.
  - intros f i n d off k s s' Hf (? & Ha & ? & ? & ?)%(write_at f i n); [|done].
    split_and!; try done; by apply kept_alike.
  - intros f i n d k s s' Hf (Ha & ?)%(write_here f i n); [|done]. split; [|done]. by apply kept_alike.
  - intros f r s s' ->%sync_same. by split.
  - intros f r s s' (Ha & Hi)%close_same. split; [by apply kept_alike|]. intros i. unfold idata. by rewrite Hi.
  - intros p mode s s' E q. cbn in E. by eapply symlink_mkdirs.
  - intros old new i s s'. apply rename_file.
  - intros p i s. apply read_file.
Defined.

End memfs.
