(* ===== verification/Xattrstore.v ===== *)
(** * Names of extended attributes (internal/xattrstore/xattrstore.go)

    The names SMB clients see are stored under a private prefix on Linux;
    the listing shows only those, sorted and each once. *)

From stdpp Require Import sorting.
From S2P Require Import Prelude Utf16 Paths Vfs Filepath Os Memfs.

Module xattrstore.

Definition linuxPrefix : gostring := lit "user.smbrelay.".
Definition linuxMaxNameLen : Z := 255.

(** [runtime.GOOS] of the build that is modelled. *)
Definition GOOS : gostring := lit "linux".

Definition nativeNameForOS (goos name : gostring) : outcome gostring :=
  if bool_decide (name = []) then Err (ErrOther "extended attribute name is empty") else
  if Contains name 0 then Err (ErrOther "extended attribute name contains NUL") else
  if negb (bool_decide (goos = lit "linux")) then Ok name else
  let native := linuxPrefix ++ name in
  if blen (string_bytes native) >? linuxMaxNameLen then Err (ErrOther "extended attribute name is too long")
  else Ok native.

Definition NativeName (name : gostring) : outcome gostring := nativeNameForOS GOOS name.

Definition logicalNameForOS (goos native : gostring) : gostring * bool :=
  if negb (bool_decide (goos = lit "linux")) then (native, true) else
  if negb (HasPrefix native linuxPrefix) then ([], false) else
  let logical := drop (length linuxPrefix) native in
  (logical, negb (bool_decide (logical = []))).

(** Strings are ordered by their bytes. *)
Fixpoint bytes_leb (a b : bytes) : bool :=
  match a, b with
  | [], _ => true
  | _ :: _, [] => false
  | x :: a, y :: b => (x <? y) || ((x =? y) && bytes_leb a b)
  end.
Definition string_le (a b : gostring) : Prop := bytes_leb (string_bytes a) (string_bytes b) = true.
#[export] Instance string_le_dec : RelDecision string_le.
Proof. intros a b. unfold string_le. apply _. Defined.

(** One turn of the loop: names seen, and the result so far. *)
Definition logical_step (goos : gostring) (acc : gset gostring * list gostring) (name : gostring)
  : gset gostring * list gostring :=
  let '(seen, logical) := acc in
  let '(name, visible) := logicalNameForOS goos name in
  if negb visible then acc
  else if bool_decide (name ∈ seen) then acc
  else ({[name]} ∪ seen, logical ++ [name]).
Definition logicalNames (goos : gostring) (native : list gostring) : list gostring :=
  merge_sort string_le (foldl (logical_step goos) (∅, []) native).2.

Section store.
Context `{OS}.

Definition Get (path name : gostring) : IO os_st bytes :=
  let? native := pure_call (NativeName name) in sys (xattr_Get path native).
Definition FGet (file : File) (name : gostring) : IO os_st bytes :=
  let? native := pure_call (NativeName name) in sys (xattr_FGet file native).
Definition Set_ (path name : gostring) (value : bytes) : IO os_st unit :=
  let? native := pure_call (NativeName name) in sys_err (xattr_Set path native value).
Definition FSet (file : File) (name : gostring) (value : bytes) : IO os_st unit :=
  let? native := pure_call (NativeName name) in sys_err (xattr_FSet file native value).
Definition Remove (path name : gostring) : IO os_st unit :=
  let? native := pure_call (NativeName name) in sys_err (xattr_Remove path native).
Definition FRemove (file : File) (name : gostring) : IO os_st unit :=
  let? native := pure_call (NativeName name) in sys_err (xattr_FRemove file native).
Definition List_ (path : gostring) : IO os_st (list gostring) :=
  let? names := sys (xattr_List path) in ret (logicalNames GOOS names).
Definition FList (file : File) : IO os_st (list gostring) :=
  let? names := sys (xattr_FList file) in ret (logicalNames GOOS names).

End store.

(** ** Facts *)

Lemma HasPrefix_app p s : HasPrefix (p ++ s) p = true.
Proof.
  unfold HasPrefix. apply andb_true_iff. split.
  - apply Nat.leb_le. rewrite length_app. lia.
  - apply bool_decide_eq_true. apply take_app_length.
Qed.

Lemma HasPrefix_inv s p : HasPrefix s p = true -> s = p ++ drop (length p) s.
Proof.
  unfold HasPrefix. intros [_ E]%andb_true_iff. apply bool_decide_eq_true in E.
  rewrite <- E at 1. by rewrite take_drop.
Qed.

Lemma native_inv name native :
  NativeName name = Ok native ->
  native = linuxPrefix ++ name /\ name <> [] /\ Contains name 0 = false
  /\ blen (string_bytes native) <= linuxMaxNameLen.
Proof.
  unfold NativeName, nativeNameForOS. destruct (bool_decide (name = [])) eqn:E0; [done|].
  apply bool_decide_eq_false in E0. destruct (Contains name 0); [done|].
  rewrite bool_decide_true by done. cbn [negb]. rewrite Z.gtb_ltb.
  destruct (Z.ltb_spec linuxMaxNameLen (blen (string_bytes (linuxPrefix ++ name)))); [done|].
  intros [= <-]. done.
Qed.

Lemma logical_iff native name :
  logicalNameForOS GOOS native = (name, true) <-> native = linuxPrefix ++ name /\ name <> [].
Proof.
  unfold logicalNameForOS. rewrite bool_decide_true by done. cbn [negb]. split.
  - destruct (HasPrefix native linuxPrefix) eqn:E; [|done]. cbn [negb]. intros [= En Ev].
    rewrite En in Ev. apply negb_true_iff, bool_decide_eq_false in Ev.
    apply HasPrefix_inv in E. change (length linuxPrefix) with 14%nat in E. rewrite En in E. done.
  - intros [-> Hn]. rewrite HasPrefix_app, drop_app_length. by rewrite bool_decide_false.
Qed.

Lemma bytes_leb_total a b : bytes_leb a b = true \/ bytes_leb b a = true.
Proof.
  revert b. induction a as [|x a IH]; intros [|y b]; cbn; auto.
  destruct (Z.ltb_spec x y), (Z.ltb_spec y x), (Z.eqb_spec x y), (Z.eqb_spec y x);
    cbn; try lia; auto.
Qed.
#[export] Instance string_le_total : Total string_le.
Proof. intros a b. apply bytes_leb_total. Qed.

Definition visible_in (native : list gostring) (name : gostring) : Prop :=
  exists n, n ∈ native /\ logicalNameForOS GOOS n = (name, true).

Lemma logical_loop native :
  let '(seen, logical) := foldl (logical_step GOOS) (∅, []) native in
  NoDup logical /\ (forall x, x ∈ logical <-> x ∈ seen) /\ (forall x, x ∈ logical <-> visible_in native x).
Proof.
  induction native as [|n native IH] using rev_ind.
  - cbn. split_and!; [constructor|set_solver|]. intros x. split; [set_solver|].
    intros (y & Hy & _). set_solver.
  - rewrite foldl_app. destruct (foldl _ _ native) as [seen logical]. destruct IH as (Hnd & Hs & Hv).
    cbn [foldl logical_step].
    assert (Hadd : forall x, visible_in (native ++ [n]) x <-> visible_in native x \/ logicalNameForOS GOOS n = (x, true)).
    { intros x. unfold visible_in. split.
      - intros (y & [Hy| ->%list_elem_of_singleton]%elem_of_app & E); [left; by exists y|by right].
      - intros [(y & Hy & E)|E]; [exists y|exists n]; (split; [|done]); apply elem_of_app;
        [by left|right; apply list_elem_of_singleton; done]. }
    destruct (logicalNameForOS GOOS n) as [name [|]] eqn:E; cbn [negb].
    + destruct (bool_decide (name ∈ seen)) eqn:Es.
      * apply bool_decide_eq_true in Es. split_and!; [done..|]. intros x. rewrite Hadd, Hv. split; [auto|].
        intros [?|[= <-]]; [done|]. by apply Hv, Hs.
      * apply bool_decide_eq_false in Es. split_and!.
        -- apply NoDup_app. split_and!; [done| |apply NoDup_singleton].
           intros x Hx ->%list_elem_of_singleton. by apply Es, Hs.
        -- intros x. rewrite elem_of_app, elem_of_union, list_elem_of_singleton, elem_of_singleton, Hs. tauto.
        -- intros x. rewrite Hadd, elem_of_app, Hv, list_elem_of_singleton. split; intros [?|?]; auto.
           ++ right. by subst.
           ++ right. by simplify_eq.
    + split_and!; [done..|]. intros x. rewrite Hadd, Hv. split; [auto|]. by intros [?|?].
Qed.

(** C33: the names a client sees are the names that were stored.  A name that
    is accepted is stored under a native name that is read back as the name,
    is private and not too long; and from any list of native names the listing
    gives, sorted by their bytes and each once, exactly the names whose native
    name is in the list, so that no attribute of the system shows. *)
Theorem names_roundtrip :
  (forall name native, NativeName name = Ok native ->
     HasPrefix native linuxPrefix = true /\ blen (string_bytes native) <= linuxMaxNameLen
     /\ logicalNameForOS GOOS native = (name, true))
  /\ (forall native,
       Sorted string_le (logicalNames GOOS native) /\ NoDup (logicalNames GOOS native)
       /\ forall name, name ∈ logicalNames GOOS native <-> linuxPrefix ++ name ∈ native /\ name <> []).
Proof.
  split.
  - intros name native (-> & Hn & _ & Hl)%native_inv. split_and!; [apply HasPrefix_app|done|].
    by apply logical_iff.
  - intros native. unfold logicalNames. pose proof (logical_loop native) as Hl.
    destruct (foldl _ _ _) as [seen logical]. destruct Hl as (Hnd & _ & Hv). cbn [snd].
    split_and!.
    + apply Sorted_merge_sort. apply _.
    + by rewrite merge_sort_Permutation.
    + intros name. rewrite merge_sort_Permutation, Hv. unfold visible_in. split.
      * intros (n & Hn & [-> ?]%logical_iff). done.
      * intros [? ?]. eexists. split; [done|]. by apply logical_iff.
Qed.

Lemma names_roundtrip_witness :
  logicalNameForOS GOOS (linuxPrefix ++ lit "AFP_AfpInfo") = (lit "AFP_AfpInfo", true).
Proof.
  destruct (proj1 names_roundtrip (lit "AFP_AfpInfo") (linuxPrefix ++ lit "AFP_AfpInfo")) as (_ & _ & E);
    [reflexivity|exact E].
Defined.

(** The listing of xattrstore_test.go. *)
Example test_listing :
  logicalNames GOOS [lit "security.selinux"; lit "system.posix_acl_access"; lit "user.unrelated";
                     linuxPrefix ++ lit "com.apple.lastuseddate#PS"; linuxPrefix ++ lit "AFP_AfpInfo"]
  = [lit "AFP_AfpInfo"; lit "com.apple.lastuseddate#PS"].
Proof. vm_compute. reflexivity. Qed.

(** The round trip of xattrstore_test.go, on the file system in memory. *)
Example test_file_roundtrip :
  let name := lit "com.apple.lastuseddate#PS" in
  (let? f := sys (@os_OpenFile memfs.os (lit "/file") O_RDWR 0) in
   FSet (H := memfs.os) f name [1; 2; 3] ;;?
   let? v := FGet (H := memfs.os) f name in
   let? l := FList (H := memfs.os) f in
   FRemove (H := memfs.os) f name ;;? ret (v, l)) (memfs.add_file (lit "/file") [] memfs.empty)
  = (Val ([1; 2; 3], [lit "com.apple.lastuseddate#PS"]),
     (memfs.OpenFile (lit "/file") O_RDWR 0 (memfs.add_file (lit "/file") [] memfs.empty)).2).
Proof. vm_compute. reflexivity. Qed.

End xattrstore.
