(* ===== verification/Oplock.v ===== *)
(** * Oplock and lease break messages (internal/smb2/oplock.go) *)

From S2P Require Import Prelude Const Packet Utf16 Request.

Module OplockBreakNotification.
Record t := mk { hdr : PacketHeader.t; OplockLevel : Z; FileId : option FileId.t }.
Definition Size (c : t) : Z := 64 + 24.
Definition Encode (c : t) : enc :=
  message SMB2_OPLOCK_BREAK (hdr c)
    (put16 0 24 >> put8 2 (OplockLevel c) >> put8 3 0 >> put32 4 0
     >> in_ 8 24 (FileId.Encode (FileId c))).
End OplockBreakNotification.

Module OplockBreakAcknowledgmentDecoder.
Definition StructureSize (r : slice) : outcome Z := get16 r 0 2.
Definition IsInvalid (r : slice) : outcome bool :=
  if s_len r <? SMB2_OPLOCK_BREAK_ACK_SIZE then Ok true else
  let! ss := StructureSize r in Ok (negb (ss =? SMB2_OPLOCK_BREAK_ACK_SIZE)).
Definition OplockLevel (r : slice) : outcome Z := s_idx r 2.
Definition FileId (r : slice) : outcome slice := s_range r 8 24.
End OplockBreakAcknowledgmentDecoder.

Module LeaseBreakNotificationDecoder.
Definition StructureSize (r : slice) : outcome Z := get16 r 0 2.
Definition IsInvalid (r : slice) : outcome bool :=
  if s_len r <? 44 then Ok true else let! ss := StructureSize r in Ok (negb (ss =? 44)).
Definition NewEpoch (r : slice) : outcome Z := get16 r 2 4.
Definition Flags (r : slice) : outcome Z := get32 r 4 8.
Definition LeaseKey (r : slice) : outcome bytes :=
  let! k := s_range r 8 24 in Ok (guid_of (s_bytes k)).
Definition CurrentLeaseState (r : slice) : outcome Z := get32 r 24 28.
Definition NewLeaseState (r : slice) : outcome Z := get32 r 28 32.
End LeaseBreakNotificationDecoder.

Module OplockBreakResponse.
Record t := mk { hdr : PacketHeader.t; OplockLevel : Z; FileId : option FileId.t }.
Definition Size (c : t) : Z := 64 + 24.
Definition Encode (c : t) : enc :=
  message SMB2_OPLOCK_BREAK (hdr c)
    (put16 0 24 >> put8 2 (OplockLevel c) >> put8 3 0 >> put32 4 0
     >> in_ 8 24 (FileId.Encode (FileId c))).
End OplockBreakResponse.

(** The struct's own [Flags] field shadows the one of the embedded header. *)
Module LeaseBreakNotification.
Record t := mk {
  hdr : PacketHeader.t; NewEpoch : Z; Flags : Z; LeaseKey : bytes; CurrentLeaseState : Z;
  NewLeaseState : Z; BreakReason : Z; AccessMaskHint : Z; ShareMaskHint : Z
}.
Definition Size (c : t) : Z := 64 + 44.
Definition Encode (c : t) : enc :=
  message SMB2_OPLOCK_BREAK (hdr c)
    (put16 0 44 >> put16 2 (NewEpoch c) >> put32 4 (Flags c) >> copy_range 8 24 (LeaseKey c)
     >> put32 24 (CurrentLeaseState c) >> put32 28 (NewLeaseState c) >> put32 32 (BreakReason c)
     >> put32 36 (AccessMaskHint c) >> put32 40 (ShareMaskHint c)).
End LeaseBreakNotification.

Module LeaseBreakAcknowledgmentDecoder.
Definition StructureSize (r : slice) : outcome Z := get16 r 0 2.
Definition IsInvalid (r : slice) : outcome bool :=
  if s_len r <? SMB2_LEASE_BREAK_ACK_SIZE then Ok true else
  let! ss := StructureSize r in Ok (negb (ss =? SMB2_LEASE_BREAK_ACK_SIZE)).
Definition LeaseKey (r : slice) : outcome bytes :=
  let! k := s_range r 8 24 in Ok (guid_of (s_bytes k)).
Definition LeaseState (r : slice) : outcome Z := get32 r 24 28.
End LeaseBreakAcknowledgmentDecoder.

Module LeaseBreakResponse.
Record t := mk { hdr : PacketHeader.t; LeaseKey : bytes; LeaseState : Z; LeaseDuration : Z }.
Definition Size (c : t) : Z := 64 + 36.
Definition Encode (c : t) : enc :=
  message SMB2_OPLOCK_BREAK (hdr c)
    (put16 0 36 >> put16 2 0 >> put32 4 0 >> copy_range 8 24 (LeaseKey c)
     >> put32 24 (LeaseState c) >> put64 28 (LeaseDuration c)).
End LeaseBreakResponse.

(** A lease break notification reaches the client intact.  Encoding one
    with in-range fields and a 16-byte key into a buffer of [Size] bytes
    succeeds, and the client-side decoder accepts the body and reads back the
    epoch, the flags, the key and both lease states. *)
Theorem lease_break_roundtrip (c : LeaseBreakNotification.t) :
  PacketHeader.wf (LeaseBreakNotification.hdr c) ->
  in16 (LeaseBreakNotification.NewEpoch c) -> in32 (LeaseBreakNotification.Flags c) ->
  blen (LeaseBreakNotification.LeaseKey c) = 16 ->
  in32 (LeaseBreakNotification.CurrentLeaseState c) -> in32 (LeaseBreakNotification.NewLeaseState c) ->
  exists pkt r,
    LeaseBreakNotification.Encode c (zeros (LeaseBreakNotification.Size c)) = Ok pkt
    /\ PacketCodec.Command (of_bytes pkt) = Ok SMB2_OPLOCK_BREAK
    /\ PacketCodec.Data (of_bytes pkt) = Ok r
    /\ LeaseBreakNotificationDecoder.IsInvalid r = Ok false
    /\ LeaseBreakNotificationDecoder.NewEpoch r = Ok (LeaseBreakNotification.NewEpoch c)
    /\ LeaseBreakNotificationDecoder.Flags r = Ok (LeaseBreakNotification.Flags c)
    /\ LeaseBreakNotificationDecoder.LeaseKey r = Ok (LeaseBreakNotification.LeaseKey c)
    /\ LeaseBreakNotificationDecoder.CurrentLeaseState r = Ok (LeaseBreakNotification.CurrentLeaseState c)
    /\ LeaseBreakNotificationDecoder.NewLeaseState r = Ok (LeaseBreakNotification.NewLeaseState c).
Proof.
  intros Hw He Hf Hk Hc Hn.
  edestruct (message_elim SMB2_OPLOCK_BREAK (LeaseBreakNotification.hdr c)) with
    (P := fun q => let r := of_bytes q in
      LeaseBreakNotificationDecoder.IsInvalid r = Ok false
      /\ LeaseBreakNotificationDecoder.NewEpoch r = Ok (LeaseBreakNotification.NewEpoch c)
      /\ LeaseBreakNotificationDecoder.Flags r = Ok (LeaseBreakNotification.Flags c)
      /\ LeaseBreakNotificationDecoder.LeaseKey r = Ok (LeaseBreakNotification.LeaseKey c)
      /\ LeaseBreakNotificationDecoder.CurrentLeaseState r = Ok (LeaseBreakNotification.CurrentLeaseState c)
      /\ LeaseBreakNotificationDecoder.NewLeaseState r = Ok (LeaseBreakNotification.NewLeaseState c))
    as (pkt & q & Hm & Hcmd & Hd & HP); cycle 4.
  { exists pkt, (of_bytes q). destruct HP as (?&?&?&?&?&?). split_and!; done. }
  1-3: first [done | ints; done | unfold LeaseBreakNotification.Size; lia].
  change (LeaseBreakNotification.Size c - 64) with 44. eexists.
  split; [unfold eseq; repeat body_step; reflexivity|].
  set (q := splice 40 _ _).
  assert (Hq : blen q = 44) by (unfold q; len).
  assert (E : sub 0 2 q = le_enc 2 44 /\ sub 2 2 q = le_enc 2 (LeaseBreakNotification.NewEpoch c)
    /\ sub 4 4 q = le_enc 4 (LeaseBreakNotification.Flags c)
    /\ sub 8 16 q = LeaseBreakNotification.LeaseKey c
    /\ sub 24 4 q = le_enc 4 (LeaseBreakNotification.CurrentLeaseState c)
    /\ sub 28 4 q = le_enc 4 (LeaseBreakNotification.NewLeaseState c)).
  { unfold q. split_and!; by reads. }
  destruct E as (E0 & E2 & E4 & E8 & E24 & E28). clearbody q. cbv zeta.
  unfold LeaseBreakNotificationDecoder.IsInvalid, LeaseBreakNotificationDecoder.NewEpoch,
    LeaseBreakNotificationDecoder.Flags, LeaseBreakNotificationDecoder.LeaseKey,
    LeaseBreakNotificationDecoder.CurrentLeaseState, LeaseBreakNotificationDecoder.NewLeaseState,
    LeaseBreakNotificationDecoder.StructureSize.
  decode. split_and!; try done.
  destruct (range_field q 8 24 (LeaseBreakNotification.LeaseKey c)) as (t & -> & Hb & _); [done|lia..|].
  cbn [obind]. rewrite Hb. unfold guid_of. f_equal. apply splice_full. by rewrite Hk.
Qed.

Lemma lease_break_roundtrip_witness :
  exists pkt r,
    LeaseBreakNotification.Encode
      (LeaseBreakNotification.mk PacketHeader.zero 3 1 (zeros 16) 7 0 0 0 0) (zeros 108) = Ok pkt
    /\ PacketCodec.Data (of_bytes pkt) = Ok r
    /\ LeaseBreakNotificationDecoder.CurrentLeaseState r = Ok 7.
Proof.
  destruct (lease_break_roundtrip (LeaseBreakNotification.mk PacketHeader.zero 3 1 (zeros 16) 7 0 0 0 0))
    as (pkt & r & Hq & _ & Hd & _ & _ & _ & _ & Hc & _).
  - unfold PacketHeader.wf. ints. simpl. lia.
  - ints. simpl. lia.
  - ints. simpl. lia.
  - reflexivity.
  - ints. simpl. lia.
  - ints. simpl. lia.
  - exists pkt, r. split; [exact Hq|]. split; [exact Hd|exact Hc].
Defined.
