(* ===== verification/Opens.v ===== *)
(** * Open files, pending deletes and oplocks (server/server.go)

    The server-wide table of opens, the set of nodes whose deletion is
    pending, and the oplock and lease state each open keeps. *)

From S2P Require Import Prelude Const Packet Utf16 Request Vfs Oplock.

Inductive OpLockState := LOCKSTATE_NONE | LOCKSTATE_HELD | LOCKSTATE_BREAKING.

#[export] Instance OpLockState_eq_dec : EqDecision OpLockState.
Proof. solve_decision. Defined.

Module Lease.
Record t := mk {
  LeaseKey : bytes; LeaseState : Z; LeaseFlags : Z; LeaseDuration : Z; ParentLeaseKey : bytes;
  Epoch : Z; Version : Z; Breaking : bool; BreakToState : Z
}.
#[export] Instance t_eq_dec : EqDecision t.
Proof. solve_decision. Defined.
Definition begin_break (l : t) : t :=
  mk (LeaseKey l) (LeaseState l) (LeaseFlags l) (LeaseDuration l) (ParentLeaseKey l)
     (u16 (Epoch l + 1)) (Version l) true SMB2_LEASE_NONE.
Definition acknowledge (st : Z) (l : t) : t :=
  mk (LeaseKey l) st (LeaseFlags l) (LeaseDuration l) (ParentLeaseKey l)
     (Epoch l) (Version l) false (BreakToState l).
End Lease.

(** The fields the server uses.  [session] is the id of the session that made
    the open and [tree] its tree connection ([None] for nil). *)
Module Open.
Record t := mk {
fileId : Z; durableFileId : Z; session : option Z; grantedAccess : Z; oplockLevel : Z; oplockState
    : OpLockState; isDurable : bool; isPersistent : bool; durableOpenTimeout : Z; pathName :
    gostring; createOptions : Z; deleteOnClose : bool; createDisposition : Z; lease : option
    Lease.t; isEa : bool; eaKey : gostring; isSymlink : bool; posixSemantics : bool; createGuid :
    bytes; tree : option nat; fileName : gostring; fileAttributes : Z; notifyReq : option bytes;
    notifyReqAsyncId : Z; queryDirectoryPending : list DirInfo.t; queryDirectorySingleName :
    gostring; queryDirectorySingleDone : bool
}.

Definition set_oplock (lv : Z) (st : OpLockState) (o : t) : t := mk (fileId o) (durableFileId o)
    (session o) (grantedAccess o) lv st (isDurable o) (isPersistent o) (durableOpenTimeout o)
    (pathName o) (createOptions o) (deleteOnClose o) (createDisposition o) (lease o) (isEa o)
    (eaKey o) (isSymlink o) (posixSemantics o) (createGuid o) (tree o) (fileName o)
    (fileAttributes o) (notifyReq o) (notifyReqAsyncId o) (queryDirectoryPending o)
    (queryDirectorySingleName o) (queryDirectorySingleDone o).
Definition set_lease (l : option Lease.t) (o : t) : t := mk (fileId o) (durableFileId o)
    (session o) (grantedAccess o) (oplockLevel o) (oplockState o) (isDurable o) (isPersistent o)
    (durableOpenTimeout o) (pathName o) (createOptions o) (deleteOnClose o) (createDisposition o)
    l (isEa o) (eaKey o) (isSymlink o) (posixSemantics o) (createGuid o) (tree o) (fileName o)
    (fileAttributes o) (notifyReq o) (notifyReqAsyncId o) (queryDirectoryPending o)
    (queryDirectorySingleName o) (queryDirectorySingleDone o).
Definition set_deleteOnClose (b : bool) (o : t) : t := mk (fileId o) (durableFileId o) (session o)
    (grantedAccess o) (oplockLevel o) (oplockState o) (isDurable o) (isPersistent o)
    (durableOpenTimeout o) (pathName o) (createOptions o) b (createDisposition o) (lease o)
    (isEa o) (eaKey o) (isSymlink o) (posixSemantics o) (createGuid o) (tree o) (fileName o)
    (fileAttributes o) (notifyReq o) (notifyReqAsyncId o) (queryDirectoryPending o)
    (queryDirectorySingleName o) (queryDirectorySingleDone o).
Definition set_durable (persistent : bool) (timeout : Z) (guid : bytes) (o : t) : t := mk
    (fileId o) (durableFileId o) (session o) (grantedAccess o) (oplockLevel o) (oplockState o)
    persistent persistent timeout (pathName o) (createOptions o) (deleteOnClose o)
    (createDisposition o) (lease o) (isEa o) (eaKey o) (isSymlink o) (posixSemantics o) guid
    (tree o) (fileName o) (fileAttributes o) (notifyReq o) (notifyReqAsyncId o)
    (queryDirectoryPending o) (queryDirectorySingleName o) (queryDirectorySingleDone o).
Definition set_path (path file : gostring) (o : t) : t := mk (fileId o) (durableFileId o)
    (session o) (grantedAccess o) (oplockLevel o) (oplockState o) (isDurable o) (isPersistent o)
    (durableOpenTimeout o) path (createOptions o) (deleteOnClose o) (createDisposition o)
    (lease o) (isEa o) (eaKey o) (isSymlink o) (posixSemantics o) (createGuid o) (tree o) file
    (fileAttributes o) (notifyReq o) (notifyReqAsyncId o) (queryDirectoryPending o)
    (queryDirectorySingleName o) (queryDirectorySingleDone o).
Definition set_notify (req : option bytes) (asyncId : Z) (o : t) : t := mk (fileId o)
    (durableFileId o) (session o) (grantedAccess o) (oplockLevel o) (oplockState o) (isDurable o)
    (isPersistent o) (durableOpenTimeout o) (pathName o) (createOptions o) (deleteOnClose o)
    (createDisposition o) (lease o) (isEa o) (eaKey o) (isSymlink o) (posixSemantics o)
    (createGuid o) (tree o) (fileName o) (fileAttributes o) req asyncId (queryDirectoryPending o)
    (queryDirectorySingleName o) (queryDirectorySingleDone o).
Definition set_pending (l : list DirInfo.t) (o : t) : t := mk (fileId o) (durableFileId o)
    (session o) (grantedAccess o) (oplockLevel o) (oplockState o) (isDurable o) (isPersistent o)
    (durableOpenTimeout o) (pathName o) (createOptions o) (deleteOnClose o) (createDisposition o)
    (lease o) (isEa o) (eaKey o) (isSymlink o) (posixSemantics o) (createGuid o) (tree o)
    (fileName o) (fileAttributes o) (notifyReq o) (notifyReqAsyncId o) l
    (queryDirectorySingleName o) (queryDirectorySingleDone o).
Definition set_single (name : gostring) (done : bool) (o : t) : t := mk (fileId o)
    (durableFileId o) (session o) (grantedAccess o) (oplockLevel o) (oplockState o) (isDurable o)
    (isPersistent o) (durableOpenTimeout o) (pathName o) (createOptions o) (deleteOnClose o)
    (createDisposition o) (lease o) (isEa o) (eaKey o) (isSymlink o) (posixSemantics o)
    (createGuid o) (tree o) (fileName o) (fileAttributes o) (notifyReq o) (notifyReqAsyncId o)
    (queryDirectoryPending o) name done.
End Open.

(** ** The server's tables

    The opens are pointers in Go; each is reached through its handle, so the
    map entry is the object.  [opensByGuid] is [None] while the map is nil. *)
Module Server.
Record t := mk {
  opens : gmap Z Open.t;
  opensByGuid : option (gmap bytes Z);
  deletePending : gmap Z bool
}.

(** [NewServer] makes [opens] and [deletePending] but not [opensByGuid]. *)
Definition NewServer : t := mk ∅ None ∅.

(** [d.deletePending[node]] of a missing key is false. *)
Definition pending (d : t) (node : Z) : bool := default false (deletePending d !! node).

(** Assigning to an entry of a nil map panics; deleting from one does not. *)
Definition addOpen (open : Open.t) (d : t) : outcome t :=
  let opens' := <[Open.fileId open := open]> (opens d) in
  if Open.isDurable open then
    match opensByGuid d with
    | None => Panic
    | Some g =>
        Ok (mk opens' (Some (<[Open.createGuid open := Open.fileId open]> g)) (deletePending d))
    end
  else Ok (mk opens' (opensByGuid d) (deletePending d)).

Definition getOpen (fileId : Z) (d : t) : option Open.t := opens d !! fileId.

Definition deleteOpen (fileId : Z) (d : t) : t :=
  match opens d !! fileId with
  | None => d
  | Some open =>
      mk (delete fileId (opens d))
         (if Open.isDurable open then delete (Open.createGuid open) <$> opensByGuid d
          else opensByGuid d)
         (deletePending d)
  end.

Definition setDeletePending (node : Z) (pending : bool) (d : t) : t :=
  mk (opens d) (opensByGuid d)
     (if pending then <[node := true]> (deletePending d) else delete node (deletePending d)).

Definition isDeletePending (node : Z) (d : t) : bool := pending d node.

(** Is one of the remaining opens on [node]? *)
Definition node_open (node : Z) (m : gmap Z Open.t) : bool :=
  existsb (fun o => Open.durableFileId o =? node) (snd <$> map_to_list m).

Definition closeOpen (open : Open.t) (d : t) : bool * t :=
  let node := Open.durableFileId open in
  let dp := if Open.deleteOnClose open then <[node := true]> (deletePending d)
            else deletePending d in
  let opens' := delete (Open.fileId open) (opens d) in
  let guids := if Open.isDurable open then delete (Open.createGuid open) <$> opensByGuid d
               else opensByGuid d in
  if negb (default false (dp !! node)) then (false, mk opens' guids dp)
  else if node_open node opens' then (false, mk opens' guids dp)
  else (true, mk opens' guids (delete node dp)).

(** The opens of a node; Go iterates over the map in no particular order,
    the list below is one such order. *)
Definition opensForNode (node : Z) (d : t) : list Open.t :=
  filter (fun o => Open.durableFileId o = node) (snd <$> map_to_list (opens d)).

(** ** Breaking oplocks *)

(** What is sent to the client of an open. *)
Inductive notification :=
| OplockBreak (n : OplockBreakNotification.t)
| LeaseBreak (n : LeaseBreakNotification.t).

(** The header of a notification; for a lease break [rsp.Flags = ...] sets
    the message's own [Flags] and leaves the header's at 0. *)
Definition notify_hdr (flags : Z) : PacketHeader.t :=
  PacketHeader.mk 0 0 0 0 1 flags 0 (2 ^ 64 - 1) 0 0 0.

Definition sendOplockBreak (open : Open.t) : Open.t * list notification :=
  match Open.oplockState open with
  | LOCKSTATE_BREAKING => (open, [])
  | _ =>
      let fileID := FileId.SetNodeId (Open.durableFileId open)
                      (FileId.SetHandleId (Open.fileId open) FileId.zero) in
      let rsp := OplockBreakNotification.mk (notify_hdr SMB2_FLAGS_SERVER_TO_REDIR)
                   SMB2_OPLOCK_LEVEL_NONE (Some fileID) in
      let open :=
        if Open.oplockLevel open =? SMB2_OPLOCK_LEVEL_II
        then Open.set_oplock SMB2_OPLOCK_LEVEL_NONE LOCKSTATE_NONE open
        else Open.set_oplock (Open.oplockLevel open) LOCKSTATE_BREAKING open in
      (open, [OplockBreak rsp])
  end.

Definition sendLeaseBreak (open : Open.t) : Open.t * list notification :=
  match Open.lease open with
  | None => (open, [])
  | Some l =>
      if Lease.Breaking l then (open, []) else
      let l := Lease.begin_break l in
      let open := Open.set_oplock (Open.oplockLevel open) LOCKSTATE_BREAKING
                    (Open.set_lease (Some l) open) in
      let rsp := LeaseBreakNotification.mk (notify_hdr 0) (Lease.Epoch l)
                   SMB2_FLAGS_SERVER_TO_REDIR (Lease.LeaseKey l) (Lease.LeaseState l)
                   SMB2_LEASE_NONE 0 0 0 in
      (open, [LeaseBreak rsp])
  end.

(** A session always has its connection, so [open.session.conn == nil] only
    adds the nil session. *)
Definition breakOpen (open : Open.t) : Open.t * list notification :=
  match Open.session open with
  | None => (open, [])
  | Some _ =>
      if Open.oplockLevel open =? SMB2_OPLOCK_LEVEL_NONE then (open, [])
      else if Open.oplockLevel open =? SMB2_OPLOCK_LEVEL_LEASE then sendLeaseBreak open
      else sendOplockBreak open
  end.

(** Break every open of the node; a failed send is only logged. *)
Definition BreakNode (node : Z) (d : t) : t * list notification :=
  foldl (fun '(d, out) o =>
           let '(o', n) := breakOpen o in
           (mk (<[Open.fileId o := o']> (opens d)) (opensByGuid d) (deletePending d), out ++ n))
        (d, []) (opensForNode node d).

(** ** Acknowledgements (fileTree.oplockBreak) *)

(** An oplock break acknowledgement: the level the client keeps is taken as
    it is.  [inr status] is the error sent instead. *)
Definition ack_oplock (fileID : FileId.t) (level : Z) (d : t) : t * Z + Z :=
  match getOpen (FileId.HandleId fileID) d with
  | None => inr STATUS_FILE_CLOSED
  | Some open =>
      if negb (Open.durableFileId open =? FileId.NodeId fileID) then inr STATUS_FILE_CLOSED else
      match Open.oplockState open with
      | LOCKSTATE_BREAKING =>
          let st := if level =? SMB2_OPLOCK_LEVEL_NONE then LOCKSTATE_NONE else LOCKSTATE_HELD in
          inl (mk (<[FileId.HandleId fileID := Open.set_oplock level st open]> (opens d))
                  (opensByGuid d) (deletePending d), level)
      | _ => inr STATUS_INVALID_DEVICE_STATE
      end
  end.

(** The open a lease acknowledgement is for: any one that has the key (the
    code takes the first one its iteration over the map meets). *)
Definition lease_candidate (key : bytes) (d : t) (cand : option Z) : Prop :=
  match cand with
  | None => forall h o l, opens d !! h = Some o -> Open.lease o = Some l -> Lease.LeaseKey l <> key
  | Some h => exists o l, opens d !! h = Some o /\ Open.lease o = Some l /\ Lease.LeaseKey l = key
  end.

Definition ack_lease (cand : option Z) (state : Z) (d : t) : t * Z + Z :=
  match cand with
  | None => inr STATUS_OBJECT_NAME_NOT_FOUND
  | Some h =>
      match opens d !! h with
      | None => inr STATUS_OBJECT_NAME_NOT_FOUND
      | Some open =>
          match Open.lease open with
          | None => inr STATUS_OBJECT_NAME_NOT_FOUND
          | Some l =>
              if negb (Lease.Breaking l) then inr STATUS_UNSUCCESSFUL else
              let open := Open.set_lease (Some (Lease.acknowledge state l)) open in
              let open :=
                if state =? SMB2_LEASE_NONE
                then Open.set_oplock SMB2_OPLOCK_LEVEL_NONE LOCKSTATE_NONE open
                else Open.set_oplock (Open.oplockLevel open) LOCKSTATE_HELD open in
              inl (mk (<[h := open]> (opens d)) (opensByGuid d) (deletePending d), state)
          end
      end
  end.

(** The oplock a CREATE grants: the level and the state (fileTree.create). *)
Definition grant_oplock (requested : Z) : Z * OpLockState :=
  if requested =? SMB2_OPLOCK_LEVEL_II then (requested, LOCKSTATE_HELD)
  else if requested =? SMB2_OPLOCK_LEVEL_EXCLUSIVE then (requested, LOCKSTATE_HELD)
  else if requested =? SMB2_OPLOCK_LEVEL_LEASE then (requested, LOCKSTATE_HELD)
  else (0, LOCKSTATE_NONE).

End Server.

(** ** The table invariant *)

(** Every open is filed under its own handle, so that one handle names one
    open. *)
Definition table_wf (d : Server.t) : Prop :=
  forall h o, Server.opens d !! h = Some o -> Open.fileId o = h.

Lemma node_open_spec node m :
  Server.node_open node m = true <-> exists h o, m !! h = Some o /\ Open.durableFileId o = node.
Proof.
  unfold Server.node_open. rewrite existsb_exists. split.
  - intros (o & Hin & He). apply Z.eqb_eq in He.
    apply list_elem_of_In, list_elem_of_fmap in Hin as ([h o'] & -> & Hin).
    apply elem_of_map_to_list in Hin. by exists h, o'.
  - intros (h & o & Hl & He). exists o. split; [|by apply Z.eqb_eq].
    apply list_elem_of_In, list_elem_of_fmap. exists (h, o). split; [done|].
    by apply elem_of_map_to_list.
Qed.

Lemma node_open_false node m :
  Server.node_open node m = false <-> forall h o, m !! h = Some o -> Open.durableFileId o <> node.
Proof.
  split.
  - intros Hf h o Hl He. assert (Ht : Server.node_open node m = true) by (apply node_open_spec; eauto).
    congruence.
  - intros Hn. destruct (Server.node_open node m) eqn:E; [|done].
    apply node_open_spec in E as (h & o & Hl & He). by destruct (Hn h o Hl).
Qed.

Lemma closeOpen_opens o d :
  Server.opens (snd (Server.closeOpen o d)) = delete (Open.fileId o) (Server.opens d).
Proof.
  unfold Server.closeOpen. cbv zeta.
  destruct (negb _); [done|]. by destruct (Server.node_open _ _).
Qed.

(** What [closeOpen] answers: the node was to be deleted (already pending, or
    the open asked for it) and no other open is on it. *)
Lemma closeOpen_result o d :
  fst (Server.closeOpen o d)
  = (Open.deleteOnClose o || Server.pending d (Open.durableFileId o))
    && negb (Server.node_open (Open.durableFileId o) (delete (Open.fileId o) (Server.opens d))).
Proof.
  unfold Server.closeOpen, Server.pending. cbv zeta.
  destruct (Open.deleteOnClose o); cbn [orb].
  - rewrite lookup_insert_eq. cbn [default id negb]. by destruct (Server.node_open _ _).
  - destruct (default false _); cbn [negb andb]; [|done]. by destruct (Server.node_open _ _).
Qed.

Lemma closeOpen_pending o d n :
  Server.pending (snd (Server.closeOpen o d)) n
  = if decide (n = Open.durableFileId o)
    then (Open.deleteOnClose o || Server.pending d n) && negb (fst (Server.closeOpen o d))
    else Server.pending d n.
Proof.
  unfold Server.closeOpen, Server.pending. cbv zeta.
  destruct (Open.deleteOnClose o); cbn [orb].
  - rewrite lookup_insert_eq. cbn [default id negb].
    destruct (Server.node_open _ _); cbn [fst snd Server.deletePending negb andb];
      case_decide as Hn; subst.
    all: rewrite ?lookup_delete_eq, ?lookup_insert_eq; try done.
    all: by rewrite ?lookup_delete_ne, ?lookup_insert_ne.
  - destruct (default false (Server.deletePending d !! Open.durableFileId o)) eqn:Hp; cbn [negb].
    + destruct (Server.node_open _ _); cbn [fst snd Server.deletePending negb andb];
        case_decide as Hn; subst; rewrite ?Hp; try done.
      * by rewrite lookup_delete_eq.
      * by rewrite lookup_delete_ne.
    + cbn [fst snd Server.deletePending negb]. case_decide as Hn; subst; rewrite ?Hp; done.
Qed.

(** ** Deletion at the last close *)

(** Close opens one after the other, collecting the answers. *)
Fixpoint close_all (os : list Open.t) (d : Server.t) : list bool * Server.t :=
  match os with
  | [] => ([], d)
  | o :: os =>
      let '(b, d) := Server.closeOpen o d in
      let '(bs, d) := close_all os d in
      (b :: bs, d)
  end.

(** [os] is the list of the opens of node [n], each once. *)
Definition opens_of (n : Z) (os : list Open.t) (d : Server.t) : Prop :=
  NoDup (Open.fileId <$> os)
  /\ (forall o, o ∈ os -> Server.opens d !! Open.fileId o = Some o /\ Open.durableFileId o = n)
  /\ (forall h o, Server.opens d !! h = Some o -> Open.durableFileId o = n -> o ∈ os).

Lemma opens_of_close n o os d :
  table_wf d -> opens_of n (o :: os) d -> opens_of n os (snd (Server.closeOpen o d))
  /\ table_wf (snd (Server.closeOpen o d)).
Proof.
  intros Hwf (Hnd & Hin & Hall). cbn in Hnd. apply NoDup_cons in Hnd as [Hni Hnd].
  unfold opens_of, table_wf. rewrite closeOpen_opens. split_and!; [done| | |].
  - intros o' Ho'. destruct (Hin o') as [Hl Hn]; [by right|]. split; [|done].
    rewrite lookup_delete_ne; [done|]. intros He. apply Hni. rewrite He.
    apply list_elem_of_fmap. by exists o'.
  - intros h o' Hl Hn. apply lookup_delete_Some in Hl as [Hne Hl].
    pose proof (Hall h o' Hl Hn) as Hm. apply elem_of_cons in Hm as [->|Hm]; [|done].
    by rewrite (Hwf _ _ Hl) in Hne.
  - intros h o' Hl. apply lookup_delete_Some in Hl as [_ Hl]. by apply Hwf.
Qed.

(** The node is still open after a close exactly when opens remain. *)
Lemma node_open_rest n o os d :
  table_wf d -> opens_of n (o :: os) d ->
  Server.node_open n (delete (Open.fileId o) (Server.opens d)) = negb (bool_decide (os = [])).
Proof.
  intros Hwf Ho. destruct (opens_of_close n o os d Hwf Ho) as [(_ & Hin & Hall) _].
  rewrite closeOpen_opens in Hin, Hall. destruct os as [|o' os].
  - rewrite bool_decide_true by done. apply node_open_false. intros h o' Hl Hn.
    specialize (Hall h o' Hl Hn). by apply not_elem_of_nil in Hall.
  - rewrite bool_decide_false by done. apply node_open_spec.
    destruct (Hin o') as [Hl Hn]; [by left|]. by exists (Open.fileId o'), o'.
Qed.

(** A file is deleted exactly once, by its last close.  Take any order
    of closing all the opens of a node.  Every close but the last answers
    "do not unlink"; the last answers "unlink" exactly when the deletion was
    pending or one of the opens had delete-on-close.  Afterwards the node has
    no opens and no pending deletion, and the other nodes are untouched. *)
Theorem last_close_deletes (n : Z) (os : list Open.t) (last : Open.t) (d : Server.t) :
  table_wf d -> opens_of n (os ++ [last]) d ->
  exists d', close_all (os ++ [last]) d
    = (replicate (length os) false
         ++ [Server.pending d n || existsb Open.deleteOnClose (os ++ [last])], d')
  /\ (forall h o, Server.opens d' !! h = Some o -> Open.durableFileId o <> n)
  /\ Server.pending d' n = false
  /\ (forall m, m <> n -> Server.pending d' m = Server.pending d m)
  /\ (forall h o, Open.durableFileId o <> n ->
        Server.opens d' !! h = Some o <-> Server.opens d !! h = Some o).
Proof.
  revert d. induction os as [|o os IH]; intros d Hwf Ho.
  - pose proof (node_open_rest n last [] d Hwf Ho) as Hno. rewrite bool_decide_true in Hno by done.
    pose proof Ho as (_ & Hin & _). destruct (Hin last) as [Hl Hn]; [by left|].
    pose proof (closeOpen_result last d) as Hr. pose proof (closeOpen_pending last d) as Hp.
    pose proof (closeOpen_opens last d) as Hop. rewrite Hn, Hno in Hr. rewrite Hn in Hp.
    cbn [app close_all existsb length replicate]. destruct (Server.closeOpen last d) as [b d'].
    cbn [fst snd] in *. rewrite orb_false_r, orb_comm. rewrite andb_true_r in Hr. rewrite <- Hr.
    exists d'. split_and!; [done| | | |].
    + rewrite Hop. apply node_open_false. by rewrite Hno.
    + rewrite Hp, decide_True by done. rewrite <- Hr. by destruct b.
    + intros m Hm. rewrite Hp. by rewrite decide_False.
    + intros h o Hne. rewrite Hop. rewrite lookup_delete_Some. split; [tauto|].
      intros Hlo. split; [|done]. intros <-. congruence.
  - pose proof (node_open_rest n o (os ++ [last]) d Hwf Ho) as Hno.
    rewrite bool_decide_false in Hno by (by destruct os).
    pose proof Ho as (_ & Hin & _). destruct (Hin o) as [Hl Hn]; [by left|].
    destruct (opens_of_close n o (os ++ [last]) d Hwf Ho) as [Ho' Hwf'].
    pose proof (closeOpen_result o d) as Hr. pose proof (closeOpen_pending o d) as Hp.
    pose proof (closeOpen_opens o d) as Hop. rewrite Hn, Hno in Hr. rewrite Hn in Hp.
    cbn [negb] in Hr. rewrite andb_false_r in Hr.
    cbn [app close_all existsb length replicate]. destruct (Server.closeOpen o d) as [b d1].
    cbn [fst snd] in *. subst b. destruct (IH d1 Hwf' Ho') as (d' & -> & H1 & H2 & H3 & H4).
    exists d'. split_and!; [| done | done | |].
    + rewrite Hp, decide_True by done. cbn [negb]. rewrite andb_true_r.
      by rewrite (orb_comm (Open.deleteOnClose o)), orb_assoc.
    + intros m Hm. rewrite H3 by done. rewrite Hp. by rewrite decide_False.
    + intros h o' Hne. rewrite H4 by done. rewrite Hop, lookup_delete_Some. split; [tauto|].
      intros Hlo. split; [|done]. intros <-. congruence.
Qed.

Definition toy_open (h n : Z) (doc : bool) : Open.t :=
  Open.mk h n (Some 1) 0 SMB2_OPLOCK_LEVEL_EXCLUSIVE LOCKSTATE_HELD false false 0 [] 0 doc 1 None
    false [] false false [] None [] 0 None 0 [] [] false.

Lemma last_close_deletes_witness :
  exists d', close_all [toy_open 4 9 false; toy_open 5 9 true]
    (Server.mk {[4 := toy_open 4 9 false; 5 := toy_open 5 9 true]} None ∅) = ([false; true], d').
Proof.
  destruct (last_close_deletes 9 [toy_open 4 9 false] (toy_open 5 9 true)
    (Server.mk {[4 := toy_open 4 9 false; 5 := toy_open 5 9 true]} None ∅)) as (d' & Hd & _).
  - intros h o Hl. cbn [Server.opens] in Hl.
    apply lookup_insert_Some in Hl as [[<- <-]|[_ Hl]]; [reflexivity|].
    apply lookup_singleton_Some in Hl as [<- <-]. reflexivity.
  - split; [|split].
    + vm_compute. apply NoDup_cons. split; [|apply NoDup_singleton].
      rewrite list_elem_of_singleton. discriminate.
    + intros o Ho. cbn [app] in Ho. apply elem_of_cons in Ho as [->|Ho]; [split; reflexivity|].
      apply list_elem_of_singleton in Ho as ->. split; reflexivity.
    + intros h o Hl _. cbn [Server.opens app] in *.
      apply lookup_insert_Some in Hl as [[<- <-]|[_ Hl]]; [left|].
      apply lookup_singleton_Some in Hl as [<- <-]. right. left.
  - exists d'. exact Hd.
Defined.

(** ** Breaking *)

Lemma breakOpen_ids o :
  Open.fileId (fst (Server.breakOpen o)) = Open.fileId o
  /\ Open.durableFileId (fst (Server.breakOpen o)) = Open.durableFileId o.
Proof.
  unfold Server.breakOpen, Server.sendLeaseBreak, Server.sendOplockBreak.
  repeat case_match; done.
Qed.

(** Until the client acknowledges, a second break is silent. *)
Lemma breakOpen_twice o :
  Server.breakOpen (fst (Server.breakOpen o)) = (fst (Server.breakOpen o), []).
Proof.
  unfold Server.breakOpen. destruct (Open.session o) eqn:Hs; [|cbn; by rewrite Hs].
  destruct (Open.oplockLevel o =? SMB2_OPLOCK_LEVEL_NONE) eqn:En; [cbn; by rewrite Hs, En|].
  destruct (Open.oplockLevel o =? SMB2_OPLOCK_LEVEL_LEASE) eqn:El.
  - unfold Server.sendLeaseBreak. destruct (Open.lease o) as [l|] eqn:Hl.
    + destruct (Lease.Breaking l) eqn:Hb; cbn; rewrite Hs, En, El; [by rewrite Hl, Hb|done].
    + cbn. by rewrite Hs, En, El, Hl.
  - unfold Server.sendOplockBreak.
    destruct (Open.oplockState o) eqn:Ho;
      try (destruct (Open.oplockLevel o =? SMB2_OPLOCK_LEVEL_II));
      cbn; rewrite ?Hs, ?En, ?El, ?Ho; done.
Qed.

Definition broken_at (node : Z) (o : Open.t) : Open.t :=
  if Open.durableFileId o =? node then fst (Server.breakOpen o) else o.

Lemma break_fold os d out :
  NoDup (Open.fileId <$> os) ->
  let r := foldl (fun '(d, out) o =>
             let '(o', n) := Server.breakOpen o in
             (Server.mk (<[Open.fileId o := o']> (Server.opens d)) (Server.opensByGuid d)
                (Server.deletePending d), out ++ n)) (d, out) os in
  snd r = out ++ concat (map (fun o => snd (Server.breakOpen o)) os)
  /\ Server.opensByGuid (fst r) = Server.opensByGuid d
  /\ Server.deletePending (fst r) = Server.deletePending d
  /\ (forall o, o ∈ os -> Server.opens (fst r) !! Open.fileId o = Some (fst (Server.breakOpen o)))
  /\ (forall h, h ∉ (Open.fileId <$> os) -> Server.opens (fst r) !! h = Server.opens d !! h).
Proof.
  revert d out. induction os as [|o os IH]; intros d out Hnd; cbn zeta.
  - cbn. rewrite app_nil_r. split_and!; try done. intros o Ho. by apply not_elem_of_nil in Ho.
  - cbn [foldl]. destruct (Server.breakOpen o) as [o' n] eqn:Hb.
    cbn in Hnd. apply NoDup_cons in Hnd as [Hni Hnd].
    destruct (IH (Server.mk (<[Open.fileId o := o']> (Server.opens d)) (Server.opensByGuid d)
                (Server.deletePending d)) (out ++ n) Hnd) as (H1 & H2 & H3 & H4 & H5).
    split_and!; [|done|done| |].
    + rewrite H1. cbn. by rewrite Hb, <- app_assoc.
    + intros x Hx. apply elem_of_cons in Hx as [->|Hx]; [|by apply H4].
      rewrite H5 by done. cbn. rewrite lookup_insert_eq. by rewrite Hb.
    + intros h Hh. cbn in Hh. apply not_elem_of_cons in Hh as [Hne Hh].
      rewrite H5 by done. cbn. by rewrite lookup_insert_ne.
Qed.

Lemma opensForNode_spec node d o :
  o ∈ Server.opensForNode node d
  <-> Open.durableFileId o = node /\ exists h, Server.opens d !! h = Some o.
Proof.
  unfold Server.opensForNode. rewrite list_elem_of_filter, list_elem_of_fmap.
  split.
  - intros [Hn ([h o'] & -> & Hin)]. apply elem_of_map_to_list in Hin. eauto.
  - intros [Hn [h Hl]]. split; [done|]. exists (h, o). by rewrite elem_of_map_to_list.
Qed.

Lemma opensForNode_nodup node d :
  table_wf d -> NoDup (Open.fileId <$> Server.opensForNode node d).
Proof.
  intros Hwf. unfold Server.opensForNode.
  assert (Hk : Open.fileId <$> (snd <$> map_to_list (Server.opens d)) = fst <$> map_to_list (Server.opens d)).
  { rewrite <- list_fmap_compose. apply list_fmap_ext. intros i [h o] Hi. cbn.
    apply Hwf. by apply elem_of_map_to_list, list_elem_of_lookup_2 with i. }
  assert (Hnd : NoDup (Open.fileId <$> (snd <$> map_to_list (Server.opens d)))).
  { rewrite Hk. apply NoDup_fst_map_to_list. }
  clear Hk. induction (snd <$> map_to_list (Server.opens d)) as [|o l IH]; [done|].
  cbn in Hnd. apply NoDup_cons in Hnd as [Hni Hnd]. rewrite filter_cons.
  case_decide; [|by apply IH]. cbn. apply NoDup_cons. split; [|by apply IH].
  rewrite list_elem_of_fmap. intros (o' & He & Hin). apply Hni. rewrite list_elem_of_fmap.
  exists o'. split; [done|]. by apply list_elem_of_filter in Hin as [_ ?].
Qed.

Lemma BreakNode_spec node d :
  table_wf d ->
  snd (Server.BreakNode node d)
    = concat (map (fun o => snd (Server.breakOpen o)) (Server.opensForNode node d))
  /\ Server.opens (fst (Server.BreakNode node d)) = broken_at node <$> Server.opens d
  /\ Server.opensByGuid (fst (Server.BreakNode node d)) = Server.opensByGuid d
  /\ Server.deletePending (fst (Server.BreakNode node d)) = Server.deletePending d.
Proof.
  intros Hwf. pose proof (opensForNode_nodup node d Hwf) as Hnd.
  destruct (break_fold (Server.opensForNode node d) d [] Hnd) as (H1 & H2 & H3 & H4 & H5).
  split_and!; [exact H1| |exact H2|exact H3]. apply map_eq. intros h.
  rewrite lookup_fmap. destruct (Server.opens d !! h) as [o|] eqn:Hl; cbn.
  - unfold broken_at. destruct (Z.eqb_spec (Open.durableFileId o) node) as [Hn|Hn].
    + rewrite <- (Hwf h o Hl). apply H4. apply opensForNode_spec. eauto.
    + rewrite <- Hl. apply H5. rewrite list_elem_of_fmap. intros (o' & He & Hin).
      apply opensForNode_spec in Hin as (Hn' & h' & Hl'). apply Hn.
      rewrite (Hwf h' o' Hl') in He. subst h'. congruence.
  - rewrite <- Hl. apply H5. rewrite list_elem_of_fmap. intros (o' & He & Hin).
    apply opensForNode_spec in Hin as (Hn' & h' & Hl').
    rewrite (Hwf h' o' Hl') in He. subst h'. congruence.
Qed.

Lemma server_ext (a b : Server.t) :
  Server.opens a = Server.opens b -> Server.opensByGuid a = Server.opensByGuid b ->
  Server.deletePending a = Server.deletePending b -> a = b.
Proof. destruct a, b. cbn. by intros -> -> ->. Qed.

(** C17: one break per acknowledgement.  [BreakNode] notifies the opens of
    the node and no others, changes nothing else, and called again before any
    client has acknowledged it sends nothing and changes nothing: no client is
    asked twice to give up the same oplock or lease. *)
Theorem break_node_once (node : Z) (d : Server.t) :
  table_wf d ->
  Server.BreakNode node (fst (Server.BreakNode node d)) = (fst (Server.BreakNode node d), [])
  /\ (forall h o, Server.opens d !! h = Some o -> Open.durableFileId o <> node ->
        Server.opens (fst (Server.BreakNode node d)) !! h = Some o)
  /\ (forall h o, Server.opens d !! h = Some o -> Open.durableFileId o = node ->
        Server.opens (fst (Server.BreakNode node d)) !! h = Some (fst (Server.breakOpen o)))
  /\ snd (Server.BreakNode node d)
     = concat (map (fun o => snd (Server.breakOpen o)) (Server.opensForNode node d)).
Proof.
  intros Hwf. destruct (BreakNode_spec node d Hwf) as (Hn & Ho & Hg & Hp).
  set (d1 := fst (Server.BreakNode node d)) in *.
  assert (Hwf1 : table_wf d1).
  { intros h o. rewrite Ho, lookup_fmap_Some. intros (o' & <- & Hl).
    unfold broken_at. case_match; [|by apply Hwf]. rewrite (proj1 (breakOpen_ids o')). by apply Hwf. }
  destruct (BreakNode_spec node d1 Hwf1) as (Hn1 & Ho1 & Hg1 & Hp1).
  assert (Hfix : forall h o, Server.opens d1 !! h = Some o -> Open.durableFileId o = node ->
                 Server.breakOpen o = (o, [])).
  { intros h o. rewrite Ho, lookup_fmap_Some. unfold broken_at. intros (o' & He & Hl) Hnode.
    destruct (Z.eqb_spec (Open.durableFileId o') node) as [Hn'|Hn'].
    - subst o. apply breakOpen_twice.
    - by subst o'. }
  split_and!; [| | |exact Hn].
  - rewrite (surjective_pairing (Server.BreakNode node d1)). f_equal.
    + assert (Heq : Server.opens (fst (Server.BreakNode node d1)) = Server.opens d1).
      { rewrite Ho1. apply map_eq. intros h. rewrite lookup_fmap.
        destruct (Server.opens d1 !! h) as [o|] eqn:Hl; [|done]. cbn. unfold broken_at.
        destruct (Z.eqb_spec (Open.durableFileId o) node); [|done]. by rewrite (Hfix h o). }
      by apply server_ext.
    + rewrite Hn1. assert (Hall : Forall (fun o => snd (Server.breakOpen o) = [])
        (Server.opensForNode node d1)).
      { apply Forall_forall. intros o Hin. apply opensForNode_spec in Hin as (Hno & h & Hl).
        by rewrite (Hfix h o Hl Hno). }
      revert Hall. generalize (Server.opensForNode node d1). clear.
      induction 1 as [|o l Hx _ IH]; [done|]. cbn. by rewrite Hx, IH.
  - intros h o Hl Hne. rewrite Ho, lookup_fmap, Hl. cbn. unfold broken_at.
    by destruct (Z.eqb_spec (Open.durableFileId o) node).
  - intros h o Hl He. rewrite Ho, lookup_fmap, Hl. cbn. unfold broken_at.
    by destruct (Z.eqb_spec (Open.durableFileId o) node).
Qed.

Lemma break_node_once_witness :
  exists d1 out,
    Server.BreakNode 9 (Server.mk {[4 := toy_open 4 9 false]} None ∅) = (d1, out)
    /\ length out = 1%nat /\ Server.BreakNode 9 d1 = (d1, []).
Proof.
  destruct (break_node_once 9 (Server.mk {[4 := toy_open 4 9 false]} None ∅)) as (Ht & _).
  - intros h o Hl. cbn [Server.opens] in Hl. apply lookup_singleton_Some in Hl as [<- <-]. reflexivity.
  - eexists _, _. split; [apply surjective_pairing|]. split; [vm_compute; reflexivity|exact Ht].
Defined.

(** ** The oplock state machine *)

(** What an open keeps while its other fields change. *)
Definition same_lock (o o' : Open.t) : Prop :=
  Open.fileId o' = Open.fileId o /\ Open.durableFileId o' = Open.durableFileId o
  /\ Open.oplockLevel o' = Open.oplockLevel o /\ Open.oplockState o' = Open.oplockState o.

#[export] Instance same_lock_preorder : PreOrder same_lock.
Proof.
  split; [by repeat split|]. intros a b c H1 H2. unfold same_lock in *.
  destruct_and! H1. destruct_and! H2. split_and!; congruence.
Qed.

(** One step of the server's tables: an open is added by CREATE (with the
    oplock CREATE grants), closed (perhaps after its deletion was carried
    out), has its deletion set or cleared, changes in what is not its identity
    or its lock, a node is broken, or a client acknowledges a break. *)
Inductive step (d : Server.t) : Server.t -> Prop :=
| step_add o lv d' :
    Server.grant_oplock lv = (Open.oplockLevel o, Open.oplockState o) ->
    Server.addOpen o d = Ok d' -> step d d'
| step_close h o o' :
    Server.getOpen h d = Some o -> o' = o \/ o' = Open.set_deleteOnClose false o ->
    step d (snd (Server.closeOpen o' d))
| step_edit h o o' :
    Server.getOpen h d = Some o -> same_lock o o' ->
    step d (Server.mk (<[h := o']> (Server.opens d)) (Server.opensByGuid d) (Server.deletePending d))
| step_disposition node b : step d (Server.setDeletePending node b d)
| step_break node : step d (fst (Server.BreakNode node d))
| step_ack_oplock fid lv lv' d' :
    Server.ack_oplock fid lv d = inl (d', lv') -> step d d'
| step_ack_lease key cand st st' d' :
    Server.lease_candidate key d cand ->
    Server.ack_lease cand st d = inl (d', st') -> step d d'.

(** No oplock without a level, no break of nothing. *)
Definition lock_ok (o : Open.t) : Prop :=
  (Open.oplockState o = LOCKSTATE_NONE -> Open.oplockLevel o = SMB2_OPLOCK_LEVEL_NONE)
  /\ (Open.oplockState o = LOCKSTATE_BREAKING -> Open.oplockLevel o <> SMB2_OPLOCK_LEVEL_NONE).

Definition server_inv (d : Server.t) : Prop :=
  table_wf d /\ map_Forall (fun _ => lock_ok) (Server.opens d) /\ Server.opensByGuid d = None.

Lemma server_inv_insert h o d :
  server_inv d -> Open.fileId o = h -> lock_ok o ->
  server_inv (Server.mk (<[h := o]> (Server.opens d)) (Server.opensByGuid d) (Server.deletePending d)).
Proof.
  intros (Hwf & Hl & Hg) Hid Ho. split_and!; cbn; [| |done].
  - intros h' o' Hlk. cbn in Hlk. apply lookup_insert_Some in Hlk as [[<- <-]|[_ Hlk]]; [done|by apply Hwf].
  - by apply map_Forall_insert_2.
Qed.

Lemma breakOpen_lock_ok o : lock_ok o -> lock_ok (fst (Server.breakOpen o)).
Proof.
  intros Ho. unfold Server.breakOpen.
  destruct (Open.session o); [|done].
  destruct (Z.eqb_spec (Open.oplockLevel o) SMB2_OPLOCK_LEVEL_NONE); [done|].
  destruct (_ =? SMB2_OPLOCK_LEVEL_LEASE).
  - unfold Server.sendLeaseBreak. repeat case_match; try done; by split; cbn.
  - unfold Server.sendOplockBreak. repeat case_match; try done; by split; cbn.
Qed.

Lemma grant_lock_ok o lv :
  Server.grant_oplock lv = (Open.oplockLevel o, Open.oplockState o) -> lock_ok o.
Proof.
  unfold Server.grant_oplock, lock_ok. intros Hg.
  repeat case_match; injection Hg as Hl Hs; rewrite <- Hs; split; try done; by rewrite <- Hl.
Qed.

Lemma step_inv d d' : server_inv d -> step d d' -> server_inv d'.
Proof.
  intros (Hwf & Hl & Hg) Hst. destruct Hst as [o lv d' Hgr Ha|h o o' Hget Ho'|h o o' Hget He|node b|node|fid lv lv' d' Ha|
    key cand st st' d' _ Ha].
  - unfold Server.addOpen in Ha. rewrite Hg in Ha. destruct (Open.isDurable o); [done|].
    injection Ha as <-. rewrite <- Hg. apply server_inv_insert; [done|done|by eapply grant_lock_ok].
  - split_and!.
    + intros h' o1. rewrite closeOpen_opens, lookup_delete_Some. intros [_ Hl']. by apply Hwf.
    + rewrite closeOpen_opens. by apply map_Forall_delete.
    + unfold Server.closeOpen. repeat case_match; cbn; rewrite ?Hg; done.
  - destruct He as (Hid & _ & Hlv & Hst). apply server_inv_insert; [done|rewrite Hid; by apply Hwf|].
    specialize (Hl h o Hget). unfold lock_ok. by rewrite Hlv, Hst.
  - by split_and!.
  - destruct (BreakNode_spec node d Hwf) as (_ & Ho & Hgd & _). split_and!; [| |by rewrite Hgd].
    + intros h o. rewrite Ho, lookup_fmap_Some. intros (o' & <- & Hl'). unfold broken_at.
      case_match; [|by apply Hwf]. rewrite (proj1 (breakOpen_ids o')). by apply Hwf.
    + rewrite Ho. apply map_Forall_fmap. intros h o Hl'. cbn. unfold broken_at.
      specialize (Hl h o Hl'). case_match; [by apply breakOpen_lock_ok|done].
  - unfold Server.ack_oplock, Server.getOpen in Ha.
    destruct (Server.opens d !! _) as [o|] eqn:Ho; [|done]. destruct (negb _); [done|].
    destruct (Open.oplockState o) eqn:Hs; try done. injection Ha as <- <-.
    apply server_inv_insert; [done|cbn; by apply Hwf|].
    unfold lock_ok. cbn. destruct (Z.eqb_spec lv SMB2_OPLOCK_LEVEL_NONE) as [->|]; by split.
  - unfold Server.ack_lease in Ha. destruct cand as [h|]; [|done].
    destruct (Server.opens d !! h) as [o|] eqn:Ho; [|done].
    destruct (Open.lease o) as [l|]; [|done]. destruct (negb _); [done|]. injection Ha as <- <-.
    apply server_inv_insert; [done| |].
    + destruct (_ =? _); cbn; by apply Hwf.
    + unfold lock_ok. destruct (_ =? SMB2_LEASE_NONE); by split.
Qed.

Lemma new_server_inv : server_inv Server.NewServer.
Proof. split_and!; [by intros h o|apply map_Forall_empty|done]. Qed.

Lemma reachable_inv d : rtc step Server.NewServer d -> server_inv d.
Proof.
  intros Hr. assert (Hgen : forall a b, rtc step a b -> server_inv a -> server_inv b).
  { induction 1 as [|x y z Hxy _ IH]; [done|]. intros Hx. by eapply IH, step_inv. }
  by apply (Hgen _ _ Hr), new_server_inv.
Qed.

(** The tables stay consistent.  In every state the server can reach
    from its start by creating, closing, marking for deletion, breaking and
    acknowledging in any order, each open is filed under its own handle, an
    open without an oplock has level NONE, and only an open that holds
    something is ever waiting for an acknowledgement. *)
Theorem reachable_tables_ok (d : Server.t) :
  rtc step Server.NewServer d ->
  table_wf d /\ map_Forall (fun _ => lock_ok) (Server.opens d).
Proof. intros Hr. by destruct (reachable_inv d Hr) as (? & ? & _). Qed.

Lemma toy_reachable : rtc step Server.NewServer (Server.mk {[4 := toy_open 4 9 false]} None ∅).
Proof. eapply rtc_l; [|apply rtc_refl]. apply step_add with (toy_open 4 9 false) 8; reflexivity. Qed.

Lemma reachable_tables_ok_witness :
  table_wf (Server.mk {[4 := toy_open 4 9 false]} None ∅)
  /\ map_Forall (fun _ => lock_ok) (Server.opens (Server.mk {[4 := toy_open 4 9 false]} None ∅)).
Proof. apply reachable_tables_ok. apply toy_reachable. Defined.

(** A durable open stops the server.  [NewServer] never makes the map of
    durable opens, so in every reachable state adding an open that is durable
    (a CREATE with a persistent DH2Q context) assigns to a nil map. *)
Theorem durable_open_panics (d : Server.t) (o : Open.t) :
  rtc step Server.NewServer d -> Open.isDurable o = true -> Server.addOpen o d = Panic.
Proof.
  intros Hr Hd. destruct (reachable_inv d Hr) as (_ & _ & Hg).
  unfold Server.addOpen. by rewrite Hd, Hg.
Qed.

Lemma durable_open_panics_witness :
  Server.addOpen (Open.set_durable true 60000 (zeros 16) (toy_open 5 9 false))
    (Server.mk {[4 := toy_open 4 9 false]} None ∅) = Panic.
Proof. apply durable_open_panics; [apply toy_reachable|reflexivity]. Defined.
