(* ===== verification/Fscc.v ===== *)
(** * File information on the wire (internal/smb2/fscc.go)

    The reparse buffer, the copy-chunk messages, and the decoders and encoders
    of the information classes of MS-FSCC. *)

From S2P Require Import Prelude Const Packet Utf16 Request Dtyp.

(** ** Reparse points *)

Module SymbolicLinkReparseDataBuffer.
Record t := mk { Flags : Z; SubstituteName : gostring; PrintName : gostring }.
Definition Size (c : t) : Z :=
  20 + EncodedStringLen (SubstituteName c) + EncodedStringLen (PrintName c).
Definition Encode (c : t) : enc := fun p =>
  let slen := EncodeString_len (SubstituteName c) in
  let plen := EncodeString_len (PrintName c) in
  (at_ 20 (EncodeString (SubstituteName c))
   >> at_ (20 + slen) (EncodeString (PrintName c))
   >> put32 0 IO_REPARSE_TAG_SYMLINK
   >> put16 4 (u16 (blen p - 8))
   >> put16 8 0
   >> put16 10 (u16 slen)
   >> put16 14 (u16 plen)
   >> put16 12 (u16 slen)
   >> put32 16 (Flags c)) p.
End SymbolicLinkReparseDataBuffer.

Module SymbolicLinkReparseDataBufferDecoder.
Definition ReparseTag (r : slice) : outcome Z := get32 r 0 4.
Definition ReparseDataLength (r : slice) : outcome Z := get16 r 4 6.
Definition SubstituteNameOffset (r : slice) : outcome Z := get16 r 8 10.
Definition SubstituteNameLength (r : slice) : outcome Z := get16 r 10 12.
Definition PrintNameOffset (r : slice) : outcome Z := get16 r 12 14.
Definition PrintNameLength (r : slice) : outcome Z := get16 r 14 16.
Definition Flags (r : slice) : outcome Z := get32 r 16 20.
Definition PathBuffer (r : slice) : outcome slice := s_from r 20.
Definition IsInvalid (r : slice) : outcome bool :=
  if s_len r <? 20 then Ok true else
  let! tag := ReparseTag r in
  if negb (tag =? IO_REPARSE_TAG_SYMLINK) then Ok true else
  let! rlen := ReparseDataLength r in
  let! soff := SubstituteNameOffset r in
  let! slen := SubstituteNameLength r in
  let! poff := PrintNameOffset r in
  let! plen := PrintNameLength r in
  if negb (Z.lor (Z.land soff 1) (Z.land poff 1) =? 0) then Ok true else
  if s_len r <? 8 + rlen then Ok true else
  Ok ((rlen <? 12 + soff + slen) || (rlen <? 12 + poff + plen)).
(** [off+len] is computed in uint16. *)
Definition SubstituteName (r : slice) : outcome gostring :=
  let! off := SubstituteNameOffset r in
  let! len := SubstituteNameLength r in
  let! buf := PathBuffer r in
  let! bs := s_range buf off (u16 (off + len)) in DecodeToString bs.
Definition PrintName (r : slice) : outcome gostring :=
  let! off := PrintNameOffset r in
  let! len := PrintNameLength r in
  let! buf := PathBuffer r in
  let! bs := s_range buf off (u16 (off + len)) in DecodeToString bs.
End SymbolicLinkReparseDataBufferDecoder.

(** ** Copying *)

Module SrvRequestResumeKeyResponseDecoder.
Definition ResumeKey (r : slice) : outcome slice := s_range r 0 24.
Definition ContextLength (r : slice) : outcome Z := get32 r 24 28.
Definition Context (r : slice) : outcome slice :=
  let! n := ContextLength r in s_range r 28 (u32 (28 + n)).
Definition IsInvalid (r : slice) : outcome bool :=
  let! n := ContextLength r in Ok (s_len r <? u32 (28 + n)).
End SrvRequestResumeKeyResponseDecoder.

Module SrvCopychunk.
Record t := mk { SourceOffset : Z; TargetOffset : Z; Length : Z }.
Definition Size (c : t) : Z := 24.
Definition Encode (c : t) : enc :=
  put64 0 (u64 (SourceOffset c)) >> put64 8 (u64 (TargetOffset c)) >> put32 16 (Length c).
End SrvCopychunk.

Module SrvCopychunkCopy.
Record t := mk { SourceKey : bytes; Chunks : list SrvCopychunk.t }.
Definition Size (c : t) : Z := 32 + Z.of_nat (length (Chunks c)) * 24.
Fixpoint encode_chunks (off : Z) (l : list SrvCopychunk.t) : enc :=
  match l with
  | [] => eskip
  | c :: l => in_ off (off + 24) (SrvCopychunk.Encode c) >> encode_chunks (off + 24) l
  end.
Definition Encode (c : t) : enc :=
  copy_range 0 24 (SourceKey c)
  >> put32 24 (u32 (Z.of_nat (length (Chunks c))))
  >> encode_chunks 32 (Chunks c).
End SrvCopychunkCopy.

Module SrvCopychunkResponseDecoder.
Definition ChunksWritten (r : slice) : outcome Z := get32 r 0 4.
Definition ChunksBytesWritten (r : slice) : outcome Z := get32 r 4 8.
Definition TotalBytesWritten (r : slice) : outcome Z := get32 r 8 12.
Definition IsInvalid (r : slice) : outcome bool := Ok (s_len r <? 12).
End SrvCopychunkResponseDecoder.

(** ** Information classes *)

Module FileRenameInformationType2Encoder.
Record t := mk { ReplaceIfExists : Z; RootDirectory : Z; FileName : gostring }.
Definition Size (c : t) : Z := 20 + EncodedStringLen (FileName c).
Definition Encode (c : t) : enc :=
  at_ 20 (EncodeString (FileName c))
  >> put8 0 (ReplaceIfExists c)
  >> put64 8 (RootDirectory c)
  >> put32 16 (u32 (EncodeString_len (FileName c))).
End FileRenameInformationType2Encoder.

Module FileLinkInformationType2Encoder.
Record t := mk { ReplaceIfExists : Z; RootDirectory : Z; FileName : gostring }.
Definition Size (c : t) : Z := 20 + EncodedStringLen (FileName c).
Definition Encode (c : t) : enc :=
  at_ 20 (EncodeString (FileName c))
  >> put8 0 (ReplaceIfExists c)
  >> put64 8 (RootDirectory c)
  >> put32 16 (u32 (EncodeString_len (FileName c))).
End FileLinkInformationType2Encoder.

Module FileDispositionInformationEncoder.
Record t := mk { DeletePending : Z }.
Definition Size (c : t) : Z := 4.
Definition Encode (c : t) : enc := put8 0 (DeletePending c).
End FileDispositionInformationEncoder.

Module FilePositionInformationEncoder.
Record t := mk { CurrentByteOffset : Z }.
Definition Size (c : t) : Z := 8.
Definition Encode (c : t) : enc := put64 0 (u64 (CurrentByteOffset c)).
End FilePositionInformationEncoder.

Module FileEndOfFileInformationEncoder.
Record t := mk { EndOfFile : Z }.
Definition Size (c : t) : Z := 8.
Definition Encode (c : t) : enc := put64 0 (u64 (EndOfFile c)).
End FileEndOfFileInformationEncoder.

Module FileBasicInformationEncoder.
Record t := mk {
  CreationTime : option Filetime.t; LastAccessTime : option Filetime.t;
  LastWriteTime : option Filetime.t; ChangeTime : option Filetime.t; FileAttributes : Z
}.
Definition Size (c : t) : Z := 40.
Definition opt_time (a b : Z) (ft : option Filetime.t) : enc :=
  match ft with None => eskip | Some ft => in_ a b (Filetime.Encode ft) end.
Definition Encode (c : t) : enc :=
  opt_time 0 8 (CreationTime c) >> opt_time 8 16 (LastAccessTime c)
  >> opt_time 16 24 (LastWriteTime c) >> opt_time 24 32 (ChangeTime c)
  >> put32 32 (FileAttributes c).
End FileBasicInformationEncoder.

Module FileDirectoryInformationDecoder.
Definition NextEntryOffset (r : slice) : outcome Z := get32 r 0 4.
Definition FileIndex (r : slice) : outcome Z := get32 r 4 8.
Definition CreationTime (r : slice) : outcome slice := s_range r 8 16.
Definition LastAccessTime (r : slice) : outcome slice := s_range r 16 24.
Definition LastWriteTime (r : slice) : outcome slice := s_range r 24 32.
Definition ChangeTime (r : slice) : outcome slice := s_range r 32 40.
Definition EndOfFile (r : slice) : outcome Z := let! v := get64 r 40 48 in Ok (s64 v).
Definition AllocationSize (r : slice) : outcome Z := let! v := get64 r 48 56 in Ok (s64 v).
Definition FileAttributes (r : slice) : outcome Z := get32 r 56 60.
Definition FileNameLength (r : slice) : outcome Z := get32 r 60 64.
Definition IsInvalid (r : slice) : outcome bool :=
  let! n := FileNameLength r in Ok (s_len r <? u32 (64 + n)).
Definition FileName (r : slice) : outcome gostring :=
  let! n := FileNameLength r in
  let! bs := s_range r 64 (u32 (64 + n)) in DecodeToString bs.
End FileDirectoryInformationDecoder.

Module FileFsFullSizeInformationDecoder.
Definition TotalAllocationUnits (r : slice) : outcome Z := let! v := get64 r 0 8 in Ok (s64 v).
Definition CallerAvailableAllocationUnits (r : slice) : outcome Z := let! v := get64 r 8 16 in Ok (s64 v).
Definition ActualAvailableAllocationUnits (r : slice) : outcome Z := let! v := get64 r 16 24 in Ok (s64 v).
Definition SectorsPerAllocationUnit (r : slice) : outcome Z := get32 r 24 28.
Definition BytesPerSector (r : slice) : outcome Z := get32 r 28 32.
Definition IsInvalid (r : slice) : outcome bool := Ok (s_len r <? 32).
End FileFsFullSizeInformationDecoder.

Module FileQuotaInformationDecoder.
Definition NextEntryOffset (r : slice) : outcome Z := get32 r 0 4.
Definition SidLength (r : slice) : outcome Z := get32 r 4 8.
Definition ChangeTime (r : slice) : outcome slice := s_range r 8 16.
Definition QuotaUsed (r : slice) : outcome Z := let! v := get64 r 16 24 in Ok (s64 v).
Definition QuotaThreshold (r : slice) : outcome Z := let! v := get64 r 24 32 in Ok (s64 v).
Definition QuotaLimit (r : slice) : outcome Z := let! v := get64 r 32 40 in Ok (s64 v).
Definition IsInvalid (r : slice) : outcome bool :=
  let! n := SidLength r in Ok (s_len r <? u32 (40 + n)).
Definition Sid (r : slice) : outcome slice :=
  let! n := SidLength r in s_range r 40 (u32 (40 + n)).
End FileQuotaInformationDecoder.

Module FileEndOfFileInformationDecoder.
Definition EndOfFile (r : slice) : outcome Z := let! v := get64 r 0 8 in Ok (s64 v).
Definition IsInvalid (r : slice) : outcome bool := Ok (s_len r <? 8).
End FileEndOfFileInformationDecoder.

Module FileAllInformationDecoder.
Definition BasicInformation (r : slice) : outcome slice := s_range r 0 40.
Definition StandardInformation (r : slice) : outcome slice := s_range r 40 64.
Definition InternalInformation (r : slice) : outcome slice := s_range r 64 72.
Definition EaInformation (r : slice) : outcome slice := s_range r 72 76.
Definition AccessInformation (r : slice) : outcome slice := s_range r 76 80.
Definition PositionInformation (r : slice) : outcome slice := s_range r 80 88.
Definition ModeInformation (r : slice) : outcome slice := s_range r 88 92.
Definition AlignmentInformation (r : slice) : outcome slice := s_range r 92 96.
Definition NameInformation (r : slice) : outcome slice := s_from r 96.
Definition IsInvalid (r : slice) : outcome bool := Ok (s_len r <? 96).
End FileAllInformationDecoder.

Module FileBasicInformationDecoder.
Definition CreationTime (r : slice) : outcome slice := s_range r 0 8.
Definition LastAccessTime (r : slice) : outcome slice := s_range r 8 16.
Definition LastWriteTime (r : slice) : outcome slice := s_range r 16 24.
Definition ChangeTime (r : slice) : outcome slice := s_range r 24 32.
Definition FileAttributes (r : slice) : outcome Z := get32 r 32 36.
Definition IsInvalid (r : slice) : outcome bool := Ok (s_len r <? 40).
End FileBasicInformationDecoder.

Module FileStandardInformationDecoder.
Definition AllocationSize (r : slice) : outcome Z := let! v := get64 r 0 8 in Ok (s64 v).
Definition EndOfFile (r : slice) : outcome Z := let! v := get64 r 8 16 in Ok (s64 v).
Definition NumberOfLinks (r : slice) : outcome Z := get32 r 16 20.
Definition DeletePending (r : slice) : outcome Z := s_idx r 20.
Definition Directory (r : slice) : outcome Z := s_idx r 21.
Definition IsInvalid (r : slice) : outcome bool := Ok (s_len r <? 24).
End FileStandardInformationDecoder.

Module FileInternalInformationDecoder.
Definition IndexNumber (r : slice) : outcome Z := let! v := get64 r 0 8 in Ok (s64 v).
Definition IsInvalid (r : slice) : outcome bool := Ok (s_len r <? 8).
End FileInternalInformationDecoder.

Module FileEaInformationDecoder.
Definition EaSize (r : slice) : outcome Z := get32 r 0 4.
Definition IsInvalid (r : slice) : outcome bool := Ok (s_len r <? 4).
End FileEaInformationDecoder.

Module FileAccessInformationDecoder.
Definition AccessFlags (r : slice) : outcome Z := get32 r 0 4.
Definition IsInvalid (r : slice) : outcome bool := Ok (s_len r <? 4).
End FileAccessInformationDecoder.

Module FilePositionInformationDecoder.
Definition CurrentByteOffset (r : slice) : outcome Z := let! v := get64 r 0 8 in Ok (s64 v).
Definition IsInvalid (r : slice) : outcome bool := Ok (s_len r <? 8).
End FilePositionInformationDecoder.

Module FileModeInformationDecoder.
Definition Mode (r : slice) : outcome Z := get32 r 0 4.
Definition IsInvalid (r : slice) : outcome bool := Ok (s_len r <? 4).
End FileModeInformationDecoder.

Module FileAlignmentInformationDecoder.
Definition AlignmentRequirement (r : slice) : outcome Z := get32 r 0 4.
Definition IsInvalid (r : slice) : outcome bool := Ok (s_len r <? 4).
End FileAlignmentInformationDecoder.

Module FileNameInformationDecoder.
Definition FileNameLength (r : slice) : outcome Z := get32 r 0 4.
Definition FileName (r : slice) : outcome gostring :=
  let! n := FileNameLength r in
  let! bs := s_range r 4 (u32 (4 + n)) in DecodeToString bs.
Definition IsInvalid (r : slice) : outcome bool :=
  if s_len r <? 4 then Ok true else
  let! n := FileNameLength r in Ok (s_len r <? u32 (4 + n)).
End FileNameInformationDecoder.
