(* ===== verification/Acl.v ===== *)
(** * Security descriptors (server/acl.go) *)

From S2P Require Import Prelude Const Packet Dtyp Vfs.

Definition NULL_SID_AUTHORITY : bytes := [0; 0; 0; 0; 0; 0].
Definition WORLD_SID_AUTHORITY : bytes := [0; 0; 0; 0; 0; 1].
Definition LOCAL_SID_AUTHORITY : bytes := [0; 0; 0; 0; 0; 2].
Definition CREATOR_SID_AUTHORITY : bytes := [0; 0; 0; 0; 0; 3].
Definition SECURITY_NT_AUTHORITY : bytes := [0; 0; 0; 0; 0; 5].
Definition ACCESS_ALLOWED_ACE_TYPE : Z := 0.
Definition ACCESS_DENIED_ACE_TYPE : Z := 1.
Definition ACL_REVISION : Z := 2.

Module SID.
Record t := mk { IdentifierAuthority : bytes; SubAuthority : list Z }.
Definition Size (s : t) : Z := 8 + Z.of_nat (length (SubAuthority s)) * 4.
Fixpoint put_subs (off : Z) (us : list Z) : enc :=
  match us with
  | [] => eskip
  | u :: us => put32 off u >> put_subs (off + 4) us
  end.
Definition Encode (s : t) : enc :=
  put8 0 1 >> put8 1 (u8 (Z.of_nat (length (SubAuthority s))))
  >> copy_from 2 (IdentifierAuthority s) >> put_subs 8 (SubAuthority s).
End SID.

Definition SIDFromUid (uid : Z) : SID.t := SID.mk SECURITY_NT_AUTHORITY [88; 1; uid].
Definition SIDFromGid (gid : Z) : SID.t := SID.mk SECURITY_NT_AUTHORITY [88; 2; gid].
Definition SIDFromMode (mode : Z) : SID.t := SID.mk SECURITY_NT_AUTHORITY [88; 3; mode].

Module ACE.
Record t := mk { Sid : SID.t; Type_ : Z; Mask : Z }.
Definition Size (a : t) : Z := 8 + SID.Size (Sid a).
Definition Encode (a : t) : enc :=
  put8 0 (Type_ a) >> put8 1 0 >> put16 2 (u16 (Size a)) >> put32 4 (Mask a)
  >> at_ 8 (SID.Encode (Sid a)).
End ACE.

Module ACL.
Abbreviation t := (list ACE.t).
Definition Size (a : t) : Z := 8 + foldl (fun s ace => s + ACE.Size ace) 0 a.
Fixpoint encode_aces (off : Z) (a : t) : enc :=
  match a with
  | [] => eskip
  | ace :: a => at_ off (ACE.Encode ace) >> encode_aces (off + ACE.Size ace) a
  end.
Definition Encode (a : t) : enc :=
  put8 0 ACL_REVISION >> put16 2 (u16 (Size a)) >> put16 4 (u16 (Z.of_nat (length a)))
  >> encode_aces 8 a.
End ACL.

(** rwx to an access mask *)
Definition UnixModeToAceMask (mode : Z) : Z :=
  Z.lor (Z.lor
    (when (has mode 1) (foldr Z.lor 0 [FILE_EXECUTE; FILE_READ_ATTRIBUTES; SYNCHRONIZE; READ_CONTROL]))
    (when (has mode 2) (foldr Z.lor 0 [FILE_WRITE_DATA; FILE_WRITE_ATTRIBUTES; FILE_WRITE_EA; WRITE_DAC;
                                       DELETE; READ_CONTROL])))
    (when (has mode 4) (foldr Z.lor 0 [FILE_READ_DATA; FILE_READ_ATTRIBUTES; FILE_READ_EA; READ_CONTROL])).

Module SecurityDescriptor.
Record t := mk {
  OwnerSid : option SID.t; GroupSid : option SID.t; Sacl : option ACL.t; Dacl : option ACL.t
}.
Definition sid_size (s : option SID.t) : Z := match s with Some s => SID.Size s | None => 0 end.
Definition acl_size (a : option ACL.t) : Z := match a with Some a => ACL.Size a | None => 0 end.
Definition Size (d : t) : Z :=
  Align (20 + sid_size (OwnerSid d) + sid_size (GroupSid d) + acl_size (Sacl d) + acl_size (Dacl d)) 8.
(** The part [e], if any, at [offset], which is noted at [slot]. *)
Definition part {A} (slot offset : Z) (e : A -> enc) (x : option A) : enc :=
  match x with
  | None => eskip
  | Some x => put32 slot (u32 offset) >> at_ offset (e x)
  end.
Definition Encode (d : t) : enc :=
  let control := Z.lor 0x8000 (Z.lor (match Sacl d with Some _ => 0x10 | None => 0 end)
                                     (match Dacl d with Some _ => 0x4 | None => 0 end)) in
  let group := 20 + sid_size (OwnerSid d) in
  let sacl := group + sid_size (GroupSid d) in
  let dacl := sacl + acl_size (Sacl d) in
  put8 0 1 >> put16 2 control
  >> part 4 20 SID.Encode (OwnerSid d)
  >> part 8 group SID.Encode (GroupSid d)
  >> part 12 sacl ACL.Encode (Sacl d)
  >> part 16 dacl ACL.Encode (Dacl d).
End SecurityDescriptor.

Module SecurityDescriptorDecoder.
Definition Revision (sd : slice) : outcome Z := s_idx sd 0.
Definition Control (sd : slice) : outcome Z := get16f sd 2.
Definition OffsetOwner (sd : slice) : outcome Z := get32f sd 4.
Definition OffsetGroup (sd : slice) : outcome Z := get32f sd 8.
Definition OffsetSacl (sd : slice) : outcome Z := get32f sd 12.
Definition OffsetDacl (sd : slice) : outcome Z := get32f sd 16.
(** [None] is the nil slice of a part that is not there. *)
Definition part (sd : slice) (off : outcome Z) : outcome (option slice) :=
  let! off := off in
  if off =? 0 then Ok None else let! s := s_from sd off in Ok (Some s).
Definition OwnerSid (sd : slice) : outcome (option slice) := part sd (OffsetOwner sd).
Definition GroupSid (sd : slice) : outcome (option slice) := part sd (OffsetGroup sd).
Definition Sacl (sd : slice) : outcome (option slice) := part sd (OffsetSacl sd).
Definition Dacl (sd : slice) : outcome (option slice) := part sd (OffsetDacl sd).
End SecurityDescriptorDecoder.

Module AclDecoder.
Definition Revision (a : slice) : outcome Z := s_idx a 0.
Definition AclSize (a : slice) : outcome Z := get16f a 2.
Definition AceCount (a : slice) : outcome Z := get16f a 4.
Definition Aces (a : slice) : outcome slice := s_from a 8.
End AclDecoder.

Module AceDecoder.
Definition Type_ (a : slice) : outcome Z := s_idx a 0.
Definition Flags (a : slice) : outcome Z := s_idx a 1.
Definition Size (a : slice) : outcome Z := get16f a 2.
Definition Mask (a : slice) : outcome Z := get32f a 4.
Definition Sid (a : slice) : outcome slice := s_from a 8.
End AceDecoder.

(** ** The bytes of a descriptor *)

Definition sub_bytes (us : list Z) : bytes := concat (le_enc 4 <$> us).
Definition sid_bytes (s : SID.t) : bytes :=
  [1 mod 256] ++ [u8 (Z.of_nat (length (SID.SubAuthority s))) mod 256] ++ SID.IdentifierAuthority s
  ++ sub_bytes (SID.SubAuthority s).
Definition ace_bytes (a : ACE.t) : bytes :=
  [ACE.Type_ a mod 256] ++ [0 mod 256] ++ le_enc 2 (u16 (ACE.Size a)) ++ le_enc 4 (ACE.Mask a)
  ++ sid_bytes (ACE.Sid a).
Definition acl_bytes (a : ACL.t) : bytes :=
  [ACL_REVISION mod 256] ++ (zeros 1 ++ le_enc 2 (u16 (ACL.Size a))) ++ le_enc 2 (u16 (Z.of_nat (length a)))
  ++ (zeros 2 ++ concat (ace_bytes <$> a)).

(** The authority is an array of six bytes. *)
Definition sid_wf (s : SID.t) : Prop := blen (SID.IdentifierAuthority s) = 6.

Lemma blen_sub_bytes us : blen (sub_bytes us) = 4 * Z.of_nat (length us).
Proof.
  unfold sub_bytes. induction us as [|u us IH]; [done|]. cbn [fmap list_fmap concat length].
  rewrite blen_app, IH, blen_le_enc. lia.
Qed.
#[export] Hint Rewrite blen_sub_bytes : blen.

Lemma put_subs_ok us x n :
  4 * Z.of_nat (length us) <= n -> appends (SID.put_subs (blen x) us) x (sub_bytes us) n.
Proof.
  revert x n. induction us as [|u us IH]; intros x n Hn; cbn [SID.put_subs length] in *.
  - apply appends_skip. lia.
  - unfold sub_bytes. cbn [fmap list_fmap concat]. apply appends_seq; [append_step|].
    replace (blen x + 4) with (blen (x ++ le_enc 4 u)) by len. apply IH. len.
Qed.

Lemma sid_writes s : sid_wf s -> writes SID.Encode SID.Size s (sid_bytes s).
Proof.
  intros Hw. unfold sid_wf in Hw. unfold writes, sid_bytes, SID.Size. split; [len|].
  intros n. len_norm. intros Hn. unfold SID.Encode. repeat append_step.
  replace 8 with (blen ((([] ++ [1 mod 256]) ++ [u8 (Z.of_nat (length (SID.SubAuthority s))) mod 256])
    ++ SID.IdentifierAuthority s)) by len.
  apply put_subs_ok. len.
Qed.

Lemma blen_sid_bytes s : sid_wf s -> blen (sid_bytes s) = SID.Size s.
Proof. intros Hw. by destruct (sid_writes s Hw). Qed.

Lemma ace_writes a : sid_wf (ACE.Sid a) -> writes ACE.Encode ACE.Size a (ace_bytes a).
Proof.
  intros Hw. destruct (sid_writes _ Hw) as [Hs He]. unfold writes, ace_bytes, ACE.Size.
  pose proof (blen_nonneg (sid_bytes (ACE.Sid a))). split; [len|].
  intros n. len_norm. intros Hn. unfold ACE.Encode. repeat append_step.
  apply appends_at0; [len|]. apply He. len.
Qed.

Lemma aces_writes a x n :
  Forall (fun ace => sid_wf (ACE.Sid ace)) a -> blen (concat (ace_bytes <$> a)) <= n ->
  appends (ACL.encode_aces (blen x) a) x (concat (ace_bytes <$> a)) n.
Proof.
  intros Hw. revert x n. induction Hw as [|ace a Hw _ IH]; intros x n Hn;
    cbn [ACL.encode_aces fmap list_fmap concat] in *; [by apply appends_skip|].
  destruct (ace_writes ace Hw) as [Hs He]. rewrite blen_app in Hn.
  pose proof (blen_nonneg (concat (ace_bytes <$> a))). apply appends_seq.
  - apply appends_at0; [done|]. apply He. lia.
  - replace (blen x + ACE.Size ace) with (blen (x ++ ace_bytes ace)) by (rewrite blen_app; lia).
    apply IH. lia.
Qed.

Lemma acl_writes a :
  Forall (fun ace => sid_wf (ACE.Sid ace)) a -> writes ACL.Encode ACL.Size a (acl_bytes a).
Proof.
  intros Hw.
  assert (Hsz : forall k, foldl (fun s ace => s + ACE.Size ace) k a = k + blen (concat (ace_bytes <$> a))).
  { clear -Hw. induction Hw as [|ace a Hw _ IH]; intros k; cbn [foldl fmap list_fmap concat]; [by rewrite Z.add_0_r|].
    rewrite IH, blen_app. destruct (ace_writes ace Hw). lia. }
  unfold writes, acl_bytes. pose proof (blen_nonneg (concat (ace_bytes <$> a))). split.
  - unfold ACL.Size. rewrite Hsz. len.
  - intros n. len_norm. intros Hn. unfold ACL.Encode. apply appends_seq; [append_step|].
    apply appends_seq; [apply (appends_put _ 1); len|]. append_step; [append_step|].
    apply appends_gap; [len|]. match goal with |- appends _ ?x _ _ => replace 8 with (blen x) by len end.
    apply aces_writes; [done|len].
Qed.

(** *** The parts of a descriptor

    The buffer is a header of twenty bytes, the parts written so far, and
    zeros; a part notes its offset in the header. *)
Definition opt_writes {A} (e : A -> enc) (size : A -> Z) (x : option A) (b : bytes) : Prop :=
  match x with None => b = [] | Some x => writes e size x b end.
Definition noted {A} (x : option A) (slot off : Z) (h : bytes) : bytes :=
  match x with None => h | Some _ => splice slot (le_enc 4 (u32 off)) h end.

Lemma blen_noted {A} (x : option A) slot off h : blen (noted x slot off h) = blen h.
Proof. destruct x; [apply blen_splice|done]. Qed.

Lemma part_ok {A} (e : A -> enc) size (x : option A) b slot off h bs m :
  opt_writes e size x b -> blen h = 20 -> 0 <= slot <= 16 -> off = 20 + blen bs -> blen b <= m ->
  SecurityDescriptor.part slot off e x (h ++ bs ++ zeros m)
  = Ok (noted x slot off h ++ (bs ++ b) ++ zeros (m - blen b)).
Proof.
  intros Hx Hh Hs -> Hm. pose proof (blen_nonneg bs). pose proof (blen_nonneg b).
  destruct x as [x|]; cbn [opt_writes noted SecurityDescriptor.part] in *.
  - destruct Hx as [_ He]. unfold eseq. rewrite put32_ok by len. cbn [obind].
    rewrite splice_app_l by len. set (h' := splice slot _ h).
    assert (Hh' : blen h' = 20) by (unfold h'; by rewrite blen_splice).
    rewrite (at_ok _ _ _ (b ++ zeros (m - blen b))); [|lia|len|].
    + rewrite (app_assoc h'), upto_app_exact by len. by rewrite <- !app_assoc.
    + rewrite (app_assoc h'), from_app_exact by len. apply appends_all, He. lia.
  - subst b. unfold eskip. by rewrite app_nil_r, blen_nil, Z.sub_0_r.
Qed.

Lemma sid_part_writes x :
  (forall s, x = Some s -> sid_wf s) ->
  exists b, opt_writes SID.Encode SID.Size x b /\ blen b = SecurityDescriptor.sid_size x.
Proof.
  destruct x as [s|]; intros Hx; [|by exists []]. pose proof (sid_writes s (Hx s eq_refl)) as Hw.
  exists (sid_bytes s). split; [done|apply Hw].
Qed.

(** A descriptor with a DACL and without a SACL: the header with the offset
    of the DACL, the SIDs, the DACL and the padding. *)
Lemma descriptor_writes owner group dacl :
  (forall s, owner = Some s -> sid_wf s) -> (forall s, group = Some s -> sid_wf s) ->
  Forall (fun ace => sid_wf (ACE.Sid ace)) dacl ->
  let sd := SecurityDescriptor.mk owner group None (Some dacl) in
  exists h bs k, SecurityDescriptor.Encode sd (zeros (SecurityDescriptor.Size sd))
      = Ok (splice 16 (le_enc 4 (u32 (20 + blen bs))) h ++ bs ++ acl_bytes dacl ++ zeros k)
    /\ blen h = 20 /\ 20 + blen bs <= SecurityDescriptor.Size sd.
Proof.
  intros Ho Hg Hd sd.
  destruct (sid_part_writes owner Ho) as (bo & Hbo & Hso).
  destruct (sid_part_writes group Hg) as (bg & Hbg & Hsg).
  pose proof (acl_writes dacl Hd) as Hacl. pose proof (proj1 Hacl) as Hsa. set (ba := acl_bytes dacl) in *.
  pose proof (blen_nonneg bo). pose proof (blen_nonneg bg). pose proof (blen_nonneg ba).
  set (m := 20 + blen bo + blen bg + blen ba).
  assert (Hal : SecurityDescriptor.Size sd = Align m 8).
  { unfold SecurityDescriptor.Size. cbn. rewrite <- Hso, <- Hsg, <- Hsa. f_equal. unfold m. lia. }
  pose proof (Align8 m ltac:(unfold m; lia)) as [Hm _]. set (n := SecurityDescriptor.Size sd) in *.
  replace n with (20 + (n - 20)) by lia. rewrite zeros_app by (unfold m in *; lia).
  unfold SecurityDescriptor.Encode, eseq. cbn [sd SecurityDescriptor.OwnerSid SecurityDescriptor.GroupSid
    SecurityDescriptor.Sacl SecurityDescriptor.Dacl SecurityDescriptor.acl_size].
  rewrite put8_ok by len. cbn [obind]. rewrite put16_ok by len. cbn [obind].
  rewrite !splice_app_l by len. set (h := splice 2 _ _). assert (Hh : blen h = 20) by (unfold h; len).
  rewrite <- Hso, <- Hsg. change (h ++ zeros (n - 20)) with (h ++ [] ++ zeros (n - 20)). unfold m in *.
  rewrite (part_ok _ _ _ _ _ _ _ _ _ Hbo) by (rewrite ?blen_nil; lia || done). cbn [obind app].
  rewrite (part_ok _ _ _ _ _ _ _ _ _ Hbg) by (rewrite ?blen_noted; lia || done). cbn [obind].
  rewrite (part_ok ACL.Encode ACL.Size None []) by (rewrite ?blen_noted, ?blen_app, ?blen_nil; lia || done).
  cbn [obind noted].
  exists (noted group 8 (20 + blen bo) (noted owner 4 20 h)), (bo ++ bg). eexists. split_and!.
  - rewrite (part_ok _ _ (Some dacl) _ _ _ _ _ _ Hacl) by (rewrite ?blen_noted, ?blen_app, ?blen_nil; lia || done).
    cbn [noted]. rewrite !blen_app, Z.add_0_r, Z.add_assoc, app_nil_r, <- !app_assoc. done.
  - by rewrite !blen_noted.
  - rewrite blen_app. lia.
Qed.

(** Reading the DACL back. *)
Lemma dacl_read h bs b k :
  blen h = 20 -> 20 + blen bs < 2 ^ 32 ->
  SecurityDescriptorDecoder.Dacl (of_bytes (splice 16 (le_enc 4 (u32 (20 + blen bs))) h ++ bs ++ b ++ zeros k))
  = Ok (Some (of_bytes (b ++ zeros k))).
Proof.
  intros Hh Hn. set (h' := splice 16 _ h). assert (Hh' : blen h' = 20) by (unfold h'; by rewrite blen_splice).
  pose proof (blen_nonneg bs). pose proof (blen_nonneg (b ++ zeros k)).
  assert (Hoff : SecurityDescriptorDecoder.OffsetDacl (of_bytes (h' ++ bs ++ b ++ zeros k)) = Ok (20 + blen bs)).
  { unfold SecurityDescriptorDecoder.OffsetDacl.
    rewrite get32f_ok by (cbn [of_bytes s_len]; rewrite ?blen_app; blen_pos; lia). cbn [of_bytes s_arr].
    rewrite sub_app_l by lia. unfold h'. rewrite sub_splice_same by len.
    rewrite le_dec_enc4. do 2 rewrite (u32_id (20 + blen bs)) by (ints; lia). done. }
  unfold SecurityDescriptorDecoder.Dacl, SecurityDescriptorDecoder.part. rewrite Hoff. cbn [obind].
  replace (20 + blen bs =? 0) with false by lia.
  rewrite s_from_of_bytes by (rewrite ?blen_app; blen_pos; lia). cbn [obind].
  by rewrite app_assoc, from_app_exact by (rewrite blen_app; lia).
Qed.
