(* ===== verification/FileInfo.v ===== *)
(** * File information (server/info_fs.go)

    The information classes the server writes in QUERY_INFO and
    QUERY_DIRECTORY responses, and those it reads from SET_INFO requests. *)

From S2P Require Import Prelude Const Packet Utf16 Request Dtyp Acl.

Definition FILE_CASE_PRESERVED_NAMES : Z := 0x2.
Definition FILE_UNICODE_ON_DISK : Z := 0x4.
Definition FILE_PERSISTENT_ACLS : Z := 0x8.
Definition FILE_SUPPORTS_SPARSE_FILES : Z := 0x40.
Definition FILE_SUPPORTS_REPARSE_POINTS : Z := 0x80.
Definition FILE_SUPPORTS_OBJECT_IDS : Z := 0x10000.
Definition FILE_NAMED_STREAMS : Z := 0x40000.
Definition FILE_SUPPORTS_HARD_LINKS : Z := 0x400000.
Definition FILE_SUPPORTS_EXTENDED_ATTRIBUTES : Z := 0x800000.
Definition FILE_SUPPORTS_OPEN_BY_FILE_ID : Z := 0x1000000.
Definition FILE_SUPERSEDED : Z := 0.
Definition FILE_OPENED : Z := 1.
Definition FILE_CREATED : Z := 2.
Definition FILE_OVERWRITTEN : Z := 3.
Definition FILE_DEVICE_DISK : Z := 7.
Definition SSINFO_FLAGS_ALIGNED_DEVICE : Z := 1.
Definition SSINFO_FLAGS_PARTITION_ALIGNED_ON_DEVICE : Z := 2.
Definition SSINFO_FLAGS_NO_SEEK_PENALTY : Z := 4.

(** ** Files *)

Module FileAccessInformationInfo.
Record t := mk { AccessFlags : Z }.
Definition Size (i : t) : Z := 4.
Definition Encode (i : t) : enc :=
  put32 0 (AccessFlags i).
End FileAccessInformationInfo.

Module FileAlignmentInformationInfo.
Record t := mk { AlignmentRequirement : Z }.
Definition Size (i : t) : Z := 4.
Definition Encode (i : t) : enc :=
  put32 0 (AlignmentRequirement i).
End FileAlignmentInformationInfo.

Module FileAlternateNameInformationInfo.
Record t := mk { FileName : gostring }.
Definition Size (i : t) : Z := EncodedStringLen (FileName i) + 4.
Definition Encode (i : t) : enc :=
  put32 0 (u32 (EncodedStringLen (FileName i))) >> at_ 4 (EncodeString (FileName i)).
End FileAlternateNameInformationInfo.

Module FileAttributeTagInformationInfo.
Record t := mk { FileAttributes : Z; ReparseTag : Z }.
Definition Size (i : t) : Z := 8.
Definition Encode (i : t) : enc :=
  put32 0 (FileAttributes i) >> put32 4 (ReparseTag i).
End FileAttributeTagInformationInfo.

Module FileBasicInformationInfo.
Record t := mk { CreationTime : Filetime.t; LastAccessTime : Filetime.t;
  LastWriteTime : Filetime.t; ChangeTime : Filetime.t; FileAttributes : Z; Pad : Z }.
Definition Size (i : t) : Z := 40.
Definition Encode (i : t) : enc :=
  at_ 0 (Filetime.Encode (CreationTime i)) >> at_ 8 (Filetime.Encode (LastAccessTime i))
  >> at_ 16 (Filetime.Encode (LastWriteTime i)) >> at_ 24 (Filetime.Encode (ChangeTime i))
  >> put32 32 (FileAttributes i).
End FileBasicInformationInfo.

Module FileCompressionInformationInfo.
Record t := mk { CompressedFileSize : Z; CompressionFormat : Z; CompressionUnitShift : Z;
  ChunkShift : Z; ClusterShift : Z; Reserved : bytes }.
Definition Size (i : t) : Z := 16.
Definition Encode (i : t) : enc :=
  put64 0 (u64 (CompressedFileSize i)) >> put16 8 (CompressionFormat i)
  >> put8 10 (CompressionUnitShift i) >> put8 11 (ChunkShift i) >> put8 12 (ClusterShift i)
  >> copy_range 13 16 (Reserved i).
End FileCompressionInformationInfo.

Module FileEaInformationInfo.
Record t := mk { EaSize : Z }.
Definition Size (i : t) : Z := 4.
Definition Encode (i : t) : enc :=
  put32 0 (EaSize i).
End FileEaInformationInfo.

Module FileFullEaInformationInfo.
Record t := mk {
  NextEntryOffset : Z; Flags : Z; EaNameLength : Z; EaValueLength : Z; EaName : bytes
}.
End FileFullEaInformationInfo.

Module FileFullEaInformationInfoItems.
Import FileFullEaInformationInfo.
Definition item_size (item : t) : Z := Align (8 + blen (EaName item) + 1 + EaValueLength item) 4.
Definition Size (i : list t) : Z := foldl (fun size item => size + item_size item) 0 i.
Fixpoint encode_from (off : Z) (i : list t) : enc :=
  match i with
  | [] => eskip
  | item :: rest =>
      let size := item_size item in
      let next := match rest with [] => NextEntryOffset item | _ => u32 size end in
      put32 off next >> put8 (off + 4) (Flags item) >> put8 (off + 5) (u8 (blen (EaName item)))
      >> put16 (off + 6) (EaValueLength item) >> copy_from (off + 8) (EaName item)
      >> encode_from (off + size) rest
  end.
Definition Encode (i : list t) : enc := encode_from 0 i.
End FileFullEaInformationInfoItems.

Module FileIdInformationInfo.
Record t := mk { VolumeSerialNumber : Z; FileId : FileId.t }.
Definition Size (i : t) : Z := 24.
Definition Encode (i : t) : enc :=
  put64 0 (VolumeSerialNumber i) >> at_ 8 (FileId.Encode (Some (FileId i))).
End FileIdInformationInfo.

Module FileInternalInformationInfo.
Record t := mk { IndexNumber : Z }.
Definition Size (i : t) : Z := 8.
Definition Encode (i : t) : enc :=
  put64 0 (u64 (IndexNumber i)).
End FileInternalInformationInfo.

Module FileModeInformationInfo.
Record t := mk { Mode : Z }.
Definition Size (i : t) : Z := 4.
Definition Encode (i : t) : enc :=
  put32 0 (Mode i).
End FileModeInformationInfo.

Module FileNetworkOpenInformationInfo.
Record t := mk { CreationTime : Filetime.t; LastAccessTime : Filetime.t;
  LastWriteTime : Filetime.t; ChangeTime : Filetime.t; AllocationSize : Z; EndOfFile : Z;
  FileAttributes : Z }.
Definition Size (i : t) : Z := 56.
Definition Encode (i : t) : enc :=
  at_ 0 (Filetime.Encode (CreationTime i)) >> at_ 8 (Filetime.Encode (LastAccessTime i))
  >> at_ 16 (Filetime.Encode (LastWriteTime i)) >> at_ 24 (Filetime.Encode (ChangeTime i))
  >> put64 32 (u64 (AllocationSize i)) >> put64 40 (u64 (EndOfFile i))
  >> put32 48 (FileAttributes i).
End FileNetworkOpenInformationInfo.

Module FilePositionInformationInfo.
Record t := mk { CurrentByteOffset : Z }.
Definition Size (i : t) : Z := 8.
Definition Encode (i : t) : enc :=
  put64 0 (u64 (CurrentByteOffset i)).
End FilePositionInformationInfo.

Module FileNamesInformationInfo.
Record t := mk { NextEntryOffset : Z; FileIndex : Z; FileName : gostring }.
Definition Size (i : t) : Z := Align (12 + EncodedStringLen (FileName i)) 8.
Definition Encode (i : t) : enc :=
  put32 0 (NextEntryOffset i) >> put64 4 (FileIndex i)
  >> put32 8 (u32 (EncodedStringLen (FileName i))) >> at_ 12 (EncodeString (FileName i)).
End FileNamesInformationInfo.

Module FileStandardInformationInfo.
Record t := mk { AllocationSize : Z; EndOfFile : Z; NumberOfLinks : Z; DeletePending : Z;
  Directory : Z; Pad : bytes }.
Definition Size (i : t) : Z := 24.
Definition Encode (i : t) : enc :=
  put64 0 (u64 (AllocationSize i)) >> put64 8 (u64 (EndOfFile i)) >> put32 16 (NumberOfLinks i)
  >> put8 20 (DeletePending i) >> put8 21 (Directory i).
End FileStandardInformationInfo.

Module FileAllInformationInfo.
Record t := mk {
  BasicInformation : FileBasicInformationInfo.t; StandardInformation : FileStandardInformationInfo.t;
  Internal : FileInternalInformationInfo.t; EaInformation : FileEaInformationInfo.t;
  AccessInformation : FileAccessInformationInfo.t; PositionInformation : FilePositionInformationInfo.t;
  ModeInformation : FileModeInformationInfo.t; AlignmentInformation : FileAlignmentInformationInfo.t;
  NameInformation : FileAlternateNameInformationInfo.t
}.
Definition Size (i : t) : Z :=
  FileBasicInformationInfo.Size (BasicInformation i)
  + FileStandardInformationInfo.Size (StandardInformation i)
  + FileInternalInformationInfo.Size (Internal i)
  + FileEaInformationInfo.Size (EaInformation i)
  + FileAccessInformationInfo.Size (AccessInformation i)
  + FilePositionInformationInfo.Size (PositionInformation i)
  + FileModeInformationInfo.Size (ModeInformation i)
  + FileAlignmentInformationInfo.Size (AlignmentInformation i)
  + FileAlternateNameInformationInfo.Size (NameInformation i).
Definition Encode (i : t) : enc :=
  let off := 0 in
  at_ off (FileBasicInformationInfo.Encode (BasicInformation i)) >>
  let off := off + FileBasicInformationInfo.Size (BasicInformation i) in
  at_ off (FileStandardInformationInfo.Encode (StandardInformation i)) >>
  let off := off + FileStandardInformationInfo.Size (StandardInformation i) in
  at_ off (FileInternalInformationInfo.Encode (Internal i)) >>
  let off := off + FileInternalInformationInfo.Size (Internal i) in
  at_ off (FileEaInformationInfo.Encode (EaInformation i)) >>
  let off := off + FileEaInformationInfo.Size (EaInformation i) in
  at_ off (FileAccessInformationInfo.Encode (AccessInformation i)) >>
  let off := off + FileAccessInformationInfo.Size (AccessInformation i) in
  at_ off (FilePositionInformationInfo.Encode (PositionInformation i)) >>
  let off := off + FilePositionInformationInfo.Size (PositionInformation i) in
  at_ off (FileModeInformationInfo.Encode (ModeInformation i)) >>
  let off := off + FileModeInformationInfo.Size (ModeInformation i) in
  at_ off (FileAlignmentInformationInfo.Encode (AlignmentInformation i)) >>
  let off := off + FileAlignmentInformationInfo.Size (AlignmentInformation i) in
  at_ off (FileAlternateNameInformationInfo.Encode (NameInformation i)).
End FileAllInformationInfo.

Module FileStreamInformationInfo.
Record t := mk { NextEntryOffset : Z; StreamSize : Z; StreamAllocationSize : Z;
  StreamName : gostring }.
Definition Size (i : t) : Z := Roundup (24 + EncodedStringLen (StreamName i)) 8.
Definition Encode (i : t) : enc :=
  put32 0 (NextEntryOffset i) >> put32 4 (u32 (EncodedStringLen (StreamName i)))
  >> put64 8 (StreamSize i) >> put64 16 (StreamAllocationSize i)
  >> at_ 24 (EncodeString (StreamName i)).
End FileStreamInformationInfo.

(** The offset advances by the NextEntryOffset that was written. *)
Module FileStreamInformationInfoItems.
Import FileStreamInformationInfo.
Definition Size (i : list t) : Z :=
  foldl (fun s item => s + FileStreamInformationInfo.Size item) 0 i.
Fixpoint encode_from (off : Z) (i : list t) : enc :=
  match i with
  | [] => eskip
  | item :: rest =>
      let next := match rest with
                  | [] => NextEntryOffset item
                  | _ => u32 (FileStreamInformationInfo.Size item)
                  end in
      at_ off (FileStreamInformationInfo.Encode
                 (mk next (StreamSize item) (StreamAllocationSize item) (StreamName item)))
      >> encode_from (u32 (off + next)) rest
  end.
Definition Encode (i : list t) : enc := encode_from 0 i.
End FileStreamInformationInfoItems.

(** ** File systems *)

Module FileFsAttributeInformationInfo.
Record t := mk { FileSystemAttributes : Z; MaximumComponentNameLength : Z;
  FileSystemName : gostring }.
Definition Size (i : t) : Z := Align (12 + EncodedStringLen (FileSystemName i)) 8.
Definition Encode (i : t) : enc :=
  put32 0 (FileSystemAttributes i) >> put32 4 (MaximumComponentNameLength i)
  >> put32 8 (u32 (EncodedStringLen (FileSystemName i)))
  >> at_ 12 (EncodeString (FileSystemName i)).
End FileFsAttributeInformationInfo.

Module FileFsDeviceInformationInfo.
Record t := mk { DeviceType : Z; Characteristics : Z }.
Definition Size (i : t) : Z := 8.
Definition Encode (i : t) : enc :=
  put32 0 (DeviceType i) >> put32 4 (Characteristics i).
End FileFsDeviceInformationInfo.

Module FileFsFullSizeInformationInfo.
Record t := mk { TotalAllocationUnits : Z; CallerAvailableAllocationUnits : Z;
  ActualAvailableAllocationUnits : Z; SectorsPerAllocationUnit : Z; BytesPerSector : Z }.
Definition Size (i : t) : Z := 32.
Definition Encode (i : t) : enc :=
  put64 0 (u64 (TotalAllocationUnits i)) >> put64 8 (u64 (CallerAvailableAllocationUnits i))
  >> put64 18 (u64 (ActualAvailableAllocationUnits i)) >> put32 24 (SectorsPerAllocationUnit i)
  >> put32 28 (BytesPerSector i).
End FileFsFullSizeInformationInfo.

Module FileFsSectorSizeInformationInfo.
Record t := mk { LogicalBytesPerSector : Z; PhysicalBytesPerSectorForAtomicity : Z;
  PhysicalBytesPerSectorForPerformance : Z;
  FileSystemEffectivePhysicalBytesPerSectorForAtomicity : Z; Flags : Z;
  ByteOffsetForSectorAlignment : Z; ByteOffsetForPartitionAlignment : Z }.
Definition Size (i : t) : Z := 28.
Definition Encode (i : t) : enc :=
  put32 0 (LogicalBytesPerSector i) >> put32 4 (PhysicalBytesPerSectorForAtomicity i)
  >> put32 8 (PhysicalBytesPerSectorForPerformance i)
  >> put32 12 (FileSystemEffectivePhysicalBytesPerSectorForAtomicity i) >> put32 16 (Flags i)
  >> put32 20 (ByteOffsetForSectorAlignment i) >> put32 24 (ByteOffsetForPartitionAlignment i).
End FileFsSectorSizeInformationInfo.

Module FileFsSizeInformationInfo.
Record t := mk { TotalAllocationUnits : Z; AvailableAllocationUnits : Z;
  SectorsPerAllocationUnit : Z; BytesPerSector : Z }.
Definition Size (i : t) : Z := 24.
Definition Encode (i : t) : enc :=
  put64 0 (u64 (TotalAllocationUnits i)) >> put64 8 (u64 (AvailableAllocationUnits i))
  >> put32 16 (SectorsPerAllocationUnit i) >> put32 20 (BytesPerSector i).
End FileFsSizeInformationInfo.

Module FileFsVolumeInformationInfo.
Record t := mk { VolumeCreationTime : Filetime.t; VolumeSerialNumber : Z;
  SupportsObjects : bool; VolumeLabel : gostring }.
Definition Size (i : t) : Z := Align (18 + EncodedStringLen (VolumeLabel i)) 8.
Definition Encode (i : t) : enc :=
  at_ 0 (Filetime.Encode (VolumeCreationTime i)) >> put32 8 (VolumeSerialNumber i)
  >> put32 12 (u32 (EncodedStringLen (VolumeLabel i))) >> at_ 18 (EncodeString (VolumeLabel i)).
End FileFsVolumeInformationInfo.

Module FileFsPosixInformationInfo.
Record t := mk { OptimalTransferSize : Z; BlockSize : Z; TotalBlocks : Z; BlocksAvailable : Z;
  UserBlocksAvailable : Z; TotalFileNodes : Z; FreeFileNodes : Z; FsIdentifier : Z }.
Definition Size (i : t) : Z := 56.
Definition Encode (i : t) : enc :=
  put32 0 (OptimalTransferSize i) >> put32 4 (BlockSize i) >> put64 8 (TotalBlocks i)
  >> put64 16 (BlocksAvailable i) >> put64 24 (UserBlocksAvailable i)
  >> put64 32 (TotalFileNodes i) >> put64 40 (FreeFileNodes i) >> put64 48 (FsIdentifier i).
End FileFsPosixInformationInfo.

Module NetworkInterfaceInfo.
Record t := mk { Next : Z; IfIndex : Z; Capability : Z; LinkSpeed : Z; IPv4 : bytes }.
Definition Size : Z := 152.
Definition Encode (i : t) : enc :=
  put32 0 (Next i) >> put32 4 (IfIndex i) >> put32 8 (Capability i) >> put64 16 (LinkSpeed i)
  >> in_ 24 152 (put16 0 2 >> put 2 (be_enc 2 445) >> copy_range 4 8 (IPv4 i)).
End NetworkInterfaceInfo.

Module NetworkInterfaceInfoList.
Import NetworkInterfaceInfo.
Definition Size (l : list t) : Z := Z.of_nat (length l) * NetworkInterfaceInfo.Size.
Fixpoint encode_from (off : Z) (l : list t) : enc :=
  match l with
  | [] => eskip
  | item :: rest =>
      let next := match rest with [] => Next item | _ => u32 NetworkInterfaceInfo.Size end in
      at_ off (NetworkInterfaceInfo.Encode
                 (mk next (IfIndex item) (Capability item) (LinkSpeed item) (IPv4 item)))
      >> encode_from (off + NetworkInterfaceInfo.Size) rest
  end.
Definition Encode (l : list t) : enc := encode_from 0 l.
End NetworkInterfaceInfoList.

(** ** Directory entries *)

Module FileDirectoryInformationInfo.
Record t := mk { NextEntryOffset : Z; FileIndex : Z; CreationTime : Filetime.t;
  LastAccessTime : Filetime.t; LastWriteTime : Filetime.t; ChangeTime : Filetime.t;
  EndOfFile : Z; AllocationSize : Z; FileAttributes : Z; FileName : gostring }.
Definition Size (i : t) : Z := Align (64 + EncodedStringLen (FileName i)) 8.
Definition Encode (i : t) : enc :=
  put32 0 (NextEntryOffset i) >> put32 4 (FileIndex i) >> at_ 8 (Filetime.Encode (CreationTime i))
  >> at_ 16 (Filetime.Encode (LastAccessTime i)) >> at_ 24 (Filetime.Encode (LastWriteTime i))
  >> at_ 32 (Filetime.Encode (ChangeTime i)) >> put64 40 (EndOfFile i)
  >> put64 48 (AllocationSize i) >> put32 56 (FileAttributes i)
  >> put32 60 (u32 (EncodedStringLen (FileName i))) >> at_ 64 (EncodeString (FileName i)).
End FileDirectoryInformationInfo.

Module FileFullDirectoryInformationInfo.
Record t := mk { NextEntryOffset : Z; FileIndex : Z; CreationTime : Filetime.t;
  LastAccessTime : Filetime.t; LastWriteTime : Filetime.t; ChangeTime : Filetime.t;
  EndOfFile : Z; AllocationSize : Z; FileAttributes : Z; EaSize : Z; FileName : gostring }.
Definition Size (i : t) : Z := Align (68 + EncodedStringLen (FileName i)) 8.
Definition Encode (i : t) : enc :=
  put32 0 (NextEntryOffset i) >> put32 4 (FileIndex i) >> at_ 8 (Filetime.Encode (CreationTime i))
  >> at_ 16 (Filetime.Encode (LastAccessTime i)) >> at_ 24 (Filetime.Encode (LastWriteTime i))
  >> at_ 32 (Filetime.Encode (ChangeTime i)) >> put64 40 (EndOfFile i)
  >> put64 48 (AllocationSize i) >> put32 56 (FileAttributes i)
  >> put32 60 (u32 (EncodedStringLen (FileName i))) >> put32 64 (EaSize i)
  >> at_ 68 (EncodeString (FileName i)).
End FileFullDirectoryInformationInfo.

Module FileBothDirectoryInformationInfo.
Record t := mk { NextEntryOffset : Z; FileIndex : Z; CreationTime : Filetime.t;
  LastAccessTime : Filetime.t; LastWriteTime : Filetime.t; ChangeTime : Filetime.t;
  EndOfFile : Z; AllocationSize : Z; FileAttributes : Z; EaSize : Z; ShortNameLength : Z;
  Pad : Z; ShortName : bytes; FileName : gostring }.
Definition Size (i : t) : Z := Align (94 + EncodedStringLen (FileName i)) 8.
Definition Encode (i : t) : enc :=
  put32 0 (NextEntryOffset i) >> put32 4 (FileIndex i) >> at_ 8 (Filetime.Encode (CreationTime i))
  >> at_ 16 (Filetime.Encode (LastAccessTime i)) >> at_ 24 (Filetime.Encode (LastWriteTime i))
  >> at_ 32 (Filetime.Encode (ChangeTime i)) >> put64 40 (EndOfFile i)
  >> put64 48 (AllocationSize i) >> put32 56 (FileAttributes i)
  >> put32 60 (u32 (EncodedStringLen (FileName i))) >> put32 64 (EaSize i)
  >> put8 68 (ShortNameLength i) >> at_ 94 (EncodeString (FileName i)).
End FileBothDirectoryInformationInfo.

Module FileIdBothDirectoryInformationInfo.
Record t := mk { NextEntryOffset : Z; FileIndex : Z; CreationTime : Filetime.t;
  LastAccessTime : Filetime.t; LastWriteTime : Filetime.t; ChangeTime : Filetime.t;
  EndOfFile : Z; AllocationSize : Z; FileAttributes : Z; EaSize : Z; ShortNameLength : Z;
  Pad : Z; ShortName : bytes; Pad2 : Z; FileId : Z; FileName : gostring }.
Definition Size (i : t) : Z := Align (104 + EncodedStringLen (FileName i)) 8.
Definition Encode (i : t) : enc :=
  put32 0 (NextEntryOffset i) >> put32 4 (FileIndex i) >> at_ 8 (Filetime.Encode (CreationTime i))
  >> at_ 16 (Filetime.Encode (LastAccessTime i)) >> at_ 24 (Filetime.Encode (LastWriteTime i))
  >> at_ 32 (Filetime.Encode (ChangeTime i)) >> put64 40 (EndOfFile i)
  >> put64 48 (AllocationSize i) >> put32 56 (FileAttributes i)
  >> put32 60 (u32 (EncodedStringLen (FileName i))) >> put32 64 (EaSize i) >> put64 96 (FileId i)
  >> at_ 104 (EncodeString (FileName i)).
End FileIdBothDirectoryInformationInfo.

Module FileIdBothDirectoryInformationInfo2.
Record t := mk { NextEntryOffset : Z; FileIndex : Z; CreationTime : Filetime.t;
  LastAccessTime : Filetime.t; LastWriteTime : Filetime.t; ChangeTime : Filetime.t;
  EndOfFile : Z; AllocationSize : Z; FileAttributes : Z; MaxAccess : Z; ShortNameLength : Z;
  Pad : Z; RsrcForkLen : Z; CompressedFinderInfo : bytes; UnixMode : Z; FileId : Z;
  FileName : gostring }.
Definition Size (i : t) : Z := Align (104 + EncodedStringLen (FileName i)) 8.
Definition Encode (i : t) : enc :=
  put32 0 (NextEntryOffset i) >> put32 4 (FileIndex i) >> at_ 8 (Filetime.Encode (CreationTime i))
  >> at_ 16 (Filetime.Encode (LastAccessTime i)) >> at_ 24 (Filetime.Encode (LastWriteTime i))
  >> at_ 32 (Filetime.Encode (ChangeTime i)) >> put64 40 (EndOfFile i)
  >> put64 48 (AllocationSize i) >> put32 56 (FileAttributes i)
  >> put32 60 (u32 (EncodedStringLen (FileName i))) >> put32 64 (MaxAccess i)
  >> put8 68 (ShortNameLength i) >> put64 70 (RsrcForkLen i)
  >> copy_from 78 (CompressedFinderInfo i) >> put16 94 (UnixMode i) >> put64 96 (FileId i)
  >> at_ 104 (EncodeString (FileName i)).
End FileIdBothDirectoryInformationInfo2.

Module FileIdFullDirectoryInformationInfo.
Record t := mk { NextEntryOffset : Z; FileIndex : Z; CreationTime : Filetime.t;
  LastAccessTime : Filetime.t; LastWriteTime : Filetime.t; ChangeTime : Filetime.t;
  EndOfFile : Z; AllocationSize : Z; FileAttributes : Z; EaSize : Z; Pad2 : Z; FileId : Z;
  FileName : gostring }.
Definition Size (i : t) : Z := Align (80 + EncodedStringLen (FileName i)) 8.
Definition Encode (i : t) : enc :=
  put32 0 (NextEntryOffset i) >> put32 4 (FileIndex i) >> at_ 8 (Filetime.Encode (CreationTime i))
  >> at_ 16 (Filetime.Encode (LastAccessTime i)) >> at_ 24 (Filetime.Encode (LastWriteTime i))
  >> at_ 32 (Filetime.Encode (ChangeTime i)) >> put64 40 (EndOfFile i)
  >> put64 48 (AllocationSize i) >> put32 56 (FileAttributes i)
  >> put32 60 (u32 (EncodedStringLen (FileName i))) >> put32 64 (EaSize i) >> put64 72 (FileId i)
  >> at_ 80 (EncodeString (FileName i)).
End FileIdFullDirectoryInformationInfo.

Module FileIdAllExtdBothDirectoryInformationInfo.
Record t := mk { NextEntryOffset : Z; FileIndex : Z; CreationTime : Filetime.t;
  LastAccessTime : Filetime.t; LastWriteTime : Filetime.t; ChangeTime : Filetime.t;
  EndOfFile : Z; AllocationSize : Z; FileAttributes : Z; EaSize : Z; ReparsePointTag : Z;
  FileId : Z; FileId128 : Z; FileId128_2 : Z; ShortNameLength : Z; Pad : Z; ShortName : bytes;
  FileName : gostring }.
Definition Size (i : t) : Z := Align (122 + EncodedStringLen (FileName i)) 8.
Definition Encode (i : t) : enc :=
  put32 0 (NextEntryOffset i) >> put32 4 (FileIndex i) >> at_ 8 (Filetime.Encode (CreationTime i))
  >> at_ 16 (Filetime.Encode (LastAccessTime i)) >> at_ 24 (Filetime.Encode (LastWriteTime i))
  >> at_ 32 (Filetime.Encode (ChangeTime i)) >> put64 40 (EndOfFile i)
  >> put64 48 (AllocationSize i) >> put32 56 (FileAttributes i)
  >> put32 60 (u32 (EncodedStringLen (FileName i))) >> put32 64 (EaSize i)
  >> put32 68 (ReparsePointTag i) >> put64 72 (FileId i) >> put64 80 (FileId128 i)
  >> put64 88 (FileId128_2 i) >> put8 96 (ShortNameLength i) >> put8 97 (Pad i)
  >> copy_range 98 122 (ShortName i) >> at_ 122 (EncodeString (FileName i)).
End FileIdAllExtdBothDirectoryInformationInfo.

Module FilePosixInformationInfo.
Record t := mk {
  CreationTime : Filetime.t; LastAccessTime : Filetime.t; LastWriteTime : Filetime.t;
  ChangeTime : Filetime.t; EndOfFile : Z; AllocationSize : Z; FileAttributes : Z; Inode : Z;
  Device : Z; Reserved : Z; NumberOfLinks : Z; ReparseTag : Z; PosixMode : Z; OwnerSID : SID.t;
  GroupSID : SID.t; FileName : gostring
}.
Definition Size (i : t) : Z :=
  Align (80 + SID.Size (OwnerSID i) + SID.Size (GroupSID i) + 4 + EncodedStringLen (FileName i)) 8.
Definition Encode (i : t) : enc :=
  let group := 80 + SID.Size (OwnerSID i) in
  let off := group + SID.Size (GroupSID i) in
  at_ 0 (Filetime.Encode (CreationTime i)) >> at_ 8 (Filetime.Encode (LastAccessTime i))
  >> at_ 16 (Filetime.Encode (LastWriteTime i)) >> at_ 24 (Filetime.Encode (ChangeTime i))
  >> put64 32 (EndOfFile i) >> put64 40 (AllocationSize i) >> put32 48 (FileAttributes i)
  >> put64 52 (Inode i) >> put32 60 (Device i) >> put32 64 (Reserved i)
  >> put32 68 (NumberOfLinks i) >> put32 72 (ReparseTag i) >> put32 76 (PosixMode i)
  >> at_ 80 (SID.Encode (OwnerSID i)) >> at_ group (SID.Encode (GroupSID i))
  >> put32 off (u32 (EncodedStringLen (FileName i)))
  >> at_ (off + 4) (EncodeString (FileName i)).
End FilePosixInformationInfo.

Module FilePosixDirectoryInformationInfo.
Record t := mk {
  NextEntryOffset : Z; FileIndex : Z; Info : FilePosixInformationInfo.t; FileName : gostring
}.
Definition Size (i : t) : Z := Align (8 + FilePosixInformationInfo.Size (Info i)) 8.
Definition Encode (i : t) : enc :=
  put32 0 (NextEntryOffset i) >> put32 4 (FileIndex i)
  >> at_ 8 (FilePosixInformationInfo.Encode (Info i)).
End FilePosixDirectoryInformationInfo.

Module PosixCreateContextResponse.
Record t := mk {
  NumberOfLinks : Z; ReparseTag : Z; PosixPerms : Z; OwnerSID : SID.t; GroupSID : SID.t
}.
Definition Size (r : t) : Z := 12 + SID.Size (OwnerSID r) + SID.Size (GroupSID r).
Definition Encode (r : t) : enc :=
  put32 0 (NumberOfLinks r) >> put32 4 (ReparseTag r) >> put32 8 (PosixPerms r)
  >> at_ 12 (SID.Encode (OwnerSID r)) >> at_ (12 + SID.Size (OwnerSID r)) (SID.Encode (GroupSID r)).
End PosixCreateContextResponse.

(** The entries of a listing, each patched with the offset of the next. *)
Module FileInformationInfoResponse.
Abbreviation t := (list Encoder).
Definition Size (items : t) : Z := foldl (fun s info => s + Packet.Size info) 0 items.
Fixpoint encode_from (off : Z) (items : t) : enc :=
  match items with
  | [] => eskip
  | info :: rest =>
      let next := match rest with [] => 0 | _ => Packet.Size info end in
      at_ off (Packet.Encode info) >> put32 off (u32 next)
      >> encode_from (off + Packet.Size info) rest
  end.
Definition Encode (items : t) : enc := encode_from 0 items.
End FileInformationInfoResponse.

(** ** What SET_INFO carries *)

Module FileBasicInformationInfoDecoder.
Definition time (f : slice) (a b : Z) : outcome Filetime.t :=
  let! w := s_range f a b in FiletimeDecoder.Decode w.
Definition CreationTime (f : slice) : outcome Filetime.t := time f 0 8.
Definition LastAccessTime (f : slice) : outcome Filetime.t := time f 8 16.
Definition LastWriteTime (f : slice) : outcome Filetime.t := time f 16 24.
Definition ChangeTime (f : slice) : outcome Filetime.t := time f 24 32.
Definition FileAttributes (f : slice) : outcome Z := get32 f 32 36.
End FileBasicInformationInfoDecoder.

Module FileEndOfFileInformationInfoDecoder.
Definition EndOfFile (f : slice) : outcome Z := get64 f 0 8.
End FileEndOfFileInformationInfoDecoder.

Module FileDispositionInformationInfoDecoder.
Definition DeletePending (f : slice) : outcome Z := s_idx f 0.
End FileDispositionInformationInfoDecoder.

Module FileRenameInformationInfoDecoder.
Definition ReplaceIfExists (f : slice) : outcome Z := s_idx f 0.
Definition RootDirectory (f : slice) : outcome Z := get64 f 8 16.
Definition FileNameLength (f : slice) : outcome Z := get32 f 16 20.
Definition FileName (f : slice) : outcome gostring :=
  let! n := FileNameLength f in
  let! bs := s_range f 20 (u32 (20 + n)) in DecodeToString bs.
End FileRenameInformationInfoDecoder.

Module FileNotifyInformationInfo.
Record t := mk { NextEntryOffset : Z; Action : Z; FileName : gostring }.
Definition Size (i : t) : Z := 12 + EncodedStringLen (FileName i).
Definition Encode (i : t) : enc :=
  put32 0 (NextEntryOffset i) >> put32 4 (Action i)
  >> put32 8 (u32 (EncodedStringLen (FileName i))) >> at_ 12 (EncodeString (FileName i)).
End FileNotifyInformationInfo.

Module AfpInfo.
Record t := mk { Signature : bytes; Version : bytes; FileBitmap : bytes; Reserved1 : bytes;
  FinderInfo : bytes; ProDOSInfo : bytes; Reserved2 : bytes }.
Definition Size (i : t) : Z := 60.
Definition Encode (i : t) : enc :=
  copy_from 0 (Signature i) >> copy_from 4 (Version i) >> copy_from 8 (FileBitmap i)
  >> copy_from 12 (FinderInfo i) >> copy_from 44 (ProDOSInfo i).
End AfpInfo.

Module FileObjectId1.
Record t := mk { ObjectId : FileId.t; BirthVolumeId : FileId.t; BirthObjectId : FileId.t;
  DomainId : FileId.t }.
Definition Size (i : t) : Z := 64.
Definition Encode (i : t) : enc :=
  at_ 0 (FileId.Encode (Some (ObjectId i))) >> at_ 16 (FileId.Encode (Some (BirthVolumeId i)))
  >> at_ 32 (FileId.Encode (Some (BirthObjectId i))) >> at_ 48 (FileId.Encode (Some (DomainId i))).
End FileObjectId1.

Module FileFsObjectIdInfo.
Record t := mk { ObjectId : FileId.t; ExtendedInfo : bytes }.
Definition Size (i : t) : Z := 64.
Definition Encode (i : t) : enc :=
  at_ 0 (FileId.Encode (Some (ObjectId i))).
End FileFsObjectIdInfo.
