(* ===== verification/Response.v ===== *)
(** * SMB2 response messages (internal/smb2/response.go)

    The messages the server sends, and the decoders a client reads them with.
    As for the requests, one module per struct and one per decoder. *)

From S2P Require Import Prelude Const Packet Utf16 Request Dtyp.

(** ** Error responses *)

Module ErrorContextResponse.
Record t := mk { ErrorId : Z; ErrorData : Encoder }.
Definition Size (c : t) : Z := 8 + Packet.Size (ErrorData c).
Definition Encode (c : t) : enc :=
  put32 0 (u32 (Packet.Size (ErrorData c))) >> put32 4 (ErrorId c)
  >> at_ 8 (Packet.Encode (ErrorData c)).
End ErrorContextResponse.

Module ErrorContextListResponse.
Definition t := list ErrorContextResponse.t.
Definition Size (c : t) : Z :=
  foldl (fun size ec => Roundup size 8 + ErrorContextResponse.Size ec) 0 c.
Fixpoint encode_from (off : Z) (c : t) : enc :=
  match c with
  | [] => eskip
  | ec :: c =>
      let off := Roundup off 8 in
      at_ off (ErrorContextResponse.Encode ec)
      >> encode_from (off + ErrorContextResponse.Size ec) c
  end.
Definition Encode (c : t) : enc := encode_from 0 c.
End ErrorContextListResponse.

(** The error data of a response: nothing, a list of contexts, or another
    encoder. *)
Inductive error_data :=
| NoErrorData
| ContextList (l : ErrorContextListResponse.t)
| OtherErrorData (e : Encoder).

Module ErrorResponse.
Record t := mk { hdr : PacketHeader.t; ErrorData : error_data }.
Definition Size (c : t) : Z :=
  match ErrorData c with
  | NoErrorData => 64 + 8 + 1
  | ContextList l => 64 + 8 + ErrorContextListResponse.Size l
  | OtherErrorData e => 64 + 8 + Packet.Size e
  end.
(** The command is the one already in the header.  The size of the error
    data goes into the bytes 2 and 3. *)
Definition Encode (c : t) : enc :=
  PacketHeader.encodeHeader (hdr c)
  >> at_ 64 (put16 0 9
             >> match ErrorData c with
                | NoErrorData => eskip
                | ContextList l =>
                    put16 2 (u16 (ErrorContextListResponse.Size l))
                    >> at_ 8 (ErrorContextListResponse.Encode l)
                    >> put8 2 (u8 (Z.of_nat (length l)))
                | OtherErrorData e =>
                    put16 2 (u16 (Packet.Size e)) >> at_ 8 (Packet.Encode e)
                end).
End ErrorResponse.

Module ErrorResponseDecoder.
Definition StructureSize (r : slice) : outcome Z := get16 r 0 2.
Definition ErrorContextCount (r : slice) : outcome Z := s_idx r 2.
Definition ByteCount (r : slice) : outcome Z := get32 r 4 8.
(** The sum is a uint32. *)
Definition IsInvalid (r : slice) : outcome bool :=
  if s_len r <? 8 then Ok true else
  let! ss := StructureSize r in
  if negb (ss =? 9) then Ok true else
  let! n := ByteCount r in
  if u32 (s_len r) <? u32 (8 + n) then Ok true else Ok false.
Definition ErrorData (r : slice) : outcome slice :=
  let! n := ByteCount r in s_range r 8 (u32 (8 + n)).
End ErrorResponseDecoder.

Module ErrorContextResponseDecoder.
Definition ErrorDataLength (r : slice) : outcome Z := get32 r 0 4.
Definition ErrorId (r : slice) : outcome Z := get32 r 4 8.
Definition IsInvalid (r : slice) : outcome bool :=
  if s_len r <? 8 then Ok true else
  let! n := ErrorDataLength r in
  if u32 (s_len r) <? u32 (8 + n) then Ok true else Ok false.
Definition ErrorContextData (r : slice) : outcome slice :=
  let! n := ErrorDataLength r in s_range r 8 (u32 (8 + n)).
Definition Next (r : slice) : outcome Z :=
  let! n := ErrorDataLength r in Ok (8 + Roundup n 8).
End ErrorContextResponseDecoder.

Module SmallBufferErrorResponse.
Record t := mk { RequiredBufferLength : Z }.
Definition Size (c : t) : Z := 4.
Definition Encode (c : t) : enc := put32 0 (RequiredBufferLength c).
End SmallBufferErrorResponse.

Module SmallBufferErrorResponseDecoder.
Definition IsInvalid (r : slice) : bool := negb (s_len r =? 4).
Definition RequiredBufferLength (r : slice) : outcome Z := get32f r 0.
End SmallBufferErrorResponseDecoder.

(** The names are written from offset 24 on, where the flags go after them. *)
Module SymbolicLinkErrorResponse.
Record t := mk {
  UnparsedPathLength : Z; Flags : Z; SubstituteName : gostring; PrintName : gostring
}.
Definition Size (c : t) : Z :=
  28 + EncodedStringLen (SubstituteName c) + EncodedStringLen (PrintName c).
Definition Encode (c : t) : enc := fun p =>
  let slen := EncodeString_len (SubstituteName c) in
  let plen := EncodeString_len (PrintName c) in
  (at_ 24 (EncodeString (SubstituteName c))
   >> at_ (24 + slen) (EncodeString (PrintName c))
   >> put32 0 (u32 (blen p - 4))
   >> put32 4 0x4c4d5953
   >> put32 8 IO_REPARSE_TAG_SYMLINK
   >> put16 14 (UnparsedPathLength c)
   >> put32 24 (Flags c)
   >> put16 12 (u16 (blen p - 12))
   >> put16 16 0
   >> put16 18 (u16 slen)
   >> put16 20 (u16 slen)
   >> put16 22 (u16 plen)) p.
End SymbolicLinkErrorResponse.

Module SymbolicLinkErrorResponseDecoder.
Definition SymLinkLength (r : slice) : outcome Z := get32 r 0 4.
Definition SymLinkErrorTag (r : slice) : outcome Z := get32 r 4 8.
Definition ReparseTag (r : slice) : outcome Z := get32 r 8 12.
Definition ReparseDataLength (r : slice) : outcome Z := get16 r 12 14.
Definition UnparsedPathLength (r : slice) : outcome Z := get16 r 14 16.
Definition SubstituteNameOffset (r : slice) : outcome Z := get16 r 16 18.
Definition SubstituteNameLength (r : slice) : outcome Z := get16 r 18 20.
Definition PrintNameOffset (r : slice) : outcome Z := get16 r 20 22.
Definition PrintNameLength (r : slice) : outcome Z := get16 r 22 24.
Definition Flags (r : slice) : outcome Z := get32 r 24 28.
Definition PathBuffer (r : slice) : outcome slice := s_from r 28.
Definition IsInvalid (r : slice) : outcome bool :=
  if s_len r <? 28 then Ok true else
  let! tag := SymLinkErrorTag r in
  if negb (tag =? 0x4c4d5953) then Ok true else
  let! rt := ReparseTag r in
  if negb (rt =? IO_REPARSE_TAG_SYMLINK) then Ok true else
  let! tlen := SymLinkLength r in
  let! rlen := ReparseDataLength r in
  let! soff := SubstituteNameOffset r in
  let! slen := SubstituteNameLength r in
  let! poff := PrintNameOffset r in
  let! plen := PrintNameLength r in
  if negb (Z.lor (Z.land soff 1) (Z.land poff 1) =? 0) then Ok true else
  if s_len r <? 4 + tlen then Ok true else
  if tlen <? 12 + rlen then Ok true else
  if (rlen <? 12 + soff + slen) || (rlen <? 12 + poff + plen) then Ok true else Ok false.
Definition name_at (r : slice) (off len : Z) : outcome gostring :=
  let! p := PathBuffer r in
  let! bs := s_range p off (u16 (off + len)) in
  DecodeToString bs.
Definition SubstituteName (r : slice) : outcome gostring :=
  let! off := SubstituteNameOffset r in
  let! len := SubstituteNameLength r in name_at r off len.
Definition PrintName (r : slice) : outcome gostring :=
  let! off := PrintNameOffset r in
  let! len := PrintNameLength r in name_at r off len.
(** [UTF16FromString] and [UTF16ToString] of util.go are the encoder and the
    decoder of package utf16. *)
Definition SplitUnparsedPath (r : slice) (name : gostring) : outcome (gostring * gostring) :=
  let ws := utf16_Encode name in
  let! ulen := UnparsedPathLength r in
  if Z.of_nat (length ws) <? ulen / 2 then Ok ([], []) else
  let n := (length ws - Z.to_nat (ulen / 2))%nat in
  Ok (utf16_Decode (take n ws), utf16_Decode (drop n ws)).
End SymbolicLinkErrorResponseDecoder.

(** ** NEGOTIATE *)

Module NegotiateResponse.
Record t := mk {
  hdr : PacketHeader.t; SecurityMode : Z; DialectRevision : Z; ServerGuid : bytes;
  Capabilities : Z; MaxTransactSize : Z; MaxReadSize : Z; MaxWriteSize : Z;
  SystemTime : option Filetime.t; ServerStartTime : option Filetime.t;
  SecurityBuffer : bytes; Contexts : list Encoder
}.
Definition Size (c : t) : Z :=
  let size := foldl (fun size cc => Roundup size 8 + Packet.Size cc)
                (64 + blen (SecurityBuffer c)) (Contexts c) in
  if size =? 64 then 64 + 64 + 1 else 64 + size.
Fixpoint encode_contexts (i off : Z) (cs : list Encoder) : enc :=
  match cs with
  | [] => eskip
  | cc :: cs =>
      let off := Roundup off 8 in
      ewhen (i =? 0) (put32 60 (u32 (off + 64)))
      >> at_ off (Packet.Encode cc)
      >> encode_contexts (i + 1) (off + Packet.Size cc) cs
  end.
Definition Encode (c : t) : enc :=
  message SMB2_NEGOTIATE (hdr c)
    (put16 0 65
     >> put16 2 (SecurityMode c)
     >> put16 4 (DialectRevision c)
     >> copy_range 8 24 (ServerGuid c)
     >> put32 24 (Capabilities c)
     >> put32 28 (MaxTransactSize c)
     >> put32 32 (MaxReadSize c)
     >> put32 36 (MaxWriteSize c)
     >> in_ 40 48 (Filetime.Encode_ptr (SystemTime c))
     >> in_ 48 56 (Filetime.Encode_ptr (ServerStartTime c))
     >> copy_from 64 (SecurityBuffer c)
     >> put16 56 (64 + 64)
     >> put16 58 (u16 (blen (SecurityBuffer c)))
     >> encode_contexts 0 (64 + blen (SecurityBuffer c)) (Contexts c)
     >> put16 6 (u16 (Z.of_nat (length (Contexts c))))).
End NegotiateResponse.

Module NegotiateResponseDecoder.
Definition StructureSize (r : slice) : outcome Z := get16 r 0 2.
Definition SecurityMode (r : slice) : outcome Z := get16 r 2 4.
Definition DialectRevision (r : slice) : outcome Z := get16 r 4 6.
Definition ServerGuid (r : slice) : outcome slice := s_range r 8 24.
Definition Capabilities (r : slice) : outcome Z := get32 r 24 28.
Definition MaxTransactSize (r : slice) : outcome Z := get32 r 28 32.
Definition MaxReadSize (r : slice) : outcome Z := get32 r 32 36.
Definition MaxWriteSize (r : slice) : outcome Z := get32 r 36 40.
Definition SystemTime (r : slice) : outcome slice := s_range r 40 48.
Definition ServerStartTime (r : slice) : outcome slice := s_range r 48 56.
Definition SecurityBufferOffset (r : slice) : outcome Z := get16 r 56 58.
Definition SecurityBufferLength (r : slice) : outcome Z := get16 r 58 60.
Definition NegotiateContextCount (r : slice) : outcome Z := get16 r 6 8.
Definition NegotiateContextOffset (r : slice) : outcome Z := get32 r 60 64.
Definition IsInvalid (r : slice) : outcome bool :=
  if s_len r <? 64 then Ok true else
  let! ss := StructureSize r in
  if negb (ss =? 65) then Ok true else
  let! off := SecurityBufferOffset r in
  let! len := SecurityBufferLength r in
  if s_len r <? u16 (off + len) - 64 then Ok true else
  let! d := DialectRevision r in
  if d =? SMB311 then
    let! noff := NegotiateContextOffset r in
    if has noff 7 then Ok true else
    if s_len r <? noff - 64 then Ok true else Ok false
  else Ok false.
Definition SecurityBuffer (r : slice) : outcome slice :=
  let! off := SecurityBufferOffset r in
  if off <? 64 + 64 then Ok nil_slice else
  let off := off - 64 in
  let! len := SecurityBufferLength r in
  s_range r off (u16 (off + len)).
Definition NegotiateContextList (r : slice) : outcome slice :=
  let! off := NegotiateContextOffset r in
  if off <? 64 then Ok nil_slice else s_from r (off - 64).
End NegotiateResponseDecoder.

(** ** SESSION_SETUP *)

Module SessionSetupResponse.
Record t := mk { hdr : PacketHeader.t; SessionFlags : Z; SecurityBuffer : bytes }.
Definition Size (c : t) : Z :=
  if blen (SecurityBuffer c) =? 0 then 64 + 8 + 1 else 64 + 8 + blen (SecurityBuffer c).
Definition Encode (c : t) : enc :=
  message SMB2_SESSION_SETUP (hdr c)
    (put16 0 9
     >> put16 2 (SessionFlags c)
     >> ewhen (negb (blen (SecurityBuffer c) =? 0))
          (put16 4 (8 + 64)
           >> copy_from 8 (SecurityBuffer c)
           >> put16 6 (u16 (blen (SecurityBuffer c))))).
End SessionSetupResponse.

Module SessionSetupResponseDecoder.
Definition StructureSize (r : slice) : outcome Z := get16 r 0 2.
Definition SessionFlags (r : slice) : outcome Z := get16 r 2 4.
Definition SecurityBufferOffset (r : slice) : outcome Z := get16 r 4 6.
Definition SecurityBufferLength (r : slice) : outcome Z := get16 r 6 8.
Definition IsInvalid (r : slice) : outcome bool :=
  if s_len r <? 8 then Ok true else
  let! ss := StructureSize r in
  if negb (ss =? 9) then Ok true else
  let! off := SecurityBufferOffset r in
  let! len := SecurityBufferLength r in
  if s_len r <? u16 (off + len) - 64 then Ok true else Ok false.
Definition SecurityBuffer (r : slice) : outcome slice :=
  let! off := SecurityBufferOffset r in
  if off <? 8 + 64 then Ok nil_slice else
  let off := off - 64 in
  let! len := SecurityBufferLength r in
  s_range r off (u16 (off + len)).
End SessionSetupResponseDecoder.

(** ** LOGOFF *)

Module LogoffResponse.
Record t := mk { hdr : PacketHeader.t }.
Definition Size (c : t) : Z := 64 + 4.
Definition Encode (c : t) : enc := message SMB2_LOGOFF (hdr c) (put16 0 4).
End LogoffResponse.

Module LogoffResponseDecoder.
Definition StructureSize (r : slice) : outcome Z := get16 r 0 2.
Definition IsInvalid (r : slice) : outcome bool :=
  if s_len r <? 4 then Ok true else
  let! ss := StructureSize r in
  if negb (ss =? 4) then Ok true else Ok false.
End LogoffResponseDecoder.

(** ** TREE_CONNECT and TREE_DISCONNECT *)

Module TreeConnectResponse.
Record t := mk {
  hdr : PacketHeader.t; ShareType : Z; ShareFlags : Z; Capabilities : Z; MaximalAccess : Z
}.
Definition Size (c : t) : Z := 64 + 16.
Definition Encode (c : t) : enc :=
  message SMB2_TREE_CONNECT (hdr c)
    (put16 0 16
     >> put8 2 (ShareType c)
     >> put32 4 (ShareFlags c)
     >> put32 8 (Capabilities c)
     >> put32 12 (MaximalAccess c)).
End TreeConnectResponse.

Module TreeConnectResponseDecoder.
Definition StructureSize (r : slice) : outcome Z := get16 r 0 2.
Definition ShareType (r : slice) : outcome Z := s_idx r 2.
Definition ShareFlags (r : slice) : outcome Z := get32 r 4 8.
Definition Capabilities (r : slice) : outcome Z := get32 r 8 12.
Definition MaximalAccess (r : slice) : outcome Z := get32 r 12 16.
Definition IsInvalid (r : slice) : outcome bool :=
  if s_len r <? 16 then Ok true else
  let! ss := StructureSize r in
  if negb (ss =? 16) then Ok true else Ok false.
End TreeConnectResponseDecoder.

Module TreeDisconnectResponse.
Record t := mk { hdr : PacketHeader.t }.
Definition Size (c : t) : Z := 4 + 64.
Definition Encode (c : t) : enc := message SMB2_TREE_DISCONNECT (hdr c) (put16 0 4).
End TreeDisconnectResponse.

Module TreeDisconnectResponseDecoder.
Definition StructureSize (r : slice) : outcome Z := get16 r 0 2.
Definition IsInvalid (r : slice) : outcome bool :=
  if s_len r <? 4 then Ok true else
  let! ss := StructureSize r in
  if negb (ss =? 4) then Ok true else Ok false.
End TreeDisconnectResponseDecoder.

(** ** CREATE *)

(** A time is written only when its pointer is not nil. *)
Definition put_time (a b : Z) (ft : option Filetime.t) : enc :=
  match ft with None => eskip | Some ft => in_ a b (Filetime.Encode ft) end.

Module CreateResponse.
Record t := mk {
  hdr : PacketHeader.t; OplockLevel : Z; RspFlags : Z; CreateAction : Z;
  CreationTime : option Filetime.t; LastAccessTime : option Filetime.t;
  LastWriteTime : option Filetime.t; ChangeTime : option Filetime.t;
  AllocationSize : Z; EndofFile : Z; FileAttributes : Z; FileId : option FileId.t;
  Contexts : list Encoder
}.
Definition Size (c : t) : Z :=
  match Contexts c with
  | [] => 64 + 88 + 1
  | cs => foldl (fun size ctx => Roundup size 8 + Packet.Size ctx) (64 + 88) cs
  end.
(** As for the request: the Next field of the previous context is filled in
    before a context is written. *)
Fixpoint encode_contexts (i off ctxOff : Z) (cs : list Encoder) : enc :=
  match cs with
  | [] => eskip
  | c :: cs =>
      let off := Roundup off 8 in
      (if i =? 0 then put32 80 (u32 (64 + off)) else at_ ctxOff (put32 0 (u32 (off - ctxOff))))
      >> at_ off (Packet.Encode c)
      >> encode_contexts (i + 1) (off + Packet.Size c) off cs
  end.
Definition Encode (c : t) : enc :=
  let firstCtxOff := match Contexts c with [] => 0 | _ => Roundup 88 8 end in
  message SMB2_CREATE (hdr c)
    (put16 0 89
     >> put8 2 (OplockLevel c)
     >> put8 3 (RspFlags c)
     >> put32 4 (CreateAction c)
     >> put_time 8 16 (CreationTime c)
     >> put_time 16 24 (LastAccessTime c)
     >> put_time 24 32 (LastWriteTime c)
     >> put_time 32 40 (ChangeTime c)
     >> put64 40 (u64 (AllocationSize c))
     >> put64 48 (u64 (EndofFile c))
     >> put32 56 (FileAttributes c)
     >> in_ 64 80 (FileId.Encode (FileId c))
     >> encode_contexts 0 88 0 (Contexts c)
     >> ewhen (negb (firstCtxOff =? 0))
          (put32 84 (u32 (CreateRequest.contexts_end 88 (Contexts c) - firstCtxOff)))).
End CreateResponse.

Module CreateResponseDecoder.
Definition StructureSize (r : slice) : outcome Z := get16 r 0 2.
Definition OplockLevel (r : slice) : outcome Z := s_idx r 2.
Definition Flags (r : slice) : outcome Z := s_idx r 3.
Definition CreateAction (r : slice) : outcome Z := get32 r 4 8.
Definition CreationTime (r : slice) : outcome slice := s_range r 8 16.
Definition LastAccessTime (r : slice) : outcome slice := s_range r 16 24.
Definition LastWriteTime (r : slice) : outcome slice := s_range r 24 32.
Definition ChangeTime (r : slice) : outcome slice := s_range r 32 40.
Definition AllocationSize (r : slice) : outcome Z := let! v := get64 r 40 48 in Ok (s64 v).
Definition EndofFile (r : slice) : outcome Z := let! v := get64 r 48 56 in Ok (s64 v).
Definition FileAttributes (r : slice) : outcome Z := get32 r 56 60.
Definition FileId (r : slice) : outcome slice := s_range r 64 80.
Definition CreateContextsOffset (r : slice) : outcome Z := get32 r 80 84.
Definition CreateContextsLength (r : slice) : outcome Z := get32 r 84 88.
Definition IsInvalid (r : slice) : outcome bool :=
  if s_len r <? 88 then Ok true else
  let! ss := StructureSize r in
  if negb (ss =? 89) then Ok true else
  let! coff := CreateContextsOffset r in
  if has coff 7 then Ok true else
  let! clen := CreateContextsLength r in
  if s_len r <? u32 (coff + clen) - 64 then Ok true else Ok false.
Definition CreateContexts (r : slice) : outcome slice :=
  let! off := CreateContextsOffset r in
  if off <? 88 + 64 then Ok nil_slice else
  let off := off - 64 in
  let! len := CreateContextsLength r in
  s_range r off (u32 (off + len)).
End CreateResponseDecoder.

Module CreateContext.
Record t := mk { Name : bytes; Data : Encoder }.
Definition Size (r : t) : Z := Roundup (16 + blen (Name r)) 8 + Packet.Size (Data r).
Definition Encode (r : t) : enc :=
  let off := Roundup (16 + blen (Name r)) 8 in
  put16 4 16
  >> put16 6 (u16 (blen (Name r)))
  >> put16 10 (u16 off)
  >> put32 12 (u32 (Packet.Size (Data r)))
  >> copy_from 16 (Name r)
  >> at_ off (Packet.Encode (Data r)).
End CreateContext.

Module CreateContextMaximalAccessResponse.
Record t := mk { QueryStatus : Z; MaximalAccess : Z }.
Definition Size (r : t) : Z := 8.
Definition Encode (r : t) : enc := put32 0 (QueryStatus r) >> put32 4 (MaximalAccess r).
End CreateContextMaximalAccessResponse.

(** ** CLOSE *)

Module CloseResponse.
Record t := mk {
  hdr : PacketHeader.t; CloseFlags : Z;
  CreationTime : option Filetime.t; LastAccessTime : option Filetime.t;
  LastWriteTime : option Filetime.t; ChangeTime : option Filetime.t;
  AllocationSize : Z; EndofFile : Z; FileAttributes : Z
}.
Definition Size (c : t) : Z := 64 + 60.
Definition Encode (c : t) : enc :=
  message SMB2_CLOSE (hdr c)
    (put16 0 60
     >> put16 2 (CloseFlags c)
     >> put_time 8 16 (CreationTime c)
     >> put_time 16 24 (LastAccessTime c)
     >> put_time 24 32 (LastWriteTime c)
     >> put_time 32 40 (ChangeTime c)
     >> put64 40 (u64 (AllocationSize c))
     >> put64 48 (u64 (EndofFile c))
     >> put32 56 (FileAttributes c)).
End CloseResponse.

Module CloseResponseDecoder.
Definition StructureSize (r : slice) : outcome Z := get16 r 0 2.
Definition Flags (r : slice) : outcome Z := get16 r 2 4.
Definition CreationTime (r : slice) : outcome slice := s_range r 8 16.
Definition LastAccessTime (r : slice) : outcome slice := s_range r 16 24.
Definition LastWriteTime (r : slice) : outcome slice := s_range r 24 32.
Definition ChangeTime (r : slice) : outcome slice := s_range r 32 40.
Definition AllocationSize (r : slice) : outcome Z := let! v := get64 r 40 48 in Ok (s64 v).
Definition EndofFile (r : slice) : outcome Z := let! v := get64 r 48 56 in Ok (s64 v).
Definition FileAttributes (r : slice) : outcome Z := get32 r 56 60.
Definition IsInvalid (r : slice) : outcome bool :=
  if s_len r <? 60 then Ok true else
  let! ss := StructureSize r in
  if negb (ss =? 60) then Ok true else Ok false.
End CloseResponseDecoder.

(** ** FLUSH *)

Module FlushResponse.
Record t := mk { hdr : PacketHeader.t }.
Definition Size (c : t) : Z := 64 + 4.
Definition Encode (c : t) : enc := message SMB2_FLUSH (hdr c) (put16 0 4).
End FlushResponse.

Module FlushResponseDecoder.
Definition StructureSize (r : slice) : outcome Z := get16 r 0 2.
Definition IsInvalid (r : slice) : outcome bool :=
  if s_len r <? 4 then Ok true else
  let! ss := StructureSize r in
  if negb (ss =? 4) then Ok true else Ok false.
End FlushResponseDecoder.

(** ** READ *)

Module ReadResponse.
Record t := mk { hdr : PacketHeader.t; Data : bytes; DataRemaining : Z }.
Definition Size (c : t) : Z :=
  if blen (Data c) =? 0 then 64 + 16 + 1 else 64 + 16 + blen (Data c).
Definition Encode (c : t) : enc :=
  message SMB2_READ (hdr c)
    (put16 0 17
     >> put8 2 (16 + 64)
     >> copy_from 16 (Data c)
     >> put32 4 (u32 (blen (Data c)))
     >> put32 8 (DataRemaining c)).
End ReadResponse.

Module ReadResponseDecoder.
Definition StructureSize (r : slice) : outcome Z := get16 r 0 2.
Definition DataOffset (r : slice) : outcome Z := s_idx r 2.
Definition DataLength (r : slice) : outcome Z := get32 r 4 8.
Definition DataRemaining (r : slice) : outcome Z := get32 r 8 12.
Definition IsInvalid (r : slice) : outcome bool :=
  if s_len r <? 16 then Ok true else
  let! ss := StructureSize r in
  if negb (ss =? 17) then Ok true else
  let! off := DataOffset r in
  let! len := DataLength r in
  if s_len r <? u32 (off + len) - 64 then Ok true else Ok false.
Definition Data (r : slice) : outcome slice :=
  let! off := DataOffset r in
  if off <? 16 + 64 then Ok nil_slice else
  let off := off - 64 in
  let! len := DataLength r in
  s_range r off (u32 (off + len)).
End ReadResponseDecoder.

(** ** WRITE *)

Module WriteResponse.
Record t := mk { hdr : PacketHeader.t; Count : Z; Remaining : Z }.
Definition Size (c : t) : Z := 64 + 16 + 1.
Definition Encode (c : t) : enc :=
  message SMB2_WRITE (hdr c) (put16 0 17 >> put32 4 (Count c) >> put32 8 (Remaining c)).
End WriteResponse.

Module WriteResponseDecoder.
Definition StructureSize (r : slice) : outcome Z := get16 r 0 2.
Definition Count (r : slice) : outcome Z := get32 r 4 8.
Definition Remaining (r : slice) : outcome Z := get32 r 8 12.
Definition WriteChannelInfoOffset (r : slice) : outcome Z := get16 r 12 14.
Definition WriteChannelInfoLength (r : slice) : outcome Z := get16 r 14 16.
Definition IsInvalid (r : slice) : outcome bool :=
  if s_len r <? 16 then Ok true else
  let! ss := StructureSize r in
  if negb (ss =? 17) then Ok true else Ok false.
End WriteResponseDecoder.

(** ** LOCK and ECHO *)

Module LockResponse.
Record t := mk { hdr : PacketHeader.t }.
Definition Size (c : t) : Z := 64 + 4.
Definition Encode (c : t) : enc := message SMB2_LOCK (hdr c) (put16 0 4 >> put16 2 0).
End LockResponse.

Module EchoResponse.
Record t := mk { hdr : PacketHeader.t }.
Definition Size (c : t) : Z := 64 + 4.
Definition Encode (c : t) : enc := message SMB2_ECHO (hdr c) (put16 0 4 >> put16 2 0).
End EchoResponse.

(** ** IOCTL *)

Module IoctlResponse.
Record t := mk {
  hdr : PacketHeader.t; CtlCode : Z; FileId : option FileId.t; Flags2 : Z;
  Input : option Encoder; Output : option Encoder
}.
Definition opt_size (e : option Encoder) : Z :=
  match e with None => 0 | Some e => Packet.Size e end.
Definition Size (c : t) : Z :=
  match Input c, Output c with
  | None, None => 64 + 48 + 1
  | i, o => 64 + 48 + opt_size i + opt_size o
  end.
Definition Encode (c : t) : enc :=
  let off := 48 + opt_size (Input c) in
  message SMB2_IOCTL (hdr c)
    (put16 0 49
     >> put32 4 (CtlCode c)
     >> in_ 8 24 (FileId.Encode (FileId c))
     >> put32 40 (Flags2 c)
     >> match Input c with
        | None => eskip
        | Some i => put32 24 (u32 (48 + 64)) >> at_ 48 (Packet.Encode i)
                    >> put32 28 (u32 (Packet.Size i))
        end
     >> match Output c with
        | None => eskip
        | Some o => put32 32 (u32 (off + 64)) >> at_ off (Packet.Encode o)
                    >> put32 36 (u32 (Packet.Size o))
        end).
End IoctlResponse.

Module IoctlResponseDecoder.
Definition StructureSize (r : slice) : outcome Z := get16 r 0 2.
Definition CtlCode (r : slice) : outcome Z := get32 r 4 8.
Definition FileId (r : slice) : outcome slice := s_range r 8 24.
Definition InputOffset (r : slice) : outcome Z := get32 r 24 28.
Definition InputCount (r : slice) : outcome Z := get32 r 28 32.
Definition OutputOffset (r : slice) : outcome Z := get32 r 32 36.
Definition OutputCount (r : slice) : outcome Z := get32 r 36 40.
Definition Flags (r : slice) : outcome Z := get32 r 40 44.
Definition IsInvalid (r : slice) : outcome bool :=
  if s_len r <? 48 then Ok true else
  let! ss := StructureSize r in
  if negb (ss =? 49) then Ok true else
  let! ioff := InputOffset r in
  let! icnt := InputCount r in
  if s_len r <? u32 (ioff + icnt) - 64 then Ok true else
  let! ooff := OutputOffset r in
  let! ocnt := OutputCount r in
  if s_len r <? u32 (ooff + ocnt) - 64 then Ok true else Ok false.
Definition Input (r : slice) : outcome slice :=
  let! off := InputOffset r in
  if off <? 64 + 48 then Ok nil_slice else
  let off := off - 64 in
  let! len := InputCount r in
  s_range r off (u32 (off + len)).
Definition Output (r : slice) : outcome slice :=
  let! off := OutputOffset r in
  if off <? 64 + 48 then Ok nil_slice else
  let off := off - 64 in
  let! len := OutputCount r in
  s_range r off (u32 (off + len)).
End IoctlResponseDecoder.

(** ** QUERY_DIRECTORY, QUERY_INFO, SET_INFO and CHANGE_NOTIFY *)

Module QueryDirectoryResponse.
Record t := mk { hdr : PacketHeader.t; Output : option Encoder }.
Definition Size (c : t) : Z :=
  match Output c with None => 64 + 8 + 1 | Some o => 64 + 8 + Packet.Size o end.
Definition Encode (c : t) : enc :=
  message SMB2_QUERY_DIRECTORY (hdr c)
    (put16 0 9
     >> match Output c with
        | None => eskip
        | Some o => put16 2 (u16 (8 + 64)) >> at_ 8 (Packet.Encode o) >> put32 4 (u32 (Packet.Size o))
        end).
End QueryDirectoryResponse.

Module QueryDirectoryResponseDecoder.
Definition StructureSize (r : slice) : outcome Z := get16 r 0 2.
Definition OutputBufferOffset (r : slice) : outcome Z := get16 r 2 4.
Definition OutputBufferLength (r : slice) : outcome Z := get32 r 4 8.
Definition IsInvalid (r : slice) : outcome bool :=
  if s_len r <? 8 then Ok true else
  let! ss := StructureSize r in
  if negb (ss =? 9) then Ok true else
  let! off := OutputBufferOffset r in
  let! len := OutputBufferLength r in
  if s_len r <? u32 (off + len) - 64 then Ok true else Ok false.
Definition OutputBuffer (r : slice) : outcome slice :=
  let! off := OutputBufferOffset r in
  if off <? 64 + 8 then Ok nil_slice else
  let off := off - 64 in
  let! len := OutputBufferLength r in
  s_range r off (u32 (off + len)).
End QueryDirectoryResponseDecoder.

Module QueryInfoResponse.
Record t := mk { hdr : PacketHeader.t; Output : option Encoder }.
Definition Size (c : t) : Z :=
  match Output c with None => 64 + 8 + 1 | Some o => 64 + 8 + Packet.Size o end.
Definition Encode (c : t) : enc :=
  message SMB2_QUERY_INFO (hdr c)
    (put16 0 9
     >> match Output c with
        | None => eskip
        | Some o => put16 2 (u16 (8 + 64)) >> at_ 8 (Packet.Encode o) >> put32 4 (u32 (Packet.Size o))
        end).
End QueryInfoResponse.

Module QueryInfoResponseDecoder.
Definition StructureSize (r : slice) : outcome Z := get16 r 0 2.
Definition OutputBufferOffset (r : slice) : outcome Z := get16 r 2 4.
Definition OutputBufferLength (r : slice) : outcome Z := get32 r 4 8.
Definition IsInvalid (r : slice) : outcome bool :=
  if s_len r <? 8 then Ok true else
  let! ss := StructureSize r in
  if negb (ss =? 9) then Ok true else
  let! off := OutputBufferOffset r in
  let! len := OutputBufferLength r in
  if s_len r <? u32 (off + len) - 64 then Ok true else Ok false.
Definition OutputBuffer (r : slice) : outcome slice :=
  let! off := OutputBufferOffset r in
  if off <? 64 + 8 then Ok nil_slice else
  let off := off - 64 in
  let! len := OutputBufferLength r in
  s_range r off (u32 (off + len)).
End QueryInfoResponseDecoder.

Module SetInfoResponse.
Record t := mk { hdr : PacketHeader.t }.
Definition Size (c : t) : Z := 64 + 2.
Definition Encode (c : t) : enc := message SMB2_SET_INFO (hdr c) (put16 0 2).
End SetInfoResponse.

Module SetInfoResponseDecoder.
Definition StructureSize (r : slice) : outcome Z := get16 r 0 2.
Definition IsInvalid (r : slice) : outcome bool :=
  if s_len r <? 2 then Ok true else
  let! ss := StructureSize r in
  if negb (ss =? 2) then Ok true else Ok false.
End SetInfoResponseDecoder.

Module ChangeNotifyResponse.
Record t := mk { hdr : PacketHeader.t; Output : option Encoder }.
Definition Size (c : t) : Z :=
  match Output c with None => 64 + 8 + 1 | Some o => 64 + 8 + Packet.Size o end.
Definition Encode (c : t) : enc :=
  message SMB2_CHANGE_NOTIFY (hdr c)
    (put16 0 9
     >> match Output c with
        | None => eskip
        | Some o => put16 2 (u16 (8 + 64)) >> at_ 8 (Packet.Encode o) >> put32 4 (u32 (Packet.Size o))
        end).
End ChangeNotifyResponse.

(** ** Create context responses *)

Module AAPLServerQueryResponse.
Record t := mk {
  CommandCode : Z; Reserved : Z; ReplyBitmap : Z; ServerCaps : Z; VolumeCaps : Z;
  ModelString : gostring
}.
Definition Size (r : t) : Z := Roundup (40 + EncodedStringLen (ModelString r)) 8.
Definition Encode (r : t) : enc :=
  put32 0 (CommandCode r)
  >> put64 8 (ReplyBitmap r)
  >> put64 16 (ServerCaps r)
  >> put64 24 (VolumeCaps r)
  >> put32 36 (u32 (EncodedStringLen (ModelString r)))
  >> at_ 40 (EncodeString (ModelString r)).
End AAPLServerQueryResponse.

Module DurableHandleResponse2.
Record t := mk { Timeout : Z; Flags : Z }.
Definition Size (r : t) : Z := 8.
Definition Encode (r : t) : enc := put32 0 (Timeout r) >> put32 4 (Flags r).
End DurableHandleResponse2.

Module LeaseResponse.
Record t := mk { LeaseKey : bytes; LeaseState : Z; LeaseFlags : Z; LeaseDuration : Z }.
Definition Size (r : t) : Z := 32.
Definition Encode (r : t) : enc :=
  copy_from 0 (LeaseKey r) >> put32 16 (LeaseState r) >> put32 20 (LeaseFlags r)
  >> put64 24 (LeaseDuration r).
End LeaseResponse.

Module LeaseResponse2.
Record t := mk { base : LeaseResponse.t; ParentLeaseKey : bytes; Epoch : Z }.
Definition Size (r : t) : Z := 52.
Definition Encode (r : t) : enc :=
  LeaseResponse.Encode (base r) >> copy_from 32 (ParentLeaseKey r) >> put16 48 (Epoch r).
End LeaseResponse2.

Module DiskIdResponse.
Record t := mk { DiskFileId : Z; VolumeId : Z }.
Definition Size (r : t) : Z := 32.
Definition Encode (r : t) : enc := put64 0 (DiskFileId r) >> put64 8 (VolumeId r).
End DiskIdResponse.

(** ** Properties *)

(** A READ response carries the data that was read.  For every payload
    that fits a 32-bit length with its header, the message is encoded, the
    decoder accepts it, and the data and the remaining count are read back. *)
Theorem read_response_roundtrip (c : ReadResponse.t) :
  PacketHeader.wf (ReadResponse.hdr c) -> blen (ReadResponse.Data c) < 2 ^ 32 - 80 ->
  in32 (ReadResponse.DataRemaining c) ->
  exists pkt r d,
    ReadResponse.Encode c (zeros (ReadResponse.Size c)) = Ok pkt
    /\ PacketCodec.Command (of_bytes pkt) = Ok SMB2_READ
    /\ PacketCodec.Data (of_bytes pkt) = Ok r
    /\ ReadResponseDecoder.IsInvalid r = Ok false
    /\ ReadResponseDecoder.DataRemaining r = Ok (ReadResponse.DataRemaining c)
    /\ ReadResponseDecoder.Data r = Ok d /\ s_bytes d = ReadResponse.Data c.
Proof.
  intros Hw Hd Hr. set (d := ReadResponse.Data c) in *. pose proof (blen_nonneg d) as H0.
  assert (Hsz : 80 + blen d <= ReadResponse.Size c).
  { unfold ReadResponse.Size. fold d. destruct (Z.eqb_spec (blen d) 0); lia. }
  edestruct (message_elim SMB2_READ (ReadResponse.hdr c)) with
    (P := fun q => let r := of_bytes q in
      ReadResponseDecoder.IsInvalid r = Ok false
      /\ ReadResponseDecoder.DataRemaining r = Ok (ReadResponse.DataRemaining c)
      /\ exists t, ReadResponseDecoder.Data r = Ok t /\ s_bytes t = d)
    as (pkt & q & Hm & Hcmd & Hdt & HP); cycle 4.
  { destruct HP as (?&?&(t&?&?)). exists pkt, (of_bytes q), t. split_and!; done. }
  1-3: first [done | ints; done | lia].
  eexists. split; [unfold eseq; fold d; repeat body_step; reflexivity|].
  set (q := splice 8 _ _).
  assert (Hq : blen q = ReadResponse.Size c - 64) by (unfold q; len).
  assert (E : sub 0 2 q = le_enc 2 17 /\ sub 2 1 q = [80 mod 256]
    /\ sub 4 4 q = le_enc 4 (u32 (blen d)) /\ sub 8 4 q = le_enc 4 (ReadResponse.DataRemaining c)
    /\ sub 16 (blen d) q = d) by (unfold q; split_and!; by reads).
  destruct E as (E0 & E2 & E4 & E8 & E16). clearbody q. cbv zeta.
  unfold ReadResponseDecoder.IsInvalid, ReadResponseDecoder.DataRemaining, ReadResponseDecoder.Data,
    ReadResponseDecoder.StructureSize, ReadResponseDecoder.DataOffset, ReadResponseDecoder.DataLength.
  change (2 ^ 32) with 4294967296 in Hd.
  decode. split_and!; [done..|].
  destruct (range_field q (80 - 64) (80 - 64 + blen d) d) as (t & -> & Hb & _); [|lia..|].
  - by replace (80 - 64 + blen d - (80 - 64)) with (blen d) by lia.
  - by exists t.
Qed.

Lemma read_response_roundtrip_witness :
  exists pkt r d,
    ReadResponse.Encode (ReadResponse.mk PacketHeader.zero [1; 2; 3] 0) (zeros 83) = Ok pkt
    /\ PacketCodec.Data (of_bytes pkt) = Ok r
    /\ ReadResponseDecoder.Data r = Ok d /\ s_bytes d = [1; 2; 3].
Proof.
  destruct (read_response_roundtrip (ReadResponse.mk PacketHeader.zero [1; 2; 3] 0))
    as (pkt & r & d & Hq & _ & Hd & _ & _ & Hdt & Hb).
  - unfold PacketHeader.wf. ints. simpl. lia.
  - vm_compute. reflexivity.
  - ints. simpl. lia.
  - exists pkt, r, d. split; [exact Hq|]. split; [exact Hd|]. split; [exact Hdt|exact Hb].
Defined.

(** The data of an error response is lost.  [Encode] stores the length
    of the error data where the decoder keeps the context count, and leaves
    the byte count zero: for a buffer-too-small error with its required
    length, the decoder finds no data and four contexts. *)
Theorem error_response_data_lost :
  let e := mkEncoder 4 (SmallBufferErrorResponse.Encode (SmallBufferErrorResponse.mk 4096)) in
  exists pkt r d,
    ErrorResponse.Encode (ErrorResponse.mk PacketHeader.zero (OtherErrorData e))
      (zeros (ErrorResponse.Size (ErrorResponse.mk PacketHeader.zero (OtherErrorData e)))) = Ok pkt
    /\ PacketCodec.Data (of_bytes pkt) = Ok r
    /\ ErrorResponseDecoder.IsInvalid r = Ok false
    /\ ErrorResponseDecoder.ErrorContextCount r = Ok 4
    /\ ErrorResponseDecoder.ErrorData r = Ok d /\ s_bytes d = [].
Proof.
  eexists _, _, _. split; [vm_compute; reflexivity|]. split; [vm_compute; reflexivity|].
  split_and!; vm_compute; reflexivity.
Qed.
