(* ===== verification/Contexts.v ===== *)
(** * Negotiate contexts (internal/smb2/smb2.go)

    The SMB 3.1.1 negotiate contexts: their encoders, the decoders the server
    walks the client's list with, and the round trips. *)

From S2P Require Import Prelude Const Packet Utf16 Dtyp.

Definition SMB3PosixExtensionsTag : bytes :=
  [0x93; 0xad; 0x25; 0x50; 0x9c; 0xb4; 0x11; 0xe7; 0xb4; 0x23; 0x83; 0xde; 0x96; 0x8b; 0xcd; 0x7c].

Module NegotiateContextDecoder.
Definition ContextType (ctx : slice) : outcome Z := get16 ctx 0 2.
Definition DataLength (ctx : slice) : outcome Z := get16 ctx 2 4.
Definition IsInvalid (ctx : slice) : outcome bool :=
  if s_len ctx <? 8 then Ok true else
  let! n := DataLength ctx in
  if s_len ctx <? 8 + n then Ok true else Ok false.
(** [8+len] is a uint16. *)
Definition Data (ctx : slice) : outcome slice :=
  let! n := DataLength ctx in s_range ctx 8 (u16 (8 + n)).
Definition IsSMB3Posix (ctx : slice) : outcome bool :=
  let! data := Data ctx in
  let! ty := ContextType ctx in
  Ok ((ty =? SMB3_POSIX_EXTENSIONS_AVAILABLE) && (s_len data =? 16)
      && bool_decide (s_bytes data = SMB3PosixExtensionsTag)).
Definition Next (ctx : slice) : outcome Z :=
  let! n := DataLength ctx in Ok (Roundup (8 + n) 8).
End NegotiateContextDecoder.

(** [d := NegotiateContextDecoder(p).Data()] and then stores into [d]: the
    body is given the length of [d]; its stores may reach the end of [p],
    which is the capacity of [d]. *)
Definition into_data (body : Z -> enc) : enc := fun p =>
  let! d := NegotiateContextDecoder.Data (of_bytes p) in
  at_ 8 (body (s_len d)) p.

(** [d[a:]] of a slice of length [l]. *)
Definition within (a l : Z) (e : enc) : enc := fun p =>
  if (0 <=? a) && (a <=? l) then e p else Panic.

Module HashContext.
Record t := mk { HashAlgorithms : list Z; HashSalt : bytes }.
Definition algs_size (c : t) : Z := Z.of_nat (length (HashAlgorithms c)) * 2.
Definition Size (c : t) : Z := 8 + 4 + algs_size c + blen (HashSalt c).
Definition Encode (c : t) : enc :=
  put16 0 SMB2_PREAUTH_INTEGRITY_CAPABILITIES
  >> put16 2 (u16 (4 + algs_size c + blen (HashSalt c)))
  >> into_data (fun l =>
       within 4 l (at_ 4 (put16s 0 (HashAlgorithms c)))
       >> put16 0 (u16 (Z.of_nat (length (HashAlgorithms c))))
       >> within (4 + algs_size c) l
            (copy_from (4 + algs_size c) (upto (l - (4 + algs_size c)) (HashSalt c)))
       >> put16 2 (u16 (blen (HashSalt c)))).
Definition encoder (c : t) : Encoder := mkEncoder (Size c) (Encode c).
End HashContext.

Module CipherContext.
Record t := mk { Ciphers : list Z }.
Definition Size (c : t) : Z := 8 + 2 + Z.of_nat (length (Ciphers c)) * 2.
Definition Encode (c : t) : enc :=
  put16 0 SMB2_ENCRYPTION_CAPABILITIES
  >> put16 2 (u16 (2 + Z.of_nat (length (Ciphers c)) * 2))
  >> into_data (fun l =>
       within 2 l (at_ 2 (put16s 0 (Ciphers c)))
       >> put16 0 (u16 (Z.of_nat (length (Ciphers c))))).
Definition encoder (c : t) : Encoder := mkEncoder (Size c) (Encode c).
End CipherContext.

Module CompressionContext.
Record t := mk { Compressions : list Z; Flags : Z }.
Definition Size (c : t) : Z := 16 + Z.of_nat (length (Compressions c)) * 2.
Definition Encode (c : t) : enc :=
  put16 0 SMB2_COMPRESSION_CAPABILITIES
  >> put16 2 (u16 (8 + Z.of_nat (length (Compressions c)) * 2))
  >> into_data (fun l =>
       within 8 l (at_ 8 (put16s 0 (Compressions c)))
       >> put16 0 (u16 (Z.of_nat (length (Compressions c))))
       >> within 4 l (put32 4 (Flags c))).
Definition encoder (c : t) : Encoder := mkEncoder (Size c) (Encode c).
End CompressionContext.

Module PosixContext.
Definition Size : Z := 8 + 16.
Definition Encode : enc :=
  put16 0 SMB3_POSIX_EXTENSIONS_AVAILABLE
  >> put16 2 16
  >> into_data (fun l => copy_from 0 (upto l SMB3PosixExtensionsTag)).
Definition encoder : Encoder := mkEncoder Size Encode.
End PosixContext.

Module HashContextDataDecoder.
Definition HashAlgorithmCount (h : slice) : outcome Z := get16 h 0 2.
Definition SaltLength (h : slice) : outcome Z := get16 h 2 4.
Definition IsInvalid (h : slice) : outcome bool :=
  if s_len h <? 4 then Ok true else
  let! n := HashAlgorithmCount h in
  let! l := SaltLength h in
  if s_len h <? 4 + n * 2 + l then Ok true else Ok false.
Definition HashAlgorithms (h : slice) : outcome (list Z) :=
  let! bs := s_from h 4 in
  let! n := HashAlgorithmCount h in
  get16s bs 0 (Z.to_nat n).
(** The offsets are uint16. *)
Definition Salt (h : slice) : outcome slice :=
  let! n := HashAlgorithmCount h in
  let off := u16 (4 + u16 (n * 2)) in
  let! l := SaltLength h in
  s_range h off (u16 (off + l)).
End HashContextDataDecoder.

Module CipherContextDataDecoder.
Definition CipherCount (c : slice) : outcome Z := get16 c 0 2.
Definition IsInvalid (c : slice) : outcome bool :=
  if s_len c <? 2 then Ok true else
  let! n := CipherCount c in
  if s_len c <? 2 + n * 2 then Ok true else Ok false.
Definition Ciphers (c : slice) : outcome (list Z) :=
  let! bs := s_from c 2 in
  let! n := CipherCount c in
  get16s bs 0 (Z.to_nat n).
End CipherContextDataDecoder.

Module QueryQuotaInfo.
Record t := mk { ReturnSingle : bool; RestartScan : bool; Sids : list Sid.t }.
Definition Size (q : t) : Z :=
  match Sids q with
  | [] => 16
  | [s] => 16 + Sid.Size s
  | ss => foldl (fun l s => l + (8 + Sid.Size s)) 16 ss
  end.
Fixpoint encode_sids (off : Z) (ss : list Sid.t) : enc :=
  match ss with
  | [] => eskip
  | s :: ss =>
      at_ (off + 8) (Sid.Encode s)
      >> put32 off (u32 (off + Sid.Size s))
      >> put32 (off + 4) (u32 (Sid.Size s))
      >> encode_sids (off + (8 + Sid.Size s)) ss
  end.
Definition Encode (q : t) : enc :=
  ewhen (ReturnSingle q) (put8 0 1)
  >> ewhen (RestartScan q) (put8 1 1)
  >> match Sids q with
     | [] => eskip
     | [s] => at_ 16 (Sid.Encode s) >> put32 8 (u32 (Sid.Size s)) >> put32 12 0
     | ss => put32 4 1 >> encode_sids 16 ss
     end.
End QueryQuotaInfo.

(** ** Contexts as bytes *)

(** A context: its type, the length of its data, four reserved bytes and
    the data. *)
Definition context_bytes (ty : Z) (data : bytes) : bytes :=
  le_enc 2 ty ++ le_enc 2 (blen data) ++ zeros 4 ++ data.

Lemma blen_context ty data : blen (context_bytes ty data) = 8 + blen data.
Proof. unfold context_bytes. len. Qed.

(** Reading a context that heads a longer list. *)
Lemma context_read ty data rest :
  in16 ty -> 8 + blen data < 2 ^ 16 ->
  let ctx := of_bytes (context_bytes ty data ++ rest) in
  NegotiateContextDecoder.IsInvalid ctx = Ok false
  /\ NegotiateContextDecoder.ContextType ctx = Ok ty
  /\ NegotiateContextDecoder.DataLength ctx = Ok (blen data)
  /\ NegotiateContextDecoder.Data ctx = Ok (mkSlice (data ++ rest) (blen data)).
Proof.
  intros Hty Hl ctx. pose proof (blen_nonneg data). pose proof (blen_nonneg rest).
  assert (Hlen : s_len ctx = 8 + blen data + blen rest).
  { subst ctx. cbn [of_bytes s_len]. rewrite blen_app, blen_context. lia. }
  assert (Hcap : s_cap ctx = 8 + blen data + blen rest).
  { subst ctx. unfold s_cap. cbn [of_bytes s_arr]. rewrite blen_app, blen_context. lia. }
  assert (Ht : NegotiateContextDecoder.ContextType ctx = Ok ty).
  { unfold NegotiateContextDecoder.ContextType. rewrite get16_ok by lia.
    subst ctx. cbn [of_bytes s_arr]. unfold context_bytes. rewrite <- !app_assoc.
    rewrite (sub_app_l 0 2) by (rewrite ?blen_le_enc; lia). rewrite sub_all by (by rewrite blen_le_enc).
    rewrite le_dec_enc2. by rewrite u16_id. }
  assert (Hd : NegotiateContextDecoder.DataLength ctx = Ok (blen data)).
  { unfold NegotiateContextDecoder.DataLength. rewrite get16_ok by lia.
    subst ctx. cbn [of_bytes s_arr]. unfold context_bytes. rewrite <- !app_assoc.
    rewrite (sub_app_r 2 2) by (rewrite ?blen_le_enc; lia). rewrite blen_le_enc.
    rewrite sub_app_l by (rewrite ?blen_le_enc; lia). rewrite sub_all by (by rewrite blen_le_enc).
    rewrite le_dec_enc2, u16_id; [done|]. ints. lia. }
  split_and!; try done.
  - unfold NegotiateContextDecoder.IsInvalid. rewrite Hd. cbn [obind]. rewrite Hlen.
    by rewrite !(proj2 (Z.ltb_ge _ _)) by lia.
  - unfold NegotiateContextDecoder.Data. rewrite Hd. cbn [obind].
    rewrite u16_id by (ints; lia). rewrite s_range_ok by lia. replace (8 + blen data - 8) with (blen data) by lia. do 2 f_equal.
Qed.

(** Storing a context of [n] bytes of data, by a body that turns the zeroed
    data into [data]. *)
Lemma context_store ty n body data p :
  0 <= n -> 8 + n < 2 ^ 16 -> blen data = n -> 8 + n <= blen p -> upto (8 + n) p = zeros (8 + n) ->
  body n (from 8 p) = Ok (data ++ from (8 + n) p) ->
  (put16 0 ty >> put16 2 n >> into_data body) p = Ok (context_bytes ty data ++ from (8 + n) p).
Proof.
  intros Hn Hlt Hd Hl Hz Hb. unfold eseq. do 2 put_step.
  set (q := splice 2 _ _). assert (Hq : blen q = blen p) by (unfold q; len).
  assert (Hf : from 8 q = from 8 p) by (unfold q; by rewrite !from_splice_ge by len).
  assert (Hu : upto 8 q = le_enc 2 ty ++ le_enc 2 n ++ zeros 4).
  { assert (H0 : upto 8 p = zeros 8).
    { change (upto 8 p) with (sub 0 8 p). rewrite <- (sub_upto 0 8 (8 + n)) by lia.
      rewrite Hz. apply sub_zeros; lia. }
    assert (E : p = zeros 8 ++ from 8 p) by (by rewrite <- H0, upto_from).
    unfold q. rewrite E at 1. rewrite splice_app_l by len. rewrite splice_app_l by len.
    by rewrite upto_app_exact by len. }
  unfold into_data.
  assert (HD : NegotiateContextDecoder.Data (of_bytes q) = Ok (mkSlice (from 8 q) n)).
  { unfold NegotiateContextDecoder.Data, NegotiateContextDecoder.DataLength.
    rewrite get16_ok by (unfold s_cap; cbn [of_bytes s_arr]; lia). cbn [obind of_bytes s_arr].
    replace (sub 2 2 q) with (le_enc 2 n) by (unfold q; by rewrite sub_splice_same by len). rewrite le_dec_enc2, (u16_id n), (u16_id (8 + n)) by (ints; lia).
    rewrite s_range_ok by (unfold s_cap; cbn [of_bytes s_arr]; lia).
    cbn [of_bytes s_arr]. by replace (8 + n - 8) with n by lia. }
  rewrite HD. cbn [obind s_len]. rewrite (at_ok _ _ _ (data ++ from (8 + n) p)); [|lia|lia|].
  - rewrite Hu. unfold context_bytes. by rewrite Hd, <- !app_assoc.
  - by rewrite Hf.
Qed.

(** ** What the encoders store *)

Definition hash_data (c : HashContext.t) : bytes :=
  le_enc 2 (Z.of_nat (length (HashContext.HashAlgorithms c)))
  ++ le_enc 2 (blen (HashContext.HashSalt c))
  ++ le16s (HashContext.HashAlgorithms c) ++ HashContext.HashSalt c.

Definition cipher_data (c : CipherContext.t) : bytes :=
  le_enc 2 (Z.of_nat (length (CipherContext.Ciphers c))) ++ le16s (CipherContext.Ciphers c).

Lemma blen_hash_data c : blen (hash_data c) = HashContext.Size c - 8.
Proof. unfold hash_data, HashContext.Size, HashContext.algs_size. rewrite !blen_app, !blen_le_enc, blen_le16s. lia. Qed.
Lemma blen_cipher_data c : blen (cipher_data c) = CipherContext.Size c - 8.
Proof. unfold cipher_data, CipherContext.Size. rewrite !blen_app, !blen_le_enc, blen_le16s. lia. Qed.

(** The data area, behind the eight bytes of the header. *)
Lemma data_zeroed n p :
  0 <= n -> 8 + n <= blen p -> upto (8 + n) p = zeros (8 + n) ->
  from 8 p = zeros n ++ from (8 + n) p.
Proof.
  intros Hn Hl Hz. rewrite <- (upto_from n (from 8 p)).
  rewrite from_from, (Z.add_comm n 8) by lia. f_equal. change (upto n (from 8 p)) with (sub 8 n p).
  rewrite <- (sub_upto 8 n (8 + n)) by lia. rewrite Hz. by rewrite sub_zeros by lia.
Qed.

Lemma hash_encode c p :
  HashContext.Size c < 2 ^ 16 -> HashContext.Size c <= blen p ->
  upto (HashContext.Size c) p = zeros (HashContext.Size c) ->
  HashContext.Encode c p
  = Ok (context_bytes SMB2_PREAUTH_INTEGRITY_CAPABILITIES (hash_data c) ++ from (HashContext.Size c) p).
Proof.
  intros Hs Hl Hz. set (n := HashContext.Size c - 8).
  assert (Hn : HashContext.Size c = 8 + n) by lia. rewrite Hn in *.
  pose proof (blen_nonneg (HashContext.HashSalt c)) as Hsalt.
  assert (Ha : 0 <= HashContext.algs_size c) by (unfold HashContext.algs_size; lia).
  assert (Hn' : n = 4 + HashContext.algs_size c + blen (HashContext.HashSalt c))
    by (unfold n, HashContext.Size; lia).
  unfold HashContext.Encode. rewrite <- Hn', u16_id by (ints; lia).
  apply context_store; try lia; [rewrite blen_hash_data; lia|done|].
  rewrite (data_zeroed n) by (done || lia). set (rest := from (8 + n) p).
  assert (Hz4 : zeros n = zeros 4 ++ zeros (HashContext.algs_size c) ++ zeros (blen (HashContext.HashSalt c))).
  { rewrite Hn'. rewrite <- Z.add_assoc, !zeros_app by lia. done. }
  rewrite Hz4. unfold eseq, within.
  rewrite !(proj2 (Z.leb_le _ _)) by lia. cbn [andb].
  pose proof (blen_le16s (HashContext.HashAlgorithms c)) as H16.
  assert (Hal : HashContext.algs_size c = blen (le16s (HashContext.HashAlgorithms c)))
    by (unfold HashContext.algs_size; lia).
  rewrite <- !app_assoc.
  erewrite at_ok; [|lia|len|].
  2:{ rewrite from_app_exact by done. rewrite put16s_ok by (rewrite ?blen_app, ?blen_zeros; len).
      rewrite Hal. rewrite splice_app_l by len. rewrite splice_full by len. reflexivity. }
  cbn [obind]. rewrite upto_app_exact by done. rewrite put16_ok by len. cbn [obind].
  rewrite u16_id by (ints; unfold HashContext.algs_size in *; lia).
  rewrite splice_app_l by len. rewrite upto_all by lia.
  rewrite copy_from_ok by len. cbn [obind].
  rewrite (app_assoc (splice _ _ _)). rewrite Hal, splice_mid by (len; done).
  rewrite put16_ok by len. rewrite <- !app_assoc, splice_app_l by len.
  rewrite u16_id by (ints; lia). unfold hash_data. rewrite <- !app_assoc. done.
Qed.

Lemma cipher_encode c p :
  CipherContext.Size c < 2 ^ 16 -> CipherContext.Size c <= blen p ->
  upto (CipherContext.Size c) p = zeros (CipherContext.Size c) ->
  CipherContext.Encode c p
  = Ok (context_bytes SMB2_ENCRYPTION_CAPABILITIES (cipher_data c) ++ from (CipherContext.Size c) p).
Proof.
  intros Hs Hl Hz. set (n := CipherContext.Size c - 8).
  assert (Hn : CipherContext.Size c = 8 + n) by lia. rewrite Hn in *.
  set (k := Z.of_nat (length (CipherContext.Ciphers c)) * 2).
  assert (Hn' : n = 2 + k) by (unfold n, CipherContext.Size; lia).
  pose proof (blen_le16s (CipherContext.Ciphers c)) as H16.
  unfold CipherContext.Encode. fold k. rewrite <- Hn', u16_id by (ints; lia).
  apply context_store; try lia; [rewrite blen_cipher_data; lia|done|].
  rewrite (data_zeroed n) by (done || lia). set (rest := from (8 + n) p).
  rewrite Hn', zeros_app by lia. unfold eseq, within.
  rewrite !(proj2 (Z.leb_le _ _)) by lia. cbn [andb]. rewrite <- !app_assoc.
  erewrite at_ok; [|lia|len|].
  2:{ rewrite from_app_exact by done. rewrite put16s_ok by (rewrite ?blen_app, ?blen_zeros; len).
      rewrite splice_app_l by len. rewrite splice_full by len. reflexivity. }
  cbn [obind]. rewrite upto_app_exact by done. rewrite put16_ok by len.
  rewrite u16_id by (ints; unfold k in *; lia). rewrite splice_app_l by len.
  unfold cipher_data. by rewrite <- !app_assoc.
Qed.

(** ** What the decoders find *)

Lemma hash_read c rest :
  Forall in16 (HashContext.HashAlgorithms c) -> HashContext.Size c < 2 ^ 16 ->
  let d := mkSlice (hash_data c ++ rest) (blen (hash_data c)) in
  HashContextDataDecoder.IsInvalid d = Ok false
  /\ HashContextDataDecoder.HashAlgorithms d = Ok (HashContext.HashAlgorithms c)
  /\ exists s, HashContextDataDecoder.Salt d = Ok s /\ s_bytes s = HashContext.HashSalt c.
Proof.
  intros Hin Hs d. pose proof (blen_hash_data c) as Hl. unfold HashContext.Size in Hs, Hl.
  unfold HashContext.algs_size in *. pose proof (blen_nonneg (HashContext.HashSalt c)) as H0.
  pose proof (blen_nonneg rest) as Hr. pose proof (blen_le16s (HashContext.HashAlgorithms c)) as H16.
  set (k := Z.of_nat (length (HashContext.HashAlgorithms c))) in *.
  assert (Hc : s_cap d = blen (hash_data c) + blen rest)
    by (unfold s_cap, d; cbn [s_arr]; by rewrite blen_app).
  assert (Hn : HashContextDataDecoder.HashAlgorithmCount d = Ok k).
  { unfold HashContextDataDecoder.HashAlgorithmCount. rewrite get16_ok by lia. unfold d. cbn [s_arr].
    unfold hash_data. rewrite <- !app_assoc. rewrite sub_app_l by len. rewrite sub_all by len.
    rewrite le_dec_enc2, u16_id; [done|]. ints. lia. }
  assert (Hsl : HashContextDataDecoder.SaltLength d = Ok (blen (HashContext.HashSalt c))).
  { unfold HashContextDataDecoder.SaltLength. rewrite get16_ok by lia. unfold d. cbn [s_arr].
    unfold hash_data. rewrite <- !app_assoc. rewrite sub_app_r by len. rewrite sub_app_l by len.
    rewrite sub_all by len. rewrite le_dec_enc2, u16_id; [done|]. ints. lia. }
  assert (H4 : from 4 (s_arr d) = le16s (HashContext.HashAlgorithms c) ++ HashContext.HashSalt c ++ rest).
  { unfold d. cbn [s_arr]. unfold hash_data. rewrite <- !app_assoc. rewrite (app_assoc (le_enc 2 _)).
    apply from_app_exact. len. }
  split_and!.
  - unfold HashContextDataDecoder.IsInvalid. rewrite Hn. cbn [obind]. rewrite Hsl. cbn [obind].
    change (s_len d) with (blen (hash_data c)). by rewrite !(proj2 (Z.ltb_ge _ _)) by lia.
  - unfold HashContextDataDecoder.HashAlgorithms, s_from. change (s_len d) with (blen (hash_data c)).
    rewrite !(proj2 (Z.leb_le _ _)) by lia. cbn [andb obind]. rewrite Hn. cbn [obind].
    unfold k. rewrite Nat2Z.id. apply get16s_ok; [done|lia| |]; unfold s_cap; cbn [s_arr].
    + rewrite H4. len.
    + rewrite H4. rewrite sub_app_l by len. by rewrite sub_all by len.
  - unfold HashContextDataDecoder.Salt. rewrite Hn. cbn [obind]. rewrite Hsl. cbn [obind].
    rewrite (u16_id (k * 2)), (u16_id (4 + k * 2)) by (ints; lia). rewrite u16_id by (ints; lia).
    destruct (s_range_bytes d (4 + k * 2) (4 + k * 2 + blen (HashContext.HashSalt c)))
      as (s & -> & Hb & _); [lia..|].
    exists s. split; [done|]. rewrite Hb. rewrite (Z.add_comm 4). rewrite <- sub_from, H4 by lia.
    rewrite sub_app_r by len. rewrite sub_app_l by len. rewrite H16. replace (k * 2 - 2 * k) with 0 by lia. apply sub_all. lia.
Qed.

Lemma cipher_read c rest :
  Forall in16 (CipherContext.Ciphers c) -> CipherContext.Size c < 2 ^ 16 ->
  let d := mkSlice (cipher_data c ++ rest) (blen (cipher_data c)) in
  CipherContextDataDecoder.IsInvalid d = Ok false
  /\ CipherContextDataDecoder.Ciphers d = Ok (CipherContext.Ciphers c).
Proof.
  intros Hin Hs d. pose proof (blen_cipher_data c) as Hl. unfold CipherContext.Size in Hs, Hl.
  pose proof (blen_nonneg rest) as Hr. pose proof (blen_le16s (CipherContext.Ciphers c)) as H16.
  set (k := Z.of_nat (length (CipherContext.Ciphers c))) in *.
  assert (Hc : s_cap d = blen (cipher_data c) + blen rest)
    by (unfold s_cap, d; cbn [s_arr]; by rewrite blen_app).
  assert (Hn : CipherContextDataDecoder.CipherCount d = Ok k).
  { unfold CipherContextDataDecoder.CipherCount. rewrite get16_ok by lia. unfold d. cbn [s_arr].
    unfold cipher_data. rewrite <- !app_assoc. rewrite sub_app_l by len. rewrite sub_all by len.
    rewrite le_dec_enc2, u16_id; [done|]. ints. lia. }
  split.
  - unfold CipherContextDataDecoder.IsInvalid. rewrite Hn. cbn [obind].
    change (s_len d) with (blen (cipher_data c)). by rewrite !(proj2 (Z.ltb_ge _ _)) by lia.
  - unfold CipherContextDataDecoder.Ciphers, s_from. change (s_len d) with (blen (cipher_data c)).
    rewrite !(proj2 (Z.leb_le _ _)) by lia. cbn [andb obind]. rewrite Hn. cbn [obind].
    assert (H2 : from 2 (s_arr d) = le16s (CipherContext.Ciphers c) ++ rest).
    { unfold d. cbn [s_arr]. unfold cipher_data. rewrite <- !app_assoc. apply from_app_exact. len. }
    unfold k. rewrite Nat2Z.id. apply get16s_ok; [done|lia| |]; unfold s_cap; cbn [s_arr].
    + rewrite H2. len.
    + rewrite H2. rewrite sub_app_l by len. by rewrite sub_all by len.
Qed.

(** Negotiate contexts survive the wire.  A hash context and a cipher
    context of less than 64 KiB, encoded at the head of any zeroed buffer, are
    accepted by the decoders the other end uses, with the type, the
    algorithms and the salt that were put in; what follows them is not
    touched. *)
Theorem negotiate_context_roundtrip (h : HashContext.t) (c : CipherContext.t) (p : bytes) :
  Forall in16 (HashContext.HashAlgorithms h) -> Forall in16 (CipherContext.Ciphers c) ->
  HashContext.Size h < 2 ^ 16 -> CipherContext.Size c < 2 ^ 16 ->
  HashContext.Size h <= blen p -> CipherContext.Size c <= blen p -> p = zeros (blen p) ->
  (exists q d s, HashContext.Encode h p = Ok q
     /\ from (HashContext.Size h) q = from (HashContext.Size h) p
     /\ NegotiateContextDecoder.IsInvalid (of_bytes q) = Ok false
     /\ NegotiateContextDecoder.ContextType (of_bytes q) = Ok SMB2_PREAUTH_INTEGRITY_CAPABILITIES
     /\ NegotiateContextDecoder.Data (of_bytes q) = Ok d
     /\ HashContextDataDecoder.IsInvalid d = Ok false
     /\ HashContextDataDecoder.HashAlgorithms d = Ok (HashContext.HashAlgorithms h)
     /\ HashContextDataDecoder.Salt d = Ok s /\ s_bytes s = HashContext.HashSalt h)
  /\ (exists q d, CipherContext.Encode c p = Ok q
     /\ from (CipherContext.Size c) q = from (CipherContext.Size c) p
     /\ NegotiateContextDecoder.IsInvalid (of_bytes q) = Ok false
     /\ NegotiateContextDecoder.ContextType (of_bytes q) = Ok SMB2_ENCRYPTION_CAPABILITIES
     /\ NegotiateContextDecoder.Data (of_bytes q) = Ok d
     /\ CipherContextDataDecoder.IsInvalid d = Ok false
     /\ CipherContextDataDecoder.Ciphers d = Ok (CipherContext.Ciphers c)).
Proof.
  intros Hh Hc Hhs Hcs Hhl Hcl Hz.
  assert (Hup : forall n, 0 <= n <= blen p -> upto n p = zeros n).
  { intros n Hn. rewrite Hz. change (upto n ?x) with (sub 0 n x). apply sub_zeros; lia. }
  assert (H0 : 0 <= HashContext.Size h)
    by (unfold HashContext.Size, HashContext.algs_size; pose proof (blen_nonneg (HashContext.HashSalt h)); lia).
  assert (H1 : 0 <= CipherContext.Size c) by (unfold CipherContext.Size; lia).
  split.
  - destruct (hash_read h (from (HashContext.Size h) p) Hh Hhs) as (Hi & Ha & s & Hs & Hb).
    destruct (context_read SMB2_PREAUTH_INTEGRITY_CAPABILITIES (hash_data h) (from (HashContext.Size h) p))
      as (Hi' & Ht & _ & Hd); [by vm_compute|rewrite blen_hash_data; lia|].
    eexists _, _, s. split; [apply hash_encode; auto with lia|]. split; [|done].
    apply from_app_exact. rewrite blen_context, blen_hash_data. lia.
  - destruct (cipher_read c (from (CipherContext.Size c) p) Hc Hcs) as (Hi & Ha).
    destruct (context_read SMB2_ENCRYPTION_CAPABILITIES (cipher_data c) (from (CipherContext.Size c) p))
      as (Hi' & Ht & _ & Hd); [by vm_compute|rewrite blen_cipher_data; lia|].
    eexists _, _. split; [apply cipher_encode; auto with lia|]. split; [|done].
    apply from_app_exact. rewrite blen_context, blen_cipher_data. lia.
Qed.

Lemma negotiate_context_roundtrip_witness :
  exists q d, CipherContext.Encode (CipherContext.mk [2; 1]) (zeros 50) = Ok q
    /\ NegotiateContextDecoder.Data (of_bytes q) = Ok d
    /\ CipherContextDataDecoder.Ciphers d = Ok [2; 1].
Proof.
  destruct (negotiate_context_roundtrip (HashContext.mk [1] (zeros 32)) (CipherContext.mk [2; 1]) (zeros 50))
    as (_ & q & d & He & _ & _ & _ & Hd & _ & Hc).
  - repeat constructor; lia.
  - repeat constructor; lia.
  - reflexivity.
  - reflexivity.
  - vm_compute. discriminate.
  - vm_compute. discriminate.
  - reflexivity.
  - exists q, d. split; [exact He|]. split; [exact Hd|exact Hc].
Defined.
