(* ===== verification/Cipher.v ===== *)
(** * Block ciphers, hashes and AEADs: the interfaces of the crypto packages

    [crypto/cipher.Block], [hash.Hash] and [crypto/cipher.AEAD] are Go
    interfaces.  Each is a record of operations here, with a class of the
    laws its users rely on: CMAC and CCM are written against a block cipher,
    the session against a hash and an AEAD.  The block cipher (crypto/aes)
    is not part of the repository and stays a parameter. *)

From S2P Require Import Prelude.

(** ** Block ciphers *)

Record cipher_Block := mkBlock { BlockSize : nat; Encrypt : bytes -> bytes }.

(** What crypto/cipher documents of a block: [Encrypt] maps a block to a
    block.  Nothing is assumed of its cryptographic strength. *)
Class BlockLaws (c : cipher_Block) : Prop := {
  Encrypt_length b : length b = BlockSize c -> length (Encrypt c b) = BlockSize c;
  Encrypt_bytes b : bytes_ok b -> bytes_ok (Encrypt c b)
}.

(** ** Hashes *)

Record hash_Hash (St : Type) := mkHash {
  Reset : St -> St;
  Write : bytes -> St -> St;
  Sum : bytes -> St -> bytes * St
}.
Arguments Reset {_}.
Arguments Write {_}.
Arguments Sum {_}.

(** After a [Reset], [Sum] appends the digest of everything written since,
    however it was cut into writes, and the object stays usable. *)
Class HashLaws {St} (h : hash_Hash St) (wf : St -> Prop) (mac : bytes -> bytes) : Prop := {
  hash_wf s ws : wf s -> wf (foldl (fun s w => Write h w s) (Reset h s) ws);
  hash_sum_wf s inp : wf s -> wf (snd (Sum h inp s));
  hash_sum s ws inp :
    wf s ->
    fst (Sum h inp (foldl (fun s w => Write h w s) (Reset h s) ws)) = inp ++ mac (concat ws)
}.

(** ** AEADs *)

(** [Seal] and [Open] return what is appended to [dst].  [Seal] has no way to
    report an error and returns nil ([None]) instead; an [Open] that fails
    returns an error. *)
Record cipher_AEAD := mkAEAD {
  NonceSize : Z;
  Overhead : Z;
  Seal : forall (nonce plaintext data : bytes), outcome (option bytes);
  Open : forall (nonce ciphertext data : bytes), outcome bytes
}.

(** What a session needs of its AEAD: sealing succeeds and adds [Overhead]
    bytes, and opening what was sealed gives the plaintext back.  [ok] is
    the set of plaintexts the AEAD can carry. *)
Class AEADLaws (a : cipher_AEAD) (ok : bytes -> Prop) : Prop := {
  NonceSize_range : 0 <= NonceSize a <= 16;
  Seal_length nonce pt ad : blen nonce = NonceSize a -> ok pt ->
    exists c, Seal a nonce pt ad = Ok (Some c) /\ blen c = blen pt + Overhead a;
  Open_Seal nonce pt ad c : blen nonce = NonceSize a -> ok pt ->
    Seal a nonce pt ad = Ok (Some c) -> Open a nonce c ad = Ok pt
}.

(** ** Xor of byte strings *)

Definition xor_bytes (a b : bytes) : bytes := zip_with Z.lxor a b.

Lemma length_xor a b : length (xor_bytes a b) = Nat.min (length a) (length b).
Proof. apply length_zip_with. Qed.

Lemma lxor_byte a b : 0 <= a < 256 -> 0 <= b < 256 -> 0 <= Z.lxor a b < 256.
Proof.
  intros Ha Hb. split; [apply Z.lxor_nonneg; lia|].
  destruct (Z.eq_dec (Z.lxor a b) 0) as [->|Hne]; [lia|].
  assert (0 <= Z.lxor a b) by (apply Z.lxor_nonneg; lia).
  apply Z.log2_lt_pow2 with (b := 8); [lia|].
  pose proof (Z.log2_lxor a b ltac:(lia) ltac:(lia)).
  assert (Z.log2 a <= 7) by (apply Z.log2_le_mono with (b := 255); lia).
  assert (Z.log2 b <= 7) by (apply Z.log2_le_mono with (b := 255); lia). lia.
Qed.

Lemma xor_ok a b : bytes_ok a -> bytes_ok b -> bytes_ok (xor_bytes a b).
Proof.
  unfold bytes_ok, xor_bytes. intros Ha. revert b.
  induction Ha as [|x a Hx Ha IH]; intros [|y b] Hb; cbn; try constructor.
  - inversion Hb; subst. by apply lxor_byte.
  - apply IH. by inversion Hb.
Qed.

Lemma xor_involutive a b : (length a <= length b)%nat -> xor_bytes (xor_bytes a b) b = a.
Proof.
  unfold xor_bytes. revert b. induction a as [|x a IH]; intros [|y b] Hl; cbn in *; try done; [lia|].
  rewrite Z.lxor_assoc, Z.lxor_nilpotent, Z.lxor_0_r. f_equal. apply IH. lia.
Qed.

Lemma xor_zeros_r a n : length a = n -> xor_bytes a (replicate n 0) = a.
Proof.
  intros <-. induction a as [|x a IH]; [done|]. unfold xor_bytes in *. cbn.
  by rewrite Z.lxor_0_r, IH.
Qed.

Lemma xor_app a1 a2 b1 b2 :
  length a1 = length b1 -> xor_bytes (a1 ++ a2) (b1 ++ b2) = xor_bytes a1 b1 ++ xor_bytes a2 b2.
Proof. intros. unfold xor_bytes. by rewrite zip_with_app. Qed.

Lemma xor_assoc a b c : xor_bytes (xor_bytes a b) c = xor_bytes a (xor_bytes b c).
Proof.
  unfold xor_bytes. revert b c.
  induction a as [|x a IH]; intros [|y b] [|z c]; cbn; try done.
  by rewrite Z.lxor_assoc, IH.
Qed.

(** ** Cipher block chaining *)

(** [l[n] ^= r] on a slice that is long enough. *)
Definition xor_at (n : nat) (r : Z) (l : bytes) : bytes := alter (fun x => Z.lxor x r) n l.

Fixpoint chunks (n : nat) (k : nat) (l : bytes) : list bytes :=
  match k with
  | O => []
  | S k => take n l :: chunks n k (drop n l)
  end.

Definition cbc (c : cipher_Block) (x : bytes) (bs : list bytes) : bytes :=
  foldl (fun x b => Encrypt c (xor_bytes x b)) x bs.

(** One byte into a chaining value, as CMAC and CBC-MAC do it: a full block
    is encrypted first. *)
Definition absorb_byte (c : cipher_Block) (s : bytes * nat) (x : Z) : bytes * nat :=
  let '(ci0, p0) :=
    if (length s.1 <=? s.2)%nat then (Encrypt c s.1, 0%nat) else s in
  (xor_at p0 x ci0, S p0).

Section stream.
Context (c : cipher_Block) `{!BlockLaws c} (X0 : bytes).
#[local] Abbreviation n := (BlockSize c).

Lemma length_xor_at i x l : length (xor_at i x l) = length l.
Proof. apply length_alter. Qed.

Lemma xor_at_xor i x a b :
  length a = length b ->
  xor_at i x (xor_bytes a b) = xor_bytes (xor_at i x a) b.
Proof.
  unfold xor_at, xor_bytes. revert i b.
  induction a as [|y a IH]; intros [|i] [|z b] Hl; cbn in *; try done.
  - rewrite !Z.lxor_assoc. by rewrite (Z.lxor_comm z x).
  - f_equal. apply IH. lia.
Qed.

(** Xoring into position [|part|] of a block masked with the padded [part]
    extends [part]. *)
Lemma xor_at_pad X part x :
  (length part < n)%nat -> length X = n ->
  xor_at (length part) x (xor_bytes X (part ++ replicate (n - length part) 0))
  = xor_bytes X ((part ++ [x]) ++ replicate (n - length (part ++ [x])) 0).
Proof.
  intros Hp HX. rewrite length_app. cbn [length].
  destruct (lookup_lt_is_Some_2 X (length part)) as [y Hy]; [lia|].
  rewrite <- (take_drop_middle X _ _ Hy).
  assert (Ht : length (take (length part) X) = length part) by (rewrite length_take; lia).
  replace (n - length part)%nat with (S (n - (length part + 1))) by lia. cbn [replicate].
  rewrite <- app_assoc. cbn [app]. rewrite !xor_app by done.
  unfold xor_at.
  replace (length part) with (length (xor_bytes (take (length part) X) part) + 0)%nat at 1
    by (rewrite length_xor; lia).
  rewrite alter_app_r. f_equal. unfold xor_bytes. cbn. by rewrite Z.lxor_0_r.
Qed.

Lemma length_cbc x bs :
  length x = n -> Forall (fun b => length b = n) bs -> length (cbc c x bs) = n.
Proof.
  unfold cbc. intros Hx Hbs. revert x Hx. induction Hbs as [|b bs Hb Hbs IH]; intros x Hx; [done|].
  cbn. apply IH. apply Encrypt_length. rewrite length_xor. lia.
Qed.

Lemma concat_length (bs : list bytes) :
  Forall (fun b => length b = n) bs -> length (concat bs) = (length bs * n)%nat.
Proof. induction 1 as [|b bs Hb _ IH]; [done|]. cbn. rewrite length_app. lia. Qed.

Lemma chunks_concat (bs : list bytes) part :
  Forall (fun b => length b = n) bs -> chunks n (length bs) (concat bs ++ part) = bs.
Proof.
  induction 1 as [|b bs Hb _ IH]; [done|]. cbn. rewrite <- app_assoc, <- Hb.
  rewrite take_app_length, drop_app_length, Hb. by rewrite IH.
Qed.

(** The chaining value and position after absorbing [M] from [X0]: all
    complete blocks but the last are chained, the last one is xored in. *)
Definition absorbed (s : bytes * nat) (M : bytes) : Prop :=
  exists bs part,
    M = concat bs ++ part
    /\ Forall (fun b => length b = n) bs
    /\ (length part <= n)%nat /\ (part = [] -> bs = [])
    /\ s.2 = length part
    /\ s.1 = xor_bytes (cbc c X0 bs) (part ++ replicate (n - length part) 0).

Lemma absorbed_length s M :
  length X0 = n -> absorbed s M -> length s.1 = n.
Proof.
  intros HX (bs & part & _ & Hbs & Hle & _ & _ & ->).
  rewrite length_xor, length_cbc, length_app, length_replicate by done. lia.
Qed.

Lemma absorb_byte_ok s M x :
  (0 < n)%nat -> length X0 = n -> absorbed s M -> absorbed (absorb_byte c s x) (M ++ [x]).
Proof.
  intros Hn HX0 Ha. pose proof (absorbed_length s M HX0 Ha) as Hci.
  destruct Ha as (bs & part & HM & Hbs & Hle & Hnil & Hp & Hc).
  assert (HX : length (cbc c X0 bs) = n) by (by apply length_cbc).
  unfold absorb_byte. rewrite Hci. destruct s as [ci p]. cbn [fst snd] in *.
  destruct (Nat.leb_spec n p) as [Hf|Hf].
  - assert (Hpl : length part = n) by lia.
    exists (bs ++ [part]), [x]. split_and!; [| |cbn; lia|done|done|].
    + rewrite concat_app. cbn. rewrite app_nil_r, HM. by rewrite <- app_assoc.
    + apply Forall_app. split; [done|]. by constructor.
    + assert (HC : cbc c X0 (bs ++ [part]) = Encrypt c ci).
      { unfold cbc. rewrite foldl_app. cbn. f_equal. rewrite Hc, Hpl, Nat.sub_diag.
        cbn. by rewrite app_nil_r. }
      rewrite HC. cbn [fst snd].
      pose proof (xor_at_pad (Encrypt c ci) [] x) as Hx. cbn [length app] in Hx.
      rewrite Nat.sub_0_r, xor_zeros_r in Hx by (by apply Encrypt_length).
      apply Hx; [lia|by apply Encrypt_length].
  - exists bs, (part ++ [x]). split_and!; [by rewrite HM, app_assoc|done| | | |].
    + rewrite length_app. cbn. lia.
    + by destruct part.
    + cbn. rewrite length_app. cbn. lia.
    + cbn [fst snd]. rewrite Hc, Hp. apply xor_at_pad; lia.
Qed.

Lemma absorb_ok s M bs :
  (0 < n)%nat -> length X0 = n -> absorbed s M ->
  absorbed (foldl (absorb_byte c) s bs) (M ++ bs).
Proof.
  intros Hn HX. revert s M. induction bs as [|x bs IH]; intros s M Ha; [by rewrite app_nil_r|].
  cbn [foldl]. replace (M ++ x :: bs) with ((M ++ [x]) ++ bs) by (by rewrite <- app_assoc).
  by apply IH, absorb_byte_ok.
Qed.

Lemma absorbed_nil : length X0 = n -> absorbed (X0, 0%nat) [].
Proof.
  intros HX. exists [], []. split_and!; try done; [cbn; lia|]. cbn.
  by rewrite Nat.sub_0_r, xor_zeros_r.
Qed.

End stream.
