(* ===== verification/Digest.v ===== *)
(** * MD5, HMAC-MD5, RC4, CRC-32, SHA-256 and hexadecimal text

    The algorithms of the Go standard library that NTLM and the journals use
    (crypto/md5, crypto/hmac, crypto/rc4, hash/crc32, crypto/sha256,
    encoding/hex), as executable functions.  An object
    of type [hash.Hash] that is written to in pieces hashes the concatenation
    of the pieces, so a hash is a function of a byte string here; a
    [*rc4.Cipher] has a state that every call advances. *)

From S2P Require Import Prelude Cipher.

(** ** crypto/md5 *)

Module md5.

Definition rotl (x s : Z) : Z := u32 (Z.lor (Z.shiftl x s) (Z.shiftr x (32 - s))).
Definition not32 (x : Z) : Z := Z.lxor x 0xffffffff.

Definition shifts : list Z :=
  concat (replicate 4 [7; 12; 17; 22]) ++ concat (replicate 4 [5; 9; 14; 20])
  ++ concat (replicate 4 [4; 11; 16; 23]) ++ concat (replicate 4 [6; 10; 15; 21]).

Definition table : list Z :=
  [0xd76aa478; 0xe8c7b756; 0x242070db; 0xc1bdceee; 0xf57c0faf; 0x4787c62a; 0xa8304613; 0xfd469501;
   0x698098d8; 0x8b44f7af; 0xffff5bb1; 0x895cd7be; 0x6b901122; 0xfd987193; 0xa679438e; 0x49b40821;
   0xf61e2562; 0xc040b340; 0x265e5a51; 0xe9b6c7aa; 0xd62f105d; 0x02441453; 0xd8a1e681; 0xe7d3fbc8;
   0x21e1cde6; 0xc33707d6; 0xf4d50d87; 0x455a14ed; 0xa9e3e905; 0xfcefa3f8; 0x676f02d9; 0x8d2a4c8a;
   0xfffa3942; 0x8771f681; 0x6d9d6122; 0xfde5380c; 0xa4beea44; 0x4bdecfa9; 0xf6bb4b60; 0xbebfbc70;
   0x289b7ec6; 0xeaa127fa; 0xd4ef3085; 0x04881d05; 0xd9d4d039; 0xe6db99e5; 0x1fa27cf8; 0xc4ac5665;
   0xf4292244; 0x432aff97; 0xab9423a7; 0xfc93a039; 0x655b59c3; 0x8f0ccc92; 0xffeff47d; 0x85845dd1;
   0x6fa87e4f; 0xfe2ce6e0; 0xa3014314; 0x4e0811a1; 0xf7537e82; 0xbd3af235; 0x2ad7d2bb; 0xeb86d391].

Record state := mk { a : Z; b : Z; c : Z; d : Z }.

Definition init : state := mk 0x67452301 0xefcdab89 0x98badcfe 0x10325476.

Definition round (m : list Z) (i : nat) (s : state) : state :=
  let '(mk a b c d) := s in
  let '(f, g) :=
    match (i / 16)%nat with
    | 0%nat => (Z.lor (Z.land b c) (Z.land (not32 b) d), i)
    | 1%nat => (Z.lor (Z.land d b) (Z.land (not32 d) c), ((5 * i + 1) mod 16)%nat)
    | 2%nat => (Z.lxor (Z.lxor b c) d, ((3 * i + 5) mod 16)%nat)
    | _ => (Z.lxor c (Z.lor b (not32 d)), ((7 * i) mod 16)%nat)
    end in
  let f := u32 (f + a + nth i table 0 + nth g m 0) in
  mk d (u32 (b + rotl f (nth i shifts 0))) b c.

Fixpoint words (n : nat) (bs : bytes) : list Z :=
  match n with O => [] | S n => le_dec (take 4 bs) :: words n (drop 4 bs) end.

Definition block (s : state) (bs : bytes) : state :=
  let m := words 16 bs in
  let '(mk a' b' c' d') := foldl (fun s i => round m i s) s (seq 0 64) in
  mk (u32 (a s + a')) (u32 (b s + b')) (u32 (c s + c')) (u32 (d s + d')).

Definition padding (n : Z) : bytes := 0x80 :: zeros ((55 - n) mod 64) ++ le_enc 8 (n * 8).

Definition Sum (msg : bytes) : bytes :=
  let p := msg ++ padding (blen msg) in
  let '(mk a b c d) := foldl block init (chunks 64 (length p / 64) p) in
  le_enc 4 a ++ le_enc 4 b ++ le_enc 4 c ++ le_enc 4 d.

Lemma blen_md5 m : blen (Sum m) = 16.
Proof. unfold Sum. destruct (foldl _ _ _). by rewrite !blen_app, !blen_le_enc. Qed.

Lemma bytes_ok_md5 m : bytes_ok (Sum m).
Proof. unfold Sum. destruct (foldl _ _ _). repeat apply bytes_ok_app; apply bytes_ok_le_enc. Qed.

End md5.

#[export] Hint Rewrite md5.blen_md5 : blen.

(** ** crypto/hmac over md5 *)

Module hmac.

Definition key_block (key : bytes) : bytes :=
  let k := if 64 <? blen key then md5.Sum key else key in k ++ zeros (64 - blen k).

Definition Sum (key msg : bytes) : bytes :=
  let k := key_block key in
  md5.Sum (map (Z.lxor 0x5c) k ++ md5.Sum (map (Z.lxor 0x36) k ++ msg)).

Lemma blen_hmac k m : blen (Sum k m) = 16.
Proof. apply md5.blen_md5. Qed.

Lemma bytes_ok_hmac k m : bytes_ok (Sum k m).
Proof. apply md5.bytes_ok_md5. Qed.

End hmac.

#[export] Hint Rewrite hmac.blen_hmac : blen.

(** ** crypto/rc4 *)

Module rc4.

Record Cipher := mk { s : list Z; i : Z; j : Z }.

Definition at_idx (l : list Z) (n : Z) : Z := nth (Z.to_nat n) l 0.
Definition swap (l : list Z) (n m : Z) : list Z :=
  <[Z.to_nat m := at_idx l n]> (<[Z.to_nat n := at_idx l m]> l).

Definition key_schedule (key : bytes) : list Z :=
  fst (foldl (fun '(l, j) (n : nat) =>
    let j := u8 (j + nth n l 0 + nth (n mod length key) key 0) in (swap l (Z.of_nat n) j, j))
    (Z.of_nat <$> seq 0 256, 0) (seq 0 256)).

(** [KeySizeError] unless the key has 1 to 256 bytes. *)
Definition NewCipher (key : bytes) : outcome Cipher :=
  if (blen key <? 1) || (256 <? blen key) then Err (ErrOther "crypto/rc4: invalid key size")
  else Ok (mk (key_schedule key) 0 0).

Definition next (c : Cipher) : Z * Cipher :=
  let i := u8 (i c + 1) in
  let x := at_idx (s c) i in
  let j := u8 (j c + x) in
  let l := swap (s c) i j in
  (at_idx l (u8 (at_idx (s c) i + at_idx (s c) j)), mk l i j).

Fixpoint keystream (n : nat) (c : Cipher) : bytes * Cipher :=
  match n with
  | O => ([], c)
  | S n => let '(k, c) := next c in let '(ks, c) := keystream n c in (k :: ks, c)
  end.

Definition xor_stream (src : bytes) (c : Cipher) : bytes * Cipher :=
  let '(ks, c) := keystream (length src) c in (xor_bytes src ks, c).

(** [XORKeyStream(p[off:off+n], src)]: [n] must be at least the length of
    [src]; the bytes of the destination past it are kept. *)
Definition XORKeyStream (n : Z) (src : bytes) (c : Cipher) : outcome (bytes * Cipher) :=
  if blen src <=? n then Ok (xor_stream src c) else Panic.

Lemma length_rc4_keystream n c : length (fst (keystream n c)) = n.
Proof.
  revert c. induction n as [|n IH]; intros c; cbn [keystream]; [done|].
  destruct (next c) as [k c']. specialize (IH c'). destruct (keystream n c'). cbn in *. by rewrite IH.
Qed.

Lemma length_xor_stream src c : length (fst (xor_stream src c)) = length src.
Proof.
  unfold xor_stream. pose proof (length_rc4_keystream (length src) c).
  destruct (keystream _ c). cbn in *. rewrite length_xor. lia.
Qed.

Lemma blen_xor_stream src c : blen (fst (xor_stream src c)) = blen src.
Proof. unfold blen. by rewrite length_xor_stream. Qed.

(** Two ciphers in the same state are inverse, and end in the same state. *)
Lemma xor_stream_inv src c :
  xor_stream (fst (xor_stream src c)) c = (src, snd (xor_stream src c)).
Proof.
  assert (Hl := length_xor_stream src c). unfold xor_stream in *.
  pose proof (length_rc4_keystream (length src) c) as Hk.
  destruct (keystream (length src) c) as [ks c'] eqn:E. cbn [fst snd] in *.
  rewrite Hl, E. by rewrite xor_involutive by lia.
Qed.

End rc4.

(** ** hash/crc32 *)

Module crc32.

Definition bit (c : Z) : Z :=
  if Z.testbit c 0 then Z.lxor (Z.shiftr c 1) 0xedb88320 else Z.shiftr c 1.

Definition byte (c x : Z) : Z := Nat.iter 8 bit (Z.lxor c x).

Definition ChecksumIEEE (msg : bytes) : Z := Z.lxor (foldl byte 0xffffffff msg) 0xffffffff.

End crc32.

(** ** crypto/sha256 and encoding/hex *)

Module sha256.

Definition Size : Z := 32.
(** The constants of FIPS 180-4: the first 32 bits of the fractional parts of
    the cube roots of the first 64 primes, and of the square roots of the
    first eight. *)
Definition is_prime (n : Z) : bool :=
  forallb (fun d => (d * d >? n) || negb (n mod d =? 0)) (map (fun k => Z.of_nat k + 2) (seq 0 16)).
Definition primes : list Z := List.filter is_prime (map (fun k => Z.of_nat k + 2) (seq 0 310)).

(** The largest [x] below [2^n] with [x^3 <= v], bit by bit. *)
Fixpoint cube_root (n : nat) (v x : Z) : Z :=
  match n with
  | O => x
  | S n => let y := x + 2 ^ Z.of_nat n in cube_root n v (if y * y * y <=? v then y else x)
  end.

Definition K : list Z := Eval vm_compute in map (fun p => u32 (cube_root 36 (p * 2 ^ 96) 0)) primes.
Definition init : list Z := Eval vm_compute in map (fun p => u32 (Z.sqrt (p * 2 ^ 64))) (take 8 primes).

Example K_ends : length K = 64%nat /\ take 1 K = [0x428a2f98] /\ drop 63 K = [0xc67178f2].
Proof. done. Qed.

Definition rotr (x n : Z) : Z := u32 (Z.lor (Z.shiftr x n) (Z.shiftl x (32 - n))).
Definition big_sigma (a b c x : Z) : Z := Z.lxor (Z.lxor (rotr x a) (rotr x b)) (rotr x c).
Definition small_sigma (a b c x : Z) : Z := Z.lxor (Z.lxor (rotr x a) (rotr x b)) (Z.shiftr x c).

(** The message schedule, latest word first. *)
Fixpoint schedule (n : nat) (w : list Z) : list Z :=
  match n with
  | O => w
  | S n =>
      let word i := nth i w 0 in
      schedule n (u32 (small_sigma 17 19 10 (word 1%nat) + word 6%nat
                       + small_sigma 7 18 3 (word 14%nat) + word 15%nat) :: w)
  end.

Definition round (s : list Z) (kw : Z * Z) : list Z :=
  match s with
  | [a; b; c; d; e; f; g; h] =>
      let t1 := h + big_sigma 6 11 25 e + Z.lxor (Z.land e f) (Z.ldiff g e) + kw.1 + kw.2 in
      let t2 := big_sigma 2 13 22 a
                + Z.lxor (Z.lxor (Z.land a b) (Z.land a c)) (Z.land b c) in
      [u32 (t1 + t2); a; b; c; u32 (d + t1); e; f; g]
  | _ => s
  end.

Fixpoint words (n : nat) (bs : bytes) : list Z :=
  match n with
  | O => []
  | S n => be_dec (take 4 bs) :: words n (drop 4 bs)
  end.

Definition block (s : list Z) (blk : bytes) : list Z :=
  let w := reverse (schedule 48 (reverse (words 16 blk))) in
  zip_with (fun a b => u32 (a + b)) s (foldl round s (zip K w)).

Fixpoint blocks (n : nat) (s : list Z) (bs : bytes) : list Z :=
  match n with
  | O => s
  | S n => blocks n (block s (take 64 bs)) (drop 64 bs)
  end.

Definition pad (msg : bytes) : bytes :=
  msg ++ [0x80] ++ zeros ((55 - blen msg) mod 64) ++ be_enc 8 (blen msg * 8).

Definition Sum256 (msg : bytes) : bytes :=
  let m := pad msg in
  concat (be_enc 4 <$> blocks (length m / 64) init m).

Lemma length_block s blk : length s = 8%nat -> length (block s blk) = 8%nat.
Proof.
  intros Hs. unfold block. rewrite length_zip_with, Hs.
  assert (Hr : forall l t, length t = 8%nat -> length (foldl round t l) = 8%nat).
  { induction l as [|kw l IH]; [done|]. intros t Ht. apply IH. unfold round.
    do 9 (destruct t as [|? t]; try done). }
  rewrite Hr by done. done.
Qed.

Lemma length_blocks n s bs : length s = 8%nat -> length (blocks n s bs) = 8%nat.
Proof. revert s bs. induction n as [|n IH]; intros s bs Hs; [done|]. by apply IH, length_block. Qed.

Lemma blen_words (l : list Z) : blen (concat (be_enc 4 <$> l)) = 4 * Z.of_nat (length l).
Proof.
  induction l as [|x l IH]; [done|]. rewrite fmap_cons, concat_cons, blen_app, blen_be_enc, IH.
  cbn [length]. lia.
Qed.

Lemma blen_Sum256 msg : blen (Sum256 msg) = Size.
Proof. unfold Sum256. by rewrite blen_words, length_blocks. Qed.

Lemma bytes_ok_Sum256 msg : bytes_ok (Sum256 msg).
Proof.
  apply Forall_concat, Forall_fmap, Forall_forall. intros x _. apply bytes_ok_be_enc.
Qed.

End sha256.

(** [hex.EncodeToString], and the verb %x of a byte string. *)
Definition hex_digit (d : Z) : Z := if d <? 10 then 0x30 + d else 0x61 + (d - 10).
Definition hex_EncodeToString (bs : bytes) : list Z :=
  concat ((fun b => [hex_digit (b / 16); hex_digit (b mod 16)]) <$> bs).

(** ** Test vectors: RFC 1321, RFC 2202, RFC 6229, FIPS 180-4, and "123456789" for CRC *)

Definition ascii_bytes (s : string) : bytes :=
  map (fun a => Z.of_N (Ascii.N_of_ascii a)) (String.list_ascii_of_string s).

Example md5_abc : be_dec (md5.Sum (ascii_bytes "abc")) = 0x900150983cd24fb0d6963f7d28e17f72.
Proof. vm_compute. reflexivity. Qed.

Example hmac_md5_jefe :
  be_dec (hmac.Sum (ascii_bytes "Jefe") (ascii_bytes "what do ya want for nothing?"))
  = 0x750c783e6ab0b503eaa86e310a5db738.
Proof. vm_compute. reflexivity. Qed.

Example rc4_rfc6229 :
  (let! c := rc4.NewCipher [1; 2; 3; 4; 5] in Ok (be_dec (fst (rc4.xor_stream (zeros 16) c))))
  = Ok 0xb2396305f03dc027ccc3524a0a1118a8.
Proof. vm_compute. reflexivity. Qed.

Example crc32_check : crc32.ChecksumIEEE (ascii_bytes "123456789") = 0xcbf43926.
Proof. vm_compute. reflexivity. Qed.

Example sha256_abc : be_dec (sha256.Sum256 (ascii_bytes "abc"))
  = 0xba7816bf8f01cfea414140de5dae2223b00361a396177a9cb410ff61f20015ad.
Proof. vm_compute. reflexivity. Qed.

Example sha256_two_blocks :
  be_dec (sha256.Sum256 (ascii_bytes "abcdbcdecdefdefgefghfghighijhijkijkljklmklmnlmnomnopnopq"))
  = 0x248d6a61d20638b8e5c026930c3e6039a33ce45964ff2167f6ecedd419db06c1.
Proof. vm_compute. reflexivity. Qed.
