(* ===== verification/Bulk.v ===== *)
(** * The bulk journal format (bulk/protocol.go)

    A batch of journal operations is a package: an eight-byte magic, the
    lengths of the manifest and of the payload, the SHA-256 of both, the
    manifest (JSON) and the payload (the data of the operations, one after the
    other).  encoding/json is a parameter ([Json]); a slice keeps its capacity,
    because [body[:manifestLength]] may reach into it. *)

From S2P Require Import Prelude Utf16 Paths Digest.

Module bulk.

(** ** Data *)

Definition Directory : gostring := lit ".smbrelay-bulk-v2".
Definition CapabilitiesPath : gostring := Directory ++ lit "/capabilities.json".
Definition Protocol : gostring := lit "smbrelay-bulk-journal-v2".
Definition magic : bytes := lit "SMBRBLK2".

Module Capabilities.
Record t := mk { Protocol : gostring; MaxBatchBytes : Z }.
End Capabilities.

Module Operation.
Record t := mk {
  Seq : Z; Type_ : gostring; Path : gostring; Target : gostring; Name : gostring;
  Offset : Z; Length : Z; Mode : Z; ATime : Z; MTime : Z; Data : bytes
}.
#[global] Instance t_eq_dec : EqDecision t.
Proof. solve_decision. Defined.
End Operation.

Module Batch.
Record t := mk {
  RelayID : gostring; BatchID : gostring; FirstSeq : Z; LastSeq : Z; Operations : list Operation.t
}.
End Batch.

Module Receipt.
Record t := mk {
  Protocol : gostring; RelayID : gostring; BatchID : gostring; LastSeq : Z; Hash : gostring
}.
#[global] Instance t_eq_dec : EqDecision t.
Proof. solve_decision. Defined.
End Receipt.

Module wireOperation.
Record t := mk {
  Seq : Z; Offset : Z; Length : Z; DataOffset : Z; DataLength : Z;
  Type_ : gostring; Path : gostring; Target : gostring; Name : gostring; Mode : Z; ATime : Z; MTime : Z
}.
#[global] Instance t_eq_dec : EqDecision t.
Proof. solve_decision. Defined.
End wireOperation.

Module manifest.
Record t := mk {
  RelayID : gostring; BatchID : gostring; FirstSeq : Z; LastSeq : Z; Operations : list wireOperation.t
}.
#[global] Instance t_eq_dec : EqDecision t.
Proof. solve_decision. Defined.
End manifest.

Module applyProgress.
Record t := mk {
  Version : Z; RelayID : gostring; BatchID : gostring; Hash : gostring; NextOperation : Z
}.
#[global] Instance t_eq_dec : EqDecision t.
Proof. solve_decision. Defined.
End applyProgress.

(** [json.Marshal] and [json.Unmarshal] at the types the code uses. *)
Class Json := {
  Marshal_manifest : manifest.t -> outcome bytes;
  Unmarshal_manifest : bytes -> outcome manifest.t;
  Marshal_Receipt : Receipt.t -> outcome bytes;
  Unmarshal_Receipt : bytes -> outcome Receipt.t;
  Marshal_applyProgress : applyProgress.t -> outcome bytes;
  Unmarshal_applyProgress : bytes -> outcome applyProgress.t;
  Marshal_Capabilities : Capabilities.t -> outcome bytes
}.

(** What is documented of them: a value that was encoded is decoded; they
    return errors and do not panic. *)
Class JsonLaws `{Json} := {
  json_manifest m b : Marshal_manifest m = Ok b -> Unmarshal_manifest b = Ok m;
  json_Receipt r b : Marshal_Receipt r = Ok b -> Unmarshal_Receipt b = Ok r;
  json_applyProgress p b : Marshal_applyProgress p = Ok b -> Unmarshal_applyProgress b = Ok p;
  json_no_panic b : Unmarshal_manifest b <> Panic
}.

(** ** Encode and Decode *)

Section protocol.
Context `{Json}.

(** The operation as it is on the wire, before its data has a place. *)
Definition wire_of (op : Operation.t) (off len : Z) : wireOperation.t :=
  wireOperation.mk (Operation.Seq op) (Operation.Offset op) (Operation.Length op) off len
    (Operation.Type_ op) (Operation.Path op) (Operation.Target op) (Operation.Name op)
    (Operation.Mode op) (Operation.ATime op) (Operation.MTime op).

(** One turn of the loop over the operations: the payload and the manifest's
    operations grow. *)
Definition encode_op (acc : bytes * list wireOperation.t) (op : Operation.t)
  : bytes * list wireOperation.t :=
  let '(payload, wires) := acc in
  if negb (blen (Operation.Data op) =? 0) then
    (payload ++ Operation.Data op,
     wires ++ [wire_of op (u64 (blen payload)) (u64 (blen (Operation.Data op)))])
  else (payload, wires ++ [wire_of op 0 0]).

Definition Encode (batch : Batch.t) : outcome (bytes * gostring) :=
  let '(payload, wires) := foldl encode_op ([], []) (Batch.Operations batch) in
  let m := manifest.mk (Batch.RelayID batch) (Batch.BatchID batch) (Batch.FirstSeq batch)
             (Batch.LastSeq batch) wires in
  let! manifestBytes := Marshal_manifest m in
  if u64 (blen manifestBytes) >? 0xffffffff then Err (ErrOther "bulk manifest is too large") else
  let body := manifestBytes ++ payload in
  let sum := sha256.Sum256 body in
  Ok (magic ++ be_enc 4 (u32 (blen manifestBytes)) ++ be_enc 8 (u64 (blen payload)) ++ sum ++ body,
      hex_EncodeToString sum).

Definition headerSize : Z := 8 + 4 + 8 + sha256.Size.

(** One turn of the loop over the manifest's operations. *)
Definition decode_op (payload : slice) (wire : wireOperation.t) : outcome Operation.t :=
  let op data :=
    Operation.mk (wireOperation.Seq wire) (wireOperation.Type_ wire) (wireOperation.Path wire)
      (wireOperation.Target wire) (wireOperation.Name wire) (wireOperation.Offset wire)
      (wireOperation.Length wire) (wireOperation.Mode wire) (wireOperation.ATime wire)
      (wireOperation.MTime wire) data in
  if negb (wireOperation.DataLength wire =? 0) then
    let end_ := u64 (wireOperation.DataOffset wire + wireOperation.DataLength wire) in
    if (end_ <? wireOperation.DataOffset wire) || (end_ >? s_len payload)
    then Err (ErrOther "unexpected EOF")
    else let! d := s_range payload (wireOperation.DataOffset wire) end_ in Ok (op (s_bytes d))
  else Ok (op []).

Fixpoint decode_ops (payload : slice) (wires : list wireOperation.t) : outcome (list Operation.t) :=
  match wires with
  | [] => Ok []
  | w :: ws =>
      let! op := decode_op payload w in
      let! ops := decode_ops payload ws in
      Ok (op :: ops)
  end.

Definition Decode (data : slice) : outcome (Batch.t * gostring) :=
  if s_len data <? headerSize then Err (ErrOther "invalid bulk journal header") else
  let! m := s_range data 0 8 in
  if negb (bool_decide (s_bytes m = magic)) then Err (ErrOther "invalid bulk journal header") else
  let! h := s_range data 8 12 in let! manifestLength := be_Uint 4 h in
  let! h := s_range data 12 20 in let! payloadLength := be_Uint 8 h in
  let! wantSum := s_range data 20 (20 + sha256.Size) in
  let! body := s_from data headerSize in
  if negb (u64 (s_len body) =? u64 (manifestLength + payloadLength))
  then Err (ErrOther "invalid bulk journal length") else
  let sum := sha256.Sum256 (s_bytes body) in
  if negb (bool_decide (sum = s_bytes wantSum)) then Err (ErrOther "bulk journal checksum mismatch") else
  let! mb := s_range body 0 manifestLength in
  let! m := Unmarshal_manifest (s_bytes mb) in
  let! payload := s_from body manifestLength in
  let! ops := decode_ops payload (manifest.Operations m) in
  Ok (Batch.mk (manifest.RelayID m) (manifest.BatchID m) (manifest.FirstSeq m) (manifest.LastSeq m) ops,
      hex_EncodeToString sum).

End protocol.

(** [fmt.Sprintf("%s/receipts/%x.json", Directory, sum[:16])] *)
Definition ReceiptPath (relayID : gostring) : gostring :=
  Directory ++ lit "/receipts/" ++ hex_EncodeToString (upto 16 (sha256.Sum256 (string_bytes relayID)))
    ++ lit ".json".
Definition ReadyPath (batchID : gostring) : gostring :=
  Directory ++ lit "/inbox/" ++ hex_EncodeToString (upto 16 (sha256.Sum256 (string_bytes batchID)))
    ++ lit ".ready".

(** ** Facts *)

Lemma sub_mid p m q a n : a = blen p -> n = blen m -> sub a n (p ++ m ++ q) = m.
Proof.
  intros -> ->. pose proof (blen_nonneg m). rewrite sub_app_r by lia. rewrite Z.sub_diag.
  rewrite sub_app_l by lia. by apply sub_all.
Qed.

(** A package with the given lengths, the checksum of its body, and spare
    capacity in the slice. *)
Definition package (ml pl : Z) (body spare : bytes) : slice :=
  mkSlice ((magic ++ be_enc 4 ml ++ be_enc 8 pl ++ sha256.Sum256 body ++ body) ++ spare)
    (headerSize + blen body).

Lemma package_arr ml pl body spare :
  let arr := s_arr (package ml pl body spare) in
  sub 0 8 arr = magic /\ sub 8 4 arr = be_enc 4 ml /\ sub 12 8 arr = be_enc 8 pl
  /\ sub 20 32 arr = sha256.Sum256 body /\ from headerSize arr = body ++ spare
  /\ blen arr = headerSize + blen body + blen spare.
Proof.
  cbv zeta. unfold package. cbn [s_arr]. rewrite <- !app_assoc.
  pose proof (sha256.blen_Sum256 body) as Hs. set (sum := sha256.Sum256 body) in *.
  split_and!.
  - exact (sub_mid [] magic _ 0 8 eq_refl eq_refl).
  - by apply sub_mid; rewrite ?blen_be_enc.
  - rewrite (app_assoc magic). by apply sub_mid; rewrite ?blen_app, ?blen_be_enc.
  - rewrite (app_assoc magic), (app_assoc (magic ++ _)).
    by apply sub_mid; rewrite ?blen_app, ?blen_be_enc.
  - rewrite (app_assoc magic), (app_assoc (magic ++ _)), (app_assoc (_ ++ be_enc 8 pl)).
    apply from_app_exact. by rewrite !blen_app, !blen_be_enc, Hs.
  - rewrite !blen_app, !blen_be_enc, Hs. unfold headerSize, sha256.Size. change (blen magic) with 8. lia.
Qed.

Section facts.
Context `{Json}.

Lemma be_Uint_field n s a b v :
  slice_wf s -> 0 <= a -> b = a + Z.of_nat n -> b <= s_len s -> sub a (Z.of_nat n) (s_arr s) = be_enc n v ->
  0 <= v < 256 ^ Z.of_nat n -> (let! h := s_range s a b in be_Uint n h) = Ok v.
Proof.
  intros Hwf Ha -> Hb Hf Hv. unfold slice_wf in Hwf.
  destruct (s_range_bytes s a (a + Z.of_nat n)) as (t & -> & Ht & Htw & Htl); [lia..|].
  replace (a + Z.of_nat n - a) with (Z.of_nat n) in * by lia. cbn [obind]. unfold be_Uint.
  rewrite Htl, Z.leb_refl. unfold s_bytes in Ht. rewrite Htl in Ht. rewrite Ht, Hf, be_dec_enc.
  by rewrite Z.mod_small.
Qed.

(** Past the header, the checksum and the test of the lengths. *)
Lemma Decode_package ml pl body spare :
  in32 ml -> in64 pl -> in64 (blen body) -> u64 (ml + pl) = blen body ->
  Decode (package ml pl body spare) =
  (let! mb := s_range (mkSlice (body ++ spare) (blen body)) 0 ml in
   let! m := Unmarshal_manifest (s_bytes mb) in
   let! payload := s_from (mkSlice (body ++ spare) (blen body)) ml in
   let! ops := decode_ops payload (manifest.Operations m) in
   Ok (Batch.mk (manifest.RelayID m) (manifest.BatchID m) (manifest.FirstSeq m) (manifest.LastSeq m) ops,
       hex_EncodeToString (sha256.Sum256 body))).
Proof.
  intros Hml Hpl Hb Hsum. destruct (package_arr ml pl body spare) as (H0 & H8 & H12 & H20 & H52 & Hlen).
  set (s := package ml pl body spare) in *.
  assert (Hl : s_len s = headerSize + blen body) by done.
  assert (Hh : headerSize = 52) by done.
  pose proof (blen_nonneg body). pose proof (blen_nonneg spare).
  assert (Hwf : slice_wf s) by (unfold slice_wf, s_cap; lia).
  unfold Decode. rewrite (proj2 (Z.ltb_ge _ _)) by lia.
  destruct (s_range_bytes s 0 8) as (m & -> & Hm & _ & _); [unfold s_cap; lia..|]. cbn [obind].
  rewrite bool_decide_true by (by rewrite Hm). cbn [negb].
  assert (E1 := be_Uint_field 4 s 8 12 ml Hwf ltac:(lia) eq_refl ltac:(lia) H8 Hml).
  assert (E2 := be_Uint_field 8 s 12 20 pl Hwf ltac:(lia) eq_refl ltac:(lia) H12 Hpl).
  destruct (s_range s 8 12) as [h1| |]; cbn [obind] in *; try discriminate. rewrite E1. cbn [obind].
  destruct (s_range s 12 20) as [h2| |]; cbn [obind] in *; try discriminate. rewrite E2. cbn [obind].
  destruct (s_range_bytes s 20 (20 + sha256.Size)) as (w & -> & Hw & _ & _);
    [unfold s_cap, sha256.Size in *; lia..|]. cbn [obind].
  rewrite s_from_ok by (unfold sha256.Size in *; lia). cbn [obind]. rewrite H52. cbn [s_len]. rewrite Hl.
  replace (headerSize + blen body - headerSize) with (blen body) by lia.
  rewrite Hsum, u64_id, Z.eqb_refl by done. cbn [negb].
  assert (Hsb : s_bytes (mkSlice (body ++ spare) (blen body)) = body).
  { unfold s_bytes. cbn. by apply upto_app_exact. }
  rewrite Hsb, bool_decide_true; [done|]. rewrite Hw. change (20 + sha256.Size - 20) with 32. by rewrite H20.
Qed.

(** The operations come back from the payload. *)
Lemma encode_ops_ok ops p0 w0 p w rest :
  foldl encode_op (p0, w0) ops = (p, w) -> blen (p ++ rest) < 2 ^ 63 ->
  exists p1 w1, p = p0 ++ p1 /\ w = w0 ++ w1
    /\ decode_ops (mkSlice (p ++ rest) (blen p)) w1 = Ok ops.
Proof.
  revert p0 w0. induction ops as [|op ops IH]; intros p0 w0 E Hb; cbn [foldl] in E.
  { simplify_eq. exists [], []. by rewrite !app_nil_r. }
  cbn [encode_op] in E. pose proof (blen_nonneg (Operation.Data op)) as Hd. pose proof (blen_nonneg p0).
  destruct (Z.eqb_spec (blen (Operation.Data op)) 0) as [Hz|Hz]; cbn [negb] in E;
    destruct (IH _ _ E Hb) as (p1 & w1 & Hp & Hw & Hops).
  - eexists p1, (_ :: w1). split_and!; [done|by rewrite Hw, <- app_assoc|].
    cbn [decode_ops]. rewrite Hops. unfold decode_op, wire_of. cbn. destruct op as [? ? ? ? ? ? ? ? ? ? d].
    cbn in *. destruct d; [done|]. by rewrite blen_cons in Hz; pose proof (blen_nonneg d); lia.
  - exists (Operation.Data op ++ p1), (wire_of op (u64 (blen p0)) (u64 (blen (Operation.Data op))) :: w1).
    split_and!; [by rewrite app_assoc|by rewrite Hw, <- app_assoc|].
    pose proof (blen_nonneg p1). pose proof (blen_nonneg rest).
    assert (Hlen : blen p = blen p0 + blen (Operation.Data op) + blen p1)
      by (rewrite Hp, !blen_app; lia).
    rewrite blen_app in Hb.
    cbn [decode_ops]. unfold decode_op, wire_of. cbn [wireOperation.DataLength wireOperation.DataOffset].
    rewrite (u64_id (blen p0)), (u64_id (blen (Operation.Data op))) by (unfold in64; lia).
    rewrite (proj2 (Z.eqb_neq _ _)) by done. cbn [negb]. rewrite u64_id by (unfold in64; lia).
    rewrite (proj2 (Z.ltb_ge _ _)) by lia.
    replace (_ >? _) with false by (symmetry; rewrite Z.gtb_ltb; apply Z.ltb_ge; cbn; lia). cbn [orb].
    destruct (s_range_bytes (mkSlice (p ++ rest) (blen p)) (blen p0) (blen p0 + blen (Operation.Data op)))
      as (t & -> & Ht & _); [lia|lia|unfold s_cap; cbn; rewrite blen_app; lia|].
    cbn [obind]. rewrite Hops, Ht. cbn [obind s_arr]. destruct op as [? ? ? ? ? ? ? ? ? ? d]. cbn in *.
    do 3 f_equal. rewrite Hp, <- !app_assoc. apply sub_mid; [done|lia].
Qed.

Lemma Encode_inv batch enc hash :
  Encode batch = Ok (enc, hash) ->
  exists p w mb, foldl encode_op ([], []) (Batch.Operations batch) = (p, w)
    /\ Marshal_manifest (manifest.mk (Batch.RelayID batch) (Batch.BatchID batch) (Batch.FirstSeq batch)
                            (Batch.LastSeq batch) w) = Ok mb
    /\ u64 (blen mb) <= 0xffffffff
    /\ enc = magic ++ be_enc 4 (u32 (blen mb)) ++ be_enc 8 (u64 (blen p))
               ++ sha256.Sum256 (mb ++ p) ++ (mb ++ p)
    /\ hash = hex_EncodeToString (sha256.Sum256 (mb ++ p)).
Proof.
  unfold Encode. destruct (foldl encode_op _ _) as [p w]. intros E.
  destruct (Marshal_manifest _) as [mb| |] eqn:Em; cbn [obind] in E; try discriminate.
  destruct (u64 (blen mb) >? 0xffffffff) eqn:Eb; [discriminate|].
  rewrite Z.gtb_ltb in Eb. apply Z.ltb_ge in Eb. injection E as <- <-.
  by exists p, w, mb.
Qed.

End facts.

(** C26: a journal package that was encoded is decoded to the same batch with
    the same hash.  Whatever JSON text the manifest has, and whatever spare
    capacity the slice has that the package was read into, every operation
    comes back with its own data. *)
Theorem journal_roundtrip `{JsonLaws} batch enc hash spare :
  Encode batch = Ok (enc, hash) -> blen (enc ++ spare) < 2 ^ 63 ->
  Decode (mkSlice (enc ++ spare) (blen enc)) = Ok (batch, hash).
Proof.
  intros (p & w & mb & Ef & Em & Hmb & -> & ->)%Encode_inv Hb.
  pose proof (blen_nonneg mb). pose proof (blen_nonneg p). pose proof (blen_nonneg spare).
  pose proof (sha256.blen_Sum256 (mb ++ p)) as Hs.
  rewrite !blen_app, !blen_be_enc, Hs in Hb. change (blen magic) with 8 in Hb. unfold sha256.Size in Hb.
  rewrite u64_id in Hmb by (unfold in64; lia). rewrite u32_id, u64_id by (unfold in32, in64; lia).
  replace (mkSlice _ _) with (package (blen mb) (blen p) (mb ++ p) spare).
  2: { unfold package. f_equal. rewrite !blen_app, !blen_be_enc, Hs.
       unfold headerSize, sha256.Size. change (blen magic) with 8. lia. }
  rewrite Decode_package; [|unfold in32, in64; rewrite ?blen_app; lia..|].
  2: { rewrite blen_app. apply u64_id. unfold in64. lia. }
  destruct (s_range_bytes (mkSlice ((mb ++ p) ++ spare) (blen (mb ++ p))) 0 (blen mb))
    as (t & -> & Ht & _); [lia|lia|unfold s_cap; cbn; rewrite !blen_app; lia|].
  cbn [obind]. rewrite Ht, Z.sub_0_r. cbn [s_arr]. rewrite <- app_assoc.
  rewrite (sub_mid [] mb (p ++ spare)) by done. rewrite (json_manifest _ _ Em). cbn [obind].
  rewrite s_from_ok by (cbn; rewrite ?blen_app; lia). cbn [obind s_arr s_len].
  rewrite from_app_exact by done. replace (blen (mb ++ p) - blen mb) with (blen p) by (rewrite blen_app; lia).
  destruct (encode_ops_ok _ [] [] p w spare Ef) as (p1 & w1 & -> & -> & Hops); [rewrite blen_app; lia|].
  cbn [manifest.Operations app] in *. rewrite Hops. cbn. by destruct batch.
Qed.

(** The test of the lengths wraps around.  The code compares the length of
    the body with the sum of the two lengths of the header in 64 bits.  A
    package of 52 bytes, with no body, that gives 2^32-1 and 2^64-2^32+1 as the
    lengths of its manifest and payload has a correct checksum and passes the
    test; the slice expression that takes the manifest then panics. *)
Theorem journal_length_wraps `{Json} spare :
  blen spare < 0xffffffff ->
  Decode (package 0xffffffff (2 ^ 64 - 0xffffffff) [] spare) = Panic.
Proof.
  intros Hs. rewrite Decode_package; [|unfold in32; lia|unfold in64; lia|by unfold in64|by vm_compute].
  rewrite s_range_panic; [done|]. right. exact Hs.
Qed.

(** ** A JSON library for the examples

    Numbers of eight bytes and strings with their lengths; it refuses what it
    would not read back. *)

Module toy_json.

Definition str (s : gostring) : list Z := Z.of_nat (length s) :: s.
Definition to_bytes (ts : list Z) : bytes := concat (le_enc 8 <$> ts).
Fixpoint to_tokens (n : nat) (bs : bytes) : list Z :=
  match n with O => [] | S n => le_dec (take 8 bs) :: to_tokens n (drop 8 bs) end.
Definition tokens (bs : bytes) : list Z := to_tokens (length bs / 8) bs.

(** A reader takes tokens off the front. *)
Definition num (ts : list Z) : option (Z * list Z) :=
  match ts with n :: ts => Some (n, ts) | [] => None end.
Definition text (ts : list Z) : option (gostring * list Z) :=
  '(n, ts) ← num ts; Some (take (Z.to_nat n) ts, drop (Z.to_nat n) ts).

Definition wire_tokens (w : wireOperation.t) : list Z :=
  [wireOperation.Seq w; wireOperation.Offset w; wireOperation.Length w; wireOperation.DataOffset w;
   wireOperation.DataLength w; wireOperation.Mode w; wireOperation.ATime w; wireOperation.MTime w]
  ++ str (wireOperation.Type_ w) ++ str (wireOperation.Path w) ++ str (wireOperation.Target w)
  ++ str (wireOperation.Name w).
Definition read_wire (ts : list Z) : option (wireOperation.t * list Z) :=
  '(a, ts) ← num ts; '(b, ts) ← num ts; '(c, ts) ← num ts; '(d, ts) ← num ts; '(e, ts) ← num ts;
  '(m, ts) ← num ts; '(at_, ts) ← num ts; '(mt, ts) ← num ts;
  '(ty, ts) ← text ts; '(p, ts) ← text ts; '(tg, ts) ← text ts; '(nm, ts) ← text ts;
  Some (wireOperation.mk a b c d e ty p tg nm m at_ mt, ts).
Fixpoint read_wires (n : nat) (ts : list Z) : option (list wireOperation.t) :=
  match n with
  | O => Some []
  | S n => '(w, ts) ← read_wire ts; ws ← read_wires n ts; Some (w :: ws)
  end.

Definition manifest_bytes (m : manifest.t) : bytes :=
  to_bytes (str (manifest.RelayID m) ++ str (manifest.BatchID m)
            ++ [manifest.FirstSeq m; manifest.LastSeq m; Z.of_nat (length (manifest.Operations m))]
            ++ concat (wire_tokens <$> manifest.Operations m)).
Definition read_manifest (bs : bytes) : option manifest.t :=
  let ts := tokens bs in
  '(r, ts) ← text ts; '(b, ts) ← text ts; '(f, ts) ← num ts; '(l, ts) ← num ts; '(n, ts) ← num ts;
  ws ← read_wires (Z.to_nat n) ts; Some (manifest.mk r b f l ws).
Definition receipt_bytes (r : Receipt.t) : bytes :=
  to_bytes (str (Receipt.Protocol r) ++ str (Receipt.RelayID r) ++ str (Receipt.BatchID r)
            ++ [Receipt.LastSeq r] ++ str (Receipt.Hash r)).
Definition read_receipt (bs : bytes) : option Receipt.t :=
  let ts := tokens bs in
  '(p, ts) ← text ts; '(r, ts) ← text ts; '(b, ts) ← text ts; '(l, ts) ← num ts; '(h, _) ← text ts;
  Some (Receipt.mk p r b l h).
Definition progress_bytes (p : applyProgress.t) : bytes :=
  to_bytes ([applyProgress.Version p] ++ str (applyProgress.RelayID p) ++ str (applyProgress.BatchID p)
            ++ str (applyProgress.Hash p) ++ [applyProgress.NextOperation p]).
Definition read_progress (bs : bytes) : option applyProgress.t :=
  let ts := tokens bs in
  '(v, ts) ← num ts; '(r, ts) ← text ts; '(b, ts) ← text ts; '(h, ts) ← text ts; '(n, _) ← num ts;
  Some (applyProgress.mk v r b h n).

Definition marshal {A} `{EqDecision A} (enc : A -> bytes) (dec : bytes -> option A) (a : A) : outcome bytes :=
  if decide (dec (enc a) = Some a) then Ok (enc a) else Err (ErrOther "json").
Definition unmarshal {A} (dec : bytes -> option A) (bs : bytes) : outcome A :=
  match dec bs with Some a => Ok a | None => Err (ErrOther "json") end.

#[export] Instance json : Json := {|
  Marshal_manifest := marshal manifest_bytes read_manifest;
  Unmarshal_manifest := unmarshal read_manifest;
  Marshal_Receipt := marshal receipt_bytes read_receipt;
  Unmarshal_Receipt := unmarshal read_receipt;
  Marshal_applyProgress := marshal progress_bytes read_progress;
  Unmarshal_applyProgress := unmarshal read_progress;
  Marshal_Capabilities := fun c =>
    Ok (to_bytes (str (Capabilities.Protocol c) ++ [Capabilities.MaxBatchBytes c]))
|}.

Lemma marshal_ok {A} `{EqDecision A} enc dec (a : A) b :
  marshal enc dec a = Ok b -> unmarshal dec b = Ok a.
Proof. unfold marshal, unmarshal. case_decide as E; [|done]. intros [= <-]. by rewrite E. Qed.

#[export] Instance laws : JsonLaws.
Proof.
  split.
  - intros m b. apply marshal_ok.
  - intros m b. apply marshal_ok.
  - intros m b. apply marshal_ok.
  - intros b. cbn. unfold unmarshal. by destruct (read_manifest b).
Defined.

End toy_json.
Import (hints) toy_json.

(** The batch of protocol_test.go. *)
Definition test_batch : Batch.t :=
  Batch.mk (lit "relay") (lit "batch") 7 8
    [Operation.mk 7 (lit "write") (lit "bundle/bands/1") [] [] 11 4 0 0 0 (lit "data");
     Operation.mk 8 (lit "rename") (lit "old") (lit "new") [] 0 0 0 0 0 []].

Lemma test_batch_encodes : is_ok (Encode test_batch) = true.
Proof. vm_compute. reflexivity. Qed.

Definition test_package : bytes * gostring :=
  match Encode test_batch with Ok r => r | _ => ([], []) end.
Lemma test_package_short : (blen (test_package.1 ++ [1; 2; 3]) <? 2 ^ 63) = true.
Proof. vm_compute. reflexivity. Qed.
Lemma test_package_ok : Encode test_batch = Ok test_package.
Proof. pose proof test_batch_encodes. unfold test_package. by destruct (Encode test_batch). Qed.

Lemma journal_roundtrip_witness :
  Decode (mkSlice (test_package.1 ++ [1; 2; 3]) (blen test_package.1)) = Ok (test_batch, test_package.2).
Proof.
  apply journal_roundtrip.
  - rewrite test_package_ok. by destruct test_package.
  - apply Z.ltb_lt. exact test_package_short.
Defined.

Lemma journal_length_wraps_witness :
  Decode (package 0xffffffff (2 ^ 64 - 0xffffffff) [] (zeros 460)) = Panic.
Proof. apply journal_length_wraps. reflexivity. Defined.

End bulk.
