(* ===== verification/BulkBackend.v ===== *)
(** * The backend of the bulk journal (bulk/backend.go)

    A package that a client renames into the inbox is decoded, checked and
    applied to the share: the operations run in order, writes next to each
    other are grouped by file, and after each step the number of the next
    operation is kept in a progress file, from which an interrupted
    application goes on.  A receipt ends the application of a batch. *)

From S2P Require Import Prelude Utf16 Paths Dtyp Vfs Filepath Os Memfs Xattrstore Digest Bulk.

Module backend.
Import bulk.

(** ** Pure parts *)

Definition resolve (root name : gostring) : outcome gostring :=
  let name := ReplaceAll name backslash slash in
  let clean := Clean (Join2 root name) in
  match Rel root clean with
  | None => Err (ErrOther "bulk path escapes share root")
  | Some rel =>
      if bool_decide (rel = dotdot) || HasPrefix rel (dotdot ++ [slash])
      then Err (ErrOther "bulk path escapes share root") else Ok clean
  end.

Fixpoint validate_ops (first last previous : Z) (i : nat) (ops : list Operation.t) : outcome unit :=
  match ops with
  | [] => Ok tt
  | op :: ops =>
      let seq := Operation.Seq op in
      if (seq <? first) || (seq >? last) || (negb (i =? 0)%nat && (seq <? previous))
      then Err (ErrOther "bulk journal operations are outside sequence order") else
      if bool_decide (Operation.Type_ op = lit "write")
         && negb (u64 (blen (Operation.Data op)) =? Operation.Length op)
      then Err (ErrOther "bulk write length mismatch")
      else validate_ops first last seq (S i) ops
  end.
Definition validateBatch (batch : Batch.t) : outcome unit :=
  if bool_decide (Batch.RelayID batch = []) || bool_decide (Batch.BatchID batch = [])
     || bool_decide (Batch.Operations batch = [])
  then Err (ErrOther "invalid empty bulk journal batch") else
  if (Batch.FirstSeq batch =? 0) || (Batch.LastSeq batch <? Batch.FirstSeq batch)
  then Err (ErrOther "invalid bulk journal sequence bounds") else
  validate_ops (Batch.FirstSeq batch) (Batch.LastSeq batch) 0 0 (Batch.Operations batch).

Fixpoint laterSymlinkReplaces (ops : list Operation.t) (name : gostring) : bool :=
  match ops with
  | [] => false
  | op :: ops =>
      if negb (bool_decide (Operation.Path op = name)) then laterSymlinkReplaces ops name
      else bool_decide (Operation.Type_ op = lit "symlink")
  end.

(** The first loop of [applyWriteRun]: the resolved paths in the order they
    are first met, and the operations of each. *)
Definition groups : Type := list gostring * gmap gostring (list Operation.t).
Definition group_op (root : gostring) (acc : outcome groups) (op : Operation.t) : outcome groups :=
  let! (order, byPath) := acc in
  let! p := resolve root (Operation.Path op) in
  Ok (match byPath !! p with
      | None => (order ++ [p], <[p := [op]]> byPath)
      | Some l => (order, <[p := l ++ [op]]> byPath)
      end).
Definition group_ops (root : gostring) (ops : list Operation.t) : outcome groups :=
  foldl (group_op root) (Ok ([], ∅)) ops.

Definition is_write (op : Operation.t) : bool := bool_decide (Operation.Type_ op = lit "write").
(** [end] of the inner loop of [apply]: how many writes come first. *)
Fixpoint writes (ops : list Operation.t) : nat :=
  match ops with
  | op :: ops => if is_write op then S (writes ops) else O
  | [] => O
  end.

(** ** Effects *)

Section effects.
Context `{OS, Json}.

(** [err = f.Sync(); if closeErr := f.Close(); err == nil { err = closeErr }] *)
Definition sync_close (f : File) : IO os_st unit :=
  let? err := attempt (sys_err (f_Sync f)) in
  let? closeErr := attempt (sys_err (f_Close f)) in
  match err, closeErr with
  | inr e, _ => fail e
  | inl _, inr e => fail e
  | inl _, inl _ => ret tt
  end.
Definition syncFile (path : gostring) : IO os_st unit :=
  let? f := sys (os_Open path) in sync_close f.
Definition syncDirectory (path : gostring) : IO os_st unit :=
  let? dir := sys (os_Open path) in sync_close dir.

(** The error of a call that also returns a count. *)
Definition sys_count (m : os_st -> (Z * option vfs_error) * os_st) : IO os_st Z :=
  fun s => match m s with ((n, None), s) => (Val n, s) | ((_, Some e), s) => (Fail e, s) end.

Definition writeAtomic (path : gostring) (data : bytes) : IO os_st unit :=
  sys_err (os_MkdirAll (Dir path) 0x1c0) ;;?
  let tmp := path ++ lit ".tmp" in
  let? f := sys (os_OpenFile tmp (Z.lor (Z.lor O_CREATE O_TRUNC) O_WRONLY) 0x180) in
  let? err := attempt (sys_count (f_Write f data) ;;? sys_err (f_Sync f)) in
  let? closeErr := attempt (sys_err (f_Close f)) in
  match err, closeErr with
  | inr e, _ => fail e
  | inl _, inr e => fail e
  | inl _, inl _ => sys_err (os_Rename tmp path) ;;? syncDirectory (Dir path)
  end.

Definition readReceipt (path : gostring) : IO os_st Receipt.t :=
  let? b := sys (os_ReadFile path) in pure_call (Unmarshal_Receipt (s_bytes b)).

(** [_ = os.Remove(path)] of each, then the directory of the first. *)
Fixpoint remove_all (paths : list gostring) : IO os_st unit :=
  match paths with
  | [] => ret tt
  | p :: ps => ignore (sys_err (os_Remove p)) ;;? remove_all ps
  end.
Definition removeApplyArtifacts (paths : list gostring) : IO os_st unit :=
  remove_all paths ;;?
  match paths with
  | [] => ret tt
  | p :: _ => ignore (syncDirectory (Dir p))
  end.

Definition readApplyProgress (path : gostring) (batch : Batch.t) (hash : gostring) : IO os_st Z :=
  let? r := attempt (sys (os_ReadFile path)) in
  match r with
  | inr e => if is_ErrNotExist e then ret 0 else fail e
  | inl data =>
      let? progress := pure_call (Unmarshal_applyProgress (s_bytes data)) in
      if negb (applyProgress.Version progress =? 1)
         || negb (bool_decide (applyProgress.RelayID progress = Batch.RelayID batch))
         || negb (bool_decide (applyProgress.BatchID progress = Batch.BatchID batch))
         || negb (bool_decide (applyProgress.Hash progress = hash))
         || (applyProgress.NextOperation progress <? 0)
         || (applyProgress.NextOperation progress >? Z.of_nat (length (Batch.Operations batch)))
      then fail other_error
      else ret (applyProgress.NextOperation progress)
  end.

(** *** applyWriteRun *)

(** The writes of one file; the file is closed on an error. *)
Fixpoint write_all (f : File) (ops : list Operation.t) : IO os_st unit :=
  match ops with
  | [] => ret tt
  | op :: ops =>
      let? r := attempt (sys_count (f_WriteAt f (Operation.Data op) (s64 (Operation.Offset op)))) in
      let writeErr := match r with
                      | inl n => if negb (n =? blen (Operation.Data op)) then Some other_error else None
                      | inr e => Some e
                      end in
      match writeErr with
      | Some e => ignore (sys_err (f_Close f)) ;;? fail e
      | None => write_all f ops
      end
  end.

Definition write_file (p : gostring) (ops : list Operation.t) : IO os_st unit :=
  let? f := sys (os_OpenFile p O_RDWR 0x180) in
  write_all f ops ;;?
  let? err := attempt (sys_err (f_Sync f)) in
  match err with
  | inr e => ignore (sys_err (f_Close f)) ;;? fail e
  | inl _ => sys_err (f_Close f)
  end.

Fixpoint write_files (order : list gostring) (byPath : gmap gostring (list Operation.t)) : IO os_st unit :=
  match order with
  | [] => ret tt
  | p :: order => write_file p (default [] (byPath !! p)) ;;? write_files order byPath
  end.

Definition applyWriteRun (root : gostring) (ops : list Operation.t) : IO os_st unit :=
  let? (order, byPath) := pure_call (group_ops root ops) in
  write_files order byPath.

(** *** apply: the cases of the switch *)

Definition apply_create (p : gostring) (op : Operation.t) (later : list Operation.t) : IO os_st unit :=
  let? r := attempt (sys (os_OpenFile p (Z.lor (Z.lor O_CREATE O_EXCL) O_RDWR) (Operation.Mode op))) in
  let? createErr :=
    match r with
    | inl f =>
        let? s := attempt (sys_err (f_Sync f)) in
        match s with
        | inl _ => attempt (sys_err (f_Close f))
        | inr e => ignore (sys_err (f_Close f)) ;;? ret (inr e)
        end
    | inr e =>
        if is_ErrExist e then
          let? st := attempt (sys (os_Lstat p)) in
          ret (match st with
               | inl info =>
                   if mode_IsRegular (FileInfo.Mode info)
                      || (has (FileInfo.Mode info) ModeSymlink
                          && laterSymlinkReplaces later (Operation.Path op))
                   then inl tt else inr e
               | inr _ => inr e
               end)
        else ret (inr e)
    end in
  match createErr with
  | inr e => fail e
  | inl _ => syncDirectory (Dir p)
  end.

Definition apply_mkdir (p : gostring) (op : Operation.t) : IO os_st unit :=
  let? r := attempt (sys_err (os_Mkdir p (Operation.Mode op))) in
  match r with
  | inr e =>
      if negb (is_ErrExist e) then fail e else
      let? st := attempt (sys (os_Stat p)) in
      match st with
      | inl info => if negb (FileInfo.IsDir info) then fail e else syncDirectory (Dir p)
      | inr _ => fail e
      end
  | inl _ => syncDirectory (Dir p)
  end.

Definition apply_truncate (p : gostring) (op : Operation.t) : IO os_st unit :=
  sys_err (os_Truncate p (s64 (Operation.Length op))) ;;? syncFile p.

Definition apply_setattr (p : gostring) (op : Operation.t) : IO os_st unit :=
  let? info := sys (os_Lstat p) in
  if negb (has (FileInfo.Mode info) ModeSymlink) then
    sys_err (os_Chmod p (Operation.Mode op)) ;;?
    sys_err (os_Chtimes p (Operation.ATime op) (Operation.MTime op)) ;;?
    syncFile p
  else ret tt.

Definition apply_rename (root p : gostring) (op : Operation.t) : IO os_st unit :=
  let? target := pure_call (resolve root (Operation.Target op)) in
  let? r := attempt (sys_err (os_Rename p target)) in
  match r with
  | inr err =>
      let? old := attempt (sys (os_Lstat p)) in
      match old with
      | inr oldErr =>
          if negb (is_ErrNotExist oldErr) then fail err else
          let? tgt := attempt (sys (os_Lstat target)) in
          match tgt with inr _ => fail err | inl _ => ret tt end
      | inl _ => fail err
      end
  | inl _ => ret tt
  end ;;?
  syncDirectory (Dir p) ;;?
  if negb (bool_decide (Dir target = Dir p)) then syncDirectory (Dir target) else ret tt.

Definition apply_remove (p : gostring) : IO os_st unit :=
  let? r := attempt (sys_err (os_Remove p)) in
  match r with
  | inr e => if negb (is_ErrNotExist e) then fail e else syncDirectory (Dir p)
  | inl _ => syncDirectory (Dir p)
  end.

Definition apply_symlink (p : gostring) (op : Operation.t) : IO os_st unit :=
  ignore (sys_err (os_Remove p)) ;;?
  sys_err (os_Symlink (Operation.Target op) p) ;;?
  syncDirectory (Dir p).

Definition apply_setxattr (p : gostring) (op : Operation.t) : IO os_st unit :=
  let? info := sys (os_Lstat p) in
  if negb (has (FileInfo.Mode info) ModeSymlink) then
    xattrstore.Set_ p (Operation.Name op) (Operation.Data op) ;;? syncFile p
  else ret tt.

Definition apply_removexattr (p : gostring) (op : Operation.t) : IO os_st unit :=
  let? info := sys (os_Lstat p) in
  if negb (has (FileInfo.Mode info) ModeSymlink) then
    let? r := attempt (xattrstore.Remove p (Operation.Name op)) in
    match r with
    | inr e => if negb (is_ENOATTR e) then fail e else syncFile p
    | inl _ => syncFile p
    end
  else ret tt.

Definition apply_op (root : gostring) (op : Operation.t) (later : list Operation.t) : IO os_st unit :=
  let? p := pure_call (resolve root (Operation.Path op)) in
  let typ t := bool_decide (Operation.Type_ op = lit t) in
  if typ "create"%string then apply_create p op later
  else if typ "mkdir"%string then apply_mkdir p op
  else if typ "truncate"%string then apply_truncate p op
  else if typ "setattr"%string then apply_setattr p op
  else if typ "rename"%string then apply_rename root p op
  else if typ "remove"%string then apply_remove p
  else if typ "symlink"%string then apply_symlink p op
  else if typ "setxattr"%string then apply_setxattr p op
  else if typ "removexattr"%string then apply_removexattr p op
  else fail other_error.

(** The loop of [apply] from operation [i], [ops] being what is left; [fuel]
    bounds the number of turns. *)
Fixpoint apply_loop (fuel : nat) (root : gostring) (ops : list Operation.t) (i : Z)
    (checkpoint : Z -> IO os_st unit) : IO os_st unit :=
  match fuel, ops with
  | S fuel, op :: rest =>
      if is_write op then
        let n := writes ops in
        applyWriteRun root (take n ops) ;;?
        checkpoint (i + Z.of_nat n) ;;?
        apply_loop fuel root (drop n ops) (i + Z.of_nat n) checkpoint
      else
        apply_op root op rest ;;?
        checkpoint (i + 1) ;;?
        apply_loop fuel root rest (i + 1) checkpoint
  | _, _ => ret tt
  end.
Definition apply (root : gostring) (batch : Batch.t) (start : Z) (checkpoint : Z -> IO os_st unit)
  : IO os_st unit :=
  let ops := drop (Z.to_nat start) (Batch.Operations batch) in
  apply_loop (length ops) root ops start checkpoint.

(** *** CommitReady and Initialize *)

Definition checkpoint_at (progressPath : gostring) (batch : Batch.t) (hash : gostring) (nextOperation : Z)
  : IO os_st unit :=
  let? data := pure_call (Marshal_applyProgress
                 (applyProgress.mk 1 (Batch.RelayID batch) (Batch.BatchID batch) hash nextOperation)) in
  writeAtomic progressPath data.

(** [data, _ := json.Marshal(v)]: nil with an error. *)
Definition marshalled (m : outcome bytes) : IO os_st bytes :=
  fun s => match m with Ok b => (Val b, s) | Err _ => (Val [], s) | Panic => (Crash, s) end.

(** From the point where no receipt answers the batch. *)
Definition commit_batch (root readyPath receiptPath progressPath : gostring) (batch : Batch.t) (hash : gostring)
  : IO os_st Receipt.t :=
  let? next := readApplyProgress progressPath batch hash in
  apply root batch next (checkpoint_at progressPath batch hash) ;;?
  let receipt := Receipt.mk Protocol (Batch.RelayID batch) (Batch.BatchID batch) (Batch.LastSeq batch) hash in
  let? receiptData := marshalled (Marshal_Receipt receipt) in
  writeAtomic receiptPath receiptData ;;?
  removeApplyArtifacts [readyPath; progressPath] ;;?
  ret receipt.

Definition CommitReady (root readyPath : gostring) (maxBatchBytes : Z) : IO os_st Receipt.t :=
  let? info := sys (os_Stat readyPath) in
  if (maxBatchBytes >? 0) && (FileInfo.Size info >? maxBatchBytes) then fail other_error else
  syncDirectory (Dir readyPath) ;;?
  let? data := sys (os_ReadFile readyPath) in
  let? (batch, hash) := pure_call (Decode data) in
  pure_call (validateBatch batch) ;;?
  let receiptPath := Join2 root (ReceiptPath (Batch.RelayID batch)) in
  let progressPath := readyPath ++ lit ".progress" in
  let? previous := attempt (readReceipt receiptPath) in
  match previous with
  | inl previous =>
      if negb (bool_decide (Receipt.Protocol previous = Protocol))
         || negb (bool_decide (Receipt.RelayID previous = Batch.RelayID batch))
      then fail other_error
      else if Receipt.LastSeq previous >=? Batch.LastSeq batch then
        removeApplyArtifacts [readyPath; progressPath] ;;? ret previous
      else if Batch.FirstSeq batch >? u64 (Receipt.LastSeq previous + 1) then fail other_error
      else commit_batch root readyPath receiptPath progressPath batch hash
  | inr _ => commit_batch root readyPath receiptPath progressPath batch hash
  end.

Fixpoint make_dirs (root : gostring) (dirs : list gostring) : IO os_st unit :=
  match dirs with
  | [] => ret tt
  | d :: dirs => sys_err (os_MkdirAll (Join2 root d) 0x1c0) ;;? make_dirs root dirs
  end.
Definition Initialize (root : gostring) (maxBatchBytes : Z) : IO os_st unit :=
  make_dirs root [Directory; Directory ++ lit "/inbox"; Directory ++ lit "/receipts"] ;;?
  let? capabilities := marshalled (Marshal_Capabilities (Capabilities.mk Protocol maxBatchBytes)) in
  writeAtomic (Join2 root CapabilitiesPath) capabilities.

End effects.

End backend.
