(* ===== verification/BulkApply.v ===== *)
(** * What applying a bulk journal does

    The paths of a journal stay inside the share; a run of writes that is
    grouped by file leaves what the journal's order leaves, unless two paths
    lead to one file; and an application that stops after a checkpoint and is
    started again ends as one that was not stopped. *)

From S2P Require Import Prelude Utf16 Paths Dtyp Vfs Filepath Os Memfs Xattrstore Digest Bulk BulkBackend.

Module bulk_apply.
Import bulk backend.

(** ** Paths *)

(** [p] is the directory or lexically below it. *)
Definition inside (dir p : gostring) : Prop :=
  exists es rel, Forall plain (es ++ rel) /\ Clean dir = absolute es /\ p = absolute (es ++ rel).

Lemma Join2_abs root es name :
  IsAbs root = true -> Forall plain es -> Clean root = absolute es ->
  Join2 root name = absolute (reverse (walk (Split name slash) (reverse es))).
Proof.
  intros Ha Hes Hc. assert (Hw : walk (Split root slash) [] = reverse es).
  { rewrite Clean_abs in Hc by done. apply absolute_inj in Hc as <-; [by rewrite reverse_involutive| |done].
    apply Forall_reverse, walk_plain; [|done]. apply Forall_forall, Split_free. }
  unfold Join2. destruct root as [|c root]; [done|].
  rewrite Clean_abs by done. by rewrite Split_cut, walk_app, Hw.
Qed.

Lemma Rel_clean base targ : Clean (Clean base) = Clean base -> Rel (Clean base) targ = Rel base targ.
Proof. intros E. unfold Rel. by rewrite E. Qed.

(** C27: the paths of a journal stay inside the share.  For a share whose root
    is an absolute path, a name of the journal, with either separator, resolves
    to the root joined with the name exactly when that path is the root or
    below it, and is refused otherwise. *)
Theorem resolve_confined root name p :
  IsAbs root = true ->
  resolve root name = Ok p <-> p = Join2 root (ReplaceAll name backslash slash) /\ inside root p.
Proof.
  intros Ha. destruct (Clean_absolute_inv root Ha) as (es & Hes & Hc). unfold resolve.
  rewrite (Join2_abs root es) by done. set (name' := ReplaceAll name backslash slash).
  set (es' := reverse (walk (Split name' slash) (reverse es))).
  assert (Hes' : Forall plain es') by by apply walk_from_plain.
  rewrite Clean_absolute by done.
  assert (Hcc : Clean (Clean root) = Clean root) by by rewrite Hc, Clean_absolute.
  rewrite <- (Rel_clean root) by done. rewrite Hc.
  destruct (Rel_absolute es es' Hes Hes') as (rel & -> & Hcl). fold (climbs rel).
  assert (Hin : inside root (absolute es') <-> es `prefix_of` es').
  { split.
    - intros (es0 & rl & Hp & Hc0 & He). rewrite Hc in Hc0.
      apply absolute_inj in Hc0 as <-; [|done|by apply Forall_app in Hp as []].
      apply absolute_inj in He as ->; [by exists rl|done..].
    - intros [rl ->]. by exists es, rl. }
  destruct (climbs rel) eqn:Ec.
  - split; [done|]. intros [-> Hi]. apply Hin, Hcl in Hi. congruence.
  - split; [|by intros [-> _]]. intros [= <-]. split; [done|]. apply Hin, Hcl. done.
Qed.

Lemma resolve_confined_witness :
  resolve (lit "/srv/share") (lit "a\..\b/./c") = Ok (lit "/srv/share/b/c").
Proof.
  apply resolve_confined; [reflexivity|]. split; [vm_compute; reflexivity|].
  exists [lit "srv"; lit "share"], [lit "b"; lit "c"]. split; [|split; vm_compute; reflexivity].
  repeat constructor; discriminate.
Defined.

(** ** A run of writes *)

Definition at_path (root p : gostring) (op : Operation.t) : bool :=
  match resolve root (Operation.Path op) with Ok q => bool_decide (q = p) | _ => false end.

(** The writes of a list of operations on the contents of one file. *)
Definition write_op (d : bytes) (op : Operation.t) : bytes :=
  pwrite (s64 (Operation.Offset op)) (Operation.Data op) d.

Definition ops_at (root p : gostring) (ops : list Operation.t) : list Operation.t :=
  filter (fun op => at_path root p op = true) ops.

(** What the first loop of a run has made of the operations so far. *)
Record grouped (root : gostring) (ops : list Operation.t) (order : list gostring)
    (byPath : gmap gostring (list Operation.t)) : Prop := {
  gr_nodup : NoDup order;
  gr_keys p : p ∈ order <-> is_Some (byPath !! p);
  gr_ops p : default [] (byPath !! p) = ops_at root p ops;
  gr_all op : op ∈ ops -> exists p, resolve root (Operation.Path op) = Ok p /\ p ∈ order;
  gr_some p : p ∈ order -> exists op, op ∈ ops /\ resolve root (Operation.Path op) = Ok p
}.

Lemma ops_at_snoc root p ops op q :
  resolve root (Operation.Path op) = Ok q ->
  ops_at root p (ops ++ [op]) = ops_at root p ops ++ (if decide (q = p) then [op] else []).
Proof.
  intros Eq. unfold ops_at. rewrite filter_app. f_equal. rewrite filter_cons, filter_nil.
  unfold at_path. rewrite Eq. destruct (decide (q = p)) as [->|Hq].
  - by rewrite bool_decide_true.
  - by rewrite bool_decide_false.
Qed.

(** The table after one more operation, under its path. *)
Lemma grouped_table root ops op order byPath q :
  grouped root ops order byPath -> resolve root (Operation.Path op) = Ok q ->
  forall p, default [] (<[q := default [] (byPath !! q) ++ [op]]> byPath !! p) = ops_at root p (ops ++ [op]).
Proof.
  intros Hg Eq p. rewrite (ops_at_snoc _ _ _ _ q) by done. rewrite <- (gr_ops _ _ _ _ Hg).
  destruct (decide (q = p)) as [->|Hq].
  - by rewrite lookup_insert_eq.
  - by rewrite lookup_insert_ne, app_nil_r.
Qed.

Lemma grouped_all root ops op order byPath q (order' : list gostring) :
  grouped root ops order byPath -> resolve root (Operation.Path op) = Ok q ->
  (forall p, p ∈ order -> p ∈ order') -> q ∈ order' ->
  forall op', op' ∈ ops ++ [op] -> exists p, resolve root (Operation.Path op') = Ok p /\ p ∈ order'.
Proof.
  intros Hg Eq Ho Hq op' [H| ->%list_elem_of_singleton]%elem_of_app; [|by exists q].
  destruct (gr_all _ _ _ _ Hg op' H) as (p & Hp & Hpo). exists p. auto.
Qed.

Lemma grouped_some root ops op order byPath q p :
  grouped root ops order byPath -> resolve root (Operation.Path op) = Ok q -> p ∈ order \/ p = q ->
  exists op', op' ∈ ops ++ [op] /\ resolve root (Operation.Path op') = Ok p.
Proof.
  intros Hg Eq [Hp| ->].
  - destruct (gr_some _ _ _ _ Hg p Hp) as (op' & Hi & Hr). exists op'. split; [|done]. apply elem_of_app. by left.
  - exists op. split; [|done]. apply elem_of_app. right. by apply list_elem_of_singleton.
Qed.

Lemma grouped_keys (order : list gostring) (byPath : gmap gostring (list Operation.t)) q l :
  (forall p, p ∈ order <-> is_Some (byPath !! p)) ->
  forall p, p ∈ order \/ p = q <-> is_Some (<[q := l]> byPath !! p).
Proof.
  intros Hk p. rewrite Hk. destruct (decide (q = p)) as [->|Hq].
  - rewrite lookup_insert_eq. split; [by eexists|by right].
  - rewrite lookup_insert_ne by done. split; [by intros [?|?]|by left].
Qed.

Lemma group_ops_spec root ops order byPath :
  group_ops root ops = Ok (order, byPath) -> grouped root ops order byPath.
Proof.
  revert order byPath. induction ops as [|op ops IH] using rev_ind; intros order byPath; unfold group_ops.
  { cbn. intros [= <- <-]. split; [constructor| |done|by intros op ?%not_elem_of_nil..].
    intros p. rewrite lookup_empty. split; [by intros ?%not_elem_of_nil|by intros []]. }
  rewrite foldl_app. cbn [foldl]. fold (group_ops root ops). unfold group_op.
  destruct (group_ops root ops) as [[o b]| |]; try done. specialize (IH _ _ eq_refl). cbn [obind].
  destruct (resolve root (Operation.Path op)) as [q| |] eqn:Eq; try done. cbn [obind].
  pose proof (grouped_table _ _ _ _ _ _ IH Eq) as Ht. pose proof (gr_keys _ _ _ _ IH) as Hk.
  destruct (b !! q) as [l|] eqn:Eb; intros [= <- <-]; cbn [default] in Ht.
  - assert (Hqo : q ∈ o) by (apply Hk; by rewrite Eb).
    split; [apply IH| |exact Ht|by eapply grouped_all|intros p Hp; eapply grouped_some; eauto].
    intros p. rewrite <- (grouped_keys o b q) by done. split; [by left|]. intros [?| ->]; done.
  - split; [| |exact Ht| |].
    + apply NoDup_app. split_and!; [apply IH| |apply NoDup_singleton].
      intros p Hp ->%list_elem_of_singleton. apply Hk in Hp. rewrite Eb in Hp. by destruct Hp.
    + intros p. by rewrite elem_of_app, list_elem_of_singleton, grouped_keys.
    + eapply grouped_all; [done..| |apply elem_of_app; right; by apply list_elem_of_singleton].
      intros p Hp. apply elem_of_app. by left.
    + intros p [Hp| ->%list_elem_of_singleton]%elem_of_app; eapply grouped_some; eauto.
Qed.

Section writes.
Context `{FileStore}.

Lemma names_kept_trans s1 s2 s3 : names_kept s1 s2 -> names_kept s2 s3 -> names_kept s1 s3.
Proof. intros [A1 B1] [A2 B2]. split; intros p; congruence. Qed.

Lemma bind_val {A B} (m : IO os_st A) (k : A -> IO os_st B) s b s' :
  iobind m k s = (Val b, s') -> exists a s1, m s = (Val a, s1) /\ k a s1 = (Val b, s').
Proof. unfold iobind. destruct (m s) as [[a|e|] s1]; [|done..]. by exists a, s1. Qed.
Lemma sys_val {A} (m : os_st -> result A * os_st) s a s' : sys m s = (Val a, s') -> m s = (inl a, s').
Proof. unfold sys. destruct (m s) as [[?|?] ?]; by intros [= -> ->]. Qed.
Lemma sys_err_val m s u s' : sys_err (S := os_st) m s = (Val u, s') -> m s = (None, s').
Proof. unfold sys_err. destruct (m s) as [[?|] ?]; [done|]. by intros [= _ ->]. Qed.
Lemma attempt_inv {A} (m : IO os_st A) s r s' : attempt m s = (Val r, s') ->
  m s = (match r with inl a => Val a | inr e => Fail e end, s').
Proof. unfold attempt. destruct (m s) as [[?|?|] ?]; by intros [= <- ->]. Qed.

(** The writes of one open file. *)
Lemma write_all_ok f i n ops s u s' :
  opened s f = Some (i, n) -> write_all f ops s = (Val u, s') ->
  names_kept s s' /\ data s' i = foldl write_op (data s i) ops
  /\ forall j, j <> i -> data s' j = data s j.
Proof.
  revert s. induction ops as [|op ops IH]; intros s Hf; cbn [write_all].
  { intros [= <- <-]. by split_and!. }
  intros (r & s1 & Hr%attempt_inv & Hk)%bind_val. unfold sys_count in Hr.
  destruct (f_WriteAt _ _ _ s) as [[k [e|]] s0] eqn:Ew; destruct r as [k'|e']; simplify_eq.
  { cbn in Hk. apply bind_val in Hk as (? & ? & _ & Hk). done. }
  destruct (write_at_law _ _ _ _ _ _ _ _ Hf Ew) as (_ & Hn & Hf1 & Hd & Hj). cbn in Hk.
  destruct (negb _); [by apply bind_val in Hk as (? & ? & _ & Hk)|].
  destruct (IH s1 Hf1 Hk) as (Hn2 & Hd2 & Hj2). split_and!.
  - by eapply names_kept_trans.
  - rewrite Hd2, Hd. done.
  - intros j Hji. by rewrite Hj2, Hj.
Qed.

Lemma write_file_ok p ops s u s' :
  write_file p ops s = (Val u, s') ->
  names_kept s s' /\ exists i, leads s p = Some i /\ data s' i = foldl write_op (data s i) ops
    /\ forall j, j <> i -> data s' j = data s j.
Proof.
  intros (f & s1 & Ho%sys_val & Hk)%bind_val.
  destruct (open_rdwr_law _ _ _ _ _ Ho) as ([Hn1 Hd1] & i & Hl & Hf).
  apply bind_val in Hk as (u1 & s2 & Hw & Hk).
  destruct (write_all_ok _ _ _ _ _ _ _ Hf Hw) as (Hn2 & Hd2 & Hj2).
  apply bind_val in Hk as (r & s3 & Hs%attempt_inv & Hk).
  assert (Hs' : store_kept s2 s3).
  { unfold sys_err in Hs. destruct (f_Sync f s2) as [[e|] s0] eqn:Es; destruct r; simplify_eq; by eapply sync_law. }
  destruct r as [[]|e]; [|by apply bind_val in Hk as (? & ? & _ & Hk)].
  apply sys_err_val, close_law in Hk. destruct Hs' as [Hn3 Hd3], Hk as [Hn4 Hd4]. split.
  { by repeat (eapply names_kept_trans; [eassumption|]). }
  exists i. split_and!; [done| |].
  - by rewrite Hd4, Hd3, Hd2, Hd1.
  - intros j Hj. by rewrite Hd4, Hd3, Hj2, Hd1.
Qed.

(** What writing the files one after the other leaves in file [i]. *)
Definition file_step (s : os_st) (byPath : gmap gostring (list Operation.t)) (i : Inode)
    (d : bytes) (p : gostring) : bytes :=
  if decide (leads s p = Some i) then foldl write_op d (default [] (byPath !! p)) else d.

Lemma foldl_same {A B} (f g : B -> A -> B) l b :
  (forall b a, f b a = g b a) -> foldl f b l = foldl g b l.
Proof. intros E. revert b. induction l as [|a l IH]; intros b; [done|]. cbn. by rewrite E, IH. Qed.

Lemma write_files_ok order byPath s u s' :
  write_files order byPath s = (Val u, s') ->
  names_kept s s' /\ (forall p, p ∈ order -> is_Some (leads s p))
  /\ forall i, data s' i = foldl (file_step s byPath i) (data s i) order.
Proof.
  revert s. induction order as [|p order IH]; intros s; cbn [write_files].
  { intros [= <- <-]. split_and!; [done|by intros p ?%not_elem_of_nil|done]. }
  intros (u1 & s1 & Hw & Hk)%bind_val. destruct (write_file_ok _ _ _ _ _ Hw) as (Hn & i & Hl & Hd & Hj).
  destruct (IH _ Hk) as (Hn2 & Hs2 & Hd2). split_and!.
  - by eapply names_kept_trans.
  - intros q [->|Hq]%elem_of_cons; [by eexists|]. rewrite <- (proj1 Hn q). by apply Hs2.
  - intros j. rewrite Hd2. cbn [foldl].
    replace (file_step s byPath j (data s j) p) with (data s1 j).
    2: { unfold file_step. rewrite Hl. case_decide as E; [by simplify_eq|]. apply Hj. congruence. }
    apply foldl_same. intros d q. unfold file_step. by rewrite (proj1 Hn).
Qed.

(** The journal's order: each write when its turn comes. *)
Definition leads_to (root : gostring) (s : os_st) (i : Inode) (op : Operation.t) : bool :=
  match resolve root (Operation.Path op) with Ok p => bool_decide (leads s p = Some i) | _ => false end.
Definition replay (root : gostring) (s : os_st) (i : Inode) (d : bytes) (ops : list Operation.t) : bytes :=
  foldl write_op d (filter (fun op => leads_to root s i op = true) ops).

(** No two paths of the run lead to one file. *)
Definition no_alias (root : gostring) (s : os_st) (ops : list Operation.t) : Prop :=
  forall op op' p p', op ∈ ops -> op' ∈ ops -> resolve root (Operation.Path op) = Ok p ->
    resolve root (Operation.Path op') = Ok p' -> leads s p = leads s p' -> p = p'.

Lemma foldl_idle {A B} (f : B -> A -> B) l b : (forall y b, y ∈ l -> f b y = b) -> foldl f b l = b.
Proof.
  revert b. induction l as [|z l IH]; intros b Hz; [done|]. cbn.
  rewrite Hz by (by left). apply IH. intros. apply Hz. by right.
Qed.

Lemma foldl_one `{EqDecision A} {B} (f : B -> A -> B) (x : A) l b :
  NoDup l -> x ∈ l -> (forall y b, y ∈ l -> y <> x -> f b y = b) -> foldl f b l = f b x.
Proof.
  intros Hnd. revert b. induction Hnd as [|y l Hy Hnd IH]; intros b Hx Hf; [by apply not_elem_of_nil in Hx|].
  cbn. destruct (decide (x ∈ l)) as [Hl|Hl].
  - rewrite IH; [|done|intros; apply Hf; [by right|done]]. f_equal. apply Hf; [by left|]. by intros ->.
  - apply elem_of_cons in Hx as [->|]; [|done].
    apply foldl_idle. intros z b' Hz. apply Hf; [by right|]. by intros ->.
Qed.

Lemma filter_same {A} (P Q : A -> Prop) `{!forall x, Decision (P x), !forall x, Decision (Q x)} (l : list A) :
  (forall x, x ∈ l -> P x <-> Q x) -> filter P l = filter Q l.
Proof.
  intros E. induction l as [|x l IH]; [done|]. rewrite !filter_cons.
  rewrite IH by (intros; apply E; by right). pose proof (E x ltac:(by left)).
  destruct (decide (P x)), (decide (Q x)); tauto.
Qed.

(** Grouping by path, seen from one file. *)
Lemma replay_grouped root s ops order byPath i d :
  grouped root ops order byPath -> no_alias root s ops ->
  foldl (file_step s byPath i) d order = replay root s i d ops.
Proof.
  intros Hg Hna. unfold replay.
  assert (Hto : forall op, op ∈ ops -> leads_to root s i op = true <->
            exists p, p ∈ order /\ resolve root (Operation.Path op) = Ok p /\ leads s p = Some i).
  { intros op Hop. destruct (gr_all _ _ _ _ Hg op Hop) as (p & Hp & Hpo). unfold leads_to. rewrite Hp.
    rewrite bool_decide_eq_true. split; [by exists p|]. by intros (q & _ & [= <-] & ?). }
  destruct (decide (Exists (fun p => leads s p = Some i) order)) as [He|Hne].
  - apply Exists_exists in He as (p0 & Hp0 & Hl0). destruct (gr_some _ _ _ _ Hg p0 Hp0) as (op0 & Hop0 & Hr0).
    assert (Huniq : forall p op, op ∈ ops -> resolve root (Operation.Path op) = Ok p ->
              leads s p = Some i -> p = p0).
    { intros p op Hop Hr Hl. eapply Hna; [exact Hop|exact Hop0|done|done|congruence]. }
    rewrite (foldl_one _ p0); [|apply Hg|done|].
    2: { intros p b Hp Hne. unfold file_step. rewrite decide_False; [done|]. intros Hl.
         destruct (gr_some _ _ _ _ Hg p Hp) as (op & Hop & Hr). by apply Hne, (Huniq p op). }
    unfold file_step. rewrite decide_True by done. rewrite (gr_ops _ _ _ _ Hg). f_equal.
    apply filter_same. intros op Hop. rewrite Hto by done. unfold at_path.
    destruct (gr_all _ _ _ _ Hg op Hop) as (p & -> & Hpo). rewrite bool_decide_eq_true. split.
    + intros ->. by exists p0.
    + intros (q & Hq & [= <-] & Hl). destruct (gr_some _ _ _ _ Hg p Hpo) as (op' & Hop' & Hr'). by eapply Huniq.
  - rewrite foldl_idle.
    2: { intros p b Hp. unfold file_step. rewrite decide_False; [done|]. intros Hl. apply Hne.
         apply Exists_exists. by exists p. }
    rewrite (filter_same _ (fun _ => False)).
    { assert (Hf : forall l : list Operation.t, filter (fun _ => False) l = []) by (by induction l).
      by rewrite Hf. }
    intros op Hop. rewrite Hto by done. split; [|done]. intros (p & Hp & _ & Hl). apply Hne.
    apply Exists_exists. by exists p.
Qed.

(** A run that succeeds has grouped its operations and written the files in
    the order of the groups. *)
Lemma run_inv root ops s u s' :
  applyWriteRun root ops s = (Val u, s') ->
  exists order byPath, group_ops root ops = Ok (order, byPath) /\ names_kept s s'
    /\ forall i, data s' i = foldl (file_step s byPath i) (data s i) order.
Proof.
  unfold applyWriteRun. intros ([order byPath] & s1 & Hg & Hw)%bind_val. unfold pure_call in Hg.
  destruct (group_ops root ops) as [g| |]; simplify_eq. exists order, byPath. split; [done|].
  destruct (write_files_ok _ _ _ _ _ Hw) as (Hn & _ & Hd). by split.
Qed.

(** C14: a run of writes leaves what the journal's order leaves.  When the run
    succeeds and no two of its paths lead to one file, every file of the system
    holds what it held with the journal's writes to it done one by one in the
    journal's order, and the names are as they were; although the code writes
    file by file. *)
Theorem write_run_in_order root ops s u s' :
  applyWriteRun root ops s = (Val u, s') -> no_alias root s ops ->
  names_kept s s' /\ forall i, data s' i = replay root s i (data s i) ops.
Proof.
  intros (order & byPath & E%group_ops_spec & Hn & Hd)%run_inv Hna. split; [done|].
  intros i. rewrite Hd. by apply replay_grouped.
Qed.

(** *** Two names of one file *)

Lemma pwrite_before o d x : 0 <= o ->
  pwrite o d x = (take (Z.to_nat o) (x ++ zeros (o - blen x)) ++ d) ++ from (o + blen d) x
  /\ length (take (Z.to_nat o) (x ++ zeros (o - blen x))) = Z.to_nat o.
Proof.
  intros Ho. split; [unfold pwrite; by rewrite app_assoc|].
  rewrite length_take, length_app. unfold zeros, blen. rewrite length_replicate. lia.
Qed.

(** A write covers one of the same length at the same place. *)
Lemma pwrite_covers o d d' x : 0 <= o -> length d = length d' ->
  pwrite o d' (pwrite o d x) = pwrite o d' x.
Proof.
  intros Ho El. destruct (pwrite_before o d x Ho) as [E Hl]. set (h := take _ _) in E, Hl.
  assert (Eb : blen d' = blen d) by (unfold blen; lia).
  rewrite E. unfold pwrite. fold h. rewrite Eb. f_equal; [|f_equal].
  - rewrite <- !app_assoc, take_app_le by lia. rewrite take_ge by lia. done.
  - unfold from. rewrite drop_app_ge by (rewrite length_app, Hl; unfold blen; lia).
    rewrite length_app, Hl. replace (_ - _)%nat with 0%nat by (unfold blen; lia). by rewrite drop_0.
Qed.

(** Two writes of one length at one place differ by their data. *)
Lemma pwrite_inj o d d' x : 0 <= o -> length d = length d' -> pwrite o d x = pwrite o d' x -> d = d'.
Proof.
  intros Ho El. unfold pwrite. intros [_ E]%app_inj_1; [|done].
  by apply app_inj_1 in E as [].
Qed.

Lemma group_op_ok (root : gostring) (o : list gostring) (b : gmap gostring (list Operation.t)) op p :
  resolve root (Operation.Path op) = Ok p ->
  group_op root (Ok (o, b)) op = Ok (match b !! p with
                                     | None => (o ++ [p], <[p := [op]]> b)
                                     | Some l => (o, <[p := l ++ [op]]> b)
                                     end).
Proof. intros E. unfold group_op. cbn [obind]. by rewrite E. Qed.

(** A run of one write. *)
Lemma run_single root w p i s u s' :
  resolve root (Operation.Path w) = Ok p -> leads s p = Some i ->
  applyWriteRun root [w] s = (Val u, s') -> names_kept s s' /\ data s' i = write_op (data s i) w.
Proof.
  intros Hp Hl (order & byPath & Hg & Hn & Hd)%run_inv. split; [done|]. rewrite Hd.
  unfold group_ops in Hg. cbn [foldl] in Hg. rewrite (group_op_ok _ _ _ _ _ Hp), lookup_empty in Hg. injection Hg as <- <-. cbn. unfold file_step.
  by rewrite decide_True, lookup_insert_eq.
Qed.

(** The groups of three writes, the first and the last to one name. *)
Lemma group_three root w1 w2 w3 p q :
  p <> q -> resolve root (Operation.Path w1) = Ok p -> resolve root (Operation.Path w2) = Ok q ->
  resolve root (Operation.Path w3) = Ok p ->
  group_ops root [w1; w2; w3] = Ok ([p; q], <[p := [w1; w3]]> (<[q := [w2]]> (<[p := [w1]]> ∅))).
Proof.
  intros Hpq H1 H2 H3. unfold group_ops. cbn [foldl].
  rewrite (group_op_ok _ _ _ _ _ H1), lookup_empty, (group_op_ok _ _ _ _ _ H2).
  rewrite lookup_insert_ne, lookup_empty, (group_op_ok _ _ _ _ _ H3) by done.
  by rewrite lookup_insert_ne, lookup_insert_eq by done.
Qed.

(** C40: two names of one file change the order of writes.  Take three writes
    of one length at one offset, the first and the last to one path, the second
    to another, and let both paths lead to one file (a symbolic or a hard link
    in the share).  A run of the three that succeeds leaves the second write in
    the file; the three applied one after the other, which the journal's order
    asks for, leave the third; the two disagree whenever the second and the
    third differ. *)
Theorem aliased_writes_reordered root s i p q o w1 w2 w3 u s' s1 s2 s3 :
  resolve root (Operation.Path w1) = Ok p -> resolve root (Operation.Path w2) = Ok q ->
  resolve root (Operation.Path w3) = Ok p -> p <> q -> leads s p = Some i -> leads s q = Some i ->
  0 <= o -> Forall (fun w => s64 (Operation.Offset w) = o
                    /\ length (Operation.Data w) = length (Operation.Data w1)) [w1; w2; w3] ->
  applyWriteRun root [w1; w2; w3] s = (Val u, s') ->
  applyWriteRun root [w1] s = (Val u, s1) -> applyWriteRun root [w2] s1 = (Val u, s2) ->
  applyWriteRun root [w3] s2 = (Val u, s3) ->
  data s' i = write_op (data s i) w2 /\ data s3 i = write_op (data s i) w3
  /\ (data s' i = data s3 i -> Operation.Data w2 = Operation.Data w3).
Proof.
  intros H1 H2 H3 Hpq Hp Hq Ho [[O1 _] [[O2 L2] [[O3 L3] _]%Forall_cons]%Forall_cons]%Forall_cons Hr R1 R2 R3.
  assert (E' : data s' i = write_op (data s i) w2).
  { destruct (run_inv _ _ _ _ _ Hr) as (order & byPath & Hg & _ & Hd). rewrite Hd.
    rewrite (group_three _ _ _ _ p q) in Hg by done. injection Hg as <- <-. cbn. unfold file_step.
    rewrite !decide_True by done. rewrite lookup_insert_eq, lookup_insert_ne, lookup_insert_eq by done.
    cbn. unfold write_op. rewrite O1, O2, O3, !pwrite_covers by congruence || done. done. }
  assert (E3 : data s3 i = write_op (data s i) w3).
  { destruct (run_single _ _ _ _ _ _ _ H1 Hp R1) as [[N1 _] D1].
    destruct (run_single _ _ _ i _ _ _ H2 (eq_trans (N1 q) Hq) R2) as [[N2 _] D2].
    destruct (run_single _ _ _ i _ _ _ H3 (eq_trans (N2 p) (eq_trans (N1 p) Hp)) R3) as [_ ->]. rewrite D2, D1.
    unfold write_op. rewrite O1, O2, O3, !pwrite_covers by congruence || done. done. }
  split_and!; [done..|]. rewrite E', E3. unfold write_op. rewrite O2, O3. apply pwrite_inj; [done|congruence].
Qed.

End writes.

(** ** Checkpoints *)

Section resume.
Context `{FileStore, JsonLaws}.

(** One turn of the loop of [apply]: how many operations it takes and what it
    does before the checkpoint. *)
Definition turn_size (ops : list Operation.t) : nat :=
  match ops with
  | op :: _ => if is_write op then writes ops else 1%nat
  | [] => 0%nat
  end.
Definition turn (root : gostring) (ops : list Operation.t) : IO os_st unit :=
  match ops with
  | op :: rest => if is_write op then applyWriteRun root (take (writes ops) ops) else apply_op root op rest
  | [] => ret tt
  end.

Lemma turn_size_bound ops : ops <> [] -> (1 <= turn_size ops <= length ops)%nat.
Proof.
  destruct ops as [|op ops]; [done|]. intros _. cbn [turn_size].
  assert (Hw : forall l, (writes l <= length l)%nat).
  { induction l as [|o l IH]; cbn; [lia|]. destruct (is_write o); lia. }
  destruct (is_write op) eqn:E; [|cbn; lia]. cbn. rewrite E. pose proof (Hw ops). lia.
Qed.

Lemma apply_loop_turn fuel root op ops i ck :
  apply_loop (S fuel) root (op :: ops) i ck =
  (let n := turn_size (op :: ops) in
   turn root (op :: ops) ;;? ck (i + Z.of_nat n) ;;?
   apply_loop fuel root (drop n (op :: ops)) (i + Z.of_nat n) ck).
Proof. cbn [apply_loop turn_size turn]. by destruct (is_write op). Qed.

(** The loop has as many turns as it needs. *)
Lemma apply_loop_fuel root ck fuel fuel' ops i s :
  (length ops <= fuel)%nat -> (length ops <= fuel')%nat ->
  apply_loop fuel root ops i ck s = apply_loop fuel' root ops i ck s.
Proof.
  revert fuel' ops i s. induction fuel as [|fuel IH]; intros fuel' [|op ops] i s Hf Hf'; cbn in Hf; try lia.
  1-2: by destruct fuel'.
  destruct fuel' as [|fuel']; [cbn in Hf'; lia|]. cbn in Hf'. rewrite !apply_loop_turn. cbv zeta.
  pose proof (turn_size_bound (op :: ops) ltac:(done)) as Hn. cbn [length] in Hn.
  assert (Hl : forall m, (length (op :: ops) <= S m)%nat -> (length (drop (turn_size (op :: ops)) (op :: ops)) <= m)%nat).
  { intros m Hm. rewrite length_drop. cbn [length] in *. lia. }
  unfold iobind. destruct (turn root (op :: ops) s) as [[u|e|] s1]; [|done..].
  destruct (ck _ s1) as [[u2|e|] s2]; [|done..]. apply IH; apply Hl; cbn; lia.
Qed.

Section commit.
Context (root readyPath receiptPath progressPath : gostring) (batch : Batch.t) (hash : gostring).

Definition ops_from (i : nat) : list Operation.t := drop i (Batch.Operations batch).
Definition checkpoint : Z -> IO os_st unit := checkpoint_at progressPath batch hash.

(** From operation [i] in a state to operation [j] in another, by turns that
    each end with their checkpoint. *)
Inductive reached : nat -> os_st -> nat -> os_st -> Prop :=
| reached_here i s : reached i s i s
| reached_turn i s s1 s2 j s' :
    (i < length (Batch.Operations batch))%nat ->
    turn root (ops_from i) s = (Val tt, s1) ->
    checkpoint (Z.of_nat (i + turn_size (ops_from i))) s1 = (Val tt, s2) ->
    reached (i + turn_size (ops_from i)) s2 j s' -> reached i s j s'.

Lemma apply_turn i s s1 s2 :
  (i < length (Batch.Operations batch))%nat ->
  turn root (ops_from i) s = (Val tt, s1) ->
  checkpoint (Z.of_nat (i + turn_size (ops_from i))) s1 = (Val tt, s2) ->
  apply root batch (Z.of_nat i) checkpoint s
  = apply root batch (Z.of_nat (i + turn_size (ops_from i))) checkpoint s2.
Proof.
  intros Hi Ht Hc. unfold apply. rewrite !Nat2Z.id. fold (ops_from i) (ops_from (i + turn_size (ops_from i))).
  assert (Hd : ops_from (i + turn_size (ops_from i)) = drop (turn_size (ops_from i)) (ops_from i)).
  { unfold ops_from. by rewrite drop_drop. }
  assert (Hl : (0 < length (ops_from i))%nat) by (unfold ops_from; rewrite length_drop; lia).
  rewrite Hd. destruct (ops_from i) as [|op ops] eqn:E; [cbn in Hl; lia|].
  change (length (op :: ops)) with (S (length ops)). rewrite apply_loop_turn. cbv zeta.
  unfold iobind at 1. rewrite Ht. unfold iobind at 1. rewrite <- Nat2Z.inj_add, Hc.
  pose proof (turn_size_bound (op :: ops) ltac:(done)) as Hn.
  apply apply_loop_fuel; rewrite ?length_drop; cbn [length] in *; lia.
Qed.

Lemma apply_reached i s j s' :
  reached i s j s' ->
  apply root batch (Z.of_nat i) checkpoint s = apply root batch (Z.of_nat j) checkpoint s'.
Proof. induction 1 as [|i s s1 s2 j s' Hi Ht Hc _ IH]; [done|]. by rewrite (apply_turn i s s1 s2). Qed.

(** What was written atomically is read back. *)
Lemma sync_close_kept f s r s' : sync_close f s = (r, s') -> store_kept s s'.
Proof.
  unfold sync_close, iobind, attempt, sys_err.
  destruct (f_Sync f s) as [e1 s1] eqn:E1. destruct (f_Close f s1) as [e2 s2] eqn:E2.
  apply sync_law in E1 as [Hn1 Hd1]. destruct (close_law _ _ _ _ E2) as [Hn2 Hd2].
  assert (store_kept s s2).
  { split; [by eapply names_kept_trans|]. intros i. by rewrite Hd2. }
  destruct e1; rewrite ?E2; destruct e2; cbn; intros E; apply (f_equal snd) in E; cbn in E; by subst.
Qed.

Lemma writeAtomic_reads path d s u s' :
  is_symlink s (path ++ lit ".tmp") = false -> writeAtomic path d s = (Val u, s') ->
  exists b, os_ReadFile path s' = (inl b, s') /\ s_bytes b = d.
Proof.
  intros Hl. unfold writeAtomic.
  intros (u1 & s1 & Hm%sys_err_val & Hk)%bind_val. rewrite <- (mkdirall_law _ _ _ _ Hm) in Hl.
  apply bind_val in Hk as (f & s2 & Ho%sys_val & Hk).
  destruct (open_creat_law _ _ _ _ _ Hl Ho) as (i & Hr & Hf & Hd).
  apply bind_val in Hk as (err & s3 & Hw%attempt_inv & Hk).
  apply bind_val in Hk as (cerr & s4 & Hc%attempt_inv & Hk).
  destruct err as [[]|e]; [|done]. destruct cerr as [[]|e]; [|done].
  apply bind_val in Hw as (n & s2' & Hw & Hs%sys_err_val). unfold sys_count in Hw.
  destruct (f_Write f d s2) as [[k [e|]] s0] eqn:Ew; simplify_eq.
  destruct (write_law _ _ _ _ _ _ _ Hf Ew) as ([_ Hn1] & Hd1). rewrite Hd in Hd1.
  apply sync_law in Hs as [[_ Hn2] Hd2]. apply sys_err_val, close_law in Hc as [[_ Hn3] Hd3].
  apply bind_val in Hk as (u2 & s5 & Hrn%sys_err_val & Hk).
  destruct (rename_law _ _ i _ _ (eq_trans (Hn3 _) (eq_trans (Hn2 _) (eq_trans (Hn1 _) Hr))) Hrn) as [Hr5 Hd5].
  unfold syncDirectory in Hk. apply bind_val in Hk as (g & s6 & Hg%sys_val%open_rdonly_law & Hk%sync_close_kept).
  destruct Hg as [[_ Hn6] Hd6], Hk as [[_ Hn7] Hd7].
  destruct (read_law path i s') as (b & Hb & Hbd); [by rewrite Hn7, Hn6|].
  exists b. split; [done|]. rewrite Hbd, Hd7, Hd6, Hd5, Hd3, Hd2, Hd1. unfold pwrite. cbn.
  rewrite take_0, app_nil_l. unfold from. by rewrite drop_nil, app_nil_r.
Qed.

Lemma checkpoint_reads k s s' :
  is_symlink s (progressPath ++ lit ".tmp") = false -> (k <= length (Batch.Operations batch))%nat ->
  checkpoint (Z.of_nat k) s = (Val tt, s') ->
  readApplyProgress progressPath batch hash s' = (Val (Z.of_nat k), s').
Proof.
  intros Hl Hk. unfold checkpoint, checkpoint_at. intros (d & s1 & Hm & Hw)%bind_val.
  unfold pure_call in Hm. destruct (Marshal_applyProgress _) as [d'| |] eqn:Em; simplify_eq.
  apply json_applyProgress in Em. destruct (writeAtomic_reads _ _ _ _ _ Hl Hw) as (b & Hb & Hd).
  unfold readApplyProgress, iobind, attempt, sys. rewrite Hb, Hd. unfold pure_call. rewrite Em. cbn.
  rewrite !bool_decide_true by done. cbn.
  replace (Z.of_nat k <? 0) with false by (symmetry; apply Z.ltb_ge; lia).
  rewrite Z.gtb_ltb. replace (_ <? Z.of_nat k) with false by (symmetry; apply Z.ltb_ge; lia). done.
Qed.

Lemma commit_batch_same i j s s' :
  readApplyProgress progressPath batch hash s = (Val i, s) ->
  readApplyProgress progressPath batch hash s' = (Val j, s') ->
  apply root batch i checkpoint s = apply root batch j checkpoint s' ->
  commit_batch root readyPath receiptPath progressPath batch hash s
  = commit_batch root readyPath receiptPath progressPath batch hash s'.
Proof. intros Hi Hj Ha. unfold commit_batch, iobind. rewrite Hi, Hj. fold checkpoint. by rewrite Ha. Qed.

(** C13: an application that is stopped after a checkpoint goes on where it
    stopped.  Let the application of a batch start at operation [i] and come,
    turn by turn, to the checkpoint after some turn; if the program stops there
    and the batch is committed again, the outcome is the one the application
    would have had, the same result in the same state of the system: no
    operation before the checkpoint is done again and none after it is
    skipped. *)
Theorem resume_after_checkpoint i s j s1 s2 s3 :
  readApplyProgress progressPath batch hash s = (Val (Z.of_nat i), s) ->
  reached i s j s1 -> (j < length (Batch.Operations batch))%nat ->
  turn root (ops_from j) s1 = (Val tt, s2) ->
  is_symlink s2 (progressPath ++ lit ".tmp") = false ->
  checkpoint (Z.of_nat (j + turn_size (ops_from j))) s2 = (Val tt, s3) ->
  commit_batch root readyPath receiptPath progressPath batch hash s3
  = commit_batch root readyPath receiptPath progressPath batch hash s.
Proof.
  intros Hr Hre Hj Ht Hl Hc.
  assert (Hk : (j + turn_size (ops_from j) <= length (Batch.Operations batch))%nat).
  { destruct (turn_size_bound (ops_from j)) as [_ Hb].
    - unfold ops_from. intros E%(f_equal length). rewrite length_drop in E. cbn in E. lia.
    - unfold ops_from in Hb at 2. rewrite length_drop in Hb. lia. }
  eapply commit_batch_same; [exact (checkpoint_reads _ _ _ Hl Hk Hc)|exact Hr|].
  by rewrite (apply_reached _ _ _ _ Hre), (apply_turn _ _ _ _ Hj Ht Hc).
Qed.

End commit.
End resume.

(** ** Examples on the file system in memory *)

Section examples.
#[local] Existing Instance memfs.os.
#[local] Existing Instance memfs.store.
#[local] Existing Instance toy_json.json.
#[local] Existing Instance toy_json.laws.

Definition ex_write (seq : Z) (p : string) (off : Z) (d : string) : Operation.t :=
  Operation.mk seq (lit "write") (lit p) [] [] off (blen (lit d)) 0 0 0 (lit d).
Definition ex_root : gostring := lit "/srv".
(** Two files in the share. *)
Definition ex_state : memfs.st :=
  memfs.add_file (lit "/srv/b") (lit "111111")
    (memfs.add_file (lit "/srv/a") (lit "000000") (memfs.add_dir (lit "/srv") memfs.empty)).
(** The operations of TestCommitReadyAppliesAndRecoversIdempotently. *)
Definition ex_ops : list Operation.t := [ex_write 10 "a" 0 "AA"; ex_write 11 "b" 2 "B"; ex_write 12 "a" 1 "ZZ"].

Definition ex_run : io unit * memfs.st := applyWriteRun (H := memfs.os) ex_root ex_ops ex_state.

Lemma ex_run_ok : ex_run.1 = Val tt.
Proof. vm_compute. reflexivity. Qed.

Lemma ex_no_alias : no_alias (H := memfs.os) ex_root ex_state ex_ops.
Proof.
  assert (Ha : resolve ex_root (lit "a") = Ok (lit "/srv/a")) by (vm_compute; reflexivity).
  assert (Hb : resolve ex_root (lit "b") = Ok (lit "/srv/b")) by (vm_compute; reflexivity).
  assert (Hne : leads (H := memfs.os) ex_state (lit "/srv/a") <> leads (H := memfs.os) ex_state (lit "/srv/b"))
    by (vm_compute; discriminate).
  intros op op' p p' Hop Hop' Hp Hp' Hl.
  assert (Hpath : forall o, o ∈ ex_ops -> Operation.Path o = lit "a" \/ Operation.Path o = lit "b").
  { apply Forall_forall. apply Forall_cons_2; [by left|]. apply Forall_cons_2; [by right|].
    apply Forall_cons_2; [by left|apply Forall_nil_2]. }
  destruct (Hpath op Hop) as [E|E], (Hpath op' Hop') as [E'|E']; rewrite E, ?Ha, ?Hb in Hp;
    rewrite E', ?Ha, ?Hb in Hp'; injection Hp as <-; injection Hp' as <-;
    [reflexivity|by destruct (Hne Hl)|by destruct (Hne (eq_sym Hl))|reflexivity].
Qed.

Lemma write_run_in_order_witness :
  names_kept (H := memfs.os) ex_state ex_run.2
  /\ forall i, data (H := memfs.os) ex_run.2 i
       = replay (H := memfs.os) ex_root ex_state i (data (H := memfs.os) ex_state i) ex_ops.
Proof.
  apply (write_run_in_order (H := memfs.os) ex_root ex_ops ex_state tt).
  - change (ex_run = (Val tt, ex_run.2)). rewrite <- ex_run_ok. by destruct ex_run.
  - exact ex_no_alias.
Defined.

(** A batch that creates a file, writes to it and renames it; it is stopped
    after the write. *)
Definition ex_batch : Batch.t :=
  Batch.mk (lit "relay") (lit "1-3") 1 3
    [Operation.mk 1 (lit "create") (lit "c") [] [] 0 0 0x180 0 0 [];
     ex_write 2 "c" 0 "new";
     Operation.mk 3 (lit "rename") (lit "c") (lit "d") [] 0 0 0 0 0 []].
Definition ex_progress : gostring := lit "/srv/box/x.ready.progress".
Definition ex_ready : gostring := lit "/srv/box/x.ready".
Definition ex_receipt : gostring := lit "/srv/receipts/r.json".

Definition ex_turn (i : nat) (s : memfs.st) : io unit * memfs.st :=
  turn (H := memfs.os) ex_root (ops_from ex_batch i) s.
Definition ex_check (i : nat) (s : memfs.st) : io unit * memfs.st :=
  checkpoint (H := memfs.os) (H1 := toy_json.json) ex_progress ex_batch (lit "hash") (Z.of_nat i) s.
Definition ex_s1 : memfs.st := (ex_turn 0 ex_state).2.
Definition ex_s2 : memfs.st := (ex_check 1 ex_s1).2.
Definition ex_s3 : memfs.st := (ex_turn 1 ex_s2).2.
Definition ex_s4 : memfs.st := (ex_check 2 ex_s3).2.

Lemma ex_turns_ok :
  (ex_turn 0 ex_state).1 = Val tt /\ (ex_check 1 ex_s1).1 = Val tt
  /\ (ex_turn 1 ex_s2).1 = Val tt /\ (ex_check 2 ex_s3).1 = Val tt.
Proof. vm_compute. split_and!; reflexivity. Qed.

Lemma pair_eta {A B} (p : A * B) a : p.1 = a -> p = (a, p.2).
Proof. by destruct p as [? ?]; intros <-. Qed.

Lemma resume_after_checkpoint_witness :
  commit_batch (H := memfs.os) (H0 := toy_json.json) ex_root ex_ready ex_receipt ex_progress ex_batch (lit "hash") ex_s4
  = commit_batch (H := memfs.os) (H0 := toy_json.json) ex_root ex_ready ex_receipt ex_progress ex_batch (lit "hash") ex_state.
Proof.
  destruct ex_turns_ok as (E1 & E2 & E3 & E4).
  apply (resume_after_checkpoint (H := memfs.os) ex_root ex_ready ex_receipt ex_progress ex_batch (lit "hash")
    0 ex_state 1 ex_s2 ex_s3 ex_s4).
  - vm_compute. reflexivity.
  - apply (reached_turn (H := memfs.os) ex_root ex_progress ex_batch (lit "hash") 0 ex_state ex_s1 ex_s2 1 ex_s2).
    + apply Nat.ltb_lt. reflexivity.
    + exact (pair_eta _ _ E1).
    + exact (pair_eta _ _ E2).
    + apply reached_here.
  - apply Nat.ltb_lt. reflexivity.
  - exact (pair_eta _ _ E3).
  - vm_compute. reflexivity.
  - exact (pair_eta _ _ E4).
Defined.

(** The share after the whole batch, and no file left open. *)
Example ex_batch_done :
  let '(r, s) := commit_batch (H := memfs.os) (H0 := toy_json.json) ex_root ex_ready ex_receipt ex_progress
                   ex_batch (lit "hash") ex_s4 in
  r = Val (Receipt.mk Protocol (lit "relay") (lit "1-3") 3 (lit "hash"))
  /\ memfs.contents (lit "/srv/d") s = Some (lit "new") /\ memfs.contents (lit "/srv/c") s = None
  /\ memfs.contents ex_progress s = None /\ memfs.fds s = ∅.
Proof. vm_compute. split_and!; reflexivity. Qed.

(** A symbolic link to a file of the share, and three writes through the
    file's name, the link and the name. *)
Definition ex_linked : memfs.st := memfs.add_link (lit "a") (lit "/srv/link") ex_state.
Definition ex_w1 : Operation.t := ex_write 1 "a" 0 "1".
Definition ex_w2 : Operation.t := ex_write 2 "link" 0 "2".
Definition ex_w3 : Operation.t := ex_write 3 "a" 0 "3".
Definition ex_alias_run (ops : list Operation.t) (s : memfs.st) : io unit * memfs.st :=
  applyWriteRun (H := memfs.os) ex_root ops s.
Definition ex_t0 : memfs.st := (ex_alias_run [ex_w1; ex_w2; ex_w3] ex_linked).2.
Definition ex_t1 : memfs.st := (ex_alias_run [ex_w1] ex_linked).2.
Definition ex_t2 : memfs.st := (ex_alias_run [ex_w2] ex_t1).2.
Definition ex_t3 : memfs.st := (ex_alias_run [ex_w3] ex_t2).2.

Lemma ex_alias_ok :
  (ex_alias_run [ex_w1; ex_w2; ex_w3] ex_linked).1 = Val tt
  /\ (ex_alias_run [ex_w1] ex_linked).1 = Val tt /\ (ex_alias_run [ex_w2] ex_t1).1 = Val tt
  /\ (ex_alias_run [ex_w3] ex_t2).1 = Val tt.
Proof. vm_compute. split_and!; reflexivity. Qed.

Lemma aliased_writes_reordered_witness :
  exists i, leads (H := memfs.os) ex_linked (lit "/srv/link") = Some i
  /\ data (H := memfs.os) ex_t0 i = write_op (data (H := memfs.os) ex_linked i) ex_w2
  /\ data (H := memfs.os) ex_t3 i = write_op (data (H := memfs.os) ex_linked i) ex_w3
  /\ (data (H := memfs.os) ex_t0 i = data (H := memfs.os) ex_t3 i -> lit "2" = lit "3").
Proof.
  destruct ex_alias_ok as (E0 & E1 & E2 & E3).
  destruct (leads (H := memfs.os) ex_linked (lit "/srv/link")) as [i|] eqn:El; [|vm_compute in El; discriminate].
  exists i. split; [reflexivity|].
  apply (aliased_writes_reordered (H := memfs.os) ex_root ex_linked i (lit "/srv/a") (lit "/srv/link") 0
    ex_w1 ex_w2 ex_w3 tt ex_t0 ex_t1 ex_t2 ex_t3).
  - vm_compute. reflexivity.
  - vm_compute. reflexivity.
  - vm_compute. reflexivity.
  - discriminate.
  - rewrite <- El. vm_compute. reflexivity.
  - exact El.
  - reflexivity.
  - repeat constructor.
  - exact (pair_eta _ _ E0).
  - exact (pair_eta _ _ E1).
  - exact (pair_eta _ _ E2).
  - exact (pair_eta _ _ E3).
Defined.

(** The contents of the file after both. *)
Example aliased_example :
  memfs.contents (lit "/srv/a") ex_t0 = Some (lit "200000")
  /\ memfs.contents (lit "/srv/a") ex_t3 = Some (lit "300000").
Proof. vm_compute. split; reflexivity. Qed.

End examples.

End bulk_apply.
