(* ===== verification/Passthrough.v ===== *)
(** * The file system of the server (fs_impl.go, fs_impl_unix.go, vfs/fileinfo_linux.go)

    [PassthroughFS] serves a directory of the operating system: a table of
    open files by random handles, the root of the share, and the counters of
    package stats.  Its methods are the methods of [VFSFileSystem], on the
    operating system of [Os].  A method that changes an [*OpenFile] changes the
    entry of the table that it was loaded from.  Log output and the goroutine
    that reads a watcher's events are left out. *)

From S2P Require Import Prelude Utf16 Stats Paths Dtyp Vfs Filepath Os Memfs Xattrstore Digest Bulk BulkBackend.

(** ** vfs.Stat *)

Module Stat.
Record t := mk {
  Ino : Z; Dev : Z; Blocks : Z; BlkSize : Z; Nlink : Z; UID : Z; GID : Z;
  Mtime : Z; Atime : Z; Ctime : Z; Btime : Z
}.
End Stat.

(** [time.Unix(sec, nsec)], in nanoseconds *)
Definition time_Unix (t : Z * Z) : Z := t.1 * 1000000000 + t.2.

(** The build for Linux: there is no time of birth. *)
Definition CompatStat (stat : FileInfo.t) : option Stat.t :=
  match FileInfo.Sys stat with
  | None => None
  | Some st =>
      Some (Stat.mk (u64 (Stat_t.Ino st)) (u64 (Stat_t.Dev st)) (s64 (Stat_t.Blocks st)) (Stat_t.Blksize st)
              (u32 (Stat_t.Nlink st)) (Stat_t.Uid st) (Stat_t.Gid st)
              (time_Unix (Stat_t.Mtim st)) (time_Unix (Stat_t.Atim st)) (time_Unix (Stat_t.Ctim st))
              (time_Unix (0, 0)))
  end.

(** [None] is the error "failed to convert to syscall.Stat_t". *)
Definition fileInfoToAttr (stat : FileInfo.t) : option Attributes.t :=
  match CompatStat stat with
  | None => None
  | Some sysStat =>
      let a := Attributes.zero in
      let a := Attributes.SetDeviceNumber (Stat.Dev sysStat) a in
      let a := Attributes.SetInodeNumber (Stat.Ino sysStat) a in
      let a := Attributes.SetLinkCount (Stat.Nlink sysStat) a in
      let a := Attributes.SetSizeBytes (u64 (FileInfo.Size stat)) a in
      let a := Attributes.SetDiskSizeBytes (u64 (Stat.Blocks sysStat * 512)) a in
      let a := Attributes.SetUnixMode (u32 (FileInfo.Mode stat)) a in
      let a := Attributes.SetPermissions (NewPermissionsFromMode (u32 (mode_Perm (FileInfo.Mode stat)))) a in
      let a := Attributes.SetUID (Stat.UID sysStat) a in
      let a := Attributes.SetGID (Stat.GID sysStat) a in
      let a := Attributes.SetAccessTime (Stat.Atime sysStat) a in
      let a := Attributes.SetLastDataModificationTime (FileInfo.ModTime stat) a in
      let a := Attributes.SetBirthTime (Stat.Btime sysStat) a in
      let a := Attributes.SetLastStatusChangeTime (Stat.Ctime sysStat) a in
      Some (if FileInfo.IsDir stat then Attributes.SetFileType FileTypeDirectory a
            else if has (FileInfo.Mode stat) ModeSymlink then Attributes.SetFileType FileTypeSymlink a
            else Attributes.SetFileType FileTypeRegularFile a)
  end.

Module passthrough.

(** An entry of the table. *)
Module OpenFile.
Record t `{OS} := mk {
  path : gostring; isDir : bool; f : File; h : Z; watcher : option Watcher; dirPos : Z
}.
Arguments mk {_} _ _ _ _ _ _.
Definition set_path `{OS} (v : gostring) (o : t) : t := mk v (isDir o) (f o) (h o) (watcher o) (dirPos o).
Definition set_f `{OS} (v : File) (o : t) : t := mk (path o) (isDir o) v (h o) (watcher o) (dirPos o).
Definition set_watcher `{OS} (v : Watcher) (o : t) : t := mk (path o) (isDir o) (f o) (h o) (Some v) (dirPos o).
Definition set_dirPos `{OS} (v : Z) (o : t) : t := mk (path o) (isDir o) (f o) (h o) (watcher o) v.
End OpenFile.

Section fs.
Context `{OS, bulk.Json}.

(** ** State *)

(** The object, the counters and the operating system. *)
Record st := mkSt {
  rootPath : gostring; bulkMaxBytes : Z; openFiles : gmap Z OpenFile.t; counters_of : Stats.t; os_of : os_st
}.
Definition set_open (f : gmap Z OpenFile.t -> gmap Z OpenFile.t) (s : st) : st :=
  mkSt (rootPath s) (bulkMaxBytes s) (f (openFiles s)) (counters_of s) (os_of s).
Definition set_os (o : os_st) (s : st) : st :=
  mkSt (rootPath s) (bulkMaxBytes s) (openFiles s) (counters_of s) o.
Definition set_counters (c : Stats.t) (s : st) : st :=
  mkSt (rootPath s) (bulkMaxBytes s) (openFiles s) c (os_of s).

Abbreviation P A := (IO st A).

(** Code that runs on the operating system. *)
Definition run {A} (m : IO os_st A) : P A :=
  fun s => let '(r, o) := m (os_of s) in (r, set_os o s).
Definition count (f : Stats.t -> Stats.t) : P unit := fun s => (Val tt, set_counters (f (counters_of s)) s).
Definition get_root : P gostring := fun s => (Val (rootPath s), s).

(** [fs.openFiles.Load(handle)]; without an entry the error "bad handle". *)
Definition load (handle : Z) : P OpenFile.t :=
  fun s => match openFiles s !! handle with Some o => (Val o, s) | None => (Fail other_error, s) end.
Definition store (handle : Z) (o : OpenFile.t) : P unit := fun s => (Val tt, set_open <[handle := o]> s).
(** An assignment to a field of the object that is stored under [handle]. *)
Definition assign (handle : Z) (f : OpenFile.t -> OpenFile.t) : P unit :=
  fun s => (Val tt, set_open (alter f handle) s).
(** [handle == 0] is refused first. *)
Definition load_nonzero (handle : Z) : P OpenFile.t :=
  if handle =? 0 then fail other_error else load handle.

Definition attr_of (info : FileInfo.t) : P Attributes.t :=
  match fileInfoToAttr info with Some a => ret a | None => fail other_error end.

(** [randint64]; the bytes of crypto/rand as a little-endian integer *)
Definition randint64 : P Z := fun s => let '(b, o) := rand_8 (os_of s) in (Val (le_dec b), set_os o s).

(** fs_impl_unix.go *)
Definition openSymlink (p : gostring) : P File := run (sys (syscall_Open p 0x200000 0)).
Definition statFS (rootPath : gostring) : P FSAttributes.t :=
  let? statfs := run (sys (unix_Statfs rootPath)) in
  let a := FSAttributes.zero in
  let a := FSAttributes.SetAvailableBlocks (Statfs_t.Bavail statfs) a in
  let a := FSAttributes.SetBlockSize (u64 (Statfs_t.Bsize statfs)) a in
  let a := FSAttributes.SetBlocks (Statfs_t.Bavail statfs) a in
  let a := FSAttributes.SetFiles (Statfs_t.Files statfs) a in
  let a := FSAttributes.SetFreeBlocks (Statfs_t.Bfree statfs) a in
  let a := FSAttributes.SetFreeFiles (Statfs_t.Ffree statfs) a in
  let a := FSAttributes.SetIOSize (u64 (Statfs_t.Bsize statfs)) a in
  ret a.

(** ** Methods *)

Definition GetAttr (handle : Z) : P Attributes.t :=
  if negb (handle =? 0) then
    let? open := load handle in
    let? info := run (sys (f_Stat (OpenFile.f open))) in
    attr_of info
  else
    let? p := get_root in
    let? info := run (sys (os_Lstat p)) in
    attr_of info.

Definition SetAttr (handle : Z) (a : Attributes.t) : P (option Attributes.t) :=
  let? open := load_nonzero handle in
  let? old := attempt (GetAttr handle) in
  match old with
  | inr _ => fail other_error
  | inl oldAttrs =>
      let '(atime, atimeSet) := Attributes.GetAccessTime a in
      let atime := if negb atimeSet then (Attributes.GetAccessTime oldAttrs).1 else atime in
      let '(mtime, mtimeSet) := Attributes.GetLastDataModificationTime a in
      let mtime := if negb mtimeSet then (Attributes.GetLastDataModificationTime oldAttrs).1 else mtime in
      (if atimeSet || mtimeSet
       then run (ignore (sys_err (os_Chtimes (OpenFile.path open) atime mtime))) else ret tt) ;;?
      let '(mode, mSet) := Attributes.GetUnixMode a in
      (if mSet : bool then run (ignore (sys_err (os_Chmod (OpenFile.path open) mode))) else ret tt) ;;?
      ret None
  end.

Definition StatFS (handle : Z) : P FSAttributes.t := let? p := get_root in statFS p.

Definition FSync (handle : Z) : P unit :=
  let? open := load_nonzero handle in run (sys_err (f_Sync (OpenFile.f open))).

Definition Flush (handle : Z) : P unit := ret tt.

Definition Open (p : gostring) (flags mode : Z) : P Z :=
  let? root := get_root in
  let p := Join2 root p in
  let? f := if has flags 0x200000 then openSymlink p else run (sys (os_OpenFile p flags (u32 mode))) in
  let? h := randint64 in
  store h (OpenFile.mk p false f h None 0) ;;?
  count (AddOpen p) ;;?
  ret h.

Definition RemoveNotify (handle : Z) : P unit :=
  let? open := load_nonzero handle in
  match OpenFile.watcher open with
  | Some w => run (ignore (sys_err (watcher_Close w)))
  | None => ret tt
  end.

Definition Close (handle : Z) : P unit :=
  let? open := load handle in
  ignore (RemoveNotify handle) ;;?
  run (ignore (sys_err (f_Close (OpenFile.f open)))) ;;?
  (fun s => (Val tt, set_open (delete handle) s)).

Definition Lookup (handle : Z) (name : gostring) : P Attributes.t :=
  let? p := if negb (handle =? 0) then let? open := load handle in ret (OpenFile.path open) else get_root in
  let? info := run (sys (os_Lstat (Join2 p name))) in
  attr_of info.

Definition Mkdir (p : gostring) (mode : Z) : P Attributes.t :=
  let? root := get_root in
  let p := Join2 root p in
  run (sys_err (os_Mkdir p (u32 mode))) ;;?
  let? info := run (sys (os_Stat p)) in
  let? a := attr_of info in
  count (AddMkdir p) ;;?
  ret a.

(** The count and the error of a read or a write both go to the caller. *)
Definition run_both {A} (m : os_st -> A * os_st) : P A :=
  fun s => let '(r, o) := m (os_of s) in (Val r, set_os o s).

Definition Read (handle : Z) (buf : bytes) (offset flags : Z) : P (bytes * Z * option vfs_error) :=
  let? open := load_nonzero handle in
  count (AddReadBytes (OpenFile.path open) (u64 (blen buf))) ;;?
  run_both (f_ReadAt (OpenFile.f open) buf (s64 offset)).

Definition Write (handle : Z) (buf : bytes) (offset flags : Z) : P (Z * option vfs_error) :=
  let? open := load_nonzero handle in
  count (AddWriteBytes (OpenFile.path open) (u64 (blen buf))) ;;?
  run_both (f_WriteAt (OpenFile.f open) buf (s64 offset)).

Definition getExtendedFileInfo (info : DirEntry) : P DirInfo.t :=
  let? stat := run (sys (de_Info info)) in
  let? a := attr_of stat in
  ret (DirInfo.mk (de_Name info) a).

Definition OpenDir (p : gostring) : P Z :=
  let? root := get_root in
  let p := Join2 root p in
  let? f := run (sys (os_OpenFile p 0 0)) in
  let? h := randint64 in
  store h (OpenFile.mk p true f h None 0) ;;?
  ret h.

(** [results = append(results, *info)] for each entry *)
Fixpoint extend_all (entries : list DirEntry) : P (list DirInfo.t) :=
  match entries with
  | [] => ret []
  | e :: es =>
      let? info := getExtendedFileInfo e in
      let? infos := extend_all es in
      ret (info :: infos)
  end.

(** [readDir] on the open file stored under [handle], whose [h] is used for
    the attributes of the directory itself. *)
Definition readDir (handle : Z) (open : OpenFile.t) (flags maxEntries : Z) : P (list DirInfo.t) :=
  let restart := has flags ReadDirRestart in
  (if restart then
     run (ignore (sys (f_Seek (OpenFile.f open) 0 0))) ;;? assign handle (OpenFile.set_dirPos 0)
   else ret tt) ;;?
  let dirPos := if restart then 0 else OpenFile.dirPos open in
  let? results :=
    if dirPos =? 0 then
      let? attrs := GetAttr (OpenFile.h open) in
      ret [DirInfo.mk (lit ".") attrs; DirInfo.mk (lit "..") attrs]
    else ret [] in
  let? (entries, err) := run_both (f_ReadDir (OpenFile.f open) maxEntries) in
  match err with
  | Some e =>
      if negb (is_EOF e) || negb (dirPos =? 0) then fail e
      else let? infos := extend_all entries in
           assign handle (OpenFile.set_dirPos 1) ;;? ret (results ++ infos)
  | None =>
      let? infos := extend_all entries in
      assign handle (OpenFile.set_dirPos 1) ;;? ret (results ++ infos)
  end.

Definition ReadDir (handle flags maxEntries : Z) : P (list DirInfo.t) :=
  if handle =? 0 then ret [] else
  let? open := load handle in readDir handle open flags maxEntries.

Definition Readlink (handle : Z) : P gostring :=
  let? open := load_nonzero handle in run (sys (os_Readlink (OpenFile.path open))).

Definition Unlink (handle : Z) : P unit :=
  let? open := load_nonzero handle in
  count (AddDelete (OpenFile.path open)) ;;?
  run (sys_err (os_Remove (OpenFile.path open))).

(** A ready package in the inbox of the bulk journal. *)
Definition is_ready (root target : gostring) : bool :=
  match Rel root target with
  | Some rel => HasPrefix rel (bulk.Directory ++ lit "/inbox/") && HasSuffix rel (lit ".ready")
  | None => false
  end.

(** The error of the commit is wrapped. *)
Definition wrapped {A} (m : P A) : P A :=
  fun s => match m s with (Fail e, s) => (Fail (wrap_error e), s) | r => r end.

Definition Rename (from : Z) (to : gostring) (flags : Z) : P unit :=
  let? open := load_nonzero from in
  let? root := get_root in
  let target := Join2 root to in
  let? exists_ :=
    if flags =? 0 then
      let? r := attempt (run (sys (os_Stat target))) in
      ret (match r with inl _ => true | inr _ => false end)
    else ret false in
  if exists_ : bool then fail other_error else
  count (AddRename (OpenFile.path open)) ;;?
  run (sys_err (os_Rename (OpenFile.path open) target)) ;;?
  assign from (OpenFile.set_path target) ;;?
  if is_ready root target then
    let? _ := wrapped (fun s => run (backend.CommitReady root target (bulkMaxBytes s)) s) in ret tt
  else ret tt.

Definition Symlink (targetHandle : Z) (source : gostring) (flag : Z) : P Attributes.t :=
  let? open := load targetHandle in
  let targetDir := Dir (OpenFile.path open) in
  let sourceDir := Dir (Clean (Join2 targetDir source)) in
  let target := OpenFile.path open in
  if bool_decide (targetDir = sourceDir) && bool_decide (target = source) then fail other_error else
  run (sys_err (f_Close (OpenFile.f open))) ;;?
  let? r := attempt (run (sys_err (os_Remove (OpenFile.path open)))) in
  match r with
  | inr e => if negb (os_IsNotExist e) then fail e else ret tt
  | inl _ => ret tt
  end ;;?
  run (sys_err (os_Symlink source target)) ;;?
  let? linkFile := openSymlink (OpenFile.path open) in
  assign targetHandle (OpenFile.set_f linkFile) ;;?
  let? info := run (sys (f_Stat linkFile)) in
  let? a := attr_of info in
  count (AddSymlink (OpenFile.path open)) ;;?
  ret a.

(** These do nothing. *)
Definition Mknod (_ : Z) (_ : gostring) (_ _ : Z) : P (option Attributes.t) := ret None.
Definition Create (_ : Z) (_ : gostring) (_ _ : Z) : P (option Attributes.t * Z) := ret (None, 0).
Definition Rmdir (_ : Z) (_ : gostring) : P unit := ret tt.
Definition Link (_ _ : Z) (_ : gostring) : P (option Attributes.t) := ret None.

Definition Listxattr (handle : Z) : P (list gostring) :=
  let? open := load_nonzero handle in
  count (AddXattrList (OpenFile.path open)) ;;?
  run (xattrstore.FList (OpenFile.f open)).

(** [val] is [None] when it is nil; [n = copy(val, v)] otherwise. *)
Definition Getxattr (handle : Z) (key : gostring) (val : option bytes) : P (bytes * Z) :=
  let? open := load_nonzero handle in
  let? v := run (xattrstore.FGet (OpenFile.f open) key) in
  count (AddXattrRead (OpenFile.path open)) ;;?
  ret (match val with
       | None => ([], blen v)
       | Some val => (splice 0 (upto (blen val) v) val, Z.min (blen val) (blen v))
       end).

Definition Setxattr (handle : Z) (key : gostring) (val : bytes) : P unit :=
  let? open := load_nonzero handle in
  count (AddXattrWrite (OpenFile.path open)) ;;?
  run (xattrstore.FSet (OpenFile.f open) key val).

Definition Removexattr (handle : Z) (key : gostring) : P unit :=
  let? open := load_nonzero handle in
  count (AddXattrDelete (OpenFile.path open)) ;;?
  run (xattrstore.FRemove (OpenFile.f open) key).

Definition Truncate (handle len : Z) : P unit :=
  let? open := load handle in
  count (AddDelete (OpenFile.path open)) ;;?
  run (sys_err (os_Truncate (OpenFile.path open) (s64 len))).

(** The listener that it starts is the goroutine [eventListener]. *)
Definition RegisterNotify (handle : Z) : P unit :=
  let? open := load_nonzero handle in
  let? watcher := run (sys NewWatcher) in
  assign handle (OpenFile.set_watcher watcher) ;;?
  run (sys_err (watcher_Add watcher (OpenFile.path open))).

(** What [eventListener] sends on the channel for an event's file name. *)
Definition eventListener_event (handle : Z) (event_Name : gostring) : option (Z * gostring) :=
  let p := Base event_Name in
  if negb (bool_decide (p = [])) then Some (handle, p) else None.

(** An error of [Initialize] is only logged. *)
Definition NewPassthroughFS (rootPath : gostring) (c : Stats.t) (o : os_st) : st :=
  let max := Z.shiftl 256 20 in
  mkSt rootPath max ∅ c (backend.Initialize rootPath max o).2.

(** ** The object behind the interface *)

(** A method that does not panic. *)
Definition method {A} (m : P A) (s : st) : result A * st :=
  match m s with
  | (Val a, s) => (inl a, s)
  | (Fail e, s) => (inr e, s)
  | (Crash, s) => (inr other_error, s)
  end.
Definition method_err {A} (m : P A) (s : st) : option vfs_error * st :=
  match method m s with (inl _, s) => (None, s) | (inr e, s) => (Some e, s) end.
(** A method that returns a count with its error. *)
Definition method_both {A} (zero : A) (m : P (A * option vfs_error)) (s : st) : (A * option vfs_error) * st :=
  match method m s with (inl r, s) => (r, s) | (inr e, s) => ((zero, Some e), s) end.

Definition fs_of (s : st) : VFSFileSystem :=
  mkVFS st
    (fun h => method (GetAttr h))
    (fun h a => method (SetAttr h a))
    (fun h => method (let? a := StatFS h in ret (Some a)))
    (fun h => method_err (FSync h))
    (fun h => method_err (Flush h))
    (fun p flags mode => method (Open p flags mode))
    (fun h => method_err (Close h))
    (fun h name => method (Lookup h name))
    (fun p mode => method (Mkdir p mode))
    (fun h buf off flags => method_both (buf, 0) (Read h buf off flags))
    (fun h buf off flags => method_both 0 (Write h buf off flags))
    (fun p => method (OpenDir p))
    (fun h flags n => method (ReadDir h flags n))
    (fun h => method (Readlink h))
    (fun h => method_err (Unlink h))
    (fun h n => method_err (Truncate h n))
    (fun h to flags s =>
       match Rename h to flags s with
       | (Val _, s) => (Ok None, s)
       | (Fail e, s) => (Ok (Some e), s)
       | (Crash, s) => (Panic, s)
       end)
    (fun h source flag => method (Symlink h source flag))
    (fun a b name => method (Link a b name))
    (fun h => method (Listxattr h))
    (fun h key val s =>
       match method (Getxattr h key (match val with [] => None | _ => Some val end)) s with
       | (inl (v, n), s) => ((v, n, None), s)
       | (inr e, s) => ((val, 0, Some e), s)
       end)
    (fun h key val => method_err (Setxattr h key val))
    (fun h key => method_err (Removexattr h key))
    s.

End fs.
Abbreviation P A := (IO st A).
End passthrough.
