(* ===== verification/PassthroughFacts.v ===== *)
(** * What the methods of the file system keep

    No method panics but the one that commits a bulk journal; a method works
    on the open file of its handle and leaves the others alone; the attributes
    made from a stat are complete; the directory that is served is not a
    boundary for the names of a client. *)

From S2P Require Import Prelude Utf16 Stats Paths Dtyp Vfs Filepath Os Memfs Xattrstore Digest Bulk BulkBackend Passthrough.

Module passthrough_facts.
Import passthrough.

(** The lemmas on one construct of a method each. *)
Create HintDb fs_method.

(** ** Panics *)

Section safe.
Context {S : Type}.

Definition safe {A} (m : IO S A) : Prop := forall s, (m s).1 <> Crash.

Lemma safe_ret {A} (a : A) : safe (ret a).
Proof. by intros s. Qed.
Lemma safe_fail {A} e : safe (@fail S A e).
Proof. by intros s. Qed.
Lemma safe_bind {A B} (m : IO S A) (k : A -> IO S B) : safe m -> (forall a, safe (k a)) -> safe (iobind m k).
Proof. intros Hm Hk s. unfold iobind. pose proof (Hm s). destruct (m s) as [[a|e|] s']; [apply Hk|done..]. Qed.
Lemma safe_attempt {A} (m : IO S A) : safe m -> safe (attempt m).
Proof. intros Hm s. unfold attempt. pose proof (Hm s). by destruct (m s) as [[a|e|] s']. Qed.
Lemma safe_ignore {A} (m : IO S A) : safe m -> safe (ignore m).
Proof. intros Hm. apply safe_bind; [by apply safe_attempt|]. intros _. apply safe_ret. Qed.
Lemma safe_sys {A} (m : S -> result A * S) : safe (sys m).
Proof. intros s. unfold sys. by destruct (m s) as [[?|?] ?]. Qed.
Lemma safe_sys_err m : safe (@sys_err S m).
Proof. intros s. unfold sys_err. by destruct (m s) as [[?|] ?]. Qed.
Lemma safe_pure {A} (m : outcome A) : m <> Panic -> safe (@pure_call S A m).
Proof. intros Hm s. by destruct m. Qed.
End safe.
#[export] Hint Resolve safe_ret safe_fail safe_attempt safe_ignore safe_sys safe_sys_err : fs_method.

Lemma NativeName_returns name : xattrstore.NativeName name <> Panic.
Proof.
  unfold xattrstore.NativeName, xattrstore.nativeNameForOS. repeat case_match; done.
Qed.
#[export] Hint Resolve safe_pure NativeName_returns : fs_method.

(** ** Handles *)

Section frame.
Context `{OS, bulk.Json}.

(** Every open file is stored under its own handle. *)
Definition table_ok (s : st) : Prop := forall h o, openFiles s !! h = Some o -> OpenFile.h o = h.

(** From a state to another by work on handle [h]. *)
Definition only (h : Z) (s s' : st) : Prop :=
  (forall h', h' <> h -> openFiles s' !! h' = openFiles s !! h')
  /\ rootPath s' = rootPath s /\ bulkMaxBytes s' = bulkMaxBytes s /\ (table_ok s -> table_ok s').
Definition within {A} (h : Z) (m : P A) : Prop := forall s, only h s (m s).2.

#[export] Instance only_preorder h : PreOrder (only h).
Proof.
  split.
  - intros s. by split_and!.
  - intros s1 s2 s3 (A1 & B1 & C1 & D1) (A2 & B2 & C2 & D2). split_and!; [|congruence..|auto].
    intros h' Hh. by rewrite A2, A1.
Qed.

Lemma within_ret {A} h (a : A) : within h (ret a).
Proof. by intros s. Qed.
Lemma within_fail {A} h e : within h (@fail st A e).
Proof. by intros s. Qed.
Lemma within_bind {A B} h (m : P A) (k : A -> P B) :
  within h m -> (forall a, within h (k a)) -> within h (iobind m k).
Proof.
  intros Hm Hk s. unfold iobind. pose proof (Hm s) as Hs.
  destruct (m s) as [[a|e|] s']; [|done..]. etrans; [exact Hs|apply Hk].
Qed.
Lemma within_attempt {A} h (m : P A) : within h m -> within h (attempt m).
Proof. intros Hm s. unfold attempt. pose proof (Hm s). by destruct (m s) as [[a|e|] s']. Qed.
Lemma within_ignore {A} h (m : P A) : within h m -> within h (ignore m).
Proof. intros Hm. apply within_bind; [by apply within_attempt|]. intros _. apply within_ret. Qed.
Lemma within_wrapped {A} h (m : P A) : within h m -> within h (wrapped m).
Proof. intros Hm s. unfold wrapped. pose proof (Hm s). by destruct (m s) as [[a|e|] s']. Qed.
Lemma within_run {A} h (m : IO os_st A) : within h (run m).
Proof. intros s. unfold run. by destruct (m (os_of s)) as [r o]. Qed.
Lemma within_run_state {A} h (m : st -> IO os_st A) : within h (fun s => run (m s) s).
Proof. intros s. exact (within_run h (m s) s). Qed.
Lemma within_run_both {A} h (m : os_st -> A * os_st) : within h (run_both m).
Proof. intros s. unfold run_both. by destruct (m (os_of s)) as [r o]. Qed.
Lemma within_count h f : within h (count f).
Proof. by intros s. Qed.
Lemma within_root h : within h get_root.
Proof. by intros s. Qed.
Lemma within_load h h' : within h (load h').
Proof. intros s. unfold load. by destruct (openFiles s !! h'). Qed.
Lemma within_rand h : within h randint64.
Proof. intros s. unfold randint64. by destruct (rand_8 (os_of s)). Qed.
Lemma within_attr h info : within h (attr_of info).
Proof. unfold attr_of. destruct (fileInfoToAttr info); [apply within_ret|apply within_fail]. Qed.
Lemma within_assign h f : (forall o, OpenFile.h (f o) = OpenFile.h o) -> within h (assign h f).
Proof.
  intros Hf s. split_and!; [|done..|].
  - intros h' Hh. cbn. by rewrite lookup_alter_ne.
  - intros Ht h' o. cbn. destruct (decide (h' = h)) as [->|Hh].
    + rewrite lookup_alter_eq. destruct (openFiles s !! h) as [o'|] eqn:E; [|done]. cbn. intros [= <-].
      rewrite Hf. by apply Ht.
    + rewrite lookup_alter_ne by done. apply Ht.
Qed.
Lemma within_delete h : within h (fun s => (Val tt, set_open (delete h) s)).
Proof.
  intros s. split_and!; [|done..|].
  - intros h' Hh. cbn. by rewrite lookup_delete_ne.
  - intros Ht h' o. cbn. rewrite lookup_delete_Some. intros [_ E]. by apply Ht.
Qed.
Lemma within_store h o : OpenFile.h o = h -> within h (store h o).
Proof.
  intros Ho s. split_and!; [|done..|].
  - intros h' Hh. cbn. by rewrite lookup_insert_ne.
  - intros Ht h' o'. cbn. rewrite lookup_insert_Some. intros [[<- <-]|[_ E]]; [done|by apply Ht].
Qed.

Lemma safe_run {A} (m : IO os_st A) : safe m -> safe (run m).
Proof. intros Hm s. unfold run. pose proof (Hm (os_of s)). by destruct (m (os_of s)). Qed.
Lemma safe_run_both {A} (m : os_st -> A * os_st) : safe (run_both m).
Proof. intros s. unfold run_both. by destruct (m (os_of s)). Qed.
Lemma safe_count f : safe (count f).
Proof. by intros s. Qed.
Lemma safe_root : safe get_root.
Proof. by intros s. Qed.
Lemma safe_load h : safe (load h).
Proof. intros s. unfold load. by destruct (openFiles s !! h). Qed.
Lemma safe_rand : safe randint64.
Proof. intros s. unfold randint64. by destruct (rand_8 (os_of s)). Qed.
Lemma safe_attr info : safe (attr_of info).
Proof. unfold attr_of. destruct (fileInfoToAttr info); [apply safe_ret|apply safe_fail]. Qed.
Lemma safe_assign h f : safe (assign h f).
Proof. by intros s. Qed.
Lemma safe_store h o : safe (store h o).
Proof. by intros s. Qed.
Lemma safe_pureval {S A} (a : A) (f : S -> S) : safe (fun s : S => (Val a, f s)).
Proof. by intros s. Qed.

End frame.
#[export] Hint Resolve within_ret within_fail within_attempt within_ignore within_wrapped within_run
  within_run_state within_run_both within_count within_root within_load within_rand within_attr
  within_assign within_delete within_store safe_run safe_run_both safe_count safe_root safe_load safe_rand
  safe_attr safe_assign safe_store safe_pureval : fs_method.

(** Walks through the body of a method. *)
Ltac walk_method :=
  repeat first
    [ progress intros
    | solve [eauto with fs_method nocore]
    | apply safe_bind | apply within_bind | apply safe_run
    | apply within_assign; reflexivity
    | apply within_store; reflexivity
    | match goal with
      | |- safe (match ?x with _ => _ end) => destruct x
      | |- within _ (match ?x with _ => _ end) => destruct x
      end ].

Section methods.
Context `{OS, bulk.Json}.

Lemma load_nonzero_walk h h' : safe (load_nonzero h) /\ within h' (load_nonzero h).
Proof. unfold load_nonzero. split; walk_method. Qed.
Lemma openSymlink_walk h p : safe (openSymlink p) /\ within h (openSymlink p).
Proof. unfold openSymlink. split; walk_method. Qed.
Lemma GetAttr_walk h h' : safe (GetAttr h') /\ within h (GetAttr h').
Proof. unfold GetAttr. split; walk_method. Qed.
Lemma RemoveNotify_walk h h' : safe (RemoveNotify h') /\ within h (RemoveNotify h').
Proof.
  pose proof (load_nonzero_walk h' h) as [? ?]. unfold RemoveNotify. split; walk_method.
Qed.
Lemma extend_all_walk h es : safe (extend_all es) /\ within h (extend_all es).
Proof.
  induction es as [|e es [IH1 IH2]]; cbn [extend_all]; [split; walk_method|].
  unfold getExtendedFileInfo. split; walk_method.
Qed.

(** The methods that are given a handle, but for [Rename]. *)
Inductive method_on (h : Z) : forall A, P A -> Prop :=
| m_GetAttr : method_on h _ (GetAttr h)
| m_SetAttr a : method_on h _ (SetAttr h a)
| m_StatFS : method_on h _ (StatFS h)
| m_FSync : method_on h _ (FSync h)
| m_Flush : method_on h _ (Flush h)
| m_Close : method_on h _ (Close h)
| m_Lookup name : method_on h _ (Lookup h name)
| m_Read buf off flags : method_on h _ (Read h buf off flags)
| m_Write buf off flags : method_on h _ (Write h buf off flags)
| m_ReadDir flags n : method_on h _ (ReadDir h flags n)
| m_Readlink : method_on h _ (Readlink h)
| m_Unlink : method_on h _ (Unlink h)
| m_Truncate n : method_on h _ (Truncate h n)
| m_Symlink source flag : method_on h _ (Symlink h source flag)
| m_Link b name : method_on h _ (Link h b name)
| m_Listxattr : method_on h _ (Listxattr h)
| m_Getxattr key val : method_on h _ (Getxattr h key val)
| m_Setxattr key val : method_on h _ (Setxattr h key val)
| m_Removexattr key : method_on h _ (Removexattr h key)
| m_RegisterNotify : method_on h _ (RegisterNotify h)
| m_RemoveNotify : method_on h _ (RemoveNotify h).

Lemma method_walk h A (m : P A) : method_on h A m -> safe m /\ within h m.
Proof.
  pose proof (load_nonzero_walk h h) as [? ?]. pose proof (openSymlink_walk h) as Hsl.
  pose proof (GetAttr_walk h) as Hga. pose proof (RemoveNotify_walk h h) as [? ?].
  pose proof (extend_all_walk h) as Hea.
  assert (forall p, safe (openSymlink p)) by (intros; apply Hsl).
  assert (forall p, within h (openSymlink p)) by (intros; apply Hsl).
  assert (forall h', safe (GetAttr h')) by (intros; apply Hga).
  assert (forall h', within h (GetAttr h')) by (intros; apply Hga).
  assert (forall es, safe (extend_all es)) by (intros; apply Hea).
  assert (forall es, within h (extend_all es)) by (intros; apply Hea).
  unfold xattrstore.FList.
  destruct 1; split;
    unfold GetAttr, SetAttr, StatFS, statFS, FSync, Flush, Close, Lookup, Read, Write, ReadDir, readDir, Readlink, Unlink,
      Truncate, Symlink, Link, Listxattr, Getxattr, Setxattr, Removexattr, RegisterNotify, xattrstore.FGet,
      xattrstore.FSet, xattrstore.FRemove, xattrstore.FList; walk_method.
Qed.

Lemma Mkdir_walk h p mode : safe (Mkdir p mode) /\ within h (Mkdir p mode).
Proof. unfold Mkdir. split; walk_method. Qed.

Lemma Rename_walk h to flags : within h (Rename h to flags).
Proof. pose proof (load_nonzero_walk h h) as [? ?]. unfold Rename. walk_method. Qed.

(** What opening does: with a result there is a new entry under the handle
    that is returned and nothing else has changed in the table, without one
    nothing has. *)
Definition opens (p : gostring) (dir : bool) (s : st) (r : io Z * st) : Prop :=
  match r with
  | (Val h, s') => only h s s' /\ exists f, openFiles s' !! h = Some (OpenFile.mk p dir f h None 0)
  | (Fail _, s') => forall h, only h s s'
  | (Crash, _) => False
  end.

Lemma store_new (m : P File) p dir (post : P unit) s :
  safe m -> (forall h, within h m) -> (forall s1, exists s2, post s1 = (Val tt, s2) /\ openFiles s2 = openFiles s1
    /\ rootPath s2 = rootPath s1 /\ bulkMaxBytes s2 = bulkMaxBytes s1) ->
  opens p dir s ((let? f := m in let? h := randint64 in
                  store h (OpenFile.mk p dir f h None 0) ;;? post ;;? ret h) s).
Proof.
  intros Hsafe Hm Hpost. unfold iobind. pose proof (Hsafe s) as Hs.
  destruct (m s) as [[f|e|] s1] eqn:E; [|intros h; specialize (Hm h s); by rewrite E in Hm|done].
  destruct (randint64 s1) as [r s2] eqn:Er. assert (exists h, r = Val h) as [h ->].
  { unfold randint64 in Er. destruct (rand_8 (os_of s1)). simplify_eq. by eexists. }
  set (o := OpenFile.mk p dir f h None 0). destruct (store h o s2) as [u s3] eqn:Es.
  destruct (Hpost s3) as (s4 & Hp & Hopen & Hroot & Hmax). unfold store in Es. simplify_eq. rewrite Hp.
  assert (only h s (set_open <[h := o]> s2)) as (A1 & A2 & A3 & A4).
  { transitivity s1; [by specialize (Hm h s); rewrite E in Hm|].
    transitivity s2; [by pose proof (within_rand h s1) as Hr; rewrite Er in Hr|].
    exact (within_store h o eq_refl s2). }
  split.
  - split_and!; [|congruence..|].
    + intros h' Hh. rewrite Hopen. by apply A1.
    + intros Ht h' o' Ho. rewrite Hopen in Ho. by apply A4 in Ht; apply Ht.
  - exists f. rewrite Hopen. cbn. apply lookup_insert_eq.
Qed.

Lemma Open_opens p flags mode s : opens (Join2 (rootPath s) p) false s (Open p flags mode s).
Proof.
  apply (store_new (if has flags 0x200000 then openSymlink (Join2 (rootPath s) p)
                    else run (sys (os_OpenFile (Join2 (rootPath s) p) flags (u32 mode))))
           (Join2 (rootPath s) p) false (count (AddOpen (Join2 (rootPath s) p)))).
  - pose proof (openSymlink_walk 0) as Hsl. destruct (has _ _); [apply Hsl|walk_method].
  - intros h. destruct (has _ _); [apply openSymlink_walk|walk_method].
  - intros s1. by eexists.
Qed.

Lemma OpenDir_opens p s : opens (Join2 (rootPath s) p) true s (OpenDir p s).
Proof.
  apply (store_new (run (sys (os_OpenFile (Join2 (rootPath s) p) 0 0))) (Join2 (rootPath s) p) true (ret tt)).
  - walk_method.
  - intros h. walk_method.
  - intros s1. by eexists.
Qed.

(** The methods of the interface, one at a time. *)
Inductive fs_step : st -> st -> Prop :=
| step_handle h A (m : P A) s : method_on h A m -> fs_step s (m s).2
| step_rename h to flags s : fs_step s (Rename h to flags s).2
| step_mkdir p mode s : fs_step s (Mkdir p mode s).2
| step_open p flags mode s : fs_step s (Open p flags mode s).2
| step_opendir p s : fs_step s (OpenDir p s).2.

Lemma opens_only p dir s r : opens p dir s r -> exists h, only h s r.2.
Proof. destruct r as [[h|e|] s']; [intros [? _]; by exists h|intros Hh; by exists 0|done]. Qed.

Lemma step_only s s' : fs_step s s' -> exists h, only h s s'.
Proof.
  destruct 1 as [h A m s Hm|h to flags s|p mode s|p flags mode s|p s].
  - exists h. by apply (method_walk h A m).
  - exists h. apply Rename_walk.
  - exists 0. apply Mkdir_walk.
  - by eapply opens_only, Open_opens.
  - by eapply opens_only, OpenDir_opens.
Qed.

End methods.

(** C18: the table of open files is sound and its entries are independent.
    However the methods of a new file system are called, every open file stays
    stored under its own handle and the root of the share is the one it was
    made with; no call on a handle panics (apart from a rename, which can
    commit a bulk journal) or changes the entry of another handle; and opening
    enters one file, under the handle it returns, for the name joined to the
    root.  (The handle is a random number that the code compares with none in
    use: a number that is, makes the new file take the place of the old.) *)
Theorem open_files_independent `{OS, bulk.Json} root c o s :
  rtc fs_step (NewPassthroughFS root c o) s ->
  table_ok s /\ rootPath s = root
  /\ (forall h A (m : P A), method_on h A m ->
        (m s).1 <> Crash /\ forall h', h' <> h -> openFiles (m s).2 !! h' = openFiles s !! h')
  /\ (forall p flags mode, opens (Join2 root p) false s (Open p flags mode s))
  /\ (forall p, opens (Join2 root p) true s (OpenDir p s)).
Proof.
  intros Hr. assert (Hs : table_ok s /\ rootPath s = root).
  { remember (NewPassthroughFS root c o) as s0 eqn:E0.
    assert (Hi : table_ok s0 /\ rootPath s0 = root) by (subst; split; [intros h o' Ho; cbn in Ho; by rewrite lookup_empty in Ho|done]).
    clear E0. induction Hr as [|s1 s2 s3 Hst _ IH]; [done|]. apply IH.
    destruct (step_only _ _ Hst) as (h & _ & Hroot & _ & Ht). destruct Hi. split; [by apply Ht|congruence]. }
  destruct Hs as [Ht <-]. split_and!; [done..| | |].
  - intros h A m Hm. destruct (method_walk h A m Hm) as [Hsafe Hw]. split; [apply Hsafe|]. apply Hw.
  - intros. apply Open_opens.
  - intros. apply OpenDir_opens.
Qed.

(** ** Attributes *)

(** The file type that a mode stands for. *)
Definition type_of_mode (m : Z) : FileType :=
  if mode_IsDir m then FileTypeDirectory else if has m ModeSymlink then FileTypeSymlink else FileTypeRegularFile.

(** The attributes made from a stat are complete.  For every stat result of
    the system, the attributes have the mandatory fields, so that no accessor
    panics on them, the type is the one of the mode, and the message attributes
    that the server derives from them exist. *)
Theorem stat_attributes_complete info a path :
  fileInfoToAttr info = Some a ->
  Attributes.GetFileType a = Ok (type_of_mode (FileInfo.Mode info))
  /\ is_ok (Attributes.GetInodeNumber a) = true /\ is_ok (Attributes.GetLinkCount a) = true
  /\ SizeFromVfs a = u64 (FileInfo.Size info)
  /\ is_ok (UnixModeFromVfs a) = true /\ is_ok (PermissionsFromVfs a path) = true.
Proof.
  unfold fileInfoToAttr. destruct (CompatStat info) as [st|]; [|done]. cbv zeta.
  assert (Ht : forall ft a', Attributes.fieldsPresent a' = 0xfffa -> Attributes.fileType a' = ft ->
    Attributes.GetFileType a' = Ok ft /\ is_ok (Attributes.GetInodeNumber a') = true
    /\ is_ok (Attributes.GetLinkCount a') = true /\ SizeFromVfs a' = Attributes.sizeBytes a'
    /\ is_ok (UnixModeFromVfs a') = true /\ is_ok (PermissionsFromVfs a' path) = true).
  { intros ft a' Hf <-. destruct a' as [fields ? ? ? ? ? ? ? ? ? ? ? ? ? ? ? ?]. cbn in Hf. subst fields.
    by split_and!. }
  unfold type_of_mode, FileInfo.IsDir. intros [= <-].
  destruct (mode_IsDir (FileInfo.Mode info)); [|destruct (has (FileInfo.Mode info) ModeSymlink)];
    match goal with |- Attributes.GetFileType ?a = Ok ?ft /\ _ =>
      destruct (Ht ft a eq_refl eq_refl) as (H1 & H2 & H3 & H4 & H5 & H6) end;
    rewrite H1, H4; by split_and!.
Qed.

(** ** Examples on the file system in memory *)

Section examples.
#[local] Existing Instance memfs.os.
#[local] Existing Instance bulk.toy_json.json.

(** A share "/srv/share" with a file in it, and a file outside of it. *)
Definition ex_os : memfs.st :=
  memfs.add_file (lit "/srv/secret") (lit "key")
    (memfs.add_file (lit "/srv/share/f") (lit "data")
       (memfs.add_dir (lit "/srv/share") (memfs.add_dir (lit "/srv") memfs.empty))).
Definition ex_fs : st := NewPassthroughFS (lit "/srv/share") new_stats ex_os.

Lemma stat_attributes_complete_witness :
  exists a, fileInfoToAttr (FileInfo.mk (lit "d") 3 (Z.lor ModeDir 0x1ed) 5
              (Some (Stat_t.mk 1 2 1 0 0 4096 8 (1, 2) (3, 4) (5, 6)))) = Some a
    /\ Attributes.GetFileType a = Ok FileTypeDirectory.
Proof.
  eexists. split; [reflexivity|].
  eapply (stat_attributes_complete (FileInfo.mk (lit "d") 3 (Z.lor ModeDir 0x1ed) 5
              (Some (Stat_t.mk 1 2 1 0 0 4096 8 (1, 2) (3, 4) (5, 6)))) _ (lit "d")). reflexivity.
Defined.

(** A file is opened for reading and writing. *)
Definition ex_open (p : string) (s : st) : io Z * st := Open (lit p) O_RDWR 0 s.

Lemma open_files_independent_witness :
  table_ok (Open (lit "f") O_RDWR 0 ex_fs).2 /\ rootPath (Open (lit "f") O_RDWR 0 ex_fs).2 = lit "/srv/share".
Proof.
  destruct (open_files_independent (H := memfs.os) (lit "/srv/share") new_stats ex_os
              (Open (lit "f") O_RDWR 0 ex_fs).2) as (H1 & H2 & _).
  - exact (rtc_once _ _ (step_open (lit "f") O_RDWR 0 ex_fs)).
  - exact (conj H1 H2).
Defined.

(** The name "../secret" opens a file outside of the share, and reading it
    gives the file's contents. *)
Example secret_is_read :
  let '(r, s) := Open (lit "../secret") O_RDWR 0 ex_fs in
  match r with
  | Val h => (OpenFile.path <$> openFiles s !! h) = Some (lit "/srv/secret")
             /\ (Read h (zeros 3) 0 0 s).1 = Val (lit "key", 3, None)
  | _ => False
  end.
Proof. vm_compute. split; reflexivity. Qed.

(** [Truncate] counts a deletion. *)
Example truncate_counts_delete :
  let '(r, s) := ex_open "f" ex_fs in
  match r with
  | Val h => let c := counters_of (Truncate h 1 s).2 in
             Stats.DeleteCount c = 1 /\ Stats.TruncateCount c = 0
  | _ => False
  end.
Proof. vm_compute. split; reflexivity. Qed.

(** The total number of blocks that [StatFS] reports is the number of
    available ones. *)
Example statfs_total :
  match (StatFS 0 ex_fs).1 with
  | Val a => FSAttributes.GetBlocks a = FSAttributes.GetAvailableBlocks a
  | _ => False
  end.
Proof. vm_compute. reflexivity. Qed.

End examples.

End passthrough_facts.
