(* ===== verification/Cmac.v ===== *)
(** * CMAC (internal/crypto/cmac/cmac.go)

    The streaming digest [cmac] with its [Reset], [Write] and [Sum], the
    block-wise definition of CMAC of NIST SP 800-38B (RFC 4493 for 128-bit
    blocks), and the proof that the first implements the second for every
    way of cutting the message into writes. *)

From S2P Require Import Prelude Cipher.

Module cmac.

Definition r64 : Z := 0x1b.
Definition r128 : Z := 0x87.

(** [d.c] is the section parameter of the operations. *)
Record t := mk { k1 : bytes; k2 : bytes; ci : bytes; digest : bytes; p : nat }.

(** The loop runs from the last byte to the first, carrying [b]; [dst[i]] is
    written after [src[i]] was read, so that [src] and [dst] may be the same
    slice. *)
Fixpoint shift1 (src : bytes) : bytes * Z :=
  match src with
  | [] => ([], 0)
  | x :: src =>
      let '(dst, b) := shift1 src in
      (Z.lor (u8 (Z.shiftl x 1)) b :: dst, Z.shiftr x 7)
  end.

(** One subkey: shift, and xor the polynomial in when a bit fell out. *)
Definition subkey (n : nat) (r : Z) (src : bytes) : bytes :=
  let '(k, b) := shift1 src in
  if negb (b =? 0) then xor_at (n - 1) r k else k.

Section operations.
Context (c : cipher_Block).

Definition New : outcome t :=
  let n := BlockSize c in
  let mk_with r :=
    let k1 := subkey n r (Encrypt c (replicate n 0)) in
    Ok (mk k1 (subkey n r k1) (replicate n 0) (replicate n 0) 0) in
  if (n =? 64 / 8)%nat then mk_with r64
  else if (n =? 128 / 8)%nat then mk_with r128
  else Panic.

Definition Reset (d : t) : t :=
  mk (k1 d) (k2 d) (replicate (length (ci d)) 0) (digest d) 0.

Definition write_byte (d : t) (x : Z) : t :=
  let '(ci0, p0) :=
    if (length (ci d) <=? p d)%nat then (Encrypt c (ci d), 0%nat) else (ci d, p d) in
  mk (k1 d) (k2 d) (xor_at p0 x ci0) (digest d) (S p0).

Definition Write (bs : bytes) (d : t) : t := foldl write_byte d bs.

Definition Sum (inp : bytes) (d : t) : bytes * t :=
  let short := (p d <? length (digest d))%nat in
  let k := if short then k2 d else k1 d in
  let dg := xor_bytes (ci d) k in
  let dg := if short then xor_at (p d) 0x80 dg else dg in
  let dg := Encrypt c dg in
  (inp ++ dg, mk (k1 d) (k2 d) (ci d) dg (p d)).

Definition Size (d : t) : Z := blen (digest d).
Definition hash_BlockSize (d : t) : Z := 16.

Definition hash : hash_Hash t := mkHash t Reset Write Sum.

End operations.

End cmac.

(** ** The specification: SP 800-38B *)

(** Doubling in GF(2^(8n)) with reduction polynomial [r]. *)
Definition dbl (n : nat) (r x : Z) : Z :=
  let m := 256 ^ Z.of_nat n in
  if 2 * x <? m then 2 * x else Z.lxor (2 * x - m) r.

Definition K1 (c : cipher_Block) (r : Z) : bytes :=
  be_enc (BlockSize c) (dbl (BlockSize c) r (be_dec (Encrypt c (replicate (BlockSize c) 0)))).
Definition K2 (c : cipher_Block) (r : Z) : bytes :=
  be_enc (BlockSize c) (dbl (BlockSize c) r (be_dec (K1 c r))).

(** Split the message so that the last part has between 1 and n bytes (0
    for the empty message); mask a complete last block with K1, a short one
    padded with 10...0 with K2. *)
Definition cmac_spec (c : cipher_Block) (r : Z) (M : bytes) : bytes :=
  let n := BlockSize c in
  let k := ((length M - 1) / n)%nat in
  let last := drop (k * n) M in
  let masked :=
    if (length last =? n)%nat then xor_bytes last (K1 c r)
    else xor_bytes (last ++ 0x80 :: replicate (n - 1 - length last) 0) (K2 c r) in
  Encrypt c (xor_bytes (cbc c (replicate n 0) (chunks n k M)) masked).

(** ** Subkeys *)

Lemma be_dec_cons x l : be_dec (x :: l) = be_dec l + 256 ^ blen l * x.
Proof.
  unfold be_dec. cbn [rev]. rewrite le_dec_app. unfold blen. rewrite length_rev. cbn [le_dec]. lia.
Qed.

Lemma be_dec_snoc l x : be_dec (l ++ [x]) = x + 256 * be_dec l.
Proof. unfold be_dec. rewrite rev_app_distr. done. Qed.

Lemma be_enc_dec n l : length l = n -> bytes_ok l -> be_enc n (be_dec l) = l.
Proof.
  intros <- Hl. unfold be_enc, be_dec. rewrite <- (length_rev l), le_enc_dec.
  - apply rev_involutive.
  - by apply Forall_rev.
Qed.

Lemma be_dec_bound l : bytes_ok l -> 0 <= be_dec l < 256 ^ blen l.
Proof.
  intros Hl. unfold be_dec. pose proof (le_dec_bound (rev l)) as H.
  unfold blen in *. rewrite length_rev in H. apply H. by apply Forall_rev.
Qed.

Lemma shift1_step x b :
  0 <= x < 256 -> b = 0 \/ b = 1 ->
  Z.lor (u8 (Z.shiftl x 1)) b = (2 * x) mod 256 + b
  /\ (2 * x) mod 256 + 256 * Z.shiftr x 7 = 2 * x
  /\ (Z.shiftr x 7 = 0 \/ Z.shiftr x 7 = 1).
Proof.
  intros Hx Hb. unfold u8. rewrite Z.shiftl_mul_pow2, Z.shiftr_div_pow2 by lia.
  change (2 ^ 1) with 2. change (2 ^ 7) with 128. change (2 ^ 8) with 256.
  rewrite (Z.mul_comm x 2).
  assert (Hd : x / 128 = 0 /\ (2 * x) mod 256 = 2 * x \/ (x / 128 = 1 /\ (2 * x) mod 256 = 2 * x - 256) /\ 128 <= x).
  { destruct (Z.lt_ge_cases x 128) as [H|H].
    - left. rewrite Z.div_small, Z.mod_small by lia. done.
    - right. split; [|done]. split; [symmetry; apply Z.div_unique with (r := x - 128); lia|].
      symmetry. apply Z.mod_unique with (q := 1); lia. }
  split; [|lia].
  assert (He : exists k, (2 * x) mod 256 = 2 * k /\ 0 <= k).
  { destruct Hd as [[_ ->]|[[_ ->] H]]; [exists x; lia|]. exists (x - 128). lia. }
  destruct He as (k & -> & Hk). destruct Hb as [->| ->]; [rewrite Z.lor_0_r; lia|].
  symmetry. apply Z.bits_inj'. intros i Hi. rewrite Z.lor_spec.
  destruct (Z.eq_dec i 0) as [->|Hi0].
  - rewrite Z.testbit_odd_0, Z.testbit_even_0. done.
  - replace i with (Z.succ (i - 1)) by lia.
    rewrite Z.testbit_odd_succ, Z.testbit_even_succ by lia.
    replace (Z.testbit 1 (Z.succ (i - 1))) with false; [by rewrite orb_false_r|].
    symmetry. apply Z.bits_above_log2; cbn; lia.
Qed.

Lemma shift1_spec l :
  bytes_ok l ->
  let '(dst, b) := cmac.shift1 l in
  length dst = length l /\ bytes_ok dst /\ (b = 0 \/ b = 1)
  /\ be_dec dst + 256 ^ blen l * b = 2 * be_dec l.
Proof.
  induction 1 as [|x l Hx Hl IH]; [cbn; split_and!; auto; constructor|].
  cbn [cmac.shift1].
  destruct (cmac.shift1 l) as [dst b]. destruct IH as (Hd & Hok & Hb & He).
  destruct (shift1_step x b Hx Hb) as (-> & Hs & Hb').
  pose proof (Z.mod_pos_bound (2 * x) 256 ltac:(lia)).
  split_and!; [cbn; lia| |done|].
  - constructor; [|done]. destruct Hb' as [Hz|Hz]; rewrite Hz in Hs.
    + assert ((2 * x) mod 256 = 2 * x) by lia. unfold in8 in *. lia.
    + assert ((2 * x) mod 256 = 2 * x - 256) by lia. unfold in8 in *. lia.
  - rewrite !be_dec_cons. assert (Hbl : blen dst = blen l) by (unfold blen; lia). rewrite Hbl.
    assert (Hp : 256 ^ blen (x :: l) = 256 ^ blen l * 256).
    { unfold blen. cbn [length]. rewrite Nat2Z.inj_succ, Z.pow_succ_r by lia. lia. }
    rewrite Hp. nia.
Qed.

(** A low byte xored into a number whose other bits it does not touch. *)
Lemma lxor_low h x r : 0 <= x < 256 -> 0 <= r < 256 -> 0 <= h ->
  Z.lxor (x + 256 * h) r = Z.lxor x r + 256 * h.
Proof.
  intros Hx Hr Hh. pose proof (lxor_byte x r Hx Hr) as Hxr.
  assert (Hbits : forall y, 0 <= y < 256 -> forall i, 0 <= i ->
    Z.testbit (y + 256 * h) i = if i <? 8 then Z.testbit y i else Z.testbit h (i - 8)).
  { intros y Hy i Hi. destruct (Z.ltb_spec i 8).
    - rewrite <- (Z.mod_pow2_bits_low (y + 256 * h) 8) by lia.
      change (2 ^ 8) with 256. rewrite Z.mul_comm, Z_mod_plus_full, Z.mod_small by lia. done.
    - replace i with ((i - 8) + 8) at 1 by lia. rewrite <- Z.div_pow2_bits by lia.
      change (2 ^ 8) with 256. rewrite Z.mul_comm, Z.div_add, Z.div_small by lia. done. }
  apply Z.bits_inj'. intros i Hi. rewrite Z.lxor_spec, !Hbits, Z.lxor_spec by lia.
  destruct (Z.ltb_spec i 8); [done|].
  rewrite (Z.bits_above_log2 r); [by rewrite xorb_false_r|lia|].
  assert (Z.log2 r <= 7) by (apply Z.log2_le_mono with (b := 255); lia). lia.
Qed.

Lemma xor_at_last l x r :
  xor_at (length (l ++ [x]) - 1) r (l ++ [x]) = l ++ [Z.lxor x r].
Proof.
  unfold xor_at. rewrite length_app. cbn [length].
  replace (length l + 1 - 1)%nat with (length l + 0)%nat by lia. by rewrite alter_app_r.
Qed.

(** The subkey step of the code is doubling in the field. *)
Lemma subkey_spec n r l :
  bytes_ok l -> length l = n -> (0 < n)%nat -> 0 <= r < 256 ->
  cmac.subkey n r l = be_enc n (dbl n r (be_dec l))
  /\ length (cmac.subkey n r l) = n /\ bytes_ok (cmac.subkey n r l).
Proof.
  intros Hl Hn Hpos Hr. pose proof (shift1_spec l Hl) as Hs. pose proof (be_dec_bound l Hl) as HB.
  unfold cmac.subkey. destruct (cmac.shift1 l) as [k b]. destruct Hs as (Hk & Hok & Hb & He).
  pose proof (be_dec_bound k Hok) as HBk. rewrite <- Hn.
  assert (Hbl : blen k = blen l) by (unfold blen; lia). rewrite Hbl in HBk.
  unfold dbl. fold (blen l). destruct Hb as [->| ->]; cbn [Z.eqb negb].
  - destruct (Z.ltb_spec (2 * be_dec l) (256 ^ blen l)); [|lia].
    replace (2 * be_dec l) with (be_dec k) by lia. rewrite be_enc_dec by done. done.
  - destruct (Z.ltb_spec (2 * be_dec l) (256 ^ blen l)); [lia|].
    replace (2 * be_dec l - 256 ^ blen l) with (be_dec k) by lia.
    destruct (exists_last (l := k)) as (k' & x & ->); [by destruct k; cbn in *; [lia|]|].
    apply Forall_app in Hok as [Hk' Hx]. inversion Hx as [|? ? Hx1 _]; subst.
    rewrite <- Hk, xor_at_last, be_dec_snoc.
    rewrite lxor_low by (done || apply be_dec_bound; done). rewrite <- be_dec_snoc.
    assert (bytes_ok (k' ++ [Z.lxor x r])).
    { apply Forall_app. split; [done|]. repeat constructor; apply lxor_byte; done. }
    assert (length (k' ++ [Z.lxor x r]) = length (k' ++ [x])) by (by rewrite !length_app).
    by rewrite be_enc_dec.
Qed.

(** ** The streaming state *)

Section stream.
Context (c : cipher_Block) `{!BlockLaws c} (r : Z).
#[local] Abbreviation n := (BlockSize c).

(** The object's own state: its subkeys and the lengths of its buffers. *)
Definition cmac_wf (d : cmac.t) : Prop :=
  cmac.k1 d = K1 c r /\ cmac.k2 d = K2 c r
  /\ length (cmac.ci d) = n /\ length (cmac.digest d) = n.

Lemma Write_absorb d bs :
  cmac.k1 (cmac.Write c bs d) = cmac.k1 d /\ cmac.k2 (cmac.Write c bs d) = cmac.k2 d
  /\ cmac.digest (cmac.Write c bs d) = cmac.digest d
  /\ (cmac.ci (cmac.Write c bs d), cmac.p (cmac.Write c bs d))
     = foldl (absorb_byte c) (cmac.ci d, cmac.p d) bs.
Proof.
  unfold cmac.Write. revert d. induction bs as [|x bs IH]; intros d; [done|]. cbn [foldl].
  assert (Hx : absorb_byte c (cmac.ci d, cmac.p d) x
               = (cmac.ci (cmac.write_byte c d x), cmac.p (cmac.write_byte c d x))
               /\ cmac.k1 (cmac.write_byte c d x) = cmac.k1 d
               /\ cmac.k2 (cmac.write_byte c d x) = cmac.k2 d
               /\ cmac.digest (cmac.write_byte c d x) = cmac.digest d).
  { unfold absorb_byte, cmac.write_byte. cbn [fst snd]. by destruct (_ <=? _)%nat. }
  destruct Hx as (-> & <- & <- & <-). apply IH.
Qed.

(** [d] has absorbed [M] since its last reset. *)
Definition fed (d : cmac.t) (M : bytes) : Prop :=
  absorbed c (replicate n 0) (cmac.ci d, cmac.p d) M.

Lemma Write_ok d M bs :
  (0 < n)%nat -> cmac_wf d -> fed d M -> cmac_wf (cmac.Write c bs d) /\ fed (cmac.Write c bs d) (M ++ bs).
Proof.
  intros Hn (H1 & H2 & Hci & Hdg) Hf. destruct (Write_absorb d bs) as (E1 & E2 & E3 & E4).
  assert (Ha : fed (cmac.Write c bs d) (M ++ bs)).
  { unfold fed. rewrite E4. apply absorb_ok; [done..|by rewrite length_replicate|done]. }
  split; [|done]. unfold cmac_wf. rewrite E1, E2, E3. split_and!; try done.
  by apply (absorbed_length c _ _ _ (length_replicate _ _) Ha).
Qed.

Lemma Reset_ok d : cmac_wf d -> cmac_wf (cmac.Reset d) /\ fed (cmac.Reset d) [].
Proof.
  intros (H1 & H2 & Hci & Hdg). split.
  - split_and!; try done. cbn. by rewrite length_replicate.
  - unfold fed. cbn. rewrite Hci. apply absorbed_nil. by rewrite length_replicate.
Qed.

(** A split whose last part is between 1 and n bytes is the one of the
    specification. *)
Lemma split_unique (bs : list bytes) (part : bytes) :
  (0 < n)%nat -> Forall (fun b => length b = n) bs ->
  (length part <= n)%nat -> (part = [] -> bs = []) ->
  ((length (concat bs ++ part) - 1) / n)%nat = length bs.
Proof.
  intros Hn Hbs Hle Hnil. rewrite length_app, (concat_length c) by done.
  destruct part as [|x part]; [rewrite Hnil by done; cbn; by apply Nat.div_small; lia|].
  cbn [length] in *. symmetry. apply Nat.div_unique with (r := length part); lia.
Qed.

Lemma Sum_ok d M inp :
  (0 < n)%nat -> cmac_wf d -> fed d M ->
  length (K2 c r) = n ->
  fst (cmac.Sum c inp d) = inp ++ cmac_spec c r M.
Proof.
  intros Hn (H1 & H2 & Hci & Hdg) (bs & part & -> & Hbs & Hle & Hnil & Hp & Hc) HK.
  cbn [fst snd] in Hp, Hc.
  assert (HX : length (cbc c (replicate n 0) bs) = n)
    by (apply (length_cbc c); [by rewrite length_replicate|done]).
  unfold cmac.Sum, cmac_spec. cbn [fst]. f_equal.
  rewrite split_unique, chunks_concat by done.
  assert (Hlast : drop (length bs * n) (concat bs ++ part) = part).
  { rewrite <- (concat_length c) by done. by rewrite drop_app_length. }
  rewrite Hlast, Hdg, Hp, H1, H2, Hc.
  destruct (Nat.ltb_spec (length part) n) as [Hs|Hs].
  - destruct (Nat.eqb_spec (length part) n) as [|Hne]; [lia|].
    assert (Hz : length (part ++ replicate (n - length part) 0) = n)
      by (rewrite length_app, length_replicate; lia).
    rewrite xor_at_xor by (rewrite length_xor; lia). rewrite xor_at_pad by lia.
    rewrite xor_assoc, <- app_assoc, length_app. cbn [app length].
    replace (n - (length part + 1))%nat with (n - 1 - length part)%nat by lia. done.
  - assert (Hl : length part = n) by lia. rewrite Hl, Nat.eqb_refl, Nat.sub_diag.
    cbn. rewrite app_nil_r, xor_assoc. done.
Qed.

End stream.

(** ** The claims *)

Definition cmac_poly (n : nat) : Z := if (n =? 8)%nat then cmac.r64 else cmac.r128.

Lemma cmac_poly_range n : 0 <= cmac_poly n < 256.
Proof. unfold cmac_poly, cmac.r64, cmac.r128. destruct (_ =? _)%nat; lia. Qed.

Lemma K1_ok c r `{!BlockLaws c} :
  (0 < BlockSize c)%nat -> 0 <= r < 256 ->
  cmac.subkey (BlockSize c) r (Encrypt c (replicate (BlockSize c) 0)) = K1 c r
  /\ length (K1 c r) = BlockSize c /\ bytes_ok (K1 c r).
Proof.
  intros Hn Hr. destruct (subkey_spec (BlockSize c) r (Encrypt c (replicate (BlockSize c) 0)))
    as (E & Hl & Hb); [|by apply Encrypt_length; rewrite length_replicate|done..|].
  - apply Encrypt_bytes. apply Forall_replicate. unfold in8. lia.
  - unfold K1. by rewrite <- E.
Qed.

Lemma New_ok c `{!BlockLaws c} :
  BlockSize c = 8%nat \/ BlockSize c = 16%nat ->
  exists d, cmac.New c = Ok d /\ cmac_wf c (cmac_poly (BlockSize c)) d
            /\ length (K2 c (cmac_poly (BlockSize c))) = BlockSize c.
Proof.
  intros Hs. pose proof (cmac_poly_range (BlockSize c)) as Hr.
  destruct (K1_ok c (cmac_poly (BlockSize c))) as (E1 & L1 & B1); [lia|done|].
  destruct (subkey_spec (BlockSize c) (cmac_poly (BlockSize c)) (K1 c (cmac_poly (BlockSize c))))
    as (E2 & L2 & B2); [done..|lia|done|]. fold (K2 c (cmac_poly (BlockSize c))) in E2.
  rewrite E2 in L2.
  exists (cmac.mk (K1 c (cmac_poly (BlockSize c))) (K2 c (cmac_poly (BlockSize c)))
            (replicate (BlockSize c) 0) (replicate (BlockSize c) 0) 0).
  split; [|split; [|done]].
  - unfold cmac.New. unfold cmac_poly in *.
    destruct Hs as [Hs|Hs]; rewrite Hs in *; cbn [Nat.eqb Nat.div Nat.divmod fst Nat.sub] in *;
      rewrite E1, E2; reflexivity.
  - unfold cmac_wf. cbn. rewrite !length_replicate. done.
Qed.

Lemma writes_ok c r d M `{!BlockLaws c} ws :
  (0 < BlockSize c)%nat -> cmac_wf c r d -> fed c d M ->
  cmac_wf c r (foldl (fun s w => cmac.Write c w s) d ws)
  /\ fed c (foldl (fun s w => cmac.Write c w s) d ws) (M ++ concat ws).
Proof.
  intros Hn. revert d M. induction ws as [|w ws IH]; intros d M Hw Ha.
  - cbn. by rewrite app_nil_r.
  - cbn. destruct (Write_ok c r d M w) as [Hw' Ha']; [done..|].
    rewrite app_assoc. by apply IH.
Qed.

(** The digest object keeps the promise of [hash.Hash]. *)
#[export] Instance cmac_hash_laws c `{!BlockLaws c} :
  BlockSize c = 8%nat \/ BlockSize c = 16%nat ->
  HashLaws (cmac.hash c) (cmac_wf c (cmac_poly (BlockSize c))) (cmac_spec c (cmac_poly (BlockSize c))).
Proof.
  intros Hs. assert (Hn : (0 < BlockSize c)%nat) by lia.
  destruct (New_ok c Hs) as (_ & _ & _ & HK). split.
  - intros s ws Hw. destruct (Reset_ok c _ s Hw). by eapply writes_ok.
  - intros s inp (H1 & H2 & Hci & Hdg).
    destruct (K1_ok c (cmac_poly (BlockSize c)) Hn (cmac_poly_range _)) as (_ & HK1 & _).
    unfold cmac_wf. cbn [snd Sum cmac.hash cmac.Sum cmac.k1 cmac.k2 cmac.ci cmac.digest].
    split_and!; try done. apply Encrypt_length.
    destruct (cmac.p s <? length (cmac.digest s))%nat;
      rewrite ?length_xor_at, length_xor, ?H1, ?H2; lia.
  - intros s ws inp Hw. destruct (Reset_ok c _ s Hw) as [Hw' Ha].
    destruct (writes_ok c _ _ _ ws Hn Hw' Ha). by apply Sum_ok.
Qed.

(** The digest is one block long. *)
Lemma length_cmac_spec c `{!BlockLaws c} M :
  BlockSize c = 8%nat \/ BlockSize c = 16%nat ->
  length (cmac_spec c (cmac_poly (BlockSize c)) M) = BlockSize c.
Proof.
  intros Hs. assert (Hn : (0 < BlockSize c)%nat) by lia.
  destruct (New_ok c Hs) as (d & _ & Hw & HK).
  pose proof (cmac_hash_laws c Hs) as HL.
  pose proof (hash_sum d [M] [] Hw) as HS. cbn [foldl concat app] in HS. rewrite app_nil_r in HS.
  pose proof (hash_wf d [M] Hw) as Hw1. cbn [foldl] in Hw1.
  pose proof (hash_sum_wf _ [] Hw1) as (_ & _ & _ & Hdg). rewrite <- HS. exact Hdg.
Qed.

(** C29: the streaming CMAC implements SP 800-38B.  For every 64-bit or
    128-bit block cipher, [New] succeeds, and after any sequence of writes,
    cut in any way, [Sum] appends exactly the CMAC of the concatenation to
    its argument: the subkeys are the doublings of E(0) in GF(2^64) or
    GF(2^128), complete last blocks are masked with K1 and short ones padded
    and masked with K2. *)
Theorem cmac_refines_spec (c : cipher_Block) (ws : list bytes) (inp : bytes) :
  BlockLaws c -> BlockSize c = 8%nat \/ BlockSize c = 16%nat ->
  exists d, cmac.New c = Ok d
    /\ fst (cmac.Sum c inp (foldl (fun s w => cmac.Write c w s) d ws))
       = inp ++ cmac_spec c (cmac_poly (BlockSize c)) (concat ws).
Proof.
  intros HB Hs. destruct (New_ok c Hs) as (d & Hd & Hw & HK). exists d. split; [done|].
  assert (Hr : cmac.Reset d = d).
  { unfold cmac.New in Hd. unfold cmac.Reset.
    destruct Hs as [Hs|Hs]; rewrite Hs in Hd; cbn in Hd; simplify_eq; cbn; done. }
  destruct (Reset_ok c _ d Hw) as [_ Ha]. rewrite Hr in Ha.
  assert (Hn : (0 < BlockSize c)%nat) by lia.
  destruct (writes_ok c _ d [] ws Hn Hw Ha). by apply Sum_ok.
Qed.

(** A toy 16-byte block "cipher" for evaluating the definitions. *)
Definition toy_block : cipher_Block := mkBlock 16 (fun b => map (fun x => (x * 7 + 3) mod 256) (rev b)).

#[export] Instance toy_block_laws : BlockLaws toy_block.
Proof.
  split.
  - intros b Hb. cbn. by rewrite length_map, length_rev.
  - intros b Hb. cbn. apply Forall_map. apply Forall_true. intros x.
    apply Z.mod_pos_bound. lia.
Defined.

Lemma cmac_refines_spec_witness :
  exists d, cmac.New toy_block = Ok d
    /\ fst (cmac.Sum toy_block [] (cmac.Write toy_block [2; 3] (cmac.Write toy_block [1] d)))
       = cmac_spec toy_block 0x87 [1; 2; 3].
Proof.
  destruct (cmac_refines_spec toy_block [[1]; [2; 3]] []) as (d & Hd & HS).
  - apply toy_block_laws.
  - right. reflexivity.
  - exists d. split; [exact Hd|exact HS].
Defined.
