(* ===== verification/Ccm.v ===== *)
(** * CCM (internal/crypto/ccm)

    The CBC-MAC object of cbc_mac.go, the AEAD of ccm.go, the CCM of NIST
    SP 800-38C written from its formatting rules, and the theorems: [Seal]
    computes the standard's ciphertext, [Open] accepts exactly what [Seal]
    produces. *)

From S2P Require Import Prelude Cipher.

(** ** cbc_mac.go *)

Module mac.

Record t := mk { ci : bytes; p : nat }.

Definition newMAC (c : cipher_Block) : t := mk (replicate (BlockSize c) 0) 0.

Definition Reset (m : t) : t := mk (replicate (length (ci m)) 0) 0.

Definition write_byte (c : cipher_Block) (m : t) (x : Z) : t :=
  let '(ci0, p0) :=
    if (length (ci m) <=? p m)%nat then (Encrypt c (ci m), 0%nat) else (ci m, p m) in
  mk (xor_at p0 x ci0) (S p0).

Definition Write (c : cipher_Block) (bs : bytes) (m : t) : t := foldl (write_byte c) m bs.

(** PadZero emulates zero byte padding. *)
Definition PadZero (c : cipher_Block) (m : t) : t :=
  if negb (p m =? 0)%nat then mk (Encrypt c (ci m)) 0 else m.

Definition Sum (inp : bytes) (m : t) : bytes := inp ++ ci m.

Definition Size (m : t) : Z := blen (ci m).

End mac.

(** ** The counter mode of crypto/cipher *)

(** [cipher.NewCTR(c, iv)]: the keystream is the encryption of the counter
    block, incremented as one big-endian number. *)
Fixpoint keystream (c : cipher_Block) (ctr : Z) (k : nat) : bytes :=
  match k with
  | O => []
  | S k => Encrypt c (be_enc (BlockSize c) ctr) ++ keystream c (ctr + 1) k
  end.

Definition XORKeyStream (c : cipher_Block) (iv src : bytes) : bytes :=
  xor_bytes src (keystream c (be_dec iv) (length src / BlockSize c + 1)).

(** ** ccm.go *)

Definition maxUvarint (n : Z) : Z := u64 (u64 (Z.shiftl 1 (n * 8)) - 1).

(** put uint64 as big endian, into a slice of [n] bytes. *)
Definition putUvarint (n : nat) (u : Z) : bytes :=
  map (fun i => u8 (Z.shiftr u (8 * (Z.of_nat n - 1 - Z.of_nat i)))) (seq 0 n).

Module ccm.

Record t := mk { c : cipher_Block; mac : mac.t; nonceSize : Z; tagSize : Z }.

Definition NewCCMWithNonceAndTagSizes (c : cipher_Block) (nonceSize tagSize : Z) : outcome t :=
  if negb (BlockSize c =? 16)%nat
  then Err (ErrOther "cipher: CCM mode requires 128-bit block cipher") else
  if negb ((7 <=? nonceSize) && (nonceSize <=? 13))
  then Err (ErrOther "cipher: invalid nonce size") else
  if negb ((4 <=? tagSize) && (tagSize <=? 16) && (Z.land tagSize 1 =? 0))
  then Err (ErrOther "cipher: invalid tag size") else
  Ok (mk c (mac.newMAC c) nonceSize tagSize).

Definition NonceSize (x : t) : Z := nonceSize x.
Definition Overhead (x : t) : Z := tagSize x.

(** [getTag] reuses the counter block for B0 and then, in place, for the
    length of the associated data. *)
Definition getTag (x : t) (Ctr data plaintext : bytes) : bytes :=
  let m := mac.Reset (mac x) in
  let W := mac.Write (c x) in
  let B := alter (fun b => Z.lor b (u8 (Z.shiftl (Z.quot (tagSize x - 2) 2) 3))) 0%nat Ctr in
  let B := splice (1 + nonceSize x)
             (putUvarint (Z.to_nat (blen B - (1 + nonceSize x))) (blen plaintext)) B in
  let m :=
    if 0 <? blen data then
      let B := alter (fun b => Z.lor b (Z.shiftl 1 6)) 0%nat B in
      let m := W B m in
      let m :=
        if blen data <? Z.shiftl 1 15 - Z.shiftl 1 7 then
          let B := splice 0 (putUvarint 2 (blen data)) B in
          W (upto 2 B) m
        else if blen data <=? Z.shiftl 1 31 - 1 then
          let B := splice 2 (putUvarint 4 (blen data)) (splice 0 [0xff; 0xfe] B) in
          W (upto 6 B) m
        else
          let B := splice 2 (putUvarint 8 (blen data)) (splice 0 [0xff; 0xff] B) in
          W (upto 10 B) m in
      let m := W data m in
      mac.PadZero (c x) m
    else W B m in
  let m := W plaintext m in
  let m := mac.PadZero (c x) m in
  mac.Sum [] m.

(** Formatting of the counter blocks (A.3): [Ctr[0] = byte(15-nonceSize-1)],
    [copy(Ctr[1:], nonce)]. *)
Definition Ctr0 (x : t) (nonce : bytes) : bytes :=
  splice 1 nonce (splice 0 [u8 (15 - nonceSize x - 1)] (zeros 16)).

(** What is appended to [dst]; the plaintext does not overlap [dst]. *)
Definition Seal (x : t) (nonce plaintext data : bytes) : outcome (option bytes) :=
  if negb (blen nonce =? nonceSize x) then Panic else
  if maxUvarint (15 - nonceSize x) <? u64 (blen plaintext) then Ok None else
  let Ctr := Ctr0 x nonce in
  let S0 := Encrypt (c x) Ctr in
  let Ctr := <[15%nat := 1]> Ctr in
  let ciphertext := XORKeyStream (c x) Ctr plaintext in
  let T := getTag x Ctr data plaintext in
  let S0 := xor_bytes S0 T in
  Ok (Some (upto (blen plaintext + tagSize x) (ciphertext ++ S0))).

Definition Open (x : t) (nonce ciphertext data : bytes) : outcome bytes :=
  if negb (blen nonce =? nonceSize x) then Panic else
  if blen ciphertext <=? tagSize x then Panic else
  if maxUvarint (15 - nonceSize x) <? u64 (blen ciphertext - tagSize x)
  then Err (ErrOther "cipher: len(ciphertext)-tagSize exceeds the maximum payload size") else
  let n := blen ciphertext - tagSize x in
  let Ctr := Ctr0 x nonce in
  let S0 := Encrypt (c x) Ctr in
  let Ctr := <[15%nat := 1]> Ctr in
  let plaintext := XORKeyStream (c x) Ctr (upto n ciphertext) in
  let T := getTag x Ctr data plaintext in
  let T := xor_bytes T S0 in
  if negb (bool_decide (upto (tagSize x) T = from n ciphertext))
  then Err (ErrOther "crypto/ccm: message authentication failed")
  else Ok plaintext.

Definition aead (x : t) : cipher_AEAD :=
  mkAEAD (NonceSize x) (Overhead x) (Seal x) (Open x).

End ccm.

(** ** SP 800-38C *)

(** A.2.1: the first block.  [q] is [15 - |N|]. *)
Definition B0_spec (t : Z) (N : bytes) (a : Z) (Q : Z) : bytes :=
  let q := 15 - blen N in
  ((if 0 <? a then 64 else 0) + 8 * ((t - 2) / 2) + (q - 1))
  :: N ++ be_enc (Z.to_nat q) Q.

(** A.2.2: the encoding of the length of the associated data. *)
Definition adata_len_spec (a : Z) : bytes :=
  if a =? 0 then []
  else if a <? 2 ^ 16 - 2 ^ 8 then be_enc 2 a
  else if a <? 2 ^ 32 then [0xff; 0xfe] ++ be_enc 4 a
  else [0xff; 0xff] ++ be_enc 8 a.

(** Pad with the least number of zeroes to whole 16-byte blocks. *)
Definition pad16 (m : bytes) : bytes := m ++ zeros ((- blen m) mod 16).

Definition blocks16 (m : bytes) : list bytes := chunks 16 (length m / 16) m.

(** A.2: B0, the padded associated data and the padded payload, chained. *)
Definition ccm_tag_spec (c : cipher_Block) (t : Z) (N A P : bytes) : bytes :=
  cbc c (replicate 16 0)
    (blocks16 (B0_spec t N (blen A) (blen P)
               ++ pad16 (adata_len_spec (blen A) ++ A) ++ pad16 P)).

(** A.3: the counter blocks. *)
Definition Ctr_spec (N : bytes) (j : Z) : bytes :=
  let q := 15 - blen N in (q - 1) :: N ++ be_enc (Z.to_nat q) j.

(** 6.1: S1 || S2 || ... *)
Fixpoint S_spec (c : cipher_Block) (N : bytes) (j : Z) (m : nat) : bytes :=
  match m with
  | O => []
  | S m => Encrypt c (Ctr_spec N j) ++ S_spec c N (j + 1) m
  end.

(** The generation-encryption process. *)
Definition ccm_spec (c : cipher_Block) (t : Z) (N A P : bytes) : bytes :=
  let m := Z.to_nat ((blen P + 15) / 16) in
  xor_bytes P (S_spec c N 1 m)
  ++ xor_bytes (upto t (ccm_tag_spec c t N A P)) (upto t (Encrypt c (Ctr_spec N 0))).

(** ** Shapes *)

Lemma xor_comm a b : xor_bytes a b = xor_bytes b a.
Proof.
  unfold xor_bytes. revert b. induction a as [|x a IH]; intros [|y b]; cbn; try done.
  by rewrite Z.lxor_comm, IH.
Qed.

Lemma take_xor k a b : take k (xor_bytes a b) = xor_bytes (take k a) (take k b).
Proof.
  unfold xor_bytes. revert a b. induction k as [|k IH]; intros [|x a] [|y b]; cbn; try done.
  by rewrite IH.
Qed.

Lemma xor_take_r a b k : (length a <= k)%nat -> xor_bytes a (take k b) = xor_bytes a b.
Proof.
  unfold xor_bytes. revert b k.
  induction a as [|x a IH]; intros [|y b] [|k] Hk; cbn in *; try done; [lia|].
  f_equal. apply IH. lia.
Qed.

Section ccm_facts.
Context (c : cipher_Block) `{!BlockLaws c} (Hbs : BlockSize c = 16%nat).

Lemma length_keystream ctr k : length (keystream c ctr k) = (k * 16)%nat.
Proof.
  revert ctr. induction k as [|k IH]; intros ctr; [done|]. cbn. rewrite length_app, IH.
  rewrite Encrypt_length; [lia|]. unfold be_enc. by rewrite length_rev, length_le_enc.
Qed.

Lemma keystream_long iv (src : bytes) :
  (length src <= length (keystream c (be_dec iv) (length src / BlockSize c + 1)))%nat.
Proof.
  rewrite length_keystream, Hbs. pose proof (Nat.div_mod_eq (length src) 16).
  pose proof (Nat.mod_upper_bound (length src) 16). lia.
Qed.

Lemma length_XORKeyStream iv src : length (XORKeyStream c iv src) = length src.
Proof. unfold XORKeyStream. rewrite length_xor. pose proof (keystream_long iv src). lia. Qed.

Lemma XORKeyStream_involutive iv src : XORKeyStream c iv (XORKeyStream c iv src) = src.
Proof.
  unfold XORKeyStream at 1. rewrite length_XORKeyStream. unfold XORKeyStream.
  apply xor_involutive, keystream_long.
Qed.

Lemma mac_Write_absorb m bs :
  (mac.ci (mac.Write c bs m), mac.p (mac.Write c bs m))
  = foldl (absorb_byte c) (mac.ci m, mac.p m) bs.
Proof.
  unfold mac.Write. revert m. induction bs as [|x bs IH]; intros m; [done|]. cbn [foldl].
  replace (absorb_byte c (mac.ci m, mac.p m) x)
    with (mac.ci (mac.write_byte c m x), mac.p (mac.write_byte c m x)); [apply IH|].
  unfold absorb_byte, mac.write_byte. cbn [fst snd]. by destruct (_ <=? _)%nat.
Qed.

Lemma mac_Write_app m a b : mac.Write c b (mac.Write c a m) = mac.Write c (a ++ b) m.
Proof. unfold mac.Write. by rewrite foldl_app. Qed.

(** A segment of the CBC-MAC: written from a block boundary and zero-padded,
    it chains its zero-padded blocks. *)
Lemma mac_segment X M :
  length X = 16%nat ->
  mac.PadZero c (mac.Write c M (mac.mk X 0)) = mac.mk (cbc c X (blocks16 (pad16 M))) 0.
Proof.
  intros HX. pose proof (mac_Write_absorb (mac.mk X 0) M) as HW.
  pose proof (absorb_ok c X (X, 0%nat) [] M) as Ha. rewrite Hbs in Ha.
  specialize (Ha ltac:(lia) HX (absorbed_nil c X ltac:(by rewrite Hbs))).
  cbn [mac.ci mac.p] in HW. rewrite <- HW in Ha. cbn [app] in Ha.
  destruct (mac.Write c M (mac.mk X 0)) as [ci p]. cbn [mac.ci mac.p] in *.
  destruct Ha as (bs & part & -> & Hl & Hle & Hnil & Hp & Hc). cbn [fst snd] in *.
  rewrite Hbs in *. unfold mac.PadZero. cbn [mac.p mac.ci]. rewrite Hp.
  destruct part as [|x part].
  - specialize (Hnil eq_refl). subst bs.
    assert (Hci : ci = X) by (rewrite Hc; apply (xor_zeros_r X 16 HX)). by rewrite Hci.
  - cbn [length Nat.eqb negb]. f_equal. rewrite Hc.
    set (part' := x :: part) in *. assert (Hpos : (0 < length part')%nat) by (cbn; lia).
    set (bs' := bs ++ [part' ++ replicate (16 - length part') 0]).
    assert (Hpad : pad16 (concat bs ++ part') = concat bs').
    { unfold pad16, bs'. rewrite concat_app, <- app_assoc. cbn [concat]. rewrite app_nil_r.
      f_equal. f_equal. unfold zeros. f_equal. rewrite blen_app. unfold blen.
      rewrite (concat_length c) by (by rewrite Hbs). rewrite Hbs.
      replace (- (Z.of_nat (length bs * 16) + Z.of_nat (length part')))
        with (Z.of_nat (16 - length part') + (- Z.of_nat (length bs) - 1) * 16) by lia.
      rewrite Z.mod_add by lia. rewrite Z.mod_small by lia. lia. }
    assert (Hbs' : Forall (fun b => length b = 16%nat) bs').
    { apply Forall_app. split; [done|]. repeat constructor. rewrite length_app, length_replicate. lia. }
    unfold blocks16. rewrite Hpad.
    replace (length (concat bs') / 16)%nat with (length bs').
    2: { rewrite (concat_length c) by (by rewrite Hbs). rewrite Hbs, Nat.div_mul; lia. }
    pose proof (chunks_concat c bs' []) as Hch.
    rewrite Hbs, app_nil_r in Hch. rewrite Hch by done. unfold bs'.
    unfold cbc. by rewrite foldl_app.
Qed.

Lemma blocks16_length M : Forall (fun b => length b = BlockSize c) (blocks16 M).
Proof.
  unfold blocks16. rewrite Hbs. assert (H : (length M / 16 * 16 <= length M)%nat).
  { pose proof (Nat.div_mod_eq (length M) 16). lia. }
  revert H. generalize (length M / 16)%nat as k. intros k. revert M.
  induction k as [|k IH]; intros M H; cbn; [constructor|].
  constructor; [rewrite length_take; lia|]. apply IH. rewrite length_drop. lia.
Qed.

Lemma length_cbc16 M : length (cbc c (replicate 16 0) (blocks16 M)) = 16%nat.
Proof.
  pose proof (length_cbc c (replicate 16 0) (blocks16 M)) as H. rewrite H, Hbs; [done| |].
  - by rewrite length_replicate.
  - apply blocks16_length.
Qed.

End ccm_facts.

Lemma pad16_block B m : length B = 16%nat -> pad16 (B ++ m) = B ++ pad16 m.
Proof.
  intros HB. unfold pad16. rewrite <- app_assoc. do 3 f_equal. rewrite blen_app.
  unfold blen at 1. rewrite HB.
  replace (- (Z.of_nat 16 + blen m)) with (- blen m + (-1) * 16) by lia. by apply Z.mod_add.
Qed.

Lemma pad16_whole m : exists k, length (pad16 m) = (k * 16)%nat.
Proof.
  exists (Z.to_nat ((blen m + (- blen m) mod 16) / 16)). unfold pad16, zeros, blen in *.
  rewrite length_app, length_replicate.
  pose proof (Z.mod_pos_bound (- Z.of_nat (length m)) 16 ltac:(lia)) as Hm.
  pose proof (Z.div_mod (- Z.of_nat (length m)) 16 ltac:(lia)) as Hd.
  set (q := - Z.of_nat (length m) / 16) in *.
  replace (Z.of_nat (length m) + - Z.of_nat (length m) mod 16) with ((- q) * 16) by lia.
  rewrite Z.div_mul by lia. lia.
Qed.

Lemma blocks16_app a b k :
  length a = (k * 16)%nat -> blocks16 (a ++ b) = blocks16 a ++ blocks16 b.
Proof.
  unfold blocks16. intros Ha.
  assert (E : (length (a ++ b) / 16)%nat = (k + length b / 16)%nat).
  { rewrite length_app, Ha. rewrite Nat.add_comm, Nat.div_add by lia. lia. }
  rewrite E, Ha, Nat.div_mul by lia. clear E. revert a Ha.
  induction k as [|k IH]; intros a Ha.
  - destruct a; [done|cbn in Ha; lia].
  - cbn [Nat.add chunks]. assert (16 <= length a)%nat by lia.
    rewrite take_app_le, drop_app_le by lia. cbn [app]. f_equal.
    apply IH. rewrite length_drop. lia.
Qed.

Lemma blocks16_one B : length B = 16%nat -> blocks16 B = [B].
Proof.
  intros HB. unfold blocks16. rewrite HB. change (16 / 16)%nat with 1%nat. cbn [chunks].
  by rewrite take_ge by lia.
Qed.

Lemma cbc_app c x a b : cbc c x (a ++ b) = cbc c (cbc c x a) b.
Proof. unfold cbc. by rewrite foldl_app. Qed.

(** The length prefix the code writes for the associated data. *)
Definition adata_len_code (a : Z) : bytes :=
  if a <? 32640 then be_enc 2 a
  else if a <=? 0x7fffffff then [0xff; 0xfe] ++ be_enc 4 a
  else [0xff; 0xff] ++ be_enc 8 a.

Lemma putUvarint_ok n u : 0 <= u -> putUvarint n u = be_enc n u.
Proof.
  intros Hu. unfold putUvarint, be_enc. induction n as [|n IH] in u, Hu |- *; [done|].
  rewrite seq_S, map_app. cbn [Nat.add map]. cbn [le_enc rev]. f_equal.
  - rewrite <- IH by (apply Z.div_pos; lia). apply map_ext_in. intros i Hi.
    apply in_seq in Hi. unfold u8. f_equal.
    rewrite !Z.shiftr_div_pow2 by lia.
    replace (8 * (Z.of_nat (S n) - 1 - Z.of_nat i)) with (8 + 8 * (Z.of_nat n - 1 - Z.of_nat i)) by lia.
    rewrite Z.pow_add_r by lia. rewrite <- Z.div_div by lia. done.
  - f_equal. replace (8 * (Z.of_nat (S n) - 1 - Z.of_nat n)) with 0 by lia. done.
Qed.

(** ** The tag *)

Definition ccm_wf (x : ccm.t) : Prop :=
  BlockLaws (ccm.c x) /\ BlockSize (ccm.c x) = 16%nat
  /\ length (mac.ci (ccm.mac x)) = 16%nat
  /\ 7 <= ccm.nonceSize x <= 13
  /\ 4 <= ccm.tagSize x <= 16 /\ exists k, ccm.tagSize x = 2 * k.

Lemma NewCCM_ok c ns ts x :
  BlockLaws c -> ccm.NewCCMWithNonceAndTagSizes c ns ts = Ok x ->
  ccm_wf x /\ ccm.c x = c /\ ccm.nonceSize x = ns /\ ccm.tagSize x = ts.
Proof.
  intros HB. unfold ccm.NewCCMWithNonceAndTagSizes.
  destruct (Nat.eqb_spec (BlockSize c) 16) as [Hb|]; [|done]. cbn [negb].
  destruct ((7 <=? ns) && (ns <=? 13)) eqn:E1; [|done]. cbn [negb].
  destruct ((4 <=? ts) && (ts <=? 16) && (Z.land ts 1 =? 0)) eqn:E2; [|done]. cbn [negb].
  intros [= <-]. unfold ccm_wf. cbn. rewrite length_replicate. split_and!; try done; try lia.
  apply andb_prop in E2 as [_ E2]. apply Z.eqb_eq in E2.
  change 1 with (Z.ones 1) in E2. rewrite Z.land_ones in E2 by lia.
  exists (ts / 2). pose proof (Z.div_mod ts 2). change (2 ^ 1) with 2 in E2. lia.
Qed.

Section tag.
Context (x : ccm.t) (Hwf : ccm_wf x).

(** The first block, as the code leaves it. *)
Definition code_B (Ctr : bytes) (Q : Z) : bytes :=
  splice (1 + ccm.nonceSize x) (putUvarint (Z.to_nat (16 - (1 + ccm.nonceSize x))) Q)
    (alter (fun b => Z.lor b (u8 (Z.shiftl (Z.quot (ccm.tagSize x - 2) 2) 3))) 0%nat Ctr).
Definition code_B_adata (Ctr : bytes) (Q : Z) : bytes :=
  alter (fun b => Z.lor b (Z.shiftl 1 6)) 0%nat (code_B Ctr Q).

Lemma length_putUvarint n u : length (putUvarint n u) = n.
Proof. unfold putUvarint. by rewrite length_map, length_seq. Qed.

Lemma length_code_B Ctr Q : length Ctr = 16%nat -> length (code_B Ctr Q) = 16%nat.
Proof.
  intros HC. apply Nat2Z.inj. change (Z.of_nat (length (code_B Ctr Q))) with (blen (code_B Ctr Q)).
  unfold code_B. rewrite blen_splice. unfold blen. by rewrite length_alter, HC.
Qed.

Lemma upto_len_block n bs B :
  0 <= n -> n = blen bs -> n <= blen B -> upto n (splice 0 bs B) = bs.
Proof.
  intros Hn -> Hl. change (upto (blen bs) ?l) with (sub 0 (blen bs) l).
  by apply sub_splice_same; lia.
Qed.

Lemma getTag_cbc Ctr data pt :
  length Ctr = 16%nat ->
  ccm.getTag x Ctr data pt =
  cbc (ccm.c x) (replicate 16 0)
    (if 0 <? blen data
     then blocks16 (code_B_adata Ctr (blen pt) ++ pad16 (adata_len_code (blen data) ++ data) ++ pad16 pt)
     else blocks16 (code_B Ctr (blen pt) ++ pad16 pt)).
Proof.
  intros HC. destruct Hwf as (HB & Hbs & Hmac & Hns & Hts & _).
  unfold ccm.getTag, mac.Reset. rewrite Hmac.
  assert (HbC : blen (alter (fun b => Z.lor b (u8 (Z.shiftl (Z.quot (ccm.tagSize x - 2) 2) 3))) 0%nat Ctr) = 16)
    by (unfold blen; by rewrite length_alter, HC).
  rewrite HbC. fold (code_B Ctr (blen pt)). pose proof (length_code_B Ctr (blen pt) HC) as HlB.
  cbv zeta. unfold mac.Sum. cbn [app].
  destruct (0 <? blen data) eqn:Hd.
  - fold (code_B_adata Ctr (blen pt)).
    set (B := code_B_adata Ctr (blen pt)).
    assert (HlB' : length B = 16%nat) by (unfold B, code_B_adata; by rewrite length_alter).
    assert (HbB : blen B = 16) by (unfold blen; lia).
    assert (Hlen : forall m,
      (if blen data <? Z.shiftl 1 15 - Z.shiftl 1 7
       then mac.Write (ccm.c x) (upto 2 (splice 0 (putUvarint 2 (blen data)) B)) m
       else if blen data <=? Z.shiftl 1 31 - 1
       then mac.Write (ccm.c x) (upto 6 (splice 2 (putUvarint 4 (blen data)) (splice 0 [0xff; 0xfe] B))) m
       else mac.Write (ccm.c x) (upto 10 (splice 2 (putUvarint 8 (blen data)) (splice 0 [0xff; 0xff] B))) m)
      = mac.Write (ccm.c x) (adata_len_code (blen data)) m).
    { intros m. unfold adata_len_code. pose proof (blen_nonneg data).
      change (Z.shiftl 1 15 - Z.shiftl 1 7) with 32640. change (Z.shiftl 1 31 - 1) with 0x7fffffff.
      destruct (blen data <? 32640); [|destruct (blen data <=? 0x7fffffff)];
        rewrite putUvarint_ok by done; f_equal.
      - apply upto_len_block; len.
      - change 2 with (0 + blen [0xff; 0xfe]). rewrite splice_splice_next by len.
        apply upto_len_block; len.
      - change 2 with (0 + blen [0xff; 0xff]). rewrite splice_splice_next by len.
        apply upto_len_block; len. }
    rewrite Hlen. rewrite !mac_Write_app.
    rewrite (mac_segment (ccm.c x)) by (done || by rewrite length_replicate).
    rewrite mac_segment by (done || by apply length_cbc16).
    cbn [mac.ci]. rewrite pad16_block by done.
    destruct (pad16_whole (adata_len_code (blen data) ++ data)) as [k Hk].
    rewrite <- cbc_app. f_equal. rewrite <- (blocks16_app _ _ (1 + k)) by (rewrite length_app; lia).
    by rewrite <- app_assoc.
  - rewrite !mac_Write_app, (mac_segment (ccm.c x)) by (done || by rewrite length_replicate).
    cbn [mac.ci]. by rewrite pad16_block.
Qed.

Lemma length_getTag Ctr data pt :
  length Ctr = 16%nat -> length (ccm.getTag x Ctr data pt) = 16%nat.
Proof.
  intros HC. rewrite getTag_cbc by done. destruct Hwf as (HB & Hbs & _).
  destruct (0 <? _); by apply length_cbc16.
Qed.

End tag.

(** ** Opening and sealing *)

Lemma blen_Ctr0 x nonce : blen (ccm.Ctr0 x nonce) = 16.
Proof. unfold ccm.Ctr0. rewrite !blen_splice. reflexivity. Qed.

Lemma length_Ctr1 x nonce : length (<[15%nat := 1]> (ccm.Ctr0 x nonce)) = 16%nat.
Proof. rewrite length_insert. pose proof (blen_Ctr0 x nonce). unfold blen in *. lia. Qed.

(** The tag as [Seal] appends it. *)
Definition sealed_tag (x : ccm.t) (nonce data pt : bytes) : bytes :=
  upto (ccm.tagSize x)
    (xor_bytes (Encrypt (ccm.c x) (ccm.Ctr0 x nonce))
       (ccm.getTag x (<[15%nat := 1]> (ccm.Ctr0 x nonce)) data pt)).

Lemma blen_sealed_tag x nonce data pt :
  ccm_wf x -> blen (sealed_tag x nonce data pt) = ccm.tagSize x.
Proof.
  intros Hwf. pose proof Hwf as (HB & Hbs & _ & _ & Hts & _). unfold sealed_tag, upto, blen.
  rewrite length_take, length_xor, length_getTag by (done || apply length_Ctr1).
  rewrite Encrypt_length; [lia|]. pose proof (blen_Ctr0 x nonce). unfold blen in *. lia.
Qed.

Lemma Seal_eq x nonce pt data :
  ccm_wf x -> blen nonce = ccm.nonceSize x ->
  (maxUvarint (15 - ccm.nonceSize x) <? u64 (blen pt)) = false ->
  ccm.Seal x nonce pt data
  = Ok (Some (XORKeyStream (ccm.c x) (<[15%nat := 1]> (ccm.Ctr0 x nonce)) pt
              ++ sealed_tag x nonce data pt)).
Proof.
  intros Hwf Hn Hm. pose proof Hwf as (HB & Hbs & _ & _ & Hts & _).
  unfold ccm.Seal. rewrite Hn, Z.eqb_refl, Hm. cbn [negb]. do 2 f_equal.
  unfold upto, blen. rewrite <- (length_XORKeyStream (ccm.c x) Hbs (<[15%nat := 1]> (ccm.Ctr0 x nonce)) pt) at 1.
  rewrite Z2Nat.inj_add, Nat2Z.id, take_app_add by lia. done.
Qed.

Lemma Open_inv x nonce data pt ct :
  ccm_wf x -> blen nonce = ccm.nonceSize x ->
  ccm.Open x nonce ct data = Ok pt -> 0 < blen pt /\ ccm.Seal x nonce pt data = Ok (Some ct).
Proof.
  intros Hwf Hn. pose proof Hwf as (HB & Hbs & _ & _ & Hts & _).
  unfold ccm.Open. rewrite Hn, Z.eqb_refl. cbn [negb].
  destruct (Z.leb_spec (blen ct) (ccm.tagSize x)) as [|Hl]; [done|].
  destruct (maxUvarint _ <? _) eqn:Hm; [done|].
  set (n := blen ct - ccm.tagSize x) in *.
  set (pt' := XORKeyStream (ccm.c x) _ (upto n ct)).
  case_bool_decide as Ht; cbn [negb]; [|done]. intros [= <-].
  assert (Hpt : blen pt' = n).
  { unfold pt', blen. rewrite length_XORKeyStream by done. fold (blen (upto n ct)). len. }
  split; [lia|]. rewrite Seal_eq by (done || by rewrite Hpt). do 2 f_equal.
  unfold pt' at 1. rewrite XORKeyStream_involutive by done.
  unfold sealed_tag. rewrite xor_comm, Ht. apply take_drop.
Qed.

Lemma Seal_inv x nonce data pt ct :
  ccm_wf x -> blen nonce = ccm.nonceSize x ->
  0 < blen pt -> ccm.Seal x nonce pt data = Ok (Some ct) -> ccm.Open x nonce ct data = Ok pt.
Proof.
  intros Hwf Hn Hpos HS. pose proof Hwf as (HB & Hbs & _ & _ & Hts & _).
  destruct (maxUvarint (15 - ccm.nonceSize x) <? u64 (blen pt)) eqn:Hm.
  { unfold ccm.Seal in HS. rewrite Hn, Z.eqb_refl, Hm in HS. done. }
  rewrite Seal_eq in HS by done. injection HS as <-.
  pose proof (blen_sealed_tag x nonce data pt Hwf) as Htl.
  set (ks := XORKeyStream _ _ pt).
  assert (Hcl : blen ks = blen pt) by (unfold blen, ks; by rewrite length_XORKeyStream).
  unfold ccm.Open. rewrite Hn, Z.eqb_refl. cbn [negb]. rewrite blen_app, Hcl, Htl.
  destruct (Z.leb_spec (blen pt + ccm.tagSize x) (ccm.tagSize x)); [lia|].
  replace (blen pt + ccm.tagSize x - ccm.tagSize x) with (blen pt) by lia. rewrite Hm.
  rewrite upto_app_exact, from_app_exact by done. unfold ks.
  rewrite XORKeyStream_involutive by done.
  unfold sealed_tag. rewrite xor_comm, bool_decide_true by done. done.
Qed.

(** C30: [Open] accepts exactly what [Seal] produces.  For a CCM object over
    any 16-byte block cipher, a nonce of the right size and any associated
    data, [Open] returns the plaintext [pt] if and only if [pt] is not empty
    and the ciphertext is the sealing of [pt]: every sealed message opens to
    its plaintext, and no other string opens at all. *)
Theorem ccm_open_iff_seal (x : ccm.t) (nonce data pt ct : bytes) :
  ccm_wf x -> blen nonce = ccm.nonceSize x ->
  ccm.Open x nonce ct data = Ok pt
  <-> (0 < blen pt /\ ccm.Seal x nonce pt data = Ok (Some ct)).
Proof. intros Hwf Hn. split; [by apply Open_inv|]. intros [? ?]. by apply Seal_inv. Qed.

Definition toy16 : cipher_Block := mkBlock 16 (fun b => map (fun v => (v * 7 + 3) mod 256) (rev b)).

#[export] Instance toy16_laws : BlockLaws toy16.
Proof.
  split.
  - intros b Hb. cbn. by rewrite length_map, length_rev.
  - intros b Hb. cbn. apply Forall_map, Forall_true. intros v. apply Z.mod_pos_bound. lia.
Defined.

Lemma ccm_open_iff_seal_witness :
  exists x ct, ccm.NewCCMWithNonceAndTagSizes toy16 11 16 = Ok x
    /\ ccm.Seal x (zeros 11) [1; 2; 3] [9] = Ok (Some ct)
    /\ ccm.Open x (zeros 11) ct [9] = Ok [1; 2; 3].
Proof.
  exists (ccm.mk toy16 (mac.newMAC toy16) 11 16). eexists.
  split; [reflexivity|]. split; [vm_compute; reflexivity|].
  apply ccm_open_iff_seal.
  - split; [apply toy16_laws|]. simpl. split; [reflexivity|]. split; [reflexivity|].
    split; [lia|]. split; [lia|]. exists 8. reflexivity.
  - reflexivity.
  - split; [reflexivity|]. vm_compute. reflexivity.
Defined.

(** The sealed messages keep their length and open again: the promise a
    session relies on, for every payload the counter can address. *)
#[export] Instance ccm_aead_laws (x : ccm.t) :
  ccm_wf x ->
  AEADLaws (ccm.aead x) (fun pt => 0 < blen pt <= maxUvarint (15 - ccm.nonceSize x)).
Proof.
  intros Hwf. pose proof Hwf as (HB & Hbs & _ & Hns & Hts & _).
  assert (Hmax : forall pt : bytes, blen pt <= maxUvarint (15 - ccm.nonceSize x) ->
    (maxUvarint (15 - ccm.nonceSize x) <? u64 (blen pt)) = false).
  { intros pt Hpt. apply Z.ltb_ge. etrans; [|exact Hpt]. pose proof (blen_nonneg pt).
    unfold u64. apply Z.mod_le; lia. }
  split; cbn.
  - unfold ccm.NonceSize. lia.
  - intros nonce pt ad Hn [_ Hpt]. rewrite Seal_eq by auto. eexists. split; [done|].
    rewrite blen_app, blen_sealed_tag by done. unfold blen at 1. by rewrite length_XORKeyStream.
  - intros nonce pt ad ct Hn [Hpos Hpt] HS. by apply Seal_inv.
Qed.

(** ** Conformance to SP 800-38C *)

Section conformance.
Context (x : ccm.t) (Hwf : ccm_wf x) (N : bytes).
Context (HN : blen N = ccm.nonceSize x) (HNok : bytes_ok N).

Let q : Z := 15 - blen N.

Lemma q_range : 2 <= q <= 8.
Proof. destruct Hwf as (_ & _ & _ & Hns & _). unfold q. lia. Qed.

Lemma length_Ctr_spec j : length (Ctr_spec N j) = 16%nat.
Proof.
  unfold Ctr_spec. fold q. cbn [length]. rewrite length_app. unfold be_enc.
  rewrite length_rev, length_le_enc. pose proof q_range. unfold q, blen in *. lia.
Qed.

Lemma Ctr_spec_ok j : bytes_ok (Ctr_spec N j).
Proof.
  unfold Ctr_spec. fold q. pose proof q_range. constructor; [unfold in8; lia|].
  apply Forall_app. split; [done|apply bytes_ok_be_enc].
Qed.

Lemma be_dec_app a b : be_dec (a ++ b) = be_dec b + 256 ^ blen b * be_dec a.
Proof.
  unfold be_dec. rewrite rev_app_distr, le_dec_app. unfold blen. by rewrite length_rev.
Qed.

Lemma be_dec_Ctr_spec j :
  0 <= j < 256 ^ q -> be_dec (Ctr_spec N j) = j + 256 ^ q * be_dec ((q - 1) :: N).
Proof.
  intros Hj. pose proof q_range. unfold Ctr_spec. fold q.
  change ((q - 1) :: N ++ ?l) with (((q - 1) :: N) ++ l). rewrite be_dec_app, blen_be_enc.
  rewrite be_dec_enc, Z2Nat.id by lia. by rewrite Z.mod_small.
Qed.

Lemma be_enc_Ctr j : be_enc 16 (be_dec (Ctr_spec N j)) = Ctr_spec N j.
Proof.
  pose proof (length_Ctr_spec j) as Hl. pose proof (Ctr_spec_ok j) as Hok.
  unfold be_enc, be_dec. rewrite <- Hl, <- (length_rev (Ctr_spec N j)), le_enc_dec.
  - apply rev_involutive.
  - by apply Forall_rev.
Qed.

(** The 128-bit counter of crypto/cipher never carries into the nonce. *)
Lemma keystream_spec j k :
  0 <= j -> j + Z.of_nat k <= 256 ^ q ->
  keystream (ccm.c x) (be_dec (Ctr_spec N j)) k = S_spec (ccm.c x) N j k.
Proof.
  destruct Hwf as (_ & Hbs & _). revert j.
  induction k as [|k IH]; intros j Hj Hk; [done|]. cbn [keystream S_spec].
  rewrite Hbs, be_enc_Ctr. f_equal. destruct k as [|k]; [done|].
  rewrite <- IH by lia. f_equal. rewrite !be_dec_Ctr_spec by lia. lia.
Qed.

Lemma keystream_app c ctr k1 k2 :
  keystream c ctr (k1 + k2) = keystream c ctr k1 ++ keystream c (ctr + Z.of_nat k1) k2.
Proof.
  revert ctr. induction k1 as [|k1 IH]; intros ctr.
  - cbn. by rewrite Z.add_0_r.
  - cbn [Nat.add keystream]. rewrite IH, <- app_assoc. do 3 f_equal. lia.
Qed.

Lemma Ctr0_spec : ccm.Ctr0 x N = Ctr_spec N 0.
Proof.
  pose proof q_range. unfold ccm.Ctr0, Ctr_spec. fold q. rewrite <- HN.
  rewrite u8_id by (ints; unfold q in *; lia).
  replace (15 - blen N - 1) with (q - 1) by (unfold q; lia).
  assert (E : be_enc (Z.to_nat q) 0 = zeros q).
  { unfold be_enc, zeros. generalize (Z.to_nat q) as k. induction k as [|k IH]; [done|].
    cbn [le_enc rev]. change (0 / 256) with 0. rewrite IH. change (0 mod 256) with 0.
    rewrite replicate_S_end. done. }
  rewrite E. change (zeros 16) with ([] ++ [0] ++ zeros 15).
  rewrite splice_mid by done. cbn [app].
  replace (zeros 15) with (zeros (blen N) ++ zeros q)
    by (rewrite <- zeros_app by (unfold q in *; lia); f_equal; unfold q; lia).
  change ((q - 1) :: zeros (blen N) ++ zeros q) with ([q - 1] ++ zeros (blen N) ++ zeros q).
  rewrite splice_mid by (rewrite ?blen_zeros; unfold q in *; done || lia). done.
Qed.

Lemma be_enc_S n v : be_enc (S n) v = be_enc n (v / 256) ++ [v mod 256].
Proof. done. Qed.

Lemma Ctr1_spec : <[15%nat := 1]> (ccm.Ctr0 x N) = Ctr_spec N 1.
Proof.
  rewrite Ctr0_spec. pose proof q_range. pose proof (length_Ctr_spec 0) as Hl.
  unfold Ctr_spec in *. fold q in Hl |- *. destruct (Z.to_nat q) as [|k] eqn:Eq; [lia|].
  rewrite !be_enc_S in *. change (0 / 256) with 0 in *. change (1 / 256) with 0.
  change (0 mod 256) with 0 in *. change (1 mod 256) with 1.
  set (l := (q - 1) :: N ++ be_enc k 0).
  change ((q - 1) :: N ++ be_enc k 0 ++ ?z) with ((q - 1) :: (N ++ (be_enc k 0 ++ z))) in *.
  rewrite app_assoc in Hl |- *. rewrite (app_assoc N _ [1]).
  change ((q - 1) :: (N ++ be_enc k 0) ++ ?z) with (l ++ z) in *. rewrite length_app in Hl.
  cbn [length] in Hl. rewrite insert_app_r_alt by lia.
  replace (15 - length l)%nat with 0%nat by lia. done.
Qed.

(** The flags octet: the or of the three fields is their sum. *)
Lemma flags_sum a : 
  Z.lor (Z.lor (q - 1) (u8 (Z.shiftl (Z.quot (ccm.tagSize x - 2) 2) 3))) (if 0 <? a then 64 else 0)
  = (if 0 <? a then 64 else 0) + 8 * ((ccm.tagSize x - 2) / 2) + (q - 1).
Proof.
  destruct Hwf as (_ & _ & _ & _ & Hts & k & Hk). pose proof q_range. rewrite Hk in *.
  assert (Hc : k = 2 \/ k = 3 \/ k = 4 \/ k = 5 \/ k = 6 \/ k = 7 \/ k = 8) by lia.
  assert (Hq : q = 2 \/ q = 3 \/ q = 4 \/ q = 5 \/ q = 6 \/ q = 7 \/ q = 8) by lia.
  destruct (0 <? a); repeat destruct Hc as [->|Hc]; subst;
    repeat destruct Hq as [Hq|Hq]; rewrite Hq; reflexivity.
Qed.

Lemma code_B_head Q h :
  0 <= Q -> 
  code_B x (h :: N ++ be_enc (Z.to_nat q) 1) Q
  = Z.lor h (u8 (Z.shiftl (Z.quot (ccm.tagSize x - 2) 2) 3)) :: N ++ be_enc (Z.to_nat q) Q.
Proof.
  intros HQ. pose proof q_range. unfold code_B. rewrite putUvarint_ok by done.
  change (alter ?f 0%nat (h :: ?l)) with (f h :: l). cbv beta.
  set (h' := Z.lor h _). rewrite <- HN.
  replace (16 - (1 + blen N)) with q by (unfold q; lia).
  rewrite <- (app_nil_r (be_enc (Z.to_nat q) 1)).
  change (h' :: N ++ ?l) with ((h' :: N) ++ l).
  rewrite splice_mid; [by rewrite app_nil_r|by rewrite blen_cons|by rewrite !blen_be_enc].
Qed.

Lemma B_spec data pt :
  (if 0 <? blen data then code_B_adata x (Ctr_spec N 1) (blen pt) else code_B x (Ctr_spec N 1) (blen pt))
  = B0_spec (ccm.tagSize x) N (blen data) (blen pt).
Proof.
  pose proof (blen_nonneg pt). unfold code_B_adata, Ctr_spec. fold q. rewrite code_B_head by done.
  unfold B0_spec. fold q. rewrite <- (flags_sum (blen data)).
  destruct (0 <? blen data); [done|]. by rewrite Z.lor_0_r.
Qed.

Lemma getTag_spec data pt :
  blen data < 32640 ->
  ccm.getTag x (Ctr_spec N 1) data pt = ccm_tag_spec (ccm.c x) (ccm.tagSize x) N data pt.
Proof.
  intros Hd. pose proof (blen_nonneg data). rewrite getTag_cbc by (done || apply length_Ctr_spec).
  unfold ccm_tag_spec. rewrite <- B_spec. f_equal.
  unfold adata_len_code, adata_len_spec.
  destruct (Z.ltb_spec (blen data) 32640); [|lia].
  destruct (Z.eqb_spec (blen data) 0) as [E|].
  - rewrite E. cbn [Z.ltb Z.compare app]. destruct data; [done|cbn in E; unfold blen in E; cbn in E; lia].
  - destruct (Z.ltb_spec 0 (blen data)); [|lia].
    destruct (Z.ltb_spec (blen data) (2 ^ 16 - 2 ^ 8)); [done|lia].
Qed.

Lemma maxUvarint_q pt : blen pt <= maxUvarint q -> blen pt < 256 ^ q.
Proof.
  pose proof q_range. intros Hp.
  assert (Hq : q = 2 \/ q = 3 \/ q = 4 \/ q = 5 \/ q = 6 \/ q = 7 \/ q = 8) by lia.
  assert (E : maxUvarint q = 256 ^ q - 1)
    by (repeat destruct Hq as [Hq|Hq]; rewrite Hq; vm_compute; reflexivity). lia.
Qed.

Lemma XORKeyStream_spec pt :
  blen pt < 256 ^ q ->
  XORKeyStream (ccm.c x) (Ctr_spec N 1) pt
  = xor_bytes pt (S_spec (ccm.c x) N 1 (Z.to_nat ((blen pt + 15) / 16))).
Proof.
  intros Hp. pose proof Hwf as (HB & Hbs & _). pose proof (blen_nonneg pt).
  set (m := Z.to_nat ((blen pt + 15) / 16)).
  pose proof (Z.div_mod (blen pt + 15) 16 ltac:(lia)) as Hd.
  pose proof (Z.mod_pos_bound (blen pt + 15) 16 ltac:(lia)) as Hr.
  assert (Hm : blen pt <= Z.of_nat m * 16 /\ Z.of_nat m <= blen pt) by (unfold m; lia).
  rewrite <- keystream_spec by lia. unfold XORKeyStream. rewrite Hbs.
  assert (Hk : (m <= length pt / 16 + 1)%nat).
  { pose proof (Nat.div_mod_eq (length pt) 16). pose proof (Nat.mod_upper_bound (length pt) 16).
    unfold m, blen in *. lia. }
  replace (length pt / 16 + 1)%nat with (m + (length pt / 16 + 1 - m))%nat by lia.
  rewrite keystream_app.
  set (a := keystream _ _ m).
  assert (Ha : length a = (m * 16)%nat) by (by apply length_keystream).
  rewrite <- (xor_take_r pt (a ++ _) (length a)) by (unfold blen in *; lia).
  by rewrite take_app_length.
Qed.

End conformance.

(** [Seal] computes the CCM of SP 800-38C.  For every 16-byte block
    cipher, every admissible nonce and tag size, every payload the length
    field can hold and associated data of fewer than 32640 bytes, the sealed
    message is the standard's generation-encryption process: B0 with its
    flags octet, the length-prefixed and padded associated data, the counter
    blocks, and the truncated encrypted tag. *)
Theorem ccm_seal_spec (x : ccm.t) (nonce data pt : bytes) :
  ccm_wf x -> blen nonce = ccm.nonceSize x -> bytes_ok nonce ->
  blen pt <= maxUvarint (15 - ccm.nonceSize x) -> blen data < 32640 ->
  ccm.Seal x nonce pt data = Ok (Some (ccm_spec (ccm.c x) (ccm.tagSize x) nonce data pt)).
Proof.
  intros Hwf Hn Hok Hp Hd. pose proof (blen_nonneg pt).
  rewrite Seal_eq; [|done|done|]. 2: { apply Z.ltb_ge. etrans; [|exact Hp]. apply Z.mod_le; lia. }
  unfold sealed_tag. rewrite Ctr1_spec, Ctr0_spec by done. rewrite getTag_spec by done.
  do 2 f_equal. unfold ccm_spec. f_equal.
  - apply XORKeyStream_spec; [done..|]. apply maxUvarint_q with (x := x); [done..|by rewrite Hn].
  - rewrite xor_comm. apply take_xor.
Qed.

Lemma ccm_seal_spec_witness :
  ccm.Seal (ccm.mk toy16 (mac.newMAC toy16) 11 16) (zeros 11) [1; 2; 3] [9]
  = Ok (Some (ccm_spec toy16 16 (zeros 11) [9] [1; 2; 3])).
Proof.
  apply (ccm_seal_spec (ccm.mk toy16 (mac.newMAC toy16) 11 16)).
  - split; [apply toy16_laws|]. simpl. split; [reflexivity|]. split; [reflexivity|].
    split; [lia|]. split; [lia|]. exists 8. reflexivity.
  - reflexivity.
  - repeat constructor; lia.
  - vm_compute. discriminate.
  - vm_compute. reflexivity.
Defined.

(** Associated data of 32640 to 65279 bytes gets a length prefix the
    standard does not use there: the code compares with [1<<15 - 1<<7] where
    A.2.2 says 2^16 - 2^8, so the prefix is 0xFFFE and four octets instead of
    two octets. *)
Lemma ccm_adata_length_deviates x Ctr data pt :
  ccm_wf x -> length Ctr = 16%nat -> 32640 <= blen data < 65280 ->
  adata_len_spec (blen data) = be_enc 2 (blen data)
  /\ ccm.getTag x Ctr data pt =
     cbc (ccm.c x) (replicate 16 0)
       (blocks16 (code_B_adata x Ctr (blen pt)
                  ++ pad16 (([0xff; 0xfe] ++ be_enc 4 (blen data)) ++ data) ++ pad16 pt)).
Proof.
  intros Hwf HC Ha. rewrite getTag_cbc by done. unfold adata_len_code, adata_len_spec.
  destruct (Z.ltb_spec (blen data) 32640); [lia|].
  destruct (Z.leb_spec (blen data) 0x7fffffff); [|lia].
  destruct (Z.eqb_spec (blen data) 0); [lia|]. destruct (Z.ltb_spec 0 (blen data)); [|lia].
  destruct (Z.ltb_spec (blen data) (2 ^ 16 - 2 ^ 8)); [done|lia].
Qed.
