(* ===== verification/Session.v ===== *)
(** * Sessions (server/session.go, server/kdf.go)

    Signing, verifying, encrypting and decrypting packets.  The signer and
    the verifier are [hash.Hash] objects, the encrypter and the decrypter
    [cipher.AEAD]s; the theorems use only the laws of the two interfaces. *)

From S2P Require Import Prelude Const Packet Cipher Cmac Ccm.

(** A [hash.Hash] value: its operations and its current state. *)
Record hash_obj := mkHashObj { h_St : Type; h_ops : hash_Hash h_St; h_state : h_St }.

(** [h.Reset(); h.Write(pkt); h.Sum(nil)]: the digest and the object after. *)
Definition digest_of (o : hash_obj) (pkt : bytes) : bytes * hash_obj :=
  let st := Write (h_ops o) pkt (Reset (h_ops o) (h_state o)) in
  let '(d, st) := Sum (h_ops o) [] st in
  (d, mkHashObj (h_St o) (h_ops o) st).

(** The object computes [mac]. *)
Definition hash_ok (o : hash_obj) (mac : bytes -> bytes) : Prop :=
  exists wf, HashLaws (h_ops o) wf mac /\ wf (h_state o).

Module session.

Record t := mk {
  sessionFlags : Z; sessionId : Z; preauthIntegrityHashValue : bytes;
  signer : option hash_obj; verifier : option hash_obj;
  encrypter : option cipher_AEAD; decrypter : option cipher_AEAD
}.

Definition set_signer (h : hash_obj) (s : t) : t :=
  mk (sessionFlags s) (sessionId s) (preauthIntegrityHashValue s) (Some h) (verifier s)
     (encrypter s) (decrypter s).
Definition set_verifier (h : hash_obj) (s : t) : t :=
  mk (sessionFlags s) (sessionId s) (preauthIntegrityHashValue s) (signer s) (Some h)
     (encrypter s) (decrypter s).

(** Neither guest nor anonymous. *)
Definition keyed (s : t) : bool :=
  Z.land (sessionFlags s) (Z.lor SMB2_SESSION_FLAG_IS_GUEST SMB2_SESSION_FLAG_IS_NULL) =? 0.

(** Using a nil interface panics. *)
Definition deref {A} (o : option A) : outcome A :=
  match o with Some a => Ok a | None => Panic end.

(** The packet is signed in place and returned. *)
Definition sign (s : t) (pkt : bytes) : outcome (bytes * t) :=
  let! f := PacketCodec.Flags (of_bytes pkt) in
  let! pkt := PacketCodec.SetFlags (Z.lor f SMB2_FLAGS_SIGNED) pkt in
  let! h := deref (signer s) in
  let '(d, h) := digest_of h pkt in
  let! pkt := PacketCodec.SetSignature d pkt in
  Ok (pkt, set_signer h s).

Definition zero : bytes := zeros 16.

(** A store into the backing array of a slice. *)
Definition on_slice (e : enc) (p : slice) : outcome slice :=
  let! a := e (s_arr p) in Ok (mkSlice a (s_len p)).

(** The answer, the packet as [verify] leaves it, and the session.  The
    packet may be one element of a larger received buffer. *)
Definition verify (s : t) (pkt : slice) : outcome (bool * slice * t) :=
  let! sg := PacketCodec.Signature pkt in
  let signature := s_bytes sg in
  let! pkt := on_slice (PacketCodec.SetSignature zero) pkt in
  let! r :=
    if keyed s then
      let! h := deref (verifier s) in
      let '(d, h) := digest_of h (s_bytes pkt) in
      let! pkt := on_slice (PacketCodec.SetSignature d) pkt in
      Ok (pkt, set_verifier h s)
    else Ok (pkt, s) in
  let '(pkt, s) := r in
  let! sg' := PacketCodec.Signature pkt in
  Ok (bool_decide (signature = s_bytes sg'), pkt, s).

(** [nonce] is what [rand.Read] filled the nonce with.  [Seal] appends to
    [c[:52]], whose capacity holds the result; its own result is not used. *)
Definition encrypt (s : t) (nonce : bytes) (pkt : bytes) : outcome bytes :=
  let! e := deref (encrypter s) in
  let c := zeros (52 + blen pkt + 16) in
  let! c := (TransformCodec.SetProtocolId
             >> TransformCodec.SetNonce nonce
             >> TransformCodec.SetOriginalMessageSize (u32 (blen pkt))
             >> TransformCodec.SetFlags Encrypted
             >> TransformCodec.SetSessionId (sessionId s)) c in
  let! ad := TransformCodec.AssociatedData (of_bytes c) in
  let! sealed := Seal e nonce pkt (s_bytes ad) in
  let c := match sealed with Some ct => splice 52 ct c | None => c end in
  let! c := TransformCodec.SetSignature (from (blen c - 16) c) c in
  Ok (upto (blen c - 16) c).

(** The received packet has no spare capacity: [append] copies. *)
Definition decrypt (s : t) (pkt : bytes) : outcome bytes :=
  let t := of_bytes pkt in
  let! ed := TransformCodec.EncryptedData t in
  let! sg := TransformCodec.Signature t in
  let c := s_bytes ed ++ s_bytes sg in
  let! d := deref (decrypter s) in
  let! nonce := TransformCodec.Nonce t in
  let! nonce := s_range nonce 0 (NonceSize d) in
  let! ad := TransformCodec.AssociatedData t in
  Open d (s_bytes nonce) c (s_bytes ad).

End session.

(** ** kdf.go *)

(** KDF in Counter Mode with h = 256, r = 32, L = 128; [hmac] is
    HMAC-SHA256 of crypto/hmac, by key and message. *)
Definition kdf (hmac : bytes -> bytes -> bytes) (ki label context : bytes) : bytes :=
  upto 16 (hmac ki ([0; 0; 0; 1] ++ label ++ [0] ++ context ++ [0; 0; 0; 0x80])).

(** ** Signatures *)

Lemma digest_ok o mac pkt :
  hash_ok o mac -> fst (digest_of o pkt) = mac pkt /\ hash_ok (snd (digest_of o pkt)) mac.
Proof.
  intros (wf & HL & Hw). unfold digest_of.
  pose proof (hash_sum (h_state o) [pkt] [] Hw) as Hs.
  pose proof (hash_wf (h_state o) [pkt] Hw) as Hw1. cbn [foldl concat app] in Hs, Hw1.
  pose proof (hash_sum_wf _ [] Hw1) as Hw2. rewrite app_nil_r in Hs.
  destruct (Sum _ _ _) as [d st]. cbn in *. split; [done|]. by exists wf.
Qed.

(** The packet a signature is computed over: the signature field zeroed. *)
Definition unsigned (pkt : bytes) : bytes := splice 48 (zeros 16) pkt.

Lemma SetSignature_ok bs p :
  64 <= blen p -> 16 <= blen bs ->
  PacketCodec.SetSignature bs p = Ok (splice 48 (upto 16 bs) p).
Proof.
  intros Hp Hb. unfold PacketCodec.SetSignature, copy_range.
  rewrite !(proj2 (Z.leb_le _ _)) by lia. done.
Qed.

Lemma Signature_ok p :
  64 <= blen p -> exists t, PacketCodec.Signature (of_bytes p) = Ok t /\ s_bytes t = sub 48 16 p.
Proof.
  intros Hp. destruct (s_range_bytes (of_bytes p) 48 64) as (t & Ht & Hb & _); [lia|lia|unfold s_cap; cbn; lia|].
  by exists t.
Qed.

Lemma blen_upto16 bs : 16 <= blen bs -> blen (upto 16 bs) = 16.
Proof. intros. apply blen_upto. lia. Qed.

Lemma on_slice_ok e p q :
  e p = Ok q -> blen q = blen p -> session.on_slice e (of_bytes p) = Ok (of_bytes q).
Proof.
  intros He Hl. unfold session.on_slice, of_bytes. cbn [s_arr s_len]. rewrite He. cbn. by rewrite Hl.
Qed.

(** What [verify] answers, and when. *)
Lemma verify_eq s mac h pkt :
  64 <= blen pkt -> session.keyed s = true ->
  session.verifier s = Some h -> hash_ok h mac -> 16 <= blen (mac (unsigned pkt)) ->
  exists s', session.verify s (of_bytes pkt)
    = Ok (bool_decide (sub 48 16 pkt = upto 16 (mac (unsigned pkt))),
          of_bytes (splice 48 (upto 16 (mac (unsigned pkt))) pkt), s').
Proof.
  intros Hp Hk Hv Hh Hm. destruct (digest_ok h mac (unsigned pkt) Hh) as [Hd _].
  pose proof (blen_upto16 _ Hm) as Hu. unfold session.verify.
  destruct (Signature_ok pkt Hp) as (sg & -> & Hsg). cbn [obind]. rewrite Hsg.
  assert (Hlu : blen (unsigned pkt) = blen pkt) by apply blen_splice.
  rewrite (on_slice_ok _ _ (unsigned pkt)); [|by rewrite SetSignature_ok|done]. cbn [obind].
  rewrite Hk, Hv. cbn [obind session.deref]. rewrite s_bytes_of_bytes.
  destruct (digest_of h (unsigned pkt)) as [d h']. cbn in Hd. subst d.
  rewrite (on_slice_ok _ _ (splice 48 (upto 16 (mac (unsigned pkt))) (unsigned pkt)));
    [|by rewrite SetSignature_ok by lia|by rewrite blen_splice]. cbn [obind].
  assert (Ht : splice 48 (upto 16 (mac (unsigned pkt))) (unsigned pkt)
               = splice 48 (upto 16 (mac (unsigned pkt))) pkt)
    by (apply splice_twice; rewrite ?Hu; done || lia).
  rewrite Ht.
  destruct (Signature_ok (splice 48 (upto 16 (mac (unsigned pkt))) pkt)) as (sg' & -> & Hsg').
  { by rewrite blen_splice. }
  cbn [obind]. rewrite Hsg'. rewrite sub_splice_same by (rewrite ?Hu; done || lia). by eexists.
Qed.

(** What a signature check means.  On a keyed session whose verifier
    computes [mac] (at least 16 bytes long), [verify] never panics on a
    packet with a full header, and it answers true exactly when the signature
    field holds the first 16 bytes of [mac] of the packet with that field
    zeroed; an accepted packet is left unchanged. *)
Theorem verify_iff_mac (s : session.t) (mac : bytes -> bytes) (h : hash_obj) (pkt : bytes) :
  64 <= blen pkt -> session.keyed s = true ->
  session.verifier s = Some h -> hash_ok h mac -> 16 <= blen (mac (unsigned pkt)) ->
  exists ok pkt' s', session.verify s (of_bytes pkt) = Ok (ok, of_bytes pkt', s')
    /\ (ok = true <-> sub 48 16 pkt = upto 16 (mac (unsigned pkt)))
    /\ (ok = true -> pkt' = pkt).
Proof.
  intros Hp Hk Hv Hh Hm. destruct (verify_eq s mac h pkt Hp Hk Hv Hh Hm) as (s' & ->).
  eexists _, _, _. split; [done|]. rewrite bool_decide_eq_true. split; [done|].
  intros <-. by apply splice_sub; lia.
Qed.

Lemma sign_verifies (s c : session.t) (mac : bytes -> bytes) (hs hv : hash_obj) (pkt : bytes) :
  64 <= blen pkt -> sub 48 16 pkt = zeros 16 ->
  session.signer s = Some hs -> hash_ok hs mac ->
  session.verifier c = Some hv -> hash_ok hv mac -> session.keyed c = true ->
  (forall m, 16 <= blen (mac m)) ->
  exists pkt' s' c', session.sign s pkt = Ok (pkt', s')
    /\ blen pkt' = blen pkt
    /\ sub 16 4 pkt' = le_enc 4 (Z.lor (le_dec (sub 16 4 pkt)) SMB2_FLAGS_SIGNED)
    /\ upto 16 pkt' = upto 16 pkt /\ sub 20 28 pkt' = sub 20 28 pkt
    /\ from 64 pkt' = from 64 pkt
    /\ session.verify c (of_bytes pkt') = Ok (true, of_bytes pkt', c').
Proof.
  intros Hp Hz Hs Hhs Hv Hhv Hk Hm. unfold session.sign, PacketCodec.Flags, PacketCodec.SetFlags.
  rewrite get32_ok by (unfold s_cap; cbn; lia). cbn [obind of_bytes s_arr].
  set (f := Z.lor _ _). rewrite put32_ok by lia. cbn [obind].
  set (p1 := splice 16 (le_enc 4 f) pkt).
  assert (H1 : blen p1 = blen pkt) by apply blen_splice.
  rewrite Hs. cbn [session.deref obind]. destruct (digest_ok hs mac p1 Hhs) as [Hd _].
  destruct (digest_of hs p1) as [d hs']. cbn in Hd. subst d.
  rewrite SetSignature_ok by (done || lia). cbn [obind].
  pose proof (blen_upto16 _ (Hm p1)) as Hu. set (p2 := splice 48 (upto 16 (mac p1)) p1).
  assert (Hun : unsigned p2 = p1).
  { unfold unsigned, p2. rewrite splice_twice by (rewrite ?Hu, ?blen_zeros; lia).
    rewrite <- Hz. replace (sub 48 16 pkt) with (sub 48 16 p1); [by apply splice_sub; lia|].
    unfold p1. by apply sub_splice_out; len. }
  assert (Hsig : sub 48 16 p2 = upto 16 (mac (unsigned p2))).
  { rewrite Hun. apply sub_splice_same; lia. }
  destruct (verify_eq c mac hv p2) as (c' & Hver); [unfold p2; rewrite blen_splice; lia|done..|].
  rewrite bool_decide_true in Hver by done. rewrite <- Hsig, splice_sub in Hver
    by (unfold p2; rewrite ?blen_splice; lia).
  exists p2, (session.set_signer hs' s), c'. split_and!; [done| | | | | |done].
  - unfold p2. by rewrite blen_splice.
  - unfold p2. rewrite sub_splice_out by len. unfold p1. apply sub_splice_same; len.
  - change (upto 16 ?l) with (sub 0 16 l). unfold p2, p1. by rewrite !sub_splice_out by len.
  - unfold p2, p1. by rewrite !sub_splice_out by len.
  - unfold p2. rewrite from_splice_ge by lia. unfold p1. by rewrite from_splice_ge by len.
Qed.

(** A signed packet verifies.  When the two ends compute the same
    16-byte-or-longer code, every packet with a full header and a zeroed
    signature field is signed (with the SIGNED flag set and everything else
    in place), and the other end accepts the result unchanged. *)
Theorem sign_then_verify (s c : session.t) (mac : bytes -> bytes) (hs hv : hash_obj) (pkt : bytes) :
  64 <= blen pkt -> sub 48 16 pkt = zeros 16 ->
  session.signer s = Some hs -> hash_ok hs mac ->
  session.verifier c = Some hv -> hash_ok hv mac -> session.keyed c = true ->
  (forall m, 16 <= blen (mac m)) ->
  exists pkt' s' c', session.sign s pkt = Ok (pkt', s')
    /\ blen pkt' = blen pkt
    /\ sub 16 4 pkt' = le_enc 4 (Z.lor (le_dec (sub 16 4 pkt)) SMB2_FLAGS_SIGNED)
    /\ upto 16 pkt' = upto 16 pkt /\ sub 20 28 pkt' = sub 20 28 pkt
    /\ from 64 pkt' = from 64 pkt
    /\ session.verify c (of_bytes pkt') = Ok (true, of_bytes pkt', c').
Proof. apply sign_verifies. Qed.

(** The CMAC signers of SMB 3.x keep the promise. *)
Lemma cmac_hash_ok c d `{!BlockLaws c} :
  BlockSize c = 16%nat -> cmac.New c = Ok d ->
  hash_ok (mkHashObj cmac.t (cmac.hash c) d) (cmac_spec c 0x87)
  /\ forall m, blen (cmac_spec c 0x87 m) = 16.
Proof.
  intros Hs Hd. assert (Hs' : BlockSize c = 8%nat \/ BlockSize c = 16%nat) by auto.
  destruct (New_ok c Hs') as (d' & Hd' & Hw & _). rewrite Hd in Hd'. injection Hd' as <-.
  assert (Hpoly : cmac_poly (BlockSize c) = 0x87) by (by rewrite Hs).
  split.
  - eexists. split; [|exact Hw]. rewrite <- Hpoly. by apply cmac_hash_laws.
  - intros m. rewrite <- Hpoly. unfold blen. by rewrite length_cmac_spec, Hs.
Qed.

(** A keyed session over the toy cipher, for the concrete checks. *)
Definition toy_cmac : cmac.t :=
  match cmac.New toy_block with Ok d => d | _ => cmac.mk [] [] [] [] 0 end.
Definition toy_hash : hash_obj := mkHashObj cmac.t (cmac.hash toy_block) toy_cmac.
Definition toy_ccm : ccm.t := ccm.mk toy16 (mac.newMAC toy16) 11 16.
Definition toy_session : session.t :=
  session.mk 0 7 [] (Some toy_hash) (Some toy_hash) (Some (ccm.aead toy_ccm)) (Some (ccm.aead toy_ccm)).

Lemma toy_hash_ok : hash_ok toy_hash (cmac_spec toy_block 0x87).
Proof. apply (cmac_hash_ok toy_block toy_cmac); reflexivity. Qed.
Lemma toy_hash_len m : 16 <= blen (cmac_spec toy_block 0x87 m).
Proof.
  destruct (cmac_hash_ok toy_block toy_cmac eq_refl eq_refl) as [_ H]. rewrite H. lia.
Qed.

Lemma toy_ccm_wf : ccm_wf toy_ccm.
Proof.
  split; [apply toy16_laws|]. simpl. split; [reflexivity|]. split; [reflexivity|].
  split; [lia|]. split; [lia|]. exists 8. reflexivity.
Qed.
Lemma toy_ccm_laws :
  AEADLaws (ccm.aead toy_ccm) (fun pt => 0 < blen pt <= maxUvarint (15 - ccm.nonceSize toy_ccm)).
Proof. apply ccm_aead_laws, toy_ccm_wf. Qed.

Lemma verify_iff_mac_witness :
  exists ok pkt' s', session.verify toy_session (of_bytes (zeros 64)) = Ok (ok, of_bytes pkt', s')
    /\ (ok = true <-> sub 48 16 (zeros 64) = upto 16 (cmac_spec toy_block 0x87 (unsigned (zeros 64)))).
Proof.
  destruct (verify_iff_mac toy_session (cmac_spec toy_block 0x87) toy_hash (zeros 64))
    as (ok & pkt' & s' & Hv & Hi & _).
  - vm_compute. discriminate.
  - reflexivity.
  - reflexivity.
  - apply toy_hash_ok.
  - apply toy_hash_len.
  - exists ok, pkt', s'. split; [exact Hv|exact Hi].
Defined.

Lemma sign_then_verify_witness :
  exists pkt' s' c', session.sign toy_session (zeros 70) = Ok (pkt', s')
    /\ session.verify toy_session (of_bytes pkt') = Ok (true, of_bytes pkt', c').
Proof.
  destruct (sign_then_verify toy_session toy_session (cmac_spec toy_block 0x87) toy_hash toy_hash
              (zeros 70)) as (pkt' & s' & c' & Hs & _ & _ & _ & _ & _ & Hv).
  - vm_compute. discriminate.
  - reflexivity.
  - reflexivity.
  - apply toy_hash_ok.
  - reflexivity.
  - apply toy_hash_ok.
  - reflexivity.
  - apply toy_hash_len.
  - exists pkt', s', c'. split; [exact Hs|exact Hv].
Defined.

(** ** Encryption *)

(** The transform header before sealing. *)
Lemma transform_header id nonce (n : Z) :
  0 <= n -> blen nonce <= 16 ->
  exists q,
    (TransformCodec.SetProtocolId
     >> TransformCodec.SetNonce nonce
     >> TransformCodec.SetOriginalMessageSize (u32 n)
     >> TransformCodec.SetFlags Encrypted
     >> TransformCodec.SetSessionId id) (zeros (52 + n + 16)) = Ok q
    /\ blen q = 52 + n + 16
    /\ sub 0 4 q = TransformCodec.MAGIC2
    /\ sub 20 (blen nonce) q = nonce
    /\ sub 42 2 q = le_enc 2 Encrypted
    /\ sub 44 8 q = le_enc 8 id.
Proof.
  intros Hn Hl. pose proof (blen_nonneg nonce) as H0.
  unfold eseq, TransformCodec.SetProtocolId, TransformCodec.SetNonce,
    TransformCodec.SetOriginalMessageSize, TransformCodec.SetFlags, TransformCodec.SetSessionId.
  assert (Hm : blen TransformCodec.MAGIC2 = 4) by done.
  rewrite copy_range_ok by (rewrite ?blen_zeros; lia). cbn [obind].
  assert (Hc : forall p, 36 <= blen p -> copy_range 20 36 nonce p = Ok (splice 20 nonce p)).
  { intros p Hp. unfold copy_range. rewrite !(proj2 (Z.leb_le _ _)) by lia. cbn [andb].
    by rewrite upto_all by lia. }
  rewrite Hc by len. cbn [obind]. repeat put_step. eexists. split; [reflexivity|].
  split_and!; [len| | | |]; reads; try done.
Qed.

(** The packet on the wire, from its parts: header, signature, payload. *)
Lemma encrypt_eq s a ok nonce pkt :
  AEADLaws a ok -> Overhead a = 16 -> session.encrypter s = Some a ->
  blen nonce = NonceSize a -> ok pkt ->
  exists q sealed ct,
    session.encrypt s nonce pkt = Ok ct
    /\ Seal a nonce pkt (sub 20 32 q) = Ok (Some sealed) /\ blen sealed = blen pkt + 16
    /\ blen ct = 52 + blen pkt
    /\ sub 0 4 q = TransformCodec.MAGIC2 /\ sub 20 (blen nonce) q = nonce
    /\ sub 42 2 q = le_enc 2 Encrypted /\ sub 44 8 q = le_enc 8 (session.sessionId s)
    /\ blen q = 52 + blen pkt + 16
    /\ sub 0 4 ct = sub 0 4 q /\ sub 20 32 ct = sub 20 32 q
    /\ from 52 ct = upto (blen pkt) sealed /\ sub 4 16 ct = from (blen pkt) sealed.
Proof.
  intros HA Hov He Hn Hok. pose proof NonceSize_range as Hns. pose proof (blen_nonneg pkt) as H0.
  destruct (transform_header (session.sessionId s) nonce (blen pkt)) as (q & Hq & Hl & F0 & F20 & F42 & F44);
    [lia..|].
  destruct (Seal_length nonce pkt (sub 20 32 q) Hn Hok) as (sealed & Hs & Hsl). rewrite Hov in Hsl.
  exists q, sealed. unfold session.encrypt. rewrite He. cbn [session.deref obind].
  rewrite Hq. cbn [obind]. unfold TransformCodec.AssociatedData.
  destruct (s_range_bytes (of_bytes q) 20 52) as (ad & -> & Had & _); [lia|lia|unfold s_cap; cbn; lia|].
  cbn [obind]. cbn [of_bytes s_arr] in Had. change (52 - 20) with 32 in Had. rewrite Had, Hs. cbn [obind].
  set (c1 := splice 52 sealed q). assert (Hc1 : blen c1 = 52 + blen pkt + 16) by (unfold c1; rewrite blen_splice; lia).
  assert (Htag : from (blen c1 - 16) c1 = from (blen pkt) sealed).
  { rewrite <- (sub_all (from (blen c1 - 16) c1) 16) by (rewrite blen_from; lia).
    rewrite sub_from, Z.add_0_l by lia.
    unfold c1. rewrite sub_splice_in by (rewrite ?blen_splice; lia).
    rewrite blen_splice, Hl. replace (52 + blen pkt + 16 - 16 - 52) with (blen pkt) by lia.
    unfold sub, from. apply take_ge. rewrite length_drop. unfold blen in *. lia. }
  rewrite Htag. unfold TransformCodec.SetSignature.
  assert (Ht16 : blen (from (blen pkt) sealed) = 16) by (rewrite blen_from; lia).
  rewrite copy_range_ok by lia. cbn [obind].
  set (c2 := splice 4 (from (blen pkt) sealed) c1).
  assert (Hc2 : blen c2 = 52 + blen pkt + 16) by (unfold c2; rewrite blen_splice; lia).
  eexists. split; [reflexivity|]. rewrite Hc2. replace (52 + blen pkt + 16 - 16) with (52 + blen pkt) by lia.
  assert (Hsub : forall o k, 0 <= o -> 0 <= k -> o + k <= 52 + blen pkt ->
    sub o k (upto (52 + blen pkt) c2) = sub o k c2).
  { intros o k Ho Hk Hok'. by apply sub_upto. }
  split_and!; try done.
  - apply blen_upto. lia.
  - rewrite Hsub by lia. unfold c2, c1. by rewrite !sub_splice_out by lia.
  - rewrite Hsub by lia. unfold c2, c1. by rewrite !sub_splice_out by lia.
  - rewrite <- (sub_all (from 52 (upto (52 + blen pkt) c2)) (blen pkt))
      by (rewrite blen_from; rewrite ?blen_upto; lia).
    rewrite sub_from, Z.add_0_l by lia. rewrite Hsub by lia. unfold c2, c1. rewrite sub_splice_out by lia.
    rewrite sub_splice_in by lia. done.
  - rewrite Hsub by lia. apply sub_splice_same; lia.
Qed.

(** A packet that begins with the transform magic is not a plain packet. *)
Lemma transform_magic ct :
  52 <= blen ct -> sub 0 4 ct = TransformCodec.MAGIC2 ->
  PacketCodec.IsInvalid (of_bytes ct) = Ok true /\ TransformCodec.IsInvalid (of_bytes ct) = Ok false.
Proof.
  intros Hl Hm. set (r := from 4 ct).
  assert (E : ct = 0xfd :: 0x53 :: 0x4d :: 0x42 :: r).
  { rewrite <- (take_drop 4 ct) at 1. change (take 4 ct) with (sub 0 4 ct). by rewrite Hm. }
  assert (Hs : s_len (of_bytes ct) = blen ct) by done. clearbody r. subst ct.
  assert (Hr : s_range (of_bytes (0xfd :: 0x53 :: 0x4d :: 0x42 :: r)) 0 4
               = Ok (mkSlice (0xfd :: 0x53 :: 0x4d :: 0x42 :: r) 4))
    by (rewrite s_range_ok by (unfold s_cap; cbn [of_bytes s_arr]; lia); done).
  assert (Hi : forall i, 0 <= i < 4 -> s_idx (mkSlice (0xfd :: 0x53 :: 0x4d :: 0x42 :: r) 4) i
               = Ok (nth (Z.to_nat i) [0xfd; 0x53; 0x4d; 0x42] 0)).
  { intros i Hi. rewrite s_idx_ok by (cbn; lia). f_equal. cbn [s_arr].
    assert (Hc : i = 0 \/ i = 1 \/ i = 2 \/ i = 3) by lia.
    destruct Hc as [->|[->|[->| ->]]]; done. }
  unfold PacketCodec.IsInvalid, PacketCodec.IsSmb1, PacketCodec.magic_is, PacketCodec.ProtocolId,
    TransformCodec.IsInvalid, TransformCodec.ProtocolId. rewrite Hs.
  destruct (Z.ltb_spec (blen (0xfd :: 0x53 :: 0x4d :: 0x42 :: r)) 4); [lia|].
  destruct (Z.ltb_spec (blen (0xfd :: 0x53 :: 0x4d :: 0x42 :: r)) 52); [lia|].
  rewrite Hr. cbn [obind]. rewrite !Hi by lia. cbn.
  split; [|done]. by destruct (_ <? 64).
Qed.

Lemma encrypt_decrypts (s c : session.t) (a : cipher_AEAD) (ok : bytes -> Prop)
    (nonce pkt : bytes) :
  AEADLaws a ok -> Overhead a = 16 ->
  session.encrypter s = Some a -> session.decrypter c = Some a ->
  blen nonce = NonceSize a -> ok pkt -> in64 (session.sessionId s) ->
  exists ct, session.encrypt s nonce pkt = Ok ct
    /\ blen ct = 52 + blen pkt
    /\ PacketCodec.IsInvalid (of_bytes ct) = Ok true
    /\ TransformCodec.IsInvalid (of_bytes ct) = Ok false
    /\ TransformCodec.Flags (of_bytes ct) = Ok Encrypted
    /\ TransformCodec.SessionId (of_bytes ct) = Ok (session.sessionId s)
    /\ session.decrypt c ct = Ok pkt.
Proof.
  intros HA Hov He Hdc Hn Hok Hid. pose proof NonceSize_range as Hns. pose proof (blen_nonneg pkt) as H0.
  destruct (encrypt_eq s a ok nonce pkt HA Hov He Hn Hok)
    as (q & sealed & ct & -> & Hs & Hsl & Hl & F0 & F20 & F42 & F44 & Hlq & C0 & C20 & C52 & C4).
  rewrite F0 in C0. destruct (transform_magic ct) as [Hp Ht]; [lia|done|].
  assert (Hsub : forall o k, 0 <= o -> 0 <= k -> o + k <= 32 -> sub (20 + o) k ct = sub (20 + o) k q).
  { intros o k ? ? ?. rewrite <- (sub_sub o k 20 32 ct), <- (sub_sub o k 20 32 q) by lia. by rewrite C20. }
  exists ct. split_and!; try done.
  - unfold TransformCodec.Flags. rewrite get16_ok by (unfold s_cap; cbn; lia). cbn [of_bytes s_arr].
    change 42 with (20 + 22). rewrite (Hsub 22 2) by lia. change (20 + 22) with 42. by rewrite F42.
  - unfold TransformCodec.SessionId. rewrite get64_ok by (unfold s_cap; cbn; lia). cbn [of_bytes s_arr].
    change 44 with (20 + 24). rewrite (Hsub 24 8) by lia. change (20 + 24) with 44.
    rewrite F44, le_dec_enc8. by rewrite u64_id.
  - unfold session.decrypt, TransformCodec.EncryptedData, TransformCodec.Signature,
      TransformCodec.Nonce, TransformCodec.AssociatedData.
    rewrite s_from_of_bytes by lia. cbn [obind].
    destruct (s_range_bytes (of_bytes ct) 4 20) as (sg & -> & Hsg & _); [lia|lia|unfold s_cap; cbn; lia|].
    cbn [obind]. rewrite Hdc. cbn [session.deref obind].
    destruct (s_range_bytes (of_bytes ct) 20 36) as (nn & -> & Hnn & Hnw & Hnl);
      [lia|lia|unfold s_cap; cbn; lia|].
    cbn [obind]. destruct Hnw as [_ Hnw].
    destruct (s_range_bytes nn 0 (NonceSize a)) as (n' & -> & Hn' & _); [lia|lia|lia|]. cbn [obind].
    destruct (s_range_bytes (of_bytes ct) 20 52) as (ad & -> & Had & _); [lia|lia|unfold s_cap; cbn; lia|].
    cbn [obind]. cbn [of_bytes s_arr] in Hsg, Had, Hnn.
    change (20 - 4) with 16 in Hsg. change (52 - 20) with 32 in Had. change (36 - 20) with 16 in Hnn.
    assert (Hnonce : s_bytes n' = nonce).
    { rewrite Hn', Z.sub_0_r. rewrite <- (sub_upto 0 (NonceSize a) 16) by lia.
      replace (upto 16 (s_arr nn)) with (s_bytes nn) by (unfold s_bytes; by rewrite Hnl).
      rewrite Hnn, sub_sub by lia. rewrite (Hsub 0 (NonceSize a)) by lia. by rewrite <- Hn. }
    rewrite s_bytes_of_bytes, Hsg, Had, Hnonce, C52, C4, C20.
    replace (upto (blen pkt) sealed ++ from (blen pkt) sealed) with sealed
      by (symmetry; apply take_drop).
    by apply (Open_Seal nonce pkt).
Qed.

(** An encrypted packet is recognised and decrypts to the original.
    For any AEAD that keeps its laws with a 16-byte tag, shared by the two
    ends, and any packet it can carry, [encrypt] succeeds; the result is not
    a plain SMB2 packet, passes the transform header check, names the session
    and carries the Encrypted flag, and the peer's [decrypt] returns exactly
    the packet. *)
Theorem encrypt_decrypt_roundtrip (s c : session.t) (a : cipher_AEAD) (ok : bytes -> Prop)
    (nonce pkt : bytes) :
  AEADLaws a ok -> Overhead a = 16 ->
  session.encrypter s = Some a -> session.decrypter c = Some a ->
  blen nonce = NonceSize a -> ok pkt -> in64 (session.sessionId s) ->
  exists ct, session.encrypt s nonce pkt = Ok ct
    /\ blen ct = 52 + blen pkt
    /\ PacketCodec.IsInvalid (of_bytes ct) = Ok true
    /\ TransformCodec.IsInvalid (of_bytes ct) = Ok false
    /\ TransformCodec.Flags (of_bytes ct) = Ok Encrypted
    /\ TransformCodec.SessionId (of_bytes ct) = Ok (session.sessionId s)
    /\ session.decrypt c ct = Ok pkt.
Proof. apply encrypt_decrypts. Qed.

Lemma encrypt_decrypt_roundtrip_witness :
  exists ct, session.encrypt toy_session (zeros 11) [1; 2; 3] = Ok ct
    /\ session.decrypt toy_session ct = Ok [1; 2; 3].
Proof.
  destruct (encrypt_decrypt_roundtrip toy_session toy_session (ccm.aead toy_ccm)
    (fun pt => 0 < blen pt <= maxUvarint (15 - ccm.nonceSize toy_ccm)) (zeros 11) [1; 2; 3])
    as (ct & He & _ & _ & _ & _ & _ & Hd).
  - apply toy_ccm_laws.
  - reflexivity.
  - reflexivity.
  - reflexivity.
  - reflexivity.
  - split; [reflexivity|]. vm_compute. discriminate.
  - ints. simpl. lia.
  - exists ct. split; [exact He|exact Hd].
Defined.

(** An encrypted packet without payload stops the server.  On a session
    whose decrypter is AES-CCM, a 52-byte transform packet (a header and
    nothing after it) makes [decrypt] panic: the CCM [Open] panics on a
    ciphertext that is no longer than its tag instead of returning an
    error. *)
Theorem decrypt_empty_payload_panics (s : session.t) (x : ccm.t) (pkt : bytes) :
  session.decrypter s = Some (ccm.aead x) -> ccm_wf x -> ccm.tagSize x = 16 ->
  blen pkt = 52 -> session.decrypt s pkt = Panic.
Proof.
  intros Hd (_ & _ & _ & Hns & _) Hts Hl.
  unfold session.decrypt, TransformCodec.EncryptedData, TransformCodec.Signature,
    TransformCodec.Nonce, TransformCodec.AssociatedData.
  rewrite s_from_of_bytes by lia. cbn [obind].
  destruct (s_range_bytes (of_bytes pkt) 4 20) as (sg & -> & Hsg & _); [lia|lia|unfold s_cap; cbn; lia|].
  cbn [obind]. rewrite Hd. cbn [session.deref obind].
  destruct (s_range_bytes (of_bytes pkt) 20 36) as (nn & -> & Hnn & [_ Hnw] & Hnl);
    [lia|lia|unfold s_cap; cbn; lia|].
  cbn [obind ccm.aead NonceSize]. unfold ccm.NonceSize.
  destruct (s_range_bytes nn 0 (ccm.nonceSize x)) as (n' & -> & Hn' & Hw' & Hl'); [lia|lia|lia|]. cbn [obind].
  destruct (s_range_bytes (of_bytes pkt) 20 52) as (ad & -> & Had & _); [lia|lia|unfold s_cap; cbn; lia|].
  cbn [obind Open ccm.aead]. unfold ccm.Open.
  rewrite (blen_s_bytes n' Hw'), Hl', Z.sub_0_r, Z.eqb_refl. cbn [negb].
  cbn [of_bytes s_arr] in Hsg. rewrite s_bytes_of_bytes, Hsg, blen_app, blen_from by lia.
  rewrite blen_sub by lia. rewrite Hl, Hts. done.
Qed.

Lemma decrypt_empty_payload_panics_witness : session.decrypt toy_session (zeros 52) = Panic.
Proof.
  apply (decrypt_empty_payload_panics toy_session toy_ccm).
  - reflexivity.
  - apply toy_ccm_wf.
  - reflexivity.
  - reflexivity.
Defined.
