(* ===== verification/Compound.v ===== *)
(** * Compounded messages

    server/compound.go (collecting the responses of a chain) and the part of
    conn.runReciever (server/conn.go) that cuts a received buffer into the
    messages of a chain. *)

From S2P Require Import Prelude Const Packet.

Module compoundContext.

Record t := mk {
  treeId : Z; sessionId : Z; fileId : option FileId.t; lastStatus : Z; lastMsgId : Z;
  rsp : list bytes
}.

Definition isEmpty (ctx : t) : bool := Z.of_nat (length (rsp ctx)) =? 0.

Definition addResponse (pkt : bytes) (ctx : t) : t :=
  mk (treeId ctx) (sessionId ctx) (fileId ctx) (lastStatus ctx) (lastMsgId ctx) (rsp ctx ++ [pkt]).

Definition set_lastStatus (st : Z) (ctx : t) : t :=
  mk (treeId ctx) (sessionId ctx) (fileId ctx) st (lastMsgId ctx) (rsp ctx).
Definition set_fileId (f : FileId.t) (ctx : t) : t :=
  mk (treeId ctx) (sessionId ctx) (Some f) (lastStatus ctx) (lastMsgId ctx) (rsp ctx).
Definition set_lastMsgId (m : Z) (ctx : t) : t :=
  mk (treeId ctx) (sessionId ctx) (fileId ctx) (lastStatus ctx) m (rsp ctx).

(** Every response but the last is rounded up to 8 bytes. *)
Fixpoint sizes (pkts : list bytes) : Z :=
  match pkts with
  | [] => 0
  | [pkt] => blen pkt
  | pkt :: pkts => Align (blen pkt) 8 + sizes pkts
  end.
Definition Size (ctx : t) : Z := sizes (rsp ctx).

Fixpoint encode_from (off : Z) (pkts : list bytes) : enc :=
  match pkts with
  | [] => eskip
  | p :: pkts => copy_from off p >> encode_from (off + Align (blen p) 8) pkts
  end.
Definition Encode (ctx : t) : enc := encode_from 0 (rsp ctx).

End compoundContext.

(** ** Cutting a chain (runReciever)

    [base] is where the current message starts in the received buffer; its
    slice reaches to the end of the buffer.  A message whose NextCommand is
    not 0 is cut there; the rest is the next message.  The compound context
    is created by the first message of a chain and shared by the others; the
    last one records its message id in it, which dereferences nil when no
    context was created. *)

Record element := mkElement {
  e_base : Z;      (** where the message starts *)
  e_len : Z;       (** its length *)
  e_ctx : option nat (** its compound context, an index into the list of contexts *)
}.

Record chain := mkChain {
  c_elems : list element;
  c_ctxs : list compoundContext.t;
  c_err : option goerr   (** why the receiver stops, if it does *)
}.

(** One message: the contexts after it, its element, and the base of the
    next message. [inr] is the error that ends the receiver. *)
Definition cut (buf : bytes) (base : Z) (ctxs : list compoundContext.t) (cur : option nat)
  : outcome ((list compoundContext.t * option nat * element * option Z) + goerr) :=
  let p := of_bytes (from base buf) in
  let! inv := PacketCodec.IsInvalid p in
  if inv then Ok (inr (InvalidRequestError "")) else
  let! first := PacketCodec.IsCompoundFirst p in
  let! fc :=
    if first then
      let! tid := PacketCodec.TreeId p in
      let! sid := PacketCodec.SessionId p in
      Ok (ctxs ++ [compoundContext.mk tid sid None 0 0 []], Some (length ctxs))
    else Ok (ctxs, cur) in
  let '(ctxs, cur) := fc in
  let! last := PacketCodec.IsCompoundLast p in
  let! ctxs :=
    if last then
      let! mid := PacketCodec.MessageId p in
      match cur with
      | None => Panic
      | Some i => Ok (alter (compoundContext.set_lastMsgId mid) i ctxs)
      end
    else Ok ctxs in
  let! off := PacketCodec.NextCommand p in
  if negb (off =? 0) then
    let! _ := s_range p 0 off in
    let! _ := s_from p off in
    Ok (inl (ctxs, cur, mkElement base off cur, Some (base + off)))
  else Ok (inl (ctxs, cur, mkElement base (blen buf - base) cur, None)).

(** The loop; [None] is lack of fuel. *)
Fixpoint cut_chain (fuel : nat) (buf : bytes) (base : Z) (ctxs : list compoundContext.t)
    (cur : option nat) : option (outcome chain) :=
  match fuel with
  | O => None
  | S fuel =>
      match cut buf base ctxs cur with
      | Ok (inr e) => Some (Ok (mkChain [] ctxs (Some e)))
      | Ok (inl (ctxs, cur, e, None)) => Some (Ok (mkChain [e] ctxs None))
      | Ok (inl (ctxs, cur, e, Some next)) =>
          match cut_chain fuel buf next ctxs cur with
          | Some (Ok c) => Some (Ok (mkChain (e :: c_elems c) (c_ctxs c) (c_err c)))
          | r => r
          end
      | Err e => Some (Err e)
      | Panic => Some Panic
      end
  end.

(** Every message advances by at least 8 bytes, so the length is fuel enough. *)
Definition cut_all (buf : bytes) : option (outcome chain) :=
  cut_chain (S (length buf)) buf 0 [] None.

(** ** Termination *)

Lemma cut_progress buf base ctxs cur ctxs' cur' e next :
  0 <= base <= blen buf -> bytes_ok buf ->
  cut buf base ctxs cur = Ok (inl (ctxs', cur', e, Some next)) -> base < next <= blen buf.
Proof.
  intros Hb Hok. unfold cut. set (p := of_bytes (from base buf)).
  assert (Hl : s_len p = blen buf - base) by (cbn; apply blen_from; lia).
  destruct (PacketCodec.IsInvalid p) as [[]| |]; [done| |done..]. cbn [obind].
  destruct (PacketCodec.IsCompoundFirst p) as [first| |]; [|done..]. cbn [obind].
  destruct (if first then _ else _) as [[c1 r1]| |]; [|done..]. cbn [obind].
  destruct (PacketCodec.IsCompoundLast p) as [lst| |]; [|done..]. cbn [obind].
  destruct (if lst then _ else _) as [c2| |]; [|done..]. cbn [obind].
  destruct (PacketCodec.NextCommand p) as [off| |] eqn:Hoff; [|done..]. cbn [obind].
  destruct (Z.eqb_spec off 0) as [|Hne]; [done|]. cbn [negb].
  destruct (s_range p 0 off) as [x| |] eqn:Hr; [|done..]. cbn [obind].
  destruct (s_from p off) as [y| |] eqn:Hf; [|done..]. cbn [obind].
  intros [= <- <- <- <-]. apply s_range_inv in Hr as (_ & Hpos & _ & _).
  unfold s_from in Hf. destruct ((0 <=? off) && (off <=? s_len p)) eqn:E; [|done]. lia.
Qed.

Lemma cut_chain_total fuel buf base ctxs cur :
  0 <= base <= blen buf -> bytes_ok buf -> blen buf - base < Z.of_nat fuel ->
  exists r, cut_chain fuel buf base ctxs cur = Some r.
Proof.
  revert base ctxs cur. induction fuel as [|fuel IH]; intros base ctxs cur Hb Hok Hf; [lia|].
  cbn [cut_chain].
  destruct (cut buf base ctxs cur) as [[[[[ctxs' cur'] e] [next|]]|er]|er|] eqn:Hc; [|by eexists..].
  pose proof (cut_progress _ _ _ _ _ _ _ _ Hb Hok Hc) as Hp.
  destruct (IH next ctxs' cur') as [r Hr]; [lia|done|lia|]. rewrite Hr.
  destruct r as [c|er|]; by eexists.
Qed.

(** C16: the receiver's loop over a chain always ends.  Whatever bytes were
    received, cutting them into messages takes at most one step per byte:
    a NextCommand always moves forward and never past the end. *)
Theorem cut_all_terminates (buf : bytes) :
  bytes_ok buf -> exists r, cut_all buf = Some r.
Proof.
  intros Hok. apply cut_chain_total; [|done|]; unfold blen; lia.
Qed.

Lemma cut_all_terminates_witness : exists r, cut_all (zeros 80) = Some r.
Proof. apply cut_all_terminates. apply bytes_ok_zeros. Defined.

(** A five-byte SMB1 negotiate stops the server.  The header check
    accepts it, and the loop then reads the SMB2 flags behind its end. *)
Theorem short_smb1_panics :
  PacketCodec.IsInvalid (of_bytes [0xff; 0x53; 0x4d; 0x42; 0x72]) = Ok false
  /\ cut_all [0xff; 0x53; 0x4d; 0x42; 0x72] = Some Panic.
Proof. split; vm_compute; reflexivity. Qed.

(** ** A chain of responses, cut again *)

(** One message of a chain: its header, the header's 64 bytes (signed or
    not) and its body. *)
Record msg := mkMsg { m_hdr : PacketHeader.t; m_head : bytes; m_body : bytes }.

Definition m_pkt (m : msg) : bytes := m_head m ++ m_body m.

Definition msg_ok (m : msg) : Prop :=
  PacketHeader.wf (m_hdr m) /\ header_core (m_hdr m) (m_head m).

Definition is_related (m : msg) : bool :=
  Z.land (PacketHeader.Flags (m_hdr m)) SMB2_FLAGS_RELATED_OPERATIONS =? SMB2_FLAGS_RELATED_OPERATIONS.

(** The links sendPacket makes: every message but the last points to the
    next 8-byte boundary, every message but the first is related. *)
Fixpoint links (ms : list msg) : Prop :=
  match ms with
  | [] => True
  | [m] => msg_ok m /\ PacketHeader.NextCommand (m_hdr m) = 0 /\ is_related m = true
  | m :: ms =>
      msg_ok m /\ PacketHeader.NextCommand (m_hdr m) = Align (blen (m_pkt m)) 8
      /\ is_related m = true /\ links ms
  end.

(** The buffer: every message but the last padded to the boundary. *)
Definition pad8 (p : bytes) : bytes := p ++ zeros (Align (blen p) 8 - blen p).

Fixpoint flat (pkts : list bytes) : bytes :=
  match pkts with
  | [] => []
  | [p] => p
  | p :: ps => pad8 p ++ flat ps
  end.

Lemma blen_pad8 p : blen (pad8 p) = Align (blen p) 8.
Proof.
  pose proof (Align8 (blen p) (blen_nonneg p)) as [Ha _]. unfold pad8.
  rewrite blen_app, blen_zeros by lia. lia.
Qed.

Lemma blen_flat pkts : blen (flat pkts) = compoundContext.sizes pkts.
Proof.
  induction pkts as [|p [|p' ps] IH]; [done|done|].
  cbn [flat compoundContext.sizes] in *. by rewrite blen_app, blen_pad8, IH.
Qed.

(** [Encode] fills the buffer with the padded responses. *)
Lemma encode_from_flat pkts done_ :
  compoundContext.encode_from (blen done_) pkts (done_ ++ zeros (compoundContext.sizes pkts))
  = Ok (done_ ++ flat pkts).
Proof.
  revert done_. induction pkts as [|p ps IH]; intros d; [done|].
  cbn [compoundContext.encode_from]. unfold eseq.
  pose proof (Align8 (blen p) (blen_nonneg p)) as [Ha _]. pose proof (blen_nonneg d).
  assert (Hs : 0 <= compoundContext.sizes (p :: ps))
    by (rewrite <- blen_flat; apply blen_nonneg).
  rewrite copy_from_ok by (rewrite ?blen_app, ?blen_zeros; lia). cbn [obind].
  destruct ps as [|p' ps].
  - cbn [compoundContext.encode_from compoundContext.sizes flat]. unfold eskip. f_equal.
    rewrite <- (app_nil_r (zeros (blen p))). pose proof (blen_nonneg p).
    rewrite splice_mid by (rewrite ?blen_zeros; lia). by rewrite app_nil_r.
  - set (rest := p' :: ps) in *.
    change (compoundContext.sizes (p :: rest)) with (Align (blen p) 8 + compoundContext.sizes rest).
    change (flat (p :: rest)) with (pad8 p ++ flat rest).
    assert (Hr : 0 <= compoundContext.sizes rest) by (rewrite <- blen_flat; apply blen_nonneg).
    pose proof (blen_nonneg p).
    rewrite zeros_app by lia.
    replace (zeros (Align (blen p) 8)) with (zeros (blen p) ++ zeros (Align (blen p) 8 - blen p))
      by (rewrite <- zeros_app by lia; f_equal; lia).
    rewrite <- app_assoc. rewrite splice_mid by (rewrite ?blen_zeros; lia).
    rewrite (app_assoc p). fold (pad8 p). rewrite (app_assoc d).
    replace (blen d + Align (blen p) 8) with (blen (d ++ pad8 p)) by (by rewrite blen_app, blen_pad8).
    rewrite IH. by rewrite <- app_assoc.
Qed.

(** The header checks on a message that stands at the head of a buffer. *)
Lemma msg_fields m tl :
  msg_ok m ->
  let p := of_bytes (m_head m ++ tl) in
  PacketHeader.NextCommand (m_hdr m) mod 8 = 0 ->
  PacketHeader.NextCommand (m_hdr m) < 64 + blen tl ->
  PacketCodec.IsInvalid p = Ok false
  /\ PacketCodec.Flags p = Ok (PacketHeader.Flags (m_hdr m))
  /\ PacketCodec.NextCommand p = Ok (PacketHeader.NextCommand (m_hdr m))
  /\ PacketCodec.MessageId p = Ok (PacketHeader.MessageId (m_hdr m))
  /\ (exists tid, PacketCodec.TreeId p = Ok tid)
  /\ PacketCodec.SessionId p = Ok (PacketHeader.SessionId (m_hdr m)).
Proof.
  intros [Hwf Hc]. cbv zeta. intros Hm Hlt. pose proof (blen_nonneg tl) as H0.
  pose proof (proj1 Hc) as Hl.
  destruct (header_fields (m_hdr m) (m_head m) tl Hwf Hc)
    as (Hs & Hmg & Hss & _ & _ & _ & _ & Hf & Hn & Hmid & Ht & Hsid & _).
  split_and!; try done; [|eexists; exact Ht].
  unfold PacketCodec.IsInvalid. rewrite Hs. cbn [obind]. rewrite Hmg. cbn [obind negb].
  rewrite Hss. cbn [obind]. rewrite Hn. cbn [obind].
  assert (Hlen : s_len (of_bytes (m_head m ++ tl)) = 64 + blen tl) by (cbn; rewrite blen_app; lia).
  rewrite Hlen. destruct (Z.ltb_spec (64 + blen tl) 4); [lia|].
  destruct (Z.ltb_spec (64 + blen tl) 64); [lia|]. cbn [Z.eqb Pos.eqb negb].
  assert (Hh : has (PacketHeader.NextCommand (m_hdr m)) 7 = false).
  { unfold has. change 7 with (Z.ones 3). rewrite Z.land_ones by lia.
    change (2 ^ 3) with 8. by rewrite Hm. }
  rewrite Hh. by destruct (Z.leb_spec (64 + blen tl) (PacketHeader.NextCommand (m_hdr m))); [lia|].
Qed.

(** The elements of a chain whose messages start at [base]. *)
Fixpoint elements (base : Z) (ctx : nat) (ms : list msg) : list element :=
  match ms with
  | [] => []
  | [m] => [mkElement base (blen (m_pkt m)) (Some ctx)]
  | m :: ms =>
      mkElement base (Align (blen (m_pkt m)) 8) (Some ctx)
      :: elements (base + Align (blen (m_pkt m)) 8) ctx ms
  end.

Definition last_id (ms : list msg) : Z :=
  match last ms with Some m => PacketHeader.MessageId (m_hdr m) | None => 0 end.

Lemma related_bit f :
  (Z.land f SMB2_FLAGS_RELATED_OPERATIONS =? SMB2_FLAGS_RELATED_OPERATIONS) = true ->
  (Z.land f SMB2_FLAGS_RELATED_OPERATIONS =? 0) = false.
Proof. intros H. apply Z.eqb_eq in H. rewrite H. done. Qed.

Lemma flat_long m ms : msg_ok m -> 64 <= blen (flat (m_pkt <$> m :: ms)).
Proof.
  intros (_ & Hl & _).
  assert (Hp : 64 <= blen (m_pkt m))
    by (unfold m_pkt; rewrite blen_app, Hl; pose proof (blen_nonneg (m_body m)); lia).
  destruct ms as [|m' ms]; [done|].
  change (flat (m_pkt <$> m :: m' :: ms)) with (pad8 (m_pkt m) ++ flat (m_pkt <$> m' :: ms)).
  rewrite blen_app, blen_pad8. pose proof (Align8 (blen (m_pkt m)) (blen_nonneg _)) as [Ha _].
  pose proof (blen_nonneg (flat (m_pkt <$> m' :: ms))). lia.
Qed.

(** Cutting the related messages of a chain, with the context at hand. *)
Lemma cut_related fuel done_ ms ctx :
  (length ms < fuel)%nat -> ms <> [] -> links ms ->
  cut_chain fuel (done_ ++ flat (m_pkt <$> ms)) (blen done_) [ctx] (Some 0%nat)
  = Some (Ok (mkChain (elements (blen done_) 0 ms) [compoundContext.set_lastMsgId (last_id ms) ctx] None)).
Proof.
  revert done_ ms. induction fuel as [|fuel IH]; intros d ms Hf Hne Hl; [lia|].
  destruct ms as [|m ms]; [done|]. cbn [cut_chain].
  pose proof (blen_nonneg d) as Hd0. pose proof (blen_nonneg (m_body m)) as Hb0.
  assert (Hfrom : forall x, from (blen d) (d ++ x) = x) by (intros x; by apply from_app_exact).
  destruct ms as [|m' ms].
  - destruct Hl as (Hok & Hn & Hr). cbn [fmap list_fmap flat].
    pose proof (proj1 (proj2 Hok)) as Hh64.
    unfold cut. rewrite Hfrom. unfold m_pkt.
    destruct (msg_fields m (m_body m) Hok) as (Hinv & Hfl & Hnx & Hmid & _ & _); [by rewrite Hn|rewrite Hn; lia|].
    rewrite Hinv. cbn [obind]. unfold PacketCodec.IsCompoundFirst, PacketCodec.IsCompoundLast, PacketCodec.related.
    rewrite Hfl. cbn [obind]. unfold is_related in Hr. rewrite (related_bit _ Hr). cbn [negb obind].
    rewrite Hr. cbn [obind negb]. rewrite Hnx. cbn [obind]. rewrite Hn. cbn [Z.eqb obind negb].
    rewrite Hmid. cbn [obind alter list_alter]. rewrite blen_app.
    replace (blen d + blen (m_head m ++ m_body m) - blen d) with (blen (m_head m ++ m_body m)) by lia.
    done.
  - destruct Hl as (Hok & Hn & Hr & Hl). pose proof (proj1 (proj2 Hok)) as Hh64.
    set (ms' := m' :: ms) in *.
    change (flat (m_pkt <$> m :: ms')) with (pad8 (m_pkt m) ++ flat (m_pkt <$> ms')).
    pose proof (Align8 (blen (m_pkt m)) (blen_nonneg _)) as [Ha Hm8].
    set (rest := flat (m_pkt <$> ms')).
    assert (Hrest : 64 <= blen rest).
    { apply flat_long. destruct ms as [|m2 ms]; by destruct Hl. }
    assert (Hp : blen (m_pkt m) = 64 + blen (m_body m)) by (unfold m_pkt; rewrite blen_app; lia).
    assert (Hbuf : pad8 (m_pkt m) ++ rest
                   = m_head m ++ (m_body m ++ zeros (Align (blen (m_pkt m)) 8 - blen (m_pkt m)) ++ rest)).
    { unfold pad8, m_pkt. by rewrite <- !app_assoc. }
    unfold cut. rewrite Hfrom, Hbuf.
    destruct (msg_fields m (m_body m ++ zeros (Align (blen (m_pkt m)) 8 - blen (m_pkt m)) ++ rest) Hok)
      as (Hinv & Hfl & Hnx & Hmid & _ & _); [by rewrite Hn|rewrite Hn, !blen_app, blen_zeros by lia; lia|].
    rewrite Hinv. cbn [obind]. unfold PacketCodec.IsCompoundFirst, PacketCodec.IsCompoundLast, PacketCodec.related.
    rewrite Hfl. cbn [obind]. unfold is_related in Hr. rewrite (related_bit _ Hr). cbn [negb obind].
    rewrite Hr. cbn [obind negb]. rewrite Hnx. cbn [obind]. rewrite Hn.
    destruct (Z.eqb_spec (Align (blen (m_pkt m)) 8) 0) as [|_]; [lia|]. cbn [obind negb].
    rewrite <- Hbuf. rewrite s_range_ok by (unfold s_cap; cbn [of_bytes s_arr]; rewrite ?blen_app, ?blen_pad8; lia).
    cbn [obind]. rewrite s_from_ok by (cbn [of_bytes s_len]; rewrite ?blen_app, ?blen_pad8; lia). cbn [obind].
    replace (blen d + Align (blen (m_pkt m)) 8) with (blen (d ++ pad8 (m_pkt m)))
      by (by rewrite blen_app, blen_pad8).
    rewrite (app_assoc d). unfold rest. rewrite IH; [|cbn in *; lia|done|done].
    cbn [c_elems c_ctxs c_err]. rewrite blen_app, blen_pad8. done.
Qed.

Lemma links_length ms : links ms -> Z.of_nat (length ms) <= blen (flat (m_pkt <$> ms)).
Proof.
  induction ms as [|m ms IH]; intros Hl; [done|]. destruct ms as [|m' ms].
  - pose proof (flat_long m [] (proj1 Hl)). cbn [length]. lia.
  - destruct Hl as (Hok & Hn & _ & Hl).
    change (flat (m_pkt <$> m :: m' :: ms)) with (pad8 (m_pkt m) ++ flat (m_pkt <$> m' :: ms)).
    rewrite blen_app, blen_pad8. specialize (IH Hl).
    pose proof (Align8 (blen (m_pkt m)) (blen_nonneg _)) as [Ha _].
    pose proof (flat_long m [] Hok) as H64. cbn [fmap list_fmap flat] in H64. cbn [length] in *. lia.
Qed.

(** Where the elements point: each window starts with its message. *)
Lemma elements_windows done_ ctx ms i m e :
  ms !! i = Some m -> elements (blen done_) ctx ms !! i = Some e ->
  e_ctx e = Some ctx
  /\ sub (e_base e) (blen (m_pkt m)) (done_ ++ flat (m_pkt <$> ms)) = m_pkt m
  /\ blen (m_pkt m) <= e_len e < blen (m_pkt m) + 8.
Proof.
  revert done_ i. induction ms as [|m0 ms IH]; intros d i Hm He; [done|].
  pose proof (blen_nonneg d) as Hd0. destruct ms as [|m1 ms].
  - destruct i as [|i]; [|done]. cbn in Hm, He. injection Hm as <-. injection He as <-.
    split; [done|]. cbn [e_base e_len fmap list_fmap flat]. split; [|lia].
    rewrite sub_app_r by lia. rewrite Z.sub_diag. by apply sub_all.
  - pose proof (Align8 (blen (m_pkt m0)) (blen_nonneg _)) as [Ha _].
    change (flat (m_pkt <$> m0 :: m1 :: ms)) with (pad8 (m_pkt m0) ++ flat (m_pkt <$> m1 :: ms)).
    destruct i as [|i].
    + cbn in Hm, He. injection Hm as <-. injection He as <-. split; [done|]. cbn [e_base e_len].
      split; [|lia]. rewrite sub_app_r by lia. rewrite Z.sub_diag.
      pose proof (blen_nonneg (m_pkt m0)). unfold pad8. rewrite <- app_assoc.
      rewrite sub_app_l by lia. by apply sub_all.
    + change ((m0 :: m1 :: ms) !! S i) with ((m1 :: ms) !! i) in Hm.
      change (elements (blen d) ctx (m0 :: m1 :: ms) !! S i)
        with (elements (blen d + Align (blen (m_pkt m0)) 8) ctx (m1 :: ms) !! i) in He.
      rewrite (app_assoc d).
      replace (blen d + Align (blen (m_pkt m0)) 8) with (blen (d ++ pad8 (m_pkt m0))) in He
        by (by rewrite blen_app, blen_pad8).
      by apply (IH _ i).
Qed.

(** C15: a compounded reply is cut back into its messages.  Take a chain as
    sendPacket builds it: the first message unrelated, the others related,
    each NextCommand the aligned size of its message, 0 in the last one.
    Encoding it into a buffer of [Size] bytes succeeds, and the receiver's
    loop cuts the buffer into exactly these messages (each followed by its
    padding), all in one context that remembers the id of the last one. *)
Theorem compound_roundtrip (ctx : compoundContext.t) (m0 : msg) (ms : list msg) :
  msg_ok m0 -> Z.land (PacketHeader.Flags (m_hdr m0)) SMB2_FLAGS_RELATED_OPERATIONS = 0 ->
  PacketHeader.NextCommand (m_hdr m0) = Align (blen (m_pkt m0)) 8 ->
  ms <> [] -> links ms -> compoundContext.rsp ctx = m_pkt <$> m0 :: ms ->
  exists buf tid,
    compoundContext.Encode ctx (zeros (compoundContext.Size ctx)) = Ok buf
    /\ cut_all buf
       = Some (Ok (mkChain (elements 0 0 (m0 :: ms))
                     [compoundContext.mk tid (PacketHeader.SessionId (m_hdr m0)) None 0 (last_id ms) []]
                     None))
    /\ (forall i m e, (m0 :: ms) !! i = Some m -> elements 0 0 (m0 :: ms) !! i = Some e ->
          sub (e_base e) (blen (m_pkt m)) buf = m_pkt m
          /\ blen (m_pkt m) <= e_len e < blen (m_pkt m) + 8).
Proof.
  intros Hok Hun Hn Hne Hl Hrsp. destruct ms as [|m1 ms]; [done|]. clear Hne.
  pose proof (proj1 (proj2 Hok)) as Hh64. pose proof (blen_nonneg (m_body m0)) as Hb0.
  pose proof (Align8 (blen (m_pkt m0)) (blen_nonneg _)) as [Ha Hm8].
  set (rest := flat (m_pkt <$> m1 :: ms)).
  assert (Hrest : 64 <= blen rest) by (apply flat_long; destruct ms; by destruct Hl).
  assert (Hp : blen (m_pkt m0) = 64 + blen (m_body m0)) by (unfold m_pkt; rewrite blen_app; lia).
  set (tl := m_body m0 ++ zeros (Align (blen (m_pkt m0)) 8 - blen (m_pkt m0)) ++ rest).
  assert (Hbuf : pad8 (m_pkt m0) ++ rest = m_head m0 ++ tl)
    by (unfold pad8, m_pkt, tl; by rewrite <- !app_assoc).
  destruct (msg_fields m0 tl Hok) as (Hinv & Hfl & Hnx & Hmid & [tid Htid] & Hsid);
    [by rewrite Hn|rewrite Hn; unfold tl; rewrite !blen_app, blen_zeros by lia; lia|].
  exists (pad8 (m_pkt m0) ++ rest), tid. split_and!.
  - unfold compoundContext.Encode, compoundContext.Size. rewrite Hrsp.
    exact (encode_from_flat (m_pkt <$> m0 :: m1 :: ms) []).
  - unfold cut_all. remember (S _) as fuel eqn:Hfuel. destruct fuel as [|fuel]; [lia|].
    cbn [cut_chain]. unfold cut at 1. change (from 0 ?x) with x. rewrite Hbuf, Hinv. cbn [obind].
    unfold PacketCodec.IsCompoundFirst, PacketCodec.IsCompoundLast, PacketCodec.related.
    rewrite Hfl. cbn [obind]. rewrite Hun.
    change (0 =? SMB2_FLAGS_RELATED_OPERATIONS) with false. change (0 =? 0) with true.
    cbn [negb obind]. rewrite Hnx. cbn [obind]. rewrite Hn.
    destruct (Z.eqb_spec (Align (blen (m_pkt m0)) 8) 0) as [|_]; [lia|]. cbn [negb].
    rewrite Htid. cbn [obind]. rewrite Hsid. cbn [obind length app].
    rewrite <- Hbuf. rewrite s_range_ok by (unfold s_cap; cbn [of_bytes s_arr]; rewrite ?blen_app, ?blen_pad8; lia).
    cbn [obind]. rewrite s_from_ok by (cbn [of_bytes s_len]; rewrite ?blen_app, ?blen_pad8; lia). cbn [obind].
    replace (0 + Align (blen (m_pkt m0)) 8) with (blen (pad8 (m_pkt m0))) by (by rewrite blen_pad8).
    unfold rest. rewrite cut_related; [|pose proof (links_length _ Hl)|done|done].
    + cbn [c_elems c_ctxs c_err]. by rewrite blen_pad8.
    + rewrite length_app in Hfuel. pose proof (blen_pad8 (m_pkt m0)). unfold rest, blen in *. lia.
  - intros i m e Hm He. change (pad8 (m_pkt m0) ++ rest) with ([] ++ flat (m_pkt <$> m0 :: m1 :: ms)).
    by apply (elements_windows [] 0 (m0 :: m1 :: ms) i m e Hm) in He as (_ & ? & ?).
Qed.

(** A header with the given links, as bytes, for the concrete check. *)
Definition toy_msg (flags next id : Z) (body : bytes) : msg :=
  let h := PacketHeader.mk 0 0 0 SMB2_ECHO 1 flags next id 0 1 7 in
  mkMsg h (match PacketHeader.encodeHeader h (zeros 64) with Ok q => q | _ => [] end) body.

Lemma toy_msg_ok flags next id body :
  in32 flags -> in32 next -> in64 id -> msg_ok (toy_msg flags next id body).
Proof.
  intros Hf Hn Hi. unfold msg_ok, toy_msg. cbn [m_hdr m_head]. split.
  - unfold PacketHeader.wf. cbn [PacketHeader.CreditCharge PacketHeader.ChannelSequence
      PacketHeader.Status PacketHeader.Command PacketHeader.CreditRequestResponse PacketHeader.Flags
      PacketHeader.NextCommand PacketHeader.MessageId PacketHeader.AsyncId PacketHeader.TreeId
      PacketHeader.SessionId]. ints. unfold SMB2_ECHO. lia.
  - destruct (encodeHeader_bytes (PacketHeader.mk 0 0 0 SMB2_ECHO 1 flags next id 0 1 7) (zeros 64))
      as (h & -> & Hh & _); [done|done|].
    change (from 64 (zeros 64)) with (@nil Z). by rewrite app_nil_r.
Qed.

Lemma compound_roundtrip_witness :
  exists buf c,
    compoundContext.Encode
      (compoundContext.mk 1 7 None 0 6 [m_pkt (toy_msg 0 72 5 [1; 2; 3]); m_pkt (toy_msg 4 0 6 [9])])
      (zeros 137) = Ok buf
    /\ cut_all buf = Some (Ok c)
    /\ c_elems c = [mkElement 0 72 (Some 0%nat); mkElement 72 65 (Some 0%nat)].
Proof.
  destruct (compound_roundtrip
    (compoundContext.mk 1 7 None 0 6 [m_pkt (toy_msg 0 72 5 [1; 2; 3]); m_pkt (toy_msg 4 0 6 [9])])
    (toy_msg 0 72 5 [1; 2; 3]) [toy_msg 4 0 6 [9]]) as (buf & tid & He & Hc & _).
  - apply toy_msg_ok; ints; lia.
  - reflexivity.
  - reflexivity.
  - discriminate.
  - split; [apply toy_msg_ok; ints; lia|]. split; reflexivity.
  - reflexivity.
  - exists buf. eexists. split; [exact He|]. split; [exact Hc|reflexivity].
Defined.

(** A related message on its own stops the server.  For every header
    that says "related" and "last" (a single message with the RELATED flag),
    the receiver dereferences the compound context that no first message
    made. *)
Theorem orphan_related_panics (m : msg) :
  msg_ok m -> PacketHeader.NextCommand (m_hdr m) = 0 -> is_related m = true ->
  cut_all (m_pkt m) = Some Panic.
Proof.
  intros Hok Hn Hr. pose proof (blen_nonneg (m_body m)).
  destruct (msg_fields m (m_body m) Hok) as (Hinv & Hfl & Hnx & Hmid & _ & _); [by rewrite Hn|lia|].
  unfold cut_all. cbn [cut_chain]. unfold cut. change (from 0 ?x) with x. unfold m_pkt. rewrite Hinv.
  cbn [obind]. unfold PacketCodec.IsCompoundFirst, PacketCodec.IsCompoundLast, PacketCodec.related.
  rewrite Hfl. cbn [obind]. unfold is_related in Hr. rewrite (related_bit _ Hr). cbn [negb obind].
  rewrite Hr. cbn [negb]. rewrite Hnx. cbn [obind]. rewrite Hn. cbn [Z.eqb obind].
  rewrite Hmid. done.
Qed.

Lemma orphan_related_panics_witness : cut_all (m_pkt (toy_msg 4 0 6 [9])) = Some Panic.
Proof.
  apply (orphan_related_panics (toy_msg 4 0 6 [9])).
  - apply toy_msg_ok; ints; lia.
  - reflexivity.
  - reflexivity.
Defined.
