(* ===== verification/Credit.v ===== *)
(** * Credits (server/credit.go)

    A credit account is a buffered channel of tokens and a counter of
    credits still to be requested. *)

From S2P Require Import Prelude.

Module account.

(** [cap] and [len] of the channel [balance], and [_opening]. *)
Record t := mk { cap : Z; len : Z; opening_ : Z }.

(** The send of the initial token blocks for ever on a channel without
    room: [None]. *)
Definition openAccount (maxCreditBalance : Z) : option t :=
  if maxCreditBalance =? 0 then None else Some (mk maxCreditBalance 1 0).

Definition initRequest (a : t) : Z := u16 (cap a - len a).

(** The case a [select] of [loan] takes: a token or the context. *)
Inductive select := Receive | Done.

Inductive loan_result :=
| Blocked                              (** no case is ready *)
| Loaned (n : Z) (full : bool) (a : t)
| Cancelled (a : t).

(** The loop of non-blocking receives, from [i] up to [creditCharge]. *)
Fixpoint loan_more (n : nat) (i creditCharge : Z) (a : t) : Z * bool * t :=
  match n with
  | O => (creditCharge, true, a)
  | S n =>
      if 0 <? len a
      then loan_more n (i + 1) creditCharge (mk (cap a) (len a - 1) (opening_ a))
      else (i, false, a)
  end.

Definition loan (creditCharge : Z) (sel : select) (ctxDone : bool) (a : t) : loan_result :=
  match sel with
  | Done => if ctxDone then Cancelled a else Blocked
  | Receive =>
      if 0 <? len a then
        let '(n, full, a) :=
          loan_more (Z.to_nat (creditCharge - 1)) 1 creditCharge
            (mk (cap a) (len a - 1) (opening_ a)) in
        Loaned n full a
      else Blocked
  end.

Definition opening (a : t) : Z * t := (opening_ a, mk (cap a) (len a) 0).

(** The loop of non-blocking sends. *)
Fixpoint refill (n : nat) (a : t) : t :=
  match n with
  | O => a
  | S n => if len a <? cap a then refill n (mk (cap a) (len a + 1) (opening_ a)) else a
  end.

Definition charge (granted requested : Z) (a : t) : t :=
  if (granted =? 0) && (requested =? 0) then a else
  let a := if granted <? requested
           then mk (cap a) (len a) (u16 (opening_ a + (requested - granted))) else a in
  refill (Z.to_nat granted) a.

End account.

Definition account_wf (a : account.t) : Prop :=
  0 <= account.len a <= account.cap a /\ in16 (account.opening_ a).

Lemma refill_len n a :
  0 <= account.len a <= account.cap a ->
  account.refill n a
  = account.mk (account.cap a) (Z.min (account.cap a) (account.len a + Z.of_nat n))
      (account.opening_ a).
Proof.
  revert a. induction n as [|n IH]; intros a Ha; cbn [account.refill].
  - destruct a. cbn in *. f_equal. lia.
  - destruct (Z.ltb_spec (account.len a) (account.cap a)) as [Hl|Hl].
    + rewrite IH by (cbn; lia). cbn. f_equal. lia.
    + destruct a. cbn in *. f_equal. lia.
Qed.

Lemma loaned_eq (n n' : Z) (b b' : bool) c l l' o :
  n = n' -> b = b' -> l = l' -> (n, b, account.mk c l o) = (n', b', account.mk c l' o).
Proof. by intros -> -> ->. Qed.

Lemma loan_more_spec n i charge a :
  0 <= account.len a -> i + Z.of_nat n = charge ->
  account.loan_more n i charge a
  = (i + Z.min (Z.of_nat n) (account.len a), Z.of_nat n <=? account.len a,
     account.mk (account.cap a) (account.len a - Z.min (Z.of_nat n) (account.len a))
       (account.opening_ a)).
Proof.
  revert i a. induction n as [|n IH]; intros i [c l o] Ha Hi; cbn [account.loan_more];
    cbn [account.len account.cap account.opening_] in *.
  - apply loaned_eq; [lia|symmetry; apply Z.leb_le; lia|lia].
  - destruct (Z.ltb_spec 0 l) as [Hl|Hl].
    + rewrite IH by (cbn [account.len]; lia). cbn [account.len account.cap account.opening_].
      apply loaned_eq; [lia|apply eq_true_iff_eq; rewrite !Z.leb_le; lia|lia].
    + apply loaned_eq; [lia|symmetry; apply Z.leb_gt; lia|lia].
Qed.

(** C35: credits are conserved.  A loan waits while the account is empty.
    Otherwise it reports as many credits as were asked for, or as many as
    there are, and is full exactly when the account held enough; what it takes
    is what it reports, but at least one: a loan of 0 credits takes one and
    reports none.  Charging adds exactly what was granted up to the capacity
    of the account, and records what was asked for and not granted, modulo
    2^16.  Both keep the balance between 0 and the capacity. *)
Theorem credits_conserved (a : account.t) (c granted requested : Z) :
  account_wf a -> in16 c -> in16 granted -> in16 requested ->
  (forall done_, account.len a = 0 -> account.loan c account.Receive done_ a = account.Blocked)
  /\ (forall done_, 0 < account.len a ->
     exists n full a', account.loan c account.Receive done_ a = account.Loaned n full a'
       /\ n = Z.min c (account.len a) /\ account.len a' = account.len a - Z.max 1 n
       /\ (full = true <-> c <= account.len a) /\ account_wf a')
  /\ account.len (account.charge granted requested a)
     = Z.min (account.cap a) (account.len a + granted)
  /\ account.opening_ (account.charge granted requested a)
     = (if granted <? requested then u16 (account.opening_ a + (requested - granted))
        else account.opening_ a)
  /\ account_wf (account.charge granted requested a).
Proof.
  intros [Hl Ho] Hc Hg Hr. split; [|split].
  - intros done_ Hz. unfold account.loan. by rewrite Hz.
  - intros done_ Hpos. unfold account.loan. rewrite (proj2 (Z.ltb_lt 0 (account.len a))) by lia.
    ints. destruct (Z.eq_dec c 0) as [->|Hne].
    + cbn. do 3 eexists. split; [done|]. unfold account_wf. cbn [account.len account.cap account.opening_].
      ints. split_and!; try lia; done.
    + rewrite loan_more_spec by (cbn; lia). cbn [account.len account.cap account.opening_].
      do 3 eexists. split; [done|]. unfold account_wf. cbn [account.len account.cap account.opening_]. ints.
      rewrite Z.leb_le. split_and!; try lia; try done.
  - unfold account.charge. ints. destruct ((granted =? 0) && (requested =? 0)) eqn:E.
    + destruct (Z.ltb_spec granted requested); [lia|].
      split_and!; try done; lia.
    + destruct (Z.ltb_spec granted requested); rewrite refill_len by (cbn; lia); unfold account_wf;
        cbn [account.len account.cap account.opening_]; ints;
        rewrite Z2Nat.id by lia; split_and!; try lia; try done;
        apply Z.mod_pos_bound; lia.
Qed.

Lemma credits_conserved_witness :
  exists n full a', account.loan 5 account.Receive false (account.mk 8 3 0) = account.Loaned n full a'
    /\ n = 3 /\ account.len (account.charge 2 4 (account.mk 8 7 0)) = 8.
Proof.
  destruct (credits_conserved (account.mk 8 3 0) 5 2 4) as (_ & Hloan & _).
  - split; [simpl; lia|ints; simpl; lia].
  - ints. lia.
  - ints. lia.
  - ints. lia.
  - destruct (Hloan false) as (n & full & a' & He & Hn & _); [simpl; lia|].
    exists n, full, a'. split; [exact He|]. split; [exact Hn|reflexivity].
Defined.
