(* ===== verification/Transport.v ===== *)
(** * Direct TCP transport (server/transport.go)

    A packet travels behind four bytes: a zero and its 24-bit length in
    network order.  The TCP stream is a byte string; failures of the network
    other than its end are not modelled. *)

From S2P Require Import Prelude.

Definition maxDirectTCPSize : Z := 0xffffff.

(** The bytes written for a packet. *)
Definition direct_Write (p : bytes) : outcome bytes :=
  if maxDirectTCPSize <? blen p then Err (ErrOther "max transport size exceeds")
  else Ok (be_enc 4 (u32 (blen p)) ++ p).

(** [io.ReadFull] of [n] bytes: what was read and the rest of the stream. *)
Definition ReadFull (n : Z) (stream : bytes) : outcome (bytes * bytes) :=
  if blen stream <? n then Err (ErrOther "EOF") else Ok (upto n stream, from n stream).

Definition direct_ReadSize (stream : bytes) : outcome (Z * bytes) :=
  let! r := ReadFull 4 stream in
  let '(bs, stream) := r in
  let! b0 := s_idx (of_bytes bs) 0 in
  if negb (b0 =? 0) then Err (ErrOther "invalid transport format") else
  let size := be_dec bs in
  if size =? 0 then Err (ErrOther "invalid zero-length transport packet")
  else Ok (size, stream).

Definition direct_Read (n : Z) (stream : bytes) : outcome (bytes * bytes) := ReadFull n stream.

(** One packet off the stream, as runReciever reads it. *)
Definition read_packet (stream : bytes) : outcome (bytes * bytes) :=
  match direct_ReadSize stream with
  | Panic => Panic
  | Err e => Err (TransportError "read size")
  | Ok (n, stream) =>
      if n <=? 0 then Err (TransportError "invalid zero-length transport packet") else
      match direct_Read n stream with
      | Panic => Panic
      | Err e => Err (TransportError "read")
      | Ok r => Ok r
      end
  end.

Lemma be_enc4_head n : 0 <= n < 2 ^ 24 -> exists a b c, be_enc 4 n = [0; a; b; c].
Proof.
  intros Hn. unfold be_enc. cbn [le_enc rev app]. do 3 eexists. f_equal.
  rewrite !Z.div_div by lia. rewrite Z.div_small by lia. done.
Qed.

(** Packets keep their boundaries.  Whatever packet of 1 to 2^24-1 bytes
    is written, the reader of the stream gets exactly that packet and is left
    at the first byte after it; longer packets are refused by the writer, so
    no length is ever truncated. *)
Theorem transport_framing (p rest : bytes) :
  0 < blen p ->
  (blen p <= maxDirectTCPSize ->
     exists w, direct_Write p = Ok w /\ read_packet (w ++ rest) = Ok (p, rest))
  /\ (maxDirectTCPSize < blen p -> exists e, direct_Write p = Err e).
Proof.
  intros Hpos. unfold direct_Write, maxDirectTCPSize. split; intros Hl.
  - destruct (Z.ltb_spec 0xffffff (blen p)); [lia|]. rewrite u32_id by (ints; lia).
    eexists. split; [done|]. unfold read_packet, direct_ReadSize, ReadFull.
    rewrite <- app_assoc. rewrite !blen_app, blen_be_enc. pose proof (blen_nonneg rest).
    destruct (Z.ltb_spec (Z.of_nat 4 + (blen p + blen rest)) 4); [lia|].
    rewrite upto_app_exact, from_app_exact by (by rewrite blen_be_enc). cbn [obind].
    destruct (be_enc4_head (blen p)) as (a & b & c & E); [lia|].
    assert (Hd : be_dec (be_enc 4 (blen p)) = blen p).
    { rewrite be_dec_enc. apply Z.mod_small. change (256 ^ Z.of_nat 4) with 4294967296. lia. }
    rewrite Hd, E. rewrite s_idx_ok by (vm_compute; congruence). cbn [obind].
    cbn [of_bytes s_arr]. change (nth (Z.to_nat 0) [0; a; b; c] 0) with 0. cbn [Z.eqb negb].
    destruct (Z.eqb_spec (blen p) 0); [lia|]. destruct (Z.leb_spec (blen p) 0); [lia|].
    unfold direct_Read, ReadFull. rewrite blen_app.
    destruct (Z.ltb_spec (blen p + blen rest) (blen p)); [lia|].
    by rewrite upto_app_exact, from_app_exact.
  - destruct (Z.ltb_spec 0xffffff (blen p)); [|lia]. by eexists.
Qed.

Lemma transport_framing_witness :
  exists w, direct_Write [1; 2; 3] = Ok w /\ read_packet (w ++ [9]) = Ok ([1; 2; 3], [9]).
Proof. apply (transport_framing [1; 2; 3] [9]); vm_compute; [reflexivity|discriminate]. Defined.
