(* ===== verification/SpnegoToken.v ===== *)
(** * Negotiation tokens (internal/spnego/spnego.go)

    The tokens of SPNEGO as records, their DER encodings as encoding/asn1
    writes them, and the six Encode and three Decode functions.  The BER
    reader is a third-party package: the class [Ber].

    A Go slice that may be nil is an [option]: encoding/asn1 leaves out an
    optional field that is nil and writes one that is empty. *)

From S2P Require Import Prelude.

Definition oid := list Z.

Definition SpnegoOid : oid := [1; 3; 6; 1; 5; 5; 2].
Definition MsKerberosOid : oid := [1; 2; 840; 48018; 1; 2; 2].
Definition KerberosOid : oid := [1; 2; 840; 113554; 1; 2; 2].
Definition NlmpOid : oid := [1; 3; 6; 1; 4; 1; 311; 2; 2; 10].

(** ** encoding/asn1: [Marshal] on the types of this package *)

Module asn1.

Record BitString := mkBits { Bits : option bytes; BitLength : Z }.
Record RawValue := mkRaw { Class : Z; Tag : Z; IsCompound : bool; Bytes : option bytes; FullBytes : option bytes }.

(** What a field tag such as [explicit,optional,tag:0] says. *)
Record params := mkParams { explicit : bool; optional : bool; tag : option Z }.
Definition no_params := mkParams false false None.

(** A Go value seen through reflection: one constructor for each kind of
    type that the tokens have. *)
#[warnings="-register-all"]
Inductive value :=
| VEnum (n : Z)
| VOid (o : option oid)
| VBytes (b : option bytes)
| VBits (b : BitString)
| VRaw (r : RawValue)
| VSlice (vs : option (list value))
| VStruct (fs : list (params * value)).

Definition is_nil {A} (o : option A) : bool := match o with None => true | Some _ => false end.

(** [reflect.DeepEqual] with the zero value of the type. *)
Fixpoint is_zero (v : value) : bool :=
  match v with
  | VEnum n => n =? 0
  | VOid o => is_nil o
  | VBytes b => is_nil b
  | VBits b => is_nil (Bits b) && (BitLength b =? 0)
  | VRaw r => (Class r =? 0) && (Tag r =? 0) && negb (IsCompound r) && is_nil (Bytes r) && is_nil (FullBytes r)
  | VSlice vs => is_nil vs
  | VStruct fs => forallb (fun f => is_zero (snd f)) fs
  end.

(** The number of bytes, and the bytes, of a length in the long form. *)
Definition lengthLength (n : Z) : Z := Z.log2 n / 8 + 1.
Definition appendLength (n : Z) : bytes := be_enc (Z.to_nat (lengthLength n)) n.

(** [appendTagAndLength] for tags below 31. *)
Definition tagAndLength (class tg : Z) (compound : bool) (n : Z) : bytes :=
  u8 (Z.lor (Z.lor (Z.shiftl class 6) (if compound then 0x20 else 0)) tg)
  :: (if 128 <=? n then u8 (Z.lor 0x80 (lengthLength n)) :: appendLength n else [u8 n]).

(** [appendBase128Int]: seven bits in a byte, the most significant first. *)
Definition base128 (n : Z) : bytes :=
  let l := if n <=? 0 then (if n =? 0 then 1 else 0) else Z.log2 n / 7 + 1 in
  map (fun i => Z.lor (Z.land (Z.shiftr n (7 * Z.of_nat i)) 0x7f) (if (i =? 0)%nat then 0 else 0x80))
    (rev (seq 0 (Z.to_nat l))).

Definition objectIdentifier (o : oid) : outcome bytes :=
  match o with
  | a :: b :: tl =>
      if (2 <? a) || ((a <? 2) && (40 <=? b)) then Err (ErrOther "asn1: structure error: invalid object identifier")
      else Ok (base128 (a * 40 + b) ++ concat (map base128 tl))
  | _ => Err (ErrOther "asn1: structure error: invalid object identifier")
  end.

(** The shortest two's complement form, of a number of 0 to 127 in one byte. *)
Fixpoint int64_bytes (fuel : nat) (n : Z) : bytes :=
  match fuel with
  | O => []
  | S fuel => (if (127 <? n) || (n <? -128) then int64_bytes fuel (Z.shiftr n 8) else []) ++ [u8 n]
  end.

(** The tag of the type and whether it is constructed. *)
Definition universal (v : value) : Z * bool :=
  match v with
  | VEnum _ => (10, false)
  | VOid _ => (6, false)
  | VBytes _ => (4, false)
  | VBits _ => (3, false)
  | VRaw _ => (0, false)
  | VSlice _ | VStruct _ => (16, true)
  end.

(** The bytes in front of a body, and the body. *)
Definition tagged (p : params) (univ : Z * bool) (body : bytes) : bytes :=
  match tag p with
  | None => tagAndLength 0 (fst univ) (snd univ) (blen body) ++ body
  | Some t =>
      if explicit p then
        let inner := tagAndLength 0 (fst univ) (snd univ) (blen body) ++ body in
        tagAndLength 2 t true (blen inner) ++ inner
      else tagAndLength 2 t (snd univ) (blen body) ++ body
  end.

Fixpoint makeField (v : value) (p : params) : outcome bytes :=
  if optional p && is_zero v then Ok [] else
  match v with
  | VEnum n => Ok (tagged p (universal v) (int64_bytes 8 n))
  | VOid o => let! body := objectIdentifier (default [] o) in Ok (tagged p (universal v) body)
  | VBytes b => Ok (tagged p (universal v) (default [] b))
  | VBits b =>
      Ok (tagged p (universal v) (u8 ((8 - Z.rem (BitLength b) 8) mod 8) :: default [] (Bits b)))
  | VRaw r =>
      match default [] (FullBytes r) with
      | [] => Ok (tagAndLength (Class r) (Tag r) (IsCompound r) (blen (default [] (Bytes r))) ++ default [] (Bytes r))
      | full => Ok full
      end
  | VSlice vs =>
      let! body :=
        match vs with
        | None => Ok []
        | Some l => foldr (fun v acc => let! x := makeField v no_params in let! tl := acc in Ok (x ++ tl)) (Ok []) l
        end in
      Ok (tagged p (universal v) body)
  | VStruct fs =>
      let! body := foldr (fun f acc => let! x := makeField (snd f) (fst f) in let! tl := acc in Ok (x ++ tl))
                     (Ok []) fs in
      Ok (tagged p (universal v) body)
  end.

Definition MarshalWithParams (v : value) (p : params) : outcome bytes := makeField v p.
Definition Marshal (v : value) : outcome bytes := makeField v no_params.

End asn1.

Import asn1.

(** ** The tokens *)

Definition opt (n : Z) : params := mkParams true true (Some n).
(** [explict], as the tags of the initial tokens spell it, is no word of
    the package and is ignored: the field is tagged implicitly. *)
Definition opt_explict (n : Z) : params := mkParams false true (Some n).
Definition optional_only : params := mkParams false true None.

Definition no_bits : BitString := mkBits None 0.

Module NegTokenInit.
Record t := mk {
  MechTypes : option (list oid); ReqFlags : BitString; MechToken : option bytes; MechListMIC : option bytes }.
Definition reflect (x : t) : value :=
  VStruct [(opt 0, VSlice (fmap (map (fun o => VOid (Some o))) (MechTypes x)));
           (opt 1, VBits (ReqFlags x));
           (opt 2, VBytes (MechToken x));
           (opt 3, VBytes (MechListMIC x))].
End NegTokenInit.

Definition negHints : RawValue :=
  mkRaw 0 0 false None (Some
    [0xa3; 0x2a; 0x30; 0x28; 0xa0; 0x26; 0x1b; 0x24; 0x6e; 0x6f; 0x74; 0x5f; 0x64; 0x65; 0x66; 0x69; 0x6e; 0x65; 0x64; 0x5f;
     0x69; 0x6e; 0x5f; 0x52; 0x46; 0x43; 0x34; 0x31; 0x37; 0x38; 0x40; 0x70; 0x6c; 0x65; 0x61; 0x73;
     0x65; 0x5f; 0x69; 0x67; 0x6e; 0x6f; 0x72; 0x65]).

Module NegTokenInit2.
Record t := mk {
  MechTypes : option (list oid); ReqFlags : BitString; MechToken : option bytes;
  NegHints : RawValue; MechListMIC : option bytes }.
Definition reflect (x : t) : value :=
  VStruct [(opt 0, VSlice (fmap (map (fun o => VOid (Some o))) (MechTypes x)));
           (opt 1, VBits (ReqFlags x));
           (opt 2, VBytes (MechToken x));
           (opt 3, VRaw (NegHints x));
           (opt 4, VBytes (MechListMIC x))].
End NegTokenInit2.

Module NegTokenResp.
Record t := mk {
  NegState : Z; SupportedMech : option oid; ResponseToken : option bytes; MechListMIC : option bytes }.
Definition reflect (x : t) : value :=
  VStruct [(opt 0, VEnum (NegState x));
           (opt 1, VOid (SupportedMech x));
           (opt 2, VBytes (ResponseToken x));
           (opt 3, VBytes (MechListMIC x))].
End NegTokenResp.

Module NegTokenRespAccepted.
Record t := mk { NegState : Z }.
Definition reflect (x : t) : value := VStruct [(mkParams true false (Some 0), VEnum (NegState x))].
End NegTokenRespAccepted.

Module initialContextToken.
Record t := mk {
  ThisMech : option oid; Init : option (list NegTokenInit.t); Resp : option (list NegTokenResp.t) }.
Definition reflect (x : t) : value :=
  VStruct [(optional_only, VOid (ThisMech x));
           (opt_explict 0, VSlice (fmap (map NegTokenInit.reflect) (Init x)));
           (opt_explict 1, VSlice (fmap (map NegTokenResp.reflect) (Resp x)))].
End initialContextToken.

Module initialContextToken2.
Record t := mk {
  ThisMech : option oid; Init2 : option (list NegTokenInit2.t); Resp : option (list NegTokenResp.t) }.
Definition reflect (x : t) : value :=
  VStruct [(optional_only, VOid (ThisMech x));
           (opt_explict 0, VSlice (fmap (map NegTokenInit2.reflect) (Init2 x)));
           (opt_explict 1, VSlice (fmap (map NegTokenResp.reflect) (Resp x)))].
End initialContextToken2.

Module initialContextToken3.
Record t := mk {
  ThisMech : option oid; Init : option (list NegTokenInit.t); Resp : option (list NegTokenRespAccepted.t) }.
Definition reflect (x : t) : value :=
  VStruct [(optional_only, VOid (ThisMech x));
           (opt_explict 0, VSlice (fmap (map NegTokenInit.reflect) (Init x)));
           (opt_explict 1, VSlice (fmap (map NegTokenRespAccepted.reflect) (Resp x)))].
End initialContextToken3.

(** ** Encoding *)

(** [bs[0] = 0x60]: [APPLICATION 0] in place of SEQUENCE. *)
Definition set_application (bs : bytes) : outcome bytes :=
  match bs with [] => Panic | _ :: tl => Ok (0x60 :: tl) end.

(** The bytes behind the tag and the length of the outermost value. *)
Definition skip_header (bs : bytes) : outcome bytes :=
  match bs !! 1%nat with
  | None => Panic
  | Some b =>
      let skip := if b <? 128 then 2 else 1 + (b - 128 + 1) in
      if skip <=? blen bs then Ok (from skip bs) else Panic
  end.

Definition EncodeNegTokenInit2 (types : option (list oid)) : outcome bytes :=
  let! bs := Marshal (initialContextToken2.reflect (initialContextToken2.mk (Some SpnegoOid)
    (Some [NegTokenInit2.mk types no_bits None negHints None]) None)) in
  set_application bs.

Definition EncodeNegTokenInit (types : option (list oid)) (token : option bytes) : outcome bytes :=
  let! bs := Marshal (initialContextToken.reflect (initialContextToken.mk (Some SpnegoOid)
    (Some [NegTokenInit.mk types no_bits token None]) None)) in
  set_application bs.

Definition EncodeNegTokenResp (state : Z) (typ : option oid) (token mechListMIC : option bytes) : outcome bytes :=
  let! bs := Marshal (initialContextToken.reflect (initialContextToken.mk None None
    (Some [NegTokenResp.mk state typ token mechListMIC]))) in
  skip_header bs.

Definition EncodeNegTokenAccepted : outcome bytes :=
  let! bs := Marshal (initialContextToken3.reflect (initialContextToken3.mk None None
    (Some [NegTokenRespAccepted.mk 0]))) in
  skip_header bs.

Definition EncodeNegTokenRejected : outcome bytes :=
  let! bs := Marshal (initialContextToken3.reflect (initialContextToken3.mk None None
    (Some [NegTokenRespAccepted.mk 2]))) in
  skip_header bs.

(** ** Decoding *)

(** [ber.UnmarshalWithParams] at the types and parameters it is called with. *)
Class Ber := mkBer {
  Unmarshal_initialContextToken : bytes -> outcome initialContextToken.t;
  Unmarshal_initialContextToken2 : bytes -> outcome initialContextToken2.t;
  Unmarshal_NegTokenResp : bytes -> outcome NegTokenResp.t
}.

(** [&l[0]] *)
Definition first {A} (l : option (list A)) : outcome A :=
  match l with Some (x :: _) => Ok x | _ => Panic end.

Section decode.
Context `{Ber}.

Definition DecodeNegTokenInit2 (bs : bytes) : outcome NegTokenInit2.t :=
  let! init := Unmarshal_initialContextToken2 bs in first (initialContextToken2.Init2 init).

Definition DecodeNegTokenInit (bs : bytes) : outcome NegTokenInit.t :=
  let! init := Unmarshal_initialContextToken bs in first (initialContextToken.Init init).

Definition DecodeNegTokenResp (bs : bytes) : outcome NegTokenResp.t := Unmarshal_NegTokenResp bs.

End decode.

(** ** The vectors of spnego_test.go *)

Example encode_init_vector :
  EncodeNegTokenInit (Some [NlmpOid]) (Some
    [0x4e; 0x54; 0x4c; 0x4d; 0x53; 0x53; 0x50; 0x00; 0x01; 0x00; 0x00; 0x00; 0x97; 0x82; 0x08; 0xe2; 0; 0; 0; 0; 0; 0; 0; 0;
     0; 0; 0; 0; 0; 0; 0; 0; 0x0a; 0x00; 0x5a; 0x29; 0x00; 0x00; 0x00; 0x0f])
  = Ok [0x60; 0x48; 0x06; 0x06; 0x2b; 0x06; 0x01; 0x05; 0x05; 0x02; 0xa0; 0x3e; 0x30; 0x3c; 0xa0; 0x0e; 0x30; 0x0c;
        0x06; 0x0a; 0x2b; 0x06; 0x01; 0x04; 0x01; 0x82; 0x37; 0x02; 0x02; 0x0a; 0xa2; 0x2a; 0x04; 0x28;
        0x4e; 0x54; 0x4c; 0x4d; 0x53; 0x53; 0x50; 0x00; 0x01; 0x00; 0x00; 0x00; 0x97; 0x82; 0x08; 0xe2; 0; 0; 0; 0; 0; 0; 0; 0;
        0; 0; 0; 0; 0; 0; 0; 0; 0x0a; 0x00; 0x5a; 0x29; 0x00; 0x00; 0x00; 0x0f].
Proof. vm_compute. reflexivity. Qed.

Example encode_accepted_vector : EncodeNegTokenAccepted = Ok [0xa1; 0x07; 0x30; 0x05; 0xa0; 0x03; 0x0a; 0x01; 0x00].
Proof. vm_compute. reflexivity. Qed.

(** ** What the encoders write *)

Lemma tagged_head class tg c n :
  0 <= n < 2 ^ 63 ->
  exists b tl, tagAndLength class tg c n = b :: tl
    /\ (if n <? 128 then tl = [n]
        else exists l, 1 <= l <= 8 /\ tl = (128 + l) :: appendLength n /\ blen (appendLength n) = l).
Proof.
  intros Hn. eexists _, _. split; [reflexivity|].
  destruct (n <? 128) eqn:E.
  - rewrite (proj2 (Z.leb_gt 128 n)) by lia. unfold u8. rewrite Z.mod_small by lia. done.
  - rewrite (proj2 (Z.leb_le 128 n)) by lia.
    assert (Hl : 0 <= Z.log2 n < 63).
    { split; [apply Z.log2_nonneg|]. apply Z.log2_lt_pow2; lia. }
    assert (1 <= lengthLength n <= 8) as Hll.
    { unfold lengthLength. pose proof (Z.div_le_mono (Z.log2 n) 62 8). pose proof (Z.div_pos (Z.log2 n) 8).
      change (62 / 8) with 7 in *. lia. }
    exists (lengthLength n). split; [exact Hll|]. split.
    + f_equal. unfold u8. assert (Hc : lengthLength n = 1 \/ lengthLength n = 2 \/ lengthLength n = 3 \/ lengthLength n = 4
        \/ lengthLength n = 5 \/ lengthLength n = 6 \/ lengthLength n = 7 \/ lengthLength n = 8) by lia.
      by repeat (destruct Hc as [->|Hc]; [reflexivity|]); rewrite Hc.
    + unfold appendLength. rewrite blen_be_enc. lia.
Qed.

(** Skipping the header that [Marshal] wrote gives the body. *)
Lemma skip_header_tagged class tg c body :
  blen body < 2 ^ 63 -> skip_header (tagAndLength class tg c (blen body) ++ body) = Ok body.
Proof.
  intros Hb. pose proof (blen_nonneg body) as Hp.
  destruct (tagged_head class tg c (blen body)) as (b & tl & -> & H); [lia|].
  destruct (blen body <? 128) eqn:E.
  - subst tl. unfold skip_header. cbn -[blen from Z.leb Z.ltb]. rewrite E.
    rewrite (proj2 (Z.leb_le _ _)) by (unfold blen; cbn [length]; lia). reflexivity.
  - destruct H as (l & Hl & -> & Hal). unfold skip_header. cbn -[blen from Z.leb Z.ltb].
    rewrite (proj2 (Z.ltb_ge _ _)) by lia.
    assert (Hlen : length (appendLength (blen body)) = Z.to_nat l) by (unfold blen in *; lia).
    rewrite (proj2 (Z.leb_le _ _)).
    2: { rewrite !blen_cons, blen_app, Hal. lia. }
    f_equal. unfold from. replace (Z.to_nat (1 + (128 + l - 128 + 1))) with (S (S (Z.to_nat l))) by lia.
    cbn [drop]. rewrite <- Hlen. apply drop_app_length.
Qed.

(** The fields of a structure one behind the other. *)
Definition fields (fs : list (params * value)) : outcome bytes :=
  foldr (fun f acc => let! x := makeField (snd f) (fst f) in let! tl := acc in Ok (x ++ tl)) (Ok []) fs.

Lemma makeField_struct fs p :
  optional p = false -> makeField (VStruct fs) p = (let! body := fields fs in Ok (tagged p (16, true) body)).
Proof. intros Hp. cbn [makeField]. by rewrite Hp. Qed.

(** A structure alone in a list with an implicit tag is the structure with
    an explicit tag: the initial token around it has nothing else. *)
Lemma marshal_single fs n :
  Marshal (VStruct [(optional_only, VOid None); (opt_explict 0, VSlice None); (opt_explict n, VSlice (Some [VStruct fs]))])
  = (let! x := MarshalWithParams (VStruct fs) (mkParams true false (Some n)) in
     Ok (tagAndLength 0 16 true (blen x) ++ x)).
Proof.
  unfold Marshal, MarshalWithParams. rewrite !makeField_struct by done.
  unfold fields at 1. cbn [foldr fst snd].
  assert (Hs : makeField (VSlice (Some [VStruct fs])) (opt_explict n)
    = (let! x := makeField (VStruct fs) no_params in Ok (tagged (opt_explict n) (16, true) (x ++ [])))).
  { cbn [makeField optional opt_explict is_zero is_nil andb foldr universal]. 
    destruct (let! body := _ in Ok (tagged no_params _ body)); reflexivity. }
  rewrite Hs, makeField_struct by done. destruct (fields fs) as [b|e|]; [|done..].
  cbn -[tagAndLength tagged blen]. rewrite !app_nil_r. reflexivity.
Qed.

Lemma encode_single fs n :
  (forall bs, MarshalWithParams (VStruct fs) (mkParams true false (Some n)) = Ok bs -> blen bs < 2 ^ 63) ->
  (let! bs := Marshal (VStruct [(optional_only, VOid None); (opt_explict 0, VSlice None);
                                (opt_explict n, VSlice (Some [VStruct fs]))]) in skip_header bs)
  = MarshalWithParams (VStruct fs) (mkParams true false (Some n)).
Proof.
  intros Hb. rewrite marshal_single. destruct (MarshalWithParams _ _) as [x|e|] eqn:E; [|done..].
  cbn [obind]. apply skip_header_tagged, Hb. done.
Qed.

Lemma fields_resp r :
  (exists bs, fields [(opt 0, VEnum (NegTokenResp.NegState r)); (opt 1, VOid (NegTokenResp.SupportedMech r));
           (opt 2, VBytes (NegTokenResp.ResponseToken r)); (opt 3, VBytes (NegTokenResp.MechListMIC r))] = Ok bs
     /\ forall o, NegTokenResp.SupportedMech r = Some o -> is_ok (objectIdentifier o) = true)
  \/ exists e o, fields [(opt 0, VEnum (NegTokenResp.NegState r)); (opt 1, VOid (NegTokenResp.SupportedMech r));
           (opt 2, VBytes (NegTokenResp.ResponseToken r)); (opt 3, VBytes (NegTokenResp.MechListMIC r))] = Err e
     /\ NegTokenResp.SupportedMech r = Some o /\ is_ok (objectIdentifier o) = false.
Proof.
  destruct r as [st typ tok mic]. cbn -[makeField objectIdentifier].
  assert (He : forall n p, exists b, makeField (VEnum n) p = Ok b).
  { intros n p. cbn [makeField]. destruct (optional p && _); eauto. }
  assert (Ho : forall b p, exists x, makeField (VBytes b) p = Ok x).
  { intros b p. cbn [makeField]. destruct (optional p && _); eauto. }
  destruct (He st (opt 0)) as [b0 ->], (Ho tok (opt 2)) as [b2 ->], (Ho mic (opt 3)) as [b3 ->].
  cbn [obind]. cbn [makeField opt optional is_zero andb].
  destruct typ as [o|]; cbn [is_nil default]; unfold id.
  - assert (Hn : no_panic (objectIdentifier o) = true) by (by destruct o as [|a [|? ?]]; cbn; repeat case_match).
    destruct (objectIdentifier o) as [b1|e|] eqn:E; [| |done]; cbn [obind].
    + left. eexists. split; [reflexivity|]. intros ? [= <-]. by rewrite E.
    + right. exists e, o. by rewrite E.
  - left. eexists. split; [reflexivity|]. done.
Qed.

(** C28: For every state, mechanism, token and MIC, EncodeNegTokenResp writes
    the DER of the negTokenResp with the explicit context tag 1 that the
    decoder asks for, although the field of the outer structure has a
    misspelt tag and the outer header is skipped byte by byte; it fails
    exactly when the mechanism is no object identifier, and never panics. *)
Theorem neg_token_resp_is_der (state : Z) (typ : option oid) (token mechListMIC : option bytes) :
  (forall bs, MarshalWithParams (NegTokenResp.reflect (NegTokenResp.mk state typ token mechListMIC))
                (mkParams true false (Some 1)) = Ok bs -> blen bs < 2 ^ 63) ->
  EncodeNegTokenResp state typ token mechListMIC
  = MarshalWithParams (NegTokenResp.reflect (NegTokenResp.mk state typ token mechListMIC))
      (mkParams true false (Some 1))
  /\ no_panic (EncodeNegTokenResp state typ token mechListMIC) = true
  /\ (is_ok (EncodeNegTokenResp state typ token mechListMIC) = false <->
      exists o, typ = Some o /\ is_ok (objectIdentifier o) = false).
Proof.
  intros Hb. change (EncodeNegTokenResp state typ token mechListMIC) with
    (let! bs := Marshal (VStruct [(optional_only, VOid None); (opt_explict 0, VSlice None);
        (opt_explict 1, VSlice (Some [NegTokenResp.reflect (NegTokenResp.mk state typ token mechListMIC)]))]) in
     skip_header bs).
  unfold NegTokenResp.reflect in *. rewrite encode_single by exact Hb. split; [done|].
  unfold MarshalWithParams. rewrite makeField_struct by done.
  destruct (fields_resp (NegTokenResp.mk state typ token mechListMIC)) as [(bs & -> & Ho)|(e & o & -> & Ho & Hf)];
    cbn [obind is_ok no_panic NegTokenResp.SupportedMech] in *; (split; [done|]).
  - split; [done|]. intros (o & E & Hf). rewrite (Ho o E) in Hf. done.
  - split; [eauto|done].
Qed.

Lemma neg_token_resp_is_der_witness :
  is_ok (EncodeNegTokenResp 1 (Some NlmpOid) (Some (repeat 7 300)) None) = true
  /\ is_ok (EncodeNegTokenResp 1 (Some [1]) None None) = false.
Proof.
  split.
  - destruct (neg_token_resp_is_der 1 (Some NlmpOid) (Some (repeat 7 300)) None) as (-> & _ & _);
      [|vm_compute; reflexivity].
    intros bs H. vm_compute in H. injection H as <-. vm_compute. reflexivity.
  - apply (neg_token_resp_is_der 1 (Some [1]) None None); [intros bs H; vm_compute in H; discriminate|].
    exists [1]. split; reflexivity.
Defined.
