(* ===== verification/Spnego.v ===== *)
(** * The SPNEGO acceptor (server/spnego.go)

    Choice of a mechanism and forwarding of its tokens.  The mechanisms are
    the [Authenticator] interface of authenticator.go; the tokens are
    those of SpnegoToken.v, whose BER reader is a parameter. *)

From S2P Require Import Prelude Utf16 SpnegoToken.

(** An authenticator object: its methods and its state, which they change. *)
Record Authenticator := mkAuth {
  au_St : Type;
  au_oid : oid;
  au_challenge : bytes -> au_St -> outcome bytes * au_St;
  au_authenticate : bytes -> au_St -> outcome gostring * au_St;
  au_sum : bytes -> au_St -> outcome bytes * au_St;
  au_sessionKey : au_St -> outcome bytes;
  au_state : au_St
}.

Definition au_set (a : Authenticator) (s : au_St a) : Authenticator :=
  mkAuth (au_St a) (au_oid a) (au_challenge a) (au_authenticate a) (au_sum a) (au_sessionKey a) s.

(** "NTLMSSP" *)
Definition ntlmssp : bytes := [0x4e; 0x54; 0x4c; 0x4d; 0x53; 0x53; 0x50].

Definition HasPrefix (s p : bytes) : bool := bool_decide (take (length p) s = p).

Module spnegoServer.

(** The mechanisms are references to authenticators that the caller keeps:
    [heap] below.  [None] is the nil mechanism. *)
Record t := mk { mechs : list nat; mechTypes : list oid; selectedMech : option nat }.

Definition select (m : option nat) (c : t) : t := mk (mechs c) (mechTypes c) m.

Section ops.
Context `{Ber}.

Definition newSpnegoServer (heap : list Authenticator) (ms : list nat) : outcome t :=
  let! tys := foldr (fun m acc =>
    let! tl := acc in
    match heap !! m with Some a => Ok (au_oid a :: tl) | None => Panic end) (Ok []) ms in
  Ok (mk ms tys None).

Definition initSecContext (c : t) : outcome bytes := EncodeNegTokenInit (Some (mechTypes c)) None.

(** The last mechanism whose type satisfies [p], when the loop does not
    stop; [first_mech] when it does. *)
Fixpoint first_mech (p : oid -> bool) (tys : list oid) (ms : list nat) : option nat :=
  match tys, ms with
  | t :: tys, m :: ms => if p t then Some m else first_mech p tys ms
  | _, _ => None
  end.
Fixpoint last_mech (p : oid -> bool) (tys : list oid) (ms : list nat) : option nat :=
  match tys, ms with
  | t :: tys, m :: ms =>
      match last_mech p tys ms with
      | Some m' => Some m'
      | None => if p t then Some m else None
      end
  | _, _ => None
  end.

(** [c.selectedMech] is overwritten only when a mechanism is found. *)
Definition selected (found : option nat) (c : t) : t :=
  match found with Some m => select (Some m) c | None => c end.

(** A call of a method of the selected mechanism; nil panics. *)
Definition call {A} (f : forall a : Authenticator, au_St a -> outcome A * au_St a)
    (c : t) (heap : list Authenticator) : outcome A * list Authenticator :=
  match selectedMech c with
  | None => (Panic, heap)
  | Some m =>
      match heap !! m with
      | None => (Panic, heap)
      | Some a => let '(r, s) := f a (au_state a) in (r, <[m := au_set a s]> heap)
      end
  end.

Definition mech_oid (c : t) (heap : list Authenticator) : outcome oid :=
  match selectedMech c with
  | None => Panic
  | Some m => match heap !! m with Some a => Ok (au_oid a) | None => Panic end
  end.

Definition challenge (tok : bytes) (c : t) (heap : list Authenticator)
  : outcome bytes * t * list Authenticator :=
  if HasPrefix tok ntlmssp then
    let c := selected (first_mech (fun ty => bool_decide (ty = NlmpOid)) (mechTypes c) (mechs c)) c in
    match selectedMech c with
    | None => (Err (ErrOther "failed to find ntlmspp authenticator"), c, heap)
    | Some _ => let '(r, heap) := call (fun a => au_challenge a tok) c heap in (r, c, heap)
    end
  else
    match DecodeNegTokenInit tok with
    | Panic => (Panic, c, heap)
    | Err e => (Err e, c, heap)
    | Ok init =>
        let tys := default [] (NegTokenInit.MechTypes init) in
        let c := selected (last_mech (fun ty => bool_decide (ty ∈ tys)) (mechTypes c) (mechs c)) c in
        match selectedMech c with
        | None => (Err (ErrOther "incompatible mech type in tokenInit"), c, heap)
        | Some _ =>
            let '(r, heap) := call (fun a => au_challenge a (default [] (NegTokenInit.MechToken init))) c heap in
            ((let! responseToken := r in
              let! o := mech_oid c heap in
              EncodeNegTokenResp 1 (Some o) (Some responseToken) None), c, heap)
        end
    end.

(** The token to answer with and the user. *)
Definition authenticate (tok : bytes) (c : t) (heap : list Authenticator)
  : outcome (bytes * gostring) * t * list Authenticator :=
  if HasPrefix tok ntlmssp then
    let '(r, heap) := call (fun a => au_authenticate a tok) c heap in
    ((let! user := r in Ok ([], user)), c, heap)
  else
    match DecodeNegTokenResp tok with
    | Panic => (Panic, c, heap)
    | Err e => (Err e, c, heap)
    | Ok resp =>
        let ty := default [] (NegTokenResp.SupportedMech resp) in
        let c := selected (first_mech (fun t => bool_decide (t = ty)) (mechTypes c) (mechs c)) c in
        let '(r, heap) := call (fun a => au_authenticate a (default [] (NegTokenResp.ResponseToken resp))) c heap in
        ((let! user := r in
          let! t := EncodeNegTokenAccepted in
          Ok (t, user)), c, heap)
    end.

Definition sum (bs : bytes) (c : t) (heap : list Authenticator) : outcome bytes * list Authenticator :=
  call (fun a => au_sum a bs) c heap.

Definition sessionKey (c : t) (heap : list Authenticator) : outcome bytes :=
  match selectedMech c with
  | None => Panic
  | Some m => match heap !! m with Some a => au_sessionKey a (au_state a) | None => Panic end
  end.

End ops.
End spnegoServer.

(** ** What success means *)

(** A mechanism accepted the token that came with [tok]: the token itself,
    or the one inside a negTokenResp. *)
Definition accepted_by `{Ber} (heap : list Authenticator) (tok : bytes) (user : gostring) : Prop :=
  exists m a inner, heap !! m = Some a
    /\ (inner = tok \/ exists resp, DecodeNegTokenResp tok = Ok resp /\ inner = default [] (NegTokenResp.ResponseToken resp))
    /\ fst (au_authenticate a inner (au_state a)) = Ok user.

Lemma authenticate_accepted `{Ber} tok c heap t user c' heap' :
  spnegoServer.authenticate tok c heap = (Ok (t, user), c', heap') -> accepted_by heap tok user.
Proof.
  unfold spnegoServer.authenticate. destruct (HasPrefix tok ntlmssp).
  - unfold spnegoServer.call. destruct (spnegoServer.selectedMech c) as [m|]; [|done].
    destruct (heap !! m) as [a|] eqn:Ha; [|done].
    destruct (au_authenticate a tok (au_state a)) as [r s] eqn:Er. destruct r as [u|e|]; [|done..].
    intros [= <- <- _ _]. exists m, a, tok. rewrite Er. auto.
  - destruct (DecodeNegTokenResp tok) as [resp|e|] eqn:Ed; [|done..].
    unfold spnegoServer.call. destruct (spnegoServer.selectedMech _) as [m|]; [|done].
    destruct (heap !! m) as [a|] eqn:Ha; [|done].
    set (inner := default [] (NegTokenResp.ResponseToken resp)) in *.
    destruct (au_authenticate a inner (au_state a)) as [r s] eqn:Er. destruct r as [u|e|]; [|done..].
    cbn [obind]. destruct EncodeNegTokenAccepted; [|done..]. intros [= _ <- _ _].
    exists m, a, inner. rewrite Er. eauto 10.
Qed.

(** The initial token is an application tag around optional fields only;
    one without a negTokenInit is decoded, and its first is taken. *)
Lemma empty_init_token_panics `{Ber} tok init c heap :
  HasPrefix tok ntlmssp = false -> Unmarshal_initialContextToken tok = Ok init ->
  default [] (initialContextToken.Init init) = [] ->
  spnegoServer.challenge tok c heap = (Panic, c, heap).
Proof.
  intros Hp Hu Hi. unfold spnegoServer.challenge, DecodeNegTokenInit. rewrite Hp, Hu. cbn [obind].
  destruct (initialContextToken.Init init) as [[|? ?]|]; done.
Qed.
