(* ===== verification/Ntlm.v ===== *)
(** * NTLMv2 (internal/ntlm)

    The messages of the handshake, both ends of it and the message
    signatures of the session it makes.  [module ntlm] is the Go package:
    attribute-value pairs and response (ntlm.go), [Session] (session.go),
    [Server] (server.go), [Client] (client.go).  MD4 comes from
    golang.org/x/crypto and [strings.ToUpper] from the Unicode tables, both
    parameters; MD5, HMAC, RC4 and CRC-32 are those of Digest. *)

From S2P Require Import Prelude Utf16 Dtyp Cipher Digest.

(** What is not translated: MD4 and the upper case of a string. *)
Class NtlmLib := mkNtlmLib {
  md4_Sum : bytes -> bytes;
  strings_ToUpper : gostring -> gostring
}.

(** [copy(p[a:], bs)] copies so many bytes. *)
Definition copied (p : bytes) (a : Z) (bs : bytes) : Z := Z.min (blen bs) (blen p - a).

Module ntlm.

(** ** Constants *)

Definition version : bytes := [0x0a; 0; 0; 0; 0; 0; 0; 0x0f].
Definition signature : bytes := [0x4e; 0x54; 0x4c; 0x4d; 0x53; 0x53; 0x50; 0].

Definition NtLmNegotiate : Z := 1.
Definition NtLmChallenge : Z := 2.
Definition NtLmAuthenticate : Z := 3.

Definition NTLMSSP_NEGOTIATE_UNICODE : Z := 0x1.
Definition NTLMSSP_REQUEST_TARGET : Z := 0x4.
Definition NTLMSSP_NEGOTIATE_SIGN : Z := 0x10.
Definition NTLMSSP_NEGOTIATE_SEAL : Z := 0x20.
Definition NTLMSSP_NEGOTIATE_DATAGRAM : Z := 0x40.
Definition NTLMSSP_NEGOTIATE_LM_KEY : Z := 0x80.
Definition NTLMSSP_NEGOTIATE_NTLM : Z := 0x200.
Definition NTLMSSP_NEGOTIATE_ALWAYS_SIGN : Z := 0x8000.
Definition NTLMSSP_NEGOTIATE_EXTENDED_SESSIONSECURITY : Z := 0x80000.
Definition NTLMSSP_NEGOTIATE_TARGET_INFO : Z := 0x800000.
Definition NTLMSSP_NEGOTIATE_VERSION : Z := 0x2000000.
Definition NTLMSSP_NEGOTIATE_128 : Z := 0x20000000.
Definition NTLMSSP_NEGOTIATE_KEY_EXCH : Z := 0x40000000.
Definition NTLMSSP_NEGOTIATE_56 : Z := 0x80000000.

Definition defaultFlags : Z :=
  foldr Z.lor 0 [NTLMSSP_NEGOTIATE_56; NTLMSSP_NEGOTIATE_KEY_EXCH; NTLMSSP_NEGOTIATE_128;
    NTLMSSP_NEGOTIATE_TARGET_INFO; NTLMSSP_NEGOTIATE_EXTENDED_SESSIONSECURITY;
    NTLMSSP_NEGOTIATE_ALWAYS_SIGN; NTLMSSP_NEGOTIATE_NTLM; NTLMSSP_NEGOTIATE_SIGN;
    NTLMSSP_REQUEST_TARGET; NTLMSSP_NEGOTIATE_UNICODE; NTLMSSP_NEGOTIATE_VERSION].

Definition MsvAvEOL : Z := 0.
Definition MsvAvNbComputerName : Z := 1.
Definition MsvAvNbDomainName : Z := 2.
Definition MsvAvDnsComputerName : Z := 3.
Definition MsvAvDnsDomainName : Z := 4.
Definition MsvAvDnsTreeName : Z := 5.
Definition MsvAvFlags : Z := 6.
Definition MsvAvTimestamp : Z := 7.
Definition MsvAvTargetName : Z := 9.
Definition MsvAvChannelBindings : Z := 10.

(** ** Attribute-value pairs *)

Module AvPair.
Record t := mk { AvID : Z; Value : bytes }.
End AvPair.

Module TargetInfo.
Definition t := list AvPair.t.

Definition Size (ti : t) : Z := foldl (fun s p => s + (4 + blen (AvPair.Value p))) 0 ti.

Fixpoint encode_pairs (off : Z) (ti : t) : enc := fun dst =>
  match ti with
  | [] => Ok dst
  | p :: ti =>
      let v := AvPair.Value p in
      let! dst := (put16 off (AvPair.AvID p) >> put16 (off + 2) (blen v) >> copy_from (off + 4) v) dst in
      encode_pairs (off + 4 + copied dst (off + 4) v) ti dst
  end.

Definition Encode (ti : t) : enc := encode_pairs 0 ti.
End TargetInfo.

(** A map from pair types to values.  The values are slices of the block
    they were read from; [(off, v)] is the slice at [off] that holds [v]. *)
Abbreviation AvMap := (gmap Z (Z * list Z)).

(** [for len(bs) > 0]: every turn takes at least four bytes. *)
Fixpoint av_loop (fuel : nat) (off : Z) (bs : bytes) (pairs : AvMap) : option AvMap :=
  match bs, fuel with
  | [], _ => Some pairs
  | _, O => None
  | _, S fuel =>
      if blen bs <? 4 then None
      else
        let id := le_dec (sub 0 2 bs) in
        let n := le_dec (sub 2 2 bs) in
        if blen bs <? 4 + n then None
        else av_loop fuel (off + 4 + n) (from (4 + n) bs) (<[id := (off + 4, sub 4 n bs)]> pairs)
  end.

Definition parseAvPairs (bs : bytes) : option AvMap :=
  if blen bs <? 4 then None
  else if negb (forallb (fun c => c =? 0) (from (blen bs - 4) bs)) then None
  else av_loop (length bs) 0 bs ∅.

(** ** The response *)

Section lib.
Context `{NtlmLib}.

Definition ntowfv2Hash (USER hash domain : bytes) : bytes := hmac.Sum hash (USER ++ domain).

Definition ntowfv2 (USER password domain : bytes) : bytes :=
  ntowfv2Hash USER (md4_Sum password) domain.

End lib.

(** [h] is HMAC-MD5 under [key].  The two challenges and the time stamp may
    be slices of the destination itself; copying them onto themselves is
    copying their bytes. *)
Definition encodeNtlmv2Response (key serverChallenge clientChallenge timeStamp : bytes)
    (targetInfo : enc) : enc := fun dst =>
  let! dst := at_ 16 (put8 0 1 >> put8 1 1 >> copy_range 8 16 timeStamp
                        >> copy_range 16 24 clientChallenge >> at_ 28 targetInfo) dst in
  put 0 (hmac.Sum key (serverChallenge ++ from 16 dst)) dst.

(** The [encoder] interface. *)
Record encoder := mkEncoder { size : Z; encode : enc }.

Definition bytesEncoder (b : bytes) : encoder := mkEncoder (blen b) (copy_from 0 b).

Module targetInfoEncoder.

Record t := mk { Info : bytes; SPN : bytes; InfoMap : AvMap }.

Definition newTargetInfoEncoder (info spn : bytes) : option t :=
  match parseAvPairs info with
  | None => None
  | Some infoMap => Some (mk info spn infoMap)
  end.

Definition size (i : t) : Z :=
  let size := blen (Info i) in
  let size := match InfoMap i !! MsvAvFlags with None => size + 8 | Some _ => size end in
  let size := size + 20 in
  match SPN i with [] => size | _ => size + (4 + blen (SPN i)) end.

(** [le.PutUint32(flags, le.Uint32(flags)|0x02)]: [flags] is a part of
    [i.Info]. *)
Definition set_mic_flag (i : t) : outcome t :=
  match InfoMap i !! MsvAvFlags with
  | None => Ok i
  | Some (off, flags) =>
      if blen flags <? 4 then Panic
      else
        let v := le_enc 4 (Z.lor (le_dec (upto 4 flags)) 2) in
        Ok (mk (splice off v (Info i)) (SPN i) (<[MsvAvFlags := (off, splice 0 v flags)]> (InfoMap i)))
  end.

Definition encode (i : t) : enc := fun dst =>
  let! i := set_mic_flag i in
  let body := upto (blen (Info i) - 4) (Info i) in
  let! dst := copy_from 0 body dst in
  let off := copied dst 0 body in
  let! (dst, off) :=
    match InfoMap i !! MsvAvFlags with
    | Some _ => Ok (dst, off)
    | None =>
        let! dst := (put16 off MsvAvFlags >> put16 (off + 2) 4 >> put32 (off + 4) 2) dst in
        Ok (dst, off + 8)
    end in
  let! dst := (put16 off MsvAvChannelBindings >> put16 (off + 2) 16) dst in
  let off := off + 20 in
  let! (dst, off) :=
    match SPN i with
    | [] => Ok (dst, off)
    | spn =>
        let! dst := (put16 off MsvAvTargetName >> put16 (off + 2) (blen spn) >> copy_from (off + 4) spn) dst in
        Ok (dst, off + (4 + blen spn))
    end in
  (put16 off MsvAvEOL >> put16 (off + 2) 0) dst.

Definition asEncoder (i : t) : encoder := mkEncoder (size i) (encode i).

End targetInfoEncoder.

(** ** Signatures and keys *)

(** The slice that [append] of [n] bytes to [in] makes, with what the array
    of [in] holds there already; its first [len(in)] bytes are those of
    [in]. *)
Definition sliceForAppend (in_ : slice) (n : Z) : outcome bytes :=
  let total := s_len in_ + n in
  let! head :=
    if total <=? s_cap in_ then let! h := s_range in_ 0 total in Ok (s_bytes h)
    else Ok (splice 0 (s_bytes in_) (zeros total)) in
  if s_len in_ <=? blen head then Ok head else Panic.

(** [handle.XORKeyStream(tag[a:b], tag[a:b])] *)
Definition xor_in_place (a b : Z) (tag : bytes) (handle : rc4.Cipher) : bytes * rc4.Cipher :=
  let '(x, handle) := rc4.xor_stream (sub a (b - a) tag) handle in (splice a x tag, handle).

(** The 16 bytes of [tag] are overwritten; the new sequence number and the
    new state of the handle. *)
Definition mac (tag : bytes) (negotiateFlags : Z) (handle : rc4.Cipher) (signingKey : bytes)
    (seqNum : Z) (msg : bytes) : bytes * Z * rc4.Cipher :=
  if negb (has negotiateFlags NTLMSSP_NEGOTIATE_EXTENDED_SESSIONSECURITY) then
    let tag := splice 0 (le_enc 4 1) tag in
    let tag := splice 8 (le_enc 4 (crc32.ChecksumIEEE msg)) tag in
    let '(tag, handle) := xor_in_place 4 8 tag handle in
    let '(tag, handle) := xor_in_place 8 12 tag handle in
    let '(tag, handle) := xor_in_place 12 16 tag handle in
    let tag := splice 12 (xor_bytes (sub 12 4 tag) (le_enc 4 seqNum)) tag in
    let seqNum := if has negotiateFlags NTLMSSP_NEGOTIATE_DATAGRAM then seqNum else u32 (seqNum + 1) in
    (splice 4 (zeros 4) tag, seqNum, handle)
  else
    let tag := splice 0 (le_enc 4 1) tag in
    let tag := splice 12 (le_enc 4 seqNum) tag in
    let tag := splice 4 (upto 8 (hmac.Sum signingKey (sub 12 4 tag ++ msg))) tag in
    let '(tag, handle) :=
      if has negotiateFlags NTLMSSP_NEGOTIATE_KEY_EXCH then xor_in_place 4 12 tag handle
      else (tag, handle) in
    (tag, u32 (seqNum + 1), handle).

Definition magic (s : string) : bytes := ascii_bytes s ++ [0].

Definition signKey (negotiateFlags : Z) (randomSessionKey : bytes) (fromClient : bool) : bytes :=
  if has negotiateFlags NTLMSSP_NEGOTIATE_EXTENDED_SESSIONSECURITY then
    md5.Sum (randomSessionKey ++
      magic (if fromClient then "session key to client-to-server signing key magic constant"
             else "session key to server-to-client signing key magic constant"))
  else [].

Definition sealKey (negotiateFlags : Z) (randomSessionKey : bytes) (fromClient : bool) : outcome bytes :=
  let first n := let! k := s_range (of_bytes randomSessionKey) 0 n in Ok (s_bytes k) in
  if has negotiateFlags NTLMSSP_NEGOTIATE_EXTENDED_SESSIONSECURITY then
    let! k :=
      if has negotiateFlags NTLMSSP_NEGOTIATE_128 then Ok randomSessionKey
      else if has negotiateFlags NTLMSSP_NEGOTIATE_56 then first 7 else first 5 in
    Ok (md5.Sum (k ++
      magic (if fromClient then "session key to client-to-server sealing key magic constant"
             else "session key to server-to-client sealing key magic constant")))
  else if has negotiateFlags NTLMSSP_NEGOTIATE_LM_KEY then
    if has negotiateFlags NTLMSSP_NEGOTIATE_56 then let! k := first 7 in Ok (k ++ [0xa0])
    else let! k := first 5 in Ok (k ++ [0xe5; 0x38; 0xb0])
  else Ok randomSessionKey.

(** ** session.go *)

Module Session.

Record t := mk {
  isClientSide : bool;
  user : gostring;
  negotiateFlags : Z;
  exportedSessionKey : bytes;
  clientSigningKey : bytes;
  serverSigningKey : bytes;
  clientHandle : rc4.Cipher;
  serverHandle : rc4.Cipher;
  infoMap : AvMap
}.

Definition set_clientHandle (h : rc4.Cipher) (s : t) : t :=
  mk (isClientSide s) (user s) (negotiateFlags s) (exportedSessionKey s) (clientSigningKey s)
     (serverSigningKey s) h (serverHandle s) (infoMap s).
Definition set_serverHandle (h : rc4.Cipher) (s : t) : t :=
  mk (isClientSide s) (user s) (negotiateFlags s) (exportedSessionKey s) (clientSigningKey s)
     (serverSigningKey s) (clientHandle s) h (infoMap s).

Definition User (s : t) : gostring := user s.
Definition SessionKey (s : t) : bytes := exportedSessionKey s.

Module InfoMap.
Record t := mk {
  NbComputerName : gostring; NbDomainName : gostring; DnsComputerName : gostring;
  DnsDomainName : gostring; DnsTreeName : gostring
}.
End InfoMap.

Definition info_string (s : t) (id : Z) : outcome gostring :=
  DecodeToString (of_bytes (match infoMap s !! id with Some (_, v) => v | None => [] end)).

Definition getInfoMap (s : t) : outcome InfoMap.t :=
  let! a := info_string s MsvAvNbComputerName in
  let! b := info_string s MsvAvNbDomainName in
  let! c := info_string s MsvAvDnsComputerName in
  let! d := info_string s MsvAvDnsDomainName in
  let! e := info_string s MsvAvDnsTreeName in
  Ok (InfoMap.mk a b c d e).

Definition Overhead (s : t) : Z := 16.

(** [mac] with the handle and the key of the client, or of the server. *)
Definition mac_client (tag : bytes) (seqNum : Z) (msg : bytes) (s : t) : bytes * Z * t :=
  let '(tag, seqNum, h) := mac tag (negotiateFlags s) (clientHandle s) (clientSigningKey s) seqNum msg in
  (tag, seqNum, set_clientHandle h s).
Definition mac_server (tag : bytes) (seqNum : Z) (msg : bytes) (s : t) : bytes * Z * t :=
  let '(tag, seqNum, h) := mac tag (negotiateFlags s) (serverHandle s) (serverSigningKey s) seqNum msg in
  (tag, seqNum, set_serverHandle h s).

(** What this side signs with, and what it checks with. *)
Definition mac_own (tag : bytes) (seqNum : Z) (msg : bytes) (s : t) : bytes * Z * t :=
  if isClientSide s then mac_client tag seqNum msg s else mac_server tag seqNum msg s.
Definition mac_peer (tag : bytes) (seqNum : Z) (msg : bytes) (s : t) : bytes * Z * t :=
  if isClientSide s then mac_server tag seqNum msg s else mac_client tag seqNum msg s.

(** [None] is the nil slice. *)
Definition Sum (plaintext : bytes) (seqNum : Z) (s : t) : option bytes * Z * t :=
  if negb (has (negotiateFlags s) NTLMSSP_NEGOTIATE_SIGN) then (None, 0, s)
  else let '(tag, seqNum, s) := mac_own (zeros 16) seqNum plaintext s in (Some tag, seqNum, s).

Definition CheckSum (sum : option bytes) (plaintext : bytes) (seqNum : Z) (s : t) : bool * Z * t :=
  if negb (has (negotiateFlags s) NTLMSSP_NEGOTIATE_SIGN) then
    (match sum with None => true | Some _ => false end, 0, s)
  else
    let '(ret, seqNum, s) := mac_peer (zeros 16) seqNum plaintext s in
    if bool_decide (default [] sum = ret) then (true, seqNum, s) else (false, 0, s).

(** The slice with the sealed message appended to [dst]. *)
Definition Seal (dst : slice) (plaintext : bytes) (seqNum : Z) (s : t) : outcome (bytes * Z * t) :=
  let! ret := sliceForAppend dst (blen plaintext + 16) in
  let n := s_len dst in
  if has (negotiateFlags s) NTLMSSP_NEGOTIATE_SEAL then
    let '(x, h) := rc4.xor_stream plaintext (clientHandle s) in
    let ret := splice (n + 16) x ret in
    let '(tag, seqNum, s) := mac_own (sub n 16 ret) seqNum plaintext (set_clientHandle h s) in
    Ok (splice n tag ret, seqNum, s)
  else if has (negotiateFlags s) NTLMSSP_NEGOTIATE_SIGN then
    let ret := splice (n + 16) plaintext ret in
    let '(tag, seqNum, s) := mac_own (sub n 16 ret) seqNum plaintext s in
    Ok (splice n tag ret, seqNum, s)
  else Ok (ret, seqNum, s).

(** The slice with the plaintext appended to [dst]; the state changes even
    when the signature does not match. *)
Definition Unseal (dst : slice) (ciphertext : slice) (seqNum : Z) (s : t) : outcome (bytes * Z) * t :=
  match sliceForAppend dst (s_len ciphertext - 16) with
  | Ok ret =>
      let n := s_len dst in
      let body := from 16 (s_bytes ciphertext) in
      let sum := upto 16 (s_bytes ciphertext) in
      if has (negotiateFlags s) NTLMSSP_NEGOTIATE_SEAL then
        let '(plaintext, h) := rc4.xor_stream body (serverHandle s) in
        let '(tag, seqNum, s) := mac_peer (zeros 16) seqNum plaintext (set_serverHandle h s) in
        if bool_decide (sum = tag) then (Ok (splice n plaintext ret, seqNum), s)
        else (Err (ErrOther "signature mismatch"), s)
      else if has (negotiateFlags s) NTLMSSP_NEGOTIATE_SIGN then
        let '(tag, seqNum, s) := mac_peer (zeros 16) seqNum body s in
        if bool_decide (sum = tag) then (Ok (splice n body ret, seqNum), s)
        else (Err (ErrOther "signature mismatch"), s)
      else if forallb (fun c => c =? 0) sum then (Ok (splice n body ret, seqNum), s)
      else (Err (ErrOther "signature mismatch"), s)
  | Err e => (Err e, s)
  | Panic => (Panic, s)
  end.

End Session.

(** The session of one side, once the key is exported: the keys of both
    directions are derived from it. *)
Definition newSession (isClient : bool) (user : gostring) (flags : Z) (key : bytes) (infoMap : AvMap)
  : outcome Session.t :=
  let! ck := sealKey flags key true in
  let! ch := rc4.NewCipher ck in
  let! sk := sealKey flags key false in
  let! sh := rc4.NewCipher sk in
  Ok (Session.mk isClient user flags key (signKey flags key true) (signKey flags key false) ch sh infoMap).

(** The payload that the fields Len, MaxLen and BufferOffset at [a] name;
    the end is computed in 32 bits. *)
Definition payload (msg : slice) (a : Z) (err : string) : outcome slice :=
  let! n := get16 msg a (a + 2) in
  let! maxLen := get16 msg (a + 2) (a + 4) in
  if maxLen <? n then Err (ErrOther err)
  else
    let! off := get32 msg (a + 4) (a + 8) in
    if s_len msg <? u32 (off + n) then Err (ErrOther err)
    else s_range msg off (u32 (off + n)).

(** The checks all three messages begin with. *)
Definition check_message (msg : slice) (minLen typ : Z) : outcome unit :=
  if s_len msg <? minLen then Err (ErrOther "message length is too short")
  else
    let! sig := s_range msg 0 8 in
    if negb (bool_decide (s_bytes sig = signature)) then Err (ErrOther "invalid signature")
    else
      let! t := get32 msg 8 12 in
      if negb (t =? typ) then Err (ErrOther "invalid message type") else Ok tt.

(** ** server.go *)

Module Server.

Record t := mk {
  targetName : gostring;
  nbName : gostring;
  nbDomain : gostring;
  dnsDomain : gostring;
  dnsName : gostring;
  accounts : gmap gostring gostring;
  allowGuest : bool;
  nmsg : bytes;
  cmsg : bytes;
  session : option Session.t
}.

Definition NewServer (targetName nbName nbDomain dnsName dnsDomain : gostring) : t :=
  mk targetName nbName nbDomain dnsDomain dnsName ∅ false [] [] None.

Definition AddAccount (user password : gostring) (s : t) : t :=
  mk (targetName s) (nbName s) (nbDomain s) (dnsDomain s) (dnsName s) (<[user := password]> (accounts s))
     (allowGuest s) (nmsg s) (cmsg s) (session s).

Definition AllowGuest (s : t) : t :=
  mk (targetName s) (nbName s) (nbDomain s) (dnsDomain s) (dnsName s) (accounts s)
     true (nmsg s) (cmsg s) (session s).

Definition set_nmsg (m : bytes) (s : t) : t :=
  mk (targetName s) (nbName s) (nbDomain s) (dnsDomain s) (dnsName s) (accounts s)
     (allowGuest s) m (cmsg s) (session s).
Definition set_cmsg (m : bytes) (s : t) : t :=
  mk (targetName s) (nbName s) (nbDomain s) (dnsDomain s) (dnsName s) (accounts s)
     (allowGuest s) (nmsg s) m (session s).
Definition set_session (x : Session.t) (s : t) : t :=
  mk (targetName s) (nbName s) (nbDomain s) (dnsDomain s) (dnsName s) (accounts s)
     (allowGuest s) (nmsg s) (cmsg s) (Some x).

(** [if len(str) > 0 { ti = append(TargetInfo{AvPair{id, ...}}, ti...) }] *)
Definition prepend_name (id : Z) (str : gostring) (ti : TargetInfo.t) : outcome TargetInfo.t :=
  match str with
  | [] => Ok ti
  | _ => let! v := EncodeStringToBytes str in Ok (AvPair.mk id v :: ti)
  end.

Definition targetInfo (now : Z) (s : t) : outcome TargetInfo.t :=
  let! ti := prepend_name MsvAvNbDomainName (nbDomain s) [AvPair.mk MsvAvEOL []] in
  let! ti := prepend_name MsvAvNbComputerName (nbName s) ti in
  let! ti := prepend_name MsvAvDnsDomainName (dnsDomain s) ti in
  let! ti := prepend_name MsvAvDnsComputerName (dnsName s) ti in
  let! b := Filetime.Encode (Filetime.NsecToFiletime now) (zeros 8) in
  Ok (AvPair.mk MsvAvTimestamp b :: ti).

(** The challenge message; [rnd] is what [rand.Read] of 8 bytes gives. *)
Definition challengeMessage (now : Z) (rnd : outcome bytes) (flags : Z) (s : t) : outcome bytes :=
  let! ti := targetInfo now s in
  let off := 48 in
  let off := if has flags NTLMSSP_NEGOTIATE_TARGET_INFO then off + TargetInfo.Size ti else off in
  let off := if has flags NTLMSSP_NEGOTIATE_VERSION then off + 8 else off in
  let! targetName := EncodeStringToBytes (targetName s) in
  let cmsg := zeros (off + blen targetName + 4) in
  let! cmsg := (copy_range 0 8 signature >> put32 8 NtLmChallenge >> put32 20 flags) cmsg in
  let! (cmsg, off) :=
    if negb (bool_decide (targetName = [])) && has flags NTLMSSP_REQUEST_TARGET then
      let len := copied cmsg off targetName in
      let! cmsg := (copy_from off targetName >> put16 12 len >> put16 14 len >> put32 16 off) cmsg in
      Ok (cmsg, off + len)
    else Ok (cmsg, off) in
  let! cmsg :=
    if has flags NTLMSSP_NEGOTIATE_TARGET_INFO then
      let off := off - TargetInfo.Size ti in
      let len := TargetInfo.Size ti in
      (at_ off (TargetInfo.Encode ti) >> put16 40 len >> put16 42 len >> put32 44 off) cmsg
    else Ok cmsg in
  let! challenge := rnd in
  let! cmsg := copy_range 24 32 challenge cmsg in
  if has flags NTLMSSP_NEGOTIATE_VERSION then copy_range 48 56 version cmsg else Ok cmsg.

Definition Challenge (now : Z) (rnd : outcome bytes) (nmsg : slice) (s : t) : outcome bytes * t :=
  let s := set_nmsg (s_bytes nmsg) s in
  let r :=
    let! _ := check_message nmsg 32 NtLmNegotiate in
    let! f := get32 nmsg 12 16 in
    let flags := Z.lor (Z.land f defaultFlags) NTLMSSP_NEGOTIATE_TARGET_INFO in
    challengeMessage now rnd flags s in
  match r with
  | Ok cmsg => (Ok cmsg, set_cmsg cmsg s)
  | Err e => (Err e, s)
  | Panic => (Panic, s)
  end.

Section lib.
Context `{NtlmLib}.

(** The key of the response: the password of [user], or the empty one. *)
Definition response_key (user : gostring) (domainName : bytes) (s : t) : outcome bytes :=
  let! USER := EncodeStringToBytes (strings_ToUpper user) in
  let! password := EncodeStringToBytes (default [] (accounts s !! user)) in
  Ok (ntowfv2 USER password domainName).

(** The session key: the key exchanged under [keyExchangeKey], or that key. *)
Definition exported_key (flags : Z) (keyExchangeKey encryptedRandomSessionKey : bytes) : outcome bytes :=
  if has flags NTLMSSP_NEGOTIATE_KEY_EXCH then
    let! cipher := rc4.NewCipher keyExchangeKey in
    let! (k, _) := rc4.XORKeyStream 16 encryptedRandomSessionKey cipher in
    Ok (splice 0 k (zeros 16))
  else Ok keyExchangeKey.

(** The message integrity code, when the target information announces one.
    It is taken out of the message before the code is computed. *)
Definition check_mic (flags : Z) (key targetInfo : bytes) (amsg : slice) (s : t) : outcome unit :=
  match parseAvPairs targetInfo with
  | None => Ok tt
  | Some infoMap =>
      match infoMap !! MsvAvFlags with
      | None => Ok tt
      | Some (_, avFlags) =>
          let! f := le_Uint 4 (of_bytes avFlags) in
          if negb (has f 2) then Ok tt
          else
            let a := if has flags NTLMSSP_NEGOTIATE_VERSION then 72 else 64 in
            let! w := s_range amsg a (a + 16) in
            let MIC := s_bytes w in
            let zeroed := upto (s_len amsg) (splice a (zeros 16) (s_arr amsg)) in
            if bool_decide (MIC = hmac.Sum key (nmsg s ++ cmsg s ++ zeroed)) then Ok tt
            else Err (ErrOther "login failure")
      end
  end.

(** The session that the message establishes. *)
Definition authenticateMessage (amsg : slice) (s : t) : outcome Session.t :=
  let! _ := check_message amsg 64 NtLmAuthenticate in
  let! flags := get32 amsg 60 64 in
  let! ntChallengeResponse := payload amsg 20 "invalid LM challenge format" in
  let! domainName := payload amsg 28 "invalid domain name format" in
  let! userName := payload amsg 36 "invalid user name format" in
  let! encryptedRandomSessionKey := payload amsg 52 "invalid user name format" in
  if negb (s_len userName =? 0) || negb (s_len ntChallengeResponse =? 0) then
    let! user := DecodeToString userName in
    if bool_decide (accounts s !! user = None) && negb (allowGuest s)
    then Err (ErrOther "no such user")
    else
      let! ntlmv2ClientChallenge := s_from ntChallengeResponse 16 in
      let! key := response_key user (s_bytes domainName) s in
      let! serverChallenge := s_range (of_bytes (cmsg s)) 24 32 in
      let! timeStamp := s_range ntlmv2ClientChallenge 8 16 in
      let! clientChallenge := s_range ntlmv2ClientChallenge 16 24 in
      let! targetInfo := s_from ntlmv2ClientChallenge 28 in
      let! expectedNtChallengeResponse :=
        encodeNtlmv2Response key (s_bytes serverChallenge) (s_bytes clientChallenge) (s_bytes timeStamp)
          (encode (bytesEncoder (s_bytes targetInfo))) (zeros (s_len ntChallengeResponse)) in
      if negb (bool_decide (s_bytes ntChallengeResponse = expectedNtChallengeResponse))
      then Err (ErrOther "login failure")
      else
        let sessionBaseKey := hmac.Sum key (upto 16 (s_bytes ntChallengeResponse)) in
        let! exportedSessionKey := exported_key flags sessionBaseKey (s_bytes encryptedRandomSessionKey) in
        let! _ := check_mic flags exportedSessionKey (s_bytes targetInfo) amsg s in
        newSession false user flags exportedSessionKey ∅
  else Err (ErrOther "credential is empty").

Definition Authenticate (amsg : slice) (s : t) : outcome unit * t :=
  match authenticateMessage amsg s with
  | Ok session => (Ok tt, set_session session s)
  | Err e => (Err e, s)
  | Panic => (Panic, s)
  end.

End lib.
End Server.

(** ** client.go *)

Module Client.

Record t := mk {
  User : gostring;
  Password : gostring;
  Hash : option bytes;
  Domain : gostring;
  Workstation : gostring;
  TargetSPN : gostring;
  nmsg : bytes;
  session : option Session.t
}.

Definition set_nmsg (m : bytes) (c : t) : t :=
  mk (User c) (Password c) (Hash c) (Domain c) (Workstation c) (TargetSPN c) m (session c).
Definition set_session (s : Session.t) (c : t) : t :=
  mk (User c) (Password c) (Hash c) (Domain c) (Workstation c) (TargetSPN c) (nmsg c) (Some s).

Definition Negotiate (c : t) : outcome bytes * t :=
  let r := (copy_range 0 8 signature >> put32 8 NtLmNegotiate >> put32 12 defaultFlags
              >> copy_from 32 version) (zeros 40) in
  match r with
  | Ok nmsg => (Ok nmsg, set_nmsg nmsg c)
  | Err e => (Err e, c)
  | Panic => (Panic, c)
  end.

(** [EncodeStringToBytes] is nil for the empty string. *)
Definition not_nil (bs : bytes) : option bytes := match bs with [] => None | _ => Some bs end.

(** A payload written at [off] and announced at [a]; nil is left out. *)
Definition put_payload (a : Z) (bs : option bytes) (amsg : bytes) (off : Z) : outcome (bytes * Z) :=
  match bs with
  | None => Ok (amsg, off)
  | Some bs =>
      let len := copied amsg off bs in
      let! amsg := (copy_from off bs >> put16 a len >> put16 (a + 2) len >> put32 (a + 4) off) amsg in
      Ok (amsg, off + len)
  end.

Section lib.
Context `{NtlmLib}.

(** The key of the response, from the hash of the password or the password. *)
Definition response_key (domain : bytes) (c : t) : outcome bytes :=
  let! USER := EncodeStringToBytes (strings_ToUpper (User c)) in
  match Hash c with
  | Some hash => Ok (ntowfv2Hash USER hash domain)
  | None => let! password := EncodeStringToBytes (Password c) in Ok (ntowfv2 USER password domain)
  end.

(** What the challenge message says: the common flags, the target name, and
    the target information with its place in the message. *)
Definition readChallenge (cmsg : slice) (c : t) : outcome (Z * bytes * Z * targetInfoEncoder.t) :=
  let! _ := check_message cmsg 48 NtLmChallenge in
  let! f := get32 (of_bytes (nmsg c)) 12 16 in
  let! g := get32 cmsg 20 24 in
  let flags := Z.land f g in
  if negb (has flags NTLMSSP_REQUEST_TARGET) then Err (ErrOther "invalid negotiate flags")
  else
    let! targetName := payload cmsg 12 "invalid target name format" in
    if negb (has flags NTLMSSP_NEGOTIATE_TARGET_INFO) then Err (ErrOther "invalid negotiate flags")
    else
      let! targetInfo := payload cmsg 40 "invalid target info format" in
      let! targetInfoBufferOffset := get32 cmsg 44 48 in
      let! spn := EncodeStringToBytes (TargetSPN c) in
      match targetInfoEncoder.newTargetInfoEncoder (s_bytes targetInfo) spn with
      | None => Err (ErrOther "invalid target info format")
      | Some info => Ok (flags, s_bytes targetName, targetInfoBufferOffset, info)
      end.

(** The part of the message that proves knowledge of the password, written
    at [off]; [rnd8] and [rnd16] are what [rand.Read] gives.  The target
    information is a part of [cmsg], and encoding it sets a flag there,
    before [cmsg] is hashed.  The message, and the session. *)
Definition putResponse (now : Z) (rnd8 rnd16 : outcome bytes) (cmsg : bytes) (flags tiOff : Z)
    (info : targetInfoEncoder.t) (domain : bytes) (amsg : bytes) (off : Z) (c : t)
  : outcome (bytes * Session.t) :=
  let! key := response_key domain c in
  let! amsg := (put16 12 24 >> put16 14 24 >> put32 16 off) amsg in
  let off := off + 24 in
  let size := blen amsg - 16 - off in
  let! clientChallenge := rnd8 in
  let timeStamp :=
    match targetInfoEncoder.InfoMap info !! MsvAvTimestamp with
    | Some (_, v) => v
    | None => le_enc 8 (Z.quot now 100 + Filetime.epoch)
    end in
  let! touched := targetInfoEncoder.set_mic_flag info in
  let cmsg := splice tiOff (targetInfoEncoder.Info touched) cmsg in
  let serverChallenge := sub 24 8 cmsg in
  let! amsg :=
    in_ off (blen amsg - 16)
      (encodeNtlmv2Response key serverChallenge clientChallenge timeStamp
         (encode (targetInfoEncoder.asEncoder info))) amsg in
  let! amsg := (put16 20 size >> put16 22 size >> put32 24 off) amsg in
  let ntChallengeResponse := sub off size amsg in
  let off := blen amsg - 16 in
  let sessionBaseKey := hmac.Sum key (upto 16 ntChallengeResponse) in
  let! (exportedSessionKey, amsg) :=
    if has flags NTLMSSP_NEGOTIATE_KEY_EXCH then
      let! k := rnd16 in
      let! cipher := rc4.NewCipher sessionBaseKey in
      let! (x, _) := rc4.XORKeyStream (blen amsg - off) k cipher in
      let! amsg := (copy_from off x >> put16 52 16 >> put16 54 16 >> put32 56 off) amsg in
      Ok (k, amsg)
    else Ok (sessionBaseKey, amsg) in
  let! amsg := (put32 60 flags >> copy_from 64 version) amsg in
  let! amsg := put 72 (hmac.Sum exportedSessionKey (nmsg c ++ cmsg ++ amsg)) amsg in
  let! session := newSession true (User c) flags exportedSessionKey (targetInfoEncoder.InfoMap touched) in
  Ok (amsg, session).

(** The message, and the session when there are credentials. *)
Definition authenticateMessage (now : Z) (rnd8 rnd16 : outcome bytes) (cmsg : slice) (c : t)
  : outcome (bytes * option Session.t) :=
  let! (flags, targetName, tiOff, info) := readChallenge cmsg c in
  let off := 64 + 8 + 16 in
  let! domain := EncodeStringToBytes (Domain c) in
  let! user := EncodeStringToBytes (User c) in
  let! workstation := EncodeStringToBytes (Workstation c) in
  let domain := default targetName (not_nil domain) in
  let amsg := zeros (off + blen domain + blen user + blen workstation + 24
                     + (16 + (28 + size (targetInfoEncoder.asEncoder info) + 4)) + 16) in
  let! amsg := (copy_range 0 8 signature >> put32 8 NtLmAuthenticate) amsg in
  let! (amsg, off) := put_payload 28 (Some domain) amsg off in
  let! (amsg, off) := put_payload 36 (not_nil user) amsg off in
  let! (amsg, off) := put_payload 44 (not_nil workstation) amsg off in
  if negb (bool_decide (User c = [])) || negb (bool_decide (Password c = []))
     || bool_decide (is_Some (Hash c))
  then
    let! (amsg, session) :=
      putResponse now rnd8 rnd16 (s_bytes cmsg) flags tiOff info domain amsg off c in
    Ok (amsg, Some session)
  else Ok (amsg, None).

Definition Authenticate (now : Z) (rnd8 rnd16 : outcome bytes) (cmsg : slice) (c : t)
  : outcome bytes * t :=
  match authenticateMessage now rnd8 rnd16 cmsg c with
  | Ok (amsg, Some session) => (Ok amsg, set_session session c)
  | Ok (amsg, None) => (Ok amsg, c)
  | Err e => (Err e, c)
  | Panic => (Panic, c)
  end.

End lib.
End Client.

End ntlm.

(** ** The test vectors of ntlm_test.go *)

Definition test_hash : bytes := be_enc 16 0x0c868a403bfd7a93a3001ef22ef02e3f.
Definition test_key : bytes := be_enc 16 0x55555555555555555555555555555555.

Definition test_info : bytes :=
  be_enc 16 0x02000c0044006f006d00610069006e00 ++ be_enc 20 0x01000c0053006500720076006500720000000000.

Example TestNtlmv2ClientChallenge :
  (let! r := ntlm.encodeNtlmv2Response test_hash (be_enc 8 0x0123456789abcdef) (be_enc 8 0xaaaaaaaaaaaaaaaa)
     (zeros 8) (copy_from 0 test_info) (zeros (16 + 28 + blen test_info + 4)) in
   Ok (be_dec (upto 16 r), from 16 r))
  = Ok (0x68cd0ab851e51c96aabc927bebef6a1c,
        be_enc 28 0x01010000000000000000000000000000aaaaaaaaaaaaaaaa00000000 ++ test_info ++ zeros 4).
Proof. vm_compute. reflexivity. Qed.

Example TestSessionBaseKey :
  be_dec (hmac.Sum test_hash (be_enc 16 0x68cd0ab851e51c96aabc927bebef6a1c)) = 0x8de40ccadbc14a82f15cb0ad0de95ca3.
Proof. vm_compute. reflexivity. Qed.

Example TestEncryptedSessionKey :
  ntlm.Server.exported_key ntlm.NTLMSSP_NEGOTIATE_KEY_EXCH (be_enc 16 0x8de40ccadbc14a82f15cb0ad0de95ca3)
    (be_enc 16 0xc5dad2544fc9799094ce1ce90bc9d03e) = Ok test_key.
Proof. vm_compute. reflexivity. Qed.

Example TestSealKey :
  (let! k := ntlm.sealKey (Z.lor ntlm.NTLMSSP_NEGOTIATE_EXTENDED_SESSIONSECURITY ntlm.NTLMSSP_NEGOTIATE_128)
     test_key true in Ok (be_dec k)) = Ok 0x59f600973cc4960a25480a7c196e4c58.
Proof. vm_compute. reflexivity. Qed.

Example TestSignKey :
  be_dec (ntlm.signKey ntlm.NTLMSSP_NEGOTIATE_EXTENDED_SESSIONSECURITY test_key true)
  = 0x4788dc861b4782f35d43fd98fe1a2d39.
Proof. vm_compute. reflexivity. Qed.

Example TestSeal :
  (let! c := rc4.NewCipher (be_enc 16 0x59f600973cc4960a25480a7c196e4c58) in
   let! p := EncodeStringToBytes (map Z.of_nat [80; 108; 97; 105; 110; 116; 101; 120; 116]%nat) in
   let (x, c) := rc4.xor_stream p c in
   let '(tag, _, _) := ntlm.mac (zeros 16)
     (Z.lor ntlm.NTLMSSP_NEGOTIATE_EXTENDED_SESSIONSECURITY ntlm.NTLMSSP_NEGOTIATE_KEY_EXCH) c
     (be_enc 16 0x4788dc861b4782f35d43fd98fe1a2d39) 0 p in
   Ok (be_dec x, be_dec tag))
  = Ok (0x54e50165bf1936dc996020c1811b0f06fb5f, 0x010000007fb38ec5c55d497600000000).
Proof. vm_compute. reflexivity. Qed.

(** ** Attribute-value pairs survive the wire *)

Definition pair_ok (p : ntlm.AvPair.t) : Prop :=
  in16 (ntlm.AvPair.AvID p) /\ blen (ntlm.AvPair.Value p) < 65536.

Definition pair_bytes (p : ntlm.AvPair.t) : bytes :=
  le_enc 2 (ntlm.AvPair.AvID p) ++ le_enc 2 (blen (ntlm.AvPair.Value p)) ++ ntlm.AvPair.Value p.

Definition ti_bytes (ti : ntlm.TargetInfo.t) : bytes := concat (pair_bytes <$> ti).

(** The map with the pairs of [ti], a later pair in the place of an earlier
    one of its type; [off] is where [ti] begins. *)
Fixpoint ti_map (off : Z) (ti : ntlm.TargetInfo.t) (m : ntlm.AvMap) : ntlm.AvMap :=
  match ti with
  | [] => m
  | p :: ti =>
      ti_map (off + 4 + blen (ntlm.AvPair.Value p)) ti
        (<[ntlm.AvPair.AvID p := (off + 4, ntlm.AvPair.Value p)]> m)
  end.

Lemma blen_pair id v : blen (pair_bytes (ntlm.AvPair.mk id v)) = 4 + blen v.
Proof. unfold pair_bytes. cbn. len. Qed.
#[export] Hint Rewrite blen_pair : blen.

Lemma ti_bytes_cons p ti : ti_bytes (p :: ti) = pair_bytes p ++ ti_bytes ti.
Proof. done. Qed.

Lemma ti_size_foldl ti k :
  foldl (fun s p => s + (4 + blen (ntlm.AvPair.Value p))) k ti = k + blen (ti_bytes ti).
Proof.
  revert k. induction ti as [|[id v] ti IH]; intros k; cbn [foldl]; [rewrite Z.add_0_r; done|].
  rewrite IH, ti_bytes_cons. cbn [ntlm.AvPair.Value]. len.
Qed.

Lemma ti_size ti : ntlm.TargetInfo.Size ti = blen (ti_bytes ti).
Proof. unfold ntlm.TargetInfo.Size. rewrite ti_size_foldl. lia. Qed.

Lemma encode_pairs_splice ti off p :
  0 <= off -> off + blen (ti_bytes ti) <= blen p ->
  ntlm.TargetInfo.encode_pairs off ti p = Ok (splice off (ti_bytes ti) p).
Proof.
  revert off p. induction ti as [|[id v] ti IH]; intros off p Ho Hp.
  - cbn. by rewrite splice_nil.
  - rewrite ti_bytes_cons in *. rewrite blen_app, blen_pair in Hp.
    pose proof (blen_nonneg (ti_bytes ti)). pose proof (blen_nonneg v).
    cbn [ntlm.TargetInfo.encode_pairs ntlm.AvPair.AvID ntlm.AvPair.Value]. unfold eseq.
    repeat put_step. unfold copied. rewrite blen_splice, Z.min_l by len.
    replace (off + 4 + blen v) with (off + blen (pair_bytes (ntlm.AvPair.mk id v))) by len.
    assert (Hs : splice (off + 4) v (splice (off + 2) (le_enc 2 (blen v)) (splice off (le_enc 2 id) p))
      = splice off (pair_bytes (ntlm.AvPair.mk id v)) p).
    { replace (off + 4) with (off + blen (le_enc 2 id) + blen (le_enc 2 (blen v))) by len.
      replace (off + 2) with (off + blen (le_enc 2 id)) by len.
      by rewrite !splice_splice_next by len. }
    rewrite Hs, IH by len. by rewrite splice_splice_next by len.
Qed.

Lemma ti_encode ti n : blen (ti_bytes ti) <= n -> appends (ntlm.TargetInfo.Encode ti) [] (ti_bytes ti) n.
Proof.
  intros Hn. pose proof (blen_nonneg (ti_bytes ti)). split; [done|]. intros rest.
  unfold ntlm.TargetInfo.Encode. rewrite encode_pairs_splice by len.
  rewrite (splice_after [] 0) by lia. by rewrite Z.sub_0_r.
Qed.

(** The fields of the pair a block begins with. *)
Lemma pair_fields id v rest :
  pair_ok (ntlm.AvPair.mk id v) ->
  let b := pair_bytes (ntlm.AvPair.mk id v) ++ rest in
  le_dec (sub 0 2 b) = id /\ le_dec (sub 2 2 b) = blen v /\ sub 4 (blen v) b = v.
Proof.
  intros [Hid Hv] b. cbn in Hid, Hv. pose proof (blen_nonneg v).
  unfold b, pair_bytes. cbn [ntlm.AvPair.AvID ntlm.AvPair.Value]. rewrite <- !app_assoc. repeat split.
  - rewrite sub_app_l, sub_all by len. rewrite le_dec_enc2. by apply u16_id.
  - rewrite sub_app_r, sub_app_l, sub_all by len. rewrite le_dec_enc2. apply u16_id. unfold in16. lia.
  - rewrite !sub_app_r by len. rewrite sub_app_l, sub_all by len. done.
Qed.

Lemma av_loop_ok ti fuel off m :
  Forall pair_ok ti -> (length (ti_bytes ti) <= fuel)%nat ->
  ntlm.av_loop fuel off (ti_bytes ti) m = Some (ti_map off ti m).
Proof.
  intros Hok. revert fuel off m. induction Hok as [|[id v] ti Hp Hok IH]; intros fuel off m Hf; [by destruct fuel|].
  rewrite ti_bytes_cons in *. rewrite length_app in Hf. pose proof (blen_pair id v) as Hl. unfold blen in Hl.
  pose proof (blen_nonneg v). pose proof (blen_nonneg (ti_bytes ti)).
  destruct (pair_fields id v (ti_bytes ti) Hp) as (Hi & Hn & Hv).
  destruct fuel as [|fuel]; [lia|].
  assert (Hb : blen (pair_bytes (ntlm.AvPair.mk id v) ++ ti_bytes ti) = 4 + blen v + blen (ti_bytes ti)) by len.
  destruct (pair_bytes _ ++ ti_bytes ti) as [|c t] eqn:E; [rewrite blen_nil in Hb; lia|].
  cbn [ntlm.av_loop]. rewrite Hb, Hi, Hn, Hv. rewrite !(proj2 (Z.ltb_ge _ _)) by lia.
  rewrite <- E, from_app_exact by len. apply IH. lia.
Qed.

Lemma parse_ti ti :
  Forall pair_ok ti ->
  ntlm.parseAvPairs (ti_bytes (ti ++ [ntlm.AvPair.mk ntlm.MsvAvEOL []]))
  = Some (ti_map 0 (ti ++ [ntlm.AvPair.mk ntlm.MsvAvEOL []]) ∅).
Proof.
  intros Hok. set (e := ntlm.AvPair.mk ntlm.MsvAvEOL []).
  assert (He : ti_bytes (ti ++ [e]) = ti_bytes ti ++ zeros 4)
    by (unfold ti_bytes; rewrite fmap_app, concat_app; done).
  unfold ntlm.parseAvPairs. pose proof (blen_nonneg (ti_bytes ti)).
  rewrite He, (proj2 (Z.ltb_ge _ _)) by len.
  rewrite from_app_exact by len. change (negb (forallb _ (zeros 4))) with false. cbn match.
  rewrite <- He. apply av_loop_ok; [|lia]. apply Forall_app. split; [done|].
  apply Forall_singleton. done.
Qed.

(** A later pair of the same type wins. *)
Definition ti_values (ti : ntlm.TargetInfo.t) : gmap Z bytes :=
  foldl (fun m p => <[ntlm.AvPair.AvID p := ntlm.AvPair.Value p]> m) ∅ ti.

Lemma ti_map_values ti off m :
  snd <$> ti_map off ti m
  = foldl (fun m p => <[ntlm.AvPair.AvID p := ntlm.AvPair.Value p]> m) (snd <$> m) ti.
Proof.
  revert off m. induction ti as [|p ti IH]; intros off m; [done|]. cbn [ti_map foldl].
  by rewrite IH, fmap_insert.
Qed.

(** Target information survives the wire.  A block of pairs that ends
    with MsvAvEOL is encoded into exactly [Size] bytes, and [parseAvPairs] of
    these finds the value of every pair type (the last one, when a type is
    repeated). *)
Theorem target_info_roundtrip ti :
  Forall pair_ok ti ->
  let block := ti ++ [ntlm.AvPair.mk ntlm.MsvAvEOL []] in
  exists b m, ntlm.TargetInfo.Encode block (zeros (ntlm.TargetInfo.Size block)) = Ok b
    /\ blen b = ntlm.TargetInfo.Size block
    /\ ntlm.parseAvPairs b = Some m /\ snd <$> m = ti_values block.
Proof.
  intros Hok block. exists (ti_bytes block), (ti_map 0 block ∅). rewrite ti_size.
  repeat split.
  - rewrite (appends_all _ (ti_bytes block)) by (apply ti_encode; lia).
    by rewrite Z.sub_diag, app_nil_r.
  - by apply parse_ti.
  - by rewrite ti_map_values, fmap_empty.
Qed.

Lemma target_info_roundtrip_witness :
  let ti := [ntlm.AvPair.mk ntlm.MsvAvNbDomainName [0x44; 0]; ntlm.AvPair.mk ntlm.MsvAvTimestamp (zeros 8)] in
  let block := ti ++ [ntlm.AvPair.mk ntlm.MsvAvEOL []] in
  exists b m, ntlm.TargetInfo.Encode block (zeros 22) = Ok b /\ ntlm.parseAvPairs b = Some m
    /\ snd <$> m = ti_values block.
Proof.
  intros ti block. destruct (target_info_roundtrip ti) as (b & m & Hb & _ & Hm & Hv).
  - repeat constructor; vm_compute; try done; intros; discriminate.
  - exists b, m. auto.
Defined.

(** ** The two ends of a session agree

    [paired c s]: a client's and a server's session with the same keys, whose
    ciphers are in step. *)

Import ntlm.

Record paired (c s : Session.t) : Prop := mkPaired {
  paired_client : Session.isClientSide c = true;
  paired_server : Session.isClientSide s = false;
  paired_user : Session.user s = Session.user c;
  paired_flags : Session.negotiateFlags s = Session.negotiateFlags c;
  paired_key : Session.exportedSessionKey s = Session.exportedSessionKey c;
  paired_csign : Session.clientSigningKey s = Session.clientSigningKey c;
  paired_ssign : Session.serverSigningKey s = Session.serverSigningKey c;
  paired_chandle : Session.clientHandle s = Session.clientHandle c;
  paired_shandle : Session.serverHandle s = Session.serverHandle c
}.

(** What one end signs with is what the other one checks with. *)
Lemma mac_paired_client c s tag n m :
  paired c s ->
  match Session.mac_own tag n m c, Session.mac_peer tag n m s with
  | (t, k, c'), (t', k', s') => t' = t /\ k' = k /\ paired c' s'
  end.
Proof.
  intros []. unfold Session.mac_own, Session.mac_peer, Session.mac_client.
  rewrite paired_client0, paired_server0, paired_flags0, paired_chandle0, paired_csign0.
  destruct (mac _ _ _ _ _ _) as [[t k] h]. do 2 (split; [done|]). by constructor.
Qed.

Lemma mac_paired_server c s tag n m :
  paired c s ->
  match Session.mac_own tag n m s, Session.mac_peer tag n m c with
  | (t, k, s'), (t', k', c') => t' = t /\ k' = k /\ paired c' s'
  end.
Proof.
  intros []. unfold Session.mac_own, Session.mac_peer, Session.mac_server.
  rewrite paired_client0, paired_server0, paired_flags0, paired_shandle0, paired_ssign0.
  destruct (mac _ _ _ _ _ _) as [[t k] h]. do 2 (split; [done|]). by constructor.
Qed.

(** A signature made at one end is accepted at the other, which then expects
    the same next sequence number. *)
Lemma sum_accepted_at_server c s m n :
  paired c s ->
  match Session.Sum m n c with
  | (sum, k, c') => exists s', Session.CheckSum sum m n s = (true, k, s') /\ paired c' s'
  end.
Proof.
  intros Hp. unfold Session.Sum, Session.CheckSum. rewrite (paired_flags _ _ Hp).
  destruct (negb _) eqn:E; [by exists s|]. pose proof (mac_paired_client c s (zeros 16) n m Hp) as H.
  destruct (Session.mac_own _ _ _ c) as [[t k] c'], (Session.mac_peer _ _ _ s) as [[t' k'] s'].
  destruct H as (-> & -> & H). exists s'. by rewrite bool_decide_true.
Qed.

Lemma sum_accepted_at_client c s m n :
  paired c s ->
  match Session.Sum m n s with
  | (sum, k, s') => exists c', Session.CheckSum sum m n c = (true, k, c') /\ paired c' s'
  end.
Proof.
  intros Hp. unfold Session.Sum, Session.CheckSum. rewrite (paired_flags _ _ Hp).
  destruct (negb _) eqn:E; [by exists c|]. pose proof (mac_paired_server c s (zeros 16) n m Hp) as H.
  destruct (Session.mac_own _ _ _ s) as [[t k] s'], (Session.mac_peer _ _ _ c) as [[t' k'] c'].
  destruct H as (-> & -> & H). exists c'. by rewrite bool_decide_true.
Qed.

(** A conversation: messages from either end, each signed by its sender and
    checked by the other.  Each direction has its own sequence number. *)
Fixpoint conversation (msgs : list (bool * bytes)) (nc ns : Z) (c s : Session.t) : bool :=
  match msgs with
  | [] => true
  | (true, m) :: msgs =>
      let '(sum, k, c) := Session.Sum m nc c in
      let '(ok, k', s) := Session.CheckSum sum m nc s in
      ok && (k =? k') && conversation msgs k ns c s
  | (false, m) :: msgs =>
      let '(sum, k, s) := Session.Sum m ns s in
      let '(ok, k', c) := Session.CheckSum sum m ns c in
      ok && (k =? k') && conversation msgs nc k c s
  end.

Lemma rc4_keystream_app m n c :
  rc4.keystream (m + n) c
  = (fst (rc4.keystream m c) ++ fst (rc4.keystream n (snd (rc4.keystream m c))),
     snd (rc4.keystream n (snd (rc4.keystream m c)))).
Proof.
  revert c. induction m as [|m IH]; intros c; cbn [rc4.keystream Nat.add].
  - cbn [fst snd app]. by destruct (rc4.keystream n c).
  - destruct (rc4.next c) as [k c1]. rewrite IH. destruct (rc4.keystream m c1). reflexivity.
Qed.

Lemma list_4 (l : bytes) : length l = 4%nat -> exists a b c d, l = [a; b; c; d].
Proof. destruct l as [|? [|? [|? [|? [|]]]]]; try done. eauto. Qed.

(** *** What a signature is

    [MS-NLMP] 2.2.2.9: the version, a checksum and the sequence number.  With
    extended session security the checksum is the start of the HMAC-MD5 of
    the number and the message, encrypted when a key was exchanged; without,
    it is the CRC-32 of the message, encrypted, and so is the number, behind
    four encrypted bytes that are then wiped.  [ks] is the stream that the
    RC4 cipher gives for one message, of [width] bytes. *)
Definition next_seq (flags seqNum : Z) : Z :=
  if negb (has flags NTLMSSP_NEGOTIATE_EXTENDED_SESSIONSECURITY) && has flags NTLMSSP_NEGOTIATE_DATAGRAM
  then seqNum else u32 (seqNum + 1).
Definition width (flags : Z) : nat :=
  if has flags NTLMSSP_NEGOTIATE_EXTENDED_SESSIONSECURITY
  then if has flags NTLMSSP_NEGOTIATE_KEY_EXCH then 8%nat else 0%nat else 12%nat.
Definition signature_of (flags : Z) (ks key : bytes) (seqNum : Z) (msg : bytes) : bytes :=
  if has flags NTLMSSP_NEGOTIATE_EXTENDED_SESSIONSECURITY then
    let checksum := upto 8 (hmac.Sum key (le_enc 4 seqNum ++ msg)) in
    le_enc 4 1 ++ (if has flags NTLMSSP_NEGOTIATE_KEY_EXCH then xor_bytes checksum ks else checksum)
      ++ le_enc 4 seqNum
  else
    le_enc 4 1 ++ zeros 4 ++ xor_bytes (le_enc 4 (crc32.ChecksumIEEE msg)) (sub 4 4 ks)
      ++ xor_bytes (le_enc 4 seqNum) (sub 8 4 ks).

(** [mac] computes that signature. *)
Lemma list_8 (l : bytes) : length l = 8%nat -> exists a b c d e f g h, l = [a; b; c; d; e; f; g; h].
Proof. destruct l as [|? [|? [|? [|? [|? [|? [|? [|? [|]]]]]]]]]; try done. eauto 20. Qed.

(** One call of [XORKeyStream]. *)
Lemma xor_in_place_keystream a b tag h k :
  length (sub a (b - a) tag) = k ->
  xor_in_place a b tag h
  = (splice a (xor_bytes (sub a (b - a) tag) (fst (rc4.keystream k h))) tag, snd (rc4.keystream k h)).
Proof. intros <-. unfold xor_in_place, rc4.xor_stream. by destruct (rc4.keystream _ _). Qed.

Lemma mac_signature flags h key n m :
  mac (zeros 16) flags h key n m
  = (signature_of flags (fst (rc4.keystream (width flags) h)) key n m, next_seq flags n,
     snd (rc4.keystream (width flags) h)).
Proof.
  unfold mac, signature_of, next_seq, width.
  destruct (list_4 (le_enc 4 n)) as (n1 & n2 & n3 & n4 & ->); [done|]. change (le_enc 4 1) with [1; 0; 0; 0].
  destruct (has flags NTLMSSP_NEGOTIATE_EXTENDED_SESSIONSECURITY); cbn [negb andb].
  - change (sub 12 4 _) with [n1; n2; n3; n4].
    destruct (list_8 (upto 8 (hmac.Sum key ([n1; n2; n3; n4] ++ m)))) as (c1 & c2 & c3 & c4 & c5 & c6 & c7 & c8 & ->).
    { pose proof (hmac.blen_hmac key ([n1; n2; n3; n4] ++ m)) as Hb. unfold blen, upto in *. rewrite length_take. lia. }
    destruct (has flags NTLMSSP_NEGOTIATE_KEY_EXCH); [|reflexivity].
    rewrite (xor_in_place_keystream 4 12 _ h 8) by reflexivity.
    destruct (list_8 _ (rc4.length_rc4_keystream 8 h)) as (k1 & k2 & k3 & k4 & k5 & k6 & k7 & k8 & ->).
    reflexivity.
  - destruct (list_4 (le_enc 4 (crc32.ChecksumIEEE m))) as (c1 & c2 & c3 & c4 & ->); [done|].
    rewrite (xor_in_place_keystream 4 8 _ h 4) by reflexivity.
    rewrite (xor_in_place_keystream 8 12 _ _ 4) by reflexivity.
    rewrite (xor_in_place_keystream 12 16 _ _ 4) by reflexivity.
    change 12%nat with (4 + (4 + 4))%nat. rewrite !rc4_keystream_app. cbn [fst snd].
    destruct (list_4 _ (rc4.length_rc4_keystream 4 h)) as (a1 & a2 & a3 & a4 & ->).
    set (h1 := snd (rc4.keystream 4 h)). set (h2 := snd (rc4.keystream 4 h1)).
    destruct (list_4 _ (rc4.length_rc4_keystream 4 h1)) as (b1 & b2 & b3 & b4 & ->).
    destruct (list_4 _ (rc4.length_rc4_keystream 4 h2)) as (d1 & d2 & d3 & d4 & ->).
    destruct (has flags NTLMSSP_NEGOTIATE_DATAGRAM); do 2 f_equal.
    all: transitivity [1; 0; 0; 0; 0; 0; 0; 0; Z.lxor c1 b1; Z.lxor c2 b2; Z.lxor c3 b3; Z.lxor c4 b4;
      Z.lxor d1 n1; Z.lxor d2 n2; Z.lxor d3 n3; Z.lxor d4 n4]; [reflexivity|].
    all: by rewrite (Z.lxor_comm d1), (Z.lxor_comm d2), (Z.lxor_comm d3), (Z.lxor_comm d4).
Qed.

(** The signature of the message that [k] signed messages precede, with the
    cipher that started as [h]. *)
Definition signed (flags : Z) (h : rc4.Cipher) (key : bytes) (k : nat) (seqNum : Z) (msg : bytes) : bytes :=
  signature_of flags (fst (rc4.keystream (width flags) (snd (rc4.keystream (k * width flags) h)))) key seqNum msg.

Lemma signed_next flags h key k n :
  signed flags (snd (rc4.keystream (width flags) h)) key k n = signed flags h key (S k) n.
Proof. unfold signed. cbn [Nat.mul]. by rewrite rc4_keystream_app. Qed.

Section sides.
Context (x : Session.t) (Hsign : has (Session.negotiateFlags x) NTLMSSP_NEGOTIATE_SIGN = true).
#[local] Abbreviation f := (Session.negotiateFlags x).
#[local] Abbreviation ks h := (fst (rc4.keystream (width f) h)).
#[local] Abbreviation past h := (snd (rc4.keystream (width f) h)).

Lemma Sum_client m n : Session.isClientSide x = true ->
  Session.Sum m n x = (Some (signature_of f (ks (Session.clientHandle x)) (Session.clientSigningKey x) n m),
    next_seq f n, Session.set_clientHandle (past (Session.clientHandle x)) x).
Proof.
  intros Hc. unfold Session.Sum, Session.mac_own, Session.mac_client. by rewrite Hsign, Hc, mac_signature.
Qed.
Lemma Sum_server m n : Session.isClientSide x = false ->
  Session.Sum m n x = (Some (signature_of f (ks (Session.serverHandle x)) (Session.serverSigningKey x) n m),
    next_seq f n, Session.set_serverHandle (past (Session.serverHandle x)) x).
Proof.
  intros Hc. unfold Session.Sum, Session.mac_own, Session.mac_server. by rewrite Hsign, Hc, mac_signature.
Qed.

Lemma sum_is (u : option bytes) (t : bytes) : t <> [] -> default [] u = t <-> u = Some t.
Proof. intros Ht. destruct u; cbn; split; congruence. Qed.

Lemma signature_of_some flags k key n m : signature_of flags k key n m <> [].
Proof. unfold signature_of. by destruct (has flags NTLMSSP_NEGOTIATE_EXTENDED_SESSIONSECURITY). Qed.

Lemma CheckSum_server u m n : Session.isClientSide x = false ->
  fst (fst (Session.CheckSum u m n x)) = true
  <-> u = Some (signature_of f (ks (Session.clientHandle x)) (Session.clientSigningKey x) n m).
Proof.
  intros Hc. unfold Session.CheckSum, Session.mac_peer, Session.mac_client. rewrite Hsign, Hc, mac_signature.
  cbn [negb]. rewrite <- (sum_is u) by apply signature_of_some. case_bool_decide; cbn [fst]; intuition congruence.
Qed.
Lemma CheckSum_client u m n : Session.isClientSide x = true ->
  fst (fst (Session.CheckSum u m n x)) = true
  <-> u = Some (signature_of f (ks (Session.serverHandle x)) (Session.serverSigningKey x) n m).
Proof.
  intros Hc. unfold Session.CheckSum, Session.mac_peer, Session.mac_server. rewrite Hsign, Hc, mac_signature.
  cbn [negb]. rewrite <- (sum_is u) by apply signature_of_some. case_bool_decide; cbn [fst]; intuition congruence.
Qed.
End sides.

(** Where the two ends are after a conversation. *)
Fixpoint after (msgs : list (bool * bytes)) (nc ns : Z) (c s : Session.t) : Z * Z * Session.t * Session.t :=
  match msgs with
  | [] => (nc, ns, c, s)
  | (true, m) :: msgs =>
      let '(sum, k, c) := Session.Sum m nc c in
      let '(_, _, s) := Session.CheckSum sum m nc s in after msgs k ns c s
  | (false, m) :: msgs =>
      let '(sum, k, s) := Session.Sum m ns s in
      let '(_, _, c) := Session.CheckSum sum m ns c in after msgs nc k c s
  end.
(** The messages that one end sent. *)
Definition sent (from_client : bool) (msgs : list (bool * bytes)) : nat :=
  length (filter (fun p => fst p = from_client) msgs).

Lemma sent_cons d d' m msgs : sent d ((d', m) :: msgs) = if bool_decide (d' = d) then S (sent d msgs) else sent d msgs.
Proof. unfold sent. rewrite filter_cons. cbn [fst]. by repeat case_decide. Qed.

(** The next message of either end has the signature [tc m], or [ts m]. *)
Definition expects (nc ns : Z) (c s : Session.t) (tc ts : bytes -> bytes) : Prop :=
  (forall m, fst (fst (Session.Sum m nc c)) = Some (tc m)
    /\ forall u, fst (fst (Session.CheckSum u m nc s)) = true <-> u = Some (tc m))
  /\ (forall m, fst (fst (Session.Sum m ns s)) = Some (ts m)
    /\ forall u, fst (fst (Session.CheckSum u m ns c)) = true <-> u = Some (ts m)).

Lemma expects_now nc ns c s :
  paired c s -> has (Session.negotiateFlags c) NTLMSSP_NEGOTIATE_SIGN = true ->
  expects nc ns c s
    (signed (Session.negotiateFlags c) (Session.clientHandle c) (Session.clientSigningKey c) 0 nc)
    (signed (Session.negotiateFlags c) (Session.serverHandle c) (Session.serverSigningKey c) 0 ns).
Proof.
  intros Hp Hs. destruct Hp as [Hc Hsv _ Hf _ Hcs Hss Hch Hsh].
  assert (Hs' : has (Session.negotiateFlags s) NTLMSSP_NEGOTIATE_SIGN = true) by congruence.
  unfold signed. cbn [Nat.mul rc4.keystream snd]. split; intros m; split.
  - by rewrite Sum_client.
  - intros u. rewrite CheckSum_server by done. by rewrite Hf, Hcs, Hch.
  - rewrite Sum_server by done. cbn [fst]. by rewrite Hf, Hss, Hsh.
  - intros u. by rewrite CheckSum_client.
Qed.

Lemma after_expects msgs nc ns c s :
  paired c s -> has (Session.negotiateFlags c) NTLMSSP_NEGOTIATE_SIGN = true ->
  let f := Session.negotiateFlags c in
  let '(nc', ns', c', s') := after msgs nc ns c s in
  expects nc' ns' c' s'
    (signed f (Session.clientHandle c) (Session.clientSigningKey c) (sent true msgs)
       (Nat.iter (sent true msgs) (next_seq f) nc))
    (signed f (Session.serverHandle c) (Session.serverSigningKey c) (sent false msgs)
       (Nat.iter (sent false msgs) (next_seq f) ns)).
Proof.
  cbv zeta. revert nc ns c s. induction msgs as [|[[] m] msgs IH]; intros nc ns c s Hp Hs; cbn [after].
  - by apply expects_now.
  - pose proof (sum_accepted_at_server c s m nc Hp) as H. rewrite Sum_client in * by (try apply Hp; done).
    destruct H as (s' & -> & Hp'). specialize (IH (next_seq (Session.negotiateFlags c) nc) ns _ s' Hp').
    cbn [Session.negotiateFlags Session.set_clientHandle Session.clientHandle Session.serverHandle
         Session.clientSigningKey Session.serverSigningKey] in IH. specialize (IH Hs).
    rewrite signed_next, <- Nat.iter_succ_r in IH. rewrite !sent_cons. exact IH.
  - pose proof (sum_accepted_at_client c s m ns Hp) as H.
    rewrite Sum_server in * by (rewrite ?(paired_flags c s Hp); first [done|apply Hp]).
    rewrite (paired_flags c s Hp), (paired_shandle c s Hp) in *.
    destruct H as (c' & -> & Hp'). specialize (IH nc (next_seq (Session.negotiateFlags c) ns) c' _ Hp').
    pose proof (paired_flags _ _ Hp') as F. cbn in F. rewrite (paired_flags c s Hp) in F. rewrite <- F in *.
    pose proof (paired_csign _ _ Hp') as F1. cbn in F1. rewrite (paired_csign c s Hp) in F1. rewrite <- F1 in IH.
    pose proof (paired_ssign _ _ Hp') as F2. cbn in F2. rewrite (paired_ssign c s Hp) in F2. rewrite <- F2 in IH.
    pose proof (paired_chandle _ _ Hp') as F3. cbn in F3. rewrite (paired_chandle c s Hp) in F3. rewrite <- F3 in IH.
    pose proof (paired_shandle _ _ Hp') as F4. cbn in F4. rewrite <- F4 in IH.
    specialize (IH Hs).
    rewrite signed_next, <- Nat.iter_succ_r in IH. rewrite !sent_cons. exact IH.
Qed.

Lemma conversation_accepted msgs nc ns c s : paired c s -> conversation msgs nc ns c s = true.
Proof.
  revert nc ns c s. induction msgs as [|[[] m] msgs IH]; intros nc ns c s Hp; cbn [conversation]; [done|..].
  - pose proof (sum_accepted_at_server c s m nc Hp) as H.
    destruct (Session.Sum m nc c) as [[sum k] c']. destruct H as (s' & -> & Hp').
    rewrite Z.eqb_refl. cbn [andb]. by apply IH.
  - pose proof (sum_accepted_at_client c s m ns Hp) as H.
    destruct (Session.Sum m ns s) as [[sum k] s']. destruct H as (c' & -> & Hp').
    rewrite Z.eqb_refl. cbn [andb]. by apply IH.
Qed.

(** C25: signed conversations verify, and nothing else does.  Once the two
    ends of a session agree, every message that one of them signs is accepted
    by the other, for any messages in any order of directions, whatever was
    negotiated.  When signing was, then after any such conversation the
    signature that [Sum] gives the next message of either end is the one of
    [MS-NLMP]: version, checksum of the message and of the sequence number
    under the sender's signing key, encrypted with the sender's RC4 stream at
    the place where the messages sent before leave it, and the sequence
    number, which counts those messages; and [CheckSum] of the other end
    accepts, for that message and number, that signature and no other. *)
Theorem conversation_verifies msgs nc ns c s :
  paired c s ->
  conversation msgs nc ns c s = true
  /\ (has (Session.negotiateFlags c) NTLMSSP_NEGOTIATE_SIGN = true ->
      let f := Session.negotiateFlags c in
      let '(nc', ns', c', s') := after msgs nc ns c s in
      expects nc' ns' c' s'
        (signed f (Session.clientHandle c) (Session.clientSigningKey c) (sent true msgs)
           (Nat.iter (sent true msgs) (next_seq f) nc))
        (signed f (Session.serverHandle c) (Session.serverSigningKey c) (sent false msgs)
           (Nat.iter (sent false msgs) (next_seq f) ns))).
Proof.
  intros Hp. split; [by apply conversation_accepted|]. intros Hs. by apply after_expects.
Qed.

Lemma newSession_fields b user flags key im x :
  newSession b user flags key im = Ok x ->
  Session.negotiateFlags x = flags /\ Session.user x = user /\ Session.exportedSessionKey x = key.
Proof.
  unfold newSession. destruct (sealKey flags key true) as [ck| |]; [|done..].
  cbn [obind]. destruct (rc4.NewCipher ck); [|done..].
  cbn [obind]. destruct (sealKey flags key false) as [sk| |]; [|done..].
  cbn [obind]. destruct (rc4.NewCipher sk); [|done..]. by intros [= <-].
Qed.

(** The two sessions that one key gives. *)
Lemma newSession_paired user flags key im c s :
  newSession true user flags key im = Ok c -> newSession false user flags key ∅ = Ok s -> paired c s.
Proof.
  unfold newSession. destruct (sealKey flags key true) as [ck| |]; [|done..].
  cbn [obind]. destruct (rc4.NewCipher ck); [|done..].
  cbn [obind]. destruct (sealKey flags key false) as [sk| |]; [|done..].
  cbn [obind]. destruct (rc4.NewCipher sk); [|done..]. cbn [obind].
  intros [= <-] [= <-]. by constructor.
Qed.

Definition toy_sessions (flags : Z) : outcome (Session.t * Session.t) :=
  let! c := newSession true [0x75] flags test_key ∅ in
  let! s := newSession false [0x75] flags test_key ∅ in
  Ok (c, s).

Lemma toy_sessions_paired flags c s : toy_sessions flags = Ok (c, s) -> paired c s.
Proof.
  unfold toy_sessions. destruct (newSession true _ _ _ _) as [c'| |] eqn:Ec; [|done..]. cbn [obind].
  destruct (newSession false _ _ _ _) as [s'| |] eqn:Es; [|done..]. intros [= <- <-].
  by eapply newSession_paired.
Qed.

Lemma toy_sessions_flags flags c s : toy_sessions flags = Ok (c, s) -> Session.negotiateFlags c = flags.
Proof.
  unfold toy_sessions. destruct (newSession true _ _ _ _) as [c'| |] eqn:Ec; [|done..]. cbn [obind].
  destruct (newSession false _ _ _ _) as [s'| |]; [|done..]. intros [= <- _].
  by eapply newSession_fields.
Qed.

Lemma toy_sessions_ok : is_ok (toy_sessions defaultFlags) = true.
Proof. vm_compute. reflexivity. Qed.

(** After three messages, the client's third carries the number 9. *)
Lemma conversation_verifies_witness :
  match toy_sessions defaultFlags with
  | Ok (c, s) =>
      conversation [(true, [1; 2; 3]); (false, []); (true, [4])] 7 0 c s = true
      /\ let '(nc', ns', c', s') := after [(true, [1; 2; 3]); (false, []); (true, [4])] 7 0 c s in
         fst (fst (Session.Sum [5] nc' c'))
         = Some (signed defaultFlags (Session.clientHandle c) (Session.clientSigningKey c) 2 9 [5])
  | _ => False
  end.
Proof.
  destruct (toy_sessions defaultFlags) as [[c s]| |] eqn:E;
    [|pose proof toy_sessions_ok as Hk; rewrite E in Hk; discriminate Hk..].
  pose proof (toy_sessions_flags _ _ _ E) as Hf.
  destruct (conversation_verifies [(true, [1; 2; 3]); (false, []); (true, [4])] 7 0 c s) as [Hc Ha].
  - by eapply toy_sessions_paired.
  - split; [exact Hc|]. rewrite Hf in Ha. specialize (Ha eq_refl).
    destruct (after _ _ _ _ _) as [[[nc' ns'] c'] s']. destruct Ha as [Ha _].
    exact (proj1 (Ha [5])).
Defined.

(** *** Seal and Unseal *)

Lemma blen_xor_in_place a b tag h : blen (fst (xor_in_place a b tag h)) = blen tag.
Proof. unfold xor_in_place. destruct (rc4.xor_stream _ _). apply blen_splice. Qed.

Lemma blen_mac tag flags h key n m : blen (fst (fst (mac tag flags h key n m))) = blen tag.
Proof.
  unfold mac. destruct (negb _).
  - repeat match goal with
    | |- context [xor_in_place ?a ?b ?t ?h] =>
        let E := fresh in pose proof (blen_xor_in_place a b t h) as E; destruct (xor_in_place a b t h) as [? ?];
        cbn [fst] in E
    end. cbn [fst]. rewrite !blen_splice in *. congruence.
  - destruct (has _ _); [|cbn [fst]; by rewrite !blen_splice].
    match goal with |- context [xor_in_place ?a ?b ?t ?h] =>
      pose proof (blen_xor_in_place a b t h) as E; destruct (xor_in_place a b t h) as [? ?] end.
    cbn [fst] in *. by rewrite !blen_splice in E.
Qed.

Lemma blen_mac_own tag n m s : blen (fst (fst (Session.mac_own tag n m s))) = blen tag.
Proof.
  unfold Session.mac_own, Session.mac_client, Session.mac_server.
  destruct (Session.isClientSide s); match goal with |- context [mac ?t ?f ?h ?k ?n ?m] =>
    rewrite <- (blen_mac t f h k n m); by destruct (mac t f h k n m) as [[? ?] ?] end.
Qed.

(** A slice without spare capacity is copied. *)
Lemma sliceForAppend_fresh d n : 0 <= n -> sliceForAppend (of_bytes d) n = Ok (d ++ zeros n).
Proof.
  intros Hn. pose proof (blen_nonneg d). unfold sliceForAppend. cbn [of_bytes s_len].
  rewrite s_cap_of_bytes. destruct (Z.leb_spec (blen d + n) (blen d)).
  - assert (n = 0) as -> by lia. rewrite s_range_ok by len. cbn [obind of_bytes s_arr].
    rewrite Z.sub_0_r, Z.add_0_r. unfold s_bytes. cbn [s_arr s_len]. rewrite from_0, upto_all by lia.
    rewrite Z.leb_refl. by rewrite app_nil_r.
  - cbn [obind]. rewrite s_bytes_of_bytes, zeros_app by lia.
    replace (splice 0 d (zeros (blen d) ++ zeros n)) with (d ++ zeros n)
      by (by rewrite splice_app_l, splice_full by len).
    by rewrite (proj2 (Z.leb_le _ _)) by len.
Qed.

(** Sealing with signatures only is undone by the other end.  When
    signing but not sealing was negotiated, what a client seals is appended
    to its buffer as signature and plaintext, the server gets the plaintext
    back, and both ends stay in step. *)
Theorem signed_seal_roundtrip d e plaintext n c s :
  paired c s -> has (Session.negotiateFlags c) NTLMSSP_NEGOTIATE_SEAL = false ->
  has (Session.negotiateFlags c) NTLMSSP_NEGOTIATE_SIGN = true ->
  exists sealed k c' s', Session.Seal (of_bytes d) plaintext n c = Ok (d ++ sealed, k, c')
    /\ blen sealed = blen plaintext + Session.Overhead c
    /\ Session.Unseal (of_bytes e) (of_bytes sealed) n s = (Ok (e ++ plaintext, k), s')
    /\ paired c' s'.
Proof.
  intros Hp Hseal Hsign. pose proof (blen_nonneg plaintext). pose proof (blen_nonneg d).
  pose proof (blen_nonneg e). pose proof (mac_paired_client c s (zeros 16) n plaintext Hp) as Hm.
  pose proof (blen_mac_own (zeros 16) n plaintext c) as Hl.
  unfold Session.Seal, Session.Unseal. rewrite (paired_flags _ _ Hp), Hseal, Hsign.
  rewrite sliceForAppend_fresh by lia. cbn [obind of_bytes s_len].
  replace (d ++ zeros (blen plaintext + 16)) with (d ++ zeros 16 ++ zeros (blen plaintext) ++ [])
    by (by rewrite app_nil_r, <- zeros_app, (Z.add_comm 16) by lia).
  rewrite (app_assoc d), splice_mid, app_nil_r by len. rewrite <- app_assoc.
  rewrite sub_app_r, Z.sub_diag, sub_app_l, sub_all by len.
  destruct (Session.mac_own (zeros 16) n plaintext c) as [[tag k] c'].
  destruct (Session.mac_peer (zeros 16) n plaintext s) as [[tag' k'] s'] eqn:Ep.
  destruct Hm as (-> & -> & Hp'). cbn [fst] in Hl. rewrite blen_zeros in Hl by done.
  exists (tag ++ plaintext), k, c', s'. split; [|split; [|split]]; [| |rewrite s_bytes_of_bytes|done].
  - by rewrite splice_mid by len.
  - unfold Session.Overhead. len.
  - rewrite from_app_exact, upto_app_exact, blen_app by lia.
    rewrite sliceForAppend_fresh by lia. rewrite Ep, bool_decide_true by done.
    replace (blen tag + blen plaintext - 16) with (blen plaintext) by lia.
    rewrite <- (app_nil_r (zeros (blen plaintext))), splice_mid by len. by rewrite app_nil_r.
Qed.

Lemma signed_seal_roundtrip_witness :
  match toy_sessions defaultFlags with
  | Ok (c, s) => exists sealed k c' s',
      Session.Seal (of_bytes []) [1; 2; 3] 0 c = Ok (sealed, k, c')
      /\ Session.Unseal (of_bytes []) (of_bytes sealed) 0 s = (Ok ([1; 2; 3], k), s')
  | _ => False
  end.
Proof.
  destruct (toy_sessions defaultFlags) as [[c s]| |] eqn:E;
    [|pose proof toy_sessions_ok as Hk; rewrite E in Hk; discriminate Hk..].
  pose proof (toy_sessions_flags _ _ _ E) as Hf.
  destruct (signed_seal_roundtrip [] [] [1; 2; 3] 0 c s) as (sealed & k & c' & s' & H1 & _ & H2 & _).
  - by eapply toy_sessions_paired.
  - rewrite Hf. vm_compute. reflexivity.
  - rewrite Hf. vm_compute. reflexivity.
  - exists sealed, k, c', s'. split; [exact H1|exact H2].
Defined.

(** What [receiver] makes of what [sender] seals. *)
Definition seal_unseal (m : bytes) (sender receiver : Session.t) : outcome (bytes * Z) :=
  let! (x, _, _) := Session.Seal nil_slice m 0 sender in
  fst (Session.Unseal nil_slice (of_bytes x) 0 receiver).

(** Sealing with encryption is not undone by the other end.  [Seal]
    always encrypts with the cipher of the client's direction and [Unseal]
    always decrypts with that of the server's, whichever end runs them: with
    sealing negotiated, in a session whose two ends agree, neither end can
    open what the other sealed. *)
Theorem sealed_message_rejected :
  (let! (c, s) := toy_sessions (Z.lor defaultFlags NTLMSSP_NEGOTIATE_SEAL) in
   Ok (seal_unseal [1; 2; 3] c s, seal_unseal [1; 2; 3] s c))
  = Ok (Err (ErrOther "signature mismatch"), Err (ErrOther "signature mismatch")).
Proof. vm_compute. reflexivity. Qed.
