(* ===== verification/NtlmAuth.v ===== *)
(** * The NTLM handshake, and NTLM as an authentication mechanism

    What the server's acceptance of a message means, that the client of
    internal/ntlm and its server agree, and [NTLMAuthenticator]
    (server/authenticator.go) as an instance of the [Authenticator] interface
    of Spnego. *)

From S2P Require Import Prelude Utf16 Dtyp Cipher Digest SpnegoToken Spnego Ntlm.
Import ntlm.

Lemma blen_signature : blen signature = 8.
Proof. done. Qed.
Lemma blen_version : blen version = 8.
Proof. done. Qed.
#[export] Hint Rewrite blen_signature blen_version : blen.

(** ** The response *)

Lemma appends_copy_range a b g x bs n :
  a = blen x + g -> 0 <= g -> blen bs = b - a -> g + blen bs <= n ->
  appends (copy_range a b bs) x (zeros g ++ bs) n.
Proof.
  intros -> Hg Hb Hn. pose proof (blen_nonneg bs). pose proof (blen_nonneg x).
  destruct (appends_copy (blen x + g) g x bs n) as [Hl Hc]; [done..|]. split; [done|]. intros rest.
  rewrite <- Hc. rewrite copy_range_ok, copy_from_ok by len. done.
Qed.

(** The client challenge structure of a response. *)
Definition blob (timeStamp clientChallenge info : bytes) : bytes :=
  [1; 1] ++ zeros 6 ++ timeStamp ++ clientChallenge ++ zeros 4 ++ info.

Lemma blen_blob t c i : blen (blob t c i) = 12 + blen t + blen c + blen i.
Proof. unfold blob. len. Qed.
#[export] Hint Rewrite blen_blob : blen.

(** What the server expects: the keyed hash of its challenge and the blob,
    and the blob. *)
Definition response (key serverChallenge b : bytes) : bytes := hmac.Sum key (serverChallenge ++ b) ++ b.

Lemma encode_response key sc cc ts ti info n :
  blen ts = 8 -> blen cc = 8 -> appends ti [] info n ->
  encodeNtlmv2Response key sc cc ts ti (zeros (44 + n))
  = Ok (response key sc (blob ts cc (info ++ zeros (n - blen info)))).
Proof.
  intros Hts Hcc Hti. assert (0 <= n) by (destruct Hti; pose proof (blen_nonneg info); lia).
  assert (Hb : blen info <= n) by apply Hti. pose proof (blen_nonneg info).
  unfold encodeNtlmv2Response.
  assert (Ha : appends (put8 0 1 >> put8 1 1 >> copy_range 8 16 ts >> copy_range 16 24 cc >> at_ 28 ti) []
    ([1] ++ [1] ++ (zeros 6 ++ ts) ++ cc ++ (zeros 4 ++ info)) (28 + n)).
  { do 4 (apply appends_seq;
      [first [apply appends_put8; len | apply appends_copy_range; len
             | apply (appends_copy_range _ _ 0); len]|]).
    apply appends_at; [len..|]. by replace (28 + n - _ - _ - _ - _ - 4) with n by len. }
  replace (44 + n) with (16 + (28 + n)) by lia. rewrite (zeros_app 16) by lia.
  set (b := blob ts cc (info ++ zeros (n - blen info))).
  rewrite (at_ok _ _ _ b); [|len|len|].
  - cbn [obind]. rewrite upto_app_exact, from_app_exact by len. rewrite put_ok by (subst b; len).
    f_equal. apply (splice_mid 0 [] _ (zeros 16)); [done|len].
  - rewrite from_app_exact by len. rewrite (appends_all _ _ _ Ha). f_equal. subst b. unfold blob.
    rewrite <- !app_assoc. cbn [app]. do 7 f_equal. len_norm. f_equal. lia.
Qed.

(** ** What acceptance means *)

Ltac ok_inv H :=
  match type of H with
  | obind ?m ?k = Ok _ => let E := fresh "E" in destruct m as [?| |] eqn:E; cbn [obind] in H; [|discriminate H..]
  | (if ?c then _ else _) = Ok _ => let E := fresh "E" in destruct c eqn:E; try discriminate H
  end.

Lemma s_from_inv s a t :
  s_from s a = Ok t -> 0 <= a <= s_len s /\ t = mkSlice (from a (s_arr s)) (s_len s - a).
Proof.
  unfold s_from. destruct (_ && _) eqn:E; [|done]. intros [= <-].
  rewrite andb_true_iff, !Z.leb_le in E. by destruct E.
Qed.

Lemma payload_inv msg a e r :
  slice_wf msg -> payload msg a e = Ok r -> slice_wf r.
Proof.
  intros Hwf H. unfold payload in H. repeat ok_inv H. by apply s_range_wf in H as [? _].
Qed.

(** The bytes of a response that are checked: all of them. *)
Lemma expected_response key sc r cc0 t c i expected :
  slice_wf r -> s_from r 16 = Ok cc0 -> s_range cc0 8 16 = Ok t -> s_range cc0 16 24 = Ok c ->
  s_from cc0 28 = Ok i ->
  encodeNtlmv2Response key sc (s_bytes c) (s_bytes t) (encode (bytesEncoder (s_bytes i))) (zeros (s_len r))
    = Ok expected ->
  blen (s_bytes t) = 8 /\ blen (s_bytes c) = 8
  /\ expected = response key sc (blob (s_bytes t) (s_bytes c) (s_bytes i)).
Proof.
  intros Hr H16 Ht Hc Hi He.
  destruct (s_from_wf _ _ _ Hr H16) as [Hw Hl]. apply s_range_wf in Ht as [Htw Htl].
  apply s_range_wf in Hc as [Hcw Hcl].
  assert (Hb : 28 <= s_len cc0) by (apply s_from_inv in Hi; lia).
  destruct (s_from_wf _ _ _ Hw Hi) as [Hiw Hil].
  pose proof (blen_s_bytes t Htw). pose proof (blen_s_bytes c Hcw). pose proof (blen_s_bytes i Hiw) as Hib.
  split; [lia|]. split; [lia|].
  replace (s_len r) with (44 + blen (s_bytes i)) in He by lia.
  rewrite (encode_response _ _ _ _ _ (s_bytes i)) in He; [|lia|lia|apply appends_copy0; [done|lia]].
  rewrite Z.sub_diag, app_nil_r in He. by inversion He.
Qed.

Section sound.
Context `{Lib : NtlmLib}.

(** [amsg] proves knowledge of the password of [user]: its response is the
    keyed hash of the server's challenge under the key that the password
    gives.  [base] is the key that the session keys come from. *)
Definition proves (s : Server.t) (amsg : slice) (user : gostring) (base : bytes) : Prop :=
  exists resp domain key timeStamp clientChallenge info,
    payload amsg 20 "invalid LM challenge format" = Ok resp
    /\ payload amsg 28 "invalid domain name format" = Ok domain
    /\ Server.response_key user (s_bytes domain) s = Ok key
    /\ blen timeStamp = 8 /\ blen clientChallenge = 8
    /\ s_bytes resp = response key (sub 24 8 (Server.cmsg s)) (blob timeStamp clientChallenge info)
    /\ base = hmac.Sum key (upto 16 (s_bytes resp)).

Lemma authenticateMessage_sound amsg s ses :
  slice_wf amsg -> Server.authenticateMessage amsg s = Ok ses ->
  (Server.accounts s !! Session.user ses <> None \/ Server.allowGuest s = true)
  /\ 32 <= blen (Server.cmsg s)
  /\ exists base enckey, proves s amsg (Session.user ses) base
    /\ payload amsg 52 "invalid user name format" = Ok enckey
    /\ Server.exported_key (Session.negotiateFlags ses) base (s_bytes enckey)
       = Ok (Session.exportedSessionKey ses).
Proof.
  intros Hwf H. unfold Server.authenticateMessage in H. repeat ok_inv H.
  match goal with E : negb (bool_decide _) = false |- _ => apply negb_false_iff, bool_decide_eq_true in E end.
  match goal with E : s_range (of_bytes _) 24 32 = Ok _ |- _ =>
    apply s_range_inv in E as (_ & _ & Hc & ->) end.
  apply newSession_fields in H as (<- & <- & <-). split; [|split; [done|]].
  - match goal with E : bool_decide _ && _ = false |- _ => apply andb_false_iff in E as [Hx|Hx] end.
    + left. by apply bool_decide_eq_false in Hx.
    + right. by apply negb_false_iff in Hx.
  - destruct (expected_response _ _ _ _ _ _ _ _ (payload_inv _ _ _ _ Hwf E1) E8 E11 E12 E13 E14)
      as (Ht & Hcc & Hexp).
    exists (hmac.Sum a7 (upto 16 (s_bytes a1))), a4. split; [|split; [done|exact E16]].
    exists a1, a2, a7, (s_bytes a9), (s_bytes a10), (s_bytes a11).
    repeat (split; [done|]). split; [|done]. rewrite E15. exact Hexp.
Qed.

(** Nobody logs in without the password.  When [Authenticate] accepts a
    message, a session is set, for a user who has an account (or guests are
    allowed), and the whole response in the message is the HMAC, under the
    key derived from that user's password and the domain in the message, of
    the challenge this server sent and a well-formed client challenge; the
    session key comes from that response.  The password of a user without an
    account is the empty one. *)
Theorem authenticate_sound amsg s s' :
  slice_wf amsg -> Server.Authenticate amsg s = (Ok tt, s') ->
  exists ses base enckey, Server.session s' = Some ses
    /\ (Server.accounts s !! Session.user ses <> None \/ Server.allowGuest s = true)
    /\ 32 <= blen (Server.cmsg s)
    /\ proves s amsg (Session.user ses) base
    /\ payload amsg 52 "invalid user name format" = Ok enckey
    /\ Server.exported_key (Session.negotiateFlags ses) base (s_bytes enckey)
       = Ok (Session.exportedSessionKey ses).
Proof.
  intros Hwf. unfold Server.Authenticate.
  destruct (Server.authenticateMessage amsg s) as [ses| |] eqn:E; [|done..]. intros [= <-].
  apply authenticateMessage_sound in E as (Ha & Hc & base & ek & H); [|done].
  exists ses, base, ek. tauto.
Qed.

End sound.

(** ** The challenge message *)

Lemma EncodeStringToBytes_ok s : EncodeStringToBytes s = Ok (le16s (utf16_Encode s)).
Proof.
  destruct s as [|r s]; [done|]. unfold EncodeStringToBytes.
  set (ws := utf16_Encode (r :: s)). clearbody ws. rewrite put16s_ok by len.
  f_equal. apply splice_full. len.
Qed.

(** A name as it is sent. *)
Abbreviation wide s := (le16s (utf16_Encode s)).

Definition name_pair (id : Z) (s : gostring) : TargetInfo.t :=
  match s with [] => [] | _ => [AvPair.mk id (wide s)] end.

(** The target information without the end of list. *)
Definition ti_of (now : Z) (s : Server.t) : TargetInfo.t :=
  AvPair.mk MsvAvTimestamp (le_enc 4 (Filetime.LowDateTime (Filetime.NsecToFiletime now))
                             ++ le_enc 4 (Filetime.HighDateTime (Filetime.NsecToFiletime now)))
    :: name_pair MsvAvDnsComputerName (Server.dnsName s)
    ++ name_pair MsvAvDnsDomainName (Server.dnsDomain s)
    ++ name_pair MsvAvNbComputerName (Server.nbName s)
    ++ name_pair MsvAvNbDomainName (Server.nbDomain s).

Definition eol : AvPair.t := AvPair.mk MsvAvEOL [].

Lemma prepend_name_ok id s ti : Server.prepend_name id s ti = Ok (name_pair id s ++ ti).
Proof. destruct s; [done|]. unfold Server.prepend_name. by rewrite EncodeStringToBytes_ok. Qed.

Lemma targetInfo_ok now s : Server.targetInfo now s = Ok (ti_of now s ++ [eol]).
Proof.
  unfold Server.targetInfo. do 4 (rewrite prepend_name_ok; cbn [obind]).
  unfold Filetime.Encode. set (f := Filetime.NsecToFiletime now).
  rewrite (appends_all _ (le_enc 4 (Filetime.LowDateTime f) ++ le_enc 4 (Filetime.HighDateTime f)) 8)
    by (repeat append_step).
  cbn [obind]. rewrite !blen_app, !blen_le_enc. cbn [zeros Z.to_nat]. unfold ti_of. fold f. cbn [app].
  by rewrite <- !app_assoc.
Qed.

Lemma ti_ids now s : Forall (fun p => AvPair.AvID p = MsvAvTimestamp /\ blen (AvPair.Value p) = 8
  \/ 1 <= AvPair.AvID p <= 4) (ti_of now s).
Proof.
  unfold ti_of. constructor; [left; split; [done|cbn; len]|].
  repeat apply Forall_app_2; match goal with |- Forall _ (name_pair _ ?x) => destruct x end;
    try (apply Forall_nil; done); apply Forall_singleton; right; done.
Qed.

(** Pairs fit when the whole block does. *)
Lemma pairs_fit ti :
  Forall (fun p => in16 (AvPair.AvID p)) ti -> blen (ti_bytes ti) < 65536 -> Forall pair_ok ti.
Proof.
  induction 1 as [|[id v] ti Hid _ IH]; intros Hb; constructor; rewrite ti_bytes_cons, blen_app, blen_pair in Hb;
    pose proof (blen_nonneg v); pose proof (blen_nonneg (ti_bytes ti)).
  - split; [done|]. cbn. lia.
  - apply IH. lia.
Qed.

Lemma ti_map_absent ti off m id :
  Forall (fun p => AvPair.AvID p <> id) ti -> ti_map off ti m !! id = m !! id.
Proof.
  intros Hn. revert off m. induction Hn as [|p ti Hp _ IH]; intros off m; [done|].
  cbn [ti_map]. by rewrite IH, lookup_insert_ne.
Qed.

(** The value of [id] satisfies what every pair of that type does. *)
Lemma ti_map_value ti off m id (P : bytes -> Prop) :
  Forall (fun p => AvPair.AvID p = id -> P (AvPair.Value p)) ti ->
  (forall o v, m !! id = Some (o, v) -> P v) ->
  forall o v, ti_map off ti m !! id = Some (o, v) -> P v.
Proof.
  intros Hn. revert off m. induction Hn as [|p ti Hp _ IH]; intros off m Hm; [done|]. cbn [ti_map].
  apply IH. intros o v. destruct (decide (AvPair.AvID p = id)) as [<-|Hne].
  - rewrite lookup_insert_eq. intros [= _ <-]. by apply Hp.
  - rewrite lookup_insert_ne by done. apply Hm.
Qed.

Lemma at_encodes_splice a e b p :
  0 <= a -> a + blen b <= blen p -> e (from a p) = Ok (splice 0 b (from a p)) -> at_ a e p = Ok (splice a b p).
Proof.
  intros Ha Hb He. pose proof (blen_nonneg b). rewrite (at_ok a e p _ Ha ltac:(lia) He). f_equal.
  rewrite <- (window_splice 0 (blen b) b) by len.
  rewrite <- (window_splice a (a + blen b)) by len. cbn [upto take Z.to_nat]. rewrite from_from by lia.
  cbn [app]. by rewrite (Z.add_comm (blen b)).
Qed.

(** Len, MaxLen and BufferOffset at [a]. *)
Definition field (p : bytes) (a n off : Z) : Prop :=
  sub a 2 p = le_enc 2 n /\ sub (a + 2) 2 p = le_enc 2 n /\ sub (a + 4) 4 p = le_enc 4 off.

Lemma payload_ok p a n off e :
  field p a n off -> 0 <= a -> a + 8 <= blen p -> in16 n -> 0 <= off -> off + n <= blen p ->
  off + n < 4294967296 ->
  exists r, payload (of_bytes p) a e = Ok r /\ slice_wf r /\ s_len r = n /\ s_bytes r = sub off n p.
Proof.
  intros (H1 & H2 & H3) Ha Hp Hn Ho Hb Hlim. unfold in16 in Hn. unfold payload.
  get_step. cbn [of_bytes s_arr]. rewrite H1, le_dec_enc2, u16_id by done.
  get_step. cbn [of_bytes s_arr]. rewrite H2, le_dec_enc2, u16_id by done. rewrite Z.ltb_irrefl.
  get_step. cbn [of_bytes s_arr s_len]. rewrite H3, le_dec_enc4, (u32_id off) by (unfold in32; lia).
  rewrite u32_id by (unfold in32; lia). rewrite (proj2 (Z.ltb_ge _ _)) by lia.
  destruct (s_range_bytes (of_bytes p) off (off + n)) as (r & Hr & Hs & Hw & Hl); [len..|].
  exists r. split; [done|]. split; [done|]. split; [lia|]. rewrite Hs. cbn [of_bytes s_arr].
  by replace (off + n - off) with n by lia.
Qed.

Definition negotiate_msg : bytes :=
  signature ++ [1; 0; 0; 0] ++ le_enc 4 defaultFlags ++ zeros 16 ++ version.

Lemma negotiate_ok c : Client.Negotiate c = (Ok negotiate_msg, Client.set_nmsg negotiate_msg c).
Proof.
  unfold Client.Negotiate.
  assert (((copy_range 0 8 signature >> put32 8 NtLmNegotiate >> put32 12 defaultFlags
              >> copy_from 32 version) (zeros 40)) = Ok negotiate_msg) as -> by (vm_compute; reflexivity).
  done.
Qed.

(** What a client can read in a challenge message; [T] and [N] are the sizes
    of the target information and of the target name. *)
Record challenge_facts (cmsg chal info : bytes) (N : Z) : Prop := mkFacts {
  cf_len : blen cmsg = 60 + blen info + N;
  cf_signature : sub 0 8 cmsg = signature;
  cf_type : sub 8 4 cmsg = le_enc 4 NtLmChallenge;
  cf_flags : sub 20 4 cmsg = le_enc 4 defaultFlags;
  cf_challenge : sub 24 8 cmsg = chal;
  cf_info : field cmsg 40 (blen info) (56 + N);
  cf_info_bytes : sub (56 + N) (blen info) cmsg = info;
  cf_name : field cmsg 12 N (if N =? 0 then 0 else 56 + blen info);
  cf_name_bytes : 0 < N <= blen info -> sub (56 + blen info) N cmsg = sub (blen info - N) N info
}.

(** Offsets of fields in the three messages. *)
Ltac header_offsets :=
  change (12 + 2) with 14; change (12 + 4) with 16; change (40 + 2) with 42; change (40 + 4) with 44;
  change (20 + 2) with 22; change (20 + 4) with 24; change (28 + 2) with 30; change (28 + 4) with 32;
  change (36 + 2) with 38; change (36 + 4) with 40; change (44 + 2) with 46; change (44 + 4) with 48;
  change (52 + 2) with 54; change (52 + 4) with 56.

Lemma challengeMessage_ok now chal s :
  let info := ti_bytes (ti_of now s ++ [eol]) in let N := blen (wide (Server.targetName s)) in
  blen chal = 8 ->
  exists cmsg, Server.challengeMessage now (Ok chal) defaultFlags s = Ok cmsg /\ challenge_facts cmsg chal info N.
Proof.
  intros info N Hc. unfold Server.challengeMessage. rewrite targetInfo_ok. cbn [obind].
  rewrite EncodeStringToBytes_ok. cbn [obind]. set (tn := wide (Server.targetName s)) in *. fold N.
  change (has defaultFlags NTLMSSP_NEGOTIATE_TARGET_INFO) with true.
  change (has defaultFlags NTLMSSP_NEGOTIATE_VERSION) with true.
  change (has defaultFlags NTLMSSP_REQUEST_TARGET) with true. cbv iota. rewrite !ti_size. fold info.
  pose proof (blen_nonneg info) as Hi. pose proof (blen_nonneg tn) as Hn. fold N in Hn.
  assert (HN : N = blen tn) by done. clearbody N tn.
  assert (He : forall p, 0 <= 56 + N -> 56 + N + blen info <= blen p ->
    at_ (56 + N) (TargetInfo.Encode (ti_of now s ++ [eol])) p = Ok (splice (56 + N) info p)).
  { intros p H1 H2. apply at_encodes_splice; [done..|]. apply encode_pairs_splice; [done|]. fold info. len. }
  clearbody info. rewrite andb_true_r. unfold eseq.
  destruct (decide (tn = [])) as [->|Hne].
  - rewrite blen_nil in HN. subst N. rewrite Z.add_0_r in *. rewrite bool_decide_true by done.
    repeat put_step. cbn [negb obind].
    replace (48 + blen info + 8 - blen info) with 56 by lia.
    rewrite He by len. cbn [obind]. repeat put_step. eexists. split; [done|].
    constructor; [len|..]; rewrite ?Z.add_0_r; unfold field; header_offsets; repeat split; reads;
      try done; try (rewrite sub_zeros by len; done).
  - assert (0 < N) by (subst N; destruct tn; [done|]; rewrite blen_cons; pose proof (blen_nonneg tn); lia).
    rewrite bool_decide_false by done.
    repeat put_step. cbn [negb obind]. unfold copied. rewrite !blen_splice, Z.min_l by len.
    repeat put_step. replace (48 + blen info + 8 + blen tn - blen info) with (56 + N) by lia.
    rewrite He by len. cbn [obind]. repeat put_step. eexists. split; [done|]. rewrite <- !HN.
    replace (48 + blen info + 8) with (56 + blen info) by lia.
    assert (Hz : (N =? 0) = false) by (apply Z.eqb_neq; lia).
    constructor; [len|..]; rewrite ?Hz; unfold field; header_offsets; repeat split; reads; try done.
    intros HT. reads. rewrite sub_splice_in by len. f_equal; lia.
Qed.

Lemma challenge_ok now chal s :
  let info := ti_bytes (ti_of now s ++ [eol]) in let N := blen (wide (Server.targetName s)) in
  blen chal = 8 ->
  exists cmsg, Server.Challenge now (Ok chal) (of_bytes negotiate_msg) s
      = (Ok cmsg, Server.set_cmsg cmsg (Server.set_nmsg negotiate_msg s))
    /\ challenge_facts cmsg chal info N.
Proof.
  intros info N Hc. destruct (challengeMessage_ok now chal (Server.set_nmsg negotiate_msg s) Hc) as (cmsg & He & Hf).
  exists cmsg. split; [|exact Hf]. unfold Server.Challenge.
  replace (check_message (of_bytes negotiate_msg) 32 NtLmNegotiate) with (Ok tt) by (vm_compute; reflexivity).
  replace (get32 (of_bytes negotiate_msg) 12 16) with (Ok defaultFlags) by (vm_compute; reflexivity).
  cbn [obind]. change (Z.lor (Z.land defaultFlags defaultFlags) NTLMSSP_NEGOTIATE_TARGET_INFO) with defaultFlags.
  rewrite s_bytes_of_bytes. by rewrite He.
Qed.

Lemma check_message_ok p n typ :
  n <= blen p -> 12 <= blen p -> in32 typ -> sub 0 8 p = signature -> sub 8 4 p = le_enc 4 typ ->
  check_message (of_bytes p) n typ = Ok tt.
Proof.
  intros Hn Hp Ht Hs Hy. unfold check_message. cbn [of_bytes s_len]. rewrite (proj2 (Z.ltb_ge _ _)) by lia.
  destruct (s_range_bytes (of_bytes p) 0 8) as (r & Hr & Hb & _); [len..|].
  rewrite Hr. cbn [obind]. rewrite Hb. cbn [of_bytes s_arr]. rewrite Z.sub_0_r, Hs, bool_decide_true by done.
  cbn [negb]. get_step. cbn [of_bytes s_arr]. rewrite Hy, le_dec_enc4, u32_id by done. by rewrite Z.eqb_refl.
Qed.

(** ** What the client reads *)

Section client.
Context `{Lib : NtlmLib}.

Lemma readChallenge_ok cmsg chal ti N c :
  challenge_facts cmsg chal (ti_bytes (ti ++ [eol])) N -> Client.nmsg c = negotiate_msg ->
  Forall pair_ok ti -> in16 N -> in16 (blen (ti_bytes (ti ++ [eol]))) ->
  exists tn, Client.readChallenge (of_bytes cmsg) c
      = Ok (defaultFlags, tn, 56 + N,
            targetInfoEncoder.mk (ti_bytes (ti ++ [eol])) (wide (Client.TargetSPN c)) (ti_map 0 (ti ++ [eol]) ∅))
    /\ blen tn = N
    /\ (0 < N <= blen (ti_bytes (ti ++ [eol])) ->
        tn = sub (blen (ti_bytes (ti ++ [eol])) - N) N (ti_bytes (ti ++ [eol]))).
Proof.
  intros [] Hn Hok HN HT. set (info := ti_bytes (ti ++ [eol])) in *. unfold in16 in *.
  pose proof (blen_nonneg info).
  unfold Client.readChallenge. rewrite (check_message_ok cmsg) by (try done; lia). cbn [obind].
  rewrite Hn. replace (get32 (of_bytes negotiate_msg) 12 16) with (Ok defaultFlags) by (vm_compute; reflexivity).
  cbn [obind]. get_step. cbn [of_bytes s_arr]. rewrite cf_flags0, le_dec_enc4.
  change (Z.land defaultFlags (u32 defaultFlags)) with defaultFlags.
  change (has defaultFlags NTLMSSP_REQUEST_TARGET) with true.
  change (has defaultFlags NTLMSSP_NEGOTIATE_TARGET_INFO) with true. cbn [negb].
  set (noff := if N =? 0 then 0 else 56 + blen info) in *.
  assert (0 <= noff <= 56 + blen info) by (unfold noff; destruct (N =? 0); lia).
  destruct (payload_ok cmsg 12 N noff "invalid target name format") as (tn & -> & Htw & Htl & Htb); [done|unfold in16; lia..|].
  cbn [obind].
  destruct (payload_ok cmsg 40 (blen info) (56 + N) "invalid target info format") as (w & -> & _ & _ & Hwb);
    [done|unfold in16; lia..|].
  cbn [obind]. get_step. cbn [of_bytes s_arr]. destruct cf_info0 as (_ & _ & Ho).
  change (40 + 4) with 44 in Ho. rewrite Ho, le_dec_enc4, u32_id by (unfold in32; lia).
  rewrite EncodeStringToBytes_ok. cbn [obind]. rewrite Hwb, cf_info_bytes0.
  unfold targetInfoEncoder.newTargetInfoEncoder, info. rewrite parse_ti by done.
  eexists. split; [reflexivity|]. split; [by rewrite blen_s_bytes|].
  intros HNT. rewrite Htb. unfold noff. rewrite (proj2 (Z.eqb_neq N 0)) by lia. by apply cf_name_bytes0.
Qed.

(** What the client sends of the target information: it announces a message
    integrity code, empty channel bindings, and the service name. *)
Definition spn_pair (spn : bytes) : TargetInfo.t :=
  match spn with [] => [] | _ => [AvPair.mk MsvAvTargetName spn] end.
Definition client_ti (ti : TargetInfo.t) (spn : bytes) : TargetInfo.t :=
  ti ++ [AvPair.mk MsvAvFlags (le_enc 4 2); AvPair.mk MsvAvChannelBindings (zeros 16)]
     ++ spn_pair spn ++ [eol].

Lemma ti_bytes_app a b : ti_bytes (a ++ b) = ti_bytes a ++ ti_bytes b.
Proof. unfold ti_bytes. by rewrite fmap_app, concat_app. Qed.

Lemma ti_bytes_eol : ti_bytes [eol] = zeros 4.
Proof. done. Qed.

Definition client_encoder (ti : TargetInfo.t) (spn : bytes) : targetInfoEncoder.t :=
  targetInfoEncoder.mk (ti_bytes (ti ++ [eol])) spn (ti_map 0 (ti ++ [eol]) ∅).

Definition no_flags (ti : TargetInfo.t) : Prop := Forall (fun p => AvPair.AvID p <> MsvAvFlags) ti.

Lemma client_flags_absent ti spn :
  no_flags ti -> targetInfoEncoder.InfoMap (client_encoder ti spn) !! MsvAvFlags = None.
Proof.
  intros Hn. cbn. rewrite ti_map_absent; [done|]. apply Forall_app. split; [exact Hn|].
  by apply Forall_singleton.
Qed.

Lemma client_size ti spn :
  no_flags ti -> targetInfoEncoder.size (client_encoder ti spn) = blen (ti_bytes (client_ti ti spn)).
Proof.
  intros Hn. unfold targetInfoEncoder.size. rewrite client_flags_absent by done.
  cbn [client_encoder targetInfoEncoder.Info targetInfoEncoder.SPN].
  unfold client_ti. rewrite !ti_bytes_app, !ti_bytes_eol, !ti_bytes_cons.
  destruct spn as [|x spn]; cbn [spn_pair]; rewrite ?ti_bytes_cons; cbn [ti_bytes fmap list_fmap concat]; len.
Qed.

Lemma run_appends e x b n rest :
  appends e x b n -> e (x ++ zeros n ++ rest) = Ok ((x ++ b) ++ zeros (n - blen b) ++ rest).
Proof. intros [_ ->]. by rewrite <- app_assoc. Qed.

Lemma appends_pair off x id v n :
  off = blen x -> 4 + blen v <= n ->
  appends (put16 off id >> put16 (off + 2) (blen v) >> copy_from (off + 4) v) x (pair_bytes (AvPair.mk id v)) n.
Proof.
  intros -> Hn. pose proof (blen_nonneg v). pose proof (blen_nonneg x). unfold pair_bytes.
  cbn [AvPair.AvID AvPair.Value]. repeat append_step.
Qed.

(** The service name, when there is one. *)
Lemma client_encode_spn spn off x n rest :
  off = blen x -> blen (ti_bytes (spn_pair spn)) <= n ->
  match spn with
  | [] => Ok (x ++ zeros n ++ rest, off)
  | z :: l =>
      let! dst := (put16 off MsvAvTargetName >> put16 (off + 2) (blen (z :: l)) >> copy_from (off + 4) (z :: l))
                    (x ++ zeros n ++ rest) in
      Ok (dst, off + (4 + blen (z :: l)))
  end = Ok ((x ++ ti_bytes (spn_pair spn)) ++ zeros (n - blen (ti_bytes (spn_pair spn))) ++ rest,
            off + blen (ti_bytes (spn_pair spn))).
Proof.
  intros -> Hn. destruct spn as [|z l].
  - cbn. by rewrite app_nil_r, Z.sub_0_r, Z.add_0_r.
  - set (v := z :: l) in *. change (spn_pair v) with [AvPair.mk MsvAvTargetName v] in *.
    rewrite ti_bytes_cons in *. change (ti_bytes []) with (@nil Z) in *. rewrite app_nil_r, blen_pair in *.
    clearbody v.
    rewrite (run_appends _ _ _ _ _ (appends_pair (blen x) x MsvAvTargetName v n eq_refl Hn)).
    cbn [obind]. by rewrite blen_pair.
Qed.

Lemma client_encode ti spn n :
  no_flags ti -> blen (ti_bytes (client_ti ti spn)) <= n ->
  appends (targetInfoEncoder.encode (client_encoder ti spn)) [] (ti_bytes (client_ti ti spn)) n.
Proof.
  intros Hn Hl. split; [done|]. intros rest. cbn [app]. unfold targetInfoEncoder.encode, targetInfoEncoder.set_mic_flag.
  pose proof (client_flags_absent ti spn Hn) as Hf. rewrite Hf. cbn [obind]. rewrite Hf.
  cbn [client_encoder targetInfoEncoder.Info targetInfoEncoder.SPN].
  unfold client_ti in *. rewrite !ti_bytes_app, !ti_bytes_eol, !ti_bytes_cons in *.
  set (T := ti_bytes ti) in *. clearbody T. pose proof (blen_nonneg T).
  rewrite upto_app_exact by len. change (ti_bytes []) with (@nil Z) in *. rewrite app_nil_r in *.
  set (S := ti_bytes (spn_pair spn)) in *. pose proof (blen_nonneg S).
  assert (Hb : blen T + 32 + blen S <= n) by (revert Hl; len_norm; lia).
  rewrite (run_appends _ [] T n rest) by (apply appends_copy0; [done|lia]). cbn [obind app]. unfold copied.
  rewrite Z.min_l by len.
  set (F := pair_bytes (AvPair.mk MsvAvFlags (le_enc 4 2))).
  set (B := pair_bytes (AvPair.mk MsvAvChannelBindings (zeros 16))).
  assert (HF : blen F = 8) by done. assert (HB : blen B = 20) by done.
  rewrite (run_appends _ T F _ rest) by (unfold F, pair_bytes; cbn [AvPair.AvID AvPair.Value]; repeat append_step).
  cbn [obind].
  rewrite (run_appends _ (T ++ F) B _ rest).
  2: { change B with (((le_enc 2 MsvAvChannelBindings) ++ le_enc 2 16) ++ zeros 16).
       apply appends_pad; [|done|len]. repeat append_step. }
  cbn [obind]. rewrite client_encode_spn by (try (rewrite !blen_app; lia); fold S; lia). cbn [obind]. fold S.
  rewrite (run_appends _ _ (zeros 4) _ rest).
  2: { change (zeros 4) with (le_enc 2 MsvAvEOL ++ le_enc 2 0). repeat append_step. }
  f_equal. rewrite <- !app_assoc. do 6 f_equal. rewrite !blen_app, blen_zeros by done. f_equal. lia.
Qed.

(** *** The message: a header of 88 bytes and the payloads after it *)

(** The header with the fields at [a] filled in. *)
Definition announce (a : Z) (bs : option bytes) (off : Z) (H : bytes) : bytes :=
  match bs with
  | None => H
  | Some b => splice (a + 4) (le_enc 4 off) (splice (a + 2) (le_enc 2 (blen b)) (splice a (le_enc 2 (blen b)) H))
  end.

Lemma blen_announce a bs off H : blen (announce a bs off H) = blen H.
Proof. destruct bs; [|done]. cbn. by rewrite !blen_splice. Qed.

Lemma put_payload_app a bs H G n :
  blen H = 88 -> 0 <= a -> a + 8 <= 88 -> blen (default [] bs) <= n ->
  Client.put_payload a bs (H ++ G ++ zeros n) (88 + blen G)
  = Ok (announce a bs (88 + blen G) H ++ (G ++ default [] bs) ++ zeros (n - blen (default [] bs)),
        88 + blen (G ++ default [] bs)).
Proof.
  intros HH Ha Hb Hn. rewrite (blen_app G), Z.add_assoc. destruct bs as [b|]; cbn [default announce Client.put_payload] in *; [|].
  - unfold id in *. pose proof (blen_nonneg b). pose proof (blen_nonneg G). unfold copied.
    rewrite Z.min_l by len. unfold eseq. rewrite copy_from_ok by len. cbn [obind].
    rewrite <- HH at 1. rewrite (app_assoc H G), <- (app_nil_r (zeros n)), <- blen_app, <- (Z.add_0_r (blen (H ++ G))).
    rewrite splice_after by lia. rewrite <- !app_assoc. cbn [app zeros replicate Z.to_nat].
    repeat (put_step; rewrite splice_app_l by len). rewrite app_nil_r, Z.sub_0_r. done.
  - rewrite app_nil_r. cbn. by rewrite Z.sub_0_r, Z.add_0_r.
Qed.

Definition apart (a b : Z) : Prop := a + 8 <= b \/ b + 8 <= a.

Lemma field_splice H a n off b bs :
  field H a n off -> 0 <= a -> 0 <= b -> b + blen bs <= a \/ a + 8 <= b -> field (splice b bs H) a n off.
Proof.
  intros (H1 & H2 & H3) Ha Hb Hd. pose proof (blen_nonneg bs).
  unfold field. by rewrite !sub_splice_out by lia.
Qed.

Lemma field_announce H a n off b bs o :
  field H a n off -> 0 <= a -> 0 <= b -> apart a b -> field (announce b bs o H) a n off.
Proof.
  intros HH Ha Hb Hd. unfold apart in Hd. destruct bs; [|done]. cbn [announce].
  repeat apply field_splice; rewrite ?blen_le_enc; try done; lia.
Qed.

Lemma field_announced H a bs off :
  field H a 0 0 -> 0 <= a -> a + 8 <= blen H ->
  field (announce a bs off H) a (blen (default [] bs)) (match bs with None => 0 | Some _ => off end).
Proof.
  intros HH Ha Hl. destruct bs as [b|]; [|done]. cbn [announce default]. unfold id, field.
  repeat split; reads; done.
Qed.

Lemma field_zeros n a : 0 <= a -> a + 8 <= n -> field (zeros n) a 0 0.
Proof. intros. unfold field. rewrite !sub_zeros by lia. done. Qed.

(** [bs] is the payload that the fields at [a] name. *)
Definition announced (p : bytes) (a : Z) (bs : bytes) : Prop :=
  exists off, field p a (blen bs) off /\ 0 <= off /\ off + blen bs <= blen p /\ sub off (blen bs) p = bs.

Lemma announced_payload p a bs e :
  announced p a bs -> 0 <= a -> a + 8 <= blen p -> blen bs < 65536 -> blen p < 4294967296 ->
  exists r, payload (of_bytes p) a e = Ok r /\ slice_wf r /\ s_len r = blen bs /\ s_bytes r = bs.
Proof.
  intros (off & Hf & Ho & Hl & Hs) Ha Hp Hb Hlim. pose proof (blen_nonneg bs).
  destruct (payload_ok p a (blen bs) off e) as (r & Hr & Hw & Hn & Hsub); [done|done|done|unfold in16; lia|lia..|].
  exists r. rewrite Hsub. auto.
Qed.

(** Header and payloads. *)
Lemma announced_app H X Y W a bs off :
  field H a (blen bs) off -> blen H = 88 -> 0 <= a -> a + 8 <= 88 -> (bs = [] /\ off = 0 \/ off = 88 + blen X) ->
  Y = X ++ bs ++ W -> announced (H ++ Y) a bs.
Proof.
  intros (H1 & H2 & H3) HH Ha Hb Ho ->. pose proof (blen_nonneg X). pose proof (blen_nonneg bs).
  pose proof (blen_nonneg W). exists off. unfold field. rewrite !sub_app_l by lia. split; [done|].
  destruct Ho as [[-> ->]| ->].
  - split; [done|]. split; [len|]. done.
  - split; [lia|]. split; [len|]. rewrite !sub_app_r by lia.
    rewrite sub_app_l by lia. replace (88 + blen X - blen H - blen X) with 0 by lia. by apply sub_all.
Qed.

Lemma NewCipher_16 key : blen key = 16 -> rc4.NewCipher key = Ok (rc4.mk (rc4.key_schedule key) 0 0).
Proof. intros Hk. unfold rc4.NewCipher. by rewrite Hk. Qed.

Lemma newSession_default b user key im : exists ses, newSession b user defaultFlags key im = Ok ses.
Proof.
  unfold newSession, sealKey.
  change (has defaultFlags NTLMSSP_NEGOTIATE_EXTENDED_SESSIONSECURITY) with true.
  change (has defaultFlags NTLMSSP_NEGOTIATE_128) with true. cbn [obind].
  rewrite !NewCipher_16 by apply md5.blen_md5. cbn [obind]. eauto.
Qed.

(** The key that encrypts the session key, and that key encrypted. *)
Definition base_key (key resp : bytes) : bytes := hmac.Sum key (upto 16 resp).
Definition encrypted (base k : bytes) : bytes := fst (rc4.xor_stream k (rc4.mk (rc4.key_schedule base) 0 0)).

Lemma blen_encrypted base k : blen (encrypted base k) = blen k.
Proof. apply rc4.blen_xor_stream. Qed.

(** What the server needs to find in the message. *)
Record message_facts (amsg domain user resp enckey key past : bytes) : Prop := mkMsg {
  mf_len : 88 <= blen amsg;
  mf_signature : sub 0 8 amsg = signature;
  mf_type : sub 8 4 amsg = le_enc 4 NtLmAuthenticate;
  mf_flags : sub 60 4 amsg = le_enc 4 defaultFlags;
  mf_resp : announced amsg 20 resp;
  mf_domain : announced amsg 28 domain;
  mf_user : announced amsg 36 user;
  mf_enckey : announced amsg 52 enckey;
  mf_mic : sub 72 16 amsg = hmac.Sum key (past ++ splice 72 (zeros 16) amsg)
}.

(** The part of the message that [putResponse] writes. *)
Lemma putResponse_ok now cc k cmsg tiOff ti domain c key H G ts :
  let spn := wide (Client.TargetSPN c) in
  let info := ti_bytes (client_ti ti spn) ++ zeros 4 in
  let resp := response key (sub 24 8 cmsg) (blob ts cc info) in
  let base := base_key key resp in
  no_flags ti -> Client.response_key domain c = Ok key ->
  0 <= tiOff -> tiOff + blen (ti_bytes (ti ++ [eol])) <= blen cmsg ->
  sub tiOff (blen (ti_bytes (ti ++ [eol]))) cmsg = ti_bytes (ti ++ [eol]) ->
  match ti_map 0 (ti ++ [eol]) ∅ !! MsvAvTimestamp with
  | Some (_, v) => v | None => le_enc 8 (Z.quot now 100 + Filetime.epoch) end = ts ->
  blen ts = 8 -> blen cc = 8 -> blen k = 16 -> blen H = 88 -> sub 72 16 H = zeros 16 ->
  exists H' mic ses,
    Client.putResponse now (Ok cc) (Ok k) cmsg defaultFlags tiOff (client_encoder ti spn) domain
      (H ++ G ++ zeros (24 + (44 + blen info) + 16)) (88 + blen G) c
    = Ok (splice 72 mic H' ++ G ++ zeros 24 ++ resp ++ encrypted base k, ses)
    /\ mic = hmac.Sum k (Client.nmsg c ++ cmsg ++ H' ++ G ++ zeros 24 ++ resp ++ encrypted base k)
    /\ newSession true (Client.User c) defaultFlags k (ti_map 0 (ti ++ [eol]) ∅) = Ok ses
    /\ H' = splice 64 version (splice 60 (le_enc 4 defaultFlags)
        (announce 52 (Some k) (88 + blen G + 24 + blen resp)
        (announce 20 (Some resp) (88 + blen G + 24) (announce 12 (Some (zeros 24)) (88 + blen G) H)))).
Proof.
  intros spn info resp base Hn Hk Ht1 Ht2 Ht3 Hts Hl1 Hl2 Hl3 HH Hm.
  unfold Client.putResponse. rewrite Hk. cbn [obind].
  pose proof (blen_nonneg G) as HG. pose proof (blen_nonneg info) as Hi.
  assert (Hr : blen resp = 44 + blen info) by (unfold resp, response; len).
  unfold eseq. repeat (put_step; rewrite splice_app_l by len).
  set (H1 := splice 16 _ _). assert (HH1 : blen H1 = 88) by (unfold H1; len).
  unfold targetInfoEncoder.set_mic_flag. rewrite client_flags_absent by done. cbn [obind].
  cbn [client_encoder targetInfoEncoder.InfoMap targetInfoEncoder.Info]. fold (client_encoder ti spn). rewrite Hts.
  assert (Hsp : splice tiOff (ti_bytes (ti ++ [eol])) cmsg = cmsg).
  { transitivity (splice tiOff (sub tiOff (blen (ti_bytes (ti ++ [eol]))) cmsg) cmsg); [by rewrite Ht3|].
    apply splice_sub; [lia|apply blen_nonneg|lia]. }
  rewrite Hsp. set (L := blen info) in *.
  set (P := H1 ++ G ++ zeros 24).
  assert (HP : blen P = 88 + blen G + 24) by (unfold P; len).
  assert (HZ : H1 ++ G ++ zeros (24 + (44 + L) + 16) = P ++ zeros (44 + L) ++ zeros 16).
  { unfold P. rewrite !zeros_app by lia. by rewrite <- !app_assoc. }
  rewrite HZ. replace (blen (P ++ zeros (44 + L) ++ zeros 16) - 16) with (88 + blen G + 24 + (44 + L)) by len.
  replace (88 + blen G + 24 + (44 + L) - (88 + blen G + 24)) with (44 + L) by lia.
  rewrite (in_ok _ _ _ _ resp); [|len|len|len|].
  2: { replace (88 + blen G + 24 + (44 + L) - (88 + blen G + 24)) with (44 + L) by lia.
       rewrite sub_app_r, sub_app_l by len. replace (88 + blen G + 24 - blen P) with 0 by lia.
       rewrite sub_all by len.
       rewrite (encode_response _ _ _ _ _ (ti_bytes (client_ti ti spn))); [|done|done|].
       - f_equal. unfold resp. do 3 f_equal. unfold info. f_equal. f_equal. unfold L, info. len.
       - apply client_encode; [done|]. unfold L, info. len. }
  cbn [obind]. rewrite upto_app_exact by len.
  assert (Hfr : from (88 + blen G + 24 + (44 + L)) (P ++ zeros (44 + L) ++ zeros 16) = zeros 16)
    by (by rewrite app_assoc, from_app_exact by len).
  rewrite Hfr. unfold P at 1. rewrite <- !app_assoc. repeat (put_step; rewrite splice_app_l by len).
  set (H2 := splice 24 _ _). assert (HH2 : blen H2 = 88) by (unfold H2; len).
  change (has defaultFlags NTLMSSP_NEGOTIATE_KEY_EXCH) with true. cbv iota.
  set (Q := H2 ++ G ++ zeros 24 ++ resp ++ zeros 16).
  assert (HQ : blen Q = 88 + blen G + 24 + (44 + L) + 16) by (unfold Q; len).
  assert (Hsub : sub (88 + blen G + 24) (44 + L) Q = resp).
  { unfold Q. rewrite !sub_app_r by len. rewrite blen_zeros by done. rewrite sub_app_l by len.
    replace (88 + blen G + 24 - blen H2 - blen G - 24) with 0 by lia. apply sub_all. lia. }
  rewrite Hsub. fold (base_key key resp). fold base.
  rewrite NewCipher_16 by apply hmac.blen_hmac. cbn [obind].
  unfold rc4.XORKeyStream. rewrite (proj2 (Z.leb_le _ _)) by lia.
  set (x := encrypted base k). assert (Hx : blen x = 16) by (unfold x; by rewrite blen_encrypted).
  replace (rc4.xor_stream k _) with (x, snd (rc4.xor_stream k (rc4.mk (rc4.key_schedule base) 0 0)))
    by (unfold x, encrypted; by destruct (rc4.xor_stream k _)).
  cbn [obind]. rewrite HQ. rewrite copy_from_ok by len. cbn [obind].
  replace (splice (88 + blen G + 24 + (44 + L) + 16 - 16) x Q) with (H2 ++ G ++ zeros 24 ++ resp ++ x).
  2: { unfold Q. rewrite !app_assoc. rewrite <- (app_nil_r (zeros 16)), splice_mid by len. by rewrite app_nil_r. }
  repeat (put_step; rewrite splice_app_l by len).
  destruct (newSession_default true (Client.User c) k (ti_map 0 (ti ++ [eol]) ∅)) as (ses & Hses).
  rewrite put_ok by len. cbn [obind]. rewrite splice_app_l by len. rewrite Hses. cbn [obind].
  do 3 eexists. split; [reflexivity|]. split; [reflexivity|]. split; [done|].
  cbn [announce]. rewrite Hr, Hl3. unfold H2, H1. do 4 f_equal. lia.
Qed.

Lemma sub_announce b n a bs off H :
  0 <= a -> 0 <= b -> 0 <= n -> b + n <= a \/ a + 8 <= b -> sub b n (announce a bs off H) = sub b n H.
Proof.
  intros Ha Hb Hn Hd. destruct bs; [|done]. cbn [announce].
  by rewrite !sub_splice_out by (rewrite ?blen_le_enc; lia).
Qed.

(** The header of the message, without the integrity code. *)
Definition name_header (domain : bytes) (user workstation : option bytes) (oD oU oW : Z) : bytes :=
  announce 44 workstation oW (announce 36 user oU (announce 28 (Some domain) oD
    (splice 8 (le_enc 4 NtLmAuthenticate) (splice 0 signature (zeros 88))))).

Definition auth_header (H resp k : bytes) (oL oR oK : Z) : bytes :=
  splice 64 version (splice 60 (le_enc 4 defaultFlags)
    (announce 52 (Some k) oK (announce 20 (Some resp) oR (announce 12 (Some (zeros 24)) oL H)))).

Lemma blen_name_header d u w oD oU oW : blen (name_header d u w oD oU oW) = 88.
Proof. unfold name_header. rewrite !blen_announce. len. Qed.

Lemma blen_auth_header H resp k oL oR oK : blen (auth_header H resp k oL oR oK) = blen H.
Proof. unfold auth_header. rewrite !blen_splice, !blen_announce. done. Qed.
#[local] Hint Rewrite blen_name_header blen_auth_header blen_announce : blen.

Ltac through_header :=
  repeat first [rewrite sub_announce by len | read_step].

Lemma field_announced_some H a b off :
  0 <= a -> a + 8 <= blen H -> field (announce a (Some b) off H) a (blen b) off.
Proof. intros. cbn [announce]. unfold field. repeat split; reads; done. Qed.

Ltac through_fields :=
  repeat first
    [ apply field_announced_some; [lia|len; fail]
    | apply field_announced; [|lia|len; fail]
    | apply field_announce; [|lia|lia|unfold apart; lia]
    | apply field_splice; [|lia|lia|rewrite ?blen_version, ?blen_signature, ?blen_le_enc; lia]
    | apply field_zeros; lia ].

Lemma header_facts d u w oD oU oW resp k oL oR oK :
  let H := auth_header (name_header d u w oD oU oW) resp k oL oR oK in
  sub 0 8 H = signature /\ sub 8 4 H = le_enc 4 NtLmAuthenticate /\ sub 60 4 H = le_enc 4 defaultFlags
  /\ field H 20 (blen resp) oR /\ field H 28 (blen d) oD
  /\ field H 36 (blen (default [] u)) (match u with None => 0 | Some _ => oU end)
  /\ field H 52 (blen k) oK /\ sub 72 16 H = zeros 16.
Proof.
  cbv zeta. unfold auth_header, name_header. do 7 (split; [first [through_header; done | through_fields]|]).
  through_header. apply sub_zeros; lia.
Qed.

Lemma name_header_mic d u w oD oU oW : sub 72 16 (name_header d u w oD oU oW) = zeros 16.
Proof. unfold name_header. through_header. apply sub_zeros; lia. Qed.

(** The credentials of a client. *)
Definition has_credentials (c : Client.t) : Prop :=
  Client.User c <> [] \/ Client.Password c <> [] \/ is_Some (Client.Hash c).

Lemma has_credentials_true c : has_credentials c ->
  negb (bool_decide (Client.User c = [])) || negb (bool_decide (Client.Password c = []))
    || bool_decide (is_Some (Client.Hash c)) = true.
Proof.
  intros [H|[H|H]].
  - by rewrite (bool_decide_false _ H).
  - rewrite (bool_decide_false _ H). by rewrite orb_true_r.
  - rewrite (bool_decide_true _ H). apply orb_true_r.
Qed.

Definition client_domain (c : Client.t) (tn : bytes) : bytes :=
  default tn (Client.not_nil (wide (Client.Domain c))).

Lemma not_nil_default bs : default [] (Client.not_nil bs) = bs.
Proof. by destruct bs. Qed.

Lemma client_message now cc k cmsg tn tiOff ti c key ts :
  let spn := wide (Client.TargetSPN c) in
  let info := ti_bytes (client_ti ti spn) ++ zeros 4 in
  let domain := client_domain c tn in
  let resp := response key (sub 24 8 cmsg) (blob ts cc info) in
  Client.readChallenge (of_bytes cmsg) c = Ok (defaultFlags, tn, tiOff, client_encoder ti spn) ->
  has_credentials c -> no_flags ti -> Client.response_key domain c = Ok key ->
  0 <= tiOff -> tiOff + blen (ti_bytes (ti ++ [eol])) <= blen cmsg ->
  sub tiOff (blen (ti_bytes (ti ++ [eol]))) cmsg = ti_bytes (ti ++ [eol]) ->
  match ti_map 0 (ti ++ [eol]) ∅ !! MsvAvTimestamp with
  | Some (_, v) => v | None => le_enc 8 (Z.quot now 100 + Filetime.epoch) end = ts ->
  blen ts = 8 -> blen cc = 8 -> blen k = 16 ->
  exists amsg ses,
    Client.authenticateMessage now (Ok cc) (Ok k) (of_bytes cmsg) c = Ok (amsg, Some ses)
    /\ newSession true (Client.User c) defaultFlags k (ti_map 0 (ti ++ [eol]) ∅) = Ok ses
    /\ blen amsg = 88 + blen domain + blen (wide (Client.User c)) + blen (wide (Client.Workstation c))
         + 24 + blen resp + 16
    /\ message_facts amsg domain (wide (Client.User c)) resp (encrypted (base_key key resp) k) k
         (Client.nmsg c ++ cmsg).
Proof.
  intros spn info domain resp Hrd Hcr Hn Hk Ht1 Ht2 Ht3 Hts Hl1 Hl2 Hl3.
  unfold Client.authenticateMessage. rewrite Hrd. cbn [obind]. rewrite !EncodeStringToBytes_ok. cbn [obind].
  fold (client_domain c tn). fold domain. cbn [ntlm.size targetInfoEncoder.asEncoder].
  rewrite client_size by done. set (U := wide (Client.User c)). set (W := wide (Client.Workstation c)).
  set (T := ti_bytes (client_ti ti spn)) in *.
  pose proof (blen_nonneg domain). pose proof (blen_nonneg U). pose proof (blen_nonneg W). pose proof (blen_nonneg T).
  assert (Hi : blen info = blen T + 4) by (unfold info; len).
  assert (Hr : blen resp = 44 + blen info) by (unfold resp, response; len).
  replace (64 + 8 + 16 + blen domain + blen U + blen W + 24 + (16 + (28 + blen T + 4)) + 16)
    with (88 + (blen domain + (blen U + (blen W + (24 + (44 + blen info) + 16))))) by lia.
  rewrite zeros_app by lia. unfold eseq. repeat (put_step; rewrite splice_app_l by len).
  set (Hd := splice 8 _ _). assert (HHd : blen Hd = 88) by (unfold Hd; len).
  set (n := blen domain + _). change (zeros n) with ([] ++ zeros n).
  change (64 + 8 + 16) with (88 + blen []).
  rewrite put_payload_app; [|done|lia|lia|cbn; unfold id, n; lia]. cbn [obind default app]. unfold id.
  rewrite put_payload_app; [|by rewrite blen_announce|lia|lia|rewrite not_nil_default; unfold n; lia].
  cbn [obind]. rewrite not_nil_default.
  rewrite put_payload_app; [|by rewrite !blen_announce|lia|lia|rewrite not_nil_default; unfold n; lia].
  cbn [obind]. rewrite not_nil_default. rewrite has_credentials_true by done.
  replace (n - blen domain - blen U - blen W) with (24 + (44 + blen info) + 16) by (unfold n; lia).
  set (G := (domain ++ U) ++ W).
  change (announce 44 _ _ _) with
    (name_header domain (Client.not_nil U) (Client.not_nil W) (88 + blen []) (88 + blen domain) (88 + blen (domain ++ U))).
  set (He := name_header _ _ _ _ _ _).
  rewrite s_bytes_of_bytes.
  destruct (putResponse_ok now cc k cmsg tiOff ti domain c key He G ts) as (H' & mic & ses & Hp & Hmic & Hses & HH');
    try done; [apply blen_name_header|apply name_header_mic|].
  fold spn T info resp in Hp, Hmic, HH'. rewrite Hp. cbn [obind]. do 2 eexists. split; [reflexivity|]. split; [done|].
  fold (auth_header He resp k (88 + blen G) (88 + blen G + 24) (88 + blen G + 24 + blen resp)) in HH'.
  set (ek := encrypted _ k) in *. assert (Hek : blen ek = 16) by (unfold ek; by rewrite blen_encrypted).
  assert (HHl : blen H' = 88) by (subst H'; unfold He; len).
  assert (HGl : blen G = blen domain + blen U + blen W) by (unfold G; len).
  assert (Hml : blen mic = 16) by (subst mic; apply hmac.blen_hmac).
  split; [len|]. subst H'. unfold He in *.
  destruct (header_facts domain (Client.not_nil U) (Client.not_nil W) (88 + blen []) (88 + blen domain)
    (88 + blen (domain ++ U)) resp k (88 + blen G) (88 + blen G + 24) (88 + blen G + 24 + blen resp))
    as (F1 & F2 & F3 & F4 & F5 & F6 & F7 & F8).
  set (H' := auth_header _ _ _ _ _ _) in *. clearbody H'.
  apply mkMsg.
  - len.
  - reads. done.
  - reads. done.
  - reads. done.
  - apply (announced_app _ (G ++ zeros 24) _ ek 20 resp (88 + blen G + 24)); [|len|lia|lia|right; len|by rewrite <- !app_assoc].
    apply field_splice; [done|lia..].
  - apply (announced_app _ [] _ (U ++ W ++ zeros 24 ++ resp ++ ek) 28 domain (88 + blen []));
      [|len|lia|lia|by right|unfold G; cbn [app]; by rewrite <- !app_assoc].
    apply field_splice; [done|lia..].
  - eapply (announced_app _ domain _ (W ++ zeros 24 ++ resp ++ ek) 36 U);
      [|len|lia|lia| |unfold G; by rewrite <- !app_assoc].
    + apply field_splice; [rewrite not_nil_default in F6; exact F6|lia..].
    + destruct U; [by left|by right].
  - apply (announced_app _ (G ++ zeros 24 ++ resp) _ [] 52 ek (88 + blen G + 24 + blen resp));
      [|len|lia|lia|right; len|by rewrite app_nil_r, <- !app_assoc].
    apply field_splice; [by rewrite Hek, <- Hl3|lia..].
  - rewrite sub_app_l by len. rewrite sub_splice_same by len. rewrite Hmic at 1. f_equal.
    rewrite <- !app_assoc. do 2 f_equal. rewrite splice_app_l by len. f_equal.
    rewrite splice_twice by len. rewrite <- F8. symmetry. apply splice_sub; lia.
Qed.

End client.

(** ** What the server makes of the message *)

Lemma s_bytes_window s a n : 0 <= a -> 0 <= n -> a + n <= s_len s -> sub a n (s_arr s) = sub a n (s_bytes s).
Proof. intros. unfold s_bytes. by rewrite sub_upto by lia. Qed.

Lemma exported_encrypted base k :
  blen base = 16 -> blen k = 16 -> Server.exported_key defaultFlags base (encrypted base k) = Ok k.
Proof.
  intros Hb Hk. unfold Server.exported_key.
  change (has defaultFlags NTLMSSP_NEGOTIATE_KEY_EXCH) with true. cbv iota.
  rewrite NewCipher_16 by done. cbn [obind]. unfold rc4.XORKeyStream.
  rewrite (proj2 (Z.leb_le _ _)) by (rewrite blen_encrypted; lia). unfold encrypted.
  rewrite rc4.xor_stream_inv. cbn [obind]. by rewrite splice_full by len.
Qed.

(** The parts of a response that the server takes it apart into. *)
Lemma response_parts key sc ts cc info r :
  slice_wf r -> s_bytes r = response key sc (blob ts cc info) -> blen ts = 8 -> blen cc = 8 ->
  exists b t c i, s_from r 16 = Ok b /\ s_range b 8 16 = Ok t /\ s_range b 16 24 = Ok c /\ s_from b 28 = Ok i
    /\ s_bytes t = ts /\ s_bytes c = cc /\ s_bytes i = info.
Proof.
  intros Hw Hr Ht Hc. pose proof (blen_s_bytes r Hw) as Hl. pose proof (blen_nonneg info).
  assert (Hn : s_len r = 44 + blen info) by (rewrite <- Hl, Hr; unfold response; len).
  destruct Hw as [_ Hcap]. unfold s_cap in Hcap.
  do 4 eexists. rewrite s_from_ok by lia. split; [reflexivity|].
  assert (Hca : s_cap (mkSlice (from 16 (s_arr r)) (s_len r - 16)) = blen (s_arr r) - 16)
    by (unfold s_cap; cbn [s_arr]; len).
  rewrite !s_range_ok by lia. rewrite s_from_ok by (cbn [s_len]; lia).
  do 3 (split; [reflexivity|]). unfold s_bytes. cbn [s_arr s_len].
  change (upto ?n (from ?a ?p)) with (sub a n p). rewrite !sub_from by lia.
  change (8 + 16) with 24. change (16 + 16) with 32. change (28 + 16) with 44.
  rewrite !s_bytes_window by lia. rewrite Hr. unfold response, blob.
  repeat split; rewrite !sub_app_r by len; rewrite ?hmac.blen_hmac, ?blen_zeros, ?Ht, ?Hc by done.
  - rewrite sub_app_l by len. apply sub_all. done.
  - rewrite sub_app_l by len. apply sub_all. done.
  - apply sub_all. lia.
Qed.

Lemma check_mic_ok k info amsg s :
  88 <= blen amsg ->
  (forall m o v, parseAvPairs info = Some m -> m !! MsvAvFlags = Some (o, v) -> 4 <= blen v) ->
  sub 72 16 amsg = hmac.Sum k ((Server.nmsg s ++ Server.cmsg s) ++ splice 72 (zeros 16) amsg) ->
  Server.check_mic defaultFlags k info (of_bytes amsg) s = Ok tt.
Proof.
  intros Hl Hv Hm. unfold Server.check_mic. destruct (parseAvPairs info) as [m|] eqn:E; [|done].
  destruct (m !! MsvAvFlags) as [[o v]|] eqn:Ev; [|done]. specialize (Hv m o v eq_refl Ev).
  rewrite le_Uint_ok by (cbn; lia). cbn [obind]. destruct (negb _); [done|].
  change (has defaultFlags NTLMSSP_NEGOTIATE_VERSION) with true. cbv iota.
  rewrite s_range_ok by len. cbn [obind]. unfold s_bytes. cbn [of_bytes s_arr s_len].
  change (upto (72 + 16 - 72) (from 72 amsg)) with (sub 72 16 amsg).
  rewrite upto_all by len. by rewrite bool_decide_true by (rewrite Hm; by rewrite <- app_assoc).
Qed.

Section accept.
Context `{Lib : NtlmLib}.

Lemma server_accepts s amsg user domain key ts cc info k ses :
  let resp := response key (sub 24 8 (Server.cmsg s)) (blob ts cc info) in
  message_facts amsg domain (wide user) resp (encrypted (base_key key resp) k) k (Server.nmsg s ++ Server.cmsg s) ->
  Forall scalar user -> last user <> Some 0 -> Server.accounts s !! user <> None ->
  Server.response_key user domain s = Ok key -> 32 <= blen (Server.cmsg s) ->
  blen ts = 8 -> blen cc = 8 -> blen k = 16 ->
  blen domain < 65536 -> blen (wide user) < 65536 -> blen resp < 65536 -> blen amsg < 4294967296 ->
  (forall m o v, parseAvPairs info = Some m -> m !! MsvAvFlags = Some (o, v) -> 4 <= blen v) ->
  newSession false user defaultFlags k ∅ = Ok ses ->
  Server.authenticateMessage (of_bytes amsg) s = Ok ses.
Proof.
  intros resp [] Hsc Hlast Hacc Hkey Hcm Hts Hcc Hk Ld Lu Lr La Hmic Hses.
  unfold Server.authenticateMessage.
  rewrite (check_message_ok amsg) by (done || lia). cbn [obind].
  get_step. cbn [of_bytes s_arr]. rewrite mf_flags0, le_dec_enc4. change (u32 defaultFlags) with defaultFlags.
  fold (of_bytes amsg).
  destruct (announced_payload amsg 20 resp "invalid LM challenge format") as (r & -> & Hrw & Hrl & Hrb); [done|lia..|].
  destruct (announced_payload amsg 28 domain "invalid domain name format") as (d & -> & _ & _ & Hdb); [done|lia..|].
  destruct (announced_payload amsg 36 (wide user) "invalid user name format") as (u & -> & Huw & _ & Hub); [done|lia..|].
  destruct (announced_payload amsg 52 (encrypted (base_key key resp) k) "invalid user name format")
    as (e & -> & _ & _ & Heb); [done|lia|lia|rewrite blen_encrypted; lia|lia|].
  cbn [obind].
  assert (Hrn : blen resp = 44 + blen info) by (unfold resp, response; len). pose proof (blen_nonneg info).
  rewrite (proj2 (Z.eqb_neq (s_len r) 0)) by lia. rewrite orb_true_r.
  rewrite (DecodeToString_ok u user) by done. cbn [obind]. rewrite bool_decide_false by done. cbn [andb].
  destruct (response_parts _ _ _ _ _ _ Hrw Hrb Hts Hcc) as (b & t & c & i & E1 & E2 & E3 & E4 & Ht & Hc & Hi).
  rewrite E1. cbn [obind]. rewrite Hdb, Hkey. cbn [obind].
  rewrite s_range_ok by (try lia; len). cbn [obind]. rewrite E2, E3, E4. cbn [obind].
  rewrite Ht, Hc, Hi, Hrl, Hrn. unfold s_bytes at 1. cbn [of_bytes s_arr s_len].
  change (upto (32 - 24) (from 24 (Server.cmsg s))) with (sub 24 8 (Server.cmsg s)).
  rewrite (encode_response _ _ _ _ _ info) by (done || (apply appends_copy0; [done|lia])).
  rewrite Z.sub_diag, app_nil_r. cbn [obind]. fold resp. rewrite Hrb, bool_decide_true by done. cbn [negb].
  fold (base_key key resp). rewrite Heb, exported_encrypted by (done || apply hmac.blen_hmac). cbn [obind].
  rewrite check_mic_ok by done. cbn [obind]. exact Hses.
Qed.

End accept.

(** ** The handshake *)

Section handshake.
Context `{Lib : NtlmLib}.

(** The client and the server in a row, each message handed to the other
    end; [now] and [now'] are the times at the server and at the client. *)
Definition handshake (now now' : Z) (chal cc k : bytes) (c : Client.t) (s : Server.t)
  : outcome (Client.t * Server.t) :=
  let '(r, c) := Client.Negotiate c in
  let! nmsg := r in
  let '(r, s) := Server.Challenge now (Ok chal) (of_bytes nmsg) s in
  let! cmsg := r in
  let '(r, c) := Client.Authenticate now' (Ok cc) (Ok k) (of_bytes cmsg) c in
  let! amsg := r in
  let '(r, s) := Server.Authenticate (of_bytes amsg) s in
  let! _ := r in
  Ok (c, s).

(** Every field fits its 16-bit length. *)
Record fits (now : Z) (c : Client.t) (s : Server.t) : Prop := mkFits {
  fit_target : blen (wide (Server.targetName s)) < 65536;
  fit_domain : blen (wide (Client.Domain c)) < 65536;
  fit_user : blen (wide (Client.User c)) < 65536;
  fit_workstation : blen (wide (Client.Workstation c)) < 65536;
  fit_response : 48 + blen (ti_bytes (client_ti (ti_of now s) (wide (Client.TargetSPN c)))) < 65536
}.

Lemma blen_client_ti ti spn :
  blen (ti_bytes (client_ti ti spn)) = blen (ti_bytes (ti ++ [eol])) + 28 + blen (ti_bytes (spn_pair spn)).
Proof.
  unfold client_ti. rewrite !ti_bytes_app, !ti_bytes_eol, !ti_bytes_cons.
  change (ti_bytes []) with (@nil Z). len.
Qed.

Lemma ti_of_no_flags now s : no_flags (ti_of now s).
Proof. eapply Forall_impl; [apply ti_ids|]. intros p [[-> _]|?]; unfold MsvAvFlags; [done|lia]. Qed.

Lemma ti_of_ids now s : Forall (fun p => in16 (AvPair.AvID p)) (ti_of now s).
Proof. eapply Forall_impl; [apply ti_ids|]. intros p [[-> _]|?]; unfold in16; [done|lia]. Qed.

Lemma client_ti_ids now s spn : Forall (fun p => in16 (AvPair.AvID p)) (client_ti (ti_of now s) spn).
Proof.
  unfold client_ti. apply Forall_app. split; [apply ti_of_ids|].
  repeat constructor; try done. apply Forall_app. split; [by destruct spn; repeat constructor|by repeat constructor].
Qed.

(** The flags that the server finds are those of the client. *)
Lemma client_ti_flags now s spn m o v :
  48 + blen (ti_bytes (client_ti (ti_of now s) spn)) < 65536 ->
  parseAvPairs (ti_bytes (client_ti (ti_of now s) spn) ++ zeros 4) = Some m ->
  m !! MsvAvFlags = Some (o, v) -> 4 <= blen v.
Proof.
  intros Hf. rewrite <- ti_bytes_eol, <- ti_bytes_app. rewrite parse_ti.
  2: { apply pairs_fit; [apply client_ti_ids|lia]. }
  intros Hm. injection Hm as <-.
  apply (ti_map_value (client_ti (ti_of now s) spn ++ [eol]) 0 ∅ MsvAvFlags (fun v => 4 <= blen v)); [|done].
  apply Forall_app. split; [|by repeat constructor].
  unfold client_ti. apply Forall_app. split.
  - eapply Forall_impl; [apply ti_of_no_flags|]. intros p Hp He. by destruct Hp.
  - repeat constructor; try done. apply Forall_app. split; [by destruct spn; repeat constructor|by repeat constructor].
Qed.

(** The time stamp of the response has eight bytes. *)
Definition time_of (now now' : Z) (s : Server.t) : bytes :=
  match ti_map 0 (ti_of now s ++ [eol]) ∅ !! MsvAvTimestamp with
  | Some (_, v) => v | None => le_enc 8 (Z.quot now' 100 + Filetime.epoch) end.

Lemma blen_time_of now now' s : blen (time_of now now' s) = 8.
Proof.
  unfold time_of. destruct (ti_map 0 _ ∅ !! MsvAvTimestamp) as [[o v]|] eqn:E; [|apply blen_le_enc].
  revert E. apply (ti_map_value (ti_of now s ++ [eol]) 0 ∅ MsvAvTimestamp (fun v => blen v = 8)); [|done].
  apply Forall_app. split; [|by repeat constructor].
  eapply Forall_impl; [apply ti_ids|]. intros p [[_ ->]|?] He; [done|]. rewrite He in *. unfold MsvAvTimestamp in *. lia.
Qed.

(** C10: client and server agree.  When the client has an account on the
    server and knows its password, or its hash, and the names fit their
    fields, the handshake succeeds whatever the random numbers and the
    clocks, and both ends have a session for that user with the same session
    key, the same signing keys and their ciphers in step. *)
Theorem handshake_succeeds now now' chal cc k c s :
  Server.accounts s !! Client.User c = Some (Client.Password c) ->
  Client.Hash c = None \/ Client.Hash c = Some (md4_Sum (wide (Client.Password c))) ->
  has_credentials c -> Forall scalar (Client.User c) -> last (Client.User c) <> Some 0 ->
  blen chal = 8 -> blen cc = 8 -> blen k = 16 -> fits now c s ->
  exists c' s' cs ss, handshake now now' chal cc k c s = Ok (c', s')
    /\ Client.session c' = Some cs /\ Server.session s' = Some ss /\ paired cs ss
    /\ Session.exportedSessionKey cs = k /\ Session.user ss = Client.User c.
Proof.
  intros Hacc Hhash Hcred Hsc Hlast Lch Lcc Lk [].
  set (ti := ti_of now s). set (spn := wide (Client.TargetSPN c)) in *.
  pose proof (blen_nonneg (ti_bytes (spn_pair spn))). pose proof (blen_nonneg (ti_bytes (ti ++ [eol]))).
  pose proof (blen_client_ti ti spn) as Hct. fold ti in fit_response0.
  unfold handshake. rewrite negotiate_ok. cbn [obind].
  destruct (challenge_ok now chal s Lch) as (cmsg & -> & Hf). cbn [obind]. fold ti in Hf.
  set (N := blen (wide (Server.targetName s))) in *. pose proof (blen_nonneg (wide (Server.targetName s))) as HN.
  fold N in HN. set (c1 := Client.set_nmsg negotiate_msg c).
  destruct (readChallenge_ok cmsg chal ti N c1 Hf) as (tn & Hrd & Htn & _); [done|..|unfold in16; lia|unfold in16; lia|].
  { apply pairs_fit; [apply ti_of_ids|]. revert Hct fit_response0. rewrite ti_bytes_app, ti_bytes_eol, blen_app.
    rewrite (blen_zeros 4) by done. lia. }
  set (s1 := Server.set_cmsg cmsg (Server.set_nmsg negotiate_msg s)).
  set (domain := client_domain c tn).
  assert (Hd : blen domain < 65536).
  { unfold domain, client_domain. destruct (wide (Client.Domain c)) eqn:E; cbn [Client.not_nil default]; unfold id; [lia|].
    exact fit_domain0. }
  assert (Hkey : exists key, Client.response_key domain c1 = Ok key
    /\ Server.response_key (Client.User c) domain s1 = Ok key).
  { unfold Client.response_key, Server.response_key. rewrite !EncodeStringToBytes_ok. cbn [obind].
    change (Server.accounts s1) with (Server.accounts s). rewrite Hacc. cbn [default].
    change (Client.Hash c1) with (Client.Hash c). change (Client.Password c1) with (Client.Password c).
    destruct Hhash as [-> | ->]; eauto. }
  destruct Hkey as (key & Hkc & Hks). pose proof (blen_time_of now now' s) as Hts.
  pose proof Hf as []. 
  destruct (client_message now' cc k cmsg tn (56 + N) ti c1 key (time_of now now' s))
    as (amsg & cs & Hm & Hcs & Hlen & Hmf);
    [exact Hrd|done|apply ti_of_no_flags|done|lia|lia|done|done|done|done|done|].
  unfold Client.Authenticate. rewrite Hm. cbn [obind].
  destruct (newSession_default false (Client.User c) k ∅) as (ss & Hss).
  unfold Server.Authenticate. rewrite (server_accepts s1 amsg (Client.User c) domain key (time_of now now' s) cc
    (ti_bytes (client_ti ti spn) ++ zeros 4) k ss); try done.
  - exists (Client.set_session cs c1), (Server.set_session ss s1), cs, ss. cbn [obind].
    repeat (split; [done|]). split; [by eapply newSession_paired|].
    split; [by apply newSession_fields in Hcs as (_ & _ & ?)|by apply newSession_fields in Hss as (_ & ? & _)].
  - change (Server.accounts s1) with (Server.accounts s). by rewrite Hacc.
  - change (Server.cmsg s1) with cmsg. lia.
  - fold N. unfold response. len.
  - rewrite Hlen. unfold response. fold spn.
    change (client_domain c1 tn) with domain. change (Client.User c1) with (Client.User c).
    change (Client.Workstation c1) with (Client.Workstation c). change (wide (Client.TargetSPN c1)) with spn.
    clear -Hd fit_user0 fit_workstation0 fit_response0 Hts Lcc.
    set (a := blen domain) in *. set (b := blen (wide (Client.User c))) in *.
    set (d := blen (wide (Client.Workstation c))) in *. len.
  - intros m o v. by apply client_ti_flags.
Qed.

End handshake.

(** ** What goes wrong *)

(** The target name is overwritten.  The server writes the target
    information over the end of the message, where the target name is
    already: a client that reads the challenge finds, as target name, the
    last bytes of the target information (which ends in zeros), whatever the
    server's name is.  A client without a domain then uses these bytes as its
    domain. *)
Theorem target_name_overwritten now chal s :
  let info := ti_bytes (ti_of now s ++ [eol]) in
  let N := blen (wide (Server.targetName s)) in
  blen chal = 8 -> 0 < N <= blen info -> blen info < 65536 ->
  exists cmsg s', Server.Challenge now (Ok chal) (of_bytes negotiate_msg) s = (Ok cmsg, s')
    /\ forall c, Client.nmsg c = negotiate_msg ->
       exists off i, Client.readChallenge (of_bytes cmsg) c
         = Ok (defaultFlags, sub (blen info - N) N info, off, i).
Proof.
  intros info N Hc HN Hi. destruct (challenge_ok now chal s Hc) as (cmsg & He & Hf).
  fold info N in Hf. exists cmsg. eexists. split; [exact He|]. intros c Hn.
  destruct (readChallenge_ok cmsg chal (ti_of now s) N c Hf Hn) as (tn & Hr & _ & Ht);
    [| unfold in16; lia | fold info; unfold in16; lia |].
  - apply pairs_fit; [apply ti_of_ids|]. revert Hi. unfold info. rewrite ti_bytes_app, ti_bytes_eol. len.
  - rewrite Hr. fold info in Ht |- *. rewrite Ht by lia. by do 2 eexists.
Qed.

(** A message with a user name and no response. *)
Definition short_message (user : gostring) : bytes :=
  signature ++ le_enc 4 NtLmAuthenticate ++ zeros 24 ++ le_enc 2 (blen (wide user)) ++ le_enc 2 (blen (wide user))
    ++ le_enc 4 64 ++ zeros 20 ++ wide user.

Section panic.
Context `{Lib : NtlmLib}.

Lemma sub_exact a n p : a = 0 -> n = blen p -> sub a n p = p.
Proof. intros -> ->. by apply sub_all. Qed.

Ltac in_parts :=
  repeat (rewrite sub_app_r by len); try rewrite sub_app_l by len;
  first [rewrite sub_exact by len; done | rewrite sub_zeros by len; done].

Lemma short_message_fields user :
  announced (short_message user) 36 (wide user)
  /\ announced (short_message user) 20 [] /\ announced (short_message user) 28 [] /\ announced (short_message user) 52 [].
Proof.
  set (W := wide user). pose proof (blen_nonneg W).
  assert (Hl : blen (short_message user) = 64 + blen W) by (unfold short_message; fold W; len).
  repeat split.
  - exists 64. rewrite Hl. unfold field, short_message. fold W.
    repeat split; [in_parts..|lia|lia|].
    rewrite !sub_app_r by len. apply sub_exact; [len|done].
  - exists 0. rewrite Hl. unfold field, short_message. repeat split; [in_parts..|lia|rewrite blen_nil; lia].
  - exists 0. rewrite Hl. unfold field, short_message. repeat split; [in_parts..|lia|rewrite blen_nil; lia].
  - exists 0. rewrite Hl. unfold field, short_message. repeat split; [in_parts..|lia|rewrite blen_nil; lia].
Qed.

(** C38: a message without a response stops the server.  Anyone who knows the
    name of an account, or anyone at all when guests are allowed, can send an
    authenticate message with that user name and an empty response:
    [Authenticate] slices the response before it checks its length, and the
    server panics, whether a challenge was sent or not. *)
Theorem short_response_panics user s :
  Forall scalar user -> last user <> Some 0 -> user <> [] -> blen (wide user) < 65536 ->
  Server.accounts s !! user <> None \/ Server.allowGuest s = true ->
  fst (Server.Authenticate (of_bytes (short_message user)) s) = Panic.
Proof.
  intros Hsc Hlast Hne Hlen Hacc. pose proof (blen_nonneg (wide user)).
  destruct (short_message_fields user) as (Hu & Hr & Hd & Hk).
  assert (Hl : blen (short_message user) = 64 + blen (wide user)) by (unfold short_message; len).
  unfold Server.Authenticate, Server.authenticateMessage.
  rewrite check_message_ok; [|lia|lia|done|unfold short_message; in_parts..]. cbn [obind].
  get_step.
  destruct (announced_payload _ 20 [] "invalid LM challenge format" Hr) as (r & -> & _ & Hrl & _); [lia|lia|rewrite blen_nil; lia|lia|].
  destruct (announced_payload _ 28 [] "invalid domain name format" Hd) as (d & -> & _); [lia|lia|rewrite blen_nil; lia|lia|].
  destruct (announced_payload _ 36 (wide user) "invalid user name format" Hu) as (u & -> & Huw & Hul & Hub); [lia|lia|lia|lia|].
  destruct (announced_payload _ 52 [] "invalid user name format" Hk) as (e & -> & _); [lia|lia|rewrite blen_nil; lia|lia|].
  cbn [obind]. rewrite (DecodeToString_ok u user) by done. cbn [obind].
  assert (Hn : s_len u <> 0).
  { rewrite Hul, blen_le16s. destruct user as [|x user]; [done|]. inversion Hsc; subst.
    unfold utf16_Encode. cbn [fmap list_fmap concat]. rewrite length_app. unfold utf16_encode_rune.
    repeat case_match; cbn [length]; lia. }
  rewrite (proj2 (Z.eqb_neq _ _) Hn). cbn [negb orb].
  assert (bool_decide (Server.accounts s !! user = None) && negb (Server.allowGuest s) = false) as ->.
  { destruct Hacc as [Ha| ->]; [by rewrite (bool_decide_false _ Ha)|apply andb_false_r]. }
  unfold s_from. rewrite Hrl. done.
Qed.

End panic.

(** ** server/authenticator.go *)

Module NTLMAuthenticator.

(** The object: what it is configured with, the server of the last
    challenge, and how often the clock and the random source were read. *)
Record t := mk {
  UserPassword : gmap gostring gostring;
  TargetSPN : gostring;
  NbDomain : gostring;
  NbName : gostring;
  DnsName : gostring;
  DnsDomain : gostring;
  AllowGuest : bool;
  ntlm : option Server.t;
  seqNum : Z;
  tick : nat
}.

Definition set_ntlm (s : Server.t) (k : nat) (i : t) : t :=
  mk (UserPassword i) (TargetSPN i) (NbDomain i) (NbName i) (DnsName i) (DnsDomain i) (AllowGuest i)
     (Some s) (seqNum i) k.

Section ops.
Context `{Lib : NtlmLib} (clock : nat -> Z) (rand : nat -> outcome bytes).

Definition newServer (i : t) : Server.t :=
  let s := Server.NewServer (TargetSPN i) (NbName i) (NbDomain i) (DnsName i) (DnsDomain i) in
  let s := map_fold Server.AddAccount s (UserPassword i) in
  if AllowGuest i then Server.AllowGuest s else s.

Definition challenge (sc : bytes) (i : t) : outcome bytes * t :=
  let '(r, s) := Server.Challenge (clock (tick i)) (rand (tick i)) (of_bytes sc) (newServer i) in
  (r, set_ntlm s (S (tick i)) i).

(** A nil server is dereferenced. *)
Definition authenticate (sc : bytes) (i : t) : outcome gostring * t :=
  match ntlm i with
  | None => (Panic, i)
  | Some s =>
      let '(r, s) := Server.Authenticate (of_bytes sc) s in
      let i := set_ntlm s (tick i) i in
      match r with
      | Ok _ => match Server.session s with Some x => (Ok (Session.User x), i) | None => (Panic, i) end
      | Err e => (Err e, i)
      | Panic => (Panic, i)
      end
  end.

(** The sequence number that [Sum] returns is not kept. *)
Definition sum (bs : bytes) (i : t) : outcome bytes * t :=
  match ntlm i with
  | Some s =>
      match Server.session s with
      | Some x =>
          let '(mic, _, x) := Session.Sum bs (seqNum i) x in
          (Ok (default [] mic), set_ntlm (Server.set_session x s) (tick i) i)
      | None => (Panic, i)
      end
  | None => (Panic, i)
  end.

Definition sessionKey (i : t) : outcome bytes :=
  match ntlm i with
  | Some s => match Server.session s with Some x => Ok (Session.SessionKey x) | None => Panic end
  | None => Panic
  end.

Definition infoMap (i : t) : outcome Session.InfoMap.t :=
  match ntlm i with
  | Some s => match Server.session s with Some x => Session.getInfoMap x | None => Panic end
  | None => Panic
  end.

(** The instance of the interface. *)
Definition asAuthenticator (i : t) : Authenticator :=
  mkAuth t NlmpOid challenge authenticate sum sessionKey i.

(** *** Its behaviour *)

Lemma accounts_fold (m : gmap gostring gostring) s :
  Server.accounts (map_fold Server.AddAccount s m) = m ∪ Server.accounts s
  /\ Server.allowGuest (map_fold Server.AddAccount s m) = Server.allowGuest s.
Proof.
  apply (map_fold_weak_ind (fun r m => Server.accounts r = m ∪ Server.accounts s
    /\ Server.allowGuest r = Server.allowGuest s)).
  - by rewrite map_empty_union.
  - intros u p m' r _ [IH ?]. cbn. split; [|done]. by rewrite IH, insert_union_l.
Qed.

(** The server of a challenge has the accounts of the configuration. *)
Lemma newServer_accounts i :
  Server.accounts (newServer i) = UserPassword i /\ Server.allowGuest (newServer i) = AllowGuest i.
Proof.
  unfold newServer. destruct (accounts_fold (UserPassword i)
    (Server.NewServer (TargetSPN i) (NbName i) (NbDomain i) (DnsName i) (DnsDomain i))) as [Ha Hg].
  cbn [Server.accounts Server.allowGuest Server.NewServer] in Ha, Hg. rewrite map_union_empty in Ha.
  by destruct (AllowGuest i); cbn.
Qed.

End ops.
End NTLMAuthenticator.

(** ** NTLM as a mechanism *)

Section mechanism.
Context `{Lib : NtlmLib} `{Asn : Ber} (clock : nat -> Z) (rand : nat -> outcome bytes).
Import NTLMAuthenticator.

(** [rand.Read] fills the buffer of a challenge, or fails. *)
Hypothesis rand_fills : forall n b, rand n = Ok b -> blen b = 8.

(** The eight bytes at 24 of [cmsg] are random bytes that were drawn before
    the time [n]. *)
Definition drawn_before (n : nat) (cmsg : bytes) : Prop :=
  exists k, (k < n)%nat /\ rand k = Ok (sub 24 8 cmsg).

(** The server of the last challenge has the accounts of the object, and the
    challenge it sent, if it sent one, was drawn for it. *)
Definition auth_wf (i : t) : Prop :=
  forall s, ntlm i = Some s ->
    (Server.accounts s = UserPassword i /\ Server.allowGuest s = AllowGuest i)
    /\ (Server.cmsg s = [] \/ drawn_before (tick i) (Server.cmsg s)).

Lemma Challenge_config now rnd nmsg s :
  Server.accounts (snd (Server.Challenge now rnd nmsg s)) = Server.accounts s
  /\ Server.allowGuest (snd (Server.Challenge now rnd nmsg s)) = Server.allowGuest s.
Proof. unfold Server.Challenge. by case_match. Qed.

Lemma Authenticate_config amsg s :
  (Server.accounts (snd (Server.Authenticate amsg s)) = Server.accounts s
   /\ Server.allowGuest (snd (Server.Authenticate amsg s)) = Server.allowGuest s)
  /\ Server.cmsg (snd (Server.Authenticate amsg s)) = Server.cmsg s.
Proof. unfold Server.Authenticate. by case_match. Qed.

Lemma copy_range_inv a b bs p q :
  copy_range a b bs p = Ok q -> blen bs = b - a ->
  0 <= a /\ b <= blen p /\ q = splice a bs p.
Proof.
  unfold copy_range. destruct (_ && _) eqn:E; [|done]. intros [= <-] Hb.
  rewrite !andb_true_iff, !Z.leb_le in E. split_and!; [lia..|]. f_equal. apply upto_all. lia.
Qed.

(** The bytes that were drawn are the challenge, whatever flags the client
    asked for. *)
Lemma challengeMessage_random now rnd flags s cmsg :
  (forall b, rnd = Ok b -> blen b = 8) ->
  Server.challengeMessage now rnd flags s = Ok cmsg -> rnd = Ok (sub 24 8 cmsg).
Proof.
  intros Hrnd H. unfold Server.challengeMessage in H. cbv zeta in H.
  ok_inv H. ok_inv H. ok_inv H.
  match type of H with obind ?m _ = _ => destruct m as [[c1 o1]| |]; cbn [obind] in H; [|discriminate H..] end.
  ok_inv H. destruct rnd as [chal| |]; [|discriminate H..]. cbn [obind] in H. ok_inv H.
  pose proof (Hrnd chal eq_refl) as Hc. f_equal. symmetry.
  match goal with E : copy_range 24 32 _ _ = Ok _ |- _ => apply copy_range_inv in E as (_ & Hl & ->); [|lia] end.
  assert (Hsub : sub 24 8 (splice 24 chal a2) = chal) by (by rewrite <- Hc; apply sub_splice_same; lia).
  destruct (has flags NTLMSSP_NEGOTIATE_VERSION); [|by injection H as <-].
  apply copy_range_inv in H as (_ & _ & ->); [|done]. by rewrite sub_splice_out by lia.
Qed.

Lemma newServer_cmsg i : Server.cmsg (newServer i) = [].
Proof.
  unfold newServer. set (s0 := Server.NewServer _ _ _ _ _).
  assert (Server.cmsg (map_fold Server.AddAccount s0 (UserPassword i)) = []).
  { apply (map_fold_weak_ind (fun r _ => Server.cmsg r = [])); [done|]. by intros. }
  by destruct (AllowGuest i).
Qed.

Lemma challenge_wf sc i : auth_wf (snd (challenge clock rand sc i)).
Proof.
  unfold challenge. pose proof (Challenge_config (clock (tick i)) (rand (tick i)) (of_bytes sc) (newServer i)) as H.
  destruct (Server.Challenge _ _ _ _) as [r s] eqn:E. cbn [snd] in *. intros s' [= <-]. cbn.
  destruct H as [-> ->]. split; [apply newServer_accounts|].
  unfold Server.Challenge in E. destruct (let! _ := _ in _) as [cmsg| |] eqn:Em; injection E as _ <-.
  2, 3: left; apply newServer_cmsg.
  right. exists (tick i). split; [lia|]. cbn. ok_inv Em. ok_inv Em.
  eapply challengeMessage_random; [apply rand_fills|exact Em].
Qed.

Lemma authenticate_wf sc i : auth_wf i -> auth_wf (snd (authenticate sc i)).
Proof.
  intros Hw. unfold authenticate. destruct (ntlm i) as [s|] eqn:E; [|done].
  pose proof (Authenticate_config (of_bytes sc) s) as H. specialize (Hw s E).
  destruct (Server.Authenticate _ _) as [r s']. cbn [snd] in H.
  assert (auth_wf (set_ntlm s' (tick i) i)).
  { intros s'' [= <-]. cbn. destruct H as [[-> ->] ->]. exact Hw. }
  repeat case_match; done.
Qed.

(** An NTLM authenticator with the accounts [users]. *)
Definition ntlm_auth (users : gmap gostring gostring) (guest : bool) (a : Authenticator) : Prop :=
  exists i, a = asAuthenticator clock rand i /\ auth_wf i /\ UserPassword i = users /\ AllowGuest i = guest.

Lemma challenge_config sc i :
  UserPassword (snd (challenge clock rand sc i)) = UserPassword i
  /\ AllowGuest (snd (challenge clock rand sc i)) = AllowGuest i.
Proof. unfold challenge. by destruct (Server.Challenge _ _ _ _). Qed.

Lemma authenticate_config sc i :
  UserPassword (snd (authenticate sc i)) = UserPassword i /\ AllowGuest (snd (authenticate sc i)) = AllowGuest i.
Proof.
  unfold authenticate. destruct (ntlm i); [|done]. destruct (Server.Authenticate _ _). by repeat case_match.
Qed.

(** The methods keep it. *)
Lemma ntlm_auth_methods users guest a tok :
  ntlm_auth users guest a ->
  ntlm_auth users guest (au_set a (snd (au_challenge a tok (au_state a))))
  /\ ntlm_auth users guest (au_set a (snd (au_authenticate a tok (au_state a)))).
Proof.
  intros (i & -> & Hw & Hu & Hg). split.
  - exists (snd (challenge clock rand tok i)). split; [reflexivity|]. split; [apply challenge_wf|].
    destruct (challenge_config tok i) as [-> ->]. done.
  - exists (snd (authenticate tok i)). split; [reflexivity|]. split; [by apply authenticate_wf|].
    destruct (authenticate_config tok i) as [-> ->]. done.
Qed.

(** [tok], or the token in it, is an authenticate message of [user] that
    answers the last challenge of one of the authenticators in [heap], which
    has the accounts [users]: eight bytes that it drew. *)
Definition logged_in (users : gmap gostring gostring) (guest : bool) (heap : list Authenticator)
    (tok : bytes) (user : gostring) : Prop :=
  (users !! user <> None \/ guest = true)
  /\ exists m i s inner base, heap !! m = Some (asAuthenticator clock rand i) /\ ntlm i = Some s
    /\ Server.accounts s = users /\ drawn_before (tick i) (Server.cmsg s)
    /\ (inner = tok \/ exists resp, DecodeNegTokenResp tok = Ok resp /\ inner = default [] (NegTokenResp.ResponseToken resp))
    /\ proves s (of_bytes inner) user base.

Lemma accepted_by_ntlm users guest heap tok user :
  Forall (ntlm_auth users guest) heap -> accepted_by heap tok user -> logged_in users guest heap tok user.
Proof.
  intros Hall (m & a & inner & Hm & Hin & Hacc).
  destruct (Forall_lookup_1 _ _ _ _ Hall Hm) as (i & -> & Hw & <- & <-).
  cbn in Hacc. unfold authenticate in Hacc. destruct (ntlm i) as [s|] eqn:E; [|done].
  destruct (Hw s E) as [[Hus Hg] Hdr]. unfold Server.Authenticate in Hacc.
  destruct (Server.authenticateMessage (of_bytes inner) s) as [ses| |] eqn:Es; [|done..].
  cbn in Hacc. injection Hacc as <-.
  apply authenticateMessage_sound in Es as (Ha & Hc & base & _ & Hp & _); [|apply of_bytes_wf].
  rewrite <- Hus, <- Hg. split; [exact Ha|]. exists m, i, s, inner, base.
  destruct Hdr as [Hnil|Hdr]; [rewrite Hnil in Hc; done|]. done.
Qed.

End mechanism.

(** ** Concrete checks *)

(** The last sixteen bytes stand for the MD4 of a string; names in lower
    case are their own upper case. *)
Definition toy_ntlm : NtlmLib := mkNtlmLib (fun b => sub 0 16 (b ++ zeros 16)) (fun s => s).

Definition toy_user : gostring := [0x75; 0x73; 0x65; 0x72].
Definition toy_client : Client.t := Client.mk toy_user [0x70; 0x77] None [] [] [] [] None.
Definition toy_server : Server.t :=
  Server.AddAccount toy_user [0x70; 0x77] (Server.NewServer [0x73; 0x72; 0x76] [0x4e] [] [] []).

Lemma toy_user_scalar : Forall scalar toy_user.
Proof. repeat (apply Forall_cons; split; [unfold scalar; lia|]). apply Forall_nil. done. Qed.

Lemma handshake_succeeds_witness :
  exists c' s' cs ss, @handshake toy_ntlm 1700000000000000000 1700000000500000000
      (repeat 3 8) (repeat 4 8) (repeat 5 16) toy_client toy_server = Ok (c', s')
    /\ Client.session c' = Some cs /\ Server.session s' = Some ss /\ paired cs ss.
Proof.
  destruct (@handshake_succeeds toy_ntlm 1700000000000000000 1700000000500000000
      (repeat 3 8) (repeat 4 8) (repeat 5 16) toy_client toy_server) as (c' & s' & cs & ss & H1 & H2 & H3 & H4 & _).
  - reflexivity.
  - left. reflexivity.
  - left. discriminate.
  - exact toy_user_scalar.
  - discriminate.
  - reflexivity.
  - reflexivity.
  - reflexivity.
  - constructor; vm_compute; reflexivity.
  - exists c', s', cs, ss. split; [exact H1|]. split; [exact H2|]. split; [exact H3|exact H4].
Defined.

Lemma target_name_overwritten_witness :
  exists cmsg s', Server.Challenge 1700000000000000000 (Ok (repeat 3 8)) (of_bytes negotiate_msg) toy_server = (Ok cmsg, s')
    /\ exists off i, Client.readChallenge (of_bytes cmsg) (Client.set_nmsg negotiate_msg toy_client)
         = Ok (defaultFlags, [0x4e; 0; 0; 0; 0; 0], off, i).
Proof.
  destruct (target_name_overwritten 1700000000000000000 (repeat 3 8) toy_server) as (cmsg & s' & H1 & H2).
  - reflexivity.
  - split; vm_compute; [reflexivity|discriminate].
  - vm_compute. reflexivity.
  - exists cmsg, s'. split; [exact H1|]. apply (H2 (Client.set_nmsg negotiate_msg toy_client)). reflexivity.
Defined.

Lemma short_response_panics_witness :
  fst (@Server.Authenticate toy_ntlm (of_bytes (short_message toy_user)) toy_server) = Panic.
Proof.
  apply (@short_response_panics toy_ntlm toy_user toy_server).
  - exact toy_user_scalar.
  - discriminate.
  - discriminate.
  - vm_compute. reflexivity.
  - left. vm_compute. discriminate.
Defined.

(** The client's answer to a challenge, and the server that waits for it. *)
Definition toy_exchange : outcome (bytes * Server.t) :=
  let '(r, c) := Client.Negotiate toy_client in
  let! nmsg := r in
  let '(r, s) := Server.Challenge 1700000000000000000 (Ok (repeat 3 8)) (of_bytes nmsg) toy_server in
  let! cmsg := r in
  let '(r, _) := @Client.Authenticate toy_ntlm 0 (Ok (repeat 4 8)) (Ok (repeat 5 16)) (of_bytes cmsg) c in
  let! amsg := r in
  Ok (amsg, s).

Lemma toy_exchange_ok :
  match toy_exchange with
  | Ok (amsg, s) => is_ok (fst (@Server.Authenticate toy_ntlm (of_bytes amsg) s))
  | _ => false
  end = true.
Proof. vm_compute. reflexivity. Qed.

Lemma authenticate_sound_witness :
  match toy_exchange with
  | Ok (amsg, s) => exists s' ses base, @Server.Authenticate toy_ntlm (of_bytes amsg) s = (Ok tt, s')
      /\ Server.session s' = Some ses /\ @proves toy_ntlm s (of_bytes amsg) (Session.user ses) base
  | _ => False
  end.
Proof.
  pose proof toy_exchange_ok as Hk. destruct toy_exchange as [[amsg s]| |]; [|discriminate Hk..].
  destruct (@Server.Authenticate toy_ntlm (of_bytes amsg) s) as [[[]| |] s'] eqn:E; [|discriminate Hk..].
  destruct (@authenticate_sound toy_ntlm (of_bytes amsg) s s' (of_bytes_wf amsg) E)
    as (ses & base & ek & H1 & _ & _ & H2 & _).
  exists s', ses, base. split; [reflexivity|]. split; [exact H1|exact H2].
Defined.

(** Two logins through one authenticator: [first] is challenged, then someone
    else, then [first] answers. *)
Definition interleaved (cc k : bytes) (c : Client.t) (i : NTLMAuthenticator.t)
    (clock : nat -> Z) (rand : nat -> outcome bytes) : outcome (outcome gostring * outcome gostring) :=
  let '(r, c) := Client.Negotiate c in
  let! nmsg := r in
  let '(r, i1) := NTLMAuthenticator.challenge clock rand nmsg i in
  let! cmsg := r in
  let '(_, i2) := NTLMAuthenticator.challenge clock rand nmsg i1 in
  let '(r, _) := @Client.Authenticate toy_ntlm 0 (Ok cc) (Ok k) (of_bytes cmsg) c in
  let! amsg := r in
  Ok (fst (@NTLMAuthenticator.authenticate toy_ntlm amsg i1), fst (@NTLMAuthenticator.authenticate toy_ntlm amsg i2)).

(** Logins of two connections disturb each other.  The authenticator is
    one object for all connections and keeps only its last challenge: the
    answer that is accepted right after its challenge is rejected when
    another connection was challenged in between. *)
Theorem interleaved_login_fails :
  interleaved (repeat 4 8) (repeat 5 16) toy_client
    (NTLMAuthenticator.mk {[ toy_user := [0x70; 0x77] ]} [] [] [] [] [] false None 0 0)
    (fun n => Z.of_nat n) (fun n => Ok (repeat (Z.of_nat n) 8))
  = Ok (Ok toy_user, Err (ErrOther "login failure")).
Proof. vm_compute. reflexivity. Qed.
