(* ===== verification/Conn.v ===== *)
(** * Connections (server/conn.go)

    Accepting, decrypting, verifying and cutting received packets; encoding,
    signing or encrypting, compounding and writing responses. *)

From S2P Require Import Prelude Const Packet Utf16 Request Dtyp Response.
From S2P Require Import Cipher Cmac Ccm Session Compound Credit Transport.

(** ** State *)

Inductive ConnState :=
| STATE_NEGOTIATE | STATE_SESSION_SETUP | STATE_SESSION_SETUP_CHALLENGE | STATE_SESSION_ACTIVE.

#[export] Instance ConnState_eq_dec : EqDecision ConnState.
Proof. solve_decision. Defined.

(** server/tree.go.  [ops] is the struct that embeds the treeConn and gives
    the operations of the treeOps interface: the share's file system (by an
    identifier) or the names of the shares.  [session] is the pointer to the
    session that made the tree, nil when there was none. *)
Inductive treeOps := ipcTree (shares : list gostring) | fileTree (fs : Z).

Module treeConn.
Record t := mk {
  session : option nat; treeId : Z; shareFlags : Z; path : gostring; refCount : Z; ops : treeOps
}.
Definition set_refCount (n : Z) (x : t) : t :=
  mk (session x) (treeId x) (shareFlags x) (path x) n (ops x).
End treeConn.

(** Sessions and trees are pointers: [heap] and [trees] hold the objects,
    the other fields hold references to them.  [written] is what was handed
    to the transport. *)
Module conn.

Record t := mk {
  session : option nat;
  sessions : gmap Z nat;
  heap : gmap nat session.t;
  sequenceWindow : Z;
  dialect : Z;
  maxTransactSize : Z;
  maxReadSize : Z;
  maxWriteSize : Z;
  requireSigning : bool;
  capabilities : Z;
  preauthIntegrityHashId : Z;
  preauthIntegrityHashValue : bytes;
  cipherId : Z;
  hashId : Z;
  posixExtensions : bool;
  account : account.t;
  useSession : bool;
  serverState : ConnState;
  trees : gmap nat treeConn.t;
  treeMapByName : gmap gostring nat;
  treeMapById : gmap Z nat;
  written : list bytes
}.

Definition set_session (v : option nat) (c : t) : t :=
  mk v (sessions c) (heap c) (sequenceWindow c) (dialect c) (maxTransactSize c)
     (maxReadSize c) (maxWriteSize c) (requireSigning c) (capabilities c)
     (preauthIntegrityHashId c) (preauthIntegrityHashValue c) (cipherId c) (hashId c)
     (posixExtensions c) (account c) (useSession c) (serverState c) (trees c)
     (treeMapByName c) (treeMapById c) (written c).
Definition set_sessions (v : gmap Z nat) (c : t) : t :=
  mk (session c) v (heap c) (sequenceWindow c) (dialect c) (maxTransactSize c)
     (maxReadSize c) (maxWriteSize c) (requireSigning c) (capabilities c)
     (preauthIntegrityHashId c) (preauthIntegrityHashValue c) (cipherId c) (hashId c)
     (posixExtensions c) (account c) (useSession c) (serverState c) (trees c)
     (treeMapByName c) (treeMapById c) (written c).
Definition set_heap (v : gmap nat session.t) (c : t) : t :=
  mk (session c) (sessions c) v (sequenceWindow c) (dialect c) (maxTransactSize c)
     (maxReadSize c) (maxWriteSize c) (requireSigning c) (capabilities c)
     (preauthIntegrityHashId c) (preauthIntegrityHashValue c) (cipherId c) (hashId c)
     (posixExtensions c) (account c) (useSession c) (serverState c) (trees c)
     (treeMapByName c) (treeMapById c) (written c).
Definition set_sequenceWindow (v : Z) (c : t) : t :=
  mk (session c) (sessions c) (heap c) v (dialect c) (maxTransactSize c) (maxReadSize c)
     (maxWriteSize c) (requireSigning c) (capabilities c) (preauthIntegrityHashId c)
     (preauthIntegrityHashValue c) (cipherId c) (hashId c) (posixExtensions c) (account c)
     (useSession c) (serverState c) (trees c) (treeMapByName c) (treeMapById c) (written c).
Definition set_dialect (v : Z) (c : t) : t :=
  mk (session c) (sessions c) (heap c) (sequenceWindow c) v (maxTransactSize c)
     (maxReadSize c) (maxWriteSize c) (requireSigning c) (capabilities c)
     (preauthIntegrityHashId c) (preauthIntegrityHashValue c) (cipherId c) (hashId c)
     (posixExtensions c) (account c) (useSession c) (serverState c) (trees c)
     (treeMapByName c) (treeMapById c) (written c).
Definition set_maxTransactSize (v : Z) (c : t) : t :=
  mk (session c) (sessions c) (heap c) (sequenceWindow c) (dialect c) v (maxReadSize c)
     (maxWriteSize c) (requireSigning c) (capabilities c) (preauthIntegrityHashId c)
     (preauthIntegrityHashValue c) (cipherId c) (hashId c) (posixExtensions c) (account c)
     (useSession c) (serverState c) (trees c) (treeMapByName c) (treeMapById c) (written c).
Definition set_maxReadSize (v : Z) (c : t) : t :=
  mk (session c) (sessions c) (heap c) (sequenceWindow c) (dialect c) (maxTransactSize c) v
     (maxWriteSize c) (requireSigning c) (capabilities c) (preauthIntegrityHashId c)
     (preauthIntegrityHashValue c) (cipherId c) (hashId c) (posixExtensions c) (account c)
     (useSession c) (serverState c) (trees c) (treeMapByName c) (treeMapById c) (written c).
Definition set_maxWriteSize (v : Z) (c : t) : t :=
  mk (session c) (sessions c) (heap c) (sequenceWindow c) (dialect c) (maxTransactSize c)
     (maxReadSize c) v (requireSigning c) (capabilities c) (preauthIntegrityHashId c)
     (preauthIntegrityHashValue c) (cipherId c) (hashId c) (posixExtensions c) (account c)
     (useSession c) (serverState c) (trees c) (treeMapByName c) (treeMapById c) (written c).
Definition set_requireSigning (v : bool) (c : t) : t :=
  mk (session c) (sessions c) (heap c) (sequenceWindow c) (dialect c) (maxTransactSize c)
     (maxReadSize c) (maxWriteSize c) v (capabilities c) (preauthIntegrityHashId c)
     (preauthIntegrityHashValue c) (cipherId c) (hashId c) (posixExtensions c) (account c)
     (useSession c) (serverState c) (trees c) (treeMapByName c) (treeMapById c) (written c).
Definition set_capabilities (v : Z) (c : t) : t :=
  mk (session c) (sessions c) (heap c) (sequenceWindow c) (dialect c) (maxTransactSize c)
     (maxReadSize c) (maxWriteSize c) (requireSigning c) v (preauthIntegrityHashId c)
     (preauthIntegrityHashValue c) (cipherId c) (hashId c) (posixExtensions c) (account c)
     (useSession c) (serverState c) (trees c) (treeMapByName c) (treeMapById c) (written c).
Definition set_preauthIntegrityHashId (v : Z) (c : t) : t :=
  mk (session c) (sessions c) (heap c) (sequenceWindow c) (dialect c) (maxTransactSize c)
     (maxReadSize c) (maxWriteSize c) (requireSigning c) (capabilities c) v
     (preauthIntegrityHashValue c) (cipherId c) (hashId c) (posixExtensions c) (account c)
     (useSession c) (serverState c) (trees c) (treeMapByName c) (treeMapById c) (written c).
Definition set_preauthIntegrityHashValue (v : bytes) (c : t) : t :=
  mk (session c) (sessions c) (heap c) (sequenceWindow c) (dialect c) (maxTransactSize c)
     (maxReadSize c) (maxWriteSize c) (requireSigning c) (capabilities c)
     (preauthIntegrityHashId c) v (cipherId c) (hashId c) (posixExtensions c) (account c)
     (useSession c) (serverState c) (trees c) (treeMapByName c) (treeMapById c) (written c).
Definition set_cipherId (v : Z) (c : t) : t :=
  mk (session c) (sessions c) (heap c) (sequenceWindow c) (dialect c) (maxTransactSize c)
     (maxReadSize c) (maxWriteSize c) (requireSigning c) (capabilities c)
     (preauthIntegrityHashId c) (preauthIntegrityHashValue c) v (hashId c)
     (posixExtensions c) (account c) (useSession c) (serverState c) (trees c)
     (treeMapByName c) (treeMapById c) (written c).
Definition set_hashId (v : Z) (c : t) : t :=
  mk (session c) (sessions c) (heap c) (sequenceWindow c) (dialect c) (maxTransactSize c)
     (maxReadSize c) (maxWriteSize c) (requireSigning c) (capabilities c)
     (preauthIntegrityHashId c) (preauthIntegrityHashValue c) (cipherId c) v
     (posixExtensions c) (account c) (useSession c) (serverState c) (trees c)
     (treeMapByName c) (treeMapById c) (written c).
Definition set_posixExtensions (v : bool) (c : t) : t :=
  mk (session c) (sessions c) (heap c) (sequenceWindow c) (dialect c) (maxTransactSize c)
     (maxReadSize c) (maxWriteSize c) (requireSigning c) (capabilities c)
     (preauthIntegrityHashId c) (preauthIntegrityHashValue c) (cipherId c) (hashId c) v
     (account c) (useSession c) (serverState c) (trees c) (treeMapByName c) (treeMapById c)
     (written c).
Definition set_account (v : account.t) (c : t) : t :=
  mk (session c) (sessions c) (heap c) (sequenceWindow c) (dialect c) (maxTransactSize c)
     (maxReadSize c) (maxWriteSize c) (requireSigning c) (capabilities c)
     (preauthIntegrityHashId c) (preauthIntegrityHashValue c) (cipherId c) (hashId c)
     (posixExtensions c) v (useSession c) (serverState c) (trees c) (treeMapByName c)
     (treeMapById c) (written c).
Definition set_useSession (v : bool) (c : t) : t :=
  mk (session c) (sessions c) (heap c) (sequenceWindow c) (dialect c) (maxTransactSize c)
     (maxReadSize c) (maxWriteSize c) (requireSigning c) (capabilities c)
     (preauthIntegrityHashId c) (preauthIntegrityHashValue c) (cipherId c) (hashId c)
     (posixExtensions c) (account c) v (serverState c) (trees c) (treeMapByName c)
     (treeMapById c) (written c).
Definition set_serverState (v : ConnState) (c : t) : t :=
  mk (session c) (sessions c) (heap c) (sequenceWindow c) (dialect c) (maxTransactSize c)
     (maxReadSize c) (maxWriteSize c) (requireSigning c) (capabilities c)
     (preauthIntegrityHashId c) (preauthIntegrityHashValue c) (cipherId c) (hashId c)
     (posixExtensions c) (account c) (useSession c) v (trees c) (treeMapByName c)
     (treeMapById c) (written c).
Definition set_trees (v : gmap nat treeConn.t) (c : t) : t :=
  mk (session c) (sessions c) (heap c) (sequenceWindow c) (dialect c) (maxTransactSize c)
     (maxReadSize c) (maxWriteSize c) (requireSigning c) (capabilities c)
     (preauthIntegrityHashId c) (preauthIntegrityHashValue c) (cipherId c) (hashId c)
     (posixExtensions c) (account c) (useSession c) (serverState c) v (treeMapByName c)
     (treeMapById c) (written c).
Definition set_treeMapByName (v : gmap gostring nat) (c : t) : t :=
  mk (session c) (sessions c) (heap c) (sequenceWindow c) (dialect c) (maxTransactSize c)
     (maxReadSize c) (maxWriteSize c) (requireSigning c) (capabilities c)
     (preauthIntegrityHashId c) (preauthIntegrityHashValue c) (cipherId c) (hashId c)
     (posixExtensions c) (account c) (useSession c) (serverState c) (trees c) v
     (treeMapById c) (written c).
Definition set_treeMapById (v : gmap Z nat) (c : t) : t :=
  mk (session c) (sessions c) (heap c) (sequenceWindow c) (dialect c) (maxTransactSize c)
     (maxReadSize c) (maxWriteSize c) (requireSigning c) (capabilities c)
     (preauthIntegrityHashId c) (preauthIntegrityHashValue c) (cipherId c) (hashId c)
     (posixExtensions c) (account c) (useSession c) (serverState c) (trees c)
     (treeMapByName c) v (written c).
Definition set_written (v : list bytes) (c : t) : t :=
  mk (session c) (sessions c) (heap c) (sequenceWindow c) (dialect c) (maxTransactSize c)
     (maxReadSize c) (maxWriteSize c) (requireSigning c) (capabilities c)
     (preauthIntegrityHashId c) (preauthIntegrityHashValue c) (cipherId c) (hashId c)
     (posixExtensions c) (account c) (useSession c) (serverState c) (trees c)
     (treeMapByName c) (treeMapById c) v.

Definition lookupSession (sessionId : Z) (c : t) : option nat :=
  match session c with
  | Some p =>
      match heap c !! p with
      | Some s => if session.sessionId s =? sessionId then Some p else sessions c !! sessionId
      | None => sessions c !! sessionId
      end
  | None => sessions c !! sessionId
  end.

(** [conn.sessions[s.sessionId] = s; conn.session = s] for a new object. *)
Definition registerSession (s : session.t) (c : t) : t :=
  let p := fresh (dom (heap c)) in
  set_session (Some p)
    (set_sessions (<[session.sessionId s := p]> (sessions c))
       (set_heap (<[p := s]> (heap c)) c)).

Definition enableSession (c : t) : t := set_useSession true c.
Definition resetSession (c : t) : t := set_useSession false c.

End conn.

(** ** Packets to send

    A [Packet] of iface.go: a header that the connection fills in and an
    encoder that writes it.  The kind stands for the type tests. *)

Inductive packet_kind := CancelRequest_ | EchoResponse_ | SessionSetupRequest_ | OtherPacket.

Record packet := mkPacket {
  pk_kind : packet_kind; pk_hdr : PacketHeader.t; pk_size : Z; pk_encode : PacketHeader.t -> enc
}.

Definition is_kind (k : packet_kind) (p : packet) : bool :=
  match k, pk_kind p with
  | CancelRequest_, CancelRequest_ | EchoResponse_, EchoResponse_
  | SessionSetupRequest_, SessionSetupRequest_ | OtherPacket, OtherPacket => true
  | _, _ => false
  end.

Definition with_hdr (h : PacketHeader.t) (p : packet) : packet :=
  mkPacket (pk_kind p) h (pk_size p) (pk_encode p).

Definition error_packet (r : ErrorResponse.t) : packet :=
  mkPacket OtherPacket (ErrorResponse.hdr r) (ErrorResponse.Size r)
    (fun h => ErrorResponse.Encode (ErrorResponse.mk h (ErrorResponse.ErrorData r))).
Definition echo_packet (h : PacketHeader.t) : packet :=
  mkPacket EchoResponse_ h (EchoResponse.Size (EchoResponse.mk h))
    (fun h => EchoResponse.Encode (EchoResponse.mk h)).

(** ** encodePacket *)

Section send.
Context (sha512 : bytes -> bytes).

(** The header as it is after the credit and session fields were filled in,
    and the connection after that. *)
Definition fill_header (req : packet) (tc : option treeConn.t) (c : conn.t)
  : outcome (PacketHeader.t * option session.t * conn.t) :=
  let hdr := pk_hdr req in
  let isNotification := PacketHeader.MessageId hdr =? 2 ^ 64 - 1 in
  let '(hdr, c) :=
    if negb (is_kind CancelRequest_ req) && negb isNotification then
      let creditCharge := PacketHeader.CreditCharge hdr in
      let c := conn.set_sequenceWindow (u64 (conn.sequenceWindow c + creditCharge)) c in
      let hdr := if PacketHeader.CreditRequestResponse hdr =? 0
                 then PacketHeader.set_Credit creditCharge hdr else hdr in
      let '(n, a) := account.opening (conn.account c) in
      (PacketHeader.set_Credit (u16 (PacketHeader.CreditRequestResponse hdr + n)) hdr,
       conn.set_account a c)
    else (hdr, c) in
  let s := match conn.session c with Some p => conn.heap c !! p | None => None end in
  let s := if is_kind EchoResponse_ req && (PacketHeader.SessionId hdr =? 0) then None else s in
  let hdr :=
    match s with
    | Some s =>
        if conn.useSession c then
          let hdr := PacketHeader.set_SessionId (session.sessionId s) hdr in
          match tc with
          | Some tc => PacketHeader.set_TreeId (treeConn.treeId tc) hdr
          | None => hdr
          end
        else hdr
    | None => hdr
    end in
  Ok (hdr, s, c).

(** [nonce] is the randomness an encryption would use. *)
Definition encodePacket (nonce : bytes) (req : packet) (tc : option treeConn.t) (c : conn.t)
  : outcome (bytes * PacketHeader.t * conn.t) :=
  let! r := fill_header req tc c in
  let '(hdr, s, c) := r in
  let! pkt := pk_encode req hdr (zeros (pk_size req)) in
  match s with
  | None => Ok (pkt, hdr, c)
  | Some s =>
      if is_kind SessionSetupRequest_ req then Ok (pkt, hdr, c) else
      let share := match tc with Some tc => treeConn.shareFlags tc | None => 0 end in
      if has (session.sessionFlags s) SMB2_SESSION_FLAG_ENCRYPT_DATA
         || has share SMB2_SHAREFLAG_ENCRYPT_DATA then
        let! pkt := session.encrypt s nonce pkt in
        Ok (pkt, hdr, c)
      else if session.keyed s then
        let! r := session.sign s pkt in
        let '(pkt, s) := r in
        Ok (pkt, hdr,
            match conn.session c with
            | Some p => conn.set_heap (<[p := s]> (conn.heap c)) c
            | None => c
            end)
      else Ok (pkt, hdr, c)
  end.

(** ** sendPacket *)

Definition calcPreauthHash (pkt : bytes) (c : conn.t) : conn.t :=
  if conn.dialect c =? SMB311 then
    if conn.preauthIntegrityHashId c =? SHA512
    then conn.set_preauthIntegrityHashValue (sha512 (conn.preauthIntegrityHashValue c ++ pkt)) c
    else c
  else c.

(** The connection, the compound context and the error, after. *)
Definition sendPacket (nonce : bytes) (req : packet) (tc : option treeConn.t)
    (compCtx : option compoundContext.t) (c : conn.t)
  : outcome (conn.t * option compoundContext.t * option goerr) :=
  let hdr := pk_hdr req in
  let hdr :=
    match compCtx with
    | None => hdr
    | Some cc =>
        let hdr := if negb (compoundContext.isEmpty cc)
                   then PacketHeader.set_Flags
                          (Z.lor (PacketHeader.Flags hdr) SMB2_FLAGS_RELATED_OPERATIONS) hdr
                   else hdr in
        if negb (PacketHeader.MessageId hdr =? compoundContext.lastMsgId cc)
        then PacketHeader.set_NextCommand (u32 (Align (pk_size req) 8)) hdr else hdr
    end in
  match encodePacket nonce (with_hdr hdr req) tc c with
  | Panic => Panic
  | Err e => Ok (c, compCtx, Some e)
  | Ok (pkt, hdr, c) =>
      let! r :=
        match compCtx with
        | None => Ok (Some pkt, None)
        | Some cc =>
            let cc := compoundContext.addResponse pkt
                        (compoundContext.set_lastStatus (PacketHeader.Status hdr) cc) in
            if negb (PacketHeader.MessageId hdr =? compoundContext.lastMsgId cc)
            then Ok (None, Some cc)
            else let! buf := compoundContext.Encode cc (zeros (compoundContext.Size cc)) in
                 Ok (Some buf, Some cc)
        end in
      let '(pkt, cc) := r in
      match pkt with
      | None => Ok (c, cc, None)
      | Some pkt =>
          let c := match conn.serverState c with
                   | STATE_NEGOTIATE | STATE_SESSION_SETUP | STATE_SESSION_SETUP_CHALLENGE =>
                       calcPreauthHash pkt c
                   | STATE_SESSION_ACTIVE => c
                   end in
          match direct_Write pkt with
          | Ok w => Ok (conn.set_written (conn.written c ++ [w]) c, cc, None)
          | Err _ => Ok (c, cc, Some (TransportError "max transport size exceeds"))
          | Panic => Panic
          end
      end
  end.

End send.

(** ** accept *)

Fixpoint error_contexts (n : nat) (eData : slice) : outcome (list bytes) :=
  match n with
  | O => Ok []
  | S n =>
      let! inv := ErrorContextResponseDecoder.IsInvalid eData in
      if inv then Err (InvalidResponseError "broken error context response format") else
      let! d := ErrorContextResponseDecoder.ErrorContextData eData in
      let! next := ErrorContextResponseDecoder.Next eData in
      if s_len eData <? next
      then Err (InvalidResponseError "broken error context response format") else
      let! rest := s_from eData next in
      let! ds := error_contexts n rest in
      Ok (s_bytes d :: ds)
  end.

(** The error a response stands for. *)
Definition acceptError {A} (status : Z) (res : slice) : outcome A :=
  let! inv := ErrorResponseDecoder.IsInvalid res in
  if inv then Err (InvalidResponseError "broken error response format") else
  let! eData := ErrorResponseDecoder.ErrorData res in
  let! count := ErrorResponseDecoder.ErrorContextCount res in
  if negb (count =? 0) then
    let! data := error_contexts (Z.to_nat count) eData in
    Err (ResponseError status data)
  else Err (ResponseError status [s_bytes eData]).

(** [p.Data()] of the error return is dropped with the error. *)
Definition accept (cmd : Z) (pkt : slice) : outcome slice :=
  let! command := PacketCodec.Command pkt in
  if negb (cmd =? command) then Err (InvalidResponseError "unexpected command") else
  let! flags := PacketCodec.Flags pkt in
  if negb (has flags SMB2_FLAGS_SERVER_TO_REDIR) then PacketCodec.Data pkt else
  let! status := PacketCodec.Status pkt in
  if status =? STATUS_SUCCESS then PacketCodec.Data pkt
  else if status =? STATUS_OBJECT_NAME_COLLISION then Err ErrExist
  else if (status =? STATUS_OBJECT_NAME_NOT_FOUND) || (status =? STATUS_OBJECT_PATH_NOT_FOUND)
  then Err ErrNotExist
  else if (status =? STATUS_ACCESS_DENIED) || (status =? STATUS_CANNOT_DELETE)
  then Err ErrPermission
  else
    if (cmd =? SMB2_SESSION_SETUP) && (status =? STATUS_MORE_PROCESSING_REQUIRED)
    then PacketCodec.Data pkt
    else if (cmd =? SMB2_QUERY_INFO) && (status =? STATUS_BUFFER_OVERFLOW)
    then Err (ResponseError status [])
    else if (cmd =? SMB2_IOCTL) && (status =? STATUS_BUFFER_OVERFLOW) then
      let! data := PacketCodec.Data pkt in
      let! inv := IoctlResponseDecoder.IsInvalid data in
      if negb inv then Err (ResponseError status []) else acceptError status data
    else if (cmd =? SMB2_READ) && (status =? STATUS_BUFFER_OVERFLOW)
    then Err (ResponseError status [])
    else if (cmd =? SMB2_CHANGE_NOTIFY) && (status =? STATUS_NOTIFY_ENUM_DIR)
    then Err (ResponseError status [])
    else let! data := PacketCodec.Data pkt in acceptError status data.

(** ** Receiving *)

(** The packet, the session it was encrypted under, and whether it was
    encrypted. *)
Definition tryDecrypt (pkt : bytes) (c : conn.t) : outcome (bytes * option nat * bool) :=
  let p := of_bytes pkt in
  let! inv := PacketCodec.IsInvalid p in
  if inv then
    let! tinv := TransformCodec.IsInvalid p in
    if tinv then Err (InvalidResponseError "broken packet header format") else
    let! flags := TransformCodec.Flags p in
    if negb (flags =? Encrypted) then Err (InvalidResponseError "encrypted flag is not on") else
    let! sid := TransformCodec.SessionId p in
    match conn.lookupSession sid c with
    | None => Err (InvalidResponseError "unknown session id returned")
    | Some ptr =>
        let! s := session.deref (conn.heap c !! ptr) in
        match session.decrypt s pkt with
        | Ok pkt => Ok (pkt, Some ptr, true)
        | Err _ => Err (InvalidResponseError "decrypt")
        | Panic => Panic
        end
    end
  else Ok (pkt, None, false).

(** The error ([None] is nil), the packet and the connection after.  The
    verifier of the session and the signature of the packet change. *)
Definition tryVerify (pkt : slice) (s : option nat) (isEncrypted : bool) (c : conn.t)
  : outcome (option goerr * slice * conn.t) :=
  let! msgId := PacketCodec.MessageId pkt in
  if negb (msgId =? 0xFFFFFFFFFFFFFFFF) then
    let! flags := PacketCodec.Flags pkt in
    let! sid := PacketCodec.SessionId pkt in
    let so := match s with Some ptr => conn.heap c !! ptr | None => None end in
    if has flags SMB2_FLAGS_SIGNED then
      match s, so with
      | Some ptr, Some so =>
          if negb (session.sessionId so =? sid)
          then Ok (Some (InvalidResponseError "unknown session id returned"), pkt, c)
          else
            let! r := session.verify so pkt in
            let '(ok, pkt, so) := r in
            let c := conn.set_heap (<[ptr := so]> (conn.heap c)) c in
            if ok then Ok (None, pkt, c)
            else Ok (Some (InvalidResponseError "unverified packet returned"), pkt, c)
      | _, _ => Ok (Some (InvalidResponseError "unknown session id returned"), pkt, c)
      end
    else if conn.requireSigning c && negb isEncrypted then
      match so with
      | Some so =>
          if session.keyed so && (session.sessionId so =? sid)
          then Ok (Some (InvalidResponseError "signing required"), pkt, c)
          else Ok (None, pkt, c)
      | None => Ok (None, pkt, c)
      end
    else Ok (None, pkt, c)
  else Ok (None, pkt, c).

(** What [Run] is handed. *)
Record request := mkRequest {
  rq_msgId : Z; rq_creditRequest : Z; rq_pkt : slice; rq_session : option nat; rq_ctx : option nat
}.

(** The error of the verification is a parameter that the body does not
    use. *)
Definition tryHandle (pkt : slice) (s : option nat) (compCtx : option nat) (e : option goerr)
  : outcome request :=
  let! msgId := PacketCodec.MessageId pkt in
  let! credit := PacketCodec.CreditRequest pkt in
  Ok (mkRequest msgId credit pkt s compCtx).

Record received := mkReceived {
  rc_requests : list request; rc_ctxs : list compoundContext.t; rc_conn : conn.t;
  rc_err : option goerr
}.

(** The inner loop of runReciever; [None] is lack of fuel. *)
Fixpoint receive_chain (fuel : nat) (hasSession : bool) (reqSession : option nat)
    (isEncrypted : bool) (buf : bytes) (base : Z) (ctxs : list compoundContext.t)
    (cur : option nat) (c : conn.t) : option (outcome received) :=
  match fuel with
  | O => None
  | S fuel =>
      match cut buf base ctxs cur with
      | Panic => Some Panic
      | Err e => Some (Err e)
      | Ok (inr e) => Some (Ok (mkReceived [] ctxs c (Some e)))
      | Ok (inl (ctxs, cur, e, next)) =>
          let pkt := mkSlice (from base buf) (e_len e) in
          match (if hasSession then tryVerify pkt reqSession isEncrypted c
                 else Ok (None, pkt, c)) with
          | Panic => Some Panic
          | Err e => Some (Err e)
          | Ok (err, pkt, c) =>
              let buf := upto base buf ++ s_arr pkt in
              match tryHandle pkt reqSession (e_ctx e) err with
              | Panic => Some Panic
              | Err e => Some (Err e)
              | Ok rq =>
                  match next with
                  | None => Some (Ok (mkReceived [rq] ctxs c None))
                  | Some next =>
                      match receive_chain fuel hasSession reqSession isEncrypted buf next ctxs cur c with
                      | Some (Ok r) =>
                          Some (Ok (mkReceived (rq :: rc_requests r) (rc_ctxs r) (rc_conn r) (rc_err r)))
                      | r => r
                      end
                  end
              end
          end
      end
  end.

(** The session checks before the loop: [None] skips the packet.  The table
    of trees of a session is never filled, so the check against it never
    skips anything. *)
Definition check_session (pkt : bytes) (reqSession : option nat) (c : conn.t)
  : outcome (option (option nat)) :=
  let p := of_bytes pkt in
  let! sid := PacketCodec.SessionId p in
  let reqSession := match reqSession with Some s => Some s | None => conn.lookupSession sid c end in
  let! cmd := PacketCodec.Command p in
  let! flags := PacketCodec.Flags p in
  let isSessionlessEcho :=
    (cmd =? SMB2_ECHO) && (sid =? 0) && negb (has flags SMB2_FLAGS_SIGNED) in
  let setup := (cmd =? SMB2_NEGOTIATE) || (cmd =? SMB2_SESSION_SETUP) in
  match reqSession with
  | None => if negb setup && negb isSessionlessEcho then Ok None else Ok (Some None)
  | Some ptr =>
      let! s := session.deref (conn.heap c !! ptr) in
      if negb setup && negb (session.sessionId s =? sid) then Ok None else Ok (Some (Some ptr))
  end.

(** One transport packet: what is handed to [Run], or nothing when it is
    skipped. *)
Definition receive (pkt : bytes) (c : conn.t) : option (outcome received) :=
  if conn.useSession c then
    match tryDecrypt pkt c with
    | Panic => Some Panic
    | Err _ => Some (Ok (mkReceived [] [] c None))
    | Ok (pkt, reqSession, isEncrypted) =>
        match check_session pkt reqSession c with
        | Panic => Some Panic
        | Err e => Some (Err e)
        | Ok None => Some (Ok (mkReceived [] [] c None))
        | Ok (Some reqSession) =>
            receive_chain (S (length pkt)) true reqSession isEncrypted pkt 0 [] None c
        end
    end
  else receive_chain (S (length pkt)) false None false pkt 0 [] None c.

(** ** Requests that are received *)

(** A message that stands alone. *)
Definition single (m : msg) : Prop :=
  msg_ok m /\ PacketHeader.NextCommand (m_hdr m) = 0
  /\ Z.land (PacketHeader.Flags (m_hdr m)) SMB2_FLAGS_RELATED_OPERATIONS = 0.


Lemma cut_single m ctxs cur :
  single m ->
  cut (m_pkt m) 0 ctxs cur
  = Ok (inl (ctxs, cur, mkElement 0 (blen (m_pkt m)) cur, None)).
Proof.
  intros (Hok & Hn & Hr). pose proof (blen_nonneg (m_body m)).
  destruct (msg_fields m (m_body m) Hok) as (Hinv & Hfl & Hnx & Hmid & _ & _); [by rewrite Hn|lia|].
  unfold cut. change (from 0 ?x) with x. unfold m_pkt. rewrite Hinv.
  cbn [obind]. unfold PacketCodec.IsCompoundFirst, PacketCodec.IsCompoundLast, PacketCodec.related.
  rewrite Hfl. cbn [obind]. rewrite Hr, Hnx. cbn [Z.eqb negb obind]. rewrite Hn.
  by rewrite Z.sub_0_r.
Qed.

(** What is handed to [Run] for a message that stands alone. *)
Definition request_of (m : msg) (pkt : bytes) (s : option nat) : request :=
  mkRequest (PacketHeader.MessageId (m_hdr m)) (PacketHeader.CreditRequestResponse (m_hdr m))
    (of_bytes pkt) s None.

Lemma tryHandle_msg m tl s ctx e :
  msg_ok m ->
  tryHandle (of_bytes (m_head m ++ tl)) s ctx e
  = Ok (mkRequest (PacketHeader.MessageId (m_hdr m)) (PacketHeader.CreditRequestResponse (m_hdr m))
          (of_bytes (m_head m ++ tl)) s ctx).
Proof.
  intros [Hw Hc].
  destruct (header_fields _ _ tl Hw Hc) as (_&_&_&_&_&_&Hcr&_&_&Hid&_).
  unfold tryHandle. rewrite Hid. cbn [obind]. by rewrite Hcr.
Qed.

(** Whatever the verification says, the message is delivered. *)
Lemma receive_chain_single fuel m s enc_ e pkt' m' c c' :
  single m -> msg_ok m' -> m_hdr m' = m_hdr m -> pkt' = m_pkt m' ->
  tryVerify (of_bytes (m_pkt m)) s enc_ c = Ok (e, of_bytes pkt', c') ->
  receive_chain (S fuel) true s enc_ (m_pkt m) 0 [] None c
  = Some (Ok (mkReceived [request_of m pkt' s] [] c' None)).
Proof.
  intros Hs Hm' Hh -> Hv. cbn [receive_chain]. rewrite cut_single by done. cbn [e_len].
  change (from 0 ?x) with x. fold (of_bytes (m_pkt m)). rewrite Hv. cbn [e_ctx].
  unfold m_pkt at 1. rewrite tryHandle_msg by done. unfold request_of. by rewrite Hh.
Qed.

(** The session checks let the message through. *)
Lemma check_session_msg m ptr s c known :
  msg_ok m -> conn.heap c !! ptr = Some s ->
  session.sessionId s = PacketHeader.SessionId (m_hdr m) ->
  (known = Some ptr \/ known = None /\ conn.lookupSession (session.sessionId s) c = Some ptr) ->
  check_session (m_pkt m) known c = Ok (Some (Some ptr)).
Proof.
  intros [Hw Hc] Hp Hid Hk.
  destruct (header_fields _ _ (m_body m) Hw Hc) as (_&_&_&_&_&Hcmd&_&Hf&_&_&_&Hsid&_).
  unfold check_session, m_pkt. rewrite Hsid. cbn [obind]. rewrite Hcmd. cbn [obind].
  rewrite Hf. cbn [obind].
  assert (E : match known with Some p => Some p | None => conn.lookupSession (PacketHeader.SessionId (m_hdr m)) c end
              = Some ptr).
  { destruct Hk as [-> | [-> Hl]]; [done|]. by rewrite <- Hid. }
  rewrite E, Hp. cbn [session.deref obind]. rewrite Hid, Z.eqb_refl. cbn [negb].
  by rewrite andb_false_r.
Qed.

(** A signature is not looked at when the message id is the one that the
    server gives its notifications, all ones. *)
Lemma notification_id_unchecked pkt s enc c :
  PacketCodec.MessageId pkt = Ok 0xFFFFFFFFFFFFFFFF -> tryVerify pkt s enc c = Ok (None, pkt, c).
Proof. intros Hm. unfold tryVerify. by rewrite Hm. Qed.


(** A connection with one established, keyed session, for the concrete
    checks. *)
Definition toy_conn : conn.t :=
  conn.mk (Some 0%nat) {[7 := 0%nat]} {[0%nat := toy_session]} 0 SMB302 0 0 0 true 0 0 [] 0 0 false
    (account.mk 128 1 0) true STATE_SESSION_ACTIVE ∅ ∅ ∅ [].


(** C9: an encrypted request reaches the server as it was sent.  A request
    that stands alone, unsigned, sealed by a client that shares the AEAD of
    the session, is recognised by its transform header, decrypted, and handed
    over with exactly the client's bytes and the session's pointer; signing
    is not asked for, and the connection does not change. *)
Theorem encrypted_request_delivered (m : msg) (c : conn.t) (ptr : nat) (s client : session.t)
    (a : cipher_AEAD) (ok : bytes -> Prop) (nonce : bytes) :
  single m -> has (PacketHeader.Flags (m_hdr m)) SMB2_FLAGS_SIGNED = false ->
  conn.useSession c = true -> conn.heap c !! ptr = Some s ->
  session.sessionId s = PacketHeader.SessionId (m_hdr m) ->
  conn.lookupSession (session.sessionId s) c = Some ptr ->
  AEADLaws a ok -> Overhead a = 16 -> session.encrypter client = Some a ->
  session.sessionId client = session.sessionId s -> session.decrypter s = Some a ->
  blen nonce = NonceSize a -> ok (m_pkt m) ->
  exists ct, session.encrypt client nonce (m_pkt m) = Ok ct
    /\ receive ct c = Some (Ok (mkReceived [request_of m (m_pkt m) (Some ptr)] [] c None)).
Proof.
  intros Hs Hsg Hu Hp Hid Hl HA Hov He Hcid Hd Hn Hok. pose proof Hs as ((Hw & Hc) & _).
  assert (Hin : in64 (session.sessionId client)) by (rewrite Hcid, Hid; apply Hw).
  destruct (encrypt_decrypts client s a ok nonce (m_pkt m) HA Hov He Hd Hn Hok Hin)
    as (ct & Hct & _ & Hi1 & Hi2 & Hf & Hsid & Hdec).
  exists ct. split; [done|]. unfold receive. rewrite Hu. unfold tryDecrypt.
  rewrite Hi1. cbn [obind]. rewrite Hi2. cbn [obind]. rewrite Hf. cbn [obind Z.eqb].
  rewrite Z.eqb_refl. cbn [negb]. rewrite Hsid. cbn [obind]. rewrite Hcid, Hl, Hp.
  cbn [session.deref obind]. rewrite Hdec, (check_session_msg m ptr s c) by (done || auto).
  apply (receive_chain_single _ m _ _ None _ m); try done.
  destruct (header_fields _ _ (m_body m) Hw Hc) as (_&_&_&_&_&_&_&Hfl&_&Hmi&_&Hsi&_).
  fold (m_pkt m) in Hmi, Hfl, Hsi. unfold tryVerify. rewrite Hmi. cbn [obind].
  destruct (negb _); [|done]. rewrite Hfl. cbn [obind]. rewrite Hsi. cbn [obind].
  rewrite Hsg. by rewrite andb_false_r.
Qed.

Lemma encrypted_request_delivered_witness :
  exists ct, session.encrypt toy_session (zeros 11) (m_pkt (toy_msg 0 0 5 [1])) = Ok ct
    /\ receive ct toy_conn
       = Some (Ok (mkReceived
           [request_of (toy_msg 0 0 5 [1]) (m_pkt (toy_msg 0 0 5 [1])) (Some 0%nat)] [] toy_conn None)).
Proof.
  apply (encrypted_request_delivered (toy_msg 0 0 5 [1]) toy_conn 0 toy_session toy_session
    (ccm.aead toy_ccm) (fun pt => 0 < blen pt <= maxUvarint (15 - ccm.nonceSize toy_ccm)) (zeros 11)).
  - split; [apply toy_msg_ok; ints; lia|]. split; reflexivity.
  - reflexivity.
  - reflexivity.
  - reflexivity.
  - reflexivity.
  - reflexivity.
  - apply toy_ccm_laws.
  - reflexivity.
  - reflexivity.
  - reflexivity.
  - reflexivity.
  - reflexivity.
  - split; [reflexivity|]. vm_compute. discriminate.
Defined.

(** ** Responses that are sent *)

(** What the encoders of the packages promise to the connection: a header
    that says what it was given (the command aside), a zeroed signature, and
    a body, within the size of a transport packet. *)
Definition encodes (req : packet) : Prop :=
  forall hdr, exists cmd head body,
    pk_encode req hdr (zeros (pk_size req)) = Ok (head ++ body)
    /\ header_bytes (PacketHeader.set_Command cmd hdr) head
    /\ 64 + blen body <= maxDirectTCPSize.

(** The messages of the package keep the promise when their body does. *)
Lemma message_encodes cmd n body q (h : PacketHeader.t) :
  64 <= n -> body (zeros (n - 64)) = Ok q ->
  exists head, message cmd h body (zeros n) = Ok (head ++ q)
    /\ header_bytes (PacketHeader.set_Command cmd h) head.
Proof.
  intros Hn Hb. unfold message, eseq.
  destruct (encodeHeader_bytes (PacketHeader.set_Command cmd h) (zeros n)) as (head & -> & Hh).
  { rewrite blen_zeros; lia. }
  { apply (sub_zeros 0 64 n); lia. }
  cbn [obind]. exists head. split; [|done]. destruct Hh as [[Hl _] _].
  rewrite (at_ok _ _ _ q); [by rewrite <- Hl, upto_app_exact|lia|rewrite blen_app; pose proof (blen_nonneg (from 64 (zeros n))); lia|].
  rewrite <- Hl, from_app_exact by done. rewrite Hl, from_zeros by lia. done.
Qed.

Lemma error_packet_encodes hdr : encodes (error_packet (ErrorResponse.mk hdr NoErrorData)).
Proof.
  intros h. cbn [error_packet pk_encode pk_size]. unfold ErrorResponse.Encode, ErrorResponse.Size.
  cbn [ErrorResponse.ErrorData ErrorResponse.hdr]. change (64 + 8 + 1) with 73. unfold eseq.
  destruct (encodeHeader_bytes h (zeros 73)) as (head & -> & Hh); [done|done|].
  cbn [obind]. change (from 64 (zeros 73)) with (zeros 9). pose proof (proj1 (proj1 Hh)) as Hl.
  exists (PacketHeader.Command h), head, (splice 0 (le_enc 2 9) (zeros 9)).
  split_and!; [|by destruct h|by vm_compute].
  rewrite (at_ok _ _ _ (splice 0 (le_enc 2 9) (zeros 9))); [|lia|rewrite blen_app, Hl; vm_compute; congruence|].
  - by rewrite <- Hl, upto_app_exact.
  - by rewrite <- Hl, from_app_exact.
Qed.

(** The header as the connection fills it in for a response on an
    established session. *)
Lemma fill_header_session req tc c ptr s :
  conn.session c = Some ptr -> conn.heap c !! ptr = Some s -> conn.useSession c = true ->
  pk_kind req = OtherPacket ->
  exists hdr c1, fill_header req tc c = Ok (hdr, Some s, c1)
    /\ PacketHeader.SessionId hdr = session.sessionId s
    /\ PacketHeader.MessageId hdr = PacketHeader.MessageId (pk_hdr req)
    /\ PacketHeader.Flags hdr = PacketHeader.Flags (pk_hdr req)
    /\ PacketHeader.Status hdr = PacketHeader.Status (pk_hdr req)
    /\ (forall t, tc = Some t -> PacketHeader.TreeId hdr = treeConn.treeId t)
    /\ conn.session c1 = Some ptr /\ conn.heap c1 = conn.heap c
    /\ conn.serverState c1 = conn.serverState c /\ conn.written c1 = conn.written c.
Proof.
  intros Hs Hp Hu Hk. unfold fill_header, is_kind. rewrite Hk. cbn [negb andb].
  destruct (PacketHeader.MessageId (pk_hdr req) =? 2 ^ 64 - 1); cbn [negb];
    [|destruct (PacketHeader.CreditRequestResponse (pk_hdr req) =? 0)];
    cbn [conn.session conn.heap conn.useSession conn.set_account conn.set_sequenceWindow account.opening];
    rewrite Hs, Hp, Hu; destruct tc as [t|]; eexists _, _; (split; [reflexivity|]);
    split_and!; try done; by intros ? [= <-].
Qed.

(** C7: responses on a keyed session are signed.  For every response whose
    encoder keeps its promise, sent outside a compound on an established
    session that is neither guest nor encrypted, exactly one transport frame
    is written; it holds the packet, which names the session, answers the
    same message id, carries the SIGNED flag, and is accepted unchanged by a
    client that computes the same code. *)
Theorem response_signed (sha512 : bytes -> bytes) (nonce : bytes) (req : packet)
    (tc : option treeConn.t) (c : conn.t) (ptr : nat) (s client : session.t) (hs hv : hash_obj)
    (mac : bytes -> bytes) :
  encodes req -> pk_kind req = OtherPacket -> in32 (PacketHeader.Flags (pk_hdr req)) ->
  in64 (PacketHeader.MessageId (pk_hdr req)) -> in64 (session.sessionId s) ->
  conn.session c = Some ptr -> conn.heap c !! ptr = Some s ->
  conn.useSession c = true -> conn.serverState c = STATE_SESSION_ACTIVE ->
  has (session.sessionFlags s) SMB2_SESSION_FLAG_ENCRYPT_DATA = false ->
  has (match tc with Some tc => treeConn.shareFlags tc | None => 0 end)
    SMB2_SHAREFLAG_ENCRYPT_DATA = false ->
  session.keyed s = true -> session.signer s = Some hs -> hash_ok hs mac ->
  session.keyed client = true -> session.verifier client = Some hv -> hash_ok hv mac ->
  (forall b, 16 <= blen (mac b)) ->
  exists pkt c' client',
    sendPacket sha512 nonce req tc None c = Ok (c', None, None)
    /\ conn.written c' = conn.written c ++ [be_enc 4 (blen pkt) ++ pkt]
    /\ PacketCodec.SessionId (of_bytes pkt) = Ok (session.sessionId s)
    /\ PacketCodec.MessageId (of_bytes pkt) = Ok (PacketHeader.MessageId (pk_hdr req))
    /\ PacketCodec.Flags (of_bytes pkt)
       = Ok (Z.lor (PacketHeader.Flags (pk_hdr req)) SMB2_FLAGS_SIGNED)
    /\ session.verify client (of_bytes pkt) = Ok (true, of_bytes pkt, client').
Proof.
  intros Henc Hk Hfl Hmi Hsi Hs Hp Hu Hst He1 He2 Hkey Hsg Hhs Hck Hcv Hhv Hm.
  destruct (fill_header_session req tc c ptr s Hs Hp Hu Hk)
    as (hdr & c1 & Hfill & Hsid & Hmid & Hflg & _ & _ & Hs1 & Hh1 & Hst1 & Hw1).
  destruct (Henc hdr) as (cmd & head & body & He & [Hcore Hz] & Hlen).
  pose proof Hcore as (Hl & _ & _ & _ & _ & _ & _ & H16 & _ & H24 & _ & H40).
  cbn [PacketHeader.set_Command PacketHeader.Flags PacketHeader.MessageId PacketHeader.SessionId] in *.
  rewrite Hflg, u32_id in H16 by done. rewrite Hmid, u64_id in H24 by done.
  rewrite Hsid, u64_id in H40 by done. pose proof (blen_nonneg body) as H0.
  destruct (sign_verifies s client mac hs hv (head ++ body)) as
    (pkt & s' & client' & Hsign & Hpl & Hpf & Hhd & Hrest & _ & Hver); try done.
  { rewrite blen_app. lia. }
  { by rewrite sub_app_l by lia. }
  rewrite blen_app, Hl in Hpl. rewrite sub_app_l in Hpf by lia. rewrite sub_app_l in Hrest by lia.
  assert (Hsub : forall o k, 0 <= o -> 0 <= k -> o + k <= 28 -> sub (20 + o) k pkt = sub (20 + o) k head).
  { intros o k ? ? ?. rewrite <- (sub_sub o k 20 28 pkt), <- (sub_sub o k 20 28 head) by lia. by rewrite Hrest. }
  destruct (magic_smb2 pkt) as [_ Hsmb1]; [lia| |].
  { rewrite <- (sub_upto 0 4 16), Hhd, sub_upto, sub_app_l by lia. apply Hcore. }
  exists pkt, (conn.set_written (conn.written c ++ [be_enc 4 (blen pkt) ++ pkt])
                 (conn.set_heap (<[ptr := s']> (conn.heap c1)) c1)), client'.
  split_and!; try done.
  - unfold sendPacket, encodePacket. replace (with_hdr (pk_hdr req) req) with req by (by destruct req).
    rewrite Hfill. cbn [obind]. rewrite He. cbn [obind]. unfold is_kind. rewrite Hk, He1, He2.
    cbn [orb]. rewrite Hkey, Hsign. cbn [obind]. rewrite Hs1.
    cbn [conn.serverState conn.set_heap]. rewrite Hst1, Hst. unfold direct_Write.
    rewrite (proj2 (Z.ltb_ge _ _)) by lia. cbn [conn.written conn.set_heap conn.set_written]. rewrite Hw1.
    rewrite u32_id; [done|]. revert Hlen. unfold maxDirectTCPSize. ints. lia.
  - unfold PacketCodec.SessionId. rewrite get64_ok by (unfold s_cap; cbn; lia). cbn [of_bytes s_arr].
    by rewrite (Hsub 20 8 ltac:(lia) ltac:(lia) ltac:(lia) : sub 40 8 pkt = sub 40 8 head), H40.
  - unfold PacketCodec.MessageId. rewrite Hsmb1. cbn [obind]. rewrite get64_ok by (unfold s_cap; cbn; lia). cbn [of_bytes s_arr].
    by rewrite (Hsub 4 8 ltac:(lia) ltac:(lia) ltac:(lia) : sub 24 8 pkt = sub 24 8 head), H24.
  - unfold PacketCodec.Flags. rewrite get32_ok by (unfold s_cap; cbn; lia). cbn [of_bytes s_arr].
    rewrite Hpf, H16, le_dec_enc4. f_equal. apply u32_id, in32_lor; done.
Qed.

Lemma response_signed_witness :
  exists pkt c' client',
    sendPacket (fun b => b) [] (error_packet (ErrorResponse.mk PacketHeader.zero NoErrorData)) None None
      toy_conn = Ok (c', None, None)
    /\ conn.written c' = [be_enc 4 (blen pkt) ++ pkt]
    /\ session.verify toy_session (of_bytes pkt) = Ok (true, of_bytes pkt, client').
Proof.
  destruct (response_signed (fun b => b) [] (error_packet (ErrorResponse.mk PacketHeader.zero NoErrorData))
    None toy_conn 0 toy_session toy_session toy_hash toy_hash (cmac_spec toy_block 0x87))
    as (pkt & c' & cl & Hs & Hw & _ & _ & _ & Hv).
  - apply error_packet_encodes.
  - reflexivity.
  - ints. simpl. lia.
  - ints. simpl. lia.
  - ints. simpl. lia.
  - reflexivity.
  - reflexivity.
  - reflexivity.
  - reflexivity.
  - reflexivity.
  - reflexivity.
  - reflexivity.
  - reflexivity.
  - apply toy_hash_ok.
  - reflexivity.
  - reflexivity.
  - apply toy_hash_ok.
  - apply toy_hash_len.
  - exists pkt, c', cl. split; [exact Hs|]. split; [exact Hw|exact Hv].
Defined.

(** Two error responses to the messages 5 and 6 of a compound, and what a
    client finds: the answers of [verify] on the elements it cuts. *)
Definition compound_verdicts : outcome (list bool) :=
  let send id cc c :=
    sendPacket (fun b => b) []
      (error_packet (ErrorResponse.mk (PacketHeader.mk 0 0 STATUS_ACCESS_DENIED SMB2_ECHO 1 1 0 id 0 1 7)
                       NoErrorData)) None cc c in
  let! r := send 5 (Some (compoundContext.mk 1 7 None 0 6 [])) toy_conn in
  let '(c, cc, _) := r in
  let! r := send 6 cc c in
  let '(c, _, _) := r in
  let! r := read_packet (concat (conn.written c)) in
  let '(buf, _) := r in
  match cut_all buf with
  | Some (Ok ch) =>
      foldr (fun e acc =>
        let! v := session.verify toy_session (of_bytes (sub (e_base e) (e_len e) buf)) in
        let! acc := acc in Ok (v.1.1 :: acc)) (Ok []) (c_elems ch)
  | _ => Panic
  end.

(** A padded response of a compound does not verify.  Two error
    responses (73 bytes each) answer a compound; each is signed before the
    first is padded to 80 bytes, so the element a receiver cuts from the
    buffer, padding included, carries a signature that [verify] refuses,
    while the last element verifies. *)
Theorem compound_padding_not_signed : compound_verdicts = Ok [false; true].
Proof. vm_compute. reflexivity. Qed.
