(* ===== verification/Lifecycle.v ===== *)
(** * The goroutines of a connection and of the server
      (server/conn.go, server/server.go)

    A connection has three goroutines: [runReciever] cuts packets into
    requests and hands each to [Run] over an unbuffered channel, [Run]
    handles them one by one, [runSender] writes what any handler queues and
    reports back.  Here they are a step relation on the channels, the
    request table and the places the goroutines are at; [receive] of Conn.v
    says what a packet is cut into.  [ServeListener] and [Shutdown] are a
    second step relation, on the set of connections. *)

From S2P Require Import Prelude Packet Compound Session Conn.

Module goroutines.

(** Where [runReciever] is: at [ReadSize]; in the loop over the requests of
    a packet (and the error it ends with); at [r.s <- msgId] of [set]; at
    [exit]; returned. *)
Inductive receiver :=
| RRead
| RHand (todo : list request) (err : option goerr)
| RSend (rr : request) (todo : list request) (err : option goerr)
| RExit (err : goerr)
| RDone.

(** Where [Run] is: at the select of [pop]; at [r.m.Lock()] of [pop] with
    the message id received; in a handler; returned. *)
Inductive runner := PSelect | PLock (msgId : Z) | PHandle (rr : request) | PDone (err : goerr).

(** Where [runSender] is: at its select, at [conn.werr <- err], returned. *)
Inductive sender := SSelect | SReport (err : option goerr) | SDone.

(** The last five fields record what happened: the requests cut from
    packets, those handed to handlers, those failed at the end, the packets
    given to [t.Write] and those put into the queue for it. *)
Record t := mk {
  recv : receiver;
  run : runner;
  snd_ : sender;
  requests : gmap Z request;
  locked : bool;                (* outstandingRequests.m *)
  cancelled : bool;             (* conn.ctx *)
  closed : bool;                (* conn.t *)
  rdone : bool; wdone : bool;   (* channels of capacity 1 *)
  write : list bytes;           (* channel of capacity 10 *)
  werr : option (option goerr); (* channel of capacity 1 *)
  waiting : nat;                (* senders at <-conn.werr *)
  received : list request;
  handled : list request;
  failed : list request;
  tried : list bytes;
  queued : list bytes
}.

Definition set_recv (v : receiver) (s : t) : t :=
  mk v (run s) (snd_ s) (requests s) (locked s) (cancelled s) (closed s) (rdone s) (wdone s) (write s) (werr s)
    (waiting s) (received s) (handled s) (failed s) (tried s) (queued s).
Definition set_run (v : runner) (s : t) : t :=
  mk (recv s) v (snd_ s) (requests s) (locked s) (cancelled s) (closed s) (rdone s) (wdone s) (write s) (werr s)
    (waiting s) (received s) (handled s) (failed s) (tried s) (queued s).
Definition set_requests (v : gmap Z request) (s : t) : t :=
  mk (recv s) (run s) (snd_ s) v (locked s) (cancelled s) (closed s) (rdone s) (wdone s) (write s) (werr s)
    (waiting s) (received s) (handled s) (failed s) (tried s) (queued s).
Definition set_locked (v : bool) (s : t) : t :=
  mk (recv s) (run s) (snd_ s) (requests s) v (cancelled s) (closed s) (rdone s) (wdone s) (write s) (werr s)
    (waiting s) (received s) (handled s) (failed s) (tried s) (queued s).
Definition set_rdone (v : bool) (s : t) : t :=
  mk (recv s) (run s) (snd_ s) (requests s) (locked s) (cancelled s) (closed s) v (wdone s) (write s) (werr s)
    (waiting s) (received s) (handled s) (failed s) (tried s) (queued s).
Definition set_closed (s : t) : t :=
  mk (recv s) (run s) (snd_ s) (requests s) (locked s) (cancelled s) true (rdone s) (wdone s) (write s) (werr s)
    (waiting s) (received s) (handled s) (failed s) (tried s) (queued s).
(** The sending side as a whole. *)
Definition set_sending (v : sender) (wd : bool) (w : list bytes) (e : option (option goerr)) (n : nat)
    (tr qu : list bytes) (s : t) : t :=
  mk (recv s) (run s) v (requests s) (locked s) (cancelled s) (closed s) (rdone s) wd w e
    n (received s) (handled s) (failed s) tr qu.
Definition add_received (l : list request) (s : t) : t :=
  mk (recv s) (run s) (snd_ s) (requests s) (locked s) (cancelled s) (closed s) (rdone s) (wdone s) (write s) (werr s)
    (waiting s) (received s ++ l) (handled s) (failed s) (tried s) (queued s).
Definition add_handled (r : request) (s : t) : t :=
  mk (recv s) (run s) (snd_ s) (requests s) (locked s) (cancelled s) (closed s) (rdone s) (wdone s) (write s) (werr s)
    (waiting s) (received s) (handled s ++ [r]) (failed s) (tried s) (queued s).

(** A connection as ServeListener starts it. *)
Definition newConn : t :=
  mk RRead PSelect SSelect ∅ false false false false false [] None 0 [] [] [] [] [].

(** ** The operations *)

(** [conn.shutdown]: cancels the context, fills both channels when they are
    empty, closes the transport. *)
Definition shutdown (s : t) : t :=
  mk (recv s) (run s) (snd_ s) (requests s) (locked s) true true true true (write s) (werr s)
    (waiting s) (received s) (handled s) (failed s) (tried s) (queued s).

(** [outstandingRequests.set] up to the send. *)
Definition set_request (rr : request) (s : t) : t := set_requests (<[rq_msgId rr := rr]> (requests s)) s.

(** [pop] with the lock taken: the request and the table without it.  When
    there is none the loop starts again, and the deferred unlock has not run. *)
Definition pop_locked (msgId : Z) (s : t) : t :=
  let s' := set_requests (delete msgId (requests s)) s in
  match requests s !! msgId with
  | None => set_run PSelect (set_locked true s')
  | Some rr => add_handled rr (set_run (PHandle rr) s')
  end.

(** [outstandingRequests.shutdown]: every request of the table gets the
    error; the table stays. *)
Definition fail_requests (s : t) : t :=
  mk (recv s) (run s) (snd_ s) (requests s) (locked s) (cancelled s) (closed s) (rdone s) (wdone s) (write s) (werr s)
    (waiting s) (received s) (handled s) (failed s ++ map snd (map_to_list (requests s))) (tried s) (queued s).

(** The end of runReciever: the requests left over fail, then the
    connection is shut down. *)
Definition receiver_exit (s : t) : t := set_recv RDone (shutdown (fail_requests (set_rdone false s))).

(** ** The steps *)

(** [runReciever] and [Run]. *)
Inductive handoff : t -> t -> Prop :=
| read_packet s pkt c r :
    recv s = RRead -> closed s = false -> receive pkt c = Some (Ok r) ->
    handoff s (set_recv (RHand (rc_requests r) (rc_err r)) (add_received (rc_requests r) s))
| read_fails s e : recv s = RRead -> handoff s (set_recv (RExit e) s)
| hand_last s : recv s = RHand [] None -> handoff s (set_recv RRead s)
| hand_invalid s e : recv s = RHand [] (Some e) -> handoff s (set_recv (RExit e) s)
| hand_next s rr todo e :
    recv s = RHand (rr :: todo) e -> locked s = false ->
    handoff s (set_recv (RSend rr todo e) (set_request rr s))
| exit_ s e : recv s = RExit e -> locked s = false -> handoff s (receiver_exit s)
| rendezvous s rr todo e :
    recv s = RSend rr todo e -> run s = PSelect ->
    handoff s (set_recv (RHand todo e) (set_run (PLock (rq_msgId rr)) s))
| pop_lock s msgId : run s = PLock msgId -> locked s = false -> handoff s (pop_locked msgId s)
| run_cancelled s e :
    run s = PSelect -> cancelled s = true -> handoff s (set_closed (set_locked false (set_run (PDone e) s)))
| handle_ok s rr : run s = PHandle rr -> handoff s (set_run PSelect s)
| handle_fails s rr e : run s = PHandle rr -> handoff s (set_closed (set_run (PDone e) s)).

(** [runSender], and its answer to a [sendPacket]. *)
Inductive sending : t -> t -> Prop :=
| send_done s :
    snd_ s = SSelect -> wdone s = true ->
    sending s (set_sending SDone false (write s) (werr s) (waiting s) (tried s) (queued s) s)
| send_packet s p q e :
    snd_ s = SSelect -> write s = p :: q -> (closed s = true -> e <> None) ->
    sending s (set_sending (SReport e) (wdone s) q (werr s) (waiting s) (tried s ++ [p]) (queued s) s)
| send_report s e :
    snd_ s = SReport e -> werr s = None ->
    sending s (set_sending SSelect (wdone s) (write s) (Some e) (waiting s) (tried s) (queued s) s)
| answered s e n :
    werr s = Some e -> waiting s = S n ->
    sending s (set_sending (snd_ s) (wdone s) (write s) None n (tried s) (queued s) s).

(** The rest of [sendPacket], in any goroutine. *)
Inductive asking : t -> t -> Prop :=
| enqueue s p :
    (length (write s) < 10)%nat ->
    asking s (set_sending (snd_ s) (wdone s) (write s ++ [p]) (werr s) (S (waiting s)) (tried s) (queued s ++ [p]) s)
| gave_up s n :
    cancelled s = true -> waiting s = S n ->
    asking s (set_sending (snd_ s) (wdone s) (write s) (werr s) n (tried s) (queued s) s).

(** A step of the connection itself, and of the connection in its server,
    whose [Shutdown] may come at any time. *)
Inductive conn_step (s s' : t) : Prop :=
| by_handoff : handoff s s' -> conn_step s s'
| by_sending : sending s s' -> conn_step s s'
| by_asking : asking s s' -> conn_step s s'.

Inductive step (s s' : t) : Prop :=
| by_conn : conn_step s s' -> step s s'
| by_server : s' = shutdown s -> step s s'.

Definition reachable (s : t) : Prop := rtc step newConn s.

(** ** Requests in order *)

(** What the receiver still has to hand over, and what it has put into the
    table and not yet handed over. *)
Definition todo (r : receiver) : list request :=
  match r with RHand l _ => l | RSend rr l _ => rr :: l | _ => [] end.
Definition offered (r : receiver) : list request := match r with RSend rr _ _ => [rr] | _ => [] end.

Definition table (l : list request) : gmap Z request := list_to_map (map (fun r => (rq_msgId r, r)) l).

(** [inflight] is the request whose id [Run] has, on its way to the lock. *)
Definition in_order (s : t) : Prop :=
  exists inflight,
    match run s with PLock msgId => exists rr, inflight = [rr] /\ rq_msgId rr = msgId | _ => inflight = [] end
    /\ locked s = false
    /\ requests s = table (inflight ++ offered (recv s))
    /\ received s = handled s ++ inflight ++ todo (recv s).

Definition distinct_ids (l : list request) : Prop := NoDup (map rq_msgId l).

Lemma distinct_prefix l l' : distinct_ids (l ++ l') -> distinct_ids l.
Proof. unfold distinct_ids. rewrite map_app. intros H%NoDup_app. apply H. Qed.

Lemma received_grows s s' : step s s' -> exists l, received s' = received s ++ l.
Proof.
  intros [[H|H|H]| ->]; try (destruct H; cbn; try (eexists; reflexivity); exists []; by rewrite app_nil_r).
  - destruct H; try (exists []; rewrite app_nil_r; reflexivity); [eexists; reflexivity|].
    exists []. rewrite app_nil_r. unfold pop_locked. by destruct (requests s !! msgId).
  - exists []. by rewrite app_nil_r.
Qed.

Lemma table_two a b :
  rq_msgId a <> rq_msgId b -> <[rq_msgId b := b]> (table [a]) = table [a; b].
Proof. intros H. unfold table. cbn. by rewrite insert_insert_ne by done. Qed.

Lemma distinct_pair h a b l :
  distinct_ids (h ++ a :: b :: l) -> rq_msgId a <> rq_msgId b.
Proof.
  unfold distinct_ids. rewrite map_app. intros (_ & _ & H)%NoDup_app E. cbn in H. rewrite E in H.
  apply NoDup_cons in H as [H _]. apply H. left.
Qed.

(** The receiver's side of a hand-off with the id of [rr] in flight. *)
Lemma in_order_pop s msgId :
  run s = PLock msgId -> in_order s -> distinct_ids (received s) -> in_order (pop_locked msgId s).
Proof.
  intros Hrun (inf & Hr & Hl & Hq & Hrc) Hd. rewrite Hrun in Hr. destruct Hr as (rr & -> & <-).
  assert (Hlook : requests s !! rq_msgId rr = Some rr).
  { rewrite Hq. unfold table. cbn. by rewrite lookup_insert_eq. }
  exists []. unfold pop_locked. rewrite Hlook. cbn. split; [done|]. split; [done|]. split.
  - rewrite Hq. unfold table. cbn. rewrite delete_insert_id; [done|].
    apply not_elem_of_list_to_map_1. destruct (recv s) as [| |rr2 l e| |]; cbn in *; try apply not_elem_of_nil.
    rewrite Hrc in Hd. apply distinct_pair in Hd. by intros E%list_elem_of_singleton.
  - rewrite Hrc, <- app_assoc. reflexivity.
Qed.

Lemma in_order_handoff s s' :
  handoff s s' -> distinct_ids (received s') -> in_order s -> in_order s'.
Proof.
  intros H Hd Hi. destruct H; try (apply in_order_pop; [done..|];
    unfold pop_locked in Hd; by destruct (requests s !! msgId));
    destruct Hi as (inf & Hr & Hl & Hq & Hrc); unfold in_order; cbn in *;
    repeat match goal with H : recv s = _ |- _ => rewrite H in *; clear H end; cbn in *.
  - exists inf. rewrite Hrc, !app_nil_r, <- app_assoc in *. done.
  - exists inf. done.
  - exists inf. done.
  - exists inf. done.
  - exists inf. split; [done|]. split; [done|]. split; [|done].
    rewrite Hq, app_nil_r. destruct (run s); try (subst; done). destruct Hr as (r & -> & Hid).
    apply table_two. rewrite Hrc in Hd. by apply distinct_pair in Hd.
  - exists inf. done.
  - rewrite H0 in Hr. subst inf. exists [rr]. eauto 10.
  - rewrite H in Hr. exists inf. done.
  - rewrite H in Hr. exists inf. done.
  - rewrite H in Hr. exists inf. done.
Qed.

Lemma in_order_step s s' :
  step s s' -> distinct_ids (received s') -> in_order s -> in_order s'.
Proof.
  intros [[H|H|H]| ->] Hd Hi; [by eapply in_order_handoff|destruct H; exact Hi..|exact Hi].
Qed.

Lemma reachable_in_order s : reachable s -> distinct_ids (received s) -> in_order s.
Proof.
  unfold reachable. intros H. apply rtc_ind_r with (P := fun s => distinct_ids (received s) -> in_order s) (z := s) (3 := H).
  - intros _. exists []. done.
  - intros s1 s2 _ Hs IH Hd. destruct (received_grows _ _ Hs) as [l Hl].
    apply (in_order_step s1); [done..|]. apply IH. rewrite Hl in Hd. by apply distinct_prefix in Hd.
Qed.

(** C11: As long as no two requests of a connection have the same message id,
    its handlers get the requests in the order in which they were received,
    each once, whatever the goroutines' interleaving; the lock of the table
    is never kept, and when the receiver has nothing left to hand over and
    Run waits, every request has been handled. *)
Theorem requests_in_order (s : t) :
  reachable s -> distinct_ids (received s) ->
  handled s `prefix_of` received s
  /\ locked s = false
  /\ (todo (recv s) = [] -> (forall msgId, run s <> PLock msgId) -> handled s = received s /\ requests s = ∅).
Proof.
  intros Hr Hd. destruct (reachable_in_order s Hr Hd) as (inf & Hrun & Hl & Hq & Hrc).
  split; [rewrite Hrc; by eexists|]. split; [exact Hl|]. intros Ht Hp.
  assert (inf = []) as -> by (destruct (run s); [done|by destruct (Hp msgId)|done|done]).
  rewrite Hrc, Hq, Ht, app_nil_r. split; [done|]. by destruct (recv s).
Qed.

(** ** Two requests with one id *)

(** [Run] waits at the select with the lock, the receiver at the lock. *)
Definition deadlocked (r : receiver) (h : list request) (s : t) : Prop :=
  recv s = r /\ run s = PSelect /\ locked s = true /\ cancelled s = false /\ handled s = h.

Lemma deadlocked_step rr l e h s s' :
  conn_step s s' -> deadlocked (RHand (rr :: l) e) h s -> deadlocked (RHand (rr :: l) e) h s'.
Proof.
  intros [H|H|H] (H1 & H2 & H3 & H4 & H5); [|destruct H; cbn; done..].
  destruct H; congruence.
Qed.

Lemma deadlocked_forever rr l e h s s' :
  rtc conn_step s s' -> deadlocked (RHand (rr :: l) e) h s -> deadlocked (RHand (rr :: l) e) h s'.
Proof. induction 1 as [|s s1 s2 H _ IH]; [done|]. intros Hd. by eapply IH, deadlocked_step. Qed.

(** C37: Two requests in a row with the same message id, as a request and the
    CANCEL for it, with a further request behind them, can be handed over in
    such a way that the first is lost and pop keeps the lock of the table: from
    then on, unless the server is shut down, the connection handles nothing and
    its goroutines never end. *)
Theorem duplicate_id_deadlocks (s : t) (a b c : request) (l : list request) (e : option goerr) :
  recv s = RHand (a :: b :: c :: l) e -> run s = PSelect -> locked s = false -> cancelled s = false ->
  rq_msgId a = rq_msgId b ->
  exists s', rtc conn_step s s'
    /\ forall s'', rtc conn_step s' s'' ->
         recv s'' = RHand (c :: l) e /\ run s'' = PSelect /\ handled s'' = handled s ++ [b].
Proof.
  intros Hr Hp Hl Hc Hid. eexists. split.
  - eapply rtc_l; [apply by_handoff; eapply hand_next; [exact Hr|exact Hl]|].
    eapply rtc_l; [apply by_handoff; eapply rendezvous; [reflexivity|exact Hp]|].
    eapply rtc_l; [apply by_handoff; eapply hand_next; [reflexivity|exact Hl]|].
    eapply rtc_l; [apply by_handoff; eapply pop_lock; [reflexivity|exact Hl]|].
    unfold pop_locked at 1. cbn. rewrite Hid, lookup_insert_eq.
    eapply rtc_l; [apply by_handoff; eapply handle_ok; reflexivity|].
    eapply rtc_l; [apply by_handoff; eapply rendezvous; reflexivity|].
    eapply rtc_l; [apply by_handoff; eapply pop_lock; [reflexivity|exact Hl]|].
    apply rtc_refl.
  - intros s'' H. eapply (deadlocked_forever c l e (handled s ++ [b])) in H as (? & ? & _ & _ & ?); [done|].
    unfold pop_locked. cbn. rewrite lookup_delete_eq. done.
Qed.

(** When [Run] has returned while the receiver offers a request, nobody
    takes it: the receiver stays, even when the server is shut down. *)
Lemma abandoned_receiver_stays s s' rr l err e :
  rtc step s s' -> recv s = RSend rr l err -> run s = PDone e ->
  recv s' = RSend rr l err /\ run s' = PDone e.
Proof.
  induction 1 as [|s s1 s2 [[H|H|H]| ->] _ IH]; [done| | | |exact IH].
  - intros Hr Hp. apply IH; destruct H; cbn; congruence.
  - destruct H; exact IH.
  - destruct H; exact IH.
Qed.

(** ** Every send is answered *)

(** The packets and reports on their way. *)
Definition pending (s : t) : nat :=
  length (write s) + (match snd_ s with SReport _ => 1 | _ => 0 end) + (match werr s with Some _ => 1 | None => 0 end).

Definition send_ok (s : t) : Prop :=
  queued s = tried s ++ write s
  /\ (cancelled s = false -> waiting s = pending s /\ snd_ s <> SDone /\ wdone s = false).

Lemma send_ok_sending s s' : sending s s' -> send_ok s -> send_ok s' /\ cancelled s' = cancelled s /\ queued s' = queued s.
Proof.
  intros H (Hq & Hw). split; [|by destruct H]. destruct H; split; cbn in *;
    try (rewrite Hq; (done || (rewrite H0, <- app_assoc; done))); intros Hc; destruct (Hw Hc) as (Hn & Hd & Hwd);
    unfold pending in *; cbn; rewrite ?H, ?H0 in *; cbn in *; try congruence; repeat split; try done; lia.
Qed.

Lemma send_ok_step s s' : step s s' -> send_ok s -> send_ok s'.
Proof.
  intros [[H|H|H]| ->] Hi; [|by eapply send_ok_sending| |].
  - destruct H; try exact Hi; [|unfold pop_locked; by destruct (requests s !! msgId)].
    destruct Hi as [Hq _]. split; [exact Hq|done].
  - destruct H, Hi as (Hq & Hw); split; cbn in *; [by rewrite Hq, app_assoc| |done|congruence].
    intros Hc. destruct (Hw Hc) as (Hn & Hd & Hwd). unfold pending in *. cbn. rewrite length_app. cbn.
    repeat split; [lia|done..].
  - destruct Hi as [Hq _]. split; [exact Hq|done].
Qed.

Lemma reachable_send_ok s : reachable s -> send_ok s.
Proof.
  unfold reachable. intros H. apply rtc_ind_r with (P := send_ok) (z := s) (3 := H); [done|].
  intros s1 s2 _ Hs. by apply send_ok_step.
Qed.

(** Three steps for a queued packet, two for a report, one for an answer. *)
Definition work (s : t) : nat :=
  3 * length (write s) + (match snd_ s with SReport _ => 2 | _ => 0 end) + (match werr s with Some _ => 1 | None => 0 end).

Lemma sending_works s s' : sending s s' -> cancelled s = false -> send_ok s -> (work s' < work s)%nat.
Proof.
  intros H Hc (_ & Hw). destruct (Hw Hc) as (_ & _ & Hwd).
  destruct H; unfold work; cbn; rewrite ?H, ?H0; cbn; try congruence; lia.
Qed.

Lemma sending_bounded n s s' :
  nsteps sending n s s' -> cancelled s = false -> send_ok s ->
  (n + work s' <= work s)%nat /\ send_ok s' /\ cancelled s' = false /\ queued s' = queued s.
Proof.
  induction 1 as [|n s s1 s2 H _ IH]; [auto with lia|]. intros Hc Hi.
  destruct (send_ok_sending _ _ H Hi) as (Hi1 & Hc1 & Hq1). pose proof (sending_works _ _ H Hc Hi).
  destruct IH as (? & ? & ? & ?); [congruence|done|]. split; [lia|]. split; [done|]. split; [done|congruence].
Qed.

Lemma sending_progress s : cancelled s = false -> send_ok s -> (0 < waiting s)%nat -> exists s', sending s s'.
Proof.
  intros Hc (_ & Hw) Hn. destruct (Hw Hc) as (Hp & Hd & _). unfold pending in Hp.
  destruct (werr s) as [e|] eqn:He.
  - destruct (waiting s) eqn:?; [lia|]. eexists. by eapply answered.
  - destruct (snd_ s) eqn:Hs; [|eexists; by eapply send_report|done].
    destruct (write s) as [|p q] eqn:Hq; [cbn in Hp; lia|]. eexists. eapply (send_packet _ _ _ (Some ErrPermission)); done.
Qed.

(** C12: While a connection is not shut down, packets are written in the order
    in which they were queued; the sender and the goroutines that wait for
    it come to rest after a bounded number of steps under every schedule,
    and at rest every packet has been written and every caller answered. *)
Theorem writers_answered (s : t) :
  reachable s -> cancelled s = false ->
  queued s = tried s ++ write s
  /\ forall n s', nsteps sending n s s' ->
       (n <= work s)%nat
       /\ ((~ exists s'', sending s' s'') -> waiting s' = 0%nat /\ tried s' = queued s).
Proof.
  intros Hr Hc. pose proof (reachable_send_ok s Hr) as Hi. split; [apply Hi|]. intros n s' H.
  destruct (sending_bounded n s s' H Hc Hi) as (Hn & Hi' & Hc' & Hq'). split; [lia|]. intros Hno.
  assert (waiting s' = 0%nat) as Hw0.
  { destruct (decide (waiting s' = 0%nat)) as [|Hne]; [done|]. destruct Hno. apply sending_progress; [done..|lia]. }
  split; [exact Hw0|]. destruct Hi' as (Hqq & Hw). destruct (Hw Hc') as (Hp & _ & _).
  rewrite <- Hq', Hqq. unfold pending in Hp. destruct (write s'); [by rewrite app_nil_r|cbn in Hp; lia].
Qed.

End goroutines.

(** ** ServeListener and Shutdown *)

Module serving.

(** Where ServeListener is: at the test of [active]; at [Accept]; before the
    lock with a new connection; returned. *)
Inductive loop := LTest | LAccept | LAdd (id : nat) | LDone.

(** Where [Shutdown] is: not called; before the lock; closing the
    connections it found; returned. *)
Inductive shutter := QIdle | QLock | QEach (conns : list nat) | QDone.

Record t := mk {
  active : bool;
  listening : bool;
  activeConns : gmap nat ConnState;
  shut : gset nat;        (* connections that conn.shutdown was called on *)
  at_loop : loop;
  at_shutdown : shutter;
  accepted : nat          (* connections so far; they are named by number *)
}.

(** A server when the loop starts. *)
Definition started : t := mk true true ∅ ∅ LTest QIdle 0.

Definition set_loop (v : loop) (d : t) : t :=
  mk (active d) (listening d) (activeConns d) (shut d) v (at_shutdown d) (accepted d).
Definition set_conns (v : gmap nat ConnState) (d : t) : t :=
  mk (active d) (listening d) v (shut d) (at_loop d) (at_shutdown d) (accepted d).
Definition set_shutter (v : shutter) (d : t) : t :=
  mk (active d) (listening d) (activeConns d) (shut d) (at_loop d) v (accepted d).
Definition set_shut (i : nat) (d : t) : t :=
  mk (active d) (listening d) (activeConns d) ({[i]} ∪ shut d) (at_loop d) (at_shutdown d) (accepted d).

Definition is_active (st : ConnState) : bool := match st with STATE_SESSION_ACTIVE => true | _ => false end.

(** [d.active.Store(false)]; [listener.Close()] *)
Definition deactivate (d : t) : t :=
  mk false (listening d) (activeConns d) (shut d) (at_loop d) (at_shutdown d) (accepted d).
Definition close_listener (d : t) : t :=
  mk (active d) false (activeConns d) (shut d) (at_loop d) (at_shutdown d) (accepted d).

(** The connection under the lock: refused when there may be only one and a
    connection has a session. *)
Definition refused (single : bool) (d : t) : bool :=
  single && existsb (fun p => is_active (snd p)) (map_to_list (activeConns d)).
Definition add_conn (single : bool) (id : nat) (d : t) : t :=
  if refused single d then set_loop LTest (set_shut id d)
  else set_loop LTest (set_conns (<[id := STATE_NEGOTIATE]> (activeConns d)) d).

(** The goroutine of a connection whose [Run] returned. *)
Definition conn_returns (single : bool) (id : nat) (d : t) : t :=
  let d' := match activeConns d !! id with
            | Some st => if single && is_active st then close_listener (deactivate d) else d
            | None => d
            end in
  set_conns (delete id (activeConns d')) d'.

Inductive loop_step (single : bool) : t -> t -> Prop :=
| test_active d :
    at_loop d = LTest -> loop_step single d (set_loop (if active d then LAccept else LDone) (if active d then d else close_listener d))
| accept_ok d :
    at_loop d = LAccept -> listening d = true ->
    loop_step single d (mk (active d) (listening d) (activeConns d) (shut d) (LAdd (accepted d)) (at_shutdown d) (S (accepted d)))
| accept_fails d : at_loop d = LAccept -> loop_step single d (set_loop LTest d)
| add d id : at_loop d = LAdd id -> loop_step single d (add_conn single id d).

Inductive other_step (single : bool) : t -> t -> Prop :=
| conn_state d id st :
    id ∈ dom (activeConns d) -> other_step single d (set_conns (<[id := st]> (activeConns d)) d)
| conn_ends d id : id ∈ dom (activeConns d) -> other_step single d (conn_returns single id d)
| shutdown_store d : at_shutdown d = QIdle -> other_step single d (set_shutter QLock (deactivate d))
| shutdown_lock d :
    at_shutdown d = QLock ->
    other_step single d (set_shutter (QEach (base.elements (dom (activeConns d)))) (close_listener d))
| shutdown_each d id l : at_shutdown d = QEach (id :: l) -> other_step single d (set_shutter (QEach l) (set_shut id d))
| shutdown_return d : at_shutdown d = QEach [] -> other_step single d (set_shutter QDone d).

Inductive step (single : bool) (d d' : t) : Prop :=
| by_loop : loop_step single d d' -> step single d d'
| by_other : other_step single d d' -> step single d d'.

(** ** What Shutdown reaches *)

Lemma inactive_step single d d' : step single d d' -> active d = false -> active d' = false.
Proof.
  intros [H|H] Ha; destruct H; cbn; try done.
  - by rewrite Ha.
  - unfold add_conn. by destruct (refused _ _).
  - unfold conn_returns. destruct (activeConns d !! id); [|done]. by destruct (_ && _).
Qed.

(** The connections that [Shutdown] found, when it is past its lock. *)
Definition still (d : t) : gset nat := match at_shutdown d with QEach l => list_to_set l | _ => ∅ end.
Definition past_lock (d : t) : Prop := match at_shutdown d with QEach _ | QDone => True | _ => False end.

Lemma past_lock_step single d d' :
  step single d d' -> past_lock d -> listening d = false ->
  past_lock d' /\ listening d' = false /\ still d ∪ shut d ⊆ still d' ∪ shut d'.
Proof.
  unfold past_lock, still. intros [H|H] Hp Hl; destruct H; cbn; rewrite ?H in *; try done.
  - by destruct (active d).
  - unfold add_conn. destruct (refused _ _); cbn; [|done]. split; [done|]. split; [done|]. set_solver.
  - unfold conn_returns. destruct (activeConns d !! id); [|done]. by destruct (_ && _).
  - split; [done|]. split; [done|]. set_solver.
Qed.

Lemma past_lock_steps single d d' :
  rtc (step single) d d' -> past_lock d -> listening d = false ->
  past_lock d' /\ listening d' = false /\ still d ∪ shut d ⊆ still d' ∪ shut d'.
Proof.
  induction 1 as [|d d1 d2 H _ IH]; [done|]. intros Hp Hl.
  destruct (past_lock_step _ _ _ H Hp Hl) as (Hp1 & Hl1 & Hs1).
  destruct (IH Hp1 Hl1) as (Hp2 & Hl2 & Hs2). split; [done|]. split; [done|]. set_solver.
Qed.

(** Steps of the loop that are left once the server is inactive. *)
Definition turns (l : loop) : nat := match l with LDone => 0 | LTest => 1 | LAdd _ => 2 | LAccept => 3 end.

Lemma loop_turns single d d' : loop_step single d d' -> active d = false -> (turns (at_loop d') < turns (at_loop d))%nat.
Proof.
  intros H Ha. destruct H; cbn; rewrite ?H, ?Ha; cbn; try lia. unfold add_conn. destruct (refused _ _); cbn; lia.
Qed.

Lemma other_turns single d d' : other_step single d d' -> at_loop d' = at_loop d.
Proof.
  intros H; destruct H; try done. unfold conn_returns. destruct (activeConns d !! id); [|done]. by destruct (_ && _).
Qed.

(** Shutdown has called the shutdown of every connection that was
    registered when it took the lock by the time it returns; the server is
    then inactive and its listener closed, and from the moment it is inactive
    every step of the accept loop brings it nearer to its end, which is at
    most three steps away. *)
Theorem shutdown_reaches_registered (single : bool) (d d1 d2 : t) :
  at_shutdown d = QLock -> active d = false ->
  d1 = set_shutter (QEach (base.elements (dom (activeConns d)))) (close_listener d) ->
  rtc (step single) d1 d2 -> at_shutdown d2 = QDone ->
  dom (activeConns d) ⊆ shut d2 /\ active d2 = false /\ listening d2 = false
  /\ (turns (at_loop d2) <= 3)%nat
  /\ forall d3, (loop_step single d2 d3 -> (turns (at_loop d3) < turns (at_loop d2))%nat)
       /\ (other_step single d2 d3 -> at_loop d3 = at_loop d2).
Proof.
  intros Hq Ha -> Hr Hd.
  assert (Hact : active d2 = false).
  { apply rtc_ind_r with (P := fun d => active d = false) (z := d2) (3 := Hr); [done|].
    intros ? ? _ Hs. by apply (inactive_step single). }
  destruct (past_lock_steps _ _ _ Hr I eq_refl) as (_ & Hl & Hs).
  split; [|split; [done|split; [done|split]]].
  - unfold still in Hs. rewrite Hd in Hs. cbn in Hs. set_solver.
  - destruct (at_loop d2); cbn; lia.
  - intros d3. split; [intros H; by apply (loop_turns single)|apply other_turns].
Qed.

(** The loop has accepted a connection and not yet registered it. *)
Definition accepting : t := mk true true ∅ ∅ (LAdd 0) QIdle 1.

(** A connection that is accepted before Shutdown and registered after it
    is not shut down: Shutdown and ServeListener have both returned, the
    connection is still registered and nothing will ever shut it down. *)
Theorem shutdown_misses_accepted :
  exists d, rtc (step false) started d
    /\ at_shutdown d = QDone /\ at_loop d = LDone /\ activeConns d !! 0%nat = Some STATE_NEGOTIATE
    /\ forall d', rtc (step false) d d' -> 0%nat ∉ shut d'.
Proof.
  exists (mk false false {[0%nat := STATE_NEGOTIATE]} ∅ LDone QDone 1). split; [|repeat split].
  - eapply rtc_l; [apply by_loop, test_active; reflexivity|].
    eapply rtc_l; [apply by_loop, accept_ok; reflexivity|].
    eapply rtc_l; [apply by_other, shutdown_store; reflexivity|].
    eapply rtc_l; [apply by_other, shutdown_lock; reflexivity|].
    eapply rtc_l; [apply by_other, shutdown_return; reflexivity|].
    eapply rtc_l; [apply by_loop, (add _ _ 0%nat); reflexivity|].
    eapply rtc_l; [apply by_loop, test_active; reflexivity|]. apply rtc_refl.
  - intros d' Hr.
    assert (H : at_shutdown d' = QDone /\ at_loop d' = LDone /\ shut d' = ∅).
    { apply rtc_ind_r with (P := fun d => at_shutdown d = QDone /\ at_loop d = LDone /\ shut d = ∅) (z := d') (3 := Hr);
        [done|].
      intros d1 d2 _ [H|H] (H1 & H2 & H3); destruct H; try congruence; try done.
      unfold conn_returns. by destruct (activeConns d !! id). }
    destruct H as (_ & _ & ->). apply not_elem_of_empty.
Qed.

Lemma shutdown_reaches_registered_witness :
  exists d2, at_shutdown d2 = QDone /\ 0%nat ∈ shut d2.
Proof.
  set (d := mk false true {[0%nat := STATE_SESSION_ACTIVE]} ∅ LAccept QLock 1).
  set (d1 := set_shutter (QEach (base.elements (dom (activeConns d)))) (close_listener d)).
  set (d2 := set_shutter QDone (set_shutter (QEach []) (set_shut 0 d1))).
  assert (Hr : rtc (step false) d1 d2).
  { eapply rtc_l; [apply by_other, (shutdown_each _ _ 0%nat []); vm_compute; reflexivity|].
    eapply rtc_l; [apply by_other, shutdown_return; reflexivity|]. apply rtc_refl. }
  destruct (shutdown_reaches_registered false d d1 d2 eq_refl eq_refl eq_refl Hr eq_refl) as (Hs & _).
  exists d2. split; [reflexivity|]. apply Hs. vm_compute. reflexivity.
Defined.

End serving.

(** ** Concrete checks *)

Section witnesses.
Import goroutines.

(** Three messages in a packet, the first two with one id. *)
Definition toy_packet (id1 id2 : Z) : bytes :=
  flat (map m_pkt [toy_msg 0 72 id1 [1]; toy_msg 4 72 id2 [2]; toy_msg 4 0 9 [3]]).

Definition toy_received (id1 id2 : Z) : list request :=
  match receive (toy_packet id1 id2) toy_conn with Some (Ok r) => rc_requests r | _ => [] end.

Lemma toy_receive id1 id2 :
  match receive (toy_packet id1 id2) toy_conn with Some (Ok r) => rc_err r = None | _ => False end ->
  reachable (set_recv (RHand (toy_received id1 id2) None) (add_received (toy_received id1 id2) newConn)).
Proof.
  unfold toy_received. generalize (toy_packet id1 id2). intros pkt.
  destruct (receive pkt toy_conn) as [[r| |]|] eqn:E; [|done..].
  intros He. pose proof (read_packet newConn pkt toy_conn r eq_refl eq_refl E) as H. rewrite He in H.
  apply rtc_once, by_conn, by_handoff, H.
Qed.

Lemma requests_in_order_witness :
  exists s, length (received s) = 3%nat /\ handled s `prefix_of` received s /\ locked s = false.
Proof.
  assert (Hl : length (toy_received 5 6) = 3%nat) by (vm_compute; reflexivity).
  assert (Hd : distinct_ids (toy_received 5 6)).
  { unfold distinct_ids. replace (map rq_msgId (toy_received 5 6)) with [5; 6; 9] by (vm_compute; reflexivity).
    by apply (bool_decide_eq_true_1 (NoDup [5; 6; 9])). }
  assert (Hr : reachable (set_recv (RHand (toy_received 5 6) None) (add_received (toy_received 5 6) newConn)))
    by (apply toy_receive; vm_compute; reflexivity).
  revert Hl Hd Hr. generalize (toy_received 5 6). intros l Hl Hd Hr.
  exists (set_recv (RHand l None) (add_received l newConn)).
  destruct (requests_in_order _ Hr Hd) as (H1 & H2 & _). split; [exact Hl|]. split; [exact H1|exact H2].
Defined.

Lemma duplicate_id_deadlocks_witness :
  exists s a b s', reachable s /\ received s = a :: b :: drop 2 (received s) /\ rtc conn_step s s'
    /\ handled s' = [b].
Proof.
  assert (Hid : map rq_msgId (toy_received 5 5) = [5; 5; 9]) by (vm_compute; reflexivity).
  assert (Hr : reachable (set_recv (RHand (toy_received 5 5) None) (add_received (toy_received 5 5) newConn)))
    by (apply toy_receive; vm_compute; reflexivity).
  revert Hid Hr. generalize (toy_received 5 5). intros [|a [|b [|c l]]] Hid Hr; [discriminate..|].
  destruct (duplicate_id_deadlocks
    (set_recv (RHand (a :: b :: c :: l) None) (add_received (a :: b :: c :: l) newConn)) a b c l None
    eq_refl eq_refl eq_refl eq_refl) as (s' & Hs & Hf).
  - cbn in Hid. congruence.
  - eexists _, a, b, s'. split; [exact Hr|]. split; [reflexivity|]. split; [exact Hs|].
    by destruct (Hf s' (rtc_refl _ _)) as (_ & _ & ->).
Defined.

Lemma writers_answered_witness :
  exists s, reachable s /\ waiting s = 1%nat /\ queued s = tried s ++ write s.
Proof.
  assert (Hr : reachable (set_sending SSelect false [[1]] None 1 [] [[1]] newConn)).
  { apply rtc_once, by_conn, by_asking, (enqueue newConn [1]). cbn. lia. }
  eexists. split; [exact Hr|]. split; [reflexivity|].
  apply (writers_answered _ Hr eq_refl).
Defined.

End witnesses.
