(* ===== verification/Shares.v ===== *)
(** * The table of shares (server/server.go)

    A server keeps its file systems twice: under the upper-cased names, where
    TREE_CONNECT looks, and under the names as they were given, which is what
    the clients are shown.  [AddShare] and [RemoveShare] change both while
    connections are served.  The string functions of Go that depend on the
    Unicode tables, and the order in which Go enumerates a map, are
    arguments. *)

From S2P Require Import Prelude Utf16.

Module shares.

(** ASCII names, and their letters in upper case. *)
Definition ascii (s : gostring) : Prop := Forall (fun c => 0 <= c < 128) s.
Definition ascii_upper (s : gostring) : gostring :=
  map (fun c => if (97 <=? c) && (c <=? 122) then c - 32 else c) s.

Section table.
Context (TrimSpace ToUpper : gostring -> gostring) (EqualFold : gostring -> gostring -> bool).

(** The maps of [Server]; a file system is known by an identifier. *)
Record t := mk { shares : gmap gostring Z; origShares : gmap gostring Z }.

(** The loop of [NewServer] over the map it is given, in the order [l]. *)
Definition newShares (l : list (gostring * Z)) : gmap gostring Z :=
  foldl (fun m p => <[ToUpper (fst p) := snd p]> m) ∅ l.
Definition NewServer (l : list (gostring * Z)) : t := mk (newShares l) (list_to_map l).

Definition AddShare (name : gostring) (fs : option Z) (d : t) : t * option goerr :=
  let name := TrimSpace name in
  if bool_decide (name = []) then (d, Some (ErrOther "share name is required")) else
  match fs with
  | None => (d, Some (ErrOther "share filesystem is required"))
  | Some fs =>
      let upperName := ToUpper name in
      match shares d !! upperName with
      | Some _ => (d, Some (ErrOther "share already exists"))
      | None => (mk (<[upperName := fs]> (shares d)) (<[name := fs]> (origShares d)), None)
      end
  end.

(** The first name of [order] that is the same but for the case. *)
Definition same_name (name : gostring) (order : list gostring) : option gostring :=
  List.find (fun existing => EqualFold existing name) order.

(** [order] is the order in which the loop meets the names. *)
Definition RemoveShare (order : list gostring) (name : gostring) (d : t) : t * option goerr :=
  let name := TrimSpace name in
  if bool_decide (name = []) then (d, Some (ErrOther "share name is required")) else
  let upperName := ToUpper name in
  match shares d !! upperName with
  | None => (d, Some (ErrOther "share does not exist"))
  | Some _ =>
      (mk (delete upperName (shares d))
          (match same_name name order with
           | Some existing => delete existing (origShares d)
           | None => origShares d
           end), None)
  end.

(** [Shares]: an order in which Go may enumerate the names, and what it may
    answer. *)
Definition enumerates (order : list gostring) (d : t) : Prop := order ≡ₚ map fst (map_to_list (origShares d)).

(** ** The tables agree *)

(** The upper-cased table is the image of the other, under which no two
    names meet. *)
Definition consistent (d : t) : Prop :=
  (forall u fs, shares d !! u = Some fs <-> exists n, origShares d !! n = Some fs /\ ToUpper n = u)
  /\ (forall n1 n2, n1 ∈ dom (origShares d) -> n2 ∈ dom (origShares d) -> ToUpper n1 = ToUpper n2 -> n1 = n2).

Inductive op := Add (name : gostring) (fs : option Z) | Remove (name : gostring) (order : list gostring).
Definition op_name (o : op) : gostring := match o with Add name _ => name | Remove name _ => name end.

Definition run_op (o : op) (d : t) : t :=
  match o with
  | Add name fs => fst (AddShare name fs d)
  | Remove name order => fst (RemoveShare order name d)
  end.

(** The names are ASCII, and a loop meets the names that there are. *)
Definition may (o : op) (d : t) : Prop :=
  ascii (op_name o) /\ match o with Add _ _ => True | Remove _ order => enumerates order d end.

Inductive runs : t -> t -> Prop :=
| runs_nil d : runs d d
| runs_step d d' o : runs d d' -> may o d' -> runs d (run_op o d').

Lemma newShares_lookup l u fs :
  NoDup (map (fun p => ToUpper (fst p)) l) ->
  newShares l !! u = Some fs <-> exists n, (n, fs) ∈ l /\ ToUpper n = u.
Proof.
  unfold newShares. induction l as [|[n v] l IH] using rev_ind; intros Hd.
  - cbn. rewrite lookup_empty. split; [done|]. intros (n & H%elem_of_nil & _). done.
  - rewrite foldl_app. cbn [foldl fst snd]. rewrite map_app in Hd. apply NoDup_app in Hd as (Hd & Hn & _).
    specialize (IH Hd). destruct (decide (ToUpper n = u)) as [<-|Hne].
    + rewrite lookup_insert_eq. split.
      * intros [= <-]. exists n. split; [|done]. apply elem_of_app. right. by left.
      * intros (n' & [Hin|[= -> ->]%list_elem_of_singleton]%elem_of_app & E); [|done].
        destruct (Hn (ToUpper n')); [|rewrite E; by left].
        apply list_elem_of_fmap. by exists (n', fs).
    + rewrite lookup_insert_ne by done. rewrite IH. split; intros (n' & Hin & E).
      * exists n'. split; [|done]. apply elem_of_app. by left.
      * apply elem_of_app in Hin as [Hin|[= -> ->]%list_elem_of_singleton]; [by exists n'|done].
Qed.

Lemma NewServer_consistent l :
  NoDup (map (fun p => ToUpper (fst p)) l) -> consistent (NewServer l).
Proof.
  intros Hd.
  assert (Hf : NoDup (l.*1)).
  { apply (NoDup_fmap_1 ToUpper). rewrite <- list_fmap_compose. exact Hd. }
  split; cbn.
  - intros u fs. rewrite newShares_lookup by done. split; intros (n & Hn & E); exists n; (split; [|done]).
    + by apply elem_of_list_to_map_1.
    + by apply elem_of_list_to_map_2.
  - assert (Hin : forall n, n ∈ dom (list_to_map l : gmap gostring Z) -> exists v, (n, v) ∈ l).
    { intros n [v Hv]%elem_of_dom. exists v. by apply elem_of_list_to_map_2. }
    intros n1 n2 [v1 H1]%Hin [v2 H2]%Hin E.
    apply list_elem_of_lookup in H1 as [i Hi], H2 as [j Hj].
    assert (i = j) as ->.
    { apply (NoDup_lookup (map (fun p => ToUpper (fst p)) l) i j (ToUpper n1)); [done| |].
      - rewrite list_lookup_fmap, Hi. done.
      - rewrite list_lookup_fmap, Hj, E. done. }
    congruence.
Qed.

(** What Go's functions do on ASCII names.  Outside of ASCII [EqualFold] is
    coarser than [ToUpper]; see [kelvin_shares_disagree]. *)
Hypothesis ToUpper_ascii : forall a, ascii a -> ToUpper a = ascii_upper a.
Hypothesis EqualFold_ascii : forall a b, ascii a -> ascii b -> EqualFold a b = bool_decide (ascii_upper a = ascii_upper b).
Hypothesis TrimSpace_ascii : forall a, ascii a -> ascii (TrimSpace a).

(** Names that differ in case only are the same name. *)
Lemma fold_upper a b : ascii a -> ascii b -> EqualFold a b = bool_decide (ToUpper a = ToUpper b).
Proof. intros Ha Hb. by rewrite EqualFold_ascii, !ToUpper_ascii. Qed.

Definition ascii_names (d : t) : Prop := forall n, n ∈ dom (origShares d) -> ascii n.

Lemma same_name_found name order d :
  consistent d -> ascii_names d -> ascii name -> enumerates order d ->
  match same_name name order with
  | Some e => e ∈ dom (origShares d) /\ ToUpper e = ToUpper name
  | None => shares d !! ToUpper name = None
  end.
Proof.
  intros [Hs _] Hall Ha Ho.
  assert (Hin : forall n, In n order <-> n ∈ dom (origShares d)).
  { intros n. rewrite <- list_elem_of_In, Ho, elem_of_dom. rewrite list_elem_of_fmap. split.
    - intros ([n' v] & -> & Hv%elem_of_map_to_list). by exists v.
    - intros [v Hv]. exists (n, v). split; [done|]. by apply elem_of_map_to_list. }
  unfold same_name. destruct (List.find _ order) as [e|] eqn:E.
  - apply List.find_some in E as [He Hf]. rewrite fold_upper in Hf by first [done|by apply Hall, Hin]. apply bool_decide_eq_true in Hf.
    split; [by apply Hin|done].
  - destruct (shares d !! ToUpper name) as [fs|] eqn:Hl; [|done].
    apply Hs in Hl as (n & Hn & Hu).
    pose proof (List.find_none _ _ E n (proj2 (Hin n) (elem_of_dom_2 _ _ _ Hn))) as Hf.
    cbn in Hf. rewrite fold_upper in Hf by first [done|by eapply Hall, elem_of_dom_2]. by apply bool_decide_eq_false in Hf.
Qed.

Lemma AddShare_consistent name fs d : consistent d -> consistent (fst (AddShare name fs d)).
Proof.
  intros [Hs Hi]. unfold AddShare. destruct (bool_decide _); [done|]. destruct fs as [fs|]; [|done].
  set (n0 := TrimSpace name). destruct (shares d !! ToUpper n0) eqn:Hl; [done|]. cbn [fst].
  assert (Hfresh : forall n v, origShares d !! n = Some v -> ToUpper n <> ToUpper n0).
  { intros n v Hn E. enough (shares d !! ToUpper n0 = Some v) by congruence. apply Hs. by exists n. }
  split; cbn.
  - intros u v. destruct (decide (ToUpper n0 = u)) as [<-|Hne].
    + rewrite lookup_insert_eq. split.
      * intros [= <-]. exists n0. by rewrite lookup_insert_eq.
      * intros (n & Hn & E). destruct (decide (n0 = n)) as [<-|Hnn]; [by rewrite lookup_insert_eq in Hn|].
        rewrite lookup_insert_ne in Hn by done. by destruct (Hfresh n v Hn).
    + rewrite lookup_insert_ne by done. rewrite Hs. split; intros (n & Hn & E); exists n; (split; [|done]).
      * by rewrite lookup_insert_ne by congruence.
      * by rewrite lookup_insert_ne in Hn by congruence.
  - intros n1 n2. rewrite dom_insert_L, !elem_of_union, !elem_of_singleton, !elem_of_dom.
    intros [->|[v1 H1]] [->|[v2 H2]] E; [done|by destruct (Hfresh n2 v2 H2)|by destruct (Hfresh n1 v1 H1)|].
    apply Hi; [apply elem_of_dom; eauto..|done].
Qed.

Lemma AddShare_ascii name fs d : ascii name -> ascii_names d -> ascii_names (fst (AddShare name fs d)).
Proof.
  intros Hn Hd. unfold AddShare. destruct (bool_decide _); [done|]. destruct fs as [fs|]; [|done].
  destruct (shares d !! _); [done|]. intros n. cbn. rewrite dom_insert_L, elem_of_union, elem_of_singleton.
  intros [->|?]; [by apply TrimSpace_ascii|by apply Hd].
Qed.

Lemma RemoveShare_ascii order name d : ascii_names d -> ascii_names (fst (RemoveShare order name d)).
Proof.
  intros Hd. unfold RemoveShare. destruct (bool_decide _); [done|]. destruct (shares d !! _); [|done].
  destruct (same_name _ _); [|done]. intros n. cbn. rewrite dom_delete_L, elem_of_difference.
  intros [? _]. by apply Hd.
Qed.

Lemma RemoveShare_consistent order name d :
  consistent d -> ascii_names d -> ascii name -> enumerates order d -> consistent (fst (RemoveShare order name d)).
Proof.
  intros Hc Hall Ha Ho. unfold RemoveShare. destruct (bool_decide _); [done|].
  set (n0 := TrimSpace name). destruct (shares d !! ToUpper n0) as [fs|] eqn:Hl; [|done]. cbn [fst].
  pose proof (same_name_found n0 order d Hc Hall (TrimSpace_ascii _ Ha) Ho) as Hn. destruct (same_name n0 order) as [e|]; [|congruence].
  destruct Hn as [He Heu], Hc as [Hs Hi]. split; cbn.
  - intros u v. destruct (decide (ToUpper n0 = u)) as [<-|Hne].
    + rewrite lookup_delete_eq. split; [done|]. intros (n & Hn & E).
      destruct (decide (e = n)) as [<-|Hen]; [by rewrite lookup_delete_eq in Hn|].
      rewrite lookup_delete_ne in Hn by done. destruct Hen. apply Hi; [done|by eapply elem_of_dom_2|congruence].
    + rewrite lookup_delete_ne by done. rewrite Hs. split; intros (n & Hn & E); exists n; (split; [|done]).
      * by rewrite lookup_delete_ne by congruence.
      * rewrite lookup_delete_ne in Hn; [done|]. intros <-. by rewrite lookup_delete_eq in Hn.
  - intros n1 n2. rewrite dom_delete_L, !elem_of_difference. intros [H1 _] [H2 _]. by apply Hi.
Qed.

Lemma NewServer_ascii l : Forall (fun p => ascii (fst p)) l -> ascii_names (NewServer l).
Proof.
  intros Hl n [v Hv%elem_of_list_to_map_2]%elem_of_dom. exact (proj1 (Forall_forall _ _) Hl (n, v) Hv).
Qed.

(** C19: the two tables agree, for ASCII names.  From shares whose names are
    ASCII and differ in more than case, any sequence of AddShare and
    RemoveShare with ASCII names, successful or not, keeps the two tables in
    agreement: a name finds a share of TREE_CONNECT's table exactly when a
    name of the shown table is the same but for the case, and then it finds
    that share; no two shown names differ in case only. *)
Theorem share_tables_agree (l : list (gostring * Z)) (d : t) :
  Forall (fun p => ascii (fst p)) l -> NoDup (map (fun p => ToUpper (fst p)) l) -> runs (NewServer l) d ->
  (forall u fs, shares d !! u = Some fs <-> exists n, origShares d !! n = Some fs /\ ToUpper n = u)
  /\ (forall n1 n2, n1 ∈ dom (origShares d) -> n2 ∈ dom (origShares d) -> ToUpper n1 = ToUpper n2 -> n1 = n2).
Proof.
  intros Ha Hd Hr. change (consistent d). enough (consistent d /\ ascii_names d) by tauto.
  remember (NewServer l) as d0. induction Hr as [|d0 d o _ IH [Ho Hm]].
  - subst. split; [by apply NewServer_consistent|by apply NewServer_ascii].
  - destruct (IH Heqd0) as [Hc Hn]. destruct o; cbn [run_op op_name] in *.
    + split; [by apply AddShare_consistent|by apply AddShare_ascii].
    + split; [by apply RemoveShare_consistent|by apply RemoveShare_ascii].
Qed.

(** A share that was added is found under every spelling of its name, and
    removing it under any of them, however Go enumerates the names, restores
    both tables and reports no error. *)
Theorem share_add_remove (name name' : gostring) (fs : Z) (order : list gostring) (d : t) :
  ascii name -> ascii name' -> ascii_names d -> consistent d -> TrimSpace name <> [] -> TrimSpace name' <> [] ->
  ToUpper (TrimSpace name') = ToUpper (TrimSpace name) -> shares d !! ToUpper (TrimSpace name) = None ->
  enumerates order (fst (AddShare name (Some fs) d)) ->
  snd (AddShare name (Some fs) d) = None
  /\ shares (fst (AddShare name (Some fs) d)) !! ToUpper (TrimSpace name') = Some fs
  /\ RemoveShare order name' (fst (AddShare name (Some fs) d)) = (d, None).
Proof.
  intros Ha Ha' Hall Hc Hn Hn' Hu Hl Ho. pose proof (AddShare_consistent name (Some fs) d Hc) as Hc'.
  pose proof (same_name_found (TrimSpace name') order _ Hc' (AddShare_ascii _ _ _ Ha Hall) (TrimSpace_ascii _ Ha') Ho) as Hf.
  unfold AddShare in *. rewrite bool_decide_eq_false_2, Hl in * by done. cbn [fst snd shares origShares] in *.
  split; [done|]. split; [by rewrite Hu, lookup_insert_eq|].
  unfold RemoveShare. rewrite bool_decide_eq_false_2 by done. cbn [shares origShares].
  rewrite Hu in *. rewrite lookup_insert_eq in *.
  destruct (same_name (TrimSpace name') order) as [e|]; [|done]. destruct Hf as [He Heu], Hc' as [_ Hi].
  assert (Horig : origShares d !! TrimSpace name = None).
  { destruct (origShares d !! TrimSpace name) as [v|] eqn:E; [|done].
    enough (shares d !! ToUpper (TrimSpace name) = Some v) by congruence. apply Hc. eauto. }
  assert (e = TrimSpace name) as ->.
  { apply Hi; [done| |done]. cbn. rewrite dom_insert_L. apply elem_of_union; left; by apply elem_of_singleton. }
  rewrite !delete_insert_id by done. by destruct d.
Qed.

End table.

(** ** Concrete checks *)

(** Functions that know ASCII only. *)
Definition toy_fold (a b : gostring) : bool := bool_decide (ascii_upper a = ascii_upper b).

(** The kelvin sign is a [K] for [EqualFold], and its own upper case for
    [ToUpper].  With a share of either name, removing "k" takes the share "K"
    from TREE_CONNECT's table, and from the shown table whichever of the two
    names Go meets first: then a share can be connected under a name that is
    not shown, and a name is shown that cannot be connected. *)
Definition kelvin : gostring := [0x212a].
Lemma kelvin_shares_disagree TrimSpace ToUpper EqualFold (fs1 fs2 : Z) :
  (forall n, n ∈ [[0x4b]; [0x6b]; kelvin] -> TrimSpace n = n) ->
  ToUpper [0x4b] = [0x4b] -> ToUpper [0x6b] = [0x4b] -> ToUpper kelvin = kelvin ->
  EqualFold kelvin [0x6b] = true ->
  let d := run_op TrimSpace ToUpper EqualFold (Add kelvin (Some fs2))
             (run_op TrimSpace ToUpper EqualFold (Add [0x4b] (Some fs1)) (NewServer ToUpper [])) in
  let d' := run_op TrimSpace ToUpper EqualFold (Remove [0x6b] [kelvin; [0x4b]]) d in
  enumerates [kelvin; [0x4b]] d
  /\ shares d' = {[kelvin := fs2]} /\ origShares d' = {[[0x4b] := fs1]}.
Proof.
  intros Ht Hu1 Hu2 Hu3 Hf.
  assert (Ht1 : TrimSpace [0x4b] = [0x4b]) by (apply Ht; by left).
  assert (Ht2 : TrimSpace [0x6b] = [0x6b]) by (apply Ht; right; by left).
  assert (Ht3 : TrimSpace kelvin = kelvin) by (apply Ht; right; right; by left).
  unfold run_op, AddShare, RemoveShare. rewrite Ht1, Ht2, Ht3, Hu1, Hu2, Hu3.
  cbn [fst snd shares origShares NewServer newShares foldl same_name List.find]. rewrite Hf.
  rewrite (bool_decide_eq_false_2 ([0x4b] = [])), (bool_decide_eq_false_2 (kelvin = [])), (bool_decide_eq_false_2 ([0x6b] = [])) by done.
  rewrite lookup_empty. cbn [fst snd shares origShares]. rewrite lookup_insert_ne, lookup_empty by done.
  cbn [fst snd shares origShares]. rewrite lookup_insert_ne, lookup_insert_eq by done. cbn [fst snd shares origShares].
  split_and!.
  - unfold enumerates. cbn [origShares]. symmetry.
    apply (Permutation_map fst (l' := [(kelvin, fs2); ([0x4b], fs1)])).
    rewrite map_to_list_insert by done. constructor. rewrite map_to_list_insert by done. done.
  - rewrite delete_insert_ne by done. rewrite delete_insert_id by done. done.
  - by rewrite delete_insert_id.
Qed.

(** When the server is made with two names that differ in case only, one
    of the shares can be reached and both are shown; when it has been
    removed, the other is still shown, and can be neither reached nor
    removed. *)
Theorem colliding_shares_stay :
  let d := NewServer ascii_upper [([0x61], 1); ([0x41], 2)] in
  let r := RemoveShare id ascii_upper toy_fold [[0x61]; [0x41]] [0x61] d in
  map fst (map_to_list (origShares d)) ≡ₚ [[0x61]; [0x41]]
  /\ snd r = None /\ origShares (fst r) !! [0x41] = Some 2 /\ shares (fst r) = ∅
  /\ RemoveShare id ascii_upper toy_fold [[0x41]] [0x41] (fst r) = (fst r, Some (ErrOther "share does not exist")).
Proof.
  split; [|vm_compute; done]. cbn [origShares NewServer].
  apply (Permutation_map fst (l' := [([0x61], 1); ([0x41], 2)])).
  apply map_to_list_to_map. apply (bool_decide_eq_true_1 (NoDup [[0x61]; [0x41]])). reflexivity.
Qed.

Lemma share_tables_agree_witness :
  exists d, shares d !! [0x42] = Some 2 /\ exists n, origShares d !! n = Some 2 /\ ascii_upper n = [0x42].
Proof.
  set (d := run_op id ascii_upper toy_fold (Add [0x62] (Some 2)) (NewServer ascii_upper [([0x61], 1)])).
  exists d. split; [vm_compute; reflexivity|].
  apply (share_tables_agree id ascii_upper toy_fold (fun a _ => eq_refl) (fun a b _ _ => eq_refl) (fun a Ha => Ha)
    [([0x61], 1)] d).
  - apply Forall_singleton, Forall_singleton. cbn. lia.
  - apply (bool_decide_eq_true_1 (NoDup [[0x41]])). reflexivity.
  - apply runs_step; [apply runs_nil|]. split; [|exact I]. apply Forall_singleton. lia.
  - vm_compute. reflexivity.
Defined.

Lemma share_add_remove_witness :
  let d := NewServer ascii_upper [([0x61], 1)] in
  RemoveShare id ascii_upper toy_fold (map fst (map_to_list (origShares (fst (AddShare id ascii_upper [0x62] (Some 2) d)))))
    [0x42] (fst (AddShare id ascii_upper [0x62] (Some 2) d)) = (d, None).
Proof.
  apply (share_add_remove id ascii_upper toy_fold (fun a _ => eq_refl) (fun a b _ _ => eq_refl) (fun a Ha => Ha)
    [0x62] [0x42] 2).
  - apply Forall_singleton. lia.
  - apply Forall_singleton. lia.
  - apply NewServer_ascii, Forall_singleton, Forall_singleton. cbn. lia.
  - apply NewServer_consistent. apply (bool_decide_eq_true_1 (NoDup [[0x41]])). reflexivity.
  - discriminate.
  - discriminate.
  - reflexivity.
  - vm_compute. reflexivity.
  - unfold enumerates. reflexivity.
Defined.

End shares.
