(* ===== verification/Handlers.v ===== *)
(** * The connection's own handlers (server/server.go, server/feature.go)

    NEGOTIATE, SESSION_SETUP, LOGOFF, TREE_CONNECT, TREE_DISCONNECT, ECHO, and
    the dispatch of [Run].  The operations on a tree are a parameter. *)

From S2P Require Import Prelude Const Packet Utf16 Paths Request Dtyp Vfs Opens Response Cipher.
From S2P Require Import Cmac Ccm Session Compound Credit Transport Conn Contexts SpnegoToken Spnego.

(** ** feature.go *)

Definition serverCapabilities : Z :=
  Z.lor (Z.lor (Z.lor SMB2_GLOBAL_CAP_LARGE_MTU SMB2_GLOBAL_CAP_ENCRYPTION) SMB2_GLOBAL_CAP_DFS)
        SMB2_GLOBAL_CAP_PERSISTENT_HANDLES.
Definition serverMaxTransactSize : Z := 0x800000.
Definition serverMaxReadSize : Z := 0x800000.
Definition serverMaxWriteSize : Z := 0x800000.
Definition clientHashAlgorithms : list Z := [SHA512].
Definition clientCiphers : list Z := [AES128GCM; AES128CCM].
Definition defaultDerverDialect : Z := SMB311.

(** ** State *)

Module ServerNegotiator.
Record t := mk {
  RequireMessageSigning : bool; SpecifiedDialect : Z; Spnego : option spnegoServer.t
}.
Definition set_dialect (d : Z) (n : t) : t := mk (RequireMessageSigning n) d (Spnego n).
Definition set_spnego (s : spnegoServer.t) (n : t) : t :=
  mk (RequireMessageSigning n) (SpecifiedDialect n) (Some s).
End ServerNegotiator.

(** A goroutine that a request left behind: the rest of an asynchronous READ
    or WRITE on a tree, with what it captured, before or after it told the
    client that the request is pending, or the end of a CHANGE_NOTIFY. *)
Inductive io_kind := ReadTask | WriteTask.
Inductive task_kind := IoTask (k : io_kind) | NotifyTask.
Record task := mkTask {
  tk_kind : task_kind; tk_tree : nat; tk_pkt : slice; tk_fileId : FileId.t; tk_open : Open.t;
  tk_asyncId : Z; tk_pending : bool
}.

(** What a handler reads and writes: the server's one negotiator and its
    authenticators, shared by all connections, the connection, the server's
    tables of opens, the file systems of the shares by their identifiers, the
    file trees whose Apple extensions are on, the goroutines that were
    started and have not run yet, the RPC request that waits in each IPC tree,
    and the counter of referent ids. *)
Record world := mkWorld {
  w_neg : ServerNegotiator.t; w_auths : list Authenticator; w_conn : conn.t;
  w_server : Server.t; w_fs : gmap Z VFSFileSystem; w_aapl : gset nat; w_tasks : list task;
  w_dce : gmap nat slice; w_refId : Z
}.
Definition set_neg (n : ServerNegotiator.t) (w : world) : world :=
  mkWorld n (w_auths w) (w_conn w) (w_server w) (w_fs w) (w_aapl w) (w_tasks w) (w_dce w) (w_refId w).
Definition set_auths (a : list Authenticator) (w : world) : world :=
  mkWorld (w_neg w) a (w_conn w) (w_server w) (w_fs w) (w_aapl w) (w_tasks w) (w_dce w) (w_refId w).
Definition set_conn (c : conn.t) (w : world) : world :=
  mkWorld (w_neg w) (w_auths w) c (w_server w) (w_fs w) (w_aapl w) (w_tasks w) (w_dce w) (w_refId w).
Definition set_server (d : Server.t) (w : world) : world :=
  mkWorld (w_neg w) (w_auths w) (w_conn w) d (w_fs w) (w_aapl w) (w_tasks w) (w_dce w) (w_refId w).
Definition set_fs (m : gmap Z VFSFileSystem) (w : world) : world :=
  mkWorld (w_neg w) (w_auths w) (w_conn w) (w_server w) m (w_aapl w) (w_tasks w) (w_dce w) (w_refId w).
Definition set_aapl (m : gset nat) (w : world) : world :=
  mkWorld (w_neg w) (w_auths w) (w_conn w) (w_server w) (w_fs w) m (w_tasks w) (w_dce w) (w_refId w).
Definition set_tasks (l : list task) (w : world) : world :=
  mkWorld (w_neg w) (w_auths w) (w_conn w) (w_server w) (w_fs w) (w_aapl w) l (w_dce w) (w_refId w).
Definition set_dce (m : gmap nat slice) (w : world) : world :=
  mkWorld (w_neg w) (w_auths w) (w_conn w) (w_server w) (w_fs w) (w_aapl w) (w_tasks w) m (w_refId w).
Definition set_refId (r : Z) (w : world) : world :=
  mkWorld (w_neg w) (w_auths w) (w_conn w) (w_server w) (w_fs w) (w_aapl w) (w_tasks w) (w_dce w) r.

(** The part of the server that the handlers only read; a share is known by
    an identifier of its file system. *)
Record server_config := mkConfig {
  cf_shares : gmap gostring Z; cf_origShares : list gostring; cf_allowGuest : bool;
  cf_enableSMB3PosixExtensions : bool; cf_serverGuid : bytes; cf_xattrs : bool;
  cf_ignoreSetAttrErr : bool; cf_srvsvc : FileId.t
}.

(** What crypto/rand and the clock give during one request. *)
Record random := mkRandom {
  rd_int32 : Z; rd_int64 : Z; rd_salt : bytes; rd_nonce : bytes; rd_now : Z
}.

(** The result of a handler: the state and the error it returns. *)
Definition handled := outcome (world * option goerr).

(** [x, err := o; if err != nil { return err }] *)
Notation "'try!' x := o 'else' w 'in' k" :=
  (match o with Ok x => k | Err e => Ok (w, Some e) | Panic => Panic end)
  (at level 10, x name, o at level 100, w at level 100, k at level 200).

(** ** Strings *)

(** "\IPC$" *)
Definition ipc_path : gostring := [0x5c; 0x49; 0x50; 0x43; 0x24].
Definition dollar : Z := 0x24.

(** ** Packets of the responses *)

Definition reply_hdr (credit msgid : Z) : PacketHeader.t :=
  PacketHeader.mk 0 0 0 0 credit 1 0 msgid 0 0 0.

Definition negotiate_packet (r : NegotiateResponse.t) : packet :=
  mkPacket OtherPacket (NegotiateResponse.hdr r) (NegotiateResponse.Size r)
    (fun h => NegotiateResponse.Encode
       (NegotiateResponse.mk h (NegotiateResponse.SecurityMode r) (NegotiateResponse.DialectRevision r)
          (NegotiateResponse.ServerGuid r) (NegotiateResponse.Capabilities r)
          (NegotiateResponse.MaxTransactSize r) (NegotiateResponse.MaxReadSize r)
          (NegotiateResponse.MaxWriteSize r) (NegotiateResponse.SystemTime r)
          (NegotiateResponse.ServerStartTime r) (NegotiateResponse.SecurityBuffer r)
          (NegotiateResponse.Contexts r))).
Definition setup_packet (r : SessionSetupResponse.t) : packet :=
  mkPacket OtherPacket (SessionSetupResponse.hdr r) (SessionSetupResponse.Size r)
    (fun h => SessionSetupResponse.Encode
       (SessionSetupResponse.mk h (SessionSetupResponse.SessionFlags r)
          (SessionSetupResponse.SecurityBuffer r))).
Definition logoff_packet (h : PacketHeader.t) : packet :=
  mkPacket OtherPacket h (LogoffResponse.Size (LogoffResponse.mk h))
    (fun h => LogoffResponse.Encode (LogoffResponse.mk h)).
Definition tree_connect_packet (r : TreeConnectResponse.t) : packet :=
  mkPacket OtherPacket (TreeConnectResponse.hdr r) (TreeConnectResponse.Size r)
    (fun h => TreeConnectResponse.Encode
       (TreeConnectResponse.mk h (TreeConnectResponse.ShareType r) (TreeConnectResponse.ShareFlags r)
          (TreeConnectResponse.Capabilities r) (TreeConnectResponse.MaximalAccess r))).
Definition tree_disconnect_packet (h : PacketHeader.t) : packet :=
  mkPacket OtherPacket h (TreeDisconnectResponse.Size (TreeDisconnectResponse.mk h))
    (fun h => TreeDisconnectResponse.Encode (TreeDisconnectResponse.mk h)).

(** What the handlers use of the Go crypto and string packages. *)
Class GoLib := mkGoLib {
  sha512 : bytes -> bytes;
  hmac_sha256 : bytes -> bytes -> bytes;      (** by key and message *)
  hmac_New : bytes -> hash_obj;               (** hmac.New(sha256.New, key) *)
  aes_NewCipher : bytes -> outcome cipher_Block;
  NewGCMWithNonceSize : cipher_Block -> Z -> outcome cipher_AEAD;
  ToUpper : gostring -> gostring;
  regexp_Compile : gostring -> option (gostring -> bool) (** MatchString of the compiled expression *)
}.

Section handlers.
Context `{GoLib, Ber} (cfg : server_config).

(** [c.sendPacket(rsp, tc, nil)] as the last thing a handler does. *)
Definition send (rd : random) (req : packet) (tc : option treeConn.t) (w : world) : handled :=
  let! r := sendPacket sha512 (rd_nonce rd) req tc None (w_conn w) in
  let '(c, _, e) := r in Ok (set_conn c w, e).

(** ** ECHO and LOGOFF *)

Definition echo (rd : random) (pkt : slice) (w : world) : handled :=
  let! credit := PacketCodec.CreditRequest pkt in
  let! msgid := PacketCodec.MessageId pkt in
  let! sid := PacketCodec.SessionId pkt in
  send rd (echo_packet (PacketHeader.set_SessionId sid (reply_hdr credit msgid))) None w.

(** The session is left as it is. *)
Definition logoff (rd : random) (pkt : slice) (w : world) : handled :=
  let! credit := PacketCodec.CreditRequest pkt in
  let! msgid := PacketCodec.MessageId pkt in
  send rd (logoff_packet (reply_hdr credit msgid)) None w.

(** ** NEGOTIATE *)

(** [None] is the nil response of an unsupported dialect. *)
Definition makeResponse (rd : random) (n : ServerNegotiator.t) (c : conn.t)
  : option NegotiateResponse.t :=
  let mode := if ServerNegotiator.RequireMessageSigning n
              then SMB2_NEGOTIATE_SIGNING_REQUIRED else SMB2_NEGOTIATE_SIGNING_ENABLED in
  let rsp dialect ctxs :=
    NegotiateResponse.mk (reply_hdr 0 0) mode dialect (cf_serverGuid cfg) serverCapabilities
      serverMaxTransactSize serverMaxReadSize serverMaxWriteSize
      (Some (Filetime.NsecToFiletime (rd_now rd))) (Some (Filetime.mk 0 0)) [] ctxs in
  let d := ServerNegotiator.SpecifiedDialect n in
  if negb (d =? UnknownSMB) then
    if (d =? SMB2) || (d =? SMB202) || (d =? SMB210) || (d =? SMB300) || (d =? SMB302)
    then Some (rsp d [])
    else if d =? SMB311 then
      Some (rsp d ([HashContext.encoder (HashContext.mk [conn.hashId c] (rd_salt rd));
                    CipherContext.encoder (CipherContext.mk [conn.cipherId c])]
                   ++ if conn.posixExtensions c then [PosixContext.encoder] else []))
    else None
  else
    Some (rsp defaultDerverDialect
            [HashContext.encoder (HashContext.mk clientHashAlgorithms (rd_salt rd));
             CipherContext.encoder (CipherContext.mk clientCiphers)]).

(** The highest offered dialect above the wildcard and not above 3.1.1, and
    SMB 2.1 when there is none. *)
Definition choose_dialect (dialects : list Z) : Z :=
  let d := foldl (fun best d => if (best <? d) && (d <=? SMB311) then d else best) SMB2 dialects in
  if d =? SMB2 then SMB210 else d.

(** The first cipher of the list that the server has. *)
Fixpoint choose_cipher (ciphs : list Z) (current : Z) : Z :=
  match ciphs with
  | [] => current
  | c :: cs => if (c =? AES128CCM) || (c =? AES128GCM) then c else choose_cipher cs current
  end.

(** One context of the client; the error ends the handler. *)
Definition neg_context (pkt : slice) (ctx : slice) (c : conn.t) : outcome conn.t :=
  let! inv := NegotiateContextDecoder.IsInvalid ctx in
  if inv then Err (InvalidResponseError "broken negotiate context format") else
  let! ty := NegotiateContextDecoder.ContextType ctx in
  if ty =? SMB2_PREAUTH_INTEGRITY_CAPABILITIES then
    let! d := NegotiateContextDecoder.Data ctx in
    let! inv := HashContextDataDecoder.IsInvalid d in
    if inv then Err (InvalidResponseError "broken hash context data format") else
    let! algs := HashContextDataDecoder.HashAlgorithms d in
    match algs with
    | [alg] => Ok (calcPreauthHash sha512 (s_bytes pkt) (conn.set_preauthIntegrityHashId alg c))
    | _ => Err (InvalidResponseError "multiple hash algorithms")
    end
  else if ty =? SMB2_ENCRYPTION_CAPABILITIES then
    let! d := NegotiateContextDecoder.Data ctx in
    let! inv := CipherContextDataDecoder.IsInvalid d in
    if inv then Err (InvalidResponseError "broken cipher context data format") else
    let! ciphs := CipherContextDataDecoder.Ciphers d in
    let c := conn.set_cipherId (choose_cipher ciphs (conn.cipherId c)) c in
    if (conn.cipherId c =? AES128CCM) || (conn.cipherId c =? AES128GCM) then Ok c
    else Err (InvalidResponseError "unknown cipher algorithm")
  else if ty =? SMB3_POSIX_EXTENSIONS_AVAILABLE then
    if cf_enableSMB3PosixExtensions cfg then
      let! b := NegotiateContextDecoder.IsSMB3Posix ctx in
      Ok (if b then conn.set_posixExtensions true c else c)
    else Ok c
  else Ok c.

(** The loop over the contexts. *)
Fixpoint neg_contexts (count : nat) (pkt : slice) (list : slice) (c : conn.t) : outcome conn.t :=
  match count with
  | O => Ok c
  | S count =>
      let! c := neg_context pkt list c in
      let! off := NegotiateContextDecoder.Next list in
      let! list := if s_len list <? off then Ok nil_slice else s_from list off in
      neg_contexts count pkt list c
  end.

(** [rsp, _ := n.makeResponse(conn)], the header, the token, and the send. *)
Definition answer_negotiate (rd : random) (pkt : slice) (token : bytes) (w : world) : handled :=
  match makeResponse rd (w_neg w) (w_conn w) with
  | None => Panic
  | Some rsp =>
      let! hdr := PrepareResponse (NegotiateResponse.hdr rsp) pkt 0 in
      send rd (negotiate_packet
        (NegotiateResponse.mk hdr (NegotiateResponse.SecurityMode rsp)
           (NegotiateResponse.DialectRevision rsp) (NegotiateResponse.ServerGuid rsp)
           (NegotiateResponse.Capabilities rsp) (NegotiateResponse.MaxTransactSize rsp)
           (NegotiateResponse.MaxReadSize rsp) (NegotiateResponse.MaxWriteSize rsp)
           (NegotiateResponse.SystemTime rsp) (NegotiateResponse.ServerStartTime rsp)
           token (NegotiateResponse.Contexts rsp))) None w
  end.

(** The connection's parameters, from the request. *)
Definition set_params (required : bool) (mode caps dialect : Z) (c : conn.t) : conn.t :=
  conn.set_sequenceWindow 1
    (conn.set_maxWriteSize serverMaxWriteSize
       (conn.set_maxReadSize serverMaxReadSize
          (conn.set_maxTransactSize serverMaxTransactSize
             (conn.set_dialect dialect
                (conn.set_capabilities (Z.land serverCapabilities caps)
                   (conn.set_requireSigning
                      (required || has mode SMB2_NEGOTIATE_SIGNING_REQUIRED) c)))))).

(** ServerNegotiator.negotiate.  After an error [Run] returns and the
    connection is closed: what the contexts had changed in it is dropped. *)
Definition neg_negotiate (rd : random) (pkt : slice) (w : world) : handled :=
  let! smb1 := PacketCodec.IsSmb1 pkt in
  if smb1 then
    let w := set_neg (ServerNegotiator.set_dialect SMB2 (w_neg w)) w in
    match makeResponse rd (w_neg w) (w_conn w) with
    | None => Panic
    | Some rsp => send rd (negotiate_packet rsp) None w
    end
  else
  try! r := accept SMB2_NEGOTIATE pkt else w in
  let! inv := NegotiateRequestDecoder.IsInvalid r in
  if inv then Ok (w, Some (InvalidResponseError "broken negotiate response format")) else
  let! dialects := NegotiateRequestDecoder.Dialects r in
  let dialect := choose_dialect dialects in
  let w := set_neg (ServerNegotiator.set_dialect dialect (w_neg w)) w in
  if dialect =? UnknownSMB then Ok (w, Some (InvalidResponseError "unexpected dialect returned")) else
  let! mode := NegotiateRequestDecoder.SecurityMode r in
  let! caps := NegotiateRequestDecoder.Capabilities r in
  let c := set_params (ServerNegotiator.RequireMessageSigning (w_neg w)) mode caps dialect (w_conn w) in
  let! sp := spnegoServer.newSpnegoServer (w_auths w) [0%nat] in
  let w := set_neg (ServerNegotiator.set_spnego sp (w_neg w)) (set_conn c w) in
  let! token := match spnegoServer.initSecContext sp with
                | Ok t => Ok t | Err _ => Ok [] | Panic => Panic
                end in
  if negb (dialect =? SMB311) then answer_negotiate rd pkt token w else
  let! list := NegotiateRequestDecoder.NegotiateContextList r in
  let! count := NegotiateRequestDecoder.NegotiateContextCount r in
  try! c := neg_contexts (Z.to_nat count) pkt list (w_conn w) else w in
  answer_negotiate rd pkt token (set_conn c w).

(** Back to the start when a session was in use. *)
Definition forget_session (c : conn.t) : conn.t :=
  conn.set_serverState STATE_NEGOTIATE (conn.resetSession (conn.set_session None c)).

(** conn.negotiate *)
Definition negotiate (rd : random) (pkt : slice) (w : world) : handled :=
  let c := w_conn w in
  let c := if negb (bool_decide (conn.serverState c = STATE_NEGOTIATE)) && conn.useSession c
           then forget_session c else c in
  neg_negotiate rd pkt (set_conn c w).

(** ** SESSION_SETUP *)

Definition spnego (w : world) : outcome spnegoServer.t :=
  session.deref (ServerNegotiator.Spnego (w_neg w)).

Definition sessionServerSetup (rd : random) (pkt : slice) (w : world) : handled :=
  try! res := accept SMB2_SESSION_SETUP pkt else w in
  let w := set_conn (calcPreauthHash sha512 (s_bytes pkt) (w_conn w)) w in
  let! inv := SessionSetupRequestDecoder.IsInvalid res in
  if inv then Ok (w, Some (InvalidRequestError "broken session setup request format")) else
  let! sp := spnego w in
  let! tok := SessionSetupRequestDecoder.SecurityBuffer res in
  let '(r, sp, auths) := spnegoServer.challenge (s_bytes tok) sp (w_auths w) in
  let w := set_auths auths (set_neg (ServerNegotiator.set_spnego sp (w_neg w)) w) in
  match r with
  | Panic => Panic
  | Err _ => Ok (w, Some (InvalidRequestError "challenge"))
  | Ok outputToken =>
      let! credit := PacketCodec.CreditRequest pkt in
      let! msgid := PacketCodec.MessageId pkt in
      let hdr := PacketHeader.mk 0 0 STATUS_MORE_PROCESSING_REQUIRED 0 credit 1 0 msgid 0 0
                   (rd_int64 rd) in
      let w := set_conn (conn.set_serverState STATE_SESSION_SETUP_CHALLENGE (w_conn w)) w in
      send rd (setup_packet (SessionSetupResponse.mk hdr 0 outputToken)) None w
  end.

(** An AES-CCM cipher for a key. *)
Definition ccm_for (key : bytes) : outcome cipher_AEAD :=
  let! ciph := aes_NewCipher key in
  let! x := ccm.NewCCMWithNonceAndTagSizes ciph 11 16 in
  Ok (ccm.aead x).
Definition gcm_for (key : bytes) : outcome cipher_AEAD :=
  let! ciph := aes_NewCipher key in NewGCMWithNonceSize ciph 12.
(** [cmac.New] on a fresh AES cipher. *)
Definition cmac_for (key : bytes) : outcome hash_obj :=
  let! ciph := aes_NewCipher key in
  let! d := cmac.New ciph in
  Ok (mkHashObj cmac.t (cmac.hash ciph) d).

(** The signer, the ciphers and the hash value of a session that is neither
    guest nor anonymous. *)
Definition session_keys (c : conn.t) (key : bytes) (s : session.t) : outcome session.t :=
  let kdf' := kdf hmac_sha256 key in
  let d := conn.dialect c in
  let signed h enc dec := session.mk (session.sessionFlags s) (session.sessionId s)
                            (session.preauthIntegrityHashValue s) (Some h) (Some h) enc dec in
  if (d =? SMB202) || (d =? SMB210) then Ok (signed (hmac_New key) None None)
  else if (d =? SMB300) || (d =? SMB302) then
    let! h := cmac_for (kdf' (lit "SMB2AESCMAC" ++ [0]) (lit "SmbSign" ++ [0])) in
    let! e := ccm_for (kdf' (lit "SMB2AESCCM" ++ [0]) (lit "ServerIn " ++ [0])) in
    let! dd := ccm_for (kdf' (lit "SMB2AESCCM" ++ [0]) (lit "ServerOut" ++ [0])) in
    Ok (signed h (Some e) (Some dd))
  else if d =? SMB311 then
    let pre := conn.preauthIntegrityHashValue c in
    let! h := cmac_for (kdf' (lit "SMBSigningKey" ++ [0]) pre) in
    let ek := kdf' (lit "SMBC2CCipherKey" ++ [0]) pre in
    let dk := kdf' (lit "SMBS2SCipherKey" ++ [0]) pre in
    let! ed :=
      if conn.cipherId c =? AES128CCM then
        let! e := ccm_for ek in let! d := ccm_for dk in Ok (Some e, Some d)
      else if conn.cipherId c =? AES128GCM then
        let! e := gcm_for ek in let! d := gcm_for dk in Ok (Some e, Some d)
      else Ok (None, None) in
    let '(e, d) := ed in
    Ok (session.mk (session.sessionFlags s) (session.sessionId s) pre (Some h) (Some h) e d)
  else Ok s.

Definition sessionServerSetupChallenge (rd : random) (pkt : slice) (w : world) : handled :=
  try! res := accept SMB2_SESSION_SETUP pkt else w in
  let! inv := SessionSetupRequestDecoder.IsInvalid res in
  if inv then Ok (w, Some (InvalidResponseError "broken session setup request format")) else
  let w := set_conn (calcPreauthHash sha512 (s_bytes pkt) (w_conn w)) w in
  let! sp := spnego w in
  let! tok := SessionSetupRequestDecoder.SecurityBuffer res in
  let '(r, sp, auths) := spnegoServer.authenticate (s_bytes tok) sp (w_auths w) in
  let w := set_auths auths (set_neg (ServerNegotiator.set_spnego sp (w_neg w)) w) in
  match r with
  | Panic => Panic
  | Err _ =>
      let! hdr := PrepareResponse PacketHeader.zero pkt STATUS_ACCESS_DENIED in
      let! r := send rd (error_packet (ErrorResponse.mk hdr NoErrorData)) None w in
      let '(w, _) := r in
      Ok (w, Some (InvalidRequestError "authenticate"))
  | Ok (outputToken, user) =>
      let flags := if cf_allowGuest cfg then SMB2_SESSION_FLAG_IS_GUEST else 0 in
      let! sid := PacketCodec.SessionId pkt in
      let s := session.mk flags sid (zeros 64) None None None None in
      let! credit := PacketCodec.CreditRequest pkt in
      let! msgid := PacketCodec.MessageId pkt in
      let hdr := PacketHeader.set_SessionId sid (reply_hdr credit msgid) in
      match (if session.keyed s
             then let! key := spnegoServer.sessionKey sp auths in session_keys (w_conn w) key s
             else Ok s) with
      | Panic => Panic
      | Err _ => Ok (w, Some (InternalError "cipher"))
      | Ok s =>
          let c := conn.set_serverState STATE_SESSION_ACTIVE (conn.registerSession s (w_conn w)) in
          let! r := send rd (setup_packet (SessionSetupResponse.mk hdr flags outputToken)) None
                      (set_conn c w) in
          let '(w, e) := r in
          match e with
          | None => Ok (set_conn (conn.enableSession (w_conn w)) w, None)
          | Some e => Ok (w, Some e)
          end
      end
  end.

Definition sessionSetup (rd : random) (pkt : slice) (w : world) : handled :=
  let c := if conn.useSession (w_conn w) then forget_session (w_conn w) else w_conn w in
  let w := set_conn c w in
  match conn.serverState c with
  | STATE_NEGOTIATE => sessionServerSetup rd pkt w
  | STATE_SESSION_SETUP | STATE_SESSION_SETUP_CHALLENGE => sessionServerSetupChallenge rd pkt w
  | STATE_SESSION_ACTIVE => Ok (w, Some (InvalidRequestError "wrong connction state"))
  end.

(** ** TREE_CONNECT and TREE_DISCONNECT *)

Definition pipeAccess : Z :=
  foldr Z.lor 0 [SYNCHRONIZE; WRITE_OWNER; WRITE_DAC; READ_CONTROL; DELETE; FILE_READ_ATTRIBUTES;
    FILE_WRITE_ATTRIBUTES; FILE_EXECUTE; FILE_READ_EA; FILE_WRITE_EA; FILE_READ_DATA;
    FILE_WRITE_DATA; FILE_DELETE_CHILD].
Definition diskAccess : Z :=
  foldr Z.lor 0 [SYNCHRONIZE; WRITE_OWNER; WRITE_DAC; READ_CONTROL; DELETE; FILE_READ_ATTRIBUTES;
    FILE_EXECUTE; FILE_READ_EA; FILE_READ_DATA].

(** The tree filed under [path], with one more reference, or a new one;
    [fst] is the TreeId the response was given by hand. *)
Definition enter_tree (id : Z) (path : gostring) (ops : treeOps) (c : conn.t)
  : outcome (Z * treeConn.t * conn.t) :=
  match conn.treeMapByName c !! path with
  | Some p =>
      match conn.trees c !! p with
      | None => Panic
      | Some tc =>
          let tc' := treeConn.set_refCount (treeConn.refCount tc + 1) tc in
          Ok (treeConn.treeId tc, tc', conn.set_trees (<[p := tc']> (conn.trees c)) c)
      end
  | None =>
      let tc := treeConn.mk (conn.session c) id 0 path 1 ops in
      let p := fresh (dom (conn.trees c)) in
      Ok (0, tc, conn.set_treeMapById (<[id := p]> (conn.treeMapById c))
                   (conn.set_treeMapByName (<[path := p]> (conn.treeMapByName c))
                      (conn.set_trees (<[p := tc]> (conn.trees c)) c)))
  end.

Definition treeConnect (rd : random) (pkt : slice) (w : world) : handled :=
  try! res := accept SMB2_TREE_CONNECT pkt else w in
  let! inv := TreeConnectRequestDecoder.IsInvalid res in
  if inv then Ok (w, Some (InvalidResponseError "broken tree connect format")) else
  let! rpath := TreeConnectRequestDecoder.Path res in
  let! credit := PacketCodec.CreditRequest pkt in
  let! msgid := PacketCodec.MessageId pkt in
  let hdr := reply_hdr credit msgid in
  if HasSuffix rpath ipc_path then
    let! r := enter_tree (rd_int32 rd) ipc_path (ipcTree (cf_origShares cfg)) (w_conn w) in
    let '(tid, tc, c) := r in
    send rd (tree_connect_packet (TreeConnectResponse.mk (PacketHeader.set_TreeId tid hdr)
               SMB2_SHARE_TYPE_PIPE 0 0 pipeAccess)) (Some tc) (set_conn c w)
  else
    let path := default [] (last (Split rpath backslash)) in
    let fs := match cf_shares cfg !! ToUpper path with
              | Some fs => Some fs
              | None => cf_shares cfg !! (ToUpper path ++ [dollar])
              end in
    match fs with
    | None =>
        send rd (tree_connect_packet (TreeConnectResponse.mk
          (PacketHeader.mk 0 0 STATUS_BAD_NETWORK_NAME 0 credit 1 0 msgid 0 0 0) 0 0 0 0)) None w
    | Some fs =>
        let! r := enter_tree (rd_int32 rd) path (fileTree fs) (w_conn w) in
        let '(tid, tc, c) := r in
        send rd (tree_connect_packet (TreeConnectResponse.mk (PacketHeader.set_TreeId tid hdr)
                   SMB2_SHARE_TYPE_DISK 0 0 diskAccess)) (Some tc) (set_conn c w)
    end.

(** The tree with one reference less, and the connection without it when
    that was the last. *)
Definition leave_tree (id : Z) (c : conn.t) : outcome (option treeConn.t * conn.t) :=
  match conn.treeMapById c !! id with
  | None => Ok (None, c)
  | Some p =>
      match conn.trees c !! p with
      | None => Panic
      | Some tc =>
          let tc := treeConn.set_refCount (treeConn.refCount tc - 1) tc in
          let c := conn.set_trees (<[p := tc]> (conn.trees c)) c in
          Ok (Some tc,
              if treeConn.refCount tc =? 0
              then conn.set_treeMapById (delete (treeConn.treeId tc) (conn.treeMapById c))
                     (conn.set_treeMapByName (delete (treeConn.path tc) (conn.treeMapByName c)) c)
              else c)
      end
  end.

Definition treeDisconnect (rd : random) (pkt : slice) (w : world) : handled :=
  let! tid := PacketCodec.TreeId pkt in
  let! r := leave_tree tid (w_conn w) in
  let '(tc, c) := r in
  let! credit := PacketCodec.CreditRequest pkt in
  let! msgid := PacketCodec.MessageId pkt in
  send rd (tree_disconnect_packet (reply_hdr credit msgid)) tc (set_conn c w).

(** ** Run *)

(** The operations of a tree, by command: they work on the state and on the
    compound context of the request. *)
Context (tree_op : Z -> nat -> random -> slice -> option compoundContext.t -> world ->
  outcome (world * option compoundContext.t * option goerr)).

Definition tree_commands : list Z :=
  [SMB2_CREATE; SMB2_CLOSE; SMB2_FLUSH; SMB2_READ; SMB2_WRITE; SMB2_LOCK; SMB2_IOCTL;
   SMB2_QUERY_DIRECTORY; SMB2_CHANGE_NOTIFY; SMB2_QUERY_INFO; SMB2_SET_INFO; SMB2_OPLOCK_BREAK].

Definition without_ctx (cc : option compoundContext.t) (r : handled)
  : outcome (world * option compoundContext.t * option goerr) :=
  let! r := r in let '(w, e) := r in Ok (w, cc, e).

(** One turn of the loop.  A command the server does not know is ignored. *)
Definition Run_step (rd : random) (pkt : slice) (reqSession : option nat)
    (cc : option compoundContext.t) (w : world)
  : outcome (world * option compoundContext.t * option goerr) :=
  let w := match reqSession with
           | Some p => set_conn (conn.set_session (Some p) (w_conn w)) w
           | None => w
           end in
  let! cmd := PacketCodec.Command pkt in
  let! _ := PacketCodec.MessageId pkt in
  let! _ := PacketCodec.SessionId pkt in
  let! tid := PacketCodec.TreeId pkt in
  let! _ := PacketCodec.Flags pkt in
  if (cmd =? SMB2_NEGOTIATE) || (cmd =? SMB_COM_NEGOTIATE) then without_ctx cc (negotiate rd pkt w)
  else if cmd =? SMB2_SESSION_SETUP then without_ctx cc (sessionSetup rd pkt w)
  else if cmd =? SMB2_LOGOFF then without_ctx cc (logoff rd pkt w)
  else if cmd =? SMB2_TREE_CONNECT then without_ctx cc (treeConnect rd pkt w)
  else if cmd =? SMB2_TREE_DISCONNECT then without_ctx cc (treeDisconnect rd pkt w)
  else if cmd =? SMB2_ECHO then without_ctx cc (echo rd pkt w)
  else if cmd =? SMB2_CANCEL then Ok (w, cc, None)
  else
    match conn.treeMapById (w_conn w) !! tid with
    | None => Ok (w, cc, Some (InvalidRequestError "tree doesn't exist"))
    | Some p =>
        let st := match cc with Some cc => compoundContext.lastStatus cc | None => 0 end in
        if negb (st =? 0) then
          let! hdr := PrepareResponse PacketHeader.zero pkt st in
          let! r := sendPacket sha512 (rd_nonce rd) (error_packet (ErrorResponse.mk hdr NoErrorData))
                      (conn.trees (w_conn w) !! p) cc (w_conn w) in
          let '(c, cc, _) := r in
          Ok (set_conn c w, cc, None)
        else if bool_decide (cmd ∈ tree_commands) then tree_op cmd p rd pkt cc w
        else Ok (w, cc, None)
    end.

End handlers.

(** ** The responses keep the promise of their encoders *)

Lemma logoff_encodes h : encodes (logoff_packet h).
Proof.
  intros hdr. exists SMB2_LOGOFF.
  destruct (message_encodes SMB2_LOGOFF 68 (put16 0 4) (splice 0 (le_enc 2 4) (zeros 4)) hdr)
    as (head & He & Hh); [lia|reflexivity|].
  by exists head, (splice 0 (le_enc 2 4) (zeros 4)).
Qed.

Lemma tree_disconnect_encodes h : encodes (tree_disconnect_packet h).
Proof.
  intros hdr. exists SMB2_TREE_DISCONNECT.
  destruct (message_encodes SMB2_TREE_DISCONNECT 68 (put16 0 4) (splice 0 (le_enc 2 4) (zeros 4)) hdr)
    as (head & He & Hh); [lia|reflexivity|].
  by exists head, (splice 0 (le_enc 2 4) (zeros 4)).
Qed.

Lemma tree_connect_encodes r : encodes (tree_connect_packet r).
Proof.
  intros hdr. exists SMB2_TREE_CONNECT. cbn [tree_connect_packet pk_encode pk_size].
  unfold TreeConnectResponse.Encode, TreeConnectResponse.Size.
  cbn [TreeConnectResponse.hdr TreeConnectResponse.ShareType TreeConnectResponse.ShareFlags
       TreeConnectResponse.Capabilities TreeConnectResponse.MaximalAccess].
  edestruct message_encodes as (head & He & Hh); [| |exists head; eexists; split_and!; [exact He|exact Hh|]].
  - lia.
  - unfold eseq. change (64 + 16 - 64) with 16. repeat put_step. reflexivity.
  - len_norm. by vm_compute.
Qed.

(** ** What sending leaves alone *)

(** A session without the state of its signer, which moves on with every
    packet that is signed. *)
Definition unsigned (s : session.t) : session.t :=
  session.mk (session.sessionFlags s) (session.sessionId s) (session.preauthIntegrityHashValue s)
    None (session.verifier s) (session.encrypter s) (session.decrypter s).

(** The tables of the connection: everything that sending a packet does not
    touch. *)
Definition same_tables (c c' : conn.t) : Prop :=
  conn.session c' = conn.session c /\ conn.sessions c' = conn.sessions c
  /\ unsigned <$> conn.heap c' = unsigned <$> conn.heap c /\ conn.dialect c' = conn.dialect c
  /\ conn.useSession c' = conn.useSession c /\ conn.serverState c' = conn.serverState c
  /\ conn.trees c' = conn.trees c /\ conn.treeMapByName c' = conn.treeMapByName c
  /\ conn.treeMapById c' = conn.treeMapById c.

#[export] Instance same_tables_preorder : PreOrder same_tables.
Proof.
  split; [by repeat split|]. intros a b c H1 H2. unfold same_tables in *.
  destruct_and! H1. destruct_and! H2. split_and!; congruence.
Qed.

Lemma fill_header_tables req tc c hdr s c' :
  fill_header req tc c = Ok (hdr, s, c') -> same_tables c c' /\ conn.heap c' = conn.heap c.
Proof.
  unfold fill_header. destruct (negb _ && negb _); intros [= _ _ <-]; by repeat split.
Qed.

Lemma heap_update_tables ptr s s0 c :
  conn.session c = Some ptr -> conn.heap c !! ptr = Some s0 -> unsigned s = unsigned s0 ->
  same_tables c (conn.set_heap (<[ptr := s]> (conn.heap c)) c).
Proof.
  intros Hp Hl Hs. repeat split. cbn [conn.heap conn.set_heap].
  rewrite fmap_insert, Hs, insert_id; [done|]. by rewrite lookup_fmap, Hl.
Qed.

Lemma sign_unsigned s pkt q s' : session.sign s pkt = Ok (q, s') -> unsigned s' = unsigned s.
Proof.
  unfold session.sign. destruct (PacketCodec.Flags _) as [f|?|]; [|done..]. cbn [obind].
  destruct (PacketCodec.SetFlags _ _) as [p|?|]; [|done..]. cbn [obind].
  destruct (session.deref _) as [h|?|]; [|done..]. cbn [obind]. destruct (digest_of h p) as [d h'].
  destruct (PacketCodec.SetSignature d p) as [r|?|]; [|done..]. cbn [obind]. by intros [= _ <-].
Qed.

Lemma encodePacket_tables nonce req tc c pkt hdr c' :
  encodePacket nonce req tc c = Ok (pkt, hdr, c') -> same_tables c c'.
Proof.
  unfold encodePacket. destruct (fill_header req tc c) as [[[h s] c1]|e|] eqn:Hf; [|done..].
  cbn [obind]. apply fill_header_tables in Hf as Hf'. destruct Hf' as [Ht Hh].
  destruct (pk_encode req h _) as [p|e|]; [|done..]. cbn [obind].
  destruct s as [s|]; [|by intros [= _ _ <-]].
  destruct (is_kind _ _); [by intros [= _ _ <-]|]. destruct (_ || _).
  { destruct (session.encrypt _ _ _) as [q|e|]; [|done..]. cbn [obind]. by intros [= _ _ <-]. }
  destruct (session.keyed s); [|by intros [= _ _ <-]].
  destruct (session.sign s p) as [[q s']|e|] eqn:Hsig; [|done..]. cbn [obind]. intros [= _ _ <-].
  destruct (conn.session c1) as [ptr|] eqn:Hp; [|done].
  etransitivity; [exact Ht|].
  assert (Hs : conn.heap c1 !! ptr = Some s).
  { revert Hf. unfold fill_header. destruct (negb _ && negb _); intros [= _ Hs <-];
      cbn [conn.session conn.heap conn.set_account conn.set_sequenceWindow] in *;
      rewrite Hp in Hs; (destruct (_ && _); [done|]); eauto. }
  eapply heap_update_tables; [done|exact Hs|by eapply sign_unsigned].
Qed.

Lemma sendPacket_tables sha nonce req tc cc c c' cc' e :
  sendPacket sha nonce req tc cc c = Ok (c', cc', e) -> same_tables c c'.
Proof.
  unfold sendPacket. destruct (encodePacket _ _ _ _) as [[[p h] c1]|e'|] eqn:He;
    [|by intros [= <- _ _]|done].
  apply encodePacket_tables in He. set (r := match cc with Some _ => _ | None => _ end).
  destruct r as [[pkt' cc1]|e'|]; [|done..]. cbn [obind].
  destruct pkt' as [q|]; [|by intros [= <- _ _]].
  set (c2 := match conn.serverState c1 with STATE_SESSION_ACTIVE => _ | _ => _ end).
  assert (H2 : same_tables c c2).
  { etransitivity; [exact He|]. unfold c2, calcPreauthHash.
    destruct (conn.serverState c1); try (destruct (_ =? _); [destruct (_ =? _)|]); by repeat split. }
  destruct (direct_Write q); [|by intros [= <- _ _]|done].
  intros [= <- _ _]. etransitivity; [exact H2|]. by repeat split.
Qed.

Section facts.
Context `{GoLib, Ber} (cfg : server_config).

Lemma send_tables rd req tc w w' e :
  send rd req tc w = Ok (w', e) ->
  same_tables (w_conn w) (w_conn w') /\ w_neg w' = w_neg w /\ w_auths w' = w_auths w.
Proof.
  unfold send. destruct (sendPacket _ _ _ _ _ _) as [[[c cc] e']|e'|] eqn:Hs; [|done..].
  cbn [obind]. intros [= <- _]. apply sendPacket_tables in Hs. done.
Qed.

End facts.

(** ** Trees *)

(** The two maps agree: a tree is filed under its id and under its path,
    while it has references. *)
Definition trees_ok (c : conn.t) : Prop :=
  (forall id p, conn.treeMapById c !! id = Some p ->
     exists tc, conn.trees c !! p = Some tc /\ treeConn.treeId tc = id
       /\ 0 < treeConn.refCount tc /\ conn.treeMapByName c !! treeConn.path tc = Some p)
  /\ (forall n p, conn.treeMapByName c !! n = Some p ->
     exists tc, conn.trees c !! p = Some tc /\ treeConn.path tc = n
       /\ conn.treeMapById c !! treeConn.treeId tc = Some p).

(** What stays true of the two maps whatever ids the trees get: an id leads
    to a tree with that id, which has references and is filed under its path,
    and a path to a tree with that path. *)
Definition trees_wf (c : conn.t) : Prop :=
  (forall id p, conn.treeMapById c !! id = Some p ->
     exists tc, conn.trees c !! p = Some tc /\ treeConn.treeId tc = id
       /\ 0 < treeConn.refCount tc /\ conn.treeMapByName c !! treeConn.path tc = Some p)
  /\ (forall n p, conn.treeMapByName c !! n = Some p ->
     exists tc, conn.trees c !! p = Some tc /\ treeConn.path tc = n).

Lemma same_tables_trees c c' : same_tables c c' -> trees_ok c -> trees_ok c'.
Proof. intros (_&_&_&_&_&_&Ht&Hn&Hi). unfold trees_ok. by rewrite Ht, Hn, Hi. Qed.

Lemma enter_tree_spec id path ops c tid tc c' :
  trees_ok c -> (conn.treeMapById c !! id = None) ->
  enter_tree id path ops c = Ok (tid, tc, c') ->
  trees_ok c' /\ treeConn.path tc = path
  /\ (exists p, conn.treeMapById c' !! treeConn.treeId tc = Some p /\ conn.trees c' !! p = Some tc)
  /\ match conn.treeMapByName c !! path with
     | Some p => conn.treeMapById c' = conn.treeMapById c /\ conn.treeMapByName c' = conn.treeMapByName c
         /\ exists tc0, conn.trees c !! p = Some tc0 /\ treeConn.treeId tc0 = treeConn.treeId tc
              /\ treeConn.refCount tc = treeConn.refCount tc0 + 1
     | None => treeConn.treeId tc = id /\ treeConn.refCount tc = 1
         /\ treeConn.session tc = conn.session c /\ treeConn.ops tc = ops
     end.
Proof.
  intros [Hid Hnm] Hfresh. unfold enter_tree.
  destruct (conn.treeMapByName c !! path) as [p|] eqn:Hp.
  - destruct (Hnm _ _ Hp) as (tc0 & Ht & Hpath & Hi). rewrite Ht. intros [= <- <- <-].
    cbn [treeConn.treeId treeConn.set_refCount treeConn.path treeConn.refCount
         conn.treeMapById conn.treeMapByName conn.trees conn.set_trees].
    split; [split|split; [done|split]].
    + intros i q Hq. destruct (Hid i q Hq) as (t & Hq1 & Hq2 & Hq3 & Hq4).
      destruct (decide (q = p)) as [->|].
      * exists (treeConn.set_refCount (treeConn.refCount tc0 + 1) tc0).
        cbn [conn.trees conn.set_trees]. rewrite lookup_insert_eq.
        assert (t = tc0) as -> by congruence.
        split_and!; [done|done|cbn [treeConn.refCount treeConn.set_refCount]; lia|done].
      * exists t. cbn [conn.trees conn.set_trees]. by rewrite lookup_insert_ne.
    + intros n q Hq. destruct (Hnm n q Hq) as (t & Hq1 & Hq2 & Hq3).
      destruct (decide (q = p)) as [->|].
      * exists (treeConn.set_refCount (treeConn.refCount tc0 + 1) tc0).
        cbn [conn.trees conn.set_trees]. rewrite lookup_insert_eq.
        assert (t = tc0) as -> by congruence. done.
      * exists t. cbn [conn.trees conn.set_trees]. by rewrite lookup_insert_ne.
    + exists p. by rewrite lookup_insert_eq.
    + split; [done|]. split; [done|]. by exists tc0.
  - set (p := fresh (dom (conn.trees c))). set (t0 := treeConn.mk _ _ _ _ _ _).
    assert (Hp' : conn.trees c !! p = None) by (apply not_elem_of_dom, is_fresh).
    intros [= <- <- <-].
    cbn [conn.treeMapById conn.treeMapByName conn.trees conn.set_trees conn.set_treeMapByName
         conn.set_treeMapById].
    split; [split|split; [done|split; [|done]]].
    + intros i q. cbn [conn.treeMapById conn.treeMapByName conn.trees conn.set_trees
        conn.set_treeMapByName conn.set_treeMapById].
      destruct (decide (i = id)) as [->|Hne].
      * rewrite lookup_insert_eq. intros [= <-]. exists t0. by rewrite !lookup_insert_eq.
      * rewrite lookup_insert_ne by done. intros Hq.
        destruct (Hid i q Hq) as (t & Hq1 & Hq2 & Hq3 & Hq4). exists t.
        rewrite !lookup_insert_ne; [done|congruence|congruence].
    + intros n q. cbn [conn.treeMapById conn.treeMapByName conn.trees conn.set_trees
        conn.set_treeMapByName conn.set_treeMapById].
      destruct (decide (n = path)) as [->|Hne].
      * rewrite lookup_insert_eq. intros [= <-]. exists t0. by rewrite !lookup_insert_eq.
      * rewrite lookup_insert_ne by done. intros Hq.
        destruct (Hnm n q Hq) as (t & Hq1 & Hq2 & Hq3). exists t.
        rewrite !lookup_insert_ne; [done|congruence|congruence].
    + exists p. by rewrite !lookup_insert_eq.
Qed.

Lemma leave_tree_ok id c tc c' :
  trees_ok c -> leave_tree id c = Ok (tc, c') -> trees_ok c'.
Proof.
  intros [Hid Hnm]. unfold leave_tree. destruct (conn.treeMapById c !! id) as [p|] eqn:Hp;
    [|by intros [= _ <-]].
  destruct (Hid _ _ Hp) as (tc0 & Ht & Hti & Hrc & Hbn). rewrite Ht.
  cbn [treeConn.refCount treeConn.set_refCount treeConn.treeId treeConn.path]. intros [= _ <-].
  assert (Hinj : forall i q, i <> id -> conn.treeMapById c !! i = Some q -> q <> p).
  { intros i q Hi Hq ->. destruct (Hid i p Hq) as (t & ? & ? & _). congruence. }
  assert (Hinj' : forall n q, n <> treeConn.path tc0 -> conn.treeMapByName c !! n = Some q -> q <> p).
  { intros n q Hi Hq ->. destruct (Hnm n p Hq) as (t & ? & ? & _). congruence. }
  destruct (Z.eqb_spec (treeConn.refCount tc0 - 1) 0) as [Hz|Hz]; split.
  - intros i q. cbn. intros Hq. apply lookup_delete_Some in Hq as [Hne Hq]. rewrite Hti in Hne.
    destruct (Hid i q Hq) as (t & Hq1 & Hq2 & Hq3 & Hq4). exists t.
    assert (q <> p) by (by eapply Hinj).
    rewrite lookup_insert_ne by done. split_and!; try done.
    rewrite lookup_delete_ne; [done|]. intros E. rewrite <- E in Hq4. congruence.
  - intros n q. cbn. intros Hq. apply lookup_delete_Some in Hq as [Hne Hq].
    destruct (Hnm n q Hq) as (t & Hq1 & Hq2 & Hq3). exists t.
    assert (q <> p) by (by eapply Hinj').
    rewrite lookup_insert_ne by done. split_and!; try done.
    rewrite lookup_delete_ne; [done|]. intros E. rewrite <- E, Hti in Hq3. congruence.
  - intros i q. cbn. intros Hq. destruct (Hid i q Hq) as (t & Hq1 & Hq2 & Hq3 & Hq4).
    destruct (decide (q = p)) as [->|].
    + eexists. rewrite lookup_insert_eq. split; [done|]. assert (t = tc0) as -> by congruence.
      cbn. split_and!; [done|lia|done].
    + exists t. by rewrite lookup_insert_ne.
  - intros n q. cbn. intros Hq. destruct (Hnm n q Hq) as (t & Hq1 & Hq2 & Hq3).
    destruct (decide (q = p)) as [->|].
    + eexists. rewrite lookup_insert_eq. split; [done|]. by assert (t = tc0) as -> by congruence.
    + exists t. by rewrite lookup_insert_ne.
Qed.

Lemma enter_tree_wf id path ops c tid tc c' :
  enter_tree id path ops c = Ok (tid, tc, c') -> trees_wf c -> trees_wf c'.
Proof.
  unfold enter_tree. intros He [Hid Hnm].
  destruct (conn.treeMapByName c !! path) as [p|] eqn:Hp.
  - destruct (Hnm _ _ Hp) as (tc0 & Ht & Hpath). rewrite Ht in He. injection He as _ _ <-. split.
    + intros i q Hq. destruct (Hid i q Hq) as (t & Hq1 & Hq2 & Hq3 & Hq4). cbn.
      destruct (decide (q = p)) as [->|]; [|exists t; by rewrite lookup_insert_ne].
      eexists. rewrite lookup_insert_eq. split; [done|]. assert (t = tc0) as -> by congruence.
      cbn. split_and!; [done|lia|done].
    + intros n q Hq. destruct (Hnm n q Hq) as (t & Hq1 & Hq2). cbn.
      destruct (decide (q = p)) as [->|]; [|exists t; by rewrite lookup_insert_ne].
      eexists. rewrite lookup_insert_eq. split; [done|]. by assert (t = tc0) as -> by congruence.
  - set (p := fresh (dom (conn.trees c))) in *.
    assert (Hp' : conn.trees c !! p = None) by (apply not_elem_of_dom, is_fresh).
    injection He as _ _ <-. split.
    + intros i q. cbn. destruct (decide (i = id)) as [->|Hne].
      * rewrite lookup_insert_eq. intros [= <-]. eexists. rewrite lookup_insert_eq. split; [done|].
        cbn. by rewrite lookup_insert_eq.
      * rewrite lookup_insert_ne by done. intros Hq.
        destruct (Hid i q Hq) as (t & Hq1 & Hq2 & Hq3 & Hq4). exists t.
        rewrite !lookup_insert_ne by congruence. done.
    + intros n q. cbn. destruct (decide (n = path)) as [->|Hne].
      * rewrite lookup_insert_eq. intros [= <-]. eexists. by rewrite lookup_insert_eq.
      * rewrite lookup_insert_ne by done. intros Hq. destruct (Hnm n q Hq) as (t & Hq1 & Hq2).
        exists t. by rewrite lookup_insert_ne by congruence.
Qed.

Lemma leave_tree_wf id c tc c' :
  leave_tree id c = Ok (tc, c') -> trees_wf c -> trees_wf c'.
Proof.
  unfold leave_tree. intros He [Hid Hnm]. destruct (conn.treeMapById c !! id) as [p|] eqn:Hp;
    [|by injection He as _ <-].
  destruct (Hid _ _ Hp) as (tc0 & Ht & Hti & Hrc & Hbn). rewrite Ht in He.
  cbn [treeConn.refCount treeConn.set_refCount treeConn.treeId treeConn.path] in He. injection He as _ <-.
  assert (Hpath : forall q t, conn.trees c !! q = Some t ->
    exists t', <[p := treeConn.set_refCount (treeConn.refCount tc0 - 1) tc0]> (conn.trees c) !! q = Some t'
      /\ treeConn.path t' = treeConn.path t /\ treeConn.treeId t' = treeConn.treeId t
      /\ (q <> p -> t' = t)).
  { intros q t Hq. destruct (decide (q = p)) as [->|]; [|exists t; by rewrite lookup_insert_ne].
    eexists. rewrite lookup_insert_eq. split; [done|]. by assert (t = tc0) as -> by congruence. }
  destruct (Z.eqb_spec (treeConn.refCount tc0 - 1) 0) as [Hz|Hz]; split; cbn.
  - intros i q Hq. apply lookup_delete_Some in Hq as [Hne Hq]. rewrite Hti in Hne.
    destruct (Hid i q Hq) as (t & Hq1 & Hq2 & Hq3 & Hq4).
    assert (q <> p) by congruence. exists t. rewrite lookup_insert_ne by done. split_and!; try done.
    rewrite lookup_delete_ne; [done|]. intros E. rewrite <- E in Hq4. congruence.
  - intros n q Hq. apply lookup_delete_Some in Hq as [Hne Hq]. destruct (Hnm n q Hq) as (t & Hq1 & Hq2).
    destruct (Hpath q t Hq1) as (t' & H1 & H2 & _). exists t'. split; [done|congruence].
  - intros i q Hq. destruct (Hid i q Hq) as (t & Hq1 & Hq2 & Hq3 & Hq4).
    destruct (decide (q = p)) as [->|]; [|exists t; by rewrite lookup_insert_ne].
    eexists. rewrite lookup_insert_eq. split; [done|]. assert (t = tc0) as -> by congruence.
    cbn. split_and!; [done|lia|done].
  - intros n q Hq. destruct (Hnm n q Hq) as (t & Hq1 & Hq2).
    destruct (Hpath q t Hq1) as (t' & H1 & H2 & _). exists t'. split; [done|congruence].
Qed.

(** The id of a new tree is a random number that is not compared with the
    ids in use.  When it is the id of a tree that is connected, the id leads
    to the new tree from then on; the older tree stays under its path, and
    connecting to that path again answers the id, which leads elsewhere. *)
Lemma tree_id_reused id path ops c tid tc c' old p tid' tc' c'' :
  trees_ok c -> conn.treeMapById c !! id = Some p -> conn.treeMapByName c !! path = None ->
  conn.treeMapByName c !! old = Some p ->
  enter_tree id path ops c = Ok (tid, tc, c') -> enter_tree id old ops c' = Ok (tid', tc', c'') ->
  tid' = id /\ treeConn.path tc' = old
  /\ exists q t, conn.treeMapById c'' !! id = Some q /\ conn.trees c'' !! q = Some t /\ treeConn.path t = path.
Proof.
  intros [Hid Hnm] Hi Hp Ho He He'. destruct (Hid _ _ Hi) as (t & Ht & Hti & _ & Hby).
  assert (Hne : old <> path) by congruence. unfold enter_tree in He. rewrite Hp in He.
  set (q := fresh (dom (conn.trees c))) in *.
  assert (Hq : conn.trees c !! q = None) by (apply not_elem_of_dom, is_fresh).
  injection He as _ <- <-. unfold enter_tree in He'. cbn in He'.
  rewrite lookup_insert_ne, Ho, lookup_insert_ne, Ht in He' by congruence. injection He' as <- <- <-.
  split; [done|]. destruct (Hnm _ _ Ho) as (t' & Ht' & Hpath & _). split; [cbn; congruence|].
  eexists q, _. cbn. rewrite lookup_insert_eq, lookup_insert_ne, lookup_insert_eq by congruence. done.
Qed.

(** A tree connect is undone by a tree disconnect.  On consistent maps
    and with an unused tree id, connecting to a path and then disconnecting
    the tree that was returned leaves the two maps as they were, and the
    tree's reference count too: a new tree is gone, a tree that was already
    connected stays. *)
Theorem connect_then_disconnect (id : Z) (path : gostring) (ops : treeOps) (c : conn.t)
    (tid : Z) (tc : treeConn.t) (c1 : conn.t) :
  trees_ok c -> conn.treeMapById c !! id = None ->
  enter_tree id path ops c = Ok (tid, tc, c1) ->
  exists tc' c2, leave_tree (treeConn.treeId tc) c1 = Ok (Some tc', c2)
    /\ conn.treeMapById c2 = conn.treeMapById c /\ conn.treeMapByName c2 = conn.treeMapByName c
    /\ forall p t, conn.trees c !! p = Some t -> conn.trees c2 !! p = Some t.
Proof.
  intros [Hid Hnm] Hfresh. unfold enter_tree.
  destruct (conn.treeMapByName c !! path) as [p|] eqn:Hp.
  - destruct (Hnm _ _ Hp) as (tc0 & Ht & Hpath & Hi). rewrite Ht. intros [= _ <- <-].
    unfold leave_tree. cbn. rewrite Hi, lookup_insert_eq. cbn.
    destruct (Hid _ _ Hi) as (t & Ht' & _ & Hrc & _). assert (t = tc0) as -> by congruence.
    replace (treeConn.refCount tc0 + 1 - 1) with (treeConn.refCount tc0) by lia.
    destruct (Z.eqb_spec (treeConn.refCount tc0) 0); [lia|].
    eexists _, _. split; [done|]. cbn. split_and!; [done..|].
    intros q t Hq. rewrite insert_insert_eq. destruct (decide (q = p)) as [->|].
    + rewrite lookup_insert_eq. rewrite Ht in Hq. injection Hq as <-. by destruct tc0.
    + by rewrite lookup_insert_ne.
  - set (p := fresh (dom (conn.trees c))).
    assert (Hp' : conn.trees c !! p = None) by (apply not_elem_of_dom, is_fresh).
    intros [= _ <- <-]. unfold leave_tree. cbn. rewrite !lookup_insert_eq.
    cbn [treeConn.refCount treeConn.set_refCount]. change (1 - 1 =? 0) with true. cbn. eexists _, _. split; [done|]. cbn. split_and!.
    + by apply delete_insert_id.
    + by apply delete_insert_id.
    + intros q t Hq. rewrite insert_insert_eq. by rewrite lookup_insert_ne by congruence.
Qed.

(** ** What each handler changes *)

(** Follows a handler down the branch it took. *)
Ltac follow H :=
  repeat (cbv beta zeta in H; cbn [obind] in H;
    match type of H with
    | obind ?m _ = Ok _ => destruct m eqn:?; try discriminate H
    | (let '(_, _) := ?m in _) = Ok _ => destruct m eqn:?
    | (match ?m with _ => _ end) = Ok _ => destruct m eqn:?; try discriminate H
    end).

(** Every session of [c'] was one of [c], with the same identity and keys. *)
Definition no_new_session (c c' : conn.t) : Prop :=
  unsigned <$> conn.heap c' ⊆ unsigned <$> conn.heap c.
#[export] Instance no_new_session_refl : Reflexive no_new_session.
Proof. intros c. by unfold no_new_session. Qed.

Lemma no_new_session_lookup c c' p s :
  no_new_session c c' -> conn.heap c' !! p = Some s ->
  exists s0, conn.heap c !! p = Some s0 /\ unsigned s = unsigned s0.
Proof.
  intros Hn Hp. pose proof (lookup_weaken (unsigned <$> conn.heap c') (unsigned <$> conn.heap c) p (unsigned s)) as H.
  rewrite !lookup_fmap, Hp in H. destruct (conn.heap c !! p) as [s0|] eqn:E.
  - exists s0. split; [done|]. specialize (H eq_refl Hn). by apply (inj Some) in H.
  - by specialize (H eq_refl Hn).
Qed.
Definition same_trees (c c' : conn.t) : Prop :=
  conn.trees c' = conn.trees c /\ conn.treeMapByName c' = conn.treeMapByName c
  /\ conn.treeMapById c' = conn.treeMapById c.

Lemma same_tables_parts c c' : same_tables c c' -> no_new_session c c' /\ same_trees c c'.
Proof. intros (_&_&Hh&_&_&_&Ht&Hn&Hi). split; [by unfold no_new_session; rewrite Hh|done]. Qed.

Lemma same_trees_ok c c' : same_trees c c' -> trees_ok c -> trees_ok c'.
Proof. intros (Ht&Hn&Hi). unfold trees_ok. by rewrite Ht, Hn, Hi. Qed.
Lemma same_trees_wf c c' : same_trees c c' -> trees_wf c -> trees_wf c'.
Proof. intros (Ht&Hn&Hi). unfold trees_wf. by rewrite Ht, Hn, Hi. Qed.

Lemma same_trees_trans a b c : same_trees a b -> same_trees b c -> same_trees a c.
Proof. intros (?&?&?) (?&?&?). repeat split; congruence. Qed.

Section facts.
Context `{GoLib, Ber} (cfg : server_config).

Lemma send_parts rd req tc w w' e :
  send rd req tc w = Ok (w', e) ->
  no_new_session (w_conn w) (w_conn w') /\ same_trees (w_conn w) (w_conn w').
Proof. intros Hs. by apply send_tables in Hs as (Hs%same_tables_parts & _). Qed.

Lemma echo_parts rd pkt w w' e :
  echo rd pkt w = Ok (w', e) ->
  no_new_session (w_conn w) (w_conn w') /\ same_trees (w_conn w) (w_conn w').
Proof. unfold echo. intros Hr. follow Hr. by apply send_parts in Hr. Qed.

Lemma logoff_parts rd pkt w w' e :
  logoff rd pkt w = Ok (w', e) ->
  no_new_session (w_conn w) (w_conn w') /\ same_trees (w_conn w) (w_conn w').
Proof. unfold logoff. intros Hr. follow Hr. by apply send_parts in Hr. Qed.

Lemma calcPreauthHash_parts f pkt c :
  conn.heap (calcPreauthHash f pkt c) = conn.heap c /\ same_trees c (calcPreauthHash f pkt c).
Proof. unfold calcPreauthHash. destruct (_ =? _); [destruct (_ =? _)|]; by repeat split. Qed.

Lemma neg_context_parts pkt ctx c c' :
  neg_context cfg pkt ctx c = Ok c' -> conn.heap c' = conn.heap c /\ same_trees c c'.
Proof.
  unfold neg_context. intros Hr. follow Hr; injection Hr as <-; try done.
  - rewrite (proj1 (calcPreauthHash_parts _ _ _)). split; [done|].
    eapply same_trees_trans; [|apply calcPreauthHash_parts]. done.
  - by destruct (a1 : bool).
Qed.

Lemma neg_contexts_parts n pkt list c c' :
  neg_contexts cfg n pkt list c = Ok c' -> conn.heap c' = conn.heap c /\ same_trees c c'.
Proof.
  revert list c. induction n as [|n IH]; intros list c Hr; cbn [neg_contexts] in Hr.
  { injection Hr as <-. done. }
  destruct (neg_context cfg pkt list c) as [c1|e|] eqn:Hc; [|done..]. cbn [obind] in Hr.
  apply neg_context_parts in Hc as [Hh Ht].
  follow Hr.
  apply IH in Hr as [Hh' Ht']. split; [congruence|]. by eapply same_trees_trans.
Qed.

Lemma answer_negotiate_parts rd pkt tok w w' e :
  answer_negotiate cfg rd pkt tok w = Ok (w', e) ->
  no_new_session (w_conn w) (w_conn w') /\ same_trees (w_conn w) (w_conn w').
Proof. unfold answer_negotiate. intros Hr. follow Hr. by apply send_parts in Hr. Qed.

Lemma negotiate_parts rd pkt w w' e :
  negotiate cfg rd pkt w = Ok (w', e) ->
  no_new_session (w_conn w) (w_conn w') /\ same_trees (w_conn w) (w_conn w').
Proof.
  unfold negotiate, neg_negotiate. set (c0 := if negb _ && _ then forget_session _ else _).
  assert (Hc0 : conn.heap c0 = conn.heap (w_conn w) /\ same_trees (w_conn w) c0)
    by (unfold c0; by destruct (_ && _)).
  clearbody c0. destruct Hc0 as [Hh Ht]. unfold no_new_session. intros Hr. rewrite <- Hh.
  assert (Hfin : forall c1, conn.heap c1 = conn.heap c0 -> same_trees c0 c1 ->
    unsigned <$> conn.heap (w_conn w') ⊆ unsigned <$> conn.heap c1 /\ same_trees c1 (w_conn w') ->
    unsigned <$> conn.heap (w_conn w') ⊆ unsigned <$> conn.heap c0 /\ same_trees (w_conn w) (w_conn w')).
  { intros c1 E1 E2 [E3 E4]. rewrite E1 in E3. split; [done|].
    eapply same_trees_trans; [exact Ht|]. by eapply same_trees_trans. }
  follow Hr.
  - apply send_parts in Hr. by apply (Hfin c0).
  - injection Hr as <- <-. by apply (Hfin c0).
  - injection Hr as <- <-. by apply (Hfin c0).
  - apply answer_negotiate_parts in Hr. by eapply Hfin; [| |exact Hr].
  - apply answer_negotiate_parts in Hr.
    match goal with E : neg_contexts _ _ _ _ _ = Ok _ |- _ => apply neg_contexts_parts in E as [E1 E2] end.
    by eapply Hfin; [exact E1|exact E2|exact Hr].
  - injection Hr as <- <-. by apply (Hfin c0).
  - injection Hr as <- <-. by apply (Hfin c0).
Qed.

(** What a handler does to sessions and trees when it is handed the random
    number [id]. *)
Definition handler_frame (id : Z) (c c' : conn.t) : Prop :=
  no_new_session c c' /\ (trees_wf c -> trees_wf c')
  /\ (trees_ok c -> conn.treeMapById c !! id = None -> trees_ok c').

Lemma same_trees_frame id c c' : no_new_session c c' /\ same_trees c c' -> handler_frame id c c'.
Proof. intros [Hn Hs]. split; [done|]. split; [by apply same_trees_wf|intros ? _; by eapply same_trees_ok]. Qed.

(** A send after the trees became those of [c1]. *)
Lemma send_frame id c1 rd req tc w w' e :
  conn.heap c1 = conn.heap (w_conn w) -> (trees_wf (w_conn w) -> trees_wf c1) ->
  (trees_ok (w_conn w) -> conn.treeMapById (w_conn w) !! id = None -> trees_ok c1) ->
  send rd req tc (set_conn c1 w) = Ok (w', e) -> handler_frame id (w_conn w) (w_conn w').
Proof.
  intros Hh Hwf Hok [Hn Ht]%send_parts. cbn [w_conn set_conn] in *. unfold no_new_session in Hn. rewrite Hh in Hn.
  split; [exact Hn|]. split; [intros ?; eapply same_trees_wf; eauto|intros; eapply same_trees_ok; eauto].
Qed.

Lemma treeConnect_parts rd pkt w w' e :
  treeConnect cfg rd pkt w = Ok (w', e) -> handler_frame (rd_int32 rd) (w_conn w) (w_conn w').
Proof.
  intros Hr. unfold treeConnect in Hr.
  assert (Hent : forall path ops tid tc c1 rd' req tc',
    enter_tree (rd_int32 rd) path ops (w_conn w) = Ok (tid, tc, c1) ->
    send rd' req tc' (set_conn c1 w) = Ok (w', e) -> handler_frame (rd_int32 rd) (w_conn w) (w_conn w')).
  { intros path ops tid tc c1 rd' req tc' He Hs. eapply send_frame; [| | |exact Hs].
    - unfold enter_tree in He; follow He; by injection He as _ _ <-.
    - by eapply enter_tree_wf.
    - intros Hok Hf. by apply enter_tree_spec in He as (Hok1 & _). }
  follow Hr.
  all: try (injection Hr as <- <-; by apply same_trees_frame).
  all: try (eapply Hent; eassumption).
  all: by apply send_parts, (same_trees_frame (rd_int32 rd)) in Hr.
Qed.

Lemma treeDisconnect_parts rd pkt w w' e id :
  treeDisconnect rd pkt w = Ok (w', e) -> handler_frame id (w_conn w) (w_conn w').
Proof.
  intros Hr. unfold treeDisconnect in Hr.
  destruct (PacketCodec.TreeId pkt) as [tid|?|]; [|done..]. cbn [obind] in Hr.
  destruct (leave_tree tid (w_conn w)) as [[tc c1]|?|] eqn:Hl; [|done..]. cbn [obind] in Hr. follow Hr.
  eapply send_frame; [| | |exact Hr].
  - unfold leave_tree in Hl. follow Hl; injection Hl as _ <-; by try destruct (_ =? 0).
  - by eapply leave_tree_wf.
  - intros Hok _. by eapply leave_tree_ok.
Qed.

(** The token of a SESSION_SETUP request. *)
Definition setup_token (pkt : slice) (tok : bytes) : Prop :=
  exists res b, accept SMB2_SESSION_SETUP pkt = Ok res
    /\ SessionSetupRequestDecoder.SecurityBuffer res = Ok b /\ s_bytes b = tok.

(** A send from a connection with the sessions and trees of [c]. *)
Lemma send_from c c1 rd req tc w w' e :
  conn.heap c1 = conn.heap c -> same_trees c c1 -> w_conn w = c1 ->
  send rd req tc w = Ok (w', e) -> no_new_session c (w_conn w') /\ same_trees c (w_conn w').
Proof.
  intros Hh Ht <- [Hn Hs]%send_parts. unfold no_new_session in *. rewrite Hh in Hn.
  split; [done|]. by eapply same_trees_trans.
Qed.

Lemma sessionServerSetup_parts rd pkt w w' e :
  sessionServerSetup rd pkt w = Ok (w', e) ->
  no_new_session (w_conn w) (w_conn w') /\ same_trees (w_conn w) (w_conn w').
Proof.
  intros Hr. unfold sessionServerSetup in Hr.
  destruct (calcPreauthHash_parts sha512 (s_bytes pkt) (w_conn w)) as [Hh Ht].
  assert (Hstay : no_new_session (w_conn w) (calcPreauthHash sha512 (s_bytes pkt) (w_conn w)))
    by (unfold no_new_session; by rewrite Hh).
  follow Hr; try (injection Hr as <- <-; done).
  eapply send_from; [| |reflexivity|exact Hr]; done.
Qed.

Lemma sessionServerSetupChallenge_parts rd pkt w w' e :
  sessionServerSetupChallenge cfg rd pkt w = Ok (w', e) ->
  same_trees (w_conn w) (w_conn w')
  /\ (no_new_session (w_conn w) (w_conn w')
      \/ exists tok user, setup_token pkt tok /\ accepted_by (w_auths w) tok user).
Proof.
  intros Hr. unfold sessionServerSetupChallenge in Hr.
  destruct (calcPreauthHash_parts sha512 (s_bytes pkt) (w_conn w)) as [Hh Ht].
  assert (Hstay : no_new_session (w_conn w) (calcPreauthHash sha512 (s_bytes pkt) (w_conn w)))
    by (unfold no_new_session; by rewrite Hh).
  destruct (accept SMB2_SESSION_SETUP pkt) as [res|e0|] eqn:Ha; [|injection Hr as <- <-; split; [done|by left]|done].
  destruct (SessionSetupRequestDecoder.IsInvalid res) as [inv|?|]; [|done..]. cbn [obind] in Hr.
  destruct inv; [injection Hr as <- <-; split; [done|by left]|].
  destruct (spnego _) as [sp|?|]; [|done..]. cbn [obind] in Hr.
  destruct (SessionSetupRequestDecoder.SecurityBuffer res) as [tok|?|] eqn:Htok; [|done..].
  cbn [obind] in Hr.
  destruct (spnegoServer.authenticate (s_bytes tok) sp _) as [[r sp'] auths'] eqn:Hau.
  destruct r as [[out user]|e1|]; [| |done].
  - split.
    + follow Hr.
      all: try (injection Hr as <- <-).
      all: try done.
      all: match goal with Hs : send _ _ _ _ = Ok _ |- _ => apply send_parts in Hs as [_ Hs]; rename Hs into Hst end.
      all: eapply same_trees_trans; [exact Ht|]; eapply same_trees_trans; [|exact Hst].
      all: done.
    + right. exists (s_bytes tok), user. split; [by exists res, tok|].
      by eapply authenticate_accepted.
  - follow Hr. injection Hr as <- <-.
    match goal with Hs : send _ _ _ _ = Ok _ |- _ => eapply send_from in Hs as [Hn Hs]; [|exact Hh|exact Ht|done] end.
    auto.
Qed.

Lemma sessionSetup_parts rd pkt w w' e :
  sessionSetup cfg rd pkt w = Ok (w', e) ->
  same_trees (w_conn w) (w_conn w')
  /\ (no_new_session (w_conn w) (w_conn w')
      \/ (conn.serverState (w_conn w) = STATE_SESSION_SETUP
          \/ conn.serverState (w_conn w) = STATE_SESSION_SETUP_CHALLENGE)
        /\ exists tok user, setup_token pkt tok /\ accepted_by (w_auths w) tok user).
Proof.
  unfold sessionSetup. set (c0 := if conn.useSession _ then _ else _).
  assert (Hc0 : conn.heap c0 = conn.heap (w_conn w) /\ same_trees (w_conn w) c0)
    by (unfold c0; by destruct (conn.useSession _)).
  assert (Hst : conn.serverState c0 <> STATE_NEGOTIATE -> conn.serverState c0 = conn.serverState (w_conn w))
    by (unfold c0; by destruct (conn.useSession _)).
  clearbody c0. destruct Hc0 as [Hh Ht]. intros Hr. unfold no_new_session in *. rewrite <- Hh.
  destruct (conn.serverState c0) eqn:Hs.
  - apply sessionServerSetup_parts in Hr as [Hn Hs']. split; [by eapply same_trees_trans|auto].
  - apply sessionServerSetupChallenge_parts in Hr as [Hs' Hn].
    split; [by eapply same_trees_trans|]. rewrite <- Hst by done. destruct Hn; auto.
  - apply sessionServerSetupChallenge_parts in Hr as [Hs' Hn].
    split; [by eapply same_trees_trans|]. rewrite <- Hst by done. destruct Hn; auto.
  - injection Hr as <- <-. split; [done|by left].
Qed.

End facts.

Section run_facts.
Context `{GoLib, Ber} (cfg : server_config).
Context (tree_op : Z -> nat -> random -> slice -> option compoundContext.t -> world ->
  outcome (world * option compoundContext.t * option goerr)).

(** What the operations of a tree promise: no session is made and no tree
    is connected or disconnected. *)
Definition tree_op_frame : Prop :=
  forall cmd p rd pkt cc w w' cc' e,
    tree_op cmd p rd pkt cc w = Ok (w', cc', e) ->
    no_new_session (w_conn w) (w_conn w') /\ same_trees (w_conn w) (w_conn w').

(** What makes a session: the second leg of a session setup, with a token
    that an authenticator accepted. *)
Definition authenticated (pkt : slice) (w : world) : Prop :=
  PacketCodec.Command pkt = Ok SMB2_SESSION_SETUP
  /\ (conn.serverState (w_conn w) = STATE_SESSION_SETUP
      \/ conn.serverState (w_conn w) = STATE_SESSION_SETUP_CHALLENGE)
  /\ exists tok user, setup_token pkt tok /\ accepted_by (w_auths w) tok user.

(** What one turn of [Run] does to sessions and trees. *)
Lemma Run_step_parts rd pkt rs cc w w' cc' e :
  tree_op_frame ->
  Run_step cfg tree_op rd pkt rs cc w = Ok (w', cc', e) ->
  ((trees_wf (w_conn w) -> trees_wf (w_conn w'))
   /\ (trees_ok (w_conn w) -> conn.treeMapById (w_conn w) !! rd_int32 rd = None -> trees_ok (w_conn w')))
  /\ (no_new_session (w_conn w) (w_conn w') \/ authenticated pkt w).
Proof.
  intros Htree Hr. unfold Run_step in Hr.
  set (w1 := match rs with Some p => _ | None => w end) in Hr.
  assert (Hw1 : conn.heap (w_conn w1) = conn.heap (w_conn w)
    /\ conn.serverState (w_conn w1) = conn.serverState (w_conn w) /\ w_auths w1 = w_auths w
    /\ conn.treeMapById (w_conn w1) = conn.treeMapById (w_conn w)
    /\ conn.trees (w_conn w1) = conn.trees (w_conn w)
    /\ conn.treeMapByName (w_conn w1) = conn.treeMapByName (w_conn w)) by (unfold w1; by destruct rs).
  clearbody w1. destruct Hw1 as (Hh & Hst & Hau & Hid & Htr & Hnm).
  unfold authenticated, trees_wf, trees_ok, no_new_session.
  rewrite <- Hid, <- Hst, <- Hau, <- Hh, <- Htr, <- Hnm. clear Hh Hst Hau Hid Htr Hnm w rs.
  fold (trees_wf (w_conn w1)). fold (trees_wf (w_conn w')). fold (trees_ok (w_conn w1)). fold (trees_ok (w_conn w')).
  fold (no_new_session (w_conn w1) (w_conn w')). fold (authenticated pkt w1).
  assert (Hframe : handler_frame (rd_int32 rd) (w_conn w1) (w_conn w') ->
    ((trees_wf (w_conn w1) -> trees_wf (w_conn w'))
     /\ (trees_ok (w_conn w1) -> conn.treeMapById (w_conn w1) !! rd_int32 rd = None -> trees_ok (w_conn w')))
    /\ (no_new_session (w_conn w1) (w_conn w') \/ authenticated pkt w1)).
  { intros (Hn & Hwf & Hok). split; [by split|by left]. }
  pose proof (same_trees_frame (rd_int32 rd) (w_conn w1)) as Hsame.
  destruct (PacketCodec.Command pkt) as [cmd|?|] eqn:Hcmd; [|done..]. cbn [obind] in Hr.
  follow Hr; unfold without_ctx in Hr; follow Hr;
    try (injection Hr as <- <- <-); cbn [w_conn set_conn] in *.
  all: try match goal with E : negotiate _ _ _ _ = Ok _ |- _ => by apply Hframe, Hsame; apply negotiate_parts in E end.
  all: try match goal with E : logoff _ _ _ = Ok _ |- _ => by apply Hframe, Hsame; apply logoff_parts in E end.
  all: try match goal with E : echo _ _ _ = Ok _ |- _ => by apply Hframe, Hsame; apply echo_parts in E end.
  all: try match goal with E : tree_op _ _ _ _ _ _ = Ok _ |- _ => by apply Hframe, Hsame; apply Htree in E end.
  all: try match goal with E : treeConnect _ _ _ _ = Ok _ |- _ => by apply Hframe; apply treeConnect_parts in E end.
  all: try match goal with E : treeDisconnect _ _ _ = Ok _ |- _ => by apply Hframe; eapply treeDisconnect_parts in E end.
  all: try match goal with E : sendPacket _ _ _ _ _ _ = Ok _ |- _ =>
         by apply Hframe, Hsame; apply sendPacket_tables, same_tables_parts in E end.
  all: try by apply Hframe, Hsame.
  match goal with E : sessionSetup _ _ _ _ = Ok _ |- _ => apply sessionSetup_parts in E as [Hs Hn] end.
  split; [split; [by apply same_trees_wf|intros ? _; by eapply same_trees_ok]|].
  match goal with E : (cmd =? SMB2_SESSION_SETUP) = true |- _ => apply Z.eqb_eq in E as -> end.
  destruct Hn as [Hn|(? & ?)]; [by left|by right].
Qed.

(** A connection's life: turns of [Run] that return no error, each with a
    fresh tree id. *)
Inductive run : world -> world -> Prop :=
| run_nil w : run w w
| run_cons rd pkt rs cc w w1 cc' w2 :
    conn.treeMapById (w_conn w) !! rd_int32 rd = None ->
    Run_step cfg tree_op rd pkt rs cc w = Ok (w1, cc', None) -> run w1 w2 -> run w w2.

(** The tree tables stay consistent.  Whatever requests a connection
    handles from its start, with tree ids that are not in use, every tree id
    leads to a tree with that id and a positive reference count that is filed
    under its own path, and every path to a tree filed under its own id. *)
Theorem run_keeps_trees (w w' : world) :
  tree_op_frame ->
  conn.treeMapById (w_conn w) = ∅ -> conn.treeMapByName (w_conn w) = ∅ -> run w w' ->
  trees_ok (w_conn w').
Proof.
  intros Hf Hi Hn Hrun.
  assert (Hok : trees_ok (w_conn w)).
  { unfold trees_ok. rewrite Hi, Hn. split; intros ??; by rewrite lookup_empty. }
  clear Hi Hn. induction Hrun as [w|rd pkt rs cc w w1 cc' w2 Hfr Hstep _ IH]; [done|].
  apply IH. by apply (proj1 (Run_step_parts _ _ _ _ _ _ _ _ Hf Hstep)).
Qed.

(** A session needs an authenticated token.  When handling a request
    makes a session that was not there before, the request was a
    SESSION_SETUP, it came in the second leg of a session setup, and one of
    the server's authenticators accepted the token it carries. *)
Theorem session_requires_authentication (rd : random) (pkt : slice) (rs : option nat)
    (cc : option compoundContext.t) (w w' : world) (cc' : option compoundContext.t)
    (e : option goerr) (p : nat) :
  tree_op_frame -> Run_step cfg tree_op rd pkt rs cc w = Ok (w', cc', e) ->
  p ∈ dom (conn.heap (w_conn w')) -> p ∉ dom (conn.heap (w_conn w)) ->
  authenticated pkt w.
Proof.
  intros Hf Hstep [s Hp]%elem_of_dom Hnp.
  destruct (Run_step_parts _ _ _ _ _ _ _ _ Hf Hstep) as [_ [Hn|Hs]]; [|done].
  destruct Hnp. destruct (no_new_session_lookup _ _ _ _ Hn Hp) as (s0 & Hp0 & _). by apply elem_of_dom.
Qed.

End run_facts.

(** ** The dialect *)

(** The dialect that is chosen.  Of the dialects a client offers, the
    server takes the highest one above the 2.FF wildcard and not above 3.1.1;
    when there is none it answers SMB 2.1, whatever was offered. *)
Theorem dialect_chosen (ds : list Z) :
  (choose_dialect ds ∈ ds /\ SMB2 < choose_dialect ds <= SMB311
   /\ forall d, d ∈ ds -> d <= SMB311 -> d <= choose_dialect ds)
  \/ (choose_dialect ds = SMB210 /\ forall d, d ∈ ds -> ~ (SMB2 < d <= SMB311)).
Proof.
  unfold choose_dialect.
  assert (Hgen : forall best, SMB2 <= best <= SMB311 ->
    let r := foldl (fun best d => if (best <? d) && (d <=? SMB311) then d else best) best ds in
    best <= r <= SMB311 /\ (r = best \/ r ∈ ds) /\ forall d, d ∈ ds -> d <= SMB311 -> d <= r).
  { induction ds as [|d ds IH]; intros best Hb; cbn [foldl].
    { split; [lia|]. split; [by left|]. intros d Hd. by apply elem_of_nil in Hd. }
    set (b := if _ && _ then d else best).
    assert (Hb' : best <= b <= SMB311 /\ (b = best \/ b = d) /\ (d <= SMB311 -> d <= b)).
    { unfold b. destruct (Z.ltb_spec best d), (Z.leb_spec d SMB311); cbn [andb]; lia. }
    destruct (IH b) as (H1 & H2 & H3); [lia|]. cbv zeta. split; [lia|]. split.
    - destruct H2 as [->|H2]; [|right; by apply elem_of_cons; right].
      destruct Hb' as (_ & [->| ->] & _); [by left|right; by apply elem_of_cons; left].
    - intros x [->|Hx]%elem_of_cons Hle; [lia|by apply H3]. }
  destruct (Hgen SMB2) as (H1 & H2 & H3); [by vm_compute|].
  set (r := foldl _ _ _) in *. destruct (Z.eqb_spec r SMB2) as [Hr|Hr].
  - right. split; [done|]. intros d Hd Hle. pose proof (H3 d Hd). lia.
  - left. destruct H2 as [?|H2]; [done|]. split_and!; [done|lia|lia|done].
Qed.

(** ** Concrete checks *)

Definition toy_lib : GoLib :=
  mkGoLib (fun b => b) (fun _ _ => zeros 32) (fun _ => toy_hash) (fun _ => Ok toy16)
    (fun _ _ => Ok (ccm.aead toy_ccm)) (fun s => s) (fun _ => Some (fun _ => true)).
(** Every byte string is read as a token of NTLM around itself. *)
Definition toy_ber : Ber :=
  mkBer (fun t => Ok (initialContextToken.mk None (Some [NegTokenInit.mk (Some [NlmpOid]) no_bits (Some t) None]) None))
    (fun t => Ok (initialContextToken2.mk None (Some [NegTokenInit2.mk (Some [NlmpOid]) no_bits (Some t) negHints None]) None))
    (fun t => Ok (NegTokenResp.mk 1 (Some NlmpOid) (Some t) None)).
(** Accepts the token [7]. *)
Definition toy_auth : Authenticator :=
  mkAuth unit NlmpOid (fun t s => (Ok t, s))
    (fun t s => (if bool_decide (t = [7]) then Ok [0x75] else Err ErrPermission, s))
    (fun b s => (Ok b, s)) (fun _ => Ok (zeros 16)) tt.
Definition toy_cfg : server_config := mkConfig {[ [0x53] := 4 ]} [[0x53]] false false (zeros 16) true false (FileId.mk (repeat 7 8) (repeat 7 8)).
Definition toy_rd : random := mkRandom 9 7 (zeros 32) (zeros 11) 0.
(** A connection as [ServeListener] makes it, in state [st], and a server
    whose negotiator has [sp]. *)
Definition new_conn (st : ConnState) : conn.t :=
  conn.mk None ∅ ∅ 0 SMB210 0 0 0 false 0 0 (zeros 64) AES128GCM SHA512 false
    (account.mk 128 1 0) false st ∅ ∅ ∅ [].
Definition toy_world (st : ConnState) (sp : option spnegoServer.t) : world :=
  mkWorld (ServerNegotiator.mk false 0 sp) [toy_auth] (new_conn st) Server.NewServer ∅ ∅ [] ∅ 0x10000.

Definition toy_hdr : PacketHeader.t := PacketHeader.mk 0 0 0 0 1 0 0 5 0 1 7.
(** A request packet from its encoder. *)
Definition toy_request (size : Z) (e : enc) : slice :=
  of_bytes (match e (zeros size) with Ok q => q | _ => [] end).
Definition toy_setup (tok : bytes) : slice :=
  let r := SessionSetupRequest.mk toy_hdr 0 0 0 0 tok 0 in
  toy_request (SessionSetupRequest.Size r) (SessionSetupRequest.Encode r).
Definition toy_tree_connect (path : gostring) : slice :=
  let r := TreeConnectRequest.mk toy_hdr 0 path in
  toy_request (TreeConnectRequest.Size r) (TreeConnectRequest.Encode r).
Definition toy_negotiate : slice :=
  let r := NegotiateRequest.mk toy_hdr 0 0 (zeros 16) [SMB202; SMB210] [] in
  toy_request (NegotiateRequest.Size r) (NegotiateRequest.Encode r).
Definition toy_tree_op (cmd : Z) (p : nat) (rd : random) (pkt : slice)
    (cc : option compoundContext.t) (w : world)
  : outcome (world * option compoundContext.t * option goerr) := Ok (w, cc, None).

Lemma toy_frame : tree_op_frame toy_tree_op.
Proof. by intros cmd p rd pkt cc w w' cc' e [= <- _ _]. Qed.

Lemma turn_ok (r : outcome (world * option compoundContext.t * option goerr)) :
  match r with Ok (_, _, None) => true | _ => false end = true ->
  exists w cc, r = Ok (w, cc, None).
Proof. destruct r as [[[w cc] [e|]]|?|]; try done. by exists w, cc. Qed.

Lemma run_keeps_trees_witness :
  exists w' cc', @Run_step toy_lib toy_ber toy_cfg toy_tree_op toy_rd (toy_tree_connect [0x53]) None None
      (toy_world STATE_NEGOTIATE None) = Ok (w', cc', None)
    /\ trees_ok (w_conn w').
Proof.
  destruct (turn_ok (@Run_step toy_lib toy_ber toy_cfg toy_tree_op toy_rd (toy_tree_connect [0x53])
    None None (toy_world STATE_NEGOTIATE None))) as (w' & cc' & E); [vm_compute; reflexivity|].
  exists w', cc'. split; [exact E|].
  apply (@run_keeps_trees toy_lib toy_ber toy_cfg toy_tree_op (toy_world STATE_NEGOTIATE None) w').
  - apply toy_frame.
  - reflexivity.
  - reflexivity.
  - eapply run_cons; [reflexivity|exact E|apply run_nil].
Defined.

Lemma connect_then_disconnect_witness :
  exists tid tc c1 tc' c2,
    enter_tree 9 [0x53] (fileTree 4) (new_conn STATE_NEGOTIATE) = Ok (tid, tc, c1)
    /\ leave_tree 9 c1 = Ok (Some tc', c2) /\ conn.treeMapById c2 = ∅.
Proof.
  destruct (enter_tree 9 [0x53] (fileTree 4) (new_conn STATE_NEGOTIATE)) as [[[tid tc] c1]|?|] eqn:E;
    [|discriminate E..].
  destruct (connect_then_disconnect 9 [0x53] (fileTree 4) (new_conn STATE_NEGOTIATE) tid tc c1)
    as (tc' & c2 & Hl & Hi & _).
  - split; intros ? ?; cbn; rewrite lookup_empty; discriminate.
  - reflexivity.
  - exact E.
  - exists tid, tc, c1, tc', c2. split; [reflexivity|].
    injection E as _ <- <-. split; [exact Hl|exact Hi].
Defined.

Lemma session_requires_authentication_witness :
  exists w' cc',
    @Run_step toy_lib toy_ber toy_cfg toy_tree_op toy_rd (toy_setup [7]) None None
      (toy_world STATE_SESSION_SETUP_CHALLENGE (Some (spnegoServer.mk [0%nat] [NlmpOid] (Some 0%nat))))
      = Ok (w', cc', None)
    /\ exists tok user, setup_token (toy_setup [7]) tok
      /\ @accepted_by toy_ber [toy_auth] tok user.
Proof.
  set (w := toy_world _ _).
  destruct (turn_ok (@Run_step toy_lib toy_ber toy_cfg toy_tree_op toy_rd (toy_setup [7]) None None w))
    as (w' & cc' & E); [vm_compute; reflexivity|].
  exists w', cc'. split; [exact E|].
  apply (@session_requires_authentication toy_lib toy_ber toy_cfg toy_tree_op toy_rd (toy_setup [7])
    None None w w' cc' None 0%nat).
  - apply toy_frame.
  - exact E.
  - apply elem_of_dom.
    assert (Hb : match @Run_step toy_lib toy_ber toy_cfg toy_tree_op toy_rd (toy_setup [7]) None None w with
                 | Ok (w1, _, _) => match conn.heap (w_conn w1) !! 0%nat with Some _ => true | None => false end
                 | _ => false end = true) by (vm_compute; reflexivity).
    rewrite E in Hb. destruct (conn.heap (w_conn w') !! 0%nat); [by eexists|done].
  - apply not_elem_of_dom. reflexivity.
Defined.

Section renegotiation.
Context `{GoLib, Ber} (cfg : server_config).

(** Neither the state nor the use of the session. *)
Definition same_state (c c' : conn.t) : Prop :=
  conn.useSession c' = conn.useSession c /\ conn.serverState c' = conn.serverState c.

Lemma neg_contexts_state n pkt list c c' :
  neg_contexts cfg n pkt list c = Ok c' -> same_state c c'.
Proof.
  revert list c. induction n as [|n IH]; intros list c Hr; cbn [neg_contexts] in Hr.
  { by injection Hr as <-. }
  destruct (neg_context cfg pkt list c) as [c1|e|] eqn:Hc; [|done..]. cbn [obind] in Hr.
  assert (H1 : same_state c c1).
  { unfold neg_context, calcPreauthHash in Hc. follow Hc; injection Hc as <-.
    all: repeat match goal with |- context [if ?b then _ else _] => destruct b end; by split. }
  follow Hr. apply IH in Hr. destruct H1, Hr. split; congruence.
Qed.

(** An answered SMB2 NEGOTIATE leaves a negotiator without a mechanism. *)
Lemma negotiate_forgets rd pkt w w' :
  PacketCodec.IsSmb1 pkt = Ok false -> conn.useSession (w_conn w) = false ->
  negotiate cfg rd pkt w = Ok (w', None) ->
  same_state (w_conn w) (w_conn w')
  /\ exists sp, ServerNegotiator.Spnego (w_neg w') = Some sp /\ spnegoServer.selectedMech sp = None.
Proof.
  intros Hsmb Hu Hr. unfold negotiate, neg_negotiate in Hr. rewrite Hsmb, Hu, andb_false_r in Hr.
  cbn [obind] in Hr. follow Hr.
  all: match goal with E : spnegoServer.newSpnegoServer _ _ = Ok _ |- _ =>
         unfold spnegoServer.newSpnegoServer in E; follow E; injection E as <- end.
  all: unfold answer_negotiate in Hr; follow Hr.
  all: apply send_tables in Hr as ((_&_&_&_&Hu'&Hs'&_) & Hneg & _).
  all: split; [|rewrite Hneg; by eexists].
  - by split.
  - match goal with E : neg_contexts _ _ _ _ _ = Ok _ |- _ => apply neg_contexts_state in E as [E1 E2] end.
    split; [by rewrite Hu'|by rewrite Hs'].
Qed.

(** Negotiating again between the two legs of a session setup stops the
    server.  A NEGOTIATE that is answered while the connection waits for the
    second SESSION_SETUP replaces the negotiator's mechanism by none and
    leaves the connection waiting; a second leg with a bare NTLM token then
    calls a method of the nil mechanism. *)
Theorem renegotiation_panics (rd rd' : random) (pkt pkt' : slice) (w w' : world) (res tok : slice) :
  PacketCodec.IsSmb1 pkt = Ok false -> conn.useSession (w_conn w) = false ->
  conn.serverState (w_conn w) = STATE_SESSION_SETUP_CHALLENGE ->
  negotiate cfg rd pkt w = Ok (w', None) ->
  accept SMB2_SESSION_SETUP pkt' = Ok res -> SessionSetupRequestDecoder.IsInvalid res = Ok false ->
  SessionSetupRequestDecoder.SecurityBuffer res = Ok tok ->
  HasPrefix (s_bytes tok) ntlmssp = true ->
  sessionSetup cfg rd' pkt' w' = Panic.
Proof.
  intros Hsmb Hu Hst Hneg Ha Hinv Htok Hpre.
  destruct (negotiate_forgets rd pkt w w' Hsmb Hu Hneg) as ([Hu' Hs'] & sp & Hsp & Hsel).
  unfold sessionSetup. rewrite Hu', Hu, Hs', Hst. unfold sessionServerSetupChallenge.
  rewrite Ha, Hinv. cbn [obind]. unfold spnego. cbn [w_neg set_conn]. rewrite Hsp.
  cbn [session.deref obind]. rewrite Htok. cbn [obind].
  unfold spnegoServer.authenticate, spnegoServer.call. by rewrite Hpre, Hsel.
Qed.

End renegotiation.

Lemma renegotiation_panics_witness :
  exists w', @negotiate toy_lib toy_cfg toy_rd toy_negotiate
      (toy_world STATE_SESSION_SETUP_CHALLENGE (Some (spnegoServer.mk [0%nat] [NlmpOid] (Some 0%nat))))
      = Ok (w', None)
    /\ @sessionSetup toy_lib toy_ber toy_cfg toy_rd (toy_setup ntlmssp) w' = Panic.
Proof.
  set (w := toy_world _ _).
  destruct (@negotiate toy_lib toy_cfg toy_rd toy_negotiate w) as [[w' [e|]]|?|] eqn:E;
    [vm_compute in E; discriminate E| |vm_compute in E; discriminate E..].
  destruct (accept SMB2_SESSION_SETUP (toy_setup ntlmssp)) as [res|?|] eqn:Ea;
    [|vm_compute in Ea; discriminate Ea..].
  destruct (SessionSetupRequestDecoder.SecurityBuffer res) as [tok|?|] eqn:Et.
  - exists w'. split; [reflexivity|].
    apply (@renegotiation_panics toy_lib toy_ber toy_cfg toy_rd toy_rd toy_negotiate (toy_setup ntlmssp)
      w w' res tok).
    + reflexivity.
    + reflexivity.
    + reflexivity.
    + exact E.
    + exact Ea.
    + vm_compute in Ea. injection Ea as <-. reflexivity.
    + exact Et.
    + vm_compute in Ea. injection Ea as <-. vm_compute in Et. injection Et as <-. reflexivity.
  - vm_compute in Ea. injection Ea as <-. vm_compute in Et. discriminate Et.
  - vm_compute in Ea. injection Ea as <-. vm_compute in Et. discriminate Et.
Defined.

(** A share can be connected without a session.  On a connection that
    never set up a session, a TREE_CONNECT that names a share of the server
    files a new tree whose session is nil, and answers it. *)
Theorem tree_connect_needs_no_session `{GoLib, Ber} (cfg : server_config) (rd : random) (pkt res : slice)
    (path : gostring) (fs : Z) (w w' : world) (e : option goerr) :
  accept SMB2_TREE_CONNECT pkt = Ok res -> TreeConnectRequestDecoder.IsInvalid res = Ok false ->
  TreeConnectRequestDecoder.Path res = Ok path -> HasSuffix path ipc_path = false ->
  cf_shares cfg !! ToUpper (default [] (last (Split path backslash))) = Some fs ->
  conn.session (w_conn w) = None ->
  conn.treeMapByName (w_conn w) !! default [] (last (Split path backslash)) = None ->
  treeConnect cfg rd pkt w = Ok (w', e) ->
  exists p tc, conn.treeMapById (w_conn w') !! rd_int32 rd = Some p
    /\ conn.trees (w_conn w') !! p = Some tc
    /\ treeConn.session tc = None /\ treeConn.ops tc = fileTree fs.
Proof.
  intros Ha Hi Hp Hipc Hfs Hs Hn Hr. unfold treeConnect in Hr. rewrite Ha, Hi in Hr. cbn [obind] in Hr.
  rewrite Hp in Hr. cbn [obind] in Hr. rewrite Hipc, Hfs in Hr. follow Hr.
  match goal with E : enter_tree _ _ _ _ = Ok _ |- _ => rename E into He end.
  unfold enter_tree in He. rewrite Hn in He. injection He as _ _ <-.
  apply send_tables in Hr as ((_&_&_&_&_&_&Ht&_&Hid) & _).
  eexists _, _. rewrite Hid, Ht. cbn. rewrite !lookup_insert_eq. split; [done|]. split; [done|].
  cbn. split; [done|]. congruence.
Qed.

Lemma tree_connect_needs_no_session_witness :
  exists w' p tc,
    @treeConnect toy_lib toy_cfg toy_rd (toy_tree_connect [0x53]) (toy_world STATE_NEGOTIATE None)
      = Ok (w', None)
    /\ conn.trees (w_conn w') !! p = Some tc /\ treeConn.session tc = None.
Proof.
  set (w := toy_world _ _).
  destruct (@treeConnect toy_lib toy_cfg toy_rd (toy_tree_connect [0x53]) w)
    as [[w' [e|]]|?|] eqn:E; [vm_compute in E; discriminate E| |vm_compute in E; discriminate E..].
  destruct (accept SMB2_TREE_CONNECT (toy_tree_connect [0x53])) as [res|?|] eqn:Ea;
    [|vm_compute in Ea; discriminate Ea..].
  destruct (@tree_connect_needs_no_session toy_lib toy_ber toy_cfg toy_rd (toy_tree_connect [0x53]) res
    [0x53] 4 w w' None) as (p & tc & _ & Ht & Hs & _).
  - exact Ea.
  - vm_compute in Ea. injection Ea as <-. reflexivity.
  - vm_compute in Ea. injection Ea as <-. reflexivity.
  - reflexivity.
  - reflexivity.
  - reflexivity.
  - reflexivity.
  - exact E.
  - exists w', p, tc. split; [reflexivity|]. split; [exact Ht|exact Hs].
Defined.
