(* ===== verification/TreeState.v ===== *)
(** * The state of a tree's operations

    The operations of a tree (server/tree.go) work on the whole state: the
    connection, the server's tables, the file system of the share, and the
    compound context of the request.  They are written in a state monad over
    it; Go's panics stop them.  The rules at the end carry a property of
    every primitive step over to whole handlers. *)

From S2P Require Import Prelude Const Packet Utf16 Paths Request Dtyp Vfs Oplock Opens Response.
From S2P Require Import Session Compound Credit Conn Handlers.

Record env := mkEnv { e_w : world; e_cc : option compoundContext.t }.

Definition M (A : Type) : Type := env -> outcome (A * env).
Definition ret {A} (a : A) : M A := fun e => Ok (a, e).
Definition bind {A B} (m : M A) (k : A -> M B) : M B :=
  fun e => let! r := m e in let '(a, e) := r in k a e.
(** A computation that only reads. *)
Definition lift {A} (o : outcome A) : M A := fun e => let! a := o in Ok (a, e).
Definition panic {A} : M A := fun _ => Panic.

Declare Scope tree_scope.
Delimit Scope tree_scope with tree.
Global Open Scope tree_scope.
Notation "'let*' x := m 'in' k" := (bind m (fun x => k))
  (at level 10, x pattern, m at level 100, k at level 200) : tree_scope.
(** [x, err := o; if err != nil { return err }] *)
Notation "'try*' x := o 'in' k" :=
  (match o with Ok x => k | Err err => ret (Some err) | Panic => panic end)
  (at level 10, x name, o at level 100, k at level 200) : tree_scope.

(** ** Access to the state *)

Definition get_world : M world := fun e => Ok (e_w e, e).
Definition set_world (f : world -> world) : M unit := fun e => Ok (tt, mkEnv (f (e_w e)) (e_cc e)).
Definition get_ctx : M (option compoundContext.t) := fun e => Ok (e_cc e, e).

(** [res, _ := accept(cmd, pkt)]: the error is dropped; all but one of the
    error returns have a nil body. *)
Definition accept_any (cmd : Z) (pkt : slice) : outcome slice :=
  match accept cmd pkt with
  | Ok res => Ok res
  | Err (ResponseError _ []) =>
      if cmd =? SMB2_IOCTL then PacketCodec.Data pkt else Ok nil_slice
  | Err _ => Ok nil_slice
  | Panic => Panic
  end.

(** ** Response packets *)

Definition create_packet (r : CreateResponse.t) : packet :=
  mkPacket OtherPacket (CreateResponse.hdr r) (CreateResponse.Size r)
    (fun h => CreateResponse.Encode
       (CreateResponse.mk h (CreateResponse.OplockLevel r) (CreateResponse.RspFlags r)
          (CreateResponse.CreateAction r) (CreateResponse.CreationTime r)
          (CreateResponse.LastAccessTime r) (CreateResponse.LastWriteTime r)
          (CreateResponse.ChangeTime r) (CreateResponse.AllocationSize r)
          (CreateResponse.EndofFile r) (CreateResponse.FileAttributes r) (CreateResponse.FileId r)
          (CreateResponse.Contexts r))).
Definition close_packet (r : CloseResponse.t) : packet :=
  mkPacket OtherPacket (CloseResponse.hdr r) (CloseResponse.Size r)
    (fun h => CloseResponse.Encode
       (CloseResponse.mk h (CloseResponse.CloseFlags r) (CloseResponse.CreationTime r)
          (CloseResponse.LastAccessTime r) (CloseResponse.LastWriteTime r)
          (CloseResponse.ChangeTime r) (CloseResponse.AllocationSize r)
          (CloseResponse.EndofFile r) (CloseResponse.FileAttributes r))).
Definition flush_packet (h : PacketHeader.t) : packet :=
  mkPacket OtherPacket h (FlushResponse.Size (FlushResponse.mk h))
    (fun h => FlushResponse.Encode (FlushResponse.mk h)).
Definition lock_packet (h : PacketHeader.t) : packet :=
  mkPacket OtherPacket h (LockResponse.Size (LockResponse.mk h))
    (fun h => LockResponse.Encode (LockResponse.mk h)).
Definition read_packet (r : ReadResponse.t) : packet :=
  mkPacket OtherPacket (ReadResponse.hdr r) (ReadResponse.Size r)
    (fun h => ReadResponse.Encode (ReadResponse.mk h (ReadResponse.Data r) (ReadResponse.DataRemaining r))).
Definition write_packet (r : WriteResponse.t) : packet :=
  mkPacket OtherPacket (WriteResponse.hdr r) (WriteResponse.Size r)
    (fun h => WriteResponse.Encode (WriteResponse.mk h (WriteResponse.Count r) (WriteResponse.Remaining r))).
Definition ioctl_packet (r : IoctlResponse.t) : packet :=
  mkPacket OtherPacket (IoctlResponse.hdr r) (IoctlResponse.Size r)
    (fun h => IoctlResponse.Encode
       (IoctlResponse.mk h (IoctlResponse.CtlCode r) (IoctlResponse.FileId r)
          (IoctlResponse.Flags2 r) (IoctlResponse.Input r) (IoctlResponse.Output r))).
Definition query_directory_packet (r : QueryDirectoryResponse.t) : packet :=
  mkPacket OtherPacket (QueryDirectoryResponse.hdr r) (QueryDirectoryResponse.Size r)
    (fun h => QueryDirectoryResponse.Encode
       (QueryDirectoryResponse.mk h (QueryDirectoryResponse.Output r))).
Definition query_info_packet (r : QueryInfoResponse.t) : packet :=
  mkPacket OtherPacket (QueryInfoResponse.hdr r) (QueryInfoResponse.Size r)
    (fun h => QueryInfoResponse.Encode (QueryInfoResponse.mk h (QueryInfoResponse.Output r))).
Definition set_info_packet (h : PacketHeader.t) : packet :=
  mkPacket OtherPacket h (SetInfoResponse.Size (SetInfoResponse.mk h))
    (fun h => SetInfoResponse.Encode (SetInfoResponse.mk h)).
Definition oplock_break_packet (r : OplockBreakResponse.t) : packet :=
  mkPacket OtherPacket (OplockBreakResponse.hdr r) (OplockBreakResponse.Size r)
    (fun h => OplockBreakResponse.Encode
       (OplockBreakResponse.mk h (OplockBreakResponse.OplockLevel r) (OplockBreakResponse.FileId r))).
Definition lease_break_packet (r : LeaseBreakResponse.t) : packet :=
  mkPacket OtherPacket (LeaseBreakResponse.hdr r) (LeaseBreakResponse.Size r)
    (fun h => LeaseBreakResponse.Encode
       (LeaseBreakResponse.mk h (LeaseBreakResponse.LeaseKey r) (LeaseBreakResponse.LeaseState r)
          (LeaseBreakResponse.LeaseDuration r))).

(** ** The tree of a request

    [t] is the pointer to the tree, [rd] the randomness of the request. *)

Section tree.
Context `{GoLib} (t : nat) (rd : random).

Definition get_tree : M treeConn.t :=
  let* w := get_world in lift (session.deref (conn.trees (w_conn w) !! t)).

(** [c := t.session.conn]: the connection is that of the session, which must
    be there. *)
Definition session_conn : M conn.t :=
  let* tc := get_tree in
  let* _ := lift (session.deref (treeConn.session tc)) in
  let* w := get_world in ret (w_conn w).

(** [c.sendPacket(rsp, &t.treeConn, ctx)] *)
Definition reply (pk : packet) : M (option goerr) := fun e =>
  let! r := sendPacket sha512 (rd_nonce rd) pk (conn.trees (w_conn (e_w e)) !! t) (e_cc e)
              (w_conn (e_w e)) in
  let '(c, cc, err) := r in Ok (err, mkEnv (set_conn c (e_w e)) cc).

(** An ErrorResponse for the request, at once or for an asynchronous one. *)
Definition reply_error (pkt : slice) (status : Z) : M (option goerr) :=
  let* hdr := lift (PrepareResponse PacketHeader.zero pkt status) in
  reply (error_packet (ErrorResponse.mk hdr NoErrorData)).
Definition reply_async_error (pkt : slice) (asyncId status : Z) : M (option goerr) :=
  let* hdr := lift (PrepareAsyncResponse PacketHeader.zero pkt asyncId status) in
  reply (error_packet (ErrorResponse.mk hdr NoErrorData)).

(** A method of [t.fs]. *)
Definition call {A} (m : forall fs, fs_state fs -> A * fs_state fs) : M A :=
  let* tc := get_tree in
  match treeConn.ops tc with
  | ipcTree _ => panic
  | fileTree id =>
      let* w := get_world in
      match w_fs w !! id with
      | None => panic
      | Some fs =>
          let '(a, fs) := fs_call m fs in
          let* _ := set_world (fun w => set_fs (<[id := fs]> (w_fs w)) w) in
          ret a
      end
  end.

(** The server's tables. *)
Definition get_server : M Server.t := let* w := get_world in ret (w_server w).
Definition put_server (d : Server.t) : M unit := set_world (set_server d).
Definition getOpen (h : Z) : M (option Open.t) :=
  let* d := get_server in ret (Server.getOpen h d).
(** A change of an open that is in the table: of the object it points to. *)
Definition update_open (h : Z) (f : Open.t -> Open.t) : M unit :=
  let* d := get_server in
  put_server (Server.mk (alter f h (Server.opens d)) (Server.opensByGuid d) (Server.deletePending d)).

(** The file id of a request: that of the compound, when it has one. *)
Definition request_file (fileId : outcome slice) : M FileId.t :=
  let* fid := lift (let! s := fileId in FileIdDecoder.Decode s) in
  let* cc := get_ctx in
  ret (match cc with
       | Some cc => match compoundContext.fileId cc with Some f => f | None => fid end
       | None => fid
       end).

(** The inode of the share's root, or a nil dereference. *)
Definition root_inode : M Z :=
  let* r := call (fun fs => fs_GetAttr fs 0) in
  match r with
  | inl a => lift (Attributes.GetInodeNumber a)
  | inr _ => panic
  end.

End tree.

Lemma bind_inv {A B} (m : M A) (k : A -> M B) e b e' :
  bind m k e = Ok (b, e') -> exists a e1, m e = Ok (a, e1) /\ k a e1 = Ok (b, e').
Proof. unfold bind. destruct (m e) as [[a e1]|?|]; [|done..]. cbn [obind]. eauto. Qed.

Lemma lift_inv {A} (o : outcome A) e a e' : lift o e = Ok (a, e') -> o = Ok a /\ e' = e.
Proof. unfold lift. destruct o; [|done..]. by intros [= -> ->]. Qed.

(** Running one step. *)
Lemma bind_run {A B} (m : M A) (k : A -> M B) e a e1 : m e = Ok (a, e1) -> bind m k e = k a e1.
Proof. intros Hm. unfold bind. by rewrite Hm. Qed.
Lemma bind_lift {A B} (o : outcome A) (k : A -> M B) e a : o = Ok a -> bind (lift o) k e = k a e.
Proof. by intros ->. Qed.
Lemma bind_ret {A B} (a : A) (k : A -> M B) e : bind (ret a) k e = k a e.
Proof. done. Qed.
Lemma bind_get_ctx {B} (k : _ -> M B) e : bind get_ctx k e = k (e_cc e) e.
Proof. done. Qed.
Lemma bind_get_server {B} (k : _ -> M B) e : bind get_server k e = k (w_server (e_w e)) e.
Proof. done. Qed.
Lemma bind_get_world {B} (k : _ -> M B) e : bind get_world k e = k (e_w e) e.
Proof. done. Qed.
Lemma bind_put_server {B} d (k : _ -> M B) e :
  bind (put_server d) k e = k tt (mkEnv (set_server d (e_w e)) (e_cc e)).
Proof. done. Qed.

(** ** Properties of every step

    [keeps R m]: whenever [m] returns, the states before and after are
    related by [R].  For a preorder it is enough to look at the primitives. *)

Definition keeps {A} (R : env -> env -> Prop) (m : M A) : Prop :=
  forall e a e', m e = Ok (a, e') -> R e e'.

(** Whenever [m] returns, its result has [P]. *)
Definition yields {A} (P : A -> Prop) (m : M A) : Prop := forall e a e', m e = Ok (a, e') -> P a.

Lemma yields_ret {A} (P : A -> Prop) a : P a -> yields P (ret a).
Proof. by intros Ha e a' e' [= <- _]. Qed.
Lemma yields_panic {A} (P : A -> Prop) : yields P panic.
Proof. by intros e a e' ?. Qed.
Lemma yields_lift {A} (P : A -> Prop) (o : outcome A) : (forall a, o = Ok a -> P a) -> yields P (lift o).
Proof. intros Ho e a e'. unfold lift. destruct o; [|done..]. intros [= <- _]. by apply Ho. Qed.
Lemma yields_bind {A B} (P : A -> Prop) (Q : B -> Prop) (m : M A) (k : A -> M B) :
  yields P m -> (forall a, P a -> yields Q (k a)) -> yields Q (bind m k).
Proof.
  intros Hm Hk e b e'. unfold bind. destruct (m e) as [[a e1]|?|] eqn:E; [|done..]. cbn [obind].
  intros Hb. eapply Hk; [by eapply Hm|done].
Qed.
Lemma yields_any {A} (m : M A) : yields (fun _ => True) m.
Proof. done. Qed.

Section keeps.
Context (R : env -> env -> Prop) `{!PreOrder R}.

Lemma keeps_ret {A} (a : A) : keeps R (ret a).
Proof. intros e a' e' [= _ <-]. reflexivity. Qed.
Lemma keeps_panic {A} : keeps R (panic (A := A)).
Proof. by intros e a e' ?. Qed.
Lemma keeps_lift {A} (o : outcome A) : keeps R (lift o).
Proof. intros e a e'. unfold lift. destruct o; [|done..]. intros [= _ <-]. reflexivity. Qed.
Lemma keeps_bind {A B} (m : M A) (k : A -> M B) :
  keeps R m -> (forall a, keeps R (k a)) -> keeps R (bind m k).
Proof.
  intros Hm Hk e b e'. unfold bind. destruct (m e) as [[a e1]|?|] eqn:E; [|done..]. cbn [obind].
  intros Hb. etransitivity; [by eapply Hm|by eapply Hk].
Qed.
(** With what is known of the first result. *)
Lemma keeps_bind_yields {A B} (P : A -> Prop) (m : M A) (k : A -> M B) :
  keeps R m -> yields P m -> (forall a, P a -> keeps R (k a)) -> keeps R (bind m k).
Proof.
  intros Hm Hp Hk e b e'. unfold bind. destruct (m e) as [[a e1]|?|] eqn:E; [|done..]. cbn [obind].
  intros Hb. etransitivity; [by eapply Hm|eapply Hk; [by eapply Hp|done]].
Qed.
(** A change of the server's tables. *)
Lemma keeps_modify {A} (f : Server.t -> Server.t) (k : Server.t -> M A) :
  (forall e, R e (mkEnv (set_server (f (w_server (e_w e))) (e_w e)) (e_cc e))) ->
  (forall d, keeps R (k d)) ->
  keeps R (let* d := get_server in let* _ := put_server (f d) in k d).
Proof.
  intros Hf Hk e a e' Hr. unfold bind, get_server, put_server, set_world, get_world, ret in Hr.
  cbn [obind] in Hr. unfold bind in Hr. cbn [obind] in Hr. apply Hk in Hr. etransitivity; [|exact Hr].
  apply Hf.
Qed.
Lemma keeps_get_world : keeps R get_world.
Proof. intros e a e' [= _ <-]. reflexivity. Qed.
Lemma keeps_get_ctx : keeps R get_ctx.
Proof. intros e a e' [= _ <-]. reflexivity. Qed.
Lemma keeps_get_server : keeps R get_server.
Proof. apply keeps_bind; [apply keeps_get_world|intros; apply keeps_ret]. Qed.
Lemma keeps_get_tree t : keeps R (get_tree t).
Proof. apply keeps_bind; [apply keeps_get_world|intros; apply keeps_lift]. Qed.
Lemma keeps_session_conn t : keeps R (session_conn t).
Proof.
  apply keeps_bind; [apply keeps_get_tree|intros]. apply keeps_bind; [apply keeps_lift|intros].
  apply keeps_bind; [apply keeps_get_world|intros; apply keeps_ret].
Qed.
Lemma keeps_getOpen h : keeps R (getOpen h).
Proof. apply keeps_bind; [apply keeps_get_server|intros; apply keeps_ret]. Qed.
Lemma keeps_request_file f : keeps R (request_file f).
Proof.
  apply keeps_bind; [apply keeps_lift|intros]. apply keeps_bind; [apply keeps_get_ctx|intros].
  apply keeps_ret.
Qed.
End keeps.

Create HintDb keeps discriminated.
#[export] Hint Resolve keeps_ret keeps_panic keeps_lift keeps_get_world keeps_get_ctx
  keeps_get_server keeps_get_tree keeps_session_conn keeps_getOpen keeps_request_file : keeps.

(** Walks a handler down to its primitives; what is left is about them. *)
Ltac walk_step :=
  cbv beta zeta;
  first
  [ solve [eauto 3 with keeps typeclass_instances]
  | match goal with
    | |- forall _, _ => intro
    | |- keeps _ (bind get_server (fun d => bind (put_server (@?f d)) (fun _ => @?k d))) =>
        apply (keeps_modify _ f k)
    | |- keeps _ (bind _ _) => apply keeps_bind; [typeclasses eauto| |]
    | |- keeps _ (match ?x with _ => _ end) => destruct x eqn:?
    end ].
Ltac walk := repeat walk_step.

(** The same for results: what a bound computation returns is forgotten. *)
Ltac walk_yields :=
  repeat (cbv beta zeta;
    match goal with
    | |- forall _, _ => intro
    | |- yields _ (ret _) => apply yields_ret
    | |- yields _ panic => apply yields_panic
    | |- yields _ (bind (lift ?o) _) =>
        apply (yields_bind (fun a => o = Ok a)); [by apply yields_lift|]
    | |- yields _ (bind _ _) => apply (yields_bind (fun _ => True)); [apply yields_any|]
    | |- yields _ (match ?x with _ => _ end) => destruct x eqn:?
    end).

(** ** Running a step of a file tree

    [file_env fs st h o e]: the tree [t] is on the share [id], whose file
    system is [fs] in state [st], and the handle [h] is that of the open [o]. *)

Section file_env.
Context (t : nat) (id : Z) (fs : VFSFileSystem).

Record fs_env (st : fs_state fs) (e : env) : Prop := {
  fe_tree : exists tc, conn.trees (w_conn (e_w e)) !! t = Some tc /\ treeConn.ops tc = fileTree id;
  fe_fs : w_fs (e_w e) !! id = Some (fs_with fs st)
}.
Record file_env (st : fs_state fs) (h : Z) (o : Open.t) (e : env) : Prop := {
  fe_env : fs_env st e;
  fe_open : Server.opens (w_server (e_w e)) !! h = Some o
}.

(** Everything but the file systems is as it was. *)
Definition only_fs (e e' : env) : Prop :=
  e_cc e' = e_cc e /\ w_conn (e_w e') = w_conn (e_w e) /\ w_server (e_w e') = w_server (e_w e)
  /\ w_aapl (e_w e') = w_aapl (e_w e) /\ w_tasks (e_w e') = w_tasks (e_w e).

(** A method runs on the state. *)
Lemma call_run {A} (m : forall fs, fs_state fs -> A * fs_state fs) st e :
  fs_env st e ->
  exists e', call t m e = Ok (fst (m (fs_with fs st) st), e')
    /\ fs_env (snd (m (fs_with fs st) st)) e' /\ only_fs e e'.
Proof.
  intros [(tc & Ht & Hops) Hfs]. unfold call, get_tree, bind, get_world, lift, session.deref.
  cbn [obind]. rewrite Ht. cbn [obind]. rewrite Hops. cbn [obind]. rewrite Hfs. unfold fs_call.
  cbn [fs_cur fs_with]. destruct (m (fs_with fs st) st) as [a st'] eqn:Hm. cbn [fst snd].
  eexists. split; [reflexivity|]. split; [|done].
  split; cbn [e_w w_conn w_fs w_server set_fs].
  - by exists tc.
  - by rewrite lookup_insert_eq.
Qed.

Lemma call_ok {A} (m : forall fs, fs_state fs -> A * fs_state fs) st h o e :
  file_env st h o e ->
  exists e', call t m e = Ok (fst (m (fs_with fs st) st), e')
    /\ file_env (snd (m (fs_with fs st) st)) h o e' /\ only_fs e e'.
Proof.
  intros [He Ho]. destruct (call_run m st e He) as (e' & Hc & He' & Hs). exists e'.
  split; [done|]. split; [|done]. split; [done|]. destruct Hs as (_ & _ & -> & _). done.
Qed.

(** The file id is that of the request, when it is not in a compound. *)
Lemma request_file_ok s fid e :
  e_cc e = None -> (let! s := s in FileIdDecoder.Decode s) = Ok fid -> request_file s e = Ok (fid, e).
Proof. intros Hc Hs. unfold request_file. rewrite (bind_lift _ _ _ fid) by done. rewrite bind_get_ctx. by rewrite Hc. Qed.

Lemma session_conn_ok tc p e :
  conn.trees (w_conn (e_w e)) !! t = Some tc -> treeConn.session tc = Some p ->
  session_conn t e = Ok (w_conn (e_w e), e).
Proof.
  intros Ht Hs. unfold session_conn, get_tree, bind, get_world, lift, session.deref. cbn [obind].
  rewrite Ht. cbn [obind]. by rewrite Hs.
Qed.

Lemma getOpen_ok st h o e : file_env st h o e -> getOpen h e = Ok (Some o, e).
Proof. intros [_ Ho]. unfold getOpen, get_server, bind, get_world, ret, Server.getOpen. cbn [obind]. by rewrite Ho. Qed.

Lemma update_open_ok f st h o e :
  file_env st h o e ->
  exists e', update_open h f e = Ok (tt, e') /\ file_env st h (f o) e'
    /\ e_cc e' = e_cc e /\ w_conn (e_w e') = w_conn (e_w e)
    /\ w_aapl (e_w e') = w_aapl (e_w e) /\ w_tasks (e_w e') = w_tasks (e_w e).
Proof.
  intros [[Ht Hfs] Ho]. eexists. split; [reflexivity|]. split; [|done].
  split; [by split|]. cbn [e_w w_conn w_fs w_server set_server Server.opens].
  by rewrite lookup_alter_eq, Ho.
Qed.
End file_env.

(** ** Concrete checks *)

Definition toy_attrs (ty : FileType) : Attributes.t :=
  Attributes.SetInodeNumber 9 (Attributes.SetLinkCount 1
    (Attributes.SetFileType ty (Attributes.SetSizeBytes 3 Attributes.zero))).
Definition toy_entries : list DirInfo.t :=
  [DirInfo.mk [0x61] (toy_attrs FileTypeRegularFile); DirInfo.mk [0x62] (toy_attrs FileTypeDirectory)].

(** A file system with the file "f", whose three bytes are 1, 2 and 3, and a
    directory; the state is what is unread of the directory and a record of
    the handles that were unlinked (negative) and closed. *)
Definition toy_fs : VFSFileSystem :=
  let state := (list DirInfo.t * list Z)%type in
  let attr := (fun _ s => (inl (toy_attrs FileTypeRegularFile), s)) : Z -> state -> result Attributes.t * state in
  mkVFS state attr
    (fun _ _ s => (inl None, s))
    (fun _ s => (inl None, s))
    (fun _ s => (None, s)) (fun _ s => (None, s))
    (fun _ _ _ s => (inl 4, s))
    (fun h s => (None, (fst s, snd s ++ [h])))
    (fun _ name s => (if bool_decide (name = [0x66]) then inl (toy_attrs FileTypeRegularFile)
                      else inr not_exist, s))
    (fun _ _ s => (inl (toy_attrs FileTypeDirectory), s))
    (fun _ buf _ _ s => ((take (length buf) [1; 2; 3], Z.min (blen buf) 3, None), s))
    (fun _ b _ _ s => ((blen b, None), s))
    (fun _ s => (inl 4, s))
    (fun _ flag n s =>
       let l := if has flag ReadDirRestart then toy_entries else fst s in
       match l with
       | [] => (inr io_EOF, ([], snd s))
       | _ => (inl (take (Z.to_nat n) l), (drop (Z.to_nat n) l, snd s))
       end)
    (fun _ s => (inl [0x2f; 0x66], s))
    (fun h s => (None, (fst s, snd s ++ [- h])))
    (fun _ _ s => (None, s)) (fun _ _ _ s => (Ok None, s))
    (fun _ _ _ s => (inl (toy_attrs FileTypeSymlink), s))
    (fun _ _ _ s => (inl None, s))
    (fun _ s => (inl [], s))
    (fun _ _ _ s => (([], 0, Some other_error), s))
    (fun _ _ _ s => (None, s)) (fun _ _ s => (None, s))
    ([], []).

(** A connection with a session and the share in tree 3, and the tables [d]. *)
Definition toy_tree_conn (sess : option nat) : treeConn.t := treeConn.mk sess 1 0 [0x53] 1 (fileTree 4).
Definition toy_file_conn (sess : option nat) : conn.t :=
  conn.mk (Some 0%nat) {[7 := 0%nat]} {[0%nat := toy_session]} 0 SMB302 0 0 0 true 0 0 [] 0 0 false
    (account.mk 128 1 0) true STATE_SESSION_ACTIVE {[3%nat := toy_tree_conn sess]}
    {[ [0x53] := 3%nat ]} {[1 := 3%nat]} [].
Definition toy_file_world (d : Server.t) : world :=
  mkWorld (ServerNegotiator.mk false 0 None) [] (toy_file_conn (Some 0%nat)) d {[4 := toy_fs]} ∅ [] ∅ 0x10000.
Definition toy_file_env (d : Server.t) : env := mkEnv (toy_file_world d) None.
Definition toy_tables : Server.t := Server.mk {[4 := toy_open 4 9 false]} None ∅.

(** Enough to evaluate whether a step returns. *)
Lemma returns {A} (o : outcome (A * env)) :
  match o with Ok _ => true | _ => false end = true -> exists a e, o = Ok (a, e).
Proof. destruct o as [[a e]|?|]; [by exists a, e|done..]. Qed.

Lemma toy_file_env_ok : file_env 3 4 toy_fs ([], []) 4 (toy_open 4 9 false) (toy_file_env toy_tables).
Proof. split; [|reflexivity]. split; [by exists (toy_tree_conn (Some 0%nat))|reflexivity]. Qed.
