(* ===== verification/Dcerpc.v ===== *)
(** * DCE/RPC and the server service (internal/smb2/dcerpc.go, internal/msrpc/msrpc.go)

    The RPC messages the IPC tree answers, and those of the client: binding
    to the server service and listing the shares.  The referent ids come from
    a counter, which the encoders take as it is when they run. *)

From S2P Require Import Prelude Const Packet Utf16 Paths Request.

Definition PacketTypeRequest : Z := 0.
Definition PacketTypeResponse : Z := 2.
Definition PacketTypeBind : Z := 11.
Definition PacketTypeBindAck : Z := 12.
Definition OpNetShareEnumAll : Z := 15.
Definition OpNetShareGetInfo : Z := 16.
Definition StypeDisktree : Z := 0.

Definition SRVSVC_UUID : bytes :=
  [0xc8; 0x4f; 0x32; 0x4b; 0x70; 0x16; 0xd3; 0x01; 0x12; 0x78; 0x5a; 0x47; 0xbf; 0x6e; 0xe1; 0x88].
Definition NDR_UUID : bytes :=
  [0x04; 0x5d; 0x88; 0x8a; 0xeb; 0x1c; 0xc9; 0x11; 0x9f; 0xe8; 0x08; 0x00; 0x2b; 0x10; 0x48; 0x60].
Definition UUIDIsEqual (a b : bytes) : bool := bool_decide (a = b).

(** [len(s)] of a Go string: the bytes of its UTF-8. *)
Definition utf8_len (s : gostring) : Z :=
  foldl (fun n r => n + (if r <? 0x80 then 1 else if r <? 0x800 then 2 else if r <? 0x10000 then 3 else 4)) 0 s.

(** [for _, x := range xs { e(off, x); off += size(x) }] *)
Fixpoint each {A} (off : Z) (e : A -> enc) (size : A -> Z) (xs : list A) : enc :=
  match xs with
  | [] => eskip
  | x :: xs => at_ off (e x) >> each (off + size x) e size xs
  end.

(** ** Headers *)

Module DCEHeader.
Record t := mk {
  Version : Z; VersionMinor : Z; PacketType : Z; PacketFlags : Z; DataRepresentation : bytes;
  FragLength : Z; AuthLength : Z; CallID : Z
}.
Definition encodeHeader (h : t) : enc :=
  put8 0 (Version h) >> put8 1 (VersionMinor h) >> put8 2 (PacketType h) >> put8 3 (PacketFlags h)
  >> copy_from 4 (DataRepresentation h) >> put16 8 (FragLength h) >> put16 10 (AuthLength h)
  >> put32 12 (CallID h).
(** Of a message of the server. *)
Definition answer (ty frag call : Z) : t := mk 5 0 ty 3 [0x10; 0; 0; 0] (u16 frag) 0 call.
End DCEHeader.

Module DCERequestDecoder.
Definition IsInvalid (r : slice) : bool := s_len r <? 16.
Definition Header (r : slice) : outcome DCEHeader.t :=
  let! v := s_idx r 0 in
  let! m := s_idx r 1 in
  let! ty := s_idx r 2 in
  let! fl := s_idx r 3 in
  let! rep := s_from r 4 in
  let! frag := get16 r 8 10 in
  let! auth := get16 r 10 12 in
  let! call := get32 r 12 16 in
  Ok (DCEHeader.mk v m ty fl (splice 0 (s_bytes rep) (zeros 4)) frag auth call).
End DCERequestDecoder.

(** ** Binding *)

Module TransferSyntax.
Record t := mk { SyntaxUUID : bytes; VersionMajor : Z; VersionMinor : Z }.
End TransferSyntax.

Module ContextRequestItem.
Record t := mk {
  ContextID : Z; TransferSyntaxCount : Z; InterfaceUUID : bytes; VersionMajor : Z; VersionMinor : Z;
  TransferSyntaxes : list TransferSyntax.t
}.
End ContextRequestItem.

Module DCEBindRequestDecoder.
Definition MaxSendFragSize (r : slice) : outcome Z := get16 r 16 18.
Definition MaxRecvFragSize (r : slice) : outcome Z := get16 r 18 20.
Definition AssocGroupID (r : slice) : outcome Z := get32 r 20 24.
Definition NumCtxItems (r : slice) : outcome Z := s_idx r 24.
(** [copy(uuid[:], r[off:])] *)
Definition uuid (r : slice) (off : Z) : outcome bytes :=
  let! s := s_from r off in Ok (splice 0 (s_bytes s) (zeros 16)).
Fixpoint syntaxes (r : slice) (off : Z) (n : nat) : outcome (list TransferSyntax.t) :=
  match n with
  | O => Ok []
  | S n =>
      let! u := uuid r off in
      let! major := get16 r (off + 16) (off + 18) in
      let! minor := get16 r (off + 18) (off + 20) in
      let! rest := syntaxes r (off + 20) n in
      Ok (TransferSyntax.mk u major minor :: rest)
  end.
Fixpoint items (r : slice) (off : Z) (n : nat) : outcome (list ContextRequestItem.t) :=
  match n with
  | O => Ok []
  | S n =>
      let! id := get16 r off (off + 2) in
      let! count := s_idx r (off + 2) in
      let! u := uuid r (off + 4) in
      let! major := get16 r (off + 20) (off + 22) in
      let! minor := get16 r (off + 22) (off + 24) in
      let! ts := syntaxes r (off + 24) (Z.to_nat count) in
      let! rest := items r (off + 24 + 20 * count) n in
      Ok (ContextRequestItem.mk id count u major minor ts :: rest)
  end.
Definition CtxItems (r : slice) : outcome (list ContextRequestItem.t) :=
  let! n := NumCtxItems r in items r 28 (Z.to_nat n).
End DCEBindRequestDecoder.

Module ContextResponseItem.
Record t := mk { Result : Z; TransferUUID : bytes; TransferVersion : Z }.
Definition Encode (i : t) : enc :=
  put32 0 (Result i) >> copy_from 4 (TransferUUID i) >> put32 20 (TransferVersion i).
End ContextResponseItem.

Module DCEBindAck.
Record t := mk {
  CallID : Z; MaxSendFragSize : Z; MaxRecvFragSize : Z; AssocGroupID : Z; SecAddrLen : Z;
  SecAddr : bytes; CtxCount : Z; CtxItems : list ContextResponseItem.t
}.
Definition Size (r : t) : Z := Align (30 + SecAddrLen r) 2 + CtxCount r * 24.
Definition Encode (r : t) : enc :=
  let or_default (n : Z) := if n =? 0 then 5840 else n in
  DCEHeader.encodeHeader (DCEHeader.answer PacketTypeBindAck (Size r) (CallID r))
  >> put16 16 (or_default (MaxSendFragSize r)) >> put16 18 (or_default (MaxRecvFragSize r))
  >> put32 20 (AssocGroupID r) >> put16 24 (SecAddrLen r) >> copy_from 26 (SecAddr r)
  >> put8 39 0 >> put8 40 (CtxCount r)
  >> each 44 ContextResponseItem.Encode (fun _ => 24) (CtxItems r).
End DCEBindAck.

(** ** Requests and their answers *)

Module DCERequestRes.
Record t := mk { CallID : Z; AllocHint : Z; ContextId : Z; CancelCount : Z; Data : option Encoder }.
Definition Size (r : t) : Z :=
  match Data r with None => 24 | Some d => 24 + Packet.Size d end.
Definition Encode (r : t) : enc :=
  DCEHeader.encodeHeader (DCEHeader.answer PacketTypeResponse (Size r) (CallID r))
  >> put32 16 (AllocHint r) >> put16 20 (ContextId r) >> put8 22 (CancelCount r)
  >> match Data r with None => eskip | Some d => at_ 24 (Packet.Encode d) end.
End DCERequestRes.

Module DCERequestReqDecoder.
Definition AllocHint (r : slice) : outcome Z := get32 r 16 20.
Definition ContextId (r : slice) : outcome Z := get16 r 20 22.
Definition Opnum (r : slice) : outcome Z := get16 r 22 24.
Definition Data (r : slice) : outcome slice := s_from r 24.
End DCERequestReqDecoder.

Module UnicodeStr.
Record t := mk { MaxCount : Z; Offset : Z; ActualCount : Z; EncodedString : bytes }.
Definition Size (s : t) : Z := 12 + Align (u32 (ActualCount s * 2)) 4.
Definition Encode (s : t) : enc :=
  put32 0 (MaxCount s) >> put32 4 (Offset s) >> put32 8 (ActualCount s)
  >> copy_from 12 (EncodedString s).
End UnicodeStr.

(** The counts are those of the UTF-8 bytes, with the final zero. *)
Definition makeUnicodeStr (s : gostring) : outcome UnicodeStr.t :=
  let str := s ++ [0] in
  let! b := EncodeStringToBytes str in
  Ok (UnicodeStr.mk (u32 (utf8_len str)) 0 (u32 (utf8_len str)) b).

Module ShareInfo1.
Record t := mk { Name : UnicodeStr.t; Type_ : Z; Comment : UnicodeStr.t }.
Definition Size (i : t) : Z := UnicodeStr.Size (Name i) + UnicodeStr.Size (Comment i).
Definition Encode (i : t) : enc :=
  UnicodeStr.Encode (Name i) >> at_ (UnicodeStr.Size (Name i)) (UnicodeStr.Encode (Comment i)).
End ShareInfo1.

(** The fixed parts with their two referents each, then the strings. *)
Module NetShareInfo1.
Record t := mk { Count : Z; Pointer : list ShareInfo1.t }.
Definition Size (n : t) : Z := foldl (fun s i => s + (ShareInfo1.Size i + 12)) 4 (Pointer n).
Fixpoint fixed (ref off : Z) (l : list ShareInfo1.t) : enc :=
  match l with
  | [] => eskip
  | i :: l =>
      put32 off (u32 ref) >> put32 (off + 4) (ShareInfo1.Type_ i) >> put32 (off + 8) (u32 (ref + 1))
      >> fixed (ref + 2) (off + 12) l
  end.
Definition Encode (ref : Z) (n : t) : enc :=
  put32 0 (Count n) >> fixed ref 4 (Pointer n)
  >> each (4 + 12 * Z.of_nat (length (Pointer n))) ShareInfo1.Encode ShareInfo1.Size (Pointer n).
Definition refs (n : t) : Z := 2 * Z.of_nat (length (Pointer n)).
End NetShareInfo1.

Module NetShareCtr1.
Record t := mk { Count : Z; Info : NetShareInfo1.t }.
Definition Size (n : t) : Z := NetShareInfo1.Size (Info n) + 8.
Definition Encode (ref : Z) (n : t) : enc :=
  put32 0 (Count n) >> put32 4 (u32 ref) >> at_ 8 (NetShareInfo1.Encode (ref + 1) (Info n)).
Definition refs (n : t) : Z := 1 + NetShareInfo1.refs (Info n).
End NetShareCtr1.

Module NetShareCtr.
Record t := mk { Ctr : Z; Pointer : NetShareCtr1.t }.
Definition Size (n : t) : Z := if Ctr n =? 1 then 8 + NetShareCtr1.Size (Pointer n) else 0.
Definition Encode (ref : Z) (n : t) : enc :=
  put32 0 (Ctr n) >> put32 4 (u32 ref) >> at_ 8 (NetShareCtr1.Encode (ref + 1) (Pointer n)).
Definition refs (n : t) : Z := 1 + NetShareCtr1.refs (Pointer n).
End NetShareCtr.

Module NetShareEnumAllResponse.
Record t := mk { Level : Z; Ctr : NetShareCtr.t; TotalEntries : Z; Resume : Z; WindowsError : Z }.
Definition Size (r : t) : Z := 20 + NetShareCtr.Size (Ctr r).
Definition Encode (ref : Z) (r : t) : enc :=
  let off := 4 + NetShareCtr.Size (Ctr r) in
  put32 0 (Level r) >> at_ 4 (NetShareCtr.Encode ref (Ctr r)) >> put32 off (TotalEntries r)
  >> put32 (off + 4) (u32 (ref + NetShareCtr.refs (Ctr r))) >> put32 (off + 8) (Resume r)
  >> put32 (off + 12) (WindowsError r).
(** How far the counter of referents goes. *)
Definition refs (r : t) : Z := NetShareCtr.refs (Ctr r) + 1.
End NetShareEnumAllResponse.

Fixpoint share_infos (shares : list gostring) : outcome (list ShareInfo1.t) :=
  match shares with
  | [] => Ok []
  | share :: rest =>
      let! name := makeUnicodeStr share in
      let! comment := makeUnicodeStr [] in
      let! rest := share_infos rest in
      Ok (ShareInfo1.mk name StypeDisktree comment :: rest)
  end.

Definition MakeNetShareEnumAllResponse (shares : list gostring) : outcome NetShareEnumAllResponse.t :=
  let count := u32 (Z.of_nat (length shares)) in
  let! infos := share_infos shares in
  Ok (NetShareEnumAllResponse.mk 1
        (NetShareCtr.mk 1 (NetShareCtr1.mk count (NetShareInfo1.mk count infos))) count 0 0).

Module NetShareGetInfoRequestDecoder.
Definition ServerName (r : slice) : outcome gostring :=
  let! len1 := get32f r 12 in
  if s_len r <? 16 + len1 * 2 then Ok [] else
  let! bs := s_range r 16 (16 + len1 * 2) in DecodeToString bs.
(** The offset is counted twice in the check. *)
Definition ShareName (r : slice) : outcome gostring :=
  let! server := ServerName r in
  let off := 16 + Align (utf8_len server) 2 * 2 in
  let! len1 := get32f r (off + 8) in
  if s_len r <? off + off + 12 + len1 * 2 then Ok [] else
  let! bs := s_range r (off + 12) (off + 12 + len1 * 2) in DecodeToString bs.
Definition Level (r : slice) : outcome Z :=
  let! server := ServerName r in
  let! share := ShareName r in
  let off := 28 + Align (utf8_len server) 2 * 2 + Align (utf8_len share) 2 * 2 in
  if s_len r <? off then Ok 0 else get32f r off.
End NetShareGetInfoRequestDecoder.

Module NetShareGetInfo1.
Record t := mk { Name : UnicodeStr.t; Type_ : Z; Comment : UnicodeStr.t }.
Definition Size (n : t) : Z := UnicodeStr.Size (Comment n) + UnicodeStr.Size (Name n) + 12.
Definition Encode (ref : Z) (n : t) : enc :=
  put32 0 (u32 ref) >> put32 4 (Type_ n) >> put32 8 (u32 (ref + 1))
  >> at_ 12 (UnicodeStr.Encode (Name n))
  >> at_ (12 + UnicodeStr.Size (Name n)) (UnicodeStr.Encode (Comment n)).
End NetShareGetInfo1.

Module NetShareGetInfoResponse.
Record t := mk { Level : Z; Pointer : NetShareGetInfo1.t; WindowsError : Z }.
Definition Size (n : t) : Z := NetShareGetInfo1.Size (Pointer n) + 12.
Definition Encode (ref : Z) (n : t) : enc :=
  put32 0 (Level n) >> put32 4 (u32 ref) >> at_ 8 (NetShareGetInfo1.Encode (ref + 1) (Pointer n))
  >> put32 (8 + NetShareGetInfo1.Size (Pointer n)) (WindowsError n).
Definition refs : Z := 3.
End NetShareGetInfoResponse.

(** "comment" *)
Definition MakeGetInfoShareResponse (share : gostring) : outcome NetShareGetInfoResponse.t :=
  let! name := makeUnicodeStr share in
  let! comment := makeUnicodeStr (lit "comment") in
  Ok (NetShareGetInfoResponse.mk 1 (NetShareGetInfo1.mk name StypeDisktree comment) 0).

(** ** The client (internal/msrpc/msrpc.go) *)

Module msrpc.

Definition RPC_VERSION : Z := 5.
Definition RPC_VERSION_MINOR : Z := 0.
Definition RPC_TYPE_REQUEST : Z := 0.
Definition RPC_TYPE_RESPONSE : Z := 2.
Definition RPC_TYPE_BIND : Z := 11.
Definition RPC_TYPE_BIND_ACK : Z := 12.
Definition RPC_PACKET_FLAG_FIRST : Z := 1.
Definition RPC_PACKET_FLAG_LAST : Z := 2.
Definition SRVSVC_VERSION : Z := 3.
Definition SRVSVC_VERSION_MINOR : Z := 0.
Definition NDR_VERSION : Z := 2.
Definition OP_NET_SHARE_ENUM : Z := 15.

Definition roundup (x align : Z) : Z := andnot (x + (align - 1)) (align - 1).

(** The first eight bytes of a message of the client. *)
Definition preamble (ty : Z) : enc :=
  put8 0 RPC_VERSION >> put8 1 RPC_VERSION_MINOR >> put8 2 ty
  >> put8 3 (Z.lor RPC_PACKET_FLAG_FIRST RPC_PACKET_FLAG_LAST)
  >> put8 4 0x10 >> put8 5 0 >> put8 6 0 >> put8 7 0.

(** [hex.Decode] of the two constants writes the bytes of the UUIDs. *)
Module Bind.
Record t := mk { CallId : Z }.
Definition Size (r : t) : Z := 72.
Definition Encode (r : t) : enc :=
  preamble RPC_TYPE_BIND
  >> put16 8 72 >> put16 10 0 >> put32 12 (CallId r) >> put16 16 4280 >> put16 18 4280
  >> put32 20 0 >> put32 24 1 >> put16 28 0 >> put16 30 1
  >> in_ 32 48 (put 0 SRVSVC_UUID) >> put16 48 SRVSVC_VERSION >> put16 50 SRVSVC_VERSION_MINOR
  >> in_ 52 68 (put 0 NDR_UUID) >> put32 68 NDR_VERSION.
End Bind.

(** Is it a message of this type? *)
Definition bad_message (ty : Z) (c : slice) : outcome bool :=
  if s_len c <? 24 then Ok true else
  let! v := s_idx c 0 in
  if negb (v =? RPC_VERSION) then Ok true else
  let! m := s_idx c 1 in
  if negb (m =? RPC_VERSION_MINOR) then Ok true else
  let! t := s_idx c 2 in Ok (negb (t =? ty)).

Module BindAckDecoder.
Definition IsInvalid (c : slice) : outcome bool := bad_message RPC_TYPE_BIND_ACK c.
Definition PacketFlags (c : slice) : outcome Z := s_idx c 3.
Definition DataRepresentation (c : slice) : outcome slice := s_range c 4 8.
Definition FragLength (c : slice) : outcome Z := get16 c 8 10.
Definition AuthLength (c : slice) : outcome Z := get16 c 10 12.
Definition CallId (c : slice) : outcome Z := get32 c 12 16.
Definition MaxXmitFrag (c : slice) : outcome Z := get16 c 16 18.
Definition MaxRecvFrag (c : slice) : outcome Z := get16 c 18 20.
Definition AssocGroupId (c : slice) : outcome Z := get32 c 20 24.
End BindAckDecoder.

Module NetShareEnumAllRequest.
Record t := mk { CallId : Z; ServerName : gostring; Level : Z }.
Definition Size (r : t) : Z := roundup (40 + EncodedStringLen (ServerName r) + 2) 4 + 24 + 4.
Definition Encode (r : t) : enc :=
  let count := EncodedStringLen (ServerName r) / 2 + 1 in
  let off := roundup (40 + count * 2) 4 in
  preamble RPC_TYPE_REQUEST
  >> put16 10 0 >> put32 12 (CallId r) >> put16 20 0 >> put16 22 OP_NET_SHARE_ENUM
  >> put32 24 0x20000 >> put32 28 (u32 count) >> put32 32 0 >> put32 36 (u32 count)
  >> at_ 40 (EncodeString (ServerName r))
  >> put32 off (Level r) >> put32 (off + 4) 1 >> put32 (off + 8) 0x20004 >> put32 (off + 12) 0
  >> put32 (off + 16) 0 >> put32 (off + 20) 0xffffffff >> put32 (off + 24) 0
  >> put16 8 (u16 (off + 28)) >> put32 16 (u32 (off + 28 - 24)).
End NetShareEnumAllRequest.

Module NetShareEnumAllResponseDecoder.
Definition IsInvalid (c : slice) : outcome bool := bad_message RPC_TYPE_RESPONSE c.
Definition PacketFlags (c : slice) : outcome Z := s_idx c 3.
Definition DataRepresentation (c : slice) : outcome slice := s_range c 4 8.
Definition FragLength (c : slice) : outcome Z := get16 c 8 10.
Definition AuthLength (c : slice) : outcome Z := get16 c 10 12.
Definition CallId (c : slice) : outcome Z := get32 c 12 16.
Definition AllocHint (c : slice) : outcome Z := get32 c 16 20.
Definition ContextId (c : slice) : outcome Z := get16 c 20 22.
Definition CancelCount (c : slice) : outcome Z := s_idx c 22.
Definition Buffer (c : slice) : outcome slice := s_from c 24.

(** The end of the string at [offset], or nothing when it is cut off. *)
Definition string_end (c : slice) (offset : Z) : outcome Z :=
  let! noff := get32 c (offset + 4) (offset + 8) in
  let! n := get32 c (offset + 8) (offset + 12) in
  Ok (roundup (offset + 12 + noff + n * 2) 4).
Definition next_string (c : slice) (offset : Z) : outcome (option Z) :=
  if s_len c <? offset + 12 then Ok None else
  let! stop := string_end c offset in
  Ok (if s_len c <? stop then None else Some stop).
(** [count] strings follow. *)
Fixpoint cut_off (c : slice) (offset : Z) (count : nat) : outcome bool :=
  match count with
  | O => Ok false
  | S count =>
      let! next := next_string c offset in
      match next with None => Ok true | Some offset => cut_off c offset count end
  end.
Definition IsIncomplete (c : slice) : outcome bool :=
  if s_len c <? 48 then Ok true else
  let! level := get32 c 24 28 in
  let! count := get32 c 36 40 in
  if level =? 0 then
    let offset := 48 + count * 4 in
    if s_len c <? offset then Ok true else cut_off c offset (Z.to_nat count)
  else if level =? 1 then
    let offset := 48 + count * 12 in
    if s_len c <? offset then Ok true else cut_off c offset (2 * Z.to_nat count)
  else Ok true.

Definition string_at (c : slice) (offset : Z) : outcome gostring :=
  let! noff := get32 c (offset + 4) (offset + 8) in
  let! n := get32 c (offset + 8) (offset + 12) in
  let! bs := s_range c (offset + 12 + noff) (offset + 12 + noff + n * 2) in DecodeToString bs.
(** [comments] follow the names at level 1. *)
Fixpoint names (c : slice) (comments : bool) (offset : Z) (count : nat) : outcome (list gostring) :=
  match count with
  | O => Ok []
  | S count =>
      let! s := string_at c offset in
      let! offset := string_end c offset in
      let! offset := if comments then string_end c offset else Ok offset in
      let! rest := names c comments offset count in
      Ok (s :: rest)
  end.
(** [None] is the nil list of an unsupported level. *)
Definition ShareNameList (c : slice) : outcome (option (list gostring)) :=
  let! level := get32 c 24 28 in
  let! count := get32 c 36 40 in
  if level =? 0 then let! l := names c false (48 + count * 4) (Z.to_nat count) in Ok (Some l)
  else if level =? 1 then let! l := names c true (48 + count * 12) (Z.to_nat count) in Ok (Some l)
  else Ok None.
End NetShareEnumAllResponseDecoder.

End msrpc.

(** ** Listing the shares *)

Definition ascii_name (s : gostring) : Prop := Forall (fun r => 0 <= r < 128) s /\ Z.of_nat (length s) < 2 ^ 30.

Lemma ascii_scalar s : ascii_name s -> Forall scalar s.
Proof. intros [Ha _]. eapply Forall_impl; [exact Ha|]. unfold scalar. intros r ?. lia. Qed.

Lemma ascii_encode s : ascii_name s -> utf16_Encode s = s.
Proof.
  intros [Ha _]. unfold utf16_Encode. induction Ha as [|r s Hr _ IH]; [done|].
  cbn [fmap list_fmap concat]. rewrite IH. unfold utf16_encode_rune.
  replace ((0 <=? r) && (r <? 0xd800)) with true by lia. done.
Qed.

Lemma ascii_utf8_len s : ascii_name s -> utf8_len (s ++ [0]) = Z.of_nat (length s) + 1.
Proof.
  intros [Ha _]. unfold utf8_len. rewrite foldl_app. cbn [foldl].
  assert (Hg : forall k, foldl (fun n r => n + (if r <? 0x80 then 1 else if r <? 0x800 then 2
    else if r <? 0x10000 then 3 else 4)) k s = k + Z.of_nat (length s)).
  { induction Ha as [|r s Hr _ IH]; intros k; cbn [foldl length]; [lia|]. rewrite IH.
    replace (r <? 0x80) with true by lia. lia. }
  rewrite Hg. cbn. lia.
Qed.

(** A counted string with its final zero and its padding. *)
Definition padding (n : Z) : Z := Align (2 * n) 4 - 2 * n.
Definition counted (s : gostring) : bytes :=
  let n := Z.of_nat (length s) + 1 in
  le_enc 4 n ++ le_enc 4 0 ++ le_enc 4 n ++ le16s (s ++ [0]) ++ zeros (padding n).

Lemma blen_counted s :
  blen (counted s) = 12 + Align (2 * (Z.of_nat (length s) + 1)) 4 /\ blen (counted s) mod 4 = 0.
Proof.
  pose proof (Align4 (2 * (Z.of_nat (length s) + 1)) ltac:(lia)) as [Ha Hm].
  assert (Hb : blen (counted s) = 12 + Align (2 * (Z.of_nat (length s) + 1)) 4).
  { unfold counted, padding. len_norm. rewrite length_app. cbn [length]. lia. }
  split; [done|]. rewrite Hb. rewrite Z.add_mod, Hm by lia. done.
Qed.

Lemma makeUnicodeStr_ok s :
  ascii_name s ->
  exists u, makeUnicodeStr s = Ok u /\ UnicodeStr.Size u = blen (counted s)
    /\ forall n, blen (counted s) <= n -> appends (UnicodeStr.Encode u) [] (counted s) n.
Proof.
  intros Hs. pose proof (blen_counted s) as [Hb _]. set (n := Z.of_nat (length s) + 1) in *.
  assert (Hn : 0 < n < 2 ^ 31) by (destruct Hs as [_ ?]; unfold n; lia).
  pose proof (Align4 (2 * n) ltac:(lia)) as [Ha _].
  exists (UnicodeStr.mk n 0 n (le16s (s ++ [0]))). split_and!.
  - unfold makeUnicodeStr, EncodeStringToBytes. rewrite ascii_utf8_len by done. fold n.
    rewrite u32_id by (ints; lia).
    assert (He : utf16_Encode (s ++ [0]) = s ++ [0])
      by (unfold utf16_Encode; rewrite fmap_app, concat_app; f_equal; by apply ascii_encode).
    rewrite He. rewrite put16s_ok by (len; rewrite length_app; cbn; lia).
    rewrite splice_full by (len_norm; lia). by destruct s.
  - rewrite Hb. unfold UnicodeStr.Size. cbn [UnicodeStr.ActualCount].
    rewrite u32_id by (ints; lia). by rewrite (Z.mul_comm n).
  - intros m Hm. unfold UnicodeStr.Encode, counted. fold n. rewrite Hb in Hm.
    cbn [UnicodeStr.MaxCount UnicodeStr.Offset UnicodeStr.ActualCount UnicodeStr.EncodedString].
    repeat append_step. unfold padding.
    assert (Hl : Z.of_nat (length (s ++ [0])) = n) by (rewrite length_app; unfold n; cbn; lia).
    apply appends_pad; [apply appends_copy0; len|lia|len].
Qed.

Lemma each_ok {A} (e : A -> enc) size xs bss x n :
  Forall2 (writes e size) xs bss -> blen (concat bss) <= n ->
  appends (each (blen x) e size xs) x (concat bss) n.
Proof.
  intros Hw. revert x n. induction Hw as [|a b xs bss [Hb He] _ IH]; intros x n Hn; cbn [each concat] in *.
  - apply appends_skip. done.
  - rewrite blen_app in Hn. pose proof (blen_nonneg (concat bss)). apply appends_seq.
    + apply appends_at0; [done|]. apply He. lia.
    + replace (blen x + size a) with (blen (x ++ b)) by (rewrite blen_app; lia). apply IH. lia.
Qed.

Lemma fixed_ok ref l x :
  exists b, blen b = 12 * Z.of_nat (length l)
    /\ forall n, blen b <= n -> appends (NetShareInfo1.fixed ref (blen x) l) x b n.
Proof.
  revert ref x. induction l as [|i l IH]; intros ref x; cbn [NetShareInfo1.fixed length].
  - exists []. split; [done|]. intros n Hn. apply appends_skip. done.
  - set (b := le_enc 4 (u32 ref) ++ le_enc 4 (ShareInfo1.Type_ i) ++ le_enc 4 (u32 (ref + 1))).
    assert (Hb : blen b = 12) by (unfold b; len).
    destruct (IH (ref + 2) (x ++ b)) as (b' & Hb' & He).
    exists (b ++ b'). split; [rewrite blen_app; lia|]. intros n Hn. rewrite blen_app in Hn.
    specialize (He (n - 12) ltac:(lia)). unfold b in *. rewrite <- !app_assoc.
    repeat append_step. revert He. rewrite <- !app_assoc. len_norm.
    intros He. replace (blen x + 12) with (blen x + (Z.of_nat 4 + (Z.of_nat 4 + Z.of_nat 4))) by lia.
    by replace (n - Z.of_nat 4 - Z.of_nat 4 - Z.of_nat 4) with (n - 12) by lia.
Qed.

(** A share with its empty comment. *)
Definition share_strings (s : gostring) : bytes := counted s ++ counted [].

Lemma empty_name : ascii_name [].
Proof. split; [constructor|done]. Qed.

Lemma share_infos_ok shares :
  Forall ascii_name shares ->
  exists infos, share_infos shares = Ok infos
    /\ Forall2 (writes ShareInfo1.Encode ShareInfo1.Size) infos (share_strings <$> shares).
Proof.
  induction 1 as [|s shares Hs _ (infos & Hi & Hw)]; [by exists []|].
  destruct (makeUnicodeStr_ok s Hs) as (u & Hu & Hus & Hue).
  destruct (makeUnicodeStr_ok [] empty_name) as (v & Hv & Hvs & Hve).
  exists (ShareInfo1.mk u StypeDisktree v :: infos). split.
  { cbn [share_infos]. by rewrite Hu, Hv, Hi. }
  cbn [fmap list_fmap]. constructor; [|done]. unfold writes, share_strings, ShareInfo1.Size, ShareInfo1.Encode.
  cbn [ShareInfo1.Name ShareInfo1.Comment]. rewrite Hus, Hvs, blen_app. split; [done|]. intros n Hn.
  pose proof (blen_nonneg (counted [])). apply appends_seq; [apply Hue; lia|].
  apply appends_at0; [done|]. apply Hve. lia.
Qed.

Lemma infos_size infos bss k :
  Forall2 (writes ShareInfo1.Encode ShareInfo1.Size) infos bss ->
  foldl (fun s i => s + (ShareInfo1.Size i + 12)) k infos
  = k + 12 * Z.of_nat (length infos) + blen (concat bss).
Proof.
  intros Hw. revert k. induction Hw as [|i b infos bss [Hb _] _ IH]; intros k; cbn [foldl length concat].
  - rewrite blen_nil. lia.
  - rewrite IH, blen_app. lia.
Qed.

(** The container of the shares: counts and referents, the fixed parts of
    the shares, and their strings. *)
Lemma ctr_ok ref infos bss k :
  Forall2 (writes ShareInfo1.Encode ShareInfo1.Size) infos bss ->
  exists fx, blen fx = 12 * Z.of_nat (length infos)
    /\ writes (NetShareCtr.Encode ref) NetShareCtr.Size
         (NetShareCtr.mk 1 (NetShareCtr1.mk k (NetShareInfo1.mk k infos)))
         (le_enc 4 1 ++ le_enc 4 (u32 ref) ++ le_enc 4 k ++ le_enc 4 (u32 (ref + 1)) ++ le_enc 4 k
          ++ fx ++ concat bss).
Proof.
  intros Hw. destruct (fixed_ok (ref + 1 + 1) infos (le_enc 4 k)) as (fx & Hfx & Hfe).
  exists fx. split; [done|]. pose proof (blen_nonneg (concat bss)). split.
  - unfold NetShareCtr.Size, NetShareCtr1.Size, NetShareInfo1.Size. cbn.
    rewrite (infos_size infos bss 4 Hw). len.
  - intros n. len_norm. intros Hn. unfold NetShareCtr.Encode, NetShareCtr1.Encode, NetShareInfo1.Encode.
    repeat append_step.
    apply appends_at0; [len|]. cbn [NetShareCtr.Pointer]. repeat append_step.
    apply appends_at0; [len|]. cbn [NetShareCtr1.Info]. repeat append_step.
    + rewrite blen_le_enc in Hfe. cbn [app]. apply Hfe. len.
    + cbn [NetShareInfo1.Pointer app].
      replace (4 + 12 * Z.of_nat (length infos)) with (blen (le_enc 4 k ++ fx)) by len.
      apply each_ok; [done|len].
Qed.

(** The answer of the server: a fixed part, the referents and types of the
    shares, their strings and the trailer. *)
Lemma enum_all_ok ref shares :
  Forall ascii_name shares -> Z.of_nat (length shares) < 2 ^ 30 ->
  exists resp fx tail, MakeNetShareEnumAllResponse shares = Ok resp
    /\ writes (NetShareEnumAllResponse.Encode ref) NetShareEnumAllResponse.Size resp
         (le_enc 4 1 ++ (le_enc 4 1 ++ le_enc 4 (u32 ref) ++ le_enc 4 (Z.of_nat (length shares))
           ++ le_enc 4 (u32 (ref + 1)) ++ le_enc 4 (Z.of_nat (length shares)) ++ fx
           ++ concat (share_strings <$> shares)) ++ tail)
    /\ blen fx = 12 * Z.of_nat (length shares) /\ blen tail = 16.
Proof.
  intros Hs Hn. destruct (share_infos_ok shares Hs) as (infos & Hi & Hw).
  pose proof (Forall2_length _ _ _ Hw) as Hl. rewrite length_fmap in Hl.
  set (k := Z.of_nat (length shares)) in *. set (strs := concat (share_strings <$> shares)) in *.
  destruct (ctr_ok ref infos _ k Hw) as (fx & Hfx & Hcs & Hce). fold strs in Hcs, Hce. rewrite Hl in Hfx. fold k in Hfx.
  unfold MakeNetShareEnumAllResponse. rewrite Hi, u32_id by (fold k; ints; lia). fold k. cbn [obind].
  set (ctr := NetShareCtr.mk _ _) in *.
  eexists _, fx, (le_enc 4 k ++ le_enc 4 (u32 (ref + NetShareCtr.refs ctr)) ++ le_enc 4 0 ++ le_enc 4 0).
  split; [done|]. split; [|split; [done|len]].
  set (b := le_enc 4 1 ++ le_enc 4 (u32 ref) ++ _) in *. pose proof (blen_nonneg b). split.
  - unfold NetShareEnumAllResponse.Size. cbn [NetShareEnumAllResponse.Ctr]. rewrite <- Hcs. len.
  - intros n. len_norm. intros Hle. unfold NetShareEnumAllResponse.Encode.
    cbn [NetShareEnumAllResponse.Ctr NetShareEnumAllResponse.Level NetShareEnumAllResponse.TotalEntries
         NetShareEnumAllResponse.Resume NetShareEnumAllResponse.WindowsError]. rewrite <- Hcs.
    apply appends_seq; [append_step|]. apply appends_seq; [apply appends_at0; [len|apply Hce; len]|].
    repeat append_step.
Qed.

(** The packet around an answer. *)
Lemma response_ok call hint ctx data b :
  0 <= ctx < 2 ^ 16 -> writes Packet.Encode Packet.Size data b ->
  exists h, blen h = 24 /\ upto 3 h = [5; 0; PacketTypeResponse]
    /\ let r := DCERequestRes.mk call hint ctx 0 (Some data) in
       DCERequestRes.Encode r (zeros (DCERequestRes.Size r)) = Ok (h ++ b).
Proof.
  intros Hc [Hb He]. pose proof (blen_nonneg b). set (r := DCERequestRes.mk call hint ctx 0 (Some data)).
  set (hdr := [5 mod 256] ++ [0 mod 256] ++ [PacketTypeResponse mod 256] ++ [3 mod 256] ++ [0x10; 0; 0; 0]
    ++ le_enc 2 (u16 (DCERequestRes.Size r)) ++ le_enc 2 0 ++ le_enc 4 call).
  assert (Hsz : DCERequestRes.Size r = 24 + blen b) by (unfold DCERequestRes.Size; cbn; lia).
  assert (Ha : appends (DCERequestRes.Encode r) []
                 (hdr ++ le_enc 4 hint ++ le_enc 2 ctx ++ [0 mod 256] ++ (zeros 1 ++ b)) (24 + blen b)).
  { unfold DCERequestRes.Encode. cbn [DCERequestRes.Data r].
    assert (Hh : blen hdr = 16) by (unfold hdr; len).
    apply appends_seq; [unfold DCEHeader.encodeHeader, hdr; 
      cbn [DCEHeader.answer DCEHeader.Version DCEHeader.VersionMinor DCEHeader.PacketType DCEHeader.PacketFlags
           DCEHeader.DataRepresentation DCEHeader.FragLength DCEHeader.AuthLength DCEHeader.CallID];
      repeat append_step|].
    repeat append_step.
    apply appends_at; [len|done|len|]. apply He. len. }
  exists (hdr ++ le_enc 4 hint ++ le_enc 2 ctx ++ [0 mod 256] ++ zeros 1).
  split; [unfold hdr; len|]. split; [done|]. cbv zeta. rewrite Hsz, (appends_all _ _ _ Ha).
  f_equal. replace (24 + blen b - _) with 0 by (unfold hdr; len). rewrite <- !app_assoc. by rewrite app_nil_r.
Qed.

(** *** What the client reads *)

Import msrpc.NetShareEnumAllResponseDecoder.

Lemma DecodeToString_z bs s :
  ascii_name s -> slice_wf bs -> s_bytes bs = le16s (s ++ [0]) -> DecodeToString bs = Ok s.
Proof.
  intros Hs Hwf Hb.
  assert (Hlen : s_len bs = 2 * Z.of_nat (length (s ++ [0])))
    by (rewrite <- (blen_s_bytes bs Hwf), Hb; apply blen_le16s).
  assert (Hpos : 0 < Z.of_nat (length (s ++ [0]))) by (rewrite length_app; cbn; lia).
  unfold DecodeToString. replace (s_len bs =? 0) with false by lia.
  rewrite Hlen, Z.mul_comm, Z.div_mul, Nat2Z.id by lia.
  rewrite (get16s_ok bs (s ++ [0])); cbn [obind].
  - rewrite last_snoc, length_app, Nat.add_sub, take_app_length.
    rewrite <- (ascii_encode s Hs) at 1. by rewrite utf16_Decode_Encode by (by apply ascii_scalar).
  - apply Forall_app. split; [|by repeat constructor]. destruct Hs as [Ha _].
    eapply Forall_impl; [exact Ha|]. cbn beta. intros r ?. ints. lia.
  - done.
  - destruct Hwf. lia.
  - rewrite <- Hb. unfold s_bytes. by rewrite Hlen.
Qed.

Lemma counted_fields x s y c :
  ascii_name s -> c = of_bytes (x ++ counted s ++ y) ->
  get32 c (blen x + 4) (blen x + 8) = Ok 0
  /\ get32 c (blen x + 8) (blen x + 12) = Ok (Z.of_nat (length s) + 1)
  /\ s_range c (blen x + 12) (blen x + 12 + (Z.of_nat (length s) + 1) * 2)
     = Ok (mkSlice (le16s (s ++ [0]) ++ zeros (padding (Z.of_nat (length s) + 1)) ++ y)
             (2 * (Z.of_nat (length s) + 1))).
Proof.
  intros Hs ->. pose proof (blen_counted s) as [Hb _]. pose proof (blen_nonneg x). pose proof (blen_nonneg y).
  pose proof (Align4 (2 * (Z.of_nat (length s) + 1)) ltac:(lia)) as [Ha _].
  rewrite s_range_ok; [|lia|lia|rewrite s_cap_of_bytes, !blen_app, Hb; lia].
  unfold counted. set (n := Z.of_nat (length s) + 1) in *.
  assert (Hn : 0 < n < 2 ^ 31) by (destruct Hs as [_ ?]; unfold n; lia).
  rewrite <- !app_assoc. cbn [of_bytes s_arr]. rewrite (app_assoc x (le_enc 4 n)).
  split; [|split].
  - rewrite get32_mid by len. done.
  - rewrite (app_assoc (x ++ _) (le_enc 4 0)), get32_mid by len. rewrite u32_id by (ints; lia). done.
  - do 2 rewrite app_assoc. rewrite from_app_exact by len. do 2 f_equal. lia.
Qed.

Lemma roundup_align o k : o mod 4 = 0 -> msrpc.roundup (o + k) 4 = o + Align k 4.
Proof.
  intros Ho. unfold msrpc.roundup, Align, andnot. change (4 - 1) with (Z.ones 2).
  rewrite !Z.ldiff_ones_r, !Z.shiftl_mul_pow2, !Z.shiftr_div_pow2 by lia. change (2 ^ 2) with 4. change (Z.ones 2) with 3.
  rewrite (Z.div_mod o 4) by lia. rewrite Ho, Z.add_0_r.
  replace (4 * (o / 4) + k + 3) with (k + 4 - 1 + (o / 4) * 4) by lia. rewrite Z.div_add by lia. lia.
Qed.

Lemma string_at_ok x s y c :
  ascii_name s -> c = of_bytes (x ++ counted s ++ y) -> blen x mod 4 = 0 ->
  string_at c (blen x) = Ok s /\ string_end c (blen x) = Ok (blen (x ++ counted s))
  /\ blen (x ++ counted s) mod 4 = 0.
Proof.
  intros Hs Hc Hx. destruct (counted_fields x s y c Hs Hc) as (H1 & H2 & H3).
  pose proof (blen_counted s) as [Hb Hm]. split; [|split].
  - unfold string_at. rewrite H1, H2. cbn [obind]. rewrite Z.add_0_r, H3. cbn [obind].
    assert (Hl : 2 * (Z.of_nat (length s) + 1) = blen (le16s (s ++ [0])))
      by (rewrite blen_le16s, length_app; cbn; lia).
    apply DecodeToString_z; [done| |unfold s_bytes; cbn [s_len s_arr]; by apply upto_app_exact].
    unfold slice_wf, s_cap. cbn [s_len s_arr]. rewrite Hl, blen_app. blen_pos. lia.
  - unfold string_end. rewrite H1, H2. cbn [obind]. rewrite blen_app, Hb, Z.add_0_r. f_equal.
    rewrite roundup_align by (rewrite Z.add_mod, Hx by lia; done).
    rewrite (Z.mul_comm _ 2). lia.
  - rewrite blen_app, Z.add_mod, Hx, Hm by lia. done.
Qed.

Lemma names_ok shares x y c :
  Forall ascii_name shares -> c = of_bytes (x ++ concat (share_strings <$> shares) ++ y) -> blen x mod 4 = 0 ->
  names c true (blen x) (length shares) = Ok shares
  /\ cut_off c (blen x) (2 * length shares) = Ok false.
Proof.
  intros Hs. revert x. induction Hs as [|s shares Hs Hss IH]; intros x Hc Hx; [done|].
  cbn [fmap list_fmap concat] in Hc. unfold share_strings at 1 in Hc. rewrite <- !app_assoc in Hc.
  destruct (string_at_ok x s _ c Hs Hc Hx) as (Ha & He & Hm).
  rewrite (app_assoc x) in Hc.
  destruct (string_at_ok _ [] _ c empty_name Hc Hm) as (_ & He' & Hm').
  rewrite (app_assoc (x ++ _)) in Hc. destruct (IH _ Hc Hm') as [Hn Hcut].
  assert (Hl : blen ((x ++ counted s) ++ counted []) <= s_len c).
  { rewrite Hc. cbn [of_bytes s_len]. rewrite (blen_app ((x ++ _) ++ _)). blen_pos. lia. }
  pose proof (blen_counted s) as [Hb1 _]. pose proof (blen_counted []) as [Hb2 _].
  pose proof (Align4 (2 * (Z.of_nat (length s) + 1)) ltac:(lia)) as [Hal _].
  pose proof (Align4 (2 * (Z.of_nat (length (@nil Z)) + 1)) ltac:(lia)) as [Hal' _].
  rewrite !blen_app in Hl. split.
  - cbn [names length]. rewrite Ha, He. cbn [obind]. rewrite He'. cbn [obind]. by rewrite Hn.
  - replace (2 * length (s :: shares))%nat with (S (S (2 * length shares))) by (cbn; lia).
    cbn [cut_off]. unfold next_string at 1. rewrite He. cbn [obind].
    rewrite !(proj2 (Z.ltb_ge _ _)) by (rewrite ?blen_app; lia).
    cbn [obind]. unfold next_string at 1. rewrite He'. cbn [obind].
    rewrite !(proj2 (Z.ltb_ge _ _)) by (rewrite ?blen_app; lia).
    done.
Qed.

(** A packet of the layout the server writes, as the client reads it. *)
Lemma share_packet_read h a b fx tail shares :
  Forall ascii_name shares -> Z.of_nat (length shares) < 2 ^ 30 ->
  blen h = 24 -> upto 3 h = [5; 0; PacketTypeResponse] -> blen fx = 12 * Z.of_nat (length shares) ->
  let c := of_bytes (h ++ le_enc 4 1 ++ (le_enc 4 1 ++ le_enc 4 a ++ le_enc 4 (Z.of_nat (length shares))
    ++ le_enc 4 b ++ le_enc 4 (Z.of_nat (length shares)) ++ fx ++ concat (share_strings <$> shares)) ++ tail) in
  IsInvalid c = Ok false /\ IsIncomplete c = Ok false /\ ShareNameList c = Ok (Some shares).
Proof.
  intros Hs Hn Hh Hh3 Hfx. cbv zeta. set (k := Z.of_nat (length shares)) in *. rewrite <- !app_assoc.
  set (strs := concat (share_strings <$> shares)).
  set (body := h ++ le_enc 4 1 ++ le_enc 4 1 ++ le_enc 4 a ++ le_enc 4 k ++ le_enc 4 b ++ le_enc 4 k ++ fx ++ strs ++ tail).
  assert (Hlev : get32 (of_bytes body) 24 28 = Ok 1) by (unfold body; by rewrite get32_mid by len).
  assert (Hcnt : get32 (of_bytes body) 36 40 = Ok k).
  { unfold body. do 3 rewrite app_assoc. rewrite get32_mid by len. rewrite u32_id by (ints; lia). done. }
  set (pre := h ++ le_enc 4 1 ++ le_enc 4 1 ++ le_enc 4 a ++ le_enc 4 k ++ le_enc 4 b ++ le_enc 4 k ++ fx).
  assert (Hpre : blen pre = 48 + k * 12) by (unfold pre; len).
  assert (Hbody : body = pre ++ strs ++ tail) by (unfold body, pre; by rewrite <- !app_assoc).
  assert (Hlen : 48 + k * 12 <= blen body) by (rewrite Hbody, blen_app; blen_pos; lia).
  assert (Hm : blen pre mod 4 = 0) by (rewrite Hpre; replace (48 + k * 12) with ((12 + k * 3) * 4) by lia; by rewrite Z.mod_mul).
  destruct (names_ok shares pre tail _ Hs (f_equal of_bytes Hbody) Hm) as [Hna Hcut]. rewrite Hpre in *.
  split; [|split].
  - unfold IsInvalid, msrpc.bad_message. cbn [of_bytes s_len]. rewrite (proj2 (Z.ltb_ge _ _)) by lia.
    assert (Hb3 : exists r, body = 5 :: 0 :: PacketTypeResponse :: r).
    { unfold body. rewrite <- (upto_from 3 h), Hh3. cbn [app]. by eexists. }
    destruct Hb3 as [r ->]. revert Hlen. rewrite !blen_cons. intros Hlen.
    do 3 (rewrite s_idx_ok by (cbn [s_len of_bytes]; rewrite ?blen_cons; lia); cbn [obind]). done.
  - unfold IsIncomplete. cbn [of_bytes s_len]. rewrite (proj2 (Z.ltb_ge _ _)) by lia.
    change (mkSlice body (blen body)) with (of_bytes body). rewrite Hlev, Hcnt. cbn [obind].
    change (1 =? 0) with false. change (1 =? 1) with true. cbn iota zeta.
    rewrite (proj2 (Z.ltb_ge _ _)) by lia. unfold k at 2. rewrite Nat2Z.id. exact Hcut.
  - unfold ShareNameList. rewrite Hlev, Hcnt. cbn [obind].
    change (1 =? 0) with false. change (1 =? 1) with true. cbn iota.
    unfold k at 2. by rewrite Nat2Z.id, Hna.
Qed.

(** C24: listing the shares works.  The server's answer to NetShareEnumAll,
    encoded into a buffer of the announced size, is a message the client
    accepts as valid and complete, and the names the client reads from it are
    the server's shares, in order.  The names are ASCII: the server counts the
    bytes of their UTF-8 where the format wants UTF-16 code units; shares and
    the characters of a name are fewer than 2^30. *)
Theorem share_list_roundtrip ref call shares :
  Forall ascii_name shares -> Z.of_nat (length shares) < 2 ^ 30 ->
  exists resp pkt, MakeNetShareEnumAllResponse shares = Ok resp
    /\ (let r := DCERequestRes.mk call 0 0 0 (Some (mkEncoder (NetShareEnumAllResponse.Size resp)
                                                  (NetShareEnumAllResponse.Encode ref resp))) in
        DCERequestRes.Encode r (zeros (DCERequestRes.Size r)) = Ok pkt)
    /\ IsInvalid (of_bytes pkt) = Ok false /\ IsIncomplete (of_bytes pkt) = Ok false
    /\ ShareNameList (of_bytes pkt) = Ok (Some shares).
Proof.
  intros Hs Hn. destruct (enum_all_ok ref shares Hs Hn) as (resp & fx & tail & Hr & Hw & Hfx & Ht).
  set (k := Z.of_nat (length shares)) in *.
  destruct (response_ok call 0 0 (mkEncoder _ _) _ ltac:(lia) Hw) as (h & Hh & Hh3 & He).
  eexists resp, _. split; [done|]. split; [exact He|].
  apply share_packet_read; done.
Qed.

Lemma share_list_roundtrip_witness :
  exists resp pkt, MakeNetShareEnumAllResponse [lit "docs"; lit "home"] = Ok resp
    /\ (let r := DCERequestRes.mk 7 0 0 0 (Some (mkEncoder (NetShareEnumAllResponse.Size resp)
                                                  (NetShareEnumAllResponse.Encode 3 resp))) in
        DCERequestRes.Encode r (zeros (DCERequestRes.Size r)) = Ok pkt)
    /\ IsInvalid (of_bytes pkt) = Ok false /\ IsIncomplete (of_bytes pkt) = Ok false
    /\ ShareNameList (of_bytes pkt) = Ok (Some [lit "docs"; lit "home"]).
Proof.
  apply (share_list_roundtrip 3 7 [lit "docs"; lit "home"]); [|done].
  repeat constructor; cbn; lia.
Defined.
