(* ===== verification/IpcTree.v ===== *)
(** * The IPC tree (server/ipc_tree.go)

    The pipe of the server service: a request is written, or sent with an
    IOCTL, and its answer is read; binding and listing the shares are
    answered, everything else is an error. *)

From S2P Require Import Prelude Const Packet Utf16 Paths Request Dtyp Vfs Oplock Opens FileInfo Response.
From S2P Require Import Contexts Session Compound Conn Handlers TreeState Dcerpc.

Definition FSCTL_PIPE_TRANSCEIVE : Z := 0x0011C017.
Definition FSCTL_DFS_GET_REFERRALS : Z := 0x00060194.

(** ** Answers *)

(** What is answered to one context of a bind request; a context without a
    transfer syntax is out of range. *)
Definition bind_item (item : ContextRequestItem.t) : outcome ContextResponseItem.t :=
  match ContextRequestItem.TransferSyntaxes item with
  | [] => Panic
  | transfer :: more =>
      let result := if UUIDIsEqual (ContextRequestItem.InterfaceUUID item) SRVSVC_UUID then 0 else 1 in
      let result := match more with [] => result | _ => 2 end in
      let result := if UUIDIsEqual (TransferSyntax.SyntaxUUID transfer) NDR_UUID then result else 2 in
      Ok (if result =? 0 then
            ContextResponseItem.mk 0 (TransferSyntax.SyntaxUUID transfer)
              (Z.lor (Z.shiftl (TransferSyntax.VersionMinor transfer) 16)
                     (TransferSyntax.VersionMajor transfer))
          else ContextResponseItem.mk result [] 0)
  end.
Fixpoint bind_items (items : list ContextRequestItem.t) : outcome (list ContextResponseItem.t) :=
  match items with
  | [] => Ok []
  | item :: rest =>
      let! r := bind_item item in
      let! rest := bind_items rest in Ok (r :: rest)
  end.

Definition ipcTreeBindReq (pkt : slice) : outcome DCEBindAck.t :=
  let! items := DCEBindRequestDecoder.CtxItems pkt in
  let! rsp := bind_items items in
  let! recv := DCEBindRequestDecoder.MaxRecvFragSize pkt in
  let! send := DCEBindRequestDecoder.MaxSendFragSize pkt in
  let! hdr := DCERequestDecoder.Header pkt in
  Ok (DCEBindAck.mk (DCEHeader.CallID hdr) send recv 0xcc21 13 (lit "\pipe\srvsvc" ++ [0])
        (u8 (Z.of_nat (length rsp))) rsp).

(** The answer and the referents it uses, or [None] for an operation the
    server does not know. *)
Definition ipcTreeReq (shares : list gostring) (ref : Z) (pkt : slice)
  : outcome (option (DCERequestRes.t * Z)) :=
  let! op := DCERequestReqDecoder.Opnum pkt in
  let answer (data : Encoder) (refs : Z) :=
    let! hdr := DCERequestDecoder.Header pkt in
    Ok (Some (DCERequestRes.mk (DCEHeader.CallID hdr) 0 0 0 (Some data), refs)) in
  if op =? OpNetShareEnumAll then
    let! r := MakeNetShareEnumAllResponse shares in
    answer (mkEncoder (NetShareEnumAllResponse.Size r) (NetShareEnumAllResponse.Encode ref r))
      (NetShareEnumAllResponse.refs r)
  else if op =? OpNetShareGetInfo then
    let! data := DCERequestReqDecoder.Data pkt in
    let! name := NetShareGetInfoRequestDecoder.ShareName data in
    let! r := MakeGetInfoShareResponse name in
    answer (mkEncoder (NetShareGetInfoResponse.Size r) (NetShareGetInfoResponse.Encode ref r))
      NetShareGetInfoResponse.refs
  else Ok None.

(** The answer to a message of the given type: [None] for an error. *)
Definition rpc_answer (shares : list gostring) (ref ty : Z) (pkt : slice) : outcome (option (Encoder * Z)) :=
  if ty =? PacketTypeBind then
    let! r := ipcTreeBindReq pkt in
    Ok (Some (mkEncoder (DCEBindAck.Size r) (DCEBindAck.Encode r), 0))
  else if ty =? PacketTypeRequest then
    let! r := ipcTreeReq shares ref pkt in
    Ok (match r with
        | Some (r, refs) => Some (mkEncoder (DCERequestRes.Size r) (DCERequestRes.Encode r), refs)
        | None => None
        end)
  else Ok None.

Section ipc_tree.
Context `{GoLib} (cfg : server_config) (t : nat) (rd : random).

Abbreviation reply := (reply t rd).
Abbreviation reply_error := (reply_error t rd).

Definition ipc_shares : M (list gostring) :=
  let* tc := get_tree t in
  match treeConn.ops tc with ipcTree shares => ret shares | fileTree _ => panic end.
Definition set_request (req : option slice) : M unit :=
  set_world (fun w => set_dce (partial_alter (fun _ => req) t (w_dce w)) w).
Definition use_refs (n : Z) : M unit := set_world (fun w => set_refId (u32 (w_refId w + n)) w).

Definition epoch_time : option Filetime.t := Some (Filetime.mk 0 0).

Definition ipc_create (pkt : slice) : M (option goerr) :=
  let* _ := session_conn t in
  try* res := accept SMB2_CREATE pkt in
  let* inv := lift (CreateRequestDecoder.IsInvalid res) in
  if inv then ret (Some (InvalidRequestError "broken create format")) else
  let* name := lift (CreateRequestDecoder.Name res) in
  let* hdr := lift (PrepareResponse PacketHeader.zero pkt 0) in
  let '(status, fid) := if bool_decide (name = lit "srvsvc") then (0, Some (cf_srvsvc cfg))
                        else (STATUS_NOT_SUPPORTED, None) in
  reply (create_packet
           (CreateResponse.mk (PacketHeader.set_Status status hdr) 0 0 1 epoch_time epoch_time epoch_time
              epoch_time 0 0 FILE_ATTRIBUTE_NORMAL fid [])).

Definition ipc_close (pkt : slice) : M (option goerr) :=
  let* _ := session_conn t in
  try* res := accept SMB2_CLOSE pkt in
  let* inv := lift (CloseRequestDecoder.IsInvalid res) in
  if inv then ret (Some (InvalidRequestError "broken close request")) else
  let* fid := lift (let! s := CloseRequestDecoder.FileId res in FileIdDecoder.Persistent s) in
  if negb (bool_decide (s_bytes fid = FileId.Persistent (cf_srvsvc cfg)))
  then ret (Some (InvalidRequestError "bad file in close request")) else
  let* hdr := lift (PrepareResponse PacketHeader.zero pkt 0) in
  reply (close_packet (CloseResponse.mk hdr 0 epoch_time epoch_time epoch_time epoch_time 0 0
                         FILE_ATTRIBUTE_NORMAL)).

Definition ipc_write (pkt : slice) : M (option goerr) :=
  let* _ := session_conn t in
  let* res := lift (accept_any SMB2_WRITE pkt) in
  let* data := lift (WriteRequestDecoder.Data res) in
  let* _ := set_request (Some data) in
  let* hdr := lift (PrepareResponse PacketHeader.zero pkt 0) in
  reply (write_packet (WriteResponse.mk hdr (u32 (s_len data)) 0)).

Definition ipc_read (pkt : slice) : M (option goerr) :=
  let* _ := session_conn t in
  let* hdr := lift (PrepareResponse PacketHeader.zero pkt 0) in
  let* w := get_world in
  match w_dce w !! t with
  | None => reply (read_packet (ReadResponse.mk hdr [] 0))
  | Some req =>
      if DCERequestDecoder.IsInvalid req then reply_error pkt 0 else
      let* dce := lift (DCERequestDecoder.Header req) in
      let* shares := ipc_shares in
      let* r := lift (rpc_answer shares (w_refId w) (DCEHeader.PacketType dce) req) in
      match r with
      | None => reply_error pkt STATUS_DATA_ERROR
      | Some (rpc, refs) =>
          let* _ := set_request None in
          let* data := lift (Packet.Encode rpc (zeros (Packet.Size rpc))) in
          let* _ := use_refs refs in
          reply (read_packet (ReadResponse.mk hdr data 0))
      end
  end.

Definition ipc_ioctl (pkt : slice) : M (option goerr) :=
  let* _ := session_conn t in
  try* res := accept SMB2_IOCTL pkt in
  let* inv := lift (IoctlRequestDecoder.IsInvalid res) in
  if inv then ret (Some (InvalidRequestError "broken ioctl request")) else
  let* code := lift (IoctlRequestDecoder.CtlCode res) in
  if code =? FSCTL_DFS_GET_REFERRALS then reply_error pkt STATUS_FS_DRIVER_REQUIRED
  else if negb (code =? FSCTL_PIPE_TRANSCEIVE)
  then ret (Some (InvalidRequestError "cannot handle ctl code")) else
  let* fid := lift (let! s := IoctlRequestDecoder.FileId res in FileIdDecoder.Decode s) in
  if negb (bool_decide (FileId.Persistent fid = FileId.Persistent (cf_srvsvc cfg)))
     || negb (bool_decide (FileId.Volatile fid = FileId.Volatile (cf_srvsvc cfg)))
  then ret (Some (InvalidRequestError "srvsvc uuid doesn't match")) else
  let* data := lift (IoctlRequestDecoder.Data res) in
  let* dce := lift (DCERequestDecoder.Header data) in
  let ty := DCEHeader.PacketType dce in
  if negb ((ty =? PacketTypeRequest) || (ty =? PacketTypeBind))
  then ret (Some (InvalidRequestError "unsupported packet type")) else
  let* w := get_world in
  let* shares := ipc_shares in
  let* r := lift (rpc_answer shares (w_refId w) ty data) in
  match r with
  | None => reply_error pkt STATUS_ACCESS_DENIED
  | Some (rpc, refs) =>
      let* hdr := lift (PrepareResponse PacketHeader.zero pkt 0) in
      let* _ := use_refs refs in
      reply (ioctl_packet (IoctlResponse.mk hdr FSCTL_PIPE_TRANSCEIVE (Some (cf_srvsvc cfg)) 0 None (Some rpc)))
  end.

Definition ipc_queryInfo (pkt : slice) : M (option goerr) :=
  let* _ := session_conn t in reply_error pkt STATUS_NOT_SUPPORTED.

(** The other operations are refused. *)
Definition ipc_op (cmd : Z) (pkt : slice) : M (option goerr) :=
  if cmd =? SMB2_CREATE then ipc_create pkt
  else if cmd =? SMB2_CLOSE then ipc_close pkt
  else if cmd =? SMB2_FLUSH then ret (Some (InvalidRequestError "invalid flush request for ipcTree"))
  else if cmd =? SMB2_READ then ipc_read pkt
  else if cmd =? SMB2_WRITE then ipc_write pkt
  else if cmd =? SMB2_LOCK then ret (Some (InvalidRequestError "invalid lock request for ipcTree"))
  else if cmd =? SMB2_IOCTL then ipc_ioctl pkt
  else if cmd =? SMB2_QUERY_DIRECTORY
  then ret (Some (InvalidRequestError "invalid queryDirectory request for ipcTree"))
  else if cmd =? SMB2_CHANGE_NOTIFY
  then ret (Some (InvalidRequestError "invalid changeNotify request for ipcTree"))
  else if cmd =? SMB2_QUERY_INFO then ipc_queryInfo pkt
  else if cmd =? SMB2_SET_INFO then ret (Some (InvalidRequestError "invalid setInfo request for ipcTree"))
  else if cmd =? SMB2_OPLOCK_BREAK
  then ret (Some (InvalidRequestError "invalid oplockBreak request for ipcTree"))
  else ret None.

End ipc_tree.
