(* ===== verification/FileTree.v ===== *)
(** * File trees: opening, closing and moving data (server/file_tree.go)

    CREATE with its create contexts, CLOSE with delete-on-close, FLUSH, READ
    and WRITE with their asynchronous continuations, and LOCK, on a share
    whose file system is any implementation of [VFSFileSystem]. *)

From S2P Require Import Prelude Const Packet Utf16 Paths Request Dtyp Vfs Oplock Opens Acl FileInfo.
From S2P Require Import Response Contexts Session Compound Conn Handlers TreeState.

(** Flags of [Open], of the file and of package os (Linux). *)
Definition O_SHLOCK : Z := 0x10.
Definition O_EXLOCK : Z := 0x20.
Definition O_RDONLY : Z := 0.
Definition O_RDWR : Z := 2.
Definition O_CREATE : Z := 0x40.
Definition O_EXCL : Z := 0x80.
Definition O_TRUNC : Z := 0x200.
Definition O_SYMLINK : Z := 0x200000.

Definition serverDurableHandleTimeout : Z := 60000.
Definition AAPL_SERVER_QUERY : Z := 1.

Definition statusFromVFSError (err : option vfs_error) : Z :=
  match err with
  | None => STATUS_SUCCESS
  | Some err =>
      if is_ENOSPC err then STATUS_DISK_FULL
      else if is_ErrNotExist err then STATUS_OBJECT_NAME_NOT_FOUND
      else if is_ErrExist err then STATUS_OBJECT_NAME_COLLISION
      else if is_ErrPermission err then STATUS_ACCESS_DENIED
      else if is_EBADF err then STATUS_INVALID_HANDLE
      else STATUS_IO_DEVICE_ERROR
  end.

(** The status of a failed Mkdir, Open or GetAttr in CREATE. *)
Definition create_status (err : vfs_error) : Z :=
  if os_IsNotExist err then STATUS_OBJECT_PATH_NOT_FOUND else STATUS_ACCESS_DENIED.

(** ** Attributes for POSIX clients *)

Definition posixPermsFromVfs (a : Attributes.t) : Z :=
  let '(mode, ok) := Attributes.GetUnixMode a in
  if ok then Z.land mode 0xfff else
  let '(perms, ok) := Attributes.GetPermissions a in
  if ok then ToMode perms else 0x1ff.

Definition posixModeFromVfs (a : Attributes.t) : outcome Z :=
  let mode := posixPermsFromVfs a in
  let! ft := Attributes.GetFileType a in
  Ok (match ft with
      | FileTypeDirectory => Z.lor mode 0x4000
      | FileTypeRegularFile => Z.lor mode 0x8000
      | FileTypeSymlink => Z.lor mode 0xa000
      | FileTypeBlockDevice => Z.lor mode 0x6000
      | FileTypeCharacterDevice => Z.lor mode 0x2000
      | FileTypeFIFO => Z.lor mode 0x1000
      | FileTypeSocket => Z.lor mode 0xc000
      | _ => mode
      end).

Definition reparseTagFromVfs (a : Attributes.t) : outcome Z :=
  let! ft := Attributes.GetFileType a in
  Ok (if bool_decide (ft = FileTypeSymlink) then IO_REPARSE_TAG_SYMLINK else 0).

Definition newPosixCreateContextResponse (a : Attributes.t) : outcome PosixCreateContextResponse.t :=
  let '(uid, _) := Attributes.GetUID a in
  let '(gid, _) := Attributes.GetGID a in
  let! links := Attributes.GetLinkCount a in
  let! tag := reparseTagFromVfs a in
  let! mode := posixModeFromVfs a in
  Ok (PosixCreateContextResponse.mk links tag mode (SIDFromUid uid) (SIDFromGid gid)).

(** ** What a disposition asks for *)

(** An error, or the flags of the open, the action to report, and whether a
    directory is made first. *)
Inductive disposed := Refused (status : Z) | Proceed (flags action : Z) (mkdir : bool).

Definition disposition (d : Z) (fileExists createDir : bool) : disposed :=
  if d =? FILE_OPEN_IF then
    Proceed O_CREATE (if fileExists then FILE_OPENED else FILE_CREATED) (negb fileExists && createDir)
  else if d =? FILE_OPEN then
    if fileExists then Proceed 0 FILE_OPENED false else Refused STATUS_NO_SUCH_FILE
  else if d =? FILE_CREATE then
    if fileExists then Refused STATUS_OBJECT_NAME_COLLISION
    else Proceed (Z.lor O_CREATE O_EXCL) FILE_CREATED createDir
  else if d =? FILE_OVERWRITE then
    if fileExists then Proceed (Z.lor O_CREATE O_TRUNC) FILE_OVERWRITTEN false
    else Refused STATUS_NO_SUCH_FILE
  else if d =? FILE_OVERWRITE_IF then
    Proceed (Z.lor O_CREATE O_TRUNC) (if fileExists then FILE_OVERWRITTEN else FILE_CREATED) false
  else if d =? FILE_SUPERSEDE then
    Proceed O_CREATE (if fileExists then FILE_SUPERSEDED else FILE_CREATED) false
  else Proceed 0 FILE_OPENED false.

(** The lock flags of the requested oplock level. *)
Definition lock_flags (requested : Z) : Z :=
  if requested =? SMB2_OPLOCK_LEVEL_II then O_SHLOCK
  else if requested =? SMB2_OPLOCK_LEVEL_EXCLUSIVE then O_EXLOCK
  else 0.

(** The flags a file is opened with. *)
Definition open_flags (flags access : Z) (isEA reparse : bool) : Z :=
  let flags := if has access (Z.lor (Z.lor FILE_WRITE_DATA FILE_APPEND_DATA) GENERIC_WRITE)
               then Z.lor flags O_RDWR else Z.lor flags O_RDONLY in
  let flags := if isEA then 0 else flags in
  if reparse then Z.lor flags O_SYMLINK else flags.

(** [decodeCreatePosixPerms]: the walk over the create contexts; every step
    advances, so there is fuel for each byte. *)
Fixpoint posix_perms (fuel : nat) (cc : slice) : outcome (option Z) :=
  match fuel with
  | O => Ok None
  | S fuel =>
      if s_len cc <=? 0 then Ok None else
      let! name := CreateContextDecoder.Name cc in
      if bool_decide (name = SMB3PosixExtensionsTag) then
        let! buf := CreateContextDecoder.Buffer cc in
        if 4 <=? s_len buf then let! v := get32 buf 0 4 in Ok (Some (Z.land v 0xfff)) else Ok None
      else
        let! next := CreateContextDecoder.Next cc in
        if next =? 0 then Ok None else
        let! cc := s_from cc next in posix_perms fuel cc
  end.
Definition decodeCreatePosixPerms (posix : bool) (r : slice) : outcome (option Z) :=
  if negb posix then Ok None else
  let! cc := CreateRequestDecoder.CreateContexts r in
  posix_perms (Z.to_nat (s_len cc)) cc.

Definition context (name : bytes) (size : Z) (e : enc) : Encoder :=
  let c := CreateContext.mk name (mkEncoder size e) in
  mkEncoder (CreateContext.Size c) (CreateContext.Encode c).

(** ** Create contexts that only look at the request and the attributes *)

Definition handlePosixCC (attrs : Attributes.t) : outcome (option Encoder) :=
  let! r := newPosixCreateContextResponse attrs in
  Ok (Some (context SMB3PosixExtensionsTag (PosixCreateContextResponse.Size r)
              (PosixCreateContextResponse.Encode r))).

Definition handleMaxAccessCC (attrs : Attributes.t) : option Encoder :=
  let r := CreateContextMaximalAccessResponse.mk 0 (MaxAccessFromVfs attrs) in
  Some (context (lit "MxAc") (CreateContextMaximalAccessResponse.Size r)
          (CreateContextMaximalAccessResponse.Encode r)).

(** "CloudMachine" *)
Definition aapl_response : AAPLServerQueryResponse.t :=
  AAPLServerQueryResponse.mk AAPL_SERVER_QUERY 0 7 13 4 (lit "CloudMachine").
Definition handleAAPLCC (pkt : slice) : outcome (option Encoder) :=
  let! code := AAPLServerQueryRequestDecoder.CommandCode pkt in
  if code =? AAPL_SERVER_QUERY then
    Ok (Some (context (lit "AAPL") (AAPLServerQueryResponse.Size aapl_response)
                (AAPLServerQueryResponse.Encode aapl_response)))
  else Ok None.

(** The open with its durability, and the response. *)
Definition handleDH2Q (pkt : slice) (open : Open.t) : outcome (Open.t * option Encoder) :=
  let! timeout := DurableHandleRequest2Decoder.Timeout pkt in
  let timeout := if timeout =? 0 then serverDurableHandleTimeout else timeout in
  let! flags := DurableHandleRequest2Decoder.Flags pkt in
  let! guid := DurableHandleRequest2Decoder.CreateGuid pkt in
  let open := Open.set_durable (has flags SMB2_DHANDLE_FLAG_PERSISTENT) (timeout * 1000000)
                (splice 0 (s_bytes guid) (Open.createGuid open)) open in
  let r := DurableHandleResponse2.mk timeout flags in
  Ok (open, Some (context (lit "DH2Q") (DurableHandleResponse2.Size r) (DurableHandleResponse2.Encode r))).

(** The open with its lease, and the response; a 32-byte request is of
    version 1. *)
Definition handleRqLs (pkt : slice) (open : Open.t) : outcome (Open.t * option Encoder) :=
  if s_len pkt =? 32 then
    let! key := LeaseRequestDecoder.LeaseKey pkt in
    let! state := LeaseRequestDecoder.LeaseState pkt in
    let! flags := LeaseRequestDecoder.LeaseFlags pkt in
    let! dur := LeaseRequestDecoder.LeaseDuration pkt in
    let r := LeaseResponse.mk key state flags dur in
    Ok (Open.set_lease (Some (Lease.mk key state flags dur (zeros 16) 0 1 false 0)) open,
        Some (context (lit "RqLs") (LeaseResponse.Size r) (LeaseResponse.Encode r)))
  else
    let! key := LeaseRequest2Decoder.LeaseKey pkt in
    let! state := LeaseRequest2Decoder.LeaseState pkt in
    let! flags := LeaseRequest2Decoder.LeaseFlags pkt in
    let! dur := LeaseRequest2Decoder.LeaseDuration pkt in
    let! parent := LeaseRequest2Decoder.ParentLeaseKey pkt in
    let! epoch := LeaseRequest2Decoder.Epoch pkt in
    let r := LeaseResponse2.mk (LeaseResponse.mk key state flags dur) parent 1 in
    Ok (Open.set_lease (Some (Lease.mk key state flags dur parent epoch 2 false 0)) open,
        Some (context (lit "RqLs") (LeaseResponse2.Size r) (LeaseResponse2.Encode r))).

Section file_tree.
Context `{GoLib} (t : nat) (rd : random).

Abbreviation reply := (reply t rd).
Abbreviation reply_error := (reply_error t rd).
Abbreviation reply_async_error := (reply_async_error t rd).
Abbreviation call := (call t).

(** ** CREATE *)

Definition handleQFid (open : Open.t) : M (option Encoder) :=
  let* ino := root_inode t in
  let r := DiskIdResponse.mk (Open.durableFileId open) ino in
  ret (Some (context (lit "QFid") (DiskIdResponse.Size r) (DiskIdResponse.Encode r))).

Definition xattr_exists (h : Z) (key : gostring) : M (option vfs_error) :=
  let* r := call (fun fs => fs_Getxattr fs h key []) in ret (snd r).
Definition xattr_clear (h : Z) (key : gostring) : M (option vfs_error) :=
  call (fun fs => fs_Setxattr fs h key []).

(** The status of the failure, 0 when there is none ([err == nil]). *)
Definition handleCreateEA (disp h : Z) (eaKey : gostring) : M Z :=
  let or_failed (err : option vfs_error) (status : Z) :=
    match err with None => 0 | Some _ => status end in
  if disp =? FILE_OPEN_IF then
    let* err := xattr_exists h eaKey in
    match err with
    | None => ret 0
    | Some _ => let* err := xattr_clear h eaKey in ret (or_failed err STATUS_OPEN_FAILED)
    end
  else if disp =? FILE_OPEN then
    let* err := xattr_exists h eaKey in ret (or_failed err STATUS_OBJECT_NAME_NOT_FOUND)
  else if disp =? FILE_CREATE then
    let* err := xattr_exists h eaKey in
    match err with
    | None => ret STATUS_OBJECT_NAME_EXISTS
    | Some _ => let* err := xattr_clear h eaKey in ret (or_failed err STATUS_OPEN_FAILED)
    end
  else if disp =? FILE_OVERWRITE then
    let* _ := xattr_exists h eaKey in
    let* err := xattr_clear h eaKey in ret (or_failed err STATUS_OPEN_FAILED)
  else if (disp =? FILE_SUPERSEDE) || (disp =? FILE_OVERWRITE_IF) then
    let* err := xattr_clear h eaKey in ret (or_failed err STATUS_OPEN_FAILED)
  else ret 0.

(** One create context: the open and the contexts of the response after. *)
Definition create_context (posix : bool) (attrs : Attributes.t) (cc : slice) (open : Open.t)
    (ctxs : list Encoder) : M (Open.t * list Encoder) :=
  let add (e : option Encoder) := match e with Some e => ctxs ++ [e] | None => ctxs end in
  let* name := lift (CreateContextDecoder.Name cc) in
  if bool_decide (name = lit "MxAc") then ret (open, add (handleMaxAccessCC attrs))
  else if bool_decide (name = lit "AAPL") then
    let* _ := set_world (fun w => set_aapl ({[t]} ∪ w_aapl w) w) in
    let* e := lift (let! b := CreateContextDecoder.Buffer cc in handleAAPLCC b) in
    ret (open, add e)
  else if bool_decide (name = SMB3PosixExtensionsTag) then
    if posix then let* e := lift (handlePosixCC attrs) in ret (open, add e) else ret (open, ctxs)
  else if bool_decide (name = lit "DH2Q") then
    let* r := lift (let! b := CreateContextDecoder.Buffer cc in handleDH2Q b open) in
    ret (fst r, add (snd r))
  else if bool_decide (name = lit "RqLs") then
    let* r := lift (let! b := CreateContextDecoder.Buffer cc in handleRqLs b open) in
    ret (fst r, add (snd r))
  else if bool_decide (name = lit "QFid") then
    let* _ := lift (CreateContextDecoder.Buffer cc) in
    let* e := handleQFid open in ret (open, add e)
  else ret (open, ctxs).

(** The loop over them; the fuel is the number of bytes left. *)
Fixpoint create_contexts (fuel : nat) (posix : bool) (attrs : Attributes.t) (cc : slice)
    (open : Open.t) (ctxs : list Encoder) : M (Open.t * list Encoder) :=
  match fuel with
  | O => ret (open, ctxs)
  | S fuel =>
      if s_len cc <=? 0 then ret (open, ctxs) else
      let* r := create_context posix attrs cc open ctxs in
      let* next := lift (CreateContextDecoder.Next cc) in
      let* cc := lift (s_from cc next) in
      if next =? 0 then ret r else create_contexts fuel posix attrs cc (fst r) (snd r)
  end.

(** What [create] knows before it opens anything. *)
Record create_req := mkCreateReq {
  cr_name : gostring; cr_isEA : bool; cr_eaKey : gostring; cr_attrs : option Attributes.t;
  cr_type : option FileType; cr_disp : Z; cr_options : Z; cr_mode : Z * Z (** file and directory *)
}.
Definition cr_exists (q : create_req) : bool := match cr_attrs q with Some _ => true | None => false end.
Definition cr_isDir (q : create_req) : bool := bool_decide (cr_type q = Some FileTypeDirectory).
Definition cr_createDir (q : create_req) : bool := has (cr_options q) FILE_DIRECTORY_FILE.

Definition create_name (rname : gostring) : gostring :=
  match rname with [] => [slash] | _ => ReplaceAll rname backslash slash end.

Definition create_modes (perms : option Z) (d : Z) : Z * Z :=
  match perms with
  | Some m => if negb (d =? FILE_OPEN) && negb (m =? 0) then (m, m) else (0x1a4, 0x1ff)
  | None => (0x1a4, 0x1ff)
  end.

(** Reading the request and looking the name up. *)
Definition create_request (res : slice) : M create_req :=
  let* rname := lift (CreateRequestDecoder.Name res) in
  let name := create_name rname in
  let isEA := IsEA name in
  let* nk := if isEA then lift (SplitEA name) else ret (name, []) in
  let '(name, eaKey) := nk in
  let* _ := lift (CreateRequestDecoder.SmbCreateFlags res) in
  let* look := call (fun fs => fs_Lookup fs 0 name) in
  let attrs := match look with inl a => Some a | inr _ => None end in
  let* ty := match attrs with
             | Some a => let* ft := lift (Attributes.GetFileType a) in ret (Some ft)
             | None => ret None
             end in
  let* options := lift (CreateRequestDecoder.CreateOptions res) in
  let* d := lift (CreateRequestDecoder.CreateDisposition res) in
  let* w := get_world in
  let* perms := lift (decodeCreatePosixPerms (conn.posixExtensions (w_conn w)) res) in
  ret (mkCreateReq name isEA eaKey attrs ty d options (create_modes perms d)).

(** The checks before the disposition: [Some status] refuses. *)
Definition create_checks (q : create_req) : M (option Z) :=
  let* pending := match cr_attrs q with
                  | Some a =>
                      let* ino := lift (Attributes.GetInodeNumber a) in
                      let* d := get_server in ret (Server.isDeletePending ino d)
                  | None => ret false
                  end in
  if pending then ret (Some STATUS_DELETE_PENDING)
  else if cr_exists q && negb (cr_isDir q) && cr_createDir q then
    ret (Some (if cr_disp q =? FILE_CREATE then STATUS_OBJECT_NAME_COLLISION else STATUS_NOT_A_DIRECTORY))
  else if cr_isEA q && negb (cr_exists q) then ret (Some STATUS_NO_SUCH_FILE)
  else ret None.

(** Opening the file or directory and reading its attributes. *)
Definition create_open (q : create_req) (isDir : bool) (flags access : Z)
  : M (result (Z * Attributes.t)) :=
  let reparse := bool_decide (cr_type q = Some FileTypeSymlink)
                 && has (cr_options q) FILE_OPEN_REPARSE_POINT in
  let* h := if isDir then call (fun fs => fs_OpenDir fs (cr_name q))
            else call (fun fs => fs_Open fs (cr_name q) (open_flags flags access (cr_isEA q) reparse)
                                   (fst (cr_mode q))) in
  match h with
  | inr err => ret (inr err)
  | inl h =>
      let* a := call (fun fs => fs_GetAttr fs h) in
      match a with
      | inl a => ret (inl (h, a))
      | inr err => ret (inr err)
      end
  end.

(** The file is open: the response, the open in the table, the answer. *)
Definition create_answer (res : slice) (hdr : PacketHeader.t) (q : create_req) (h action : Z)
    (attrs : Attributes.t) : M (option goerr) :=
  let name := cr_name q in
  let* requested := lift (CreateRequestDecoder.RequestedOplockLevel res) in
  let '(lockLevel, lockState) := Server.grant_oplock requested in
  let* access := lift (CreateRequestDecoder.DesiredAccess res) in
  let* node := lift (Attributes.GetInodeNumber attrs) in
  let fileId := FileId.SetNodeId node (FileId.SetHandleId h FileId.zero) in
  let* fileAttributes := lift (PermissionsFromVfs attrs name) in
  let* sizes := if cr_isEA q then
                  let* r := call (fun fs => fs_Getxattr fs h (cr_eaKey q) []) in
                  let '(_, n, _) := r in ret (s64 n, s64 n)
                else ret (s64 (DiskSizeFromVfs attrs), s64 (SizeFromVfs attrs)) in
  let* tc := get_tree t in
  let* w := get_world in
  let c := w_conn w in
  let sid := match treeConn.session tc with
             | Some p => session.sessionId <$> conn.heap c !! p
             | None => None
             end in
  let isSymlink := bool_decide (cr_type q = Some FileTypeSymlink)
                   && negb (has (cr_options q) FILE_OPEN_REPARSE_POINT) in
  let open :=
    Open.mk (FileId.HandleId fileId) (FileId.NodeId fileId) sid access lockLevel lockState
      false false 0 name (cr_options q) (has (cr_options q) FILE_DELETE_ON_CLOSE) (cr_disp q) None
      (cr_isEA q) (cr_eaKey q) isSymlink (conn.posixExtensions c) (zeros 16) (Some t) []
      fileAttributes None 0 [] [] false in
  let* cc := lift (CreateRequestDecoder.CreateContexts res) in
  let* r := create_contexts (Z.to_nat (s_len cc)) (conn.posixExtensions c) attrs cc open [] in
  let '(open, ctxs) := r in
  let rsp := CreateResponse.mk hdr lockLevel 0 action
               (Some (BirthTimeFromVfs attrs)) (Some (AccessTimeFromVfs attrs))
               (Some (ModifiedTimeFromVfs attrs)) (Some (ChangeTimeFromVfs attrs))
               (fst sizes) (snd sizes) fileAttributes (Some fileId) ctxs in
  let* _ := (fun e => Ok (tt, mkEnv (e_w e) (compoundContext.set_fileId fileId <$> e_cc e))) in
  let* d := get_server in
  let* d := lift (Server.addOpen open d) in
  let* _ := put_server d in
  reply (create_packet rsp).

Definition create (pkt : slice) : M (option goerr) :=
  let* _ := session_conn t in
  try* res := accept SMB2_CREATE pkt in
  let* inv := lift (CreateRequestDecoder.IsInvalid res) in
  if inv then ret (Some (InvalidRequestError "broken create format")) else
  let* hdr := lift (PrepareResponse PacketHeader.zero pkt 0) in
  let* q := create_request res in
  let* refused := create_checks q in
  match refused with
  | Some status => reply_error pkt status
  | None =>
      match disposition (cr_disp q) (cr_exists q) (cr_createDir q) with
      | Refused status => reply_error pkt status
      | Proceed flags action mkdir =>
          let* err := if mkdir then
                        let* r := call (fun fs => fs_Mkdir fs (cr_name q) (snd (cr_mode q))) in
                        ret (match r with inl _ => None | inr err => Some err end)
                      else ret None in
          match err with
          | Some err => reply_error pkt (create_status err)
          | None =>
              let* requested := lift (CreateRequestDecoder.RequestedOplockLevel res) in
              let* access := lift (CreateRequestDecoder.DesiredAccess res) in
              let* r := create_open q (cr_isDir q || mkdir) (Z.lor flags (lock_flags requested)) access in
              match r with
              | inr err => reply_error pkt (create_status err)
              | inl (h, attrs) =>
                  let* status := if cr_isEA q then handleCreateEA (cr_disp q) h (cr_eaKey q) else ret 0 in
                  if negb (status =? 0) then
                    let* _ := call (fun fs => fs_Close fs h) in reply_error pkt status
                  else create_answer res hdr q h action attrs
              end
          end
      end
  end.

(** ** Deleting *)

(** [Some err] is the error of Unlink. *)
Definition applyPosixDelete (h : Z) (open : Open.t) : M (option vfs_error) :=
  let* err := call (fun fs => fs_Unlink fs h) in
  match err with
  | Some err => ret (Some err)
  | None =>
      let* d := get_server in
      let* _ := put_server (Server.setDeletePending (Open.durableFileId open) false d) in
      ret None
  end.

(** The open after; an error is only logged. *)
Definition applyPosixDeleteOnClose (h : Z) (open : option Open.t) : M (option Open.t) :=
  match open with
  | None => ret None
  | Some o =>
      if negb (Open.deleteOnClose o) || negb (Open.posixSemantics o) then ret open else
      let* err := applyPosixDelete h o in
      match err with
      | Some _ => ret open
      | None => ret (Some (Open.set_deleteOnClose false o))
      end
  end.

(** ** CLOSE *)

Definition closePostQueryAttrsAllowed (flags : Z) (open : option Open.t) : bool :=
  if negb (has flags SMB2_CLOSE_FLAG_POSTQUERY_ATTRIB) then false else
  match open with None => true | Some o => negb (Open.posixSemantics o) end.

(** The attributes of the response, zero when they are not asked for or not
    to be had. *)
Definition close_info (flags h : Z) (hdr : PacketHeader.t) (open : option Open.t) : M CloseResponse.t :=
  let empty := CloseResponse.mk hdr 0 None None None None 0 0 0 in
  if negb (closePostQueryAttrsAllowed flags open) then ret empty else
  let* r := call (fun fs => fs_GetAttr fs h) in
  match r, open with
  | inl a, Some o =>
      let* attrs := lift (PermissionsFromVfs a (Open.pathName o)) in
      ret (CloseResponse.mk hdr SMB2_CLOSE_FLAG_POSTQUERY_ATTRIB
             (Some (BirthTimeFromVfs a)) (Some (AccessTimeFromVfs a))
             (Some (ModifiedTimeFromVfs a)) (Some (ChangeTimeFromVfs a))
             (s64 (DiskSizeFromVfs a)) (s64 (SizeFromVfs a)) attrs)
  | _, _ => ret empty
  end.

(** Taking the open out of the table, and the file away when that was asked
    for and this was the last open; the status after. *)
Definition close_delete (h status : Z) (open : option Open.t) : M Z :=
  match open with
  | None => ret status
  | Some o =>
      let* d := get_server in
      let '(deletePending, d) := Server.closeOpen o d in
      let* _ := put_server d in
      if deletePending then
        let* err := call (fun fs => fs_Unlink fs h) in
        ret (match err with Some err => statusFromVFSError (Some err) | None => status end)
      else ret status
  end.

(** A notification that waits on the open is prepared and not sent. *)
Definition close (pkt : slice) : M (option goerr) :=
  let* _ := session_conn t in
  try* res := accept SMB2_CLOSE pkt in
  let* inv := lift (CloseRequestDecoder.IsInvalid res) in
  if inv then ret (Some (InvalidRequestError "broken close request")) else
  let* fileId := request_file (CloseRequestDecoder.FileId res) in
  let* cc := get_ctx in
  let status := match cc with
                | Some cc => match compoundContext.fileId cc with
                             | Some _ => compoundContext.lastStatus cc
                             | None => 0
                             end
                | None => 0
                end in
  if IsInvalidFileId (Some fileId) then reply_error pkt STATUS_INVALID_HANDLE else
  let h := FileId.HandleId fileId in
  let* hdr := lift (PrepareResponse PacketHeader.zero pkt 0) in
  let* flags := lift (CloseRequestDecoder.Flags res) in
  let* open := getOpen h in
  let* rsp := close_info flags h hdr open in
  let* open := applyPosixDeleteOnClose h open in
  let* status := close_delete h status open in
  let* err := call (fun fs => fs_Close fs h) in
  let status := match err with
                | Some err => if status =? 0 then statusFromVFSError (Some err) else status
                | None => status
                end in
  let pk := close_packet rsp in
  let* _ := reply (with_hdr (PacketHeader.set_Status status hdr) pk) in
  ret None.

(** ** FLUSH and LOCK *)

Definition flush (pkt : slice) : M (option goerr) :=
  let* _ := session_conn t in
  let* res := lift (accept_any SMB2_FLUSH pkt) in
  let* fileId := request_file (FlushRequestDecoder.FileId res) in
  if IsInvalidFileId (Some fileId) then reply_error pkt STATUS_INVALID_HANDLE else
  let* err := call (fun fs => fs_Flush fs (FileId.HandleId fileId)) in
  match err with
  | Some err => reply_error pkt (statusFromVFSError (Some err))
  | None =>
      let* hdr := lift (PrepareResponse PacketHeader.zero pkt 0) in
      reply (flush_packet hdr)
  end.

Definition lock (pkt : slice) : M (option goerr) :=
  let* _ := session_conn t in
  let* hdr := lift (PrepareResponse PacketHeader.zero pkt 0) in
  reply (lock_packet hdr).

Definition cancel (pkt : slice) : M (option goerr) :=
  let* _ := session_conn t in reply_error pkt STATUS_NOT_SUPPORTED.

(** ** READ *)

(** A file system writes into the buffer it was given. *)
Definition fill (buf written : bytes) : bytes := splice 0 written buf.

Definition afp_key : gostring := lit "AFP_AfpInfo".
Definition afp_default : AfpInfo.t :=
  AfpInfo.mk (lit "AFP_") (zeros 4) (zeros 2) (zeros 2) (zeros 32) (zeros 6) (zeros 10).

Definition readEA (fileId : FileId.t) (open : Open.t) (buf : bytes) (pkt : slice) : M (option goerr) :=
  let* _ := session_conn t in
  let* r := call (fun fs => fs_Getxattr fs (FileId.HandleId fileId) (Open.eaKey open) buf) in
  let '(written, n, err) := r in
  let buf := fill buf written in
  let status := match err with
                | Some _ => STATUS_ACCESS_DENIED
                | None => if n =? 0 then STATUS_END_OF_FILE else 0
                end in
  let answer (buf : bytes) (n : Z) :=
    let* hdr := lift (PrepareResponse PacketHeader.zero pkt 0) in
    let* data := lift (s_range (of_bytes buf) 0 n) in
    reply (read_packet (ReadResponse.mk hdr (s_bytes data) 0)) in
  if negb (status =? 0) then
    if bool_decide (Open.eaKey open = afp_key) && (blen buf =? 60) then
      let* buf := lift (AfpInfo.Encode afp_default buf) in answer buf 60
    else reply_error pkt status
  else answer buf n.

(** The first [n] bytes of the buffer. *)
Definition read_done (pkt : slice) (asyncId n : Z) (buf : bytes) : M (option goerr) :=
  let* hdr := lift (PrepareAsyncResponse PacketHeader.zero pkt asyncId 0) in
  let* data := lift (s_range (of_bytes buf) 0 n) in
  reply (read_packet (ReadResponse.mk hdr (s_bytes data) 0)).

Definition readImpl (pkt : slice) (fileId : FileId.t) (open : Open.t) (asyncId : Z) : M (option goerr) :=
  let* _ := session_conn t in
  let* res := lift (accept_any SMB2_READ pkt) in
  let* len := lift (ReadRequestDecoder.Length res) in
  let buf := zeros len in
  if Open.isEa open then readEA fileId open buf pkt else
  let* off := lift (ReadRequestDecoder.Offset res) in
  let* r := call (fun fs => fs_Read fs (FileId.HandleId fileId) buf off 0) in
  let '(written, n, err) := r in
  let buf := fill buf written in
  match err with
  | Some e =>
      if n =? 0 then
        reply_async_error pkt asyncId
          (if is_EOF e
           then if negb (Open.isEa open) then STATUS_END_OF_FILE else STATUS_OBJECT_NAME_NOT_FOUND
           else statusFromVFSError err)
      else read_done pkt asyncId n buf
  | None => read_done pkt asyncId n buf
  end.

(** ** WRITE *)

Definition writeImpl (pkt : slice) (fileId : FileId.t) (open : Open.t) (asyncId : Z) : M (option goerr) :=
  let* _ := session_conn t in
  let* res := lift (accept_any SMB2_WRITE pkt) in
  let* data := lift (WriteRequestDecoder.Data res) in
  let* off := lift (WriteRequestDecoder.Offset res) in
  let* flags := lift (WriteRequestDecoder.Flags res) in
  let* r := if Open.isEa open then
              let* err := call (fun fs => fs_Setxattr fs (FileId.HandleId fileId) (Open.eaKey open)
                                            (s_bytes data)) in
              ret (match err with None => s_len data | Some _ => 0 end, err)
            else call (fun fs => fs_Write fs (FileId.HandleId fileId) (s_bytes data) off flags) in
  let '(n, err) := r in
  let failed := match err with Some _ => true | None => n =? 0 end in
  if failed then reply_async_error pkt asyncId (statusFromVFSError err) else
  let* hdr := lift (PrepareAsyncResponse PacketHeader.zero pkt asyncId 0) in
  reply (write_packet (WriteResponse.mk hdr (u32 n) 0)).

Definition io_impl (kind : io_kind) (pkt : slice) (fileId : FileId.t) (open : Open.t) (asyncId : Z)
  : M (option goerr) :=
  match kind with
  | ReadTask => readImpl pkt fileId open asyncId
  | WriteTask => writeImpl pkt fileId open asyncId
  end.

(** READ and WRITE up to the point where a goroutine takes over: inside a
    compound, and for an extended attribute, the work is done at once. *)
Definition start_io (kind : io_kind) (pkt : slice) (fid : outcome slice) : M (option goerr) :=
  let* fileId := request_file fid in
  if IsInvalidFileId (Some fileId) then reply_error pkt STATUS_INVALID_HANDLE else
  let* open := getOpen (FileId.HandleId fileId) in
  match open with
  | None => reply_error pkt STATUS_INVALID_HANDLE
  | Some open =>
      let* cc := get_ctx in
      if match cc with Some _ => true | None => Open.isEa open end then
        io_impl kind pkt fileId open 0
      else
        let* _ := set_world (fun w =>
          set_tasks (w_tasks w ++ [mkTask (IoTask kind) t pkt fileId open (rd_int64 rd) false]) w) in
        ret None
  end.

Definition read (pkt : slice) : M (option goerr) :=
  let* _ := session_conn t in
  let* res := lift (accept_any SMB2_READ pkt) in
  start_io ReadTask pkt (ReadRequestDecoder.FileId res).

Definition write (pkt : slice) : M (option goerr) :=
  let* _ := session_conn t in
  let* res := lift (accept_any SMB2_WRITE pkt) in
  start_io WriteTask pkt (WriteRequestDecoder.FileId res).

(** ** The end of a CHANGE_NOTIFY

    Five seconds after the request, when its handle is still open, it is
    answered under the id that the open has by then. *)
Definition notify_end (pkt : slice) (fileId : FileId.t) : M (option goerr) :=
  let h := FileId.HandleId fileId in
  let* open := getOpen h in
  match open with
  | None => ret None
  | Some open =>
      let asyncId := Open.notifyReqAsyncId open in
      let* _ := update_open h (Open.set_notify None asyncId) in
      reply_async_error pkt asyncId STATUS_ACCESS_DENIED
  end.

End file_tree.

(** ** Goroutines

    One step of a goroutine: it tells the client that the request is
    pending, or it does the work; [Some] is the goroutine that goes on. *)
Definition task_step `{GoLib} (rd : random) (k : task) : M (option task) :=
  if negb (tk_pending k) then
    let* _ := reply_async_error (tk_tree k) rd (tk_pkt k) (tk_asyncId k) STATUS_PENDING in
    ret (Some (mkTask (tk_kind k) (tk_tree k) (tk_pkt k) (tk_fileId k) (tk_open k) (tk_asyncId k) true))
  else
    let* _ := match tk_kind k with
              | IoTask kind => io_impl (tk_tree k) rd kind (tk_pkt k) (tk_fileId k) (tk_open k) (tk_asyncId k)
              | NotifyTask => notify_end (tk_tree k) rd (tk_pkt k) (tk_fileId k)
              end in
    ret None.

(** The context that a goroutine passes on: none for READ and WRITE, which
    run at once inside a compound; that of the request, as it is by now, for
    CHANGE_NOTIFY. *)
Definition task_ctx (cc : option compoundContext.t) (k : task) : option compoundContext.t :=
  match tk_kind k with IoTask _ => None | NotifyTask => cc end.

(** The scheduler lets the [i]-th goroutine take a step. *)
Definition schedule `{GoLib} (rd : random) (cc : option compoundContext.t) (i : nat) (w : world) : outcome world :=
  match w_tasks w !! i with
  | None => Ok w
  | Some k =>
      let! r := task_step rd k (mkEnv w (task_ctx cc k)) in
      let '(k', e) := r in
      let ts := w_tasks (e_w e) in
      Ok (set_tasks (match k' with
                     | Some k' => <[i := k']> ts
                     | None => delete i ts
                     end) (e_w e))
  end.

(** ** CREATE *)

(** Create contexts change the lease and the durability of an open, and
    nothing else that the server goes by. *)
Definition same_file (o o' : Open.t) : Prop :=
  Open.fileId o' = Open.fileId o /\ Open.durableFileId o' = Open.durableFileId o
  /\ Open.oplockLevel o' = Open.oplockLevel o /\ Open.oplockState o' = Open.oplockState o
  /\ Open.pathName o' = Open.pathName o /\ Open.tree o' = Open.tree o
  /\ Open.grantedAccess o' = Open.grantedAccess o /\ Open.deleteOnClose o' = Open.deleteOnClose o
  /\ Open.isEa o' = Open.isEa o /\ Open.eaKey o' = Open.eaKey o.
#[export] Instance same_file_preorder : PreOrder same_file.
Proof.
  split; [by repeat split|]. intros a b c H1 H2. unfold same_file in *.
  destruct_and! H1. destruct_and! H2. split_and!; congruence.
Qed.

(** The tables are as they were, and nothing was sent. *)
Definition quiet (e e' : env) : Prop :=
  w_server (e_w e') = w_server (e_w e) /\ w_conn (e_w e') = w_conn (e_w e) /\ e_cc e' = e_cc e.
#[export] Instance quiet_preorder : PreOrder quiet.
Proof. split; [by repeat split|]. intros a b c (?&?&?) (?&?&?). unfold quiet. split_and!; congruence. Qed.

Section create_facts.
Context `{GoLib} (t : nat) (rd : random).

Lemma handleDH2Q_file b o r : handleDH2Q b o = Ok r -> same_file o (fst r).
Proof. unfold handleDH2Q. intros Hr. follow Hr. by injection Hr as <-. Qed.
Lemma handleRqLs_file b o r : handleRqLs b o = Ok r -> same_file o (fst r).
Proof. unfold handleRqLs. intros Hr. follow Hr; by injection Hr as <-. Qed.

Lemma create_context_file posix attrs cc open ctxs :
  yields (fun r => same_file open (fst r)) (create_context t posix attrs cc open ctxs).
Proof.
  unfold create_context. walk_yields; try done.
  all: match goal with E : (let! b := ?m in _) = Ok _ |- _ => destruct m; [|done..]; cbn [obind] in E end.
  all: first [by eapply handleDH2Q_file|by eapply handleRqLs_file].
Qed.

Lemma create_contexts_file fuel posix attrs cc open ctxs :
  yields (fun r => same_file open (fst r)) (create_contexts t fuel posix attrs cc open ctxs).
Proof.
  revert cc open ctxs. induction fuel; intros; cbn [create_contexts]; [by apply yields_ret|].
  destruct (_ <=? _); [by apply yields_ret|].
  eapply yields_bind; [apply create_context_file|]. intros r Hr. walk_yields; [done|].
  intros e1 r' e2 Hq. apply IHfuel in Hq. cbv beta in *. by transitivity (fst r).
Qed.

(** Sending leaves the tables alone. *)
Lemma server_reply pk e a e' : reply t rd pk e = Ok (a, e') -> w_server (e_w e') = w_server (e_w e).
Proof.
  unfold reply. destruct (sendPacket _ _ _ _ _ _) as [[[c cc] err]|?|]; [|done..].
  cbn [obind]. by intros [= _ <-].
Qed.
Lemma server_reply_error pkt st e a e' :
  reply_error t rd pkt st e = Ok (a, e') -> w_server (e_w e') = w_server (e_w e).
Proof. intros (hdr & e1 & [_ ->]%lift_inv & Hr)%bind_inv. by eapply server_reply. Qed.

(** Until it answers, CREATE touches neither the tables nor the connection. *)
Lemma quiet_set_world f :
  (forall w, w_server (f w) = w_server w /\ w_conn (f w) = w_conn w) -> keeps quiet (set_world f).
Proof. intros Hf e a e' [= _ <-]. destruct (Hf (e_w e)). by split_and!. Qed.
Hint Extern 1 (keeps quiet (set_world _)) => by apply quiet_set_world : keeps.
Lemma quiet_call {A} (m : forall fs, fs_state fs -> A * fs_state fs) : keeps quiet (call t m).
Proof. unfold call. walk. Qed.
Hint Resolve quiet_call : keeps.
Lemma quiet_create_request res : keeps quiet (create_request t res).
Proof. unfold create_request. walk. Qed.
Lemma quiet_create_checks q : keeps quiet (create_checks q).
Proof. unfold create_checks. walk. Qed.
Lemma quiet_create_open q d f a : keeps quiet (create_open t q d f a).
Proof. unfold create_open. walk. Qed.
Lemma quiet_create_EA d h k : keeps quiet (handleCreateEA t d h k).
Proof. unfold handleCreateEA, xattr_exists, xattr_clear. walk. Qed.
Lemma quiet_create_context posix attrs cc open ctxs :
  keeps quiet (create_context t posix attrs cc open ctxs).
Proof. unfold create_context, handleQFid, root_inode. walk. Qed.
Lemma quiet_create_contexts fuel posix attrs cc open ctxs :
  keeps quiet (create_contexts t fuel posix attrs cc open ctxs).
Proof.
  revert cc open ctxs. induction fuel; intros; cbn [create_contexts]; walk; eauto.
  apply quiet_create_context.
Qed.
Hint Resolve quiet_create_request quiet_create_checks quiet_create_open quiet_create_EA
  quiet_create_contexts : keeps.

(** The statuses that refuse a CREATE are not 0. *)
Lemma create_status_error err : create_status err <> 0.
Proof. unfold create_status. by case_match. Qed.
Lemma create_checks_error q :
  yields (fun r => match r with Some status => status <> 0 | None => True end) (create_checks q).
Proof. unfold create_checks. walk_yields; try done. by case_match. Qed.
Lemma disposition_error d ex dir status : disposition d ex dir = Refused status -> status <> 0.
Proof. unfold disposition. repeat case_match; by intros [= <-]. Qed.

(** What the request says of the file. *)
Definition asks_for (res : slice) (q : create_req) : Prop :=
  CreateRequestDecoder.CreateOptions res = Ok (cr_options q)
  /\ cr_isEA q = IsEA (create_name (match CreateRequestDecoder.Name res with Ok n => n | _ => [] end))
  /\ (let! n := CreateRequestDecoder.Name res in
      if IsEA (create_name n) then SplitEA (create_name n) else Ok (create_name n, []))
     = Ok (cr_name q, cr_eaKey q).

Lemma create_request_asks res : yields (asks_for res) (create_request t res).
Proof.
  unfold create_request. apply (yields_bind (fun n => CreateRequestDecoder.Name res = Ok n)); [by apply yields_lift|].
  intros n Hn. apply (yields_bind (fun nk =>
    (if IsEA (create_name n) then SplitEA (create_name n) else Ok (create_name n, [])) = Ok nk)).
  { destruct (IsEA (create_name n)); [by apply yields_lift|by apply yields_ret]. }
  intros [name key] Hnk. walk_yields. unfold asks_for. rewrite Hn. cbn [obind cr_options cr_isEA cr_name cr_eaKey].
  by split_and!.
Qed.

(** The open [o] was entered: it is filed under its handle, and a durable one
    under its guid too.  That is one open more unless the file system answered
    a handle that is in use; then [o] takes the place of the open that was
    filed there. *)
Definition entered (o : Open.t) (d d' : Server.t) : Prop :=
  Server.opens d' = <[Open.fileId o := o]> (Server.opens d)
  /\ (Server.opens d !! Open.fileId o = None -> size (Server.opens d') = S (size (Server.opens d)))
  /\ Server.opensByGuid d' = (if Open.isDurable o
       then <[Open.createGuid o := Open.fileId o]> <$> Server.opensByGuid d else Server.opensByGuid d)
  /\ Server.deletePending d' = Server.deletePending d.

Lemma addOpen_entered o d d' : Server.addOpen o d = Ok d' -> entered o d d'.
Proof.
  unfold Server.addOpen, entered. intros Ha.
  assert (Hd : Server.opens d' = <[Open.fileId o := o]> (Server.opens d)
    /\ Server.opensByGuid d' = (if Open.isDurable o
         then <[Open.createGuid o := Open.fileId o]> <$> Server.opensByGuid d else Server.opensByGuid d)
    /\ Server.deletePending d' = Server.deletePending d).
  { destruct (Open.isDurable o); [|by injection Ha as <-].
    destruct (Server.opensByGuid d); [|done]. by injection Ha as <-. }
  destruct Hd as (Ho & Hg & Hp). split_and!; [done| |done..].
  intros Hn. rewrite Ho. by rewrite map_size_insert_None.
Qed.

(** The open that a request gets, and the response that tells of it. *)
Definition opened (pkt res : slice) (o : Open.t) (rsp : CreateResponse.t) : Prop :=
  (exists q, asks_for res q /\ Open.pathName o = cr_name q /\ Open.eaKey o = cr_eaKey q
     /\ Open.isEa o = cr_isEA q /\ Open.deleteOnClose o = has (cr_options q) FILE_DELETE_ON_CLOSE)
  /\ Open.tree o = Some t
  /\ CreateRequestDecoder.DesiredAccess res = Ok (Open.grantedAccess o)
  /\ (exists l, CreateRequestDecoder.RequestedOplockLevel res = Ok l
       /\ Server.grant_oplock l = (Open.oplockLevel o, Open.oplockState o))
  /\ PrepareResponse PacketHeader.zero pkt 0 = Ok (CreateResponse.hdr rsp)
  /\ CreateResponse.OplockLevel rsp = Open.oplockLevel o
  /\ (exists fid, CreateResponse.FileId rsp = Some fid /\ FileId.HandleId fid = Open.fileId o
       /\ FileId.NodeId fid = Open.durableFileId o).

(** How a CREATE ends: it gives up without an answer, it answers an error, or
    it answers success.  Only the last enters an open, one. *)
Inductive concluded (pkt res : slice) (e : env) : option goerr -> env -> Prop :=
| create_dropped ge e' : quiet e e' -> concluded pkt res e (Some ge) e'
| create_refused status e1 err e' :
    status <> 0 -> quiet e e1 -> reply_error t rd pkt status e1 = Ok (err, e') ->
    w_server (e_w e') = w_server (e_w e) -> concluded pkt res e err e'
| create_opened o rsp e1 err e' :
    opened pkt res o rsp -> w_conn (e_w e1) = w_conn (e_w e) ->
    e_cc e1 = compoundContext.set_fileId (default FileId.zero (CreateResponse.FileId rsp)) <$> e_cc e ->
    reply t rd (create_packet rsp) e1 = Ok (err, e') ->
    entered o (w_server (e_w e)) (w_server (e_w e')) -> concluded pkt res e err e'.

Definition concludes (pkt res : slice) (m : M (option goerr)) : Prop :=
  forall e err e', m e = Ok (err, e') -> concluded pkt res e err e'.

Lemma concludes_after {A} (P : A -> Prop) pkt res (m : M A) k :
  keeps quiet m -> yields P m -> (forall a, P a -> concludes pkt res (k a)) -> concludes pkt res (bind m k).
Proof.
  intros Hm Hy Hk e err e' (a & e1 & H1 & H2)%bind_inv. pose proof (Hm _ _ _ H1) as Hq.
  destruct (Hk a (Hy _ _ _ H1) _ _ _ H2)
    as [ge e'' Hq2|status e2 err e'' Hs Hq2 Hr Hsv|o rsp e2 err e'' Ho Hc Hcc Hr Hen].
  - apply create_dropped. by transitivity e1.
  - eapply create_refused; [exact Hs|by transitivity e1|exact Hr|]. destruct Hq as (Hq0 & _). congruence.
  - destruct Hq as (Hq0 & ? & Hq2). rewrite Hq0 in Hen. rewrite Hq2 in Hcc.
    eapply (create_opened _ _ _ o rsp e2); [exact Ho|congruence|exact Hcc|exact Hr|exact Hen].
Qed.

Lemma concludes_any {A} pkt res (m : M A) k :
  keeps quiet m -> (forall a, concludes pkt res (k a)) -> concludes pkt res (bind m k).
Proof. intros Hm Hk. apply (concludes_after (fun _ => True)); [done|apply yields_any|auto]. Qed.

Lemma concludes_refused pkt res status : status <> 0 -> concludes pkt res (reply_error t rd pkt status).
Proof.
  intros Hs e err e' Hr. eapply create_refused; [exact Hs|reflexivity|exact Hr|by eapply server_reply_error].
Qed.

Lemma create_answer_concludes pkt res hdr q h action attrs :
  PrepareResponse PacketHeader.zero pkt 0 = Ok hdr -> asks_for res q ->
  concludes pkt res (create_answer t rd res hdr q h action attrs).
Proof.
  intros Hh Hq. unfold create_answer.
  apply (concludes_after (fun l => CreateRequestDecoder.RequestedOplockLevel res = Ok l));
    [walk|by apply yields_lift|intros l Hl].
  destruct (Server.grant_oplock l) as [lv ls] eqn:Hgr.
  apply (concludes_after (fun l => CreateRequestDecoder.DesiredAccess res = Ok l));
    [walk|by apply yields_lift|intros access Hacc].
  do 5 (apply concludes_any; [walk|intros ?]). cbv zeta.
  apply concludes_any; [walk|intros cc]. cbv zeta.
  eapply concludes_after; [walk|apply create_contexts_file|]. intros [open ctxs] Hcc. cbn [fst] in Hcc.
  intros e err e' Hr. apply bind_inv in Hr as ([] & e3 & Hset & Hr). injection Hset as <-.
  rewrite bind_get_server in Hr. apply bind_inv in Hr as (d & e3 & [Hadd ->]%lift_inv & Hr).
  rewrite bind_put_server in Hr. pose proof (server_reply _ _ _ _ Hr) as Hs. cbn [e_w w_server set_server] in Hs, Hadd.
  apply addOpen_entered in Hadd.
  destruct Hcc as (Hfid & Hdur & Hlv & Hst & Hpath & Htree & Hga & Hdoc & Hea & Hkey).
  cbn in Hfid, Hdur, Hlv, Hst, Hpath, Htree, Hga, Hdoc, Hea, Hkey.
  eapply (create_opened _ _ _ open); [| | |exact Hr|by rewrite Hs].
  - unfold opened. rewrite Htree, Hga. split_and!; [exists q; by split_and!|done|done| |done|done|].
    + exists l. by rewrite Hlv, Hst.
    + eexists. split; [reflexivity|]. by rewrite Hfid, Hdur.
  - done.
  - done.
Qed.

(** C3: CREATE opens on success and only then.  Whatever the file system
    answers, a CREATE that the server survives ends in one of three ways.  It
    is dropped, and tables and connection are as they were; it is answered
    with an error, one packet and no change of the tables; or it is answered
    with success, one packet, and one open is entered into the tables under
    the handle that the response tells.  That open belongs to the tree of the
    request, has the access, the oplock and the delete-on-close option the
    client asked for, and the path and the stream of the requested name.  It
    is one open more when the handle is not in use; a handle in use, which
    the code does not check for, makes it replace the open that was there. *)
Theorem create_adds_one_open (pkt res : slice) (e e' : env) (err : option goerr) :
  accept SMB2_CREATE pkt = Ok res -> create t rd pkt e = Ok (err, e') -> concluded pkt res e err e'.
Proof.
  intros Ha. revert e err e'. change (concludes pkt res (create t rd pkt)). unfold create.
  apply concludes_any; [walk|intros _]. rewrite Ha.
  apply concludes_any; [walk|intros [|]]; [by intros e err e' [= <- <-]; apply create_dropped|].
  apply (concludes_after (fun hdr => PrepareResponse PacketHeader.zero pkt 0 = Ok hdr));
    [walk|by apply yields_lift|intros hdr Hh].
  apply (concludes_after (asks_for res)); [walk|apply create_request_asks|intros q Hq].
  eapply concludes_after; [walk|apply create_checks_error|intros [status|] Hst]; [by apply concludes_refused|].
  destruct (disposition _ _ _) as [status|flags action mkdir] eqn:Hd;
    [by eapply concludes_refused, disposition_error|].
  apply concludes_any; [walk|intros [er|]]; [apply concludes_refused, create_status_error|].
  apply concludes_any; [walk|intros requested]. apply concludes_any; [walk|intros access].
  apply concludes_any; [walk|intros [[h attrs]|er]]; [|apply concludes_refused, create_status_error].
  apply concludes_any; [walk|intros status].
  destruct (Z.eqb_spec status 0) as [_|Hne]; cbn [negb]; [by apply create_answer_concludes|].
  apply concludes_any; [walk|intros _]. by apply concludes_refused.
Qed.
End create_facts.

(** ** CLOSE *)

Section close_facts.
Context `{GoLib} (t : nat) (rd : random) (id : Z) (fs : VFSFileSystem).

(** An error is never answered with success. *)
Lemma status_of_error err : statusFromVFSError (Some err) <> 0.
Proof. unfold statusFromVFSError. repeat case_match; discriminate. Qed.

(** Another open is on the node of [o]. *)
Definition shared_node (o : Open.t) (d : Server.t) : bool :=
  Server.node_open (Open.durableFileId o) (delete (Open.fileId o) (Server.opens d)).

Lemma shared_node_spec o d :
  shared_node o d = true <->
  exists h o', h <> Open.fileId o /\ Server.getOpen h d = Some o' /\ Open.durableFileId o' = Open.durableFileId o.
Proof.
  unfold shared_node, Server.node_open, Server.getOpen. rewrite existsb_exists. split.
  - intros (o' & Hin & Hn%Z.eqb_eq). apply in_map_iff in Hin as ([h o1] & <- & Hin).
    apply list_elem_of_In, elem_of_map_to_list, lookup_delete_Some in Hin as [Hne Hl]. exists h, o1. auto.
  - intros (h & o' & Hne & Hl & Hn). exists o'. split; [|by apply Z.eqb_eq].
    apply in_map_iff. exists (h, o'). split; [done|]. apply list_elem_of_In, elem_of_map_to_list.
    by apply lookup_delete_Some.
Qed.

(** The file goes with this close: it was to be deleted, and no other open
    is on it. *)
Definition last_of_doomed (o : Open.t) (d : Server.t) : bool :=
  (Open.deleteOnClose o || Server.pending d (Open.durableFileId o)) && negb (shared_node o d).

(** The open [o] was taken out of the tables; its node waits for deletion
    when that was asked for and other opens keep the file. *)
Definition removed (o : Open.t) (d d' : Server.t) : Prop :=
  Server.opens d' = delete (Open.fileId o) (Server.opens d)
  /\ Server.opensByGuid d' = (if Open.isDurable o
       then delete (Open.createGuid o) <$> Server.opensByGuid d else Server.opensByGuid d)
  /\ forall n, Server.pending d' n =
       if n =? Open.durableFileId o
       then (Open.deleteOnClose o || Server.pending d n) && shared_node o d
       else Server.pending d n.

Lemma closeOpen_removed o d : removed o d (snd (Server.closeOpen o d)).
Proof.
  unfold removed. split_and!.
  - apply closeOpen_opens.
  - unfold Server.closeOpen. cbv zeta. destruct (negb _); [done|]. by destruct (Server.node_open _ _).
  - intros n. rewrite closeOpen_pending, closeOpen_result. fold (shared_node o d).
    destruct (Z.eqb_spec n (Open.durableFileId o)) as [->|]; case_decide; try done.
    by destruct (Open.deleteOnClose o), (Server.pending d _), (shared_node o d).
Qed.

(** The attributes that the answer carries: those of the file before the
    close, when the client asks for them and they are to be had. *)
Definition close_attrs (flags h : Z) (st : fs_state fs) : option Attributes.t * fs_state fs :=
  if has flags SMB2_CLOSE_FLAG_POSTQUERY_ATTRIB then
    let '(r, st) := fs_GetAttr fs h st in (match r with inl a => Some a | inr _ => None end, st)
  else (None, st).
Definition close_response (hdr : PacketHeader.t) (attrs : option Attributes.t) (path : gostring)
  : outcome CloseResponse.t :=
  match attrs with
  | None => Ok (CloseResponse.mk hdr 0 None None None None 0 0 0)
  | Some a =>
      let! perms := PermissionsFromVfs a path in
      Ok (CloseResponse.mk hdr SMB2_CLOSE_FLAG_POSTQUERY_ATTRIB
            (Some (BirthTimeFromVfs a)) (Some (AccessTimeFromVfs a))
            (Some (ModifiedTimeFromVfs a)) (Some (ChangeTimeFromVfs a))
            (s64 (DiskSizeFromVfs a)) (s64 (SizeFromVfs a)) perms)
  end.

Lemma close_info_ok flags h hdr o st e rsp :
  fs_env t id fs st e -> Open.posixSemantics o = false ->
  close_response hdr (fst (close_attrs flags h st)) (Open.pathName o) = Ok rsp ->
  exists e1, close_info t flags h hdr (Some o) e = Ok (rsp, e1) /\ fs_env t id fs (snd (close_attrs flags h st)) e1
    /\ w_server (e_w e1) = w_server (e_w e) /\ w_conn (e_w e1) = w_conn (e_w e) /\ e_cc e1 = e_cc e.
Proof.
  intros He Hp Hr. unfold close_info, closePostQueryAttrsAllowed, close_attrs in *. rewrite Hp.
  destruct (has flags SMB2_CLOSE_FLAG_POSTQUERY_ATTRIB); cbn [negb] in *.
  2: { cbn in Hr. injection Hr as <-. by exists e. }
  destruct (call_run t id fs (fun fs => fs_GetAttr fs h) st e He) as (e1 & Hc & He1 & Hcc & Hco & Hs & _).
  rewrite (bind_run _ _ _ _ _ Hc). cbn [fs_with fs_GetAttr] in *.
  destruct (fs_GetAttr fs h st) as [[a|er] st1]; cbn [fst snd] in *; exists e1.
  - cbn [close_response] in Hr. destruct (PermissionsFromVfs a _) as [perms|?|]; [|done..].
    cbn [obind] in Hr. by injection Hr as <-.
  - cbn in Hr. by injection Hr as <-.
Qed.

(** What the file system goes through. *)
Definition closed_fs (h : Z) (o : Open.t) (d : Server.t) (st : fs_state fs)
  : option vfs_error * option vfs_error * fs_state fs :=
  let '(uerr, st) := if last_of_doomed o d then fs_Unlink fs h st else (None, st) in
  let '(cerr, st) := fs_Close fs h st in (uerr, cerr, st).

Lemma close_delete_ok h status o st e :
  fs_env t id fs st e ->
  let '(uerr, st') := if last_of_doomed o (w_server (e_w e)) then fs_Unlink fs h st else (None, st) in
  exists e', close_delete t h status (Some o) e
    = Ok (match uerr with Some err => statusFromVFSError (Some err) | None => status end, e')
    /\ w_server (e_w e') = snd (Server.closeOpen o (w_server (e_w e)))
    /\ fs_env t id fs st' e' /\ w_conn (e_w e') = w_conn (e_w e) /\ e_cc e' = e_cc e.
Proof.
  intros [Ht Hfs]. unfold close_delete. rewrite bind_get_server.
  unfold last_of_doomed, shared_node. rewrite <- closeOpen_result.
  destruct (Server.closeOpen o (w_server (e_w e))) as [del d] eqn:Hc. cbn [fst snd].
  rewrite bind_put_server. set (e1 := mkEnv _ _). assert (He1 : fs_env t id fs st e1) by (by split).
  destruct del; [|by exists e1].
  destruct (call_run t id fs (fun fs => fs_Unlink fs h) st e1 He1) as (e2 & Hr & He2 & Hcc & Hco & Hs & _).
  rewrite (bind_run _ _ _ _ _ Hr). cbn [fs_with fs_Unlink] in *.
  destruct (fs_Unlink fs h st) as [uerr st']. by exists e2.
Qed.

(** C4: CLOSE deletes with the last open.  A CLOSE outside a compound of an
    open without POSIX semantics asks the file system for the attributes when
    the client wants them, takes the open out of the table, unlinks the file
    through the handle exactly when its deletion was asked for (by this open,
    or earlier) and no other open is on the node, and then closes the handle;
    nothing else happens on the file system.  While other opens keep a file
    that is to be deleted, the deletion stays pending.  The answer carries
    the attributes, when they were asked for and there are any, and the
    status of the failed unlink, else of the failed close, else success. *)
Theorem close_deletes_with_last_open (pkt res fidb : slice) (hdr : PacketHeader.t) (fid : FileId.t) (flags : Z)
    (p : nat) (tc : treeConn.t) (o : Open.t) (st : fs_state fs) (e : env) (rsp : CloseResponse.t) :
  file_env t id fs st (FileId.HandleId fid) o e -> e_cc e = None ->
  conn.trees (w_conn (e_w e)) !! t = Some tc -> treeConn.session tc = Some p ->
  accept SMB2_CLOSE pkt = Ok res -> CloseRequestDecoder.IsInvalid res = Ok false ->
  CloseRequestDecoder.FileId res = Ok fidb -> FileIdDecoder.Decode fidb = Ok fid ->
  IsInvalidFileId (Some fid) = false -> CloseRequestDecoder.Flags res = Ok flags ->
  PrepareResponse PacketHeader.zero pkt 0 = Ok hdr -> Open.posixSemantics o = false ->
  let '(attrs, st0) := close_attrs flags (FileId.HandleId fid) st in
  let '(uerr, cerr, st') := closed_fs (FileId.HandleId fid) o (w_server (e_w e)) st0 in
  let status := match uerr with Some err => statusFromVFSError (Some err)
                | None => match cerr with Some err => statusFromVFSError (Some err) | None => 0 end end in
  close_response (PacketHeader.set_Status status hdr) attrs (Open.pathName o) = Ok rsp ->
  exists e', fs_env t id fs st' e' /\ removed o (w_server (e_w e)) (w_server (e_w e'))
    /\ w_conn (e_w e') = w_conn (e_w e)
    /\ close t rd pkt e = bind (reply t rd (close_packet rsp)) (fun _ => ret None) e'.
Proof.
  intros He Hcc Htc Hp Ha Hi Hfb Hfid Hv Hfl Hh Hposix.
  set (h := FileId.HandleId fid) in *.
  destruct (close_attrs flags h st) as [attrs st0] eqn:Hat.
  destruct (closed_fs h o (w_server (e_w e)) st0) as [[uerr cerr] st'] eqn:Hcf. cbv zeta.
  set (status := match uerr with Some _ => _ | None => _ end). intros Hrsp.
  assert (exists rsp0, close_response hdr attrs (Open.pathName o) = Ok rsp0
    /\ with_hdr (PacketHeader.set_Status status hdr) (close_packet rsp0) = close_packet rsp)
    as (rsp0 & Hrsp0 & Hwith).
  { destruct attrs as [a|]; cbn [close_response] in *.
    - destruct (PermissionsFromVfs a _); [|done..]. cbn [obind] in *. injection Hrsp as <-. by eexists.
    - injection Hrsp as <-. by eexists. }
  unfold close. rewrite (bind_run _ _ _ _ _ (session_conn_ok t tc p e Htc Hp)). rewrite Ha.
  rewrite (bind_lift _ _ _ _ Hi).
  assert (Hrf : request_file (CloseRequestDecoder.FileId res) e = Ok (fid, e))
    by (apply request_file_ok; [done|by rewrite Hfb]).
  rewrite (bind_run _ _ _ _ _ Hrf), bind_get_ctx, Hcc, Hv.
  rewrite (bind_lift _ _ _ _ Hh), (bind_lift _ _ _ _ Hfl).
  rewrite (bind_run _ _ _ _ _ (getOpen_ok t id fs st _ o e He)). fold h.
  destruct (close_info_ok flags h hdr o st e rsp0 (fe_env _ _ _ _ _ _ _ He) Hposix)
    as (e0 & Hi0 & He0 & Hs0 & Hc0 & _); [by rewrite Hat|].
  rewrite Hat in He0. rewrite (bind_run _ _ _ _ _ Hi0).
  unfold applyPosixDeleteOnClose. rewrite Hposix, orb_true_r, bind_ret.
  pose proof (close_delete_ok h 0 o st0 e0 He0) as Hcd. rewrite Hs0 in Hcd. unfold closed_fs in Hcf.
  destruct (if last_of_doomed _ _ then _ else _) as [uerr1 st1].
  destruct Hcd as (e1 & Hcd & Hs1 & He1 & Hc1 & _). rewrite (bind_run _ _ _ _ _ Hcd).
  destruct (call_run t id fs (fun fs => fs_Close fs h) st1 e1 He1) as (e2 & Hr & He2 & _ & Hc2 & Hs2 & _).
  rewrite (bind_run _ _ _ _ _ Hr). cbn [fs_with fs_Close] in *.
  destruct (fs_Close fs h st1) as [cerr1 st2]. cbn [fst snd] in *. injection Hcf as -> -> ->.
  exists e2. split; [done|]. split; [rewrite Hs2, Hs1; apply closeOpen_removed|]. split; [congruence|].
  rewrite <- Hwith. unfold status.
  destruct uerr as [ue|], cerr as [ce|]; try done.
  by rewrite (proj2 (Z.eqb_neq _ _) (status_of_error ue)).
Qed.
End close_facts.

(** ** READ *)

Section read_facts.
Context `{GoLib} (t : nat) (rd : random) (id : Z) (fs : VFSFileSystem).

(** The data of the response are the first [n] bytes of the buffer. *)
Lemma read_done_ok pkt asyncId n buf hdr e :
  PrepareAsyncResponse PacketHeader.zero pkt asyncId 0 = Ok hdr ->
  if (0 <=? n) && (n <=? blen buf) then
    exists data, blen data = n /\ data = upto n buf
      /\ read_done t rd pkt asyncId n buf e = reply t rd (read_packet (ReadResponse.mk hdr data 0)) e
  else read_done t rd pkt asyncId n buf e = Panic.
Proof.
  intros Hh. unfold read_done. rewrite (bind_lift _ _ _ _ Hh).
  destruct ((0 <=? n) && (n <=? blen buf)) eqn:Hb.
  - apply andb_true_iff in Hb as [H0%Z.leb_le H1%Z.leb_le].
    exists (upto n buf). split; [rewrite blen_upto; lia|]. split; [done|].
    rewrite (bind_lift _ _ _ (mkSlice (from 0 buf) (n - 0))).
    + unfold s_bytes. cbn [s_len s_arr]. by rewrite Z.sub_0_r.
    + by rewrite s_range_ok.
  - unfold bind, lift. rewrite s_range_panic; [done|]. unfold s_cap. cbn [s_arr of_bytes].
    apply andb_false_iff in Hb as [H0%Z.leb_gt|H1%Z.leb_gt]; lia.
Qed.

(** C21: a READ answers with no more than was asked for.  For a file, the
    file system is asked once, with a buffer of the requested length.  An
    error with no data becomes an error response (end of file, or the status
    of the error); otherwise the response carries the first [n] bytes of the
    buffer, where [n] is the count the file system gave and never more than
    the length; a count outside the buffer stops the server. *)
Theorem read_answer_bounded (pkt res : slice) (fid : FileId.t) (asyncId len off : Z)
    (p : nat) (tc : treeConn.t) (o : Open.t) (st : fs_state fs) (e : env) :
  fs_env t id fs st e ->
  conn.trees (w_conn (e_w e)) !! t = Some tc -> treeConn.session tc = Some p ->
  accept_any SMB2_READ pkt = Ok res -> ReadRequestDecoder.Length res = Ok len -> 0 <= len ->
  ReadRequestDecoder.Offset res = Ok off -> Open.isEa o = false ->
  let '((written, n, err), st') := fs_Read fs (FileId.HandleId fid) (zeros len) off 0 st in
  exists e', fs_env t id fs st' e' /\ only_fs e e'
    /\ match err with
       | Some er =>
           n = 0 -> readImpl t rd pkt fid o asyncId e
             = reply_async_error t rd pkt asyncId
                 (if is_EOF er then STATUS_END_OF_FILE else statusFromVFSError err) e'
       | None => True
       end
    /\ ((err <> None -> n <> 0) -> forall hdr, PrepareAsyncResponse PacketHeader.zero pkt asyncId 0 = Ok hdr ->
        if (0 <=? n) && (n <=? len) then
          exists data, blen data = n /\ data = upto n (fill (zeros len) written)
            /\ readImpl t rd pkt fid o asyncId e = reply t rd (read_packet (ReadResponse.mk hdr data 0)) e'
        else readImpl t rd pkt fid o asyncId e = Panic).
Proof.
  intros He Htc Hp Ha Hlen Hpos Hoff Hea. unfold readImpl.
  rewrite (bind_run _ _ _ _ _ (session_conn_ok t tc p e Htc Hp)).
  rewrite (bind_lift _ _ _ _ Ha), (bind_lift _ _ _ _ Hlen), Hea, (bind_lift _ _ _ _ Hoff).
  destruct (call_run t id fs (fun fs => fs_Read fs (FileId.HandleId fid) (zeros len) off 0) st e He)
    as (e' & Hr & He' & Hsame).
  rewrite (bind_run _ _ _ _ _ Hr). cbn [fs_with fs_Read] in *.
  destruct (fs_Read fs _ _ off 0 st) as [[[written n] err] st']. cbn [fst snd] in *.
  exists e'. split; [done|]. split; [done|]. split.
  { destruct err as [er|]; [|done]. by intros ->. }
  intros Hn hdr Hh. pose proof (read_done_ok pkt asyncId n (fill (zeros len) written) hdr e' Hh) as Hd.
  replace (blen (fill (zeros len) written)) with len in Hd
    by (unfold fill; rewrite blen_splice; by rewrite blen_zeros).
  destruct err as [er|]; [|exact Hd]. destruct (Z.eqb_spec n 0); [by destruct Hn|exact Hd].
Qed.
End read_facts.

(** ** Goroutines *)

Lemma sum_without {A} (f : A -> nat) l i x :
  l !! i = Some x -> (sum_list_with f (delete i l) + f x = sum_list_with f l)%nat.
Proof.
  revert i. induction l as [|y l IH]; intros [|i] Hx; try done.
  - injection Hx as ->. cbn. lia.
  - change (delete (S i) (y :: l)) with (y :: delete i l). cbn [sum_list_with].
    pose proof (IH i Hx). lia.
Qed.
Lemma sum_replaced {A} (f : A -> nat) l i x y :
  l !! i = Some x -> (sum_list_with f (<[i := y]> l) + f x = sum_list_with f l + f y)%nat.
Proof.
  revert i. induction l as [|z l IH]; intros [|i] Hx; try done.
  - injection Hx as ->. cbn. lia.
  - change (<[S i := y]> (z :: l)) with (z :: <[i := y]> l). cbn [sum_list_with].
    pose proof (IH i Hx). lia.
Qed.

Section goroutines.
Context `{GoLib}.

(** The steps the goroutines that were started still have to take. *)
Definition steps_left (k : task) : nat := if tk_pending k then 1 else 2.
Definition work_left (w : world) : nat := sum_list_with steps_left (w_tasks w).

Definition same_tasks (e e' : env) : Prop := w_tasks (e_w e') = w_tasks (e_w e).
#[local] Instance same_tasks_preorder : PreOrder same_tasks.
Proof. split; [by intros e|]. intros a b c H1 H2. unfold same_tasks in *. congruence. Qed.

Lemma tasks_reply t rd pk : keeps same_tasks (reply t rd pk).
Proof.
  intros e a e'. unfold reply. destruct (sendPacket _ _ _ _ _ _) as [[[c cc] err]|?|]; [|done..].
  cbn [obind]. by intros [= _ <-].
Qed.
Lemma tasks_set_fs f : keeps same_tasks (set_world (fun w => set_fs (f w) w)).
Proof. by intros e a e' [= _ <-]. Qed.
Lemma tasks_call {A} t (m : forall fs, fs_state fs -> A * fs_state fs) : keeps same_tasks (call t m).
Proof. unfold call. walk. apply (tasks_set_fs (fun w => _)). Qed.
Hint Resolve tasks_reply tasks_call : keeps.

Lemma tasks_put_server d : keeps same_tasks (put_server d).
Proof. by intros e a e' [= _ <-]. Qed.
Hint Resolve tasks_put_server : keeps.

Lemma task_step_tasks rd k : keeps same_tasks (task_step rd k).
Proof.
  unfold task_step, io_impl, readImpl, readEA, read_done, writeImpl, notify_end, update_open, getOpen,
    reply_async_error, reply_error. walk.
Qed.

Lemma task_step_left rd k :
  yields (fun k' => match k' with Some k' => steps_left k' | None => O end < steps_left k)%nat (task_step rd k).
Proof. unfold task_step, steps_left. destruct (tk_pending k); cbn [negb]; walk_yields; cbn; lia. Qed.

(** A step of a goroutine leaves less to do. *)
Lemma schedule_progress rd cc i w w' :
  (i < length (w_tasks w))%nat -> schedule rd cc i w = Ok w' -> (work_left w' < work_left w)%nat.
Proof.
  intros Hi. unfold schedule. destruct (lookup_lt_is_Some_2 _ _ Hi) as [k Hk]. rewrite Hk.
  destruct (task_step rd k (mkEnv w (task_ctx cc k))) as [[k' e]|?|] eqn:Hs; [|done..]. cbn [obind].
  pose proof (task_step_left _ _ _ _ _ Hs) as Hl. pose proof (task_step_tasks _ _ _ _ _ Hs) as Ht.
  unfold same_tasks in Ht. cbn [e_w] in Ht. rewrite Ht. intros [= <-]. unfold work_left. cbn [w_tasks set_tasks].
  pose proof (sum_without steps_left _ _ _ Hk). destruct k' as [k'|]; [|lia].
  pose proof (sum_replaced steps_left _ _ _ k' Hk). lia.
Qed.

(** The scheduler lets some goroutine that was started take a step. *)
Definition scheduled (w w' : world) : Prop :=
  exists rd cc i, (i < length (w_tasks w))%nat /\ schedule rd cc i w = Ok w'.

(** The goroutines of the file trees finish.  In whatever order the
    scheduler runs them and whatever the file system answers, every one that
    was started takes at most two steps (the one that tells the client that
    the request is pending, and the one that does the work and answers): no
    more steps can be taken in all than there is work left, and when none is
    left every goroutine is gone. *)
Theorem goroutines_finish (n : nat) (w w' : world) :
  nsteps scheduled n w w' ->
  (n + work_left w' <= work_left w)%nat /\ (work_left w <= 2 * length (w_tasks w))%nat
  /\ (work_left w' = O -> w_tasks w' = []).
Proof.
  intros Hn. split_and!.
  - induction Hn as [w|n w w1 w' (rd & cc & i & Hi & Hs) _ IH]; [lia|].
    apply schedule_progress in Hs; [lia|done].
  - unfold work_left. induction (w_tasks w) as [|k l IH]; [done|]. cbn [sum_list_with length].
    assert (steps_left k <= 2)%nat by (unfold steps_left; destruct (tk_pending k); lia). lia.
  - unfold work_left. destruct (w_tasks w') as [|k l]; [done|]. cbn [sum_list_with].
    unfold steps_left at 1. destruct (tk_pending k); lia.
Qed.
End goroutines.

(** ** Concrete checks *)

Definition toy_fid : FileId.t := FileId.SetNodeId 9 (FileId.SetHandleId 4 FileId.zero).
Definition toy_close : slice :=
  let r := CloseRequest.mk toy_hdr 0 (Some toy_fid) in
  toy_request (CloseRequest.Size r) (CloseRequest.Encode r).
Definition toy_read : slice :=
  let r := ReadRequest.mk toy_hdr 0 0 2 0 (Some toy_fid) 0 0 0 [] in
  toy_request (ReadRequest.Size r) (ReadRequest.Encode r).
(** [CREATE "f"] with disposition OPEN. *)
Definition toy_create : slice :=
  let r := CreateRequest.mk toy_hdr 0 0 0 0 0x80 0 0 FILE_OPEN 0 [0x66] [] in
  toy_request (CreateRequest.Size r) (CreateRequest.Encode r).

(** What an outcome gives, for evaluating. *)
Definition okd {A} (d : A) (o : outcome A) : A := match o with Ok a => a | _ => d end.
Lemma okd_ok {A} (d : A) (o : outcome A) :
  match o with Ok _ => true | _ => false end = true -> o = Ok (okd d o).
Proof. by destruct o. Qed.

(** The open asks for its deletion: the file is unlinked, then closed. *)
Definition doomed_tables : Server.t := Server.mk {[4 := toy_open 4 9 true]} None ∅.
Lemma close_deletes_with_last_open_witness :
  exists e', fs_env 3 4 toy_fs ([], [-4; 4]) e' /\ Server.opens (w_server (e_w e')) = ∅
    /\ Server.pending (w_server (e_w e')) 9 = false.
Proof.
  set (e := toy_file_env doomed_tables).
  pose proof (close_deletes_with_last_open (H := toy_lib) 3 toy_rd 4 toy_fs toy_close
    (okd nil_slice (accept SMB2_CLOSE toy_close))
    (okd nil_slice (CloseRequestDecoder.FileId (okd nil_slice (accept SMB2_CLOSE toy_close))))
    (okd PacketHeader.zero (PrepareResponse PacketHeader.zero toy_close 0)) toy_fid 0 0
    (toy_tree_conn (Some 0%nat)) (toy_open 4 9 true) ([], []) e
    (CloseResponse.mk (okd PacketHeader.zero (PrepareResponse PacketHeader.zero toy_close 0)) 0
       None None None None 0 0 0)) as Hc.
  destruct Hc as (e' & He & (Ho & _ & Hn) & _).
  - split; [|reflexivity]. split; [by exists (toy_tree_conn (Some 0%nat))|reflexivity].
  - reflexivity.
  - reflexivity.
  - reflexivity.
  - apply okd_ok. vm_compute. reflexivity.
  - vm_compute. reflexivity.
  - apply okd_ok. vm_compute. reflexivity.
  - vm_compute. reflexivity.
  - vm_compute. reflexivity.
  - vm_compute. reflexivity.
  - apply okd_ok. vm_compute. reflexivity.
  - reflexivity.
  - vm_compute. reflexivity.
  - exists e'. split; [exact He|]. split; [rewrite Ho|rewrite Hn]; vm_compute; reflexivity.
Defined.

(** Two bytes are read. *)
Lemma read_answer_bounded_witness :
  exists e' hdr, readImpl (H := toy_lib) 3 toy_rd toy_read toy_fid (toy_open 4 9 false) 7 (toy_file_env toy_tables)
    = reply (H := toy_lib) 3 toy_rd (read_packet (ReadResponse.mk hdr [1; 2] 0)) e'.
Proof.
  pose proof (read_answer_bounded (H := toy_lib) 3 toy_rd 4 toy_fs toy_read
    (okd nil_slice (accept_any SMB2_READ toy_read)) toy_fid 7 2 0 0 (toy_tree_conn (Some 0%nat))
    (toy_open 4 9 false) ([], []) (toy_file_env toy_tables)) as Hc.
  destruct Hc as (e' & _ & _ & _ & Hr).
  - split; [by exists (toy_tree_conn (Some 0%nat))|reflexivity].
  - reflexivity.
  - reflexivity.
  - apply okd_ok. vm_compute. reflexivity.
  - vm_compute. reflexivity.
  - lia.
  - vm_compute. reflexivity.
  - reflexivity.
  - destruct (Hr ltac:(discriminate) (okd PacketHeader.zero (PrepareAsyncResponse PacketHeader.zero toy_read 7 0)))
      as (data & _ & -> & Hd); [apply okd_ok; vm_compute; reflexivity|].
    eexists e', _. exact Hd.
Defined.

Lemma goroutines_finish_witness :
  exists w', @schedule toy_lib toy_rd None 0 (set_tasks [mkTask (IoTask ReadTask) 3 toy_read toy_fid (toy_open 4 9 false) 7 true]
      (toy_file_world toy_tables)) = Ok w'
    /\ w_tasks w' = [].
Proof.
  set (w := set_tasks _ _).
  assert (Hok : match @schedule toy_lib toy_rd None 0 w with Ok _ => true | _ => false end = true) by (vm_compute; reflexivity).
  destruct (@schedule toy_lib toy_rd None 0 w) as [w'|?|] eqn:E; [|discriminate Hok..].
  exists w'. split; [reflexivity|].
  destruct (goroutines_finish (H := toy_lib) 1 w w') as (H1 & _ & H3).
  - eapply nsteps_l; [|apply nsteps_O]. exists toy_rd, None, 0%nat. split; [cbn; lia|exact E].
  - apply H3. change (work_left w) with 1%nat in H1. lia.
Defined.

(** The server of [toy_file_env] has no open file; its file system answers. *)
Lemma create_adds_one_open_witness :
  exists err e', create (H := toy_lib) 3 toy_rd toy_create (toy_file_env Server.NewServer) = Ok (err, e')
    /\ concluded (H := toy_lib) 3 toy_rd toy_create (okd nil_slice (accept SMB2_CREATE toy_create))
         (toy_file_env Server.NewServer) err e'.
Proof.
  destruct (returns (create (H := toy_lib) 3 toy_rd toy_create (toy_file_env Server.NewServer)))
    as (err & e' & E); [vm_compute; reflexivity|].
  exists err, e'. split; [exact E|].
  apply (create_adds_one_open (H := toy_lib) 3 toy_rd toy_create _ _ _ err); [|exact E].
  apply okd_ok. vm_compute. reflexivity.
Defined.
