(* ===== verification/FileTreeDir.v ===== *)
(** * File trees: listing directories (server/file_tree.go)

    The entries of every directory information class, the pages a listing is
    cut into, the entries that are kept for the next page, and
    QUERY_DIRECTORY. *)

From S2P Require Import Prelude Const Packet Utf16 Paths Request Dtyp Vfs Oplock Opens Acl FileInfo.
From S2P Require Import Response Contexts Session Compound Conn Handlers TreeState FileTree.

(** ** Entries *)

Section entries.
Import DirInfo.

(** A symbolic link shows its reparse tag where the EA size would be. *)
Definition ea_size (fileAttributes : Z) : Z :=
  if has fileAttributes FILE_ATTRIBUTE_REPARSE_POINT then IO_REPARSE_TAG_SYMLINK else 0.

Definition newFileDirectoryInformationInfo (d : t) : outcome FileDirectoryInformationInfo.t :=
  let a := Attrs d in
  let! attrs := PermissionsFromVfs a (Name d) in
  Ok (FileDirectoryInformationInfo.mk 0 0 (BirthTimeFromVfs a) (AccessTimeFromVfs a)
        (ModifiedTimeFromVfs a) (ChangeTimeFromVfs a) (SizeFromVfs a) (DiskSizeFromVfs a) attrs (Name d)).

Definition newFileFullDirectoryInformationInfo (d : t) : outcome FileFullDirectoryInformationInfo.t :=
  let a := Attrs d in
  let! attrs := PermissionsFromVfs a (Name d) in
  Ok (FileFullDirectoryInformationInfo.mk 0 0 (BirthTimeFromVfs a) (AccessTimeFromVfs a)
        (ModifiedTimeFromVfs a) (ChangeTimeFromVfs a) (SizeFromVfs a) (DiskSizeFromVfs a) attrs
        (ea_size attrs) (Name d)).

(** The FileId field is left at 0. *)
Definition newFileIdFullDirectoryInformationInfo (d : t) : outcome FileIdFullDirectoryInformationInfo.t :=
  let a := Attrs d in
  let! attrs := PermissionsFromVfs a (Name d) in
  Ok (FileIdFullDirectoryInformationInfo.mk 0 0 (BirthTimeFromVfs a) (AccessTimeFromVfs a)
        (ModifiedTimeFromVfs a) (ChangeTimeFromVfs a) (SizeFromVfs a) (DiskSizeFromVfs a) attrs
        (ea_size attrs) 0 0 (Name d)).

Definition newFileIdBothDirectoryInformationInfo (d : t) : outcome FileIdBothDirectoryInformationInfo.t :=
  let a := Attrs d in
  let! ino := Attributes.GetInodeNumber a in
  let! attrs := PermissionsFromVfs a (Name d) in
  Ok (FileIdBothDirectoryInformationInfo.mk 0 0 (BirthTimeFromVfs a) (AccessTimeFromVfs a)
        (ModifiedTimeFromVfs a) (ChangeTimeFromVfs a) (SizeFromVfs a) (DiskSizeFromVfs a) attrs
        (ea_size attrs) 0 0 (zeros 24) 0 ino (Name d)).

Definition newFileBothDirectoryInformationInfo (d : t) : outcome FileBothDirectoryInformationInfo.t :=
  let a := Attrs d in
  let! attrs := PermissionsFromVfs a (Name d) in
  Ok (FileBothDirectoryInformationInfo.mk 0 0 (BirthTimeFromVfs a) (AccessTimeFromVfs a)
        (ModifiedTimeFromVfs a) (ChangeTimeFromVfs a) (SizeFromVfs a) (DiskSizeFromVfs a) attrs
        (ea_size attrs) 0 0 (zeros 24) (Name d)).

Definition newFileIdAllExtdBothDirectoryInformationInfo (d : t)
  : outcome FileIdAllExtdBothDirectoryInformationInfo.t :=
  let a := Attrs d in
  let! ino := Attributes.GetInodeNumber a in
  let! attrs := PermissionsFromVfs a (Name d) in
  Ok (FileIdAllExtdBothDirectoryInformationInfo.mk 0 0 (BirthTimeFromVfs a) (AccessTimeFromVfs a)
        (ModifiedTimeFromVfs a) (ChangeTimeFromVfs a) (SizeFromVfs a) (DiskSizeFromVfs a) attrs
        (ea_size attrs) 0 ino 0 0 0 0 (zeros 24) (Name d)).

Definition newFilePosixInformationInfo (d : t) : outcome FilePosixInformationInfo.t :=
  let a := Attrs d in
  let '(device, _) := Attributes.GetDeviceNumber a in
  let '(uid, _) := Attributes.GetUID a in
  let '(gid, _) := Attributes.GetGID a in
  let! attrs := PermissionsFromVfs a (Name d) in
  let! ino := Attributes.GetInodeNumber a in
  let! links := Attributes.GetLinkCount a in
  let! tag := reparseTagFromVfs a in
  let! mode := posixModeFromVfs a in
  Ok (FilePosixInformationInfo.mk (BirthTimeFromVfs a) (AccessTimeFromVfs a) (ModifiedTimeFromVfs a)
        (ChangeTimeFromVfs a) (SizeFromVfs a) (DiskSizeFromVfs a) attrs ino (u32 device) 0 links tag
        mode (SIDFromUid uid) (SIDFromGid gid) (Name d)).

Definition newFilePosixDirectoryInformationInfo (d : t) : outcome FilePosixDirectoryInformationInfo.t :=
  let! i := newFilePosixInformationInfo d in
  Ok (FilePosixDirectoryInformationInfo.mk 0 0 i (Name d)).

Definition newFileNamesInformationInfo (d : t) : FileNamesInformationInfo.t :=
  FileNamesInformationInfo.mk 0 0 (Name d).

End entries.

(** ** Pages *)

Definition queryDirectoryReadBatchSize : Z := 128.

(** The page with the item, or nothing when it does not fit. *)
Definition appendDirectoryInfo (out : list Encoder) (item : Encoder) (maxSize : Z) : option (list Encoder) :=
  if (maxSize <? Packet.Size item)
     || (maxSize <? FileInformationInfoResponse.Size out + Packet.Size item)
  then None else Some (out ++ [item]).

(** The status to answer with, when it is settled. *)
Definition queryDirectoryAppendStatus (out : list Encoder) (full : bool) : option Z :=
  match out with
  | _ :: _ => Some 0
  | [] => if full then Some STATUS_BUFFER_TOO_SMALL else None
  end.

Definition dir_classes : list Z :=
  [FileIdBothDirectoryInformation; FileFullDirectoryInformation; FileNamesInformation;
   FileDirectoryInformation; FileIdFullDirectoryInformation; FileBothDirectoryInformation;
   FileIdAllExtdBothDirectoryInformation; FilePosixInformation].

Section listing.
Context `{GoLib} (cfg : server_config) (t : nat) (rd : random).

Definition MatchWildcard (s pattern : gostring) : bool :=
  match regexp_Compile (wildcardToRegexp pattern) with
  | None => false
  | Some matches => matches s
  end.

(** Where an entry of the directory is, from the root of the share. *)
Definition entry_path (parent : Open.t) (name : gostring) : gostring :=
  if bool_decide (Open.pathName parent = []) || bool_decide (Open.pathName parent = [slash])
  then name else Join2 (Open.pathName parent) name.

(** The Finder information of an entry, read through a handle of its own. *)
Definition finder_info (parent : Open.t) (d : DirInfo.t) : M bytes :=
  let none := zeros 16 in
  let name := DirInfo.Name d in
  if negb (cf_xattrs cfg) || bool_decide (name = [dot; dot]) || bool_decide (name = [dot])
  then ret none else
  let path := entry_path parent name in
  let* ft := lift (Attributes.GetFileType (DirInfo.Attrs d)) in
  let* h := match ft with
            | FileTypeDirectory => call t (fun fs => fs_OpenDir fs path)
            | FileTypeRegularFile => call t (fun fs => fs_Open fs path 0 0)
            | _ => ret (inl 0)
            end in
  match h with
  | inr _ => ret none
  | inl h =>
      if h =? 0 then ret none else
      let* r := call t (fun fs => fs_Getxattr fs h afp_key (zeros 60)) in
      let '(written, n, err) := r in
      let info := fill (zeros 60) written in
      let* _ := call t (fun fs => fs_Close fs h) in
      ret (match err with
           | None => if 16 <=? n then sub 16 16 info else none
           | Some _ => none
           end)
  end.

(** The entry for Apple clients; a symbolic link shows its reparse tag where
    the maximal access would be. *)
Definition newFileIdBothDirectoryInformationInfo2 (d : DirInfo.t) (parent : Open.t)
  : M FileIdBothDirectoryInformationInfo2.t :=
  let a := DirInfo.Attrs d in
  let* ino := lift (Attributes.GetInodeNumber a) in
  let* mode := lift (UnixModeFromVfs a) in
  let* attrs := lift (PermissionsFromVfs a (DirInfo.Name d)) in
  let access := if has attrs FILE_ATTRIBUTE_REPARSE_POINT then IO_REPARSE_TAG_SYMLINK
                else MaxAccessFromVfs a in
  let* finder := finder_info parent d in
  ret (FileIdBothDirectoryInformationInfo2.mk 0 0 (BirthTimeFromVfs a) (AccessTimeFromVfs a)
         (ModifiedTimeFromVfs a) (ChangeTimeFromVfs a) (SizeFromVfs a) (DiskSizeFromVfs a) attrs
         access 0 0 0 finder mode ino (DirInfo.Name d)).

(** An entry of a class; a nil entry of an unknown one. *)
Definition makeItem (class : Z) (d : DirInfo.t) (parent : Open.t) : M (option Encoder) :=
  if class =? FileBothDirectoryInformation then
    let* i := lift (newFileBothDirectoryInformationInfo d) in
    ret (Some (mkEncoder (FileBothDirectoryInformationInfo.Size i) (FileBothDirectoryInformationInfo.Encode i)))
  else if class =? FileNamesInformation then
    let i := newFileNamesInformationInfo d in
    ret (Some (mkEncoder (FileNamesInformationInfo.Size i) (FileNamesInformationInfo.Encode i)))
  else if class =? FileIdBothDirectoryInformation then
    let* w := get_world in
    if bool_decide (t ∈ w_aapl w) then
      let* i := newFileIdBothDirectoryInformationInfo2 d parent in
      ret (Some (mkEncoder (FileIdBothDirectoryInformationInfo2.Size i)
                   (FileIdBothDirectoryInformationInfo2.Encode i)))
    else
      let* i := lift (newFileIdBothDirectoryInformationInfo d) in
      ret (Some (mkEncoder (FileIdBothDirectoryInformationInfo.Size i)
                   (FileIdBothDirectoryInformationInfo.Encode i)))
  else if class =? FileDirectoryInformation then
    let* i := lift (newFileDirectoryInformationInfo d) in
    ret (Some (mkEncoder (FileDirectoryInformationInfo.Size i) (FileDirectoryInformationInfo.Encode i)))
  else if class =? FileFullDirectoryInformation then
    let* i := lift (newFileFullDirectoryInformationInfo d) in
    ret (Some (mkEncoder (FileFullDirectoryInformationInfo.Size i) (FileFullDirectoryInformationInfo.Encode i)))
  else if class =? FileIdFullDirectoryInformation then
    let* i := lift (newFileIdFullDirectoryInformationInfo d) in
    ret (Some (mkEncoder (FileIdFullDirectoryInformationInfo.Size i)
                 (FileIdFullDirectoryInformationInfo.Encode i)))
  else if class =? FileIdAllExtdBothDirectoryInformation then
    let* i := lift (newFileIdAllExtdBothDirectoryInformationInfo d) in
    ret (Some (mkEncoder (FileIdAllExtdBothDirectoryInformationInfo.Size i)
                 (FileIdAllExtdBothDirectoryInformationInfo.Encode i)))
  else if class =? FilePosixInformation then
    let* i := lift (newFilePosixDirectoryInformationInfo d) in
    ret (Some (mkEncoder (FilePosixDirectoryInformationInfo.Size i)
                 (FilePosixDirectoryInformationInfo.Encode i)))
  else ret None.

(** [h] is the handle of the directory's open. *)
Definition keep_entries (h : Z) (l : list DirInfo.t) : M unit :=
  update_open h (fun o => Open.set_pending (Open.queryDirectoryPending o ++ l) o).

(** The page after the entries, and whether it stopped and whether it was
    full.  What did not get on it is kept for the next page. *)
Fixpoint appendDirectoryEntries (out : list Encoder) (entries : list DirInfo.t) (pattern : gostring)
    (class h : Z) (open : Open.t) (maxSize : Z) (single : bool) : M (list Encoder * bool * bool) :=
  match entries with
  | [] => ret (out, false, false)
  | d :: rest =>
      if negb (MatchWildcard (DirInfo.Name d) pattern)
      then appendDirectoryEntries out rest pattern class h open maxSize single else
      let* info := makeItem class d open in
      let* info := lift (session.deref info) in
      match appendDirectoryInfo out info maxSize with
      | None => let* _ := keep_entries h entries in ret (out, true, true)
      | Some out =>
          if single || (maxSize <=? FileInformationInfoResponse.Size out) then
            let* _ := keep_entries h rest in ret (out, true, false)
          else appendDirectoryEntries out rest pattern class h open maxSize single
      end
  end.

(** The loop over the directory's stream: the page and the status.  It ends
    when the page has entries, or the stream does; the fuel bounds the
    batches that are read. *)
Fixpoint read_batches (fuel : nat) (out : list Encoder) (open : Open.t) (h : Z) (pattern : gostring)
    (class : Z) (single : bool) (maxSize readDirFlags maxRead : Z) : M (list Encoder * Z) :=
  match fuel with
  | O => fun _ => Err (InternalError "out of fuel")
  | S fuel =>
      let* dir := call t (fun fs => fs_ReadDir fs h readDirFlags maxRead) in
      match dir with
      | inr err =>
          ret (out, match out with
                    | _ :: _ => 0
                    | [] => if is_EOF err then STATUS_NO_MORE_FILES else STATUS_ACCESS_DENIED
                    end)
      | inl [] => ret (out, match out with _ :: _ => 0 | [] => STATUS_NO_MORE_FILES end)
      | inl dir =>
          let* r := appendDirectoryEntries out dir pattern class h open maxSize single in
          let '(out, stopped, full) := r in
          match queryDirectoryAppendStatus out full with
          | Some status => ret (out, status)
          | None =>
              if stopped then ret (out, STATUS_NO_SUCH_FILE)
              else read_batches fuel out open h pattern class single maxSize ReadDirContinue maxRead
          end
      end
  end.

Definition queryDirectoryWildcard (fuel : nat) (open : Open.t) (h : Z) (pattern : gostring)
    (class flags maxOutputSize readDirFlags : Z) : M (list Encoder * Z) :=
  let single := has flags RETURN_SINGLE_ENTRY in
  let maxRead := if single then 1 else queryDirectoryReadBatchSize in
  let* cur := getOpen h in
  let pending := match cur with Some o => Open.queryDirectoryPending o | None => [] end in
  match pending with
  | _ :: _ =>
      let* _ := update_open h (Open.set_pending []) in
      let* r := appendDirectoryEntries [] pending pattern class h open maxOutputSize single in
      let '(out, _, full) := r in
      match queryDirectoryAppendStatus out full with
      | Some status => ret (out, status)
      | None => read_batches fuel out open h pattern class single maxOutputSize readDirFlags maxRead
      end
  | [] => read_batches fuel [] open h pattern class single maxOutputSize readDirFlags maxRead
  end.

(** A name without wildcards: the one entry, once. *)
Definition queryDirectorySingle (open : Open.t) (h : Z) (name : gostring) (class maxOutputSize : Z)
  : M (list Encoder * Z) :=
  let* cur := getOpen h in
  let done := match cur with
              | Some o => Open.queryDirectorySingleDone o
                          && bool_decide (Open.queryDirectorySingleName o = name)
              | None => false
              end in
  if done then ret ([], STATUS_NO_MORE_FILES) else
  let* look := call t (fun fs => fs_Lookup fs h name) in
  match look with
  | inr _ => ret ([], STATUS_NO_SUCH_FILE)
  | inl attrs =>
      let* info := makeItem class (DirInfo.mk name attrs) open in
      let* info := lift (session.deref info) in
      match appendDirectoryInfo [] info maxOutputSize with
      | Some out => let* _ := update_open h (Open.set_single name true) in ret (out, 0)
      | None => ret ([], STATUS_BUFFER_TOO_SMALL)
      end
  end.

Definition queryDirectory (fuel : nat) (pkt : slice) : M (option goerr) :=
  let* _ := session_conn t in
  let* res := lift (accept_any SMB2_QUERY_DIRECTORY pkt) in
  let* class := lift (QueryDirectoryRequestDecoder.FileInfoClass res) in
  if negb (bool_decide (class ∈ dir_classes)) then reply_error t rd pkt STATUS_INVALID_PARAMETER else
  let* name := lift (QueryDirectoryRequestDecoder.FileName res) in
  let* fileId := request_file (QueryDirectoryRequestDecoder.FileId res) in
  if IsInvalidFileId (Some fileId) then reply_error t rd pkt STATUS_INVALID_HANDLE else
  let h := FileId.HandleId fileId in
  let* maxOutputSize := lift (QueryDirectoryRequestDecoder.OutputBufferLength res) in
  let* cc := get_ctx in
  let status := match cc with Some cc => compoundContext.lastStatus cc | None => 0 end in
  let* open := getOpen h in
  match open with
  | None => reply_error t rd pkt STATUS_INVALID_HANDLE
  | Some open =>
      let* flags := lift (QueryDirectoryRequestDecoder.Flags res) in
      let restart := has flags (Z.lor RESTART_SCANS REOPEN) in
      let readDirFlags := if restart then ReadDirRestart else ReadDirContinue in
      let* _ := if restart then update_open h (fun o => Open.set_single [] false (Open.set_pending [] o))
                else ret tt in
      let status := if maxOutputSize <=? 0 then STATUS_BUFFER_TOO_SMALL else status in
      let* r := if status =? 0 then
                  if negb (ContainsWildcard name)
                  then queryDirectorySingle open h name class maxOutputSize
                  else queryDirectoryWildcard fuel open h name class flags maxOutputSize readDirFlags
                else ret ([], status) in
      let '(out, status) := r in
      if negb (status =? 0) then reply_error t rd pkt status else
      let* hdr := lift (PrepareResponse PacketHeader.zero pkt status) in
      reply t rd (query_directory_packet (QueryDirectoryResponse.mk hdr
        (Some (mkEncoder (FileInformationInfoResponse.Size out) (FileInformationInfoResponse.Encode out)))))
  end.

End listing.

(** ** Pages are bounded and lose nothing *)

Lemma page_size_app out info :
  FileInformationInfoResponse.Size (out ++ [info]) = FileInformationInfoResponse.Size out + Packet.Size info.
Proof. unfold FileInformationInfoResponse.Size. by rewrite foldl_app. Qed.

Lemma append_fits out info max out' :
  appendDirectoryInfo out info max = Some out' ->
  out' = out ++ [info] /\ FileInformationInfoResponse.Size out' <= max.
Proof.
  unfold appendDirectoryInfo. destruct (_ || _) eqn:E; [done|]. intros [= <-].
  apply orb_false_iff in E as [_ E%Z.ltb_ge]. split; [done|]. rewrite page_size_app. lia.
Qed.

(** What a file system promises of a directory handle in the states
    [dir_ok]: a stream of entries, [all_entries] after a restart and what of
    them is [unread] otherwise; a batch is taken off it, and an empty one or
    io.EOF means that it is at its end. *)
Class DirStream (fs : VFSFileSystem) (h : Z) := {
  all_entries : list DirInfo.t;
  unread : fs_state fs -> list DirInfo.t;
  dir_ok : fs_state fs -> Prop;
  stream (flag : Z) (st : fs_state fs) : list DirInfo.t :=
    if has flag ReadDirRestart then all_entries else unread st;
  unread_law st : dir_ok st -> unread st ⊆ all_entries;
  readdir_law flag n st : 0 < n -> dir_ok st ->
    let '(r, st') := fs_ReadDir fs h flag n st in
    dir_ok st' /\
    match r with
    | inl batch => batch ++ unread st' = stream flag st /\ (batch = [] -> unread st' = [])
    | inr err => is_EOF err = true /\ stream flag st = [] /\ unread st' = []
    end
}.

Section listing_facts.
Context `{GoLib} (cfg : server_config) (t : nat) (id : Z) (fs : VFSFileSystem) (h : Z) `{!DirStream fs h}.
Context (pattern : gostring) (class max : Z) (open : Open.t) (item : DirInfo.t -> Encoder).

(** An entry that the client asked for. *)
Definition wanted (d : DirInfo.t) : Prop := MatchWildcard (DirInfo.Name d) pattern = true.
#[local] Instance wanted_dec d : Decision (wanted d).
Proof. unfold wanted. apply _. Defined.

(** Every entry of the directory has an encoding of the class, which is made
    without looking at the file system; [aapl] are the trees of Apple
    clients. *)
Context (aapl : gset nat).
Context (Hitem : forall d e, d ∈ all_entries -> w_aapl (e_w e) = aapl ->
  makeItem cfg t class d open e = Ok (Some (item d), e)).

(** A listing under way: what is left is what was kept from earlier pages and
    what the stream still has. *)
Record listing (st : fs_state fs) (kept : list DirInfo.t) (e : env) : Prop := {
  ls_open : exists o, file_env t id fs st h o e /\ Open.queryDirectoryPending o = kept;
  ls_aapl : w_aapl (e_w e) = aapl;
  ls_dir : dir_ok st;
  ls_kept : kept ⊆ all_entries
}.

Lemma keep_ok st e l :
  listing st [] e -> l ⊆ all_entries -> exists e', keep_entries h l e = Ok (tt, e') /\ listing st l e'.
Proof.
  intros [(o & Ho & Hk) Ha Hd _] Hl. edestruct (update_open_ok t id fs) as (e' & He & Hf & _ & _ & Hap & _);
    [exact Ho|]. exists e'. split; [exact He|]. split; [|by rewrite Hap|done|done].
  eexists. split; [exact Hf|]. cbn. by rewrite Hk.
Qed.

(** What became of the entries: [taken] are on the page, the rest is kept. *)
Definition appended (out : list Encoder) (entries : list DirInfo.t) (st : fs_state fs)
    (r : list Encoder * bool * bool) (e' : env) : Prop :=
  let '(out', stopped, full) := r in
  exists taken kept,
    listing st kept e' /\ (length kept <= length entries)%nat /\ out' = out ++ (item <$> taken)
    /\ filter wanted entries = taken ++ filter wanted kept
    /\ (stopped = false -> kept = [])
    /\ (stopped = true -> full = false -> out' <> [])
    /\ (full = true -> stopped = true /\ exists d, head (filter wanted kept) = Some d
          /\ appendDirectoryInfo out' (item d) max = None)
    /\ (FileInformationInfoResponse.Size out <= max -> FileInformationInfoResponse.Size out' <= max).

Lemma append_spec single entries out st e :
  listing st [] e -> entries ⊆ all_entries ->
  exists r e', appendDirectoryEntries cfg t out entries pattern class h open max single e = Ok (r, e')
    /\ appended out entries st r e'.
Proof.
  revert out e. induction entries as [|d rest IH]; intros out e He Hall; cbn [appendDirectoryEntries].
  - eexists _, _. split; [reflexivity|]. exists [], []. cbn. rewrite app_nil_r. by split_and!.
  - assert (Hd : d ∈ all_entries) by (apply Hall; by left).
    assert (Hrest : rest ⊆ all_entries) by (intros x Hx; apply Hall; by right).
    destruct (negb (MatchWildcard (DirInfo.Name d) pattern)) eqn:Hm.
    { apply negb_true_iff in Hm. destruct (IH out e He Hrest) as ([[out' sp] fl] & e' & -> & Hr).
      eexists _, _. split; [reflexivity|]. destruct Hr as (taken & kept & H1 & Hl & Hr). exists taken, kept.
      rewrite filter_cons_False by (unfold wanted; congruence). split_and!; try apply Hr; [done|cbn; lia]. }
    apply negb_false_iff in Hm. unfold bind at 1. rewrite Hitem by first [exact Hd|apply He]. cbn [obind].
    unfold bind at 1, lift, session.deref. cbn [obind].
    destruct (appendDirectoryInfo out (item d) max) as [out1|] eqn:Ha.
    + apply append_fits in Ha as [-> Hsz].
      destruct (single || _) eqn:Hs.
      * destruct (keep_ok st e rest He Hrest) as (e' & Hk & He'). unfold bind. rewrite Hk. cbn [obind].
        eexists _, _. split; [reflexivity|]. exists [d], rest. rewrite filter_cons_True by done.
        split_and!; try done; [cbn; lia|]. intros _ _ Hn. by destruct out.
      * destruct (IH (out ++ [item d]) e He Hrest) as ([[out' sp] fl] & e' & -> & taken & kept & H1 & Hl & H2 & H3 & H4 & H5 & H6 & H7).
        eexists _, _. split; [reflexivity|]. exists (d :: taken), kept. rewrite filter_cons_True by done.
        rewrite <- app_assoc in H2. cbn [app fmap list_fmap] in *. rewrite H3. split_and!; try done; [cbn; lia|by intros _; apply H7].
    + destruct (keep_ok st e (d :: rest) He Hall) as (e' & Hk & He'). unfold bind. rewrite Hk. cbn [obind].
      eexists _, _. split; [reflexivity|]. exists [], (d :: rest). cbn [fmap list_fmap]. rewrite app_nil_r.
      split_and!; try done. intros _. split; [done|]. exists d. by rewrite filter_cons_True by done.
Qed.

(** A page of what is left: the entries on it are the next ones that are
    wanted, the others are still to come, it is not larger than the client
    allows, and the status says which of the three cases it is. *)
Definition page_of (left : list DirInfo.t) (r : list Encoder * Z) (e' : env) : Prop :=
  let '(out, status) := r in
  exists taken st' kept,
    listing st' kept e' /\ (length (kept ++ unread st') <= length left)%nat /\ out = item <$> taken
    /\ filter wanted left = taken ++ filter wanted (kept ++ unread st')
    /\ FileInformationInfoResponse.Size out <= max
    /\ (status = 0 /\ taken <> []
        \/ status = STATUS_NO_MORE_FILES /\ filter wanted left = []
        \/ status = STATUS_BUFFER_TOO_SMALL /\ taken = []
           /\ exists d, head (filter wanted left) = Some d /\ max < Packet.Size (item d)).

Lemma append_none d : appendDirectoryInfo [] d max = None -> max < Packet.Size d.
Proof.
  unfold appendDirectoryInfo. destruct (_ || _) eqn:E; [|done]. intros _.
  apply orb_true_iff in E as [E%Z.ltb_lt|E%Z.ltb_lt]; cbn in E; lia.
Qed.

(** The page is settled by the entries that were at hand. *)
Lemma page_settled left entries st out stopped full e' status :
  left = entries ++ unread st -> 0 <= max ->
  appended [] entries st (out, stopped, full) e' -> queryDirectoryAppendStatus out full = Some status ->
  page_of left (out, status) e'.
Proof.
  intros -> Hmax (taken & kept & H1 & Hl & -> & H3 & H4 & H5 & H6 & H7) Hs. cbn [app] in *.
  exists taken, st, kept. split_and!; [done|rewrite !length_app; lia|done| |by apply H7|].
  { by rewrite !filter_app, H3, app_assoc. }
  destruct taken as [|d taken]; cbn in Hs.
  - destruct full; [|done]. injection Hs as <-. right. right. split_and!; [done..|].
    destruct H6 as (_ & d & Hd & Ha); [done|]. exists d. split; [|by apply append_none].
    rewrite filter_app, H3. cbn [app]. by destruct (filter wanted kept).
  - injection Hs as <-. by left.
Qed.

Lemma read_spec single fuel n flag st e :
  0 <= max -> 0 < n -> listing st [] e -> (length (stream flag st) < fuel)%nat ->
  exists r e', read_batches cfg t fuel [] open h pattern class single max flag n e = Ok (r, e')
    /\ page_of (stream flag st) r e'.
Proof.
  intros Hmax Hn. revert flag st e. induction fuel as [|fuel IH]; intros flag st e He Hf; [lia|].
  cbn [read_batches]. destruct He as [(o & Ho & Hk) Ha Hd _].
  destruct (call_ok t id fs (fun fs => fs_ReadDir fs h flag n) st h o e Ho)
    as (e1 & Hc & Ho1 & _ & _ & _ & Hap & _).
  unfold bind at 1. rewrite Hc. cbn [obind]. clear Hc. cbn [fs_with fs_ReadDir] in *.
  pose proof (readdir_law flag n st Hn Hd) as Hlaw.
  destruct (fs_ReadDir fs h flag n st) as [[batch|err] st'] eqn:Hr; cbn [fst snd] in *;
    destruct Hlaw as [Hd' Hlaw].
  - destruct Hlaw as [Hst Hend].
    assert (He1 : listing st' [] e1) by (split; [by exists o|by rewrite Hap|done|apply list_subseteq_nil]).
    assert (Hsub : batch ⊆ all_entries).
    { intros x Hx. assert (Hin : x ∈ stream flag st) by (rewrite <- Hst; apply elem_of_app; by left).
      unfold stream in Hin. destruct (has flag ReadDirRestart); [done|by apply (unread_law st Hd)]. }
    destruct batch as [|d batch].
    + eexists _, _. split; [reflexivity|]. rewrite <- Hst, (Hend eq_refl). exists [], st', [].
      rewrite (Hend eq_refl). split_and!; try done. right. by left.
    + destruct (append_spec single (d :: batch) [] st' e1 He1 Hsub) as ([[out sp] fl] & e2 & Hap2 & Hout).
      unfold bind at 1. rewrite Hap2. cbn [obind].
      destruct (queryDirectoryAppendStatus out fl) as [status|] eqn:Hs.
      * eexists _, _. split; [reflexivity|]. by eapply page_settled.
      * destruct Hout as (taken & kept & H1 & Hl & H2 & H3 & H4 & H5 & H6 & H7).
        destruct out as [|? ?]; [|done]. destruct fl; [done|].
        destruct sp; [by destruct (H5 eq_refl eq_refl)|]. rewrite (H4 eq_refl) in *.
        destruct (IH ReadDirContinue st' e2) as (r & e3 & Hrd & Hpage); [done| |].
        { change (stream ReadDirContinue st') with (unread st'). rewrite <- Hst in Hf.
          rewrite length_app in Hf. cbn in Hf. lia. }
        eexists _, _. split; [exact Hrd|]. destruct r as [out status].
        change (stream ReadDirContinue st') with (unread st') in Hpage.
        destruct taken as [|? ?]; [|done].
        assert (Hsame : filter wanted (stream flag st) = filter wanted (unread st'))
          by (rewrite <- Hst, filter_app; by rewrite H3).
        destruct Hpage as (taken & st2 & kept2 & P1 & P2 & P3). exists taken, st2, kept2. rewrite Hsame.
        split; [done|]. split; [|done]. rewrite <- Hst. rewrite !length_app in *. lia.
  - destruct Hlaw as (Heof & Hst & Hst'). eexists _, _. split; [reflexivity|]. rewrite Hst, Heof.
    exists [], st', []. rewrite Hst'. split_and!; try done; [split; [by exists o|by rewrite Hap|done|apply list_subseteq_nil]|].
    right. by left.
Qed.

Lemma clear_pending st kept e :
  listing st kept e -> exists e', update_open h (Open.set_pending []) e = Ok (tt, e') /\ listing st [] e'.
Proof.
  intros [(o & Ho & _) Ha Hd _]. destruct (update_open_ok t id fs (Open.set_pending []) st h o e Ho)
    as (e' & He & Hf & _ & _ & Hap & _).
  exists e'. split; [exact He|]. split; [|by rewrite Hap|done|apply list_subseteq_nil]. by eexists.
Qed.

Lemma wildcard_page fuel flags flag st kept e :
  0 <= max -> listing st kept e -> kept = [] \/ flag = ReadDirContinue ->
  (length (stream flag st) < fuel)%nat ->
  exists r e', queryDirectoryWildcard cfg t fuel open h pattern class flags max flag e = Ok (r, e')
    /\ page_of (kept ++ stream flag st) r e'.
Proof.
  intros Hmax He Hkept Hf. unfold queryDirectoryWildcard. cbv zeta.
  set (n := if has flags RETURN_SINGLE_ENTRY then 1 else queryDirectoryReadBatchSize).
  assert (Hn : 0 < n) by (unfold n; by destruct (has _ _)).
  set (single := has flags RETURN_SINGLE_ENTRY).
  destruct (ls_open _ _ _ He) as (o & Ho & Hk). unfold bind at 1.
  rewrite (getOpen_ok t id fs st h o e Ho). cbn [obind]. rewrite Hk.
  destruct kept as [|d kept]; [by apply read_spec|].
  destruct Hkept as [?| ->]; [done|]. change (stream ReadDirContinue st) with (unread st) in *.
  destruct (clear_pending st _ e He) as (e1 & Hc & He1). unfold bind at 1. rewrite Hc. cbn [obind].
  destruct (append_spec single (d :: kept) [] st e1 He1 (ls_kept _ _ _ He)) as ([[out sp] fl] & e2 & Ha & Hout).
  unfold bind at 1. rewrite Ha. cbn [obind].
  destruct (queryDirectoryAppendStatus out fl) as [status|] eqn:Hs.
  { eexists _, _. split; [reflexivity|]. by eapply page_settled. }
  destruct Hout as (taken & kept' & H1 & Hl & H2 & H3 & H4 & H5 & H6 & H7).
  destruct out as [|? ?]; [|done]. destruct fl; [done|].
  destruct sp; [by destruct (H5 eq_refl eq_refl)|]. rewrite (H4 eq_refl) in *.
  destruct (read_spec single fuel n ReadDirContinue st e2) as (r & e3 & Hr & Hpage); [done..|].
  eexists _, _. split; [exact Hr|]. destruct r as [out status].
  destruct Hpage as (taken' & st2 & kept2 & P1 & P2 & P3). destruct taken as [|? ?]; [|done].
  change (stream ReadDirContinue st) with (unread st) in *.
  exists taken', st2, kept2. rewrite filter_app, H3. cbn [app filter list_filter].
  split; [done|]. split; [|done]. cbn [app length]. rewrite !length_app in *. lia.
Qed.

(** A client that lists a directory: it asks for pages until the status is
    not 0. *)
Fixpoint list_pages (fuel pages : nat) (flags flag : Z) : M (list Encoder) :=
  match pages with
  | O => ret []
  | S pages =>
      let* r := queryDirectoryWildcard cfg t fuel open h pattern class flags max flag in
      let '(out, status) := r in
      if status =? 0 then
        let* rest := list_pages fuel pages flags ReadDirContinue in ret (out ++ rest)
      else ret out
  end.

Lemma list_pages_ok fuel pages flags flag st kept e :
  0 <= max -> listing st kept e -> kept = [] \/ flag = ReadDirContinue ->
  (length (kept ++ stream flag st) < fuel)%nat ->
  (length (filter wanted (kept ++ stream flag st)) < pages)%nat ->
  Forall (fun d => Packet.Size (item d) <= max) (filter wanted (kept ++ stream flag st)) ->
  exists e', list_pages fuel pages flags flag e = Ok (item <$> filter wanted (kept ++ stream flag st), e').
Proof.
  intros Hmax. revert flag st kept e.
  induction pages as [|pages IH]; intros flag st kept e He Hkept Hf Hp Hfit; [lia|].
  cbn [list_pages]. destruct (wildcard_page fuel flags flag st kept e) as ([out status] & e1 & Hr & Hpage);
    [done..|rewrite length_app in Hf; lia|].
  unfold bind at 1. rewrite Hr. cbn [obind].
  destruct Hpage as (taken & st' & kept' & He1 & Hl & -> & Hw & _ & Hstatus).
  destruct Hstatus as [(-> & Ht)|[(-> & Hnone)|(-> & _ & d & Hd & Hbig)]].
  - cbn [Z.eqb]. rewrite Hw in *. destruct (IH ReadDirContinue st' kept' e1) as (e2 & Hr2).
    + done.
    + by right.
    + change (stream ReadDirContinue st') with (unread st'). lia.
    + change (stream ReadDirContinue st') with (unread st'). rewrite length_app in Hp.
      destruct taken; [done|]. cbn in Hp. lia.
    + change (stream ReadDirContinue st') with (unread st'). by apply Forall_app in Hfit as [_ ?].
    + unfold bind. rewrite Hr2. cbn [obind]. exists e2. unfold ret.
      change (stream ReadDirContinue st') with (unread st'). by rewrite fmap_app.
  - rewrite Hnone in *. symmetry in Hw. apply app_nil in Hw as [-> _]. by exists e1.
  - exfalso. destruct (filter wanted _) as [|d' l]; [done|]. injection Hd as ->.
    apply Forall_cons in Hfit as [? _]. lia.
Qed.

(** Listing a directory gives every entry.  On a file system that
    streams its directory in batches, a client that restarts the scan and asks for
    pages until the server says that there are no more gets the entries that
    match its pattern, all of them, each once and in the order of the
    directory, whatever the size of its buffer (as long as a single entry
    fits) and whether or not it asks for one entry at a time; no call runs
    out of batches to read, and the listing ends within one page more than
    there are matching entries. *)
Theorem listing_complete (fuel pages : nat) (flags : Z) (st : fs_state fs) (e : env) :
  0 <= max -> listing st [] e ->
  (length all_entries < fuel)%nat -> (length (filter wanted all_entries) < pages)%nat ->
  Forall (fun d => Packet.Size (item d) <= max) (filter wanted all_entries) ->
  exists e', list_pages fuel pages flags ReadDirRestart e = Ok (item <$> filter wanted all_entries, e').
Proof. intros Hmax He Hf Hp Hfit. by eapply (list_pages_ok fuel pages flags ReadDirRestart st []); eauto. Qed.
End listing_facts.

(** ** Entries of complete attributes

    The attributes that have a type, an inode number and a link count have an
    entry of every class.  Only the entry for Apple clients of a server with
    extended attributes looks at the file system. *)

Section items.
Context `{GoLib} (cfg : server_config) (t : nat).

Definition complete (a : Attributes.t) : Prop :=
  is_ok (Attributes.GetFileType a) = true /\ is_ok (Attributes.GetInodeNumber a) = true
  /\ is_ok (Attributes.GetLinkCount a) = true.

Lemma permissions_total a path :
  is_ok (Attributes.GetFileType a) = true -> exists p, PermissionsFromVfs a path = Ok p.
Proof.
  intros Hf. unfold PermissionsFromVfs. destruct (Attributes.GetPermissions a) as [p ok].
  destruct (Attributes.GetFileType a); [|done..]. by eexists.
Qed.

(** Decides the class. *)
Ltac which_class :=
  repeat match goal with |- context [?a =? ?b] => let v := eval vm_compute in (a =? b) in change (a =? b) with v end;
  cbv iota.

Lemma makeItem_total class d open aapl :
  class ∈ dir_classes -> complete (DirInfo.Attrs d) -> (t ∈ aapl -> cf_xattrs cfg = false) ->
  exists i, forall e, w_aapl (e_w e) = aapl -> makeItem cfg t class d open e = Ok (Some i, e).
Proof.
  intros Hc (Hf & Hi & Hl) Hx. destruct (permissions_total _ (DirInfo.Name d) Hf) as (perms & Hp).
  destruct (Attributes.GetInodeNumber _) as [ino|?|] eqn:Ei; [|done..].
  destruct (Attributes.GetLinkCount _) as [links|?|] eqn:El; [|done..].
  destruct (Attributes.GetFileType _) as [ft|?|] eqn:Ef; [|done..].
  destruct (Attributes.GetUnixMode (DirInfo.Attrs d)) as [mode hm] eqn:Eu.
  destruct (Attributes.GetDeviceNumber (DirInfo.Attrs d)) as [dev hd] eqn:Ed.
  destruct (Attributes.GetUID (DirInfo.Attrs d)) as [uid hu] eqn:Eid.
  destruct (Attributes.GetGID (DirInfo.Attrs d)) as [gid hg] eqn:Eg.
  unfold dir_classes in Hc.
  repeat (apply elem_of_cons in Hc as [->|Hc]); [..|by apply elem_of_nil in Hc].
  1: destruct (decide (t ∈ aapl)) as [Ha|Ha].
  all: eexists; intros e He; unfold makeItem; which_class.
  1: rewrite bind_get_world, He, bool_decide_true by done.
  2: rewrite bind_get_world, He, bool_decide_false by done.
  all: unfold newFileIdBothDirectoryInformationInfo2, newFileIdBothDirectoryInformationInfo,
    newFileFullDirectoryInformationInfo, newFileDirectoryInformationInfo, newFileIdFullDirectoryInformationInfo,
    newFileBothDirectoryInformationInfo, newFileIdAllExtdBothDirectoryInformationInfo,
    newFilePosixDirectoryInformationInfo, newFilePosixInformationInfo, reparseTagFromVfs, posixModeFromVfs,
    UnixModeFromVfs, finder_info.
  1: rewrite Hx by done.
  all: rewrite ?Eu, ?Ed, ?Eid, ?Eg, ?Hp, ?Ei, ?El, ?Ef; unfold bind, lift; cbn [obind negb orb].
  all: rewrite ?Eu, ?Ei, ?El, ?Ef; reflexivity.
Qed.
End items.

(** ** Any page fits *)

Section bounds.
Context `{GoLib} (cfg : server_config) (t : nat).

Definition fits (max : Z) (out : list Encoder) : Prop := FileInformationInfoResponse.Size out <= max.

Lemma append_entries_fit out entries pattern class h open max single :
  fits max out ->
  yields (fun r => fits max (fst (fst r))) (appendDirectoryEntries cfg t out entries pattern class h open max single).
Proof.
  revert out. induction entries as [|d rest IH]; intros out Hf; cbn [appendDirectoryEntries]; [by apply yields_ret|].
  destruct (negb _); [by apply IH|]. walk_yields.
  all: try match goal with E : appendDirectoryInfo _ _ _ = Some _ |- _ => apply append_fits in E as [_ ?] end.
  all: first [done|by apply IH].
Qed.

Lemma read_batches_fit fuel out open h pattern class single max flag n :
  fits max out ->
  yields (fun r => fits max (fst r)) (read_batches cfg t fuel out open h pattern class single max flag n).
Proof.
  revert out flag. induction fuel as [|fuel IH]; intros out flag Hf; cbn [read_batches]; [by intros e r e' ?|].
  apply (yields_bind (fun _ => True)); [apply yields_any|]. intros [[|d dir]|err] _; [by apply yields_ret| |by apply yields_ret].
  eapply yields_bind; [by apply append_entries_fit|]. intros [[out' sp] fl] Hout. cbn [fst] in Hout.
  destruct (queryDirectoryAppendStatus _ _); [by apply yields_ret|].
  destruct sp; [by apply yields_ret|by apply IH].
Qed.

(** C20: a page of a listing fits the client's buffer.  Whatever the file
    system answers, whatever was kept from earlier pages, and on both paths of
    QUERY_DIRECTORY (a wildcard, or one name), the entries of a page take no
    more bytes than the buffer the client announced. *)
Theorem directory_page_fits (fuel : nat) (open : Open.t) (h : Z) (name : gostring)
    (class flags max flag : Z) (e e' : env) (out : list Encoder) (status : Z) :
  0 <= max ->
  queryDirectoryWildcard cfg t fuel open h name class flags max flag e = Ok ((out, status), e')
  \/ queryDirectorySingle cfg t open h name class max e = Ok ((out, status), e') ->
  FileInformationInfoResponse.Size out <= max.
Proof.
  intros Hmax [Hr|Hr].
  - assert (Hy : yields (fun r => fits max (fst r))
      (queryDirectoryWildcard cfg t fuel open h name class flags max flag)); [|by apply Hy in Hr].
    unfold queryDirectoryWildcard. cbv zeta. apply (yields_bind (fun _ => True)); [apply yields_any|]. intros o _.
    destruct (match o with Some o => _ | None => _ end) as [|d l]; [by apply read_batches_fit|].
    apply (yields_bind (fun _ => True)); [apply yields_any|]. intros _ _.
    eapply yields_bind; [by apply append_entries_fit|]. intros [[out' sp] fl] Hout.
    destruct (queryDirectoryAppendStatus _ _); [by apply yields_ret|by apply read_batches_fit].
  - assert (Hy : yields (fun r => fits max (fst r)) (queryDirectorySingle cfg t open h name class max));
      [|by apply Hy in Hr].
    unfold queryDirectorySingle. walk_yields; try done.
    match goal with E : appendDirectoryInfo _ _ _ = Some _ |- _ => by apply append_fits in E as [_ ?] end.
Qed.
End bounds.

(** ** Concrete checks *)

#[export] Instance toy_dir_stream : DirStream toy_fs 4.
Proof.
  refine (Build_DirStream toy_fs 4 toy_entries fst (fun s => s.1 ⊆ toy_entries) (fun _ Hs => Hs) _).
  intros flag n [l log] Hn Hl. cbn [toy_fs fs_ReadDir fst snd] in *.
  assert (Hsrc : (if has flag ReadDirRestart then toy_entries else l) ⊆ toy_entries) by (by destruct (has _ _)).
  destruct (if has flag ReadDirRestart then toy_entries else l) as [|d src]; [by split_and!|].
  cbn [fst]. rewrite take_drop. split; [etrans; [apply subseteq_drop|exact Hsrc]|]. split; [done|]. intros Ht.
  destruct (Z.to_nat n) eqn:E; [lia|done].
Defined.

Definition toy_item (d : DirInfo.t) : Encoder :=
  let i := newFileNamesInformationInfo d in
  mkEncoder (FileNamesInformationInfo.Size i) (FileNamesInformationInfo.Encode i).

(** Pages of 20 bytes: one entry on each. *)
Lemma listing_complete_witness :
  exists e', list_pages (H := toy_lib) toy_cfg 3 4 [0x2a] FileNamesInformation 20 (toy_open 4 9 false) 3 3 0
    ReadDirRestart (toy_file_env toy_tables)
  = Ok (toy_item <$> toy_entries, e').
Proof.
  destruct (listing_complete (H := toy_lib) toy_cfg 3 4 toy_fs 4 [0x2a] FileNamesInformation 20
    (toy_open 4 9 false) toy_item ∅) with (st := ([], []) : fs_state toy_fs) (fuel := 3%nat) (pages := 3%nat)
    (flags := 0) (e := toy_file_env toy_tables) as (e' & He).
  - intros d e _ _. reflexivity.
  - lia.
  - split; [exists (toy_open 4 9 false); split; [apply toy_file_env_ok|reflexivity]|reflexivity|
            exact (list_subseteq_nil toy_entries)|exact (list_subseteq_nil toy_entries)].
  - cbn. lia.
  - vm_compute. lia.
  - replace (filter (wanted [0x2a]) all_entries) with toy_entries by (vm_compute; reflexivity). unfold toy_entries.
    repeat (apply Forall_cons; split); [..|by apply Forall_nil]; apply Z.leb_le; vm_compute; reflexivity.
  - exists e'. rewrite He. reflexivity.
Defined.

Lemma directory_page_fits_witness :
  exists out status e',
    queryDirectoryWildcard (H := toy_lib) toy_cfg 3 3 (toy_open 4 9 false) 4 [0x2a] FileNamesInformation 0 20
      ReadDirRestart (toy_file_env toy_tables) = Ok ((out, status), e')
    /\ FileInformationInfoResponse.Size out <= 20.
Proof.
  destruct (returns (queryDirectoryWildcard (H := toy_lib) toy_cfg 3 3 (toy_open 4 9 false) 4 [0x2a]
    FileNamesInformation 0 20 ReadDirRestart (toy_file_env toy_tables))) as ([out status] & e' & E);
    [vm_compute; reflexivity|].
  exists out, status, e'. split; [exact E|].
  apply (directory_page_fits (H := toy_lib) toy_cfg 3 3 (toy_open 4 9 false) 4 [0x2a] FileNamesInformation 0 20
    ReadDirRestart (toy_file_env toy_tables) e' out status); [lia|left; exact E].
Defined.
