(* ===== verification/ShareDir.v ===== *)
(** * The served file system under a file tree

    The directory handles of [PassthroughFS] are the streams that the listing
    of a file tree relies on, as long as the system's directory does not change
    while it is read; so a client gets every entry.  The names of a client, in
    turn, are joined to the root of the share and can leave it. *)

From S2P Require Import Prelude Const Packet Utf16 Stats Paths Request Dtyp Vfs Filepath Os Memfs Xattrstore Oplock.
From S2P Require Import Opens Response Cipher Digest Bulk BulkBackend Passthrough PassthroughFacts Session Spnego Conn Handlers.
From S2P Require Import TreeState FileTree FileTreeDir.

Module share_dir.
Import passthrough.
#[local] Existing Instance wanted_dec.

(** What the operating system promises of a directory that nobody changes, in
    the states [good]: reading takes entries off a stream that [Seek] sets
    back, io.EOF comes at its end, and every entry has a stat. *)
Class OsDir `{OS} (f : File) := {
  entries : list DirEntry;
  rest : os_st -> list DirEntry;
  good : os_st -> Prop;
  stat_of : DirEntry -> FileInfo.t;
  dir_stat : FileInfo.t;
  attr : FileInfo.t -> Attributes.t;
  attr_law i : i = dir_stat \/ (exists e, e ∈ entries /\ i = stat_of e) -> fileInfoToAttr i = Some (attr i);
  seek_law s : good s -> let '(_, s') := f_Seek f 0 0 s in good s' /\ rest s' = entries;
  fstat_law s : good s -> f_Stat f s = (inl dir_stat, s);
  info_law e s : good s -> e ∈ entries -> de_Info e s = (inl (stat_of e), s);
  rest_law s : good s -> rest s ⊆ entries;
  read_dir_law n s : 0 < n -> good s ->
    let '((es, err), s') := f_ReadDir f n s in
    good s' /\ es ++ rest s' = rest s
    /\ match err with
       | None => es <> []
       | Some e => is_EOF e = true /\ es = [] /\ rest s = []
       end
}.

Section stream.
Context `{OS, bulk.Json} (f : File) `{!OsDir f} (h : Z) (Hh : h <> 0).

Definition info_of (e : DirEntry) : DirInfo.t := DirInfo.mk (de_Name e) (attr (stat_of e)).
Definition dots : list DirInfo.t := [DirInfo.mk (lit ".") (attr dir_stat); DirInfo.mk (lit "..") (attr dir_stat)].
Definition listing_of : list DirInfo.t := dots ++ (info_of <$> entries).

(** The handle is that of the directory, and at the start of it until the
    first batch is read. *)
Definition handle_ok (s : st) (o : OpenFile.t) : Prop :=
  openFiles s !! h = Some o /\ OpenFile.f o = f /\ OpenFile.h o = h /\ good (os_of s)
  /\ (OpenFile.dirPos o = 0 -> rest (os_of s) = entries).
Definition left_of (s : st) : list DirInfo.t :=
  match openFiles s !! h with
  | Some o => if OpenFile.dirPos o =? 0 then listing_of else info_of <$> rest (os_of s)
  | None => []
  end.

Lemma extend_ok es s : good (os_of s) -> es ⊆ entries -> extend_all es s = (Val (info_of <$> es), s).
Proof.
  intros Hg. induction es as [|e es IH]; intros Hs; [done|]. cbn [extend_all].
  assert (He : e ∈ entries) by (apply Hs; by left).
  unfold getExtendedFileInfo, iobind, run, sys. rewrite info_law by done. unfold attr_of.
  rewrite attr_law by (right; by exists e). cbn [Os.ret].
  assert (Hos : set_os (os_of s) s = s) by by destruct s. unfold Os.ret. rewrite Hos, IH; [done|].
  intros x Hx. apply Hs. by right.
Qed.

Lemma stat_ok s o : handle_ok s o -> GetAttr h s = (Val (attr dir_stat), s).
Proof.
  intros (Ho & Hf & _ & Hg & _). unfold GetAttr. rewrite (proj2 (Z.eqb_neq h 0)) by done. cbn [negb].
  unfold iobind, load, run, sys. rewrite Ho, Hf, fstat_law by done. unfold attr_of. rewrite attr_law by by left.
  by destruct s.
Qed.

(** The part of [readDir] after the restart. *)
Definition read_on (o : OpenFile.t) (pos n : Z) : P (list DirInfo.t) :=
  let? results :=
    if pos =? 0 then
      let? attrs := GetAttr (OpenFile.h o) in
      Os.ret [DirInfo.mk (lit ".") attrs; DirInfo.mk (lit "..") attrs]
    else Os.ret [] in
  let? (entries, err) := run_both (f_ReadDir (OpenFile.f o) n) in
  match err with
  | Some e =>
      if negb (is_EOF e) || negb (pos =? 0) then Os.fail e
      else let? infos := extend_all entries in
           assign h (OpenFile.set_dirPos 1) ;;? Os.ret (results ++ infos)
  | None =>
      let? infos := extend_all entries in
      assign h (OpenFile.set_dirPos 1) ;;? Os.ret (results ++ infos)
  end.

Lemma read_on_ok o n s :
  0 < n -> handle_ok s o ->
  let '(r, s') := read_on o (OpenFile.dirPos o) n s in
  (exists o', handle_ok s' o') /\
  match r with
  | Val batch => batch ++ left_of s' = left_of s /\ (batch = [] -> left_of s' = [])
  | Fail err => is_EOF err = true /\ left_of s = [] /\ left_of s' = []
  | Crash => False
  end.
Proof.
  intros Hn Ho. pose proof Ho as (Hl & Hf & Hoh & Hg & Hpos).
  unfold read_on. set (pos := OpenFile.dirPos o) in *.
  assert (Hres : (if pos =? 0 then let? attrs := GetAttr (OpenFile.h o) in
                    Os.ret [DirInfo.mk (lit ".") attrs; DirInfo.mk (lit "..") attrs] else Os.ret []) s
                 = (Val (if pos =? 0 then dots else []), s)).
  { destruct (pos =? 0); [|done]. rewrite Hoh. unfold iobind. by rewrite (stat_ok s o Ho). }
  unfold iobind at 1. rewrite Hres. clear Hres. unfold iobind at 1, run_both. rewrite Hf.
  pose proof (read_dir_law n (os_of s) Hn Hg) as Hr.
  destruct (f_ReadDir f n (os_of s)) as [[es err] s1]. destruct Hr as (Hg1 & Hrest & Herr).
  assert (Hsub : es ⊆ entries).
  { etrans; [|by apply (rest_law (os_of s))]. rewrite <- Hrest. intros x Hx. apply elem_of_app. by left. }
  set (s2 := set_os s1 s). assert (Hl2 : openFiles s2 !! h = Some o) by done.
  (* what the two ways out that return a batch have in common *)
  assert (Hout : let '(r, s') := (let? infos := extend_all es in
              assign h (OpenFile.set_dirPos 1) ;;? Os.ret ((if pos =? 0 then dots else []) ++ infos)) s2 in
            (exists o', handle_ok s' o') /\ left_of s' = info_of <$> rest s1
            /\ r = Val ((if pos =? 0 then dots else []) ++ (info_of <$> es))).
  { unfold iobind. rewrite extend_ok by done. cbn. split_and!; [|unfold left_of; cbn; by rewrite lookup_alter_eq, Hl|done].
    exists (OpenFile.set_dirPos 1 o). split_and!; cbn; [by rewrite lookup_alter_eq, Hl|done..]. }
  assert (Hleft : left_of s = (if pos =? 0 then dots else []) ++ (info_of <$> rest (os_of s))).
  { unfold left_of. rewrite Hl. fold pos. destruct (Z.eqb_spec pos 0) as [E|E]; [|done].
    by rewrite Hpos. }
  destruct err as [e|].
  - destruct Herr as (Heof & -> & Hend). rewrite Heof. cbn [negb orb].
    assert (Hz : rest s1 = []) by (cbn in Hrest; congruence).
    destruct (Z.eqb_spec pos 0) as [E|E]; cbn [negb].
    + revert Hout. destruct (iobind (extend_all []) _ s2) as [r s']. intros (Hok & Hl' & ->). split; [done|].
      by rewrite Hleft, Hl', Hend, Hz.
    + split; [exists o; split_and!; try done; cbn; lia|].
      split_and!; [done|by rewrite Hleft, Hend|]. unfold left_of. rewrite Hl2.
      cbn. rewrite (proj2 (Z.eqb_neq _ _)) by done. by rewrite Hz.
  - revert Hout. destruct (iobind (extend_all es) _ s2) as [r s']. intros (Hok & Hl' & ->). split; [done|].
    rewrite Hleft, Hl', <- Hrest, fmap_app, app_assoc. split; [done|].
    destruct es; [done|]. by destruct (pos =? 0).
Qed.

(** After a restart the handle is at the start. *)
Lemma restart_ok o s :
  handle_ok s o ->
  exists s1, (run (ignore (sys (f_Seek (OpenFile.f o) 0 0))) ;;? assign h (OpenFile.set_dirPos 0)) s = (Val tt, s1)
    /\ handle_ok s1 (OpenFile.set_dirPos 0 o) /\ left_of s1 = listing_of.
Proof.
  intros (Hl & Hf & Hoh & Hg & _). pose proof (seek_law (os_of s) Hg) as Hs. rewrite Hf.
  assert (Hr : exists s0, ignore (sys (f_Seek f 0 0)) (os_of s) = (Val tt, s0) /\ good s0 /\ rest s0 = entries).
  { unfold ignore, attempt, iobind, sys. destruct (f_Seek f 0 0 (os_of s)) as [[?|?] s0]; by exists s0. }
  destruct Hr as (s0 & Hr & Hg0 & Hr0). unfold iobind, run. rewrite Hr.
  eexists. split; [reflexivity|]. assert (E : openFiles (set_open (alter (OpenFile.set_dirPos 0) h) (set_os s0 s)) !! h
    = Some (OpenFile.set_dirPos 0 o)) by (cbn; by rewrite lookup_alter_eq, Hl).
  split; [by split_and!|]. unfold left_of. by rewrite E.
Qed.

Lemma readDir_ok o flags n s :
  0 < n -> handle_ok s o ->
  let '(r, s') := readDir h o flags n s in
  (exists o', handle_ok s' o') /\
  let source := if has flags ReadDirRestart then listing_of else left_of s in
  match r with
  | Val batch => batch ++ left_of s' = source /\ (batch = [] -> left_of s' = [])
  | Fail err => is_EOF err = true /\ source = [] /\ left_of s' = []
  | Crash => False
  end.
Proof.
  intros Hn Ho. unfold readDir. destruct (has flags ReadDirRestart).
  - destruct (restart_ok o s Ho) as (s1 & Hr & Ho1 & <-). unfold iobind at 1. rewrite Hr.
    exact (read_on_ok (OpenFile.set_dirPos 0 o) n s1 Hn Ho1).
  - unfold iobind at 1. exact (read_on_ok o n s Hn Ho).
Qed.

Lemma left_subset s : (exists o, handle_ok s o) -> left_of s ⊆ listing_of.
Proof.
  intros (o & Hl & _ & _ & Hg & _). unfold left_of. rewrite Hl. destruct (_ =? 0); [done|].
  intros d (e & -> & He)%list_elem_of_fmap. unfold listing_of. apply elem_of_app. right.
  apply list_elem_of_fmap_2. by apply (rest_law (os_of s)).
Qed.

(** The entries have complete attributes. *)
Lemma listing_attrs d : d ∈ listing_of -> complete (DirInfo.Attrs d).
Proof.
  assert (Hall : forall i, i = dir_stat \/ (exists e, e ∈ entries /\ i = stat_of e) -> complete (attr i)).
  { intros i Hi. destruct (passthrough_facts.stat_attributes_complete i (attr i) [] (attr_law i Hi))
      as (H1 & H2 & H3 & _). split_and!; [by rewrite H1|exact H2|exact H3]. }
  unfold listing_of, dots. intros [Hd|(e & -> & He)%list_elem_of_fmap]%elem_of_app.
  - apply elem_of_cons in Hd as [->|Hd]; [apply Hall; by left|].
    apply list_elem_of_singleton in Hd as ->. apply Hall. by left.
  - apply Hall. right. by exists e.
Qed.

#[export] Instance handle_stream (s0 : st) : DirStream (fs_of s0) h.
Proof.
  refine (Build_DirStream (fs_of s0) h listing_of left_of (fun s => exists o, handle_ok s o) left_subset _).
  intros flag n s Hn [o Ho]. cbn [fs_of fs_ReadDir]. unfold method, ReadDir.
  rewrite (proj2 (Z.eqb_neq h 0)) by done. unfold iobind at 1, load at 1. rewrite (proj1 Ho).
  pose proof (readDir_ok o flag n s Hn Ho) as Hr.
  destruct (readDir h o flag n s) as [[batch|err|] s']; [exact Hr|exact Hr|by destruct Hr].
Defined.

(** C6: a client that lists a directory of the share gets every entry.  Let
    the handle be that of a directory that nobody changes while it is listed,
    and the class any of the eight that QUERY_DIRECTORY knows.  A client that
    restarts the scan and asks for pages until there are no more gets ".",
    ".." and the entries of the directory that match its pattern, each once,
    in the system's order and in the encoding of the class, on the file system
    that the server runs on; it is never out of pages or batches, and no entry
    is missing because its encoding fails.  Two conditions are the client's
    and the configuration's: the buffer holds the largest of those entries,
    and either the client is no Apple client or the server serves no extended
    attributes (an entry for an Apple client has the Finder information in it,
    for which the server opens the file). *)
Theorem share_listing_complete `{GoLib} (cfg : server_config) (t : nat) (id : Z) (s0 s : st) (open : Open.t)
    (pattern : gostring) (class max flags : Z) (fuel pages : nat) (e : env) :
  class ∈ dir_classes -> (t ∈ w_aapl (e_w e) -> cf_xattrs cfg = false) ->
  0 <= max -> listing t id (fs_of s0) h (w_aapl (e_w e)) s [] e ->
  (length listing_of < fuel)%nat -> (length (filter (wanted pattern) listing_of) < pages)%nat ->
  (forall d i, d ∈ filter (wanted pattern) listing_of -> makeItem cfg t class d open e = Ok (Some i, e) ->
     Packet.Size i <= max) ->
  exists items e', list_pages cfg t h pattern class max open fuel pages flags ReadDirRestart e = Ok (items, e')
    /\ Forall2 (fun d i => makeItem cfg t class d open e = Ok (Some i, e)) (filter (wanted pattern) listing_of) items.
Proof.
  intros Hc Hx Hmax He Hf Hp Hfit.
  set (item d := match makeItem cfg t class d open e with Ok (Some i, _) => i | _ => mkEncoder 0 eskip end).
  assert (Hitem : forall d e', d ∈ listing_of -> w_aapl (e_w e') = w_aapl (e_w e) ->
    makeItem cfg t class d open e' = Ok (Some (item d), e')).
  { intros d e' Hd Ha. destruct (makeItem_total cfg t class d open _ Hc (listing_attrs d Hd) Hx) as (i & Hi).
    unfold item. rewrite (Hi e eq_refl). by apply Hi. }
  destruct (list_pages_ok cfg t id (fs_of s0) h (DirStream0 := handle_stream s0) pattern class max open item (w_aapl (e_w e)) Hitem fuel pages flags
           ReadDirRestart s [] e Hmax He (or_introl eq_refl) Hf Hp) as (e' & Hl).
  - apply Forall_forall. intros d Hd. eapply Hfit; [exact Hd|]. apply Hitem; [|done].
    by apply list_elem_of_filter in Hd as [_ ?].
  - exists (item <$> filter (wanted pattern) listing_of), e'. split; [exact Hl|].
    apply Forall2_fmap_r, Forall_Forall2_diag, Forall_forall. intros d Hd. apply Hitem; [|done].
    by apply list_elem_of_filter in Hd as [_ ?].
Qed.

End stream.
(** ** Names that leave the served directory *)

Section escape.
Context `{OS, bulk.Json, GoLib}.

(** Up from a directory of [n] elements to the root, and down to [names]. *)
Definition up_down (n : nat) (names : list gostring) : list gostring := replicate n dotdot ++ names.

Lemma ReplaceAll_word e c d : Contains e c = false -> ReplaceAll e c d = e.
Proof.
  induction e as [|x e IH]; [done|]. rewrite Contains_cons. intros [Hc He]%orb_false_iff. cbn.
  rewrite Z.eqb_sym, Hc. f_equal. by apply IH.
Qed.

Lemma ReplaceAll_Join es c d :
  Forall (fun e => Contains e c = false) es -> ReplaceAll (Join es c) c d = Join es d.
Proof.
  induction es as [|e es IH]; intros Hes; [done|]. inversion_clear Hes as [|? ? He Hr].
  destruct es as [|e' es]; [by apply ReplaceAll_word|].
  change (Join (e :: e' :: es) c) with (e ++ [c] ++ Join (e' :: es) c).
  change (Join (e :: e' :: es) d) with (e ++ [d] ++ Join (e' :: es) d).
  rewrite <- IH by done. unfold ReplaceAll in *. rewrite !fmap_app. cbn. rewrite Z.eqb_refl.
  f_equal. by apply ReplaceAll_word.
Qed.

Lemma Contains_Join es c d :
  c <> d -> Forall (fun e => Contains e c = false) es -> Contains (Join es d) c = false.
Proof.
  intros Hcd. induction es as [|e es IH]; intros Hes; [done|]. inversion_clear Hes as [|? ? He Hr].
  destruct es as [|e' es]; [done|].
  change (Join (e :: e' :: es) d) with (e ++ [d] ++ Join (e' :: es) d).
  rewrite !Contains_app, He, IH by done. cbn. by rewrite (proj2 (Z.eqb_neq c d)).
Qed.

Lemma up_down_free n names c :
  c <> dot -> Forall (fun e => Contains e c = false) names -> Forall (fun e => Contains e c = false) (up_down n names).
Proof.
  intros Hc Hn. apply Forall_app. split; [|done]. apply Forall_replicate. cbn.
  by rewrite !(proj2 (Z.eqb_neq c dot)).
Qed.

Lemma walk_up n out : Forall plain out -> length out = n -> walk (replicate n dotdot) out = [].
Proof.
  revert out. induction n as [|n IH]; intros [|e out] Ho Hl; try done.
  inversion_clear Ho as [|? ? (_ & _ & He & _) Hr]. change (walk (replicate (S n) dotdot) (e :: out)) with (walk (replicate n dotdot)
    (if bool_decide (e = dotdot) then dotdot :: e :: out else out)).
  rewrite bool_decide_false by done. apply IH; [done|]. cbn in Hl. lia.
Qed.

(** Joined to the root, it is the absolute path of [names]. *)
Lemma join_up_down root names :
  Forall plain root -> Forall plain names -> names <> [] ->
  Join2 (absolute root) (Join (up_down (length root) names) slash) = absolute names.
Proof.
  intros Hr Hn Hne. rewrite Join2_absolute by done. rewrite Split_Join.
  - unfold up_down. rewrite walk_app, walk_up by (by rewrite ?length_reverse; apply Forall_reverse || done).
    by rewrite walk_names, app_nil_r, reverse_involutive.
  - unfold up_down. destruct names; [done|]. by destruct (length root).
  - apply up_down_free; [done|]. by apply plain_free.
Qed.

(** Opening a file does not change the table again. *)
Lemma GetAttr_table h s : openFiles (GetAttr h s).2 = openFiles s.
Proof.
  unfold GetAttr, iobind, load, run, sys, get_root, attr_of, Os.ret, Os.fail.
  repeat (case_match; simplify_eq/=; try done).
Qed.

Lemma iobind_inv {S A B} (m : IO S A) (k : A -> IO S B) s b s' :
  iobind m k s = (Val b, s') -> exists a s1, m s = (Val a, s1) /\ k a s1 = (Val b, s').
Proof. unfold iobind. destruct (m s) as [[a|?|] s1]; [|done..]. intros Hk. by exists a, s1. Qed.

(** The file of a handle is the name, joined to the root. *)
Lemma Open_path p flags mode s h s' :
  Open p flags mode s = (Val h, s') ->
  OpenFile.path <$> openFiles s' !! h = Some (Join2 (rootPath s) p) /\ rootPath s' = rootPath s.
Proof.
  unfold Open. intros (root & s0 & Hroot & Ho)%iobind_inv. injection Hroot as <- <-. cbv zeta in Ho.
  apply iobind_inv in Ho as (f & s1 & Hf & Ho). apply iobind_inv in Ho as (h1 & s2 & Hh & Ho).
  apply iobind_inv in Ho as ([] & s3 & Hst & Ho). apply iobind_inv in Ho as ([] & s4 & Hct & Ho).
  injection Ho as <- <-. injection Hct as <-. injection Hst as <-.
  unfold randint64 in Hh. destruct (rand_8 (os_of s1)) as [bs o]. injection Hh as <- <-.
  assert (Hr : rootPath s1 = rootPath s).
  { revert Hf. unfold openSymlink, run, sys. repeat case_match; by intros [= _ <-]. }
  cbn. by rewrite lookup_insert_eq.
Qed.

(** C36: the served directory does not bound the names of a client.  Let the
    share be any directory of the server's machine, and [names] the elements
    of any absolute path on it.  A CREATE request can carry the name "..\..\"
    and so on, up to the root of the machine, followed by [names].  The server
    turns backslashes into slashes and keeps the dot-dot elements; the file
    system opens the absolute path of [names] whenever the system lets the
    server's process open it, and every handle that CREATE gets for such a
    name is that of the absolute path, outside of the share. *)
Theorem share_root_escaped (t : nat) (id : Z) (root names : list gostring) (res : slice) :
  Forall plain root -> Forall plain names -> names <> [] ->
  Forall (fun e => Contains e backslash = false /\ Contains e colon = false) names ->
  CreateRequestDecoder.Name res = Ok (Join (up_down (length root) names) backslash) ->
  yields (fun q => cr_name q = Join (up_down (length root) names) slash /\ cr_isEA q = false) (create_request t res)
  /\ (forall flags mode s f os1,
       rootPath s = absolute root -> has flags 0x200000 = false ->
       os_OpenFile (absolute names) flags (u32 mode) (os_of s) = (inl f, os1) ->
       exists h s', Open (Join (up_down (length root) names) slash) flags mode s = (Val h, s')
         /\ openFiles s' !! h = Some (OpenFile.mk (absolute names) false f h None 0))
  /\ forall q flags access e s0 s r e',
       cr_name q = Join (up_down (length root) names) slash -> fs_env t id (fs_of s0) s e -> rootPath s = absolute root ->
       create_open t q false flags access e = Ok (r, e') ->
       match r with
       | inl (h, _) => exists s', fs_env t id (fs_of s0) s' e'
           /\ OpenFile.path <$> openFiles s' !! h = Some (absolute names)
       | inr _ => True
       end.
Proof.
  intros Hr Hn Hne Hfree Hname. apply Forall_and in Hfree as [Hbs Hcol].
  set (name := Join (up_down (length root) names) slash).
  assert (Hcn : create_name (Join (up_down (length root) names) backslash) = name).
  { assert (Hj : ReplaceAll (Join (up_down (length root) names) backslash) backslash slash = name)
      by (by apply ReplaceAll_Join, up_down_free).
    unfold create_name. destruct (Join (up_down (length root) names) backslash) eqn:E; [|exact Hj]. exfalso.
    revert E. unfold up_down. destruct names as [|e names]; [done|].
    assert (e <> []) by (inversion_clear Hn as [|? ? (? & _) _]; done).
    destruct (length root); cbn [replicate app]; [destruct e; [done|]; by destruct names|].
    by destruct (replicate n dotdot ++ e :: names). }
  assert (Hea : IsEA name = false) by (apply Contains_Join; [done|by apply up_down_free]).
  pose proof (join_up_down root names Hr Hn Hne) as Hjoin. fold name in Hjoin. split_and!.
  - intros e q e' (_ & He1 & He2)%create_request_asks. rewrite Hname in He1, He2. cbn [obind] in He2.
    rewrite Hcn, Hea in *. injection He2 as <- _. done.
  - intros flags mode s f os1 Hs Hfl Hos. unfold Open, get_root, iobind. rewrite Hfl, Hs, Hjoin.
    unfold run, sys. rewrite Hos. unfold randint64. cbn [os_of set_os]. destruct (rand_8 os1) as [bs o].
    eexists _, _. split; [reflexivity|]. cbn. apply lookup_insert_eq.
  - intros q flags access e s0 s r e' Hq He Hs Hc. unfold create_open in Hc. cbv zeta in Hc.
    match type of Hc with bind (call t ?m) _ _ = _ => destruct (call_run t id (fs_of s0) m s e He) as (e1 & Hc1 & He1 & _) end.
    rewrite (bind_run _ _ _ _ _ Hc1) in Hc. cbn [fs_with fs_of fs_Open fs_state] in *. rewrite Hq in Hc, He1.
    unfold method in Hc, He1.
    destruct (Open name _ _ s) as [[h|er|] s1] eqn:Ho; cbn [fst snd] in *; [|by injection Hc as <- _..].
    apply Open_path in Ho as [Hp _]. rewrite Hs, Hjoin in Hp.
    destruct (call_run t id (fs_of s0) (fun fs => fs_GetAttr fs h) s1 e1 He1) as (e2 & Hc2 & He2 & _).
    rewrite (bind_run _ _ _ _ _ Hc2) in Hc. cbn [fs_with fs_of fs_GetAttr fs_state] in *.
    pose proof (GetAttr_table h s1) as Hg. unfold method in Hc, He2.
    destruct (GetAttr h s1) as [[a|er|] s2]; cbn [fst snd] in *; [|by injection Hc as <- _..].
    injection Hc as <- <-. exists s2. split; [done|]. by rewrite Hg.
Qed.
End escape.

(** ** A directory of the file system in memory *)

Section memory.
Import memfs.
Context (base : st) (f ino : Z) (path : gostring) (dn : inode).
Context (Hi : inodes base !! ino = Some dn) (Hd : is_dir dn = true).
Context (Hk : Forall (fun e => is_Some (node e base)) (children path base)).

Definition mem_good (s : st) : Prop :=
  names s = names base /\ inodes s = inodes base /\ exists pos, 0 <= pos /\ fds s !! f = Some (mkFd ino path pos).
Definition mem_rest (s : st) : list gostring :=
  match fds s !! f with Some d => drop (Z.to_nat (fd_pos d)) (children path base) | None => [] end.
Definition mem_stat (e : gostring) : FileInfo.t :=
  match node e base with Some (i, n) => info e i n | None => info e 0 dn end.
Definition mem_attr (i : FileInfo.t) : Attributes.t := default Attributes.zero (fileInfoToAttr i).

Lemma mem_node e s : mem_good s -> node e s = node e base.
Proof. intros (Hn & Hin & _). unfold node. by rewrite Hn, Hin. Qed.

Lemma mem_read n s : 0 < n -> mem_good s ->
  let '((es, err), s') := ReadDir f n s in
  mem_good s' /\ es ++ mem_rest s' = mem_rest s
  /\ match err with None => es <> [] | Some e => is_EOF e = true /\ es = [] /\ mem_rest s = [] end.
Proof.
  intros Hn (Hnm & Hin & pos & Hp & Hf). unfold ReadDir, with_fd. rewrite Hf. cbn [fd_ino fd_path fd_pos].
  rewrite Hin, Hi, Hd. cbn [negb].
  assert (Hc : children path s = children path base) by (unfold children; by rewrite Hnm). rewrite Hc.
  replace (n <=? 0) with false by (symmetry; apply Z.leb_gt; lia).
  set (left := drop (Z.to_nat pos) (children path base)). set (got := take (Z.to_nat n) left).
  assert (Hr : mem_rest s = left) by (unfold mem_rest; by rewrite Hf).
  assert (Hr' : mem_rest (set_fds <[f := mkFd ino path (pos + Z.of_nat (length got))]> s) = drop (length got) left).
  { unfold mem_rest. cbn. rewrite lookup_insert_eq. cbn. unfold left. rewrite drop_drop. f_equal. lia. }
  assert (Hsplit : got ++ drop (length got) left = left).
  { unfold got. rewrite length_take. destruct (decide (Z.to_nat n <= length left)%nat).
    - rewrite Nat.min_l by done. apply take_drop.
    - rewrite Nat.min_r, take_ge, drop_all by lia. apply app_nil_r. }
  split_and!.
  - split_and!; [done..|]. eexists. split; [|cbn; apply lookup_insert_eq]. lia.
  - by rewrite Hr, Hr'.
  - replace (0 <? n) with true by (symmetry; apply Z.ltb_lt; lia). cbn [andb].
    destruct (bool_decide (got = [])) eqn:Eg.
    + apply bool_decide_eq_true in Eg. split_and!; [done..|]. rewrite Hr.
      unfold got in Eg. destruct left; [done|]. destruct (Z.to_nat n) eqn:En; [lia|done].
    + by apply bool_decide_eq_false in Eg.
Qed.

#[refine] Instance mem_dir : @OsDir os f := {|
  entries := children path base : list (@DirEntry os); rest := mem_rest; good := mem_good; stat_of := mem_stat;
  dir_stat := info path ino dn; attr := mem_attr
|}.
Proof.
  - intros i Hin. assert (Hs : is_Some (fileInfoToAttr i)).
    { destruct Hin as [->|(e & _ & ->)]; [by eexists|]. unfold mem_stat. destruct (node e base) as [[? ?]|]; by eexists. }
    destruct Hs as [a Ha]. unfold mem_attr. by rewrite Ha.
  - intros s (Hn & Hin & pos & Hp & Hf). cbn. unfold Seek, with_fd. rewrite Hf. cbn [fd_ino].
    rewrite Hin, Hi. split.
    + split_and!; [done..|]. exists 0. split; [lia|]. apply lookup_insert_eq.
    + unfold mem_rest. cbn. by rewrite lookup_insert_eq.
  - intros s (Hn & Hin & pos & Hp & Hf). cbn. unfold fstat, with_fd. rewrite Hf. cbn [fd_ino fd_path].
    by rewrite Hin, Hi.
  - intros e s Hg He. cbn. unfold stat. rewrite (mem_node e s Hg). unfold mem_stat.
    destruct (proj1 (Forall_forall _ _) Hk e He) as [[i n] ->]. done.
  - intros s Hg x Hx. unfold mem_rest in Hx. destruct (fds s !! f); [|by apply not_elem_of_nil in Hx].
    eapply subseteq_drop, Hx.
  - intros n s Hn Hg. exact (mem_read n s Hn Hg).
Defined.

End memory.

(** The share of the examples, with a handle of its root open in the tree. *)
Section example.
#[local] Existing Instance memfs.os.
#[local] Existing Instance bulk.toy_json.json.

Definition ex_dir_os : memfs.st := (memfs.OpenFile (lit "/srv/share") O_RDONLY 0 passthrough_facts.ex_os).2.
Definition ex_fd : @File memfs.os := 100%Z.
Definition ex_dir_node : memfs.inode := memfs.plain_inode ModeDir 0x1c0 [].
Definition ex_dir_fs : st :=
  mkSt (lit "/srv/share") 0 {[4 := OpenFile.mk (lit "/srv/share") true ex_fd 4 None 0]} new_stats
    (ex_dir_os : os_st).
Definition ex_dir_env : env :=
  mkEnv (mkWorld (ServerNegotiator.mk false 0 None) [] (toy_file_conn (Some 0%nat)) toy_tables
           {[4 := fs_of ex_dir_fs]} ∅ [] ∅ 0x10000) None.

Lemma ex_dir_ino : memfs.inodes ex_dir_os !! 3 = Some ex_dir_node.
Proof. vm_compute. reflexivity. Qed.
Lemma ex_dir_kids : Forall (fun e => is_Some (memfs.node e ex_dir_os)) (memfs.children (lit "/srv/share") ex_dir_os).
Proof.
  replace (memfs.children (lit "/srv/share") ex_dir_os) with [lit "/srv/share/f"] by (vm_compute; reflexivity).
  apply Forall_cons_2; [|apply Forall_nil_2].
  destruct (memfs.node (lit "/srv/share/f") ex_dir_os) eqn:E; [by eexists|]. vm_compute in E. discriminate.
Qed.
Lemma ex_dir_open : memfs.fds ex_dir_os !! 100 = Some (memfs.mkFd 3 (lit "/srv/share") 0).
Proof. vm_compute. reflexivity. Qed.

#[local] Instance ex_dir : @OsDir memfs.os ex_fd :=
  mem_dir ex_dir_os ex_fd 3 (lit "/srv/share") ex_dir_node ex_dir_ino eq_refl ex_dir_kids.

Lemma ex_dir_listing : DirInfo.Name <$> listing_of (H := memfs.os) ex_fd = [lit "."; lit ".."; lit "f"].
Proof. vm_compute. reflexivity. Qed.

(** The sizes of the entries with inode numbers, and their number. *)
Lemma ex_dir_sizes :
  forallb (fun d => match makeItem toy_cfg 3 FileIdBothDirectoryInformation d (toy_open 4 9 false) ex_dir_env with
                    | Ok (Some i, _) => Packet.Size i <=? 200
                    | _ => false
                    end) (listing_of (H := memfs.os) ex_fd)
  && (length (listing_of (H := memfs.os) ex_fd) <? 9)%nat = true.
Proof. vm_compute. reflexivity. Qed.

Lemma ex_dir_ready :
  listing 3 4 (fs_of ex_dir_fs) 4 (DirStream0 := handle_stream ex_fd 4 ltac:(discriminate) ex_dir_fs) ∅ ex_dir_fs [] ex_dir_env.
Proof.
  split.
  - exists (toy_open 4 9 false). split; [|reflexivity]. split; [|reflexivity].
    split; [by exists (toy_tree_conn (Some 0%nat))|reflexivity].
  - reflexivity.
  - exists (OpenFile.mk (lit "/srv/share") true ex_fd 4 None 0). split_and!; [reflexivity..| |].
    + split_and!; [reflexivity..|]. exists 0. split; [lia|exact ex_dir_open].
    + intros _. cbn [rest entries ex_dir mem_dir]. unfold mem_rest. cbn [os_of ex_dir_fs]. unfold ex_fd.
      by rewrite ex_dir_open.
  - apply list_subseteq_nil.
Qed.

Lemma share_listing_complete_witness :
  exists items e', list_pages (H := toy_lib) toy_cfg 3 4 [0x2a] FileIdBothDirectoryInformation 200 (toy_open 4 9 false)
    9 9 0 ReadDirRestart ex_dir_env = Ok (items, e')
  /\ Forall2 (fun d i => makeItem toy_cfg 3 FileIdBothDirectoryInformation d (toy_open 4 9 false) ex_dir_env
                = Ok (Some i, ex_dir_env))
       (filter (wanted (H := toy_lib) [0x2a]) (listing_of (H := memfs.os) ex_fd)) items.
Proof.
  pose proof ex_dir_sizes as Hs. apply andb_true_iff in Hs as [Hs Hl]. apply Nat.ltb_lt in Hl.
  apply (share_listing_complete (H1 := toy_lib) ex_fd 4 ltac:(discriminate) toy_cfg 3 4 ex_dir_fs ex_dir_fs (toy_open 4 9 false)
    [0x2a] FileIdBothDirectoryInformation 200 0 9 9 ex_dir_env).
  - apply list_elem_of_In. left. reflexivity.
  - intros Ht. by apply not_elem_of_empty in Ht.
  - lia.
  - exact ex_dir_ready.
  - exact Hl.
  - eapply Nat.le_lt_trans; [apply length_filter|exact Hl].
  - intros d i [_ Hd]%list_elem_of_filter Hi. apply Z.leb_le.
    pose proof (proj1 (forallb_forall _ _) Hs d (proj1 (list_elem_of_In _ _) Hd)) as Hz. cbv beta in Hz. by rewrite Hi in Hz.
Defined.

(** From "/srv/share" to the file "/srv/secret". *)
Definition escape_names : list gostring := [lit "srv"; lit "secret"].
Definition toy_escape : slice :=
  let r := CreateRequest.mk toy_hdr 0 0 0 0 0x80 0 0 FILE_OPEN 0 (Join (up_down 2 escape_names) backslash) [] in
  toy_request (CreateRequest.Size r) (CreateRequest.Encode r).

Lemma share_root_escaped_witness :
  exists h s', Open (H := memfs.os) (lit "../../srv/secret") O_RDWR 0 passthrough_facts.ex_fs = (Val h, s')
    /\ OpenFile.path <$> openFiles s' !! h = Some (lit "/srv/secret").
Proof.
  destruct (share_root_escaped (H := memfs.os) 3 4 [lit "srv"; lit "share"] escape_names
    (okd nil_slice (accept SMB2_CREATE toy_escape))) as (_ & Hopen & _).
  - repeat constructor; discriminate.
  - repeat constructor; discriminate.
  - discriminate.
  - repeat constructor.
  - vm_compute. reflexivity.
  - destruct (@os_OpenFile memfs.os (absolute escape_names) O_RDWR (u32 0) (os_of passthrough_facts.ex_fs))
      as [[f|e] os1] eqn:E;
      [|vm_compute in E; discriminate E].
    destruct (Hopen O_RDWR 0 passthrough_facts.ex_fs f os1) as (h & s' & Ho & Hh).
    + reflexivity.
    + reflexivity.
    + exact E.
    + exists h, s'. split; [exact Ho|]. rewrite Hh. reflexivity.
Defined.

End example.

End share_dir.
