(* ===== verification/FileTreeInfo.v ===== *)
(** * File trees: control codes and file information (server/file_tree.go)

    IOCTL with its reparse points, CHANGE_NOTIFY up to its goroutine,
    QUERY_INFO and SET_INFO in all their classes, acknowledgements of oplock
    breaks, and the dispatch of commands to the operations of a file tree. *)

From S2P Require Import Prelude Const Packet Utf16 Paths Request Dtyp Vfs Oplock Opens Fscc Acl FileInfo.
From S2P Require Import Response Contexts Session Compound Conn Handlers TreeState FileTree FileTreeDir.

(** An encoder for a message that carries any [Encoder]. *)
Definition encoder (size : Z) (e : enc) : Encoder := mkEncoder size e.

(** [make([]byte, n)] for a length from the wire: a negative length, or one
    beyond the address space, panics. *)
Definition make_bytes (n : Z) : outcome bytes :=
  if (n <? 0) || (2 ^ 48 <? n) then Panic else Ok (zeros n).

(** ** Pure parts *)

Definition unixModeWithFileAttributes (mode fileAttrs : Z) : Z :=
  if has fileAttrs FILE_ATTRIBUTE_READONLY then Z.ldiff mode 0x92 else Z.lor mode 0x80.

Definition dispositionDeletePending (pkt : slice) : outcome bool :=
  let! res := accept_any SMB2_SET_INFO pkt in
  let! buf := SetInfoRequestDecoder.Buffer res in
  if 0 <? s_len buf then
    let! d := FileDispositionInformationInfoDecoder.DeletePending buf in Ok (negb (d =? 0))
  else Ok false.

(** The object id of a file on the volume whose root is [ino]. *)
Definition object_id (fileId : FileId.t) (ino : Z) : FileObjectId1.t :=
  let own := FileId.mk (FileId.Persistent fileId) (zeros 8) in
  FileObjectId1.mk own (FileId.mk (le_enc 8 ino) (zeros 8)) own FileId.zero.

Definition loopback : list NetworkInterfaceInfo.t :=
  [NetworkInterfaceInfo.mk 0 1 0 1000000000 [127; 0; 0; 1]].

(** The link's target for the client.  The separators are replaced before
    the target is looked at, so it never counts as absolute. *)
Definition reparse_data (target : gostring) : SymbolicLinkReparseDataBuffer.t :=
  let l := ReplaceAll target slash backslash in
  SymbolicLinkReparseDataBuffer.mk (if IsAbs l then 0 else SYMLINK_FLAG_RELATIVE) l l.

(** What QUERY_INFO shows of a file. *)
Definition basic_info (a : Attributes.t) (name : gostring) : outcome FileBasicInformationInfo.t :=
  let! attrs := PermissionsFromVfs a name in
  Ok (FileBasicInformationInfo.mk (BirthTimeFromVfs a) (AccessTimeFromVfs a) (ModifiedTimeFromVfs a)
        (ChangeTimeFromVfs a) attrs 0).
Definition standard_info (a : Attributes.t) (deletePending isDir : bool) : FileStandardInformationInfo.t :=
  FileStandardInformationInfo.mk (s64 (DiskSizeFromVfs a)) (s64 (SizeFromVfs a)) 1
    (when deletePending 1) (when isDir 1) (zeros 2).
Definition name_info (name : gostring) : FileAlternateNameInformationInfo.t :=
  FileAlternateNameInformationInfo.mk (ReplaceAll name slash backslash).
Definition all_info (a : Attributes.t) (name : gostring) (deletePending isDir : bool)
  : outcome FileAllInformationInfo.t :=
  let! basic := basic_info a name in
  let! ino := Attributes.GetInodeNumber a in
  Ok (FileAllInformationInfo.mk basic (standard_info a deletePending isDir)
        (FileInternalInformationInfo.mk (s64 ino)) (FileEaInformationInfo.mk 0)
        (FileAccessInformationInfo.mk (MaxAccessFromVfs a)) (FilePositionInformationInfo.mk 0)
        (FileModeInformationInfo.mk FILE_SYNCHRONOUS_IO_ALERT) (FileAlignmentInformationInfo.mk 0)
        (name_info name)).
Definition network_info (a : Attributes.t) (alloc size attrs : Z) : FileNetworkOpenInformationInfo.t :=
  FileNetworkOpenInformationInfo.mk (BirthTimeFromVfs a) (AccessTimeFromVfs a) (ModifiedTimeFromVfs a)
    (ChangeTimeFromVfs a) alloc size attrs.

(** What QUERY_INFO shows of the file system: the block size and the counts,
    -1 when they are not known. *)
Definition fs_bsize (s : FSAttributes.t) : Z :=
  let '(b, ok) := FSAttributes.GetBlockSize s in if ok then u32 b else 512.
Definition fs_count (v : Z * bool) : Z := if snd v then s64 (fst v) else -1.
Definition fs_features (xattrs : bool) : Z :=
  foldr Z.lor (when xattrs (Z.lor FILE_SUPPORTS_EXTENDED_ATTRIBUTES FILE_NAMED_STREAMS))
    [FILE_SUPPORTS_OPEN_BY_FILE_ID; FILE_SUPPORTS_OBJECT_IDS; FILE_CASE_PRESERVED_NAMES;
     FILE_PERSISTENT_ACLS; FILE_SUPPORTS_SPARSE_FILES; FILE_UNICODE_ON_DISK; FILE_SUPPORTS_HARD_LINKS;
     FILE_SUPPORTS_REPARSE_POINTS].
Definition fs_posix_info (s : FSAttributes.t) (ino : Z) : FileFsPosixInformationInfo.t :=
  let ta := fs_count (FSAttributes.GetBlocks s) in
  let au := fs_count (FSAttributes.GetAvailableBlocks s) in
  let known (v : Z * bool) := if snd v then fst v else 0 in
  let avail := if 0 <=? au then au else 0 in
  FileFsPosixInformationInfo.mk (fs_bsize s) (fs_bsize s) (if 0 <=? ta then ta else 0) avail avail
    (known (FSAttributes.GetFiles s)) (known (FSAttributes.GetFreeFiles s)) ino.

(** The security descriptor: the owner, the group and the mode as the parts
    that were asked for. *)
Definition mode_dacl (uid gid mode : Z) : ACL.t :=
  [ACE.mk (SIDFromUid uid) ACCESS_ALLOWED_ACE_TYPE (UnixModeToAceMask (Z.shiftr (Z.land mode 0x1c0) 6));
   ACE.mk (SIDFromGid gid) ACCESS_ALLOWED_ACE_TYPE (UnixModeToAceMask (Z.shiftr (Z.land mode 0x38) 3));
   ACE.mk (SID.mk WORLD_SID_AUTHORITY [0]) ACCESS_ALLOWED_ACE_TYPE (UnixModeToAceMask (Z.land mode 7));
   ACE.mk (SIDFromMode mode) ACCESS_DENIED_ACE_TYPE 0].
Definition security_descriptor (a : Attributes.t) (wanted : Z) : outcome SecurityDescriptor.t :=
  let '(uid, _) := Attributes.GetUID a in
  let '(gid, _) := Attributes.GetGID a in
  let '(mode, _) := Attributes.GetUnixMode a in
  let! dacl := if has wanted DACL_SECUIRTY_INFORMATION then
                 let! ft := Attributes.GetFileType a in
                 let mode := Z.lor mode (match ft with
                                         | FileTypeDirectory => 0x4000
                                         | FileTypeSymlink => 0xa000
                                         | _ => 0x8000
                                         end) in
                 Ok (Some (mode_dacl uid gid mode))
               else Ok None in
  Ok (SecurityDescriptor.mk
        (if has wanted OWNER_SECURITY_INFORMATION then Some (SIDFromUid uid) else None)
        (if has wanted GROUP_SECUIRTY_INFORMATION then Some (SIDFromGid gid) else None)
        None dacl).

(** The mode the ACEs of a DACL carry: that of the first SID S-1-5-88-3-mode. *)
Fixpoint find_mode (count : nat) (aces : slice) : outcome (option Z) :=
  match count with
  | O => Ok None
  | S count =>
      let! sid := AceDecoder.Sid aces in
      let! n := SidDecoder.SubAuthorityCount sid in
      let! found := if n =? 3 then
                      let! subs := SidDecoder.SubAuthority sid in
                      Ok (match subs with
                          | [a; b; mode] => if (a =? 88) && (b =? 3) then Some mode else None
                          | _ => None
                          end)
                    else Ok None in
      match found with
      | Some mode => Ok (Some mode)
      | None =>
          let! size := AceDecoder.Size aces in
          let! aces := s_from aces size in
          find_mode count aces
      end
  end.

(** The mode a security descriptor asks for. *)
Definition requested_mode (sd : slice) : outcome (option Z) :=
  let! dacl := SecurityDescriptorDecoder.Dacl sd in
  match dacl with
  | None => Ok None
  | Some dacl =>
      let! aces := AclDecoder.Aces dacl in
      let! count := AclDecoder.AceCount dacl in
      find_mode (Z.to_nat count) aces
  end.

(** A time of SET_INFO: 0 leaves the attribute alone. *)
Definition set_time (set : Z -> Attributes.t -> Attributes.t) (ft : Filetime.t) (a : Attributes.t)
  : Attributes.t :=
  let ns := Filetime.Nanoseconds ft in if ns =? 0 then a else set ns a.

Section info.
Context `{GoLib} (cfg : server_config) (t : nat) (rd : random).

Abbreviation reply := (reply t rd).
Abbreviation reply_error := (reply_error t rd).
Abbreviation call := (call t).

(** ** IOCTL *)

Definition reply_ioctl (pkt : slice) (code : Z) (fileId : FileId.t) (out : option Encoder)
  : M (option goerr) :=
  let* hdr := lift (PrepareResponse PacketHeader.zero pkt 0) in
  reply (ioctl_packet (IoctlResponse.mk hdr code (Some fileId) 0 None out)).

Definition handleReparsePointReq (pkt : slice) : M (option goerr) :=
  let* _ := session_conn t in
  let* res := lift (accept_any SMB2_IOCTL pkt) in
  let* data := lift (IoctlRequestDecoder.Data res) in
  let* inv := lift (SymbolicLinkReparseDataBufferDecoder.IsInvalid data) in
  if inv then
    let* _ := lift (SymbolicLinkReparseDataBufferDecoder.ReparseTag data) in
    reply_error pkt STATUS_NOT_SUPPORTED
  else
  let* fileId := request_file (IoctlRequestDecoder.FileId res) in
  if IsInvalidFileId (Some fileId) then reply_error pkt STATUS_INVALID_HANDLE else
  let* name := lift (SymbolicLinkReparseDataBufferDecoder.SubstituteName data) in
  let source := ReplaceAll name backslash slash in
  let* flags := lift (SymbolicLinkReparseDataBufferDecoder.Flags data) in
  let* r := call (fun fs => fs_Symlink fs (FileId.HandleId fileId) source flags) in
  match r with
  | inr _ => reply_error pkt STATUS_ACCESS_DENIED
  | inl _ => reply_ioctl pkt FSCTL_SET_REPARSE_POINT fileId None
  end.

Definition handleGetReparsePointReq (pkt : slice) : M (option goerr) :=
  let* _ := session_conn t in
  let* res := lift (accept_any SMB2_IOCTL pkt) in
  let* fileId := request_file (IoctlRequestDecoder.FileId res) in
  if IsInvalidFileId (Some fileId) then reply_error pkt STATUS_INVALID_HANDLE else
  let* r := call (fun fs => fs_Readlink fs (FileId.HandleId fileId)) in
  match r with
  | inr _ => reply_error pkt STATUS_ACCESS_DENIED
  | inl l =>
      let out := reparse_data l in
      reply_ioctl pkt FSCTL_GET_REPARSE_POINT fileId
        (Some (encoder (SymbolicLinkReparseDataBuffer.Size out) (SymbolicLinkReparseDataBuffer.Encode out)))
  end.

(** The answer carries the code of GET_REPARSE_POINT. *)
Definition handleDeleteReparsePointReq (pkt : slice) : M (option goerr) :=
  let* _ := session_conn t in
  let* res := lift (accept_any SMB2_IOCTL pkt) in
  let* fileId := request_file (IoctlRequestDecoder.FileId res) in
  if IsInvalidFileId (Some fileId) then reply_error pkt STATUS_INVALID_HANDLE else
  let* err := call (fun fs => fs_Unlink fs (FileId.HandleId fileId)) in
  match err with
  | Some _ => reply_error pkt STATUS_ACCESS_DENIED
  | None => reply_ioctl pkt FSCTL_GET_REPARSE_POINT fileId None
  end.

Definition handleCreateOrGetObjectId (pkt : slice) : M (option goerr) :=
  let* _ := session_conn t in
  let* res := lift (accept_any SMB2_IOCTL pkt) in
  let* fileId := request_file (IoctlRequestDecoder.FileId res) in
  if IsInvalidFileId (Some fileId) then reply_error pkt STATUS_INVALID_HANDLE else
  let* ino := root_inode t in
  let id := object_id fileId ino in
  reply_ioctl pkt FSCTL_CREATE_OR_GET_OBJECT_ID fileId
    (Some (encoder (FileObjectId1.Size id) (FileObjectId1.Encode id))).

Definition handleQueryNetworkInterfaceInfo (pkt : slice) : M (option goerr) :=
  let* _ := session_conn t in
  let* res := lift (accept_any SMB2_IOCTL pkt) in
  let* fileId := lift (let! s := IoctlRequestDecoder.FileId res in FileIdDecoder.Decode s) in
  reply_ioctl pkt FSCTL_QUERY_NETWORK_INTERFACE_INFO fileId
    (Some (encoder (NetworkInterfaceInfoList.Size loopback) (NetworkInterfaceInfoList.Encode loopback))).

Definition ioctl (pkt : slice) : M (option goerr) :=
  let* _ := session_conn t in
  let* res := lift (accept_any SMB2_IOCTL pkt) in
  let* code := lift (IoctlRequestDecoder.CtlCode res) in
  if code =? FSCTL_SET_REPARSE_POINT then handleReparsePointReq pkt
  else if code =? FSCTL_GET_REPARSE_POINT then handleGetReparsePointReq pkt
  else if code =? FSCTL_DELETE_REPARSE_POINT then handleDeleteReparsePointReq pkt
  else if code =? FSCTL_CREATE_OR_GET_OBJECT_ID then handleCreateOrGetObjectId pkt
  else if code =? FSCTL_QUERY_NETWORK_INTERFACE_INFO then handleQueryNetworkInterfaceInfo pkt
  else reply_error pkt STATUS_NOT_SUPPORTED.

(** ** CHANGE_NOTIFY

    The request is pending, the open remembers it, and a goroutine will end
    it. *)
Definition changeNotify (pkt : slice) : M (option goerr) :=
  let* _ := session_conn t in
  let* res := lift (accept_any SMB2_CHANGE_NOTIFY pkt) in
  let* fileId := request_file (ChangeNotifyRequestDecoder.FileId res) in
  if IsInvalidFileId (Some fileId) then reply_error pkt STATUS_ACCESS_DENIED else
  let h := FileId.HandleId fileId in
  let* open := getOpen h in
  match open with
  | None => reply_error pkt STATUS_INVALID_HANDLE
  | Some open =>
      let asyncId := rd_int64 rd in
      let* err := reply_async_error t rd pkt asyncId STATUS_PENDING in
      match err with
      | Some err => ret (Some err)
      | None =>
          let* _ := update_open h (Open.set_notify (Some (s_bytes pkt)) asyncId) in
          let* _ := set_world (fun w =>
            set_tasks (w_tasks w ++ [mkTask NotifyTask t pkt fileId open asyncId true]) w) in
          ret None
      end
  end.

(** ** QUERY_INFO *)

Definition reply_info (pkt : slice) (info : Encoder) : M (option goerr) :=
  let* hdr := lift (PrepareResponse PacketHeader.zero pkt 0) in
  reply (query_info_packet (QueryInfoResponse.mk hdr (Some info))).

(** [inr status] when the file system does not tell. *)
Definition queryFSAttributes : M (FSAttributes.t + Z) :=
  let* r := call (fun fs => fs_StatFS fs 0) in
  ret (match r with
       | inr err => inr (statusFromVFSError (Some err))
       | inl None => inr STATUS_IO_DEVICE_ERROR
       | inl (Some s) => inl s
       end).

(** The information of a class about the file system; [None] is a class the
    server does not know. *)
Definition fs_info (res : slice) (class : Z) (s : FSAttributes.t) : M (option Encoder) :=
  let bs := fs_bsize s in
  let sector := if bs <? 512 then 512 else bs in
  let au := fs_count (FSAttributes.GetAvailableBlocks s) in
  let ta := fs_count (FSAttributes.GetBlocks s) in
  if class =? FileFsVolumeInformation then
    let* tc := get_tree t in
    let i := FileFsVolumeInformationInfo.mk (Filetime.mk 0 0) 0 false (treeConn.path tc) in
    ret (Some (encoder (FileFsVolumeInformationInfo.Size i) (FileFsVolumeInformationInfo.Encode i)))
  else if class =? FileFsSizeInformation then
    let i := FileFsSizeInformationInfo.mk ta au (bs / 512) 512 in
    ret (Some (encoder (FileFsSizeInformationInfo.Size i) (FileFsSizeInformationInfo.Encode i)))
  else if class =? FileFsDeviceInformation then
    let i := FileFsDeviceInformationInfo.mk FILE_DEVICE_DISK 0 in
    ret (Some (encoder (FileFsDeviceInformationInfo.Size i) (FileFsDeviceInformationInfo.Encode i)))
  else if class =? FileFsAttributeInformation then
    let i := FileFsAttributeInformationInfo.mk (fs_features (cf_xattrs cfg)) 255 (lit "APFS") in
    ret (Some (encoder (FileFsAttributeInformationInfo.Size i) (FileFsAttributeInformationInfo.Encode i)))
  else if class =? FileFsFullSizeInformation then
    let i := FileFsFullSizeInformationInfo.mk ta au au (bs / 512) 512 in
    ret (Some (encoder (FileFsFullSizeInformationInfo.Size i) (FileFsFullSizeInformationInfo.Encode i)))
  else if class =? FileFsSectorSizeInformation then
    let i := FileFsSectorSizeInformationInfo.mk 512 sector sector sector
               (Z.lor (Z.lor SSINFO_FLAGS_ALIGNED_DEVICE SSINFO_FLAGS_PARTITION_ALIGNED_ON_DEVICE)
                  SSINFO_FLAGS_NO_SEEK_PENALTY) 0 0 in
    ret (Some (encoder (FileFsSectorSizeInformationInfo.Size i) (FileFsSectorSizeInformationInfo.Encode i)))
  else if class =? FileFsObjectIdInformation then
    let* fileId := request_file (QueryInfoRequestDecoder.FileId res) in
    let* ino := root_inode t in
    let i := object_id fileId ino in
    ret (Some (encoder (FileObjectId1.Size i) (FileObjectId1.Encode i)))
  else if class =? FilePosixInformation then
    let* ino := root_inode t in
    let i := fs_posix_info s ino in
    ret (Some (encoder (FileFsPosixInformationInfo.Size i) (FileFsPosixInformationInfo.Encode i)))
  else ret None.

Definition queryInfoFileSystem (pkt : slice) : M (option goerr) :=
  let* _ := session_conn t in
  let* res := lift (accept_any SMB2_QUERY_INFO pkt) in
  let* class := lift (QueryInfoRequestDecoder.FileInfoClass res) in
  let* s := queryFSAttributes in
  match s with
  | inr status => reply_error pkt status
  | inl s =>
      let* info := fs_info res class s in
      match info with
      | None => ret (Some (InvalidRequestError "unsupported query class"))
      | Some info => reply_info pkt info
      end
  end.

(** The extended attributes as streams: those that cannot be read are left
    out. *)
Fixpoint ea_streams (h : Z) (names : list gostring) : M (list FileStreamInformationInfo.t) :=
  match names with
  | [] => ret []
  | ea :: names =>
      let* r := call (fun fs => fs_Getxattr fs h ea []) in
      let '(_, n, err) := r in
      let* rest := ea_streams h names in
      ret (match err with
           | None => FileStreamInformationInfo.mk 0 (u64 n) (u64 n) (lit ":" ++ ea ++ lit ":$DATA") :: rest
           | Some _ => rest
           end)
  end.

Definition streams (h : Z) (a : Attributes.t) (isDir : bool) : M (list FileStreamInformationInfo.t) :=
  let* r := call (fun fs => fs_Listxattr fs h) in
  let data := if isDir then [] else
                [FileStreamInformationInfo.mk 0 (SizeFromVfs a) (DiskSizeFromVfs a) (lit "::$DATA")] in
  match r with
  | inl names => if cf_xattrs cfg then let* eas := ea_streams h names in ret (data ++ eas) else ret data
  | inr _ => ret data
  end.

(** What a class asks for: the information, an error status, or nothing that
    the server knows. *)
Inductive answer := Info (e : Encoder) | Status (status : Z) | Unsupported.

Definition file_info (class h : Z) (open : Open.t) (a : Attributes.t) (isDir deletePending : bool)
  : M answer :=
  let name := Open.pathName open in
  if class =? FileBasicInformation then
    let* i := lift (basic_info a name) in
    ret (Info (encoder (FileBasicInformationInfo.Size i) (FileBasicInformationInfo.Encode i)))
  else if class =? FileAccessInformation then
    let i := FileAccessInformationInfo.mk (MaxAccessFromVfs a) in
    ret (Info (encoder (FileAccessInformationInfo.Size i) (FileAccessInformationInfo.Encode i)))
  else if class =? FileNameInformation then
    let i := name_info name in
    ret (Info (encoder (FileAlternateNameInformationInfo.Size i) (FileAlternateNameInformationInfo.Encode i)))
  else if class =? FileAllInformation then
    let* i := lift (all_info a name deletePending isDir) in
    ret (Info (encoder (FileAllInformationInfo.Size i) (FileAllInformationInfo.Encode i)))
  else if class =? FileStandardInformation then
    let i := standard_info a deletePending isDir in
    ret (Info (encoder (FileStandardInformationInfo.Size i) (FileStandardInformationInfo.Encode i)))
  else if class =? FileEaInformation then
    let i := FileEaInformationInfo.mk 0 in
    ret (Info (encoder (FileEaInformationInfo.Size i) (FileEaInformationInfo.Encode i)))
  else if class =? FileFullEaInformation then
    ret (Info (encoder (FileFullEaInformationInfoItems.Size []) (FileFullEaInformationInfoItems.Encode [])))
  else if class =? FilePositionInformation then
    let i := FilePositionInformationInfo.mk 0 in
    ret (Info (encoder (FilePositionInformationInfo.Size i) (FilePositionInformationInfo.Encode i)))
  else if class =? FileModeInformation then
    let i := FileModeInformationInfo.mk FILE_SYNCHRONOUS_IO_ALERT in
    ret (Info (encoder (FileModeInformationInfo.Size i) (FileModeInformationInfo.Encode i)))
  else if class =? FileAlignmentInformation then
    let i := FileAlignmentInformationInfo.mk 0 in
    ret (Info (encoder (FileAlignmentInformationInfo.Size i) (FileAlignmentInformationInfo.Encode i)))
  else if class =? FileStreamInformation then
    let* i := streams h a isDir in
    ret (Info (encoder (FileStreamInformationInfoItems.Size i) (FileStreamInformationInfoItems.Encode i)))
  else if class =? FileNetworkOpenInformation then
    let* i := if negb (Open.isEa open) then
                let* attrs := lift (PermissionsFromVfs a name) in
                ret (network_info a (s64 (DiskSizeFromVfs a)) (s64 (SizeFromVfs a)) attrs)
              else
                let* r := call (fun fs => fs_Getxattr fs h (Open.eaKey open) []) in
                let '(_, n, _) := r in ret (network_info a n n 0) in
    ret (Info (encoder (FileNetworkOpenInformationInfo.Size i) (FileNetworkOpenInformationInfo.Encode i)))
  else if class =? FileCompressionInformation then
    let i := FileCompressionInformationInfo.mk (s64 (DiskSizeFromVfs a)) 0 0 0 0 (zeros 3) in
    ret (Info (encoder (FileCompressionInformationInfo.Size i) (FileCompressionInformationInfo.Encode i)))
  else if class =? FileNormalizedNameInformation then ret (Status STATUS_NOT_SUPPORTED)
  else if class =? FileAttributeTagInformation then
    let* attrs := lift (PermissionsFromVfs a name) in
    let i := FileAttributeTagInformationInfo.mk attrs 0 in
    ret (Info (encoder (FileAttributeTagInformationInfo.Size i) (FileAttributeTagInformationInfo.Encode i)))
  else if class =? FileInternalInformation then
    let* ino := lift (Attributes.GetInodeNumber a) in
    let i := FileInternalInformationInfo.mk (s64 ino) in
    ret (Info (encoder (FileInternalInformationInfo.Size i) (FileInternalInformationInfo.Encode i)))
  else if class =? FileIdInformation then
    let* ino := lift (Attributes.GetInodeNumber a) in
    let* r := call (fun fs => fs_GetAttr fs 0) in
    match r with
    | inr _ => ret (Status STATUS_INVALID_HANDLE)
    | inl root =>
        let* vol := lift (Attributes.GetInodeNumber root) in
        let i := FileIdInformationInfo.mk vol (FileId.SetNodeId ino FileId.zero) in
        ret (Info (encoder (FileIdInformationInfo.Size i) (FileIdInformationInfo.Encode i)))
    end
  else if class =? FilePosixInformation then
    let* i := lift (newFilePosixInformationInfo (DirInfo.mk name a)) in
    ret (Info (encoder (FilePosixInformationInfo.Size i) (FilePosixInformationInfo.Encode i)))
  else ret Unsupported.

Definition queryInfoFile (pkt : slice) : M (option goerr) :=
  let* _ := session_conn t in
  let* res := lift (accept_any SMB2_QUERY_INFO pkt) in
  let* fileId := request_file (QueryInfoRequestDecoder.FileId res) in
  if IsInvalidFileId (Some fileId) then reply_error pkt STATUS_INVALID_HANDLE else
  let h := FileId.HandleId fileId in
  let* open := getOpen h in
  match open with
  | None => reply_error pkt STATUS_INVALID_HANDLE
  | Some open =>
      let* r := call (fun fs => fs_GetAttr fs h) in
      match r with
      | inr _ => reply_error pkt STATUS_INVALID_HANDLE
      | inl a =>
          let* ft := lift (Attributes.GetFileType a) in
          let* d := get_server in
          let* class := lift (QueryInfoRequestDecoder.FileInfoClass res) in
          let* info := file_info class h open a (bool_decide (ft = FileTypeDirectory))
                         (Server.isDeletePending (Open.durableFileId open) d) in
          match info with
          | Info e => reply_info pkt e
          | Status status => reply_error pkt status
          | Unsupported => ret (Some (InvalidRequestError "unsupported query class"))
          end
      end
  end.

Definition queryInfoSec (pkt : slice) : M (option goerr) :=
  let* _ := session_conn t in
  let* res := lift (accept_any SMB2_QUERY_INFO pkt) in
  let* fileId := request_file (QueryInfoRequestDecoder.FileId res) in
  if IsInvalidFileId (Some fileId) then reply_error pkt STATUS_INVALID_HANDLE else
  let* r := call (fun fs => fs_GetAttr fs (FileId.HandleId fileId)) in
  match r with
  | inr _ => reply_error pkt STATUS_INVALID_HANDLE
  | inl a =>
      let* wanted := lift (QueryInfoRequestDecoder.AdditionalInformation res) in
      let* sd := lift (security_descriptor a wanted) in
      reply_info pkt (encoder (SecurityDescriptor.Size sd) (SecurityDescriptor.Encode sd))
  end.

(** A type of information the server does not know is not answered. *)
Definition queryInfo (pkt : slice) : M (option goerr) :=
  let* _ := session_conn t in
  try* res := accept SMB2_QUERY_INFO pkt in
  let* inv := lift (QueryInfoRequestDecoder.IsInvalid res) in
  if inv then ret (Some (InvalidRequestError "broken quety info format")) else
  let* ty := lift (QueryInfoRequestDecoder.InfoType res) in
  if ty =? SMB2_0_INFO_FILE then queryInfoFile pkt
  else if ty =? SMB2_0_INFO_FILESYSTEM then queryInfoFileSystem pkt
  else if ty =? SMB2_0_INFO_SECURITY then queryInfoSec pkt
  else if ty =? SMB2_0_INFO_QUOTA then reply_error pkt STATUS_NOT_SUPPORTED
  else ret None.

(** ** SET_INFO *)

Definition reply_set (pkt : slice) : M (option goerr) :=
  let* hdr := lift (PrepareResponse PacketHeader.zero pkt 0) in reply (set_info_packet hdr).

Definition set_buffer (pkt : slice) : M slice :=
  lift (let! res := accept_any SMB2_SET_INFO pkt in SetInfoRequestDecoder.Buffer res).

(** The mode after a change of the read-only attribute, if the file has one. *)
Definition new_mode (h fileAttrs : Z) : M (option Z) :=
  if fileAttrs =? 0 then ret None else
  let* r := call (fun fs => fs_GetAttr fs h) in
  ret (match r with
       | inl old => let '(mode, ok) := Attributes.GetUnixMode old in
                    if ok then Some (unixModeWithFileAttributes mode fileAttrs) else None
       | inr _ => None
       end).

Definition setBasicInfo (fileId : FileId.t) (open : Open.t) (pkt : slice) : M (option goerr) :=
  let* _ := session_conn t in
  let h := FileId.HandleId fileId in
  let* info := set_buffer pkt in
  let* fileAttrs := lift (FileBasicInformationInfoDecoder.FileAttributes info) in
  let* mode := new_mode h fileAttrs in
  let a := match mode with Some m => Attributes.SetUnixMode m Attributes.zero | None => Attributes.zero end in
  let* access := lift (FileBasicInformationInfoDecoder.LastAccessTime info) in
  let* write := lift (FileBasicInformationInfoDecoder.LastWriteTime info) in
  let* change := lift (FileBasicInformationInfoDecoder.ChangeTime info) in
  let* birth := lift (FileBasicInformationInfoDecoder.CreationTime info) in
  let a := set_time Attributes.SetBirthTime birth
             (set_time Attributes.SetLastStatusChangeTime change
                (set_time Attributes.SetLastDataModificationTime write
                   (set_time Attributes.SetAccessTime access a))) in
  let* failed := if Open.isEa open then ret false else
                   let* r := call (fun fs => fs_SetAttr fs h a) in
                   ret (match r with inr _ => negb (cf_ignoreSetAttrErr cfg) | inl _ => false end) in
  if failed then reply_error pkt STATUS_NOT_SUPPORTED else reply_set pkt.

(** An error of the file system, or the response. *)
Definition reply_done (pkt : slice) (err : option vfs_error) (status : vfs_error -> Z) : M (option goerr) :=
  match err with
  | Some err => reply_error pkt (status err)
  | None => reply_set pkt
  end.

Definition setEndOfFileInfo (fileId : FileId.t) (pkt : slice) : M (option goerr) :=
  let* _ := session_conn t in
  let* info := set_buffer pkt in
  let* size := lift (FileEndOfFileInformationDecoder.EndOfFile info) in
  let* err := call (fun fs => fs_Truncate fs (FileId.HandleId fileId) (u64 size)) in
  reply_done pkt err (fun err => statusFromVFSError (Some err)).

Definition setEndOfFileInfoEa (fileId : FileId.t) (eaKey : gostring) (pkt : slice) : M (option goerr) :=
  let* _ := session_conn t in
  let* info := set_buffer pkt in
  let* v := lift (let! size := FileEndOfFileInformationDecoder.EndOfFile info in make_bytes size) in
  let* err := call (fun fs => fs_Setxattr fs (FileId.HandleId fileId) eaKey v) in
  reply_done pkt err (fun err => statusFromVFSError (Some err)).

(** Is there an entry besides the directory itself and its parent? *)
Definition dir_nonempty (dir : list DirInfo.t) : bool :=
  existsb (fun d => negb (bool_decide (DirInfo.Name d = [dot]))
                    && negb (bool_decide (DirInfo.Name d = [dot; dot]))) dir.

(** 0, or the status of the error. *)
Definition applyDeleteDisposition (fileId : FileId.t) (open : Open.t) : M Z :=
  let h := FileId.HandleId fileId in
  let* r := call (fun fs => fs_GetAttr fs h) in
  match r with
  | inr _ => ret STATUS_ACCESS_DENIED
  | inl attrs =>
      let* ft := lift (Attributes.GetFileType attrs) in
      let* full := if bool_decide (ft = FileTypeDirectory) then
                     let* r := call (fun fs => fs_ReadDir fs h ReadDirContinue 1000) in
                     ret (match r with inl dir => dir_nonempty dir | inr _ => false end)
                   else ret false in
      if full then ret STATUS_DIRECTORY_NOT_EMPTY
      else if Open.posixSemantics open then
        let* err := applyPosixDelete t h open in
        ret (match err with
             | None => 0
             | Some err => if os_IsNotExist err then STATUS_OBJECT_NAME_NOT_FOUND else STATUS_ACCESS_DENIED
             end)
      else
        let* d := get_server in
        let* _ := put_server (Server.setDeletePending (Open.durableFileId open) true d) in
        ret 0
  end.

Definition setDispositionInfo (fileId : FileId.t) (open : Open.t) (pkt : slice) : M (option goerr) :=
  let* _ := session_conn t in
  let* delete := lift (dispositionDeletePending pkt) in
  if negb delete then
    let* d := get_server in
    let* _ := put_server (Server.setDeletePending (Open.durableFileId open) false d) in
    reply_set pkt
  else if negb (has (Open.grantedAccess open) DELETE) then reply_error pkt STATUS_ACCESS_DENIED
  else
    let* status := applyDeleteDisposition fileId open in
    if negb (status =? 0) then reply_error pkt status else reply_set pkt.

Definition setDispositionInfoEa (fileId : FileId.t) (eaKey : gostring) (pkt : slice) : M (option goerr) :=
  let* _ := session_conn t in
  let* delete := lift (dispositionDeletePending pkt) in
  let* err := if delete then call (fun fs => fs_Removexattr fs (FileId.HandleId fileId) eaKey)
              else ret None in
  reply_done pkt err (fun _ => STATUS_NOT_FOUND).

Definition setRename (fileId : FileId.t) (pkt : slice) : M (option goerr) :=
  let* _ := session_conn t in
  let h := FileId.HandleId fileId in
  let* info := set_buffer pkt in
  let* name := lift (FileRenameInformationInfoDecoder.FileName info) in
  let* _ := lift (FileRenameInformationInfoDecoder.RootDirectory info) in
  let to := ReplaceAll name backslash slash in
  let* replace := lift (FileRenameInformationInfoDecoder.ReplaceIfExists info) in
  let* r := call (fun fs => fs_Rename fs h to replace) in
  let* err := lift r in
  match err with
  | Some err => reply_error pkt (statusFromVFSError (Some err))
  | None => let* _ := update_open h (Open.set_path to (Base to)) in reply_set pkt
  end.

(** The owner can always read and write. *)
Definition setSecInfo (fileId : FileId.t) (pkt : slice) : M (option goerr) :=
  let* _ := session_conn t in
  let* sd := set_buffer pkt in
  let* mode := lift (requested_mode sd) in
  match mode with
  | None => reply_error pkt STATUS_NOT_SUPPORTED
  | Some mode =>
      let a := Attributes.SetUnixMode (Z.lor mode 0x180) Attributes.zero in
      let* r := call (fun fs => fs_SetAttr fs (FileId.HandleId fileId) a) in
      match r with
      | inr _ => reply_error pkt STATUS_ACCESS_DENIED
      | inl _ => reply_set pkt
      end
  end.

(** The information of a class for an open file. *)
Definition setInfo_open (fileId : FileId.t) (open : Open.t) (class ty : Z) (pkt : slice) : M (option goerr) :=
  if ty =? SMB2_0_INFO_SECURITY then setSecInfo fileId pkt
  else if class =? FileBasicInformation then setBasicInfo fileId open pkt
  else if class =? FileEndOfFileInformation then
    if Open.isEa open then setEndOfFileInfoEa fileId (Open.eaKey open) pkt
    else setEndOfFileInfo fileId pkt
  else if class =? FileDispositionInformation then
    if Open.isEa open then setDispositionInfoEa fileId (Open.eaKey open) pkt
    else setDispositionInfo fileId open pkt
  else if class =? FileRenameInformation then
    if negb (Open.isEa open) then setRename fileId pkt else reply_error pkt STATUS_NOT_SUPPORTED
  else if class =? FileAllocationInformation then reply_set pkt
  else reply_error pkt STATUS_NOT_SUPPORTED.

Definition setInfo (pkt : slice) : M (option goerr) :=
  let* _ := session_conn t in
  let* res := lift (accept_any SMB2_SET_INFO pkt) in
  let* fileId := request_file (SetInfoRequestDecoder.FileId res) in
  if IsInvalidFileId (Some fileId) then reply_error pkt STATUS_INVALID_HANDLE else
  let* open := getOpen (FileId.HandleId fileId) in
  match open with
  | None => reply_error pkt STATUS_INVALID_HANDLE
  | Some open =>
      let* class := lift (SetInfoRequestDecoder.FileInfoClass res) in
      let* ty := lift (SetInfoRequestDecoder.InfoType res) in
      setInfo_open fileId open class ty pkt
  end.

(** ** OPLOCK_BREAK *)

(** An open that has the lease; Go's iteration over the map meets them in no
    particular order, this is one. *)
Definition has_lease (key : bytes) (open : Open.t) : bool :=
  match Open.lease open with Some l => bool_decide (Lease.LeaseKey l = key) | None => false end.
Definition find_lease (key : bytes) (d : Server.t) : option Z :=
  match find (fun p => has_lease key (snd p)) (map_to_list (Server.opens d)) with
  | Some p => Some (fst p)
  | None => None
  end.

Definition oplockBreak (pkt : slice) : M (option goerr) :=
  let* _ := session_conn t in
  try* res := accept SMB2_OPLOCK_BREAK pkt in
  let* size := lift (get16 res 0 2) in
  if size =? SMB2_OPLOCK_BREAK_ACK_SIZE then
    let* inv := lift (OplockBreakAcknowledgmentDecoder.IsInvalid res) in
    if inv then ret (Some (InvalidRequestError "broken oplock break ack format")) else
    let* fileID := lift (let! s := OplockBreakAcknowledgmentDecoder.FileId res in FileIdDecoder.Decode s) in
    let* level := lift (OplockBreakAcknowledgmentDecoder.OplockLevel res) in
    let* d := get_server in
    match Server.ack_oplock fileID level d with
    | inr status => reply_error pkt status
    | inl (d, level) =>
        let* _ := put_server d in
        let* hdr := lift (PrepareResponse PacketHeader.zero pkt 0) in
        reply (oplock_break_packet (OplockBreakResponse.mk hdr level (Some fileID)))
    end
  else if size =? SMB2_LEASE_BREAK_ACK_SIZE then
    let* inv := lift (LeaseBreakAcknowledgmentDecoder.IsInvalid res) in
    if inv then ret (Some (InvalidRequestError "broken lease break ack format")) else
    let* key := lift (LeaseBreakAcknowledgmentDecoder.LeaseKey res) in
    let* state := lift (LeaseBreakAcknowledgmentDecoder.LeaseState res) in
    let* d := get_server in
    match Server.ack_lease (find_lease key d) state d with
    | inr status => reply_error pkt status
    | inl (d, state) =>
        let* _ := put_server d in
        let* hdr := lift (PrepareResponse PacketHeader.zero pkt 0) in
        reply (lease_break_packet (LeaseBreakResponse.mk hdr key state 0))
    end
  else reply_error pkt STATUS_NOT_SUPPORTED.

(** ** The operations of a file tree *)

(** [fuel] bounds the batches one QUERY_DIRECTORY reads. *)
Definition file_op (fuel : nat) (cmd : Z) (pkt : slice) : M (option goerr) :=
  if cmd =? SMB2_CREATE then create t rd pkt
  else if cmd =? SMB2_CLOSE then close t rd pkt
  else if cmd =? SMB2_FLUSH then flush t rd pkt
  else if cmd =? SMB2_READ then read t rd pkt
  else if cmd =? SMB2_WRITE then write t rd pkt
  else if cmd =? SMB2_LOCK then lock t rd pkt
  else if cmd =? SMB2_IOCTL then ioctl pkt
  else if cmd =? SMB2_QUERY_DIRECTORY then queryDirectory cfg t rd fuel pkt
  else if cmd =? SMB2_CHANGE_NOTIFY then changeNotify pkt
  else if cmd =? SMB2_QUERY_INFO then queryInfo pkt
  else if cmd =? SMB2_SET_INFO then setInfo pkt
  else if cmd =? SMB2_OPLOCK_BREAK then oplockBreak pkt
  else ret None.

End info.

(** ** Modes in security descriptors *)

(** The mode of a SID S-1-5-88-3-mode. *)
Definition sid_mode (subs : list Z) : option Z :=
  match subs with
  | [a; b; mode] => if (a =? 88) && (b =? 3) then Some mode else None
  | _ => None
  end.

(** Values that survive the fields of an ACE. *)
Definition ace_wf (a : ACE.t) : Prop :=
  sid_wf (ACE.Sid a) /\ Forall in32 (SID.SubAuthority (ACE.Sid a))
  /\ (length (SID.SubAuthority (ACE.Sid a)) < 256)%nat.

Lemma subs_read us x rest :
  Forall in32 us -> SidDecoder.subs (of_bytes (x ++ sub_bytes us ++ rest)) (blen x) (length us) = Ok us.
Proof.
  intros Hu. revert x. induction Hu as [|u us Hu _ IH]; intros x; [done|].
  unfold sub_bytes. cbn [SidDecoder.subs length fmap list_fmap concat]. rewrite <- app_assoc.
  rewrite get32_mid, u32_id by done. cbn [obind]. rewrite app_assoc.
  replace (blen x + 4) with (blen (x ++ le_enc 4 u)) by len. by rewrite IH.
Qed.

Lemma sid_read s rest :
  sid_wf s -> Forall in32 (SID.SubAuthority s) -> (length (SID.SubAuthority s) < 256)%nat ->
  SidDecoder.SubAuthorityCount (of_bytes (sid_bytes s ++ rest)) = Ok (Z.of_nat (length (SID.SubAuthority s)))
  /\ SidDecoder.SubAuthority (of_bytes (sid_bytes s ++ rest)) = Ok (SID.SubAuthority s).
Proof.
  intros Hw Hu Hn. unfold sid_wf in Hw.
  assert (Hc : SidDecoder.SubAuthorityCount (of_bytes (sid_bytes s ++ rest))
               = Ok (Z.of_nat (length (SID.SubAuthority s)))).
  { unfold SidDecoder.SubAuthorityCount, sid_bytes. cbn [app]. rewrite s_idx_ok; [|lia|].
    - cbn [of_bytes s_arr]. change (nth _ _ _) with (u8 (Z.of_nat (length (SID.SubAuthority s))) mod 256).
      unfold u8. rewrite Z.mod_mod, Z.mod_small by lia. done.
    - cbn [of_bytes s_len]. rewrite !blen_cons. blen_pos. lia. }
  split; [done|]. unfold SidDecoder.SubAuthority. rewrite Hc. cbn [obind]. rewrite Nat2Z.id.
  unfold sid_bytes. rewrite !app_assoc. rewrite <- (app_assoc _ (sub_bytes _) rest).
  match goal with |- SidDecoder.subs (of_bytes (?x ++ _)) _ _ = _ => replace 8 with (blen x) by len end.
  by apply subs_read.
Qed.

Lemma find_mode_ace a n rest :
  ace_wf a ->
  find_mode (S n) (of_bytes (ace_bytes a ++ rest))
  = match sid_mode (SID.SubAuthority (ACE.Sid a)) with
    | Some mode => Ok (Some mode)
    | None => find_mode n (of_bytes rest)
    end.
Proof.
  intros (Hw & Hu & Hn). pose proof (blen_sid_bytes _ Hw) as Hs. pose proof (blen_nonneg rest).
  destruct (sid_read (ACE.Sid a) rest Hw Hu Hn) as [Hc Hsub].
  set (sid := ACE.Sid a) in *. set (us := SID.SubAuthority sid) in *.
  assert (Hsz : ACE.Size a = 16 + 4 * Z.of_nat (length us)) by (unfold ACE.Size, SID.Size; fold sid us; lia).
  set (pre := [ACE.Type_ a mod 256; 0] ++ le_enc 2 (u16 (ACE.Size a)) ++ le_enc 4 (ACE.Mask a)).
  assert (Hb : ace_bytes a ++ rest = pre ++ sid_bytes sid ++ rest)
    by (unfold ace_bytes, pre; fold sid; rewrite <- !app_assoc; done).
  assert (Hp : blen pre = 8) by (unfold pre; len).
  assert (Hl : blen (ace_bytes a) = ACE.Size a) by (apply ace_writes; done).
  assert (Hsize : AceDecoder.Size (of_bytes (ace_bytes a ++ rest)) = Ok (ACE.Size a)).
  { unfold AceDecoder.Size. rewrite get16f_ok by (cbn [of_bytes s_len]; rewrite ?blen_app; lia).
    cbn [of_bytes s_arr]. rewrite Hb. unfold pre. rewrite <- !app_assoc. rewrite sub_app_r by (rewrite !blen_cons, blen_nil; lia).
    change (2 - blen [ACE.Type_ a mod 256; 0]) with 0. rewrite sub_app_l by (rewrite ?blen_le_enc; lia).
    change (sub 0 2 ?x) with x. rewrite le_dec_enc2. do 2 rewrite (u16_id (ACE.Size a)) by (ints; lia). done. }
  clearbody pre.
  cbn [find_mode]. unfold AceDecoder.Sid at 1. rewrite Hsize, Hb.
  rewrite s_from_of_bytes by (rewrite ?blen_app; blen_pos; lia). cbn [obind].
  rewrite from_app_exact by lia. rewrite Hc, Hsub. cbn [obind].
  rewrite <- Hb, s_from_of_bytes by (rewrite ?blen_app; blen_pos; lia). cbn [obind].
  rewrite from_app_exact by lia.
  destruct us as [|x [|y [|m [|z us]]]]; try reflexivity.
  cbn [length sid_mode]. by destruct (_ =? 3).
Qed.

Lemma aces_read dacl k :
  Forall (fun ace => sid_wf (ACE.Sid ace)) dacl -> Z.of_nat (length dacl) < 65536 ->
  AclDecoder.AceCount (of_bytes (acl_bytes dacl ++ zeros k)) = Ok (Z.of_nat (length dacl))
  /\ AclDecoder.Aces (of_bytes (acl_bytes dacl ++ zeros k)) = Ok (of_bytes (concat (ace_bytes <$> dacl) ++ zeros k)).
Proof.
  intros Hw Hn. set (aces := concat (ace_bytes <$> dacl)).
  set (pre := [ACL_REVISION mod 256] ++ zeros 1 ++ le_enc 2 (u16 (ACL.Size dacl))).
  assert (Hb : acl_bytes dacl ++ zeros k
    = pre ++ le_enc 2 (u16 (Z.of_nat (length dacl))) ++ zeros 2 ++ aces ++ zeros k)
    by (unfold acl_bytes, pre; by rewrite <- !app_assoc).
  assert (Hp : blen pre = 4) by (unfold pre; len). clearbody pre. rewrite Hb.
  pose proof (blen_nonneg (aces ++ zeros k)). split.
  - unfold AclDecoder.AceCount. rewrite get16f_ok by (cbn [of_bytes s_len]; rewrite ?blen_app, ?blen_le_enc; blen_pos; lia).
    cbn [of_bytes s_arr]. rewrite sub_app_r by lia. rewrite Hp. change (4 - 4) with 0.
    rewrite sub_app_l by (rewrite ?blen_le_enc; lia). change (sub 0 2 ?x) with x. rewrite le_dec_enc2.
    do 2 rewrite (u16_id (Z.of_nat (length dacl))) by (ints; lia). done.
  - unfold AclDecoder.Aces. rewrite s_from_of_bytes; [|lia|].
    + do 2 rewrite app_assoc. by rewrite from_app_exact by len.
    + rewrite !blen_app, blen_le_enc, (blen_zeros 2) by lia. blen_pos. lia.
Qed.

Lemma mode_dacl_read uid gid mode k :
  in32 uid -> in32 gid -> in32 mode ->
  find_mode 4 (of_bytes (concat (ace_bytes <$> mode_dacl uid gid mode) ++ zeros k)) = Ok (Some mode).
Proof.
  intros Hu Hg Hm. unfold mode_dacl. cbn [fmap list_fmap concat]. rewrite <- !app_assoc.
  assert (H88 : in32 88 /\ in32 1 /\ in32 2 /\ in32 3 /\ in32 0) by (ints; lia). destruct H88 as (? & ? & ? & ? & ?).
  do 4 (rewrite find_mode_ace by (split_and!; [done|repeat apply Forall_cons_2; try done; apply Forall_nil_2|cbn; lia]);
        cbn [ACE.Sid SIDFromUid SIDFromGid SIDFromMode SID.SubAuthority sid_mode Z.eqb Pos.eqb andb]).
  done.
Qed.

(** C22: a mode survives the security descriptor.  The descriptor the server
    builds for a file when the DACL is asked for can be encoded, and what
    SET_INFO reads from it is the mode of the file with the bits of its type:
    writing back the descriptor one has read asks for the mode the file had. *)
Theorem mode_survives_descriptor (a : Attributes.t) (wanted : Z) (ft : FileType) :
  Attributes.GetFileType a = Ok ft -> has wanted DACL_SECUIRTY_INFORMATION = true ->
  in32 (fst (Attributes.GetUnixMode a)) -> in32 (fst (Attributes.GetUID a)) -> in32 (fst (Attributes.GetGID a)) ->
  exists sd q, security_descriptor a wanted = Ok sd
    /\ SecurityDescriptor.Encode sd (zeros (SecurityDescriptor.Size sd)) = Ok q
    /\ requested_mode (of_bytes q)
       = Ok (Some (Z.lor (fst (Attributes.GetUnixMode a))
                     match ft with FileTypeDirectory => 0x4000 | FileTypeSymlink => 0xa000 | _ => 0x8000 end)).
Proof.
  intros Hft Hw Hm Hu Hg. unfold security_descriptor. rewrite Hft, Hw.
  destruct (Attributes.GetUID a) as [uid ?], (Attributes.GetGID a) as [gid ?], (Attributes.GetUnixMode a) as [mode ?].
  cbn [obind fst] in *. set (m := Z.lor mode _).
  assert (Hm' : in32 m) by (unfold m; apply in32_lor; [done|destruct ft; ints; lia]). clearbody m.
  eexists. edestruct (descriptor_writes (if has wanted OWNER_SECURITY_INFORMATION then Some (SIDFromUid uid) else None)
    (if has wanted GROUP_SECUIRTY_INFORMATION then Some (SIDFromGid gid) else None) (mode_dacl uid gid m))
    as (h & bs & k & He & Hh & Hbs).
  { destruct (has wanted OWNER_SECURITY_INFORMATION); intros s Hs; by simplify_eq. }
  { destruct (has wanted GROUP_SECUIRTY_INFORMATION); intros s Hs; by simplify_eq. }
  { by repeat constructor. }
  eexists. split; [done|]. split; [exact He|].
  unfold requested_mode. rewrite dacl_read; [|done|].
  2: { eapply Z.le_lt_trans; [exact Hbs|]. destruct (has wanted OWNER_SECURITY_INFORMATION), (has wanted GROUP_SECUIRTY_INFORMATION); vm_compute; done. }
  cbn [obind]. destruct (aces_read (mode_dacl uid gid m) k) as [Hc Ha]; [by repeat constructor|cbn; lia|].
  rewrite Ha, Hc. cbn [obind]. by apply mode_dacl_read.
Qed.

Lemma mode_survives_descriptor_witness :
  let a := Attributes.SetUnixMode 0x1a4 (Attributes.SetFileType FileTypeRegularFile Attributes.zero) in
  exists sd q, security_descriptor a 7 = Ok sd
    /\ SecurityDescriptor.Encode sd (zeros (SecurityDescriptor.Size sd)) = Ok q
    /\ requested_mode (of_bytes q) = Ok (Some 0x81a4).
Proof.
  intros a. apply (mode_survives_descriptor a 7 FileTypeRegularFile); try reflexivity; vm_compute; split; done.
Defined.

(** ** Who may delete *)

(** Every pending delete is an old one, or satisfies [P]. *)
Definition pends (P : Z -> Prop) (e e' : env) : Prop :=
  forall n, Server.isDeletePending n (w_server (e_w e')) = true ->
    Server.isDeletePending n (w_server (e_w e)) = true \/ P n.
#[export] Instance pends_preorder P : PreOrder (pends P).
Proof.
  split; [by intros e n; left|]. intros a b c H1 H2 n Hn. destruct (H2 n Hn) as [Hb|Hp]; [|by right].
  by apply H1.
Qed.

Section deletes.
Context `{GoLib} (cfg : server_config) (t : nat) (rd : random) (P : Z -> Prop).

Lemma pends_set_world f :
  (forall w, w_server (f w) = w_server w) -> keeps (pends P) (set_world f).
Proof. intros Hf e a e' [= _ <-] n. cbn [e_w]. rewrite Hf. by left. Qed.
Lemma pends_reply pk : keeps (pends P) (TreeState.reply t rd pk).
Proof.
  intros e a e'. unfold TreeState.reply.
  destruct (sendPacket _ _ _ _ _ _) as [[[c cc] err]|?|]; [|done..].
  cbn [obind]. intros [= _ <-] n. by left.
Qed.
Hint Extern 1 (keeps (pends _) (set_world _)) => by apply pends_set_world : keeps.
Hint Resolve pends_reply : keeps.
Lemma pends_reply_error pkt st : keeps (pends P) (TreeState.reply_error t rd pkt st).
Proof. unfold TreeState.reply_error. walk. Qed.
Hint Resolve pends_reply_error : keeps.
Lemma pends_call {A} (m : forall fs, fs_state fs -> A * fs_state fs) : keeps (pends P) (TreeState.call t m).
Proof. unfold TreeState.call. walk. Qed.
Hint Resolve pends_call : keeps.
Lemma pends_update_open h f : keeps (pends P) (update_open h f).
Proof. intros e a e' [= _ <-] n. by left. Qed.
Lemma pends_withdraw node e :
  pends P e (mkEnv (set_server (Server.setDeletePending node false (w_server (e_w e))) (e_w e)) (e_cc e)).
Proof.
  intros n. unfold Server.isDeletePending, Server.pending.
  cbn [e_w w_server set_server Server.setDeletePending Server.deletePending]. intros Hn. left. revert Hn.
  destruct (decide (n = node)) as [->|Hne]; [by rewrite lookup_delete_eq|by rewrite lookup_delete_ne].
Qed.
Lemma pends_mark node e :
  P node -> pends P e (mkEnv (set_server (Server.setDeletePending node true (w_server (e_w e))) (e_w e)) (e_cc e)).
Proof.
  intros Hp n. unfold Server.isDeletePending, Server.pending. cbn [e_w w_server set_server Server.setDeletePending Server.deletePending].
  destruct (decide (n = node)) as [->|Hne]; [by right|]. rewrite lookup_insert_ne by done. by left.
Qed.
Hint Resolve pends_update_open pends_withdraw : keeps.
Lemma pends_posix_delete h open : keeps (pends P) (applyPosixDelete t h open).
Proof. unfold applyPosixDelete. walk. Qed.
Hint Resolve pends_posix_delete : keeps.

(** A delete is marked for the node of the open, which has the access. *)
Lemma pends_disposition fid open pkt :
  (has (Open.grantedAccess open) DELETE = true -> P (Open.durableFileId open)) ->
  keeps (pends P) (setDispositionInfo t rd fid open pkt).
Proof.
  intros Hp. unfold setDispositionInfo, applyDeleteDisposition, reply_set. walk.
  apply pends_mark, Hp. by apply negb_false_iff.
Qed.
Hint Resolve pends_disposition : keeps.

Lemma pends_setInfo_open fid open class ty pkt :
  (has (Open.grantedAccess open) DELETE = true -> P (Open.durableFileId open)) ->
  keeps (pends P) (setInfo_open cfg t rd fid open class ty pkt).
Proof.
  intros Hp. unfold setInfo_open, setSecInfo, setBasicInfo, setEndOfFileInfoEa, setEndOfFileInfo, setDispositionInfoEa,
    setRename, set_buffer, new_mode, reply_done, reply_set. walk.
Qed.
End deletes.

(** C5: nothing is deleted without the right to.  Whatever a SET_INFO
    request asks for, a node whose delete it makes pending is the node of an
    open that is in the tables and was granted DELETE access. *)
Theorem delete_needs_access `{GoLib} (cfg : server_config) (t : nat) (rd : random) (pkt : slice)
    (e e' : env) (r : option goerr) (n : Z) :
  setInfo cfg t rd pkt e = Ok (r, e') ->
  Server.isDeletePending n (w_server (e_w e)) = false ->
  Server.isDeletePending n (w_server (e_w e')) = true ->
  exists h o, Server.opens (w_server (e_w e)) !! h = Some o /\ Open.durableFileId o = n
    /\ has (Open.grantedAccess o) DELETE = true.
Proof.
  intros Hr Hold Hnew.
  set (P := fun n => exists h o, Server.opens (w_server (e_w e)) !! h = Some o /\ Open.durableFileId o = n
    /\ has (Open.grantedAccess o) DELETE = true).
  enough (Hp : pends P e e') by (destruct (Hp n Hnew); [congruence|done]).
  unfold setInfo in Hr.
  apply bind_inv in Hr as (? & e1 & H1 & Hr). apply (keeps_session_conn eq) in H1 as <-.
  apply bind_inv in Hr as (res & e1 & H1 & Hr). apply lift_inv in H1 as [_ ->].
  apply bind_inv in Hr as (fid & e1 & H1 & Hr). apply (keeps_request_file eq) in H1 as <-.
  destruct (IsInvalidFileId _); [revert Hr; apply pends_reply_error|].
  apply bind_inv in Hr as (open & e1 & H1 & Hr). injection H1 as Ho <-.
  destruct open as [open|]; [|revert Hr; apply pends_reply_error].
  apply bind_inv in Hr as (class & e1 & H1 & Hr). apply lift_inv in H1 as [_ ->].
  apply bind_inv in Hr as (ty & e1 & H1 & Hr). apply lift_inv in H1 as [_ ->].
  revert Hr. apply pends_setInfo_open. intros Hd. by exists (FileId.HandleId fid), open.
Qed.

(** A SET_INFO that asks for the deletion of an open with DELETE access. *)
Definition toy_delete_open : Open.t :=
  Open.mk 4 9 (Some 1) DELETE SMB2_OPLOCK_LEVEL_EXCLUSIVE LOCKSTATE_HELD false false 0 [] 0 false 1 None
    false [] false false [] None [] 0 None 0 [] [] false.
Definition toy_delete_tables : Server.t := Server.mk {[4 := toy_delete_open]} None ∅.
Definition toy_delete : slice :=
  let r := SetInfoRequest.mk toy_hdr SMB2_0_INFO_FILE FileDispositionInformation 0 (Some toy_fid)
             (Some (mkEncoder 1 (put8 0 1))) in
  toy_request (SetInfoRequest.Size r) (SetInfoRequest.Encode r).

Lemma delete_needs_access_witness :
  exists e' r, setInfo (H := toy_lib) toy_cfg 3 toy_rd toy_delete (toy_file_env toy_delete_tables) = Ok (r, e')
    /\ exists h o, Server.opens toy_delete_tables !! h = Some o /\ Open.durableFileId o = 9
         /\ has (Open.grantedAccess o) DELETE = true.
Proof.
  set (run := setInfo (H := toy_lib) toy_cfg 3 toy_rd toy_delete (toy_file_env toy_delete_tables)).
  assert (Hp : match run with
               | Ok (_, e) => Server.isDeletePending 9 (w_server (e_w e))
               | _ => false
               end = true) by (vm_compute; reflexivity).
  destruct run as [[r e']|?|] eqn:E; [|discriminate Hp..].
  exists e', r. split; [reflexivity|].
  apply (delete_needs_access (H := toy_lib) toy_cfg 3 toy_rd toy_delete (toy_file_env toy_delete_tables) e' r 9 E);
    [reflexivity|exact Hp].
Defined.
