(* ===== verification/FileServer.v ===== *)
(** * The file server as a whole

    What the operations of a file tree do to the rest of the server: they
    leave sessions and trees alone, and they change the tables of opens only
    by the steps of the state machine of [Opens].  With them the server's loop
    is closed: [Handlers] runs on the operations of the two kinds of tree. *)

From S2P Require Import Prelude Const Packet Utf16 Paths Request Dtyp Vfs Oplock Opens Fscc Acl FileInfo.
From S2P Require Import Response Contexts Session Compound Conn Handlers TreeState FileTree FileTreeDir.
From S2P Require Import FileTreeInfo Dcerpc IpcTree SpnegoToken Spnego.

(** ** The operations of a tree (server/tree.go) *)

(** [fuel] bounds the batches one QUERY_DIRECTORY reads. *)
Definition treeOps_op `{GoLib} (cfg : server_config) (fuel : nat) (cmd : Z) (t : nat) (rd : random)
    (pkt : slice) : M (option goerr) :=
  let* tc := get_tree t in
  match treeConn.ops tc with
  | fileTree _ => file_op cfg t rd fuel cmd pkt
  | ipcTree _ => ipc_op cfg t rd cmd pkt
  end.

Definition tree_op `{GoLib} (cfg : server_config) (fuel : nat) (cmd : Z) (t : nat) (rd : random)
    (pkt : slice) (cc : option compoundContext.t) (w : world)
  : outcome (world * option compoundContext.t * option goerr) :=
  let! r := treeOps_op cfg fuel cmd t rd pkt (mkEnv w cc) in
  let '(err, e) := r in Ok (e_w e, e_cc e, err).

(** ** The steps of an operation *)

Definition op_step (e e' : env) : Prop :=
  (same_tables (w_conn (e_w e)) (w_conn (e_w e'))
   /\ rtc step (w_server (e_w e)) (w_server (e_w e')))
  /\ w_auths (e_w e') = w_auths (e_w e).

#[export] Instance op_step_preorder : PreOrder op_step.
Proof.
  split; [by split; [split|]|]. intros a b c [[Ha1 Ha2] Ha3] [[Hb1 Hb2] Hb3].
  split; [by split; etransitivity|congruence].
Qed.

Section steps.
Context `{GoLib} (t : nat) (rd : random).

Lemma steps_set_world f :
  (forall w, w_conn (f w) = w_conn w /\ w_server (f w) = w_server w /\ w_auths (f w) = w_auths w) ->
  keeps op_step (set_world f).
Proof.
  intros Hf e a e' [= _ <-]. destruct (Hf (e_w e)) as (Hc & Hs & Ha). unfold op_step. cbn [e_w].
  by rewrite Hc, Hs.
Qed.

Lemma steps_reply pk : keeps op_step (TreeState.reply t rd pk).
Proof.
  intros e a e'. unfold TreeState.reply.
  destruct (sendPacket _ _ _ _ _ _) as [[[c cc] err]|?|] eqn:Hs; [|done..].
  cbn [obind]. intros [= _ <-]. split; [|done]. split; [|done]. by apply sendPacket_tables in Hs.
Qed.

Lemma steps_call {A} (m : forall fs, fs_state fs -> A * fs_state fs) : keeps op_step (TreeState.call t m).
Proof.
  unfold TreeState.call. walk. apply steps_set_world. by intros w.
Qed.

Lemma steps_disposition node b e :
  op_step e (mkEnv (set_server (Server.setDeletePending node b (w_server (e_w e))) (e_w e)) (e_cc e)).
Proof. split; [|done]. split; [done|]. apply rtc_once, step_disposition. Qed.

Lemma steps_update_open h f : (forall o, same_lock o (f o)) -> keeps op_step (update_open h f).
Proof.
  intros Hf e a e' [= _ <-]. split; [|done]. split; [done|]. cbn [e_w w_server set_server].
  destruct (Server.opens (w_server (e_w e)) !! h) as [o|] eqn:Ho.
  - rewrite (alter_alt_Some _ _ _ o) by done. eapply rtc_once, step_edit; done.
  - rewrite alter_id. 2: { intros y Hy. congruence. } by destruct (w_server (e_w e)).
Qed.

Lemma steps_reply_error pkt st : keeps op_step (TreeState.reply_error t rd pkt st).
Proof. unfold TreeState.reply_error. walk. apply steps_reply. Qed.
Lemma steps_reply_async pkt a st : keeps op_step (TreeState.reply_async_error t rd pkt a st).
Proof. unfold TreeState.reply_async_error. walk. apply steps_reply. Qed.
Lemma steps_root_inode : keeps op_step (root_inode t).
Proof. unfold root_inode. walk. apply steps_call. Qed.
End steps.

#[export] Hint Resolve steps_reply steps_reply_error steps_reply_async steps_call steps_root_inode steps_disposition : keeps.
#[export] Hint Extern 1 (keeps op_step (set_world _)) => by apply steps_set_world : keeps.
#[export] Hint Extern 1 (keeps op_step (update_open _ _)) => by apply steps_update_open : keeps.

Section create.
Context `{GoLib} (cfg : server_config) (t : nat) (rd : random).

Lemma steps_create_context posix attrs cc open ctxs :
  keeps op_step (create_context t posix attrs cc open ctxs).
Proof. unfold create_context, handleQFid. walk. Qed.

Lemma steps_create_contexts fuel posix attrs cc open ctxs :
  keeps op_step (create_contexts t fuel posix attrs cc open ctxs).
Proof.
  revert cc open ctxs. induction fuel; intros; cbn [create_contexts]; walk; eauto.
  apply steps_create_context.
Qed.

Lemma steps_handleCreateEA d h k : keeps op_step (handleCreateEA t d h k).
Proof. unfold handleCreateEA, xattr_exists, xattr_clear. walk. Qed.

Lemma steps_create_request res : keeps op_step (create_request t res).
Proof. unfold create_request. walk. Qed.

Lemma steps_create_checks q : keeps op_step (create_checks q).
Proof. unfold create_checks. walk. Qed.

Lemma steps_create_open q d f a : keeps op_step (create_open t q d f a).
Proof. unfold create_open. walk. Qed.

Lemma steps_add o lv {A} (k : M A) :
  Server.grant_oplock lv = (Open.oplockLevel o, Open.oplockState o) -> keeps op_step k ->
  keeps op_step (let* d := get_server in let* d := lift (Server.addOpen o d) in let* _ := put_server d in k).
Proof.
  intros Hg Hk e a e' Hr. unfold bind, get_server, put_server, set_world, get_world, ret, lift in Hr.
  cbn [obind] in Hr. unfold bind in Hr. cbn [obind] in Hr.
  destruct (Server.addOpen o _) as [d|?|] eqn:Ha; [|done..]. cbn [obind] in Hr. apply Hk in Hr.
  etransitivity; [|exact Hr]. split; [|done]. split; [done|]. by eapply rtc_once, step_add.
Qed.

Lemma steps_set_ctx fid :
  keeps op_step (fun e => Ok (tt, mkEnv (e_w e) (compoundContext.set_fileId fid <$> e_cc e))).
Proof. by intros e a e' [= _ <-]. Qed.

Lemma steps_create_answer res hdr q h action attrs :
  keeps op_step (create_answer t rd res hdr q h action attrs).
Proof.
  unfold create_answer.
  repeat lazymatch goal with
         | |- keeps _ (bind (create_contexts _ _ _ _ _ _ _) _) => fail
         | _ => walk_step
         end.
  eapply keeps_bind_yields; [typeclasses eauto|apply steps_create_contexts|apply create_contexts_file|].
  intros [open ctxs] (_ & _ & Hlv & Hst & _). cbn [fst] in *.
  apply keeps_bind; [typeclasses eauto|apply steps_set_ctx|]. intros _.
  eapply steps_add; [by rewrite Hlv, Hst|]. walk.
Qed.

Hint Resolve steps_handleCreateEA steps_create_request steps_create_checks steps_create_open
  steps_create_answer : keeps.
Lemma steps_create pkt : keeps op_step (create t rd pkt).
Proof. unfold create. walk. Qed.
End create.

(** ** Closing *)

(** Nothing but the file system and the pending deletes changed. *)
Definition same_opens (e e' : env) : Prop :=
  Server.opens (w_server (e_w e')) = Server.opens (w_server (e_w e)).

#[export] Instance same_opens_preorder : PreOrder same_opens.
Proof. split; [by intros e|]. intros a b c H1 H2. unfold same_opens in *. congruence. Qed.

Section close.
Context `{GoLib} (t : nat) (rd : random).

Lemma opens_set_world f :
  (forall w, Server.opens (w_server (f w)) = Server.opens (w_server w)) -> keeps same_opens (set_world f).
Proof. intros Hf e a e' [= _ <-]. apply Hf. Qed.
Hint Extern 1 (keeps same_opens (set_world _)) => by apply opens_set_world : keeps.
Lemma opens_call {A} (m : forall fs, fs_state fs -> A * fs_state fs) : keeps same_opens (TreeState.call t m).
Proof. unfold TreeState.call. walk. Qed.
Hint Resolve opens_call : keeps.

Lemma opens_close_info flags h hdr open : keeps same_opens (close_info t flags h hdr open).
Proof. unfold close_info. walk. Qed.
Lemma steps_close_info flags h hdr open : keeps op_step (close_info t flags h hdr open).
Proof. unfold close_info. walk. Qed.

Lemma opens_posix_delete h open : keeps same_opens (applyPosixDelete t h open).
Proof. unfold applyPosixDelete. by walk. Qed.
Lemma steps_posix_delete h open : keeps op_step (applyPosixDelete t h open).
Proof. unfold applyPosixDelete. walk. Qed.
Hint Resolve opens_posix_delete steps_posix_delete : keeps.

Lemma opens_delete_on_close h open : keeps same_opens (applyPosixDeleteOnClose t h open).
Proof. unfold applyPosixDeleteOnClose. walk. Qed.
Lemma steps_delete_on_close h open : keeps op_step (applyPosixDeleteOnClose t h open).
Proof. unfold applyPosixDeleteOnClose. walk. Qed.

Lemma delete_on_close_open h open :
  yields (fun o' => match open with
                    | None => o' = None
                    | Some o => o' = Some o \/ o' = Some (Open.set_deleteOnClose false o)
                    end) (applyPosixDeleteOnClose t h open).
Proof. unfold applyPosixDeleteOnClose. walk_yields; auto. Qed.

Lemma steps_close_delete h o o' st e a e' :
  Server.getOpen h (w_server (e_w e)) = Some o -> o' = o \/ o' = Open.set_deleteOnClose false o ->
  close_delete t h st (Some o') e = Ok (a, e') -> op_step e e'.
Proof.
  intros Ho Ho' Hr. unfold close_delete in Hr. apply bind_inv in Hr as (d & e1 & Hd & Hr).
  injection Hd as <- <-. destruct (Server.closeOpen o' _) as [b d'] eqn:Hc.
  apply bind_inv in Hr as ([] & e1 & Hp & Hr). injection Hp as <-.
  transitivity (mkEnv (set_server d' (e_w e)) (e_cc e)).
  - split; [|done]. split; [done|]. cbn [e_w w_server set_server]. replace d' with (snd (Server.closeOpen o' (w_server (e_w e))))
      by (by rewrite Hc). by eapply rtc_once, step_close.
  - revert Hr. generalize (mkEnv (set_server d' (e_w e)) (e_cc e)). intros e1 Hr.
    match type of Hr with ?m _ = _ => assert (Hk : keeps op_step m) by walk end. by eapply Hk.
Qed.

Lemma steps_close_none h st : keeps op_step (close_delete t h st None).
Proof. unfold close_delete. walk. Qed.

(** From the lookup of the open to the close of the table entry. *)
Lemma steps_close_open {A} h flags hdr st (k : CloseResponse.t -> Z -> M A) :
  (forall r s, keeps op_step (k r s)) ->
  keeps op_step
    (let* open := getOpen h in
     let* rsp := close_info t flags h hdr open in
     let* open := applyPosixDeleteOnClose t h open in
     let* status := close_delete t h st open in k rsp status).
Proof.
  intros Hk e a e' Hr. apply bind_inv in Hr as (open & e0 & Ho & Hr). injection Ho as Ho <-.
  apply bind_inv in Hr as (rsp & e1 & Hi & Hr). apply bind_inv in Hr as (open' & e2 & Hp & Hr).
  apply bind_inv in Hr as (st' & e3 & Hd & Hr). apply Hk in Hr.
  pose proof (opens_close_info _ _ _ _ _ _ _ Hi) as Ho1.
  pose proof (opens_delete_on_close _ _ _ _ _ Hp) as Ho2.
  pose proof (delete_on_close_open _ _ _ _ _ Hp) as Hopen. cbv beta in Hopen.
  apply steps_close_info in Hi. apply steps_delete_on_close in Hp.
  transitivity e1; [done|]. transitivity e2; [done|]. transitivity e3; [|done].
  destruct open as [o|]; [|subst open'; by eapply steps_close_none].
  assert (Hl : Server.getOpen h (w_server (e_w e2)) = Some o)
    by (unfold Server.getOpen; by rewrite Ho2, Ho1).
  destruct Hopen as [-> | ->]; (eapply steps_close_delete; [exact Hl| |exact Hd]); auto.
Qed.

Lemma steps_close pkt : keeps op_step (close t rd pkt).
Proof.
  unfold close.
  repeat lazymatch goal with
         | |- keeps _ (bind (getOpen _) _) => fail
         | _ => walk_step
         end.
  apply steps_close_open. walk.
Qed.
End close.

(** ** The other operations *)

Section operations.
Context `{GoLib} (cfg : server_config) (t : nat) (rd : random).
Hint Resolve steps_posix_delete : keeps.

Lemma steps_readEA fid o buf pkt : keeps op_step (readEA t rd fid o buf pkt).
Proof. unfold readEA. walk. Qed.
Hint Resolve steps_readEA : keeps.
Lemma steps_readImpl pkt fid o a : keeps op_step (readImpl t rd pkt fid o a).
Proof. unfold readImpl, read_done. walk. Qed.
Lemma steps_writeImpl pkt fid o a : keeps op_step (writeImpl t rd pkt fid o a).
Proof. unfold writeImpl. walk. Qed.
Hint Resolve steps_readImpl steps_writeImpl : keeps.
Lemma steps_start_io kind pkt fid : keeps op_step (start_io t rd kind pkt fid).
Proof. unfold start_io, io_impl. walk. Qed.
Hint Resolve steps_start_io : keeps.

Lemma steps_finder_info parent d : keeps op_step (finder_info cfg t parent d).
Proof. unfold finder_info. walk. Qed.
Hint Resolve steps_finder_info : keeps.
Lemma steps_makeItem class d parent : keeps op_step (makeItem cfg t class d parent).
Proof. unfold makeItem, newFileIdBothDirectoryInformationInfo2. walk. Qed.
Hint Resolve steps_makeItem : keeps.
Lemma steps_keep_entries h l : keeps op_step (keep_entries h l).
Proof. unfold keep_entries. walk. Qed.
Hint Resolve steps_keep_entries : keeps.
Lemma steps_append out entries pattern class h open maxSize single :
  keeps op_step (appendDirectoryEntries cfg t out entries pattern class h open maxSize single).
Proof. revert out. induction entries; intros out; cbn [appendDirectoryEntries]; walk; eauto. Qed.
Hint Resolve steps_append : keeps.
Lemma steps_read_batches fuel out open h pattern class single maxSize fl maxRead :
  keeps op_step (read_batches cfg t fuel out open h pattern class single maxSize fl maxRead).
Proof.
  revert out fl. induction fuel; intros out fl; cbn [read_batches]; [by intros e a e' ?|]. walk; eauto.
Qed.
Hint Resolve steps_read_batches : keeps.
Lemma steps_wildcard fuel open h pattern class fl max rfl :
  keeps op_step (queryDirectoryWildcard cfg t fuel open h pattern class fl max rfl).
Proof. unfold queryDirectoryWildcard. walk. Qed.
Lemma steps_single open h name class max :
  keeps op_step (queryDirectorySingle cfg t open h name class max).
Proof. unfold queryDirectorySingle. walk. Qed.
Hint Resolve steps_wildcard steps_single : keeps.
Lemma steps_queryDirectory fuel pkt : keeps op_step (queryDirectory cfg t rd fuel pkt).
Proof. unfold queryDirectory. walk. Qed.

Lemma steps_reply_ioctl pkt code fid out : keeps op_step (reply_ioctl t rd pkt code fid out).
Proof. unfold reply_ioctl. walk. Qed.
Lemma steps_reply_set pkt : keeps op_step (reply_set t rd pkt).
Proof. unfold reply_set. walk. Qed.
Hint Resolve steps_reply_ioctl steps_reply_set : keeps.
Lemma steps_ioctl pkt : keeps op_step (ioctl t rd pkt).
Proof.
  unfold ioctl, handleReparsePointReq, handleGetReparsePointReq, handleDeleteReparsePointReq,
    handleCreateOrGetObjectId, handleQueryNetworkInterfaceInfo. walk.
Qed.
Lemma steps_changeNotify pkt : keeps op_step (changeNotify t rd pkt).
Proof. unfold changeNotify. walk. Qed.

Lemma steps_ea_streams h names : keeps op_step (ea_streams t h names).
Proof. induction names; cbn [ea_streams]; walk. Qed.
Hint Resolve steps_ea_streams : keeps.
Lemma steps_file_info class h open a d p : keeps op_step (file_info cfg t class h open a d p).
Proof. unfold file_info, streams. walk. Qed.
Lemma steps_fs_info res class s : keeps op_step (fs_info cfg t res class s).
Proof. unfold fs_info. walk. Qed.
Hint Resolve steps_file_info steps_fs_info : keeps.
Lemma steps_queryInfo pkt : keeps op_step (queryInfo cfg t rd pkt).
Proof.
  unfold queryInfo, queryInfoFile, queryInfoFileSystem, queryInfoSec, queryFSAttributes, reply_info. walk.
Qed.

Lemma steps_delete_disposition fid open : keeps op_step (applyDeleteDisposition t fid open).
Proof. unfold applyDeleteDisposition. walk. Qed.
Hint Resolve steps_delete_disposition : keeps.
Lemma steps_setInfo pkt : keeps op_step (setInfo cfg t rd pkt).
Proof.
  unfold setInfo, setInfo_open, setSecInfo, setBasicInfo, setEndOfFileInfoEa, setEndOfFileInfo, setDispositionInfoEa,
    setDispositionInfo, setRename, set_buffer, new_mode, reply_done. walk.
Qed.

Lemma steps_put d d' cc w : step d d' -> w_server w = d -> op_step (mkEnv w cc) (mkEnv (set_server d' w) cc).
Proof. intros Hs <-. split; [|done]. split; [done|]. by apply rtc_once. Qed.

Lemma find_lease_candidate key d : Server.lease_candidate key d (find_lease key d).
Proof.
  unfold find_lease. destruct (find _ _) as [[h o]|] eqn:Hf; cbn [Server.lease_candidate].
  - apply find_some in Hf as [Hin Hl]. apply list_elem_of_In, elem_of_map_to_list in Hin.
    cbn [snd] in Hl. unfold has_lease in Hl. destruct (Open.lease o) as [l|] eqn:El; [|done].
    apply bool_decide_eq_true in Hl. by exists o, l.
  - intros h o l Ho Hl Hk. pose proof (find_none _ _ Hf (h, o)) as Hn. cbn [snd] in Hn.
    unfold has_lease in Hn. rewrite Hl, bool_decide_eq_true_2 in Hn by done.
    apply elem_of_map_to_list, list_elem_of_In in Ho. by apply Hn in Ho.
Qed.

Lemma steps_oplockBreak pkt : keeps op_step (oplockBreak t rd pkt).
Proof.
  unfold oplockBreak.
  repeat lazymatch goal with
         | |- keeps _ (bind get_server _) => fail
         | _ => walk_step
         end.
  all: intros e r e' Hr; apply bind_inv in Hr as (d & e0 & Hd & Hr); injection Hd as Hd <-.
  - destruct (Server.ack_oplock _ _ d) as [[d' lv]|st] eqn:Ha; [|by eapply steps_reply_error].
    apply bind_inv in Hr as ([] & e1 & Hp & Hr). injection Hp as <-.
    transitivity (mkEnv (set_server d' (e_w e)) (e_cc e)).
    + destruct e as [w cc]. eapply steps_put; [|done]. eapply step_ack_oplock. exact Ha.
    + match type of Hr with ?m _ = _ => assert (Hk : keeps op_step m) by walk end. by eapply Hk.
  - destruct (Server.ack_lease _ _ d) as [[d' lv]|st] eqn:Ha; [|by eapply steps_reply_error].
    apply bind_inv in Hr as ([] & e1 & Hp & Hr). injection Hp as <-.
    transitivity (mkEnv (set_server d' (e_w e)) (e_cc e)).
    + destruct e as [w cc]. eapply steps_put; [|done]. eapply step_ack_lease; [|exact Ha].
      apply find_lease_candidate.
    + match type of Hr with ?m _ = _ => assert (Hk : keeps op_step m) by walk end. by eapply Hk.
Qed.

Hint Resolve steps_create steps_close steps_queryDirectory steps_ioctl steps_changeNotify steps_queryInfo
  steps_setInfo steps_oplockBreak : keeps.
Lemma steps_file_op fuel cmd pkt : keeps op_step (file_op cfg t rd fuel cmd pkt).
Proof. unfold file_op, flush, read, write, lock. walk. Qed.

Lemma steps_ipc_op cmd pkt : keeps op_step (ipc_op cfg t rd cmd pkt).
Proof.
  unfold ipc_op, ipc_create, ipc_close, ipc_write, ipc_read, ipc_ioctl, ipc_queryInfo, ipc_shares,
    set_request, use_refs. walk.
Qed.
End operations.

(** ** The loop *)

Section server.
Context `{GoLib, Ber} (cfg : server_config) (fuel : nat).

Lemma tree_op_steps cmd t rd pkt cc w w' cc' err :
  tree_op cfg fuel cmd t rd pkt cc w = Ok (w', cc', err) ->
  (same_tables (w_conn w) (w_conn w') /\ rtc step (w_server w) (w_server w')) /\ w_auths w' = w_auths w.
Proof.
  unfold tree_op. destruct (treeOps_op _ _ _ _ _ _ _) as [[e1 e]|?|] eqn:Hr; [|done..].
  cbn [obind]. intros [= <- _ _].
  assert (Hk : keeps op_step (treeOps_op cfg fuel cmd t rd pkt)).
  { unfold treeOps_op. walk; [apply steps_ipc_op|apply steps_file_op]. }
  apply (Hk _ _ _ Hr).
Qed.

Lemma tree_op_frames : tree_op_frame (tree_op cfg fuel).
Proof. intros cmd p rd pkt cc w w' cc' e Hr. by apply tree_op_steps in Hr as [[Hr%same_tables_parts _] _]. Qed.

(** The other requests leave the tables of opens alone. *)
Lemma send_server rd req tc w w' e : send rd req tc w = Ok (w', e) -> w_server w' = w_server w.
Proof.
  unfold send. destruct (sendPacket _ _ _ _ _ _) as [[[c cc] e']|?|]; [|done..]. cbn [obind]. by intros [= <- _].
Qed.

Ltac same_server Hr :=
  follow Hr;
  first
  [ exact (send_server _ _ _ _ _ _ Hr)
  | match goal with Hs : send _ _ _ _ = Ok _ |- _ => apply send_server in Hs end;
    injection Hr as <- <-; assumption
  | injection Hr as <- <-; done
  | idtac ].

Lemma answer_negotiate_server rd pkt tok w w' e :
  answer_negotiate cfg rd pkt tok w = Ok (w', e) -> w_server w' = w_server w.
Proof. unfold answer_negotiate. intros Hr. same_server Hr. Qed.
Lemma negotiate_server rd pkt w w' e : negotiate cfg rd pkt w = Ok (w', e) -> w_server w' = w_server w.
Proof.
  unfold negotiate, neg_negotiate. intros Hr. same_server Hr.
  all: by apply answer_negotiate_server in Hr.
Qed.
Lemma sessionSetup_server rd pkt w w' e : sessionSetup cfg rd pkt w = Ok (w', e) -> w_server w' = w_server w.
Proof.
  unfold sessionSetup, sessionServerSetup, sessionServerSetupChallenge. intros Hr. same_server Hr.
Qed.
Lemma treeConnect_server rd pkt w w' e : treeConnect cfg rd pkt w = Ok (w', e) -> w_server w' = w_server w.
Proof. unfold treeConnect. intros Hr. same_server Hr. Qed.
Lemma treeDisconnect_server rd pkt w w' e : treeDisconnect rd pkt w = Ok (w', e) -> w_server w' = w_server w.
Proof. unfold treeDisconnect. intros Hr. same_server Hr. Qed.
Lemma logoff_server rd pkt w w' e : logoff rd pkt w = Ok (w', e) -> w_server w' = w_server w.
Proof. unfold logoff. intros Hr. same_server Hr. Qed.
Lemma echo_server rd pkt w w' e : echo rd pkt w = Ok (w', e) -> w_server w' = w_server w.
Proof. unfold echo. intros Hr. same_server Hr. Qed.

Lemma Run_step_steps rd pkt rs cc w w' cc' err :
  Run_step cfg (tree_op cfg fuel) rd pkt rs cc w = Ok (w', cc', err) ->
  rtc step (w_server w) (w_server w').
Proof.
  intros Hr. unfold Run_step in Hr. set (w1 := match rs with Some p => _ | None => w end) in Hr.
  assert (Hw1 : w_server w1 = w_server w) by (unfold w1; by destruct rs).
  clearbody w1. rewrite <- Hw1. clear Hw1. unfold without_ctx in Hr. follow Hr.
  all: try match goal with
       | E : negotiate _ _ _ _ = Ok _ |- _ => apply negotiate_server in E; injection Hr as <- _ _; by rewrite E
       | E : sessionSetup _ _ _ _ = Ok _ |- _ => apply sessionSetup_server in E; injection Hr as <- _ _; by rewrite E
       | E : logoff _ _ _ = Ok _ |- _ => apply logoff_server in E; injection Hr as <- _ _; by rewrite E
       | E : treeConnect _ _ _ _ = Ok _ |- _ => apply treeConnect_server in E; injection Hr as <- _ _; by rewrite E
       | E : treeDisconnect _ _ _ = Ok _ |- _ => apply treeDisconnect_server in E; injection Hr as <- _ _; by rewrite E
       | E : echo _ _ _ = Ok _ |- _ => apply echo_server in E; injection Hr as <- _ _; by rewrite E
       end.
  all: try (injection Hr as <- _ _; done).
  by apply tree_op_steps in Hr as [[_ ?] _].
Qed.

Lemma schedule_steps rd cc i w w' :
  schedule rd cc i w = Ok w' ->
  (same_tables (w_conn w) (w_conn w') /\ rtc step (w_server w) (w_server w')) /\ w_auths w' = w_auths w.
Proof.
  unfold schedule. destruct (w_tasks w !! i) as [k|]; [|by intros [= <-]].
  destruct (task_step _ _ _) as [[k' e]|?|] eqn:Hk; [|done..]. cbn [obind]. intros [= <-].
  assert (Hs : keeps op_step (task_step rd k)).
  { unfold task_step, io_impl, notify_end. walk; [apply steps_readImpl|apply steps_writeImpl]. }
  apply (Hs _ _ _ Hk).
Qed.

(** What happens to a server with one connection: a request is handled, a
    goroutine takes a step, or the file system asks for the oplocks of a node
    to be broken.  With [fresh] the random tree ids are not in use when they
    are drawn; the code does not check that. *)
Inductive server_step (fresh : bool) (w : world) : world -> Prop :=
| on_request rd pkt rs cc w' cc' err :
    (fresh = true -> conn.treeMapById (w_conn w) !! rd_int32 rd = None) ->
    Run_step cfg (tree_op cfg fuel) rd pkt rs cc w = Ok (w', cc', err) -> server_step fresh w w'
| on_schedule rd cc i w' : schedule rd cc i w = Ok w' -> server_step fresh w w'
| on_break node : server_step fresh w (set_server (fst (Server.BreakNode node (w_server w))) w).

(** What every step keeps. *)
Definition server_inv (fresh : bool) (w : world) : Prop :=
  trees_wf (w_conn w) /\ (fresh = true -> trees_ok (w_conn w)) /\ rtc step Server.NewServer (w_server w).

Lemma server_step_inv fresh w w' : server_step fresh w w' -> server_inv fresh w -> server_inv fresh w'.
Proof.
  intros Hst (Ht & Hok & Hs). destruct Hst as [rd pkt rs cc w' cc' err Hf Hr|rd cc i w' Hr|node].
  - destruct (proj1 (Run_step_parts _ _ _ _ _ _ _ _ _ _ tree_op_frames Hr)) as [Hwf' Hok'].
    split_and!; [by apply Hwf'|by auto|]. etransitivity; [exact Hs|by eapply Run_step_steps].
  - apply schedule_steps in Hr as [[Hc Hr] _]. pose proof (same_tables_parts _ _ Hc) as [_ Hsame].
    split_and!; [by eapply same_trees_wf|intros ?; eapply same_trees_ok; by auto|by etransitivity].
  - split_and!; [done..|]. cbn [w_server set_server]. eapply rtc_r; [exact Hs|apply step_break].
Qed.

(** C1: the server's tables stay consistent, whatever clients send.  Starting
    with no tree connected and no file open, after any sequence of requests
    (of every command, on file trees and on the IPC tree, in compounds or
    not), steps of the goroutines they leave behind, and oplock breaks, in
    any order: every tree id leads to a tree that has that id and references
    and is filed under its path, every path leads to a tree with that path,
    every open is filed under its own handle, an open without an oplock has
    level NONE, and only an open that holds something waits for an
    acknowledgement.  When moreover no random tree id was in use as it was
    drawn, which the code does not check, the two maps of trees agree: the
    tree of a path is filed under its id as well. *)
Theorem server_tables_ok (fresh : bool) (w w' : world) :
  conn.treeMapById (w_conn w) = ∅ -> conn.treeMapByName (w_conn w) = ∅ ->
  w_server w = Server.NewServer -> rtc (server_step fresh) w w' ->
  trees_wf (w_conn w') /\ table_wf (w_server w')
  /\ map_Forall (fun _ => lock_ok) (Server.opens (w_server w'))
  /\ (fresh = true -> trees_ok (w_conn w')).
Proof.
  intros Hi Hn Hs Hrun.
  assert (H1 : server_inv fresh w).
  { unfold server_inv, trees_wf, trees_ok. rewrite Hs, Hi, Hn.
    split; [|split; [intros _|done]]; split; intros ??; by rewrite lookup_empty. }
  clear Hi Hn Hs. induction Hrun as [w|w w1 w' Hst _ IH]; [|by apply IH, (server_step_inv _ _ _ Hst)].
  destruct H1 as (Ht & Hok & Hr). apply reachable_inv in Hr as (? & ? & _). done.
Qed.

(** A session needs an authenticated token.  When the server, in any state,
    makes a session that was not there before, it was handling a
    SESSION_SETUP in the second leg of a session setup, and one of its
    authenticators accepted the token the request carries: no operation on a
    tree, no goroutine and no other command makes a session. *)
Theorem session_needs_authentication (w w' : world) (p : nat) :
  server_step false w w' ->
  p ∈ dom (conn.heap (w_conn w')) -> p ∉ dom (conn.heap (w_conn w)) ->
  exists pkt, authenticated pkt w.
Proof.
  intros Hst Hp Hnp. destruct Hst as [rd pkt rs cc w' cc' err Hf Hr|rd cc i w' Hr|node].
  - exists pkt. by eapply (session_requires_authentication cfg _ _ _ _ _ _ _ _ _ p tree_op_frames Hr Hp).
  - apply schedule_steps in Hr as [[(Hn & _)%same_tables_parts _] _]. destruct Hnp.
    apply elem_of_dom in Hp as [s Hp]. destruct (no_new_session_lookup _ _ _ _ Hn Hp) as (s0 & Hp0 & _).
    by apply elem_of_dom.
  - done.
Qed.

Lemma session_conn_nil t tc e :
  conn.trees (w_conn (e_w e)) !! t = Some tc -> treeConn.session tc = None -> session_conn t e = Panic.
Proof.
  intros Ht Hs. unfold session_conn, get_tree, bind, get_world, lift, session.deref. cbn [obind].
  rewrite Ht. cbn [obind]. by rewrite Hs.
Qed.

Lemma bind_panic {A B} (m : M A) (k : A -> M B) e : m e = Panic -> bind m k e = Panic.
Proof. intros Hm. unfold bind. by rewrite Hm. Qed.

Lemma sessionless_op cmd p rd pkt cc w tc id :
  cmd ∈ tree_commands -> conn.trees (w_conn w) !! p = Some tc -> treeConn.session tc = None ->
  treeConn.ops tc = fileTree id -> tree_op cfg fuel cmd p rd pkt cc w = Panic.
Proof.
  intros Hin Htc Hses Hops. set (e := mkEnv w cc). pose proof (session_conn_nil p tc e Htc Hses) as Hn.
  assert (Hf : file_op cfg p rd fuel cmd pkt e = Panic).
  { unfold tree_commands in Hin. repeat (apply elem_of_cons in Hin as [->|Hin]); [..|by apply elem_of_nil in Hin].
    all: cbn [file_op Z.eqb]; unfold create, close, flush, read, write, lock, ioctl, queryDirectory, changeNotify,
      queryInfo, setInfo, oplockBreak; by apply bind_panic. }
  unfold tree_op. fold e. unfold treeOps_op. rewrite (bind_run _ _ _ tc e).
  - by rewrite Hops, Hf.
  - unfold get_tree. rewrite bind_get_world. unfold lift, session.deref. change (w_conn (e_w e)) with (w_conn w). by rewrite Htc.
Qed.

(** C39: a share that was connected without a session stops the server.
    TREE_CONNECT does not ask for a session, and the tree it makes then has
    none; the next request for the file system of the share, whatever its
    command, follows the nil pointer. *)
Theorem sessionless_tree_panics (rd : random) (pkt : slice) (rs : option nat) (w : world)
    (cmd mid sid tid flags id : Z) (p : nat) (tc : treeConn.t) :
  PacketCodec.Command pkt = Ok cmd -> cmd ∈ tree_commands -> PacketCodec.MessageId pkt = Ok mid ->
  PacketCodec.SessionId pkt = Ok sid -> PacketCodec.TreeId pkt = Ok tid -> PacketCodec.Flags pkt = Ok flags ->
  conn.treeMapById (w_conn w) !! tid = Some p -> conn.trees (w_conn w) !! p = Some tc ->
  treeConn.session tc = None -> treeConn.ops tc = fileTree id ->
  Run_step cfg (tree_op cfg fuel) rd pkt rs None w = Panic.
Proof.
  intros Hc Hin Hm Hs Ht Hfl Hid Htc Hses Hops. unfold Run_step. rewrite Hc, Hm, Hs, Ht, Hfl. cbn [obind].
  set (w1 := match rs with Some p => _ | None => w end).
  assert (H1 : conn.treeMapById (w_conn w1) = conn.treeMapById (w_conn w)
    /\ conn.trees (w_conn w1) = conn.trees (w_conn w)) by (unfold w1; by destruct rs).
  destruct H1 as [-> Htr]. rewrite Hid. rewrite <- Htr in Htc. clearbody w1.
  pose proof (sessionless_op cmd p rd pkt None w1 tc id Hin Htc Hses Hops) as Hop.
  unfold tree_commands in Hin. repeat (apply elem_of_cons in Hin as [->|Hin]); [..|by apply elem_of_nil in Hin].
  all: exact Hop.
Qed.
End server.

(** ** Concrete checks *)

Lemma server_tables_ok_witness :
  exists w', rtc (@server_step toy_lib toy_ber toy_cfg 9 true) (toy_world STATE_NEGOTIATE None) w'
    /\ trees_ok (w_conn w').
Proof.
  destruct (turn_ok (@Run_step toy_lib toy_ber toy_cfg (@tree_op toy_lib toy_cfg 9) toy_rd
    (toy_tree_connect [0x53]) None None (toy_world STATE_NEGOTIATE None))) as (w' & cc' & E);
    [vm_compute; reflexivity|].
  exists w'. assert (Hr : rtc (@server_step toy_lib toy_ber toy_cfg 9 true) (toy_world STATE_NEGOTIATE None) w').
  { apply rtc_once. eapply on_request; [|exact E]. reflexivity. }
  split; [exact Hr|].
  apply (@server_tables_ok toy_lib toy_ber toy_cfg 9 true (toy_world STATE_NEGOTIATE None) w').
  - reflexivity.
  - reflexivity.
  - reflexivity.
  - exact Hr.
  - reflexivity.
Defined.

Lemma session_needs_authentication_witness :
  exists w' pkt,
    @server_step toy_lib toy_ber toy_cfg 9 false
      (toy_world STATE_SESSION_SETUP_CHALLENGE (Some (spnegoServer.mk [0%nat] [NlmpOid] (Some 0%nat)))) w'
    /\ @authenticated toy_ber pkt
      (toy_world STATE_SESSION_SETUP_CHALLENGE (Some (spnegoServer.mk [0%nat] [NlmpOid] (Some 0%nat)))).
Proof.
  set (w := toy_world _ _).
  destruct (turn_ok (@Run_step toy_lib toy_ber toy_cfg (@tree_op toy_lib toy_cfg 9) toy_rd (toy_setup [7]) None None w))
    as (w' & cc' & E); [vm_compute; reflexivity|].
  assert (Hs : @server_step toy_lib toy_ber toy_cfg 9 false w w') by (eapply on_request; [|exact E]; discriminate).
  destruct (@session_needs_authentication toy_lib toy_ber toy_cfg 9 w w' 0%nat Hs) as (pkt & Ha).
  - apply elem_of_dom.
    assert (Hb : match @Run_step toy_lib toy_ber toy_cfg (@tree_op toy_lib toy_cfg 9) toy_rd (toy_setup [7]) None None w with
                 | Ok (w1, _, _) => match conn.heap (w_conn w1) !! 0%nat with Some _ => true | None => false end
                 | _ => false end = true) by (vm_compute; reflexivity).
    rewrite E in Hb. destruct (conn.heap (w_conn w') !! 0%nat); [by eexists|done].
  - apply not_elem_of_dom. reflexivity.
  - exists w', pkt. split; [exact Hs|exact Ha].
Defined.

(** TREE_CONNECT and then CLOSE, on a connection that did nothing before. *)
Lemma sessionless_tree_panics_witness :
  exists w', @Run_step toy_lib toy_ber toy_cfg (@tree_op toy_lib toy_cfg 9) toy_rd toy_close None None w' = Panic.
Proof.
  set (c := toy_file_conn None).
  set (w := mkWorld (ServerNegotiator.mk false 0 None) [] c toy_tables {[4 := toy_fs]} ∅ [] ∅ 0x10000).
  exists w.
  apply (@sessionless_tree_panics toy_lib toy_ber toy_cfg 9 toy_rd toy_close None w SMB2_CLOSE 5 7 1 0 4 3%nat
    (toy_tree_conn None)).
  - vm_compute. reflexivity.
  - apply list_elem_of_In. right. left. reflexivity.
  - vm_compute. reflexivity.
  - vm_compute. reflexivity.
  - vm_compute. reflexivity.
  - vm_compute. reflexivity.
  - reflexivity.
  - reflexivity.
  - reflexivity.
  - reflexivity.
Defined.
