(* ===== verification/Login.v ===== *)
(** * Who gets a session

    The server of FileServer with the authentication mechanism of NtlmAuth:
    in every state that it reaches, a packet that makes a session carries the
    proof of a password for the last challenge. *)

From S2P Require Import Prelude Digest Ntlm NtlmAuth Const Packet Utf16 Paths Request Dtyp Vfs Opens.
From S2P Require Import Response Session Compound Conn SpnegoToken Spnego Handlers TreeState FileTree FileServer.

(** ** What the server keeps of its authenticators

    A property of authenticators that their own methods keep is kept by the
    whole server. *)

Section auths.
Context `{GoLib, Ber} (cfg : server_config) (fuel : nat) (Q : Authenticator -> Prop).

Definition method_closed : Prop :=
  forall a tok, Q a ->
    Q (au_set a (snd (au_challenge a tok (au_state a))))
    /\ Q (au_set a (snd (au_authenticate a tok (au_state a)))).

Hypothesis closed : method_closed.

Lemma call_auths {A} (f : forall a : Authenticator, au_St a -> outcome A * au_St a) c heap :
  (forall a, Q a -> Q (au_set a (snd (f a (au_state a))))) ->
  Forall Q heap -> Forall Q (snd (spnegoServer.call f c heap)).
Proof.
  intros Hf Hh. unfold spnegoServer.call. destruct (spnegoServer.selectedMech c) as [m|]; [|done].
  destruct (heap !! m) as [a|] eqn:Ha; [|done]. pose proof (Forall_lookup_1 _ _ _ _ Hh Ha) as Hq.
  apply Hf in Hq. destruct (f a (au_state a)). cbn [snd] in *. by apply Forall_insert.
Qed.

Ltac run_call :=
  match goal with
  | |- context [spnegoServer.call ?f ?c ?h] =>
      let Hc := fresh in
      assert (Hc : Forall Q (snd (spnegoServer.call f c h)))
        by (apply call_auths; [|done]; intros a Ha; cbv beta;
            first [exact (proj1 (closed a _ Ha)) | exact (proj2 (closed a _ Ha))]);
      destruct (spnegoServer.call f c h); cbn [snd] in *
  end.

Lemma challenge_auths tok c heap :
  Forall Q heap -> Forall Q (snd (spnegoServer.challenge tok c heap)).
Proof.
  intros Hh. unfold spnegoServer.challenge. cbv zeta. destruct (HasPrefix tok ntlmssp).
  - destruct (spnegoServer.selectedMech _); [|done]. by run_call.
  - destruct (DecodeNegTokenInit tok) as [init| |]; [|done..]. destruct (spnegoServer.selectedMech _); [|done]. by run_call.
Qed.

Lemma authenticate_auths tok c heap :
  Forall Q heap -> Forall Q (snd (spnegoServer.authenticate tok c heap)).
Proof.
  intros Hh. unfold spnegoServer.authenticate. cbv zeta. destruct (HasPrefix tok ntlmssp); [by run_call|].
  destruct (DecodeNegTokenResp tok) as [resp| |]; [|done..]. by run_call.
Qed.

Abbreviation keeps_auths w w' := (Forall Q (w_auths w) -> Forall Q (w_auths w')).

Lemma send_auths rd req tc w w' e : send rd req tc w = Ok (w', e) -> w_auths w' = w_auths w.
Proof. intros Hs. by apply send_tables in Hs as (_ & _ & ?). Qed.

Ltac same_auths Hr :=
  follow Hr;
  first
  [ exact (send_auths _ _ _ _ _ _ Hr)
  | match goal with Hs : send _ _ _ _ = Ok _ |- _ => apply send_auths in Hs end;
    injection Hr as <- <-; assumption
  | injection Hr as <- <-; done
  | idtac ].

Lemma answer_negotiate_auths rd pkt tok w w' e :
  answer_negotiate cfg rd pkt tok w = Ok (w', e) -> w_auths w' = w_auths w.
Proof. unfold answer_negotiate. intros Hr. same_auths Hr. Qed.
Lemma negotiate_auths rd pkt w w' e : negotiate cfg rd pkt w = Ok (w', e) -> w_auths w' = w_auths w.
Proof.
  unfold negotiate, neg_negotiate. intros Hr. same_auths Hr.
  all: by apply answer_negotiate_auths in Hr.
Qed.
Lemma treeConnect_auths rd pkt w w' e : treeConnect cfg rd pkt w = Ok (w', e) -> w_auths w' = w_auths w.
Proof. unfold treeConnect. intros Hr. same_auths Hr. Qed.
Lemma treeDisconnect_auths rd pkt w w' e : treeDisconnect rd pkt w = Ok (w', e) -> w_auths w' = w_auths w.
Proof. unfold treeDisconnect. intros Hr. same_auths Hr. Qed.
Lemma logoff_auths rd pkt w w' e : logoff rd pkt w = Ok (w', e) -> w_auths w' = w_auths w.
Proof. unfold logoff. intros Hr. same_auths Hr. Qed.
Lemma echo_auths rd pkt w w' e : echo rd pkt w = Ok (w', e) -> w_auths w' = w_auths w.
Proof. unfold echo. intros Hr. same_auths Hr. Qed.

(** SESSION_SETUP leaves the authenticators or lets one of them run. *)
Ltac setup_auths Hr Hq :=
  follow Hr; cbv beta zeta in Hr; cbn [obind] in Hr;
  repeat match goal with
  | E : spnegoServer.challenge ?t ?c ?h = (_, _, _) |- _ =>
      let F := fresh in pose proof (challenge_auths t c h) as F; rewrite E in F; clear E
  | E : spnegoServer.authenticate ?t ?c ?h = (_, _, _) |- _ =>
      let F := fresh in pose proof (authenticate_auths t c h) as F; rewrite E in F; clear E
  | Hs : send _ _ _ _ = Ok _ |- _ => apply send_auths in Hs
  end;
  try (injection Hr as <- <-); cbn [w_auths set_conn];
  repeat match goal with Hs : w_auths _ = w_auths _ |- _ => rewrite Hs; clear Hs end;
  first [exact Hq | match goal with F : _ -> Forall Q _ |- _ => exact (F Hq) end].

Lemma sessionServerSetup_auths rd pkt w w' e :
  sessionServerSetup rd pkt w = Ok (w', e) -> Forall Q (w_auths w) -> Forall Q (w_auths w').
Proof. unfold sessionServerSetup. intros Hr Hq. setup_auths Hr Hq. Qed.

Lemma sessionServerSetupChallenge_auths rd pkt w w' e :
  sessionServerSetupChallenge cfg rd pkt w = Ok (w', e) -> Forall Q (w_auths w) -> Forall Q (w_auths w').
Proof. unfold sessionServerSetupChallenge. intros Hr Hq. setup_auths Hr Hq. Qed.

Lemma sessionSetup_auths rd pkt w w' e :
  sessionSetup cfg rd pkt w = Ok (w', e) -> Forall Q (w_auths w) -> Forall Q (w_auths w').
Proof.
  unfold sessionSetup. set (c0 := if conn.useSession _ then _ else _). clearbody c0. intros Hr Hq.
  destruct (conn.serverState c0).
  - by eapply sessionServerSetup_auths.
  - by eapply sessionServerSetupChallenge_auths.
  - by eapply sessionServerSetupChallenge_auths.
  - by injection Hr as <- <-.
Qed.

Lemma Run_step_auths rd pkt rs cc w w' cc' err :
  Run_step cfg (tree_op cfg fuel) rd pkt rs cc w = Ok (w', cc', err) ->
  Forall Q (w_auths w) -> Forall Q (w_auths w').
Proof.
  intros Hr Hq. unfold Run_step in Hr. set (w1 := match rs with Some p => _ | None => w end) in Hr.
  assert (Hw1 : w_auths w1 = w_auths w) by (unfold w1; by destruct rs).
  clearbody w1. rewrite <- Hw1 in Hq. clear Hw1. unfold without_ctx in Hr. follow Hr.
  all: try match goal with
       | E : negotiate _ _ _ _ = Ok _ |- _ => apply negotiate_auths in E; injection Hr as <- _ _; by rewrite E
       | E : sessionSetup _ _ _ _ = Ok _ |- _ =>
           apply sessionSetup_auths in E; [injection Hr as <- _ _; exact E|exact Hq]
       | E : logoff _ _ _ = Ok _ |- _ => apply logoff_auths in E; injection Hr as <- _ _; by rewrite E
       | E : treeConnect _ _ _ _ = Ok _ |- _ => apply treeConnect_auths in E; injection Hr as <- _ _; by rewrite E
       | E : treeDisconnect _ _ _ = Ok _ |- _ => apply treeDisconnect_auths in E; injection Hr as <- _ _; by rewrite E
       | E : echo _ _ _ = Ok _ |- _ => apply echo_auths in E; injection Hr as <- _ _; by rewrite E
       end.
  all: try (injection Hr as <- _ _; done).
  apply tree_op_steps in Hr as [_ Ha]. by rewrite Ha.
Qed.

Lemma server_step_auths fresh w w' :
  server_step cfg fuel fresh w w' -> Forall Q (w_auths w) -> Forall Q (w_auths w').
Proof.
  intros Hst Hq. destruct Hst as [rd pkt rs cc w' cc' err Hf Hr|rd cc i w' Hr|node].
  - by eapply Run_step_auths.
  - apply schedule_steps in Hr as [_ Ha]. by rewrite Ha.
  - done.
Qed.

End auths.

(** ** Sessions and passwords *)

Section login.
Context `{GoLib, Ber, NtlmLib} (clock : nat -> Z) (rand : nat -> outcome bytes).
Context (cfg : server_config) (fuel : nat).

(** [rand.Read] fills the buffer of a challenge, or fails. *)
Hypothesis rand_fills : forall n b, rand n = Ok b -> blen b = 8.

(** [pkt] is a SESSION_SETUP that comes in the second leg of a session setup
    of the server in the state [w], and its token proves the password of an
    account: it answers the challenge of an authenticator of that server. *)
Definition proves_password (users : gmap gostring gostring) (guest : bool) (pkt : slice) (w : world) : Prop :=
  PacketCodec.Command pkt = Ok SMB2_SESSION_SETUP
  /\ (conn.serverState (w_conn w) = STATE_SESSION_SETUP
      \/ conn.serverState (w_conn w) = STATE_SESSION_SETUP_CHALLENGE)
  /\ exists tok user, setup_token pkt tok /\ logged_in clock rand users guest (w_auths w) tok user.

Lemma authenticated_proves users guest pkt w :
  Forall (ntlm_auth clock rand users guest) (w_auths w) -> authenticated pkt w ->
  proves_password users guest pkt w.
Proof.
  intros Hau (Hc & Hst & tok & user & Ht & Hacc). split; [done|]. split; [done|]. exists tok, user.
  split; [done|]. by eapply accepted_by_ntlm.
Qed.

(** The authenticators stay NTLM authenticators for the accounts. *)
Lemma run_auths users guest fresh w0 w :
  Forall (ntlm_auth clock rand users guest) (w_auths w0) -> rtc (server_step cfg fuel fresh) w0 w ->
  Forall (ntlm_auth clock rand users guest) (w_auths w).
Proof.
  intros Ha Hrun. induction Hrun as [w|w w1 w' Hst _ IH]; [done|]. apply IH.
  eapply server_step_auths; [|exact Hst|exact Ha]. intros a tok. by apply ntlm_auth_methods.
Qed.

(** C2: a session needs a password.  Take any state [w] of a server that
    started with NTLM authenticators for the accounts [users]: requests of
    any kind in any order were handled, compounds, goroutines and oplock
    breaks among them, and earlier logins.  When it handles a packet, either
    every session afterwards is one that was there before, with the same id,
    flags and keys, or that very packet is a SESSION_SETUP in the second leg
    of a session setup, and its token carries a user with an account (or
    guests are allowed) together with the HMAC, under the key derived from
    that user's password, of the challenge that an authenticator of this
    server drew from the random source and sent last.  Neither a goroutine
    nor an oplock break makes or changes a session. *)
Theorem session_needs_password (users : gmap gostring gostring) (guest fresh : bool) (w0 w : world) :
  Forall (ntlm_auth clock rand users guest) (w_auths w0) -> rtc (server_step cfg fuel fresh) w0 w ->
  (forall rd pkt rs cc w' cc' err,
     Run_step cfg (tree_op cfg fuel) rd pkt rs cc w = Ok (w', cc', err) ->
     no_new_session (w_conn w) (w_conn w') \/ proves_password users guest pkt w)
  /\ (forall rd cc i w', schedule rd cc i w = Ok w' -> no_new_session (w_conn w) (w_conn w'))
  /\ (forall node, no_new_session (w_conn w) (w_conn (set_server (fst (Server.BreakNode node (w_server w))) w))).
Proof.
  intros Ha Hrun. pose proof (run_auths _ _ _ _ _ Ha Hrun) as Hau. split_and!; [|intros rd cc i w' Hr|done].
  - intros rd pkt rs cc w' cc' err Hr.
    destruct (Run_step_parts _ _ _ _ _ _ _ _ _ _ (tree_op_frames cfg fuel) Hr) as [_ [Hn|Hs]]; [by left|].
    right. by apply authenticated_proves.
  - by apply schedule_steps in Hr as [[(Hn & _)%same_tables_parts _] _].
Qed.

End login.

(** ** Concrete checks *)

Definition toy_clock (n : nat) : Z := Z.of_nat n.
Definition toy_rand (n : nat) : outcome bytes := Ok (repeat (Z.of_nat n) 8).
Definition toy_accounts : gmap gostring gostring := {[ toy_user := [0x70; 0x77] ]}.
Definition toy_mech : NTLMAuthenticator.t :=
  NTLMAuthenticator.mk toy_accounts [] [] [] [] [] false None 0 0.

(** The mechanism after its challenge, and the client's answer. *)
Definition toy_mech1 : NTLMAuthenticator.t :=
  snd (NTLMAuthenticator.challenge toy_clock toy_rand negotiate_msg toy_mech).
Definition toy_answer : bytes :=
  match fst (NTLMAuthenticator.challenge toy_clock toy_rand negotiate_msg toy_mech) with
  | Ok cmsg =>
      match fst (@ntlm.Client.Authenticate toy_ntlm 0 (Ok (repeat 4 8)) (Ok (repeat 5 16)) (of_bytes cmsg)
                   (ntlm.Client.set_nmsg negotiate_msg toy_client)) with
      | Ok amsg => amsg
      | _ => []
      end
  | _ => []
  end.

Definition toy_login_world : world :=
  mkWorld (ServerNegotiator.mk false 0 (Some (spnegoServer.mk [0%nat] [NlmpOid] (Some 0%nat))))
    [@NTLMAuthenticator.asAuthenticator toy_ntlm toy_clock toy_rand toy_mech1]
    (new_conn STATE_SESSION_SETUP_CHALLENGE) Server.NewServer ∅ ∅ [] ∅ 0x10000.

Definition toy_login : outcome (world * option compoundContext.t * option goerr) :=
  @Run_step toy_lib toy_ber toy_cfg (@tree_op toy_lib toy_cfg 9) toy_rd (toy_setup toy_answer) None None
    toy_login_world.

Lemma toy_login_ok :
  match toy_login with
  | Ok (w1, _, _) => match conn.heap (w_conn w1) !! 0%nat with Some _ => true | None => false end
  | _ => false
  end = true.
Proof. vm_compute. reflexivity. Qed.

Lemma toy_rand_fills n b : toy_rand n = Ok b -> blen b = 8.
Proof. intros [= <-]. reflexivity. Qed.

Lemma toy_mech1_auth :
  @ntlm_auth toy_ntlm toy_clock toy_rand toy_accounts false
    (@NTLMAuthenticator.asAuthenticator toy_ntlm toy_clock toy_rand toy_mech1).
Proof.
  exists toy_mech1. split; [reflexivity|]. split; [apply challenge_wf, toy_rand_fills|]. unfold toy_mech1.
  by destruct (challenge_config toy_clock toy_rand negotiate_msg toy_mech) as [-> ->].
Qed.

(** The second leg of a login with the right password makes a session. *)
Lemma session_needs_password_witness :
  exists w' cc' err, toy_login = Ok (w', cc', err)
    /\ (exists s, conn.heap (w_conn w') !! 0%nat = Some s)
    /\ @proves_password toy_ber toy_ntlm toy_clock toy_rand toy_accounts false (toy_setup toy_answer) toy_login_world.
Proof.
  pose proof toy_login_ok as Hk. destruct toy_login as [[[w' cc'] err]| |] eqn:E; [|discriminate Hk..].
  exists w', cc', err. split; [reflexivity|]. unfold toy_login in E.
  destruct (conn.heap (w_conn w') !! 0%nat) as [s|] eqn:Hs; [|discriminate Hk]. split; [by exists s|].
  destruct (@session_needs_password toy_lib toy_ber toy_ntlm toy_clock toy_rand toy_cfg 9 toy_rand_fills
    toy_accounts false true toy_login_world toy_login_world) as (Hstep & _).
  - apply Forall_singleton. exact toy_mech1_auth.
  - apply rtc_refl.
  - destruct (Hstep _ _ _ _ _ _ _ E) as [Hn|Hp]; [|exact Hp]. exfalso.
    destruct (no_new_session_lookup _ _ _ _ Hn Hs) as (s0 & H0 & _). discriminate H0.
Defined.
